(* ===== verification/_CoqProject ===== *)
-Q . S2P
Prelude.v
Money.v
Db.v
AuditTrail.v
Clock.v
Strings.v
Wallet.v
WalletFacts.v
Coupons.v
CouponFacts.v
Ledger.v
WalletLedger.v
OrderPayments.v
OrderPaymentsFacts.v
OrderFsm.v
OrderFsmFacts.v
Fees.v
Tax.v
TaxFacts.v
Decimals.v
Payments.v
PaymentsFacts.v
CartDb.v
Carts.v
CartFacts.v
Tabs.v
TabFacts.v
Floor.v
FloorFacts.v
Outbox.v
OutboxFacts.v
Sla.v
SlaFacts.v
GiftCards.v
GiftCardFacts.v
CashDrawer.v
Cod.v
Floats.v
InventoryDb.v
Inventory.v
InventoryFacts.v
StockClosing.v
StockClosingFacts.v
Purchasing.v
PurchasingFacts.v
Batching.v
BatchingFacts.v
Scoring.v
Notify.v
Loyalty.v
LoyaltyFacts.v
Fleet.v
FleetFacts.v
Optimizer.v
Dispatch.v
DispatchFacts.v
FleetCases.v
Idempotency.v
Staff.v
StaffFacts.v
Attendance.v
AttendanceFacts.v
KitchenDb.v
Kitchen.v
KitchenFlow.v
KitchenFacts.v
KitchenFlowFacts.v
KitchenCases.v
Transfers.v
TransferFacts.v
Complaints.v
ComplaintFacts.v
MarketingDb.v
Segments.v
Marketing.v
Templates.v
Automations.v
MarketingFacts.v
CampaignFacts.v
MarketingCases.v
