(* ===== verification/Prelude.v ===== *)
(** * Full-POS: a verification library for the money path of the platform

    The repository is a multi-tenant restaurant platform: a FastAPI application under
    [src/src/app] with one package per component, PostgreSQL behind SQLAlchemy, and
    Celery workers.  This development models the services that move money and the
    state machines and queues they hang on, in the order in which an order lives:
    it is priced, discounted and partly paid from store credit, confirmed, cooked
    against a deadline, delivered, collected and reconciled.

    ** How the model reads

    - A service function runs in its caller's database session.  It is a Rocq
      function in the monad [M S E] of this file: [S] is the record of the tables it
      uses, [E] its exceptions, one constructor per place that raises.  A raise keeps
      the writes made before it ([Err e s]), as the session does; committing or
      rolling back is the caller's ([GiftCards.request] models one router).
    - A table ([Db.table]) is its rows in insertion order and its id sequence; a query
      without an order returns insertion order.  Unique constraints are checks at the
      insertion, and are theorems elsewhere.
    - Money in a column is [Z] cents; a free [Decimal] is an exact rational and
      [Money.quantize] and [Money.ddiv] are its rounding (half even, 28 digits in a
      division).  Sums and products in memory stay below 28 digits, where the decimal
      context is exact.  An instant is [Z] microseconds UTC ([Clock]).
    - Components that call one another share a session through a [Lens], and [zoom]
      runs the callee in its own tables: an order's payment in the ledger and the
      coupons, the SLA monitor in the outbound queue and the coupons, a gift card in
      the payments and the wallet.
    - Code outside the repository is a parameter: the payment processor and the
      WhatsApp provider (functions of the call's number and arguments), SHA-256,
      random tokens, and the great-circle distance (floating-point trigonometry).

    ** The files

    - [Prelude]: the monad, lenses, sums over lists, tactics ([zbool], [inv_run]) and
      the hint database [pos].  [Money]: rounding and decimals.  [Db]: tables, with
      what an insertion or an update does to a query, a sum and a count.  [AuditTrail]
      ([audit/service.py]): audit rows and the field diff.  [Clock], [Strings],
      [Decimals]: dates, ASCII text, zero-padded numbers and their parsing.
    - [Wallet], [WalletFacts] ([wallet/]): the store-credit journal: credits, debits,
      holds, captures and releases under idempotency keys, freezing, the expiry and
      reconciliation jobs, the abuse control.  [ledger_step] is what one call may do
      to the journal; solvency and immutability are inductions over it, and an
      abstract account (balance and held amounts) is refined by every call.
    - [Ledger], [WalletLedger]: the interface [Ledger] is what an order's payment needs
      of store credit; [WalletLedger] shows that the wallet provides it.
    - [Coupons], [CouponFacts] ([coupons/]): apology and campaign coupons and the
      redemption ledger; limits over every history, the discount's closed form, the
      termination of the code draw (fuel: one more than the rows of the table, enough
      when the random tokens do not repeat).
    - [OrderPayments], [OrderPaymentsFacts] ([ordering/payments.py],
      [payments/billing.py]): the recomputation of an order's total, coupon and store
      credit at confirmation, settlement at delivery and cancellation, proved against
      the [Ledger] interface.
    - [OrderFsm], [OrderFsmFacts] ([ordering/fsm.py], [ordering/order_types.py],
      [realtime/hooks.py], the statistics of [ordering/service.py]): the status graph
      and the step through it with its effects.
    - [Fees] ([geo/fees.py], [ordering/fees.py], [dispatch/zones.py]): delivery fees by
      tier and zone.  [Tax], [TaxFacts] ([ordering/tax.py],
      [compliance/tax_settings.py]): VAT and the invoice's breakdown.
    - [Payments], [PaymentsFacts] ([payments/service.py]): tenders, refunds, credit
      notes, links, house accounts, settlement imports.  The credit-note retry has the
      code's five attempts; the first always succeeds.
    - [Outbox], [OutboxFacts] ([outbox/]): the outbound queue and its worker.  The
      Markdown conversion has the length of the text as fuel, each step consuming a
      character.
    - [CartDb], [Carts], [CartFacts] ([ordering/service.py]): drafts, their numbers and
      cart lines: adding, removing, setting quantities and notes, totals.  [Tabs],
      [TabFacts] ([ordering/service.py], [ordering/pos_orders.py],
      [ordering/duplicate.py]): cancellation, splitting by lines, merging and
      unmerging bills, rounds and reorders.  [Floor], [FloorFacts]
      ([tables/service.py]): dining tables, their joins, transfers and release when
      the tab is paid; a table's session is [zoom]ed into the carts.
    - [InventoryDb], [Inventory], [InventoryFacts] ([inventory/]): stock, batches
      consumed first expired first, substitutes, the consumption of an order's
      recipes, adjustments.  [StockClosing], [StockClosingFacts]: the daily closing.
      [Purchasing], [PurchasingFacts]: purchase orders, goods received and the blended
      cost.  Quantities are exact rationals with the columns' rounding.
    - [Sla], [SlaFacts] ([sla/monitor.py]): the monitor's tick, over the queue and the
      coupons.  [fires P m] composes the alerts a piece of the tick fires.
    - [GiftCards], [GiftCardFacts] ([giftcards/]); [CashDrawer] ([cashdrawer/]); [Cod]
      ([cod/]): the till and the rider's cash.
    - [Notify], [Loyalty], [LoyaltyFacts] ([whatsapp/templates.py], [loyalty/]): tiers
      with their rewards, earning and clawing back, stamp cards, points, favourites and
      referrals, over the wallet, the coupons, the statistics and the queue.
    - [Floats]: binary64, the [SpecFloat] of the Standard Library.  [Batching],
      [BatchingFacts] ([dispatch/batching.py], [dispatch/zones.py]): which ready orders
      one rider takes together; the nearest-first visit has the number of stops as fuel.
      [Scoring] ([dispatch/scoring.py], [dispatch/explain.py]): the ranking of riders and
      the stored explanations.  [Optimizer] ([dispatch/optimizer.py]): the plan around the
      vehicle routing solver, which is a parameter; [vrp_solves] is what the constraints
      handed to it say of an answer.
    - [Fleet], [FleetFacts] ([dispatch/], [identity/service.py]): the delivery state
      machine, runs and their stops, manual assignment, the rider's app, tracking, proof
      of delivery, riders.  [Dispatch], [DispatchFacts] ([dispatch/service.py],
      [dispatch/candidate_pool.py]): the order pool, the hold window, the greedy engine,
      the engine on the optimizer, the sweep; [fleet_step] is a step of the whole, and
      [fleet_ok] holds over every history.  [FleetCases]: a small town the theorems are
      applied to, and the orders the dispatcher forgets.
    - [Staff], [StaffFacts] ([staff/]): members, sign-in, PINs and approvals;
      [Attendance], [AttendanceFacts]: clock events, hours, shifts and tips.  Argon2 and
      the token library are parameters.
    - [KitchenDb], [Kitchen], [KitchenFlow] ([kds/], the kitchen part of
      [ordering/service.py]): stations and their wiring, tickets and print jobs, the
      boards; confirming, cooking, bumping and changing an order, over the fleet's
      session.  [KitchenFacts], [KitchenFlowFacts]: [kitchen_inv] over every history and
      the order-level steps.  [KitchenCases]: the boards, and a small kitchen.
    - [Transfers], [TransferFacts] ([organizations/stock_transfer_branch.py] and its
      neighbours): stock between branches.  [total_stock] is what is in the branches, on
      the road and lost on it.
    - [Complaints], [ComplaintFacts] ([tickets/]): complaints and their resolutions, over
      the kitchen's session, with the wallet and the queue in it.
    - [MarketingDb], [Segments], [Marketing], [Templates], [Automations] ([marketing/],
      [ordering/habits.py], the opt-out branch of [conversation/engine.py]): audiences,
      the gated send and the dispatcher of scheduled campaigns, the checks, names and life
      of a message template, the daily special and the six presets, over the loyalty
      session with its coupons and queue.  The search for a template's name has one more
      than the names in the way as fuel, which is enough: the suffixes differ.
      [MarketingFacts]: [marketing_event] is what managers, customers, the clock and the
      tasks do, and [marketing_history] any sequence of it.  [CampaignFacts]:
      single operations and the templates.  [MarketingCases]: a tavern with three guests.
    - [Idempotency] ([idempotency/middleware.py]): replayed requests, and two requests
      in flight as explicit steps.

    ** What is shown

    - Conservation: the wallet never goes below zero through its own calls, refunds
      and credit notes stay within what was charged, a gift card's balance and its
      tenders add up to what it was issued for, an order's total is the sum of its
      parts and never below its delivery fee, the invoice's breakdown adds up.
    - Idempotency: credits, redemptions, enqueues, collections and alerts happen once
      per key; an order gets at most one apology coupon; a link pays once.
    - Settlement: confirm then deliver takes exactly the held credit, confirm then
      cancel gives it back, for any implementation of the interface.
    - Progress and bounds: an order's history is finite and it can always be closed; a
      message is sent at most three times, its task always settles.
    - Plans: batching takes every order exactly once, within its cap, its internal
      target and, outside corridor mode, its readiness window; the optimizer's plan
      partitions its orders, and so does a greedy run, which leaves no rider idle while
      an order waits.
    - Deliveries: an order is in one run at most, with that run's rider; stops are ticked
      off with their orders; a code that is required was given; what a delivery settles.
    - Loyalty: the points of a member are the sum of their ledger, a tier is what the
      configuration says with its grace, earnings are clawed back whole, a referral
      pays once.
    - Carts and tabs: every cart edit refines an abstract count of units per line; a
      split keeps every unit and every fil; unmerging undoes a merge; a join leaves one
      invoice, joins never chain, and a paid tab frees its whole group of tables.
    - Stock: an order consumes the batches that expire first, takes no more of a
      substitute than there is, and records what nothing covers; receipts add up and
      complete the purchase order; a closing reads back as it was taken.
    - Staff: an approval names the manager whose PIN was entered; the attendance log
      refines an abstract clock (off, on, on a break).
    - Kitchen: a confirmed order's clock runs from that moment, the kitchen's ticket
      leaves no line without a station, the last bump makes the order ready, and stations,
      wiring, tickets and printers keep pointing at one another in every history.
    - Branches and complaints: stock sent between branches is neither made nor lost; a
      complaint is paid back once, and a free replacement is a confirmed order with
      nothing due.
    - Marketing: no phone gets more than two messages of a restaurant in 24 hours, nor any
      after it opted out; a campaign accounts for everyone in its audience; template names
      stay unique; the buckets split the customers.
    - Where the code falls short of its documentation the behaviour is proved as it is:
      the theorems at the end of the fact files, on concrete states.

    ** What is not modelled

    The lengths of text columns, foreign keys and the overflow of NUMERIC(8,2);
    concurrency and row locks (each call runs alone; the statements that guard races
    are modelled as the checks they are); texts of exceptions beyond what callers
    inspect; the audit trails of different components are separate.  Of the modelled
    components: read-only listings, the marketplace push and partner notifications
    (logs of the calls), message mirroring into conversations (a log), the text of
    invoices, [apply_order_discount].  Of the dispatcher: the upload of photo bytes, the
    rider's text commands, read-only views, the cache of the previews.  Of
    marketing: the writers over a language model, pictures, the one-line SMS, the
    providers' HTTP code and the conversion rate; the habit statistics and the driver's
    binding of JSON values are parameters.  Left out: rate limiting (its buckets live in
    Redis as the text of floating-point numbers, computed by a script there), the
    conversation engine and language models, catalog and marketplace synchronisation,
    menus, predictions, reports and the remaining HTTP routers, which call the services
    above or other systems. *)

From Stdlib Require Export ZArith QArith Lqa Lia Sorted.
From stdpp Require Export prelude strings pretty list gmap.

(** Integers are [Z] by default: ids, cents, counters and microseconds. *)
#[global] Open Scope Z_scope.

(** ** Notations *)

Declare Scope pos_scope.
Delimit Scope pos_scope with pos.

(** Boolean comparisons of free decimals (exact rationals). *)
Notation "x <=q y" := (Qle_bool x y) (at level 70) : pos_scope.
Notation "x <q y" := (negb (Qle_bool y x)) (at level 70) : pos_scope.
Notation "s1 =s s2" := (String.eqb s1 s2) (at level 70) : pos_scope.
#[global] Open Scope pos_scope.

#[global] Arguments String.append : simpl never.
#[global] Arguments pretty : simpl never.

(** ** Effects

    A service call of the code runs in the caller's database session: it reads
    and writes the session's rows, and it either returns or raises.  A raise does
    not undo the writes made before it (the caller decides whether to roll back),
    so the error outcome carries the state as well. *)

Inductive outcome (S E A : Type) : Type :=
| Ok (a : A) (s : S)
| Err (e : E) (s : S).
Arguments Ok {S E A} a s.
Arguments Err {S E A} e s.

Definition M (S E A : Type) : Type := S → outcome S E A.

#[global] Instance M_ret {S E} : MRet (M S E) := λ A a s, Ok a s.
#[global] Instance M_bind {S E} : MBind (M S E) := λ A B f m s,
  match m s with Ok a s' => f a s' | Err e s' => Err e s' end.

(** [raise e]: a Python [raise]. *)
Definition raise {S E A} (e : E) : M S E A := λ s, Err e s.
(** [gets f]: a read of the session; [modify f]: a write. *)
Definition gets {S E A} (f : S → A) : M S E A := λ s, Ok (f s) s.
Definition modify {S E} (f : S → S) : M S E unit := λ s, Ok tt (f s).
(** [try m h]: [try: m / except: h]. *)
Definition try_except {S E A} (m : M S E A) (h : E → M S E A) : M S E A :=
  λ s, match m s with Ok a s' => Ok a s' | Err e s' => h e s' end.

(** [atomically m]: one request of a router.  It commits when the call returns; when it
    raises, the session is closed and what it wrote is rolled back. *)
Definition atomically {S E A} (m : M S E A) : M S E A :=
  λ s, match m s with Ok a s' => Ok a s' | Err e _ => Err e s end.

(** [for_each f l]: a [for] loop run for its effects. *)
Fixpoint for_each {S E A} (f : A → M S E unit) (l : list A) : M S E unit :=
  match l with
  | [] => mret tt
  | x :: l' => f x ≫= λ _, for_each f l'
  end.

(** [for_fold f l a]: a [for] loop with an accumulator. *)
Fixpoint for_fold {S E A B} (f : A → B → M S E B) (l : list A) (b : B) : M S E B :=
  match l with
  | [] => mret b
  | x :: l' => b' ← f x b; for_fold f l' b'
  end.

(** The session a call leaves behind, whichever way it ended. *)
Definition final {S E A} (o : outcome S E A) : S :=
  match o with Ok _ s => s | Err _ s => s end.

Definition is_ok {S E A} (o : outcome S E A) : bool :=
  match o with Ok _ _ => true | Err _ _ => false end.

(** [value o]: what the call returned, if it returned. *)
Definition value {S E A} (o : outcome S E A) : option A :=
  match o with Ok a _ => Some a | Err _ _ => None end.
Definition error {S E A} (o : outcome S E A) : option E :=
  match o with Ok _ _ => None | Err e _ => Some e end.

(** *** Sub-sessions

    A component keeps its own tables; a client's session contains them.  A [Lens]
    embeds the one in the other, and [zoom] runs a component's call in the
    client's session, translating what it raises. *)
Class Lens (S T : Type) := {
  view : S → T;
  put : T → S → S;
  view_put t s : view (put t s) = t;
  put_view s : put (view s) s = s;
  put_put t t' s : put t (put t' s) = put t s;
}.

(** A component's component. *)
Program Definition lens_comp {S T U} (l : Lens S T) (k : Lens T U) : Lens S U := {|
  view s := view (view s);
  put u s := put (put u (view s)) s;
|}.
Next Obligation. intros S T U l k u s. cbn. by rewrite !view_put. Qed.
Next Obligation. intros S T U l k s. cbn. by rewrite !put_view. Qed.
Next Obligation. intros S T U l k u u' s. cbn. by rewrite view_put, !put_put. Qed.

Definition zoom {S T E E' A} `{Lens S T} (inj : E → E') (m : M T E A) : M S E' A :=
  λ s, match m (view s) with
       | Ok a t => Ok a (put t s)
       | Err e t => Err (inj e) (put t s)
       end.

(** *** Reasoning about calls *)

Section monad.
Context {S E : Type}.

Lemma bind_Ok {A B} (m : M S E A) (f : A → M S E B) s b s' :
  (m ≫= f) s = Ok b s' ↔ ∃ a s0, m s = Ok a s0 ∧ f a s0 = Ok b s'.
Proof.
  unfold mbind, M_bind. split.
  - destruct (m s) as [a s0|e s0]; [eauto|discriminate].
  - intros (a & s0 & -> & ?). done.
Qed.

Lemma bind_run_Ok {A B} (m : M S E A) (f : A → M S E B) s a s0 :
  m s = Ok a s0 → (m ≫= f) s = f a s0.
Proof. unfold mbind, M_bind. by intros ->. Qed.

Lemma bind_run_Err {A B} (m : M S E A) (f : A → M S E B) s e s0 :
  m s = Err e s0 → (m ≫= f) s = Err e s0.
Proof. unfold mbind, M_bind. by intros ->. Qed.

Lemma bind_final {A B} (m : M S E A) (f : A → M S E B) s :
  final ((m ≫= f) s) =
    match m s with Ok a s' => final (f a s') | Err _ s' => s' end.
Proof. unfold mbind, M_bind. by destruct (m s). Qed.

Lemma zoom_Ok {T E'} `{Lens T S} {A} (inj : E → E') (m : M S E A) (t : T) a t' :
  zoom inj m t = Ok a t' ↔ ∃ s', m (view t) = Ok a s' ∧ t' = put s' t.
Proof.
  unfold zoom. destruct (m (view t)) as [x s'|e s'].
  - split; [intros [= -> <-]; eauto | by intros (? & [= -> <-] & ->)].
  - split; [discriminate | by intros (? & ? & _)].
Qed.

(** A handler that only raises does not return. *)
Lemma try_raise_Ok {A} (m : M S E A) h s a s' :
  (∀ e s0, is_ok (h e s0) = false) → try_except m h s = Ok a s' → m s = Ok a s'.
Proof.
  intros Hh. unfold try_except. destruct (m s) as [b s0|e s0]; [done|]. intros Hr.
  specialize (Hh e s0). by rewrite Hr in Hh.
Qed.

(** A loop of plain writes. *)
Lemma for_each_modify {A} (F : A → S → S) (l : list A) s :
  for_each (E := E) (λ x, modify (F x)) l s = Ok tt (fold_left (λ s x, F x s) l s).
Proof. revert s. induction l as [|x l IH]; intros s; cbn; [done|]. apply IH. Qed.

(** An invariant of the session that a call keeps however it ends. *)
Definition preserves {A} (I : S → Prop) (m : M S E A) : Prop :=
  ∀ s, I s → I (final (m s)).

Lemma preserves_ret {A} I (a : A) : preserves I (mret a).
Proof. by intros s. Qed.
Lemma preserves_raise {A} I (e : E) : preserves (A := A) I (raise e).
Proof. by intros s. Qed.
Lemma preserves_gets {A} I (f : S → A) : preserves I (gets f).
Proof. by intros s. Qed.
Lemma preserves_modify I (f : S → S) :
  (∀ s, I s → I (f s)) → preserves I (modify f).
Proof. intros Hf s. apply Hf. Qed.
Lemma preserves_bind {A B} I (m : M S E A) (f : A → M S E B) :
  preserves I m → (∀ a, preserves I (f a)) → preserves I (m ≫= f).
Proof.
  intros Hm Hf s Hs. rewrite bind_final. specialize (Hm s Hs).
  destruct (m s) as [a s'|e s']; [by apply Hf|done].
Qed.
(** The continuation may use what the read returned. *)
Lemma preserves_bind_gets {A B} I (g : S → A) (f : A → M S E B) :
  (∀ s, I s → I (final (f (g s) s))) → preserves I (gets g ≫= f).
Proof. intros Hf s Hs. rewrite bind_final. by apply Hf. Qed.
Lemma preserves_atomically {A} I (m : M S E A) : preserves I m → preserves I (atomically m).
Proof. intros Hm s Hs. specialize (Hm s Hs). unfold atomically. by destruct (m s). Qed.
Lemma preserves_try {A} I (m : M S E A) (h : E → M S E A) :
  preserves I m → (∀ e, preserves I (h e)) → preserves I (try_except m h).
Proof.
  intros Hm Hh s Hs. specialize (Hm s Hs). unfold try_except. destruct (m s) as [a s'|e s']; [done|by apply Hh].
Qed.
Lemma preserves_for_each {A} I (f : A → M S E unit) l :
  (∀ a, a ∈ l → preserves I (f a)) → preserves I (for_each f l).
Proof.
  induction l as [|x l IH]; intros Hf; [apply preserves_ret|].
  apply preserves_bind; [apply Hf; set_solver|].
  intros _. apply IH. intros a Ha. apply Hf. set_solver.
Qed.
End monad.

(** *** Tactics *)

(** [case_run H]: split a call's run [H : m s = Ok _ _] at its next branch. *)
Ltac unfold_m :=
  repeat (unfold mbind, M_bind, mret, M_ret, raise, gets, modify in *; cbn beta iota in * ).

(** [inv_run]: invert every hypothesis [m s = Ok a s'] down to the branches taken. *)
Ltac inv_run :=
  repeat first
    [ progress simplify_eq/=
    | match goal with
      | H : (_ ≫= _) _ = Ok _ _ |- _ =>
          let a := fresh "r" in let s0 := fresh "st" in let E := fresh "Hrun" in
          apply bind_Ok in H as (a & s0 & E & H)
      | H : mret _ _ = Ok _ _ |- _ => unfold mret, M_ret in H; cbn beta in H
      | H : raise _ _ = Ok _ _ |- _ => discriminate H
      | H : gets _ _ = Ok _ _ |- _ => unfold gets in H; cbn beta in H
      | H : modify _ _ = Ok _ _ |- _ => unfold modify in H; cbn beta in H
      end ].

(** [inv_branch]: split the conditional or match a run hypothesis is stuck on. *)
Ltac inv_branch :=
  match goal with
  | H : (if ?b then _ else _) _ = Ok _ _ |- _ => destruct b eqn:?
  | H : (match ?x with _ => _ end) _ = Ok _ _ |- _ => destruct x eqn:?
  end; inv_run.

(** Booleans to propositions, for [lia]. *)
Ltac zbool :=
  repeat match goal with
  | H : (_ =? _) = true |- _ => apply Z.eqb_eq in H
  | H : (_ =? _) = false |- _ => apply Z.eqb_neq in H
  | H : (_ <? _) = true |- _ => apply Z.ltb_lt in H
  | H : (_ <? _) = false |- _ => apply Z.ltb_ge in H
  | H : (_ <=? _) = true |- _ => apply Z.leb_le in H
  | H : (_ <=? _) = false |- _ => apply Z.leb_gt in H
  | H : (_ && _)%bool = true |- _ => apply andb_true_iff in H as [? ?]
  | H : (_ || _)%bool = false |- _ => apply orb_false_iff in H as [? ?]
  | H : negb _ = true |- _ => apply negb_true_iff in H
  | H : negb _ = false |- _ => apply negb_false_iff in H
  | H : (_ =s _) = true |- _ => apply String.eqb_eq in H
  | H : (_ =s _) = false |- _ => apply String.eqb_neq in H
  | H : bool_decide _ = true |- _ => apply bool_decide_eq_true in H
  | H : bool_decide _ = false |- _ => apply bool_decide_eq_false in H
  end.

Create HintDb pos discriminated.
#[export] Hint Resolve preserves_ret preserves_raise preserves_gets : pos.

(** ** Lists *)

(** [zsum f l]: Python's [sum(f(x) for x in l)] over integers. *)
Fixpoint zsum {A} (f : A → Z) (l : list A) : Z :=
  match l with [] => 0 | x :: l' => f x + zsum f l' end.

Lemma zsum_app {A} (f : A → Z) l1 l2 : zsum f (l1 ++ l2) = zsum f l1 + zsum f l2.
Proof. induction l1 as [|x l1 IH]; cbn; lia. Qed.

Lemma zsum_ext {A} (f g : A → Z) l : (∀ x, x ∈ l → f x = g x) → zsum f l = zsum g l.
Proof.
  induction l as [|x l IH]; intros Hfg; [done|]. cbn.
  rewrite Hfg, IH; set_solver.
Qed.

Lemma zsum_nonneg {A} (f : A → Z) l : (∀ x, x ∈ l → 0 ≤ f x) → 0 ≤ zsum f l.
Proof.
  induction l as [|x l IH]; intros Hf; cbn; [lia|].
  assert (0 ≤ f x) by (apply Hf; set_solver).
  assert (0 ≤ zsum f l) by (apply IH; set_solver). lia.
Qed.

Lemma zsum_nonpos {A} (f : A → Z) l : (∀ x, x ∈ l → f x ≤ 0) → zsum f l ≤ 0.
Proof.
  induction l as [|x l IH]; intros Hf; cbn; [lia|].
  assert (f x ≤ 0) by (apply Hf; set_solver).
  assert (zsum f l ≤ 0) by (apply IH; set_solver). lia.
Qed.

Lemma zsum_add {A} (f g : A → Z) l : zsum (λ x, f x + g x) l = zsum f l + zsum g l.
Proof. induction l as [|x l IH]; cbn; lia. Qed.

Lemma zsum_const {A} (c : Z) (l : list A) : zsum (λ _, c) l = c * Z.of_nat (length l).
Proof. induction l as [|x l IH]; cbn; lia. Qed.

(** The order of the summands does not matter. *)
Lemma zsum_Permutation {A} (f : A → Z) l1 l2 : l1 ≡ₚ l2 → zsum f l1 = zsum f l2.
Proof. induction 1; cbn; lia. Qed.
Lemma zsum_fmap {A B} (g : A → B) (f : B → Z) l : zsum f (g <$> l) = zsum (λ x, f (g x)) l.
Proof. induction l as [|x l IH]; cbn; [done|]. by rewrite IH. Qed.

(** [count p l]: how many rows satisfy [p] (SQL [COUNT] under a [WHERE]). *)
Definition count {A} (p : A → bool) (l : list A) : Z := zsum (λ x, if p x then 1 else 0) l.

Lemma count_nonneg {A} (p : A → bool) l : 0 ≤ count p l.
Proof. apply zsum_nonneg. intros x _. by destruct (p x). Qed.

Lemma count_app {A} (p : A → bool) l1 l2 : count p (l1 ++ l2) = count p l1 + count p l2.
Proof. apply zsum_app. Qed.

(** Nothing is summed over rows that are not there. *)
Lemma zsum_count_zero {A} (p : A → bool) (f : A → Z) l :
  count p l ≤ 0 → zsum (λ x, if p x then f x else 0) l = 0.
Proof.
  unfold count. induction l as [|x l IH]; cbn; [done|].
  pose proof (count_nonneg p l) as Hn. unfold count in Hn.
  destruct (p x); intros Hc; [lia|]. rewrite IH; lia.
Qed.

(** [sort_by le l]: Python's stable [sorted], and SQL's [ORDER BY], under a boolean
    order on the keys. *)
Section sort_by.
Context {A : Type} (le : A → A → bool).

Fixpoint insert_by (x : A) (l : list A) : list A :=
  match l with
  | [] => [x]
  | y :: l' => if le x y then x :: y :: l' else y :: insert_by x l'
  end.
Fixpoint sort_by (l : list A) : list A :=
  match l with [] => [] | x :: l' => insert_by x (sort_by l') end.

Lemma insert_by_perm x l : insert_by x l ≡ₚ x :: l.
Proof.
  induction l as [|y l IH]; cbn; [done|]. destruct (le x y); [done|].
  rewrite IH. apply Permutation_swap.
Qed.
Lemma sort_by_perm l : sort_by l ≡ₚ l.
Proof. induction l as [|x l IH]; cbn; [done|]. by rewrite insert_by_perm, IH. Qed.
Lemma elem_of_sort_by x l : x ∈ sort_by l ↔ x ∈ l.
Proof. by rewrite sort_by_perm. Qed.

Context (le_total : ∀ x y, le x y = false → le y x = true).
Context (le_trans : ∀ x y z, le x y = true → le y z = true → le x z = true).

Lemma insert_by_sorted x l : StronglySorted le l → StronglySorted le (insert_by x l).
Proof.
  induction 1 as [|y l Hl IH Hy]; cbn; [repeat constructor|].
  destruct (le x y) eqn:Hxy.
  - repeat constructor; [done..|by rewrite Hxy|]. eapply Forall_impl; [exact Hy|].
    intros z Hyz. apply Is_true_true in Hyz. apply Is_true_true. eauto.
  - constructor; [done|]. rewrite insert_by_perm. constructor; [|done].
    apply Is_true_true. auto.
Qed.
Lemma sort_by_sorted l : StronglySorted le (sort_by l).
Proof. induction l; cbn; [constructor|by apply insert_by_sorted]. Qed.
End sort_by.
