(* ===== verification/Money.v ===== *)
(** * Money: Python's [Decimal] as the services use it

    A free [Decimal] (an argument, an intermediate product) is an exact rational
    [Q].  A quantized amount ([.quantize(Decimal("0.01"))], a [Numeric(_, 2)]
    column) is a whole number of cents, a [Z].  [quantize] is the default context
    rounding (ROUND_HALF_EVEN), [quantize_half_up] the tax module's
    ROUND_HALF_UP (ties away from zero). *)

From Stdlib Require Import Qabs.
From S2P Require Import Prelude.

(** [aed c]: the free decimal worth [c] cents. *)
Definition aed (c : Z) : Q := c # 100.

(** ** Rounding a fraction to an integer *)

(** ROUND_HALF_EVEN of [n / d], for [d > 0]. *)
Definition div_half_even (n d : Z) : Z :=
  let q := n / d in
  match (2 * (n mod d) ?= d) with
  | Lt => q
  | Gt => q + 1
  | Eq => if Z.even q then q else q + 1
  end.

(** ROUND_HALF_UP of [n / d] (ties away from zero), for [d > 0]. *)
Definition div_half_up (n d : Z) : Z :=
  if n <? 0 then - ((2 * (- n) + d) / (2 * d)) else (2 * n + d) / (2 * d).

(** [Decimal.quantize] with [k] units to the integer (cents: [k = 100]). *)
Definition quantize_to (k : Z) (x : Q) : Z := div_half_even (Qnum x * k) (Zpos (Qden x)).
Definition quantize (x : Q) : Z := quantize_to 100 x.
Definition quantize_half_up (x : Q) : Z :=
  div_half_up (Qnum x * 100) (Zpos (Qden x)).

(** [int(x)] of a Decimal: truncation towards zero. *)
Definition qtrunc (x : Q) : Z := Z.quot (Qnum x) (Zpos (Qden x)).

(** The decimal context: results of a division are rounded, half-even, to 28
    significant digits.  [digits n] counts the decimal digits of [n]. *)
Fixpoint digits_fuel (fuel : nat) (n : Z) : Z :=
  match fuel with
  | O => 0
  | S fuel' => if n <=? 0 then 0 else 1 + digits_fuel fuel' (n / 10)
  end.
Definition digits (n : Z) : Z := digits_fuel (S (Z.to_nat (Z.log2 n))) n.

(** The decimal exponent of [|x|]: the [a] with [10^a <= |x| < 10^(a+1)]. *)
Definition adjusted (x : Q) : Z :=
  let n := Z.abs (Qnum x) in
  let d := Zpos (Qden x) in
  if d <=? n then digits (n / d) - 1 else - digits ((d - 1) / n).

Definition ctx_prec : Z := 28.

Definition ctx_round (x : Q) : Q :=
  if Qnum x =? 0 then 0%Q
  else
    let e := ctx_prec - 1 - adjusted x in
    if 0 <=? e then
      (div_half_even (Qnum x * 10 ^ e) (Zpos (Qden x)) # Z.to_pos (10 ^ e))%Q
    else
      (div_half_even (Qnum x) (Zpos (Qden x) * 10 ^ (- e)) * 10 ^ (- e) # 1)%Q.

(** [Decimal.__truediv__] in the default context. *)
Definition ddiv (x y : Q) : Q := ctx_round (x / y).

(** ** [str] of a quantized amount *)

Definition two_digits (n : Z) : string :=
  if n <? 10 then "0" +:+ pretty n else pretty n.
Definition str_cents (c : Z) : string :=
  (if c <? 0 then "-" else "") +:+
  pretty (Z.abs c / 100) +:+ "." +:+ two_digits (Z.abs c mod 100).

(** A [NUMERIC(p, 2)] column takes amounts of fewer than [p] digits. *)
Definition numeric_fits (p : Z) (c : Z) : bool := Z.abs c <? 10 ^ p.

(** ** Laws of half-even rounding *)

(** [nearest_even q n d]: [q] is [n / d] rounded to nearest, ties to even. *)
Definition nearest_even (q n d : Z) : Prop :=
  2 * Z.abs (q * d - n) < d ∨ (2 * Z.abs (q * d - n) = d ∧ Z.even q = true).

Lemma even_succ_flip q : Z.even (q + 1) = negb (Z.even q).
Proof. rewrite Z.even_add. by destruct (Z.even q). Qed.

Lemma div_half_even_spec n d : 0 < d → nearest_even (div_half_even n d) n d.
Proof.
  intros Hd. unfold div_half_even, nearest_even.
  pose proof (Z.div_mod n d ltac:(lia)) as Hn.
  pose proof (Z.mod_pos_bound n d Hd) as Hr.
  set (q := n / d) in *. set (r := n mod d) in *.
  destruct (Z.compare_spec (2 * r) d).
  - destruct (Z.even q) eqn:Hq; right.
    + split; [|done]. nia.
    + rewrite even_succ_flip, Hq. split; [|done]. nia.
  - left. nia.
  - left. nia.
Qed.

Lemma nearest_even_unique q q' n d :
  0 < d → nearest_even q n d → nearest_even q' n d → q = q'.
Proof.
  intros Hd Hq Hq'.
  destruct (decide (q = q')) as [|Hne]; [done|exfalso].
  assert (∀ p, Z.even p = true → Z.even (p + 1) = true → False) as Hpar.
  { intros p Hp Hp1. rewrite even_succ_flip, Hp in Hp1. done. }
  assert (q = q' + 1 ∨ q' = q + 1 ∨ 2 ≤ q - q' ∨ 2 ≤ q' - q) as Hcase by lia.
  destruct Hq as [Hq|[Hq He]], Hq' as [Hq'|[Hq' He']];
    destruct Hcase as [->|[->|[Hc|Hc]]]; try nia; eauto.
Qed.

Lemma div_half_even_scale n d k :
  0 < d → 0 < k → div_half_even (n * k) (d * k) = div_half_even n d.
Proof.
  intros Hd Hk. apply (nearest_even_unique _ _ (n * k) (d * k)); [nia|by apply div_half_even_spec; nia|].
  pose proof (div_half_even_spec n d Hd) as Hs. set (q := div_half_even n d) in *.
  assert (Z.abs (q * (d * k) - n * k) = Z.abs (q * d - n) * k) as Heq.
  { replace (q * (d * k) - n * k) with ((q * d - n) * k) by ring.
    rewrite Z.abs_mul. lia. }
  destruct Hs as [Hs|[Hs He]]; [left|right; split; [|done]]; rewrite Heq; nia.
Qed.

Lemma div_half_even_mono n n' d :
  0 < d → n ≤ n' → div_half_even n d ≤ div_half_even n' d.
Proof.
  intros Hd Hn.
  pose proof (div_half_even_spec n d Hd) as Hs.
  pose proof (div_half_even_spec n' d Hd) as Hs'.
  set (q := div_half_even n d) in *. set (q' := div_half_even n' d) in *.
  destruct (decide (n = n')) as [->|]; [lia|].
  destruct (decide (q ≤ q')) as [|Hlt]; [done|exfalso].
  destruct Hs as [Hs|[Hs He]], Hs' as [Hs'|[Hs' He']]; nia.
Qed.

Lemma div_half_even_exact q d : 0 < d → div_half_even (q * d) d = q.
Proof.
  intros Hd. apply (nearest_even_unique _ _ (q * d) d); [done|by apply div_half_even_spec|].
  left. rewrite Z.sub_diag. cbn. lia.
Qed.

Lemma even_opp q : Z.even (- q) = Z.even q.
Proof. by rewrite Z.even_opp. Qed.

Lemma div_half_even_opp n d : 0 < d → div_half_even (- n) d = - div_half_even n d.
Proof.
  intros Hd. apply (nearest_even_unique _ _ (- n) d); [done|by apply div_half_even_spec|].
  pose proof (div_half_even_spec n d Hd) as Hs. set (q := div_half_even n d) in *.
  unfold nearest_even. replace (- q * d - - n) with (- (q * d - n)) by ring.
  rewrite Z.abs_opp, even_opp. done.
Qed.

Lemma div_half_even_add q n d :
  0 < d → Z.even q = true → div_half_even (q * d + n) d = q + div_half_even n d.
Proof.
  intros Hd Hq. apply (nearest_even_unique _ _ (q * d + n) d); [done|by apply div_half_even_spec|].
  pose proof (div_half_even_spec n d Hd) as Hs. set (p := div_half_even n d) in *.
  unfold nearest_even in *. replace ((q + p) * d - (q * d + n)) with (p * d - n) by ring.
  rewrite Z.even_add, Hq. by destruct (Z.even p).
Qed.

(** ** Laws of half-up rounding *)

Lemma div_half_up_error n d : 0 < d → 2 * Z.abs (div_half_up n d * d - n) ≤ d.
Proof.
  intros Hd. unfold div_half_up. case_match.
  - pose proof (Z.div_mod (2 * (- n) + d) (2 * d) ltac:(lia)).
    pose proof (Z.mod_pos_bound (2 * (- n) + d) (2 * d) ltac:(lia)). nia.
  - pose proof (Z.div_mod (2 * n + d) (2 * d) ltac:(lia)).
    pose proof (Z.mod_pos_bound (2 * n + d) (2 * d) ltac:(lia)). nia.
Qed.

Lemma div_half_up_exact q d : 0 < d → div_half_up (q * d) d = q.
Proof.
  intros Hd. pose proof (div_half_up_error (q * d) d Hd).
  set (p := div_half_up (q * d) d) in *. nia.
Qed.

Lemma div_half_up_nonneg n d : 0 < d → 0 ≤ n → 0 ≤ div_half_up n d.
Proof.
  intros Hd Hn. unfold div_half_up. case_match; zbool; [lia|].
  apply Z.div_pos; lia.
Qed.

Lemma div_half_up_mono n n' d :
  0 < d → 0 ≤ n → n ≤ n' → div_half_up n d ≤ div_half_up n' d.
Proof.
  intros Hd Hn Hle. unfold div_half_up.
  do 2 (case_match; zbool; [lia|]). apply Z.div_le_mono; lia.
Qed.

Lemma div_half_up_scale n d k :
  0 < d → 0 < k → div_half_up (n * k) (d * k) = div_half_up n d.
Proof.
  intros Hd Hk. unfold div_half_up.
  assert ((n * k <? 0) = (n <? 0)) as ->.
  { destruct (n <? 0) eqn:Hn; zbool; [apply Z.ltb_lt|apply Z.ltb_ge]; nia. }
  replace (2 * - (n * k) + d * k) with ((2 * - n + d) * k) by ring.
  replace (2 * (n * k) + d * k) with ((2 * n + d) * k) by ring.
  replace (2 * (d * k)) with (2 * d * k) by ring.
  rewrite !Z.div_mul_cancel_r by lia. done.
Qed.

(** ** [quantize] as a function of the decimal's value

    Two fractions of the same value are the same decimal: every operation on
    free decimals respects [==], which lets the components rewrite with it. *)

#[global] Instance quantize_to_proper k : Proper (Qeq ==> eq) (quantize_to k).
Proof.
  intros [n d] [n' d'] Heq. unfold Qeq in Heq; cbn in Heq.
  unfold quantize_to; cbn.
  rewrite <-(div_half_even_scale (n * k) (Zpos d) (Zpos d')) by lia.
  rewrite <-(div_half_even_scale (n' * k) (Zpos d') (Zpos d)) by lia.
  f_equal; [|lia]. transitivity (n * Zpos d' * k); [ring|]. rewrite Heq. ring.
Qed.
#[global] Instance quantize_proper : Proper (Qeq ==> eq) quantize.
Proof. intros x y Hxy. apply quantize_to_proper, Hxy. Qed.
#[global] Instance quantize_half_up_proper : Proper (Qeq ==> eq) quantize_half_up.
Proof.
  intros [n d] [n' d'] Heq. unfold Qeq in Heq; cbn in Heq.
  unfold quantize_half_up; cbn.
  rewrite <-(div_half_up_scale (n * 100) (Zpos d) (Zpos d')) by lia.
  rewrite <-(div_half_up_scale (n' * 100) (Zpos d') (Zpos d)) by lia.
  f_equal; [|lia]. transitivity (n * Zpos d' * 100); [ring|]. rewrite Heq. ring.
Qed.
#[global] Instance Qle_bool_proper' : Proper (Qeq ==> Qeq ==> eq) Qle_bool.
Proof.
  intros x y Hxy a b Hab. apply eq_true_iff_eq. rewrite !Qle_bool_iff.
  by rewrite Hxy, Hab.
Qed.

Lemma aed_0 : (aed 0 == 0)%Q.
Proof. done. Qed.

Lemma quantize_aed c : quantize (aed c) = c.
Proof. unfold quantize, quantize_to, aed; cbn. by apply div_half_even_exact. Qed.

Lemma quantize_opp x : quantize (- x) = - quantize x.
Proof.
  unfold quantize, quantize_to. destruct x as [n d]; cbn.
  rewrite Z.mul_opp_l. by apply div_half_even_opp.
Qed.

Lemma quantize_mono x y : (x <= y)%Q → quantize x ≤ quantize y.
Proof.
  destruct x as [n d], y as [n' d']. unfold Qle; cbn. intros Hle.
  unfold quantize, quantize_to; cbn.
  rewrite <-(div_half_even_scale (n * 100) (Zpos d) (Zpos d')) by lia.
  rewrite <-(div_half_even_scale (n' * 100) (Zpos d') (Zpos d)) by lia.
  replace (Zpos d' * Zpos d) with (Zpos d * Zpos d') by lia.
  apply div_half_even_mono; nia.
Qed.

Lemma quantize_le_aed x c : (x <= aed c)%Q → quantize x ≤ c.
Proof. intros H. rewrite <-(quantize_aed c). by apply quantize_mono. Qed.

Lemma aed_le_quantize x c : (aed c <= x)%Q → c ≤ quantize x.
Proof. intros H. rewrite <-(quantize_aed c). by apply quantize_mono. Qed.

Lemma quantize_nonneg x : (0 <= x)%Q → 0 ≤ quantize x.
Proof. intros H. apply aed_le_quantize. by rewrite aed_0. Qed.

Lemma quantize_half_up_aed c : quantize_half_up (aed c) = c.
Proof. unfold quantize_half_up, aed; cbn. by apply div_half_up_exact. Qed.

Lemma quantize_half_up_nonneg x : (0 <= x)%Q → 0 ≤ quantize_half_up x.
Proof.
  destruct x as [n d]. unfold Qle, quantize_half_up; cbn. intros H.
  apply div_half_up_nonneg; lia.
Qed.

Lemma aed_le c c' : (aed c <= aed c')%Q ↔ c ≤ c'.
Proof. unfold Qle, aed; cbn. nia. Qed.
Lemma aed_lt c c' : (aed c < aed c')%Q ↔ c < c'.
Proof. unfold Qlt, aed; cbn. lia. Qed.
Lemma aed_add c c' : (aed c + aed c' == aed (c + c'))%Q.
Proof. unfold Qeq, aed; cbn. lia. Qed.
Lemma aed_sub c c' : (aed c - aed c' == aed (c - c'))%Q.
Proof. unfold Qeq, aed; cbn. lia. Qed.
Lemma aed_opp c : (- aed c == aed (- c))%Q.
Proof. done. Qed.
Lemma aed_mul_int c k : (aed c * inject_Z k == aed (c * k))%Q.
Proof. unfold Qeq, aed; cbn. lia. Qed.

(** ** Boolean comparisons *)

Lemma qle_true x y : (x <=q y) = true ↔ (x <= y)%Q.
Proof. apply Qle_bool_iff. Qed.
Lemma qle_false x y : (x <=q y) = false ↔ (y < x)%Q.
Proof.
  rewrite <-not_true_iff_false, Qle_bool_iff. split; [apply Qnot_le_lt|apply Qlt_not_le].
Qed.
Lemma qle_aed c c' : (aed c <=q aed c') = (c <=? c').
Proof. apply eq_true_iff_eq. by rewrite qle_true, aed_le, Z.leb_le. Qed.

(** [qbool]: turn every boolean decimal comparison into an inequality on [Q]. *)
Ltac qbool :=
  repeat match goal with
  | H : negb _ = true |- _ => apply negb_true_iff in H
  | H : negb _ = false |- _ => apply negb_false_iff in H
  | H : (_ <=q _) = true |- _ => apply qle_true in H
  | H : (_ <=q _) = false |- _ => apply qle_false in H
  end.

#[export] Hint Resolve quantize_mono quantize_le_aed aed_le_quantize quantize_nonneg : pos.

(** ** The decimal context *)

Lemma digits_fuel_spec fuel m :
  0 < m < 2 ^ Z.of_nat fuel →
  0 < digits_fuel fuel m ∧ 10 ^ (digits_fuel fuel m - 1) ≤ m < 10 ^ digits_fuel fuel m.
Proof.
  revert m. induction fuel as [|fuel IH]; intros m [Hm Hlt]; [cbn in Hlt; lia|].
  cbn [digits_fuel]. rewrite (proj2 (Z.leb_gt m 0) Hm).
  rewrite Nat2Z.inj_succ, Z.pow_succ_r in Hlt by lia.
  destruct (decide (m < 10)) as [Hsm|Hbig].
  - rewrite Z.div_small by lia. assert (digits_fuel fuel 0 = 0) as -> by by destruct fuel.
    cbn. lia.
  - pose proof (Z.div_mod m 10 ltac:(lia)). pose proof (Z.mod_pos_bound m 10 ltac:(lia)).
    destruct (IH (m / 10)) as (Hd & Hlo & Hhi); [lia|].
    set (k := digits_fuel fuel (m / 10)) in *. split; [lia|].
    replace (1 + k - 1) with (Z.succ (k - 1)) by lia.
    replace (1 + k) with (Z.succ k) by lia.
    rewrite !Z.pow_succ_r by lia. lia.
Qed.

Lemma digits_spec m : 0 < m → 0 < digits m ∧ 10 ^ (digits m - 1) ≤ m < 10 ^ digits m.
Proof.
  intros Hm. apply digits_fuel_spec. split; [done|].
  pose proof (Z.log2_spec m Hm). pose proof (Z.log2_nonneg m).
  rewrite Nat2Z.inj_succ, Z2Nat.id by done. lia.
Qed.

(** [10^(adjusted x) <= |x|], cross-multiplied. *)
Lemma adjusted_lower x :
  Qnum x ≠ 0 →
  if 0 <=? adjusted x then 10 ^ adjusted x * Zpos (Qden x) ≤ Z.abs (Qnum x)
  else Zpos (Qden x) ≤ Z.abs (Qnum x) * 10 ^ (- adjusted x).
Proof.
  intros Hx. unfold adjusted. set (n := Z.abs (Qnum x)). set (d := Zpos (Qden x)).
  assert (0 < n) by lia. assert (0 < d) by lia.
  destruct (d <=? n) eqn:Hdn; zbool.
  - assert (0 < n / d) as Hq by (apply Z.div_str_pos; lia).
    destruct (digits_spec (n / d) Hq) as (Hd & Hlo & _).
    rewrite (proj2 (Z.leb_le _ _)) by lia.
    pose proof (Z.mul_div_le n d ltac:(lia)). nia.
  - destruct (decide (d - 1 < n)) as [Hs|Hs]; [|]; try lia.
    assert (0 < (d - 1) / n) as Hq by (apply Z.div_str_pos; lia).
    destruct (digits_spec _ Hq) as (Hd & _ & Hhi).
    rewrite (proj2 (Z.leb_gt _ _)) by lia. rewrite Z.opp_involutive.
    pose proof (Z.mul_succ_div_gt (d - 1) n ltac:(lia)). nia.
Qed.

(** Rounding a division result moves it by at most one part in [2 * 10^27]. *)
Lemma ctx_round_error x :
  (Qabs.Qabs (ctx_round x - x) * inject_Z (2 * 10 ^ 27) <= Qabs.Qabs x)%Q.
Proof.
  unfold ctx_round. destruct (Qnum x =? 0) eqn:Hz; zbool.
  { destruct x as [n d]; cbn in *; subst. unfold Qle; cbn. lia. }
  pose proof (adjusted_lower x Hz) as Hlow. set (a := adjusted x) in *.
  destruct x as [n d]; cbn in *. unfold ctx_prec.
  destruct (0 <=? 28 - 1 - a) eqn:He; zbool.
  - pose proof (div_half_even_spec (n * 10 ^ (28 - 1 - a)) (Zpos d) ltac:(lia)) as Hr.
    set (p := 10 ^ (28 - 1 - a)) in *. assert (0 < p) as Hp by (subst p; apply Z.pow_pos_nonneg; lia).
    set (r := div_half_even (n * p) (Zpos d)) in *.
    assert (2 * Z.abs (r * Zpos d - n * p) ≤ Zpos d) as Herr by (destruct Hr as [|[]]; lia).
    unfold Qle, Qabs.Qabs, Qminus, Qplus, Qopp, Qmult, inject_Z. cbn -[Z.mul Z.pow].
    rewrite !Pos2Z.inj_mul, !Z2Pos.id by done.
    replace (r * Zpos d + - n * p) with (r * Zpos d - n * p) by lia.
    set (err := Z.abs (r * Zpos d - n * p)) in *.
    assert (10 ^ 27 * Zpos d ≤ Z.abs n * p) as Hscale.
    { destruct (0 <=? a) eqn:Ha; zbool.
      - replace (10 ^ 27) with (p * 10 ^ a); [nia|].
        subst p. rewrite <-Z.pow_add_r by lia. f_equal; lia.
      - replace p with (10 ^ 27 * 10 ^ (- a)); [nia|].
        subst p. rewrite <-Z.pow_add_r by lia. f_equal; lia. }
    set (big := 10 ^ 27) in *. assert (0 < big) by (subst big; lia).
    assert (err * (2 * big) ≤ Zpos d * big) by nia. nia.
  - assert (28 ≤ a) as Ha' by lia. rewrite (proj2 (Z.leb_le 0 a)) in Hlow by lia.
    set (p := 10 ^ (- (28 - 1 - a))) in *.
    assert (0 < p) as Hp by (subst p; apply Z.pow_pos_nonneg; lia).
    pose proof (div_half_even_spec n (Zpos d * p) ltac:(lia)) as Hr.
    set (r := div_half_even n (Zpos d * p)) in *.
    assert (2 * Z.abs (r * (Zpos d * p) - n) ≤ Zpos d * p) as Herr by (destruct Hr as [|[]]; lia).
    unfold Qle, Qabs.Qabs, Qminus, Qplus, Qopp, Qmult, inject_Z. cbn -[Z.mul Z.pow].
    rewrite ?Pos2Z.inj_mul.
    replace (r * p * Zpos d + - n * 1) with (r * (Zpos d * p) - n) by lia.
    set (err := Z.abs (r * (Zpos d * p) - n)) in *.
    assert (10 ^ a = 10 ^ 27 * p) as Hpow.
    { subst p. rewrite <-Z.pow_add_r by lia. f_equal; lia. }
    rewrite Hpow in Hlow. set (big := 10 ^ 27) in *. assert (0 < big) by (subst big; lia).
    assert (err * (2 * big) ≤ Zpos d * p * big) by nia. nia.
Qed.

(** The context's rounding of a quotient is far below half a cent on any amount a
    column can hold. *)
Lemma ctx_round_close x :
  (0 <= x <= 10 ^ 10)%Q → (0 <= ctx_round x)%Q ∧ (x - (1 # 10000) <= ctx_round x <= x + (1 # 10000))%Q.
Proof.
  intros [H0 H1]. pose proof (ctx_round_error x) as He. rewrite (Qabs.Qabs_pos x H0) in He.
  set (c := ctx_round x) in *. change (inject_Z (2 * 10 ^ 27))%Q with (2000000000000000000000000000 # 1)%Q in He.
  change (10 ^ 10)%Q with (10000000000 # 1)%Q in H1.
  assert (Qabs.Qabs (c - x) <= x * (1 # 2000000000000000000000000000))%Q as He' by lra.
  apply Qabs.Qabs_Qle_condition in He'. lra.
Qed.

(** Quantizing moves a number by half a cent at most. *)
Lemma quantize_near x : (aed (quantize x) - (1 # 200) <= x <= aed (quantize x) + (1 # 200))%Q.
Proof.
  pose proof (div_half_even_spec (Qnum x * 100) (Zpos (Qden x)) ltac:(lia)) as Hn.
  unfold quantize, quantize_to. set (q := div_half_even _ _) in *.
  assert (2 * Z.abs (q * Zpos (Qden x) - Qnum x * 100) ≤ Zpos (Qden x)) as H by (destruct Hn; lia).
  destruct x as [n d]; unfold aed, Qle, Qminus, Qplus, Qopp; cbn -[Z.mul] in *. split; nia.
Qed.

(** A result of at most 28 significant digits is exact. *)
Lemma ctx_round_exact n k :
  0 ≤ k → Z.abs n < 10 ^ 28 → (ctx_round (n # Z.to_pos (10 ^ k)) == n # Z.to_pos (10 ^ k))%Q.
Proof.
  intros Hk Hn. assert (0 < 10 ^ k) as Hpk by (apply Z.pow_pos_nonneg; lia).
  unfold ctx_round. cbn [Qnum Qden]. destruct (n =? 0) eqn:Hz; zbool.
  { subst. unfold Qeq; cbn. lia. }
  pose proof (adjusted_lower (n # Z.to_pos (10 ^ k)) Hz) as Hlow.
  set (a := adjusted _) in *. cbn [Qnum Qden] in Hlow. rewrite Z2Pos.id in Hlow by done.
  assert (k ≤ 28 - 1 - a) as Hle.
  { cut (k + a < 28); [lia|]. apply Z.nle_gt. intros Hge.
    destruct (0 <=? a) eqn:Ha; zbool.
    - rewrite <-Z.pow_add_r in Hlow by lia.
      pose proof (Z.pow_le_mono_r 10 28 (a + k)). lia.
    - assert (10 ^ k = 10 ^ (k + a) * 10 ^ (- a)) as Heq.
      { rewrite <-Z.pow_add_r by lia. f_equal; lia. }
      pose proof (Z.pow_le_mono_r 10 28 (k + a)).
      assert (0 < 10 ^ (- a)) by (apply Z.pow_pos_nonneg; lia). nia. }
  unfold ctx_prec. rewrite (proj2 (Z.leb_le _ _)) by lia. rewrite Z2Pos.id by done.
  set (e := 28 - 1 - a) in *.
  assert (10 ^ e = 10 ^ (e - k) * 10 ^ k) as ->.
  { rewrite <-Z.pow_add_r by lia. f_equal; lia. }
  rewrite Z.mul_assoc, div_half_even_exact by done.
  assert (0 < 10 ^ (e - k)) by (apply Z.pow_pos_nonneg; lia).
  unfold Qeq; cbn [Qnum Qden]. rewrite !Z2Pos.id by nia. ring.
Qed.

(** ** Sums of free decimals *)

Fixpoint qtotal {A} (f : A → Q) (l : list A) : Q :=
  match l with [] => 0 | x :: l' => f x + qtotal f l' end%Q.

Lemma qtotal_Permutation {A} (f : A → Q) l1 l2 : l1 ≡ₚ l2 → (qtotal f l1 == qtotal f l2)%Q.
Proof. induction 1; cbn; lra. Qed.
Lemma qtotal_app {A} (f : A → Q) l1 l2 : (qtotal f (l1 ++ l2) == qtotal f l1 + qtotal f l2)%Q.
Proof. induction l1 as [|x l1 IH]; cbn; [lra|]. rewrite IH. lra. Qed.
Lemma qtotal_ext {A} (f g : A → Q) l :
  (∀ x, x ∈ l → (f x == g x)%Q) → (qtotal f l == qtotal g l)%Q.
Proof.
  induction l as [|x l IH]; intros Hfg; cbn; [lra|].
  rewrite (Hfg x), IH; [lra|set_solver|set_solver].
Qed.
Lemma qtotal_minus {A} (f g : A → Q) l : (qtotal (λ x, f x - g x) l == qtotal f l - qtotal g l)%Q.
Proof. induction l as [|x l IH]; cbn; [lra|]. rewrite IH. lra. Qed.
Lemma qtotal_filter {A} (p : A → bool) (f : A → Q) l :
  (qtotal f (List.filter p l) == qtotal (λ x, if p x then f x else 0) l)%Q.
Proof. induction l as [|x l IH]; cbn; [lra|]. destruct (p x); cbn; rewrite IH; lra. Qed.
Lemma qtotal_fmap {A B} (g : A → B) (f : B → Q) l : qtotal f (g <$> l) = qtotal (λ x, f (g x)) l.
Proof. induction l as [|x l IH]; cbn; [done|]. by rewrite IH. Qed.
Lemma qtotal_zero {A} (f : A → Q) l : (∀ x, x ∈ l → (f x == 0)%Q) → (qtotal f l == 0)%Q.
Proof.
  intros Hf. rewrite (qtotal_ext _ (λ _, 0%Q)) by done. clear. induction l; cbn; [lra|]. lra.
Qed.
Lemma qtotal_nonneg {A} (f : A → Q) l : (∀ x, x ∈ l → 0 <= f x)%Q → (0 <= qtotal f l)%Q.
Proof.
  induction l as [|x l IH]; intros Hf; cbn; [lra|].
  pose proof (Hf x ltac:(set_solver)). assert (0 <= qtotal f l)%Q by (apply IH; set_solver). lra.
Qed.

#[global] Arguments str_cents : simpl never.
#[global] Arguments two_digits : simpl never.
#[global] Arguments quantize : simpl never.
#[global] Arguments quantize_to : simpl never.
#[global] Arguments quantize_half_up : simpl never.
#[global] Arguments ddiv : simpl never.
#[global] Arguments aed : simpl never.
#[global] Arguments Qle_bool : simpl never.
