(* ===== verification/Db.v ===== *)
(** * Tables: the database session the services read and write

    A table is the list of its rows in insertion order with the next value of its
    id sequence.  [session.get] is [get_row], [session.scalar(select(...))] is
    [first_where], [session.scalars(...).all()] is [all_where], [func.sum] and
    [func.count] under a [WHERE] are [sum_where] and [count_where],
    [session.add] followed by [flush] is [add_row] (the row carries the next id),
    and an attribute assignment on a loaded object is [set_row].  Rows of an
    unordered query come in insertion order. *)

From S2P Require Import Prelude.

(** What a table needs of its rows: a primary key. *)
Class Row (R : Type) := row_id : R → Z.

Record table (R : Type) := Table { rows : list R; next_id : Z }.
Arguments Table {R} _ _.
Arguments rows {R} _.
Arguments next_id {R} _.

Definition empty_table {R} : table R := Table [] 1.

Section table.
Context {R : Type} `{Row R}.
Implicit Types (t : table R) (r : R) (p : R → bool) (f : R → Z).

Definition get_row (i : Z) (t : table R) : option R :=
  List.find (λ r, row_id r =? i) (rows t).
Definition first_where (p : R → bool) (t : table R) : option R := List.find p (rows t).
Definition all_where (p : R → bool) (t : table R) : list R := List.filter p (rows t).
Definition sum_where (p : R → bool) (f : R → Z) (t : table R) : Z :=
  zsum (λ r, if p r then f r else 0) (rows t).
Definition count_where (p : R → bool) (t : table R) : Z := count p (rows t).
Definition add_row (r : R) (t : table R) : table R :=
  Table (rows t ++ [r]) (next_id t + 1).
Definition set_row (r : R) (t : table R) : table R :=
  Table (map (λ r', if row_id r' =? row_id r then r else r') (rows t)) (next_id t).

(** [session.delete]: the row is gone, its id is not used again. *)
Definition del_row (i : Z) (t : table R) : table R :=
  Table (List.filter (λ r, negb (row_id r =? i)) (rows t)) (next_id t).

(** Ids are unique and below the sequence. *)
Record table_wf (t : table R) : Prop := {
  wf_unique : ∀ r1 r2, r1 ∈ rows t → r2 ∈ rows t → row_id r1 = row_id r2 → r1 = r2;
  wf_nodup : NoDup (rows t);
  wf_fresh : ∀ r, r ∈ rows t → row_id r < next_id t;
}.

(** A UNIQUE constraint on [key]. *)
Definition unique_on {K} (key : R → K) (t : table R) : Prop :=
  ∀ r1 r2, r1 ∈ rows t → r2 ∈ rows t → key r1 = key r2 → r1 = r2.

Lemma find_Some_in p (l : list R) r : List.find p l = Some r → r ∈ l ∧ p r = true.
Proof.
  intros Hf. apply List.find_some in Hf as [Hin Hp].
  split; [by apply list_elem_of_In|done].
Qed.
Lemma find_None_in p (l : list R) r : List.find p l = None → r ∈ l → p r = false.
Proof.
  intros Hf Hin. eapply List.find_none; [done|]. by apply list_elem_of_In.
Qed.

Lemma first_where_Some p t r : first_where p t = Some r → r ∈ rows t ∧ p r = true.
Proof. apply find_Some_in. Qed.
Lemma first_where_None p t : first_where p t = None ↔ ∀ r, r ∈ rows t → p r = false.
Proof.
  split; [intros ? ?; by apply find_None_in|]. unfold first_where.
  induction (rows t) as [|x l IH]; intros Hp; cbn; [done|].
  rewrite Hp by set_solver. apply IH. set_solver.
Qed.
Lemma get_row_Some i t r : get_row i t = Some r → r ∈ rows t ∧ row_id r = i.
Proof. intros Hg. apply find_Some_in in Hg as [Hin Hi]. by zbool. Qed.

(** A row that is the only one to satisfy [p] is what the query returns. *)
Lemma first_where_unique p t r :
  r ∈ rows t → p r = true → (∀ r', r' ∈ rows t → p r' = true → r' = r) →
  first_where p t = Some r.
Proof.
  intros Hin Hp Huniq. destruct (first_where p t) as [r'|] eqn:Hf.
  - apply first_where_Some in Hf as [Hin' Hp']. by rewrite (Huniq r').
  - rewrite first_where_None in Hf. specialize (Hf r Hin). congruence.
Qed.
Lemma get_row_wf t r : table_wf t → r ∈ rows t → get_row (row_id r) t = Some r.
Proof.
  intros Hwf Hin. apply (first_where_unique (λ r', row_id r' =? row_id r)); [done| |].
  - apply Z.eqb_refl.
  - intros r' Hin' Hid. zbool. by apply (wf_unique t Hwf).
Qed.

Lemma elem_of_all_where p t r : r ∈ all_where p t ↔ r ∈ rows t ∧ p r = true.
Proof. unfold all_where. rewrite !list_elem_of_In, List.filter_In. done. Qed.

Lemma elem_of_add_row r r' t : r' ∈ rows (add_row r t) ↔ r' ∈ rows t ∨ r' = r.
Proof. cbn. set_solver. Qed.
Lemma elem_of_set_row r r' t :
  r' ∈ rows (set_row r t) →
  (r' = r ∧ ∃ r0, r0 ∈ rows t ∧ row_id r0 = row_id r) ∨
  (r' ∈ rows t ∧ row_id r' ≠ row_id r).
Proof.
  cbn. rewrite list_elem_of_In, List.in_map_iff. intros (r0 & Heq & Hin).
  apply list_elem_of_In in Hin. destruct (row_id r0 =? row_id r) eqn:Hid; zbool; subst; eauto.
Qed.
Lemma elem_of_set_row_2 r r0 t :
  r0 ∈ rows t → (if row_id r0 =? row_id r then r else r0) ∈ rows (set_row r t).
Proof.
  intros Hin. cbn. apply list_elem_of_In, List.in_map_iff. exists r0.
  split; [done|]. by apply list_elem_of_In.
Qed.

Lemma next_id_add r t : next_id (add_row r t) = next_id t + 1.
Proof. done. Qed.
Lemma next_id_set r t : next_id (set_row r t) = next_id t.
Proof. done. Qed.

Lemma empty_table_wf : table_wf empty_table.
Proof. split; cbn; [set_solver|constructor|set_solver]. Qed.

(** A sufficient condition that evaluates: ids in increasing order below the sequence. *)
Fixpoint ids_increasing (l : list R) (bound : Z) : bool :=
  match l with
  | [] => true
  | r :: l' => (row_id r <? bound) &&
               match l' with [] => true | r' :: _ => row_id r <? row_id r' end && ids_increasing l' bound
  end.
Lemma ids_increasing_spec l bound :
  ids_increasing l bound = true → (∀ r, r ∈ l → row_id r < bound) ∧ NoDup (map row_id l).
Proof.
  intros Hi. cut ((∀ r, r ∈ l → row_id r < bound) ∧ NoDup (map row_id l) ∧
    match l with [] => True | r :: l' => ∀ r', r' ∈ l' → row_id r < row_id r' end); [tauto|].
  induction l as [|r l IH]; cbn in *; [split_and!; [set_solver|constructor|done]|].
  apply andb_true_iff in Hi as [[Hr Hn]%andb_true_iff Hl]. zbool. destruct (IH Hl) as (Hb & Hnd & Hinc).
  assert (Hlt : ∀ r', r' ∈ l → row_id r < row_id r').
  { destruct l as [|y l]; [set_solver|]. zbool. intros r' [->|Hr']%elem_of_cons; [done|].
    specialize (Hinc r' Hr'). lia. }
  split_and!; [intros r' [->|Hr']%elem_of_cons; auto| |done]. constructor; [|done].
  rewrite list_elem_of_In, List.in_map_iff. intros (r' & Heq & Hr'). apply list_elem_of_In in Hr'.
  specialize (Hlt r' Hr'). lia.
Qed.
Lemma table_wf_check t : ids_increasing (rows t) (next_id t) = true → table_wf t.
Proof.
  intros [Hb Hnd]%ids_increasing_spec.
  assert (Hu : ∀ r1 r2, r1 ∈ rows t → r2 ∈ rows t → row_id r1 = row_id r2 → r1 = r2).
  { clear Hb. induction (rows t) as [|x l IH]; [set_solver|]. cbn in Hnd. apply NoDup_cons in Hnd as [Hx Hnd].
    rewrite list_elem_of_In, List.in_map_iff in Hx.
    intros r1 r2 [->|H1]%elem_of_cons [->|H2]%elem_of_cons Hid; [done| | |by apply IH].
    - destruct Hx. exists r2. split; [done|]. by apply list_elem_of_In.
    - destruct Hx. exists r1. split; [done|]. by apply list_elem_of_In. }
  split; [done| |done]. apply NoDup_ListNoDup, (List.NoDup_map_inv row_id), NoDup_ListNoDup, Hnd.
Qed.

Lemma add_row_wf r t : table_wf t → row_id r = next_id t → table_wf (add_row r t).
Proof.
  intros [Hu Hn Hf] Hid. split.
  - intros r1 r2. rewrite !elem_of_add_row. intros [H1| ->] [H2| ->] Heq; [by apply Hu| | |done].
    + specialize (Hf r1 H1). lia.
    + specialize (Hf r2 H2). lia.
  - cbn. apply NoDup_app. split; [done|]. split; [|apply NoDup_singleton].
    intros x Hx Hx'. apply list_elem_of_singleton in Hx' as ->. specialize (Hf r Hx). lia.
  - intros r'. rewrite elem_of_add_row. cbn. intros [Hin| ->]; [specialize (Hf r' Hin)|]; lia.
Qed.

Lemma set_row_NoDup r (l : list R) :
  NoDup l → (∀ r1 r2, r1 ∈ l → r2 ∈ l → row_id r1 = row_id r2 → r1 = r2) →
  NoDup (map (λ r', if row_id r' =? row_id r then r else r') l).
Proof.
  induction 1 as [|x l Hx Hl IH]; intros Hu; cbn; [constructor|].
  constructor; [|apply IH; set_solver].
  rewrite list_elem_of_In, List.in_map_iff. intros (y & Heq & Hy).
  apply list_elem_of_In in Hy.
  destruct (row_id y =? row_id r) eqn:Hyr, (row_id x =? row_id r) eqn:Hxr; zbool; subst.
  - apply Hx. rewrite (Hu x y); [done|set_solver|set_solver|congruence].
  - done.
  - congruence.
  - done.
Qed.

Lemma set_row_wf r t : table_wf t → table_wf (set_row r t).
Proof.
  intros [Hu Hn Hf]. split.
  - intros r1 r2 H1 H2 Heq.
    apply elem_of_set_row in H1 as [[-> _]|[H1 N1]];
      apply elem_of_set_row in H2 as [[-> _]|[H2 N2]]; try congruence. by apply Hu.
  - by apply set_row_NoDup.
  - intros r' Hin. apply elem_of_set_row in Hin as [[-> (r0 & H0 & <-)]|[Hin _]]; cbn; auto.
Qed.

Lemma elem_of_del_row i r t : r ∈ rows (del_row i t) ↔ r ∈ rows t ∧ row_id r ≠ i.
Proof.
  cbn. rewrite !list_elem_of_In, List.filter_In, negb_true_iff, Z.eqb_neq. done.
Qed.
Lemma del_row_wf i t : table_wf t → table_wf (del_row i t).
Proof.
  intros [Hu Hn Hf]. split.
  - intros r1 r2 [H1 _]%elem_of_del_row [H2 _]%elem_of_del_row. by apply Hu.
  - cbn. apply NoDup_ListNoDup, List.NoDup_filter, NoDup_ListNoDup, Hn.
  - intros r [Hr _]%elem_of_del_row. by apply Hf.
Qed.

(** [delete(...).where(...)]. *)
Definition del_where (p : R → bool) (t : table R) : table R :=
  Table (List.filter (λ r, negb (p r)) (rows t)) (next_id t).
Lemma elem_of_del_where p r t : r ∈ rows (del_where p t) ↔ r ∈ rows t ∧ p r = false.
Proof. cbn. by rewrite !list_elem_of_In, List.filter_In, negb_true_iff. Qed.
Lemma del_where_wf p t : table_wf t → table_wf (del_where p t).
Proof.
  intros [Hu Hn Hf]. split.
  - intros r1 r2 [H1 _]%elem_of_del_where [H2 _]%elem_of_del_where. by apply Hu.
  - cbn. apply NoDup_ListNoDup, List.NoDup_filter, NoDup_ListNoDup. done.
  - intros r [Hr _]%elem_of_del_where. by apply Hf.
Qed.

Lemma add_row_unique {K} (key : R → K) r t :
  unique_on key t → (∀ r', r' ∈ rows t → key r' ≠ key r) → unique_on key (add_row r t).
Proof.
  intros Hu Hfresh r1 r2. rewrite !elem_of_add_row.
  intros [H1| ->] [H2| ->] Heq; [by apply Hu| | |done].
  - by destruct (Hfresh r1 H1).
  - by destruct (Hfresh r2 H2).
Qed.
Lemma set_row_unique {K} (key : R → K) r t :
  unique_on key t →
  (∀ r', r' ∈ rows t → row_id r' ≠ row_id r → key r' ≠ key r) →
  unique_on key (set_row r t).
Proof.
  intros Hu Hfresh r1 r2 H1 H2 Heq.
  apply elem_of_set_row in H1 as [[-> _]|[H1 N1]];
    apply elem_of_set_row in H2 as [[-> _]|[H2 N2]]; [done| | |by apply Hu].
  - by destruct (Hfresh r2 H2).
  - by destruct (Hfresh r1 H1).
Qed.

(** The effect of one insertion and of one update on a SUM. *)
Lemma sum_where_add p f r t :
  sum_where p f (add_row r t) = sum_where p f t + (if p r then f r else 0).
Proof. unfold sum_where. cbn. rewrite zsum_app. cbn. lia. Qed.

Lemma zsum_set (g : R → Z) r r0 (l : list R) :
  NoDup l → (∀ r1 r2, r1 ∈ l → r2 ∈ l → row_id r1 = row_id r2 → r1 = r2) →
  r0 ∈ l → row_id r0 = row_id r →
  zsum g (map (λ r', if row_id r' =? row_id r then r else r') l) = zsum g l - g r0 + g r.
Proof.
  induction 1 as [|x l Hx Hl IH]; intros Hu Hin Hid; [set_solver|]. cbn.
  destruct (row_id x =? row_id r) eqn:Hxr; zbool.
  - assert (x = r0) as -> by (apply Hu; [set_solver|done|congruence]).
    rewrite List.map_ext_in with (g := λ y, y); [rewrite List.map_id; lia|].
    intros y Hy. apply list_elem_of_In in Hy.
    destruct (row_id y =? row_id r) eqn:Hy'; [|done]. zbool.
    destruct Hx. rewrite (Hu r0 y); [done|set_solver|set_solver|congruence].
  - apply elem_of_cons in Hin as [->|Hin]; [done|].
    rewrite IH; [lia|set_solver|done|done].
Qed.

Lemma sum_where_set p f r r0 t :
  table_wf t → r0 ∈ rows t → row_id r0 = row_id r →
  sum_where p f (set_row r t) =
    sum_where p f t - (if p r0 then f r0 else 0) + (if p r then f r else 0).
Proof.
  intros Hwf Hin Hid. unfold sum_where. cbn.
  by rewrite (zsum_set _ r r0 (rows t) (wf_nodup t Hwf) (wf_unique t Hwf)).
Qed.

Lemma sum_where_del p f i r t :
  table_wf t → r ∈ rows t → row_id r = i →
  sum_where p f (del_row i t) = sum_where p f t - (if p r then f r else 0).
Proof.
  intros [Hu Hn _] Hr Hid. unfold sum_where, del_row; cbn.
  induction (rows t) as [|x l IH]; [set_solver|]. apply NoDup_cons in Hn as [Hx Hn]. cbn.
  apply elem_of_cons in Hr as [->|Hr].
  - rewrite (proj2 (Z.eqb_eq _ _) Hid). cbn.
    enough (List.filter (λ r, negb (row_id r =? i)) l = l) as -> by lia.
    clear IH. induction l as [|y l IH]; cbn; [done|]. apply NoDup_cons in Hn as [_ Hn].
    destruct (row_id y =? i) eqn:Hy; cbn; zbool.
    + destruct Hx. rewrite (Hu x y); [set_solver|set_solver|set_solver|congruence].
    + rewrite IH; [done|intros; apply Hu; set_solver|set_solver|done].
  - destruct (row_id x =? i) eqn:Hxi; cbn; zbool.
    + destruct Hx. rewrite (Hu x r); [done|set_solver|set_solver|congruence].
    + rewrite IH; [lia|set_solver|done|done].
Qed.

(** A SUM over the rows of a query. *)
Lemma sum_where_all p f t :
  sum_where p f t = zsum f (all_where p t).
Proof.
  unfold sum_where, all_where. induction (rows t) as [|x l IH]; cbn; [done|]. destruct (p x); cbn; lia.
Qed.

Lemma sum_where_none p f t : (∀ r, r ∈ rows t → p r = false) → sum_where p f t = 0.
Proof.
  unfold sum_where. induction (rows t) as [|r l IH]; cbn; [done|]. intros Hp. rewrite Hp by set_solver.
  rewrite IH; [done|set_solver].
Qed.

(** The sum over a query depends on the rows it selects only. *)
Lemma sum_where_same p f t t' :
  table_wf t → table_wf t' → (∀ r, p r = true → r ∈ rows t ↔ r ∈ rows t') →
  sum_where p f t = sum_where p f t'.
Proof.
  intros Hwf Hwf' Hsame. rewrite !sum_where_all. apply zsum_Permutation, NoDup_Permutation.
  - apply NoDup_ListNoDup, List.NoDup_filter, NoDup_ListNoDup, Hwf.
  - apply NoDup_ListNoDup, List.NoDup_filter, NoDup_ListNoDup, Hwf'.
  - intros r. unfold all_where. rewrite !list_elem_of_In, !List.filter_In, <-!list_elem_of_In. naive_solver.
Qed.

Lemma sum_where_ext p q f t :
  (∀ r, r ∈ rows t → p r = q r) → sum_where p f t = sum_where q f t.
Proof. intros Hpq. apply zsum_ext. intros r Hr. by rewrite Hpq. Qed.

(** The rows of an updated table, one by one. *)
Lemma rows_set_row (g : R → R) r t :
  table_wf t → (∀ r', row_id (g r') = row_id r') → r ∈ rows t →
  rows (set_row (g r) t) = map (λ r', if row_id r' =? row_id r then g r' else r') (rows t).
Proof.
  intros Hwf Hg Hr. cbn. apply List.map_ext_in. intros r' Hr'. apply list_elem_of_In in Hr'.
  rewrite Hg. destruct (row_id r' =? row_id r) eqn:Hid; [|done]. zbool.
  by rewrite (wf_unique t Hwf r' r).
Qed.

(** Rows rewritten in place. *)
Definition map_rows (h : R → R) t : table R := Table (map h (rows t)) (next_id t).

Lemma get_map_rows h i t :
  (∀ r, row_id (h r) = row_id r) → get_row i (map_rows h t) = h <$> get_row i t.
Proof.
  intros Hh. unfold get_row; cbn. induction (rows t) as [|x l IH]; cbn; [done|].
  rewrite Hh. destruct (row_id x =? i); [done|]. apply IH.
Qed.
Lemma map_rows_wf h t : (∀ r, row_id (h r) = row_id r) → table_wf t → table_wf (map_rows h t).
Proof.
  intros Hh [Hu Hn Hf]. split; cbn.
  - intros r1 r2. rewrite !list_elem_of_In, !List.in_map_iff.
    intros (x1 & <- & H1) (x2 & <- & H2) Hid. rewrite !Hh in Hid.
    apply list_elem_of_In in H1, H2. by rewrite (Hu x1 x2).
  - apply NoDup_fmap_2_strong; [|done]. intros x1 x2 H1 H2 Heq. apply Hu; [done..|].
    by rewrite <-Hh, Heq, Hh.
  - intros r. rewrite list_elem_of_In, List.in_map_iff. intros (x & <- & Hx).
    rewrite Hh. apply Hf. by apply list_elem_of_In.
Qed.
Lemma map_rows_ext h h' t : (∀ r, r ∈ rows t → h r = h' r) → map_rows h t = map_rows h' t.
Proof.
  intros Hh. unfold map_rows. f_equal. apply List.map_ext_in. intros r Hr. apply Hh. by apply list_elem_of_In.
Qed.
Lemma map_rows_id h t : (∀ r, r ∈ rows t → h r = r) → map_rows h t = t.
Proof. intros Hh. rewrite (map_rows_ext h (λ r, r)); [|done]. destruct t. unfold map_rows. cbn. by rewrite List.map_id. Qed.
Lemma map_rows_rows h h' t : map_rows h (map_rows h' t) = map_rows (λ r, h (h' r)) t.
Proof. unfold map_rows; cbn. by rewrite List.map_map. Qed.

(** A loop that rewrites every row of a query. *)
Lemma set_all_rows h p t :
  table_wf t → (∀ r, row_id (h r) = row_id r) →
  fold_left (λ t r, set_row (h r) t) (all_where p t) t = map_rows (λ r, if p r then h r else r) t.
Proof.
  intros Hwf Hh.
  cut (∀ (l : list R) (t0 : table R) (q : R → bool), table_wf t0 → (∀ r, r ∈ l → r ∈ rows t ∧ p r = true) → NoDup l →
    t0 = map_rows (λ r, if q r then h r else r) t → (∀ r, r ∈ l → q r = false) →
    (∀ r, r ∈ rows t → p r = true → q r = true ∨ r ∈ l) → (∀ r, r ∈ rows t → q r = true → p r = true) →
    fold_left (λ t r, set_row (h r) t) l t0 = map_rows (λ r, if p r then h r else r) t).
  { intros Hcut. apply (Hcut _ _ (λ _, false)); [done|..|by intros].
    - intros r. apply elem_of_all_where.
    - unfold all_where. apply NoDup_ListNoDup, List.NoDup_filter, NoDup_ListNoDup, Hwf.
    - by rewrite map_rows_id.
    - done.
    - intros r Hr Hp. right. by apply elem_of_all_where. }
  induction l as [|x l IH]; intros t0 q Hwf0 Hl Hnd -> Hq Hpq Hqp; cbn.
  - apply map_rows_ext. intros r Hr. destruct (p r) eqn:Hp.
    + destruct (Hpq r Hr Hp) as [->|]; [done|set_solver].
    + destruct (q r) eqn:Hqr; [|done]. by rewrite Hqp in Hp.
  - destruct (Hl x) as [Hx Hpx]; [set_solver|]. apply NoDup_cons in Hnd as [Hxl Hnd].
    apply (IH _ (λ r, if row_id r =? row_id x then true else q r)); [by apply set_row_wf|set_solver|done|..].
    + unfold set_row, map_rows; cbn. f_equal. rewrite List.map_map. apply List.map_ext_in.
      intros r Hr. apply list_elem_of_In in Hr. rewrite Hh.
      assert (row_id (if q r then h r else r) = row_id r) as -> by (destruct (q r); auto).
      destruct (row_id r =? row_id x) eqn:Hid; [|done]. zbool. by rewrite (wf_unique t Hwf r x).
    + intros r Hr. destruct (row_id r =? row_id x) eqn:Hid; [|apply Hq; set_solver]. zbool.
      destruct (Hl r) as [Hrt _]; [set_solver|]. rewrite (wf_unique t Hwf r x) in Hr; done.
    + intros r Hr Hp. destruct (row_id r =? row_id x) eqn:Hid; [by left|].
      destruct (Hpq r Hr Hp) as [|[->|]%elem_of_cons]; [by left| |by right].
      by rewrite Z.eqb_refl in Hid.
    + intros r Hr. destruct (row_id r =? row_id x) eqn:Hid; [|auto]. zbool. intros _.
      by rewrite (wf_unique t Hwf r x).
Qed.

(** A count is a sum of ones. *)
Lemma count_where_sum p t : count_where p t = sum_where p (λ _, 1) t.
Proof. done. Qed.
Lemma count_where_add p r t :
  count_where p (add_row r t) = count_where p t + (if p r then 1 else 0).
Proof. apply (sum_where_add p (λ _, 1)). Qed.
Lemma count_where_nonneg p t : 0 ≤ count_where p t.
Proof. apply count_nonneg. Qed.

Lemma get_row_add r t :
  table_wf t → row_id r = next_id t → get_row (row_id r) (add_row r t) = Some r.
Proof.
  intros Hwf Hid. apply get_row_wf; [by apply add_row_wf|]. apply elem_of_add_row. auto.
Qed.
Lemma get_row_add_ne i r t :
  i ≠ row_id r → get_row i (add_row r t) = get_row i t.
Proof.
  intros Hne. unfold get_row; cbn. induction (rows t) as [|x l IH]; cbn.
  - by destruct (Z.eqb_spec (row_id r) i); [subst|].
  - by destruct (row_id x =? i).
Qed.
Lemma first_where_add p r t :
  first_where p (add_row r t) =
    match first_where p t with
    | Some r' => Some r'
    | None => if p r then Some r else None
    end.
Proof.
  unfold first_where; cbn. induction (rows t) as [|x l IH]; cbn.
  - by destruct (p r).
  - by destruct (p x).
Qed.
Lemma get_row_set_ne i r t :
  i ≠ row_id r → get_row i (set_row r t) = get_row i t.
Proof.
  intros Hne. unfold get_row; cbn. induction (rows t) as [|x l IH]; cbn; [done|].
  destruct (row_id x =? row_id r) eqn:Hxr; zbool.
  - replace (row_id r =? i) with false by (symmetry; apply Z.eqb_neq; congruence).
    replace (row_id x =? i) with false by (symmetry; apply Z.eqb_neq; congruence).
    apply IH.
  - by destruct (row_id x =? i).
Qed.
Lemma get_row_set r r0 t :
  get_row (row_id r) t = Some r0 → get_row (row_id r) (set_row r t) = Some r.
Proof.
  unfold get_row; cbn. induction (rows t) as [|x l IH]; cbn; [done|].
  destruct (row_id x =? row_id r) eqn:Hxr; zbool.
  - intros _. by rewrite Z.eqb_refl.
  - rewrite (proj2 (Z.eqb_neq _ _) Hxr). apply IH.
Qed.
Lemma get_row_set_eq i r r0 t :
  row_id r = i → get_row i t = Some r0 → get_row i (set_row r t) = Some r.
Proof. intros <-. apply get_row_set. Qed.
End table.

#[export] Hint Resolve add_row_wf set_row_wf empty_table_wf : pos.
#[export] Hint Resolve add_row_unique set_row_unique : pos.

#[global] Arguments get_row : simpl never.
#[global] Arguments first_where : simpl never.
#[global] Arguments all_where : simpl never.
#[global] Arguments sum_where : simpl never.
#[global] Arguments count_where : simpl never.
#[global] Arguments add_row : simpl never.
#[global] Arguments set_row : simpl never.
#[global] Arguments del_row : simpl never.
#[global] Arguments map_rows : simpl never.
