(* ===== verification/AuditTrail.v ===== *)
(** * The append-only audit log ([app.audit])

    [record_audit] adds a row to the caller's transaction; [diff_fields] is the
    field-by-field difference the admin screen shows for a row. *)

From S2P Require Import Prelude Db.

(** JSON values as they occur in audit payloads. *)
Inductive jval : Type :=
| JNull
| JBool (b : bool)
| JInt (n : Z)
| JStr (s : string)
| JList (text : string) (len : Z)   (** a nested list: its canonical text and its length *)
| JDict (text : string) (len : Z).  (** a nested object, likewise *)

#[global] Instance jval_eq_dec : EqDecision jval.
Proof. solve_decision. Defined.

(** Python's [==] on these values: a bool is the integer 0 or 1. *)
Definition jval_num (v : jval) : option Z :=
  match v with JBool b => Some (Z.b2z b) | JInt n => Some n | _ => None end.
Definition jval_eqb (v w : jval) : bool :=
  match jval_num v, jval_num w with
  | Some n, Some m => n =? m
  | _, _ => bool_decide (v = w)
  end.

(** A JSON object: its fields in order. *)
Abbreviation jdict := (list (string * jval)).

Definition jopt_int (o : option Z) : jval := match o with Some n => JInt n | None => JNull end.
Definition jopt_str (o : option string) : jval := match o with Some s => JStr s | None => JNull end.

Record audit_row := AuditLog {
  al_actor : string;
  al_actor_staff_id : option Z;
  al_restaurant_id : option Z;
  al_entity : string;
  al_entity_id : string;
  al_action : string;
  al_before : option jdict;
  al_after : option jdict;
}.

(** Sessions that hold the audit log. *)
Class HasAudit (S : Type) := {
  audit_log : S → list audit_row;
  put_audit : list audit_row → S → S;
}.

(** [record_audit]: the staff id defaults to the one of the request's staff token. *)
Definition record_audit {S E} `{HasAudit S} (ctx_staff : option Z)
    (actor entity entity_id action : string) (restaurant_id : option Z)
    (before after : option jdict) (actor_staff_id : option Z) : M S E audit_row :=
  let staff := match actor_staff_id with None => ctx_staff | Some _ => actor_staff_id end in
  let row := AuditLog actor staff restaurant_id entity entity_id action before after in
  modify (λ s, put_audit (audit_log s ++ [row]) s) ≫= λ _, mret row.

(** The services of this library record audits without a staff token in scope. *)
Definition audit {S E} `{HasAudit S} (actor : string) (restaurant_id : Z)
    (entity entity_id action : string) (before after : option jdict) : M S E audit_row :=
  record_audit None actor entity entity_id action (Some restaurant_id) before after None.

(** ** The field diff *)

Definition _DIFF_SKIP : list string :=
  ["updated_at"; "created_at"; "password"; "password_hash"; "pin"; "pin_hash";
   "token"; "access_token"; "api_key"; "asp_api_key"; "secret"]%string.

(** [_short]: one-line rendering; a text over 40 characters is cut to 39 and an
    ellipsis (the three UTF-8 bytes of U+2026). *)
Definition ellipsis : string :=
  String (Ascii.ascii_of_nat 226) (String (Ascii.ascii_of_nat 128)
    (String (Ascii.ascii_of_nat 166) EmptyString)).
Definition _short (v : jval) : string :=
  match v with
  | JNull => "empty"
  | JBool b => if b then "yes" else "no"
  | JList _ n => pretty n +:+ " items"
  | JDict _ n => pretty n +:+ " fields"
  | JInt n => pretty n
  | JStr s => if (String.length s <=? 40)%nat then s else String.substring 0 39 s +:+ ellipsis
  end.

Definition dict_get (k : string) (d : jdict) : option jval :=
  snd <$> List.find (λ kv, (fst kv =s k)) d.
(** [d.get(k)]: a missing key reads as [None]. *)
Definition dict_get_null (k : string) (d : jdict) : jval := default JNull (dict_get k d).

(** [sorted(set(before) | set(after))]: insertion of each key in byte order. *)
Fixpoint insert_key (k : string) (ks : list string) : list string :=
  match ks with
  | [] => [k]
  | k' :: ks' =>
      match String.compare k k' with
      | Lt => k :: ks
      | Eq => ks
      | Gt => k' :: insert_key k ks'
      end
  end.
Definition sorted_keys (ks : list string) : list string := foldr insert_key [] ks.

Record field_change := FieldChange { fc_field : string; fc_from : string; fc_to : string }.

Fixpoint diff_keys (before after : jdict) (ks : list string) : list field_change :=
  match ks with
  | [] => []
  | k :: ks' =>
      let old := dict_get_null k before in
      let new := dict_get_null k after in
      if existsb (String.eqb k) _DIFF_SKIP then diff_keys before after ks'
      else if jval_eqb old new then diff_keys before after ks'
      else FieldChange k (_short old) (_short new) :: diff_keys before after ks'
  end.

Definition diff_fields (before after : option jdict) : list field_change :=
  match before, after with
  | Some b, Some a => diff_keys b a (sorted_keys (map fst b ++ map fst a))
  | _, _ => []
  end.

(** ** Lemmas *)

Lemma audit_run {S E} `{HasAudit S} actor rid entity eid action b a (s : S) :
  audit (E := E) actor rid entity eid action b a s =
    Ok (AuditLog actor None (Some rid) entity eid action b a)
       (put_audit (audit_log s ++ [AuditLog actor None (Some rid) entity eid action b a]) s).
Proof. done. Qed.

Lemma elem_of_insert_key k k' ks : k' ∈ insert_key k ks ↔ k' = k ∨ k' ∈ ks.
Proof.
  induction ks as [|x ks IH]; cbn; [set_solver|].
  destruct (String.compare k x) eqn:Hc; [|set_solver|set_solver].
  apply String.compare_eq_iff in Hc as ->. set_solver.
Qed.

Lemma elem_of_sorted_keys k ks : k ∈ sorted_keys ks ↔ k ∈ ks.
Proof.
  induction ks as [|x ks IH]; cbn; [done|].
  rewrite elem_of_insert_key, IH. set_solver.
Qed.

Lemma elem_of_diff_keys b a ks c :
  c ∈ diff_keys b a ks ↔
    ∃ k, k ∈ ks ∧ existsb (String.eqb k) _DIFF_SKIP = false ∧
      jval_eqb (dict_get_null k b) (dict_get_null k a) = false ∧
      c = FieldChange k (_short (dict_get_null k b)) (_short (dict_get_null k a)).
Proof.
  induction ks as [|x ks IH]; cbn [diff_keys].
  { split; [intros []%elem_of_nil|intros (k & []%elem_of_nil & _)]. }
  destruct (existsb _ _) eqn:Hskip; [|destruct (jval_eqb _ _) eqn:Heq];
    rewrite ?elem_of_cons, IH; setoid_rewrite elem_of_cons; split.
  - intros (k & Hk & Hrest). eauto.
  - intros (k & [->|Hk] & Hs & Hrest); [congruence|eauto].
  - intros (k & Hk & Hrest). eauto.
  - intros (k & [->|Hk] & Hs & Hne & Hc); [congruence|eauto].
  - intros [->|(k & Hk & Hrest)]; eauto 6.
  - intros (k & [->|Hk] & Hs & Hne & Hc); eauto 6.
Qed.

Lemma dict_get_Some_in k v (d : jdict) : dict_get k d = Some v → k ∈ map fst d.
Proof.
  unfold dict_get. destruct (List.find _ d) as [[k' v']|] eqn:Hf; [|done].
  intros _. apply List.find_some in Hf as [Hin Hk]. cbn in Hk. zbool. subst k'.
  apply list_elem_of_In, List.in_map_iff. by exists (k, v').
Qed.
