(* ===== verification/Clock.v ===== *)
(** * Time: UTC instants in microseconds, and civil dates

    An aware [datetime], and a naive one that the code stores as UTC, is the number
    of microseconds since 1970-01-01T00:00:00Z.  [date_of] is [.date()] of such an
    instant (days since the epoch) and [isoformat] is [date.isoformat()]. *)

From S2P Require Import Prelude Money.

Definition microsecond : Z := 1.
Definition second : Z := 1000000.
Definition minute : Z := 60 * second.
Definition hour : Z := 60 * minute.
Definition day : Z := 24 * hour.
(** [timedelta(days=n)] and the like. *)
Definition days (n : Z) : Z := n * day.
Definition hours (n : Z) : Z := n * hour.
Definition minutes (n : Z) : Z := n * minute.
Definition seconds (n : Z) : Z := n * second.

Definition date_of (t : Z) : Z := t / day.

(** Proleptic Gregorian date of a day number. *)
Definition civil (z0 : Z) : Z * Z * Z :=
  let z := z0 + 719468 in
  let era := z / 146097 in
  let doe := z mod 146097 in
  let yoe := (doe - doe / 1460 + doe / 36524 - doe / 146096) / 365 in
  let y := yoe + era * 400 in
  let doy := doe - (365 * yoe + yoe / 4 - yoe / 100) in
  let mp := (5 * doy + 2) / 153 in
  let d := doy - (153 * mp + 2) / 5 + 1 in
  let m := if mp <? 10 then mp + 3 else mp - 9 in
  ((if m <=? 2 then y + 1 else y), m, d).

Definition four_digits (n : Z) : string :=
  (if n <? 10 then "000" else if n <? 100 then "00" else if n <? 1000 then "0" else "")
  +:+ pretty n.

Definition isoformat (z : Z) : string :=
  let '(y, m, d) := civil z in
  four_digits y +:+ "-" +:+ two_digits m +:+ "-" +:+ two_digits d.

(** [datetime.isoformat()] of an aware UTC instant. *)
Definition six_digits (n : Z) : string :=
  two_digits (n / 10000) +:+ two_digits ((n / 100) mod 100) +:+ two_digits (n mod 100).
Definition datetime_isoformat (t : Z) : string :=
  let us := t mod day in
  isoformat (date_of t) +:+ "T" +:+ two_digits (us / hour) +:+ ":" +:+
  two_digits (us / minute mod 60) +:+ ":" +:+ two_digits (us / second mod 60) +:+
  (if us mod second =? 0 then "" else "." +:+ six_digits (us mod second)) +:+ "+00:00".

(** Python's weekday of a day number: Monday is 0 (1970-01-01 was a Thursday). *)
Definition weekday (z : Z) : Z := (z + 3) mod 7.

Example isoformat_epoch : isoformat 0 = "1970-01-01".
Proof. reflexivity. Qed.
Example isoformat_leap : isoformat (date_of (days 19782 + hours 23)) = "2024-02-29".
Proof. reflexivity. Qed.
Example datetime_isoformat_leap :
  datetime_isoformat (days 19782 + hours 23 + 7) = "2024-02-29T23:00:00.000007+00:00".
Proof. reflexivity. Qed.
Example weekday_leap : weekday 19782 = 3.
Proof. reflexivity. Qed.

#[global] Arguments isoformat : simpl never.
#[global] Arguments civil : simpl never.
#[global] Arguments weekday : simpl never.
