(* ===== verification/Strings.v ===== *)
(** * Python string methods the services use, on ASCII text

    [lower], [upper], [strip] and the membership tests of the code.  Text outside ASCII is
    a sequence of bytes over 127 that these methods leave alone. *)

From S2P Require Import Prelude.

(** [str.isspace] of a character: blank, tab to carriage return, the separators. *)
Definition is_space (c : Ascii.ascii) : bool :=
  let n := Ascii.nat_of_ascii c in
  (n =? 32)%nat || ((9 <=? n)%nat && (n <=? 13)%nat) || ((28 <=? n)%nat && (n <=? 31)%nat).

Definition lower_ascii (c : Ascii.ascii) : Ascii.ascii :=
  let n := Ascii.nat_of_ascii c in
  if (65 <=? n)%nat && (n <=? 90)%nat then Ascii.ascii_of_nat (n + 32) else c.

Fixpoint lower (s : string) : string :=
  match s with EmptyString => EmptyString | String c s' => String (lower_ascii c) (lower s') end.

Definition upper_ascii (c : Ascii.ascii) : Ascii.ascii :=
  let n := Ascii.nat_of_ascii c in
  if (97 <=? n)%nat && (n <=? 122)%nat then Ascii.ascii_of_nat (n - 32) else c.
Fixpoint upper (s : string) : string :=
  match s with EmptyString => EmptyString | String c s' => String (upper_ascii c) (upper s') end.

Fixpoint lstrip (s : string) : string :=
  match s with
  | EmptyString => EmptyString
  | String c s' => if is_space c then lstrip s' else s
  end.

(** The reversal of a string; [rstrip] strips its end. *)
Definition rstrip (s : string) : string := String.rev (lstrip (String.rev s)).
Definition strip (s : string) : string := rstrip (lstrip s).

(** [x in frozenset] and [x in list]. *)
Definition in_strs (x : string) (l : list string) : bool := existsb (String.eqb x) l.

(** The truth value of a string or of an optional one. *)
Definition truthy (s : string) : bool := negb (s =s "").
Definition otruthy (o : option string) : bool :=
  match o with Some s => truthy s | None => false end.

(** [String.append] unfolds by these two equations only. *)
Lemma app_nil_string s : "" +:+ s = s.
Proof. done. Qed.
Lemma app_cons_string c s t : String c s +:+ t = String c (s +:+ t).
Proof. done. Qed.
Lemma app_assoc_string (s t u : string) : s +:+ (t +:+ u) = (s +:+ t) +:+ u.
Proof. induction s as [|c s IH]; [done|]. by rewrite !app_cons_string, IH. Qed.

Lemma in_strs_spec x l : in_strs x l = true ↔ x ∈ l.
Proof.
  unfold in_strs. rewrite existsb_exists. split.
  - intros (y & Hy & Heq). apply String.eqb_eq in Heq as ->. by apply list_elem_of_In.
  - intros Hx. exists x. split; [by apply list_elem_of_In|apply String.eqb_refl].
Qed.

Lemma lower_ascii_idemp c : lower_ascii (lower_ascii c) = lower_ascii c.
Proof. by destruct c as [[] [] [] [] [] [] [] []]. Qed.
Lemma lower_idemp s : lower (lower s) = lower s.
Proof. induction s as [|c s IH]; cbn; [done|]. by rewrite lower_ascii_idemp, IH. Qed.

Lemma upper_ascii_idemp c : upper_ascii (upper_ascii c) = upper_ascii c.
Proof. by destruct c as [[] [] [] [] [] [] [] []]. Qed.
Lemma upper_idemp s : upper (upper s) = upper s.
Proof. induction s as [|c s IH]; cbn; [done|]. by rewrite upper_ascii_idemp, IH. Qed.

Example strip_both : strip "  Take away
 " = "Take away".
Proof. reflexivity. Qed.
Example lower_mixed : lower "Dine_IN" = "dine_in".
Proof. reflexivity. Qed.

#[global] Arguments strip : simpl never.
#[global] Arguments lower : simpl never.
#[global] Arguments upper : simpl never.
#[global] Arguments in_strs : simpl never.
