(* ===== verification/Wallet.v ===== *)
(** * The wallet ledger ([app.wallet])

    Balances are derived from an append-only journal of entries.  A spend is
    authorised ([hold]), then settled ([capture]) or returned ([release]).  The
    file models [wallet/service.py], [wallet/reconcile.py] and [wallet/abuse.py];
    [WalletFacts] states the authorize/capture contract and that every call
    implements it. *)

From S2P Require Import Prelude Money Db AuditTrail Clock.

(** ** Data ([wallet/models.py]) *)

Inductive account_status := Active | Frozen.
#[global] Instance account_status_eq_dec : EqDecision account_status.
Proof. solve_decision. Defined.

Record WalletAccount := {
  acc_id : Z;
  acc_restaurant_id : Z;
  acc_customer_id : Z;
  acc_status : account_status;
}.
#[global] Instance WalletAccount_row : Row WalletAccount := acc_id.

Inductive entry_type :=
| Refund_credit | Promo_credit | Order_debit | Hold | Hold_release
| Manual_adjust | Expiry | Reversal.
#[global] Instance entry_type_eq_dec : EqDecision entry_type.
Proof. solve_decision. Defined.

Inductive entry_status := Posted | Held.
#[global] Instance entry_status_eq_dec : EqDecision entry_status.
Proof. solve_decision. Defined.

Record WalletEntry := {
  we_id : Z;
  we_account_id : Z;
  we_restaurant_id : Z;
  we_amount : Z;  (** cents; credits positive, debits and holds negative *)
  we_type : entry_type;
  we_status : entry_status;
  we_key : string;
  we_ticket_id : option Z;
  we_order_id : option Z;
  we_reverses_entry_id : option Z;
  we_reason_note : option string;
  we_created_by : string;
  we_created_at : Z;
}.
#[global] Instance WalletEntry_row : Row WalletEntry := we_id.

Definition entry_type_str (t : entry_type) : string :=
  match t with
  | Refund_credit => "refund_credit" | Promo_credit => "promo_credit"
  | Order_debit => "order_debit" | Hold => "hold" | Hold_release => "hold_release"
  | Manual_adjust => "manual_adjust" | Expiry => "expiry" | Reversal => "reversal"
  end.
Definition account_status_str (t : account_status) : string :=
  match t with Active => "active" | Frozen => "frozen" end.

(** The tables of the session, and the transaction's clock ([created_at]). *)
Record wallet_db := {
  accounts : table WalletAccount;
  entries : table WalletEntry;
  wallet_audit : list audit_row;
  wallet_now : Z;
}.

Definition with_accounts (t : table WalletAccount) (s : wallet_db) : wallet_db :=
  {| accounts := t; entries := entries s; wallet_audit := wallet_audit s; wallet_now := wallet_now s |}.
Definition with_entries (t : table WalletEntry) (s : wallet_db) : wallet_db :=
  {| accounts := accounts s; entries := t; wallet_audit := wallet_audit s; wallet_now := wallet_now s |}.
#[global] Instance wallet_has_audit : HasAudit wallet_db :=
  {| audit_log := wallet_audit;
     put_audit l s := {| accounts := accounts s; entries := entries s;
                         wallet_audit := l; wallet_now := wallet_now s |} |}.

(** What a call raises ([wallet/errors.py], and the database's own errors). *)
Inductive wallet_error :=
| AmountNotPositive            (** WalletError: "... amount must be positive" *)
| AccountNotFound (account_id : Z)
| NoActiveHold (order_id : Z)
| EntryNotFound (entry_id : Z)
| CannotReverseHeld
| InsufficientFunds (available : Z) (requested : Q)
| AccountFrozen (account_id : Z)
| IntegrityError               (** a UNIQUE constraint *)
| DataError                    (** a NUMERIC(10, 2) overflow *)
| NoneAttribute.               (** an attribute of [None] *)

Abbreviation W := (M wallet_db wallet_error).

(** [session.add(entry); flush()]: the row takes the next id; the journal's
    constraints are checked. *)
Definition flush_entry (e : Z → WalletEntry) : W WalletEntry :=
  t ← gets entries;
  let row := e (next_id t) in
  if negb (numeric_fits 10 (we_amount row)) then raise DataError
  else match first_where (λ r, we_key r =s we_key row) t with
       | Some _ => raise IntegrityError
       | None => modify (with_entries (add_row row t)) ≫= λ _, mret row
       end.

(** An attribute assignment on a loaded entry, flushed. *)
Definition update_entry (row : WalletEntry) : W unit :=
  modify (λ s, with_entries (set_row row (entries s)) s).
Definition update_account (row : WalletAccount) : W unit :=
  modify (λ s, with_accounts (set_row row (accounts s)) s).

(** ** Operations ([wallet/service.py]) *)

Definition _q (amount : Q) : Z := quantize amount.

Definition same_account (restaurant_id customer_id : Z) (a : WalletAccount) : bool :=
  (acc_restaurant_id a =? restaurant_id) && (acc_customer_id a =? customer_id).

Definition get_or_create_account (restaurant_id customer_id : Z) : W WalletAccount :=
  t ← gets accounts;
  (match first_where (same_account restaurant_id customer_id) t with
   | Some _ => mret tt  (* ON CONFLICT DO NOTHING *)
   | None => modify (with_accounts (add_row {|
       acc_id := next_id t; acc_restaurant_id := restaurant_id;
       acc_customer_id := customer_id; acc_status := Active |} t))
   end) ≫= λ _,
  t' ← gets accounts;
  match first_where (same_account restaurant_id customer_id) t' with
  | Some a => mret a
  | None => raise NoneAttribute
  end.

Definition on_account (account_id : Z) (st : entry_status) (e : WalletEntry) : bool :=
  (we_account_id e =? account_id) && bool_decide (we_status e = st).

(** Postings of an account in a journal. *)
Definition posted_sum (account_id : Z) (t : table WalletEntry) : Z :=
  sum_where (on_account account_id Posted) we_amount t.
Definition held_sum (account_id : Z) (t : table WalletEntry) : Z :=
  sum_where (on_account account_id Held) we_amount t.

Definition balance (account_id : Z) : W Z := gets (λ s, posted_sum account_id (entries s)).

Definition available (account_id : Z) : W Z :=
  held ← gets (λ s, held_sum account_id (entries s));
  bal ← balance account_id;
  mret (bal + held).

Definition _existing_by_key (key : string) : W (option WalletEntry) :=
  gets (λ s, first_where (λ e, we_key e =s key) (entries s)).

Definition _account (account_id : Z) : W WalletAccount :=
  a ← gets (λ s, get_row account_id (accounts s));
  match a with Some acc => mret acc | None => raise (AccountNotFound account_id) end.

Definition is_order_hold (account_id order_id : Z) (e : WalletEntry) : bool :=
  (we_account_id e =? account_id) && bool_decide (we_order_id e = Some order_id)
  && bool_decide (we_type e = Hold) && bool_decide (we_status e = Held).

Definition _order_hold (account_id order_id : Z) : W (option WalletEntry) :=
  gets (λ s, first_where (is_order_hold account_id order_id) (entries s)).

Definition credit (restaurant_id customer_id : Z) (amount : Q) (idempotency_key : string)
    (type : entry_type) (ticket_id : option Z) (reason_note : option string)
    (created_by : string) : W WalletEntry :=
  if amount <=q 0 then raise AmountNotPositive else
  existing ← _existing_by_key idempotency_key;
  match existing with
  | Some e => mret e
  | None =>
      acc ← get_or_create_account restaurant_id customer_id;
      now ← gets wallet_now;
      entry ← flush_entry (λ id, {|
        we_id := id; we_account_id := acc_id acc; we_restaurant_id := restaurant_id;
        we_amount := _q amount; we_type := type; we_status := Posted;
        we_key := idempotency_key; we_ticket_id := ticket_id; we_order_id := None;
        we_reverses_entry_id := None; we_reason_note := reason_note;
        we_created_by := created_by; we_created_at := now |});
      _ ← audit created_by restaurant_id "wallet_entry" (pretty (we_id entry)) "credit" None
        (Some [("amount_aed", JStr (str_cents (_q amount))); ("type", JStr (entry_type_str type));
               ("ticket_id", jopt_int ticket_id)]);
      mret entry
  end.

Definition debit (restaurant_id customer_id : Z) (amount : Q) (idempotency_key : string)
    (type : entry_type) (reason_note : option string) (created_by : string) : W WalletEntry :=
  if amount <=q 0 then raise AmountNotPositive else
  existing ← _existing_by_key idempotency_key;
  match existing with
  | Some e => mret e
  | None =>
      acc ← get_or_create_account restaurant_id customer_id;
      avail ← available (acc_id acc);
      if aed avail <q amount then raise (InsufficientFunds avail amount) else
      now ← gets wallet_now;
      entry ← flush_entry (λ id, {|
        we_id := id; we_account_id := acc_id acc; we_restaurant_id := restaurant_id;
        we_amount := _q (- amount); we_type := type; we_status := Posted;
        we_key := idempotency_key; we_ticket_id := None; we_order_id := None;
        we_reverses_entry_id := None; we_reason_note := reason_note;
        we_created_by := created_by; we_created_at := now |});
      _ ← audit created_by restaurant_id "wallet_entry" (pretty (we_id entry)) "debit" None
        (Some [("amount_aed", JStr (str_cents (_q (- amount)))); ("type", JStr (entry_type_str type))]);
      mret entry
  end.

Definition hold (account_id restaurant_id : Z) (amount : Q) (order_id : Z)
    (idempotency_key created_by : string) : W WalletEntry :=
  if amount <=q 0 then raise AmountNotPositive else
  existing ← _existing_by_key idempotency_key;
  match existing with
  | Some e => mret e
  | None =>
      acc ← _account account_id;
      if bool_decide (acc_status acc = Frozen) then raise (AccountFrozen account_id) else
      avail ← available account_id;
      if aed avail <q amount then raise (InsufficientFunds avail amount) else
      now ← gets wallet_now;
      entry ← flush_entry (λ id, {|
        we_id := id; we_account_id := account_id; we_restaurant_id := restaurant_id;
        we_amount := _q (- amount); we_type := Hold; we_status := Held;
        we_key := idempotency_key; we_ticket_id := None; we_order_id := Some order_id;
        we_reverses_entry_id := None; we_reason_note := None;
        we_created_by := created_by; we_created_at := now |});
      _ ← audit created_by restaurant_id "wallet_entry" (pretty (we_id entry)) "hold" None
        (Some [("amount_aed", JStr (str_cents (_q (- amount)))); ("order_id", JInt order_id)]);
      mret entry
  end.

(** The hold entry once settled: a posted debit under the capture's key. *)
Definition captured (h : WalletEntry) (key : string) : WalletEntry :=
  {| we_id := we_id h; we_account_id := we_account_id h; we_restaurant_id := we_restaurant_id h;
     we_amount := we_amount h; we_type := Order_debit; we_status := Posted; we_key := key;
     we_ticket_id := we_ticket_id h; we_order_id := we_order_id h;
     we_reverses_entry_id := we_reverses_entry_id h; we_reason_note := we_reason_note h;
     we_created_by := we_created_by h; we_created_at := we_created_at h |}.

Definition capture (account_id restaurant_id order_id : Z)
    (idempotency_key created_by : string) : W WalletEntry :=
  existing ← _existing_by_key idempotency_key;
  match existing with
  | Some e => mret e
  | None =>
      held ← _order_hold account_id order_id;
      match held with
      | None => raise (NoActiveHold order_id)
      | Some h =>
          let row := captured h idempotency_key in
          _ ← update_entry row;
          _ ← audit created_by restaurant_id "wallet_entry" (pretty (we_id h)) "capture"
            (Some [("status", JStr "held"); ("type", JStr "hold")])
            (Some [("status", JStr "posted"); ("type", JStr "order_debit"); ("order_id", JInt order_id)]);
          mret row
      end
  end.

(** The hold entry once released: posted, netted to zero by the release entry. *)
Definition posted_hold (h : WalletEntry) : WalletEntry :=
  {| we_id := we_id h; we_account_id := we_account_id h; we_restaurant_id := we_restaurant_id h;
     we_amount := we_amount h; we_type := we_type h; we_status := Posted; we_key := we_key h;
     we_ticket_id := we_ticket_id h; we_order_id := we_order_id h;
     we_reverses_entry_id := we_reverses_entry_id h; we_reason_note := we_reason_note h;
     we_created_by := we_created_by h; we_created_at := we_created_at h |}.

Definition release (account_id restaurant_id order_id : Z)
    (idempotency_key created_by : string) : W (option WalletEntry) :=
  existing ← _existing_by_key idempotency_key;
  match existing with
  | Some e => mret (Some e)
  | None =>
      held ← _order_hold account_id order_id;
      match held with
      | None => mret None
      | Some h =>
          let amount := - we_amount h in
          _ ← update_entry (posted_hold h);
          now ← gets wallet_now;
          rel ← flush_entry (λ id, {|
            we_id := id; we_account_id := account_id; we_restaurant_id := restaurant_id;
            we_amount := amount; we_type := Hold_release; we_status := Posted;
            we_key := idempotency_key; we_ticket_id := None; we_order_id := Some order_id;
            we_reverses_entry_id := Some (we_id h); we_reason_note := None;
            we_created_by := created_by; we_created_at := now |});
          _ ← audit created_by restaurant_id "wallet_entry" (pretty (we_id rel)) "release" None
            (Some [("order_id", JInt order_id); ("amount_aed", JStr (str_cents amount))]);
          mret (Some rel)
      end
  end.

Definition with_status (st : account_status) (a : WalletAccount) : WalletAccount :=
  {| acc_id := acc_id a; acc_restaurant_id := acc_restaurant_id a;
     acc_customer_id := acc_customer_id a; acc_status := st |}.

Definition freeze (account_id restaurant_id : Z) (reason created_by : string) : W WalletAccount :=
  acc ← _account account_id;
  let acc' := with_status Frozen acc in
  _ ← update_account acc';
  _ ← audit created_by restaurant_id "wallet_account" (pretty (acc_id acc)) "freeze"
    (Some [("status", JStr (account_status_str (acc_status acc)))])
    (Some [("status", JStr "frozen"); ("reason", JStr reason)]);
  mret acc'.

Definition unfreeze (account_id restaurant_id : Z) (created_by : string) : W WalletAccount :=
  acc ← _account account_id;
  let acc' := with_status Active acc in
  _ ← update_account acc';
  _ ← audit created_by restaurant_id "wallet_account" (pretty (acc_id acc)) "unfreeze"
    (Some [("status", JStr (account_status_str (acc_status acc)))])
    (Some [("status", JStr "active")]);
  mret acc'.

Definition reverse (entry_id restaurant_id : Z) (idempotency_key reason_note created_by : string)
    : W WalletEntry :=
  existing ← _existing_by_key idempotency_key;
  match existing with
  | Some e => mret e
  | None =>
      original ← gets (λ s, get_row entry_id (entries s));
      match original with
      | None => raise (EntryNotFound entry_id)
      | Some o =>
          if bool_decide (we_status o = Held) then raise CannotReverseHeld else
          now ← gets wallet_now;
          rev ← flush_entry (λ id, {|
            we_id := id; we_account_id := we_account_id o; we_restaurant_id := restaurant_id;
            we_amount := - we_amount o; we_type := Reversal; we_status := Posted;
            we_key := idempotency_key; we_ticket_id := None; we_order_id := None;
            we_reverses_entry_id := Some (we_id o); we_reason_note := Some reason_note;
            we_created_by := created_by; we_created_at := now |});
          _ ← audit created_by restaurant_id "wallet_entry" (pretty (we_id rev)) "reversal"
            (Some [("reverses_entry_id", JInt (we_id o))])
            (Some [("amount_aed", JStr (str_cents (- we_amount o))); ("reason", JStr reason_note)]);
          mret rev
      end
  end.

(** ** Maintenance ([wallet/reconcile.py]) *)

Definition is_credit_type (t : entry_type) : bool :=
  bool_decide (t = Refund_credit) || bool_decide (t = Promo_credit).

(** [func.min(created_at)] of an account's posted credits. *)
Fixpoint oldest (l : list WalletEntry) : option Z :=
  match l with
  | [] => None
  | e :: l' => match oldest l' with
               | None => Some (we_created_at e)
               | Some t => Some (Z.min (we_created_at e) t)
               end
  end.
Definition oldest_credit (account_id : Z) (t : table WalletEntry) : option Z :=
  oldest (all_where (λ e, on_account account_id Posted e && is_credit_type (we_type e)) t).

(** One account of the expiry sweep; the accumulator counts expired accounts. *)
Definition expire_account (restaurant_id ttl_days cutoff : Z) (acc : WalletAccount)
    (expired : Z) : W Z :=
  first_credit ← gets (λ s, oldest_credit (acc_id acc) (entries s));
  match first_credit with
  | None => mret expired
  | Some t0 =>
      if cutoff <? t0 then mret expired else
      bal ← balance (acc_id acc);
      if bal <=? 0 then mret expired else
      let key := "wallet:expiry:" +:+ pretty (acc_id acc) +:+ ":" +:+ isoformat (date_of cutoff) in
      existing ← _existing_by_key key;
      match existing with
      | Some _ => mret expired
      | None =>
          now ← gets wallet_now;
          _ ← flush_entry (λ id, {|
            we_id := id; we_account_id := acc_id acc; we_restaurant_id := restaurant_id;
            we_amount := - bal; we_type := Expiry; we_status := Posted; we_key := key;
            we_ticket_id := None; we_order_id := None; we_reverses_entry_id := None;
            we_reason_note := Some ("credit expired after " +:+ pretty ttl_days +:+ " days");
            we_created_by := "system"; we_created_at := now |});
          _ ← audit "system" restaurant_id "wallet_account" (pretty (acc_id acc)) "expiry"
            (Some [("balance_aed", JStr (str_cents bal))]) (Some [("balance_aed", JStr "0.00")]);
          mret (expired + 1)
      end
  end.

Definition expire_credits (restaurant_id ttl_days now : Z) : W Z :=
  if ttl_days <=? 0 then mret 0 else
  accs ← gets (λ s, all_where (λ a, acc_restaurant_id a =? restaurant_id) (accounts s));
  for_fold (expire_account restaurant_id ttl_days (now - days ttl_days)) accs 0.

(** [GROUP BY type]: the types of the tenant's posted rows, each once. *)
Definition tenant_posted (restaurant_id : Z) (e : WalletEntry) : bool :=
  (we_restaurant_id e =? restaurant_id) && bool_decide (we_status e = Posted).
Definition all_entry_types : list entry_type :=
  [Refund_credit; Promo_credit; Order_debit; Hold; Hold_release; Manual_adjust; Expiry; Reversal].
Definition group_sums (restaurant_id : Z) (t : table WalletEntry) : list (entry_type * Z) :=
  map (λ ty, (ty, sum_where (λ e, tenant_posted restaurant_id e && bool_decide (we_type e = ty))
                    we_amount t))
    (List.filter (λ ty, 0 <? count_where (λ e, tenant_posted restaurant_id e
                                               && bool_decide (we_type e = ty)) t)
       all_entry_types).

Record reconciliation := { liability_aed : Z; control_aed : Z; drift_aed : Z }.

Definition reconcile_tenant (restaurant_id : Z) : W reconciliation :=
  liability ← gets (λ s, sum_where (tenant_posted restaurant_id) we_amount (entries s));
  groups ← gets (λ s, group_sums restaurant_id (entries s));
  let control := zsum snd groups in
  mret {| liability_aed := liability; control_aed := control; drift_aed := liability - control |}.

(** ** Abuse control ([wallet/abuse.py]) *)

Record velocity := { v_count : Z; v_total_aed : Z }.

Definition refund_velocity (account_id window_days now : Z) : W velocity :=
  let since := now - days window_days in
  let p := λ e, (we_account_id e =? account_id) && bool_decide (we_type e = Refund_credit)
                && (since <=? we_created_at e) in
  gets (λ s, {| v_count := count_where p (entries s); v_total_aed := sum_where p we_amount (entries s) |}).

(** The deployment's caps ([wallet_refund_*] of the settings); [max_aed] is the
    decimal of a float setting. *)
Record abuse_settings := { wallet_refund_window_days : Z; wallet_refund_max_count : Z;
                           wallet_refund_max_aed : Q }.

Definition over_velocity (cfg : abuse_settings) (v : velocity) : bool :=
  ((0 <? wallet_refund_max_count cfg) && (wallet_refund_max_count cfg <? v_count v))
  || ((0 <q wallet_refund_max_aed cfg) && (wallet_refund_max_aed cfg <q aed (v_total_aed v))).

Definition check_and_flag (cfg : abuse_settings) (restaurant_id customer_id : Z)
    (created_by : string) : W bool :=
  let window := wallet_refund_window_days cfg in
  if (window <=? 0) || ((wallet_refund_max_count cfg <=? 0) && (wallet_refund_max_aed cfg <=q 0))
  then mret false else
  acc ← gets (λ s, first_where (same_account restaurant_id customer_id) (accounts s));
  match acc with
  | None => mret false
  | Some a =>
      if bool_decide (acc_status a = Frozen) then mret false else
      now ← gets wallet_now;
      v ← refund_velocity (acc_id a) window now;
      if negb (over_velocity cfg v) then mret false else
      _ ← freeze (acc_id a) restaurant_id
        ("refund velocity: " +:+ pretty (v_count v) +:+ " refunds / AED "
         +:+ str_cents (v_total_aed v) +:+ " in " +:+ pretty window +:+ "d") created_by;
      mret true
  end.

#[global] Arguments group_sums : simpl never.
#[global] Arguments oldest_credit : simpl never.
