(* ===== verification/WalletFacts.v ===== *)
(** * The wallet ledger is a bank-style authorize/capture account

    [ledger_step] is what one call may do to the journal; every operation of
    [Wallet] is shown to make such a step.  The abstract contract ([spec_step])
    and the safety theorems are consequences about ledger steps. *)

From S2P Require Import Prelude Money Db AuditTrail Clock Wallet.

(** ** Ledger steps *)

Definition fresh_key (k : string) (t : table WalletEntry) : Prop :=
  ∀ e, e ∈ rows t → we_key e ≠ k.

Definition avail_sum (a : Z) (t : table WalletEntry) : Z := posted_sum a t + held_sum a t.

(** A posting that cannot overdraw: a credit, or a debit within the available. *)
Definition covered (e : WalletEntry) (t : table WalletEntry) : Prop :=
  0 ≤ we_amount e ∨ - we_amount e ≤ avail_sum (we_account_id e) t.

Inductive ledger_step : table WalletEntry → table WalletEntry → Prop :=
| ls_idle t : ledger_step t t
| ls_post e t :
    we_id e = next_id t → fresh_key (we_key e) t → we_status e = Posted → covered e t →
    ledger_step t (add_row e t)
| ls_authorize e t :
    we_id e = next_id t → fresh_key (we_key e) t → we_status e = Held →
    we_amount e ≤ 0 → covered e t →
    ledger_step t (add_row e t)
| ls_capture h k t :
    h ∈ rows t → we_status h = Held → fresh_key k t →
    ledger_step t (set_row (captured h k) t)
| ls_release h rel t :
    h ∈ rows t → we_status h = Held → we_id rel = next_id t → fresh_key (we_key rel) t →
    we_status rel = Posted → we_account_id rel = we_account_id h →
    we_amount rel = - we_amount h →
    ledger_step t (add_row rel (set_row (posted_hold h) t))
| ls_post_hold h t :  (** a release whose second write failed *)
    h ∈ rows t → we_status h = Held →
    ledger_step t (set_row (posted_hold h) t).

(** The journal's well-formedness: ids and idempotency keys are unique and a
    held entry is a reservation (not positive). *)
Record ledger_wf (t : table WalletEntry) : Prop := {
  lw_table : table_wf t;
  lw_keys : unique_on we_key t;
  lw_held : ∀ e, e ∈ rows t → we_status e = Held → we_amount e ≤ 0;
}.

Lemma key_lookup_fresh k t :
  first_where (λ e, we_key e =s k) t = None ↔ fresh_key k t.
Proof.
  rewrite first_where_None. unfold fresh_key.
  split; intros H e He; specialize (H e He); [by zbool|by apply String.eqb_neq].
Qed.

(** ** Effect of each write on the account sums *)

Lemma on_account_eq e a st :
  on_account a st e = true ↔ we_account_id e = a ∧ we_status e = st.
Proof. unfold on_account. by rewrite andb_true_iff, Z.eqb_eq, bool_decide_eq_true. Qed.

Lemma posted_sum_add a e t :
  posted_sum a (add_row e t) =
    posted_sum a t + (if on_account a Posted e then we_amount e else 0).
Proof. apply sum_where_add. Qed.
Lemma held_sum_add a e t :
  held_sum a (add_row e t) =
    held_sum a t + (if on_account a Held e then we_amount e else 0).
Proof. apply sum_where_add. Qed.

Section settle.
Context (t : table WalletEntry) (h h' : WalletEntry).
Context (Hwf : table_wf t) (Hin : h ∈ rows t) (Hheld : we_status h = Held).
Context (Hid : we_id h' = we_id h) (Hacc : we_account_id h' = we_account_id h)
  (Hamt : we_amount h' = we_amount h) (Hst : we_status h' = Posted).

Lemma posted_sum_settle a :
  posted_sum a (set_row h' t) =
    posted_sum a t + (if we_account_id h =? a then we_amount h else 0).
Proof.
  unfold posted_sum. rewrite (sum_where_set _ _ h' h t) by done.
  unfold on_account. rewrite Hheld, Hst, Hacc, Hamt.
  rewrite andb_false_r, andb_true_r. cbn. lia.
Qed.
Lemma held_sum_settle a :
  held_sum a (set_row h' t) =
    held_sum a t - (if we_account_id h =? a then we_amount h else 0).
Proof.
  unfold held_sum. rewrite (sum_where_set _ _ h' h t) by done.
  unfold on_account. rewrite Hheld, Hst, Hacc.
  rewrite andb_false_r, andb_true_r. cbn. lia.
Qed.
End settle.

Lemma held_sum_nonpos a t : ledger_wf t → held_sum a t ≤ 0.
Proof.
  intros Hwf. apply zsum_nonpos. intros e He.
  destruct (on_account a Held e) eqn:Hon; [|done].
  apply on_account_eq in Hon as [_ Hst]. by apply (lw_held t Hwf).
Qed.

(** ** Steps keep the journal well-formed *)

Lemma ledger_step_wf t t' : ledger_step t t' → ledger_wf t → ledger_wf t'.
Proof.
  intros Hstep [Ht Hk Hh]. destruct Hstep as
    [t|e t Hid Hf Hst _|e t Hid Hf Hst Hneg _|h k t Hin Hst Hf|h rel t Hin Hst Hid Hf Hrel _ _|h t Hin Hst].
  - by split.
  - split; [auto with pos|apply add_row_unique; auto|].
    intros e'. rewrite elem_of_add_row. intros [He'| ->]; [by apply Hh|congruence].
  - split; [auto with pos|apply add_row_unique; auto|].
    intros e'. rewrite elem_of_add_row. intros [He'| ->]; [by apply Hh|done].
  - split; [auto with pos|apply set_row_unique; [done|]|].
    + intros e He _. by apply Hf.
    + intros e He Hs. apply elem_of_set_row in He as [[-> _]|[He _]]; [done|by apply Hh].
  - assert (table_wf (set_row (posted_hold h) t)) by auto with pos.
    split.
    + by apply add_row_wf.
    + apply add_row_unique.
      * apply set_row_unique; [done|]. intros e He Hne Heq. apply Hne. cbn in Heq.
        by rewrite (Hk e h).
      * intros e He. apply elem_of_set_row in He as [[-> _]|[He _]]; [apply (Hf h Hin)|by apply Hf].
    + intros e. rewrite elem_of_add_row. intros [He| ->]; [|congruence].
      apply elem_of_set_row in He as [[-> _]|[He _]]; [done|by apply Hh].
  - split; [auto with pos|apply set_row_unique; [done|]|].
    + intros e He Hne Heq. apply Hne. cbn in Heq. by rewrite (Hk e h).
    + intros e He Hs. apply elem_of_set_row in He as [[-> _]|[He _]]; [done|by apply Hh].
Qed.

(** ** The authorize/capture contract *)

(** What a customer is promised: for each account the settled balance and the
    amount available to spend. *)
Definition position := Z → Z * Z.
Definition positions (t : table WalletEntry) : position :=
  λ a, (posted_sum a t, avail_sum a t).

Definition solvent (p : position) : Prop := ∀ a, 0 ≤ snd (p a) ≤ fst (p a).

(** [shift a db da p]: account [a]'s balance moves by [db], its available by [da]. *)
Definition shift (a db da : Z) (p : position) : position :=
  λ b, if a =? b then (fst (p b) + db, snd (p b) + da) else p b.

Inductive spec_step : position → position → Prop :=
| spec_idle p q : (∀ a, q a = p a) → spec_step p q
| spec_post a x p q :  (** a credit, or a debit within the available amount *)
    (0 ≤ x ∨ - x ≤ snd (p a)) → (∀ b, q b = shift a x x p b) → spec_step p q
| spec_authorize a x p q :  (** reserve [x]: only the available amount drops *)
    0 ≤ x ≤ Z.max 0 (snd (p a)) → (∀ b, q b = shift a 0 (- x) p b) → spec_step p q
| spec_capture a x p q :  (** settle a reservation: only the balance drops *)
    0 ≤ x → (∀ b, q b = shift a (- x) 0 p b) → spec_step p q
| spec_release a x p q :  (** return a reservation: only the available amount grows *)
    0 ≤ x → (∀ b, q b = shift a 0 x p b) → spec_step p q.

Lemma positions_add_posted e t b :
  we_status e = Posted →
  positions (add_row e t) b = shift (we_account_id e) (we_amount e) (we_amount e) (positions t) b.
Proof.
  intros Hst. unfold positions, avail_sum, shift. rewrite posted_sum_add, held_sum_add.
  unfold on_account. rewrite Hst, andb_true_r, andb_false_r.
  destruct (we_account_id e =? b); cbn; f_equal; lia.
Qed.
Lemma positions_add_held e t b :
  we_status e = Held →
  positions (add_row e t) b = shift (we_account_id e) 0 (we_amount e) (positions t) b.
Proof.
  intros Hst. unfold positions, avail_sum, shift. rewrite posted_sum_add, held_sum_add.
  unfold on_account. rewrite Hst, andb_true_r, andb_false_r.
  destruct (we_account_id e =? b); cbn; f_equal; lia.
Qed.
Lemma positions_settle t h h' b :
  table_wf t → h ∈ rows t → we_status h = Held → we_id h' = we_id h →
  we_account_id h' = we_account_id h → we_amount h' = we_amount h → we_status h' = Posted →
  positions (set_row h' t) b = shift (we_account_id h) (we_amount h) 0 (positions t) b.
Proof.
  intros. unfold positions, avail_sum, shift.
  rewrite (posted_sum_settle t h h'), (held_sum_settle t h h') by done.
  destruct (we_account_id h =? b); cbn; f_equal; lia.
Qed.

(** Every ledger step implements a step of the contract. *)
Lemma ledger_step_refines t t' :
  ledger_step t t' → ledger_wf t → spec_step (positions t) (positions t').
Proof.
  intros Hstep Hwf. pose proof (lw_table t Hwf) as Ht. destruct Hstep as
    [t|e t Hid Hf Hst Hc|e t Hid Hf Hst Hneg Hc|h k t Hin Hst Hf|h rel t Hin Hst Hid Hf Hrel Ha Hx|h t Hin Hst].
  - by apply spec_idle.
  - apply (spec_post (we_account_id e) (we_amount e)); [done|].
    intros b. by apply positions_add_posted.
  - apply (spec_authorize (we_account_id e) (- we_amount e)).
    + destruct Hc; cbn; lia.
    + intros b. rewrite positions_add_held by done. by rewrite Z.opp_involutive.
  - pose proof (lw_held t Hwf h Hin Hst).
    apply (spec_capture (we_account_id h) (- we_amount h)); [lia|].
    intros b. rewrite (positions_settle t h), Z.opp_involutive by done. done.
  - pose proof (lw_held t Hwf h Hin Hst).
    apply (spec_release (we_account_id h) (- we_amount h)); [lia|].
    intros b. rewrite positions_add_posted by done. unfold shift at 1.
    rewrite (positions_settle t h) by done. rewrite Ha, Hx. unfold shift.
    destruct (we_account_id h =? b); cbn; [f_equal; lia|done].
  - pose proof (lw_held t Hwf h Hin Hst).
    apply (spec_capture (we_account_id h) (- we_amount h)); [lia|].
    intros b. rewrite (positions_settle t h), Z.opp_involutive by done. done.
Qed.

Lemma ledger_step_solvent t t' :
  ledger_step t t' → ledger_wf t → solvent (positions t) → solvent (positions t').
Proof.
  intros Hstep Hwf Hs. pose proof (ledger_step_wf t t' Hstep Hwf) as Hwf'.
  intros a. split; [|unfold positions, avail_sum; cbn; pose proof (held_sum_nonpos a t' Hwf'); lia].
  destruct (ledger_step_refines t t' Hstep Hwf) as
    [p q Hq|b x p q Hx Hq|b x p q Hx Hq|b x p q Hx Hq|b x p q Hx Hq];
    rewrite Hq; specialize (Hs a); unfold shift;
    try (destruct (Z.eqb_spec b a) as [->|]); cbn; lia.
Qed.

(** ** Every operation makes a ledger step *)

(** [steps m]: whatever way the call ends, the journal has made one step from
    a well-formed journal. *)
Definition steps {A} (m : W A) : Prop :=
  ∀ s, ledger_wf (entries s) → ledger_step (entries s) (entries (final (m s))).

Lemma get_or_create_entries rid cid s :
  entries (final (get_or_create_account rid cid s)) = entries s.
Proof.
  unfold get_or_create_account. unfold_m.
  destruct (first_where _ (accounts s)); cbn; by case_match.
Qed.

(** The account row comes from the SELECT after the insert: it always exists. *)
Lemma get_or_create_total rid cid s :
  ∃ a s', get_or_create_account rid cid s = Ok a s' ∧ entries s' = entries s ∧
    acc_restaurant_id a = rid ∧ acc_customer_id a = cid ∧ wallet_now s' = wallet_now s.
Proof.
  unfold get_or_create_account. unfold_m.
  destruct (first_where (same_account rid cid) (accounts s)) as [a|] eqn:Hf; cbn.
  - rewrite Hf. apply first_where_Some in Hf as [_ Hs]. unfold same_account in Hs. zbool.
    by exists a, s.
  - rewrite first_where_add, Hf. unfold same_account at 1; cbn. rewrite !Z.eqb_refl. cbn.
    eexists _, _. by split_and!.
Qed.

(** A posting flushed from a checked state. *)
Lemma flush_entry_run e s :
  (fresh_key (we_key (e (next_id (entries s)))) (entries s) ∧
   flush_entry e s = Ok (e (next_id (entries s)))
                       (with_entries (add_row (e (next_id (entries s))) (entries s)) s))
  ∨ ∃ err, flush_entry e s = Err err s.
Proof.
  unfold flush_entry. unfold_m. destruct (negb _); [by eauto|].
  destruct (first_where _ _) eqn:Hf; [by eauto|]. left. by rewrite <-key_lookup_fresh.
Qed.

(** [wrun]: advance the call in the goal through reads, writes and audits. *)
Ltac wrun :=
  unfold _existing_by_key, _order_hold, available, balance, update_entry, update_account,
    _account;
  unfold mbind, M_bind, mret, M_ret, gets, modify, raise; cbn;
  rewrite ?audit_run; cbn.

Section steps.
Context (s : wallet_db) (Hwf : ledger_wf (entries s)).

Lemma credit_step rid cid amount key ty tk note by_ :
  ledger_step (entries s) (entries (final (credit rid cid amount key ty tk note by_ s))).
Proof.
  unfold credit. destruct (amount <=q 0) eqn:Hpos; [apply ls_idle|]. wrun.
  destruct (first_where _ (entries s)) eqn:Hk; [apply ls_idle|].
  destruct (get_or_create_total rid cid s) as (a & s1 & Hrun & He & _ & _ & Hnow).
  rewrite Hrun. cbn. rewrite Hnow.
  match goal with |- context [flush_entry ?e s1] =>
    destruct (flush_entry_run e s1) as [[Hf Hfl]|[err Hfl]] end; rewrite Hfl; wrun;
    rewrite He in *; [|apply ls_idle].
  apply ls_post; [done|done|done|]. left. qbool. cbn. apply quantize_nonneg. lra.
Qed.

Lemma debit_step rid cid amount key ty note by_ :
  ledger_step (entries s) (entries (final (debit rid cid amount key ty note by_ s))).
Proof.
  unfold debit. destruct (amount <=q 0) eqn:Hpos; [apply ls_idle|]. wrun.
  destruct (first_where _ (entries s)) eqn:Hk; [apply ls_idle|].
  destruct (get_or_create_total rid cid s) as (a & s1 & Hrun & He & _ & _ & Hnow).
  rewrite Hrun. wrun.
  destruct (aed _ <q amount) eqn:Hav; cbn; rewrite ?He; [apply ls_idle|].
  match goal with |- context [flush_entry ?e s1] =>
    destruct (flush_entry_run e s1) as [[Hf Hfl]|[err Hfl]] end; rewrite Hfl; wrun;
    rewrite He in *; [|apply ls_idle].
  apply ls_post; [done|done|done|]. right. qbool. cbn.
  unfold _q. rewrite quantize_opp, Z.opp_involutive. by apply quantize_le_aed.
Qed.

Lemma hold_step aid rid amount oid key by_ :
  ledger_step (entries s) (entries (final (hold aid rid amount oid key by_ s))).
Proof.
  unfold hold. destruct (amount <=q 0) eqn:Hpos; [apply ls_idle|]. wrun.
  destruct (first_where _ (entries s)) eqn:Hk; [apply ls_idle|].
  destruct (get_row aid (accounts s)) as [acc|]; [|apply ls_idle].
  case_bool_decide; [apply ls_idle|]. wrun.
  destruct (aed _ <q amount) eqn:Hav; [apply ls_idle|].
  match goal with |- context [flush_entry ?e s] =>
    destruct (flush_entry_run e s) as [[Hf Hfl]|[err Hfl]] end; rewrite Hfl; wrun;
    [|apply ls_idle].
  assert (0 ≤ quantize amount) by (qbool; apply quantize_nonneg; lra).
  assert (quantize amount ≤ avail_sum aid (entries s)) by (qbool; by apply quantize_le_aed).
  apply ls_authorize; [done|done|done| |right]; cbn; unfold _q; rewrite quantize_opp; lia.
Qed.

Lemma order_hold_Some aid oid h :
  first_where (is_order_hold aid oid) (entries s) = Some h →
  h ∈ rows (entries s) ∧ we_status h = Held ∧ we_account_id h = aid ∧
  we_order_id h = Some oid ∧ we_type h = Hold.
Proof.
  intros [Hin Hh]%first_where_Some. unfold is_order_hold in Hh. by zbool.
Qed.

Lemma capture_step aid rid oid key by_ :
  ledger_step (entries s) (entries (final (capture aid rid oid key by_ s))).
Proof.
  unfold capture. wrun.
  destruct (first_where _ (entries s)) eqn:Hk; [apply ls_idle|].
  destruct (first_where (is_order_hold aid oid) (entries s)) as [h|] eqn:Hh; [|apply ls_idle].
  wrun. apply order_hold_Some in Hh as (? & ? & _). apply key_lookup_fresh in Hk.
  by apply ls_capture.
Qed.

Lemma release_step aid rid oid key by_ :
  ledger_step (entries s) (entries (final (release aid rid oid key by_ s))).
Proof.
  unfold release. wrun.
  destruct (first_where _ (entries s)) eqn:Hk; [apply ls_idle|].
  destruct (first_where (is_order_hold aid oid) (entries s)) as [h|] eqn:Hh; [|apply ls_idle].
  apply order_hold_Some in Hh as (? & ? & ? & _). apply key_lookup_fresh in Hk. wrun.
  match goal with |- context [flush_entry ?e ?s1] =>
    destruct (flush_entry_run e s1) as [[Hf Hfl]|[err Hfl]] end; rewrite Hfl; wrun.
  - by apply ls_release.
  - by apply ls_post_hold.
Qed.

Lemma freeze_step aid rid reason by_ :
  ledger_step (entries s) (entries (final (freeze aid rid reason by_ s))).
Proof. unfold freeze. wrun. destruct (get_row aid (accounts s)); apply ls_idle. Qed.

Lemma unfreeze_step aid rid by_ :
  ledger_step (entries s) (entries (final (unfreeze aid rid by_ s))).
Proof. unfold unfreeze. wrun. destruct (get_row aid (accounts s)); apply ls_idle. Qed.

Lemma check_and_flag_step cfg rid cid by_ :
  ledger_step (entries s) (entries (final (check_and_flag cfg rid cid by_ s))).
Proof.
  unfold check_and_flag. destruct (_ || _); [apply ls_idle|]. wrun.
  destruct (first_where _ (accounts s)) as [a|]; [|apply ls_idle].
  case_bool_decide; [apply ls_idle|]. unfold refund_velocity. wrun.
  destruct (negb _); [apply ls_idle|]. unfold freeze. wrun.
  destruct (get_row _ (accounts s)); apply ls_idle.
Qed.
End steps.

(** ** Reachable ledgers

    The value-moving and account calls of the service, as a client issues them;
    a call that raises leaves its partial writes (the caller may also roll back,
    which returns to a ledger already reached). *)

Inductive wallet_call :=
| Credit (rid cid : Z) (amount : Q) (key : string) (ty : entry_type)
    (tk : option Z) (note : option string) (by_ : string)
| Debit (rid cid : Z) (amount : Q) (key : string) (ty : entry_type)
    (note : option string) (by_ : string)
| HoldCall (aid rid : Z) (amount : Q) (oid : Z) (key by_ : string)
| Capture (aid rid oid : Z) (key by_ : string)
| Release (aid rid oid : Z) (key by_ : string)
| Freeze (aid rid : Z) (reason by_ : string)
| Unfreeze (aid rid : Z) (by_ : string)
| Flag (cfg : abuse_settings) (rid cid : Z) (by_ : string)
| Tick (now : Z).  (** a later transaction *)

Definition after (c : wallet_call) (s : wallet_db) : wallet_db :=
  match c with
  | Credit rid cid x k ty tk n b => final (credit rid cid x k ty tk n b s)
  | Debit rid cid x k ty n b => final (debit rid cid x k ty n b s)
  | HoldCall aid rid x oid k b => final (hold aid rid x oid k b s)
  | Capture aid rid oid k b => final (capture aid rid oid k b s)
  | Release aid rid oid k b => final (release aid rid oid k b s)
  | Freeze aid rid r b => final (freeze aid rid r b s)
  | Unfreeze aid rid b => final (unfreeze aid rid b s)
  | Flag cfg rid cid b => final (check_and_flag cfg rid cid b s)
  | Tick now => {| accounts := accounts s; entries := entries s;
                   wallet_audit := wallet_audit s; wallet_now := now |}
  end.

Definition empty_wallet : wallet_db :=
  {| accounts := empty_table; entries := empty_table; wallet_audit := []; wallet_now := 0 |}.

Inductive reachable : wallet_db → Prop :=
| reach_empty : reachable empty_wallet
| reach_call c s : reachable s → reachable (after c s).

Lemma after_step c s : ledger_wf (entries s) → ledger_step (entries s) (entries (after c s)).
Proof.
  intros Hwf. destruct c; cbn [after];
    eauto using credit_step, debit_step, hold_step, capture_step, release_step,
      freeze_step, unfreeze_step, check_and_flag_step, ls_idle.
Qed.

Lemma empty_wallet_wf : ledger_wf (entries empty_wallet).
Proof. split; cbn; [apply empty_table_wf|intros ?? []%elem_of_nil|intros ? []%elem_of_nil]. Qed.

Lemma reachable_wf s : reachable s → ledger_wf (entries s) ∧ solvent (positions (entries s)).
Proof.
  induction 1 as [|c s Hr [IHwf IHs]].
  - split; [apply empty_wallet_wf|]. intros a. by rewrite (eq_refl : positions (entries empty_wallet) a = (0, 0)).
  - pose proof (after_step c s IHwf) as Hstep. split.
    + by eapply ledger_step_wf.
    + by eapply ledger_step_solvent.
Qed.

(** ** Properties *)

(** C1. Solvency: in every ledger the service can reach by crediting, debiting,
    holding, capturing, releasing, freezing and flagging accounts, in any order
    and with calls that raise along the way, every account has
    [0 <= available <= balance]. *)
Theorem wallet_never_overdrawn s a :
  reachable s →
  0 ≤ avail_sum a (entries s) ≤ posted_sum a (entries s).
Proof. intros Hr. apply (reachable_wf s Hr). Qed.


(** ** The journal is append-only *)

Lemma ledger_step_keeps_posted t t' e :
  ledger_step t t' → ledger_wf t → e ∈ rows t → we_status e = Posted → e ∈ rows t'.
Proof.
  intros Hstep [Ht Hk Hh] He Hst.
  assert (∀ h h' : WalletEntry, h ∈ rows t → we_status h = Held → we_id h' = we_id h →
            e ∈ rows (set_row h' t)) as Hset.
  { intros h h' Hin Hs Hid. pose proof (elem_of_set_row_2 h' e t He) as Hin'.
    destruct (row_id e =? row_id h') eqn:Heq; [|done]. zbool.
    change (we_id e = we_id h') in Heq. rewrite Hid in Heq.
    rewrite (wf_unique t Ht e h) in Hst by done. congruence. }
  destruct Hstep; rewrite ?elem_of_add_row; eauto.
Qed.

(** [after_all cs s]: a sequence of calls. *)
Definition after_all (cs : list wallet_call) (s : wallet_db) : wallet_db :=
  fold_left (λ s c, after c s) cs s.

Lemma after_all_reachable cs s : reachable s → reachable (after_all cs s).
Proof. revert s. induction cs as [|c cs IH]; intros s Hs; [done|]. by apply IH, reach_call. Qed.

Lemma after_all_keeps_posted cs s e :
  reachable s → e ∈ rows (entries s) → we_status e = Posted →
  e ∈ rows (entries (after_all cs s)).
Proof.
  revert s. induction cs as [|c cs IH]; intros s Hs He Hst; [done|].
  apply IH; [by apply reach_call| |done].
  destruct (reachable_wf s Hs) as [Hwf _].
  by apply (ledger_step_keeps_posted (entries s) _ e (after_step c s Hwf)).
Qed.

(** The idempotency lookup finds the entry that holds the key. *)
Lemma existing_by_key_wf t e :
  ledger_wf t → e ∈ rows t → first_where (λ e', we_key e' =s we_key e) t = Some e.
Proof.
  intros Hwf Hin. apply first_where_unique; [done|by apply String.eqb_refl|].
  intros e' Hin' Hk. zbool. by apply (lw_keys t Hwf).
Qed.

Lemma credit_Ok rid cid x k ty tk n b s e s' :
  credit rid cid x k ty tk n b s = Ok e s' →
  (0 < x)%Q ∧ we_key e = k ∧ e ∈ rows (entries s') ∧
  (fresh_key k (entries s) →
   we_status e = Posted ∧ we_amount e = quantize x ∧
   entries s' = add_row e (entries s)).
Proof.
  unfold credit. destruct (x <=q 0) eqn:Hpos; [discriminate|]. qbool. wrun.
  destruct (first_where _ (entries s)) as [e0|] eqn:Hk.
  - intros [= -> ->]. apply first_where_Some in Hk as [Hin Hkey]. zbool.
    split_and!; [done..|]. intros Hf. by destruct (Hf e).
  - destruct (get_or_create_total rid cid s) as (a & s1 & Hrun & He & _ & _ & Hnow).
    rewrite Hrun. cbn.
    match goal with |- context [flush_entry ?f s1] =>
      destruct (flush_entry_run f s1) as [[Hf Hfl]|[err Hfl]] end; rewrite Hfl; wrun;
      [|discriminate].
    intros [= <- <-]. cbn. rewrite He. split_and!; [done..|rewrite elem_of_add_row; by right|done].
Qed.

(** Posted entries are immutable: whatever calls follow, a posted entry of the
    journal stays in it, unchanged. *)
Theorem journal_append_only cs s e :
  reachable s → e ∈ rows (entries s) → we_status e = Posted →
  e ∈ rows (entries (after_all cs s)).
Proof. apply after_all_keeps_posted. Qed.

(** A credit is applied once: after it has returned an entry, any sequence of
    other calls, and the same request again (a retry, a webhook redelivery), the
    replay returns that same entry and changes nothing. *)
Theorem credit_replay_noop rid cid x k ty tk n b s e s1 cs :
  reachable s → fresh_key k (entries s) →
  credit rid cid x k ty tk n b s = Ok e s1 →
  let s2 := after_all cs s1 in
  credit rid cid x k ty tk n b s2 = Ok e s2.
Proof.
  intros Hr Hf Hrun s2.
  pose proof (reach_call (Credit rid cid x k ty tk n b) s Hr) as Hr1.
  cbn in Hr1. rewrite Hrun in Hr1. cbn in Hr1.
  destruct (credit_Ok _ _ _ _ _ _ _ _ _ _ _ Hrun) as (Hpos & Hkey & Hin & Hrest).
  destruct (Hrest Hf) as (Hst & _ & _).
  assert (e ∈ rows (entries s2)) as Hin2 by by apply after_all_keeps_posted.
  destruct (reachable_wf s2) as [Hwf2 _]; [by apply after_all_reachable|].
  unfold credit. destruct (x <=q 0) eqn:Hx; [qbool; lra|]. wrun.
  by rewrite <-Hkey, existing_by_key_wf.
Qed.

(** ** Effects of a spend *)

Lemma hold_Ok aid rid x oid k b s h s' :
  hold aid rid x oid k b s = Ok h s' → fresh_key k (entries s) →
  (0 < x)%Q ∧ (x <= aed (avail_sum aid (entries s)))%Q ∧
  we_status h = Held ∧ we_type h = Hold ∧ we_amount h = - quantize x ∧
  we_account_id h = aid ∧ we_order_id h = Some oid ∧ we_id h = next_id (entries s) ∧
  we_key h = k ∧ entries s' = add_row h (entries s).
Proof.
  intros Hrun Hf. revert Hrun. unfold hold. destruct (x <=q 0) eqn:Hpos; [discriminate|]. wrun.
  apply key_lookup_fresh in Hf. rewrite Hf.
  destruct (get_row aid (accounts s)) as [acc|]; [|discriminate].
  case_bool_decide; [discriminate|]. wrun.
  destruct (aed _ <q x) eqn:Hav; [discriminate|].
  match goal with |- context [flush_entry ?f s] =>
    destruct (flush_entry_run f s) as [[Hfr Hfl]|[err Hfl]] end; rewrite Hfl; wrun;
    [|discriminate].
  intros [= <- <-]. cbn. qbool. split_and!; try done. by unfold _q; rewrite quantize_opp.
Qed.

Lemma order_hold_only aid oid t h :
  ledger_wf t → h ∈ rows t → is_order_hold aid oid h = true →
  (∀ h', h' ∈ rows t → is_order_hold aid oid h' = true → h' = h) →
  first_where (is_order_hold aid oid) t = Some h.
Proof. intros. by apply first_where_unique. Qed.

Lemma shift_shift a db da db' da' p b :
  shift a db da (shift a db' da' p) b = shift a (db + db') (da + da') p b.
Proof. unfold shift. destruct (a =? b); cbn; [f_equal; lia|done]. Qed.
Lemma shift_ext a db da p q b : p b = q b → shift a db da p b = shift a db da q b.
Proof. unfold shift. by intros ->. Qed.
Lemma shift_0 a p b : shift a 0 0 p b = p b.
Proof. unfold shift. destruct (a =? b), (p b); cbn; [f_equal; lia|done]. Qed.

(** A session in which the order has no active hold yet. *)
Definition no_hold (aid oid : Z) (t : table WalletEntry) : Prop :=
  ∀ h, h ∈ rows t → is_order_hold aid oid h = false.

Lemma hold_then_lookup aid rid x oid k b s h s' :
  ledger_wf (entries s) → no_hold aid oid (entries s) → fresh_key k (entries s) →
  hold aid rid x oid k b s = Ok h s' →
  ledger_wf (entries s') ∧ h ∈ rows (entries s') ∧
  first_where (is_order_hold aid oid) (entries s') = Some h ∧
  (∀ c, positions (entries s') c = shift aid 0 (- quantize x) (positions (entries s)) c).
Proof.
  intros Hwf Hno Hf Hrun.
  destruct (hold_Ok _ _ _ _ _ _ _ _ _ Hrun Hf) as
    (Hpos & Hav & Hst & Hty & Hamt & Ha & Ho & Hid & Hk & He).
  assert (ledger_wf (entries s')) as Hwf'.
  { replace s' with (final (hold aid rid x oid k b s)) by by rewrite Hrun.
    eapply ledger_step_wf; [by apply hold_step|done]. }
  assert (h ∈ rows (entries s')) as Hin by (rewrite He, elem_of_add_row; by right).
  split_and!; [done|done| |].
  - apply order_hold_only; [done|done| |].
    + unfold is_order_hold. rewrite Ha, Ho, Hty, Hst, Z.eqb_refl. by rewrite !bool_decide_true.
    + intros h'. rewrite He, elem_of_add_row. intros [Hin'| ->] Hh; [|done].
      rewrite (Hno h' Hin') in Hh. done.
  - intros c. rewrite He, positions_add_held by done. by rewrite Ha, Hamt.
Qed.

(** Authorize then capture: a hold of [x] on an order that has none, then its
    capture, leaves the account's balance and available amount both lower by
    exactly the quantized [x], and no other account moved. *)
Theorem hold_capture_settles aid rid x oid k k' b b' s h s1 d s2 :
  ledger_wf (entries s) → no_hold aid oid (entries s) →
  fresh_key k (entries s) → hold aid rid x oid k b s = Ok h s1 →
  fresh_key k' (entries s1) → capture aid rid oid k' b' s1 = Ok d s2 →
  we_amount d = - quantize x ∧
  ∀ c, positions (entries s2) c =
       shift aid (- quantize x) (- quantize x) (positions (entries s)) c.
Proof.
  intros Hwf Hno Hf Hhold Hf' Hcap.
  destruct (hold_Ok _ _ _ _ _ _ _ _ _ Hhold Hf) as (_ & _ & Hst & _ & Hamt & Ha & _).
  destruct (hold_then_lookup _ _ _ _ _ _ _ _ _ Hwf Hno Hf Hhold) as (Hwf1 & Hin & Hfirst & Hp).
  revert Hcap. unfold capture. wrun. apply key_lookup_fresh in Hf'. rewrite Hf', Hfirst. wrun.
  intros [= <- <-]. cbn. split; [done|]. intros c.
  rewrite (positions_settle _ h) by (done || apply Hwf1). rewrite Ha, Hamt.
  rewrite (shift_ext _ _ _ _ _ _ (Hp c)), shift_shift. f_equal; lia.
Qed.

(** Authorize then release: a hold followed by its release restores every
    account's balance and available amount exactly. *)
Theorem hold_release_restores aid rid x oid k k' b b' s h s1 r s2 :
  ledger_wf (entries s) → no_hold aid oid (entries s) →
  fresh_key k (entries s) → hold aid rid x oid k b s = Ok h s1 →
  fresh_key k' (entries s1) → release aid rid oid k' b' s1 = Ok r s2 →
  r ≠ None ∧ ∀ c, positions (entries s2) c = positions (entries s) c.
Proof.
  intros Hwf Hno Hf Hhold Hf' Hrel.
  destruct (hold_Ok _ _ _ _ _ _ _ _ _ Hhold Hf) as (_ & _ & Hst & _ & Hamt & Ha & _).
  destruct (hold_then_lookup _ _ _ _ _ _ _ _ _ Hwf Hno Hf Hhold) as (Hwf1 & Hin & Hfirst & Hp).
  revert Hrel. unfold release. wrun. apply key_lookup_fresh in Hf'. rewrite Hf', Hfirst. wrun.
  match goal with |- context [flush_entry ?f ?s0] =>
    destruct (flush_entry_run f s0) as [[Hfr Hfl]|[err Hfl]] end; rewrite Hfl; wrun;
    [|discriminate].
  intros [= <- <-]. cbn. split; [done|]. intros c.
  rewrite positions_add_posted by done. cbn. etransitivity.
  { apply shift_ext. rewrite (positions_settle _ h) by (done || apply Hwf1).
    apply shift_ext, Hp. }
  rewrite Ha, Hamt, !shift_shift, Z.opp_involutive.
  etransitivity; [|apply (shift_0 aid)]. f_equal; lia.
Qed.

(** A frozen account cannot be spent from: a hold with a new key raises
    [AccountFrozen] and writes nothing. *)
Theorem frozen_blocks_hold aid rid x oid k b s acc :
  (0 < x)%Q → fresh_key k (entries s) →
  get_row aid (accounts s) = Some acc → acc_status acc = Frozen →
  hold aid rid x oid k b s = Err (AccountFrozen aid) s.
Proof.
  intros Hx Hf Ha Hfr. unfold hold. destruct (x <=q 0) eqn:Hx'; [qbool; lra|]. wrun.
  apply key_lookup_fresh in Hf. by rewrite Hf, Ha, bool_decide_true.
Qed.

(** ** Expiry, reconciliation and abuse control *)

(** The expiry sweep on one account: when its oldest posted credit has lapsed,
    its balance is positive and the day's key is new, it posts exactly the
    negated balance: the balance becomes zero and what is left available is the
    (non-positive) sum of the account's active holds. *)
Theorem expire_account_zeroes rid ttl cutoff acc n s t0 m s' :
  ledger_wf (entries s) →
  oldest_credit (acc_id acc) (entries s) = Some t0 → t0 ≤ cutoff →
  0 < posted_sum (acc_id acc) (entries s) →
  fresh_key ("wallet:expiry:" +:+ pretty (acc_id acc) +:+ ":" +:+ isoformat (date_of cutoff)) (entries s) →
  expire_account rid ttl cutoff acc n s = Ok m s' →
  m = n + 1 ∧ posted_sum (acc_id acc) (entries s') = 0 ∧
  avail_sum (acc_id acc) (entries s') = held_sum (acc_id acc) (entries s) ∧
  held_sum (acc_id acc) (entries s) ≤ 0.
Proof.
  intros Hwf Hold Ht Hpos Hf. unfold expire_account. wrun. rewrite Hold.
  rewrite (proj2 (Z.ltb_ge _ _) Ht). wrun. rewrite (proj2 (Z.leb_gt _ _) Hpos).
  apply key_lookup_fresh in Hf. wrun. rewrite Hf. cbn.
  match goal with |- context [flush_entry ?f ?s0] =>
    destruct (flush_entry_run f s0) as [[Hfr Hfl]|[err Hfl]] end; rewrite Hfl; wrun;
    [|discriminate].
  intros [= <- <-]. cbn. unfold avail_sum. rewrite posted_sum_add, held_sum_add.
  unfold on_account; cbn. rewrite Z.eqb_refl, bool_decide_true, bool_decide_false by done. cbn.
  pose proof (held_sum_nonpos (acc_id acc) _ Hwf). lia.
Qed.

Definition demo_credited : wallet_db :=
  after (Credit 1 7 (100 # 1) "c1" Refund_credit None None "mgr") empty_wallet.

(** Expiry looks at the balance, not at what is available: a customer with
    AED 100 of lapsed credit and AED 30 of it held for an order loses the whole
    100, and capturing the order then leaves the balance at AED -30. *)
Theorem expiry_ignores_holds :
  let s := after (HoldCall 1 1 (30 # 1) 5 "h1" "sys") demo_credited in
  let s' := final (expire_credits 1 30 (days 400) s) in
  let s'' := after (Capture 1 1 5 "cap" "sys") s' in
  avail_sum 1 (entries s) = 7000 ∧ avail_sum 1 (entries s') = -3000 ∧
  posted_sum 1 (entries s'') = -3000.
Proof. vm_compute. by split_and!. Qed.

(** Capture re-keys the hold entry, so the hold's own key is forgotten: after
    hold and capture of AED 30, a replay of the same hold request is accepted as
    a new one and reserves AED 30 again. *)
Theorem hold_replay_after_capture_holds_again :
  let s1 := after (HoldCall 1 1 (30 # 1) 5 "h1" "sys") demo_credited in
  let s2 := after (Capture 1 1 5 "cap" "sys") s1 in
  let s3 := after (HoldCall 1 1 (30 # 1) 5 "h1" "sys") s2 in
  after (HoldCall 1 1 (30 # 1) 5 "h1" "sys") s1 = s1 ∧
  avail_sum 1 (entries s2) = 7000 ∧ avail_sum 1 (entries s3) = 4000.
Proof. vm_compute. by split_and!. Qed.

Lemma group_sums_total rid t :
  zsum snd (group_sums rid t) = sum_where (tenant_posted rid) we_amount t.
Proof.
  unfold group_sums.
  assert (∀ l, zsum snd (map (λ ty, (ty, sum_where (λ e, tenant_posted rid e && bool_decide (we_type e = ty)) we_amount t))
            (List.filter (λ ty, 0 <? count_where (λ e, tenant_posted rid e && bool_decide (we_type e = ty)) t) l))
          = zsum (λ ty, sum_where (λ e, tenant_posted rid e && bool_decide (we_type e = ty)) we_amount t) l) as ->.
  { induction l as [|ty l IH]; [done|]. cbn [List.filter]. destruct (0 <? _) eqn:Hc; cbn [map zsum].
    - rewrite IH. done.
    - rewrite IH. zbool. unfold sum_where at 2. rewrite zsum_count_zero; [done|done]. }
  unfold sum_where. cbn [all_entry_types zsum]. induction (rows t) as [|e es IH]; [done|].
  cbn [zsum]. rewrite <-IH. destruct (tenant_posted rid e); cbn; [|lia].
  destruct (we_type e); repeat (case_bool_decide; try congruence); lia.
Qed.

(** The reconciliation report cannot see any drift: its control total regroups
    the very rows the liability sums, so for every ledger, corrupt ones
    included, the drift it reports is zero. *)
Theorem reconcile_drift_always_zero rid s :
  drift_aed <$> value (reconcile_tenant rid s) = Some 0 ∧ final (reconcile_tenant rid s) = s.
Proof.
  unfold reconcile_tenant. wrun. rewrite group_sums_total. split; [f_equal; lia|done].
Qed.

(** The velocity check freezes exactly the active accounts over a configured
    cap: it returns true, with the account frozen, if and only if the check is
    enabled, the customer's account exists and is active, and its refunds of the
    window exceed a cap; otherwise it returns false and writes nothing. *)
Theorem check_and_flag_freezes_iff_over cfg rid cid b s :
  table_wf (accounts s) →
  let enabled := negb ((wallet_refund_window_days cfg <=? 0)
                       || ((wallet_refund_max_count cfg <=? 0) && (wallet_refund_max_aed cfg <=q 0))) in
  let v a := value (refund_velocity (acc_id a) (wallet_refund_window_days cfg) (wallet_now s) s) in
  match check_and_flag cfg rid cid b s with
  | Ok true s' => ∃ a, enabled = true ∧ first_where (same_account rid cid) (accounts s) = Some a ∧
      acc_status a = Active ∧ (over_velocity cfg <$> v a) = Some true ∧
      accounts s' = set_row (with_status Frozen a) (accounts s)
  | Ok false s' => s' = s ∧
      (enabled = false ∨ first_where (same_account rid cid) (accounts s) = None ∨
       ∃ a, first_where (same_account rid cid) (accounts s) = Some a ∧
         (acc_status a = Frozen ∨ (over_velocity cfg <$> v a) = Some false))
  | Err _ _ => False
  end.
Proof.
  intros Hwf enabled v. unfold check_and_flag. fold enabled.
  destruct (_ || _) eqn:Hen; subst enabled; rewrite ?Hen in *; cbn; [by split; [|left]|].
  wrun. destruct (first_where _ (accounts s)) as [a|] eqn:Ha; [|by split; [|right; left]].
  case_bool_decide as Hst; [cbn; split; [done|right; right; eauto]|].
  unfold v, refund_velocity. wrun. set (vv := {| v_count := _; v_total_aed := _ |}).
  destruct (over_velocity cfg vv) eqn:Hov; cbn.
  - unfold freeze. wrun. apply first_where_Some in Ha as Ha'. destruct Ha' as [Hin _].
    pose proof (get_row_wf (accounts s) a Hwf Hin) as Hg.
    change (row_id a) with (acc_id a) in Hg. rewrite Hg. wrun.
    exists a. split_and!; [done|done|by destruct (acc_status a)|by f_equal|done].
  - split; [done|right; right]. exists a. split; [done|right; by f_equal].
Qed.

(** ** Witnesses: the hypotheses hold on concrete ledgers *)

Definition demo_held : wallet_db := after (HoldCall 1 1 (30 # 1) 5 "h1" "sys") demo_credited.

Lemma demo_credited_reachable : reachable demo_credited.
Proof. apply reach_call, reach_empty. Qed.
Lemma demo_held_reachable : reachable demo_held.
Proof. apply reach_call, demo_credited_reachable. Qed.
Lemma demo_credited_wf : ledger_wf (entries demo_credited).
Proof. apply (reachable_wf _ demo_credited_reachable). Qed.
Lemma demo_credited_no_hold : no_hold 1 5 (entries demo_credited).
Proof. unfold no_hold. rewrite <-(first_where_None (is_order_hold 1 5)). reflexivity. Qed.

(** The entry of the demo credit, and of the demo hold. *)
Definition demo_credit_entry : WalletEntry :=
  default (captured (Build_WalletEntry 0 0 0 0 Hold Held "" None None None None "" 0) "")
    (get_row 1 (entries demo_credited)).
Definition demo_hold_entry : WalletEntry := default demo_credit_entry (get_row 2 (entries demo_held)).

Example wallet_never_overdrawn_witness :
  0 ≤ avail_sum 1 (entries demo_held) ≤ posted_sum 1 (entries demo_held) ∧
  avail_sum 1 (entries demo_held) = 7000.
Proof.
  split; [apply wallet_never_overdrawn; exact demo_held_reachable|vm_compute; reflexivity].
Defined.


Example journal_append_only_witness :
  demo_credit_entry ∈ rows (entries (after_all
    [HoldCall 1 1 (30 # 1) 5 "h1" "sys"; Capture 1 1 5 "cap" "sys"] demo_credited)).
Proof.
  apply journal_append_only; [exact demo_credited_reachable| |reflexivity].
  vm_compute. left.
Defined.

Example credit_replay_noop_witness :
  let s2 := after_all [HoldCall 1 1 (30 # 1) 5 "h1" "sys"; Capture 1 1 5 "cap" "sys"] demo_credited in
  credit 1 7 (100 # 1) "c1" Refund_credit None None "mgr" s2 = Ok demo_credit_entry s2.
Proof.
  apply (credit_replay_noop 1 7 (100 # 1) "c1" Refund_credit None None "mgr" empty_wallet).
  - exact reach_empty.
  - apply key_lookup_fresh. reflexivity.
  - vm_compute. reflexivity.
Defined.

Example hold_capture_settles_witness :
  positions (entries (after (Capture 1 1 5 "cap" "sys") demo_held)) 1 =
  shift 1 (-3000) (-3000) (positions (entries demo_credited)) 1.
Proof.
  apply (hold_capture_settles 1 1 (30 # 1) 5 "h1" "cap" "sys" "sys" demo_credited
    demo_hold_entry demo_held (captured demo_hold_entry "cap")).
  - exact demo_credited_wf.
  - exact demo_credited_no_hold.
  - apply key_lookup_fresh. reflexivity.
  - vm_compute. reflexivity.
  - apply key_lookup_fresh. reflexivity.
  - vm_compute. reflexivity.
Defined.

Example hold_release_restores_witness :
  positions (entries (after (Release 1 1 5 "rel" "sys") demo_held)) 1 =
  positions (entries demo_credited) 1.
Proof.
  eapply (hold_release_restores 1 1 (30 # 1) 5 "h1" "rel" "sys" "sys" demo_credited
    demo_hold_entry demo_held).
  - exact demo_credited_wf.
  - exact demo_credited_no_hold.
  - apply key_lookup_fresh. reflexivity.
  - vm_compute. reflexivity.
  - apply key_lookup_fresh. reflexivity.
  - vm_compute. reflexivity.
Defined.

Example frozen_blocks_hold_witness :
  let s := after (Freeze 1 1 "abuse" "mgr") demo_credited in
  hold 1 1 (30 # 1) 5 "h1" "sys" s = Err (AccountFrozen 1) s.
Proof.
  apply (frozen_blocks_hold 1 1 (30 # 1) 5 "h1" "sys" _ (Build_WalletAccount 1 1 7 Frozen)).
  - reflexivity.
  - apply key_lookup_fresh. reflexivity.
  - reflexivity.
  - reflexivity.
Defined.

Example expire_account_zeroes_witness :
  let s := final (expire_account 1 30 (days 370) (Build_WalletAccount 1 1 7 Active) 0 demo_held) in
  posted_sum 1 (entries s) = 0 ∧ avail_sum 1 (entries s) = -3000.
Proof.
  edestruct (expire_account_zeroes 1 30 (days 370) (Build_WalletAccount 1 1 7 Active) 0 demo_held)
    as (_ & Hb & Ha & _).
  - apply (reachable_wf _ demo_held_reachable).
  - vm_compute. reflexivity.
  - vm_compute. discriminate.
  - vm_compute. reflexivity.
  - apply key_lookup_fresh. reflexivity.
  - vm_compute. reflexivity.
  - split; [exact Hb|etransitivity; [exact Ha|vm_compute; reflexivity]].
Defined.

Definition demo_caps : abuse_settings :=
  {| wallet_refund_window_days := 7; wallet_refund_max_count := 0; wallet_refund_max_aed := 50 # 1 |}.

Example check_and_flag_freezes_iff_over_witness :
  value (check_and_flag demo_caps 1 7 "system" demo_held) = Some true ∧
  ∃ a, first_where (same_account 1 7) (accounts demo_held) = Some a ∧ acc_status a = Active.
Proof.
  pose proof (check_and_flag_freezes_iff_over demo_caps 1 7 "system" demo_held) as H.
  assert (table_wf (accounts demo_held)) as Hwf.
  { apply (add_row_wf (Build_WalletAccount 1 1 7 Active) empty_table); [apply empty_table_wf|reflexivity]. }
  specialize (H Hwf).
  destruct (check_and_flag demo_caps 1 7 "system" demo_held) as [[] s'|e s'] eqn:Hrun.
  - destruct H as (a & _ & Hf & Ha & _). split; [reflexivity|eauto].
  - vm_compute in Hrun. discriminate.
  - contradiction.
Defined.
