(* ===== verification/Coupons.v ===== *)
(** * Coupons ([app.coupons])

    Apology coupons (one per late order, minted by the SLA monitor) and campaign
    coupons (redeemable by many customers under limits) share one table; every use
    of a campaign coupon is a row of the redemption ledger.  The file models
    [coupons/service.py] and [coupons/models.py]. *)

From S2P Require Import Prelude Money Db AuditTrail Clock.

(** ** Data *)

Inductive coupon_kind := Single_use | Multi_use.
#[global] Instance coupon_kind_eq_dec : EqDecision coupon_kind.
Proof. solve_decision. Defined.
Inductive discount_kind := Fixed | Percent.
#[global] Instance discount_kind_eq_dec : EqDecision discount_kind.
Proof. solve_decision. Defined.
Inductive coupon_status := CActive | CPaused | CExhausted | CExpired | CIssued | CRedeemed.
#[global] Instance coupon_status_eq_dec : EqDecision coupon_status.
Proof. solve_decision. Defined.
Inductive coupon_scope := Whole_order | Delivery_fee | Specific_dishes.

Record Coupon := {
  c_id : Z;
  c_restaurant_id : Z;
  c_customer_id : option Z;
  c_order_id : option Z;
  c_code : string;
  c_kind : coupon_kind;
  c_discount_type : discount_kind;
  c_discount_aed : option Z;       (** cents *)
  c_percent : option Z;            (** hundredths of a percent *)
  c_max_discount_aed : option Z;
  c_min_order_aed : Z;
  c_applies_to : coupon_scope;
  c_per_customer_limit : option Z;
  c_total_redemption_limit : option Z;
  c_status : coupon_status;
  c_valid_from : option Z;
  c_expires_at : option Z;
  c_created_by : option string;
  c_redeemed_at : option Z;
  c_redeemed_on_order_id : option Z;
}.
#[global] Instance Coupon_row : Row Coupon := c_id.

Record CouponRedemption := {
  cr_id : Z;
  cr_coupon_id : Z;
  cr_restaurant_id : Z;
  cr_customer_id : Z;
  cr_order_id : Z;
  cr_discount_applied_aed : Z;
  cr_key : string;
}.
#[global] Instance CouponRedemption_row : Row CouponRedemption := cr_id.

Record coupon_db := {
  coupons : table Coupon;
  redemptions : table CouponRedemption;
  coupon_audit : list audit_row;
  coupon_now : Z;
}.
Definition with_coupons (t : table Coupon) (s : coupon_db) : coupon_db :=
  {| coupons := t; redemptions := redemptions s; coupon_audit := coupon_audit s; coupon_now := coupon_now s |}.
Definition with_redemptions (t : table CouponRedemption) (s : coupon_db) : coupon_db :=
  {| coupons := coupons s; redemptions := t; coupon_audit := coupon_audit s; coupon_now := coupon_now s |}.
#[global] Instance coupon_has_audit : HasAudit coupon_db :=
  {| audit_log := coupon_audit;
     put_audit l s := {| coupons := coupons s; redemptions := redemptions s;
                         coupon_audit := l; coupon_now := coupon_now s |} |}.

(** [CouponError], one constructor per place that raises it, and the database's
    own errors. *)
Inductive coupon_error :=
| InvalidDiscountType (type : string)
| DiscountNotPositive
| PercentOver100
| UnknownCoupon (code : string)
| NotRedeemable (code : string) (status : coupon_status)
| NotYetValid (code : string)
| Expired (code : string)
| BelowMinimum (subtotal minimum : Z)
| AlreadyUsed (code : string)
| LimitReached (code : string)
| CustomerLimitReached (code : string)
| CouponIntegrityError
| OutOfCodes.  (** no unused code among the draws supplied to the model *)

Abbreviation CM := (M coupon_db coupon_error).

(** ** Codes *)

Definition DEFAULT_VALIDITY_DAYS : Z := 30.
Definition _CODE_ALPHABET : string := "ABCDEFGHJKMNPQRSTUVWXYZ23456789".

(** [_generate_code]: [token] is the random upper-case hex token. *)
Definition _generate_code (restaurant_id : Z) (token : string) : string :=
  "SORRY-" +:+ pretty restaurant_id +:+ "-" +:+ token.

(** [secrets.choice] of an alphabet: the [i]-th character, [i] a random draw. *)
Definition choice (draw : nat) : Ascii.ascii :=
  default Ascii.Space (String.get (draw mod String.length _CODE_ALPHABET) _CODE_ALPHABET).
Fixpoint code_body (draws : list nat) : string :=
  match draws with [] => "" | d :: ds => String (choice d) (code_body ds) end.
Definition generate_code (prefix : string) (draws : list nat) : string :=
  prefix +:+ "-" +:+ code_body draws.

(** The retry loop of both mints: keep the first of the generated codes that is
    not taken.  [gen i] is the [i]-th code drawn. *)
Fixpoint draw_code (fuel : nat) (taken : string → bool) (gen : nat → string) (i : nat)
    : option string :=
  match fuel with
  | O => None
  | S fuel' => if taken (gen i) then draw_code fuel' taken gen (S i) else Some (gen i)
  end.

Definition code_taken (t : table Coupon) (code : string) : bool :=
  match first_where (λ c, c_code c =s code) t with Some _ => true | None => false end.
Definition tenant_code (restaurant_id : Z) (code : string) (c : Coupon) : bool :=
  (c_restaurant_id c =? restaurant_id) && (c_code c =s code).
Definition tenant_code_taken (restaurant_id : Z) (t : table Coupon) (code : string) : bool :=
  match first_where (tenant_code restaurant_id code) t with Some _ => true | None => false end.

(** Enough draws for a table of this size when no draw repeats. *)
Definition code_fuel (t : table Coupon) : nat := S (length (rows t)).

(** [session.add(coupon); flush()]: UNIQUE(restaurant_id, code). *)
Definition flush_coupon (mk : Z → Coupon) : CM Coupon :=
  t ← gets coupons;
  let row := mk (next_id t) in
  if tenant_code_taken (c_restaurant_id row) t (c_code row) then raise CouponIntegrityError
  else modify (with_coupons (add_row row t)) ≫= λ _, mret row.

Definition update_coupon (row : Coupon) : CM unit :=
  modify (λ s, with_coupons (set_row row (coupons s)) s).

(** ** Apology coupons *)

Definition issue_coupon (tokens : nat → string) (restaurant_id : Z) (customer_id : Z)
    (order_id : option Z) (discount_aed : Z) (validity_days : Z) : CM Coupon :=
  t ← gets coupons;
  match draw_code (code_fuel t) (code_taken t) (λ i, _generate_code restaurant_id (tokens i)) 0 with
  | None => raise OutOfCodes
  | Some code =>
      now ← gets coupon_now;
      coupon ← flush_coupon (λ id, {|
        c_id := id; c_restaurant_id := restaurant_id; c_customer_id := Some customer_id;
        c_order_id := order_id; c_code := code; c_kind := Single_use;
        c_discount_type := Fixed; c_discount_aed := Some discount_aed; c_percent := None;
        c_max_discount_aed := None; c_min_order_aed := 0; c_applies_to := Whole_order;
        c_per_customer_limit := None; c_total_redemption_limit := None; c_status := CIssued;
        c_valid_from := None; c_expires_at := Some (now + days validity_days);
        c_created_by := None; c_redeemed_at := None; c_redeemed_on_order_id := None |});
      _ ← audit "system" restaurant_id "coupon" (pretty (c_id coupon)) "issued" None
        (Some [("code", JStr code); ("discount_aed", JStr (str_cents discount_aed))]);
      mret coupon
  end.

(** Attribute assignments on a loaded coupon. *)
Definition with_cstatus (st : coupon_status) (c : Coupon) : Coupon :=
  {| c_id := c_id c; c_restaurant_id := c_restaurant_id c; c_customer_id := c_customer_id c;
     c_order_id := c_order_id c; c_code := c_code c; c_kind := c_kind c;
     c_discount_type := c_discount_type c; c_discount_aed := c_discount_aed c;
     c_percent := c_percent c; c_max_discount_aed := c_max_discount_aed c;
     c_min_order_aed := c_min_order_aed c; c_applies_to := c_applies_to c;
     c_per_customer_limit := c_per_customer_limit c;
     c_total_redemption_limit := c_total_redemption_limit c; c_status := st;
     c_valid_from := c_valid_from c; c_expires_at := c_expires_at c;
     c_created_by := c_created_by c; c_redeemed_at := c_redeemed_at c;
     c_redeemed_on_order_id := c_redeemed_on_order_id c |}.
Definition with_redeemed (at_ : Z) (on_order : option Z) (c : Coupon) : Coupon :=
  {| c_id := c_id c; c_restaurant_id := c_restaurant_id c; c_customer_id := c_customer_id c;
     c_order_id := c_order_id c; c_code := c_code c; c_kind := c_kind c;
     c_discount_type := c_discount_type c; c_discount_aed := c_discount_aed c;
     c_percent := c_percent c; c_max_discount_aed := c_max_discount_aed c;
     c_min_order_aed := c_min_order_aed c; c_applies_to := c_applies_to c;
     c_per_customer_limit := c_per_customer_limit c;
     c_total_redemption_limit := c_total_redemption_limit c; c_status := CRedeemed;
     c_valid_from := c_valid_from c; c_expires_at := c_expires_at c;
     c_created_by := c_created_by c; c_redeemed_at := Some at_;
     c_redeemed_on_order_id := on_order |}.

Definition redeem_coupon (restaurant_id : Z) (code : string) (order_id : Z) : CM Coupon :=
  found ← gets (λ s, first_where (tenant_code restaurant_id code) (coupons s));
  match found with
  | None => raise (UnknownCoupon code)
  | Some coupon =>
      if negb (bool_decide (c_status coupon = CIssued)) then raise (NotRedeemable code (c_status coupon)) else
      now ← gets coupon_now;
      if (match c_expires_at coupon with Some e => e <? now | None => false end) then
        _ ← update_coupon (with_cstatus CExpired coupon);
        raise (Expired code)
      else
        let coupon' := with_redeemed now (Some order_id) coupon in
        _ ← update_coupon coupon';
        _ ← audit "system" restaurant_id "coupon" (pretty (c_id coupon)) "redeemed"
          (Some [("status", JStr "issued")])
          (Some [("status", JStr "redeemed"); ("order_id", JInt order_id)]);
        mret coupon'
  end.

(** ** Campaign coupons

    [discount_value_str] is [str(discount_value)], which the decimal's value does
    not determine; it only reaches the audit row. *)

Definition _REDEEMABLE_STATUSES : list coupon_status := [CActive; CIssued].

Definition create_coupon (bodies : nat → list nat) (restaurant_id : Z)
    (discount_type : string) (discount_value : Q) (discount_value_str : string) (kind : coupon_kind)
    (min_order_aed : Q) (max_discount_aed : option Z) (applies_to : coupon_scope)
    (per_customer_limit total_redemption_limit valid_from expires_at : option Z)
    (code : option string) (created_by : string) : CM Coupon :=
  if negb ((discount_type =s "fixed") || (discount_type =s "percent"))
  then raise (InvalidDiscountType discount_type) else
  if discount_value <=q 0 then raise DiscountNotPositive else
  if (discount_type =s "percent") && (100 <q discount_value) then raise PercentOver100 else
  let gen i := generate_code "SAVE" (bodies i) in
  (* [code or generate_code()], then the retry loop *)
  let first := match code with Some c => if c =s "" then gen 0%nat else c | None => gen 0%nat end in
  t ← gets coupons;
  match draw_code (S (code_fuel t)) (tenant_code_taken restaurant_id t)
          (λ i, match i with O => first | S _ => gen i end) 0 with
  | None => raise OutOfCodes
  | Some code' =>
      coupon ← flush_coupon (λ id, {|
        c_id := id; c_restaurant_id := restaurant_id; c_customer_id := None; c_order_id := None;
        c_code := code'; c_kind := kind;
        c_discount_type := if discount_type =s "fixed" then Fixed else Percent;
        c_discount_aed := if discount_type =s "fixed" then Some (quantize discount_value) else None;
        c_percent := if discount_type =s "percent" then Some (quantize discount_value) else None;
        c_max_discount_aed := max_discount_aed; c_min_order_aed := quantize min_order_aed;
        c_applies_to := applies_to; c_per_customer_limit := per_customer_limit;
        c_total_redemption_limit := total_redemption_limit; c_status := CActive;
        c_valid_from := valid_from; c_expires_at := expires_at; c_created_by := Some created_by;
        c_redeemed_at := None; c_redeemed_on_order_id := None |});
      _ ← audit created_by restaurant_id "coupon" (pretty (c_id coupon)) "created" None
        (Some [("code", JStr code'); ("discount_type", JStr discount_type);
               ("value", JStr discount_value_str)]);
      mret coupon
  end.

Definition status_str (st : coupon_status) : string :=
  match st with
  | CActive => "active" | CPaused => "paused" | CExhausted => "exhausted"
  | CExpired => "expired" | CIssued => "issued" | CRedeemed => "redeemed"
  end.

Definition pause_coupon (restaurant_id : Z) (code created_by : string) : CM Coupon :=
  found ← gets (λ s, first_where (tenant_code restaurant_id code) (coupons s));
  match found with
  | None => raise (UnknownCoupon code)
  | Some coupon =>
      let coupon' := with_cstatus CPaused coupon in
      _ ← update_coupon coupon';
      _ ← audit created_by restaurant_id "coupon" (pretty (c_id coupon)) "paused"
        (Some [("status", JStr (status_str (c_status coupon)))])
        (Some [("status", JStr "paused")]);
      mret coupon'
  end.

(** The discount in cents on an order of [order_subtotal_aed] cents. *)
Definition _compute_discount (coupon : Coupon) (order_subtotal_aed : Z) : Z :=
  let raw :=
    match c_discount_type coupon with
    | Percent =>
        let raw := quantize (ddiv (aed order_subtotal_aed * aed (default 0 (c_percent coupon))) 100) in
        match c_max_discount_aed coupon with Some m => Z.min raw m | None => raw end
    | Fixed => default 0 (c_discount_aed coupon)
    end in
  Z.min raw order_subtotal_aed.

Definition uses_of (coupon_id : Z) (r : CouponRedemption) : bool := cr_coupon_id r =? coupon_id.
Definition uses_by (coupon_id customer_id : Z) (r : CouponRedemption) : bool :=
  (cr_coupon_id r =? coupon_id) && (cr_customer_id r =? customer_id).

(** [session.add(redemption); flush()]: UNIQUE(idempotency_key). *)
Definition flush_redemption (mk : Z → CouponRedemption) : CM CouponRedemption :=
  t ← gets redemptions;
  let row := mk (next_id t) in
  match first_where (λ r, cr_key r =s cr_key row) t with
  | Some _ => raise CouponIntegrityError
  | None => modify (with_redemptions (add_row row t)) ≫= λ _, mret row
  end.

(** The checks of a redemption, in the code's order; [Some (e, st)]: raise [e]
    after moving the coupon to status [st], when one is given. *)
Definition redemption_refused (coupon : Coupon) (customer_id order_subtotal_aed now : Z)
    (t : table CouponRedemption) : option (coupon_error * option coupon_status) :=
  let code := c_code coupon in
  let total_used := count_where (uses_of (c_id coupon)) t in
  if negb (bool_decide (c_status coupon ∈ _REDEEMABLE_STATUSES))
  then Some (NotRedeemable code (c_status coupon), None)
  else if (match c_valid_from coupon with Some v => now <? v | None => false end)
  then Some (NotYetValid code, None)
  else if (match c_expires_at coupon with Some e => e <? now | None => false end)
  then Some (Expired code, Some CExpired)
  else if order_subtotal_aed <? c_min_order_aed coupon
  then Some (BelowMinimum order_subtotal_aed (c_min_order_aed coupon), None)
  else if bool_decide (c_kind coupon = Single_use) && (1 <=? total_used)
  then Some (AlreadyUsed code, None)
  else if (match c_total_redemption_limit coupon with Some l => l <=? total_used | None => false end)
  then Some (LimitReached code, Some CExhausted)
  else if (match c_per_customer_limit coupon with
           | Some l => l <=? count_where (uses_by (c_id coupon) customer_id) t
           | None => false end)
  then Some (CustomerLimitReached code, None)
  else None.

(** The coupon's status after one more use. *)
Definition after_use (coupon : Coupon) (now total_used : Z) : Coupon :=
  if bool_decide (c_kind coupon = Single_use)
  then with_redeemed now (c_redeemed_on_order_id coupon) coupon
  else match c_total_redemption_limit coupon with
       | Some l => if l <=? total_used + 1 then with_cstatus CExhausted coupon else coupon
       | None => coupon
       end.

Definition validate_and_redeem (restaurant_id : Z) (code : string) (customer_id order_id : Z)
    (order_subtotal_aed : Z) (idempotency_key : string) : CM CouponRedemption :=
  existing ← gets (λ s, first_where (λ r, cr_key r =s idempotency_key) (redemptions s));
  match existing with
  | Some r => mret r
  | None =>
      found ← gets (λ s, first_where (tenant_code restaurant_id code) (coupons s));
      match found with
      | None => raise (UnknownCoupon code)
      | Some coupon =>
          now ← gets coupon_now;
          t ← gets redemptions;
          match redemption_refused coupon customer_id order_subtotal_aed now t with
          | Some (e, Some st) =>
              _ ← update_coupon (with_cstatus st coupon);
              raise e
          | Some (e, None) => raise e
          | None =>
              let discount := _compute_discount coupon order_subtotal_aed in
              let total_used := count_where (uses_of (c_id coupon)) t in
              redemption ← flush_redemption (λ id, {|
                cr_id := id; cr_coupon_id := c_id coupon; cr_restaurant_id := restaurant_id;
                cr_customer_id := customer_id; cr_order_id := order_id;
                cr_discount_applied_aed := discount; cr_key := idempotency_key |});
              _ ← update_coupon (after_use coupon now total_used);
              _ ← audit "system" restaurant_id "coupon_redemption" (pretty (cr_id redemption)) "redeemed"
                None (Some [("code", JStr code); ("discount_aed", JStr (str_cents discount));
                            ("order_id", JInt order_id)]);
              mret redemption
          end
      end
  end.

#[global] Arguments _compute_discount : simpl never.
#[global] Arguments redemption_refused : simpl never.
#[global] Arguments after_use : simpl never.
#[global] Arguments draw_code : simpl never.
#[global] Arguments code_fuel : simpl never.
