(* ===== verification/CouponFacts.v ===== *)
(** * Coupons are redeemed within their limits

    [coupon_step] is what one call may do to the two tables; the limit invariant is
    an induction over steps.  Then: the discount's bounds, replays, and the
    termination of the code draw. *)

From S2P Require Import Prelude Money Db AuditTrail Clock Coupons.

(** ** The state invariant *)

Definition uses (c : Coupon) (s : coupon_db) : Z := count_where (uses_of (c_id c)) (redemptions s).
Definition uses_by_customer (c : Coupon) (cust : Z) (s : coupon_db) : Z :=
  count_where (uses_by (c_id c) cust) (redemptions s).
(** Uses of a coupon through either path: ledger rows, and the apology pointer. *)
Definition spent (c : Coupon) (s : coupon_db) : Z :=
  uses c s + match c_redeemed_on_order_id c with Some _ => 1 | None => 0 end.

Definition tenant_key (c : Coupon) : Z * string := (c_restaurant_id c, c_code c).

(** The limits of one coupon hold. *)
Record within_limits (c : Coupon) (s : coupon_db) : Prop := {
  wl_single : c_kind c = Single_use → spent c s ≤ 1;
  wl_spent : c_kind c = Single_use → 0 < spent c s → c_status c ∉ _REDEEMABLE_STATUSES;
  wl_total : ∀ l, c_total_redemption_limit c = Some l → uses c s ≤ Z.max 0 l;
  wl_customer : ∀ l cust, c_per_customer_limit c = Some l → uses_by_customer c cust s ≤ Z.max 0 l;
}.

Record coupon_inv (s : coupon_db) : Prop := {
  ci_coupons : table_wf (coupons s);
  ci_redemptions : table_wf (redemptions s);
  ci_codes : unique_on tenant_key (coupons s);
  ci_keys : unique_on cr_key (redemptions s);
  ci_ref : ∀ r, r ∈ rows (redemptions s) → cr_coupon_id r < next_id (coupons s);
  ci_limits : ∀ c, c ∈ rows (coupons s) → within_limits c s;
}.

(** ** Steps *)

Inductive coupon_step (s : coupon_db) : coupon_db → Prop :=
| cs_idle s' : coupons s' = coupons s → redemptions s' = redemptions s → coupon_step s s'
| cs_mint c s' :
    c_id c = next_id (coupons s) →
    (∀ c', c' ∈ rows (coupons s) → tenant_key c' ≠ tenant_key c) →
    c_redeemed_on_order_id c = None →
    coupons s' = add_row c (coupons s) → redemptions s' = redemptions s → coupon_step s s'
| cs_status st c s' :
    c ∈ rows (coupons s) → st ∉ _REDEEMABLE_STATUSES →
    coupons s' = set_row (with_cstatus st c) (coupons s) → redemptions s' = redemptions s →
    coupon_step s s'
| cs_redeem at_ oid c s' :
    c ∈ rows (coupons s) → c_status c = CIssued →
    coupons s' = set_row (with_redeemed at_ (Some oid) c) (coupons s) →
    redemptions s' = redemptions s → coupon_step s s'
| cs_use c r cust sub now s' :
    c ∈ rows (coupons s) →
    redemption_refused c cust sub now (redemptions s) = None →
    cr_id r = next_id (redemptions s) → cr_coupon_id r = c_id c → cr_customer_id r = cust →
    (∀ r', r' ∈ rows (redemptions s) → cr_key r' ≠ cr_key r) →
    coupons s' = set_row (after_use c now (uses c s)) (coupons s) →
    redemptions s' = add_row r (redemptions s) → coupon_step s s'.

Lemma tenant_code_key rid code c :
  tenant_code rid code c = true ↔ tenant_key c = (rid, code).
Proof.
  unfold tenant_code, tenant_key. rewrite andb_true_iff, Z.eqb_eq, String.eqb_eq.
  split; [by intros [-> ->]|by intros [= -> ->]].
Qed.

Lemma tenant_code_taken_false rid t code :
  tenant_code_taken rid t code = false ↔ ∀ c, c ∈ rows t → tenant_key c ≠ (rid, code).
Proof.
  unfold tenant_code_taken. destruct (first_where _ t) as [c|] eqn:Hf.
  - split; [done|]. intros H. apply first_where_Some in Hf as [Hin Hc].
    apply tenant_code_key in Hc. by destruct (H c).
  - split; [|done]. intros _ c Hin Hc. rewrite first_where_None in Hf.
    apply tenant_code_key in Hc. by rewrite Hf in Hc.
Qed.

(** What the passed checks say. *)
Lemma redemption_accepted c cust sub now t :
  redemption_refused c cust sub now t = None →
  c_status c ∈ _REDEEMABLE_STATUSES ∧
  (∀ v, c_valid_from c = Some v → v ≤ now) ∧ (∀ e, c_expires_at c = Some e → now ≤ e) ∧
  c_min_order_aed c ≤ sub ∧
  (c_kind c = Single_use → count_where (uses_of (c_id c)) t < 1) ∧
  (∀ l, c_total_redemption_limit c = Some l → count_where (uses_of (c_id c)) t < l) ∧
  (∀ l, c_per_customer_limit c = Some l → count_where (uses_by (c_id c) cust) t < l).
Proof.
  unfold redemption_refused.
  repeat match goal with |- (if ?b then _ else _) = None → _ => destruct b eqn:?; [discriminate|] end.
  intros _. zbool. split_and!; try done.
  - intros v Hv. rewrite Hv in *. by zbool.
  - intros e He. rewrite He in *. by zbool.
  - intros Hk. rewrite bool_decide_true in * by done. cbn in *. by zbool.
  - intros l Hl. rewrite Hl in *. by zbool.
  - intros l Hl. rewrite Hl in *. by zbool.
Qed.

(** The fields a status change leaves alone. *)
Definition same_terms (c c' : Coupon) : Prop :=
  c_id c' = c_id c ∧ tenant_key c' = tenant_key c ∧ c_kind c' = c_kind c ∧
  c_total_redemption_limit c' = c_total_redemption_limit c ∧
  c_per_customer_limit c' = c_per_customer_limit c.

Lemma after_use_terms c now n :
  same_terms c (after_use c now n) ∧
  c_redeemed_on_order_id (after_use c now n) = c_redeemed_on_order_id c.
Proof. unfold after_use, same_terms. by repeat case_match. Qed.

(** A table update that keeps a coupon's terms keeps codes unique. *)
Lemma set_terms_unique c c' t :
  table_wf t → unique_on tenant_key t → c ∈ rows t → same_terms c c' →
  unique_on tenant_key (set_row c' t).
Proof.
  intros Hwf Hu Hin (Hid & Hkey & _). apply set_row_unique; [done|].
  intros c0 H0 Hne Heq. apply Hne. rewrite Hkey in Heq.
  rewrite (Hu c0 c) by done. done.
Qed.

Lemma uses_by_le_uses i cust t : count_where (uses_by i cust) t ≤ count_where (uses_of i) t.
Proof.
  unfold count_where, count, uses_by, uses_of.
  induction (rows t) as [|r l IH]; cbn; [done|].
  destruct (cr_coupon_id r =? i), (cr_customer_id r =? cust); cbn; lia.
Qed.

(** An untouched coupon keeps its limits when another one changes. *)
Lemma within_limits_ext c s s' :
  (∀ p, (∀ r, cr_coupon_id r ≠ c_id c → p r = false) →
        count_where p (redemptions s') = count_where p (redemptions s)) →
  within_limits c s → within_limits c s'.
Proof.
  intros Hext [H1 H2 H3 H4].
  assert (uses c s' = uses c s) as Hu.
  { apply Hext. intros r Hr. by apply Z.eqb_neq. }
  assert (∀ cust, uses_by_customer c cust s' = uses_by_customer c cust s) as Hb.
  { intros cust. apply Hext. intros r Hr. unfold uses_by. by rewrite (proj2 (Z.eqb_neq _ _) Hr). }
  split; unfold spent; rewrite ?Hu; try done. intros. rewrite Hb. eauto.
Qed.

Section step_inv.
Context (s s' : coupon_db) (Hinv : coupon_inv s).

Lemma coupon_idle_inv :
  coupons s' = coupons s → redemptions s' = redemptions s → coupon_inv s'.
Proof.
  intros Hs1 Hs2. destruct Hinv as [Hc Hr Hcodes Hkeys Href Hlim].
  split; rewrite ?Hs1, ?Hs2; try done. intros c Hin.
  apply (within_limits_ext c s); [by rewrite Hs2|auto].
Qed.

(** A new coupon has no uses: the ledger only refers to older ids. *)
Lemma fresh_coupon_unused i :
  next_id (coupons s) ≤ i → count_where (uses_of i) (redemptions s) = 0.
Proof.
  intros Hi. unfold count_where, count. rewrite (zsum_ext _ (λ _, 0)).
  - rewrite zsum_const. lia.
  - intros r Hr. pose proof (ci_ref s Hinv r Hr). unfold uses_of.
    by rewrite (proj2 (Z.eqb_neq (cr_coupon_id r) i)) by lia.
Qed.

Lemma coupon_mint_inv c :
  c_id c = next_id (coupons s) →
  (∀ c', c' ∈ rows (coupons s) → tenant_key c' ≠ tenant_key c) →
  c_redeemed_on_order_id c = None →
  coupons s' = add_row c (coupons s) → redemptions s' = redemptions s → coupon_inv s'.
Proof.
  intros Hid Hfresh Hnone Hs1 Hs2. pose proof Hinv as [Hc Hr Hcodes Hkeys Href Hlim].
  split; rewrite ?Hs1, ?Hs2; auto with pos.
  - intros r Hr'. rewrite next_id_add. specialize (Href r Hr'). lia.
  - intros c'. rewrite elem_of_add_row. intros [Hin| ->].
    { apply (within_limits_ext c' s); [by rewrite Hs2|auto]. }
    assert (uses c s' = 0) as Hu by (unfold uses; rewrite Hs2; apply fresh_coupon_unused; lia).
    split; unfold spent; rewrite ?Hu, ?Hnone; [lia|lia|lia|].
    intros l cu _. unfold uses_by_customer.
    pose proof (uses_by_le_uses (c_id c) cu (redemptions s')). unfold uses in Hu. lia.
Qed.

(** A status change within the same terms: only the changed coupon's limits are
    to be shown. *)
Lemma coupon_update_inv c d :
  c ∈ rows (coupons s) → same_terms c d →
  coupons s' = set_row d (coupons s) → redemptions s' = redemptions s →
  within_limits d s' → coupon_inv s'.
Proof.
  intros Hin Hterms Hs1 Hs2 Hd. destruct Hinv as [Hc Hr Hcodes Hkeys Href Hlim].
  split; rewrite ?Hs1, ?Hs2, ?next_id_set; auto with pos; [by apply (set_terms_unique c)|].
  intros c' Hc'. apply elem_of_set_row in Hc' as [[-> _]|[Hc' _]]; [done|].
  apply (within_limits_ext c' s); [by rewrite Hs2|auto].
Qed.

Lemma coupon_status_inv st c :
  c ∈ rows (coupons s) → st ∉ _REDEEMABLE_STATUSES →
  coupons s' = set_row (with_cstatus st c) (coupons s) →
  redemptions s' = redemptions s → coupon_inv s'.
Proof.
  intros Hin Hst Hs1 Hs2. apply (coupon_update_inv c (with_cstatus st c)); try done.
  destruct (ci_limits s Hinv c Hin) as [H1 H2 H3 H4].
  split; unfold spent, uses, uses_by_customer in *; rewrite ?Hs2; eauto.
Qed.

Lemma coupon_redeem_inv at_ oid c :
  c ∈ rows (coupons s) → c_status c = CIssued →
  coupons s' = set_row (with_redeemed at_ (Some oid) c) (coupons s) →
  redemptions s' = redemptions s → coupon_inv s'.
Proof.
  intros Hin Hst Hs1 Hs2. apply (coupon_update_inv c (with_redeemed at_ (Some oid) c)); try done.
  destruct (ci_limits s Hinv c Hin) as [H1 H2 H3 H4].
  assert (0 ≤ uses c s) as Hn by apply count_where_nonneg.
  assert (c_kind c = Single_use → uses c s = 0) as Hz.
  { intros Hk. destruct (decide (0 < spent c s)) as [Hpos|Hle].
    - destruct (H2 Hk Hpos). rewrite Hst. unfold _REDEEMABLE_STATUSES. set_solver.
    - unfold spent in Hle. case_match; lia. }
  split; unfold spent, uses, uses_by_customer in *; cbn; rewrite ?Hs2; eauto.
  - intros Hk. specialize (Hz Hk). lia.
  - intros _ _. unfold _REDEEMABLE_STATUSES. set_solver.
Qed.

(** The coupon that has just been used once more is still within its limits. *)
Lemma used_within_limits c d r cust sub now :
  within_limits c s → redemption_refused c cust sub now (redemptions s) = None →
  same_terms c d → c_redeemed_on_order_id d = c_redeemed_on_order_id c →
  (c_kind c = Single_use → c_status d = CRedeemed) →
  cr_coupon_id r = c_id c → cr_customer_id r = cust →
  redemptions s' = add_row r (redemptions s) → within_limits d s'.
Proof.
  intros [H1 H2 H3 H4] Hacc (Hi & _ & Hk & Ht & Hp) Hro Hred Hcid Hcust Hs2.
  destruct (redemption_accepted _ _ _ _ _ Hacc) as (Hst & _ & _ & _ & Hone & Htot & Hcus).
  assert (uses d s' = uses c s + 1) as Hu.
  { unfold uses. rewrite Hs2, Hi, count_where_add. unfold uses_of at 2.
    by rewrite Hcid, Z.eqb_refl. }
  fold (uses c s) in Hone, Htot. assert (0 ≤ uses c s) by apply count_where_nonneg.
  split; unfold spent; rewrite ?Hu, ?Hk, ?Ht, ?Hp, ?Hro.
  - intros Hs. specialize (Hone Hs). specialize (H1 Hs). specialize (H2 Hs).
    unfold spent in *. case_match; [|lia]. destruct H2; [lia|done].
  - intros Hs _. rewrite Hred by done. unfold _REDEEMABLE_STATUSES. set_solver.
  - intros l Hl. specialize (Htot l Hl). lia.
  - intros l cu Hl. unfold uses_by_customer. rewrite Hs2, Hi, count_where_add.
    specialize (H4 l cu Hl). unfold uses_by_customer in H4.
    unfold uses_by at 2. rewrite Hcid, Hcust, Z.eqb_refl. cbn.
    destruct (Z.eqb_spec cust cu) as [->|]; [specialize (Hcus l Hl)|]; lia.
Qed.

Lemma coupon_use_inv c r cust sub now :
  c ∈ rows (coupons s) → redemption_refused c cust sub now (redemptions s) = None →
  cr_id r = next_id (redemptions s) → cr_coupon_id r = c_id c → cr_customer_id r = cust →
  (∀ r', r' ∈ rows (redemptions s) → cr_key r' ≠ cr_key r) →
  coupons s' = set_row (after_use c now (uses c s)) (coupons s) →
  redemptions s' = add_row r (redemptions s) → coupon_inv s'.
Proof.
  intros Hin Hacc Hid Hcid Hcust Hfresh Hs1 Hs2.
  pose proof Hinv as [Hc Hr Hcodes Hkeys Href Hlim].
  destruct (after_use_terms c now (uses c s)) as [Hterms Hro].
  assert (c_kind c = Single_use → c_status (after_use c now (uses c s)) = CRedeemed) as Hred.
  { intros Hs. unfold after_use. by rewrite bool_decide_true. }
  remember (after_use c now (uses c s)) as d eqn:Hd. clear Hd.
  split; rewrite ?Hs1, ?Hs2, ?next_id_set; auto with pos; [by apply (set_terms_unique c)| |].
  - intros r'. rewrite elem_of_add_row. intros [Hr'| ->]; [by apply Href|].
    rewrite Hcid. by apply (wf_fresh _ Hc).
  - intros c' Hc'. apply elem_of_set_row in Hc' as [[-> _]|[Hc' Hne]].
    + by apply (used_within_limits c d r cust sub now); auto.
    + apply (within_limits_ext c' s); [|auto]. intros p Hpz. rewrite Hs2, count_where_add.
      rewrite Hpz; [lia|]. rewrite Hcid. intros Heq. apply Hne.
      destruct Hterms as (Hi & _). change (c_id c' = c_id d). congruence.
Qed.
End step_inv.

Lemma coupon_step_inv s s' : coupon_step s s' → coupon_inv s → coupon_inv s'.
Proof.
  intros Hstep Hinv. destruct Hstep;
    eauto using coupon_idle_inv, coupon_mint_inv, coupon_status_inv, coupon_redeem_inv,
      coupon_use_inv.
Qed.

(** ** Every call makes a step *)

Lemma draw_code_Some fuel taken gen i code :
  draw_code fuel taken gen i = Some code → taken code = false.
Proof.
  revert i. induction fuel as [|fuel IH]; intros i; unfold draw_code; fold draw_code; [done|].
  destruct (taken (gen i)) eqn:Ht; [apply IH|]. by intros [= <-].
Qed.

(** Flushing a coupon under an unused code succeeds. *)
Lemma flush_coupon_run mk s :
  (∀ c, c ∈ rows (coupons s) → tenant_key c ≠ tenant_key (mk (next_id (coupons s)))) →
  flush_coupon mk s = Ok (mk (next_id (coupons s)))
                         (with_coupons (add_row (mk (next_id (coupons s))) (coupons s)) s).
Proof.
  intros Hf. unfold flush_coupon. unfold_m.
  by rewrite (proj2 (tenant_code_taken_false _ _ _)).
Qed.

Lemma flush_redemption_run mk s :
  ((∀ r, r ∈ rows (redemptions s) → cr_key r ≠ cr_key (mk (next_id (redemptions s)))) ∧
   flush_redemption mk s = Ok (mk (next_id (redemptions s)))
     (with_redemptions (add_row (mk (next_id (redemptions s))) (redemptions s)) s))
  ∨ flush_redemption mk s = Err CouponIntegrityError s.
Proof.
  unfold flush_redemption. unfold_m. destruct (first_where _ _) eqn:Hf; [by right|]. left.
  split; [|done]. rewrite first_where_None in Hf. intros r Hr. specialize (Hf r Hr). by zbool.
Qed.

Ltac crun :=
  unfold update_coupon; unfold mbind, M_bind, mret, M_ret, gets, modify, raise; cbn;
  rewrite ?audit_run; cbn.

Lemma code_taken_false t code : code_taken t code = false → ∀ c, c ∈ rows t → c_code c ≠ code.
Proof.
  unfold code_taken. destruct (first_where _ t) eqn:Hf; [done|]. intros _ c Hc Heq.
  rewrite first_where_None in Hf. specialize (Hf c Hc). by zbool.
Qed.

Lemma issue_coupon_step tokens rid cid oid d v s :
  coupon_step s (final (issue_coupon tokens rid cid oid d v s)).
Proof.
  unfold issue_coupon. crun. destruct (draw_code _ _ _ _) as [code|] eqn:Hd; [|by apply cs_idle].
  apply draw_code_Some in Hd. crun.
  assert (∀ c, c ∈ rows (coupons s) → tenant_key c ≠ (rid, code)) as Hf.
  { intros c Hc [= _ Heq]. by apply (code_taken_false _ _ Hd c Hc). }
  rewrite flush_coupon_run by done. crun. by eapply cs_mint; [..|done|done].
Qed.

Lemma create_coupon_step bodies rid ty v vs k mn mx ap pc tl vf ex code by_ s :
  coupon_step s (final (create_coupon bodies rid ty v vs k mn mx ap pc tl vf ex code by_ s)).
Proof.
  unfold create_coupon. do 3 (match goal with |- context [if ?b then raise _ else _] =>
    destruct b; [by apply cs_idle|] end).
  crun. destruct (draw_code _ _ _ _) as [code'|] eqn:Hd; [|by apply cs_idle].
  apply draw_code_Some in Hd. pose proof (proj1 (tenant_code_taken_false _ _ _) Hd) as Hf.
  rewrite flush_coupon_run by done. crun. by eapply cs_mint; [..|done|done].
Qed.

Lemma found_coupon rid code s c :
  first_where (tenant_code rid code) (coupons s) = Some c →
  c ∈ rows (coupons s) ∧ tenant_key c = (rid, code).
Proof. intros [Hin Hc]%first_where_Some. by apply tenant_code_key in Hc. Qed.

Lemma redeem_coupon_step rid code oid s :
  coupon_step s (final (redeem_coupon rid code oid s)).
Proof.
  unfold redeem_coupon. crun.
  destruct (first_where _ (coupons s)) as [c|] eqn:Hf; [|by apply cs_idle].
  apply found_coupon in Hf as [Hin _].
  case_bool_decide as Hst; cbn; [|by apply cs_idle]. crun.
  destruct (match c_expires_at c with Some _ => _ | None => _ end); crun.
  - eapply (cs_status s CExpired c); [done| |done|done]. unfold _REDEEMABLE_STATUSES. set_solver.
  - by eapply (cs_redeem s (coupon_now s) oid c).
Qed.

Lemma pause_coupon_step rid code by_ s :
  coupon_step s (final (pause_coupon rid code by_ s)).
Proof.
  unfold pause_coupon. crun.
  destruct (first_where _ (coupons s)) as [c|] eqn:Hf; [|by apply cs_idle].
  apply found_coupon in Hf as [Hin _]. crun.
  eapply (cs_status s CPaused c); [done| |done|done]. unfold _REDEEMABLE_STATUSES. set_solver.
Qed.

(** The statuses a refusal moves the coupon to are not redeemable. *)
Lemma refused_status c cust sub now t e st :
  redemption_refused c cust sub now t = Some (e, Some st) → st ∉ _REDEEMABLE_STATUSES.
Proof.
  unfold redemption_refused, _REDEEMABLE_STATUSES.
  repeat case_match; intros [= <- <-]; set_solver.
Qed.

Lemma validate_and_redeem_step rid code cust oid sub key s :
  coupon_step s (final (validate_and_redeem rid code cust oid sub key s)).
Proof.
  unfold validate_and_redeem. crun.
  destruct (first_where _ (redemptions s)) eqn:Hk; [by apply cs_idle|].
  destruct (first_where _ (coupons s)) as [c|] eqn:Hf; [|by apply cs_idle].
  apply found_coupon in Hf as [Hin _]. crun.
  destruct (redemption_refused _ _ _ _ _) as [[e [st|]]|] eqn:Href; crun.
  - eapply (cs_status s st c); [done|by eapply refused_status|done|done].
  - by apply cs_idle.
  - match goal with |- context [flush_redemption ?f s] =>
      destruct (flush_redemption_run f s) as [[Hfr Hfl]|Hfl] end; rewrite Hfl; crun;
      [|by apply cs_idle].
    by eapply (cs_use s c); [..|done|done].
Qed.

(** ** Reachable states *)

Inductive coupon_call :=
| Issue (tokens : nat → string) (rid cid : Z) (oid : option Z) (discount validity : Z)
| Create (bodies : nat → list nat) (rid : Z) (ty : string) (v : Q) (vs : string) (k : coupon_kind)
    (mn : Q) (mx : option Z) (ap : coupon_scope) (pc tl vf ex : option Z) (code : option string)
    (by_ : string)
| Redeem (rid : Z) (code : string) (oid : Z)
| Pause (rid : Z) (code by_ : string)
| Use (rid : Z) (code : string) (cust oid sub : Z) (key : string)
| CTick (now : Z).

Definition coupon_after (c : coupon_call) (s : coupon_db) : coupon_db :=
  match c with
  | Issue tk rid cid oid d v => final (issue_coupon tk rid cid oid d v s)
  | Create b rid ty v vs k mn mx ap pc tl vf ex code by_ =>
      final (create_coupon b rid ty v vs k mn mx ap pc tl vf ex code by_ s)
  | Redeem rid code oid => final (redeem_coupon rid code oid s)
  | Pause rid code by_ => final (pause_coupon rid code by_ s)
  | Use rid code cust oid sub key => final (validate_and_redeem rid code cust oid sub key s)
  | CTick now => {| coupons := coupons s; redemptions := redemptions s;
                    coupon_audit := coupon_audit s; coupon_now := now |}
  end.

Definition empty_coupons : coupon_db :=
  {| coupons := empty_table; redemptions := empty_table; coupon_audit := []; coupon_now := 0 |}.

Inductive coupon_reachable : coupon_db → Prop :=
| cre_empty : coupon_reachable empty_coupons
| cre_call c s : coupon_reachable s → coupon_reachable (coupon_after c s).

Lemma coupon_after_step c s : coupon_step s (coupon_after c s).
Proof.
  destruct c; cbn [coupon_after];
    eauto using issue_coupon_step, create_coupon_step, redeem_coupon_step, pause_coupon_step,
      validate_and_redeem_step. by apply cs_idle.
Qed.

Lemma coupon_reachable_inv s : coupon_reachable s → coupon_inv s.
Proof.
  induction 1 as [|c s _ IH].
  - split; cbn; [apply empty_table_wf|apply empty_table_wf|by intros ?? ?%elem_of_nil
                |by intros ?? ?%elem_of_nil|by intros ? ?%elem_of_nil|by intros ? ?%elem_of_nil].
  - by apply (coupon_step_inv s), IH; apply coupon_after_step.
Qed.

(** ** Properties *)

(** C4. Limits: in every state the service can reach, every coupon has at most
    [total_redemption_limit] uses and at most [per_customer_limit] uses by any
    one customer, and a single-use coupon has been applied to at most one order,
    counting the redemption ledger and the apology path together. *)
Theorem coupon_limits_respected s c :
  coupon_reachable s → c ∈ rows (coupons s) →
  (∀ l, c_total_redemption_limit c = Some l → uses c s ≤ Z.max 0 l) ∧
  (∀ l cust, c_per_customer_limit c = Some l → uses_by_customer c cust s ≤ Z.max 0 l) ∧
  (c_kind c = Single_use → spent c s ≤ 1).
Proof.
  intros Hr Hin. destruct (ci_limits s (coupon_reachable_inv s Hr) c Hin). by split_and!.
Qed.

(** A redemption is idempotent: once a key has a redemption, the same request
    returns that row and writes nothing, whatever the coupon's state is by then. *)
Theorem redemption_replay_noop rid code cust oid sub key s r :
  coupon_reachable s → r ∈ rows (redemptions s) → cr_key r = key →
  validate_and_redeem rid code cust oid sub key s = Ok r s.
Proof.
  intros Hr Hin <-. unfold validate_and_redeem. crun.
  rewrite (first_where_unique _ _ r); [done|done|by apply String.eqb_refl|].
  intros r' Hin' Hk. zbool. by apply (ci_keys s (coupon_reachable_inv s Hr)).
Qed.

(** What a successful new redemption promises: the coupon was redeemable, in
    its window and above its floor; the ledger gained exactly that row; and the
    discount is the coupon's, never more than the order is worth. *)
Theorem redemption_effect rid code cust oid sub key s r s' :
  (∀ r0, r0 ∈ rows (redemptions s) → cr_key r0 ≠ key) →
  validate_and_redeem rid code cust oid sub key s = Ok r s' →
  ∃ c, c ∈ rows (coupons s) ∧ tenant_key c = (rid, code) ∧
    c_status c ∈ _REDEEMABLE_STATUSES ∧
    (∀ v, c_valid_from c = Some v → v ≤ coupon_now s) ∧
    (∀ e, c_expires_at c = Some e → coupon_now s ≤ e) ∧
    c_min_order_aed c ≤ sub ∧
    redemptions s' = add_row r (redemptions s) ∧
    cr_discount_applied_aed r = _compute_discount c sub ∧
    cr_discount_applied_aed r ≤ sub.
Proof.
  intros Hf. unfold validate_and_redeem. crun.
  destruct (first_where _ (redemptions s)) as [r0|] eqn:Hk.
  { apply first_where_Some in Hk as [Hin Hk]. zbool. by destruct (Hf r0). }
  destruct (first_where _ (coupons s)) as [c|] eqn:Hc; [|discriminate].
  apply found_coupon in Hc as [Hin Hkey]. crun.
  destruct (redemption_refused _ _ _ _ _) as [[e [st|]]|] eqn:Href; crun; [discriminate..|].
  match goal with |- context [flush_redemption ?f s] =>
    destruct (flush_redemption_run f s) as [[Hfr Hfl]|Hfl] end; rewrite Hfl; crun;
    [|discriminate].
  intros [= <- <-].
  destruct (redemption_accepted _ _ _ _ _ Href) as (Hst & Hvf & Hex & Hmin & _).
  exists c. split_and!; try done. cbn. unfold _compute_discount. lia.
Qed.

(** C34. The discount in closed form, for amounts the columns can hold: a fixed
    coupon takes its amount, a percent coupon its share of the subtotal rounded
    half-even to the cent and capped, and both at most the subtotal. *)
Theorem compute_discount_closed c sub :
  0 ≤ sub < 10 ^ 8 → (∀ p, c_percent c = Some p → 0 ≤ p ≤ 10000) →
  _compute_discount c sub =
    Z.min sub
      match c_discount_type c with
      | Fixed => default 0 (c_discount_aed c)
      | Percent =>
          let share := div_half_even (sub * default 0 (c_percent c)) 10000 in
          match c_max_discount_aed c with Some m => Z.min share m | None => share end
      end.
Proof.
  intros Hsub Hp. unfold _compute_discount. rewrite Z.min_comm. f_equal.
  destruct (c_discount_type c); [done|].
  assert (0 ≤ default 0 (c_percent c) ≤ 10000) as Hpc.
  { destruct (c_percent c) as [p|]; cbn; [by apply Hp|lia]. }
  set (p := default 0 (c_percent c)) in *.
  assert (quantize (ddiv (aed sub * aed p) 100) = div_half_even (sub * p) 10000) as ->; [|done].
  unfold ddiv.
  assert ((aed sub * aed p / 100)%Q = (sub * p # Z.to_pos (10 ^ 6))%Q) as ->.
  { unfold aed, Qdiv, Qmult, Qinv. cbn. f_equal. lia. }
  rewrite ctx_round_exact by (try nia; lia).
  unfold quantize, quantize_to. cbn [Qnum Qden].
  change (Zpos (Z.to_pos (10 ^ 6))) with (10000 * 100).
  rewrite <-div_half_even_scale with (k := 100) (d := 10000); [|lia..]. done.
Qed.

Lemma draw_code_fresh taken gen fuel i :
  (∃ j, (i ≤ j < i + fuel)%nat ∧ taken (gen j) = false) →
  ∃ j, (i ≤ j < i + fuel)%nat ∧ draw_code fuel taken gen i = Some (gen j) ∧
    taken (gen j) = false ∧ ∀ m, (i ≤ m < j)%nat → taken (gen m) = true.
Proof.
  revert i. induction fuel as [|fuel IH]; intros i (j & Hj & Ht); [lia|]. unfold draw_code; fold draw_code.
  destruct (taken (gen i)) eqn:Hi.
  - destruct (IH (S i)) as (k & Hk & Hd & Hkt & Hkm).
    { exists j. split; [|done]. assert (j ≠ i) by congruence. lia. }
    exists k. split_and!; [lia|lia|done|done|]. intros m Hm.
    destruct (decide (m = i)) as [->|]; [done|]. apply Hkm. lia.
  - exists i. split_and!; [lia|lia|done|done|]. intros m Hm. lia.
Qed.

(** A table of [n] rows cannot hold [n + 1] different codes. *)
Lemma codes_pigeonhole (t : table Coupon) (gen : nat → string) :
  Inj (=) (=) gen →
  ∃ j, (j < code_fuel t)%nat ∧ code_taken t (gen j) = false.
Proof.
  intros Hinj. destruct (List.existsb (λ j, negb (code_taken t (gen j))) (seq 0 (code_fuel t))) eqn:He.
  - apply List.existsb_exists in He as (j & Hj & Ht). apply List.in_seq in Hj.
    exists j. split; [lia|]. by apply negb_true_iff in Ht.
  - exfalso.
    assert (gen <$> seq 0 (code_fuel t) ⊆ c_code <$> rows t) as Hsub.
    { intros x Hx. apply list_elem_of_fmap in Hx as (j & -> & Hj).
      assert (code_taken t (gen j) = true) as Ht.
      { destruct (code_taken t (gen j)) eqn:Ht; [done|].
        assert (List.existsb (λ j, negb (code_taken t (gen j))) (seq 0 (code_fuel t)) = true); [|congruence].
        apply List.existsb_exists. exists j. rewrite Ht. split; [by apply list_elem_of_In|done]. }
      unfold code_taken in Ht. destruct (first_where _ t) as [c|] eqn:Hf; [|done].
      apply first_where_Some in Hf as [Hin Hc]. zbool. rewrite <-Hc.
      by apply list_elem_of_fmap_2. }
    assert (NoDup (gen <$> seq 0 (code_fuel t))) as Hnd by (apply NoDup_fmap_2; [done|apply NoDup_seq]).
    pose proof (submseteq_length _ _ (NoDup_submseteq _ _ Hnd Hsub)) as Hlen.
    rewrite !length_fmap, length_seq in Hlen. unfold code_fuel in Hlen. lia.
Qed.

(** The row a mint adds. *)
Definition apology_coupon (id rid cid : Z) (oid : option Z) (code : string) (d expires : Z) : Coupon :=
  Build_Coupon id rid (Some cid) oid code Single_use Fixed (Some d) None None 0 Whole_order None None
    CIssued None (Some expires) None None None.

Lemma issue_coupon_run tokens rid cid oid d v s :
  Inj (=) (=) tokens →
  ∃ s' j c, issue_coupon tokens rid cid oid d v s = Ok c s' ∧
    c = apology_coupon (next_id (coupons s)) rid cid oid (_generate_code rid (tokens j)) d (coupon_now s + days v) ∧
    (j ≤ length (rows (coupons s)))%nat ∧ (∀ c', c' ∈ rows (coupons s) → c_code c' ≠ c_code c) ∧
    coupons s' = add_row c (coupons s) ∧ redemptions s' = redemptions s ∧ coupon_now s' = coupon_now s.
Proof.
  intros Hinj.
  assert (Inj (=) (=) (λ i, _generate_code rid (tokens i))) as Hginj.
  { intros i j Heq. unfold _generate_code in Heq. by simplify_eq. }
  destruct (codes_pigeonhole (coupons s) _ Hginj) as (j & Hj & Ht).
  destruct (draw_code_fresh (code_taken (coupons s)) (λ i, _generate_code rid (tokens i))
    (code_fuel (coupons s)) 0) as (k & Hk & Hd & Hkt & _).
  { exists j. split; [lia|done]. }
  unfold issue_coupon. crun. rewrite Hd. crun.
  pose proof (code_taken_false _ _ Hkt) as Hfresh.
  rewrite flush_coupon_run; crun.
  - eexists _, k, _. split; [done|]. cbn. unfold code_fuel in Hk. split_and!; [done|lia|done..].
  - intros c Hc Heq. injection Heq as _ Heq. by apply (Hfresh c Hc).
Qed.

(** Minting an apology coupon terminates and succeeds: when the random tokens
    do not repeat, one more draw than the table has rows is enough, the coupon
    gets the first drawn code that no coupon has, and no UNIQUE violation
    can occur. *)
Theorem issue_coupon_total tokens rid cid oid d v s :
  Inj (=) (=) tokens →
  ∃ c s' j, issue_coupon tokens rid cid oid d v s = Ok c s' ∧
    c_code c = _generate_code rid (tokens j) ∧ (j ≤ length (rows (coupons s)))%nat ∧
    (∀ c', c' ∈ rows (coupons s) → c_code c' ≠ c_code c) ∧
    coupons s' = add_row c (coupons s) ∧ c_expires_at c = Some (coupon_now s + days v).
Proof.
  intros Hinj. destruct (issue_coupon_run tokens rid cid oid d v s Hinj)
    as (s' & j & c & Hrun & -> & Hj & Hf & Hc & _).
  eexists _, s', j. by split_and!.
Qed.

(** ** Witnesses *)

Definition demo_tokens (i : nat) : string := pretty i.
#[global] Instance demo_tokens_inj : Inj (=) (=) demo_tokens.
Proof. intros i j H. by apply (inj pretty) in H. Qed.

(** A campaign of one percent coupon, 15% up to AED 20, one use per customer. *)
Definition demo_campaign : coupon_db :=
  coupon_after (Create (λ _, [1%nat; 2%nat]) 1 "percent" (15 # 1) "15" Multi_use (20 # 1) (Some 2000)
    Whole_order (Some 1) (Some 2) None None (Some "WELCOME15") "mgr") empty_coupons.
Definition demo_used : coupon_db := coupon_after (Use 1 "WELCOME15" 7 5 9990 "order:5:coupon") demo_campaign.

Lemma demo_used_reachable : coupon_reachable demo_used.
Proof. do 2 apply cre_call. apply cre_empty. Qed.

Definition demo_coupon : Coupon :=
  Build_Coupon 1 1 None None "WELCOME15" Multi_use Percent None (Some 1500) (Some 2000) 2000
    Whole_order (Some 1) (Some 2) CActive None None (Some "mgr") None None.
Definition demo_redemption : CouponRedemption := Build_CouponRedemption 1 1 1 7 5 1498 "order:5:coupon".

Example coupon_limits_respected_witness :
  uses demo_coupon demo_used ≤ 2 ∧ uses_by_customer demo_coupon 7 demo_used ≤ 1 ∧
  uses demo_coupon demo_used = 1.
Proof.
  destruct (coupon_limits_respected demo_used demo_coupon demo_used_reachable) as (H1 & H2 & _).
  - vm_compute. left.
  - split; [exact (H1 2 eq_refl)|split; [exact (H2 1 7 eq_refl)|vm_compute; reflexivity]].
Defined.

Example redemption_replay_noop_witness :
  validate_and_redeem 1 "WELCOME15" 7 5 9990 "order:5:coupon" demo_used = Ok demo_redemption demo_used.
Proof.
  apply redemption_replay_noop; [exact demo_used_reachable| |reflexivity]. vm_compute. left.
Defined.

Example redemption_effect_witness : cr_discount_applied_aed demo_redemption ≤ 9990.
Proof.
  edestruct (redemption_effect 1 "WELCOME15" 7 5 9990 "order:5:coupon" demo_campaign demo_redemption)
    as (c & _ & _ & _ & _ & _ & _ & _ & _ & H); [|vm_compute; reflexivity|exact H].
  intros r Hr. vm_compute in Hr. inversion Hr.
Defined.

Example compute_discount_closed_witness : _compute_discount demo_coupon 9990 = 1498.
Proof.
  rewrite compute_discount_closed; [vm_compute; reflexivity|lia|].
  intros p [= <-]. lia.
Defined.

Example issue_coupon_total_witness :
  ∃ c s' j, issue_coupon demo_tokens 1 7 (Some 5) 1000 30 demo_used = Ok c s' ∧
    c_code c = _generate_code 1 (demo_tokens j).
Proof.
  destruct (issue_coupon_total demo_tokens 1 7 (Some 5) 1000 30 demo_used demo_tokens_inj)
    as (c & s' & j & Hrun & Hc & _).
  exists c, s', j. split; [exact Hrun|exact Hc].
Defined.
