(* ===== verification/Ledger.v ===== *)
(** * The store-credit ledger as its clients see it

    [LedgerOps] are the calls an order's payment makes ([app.wallet.service]'s
    [get_or_create_account], [available], [hold], [capture] and [release]);
    [Ledger] is what those calls promise, in terms of each account's settled
    balance, the amount it can still spend and the order it is reserved for.
    [WalletLedger] shows that the wallet keeps the promise. *)

From S2P Require Import Prelude Money.

Class LedgerOps (W E : Type) := {
  ledger_account : Z → Z → M W E Z;
  ledger_available : Z → M W E Z;
  ledger_hold : Z → Z → Q → Z → string → string → M W E unit;
  ledger_capture : Z → Z → Z → string → string → M W E unit;
  ledger_release : Z → Z → Z → string → string → M W E unit;
}.

Class Ledger (W E : Type) `{!LedgerOps W E} := {
  (** Settled balance and spendable amount of an account, in cents. *)
  ledger_bal : W → Z → Z;
  ledger_spendable : W → Z → Z;
  (** The account's one reservation for an order, or that it has none. *)
  ledger_reserved : W → Z → Z → Z → Prop;
  ledger_unreserved : W → Z → Z → Prop;
  ledger_used : W → string → Prop;
  ledger_owns : W → Z → Z → Z → Prop;
  ledger_ok : W → Prop;

  (** The customer's account exists after the call, and nobody's money moved. *)
  ledger_account_total : ∀ s rid cid, ∃ a s',
    ledger_account rid cid s = Ok a s' ∧ ledger_owns s' rid cid a ∧
    ledger_bal s' = ledger_bal s ∧ ledger_spendable s' = ledger_spendable s ∧
    (ledger_ok s → ledger_ok s') ∧
    (∀ k, ledger_used s' k ↔ ledger_used s k) ∧
    (∀ b o, ledger_unreserved s' b o ↔ ledger_unreserved s b o);
  ledger_account_again : ∀ s rid cid a,
    ledger_owns s rid cid a → ledger_account rid cid s = Ok a s;

  ledger_available_run : ∀ s a, ledger_available a s = Ok (ledger_spendable s a) s;

  (** A hold reserves the amount and leaves the balance alone. *)
  ledger_hold_law : ∀ s a rid x o k b s',
    ledger_ok s → ¬ ledger_used s k → ledger_unreserved s a o →
    ledger_hold a rid x o k b s = Ok tt s' →
    ledger_ok s' ∧ ledger_reserved s' a o (quantize x) ∧
    ledger_bal s' a = ledger_bal s a ∧
    ledger_spendable s' a = ledger_spendable s a - quantize x ∧
    (∀ k', ledger_used s' k' → ledger_used s k' ∨ k' = k) ∧
    (∀ cid a', ledger_owns s rid cid a' → ledger_owns s' rid cid a');

  (** A capture of the reservation settles it: the balance drops by its amount. *)
  ledger_capture_law : ∀ s a rid x o k b,
    ledger_ok s → ¬ ledger_used s k → ledger_reserved s a o x →
    ∃ s', ledger_capture a rid o k b s = Ok tt s' ∧ ledger_ok s' ∧
      ledger_bal s' a = ledger_bal s a - x ∧ ledger_spendable s' a = ledger_spendable s a;

  (** A release gives the reserved amount back. *)
  ledger_release_law : ∀ s a rid x o k b s',
    ledger_ok s → ¬ ledger_used s k → ledger_reserved s a o x →
    ledger_release a rid o k b s = Ok tt s' →
    ledger_ok s' ∧ ledger_bal s' a = ledger_bal s a ∧
    ledger_spendable s' a = ledger_spendable s a + x;
}.
