(* ===== verification/WalletLedger.v ===== *)
(** * The wallet implements the store-credit ledger

    The operations of [Wallet] as [LedgerOps], and the laws of [Ledger] for them. *)

From S2P Require Import Prelude Money Db AuditTrail Wallet WalletFacts Ledger.

#[global] Instance wallet_ops : LedgerOps wallet_db wallet_error := {|
  ledger_account rid cid := a ← get_or_create_account rid cid; mret (acc_id a);
  ledger_available := available;
  ledger_hold a rid x o k b := hold a rid x o k b ≫= λ _, mret tt;
  ledger_capture a rid o k b := capture a rid o k b ≫= λ _, mret tt;
  ledger_release a rid o k b := release a rid o k b ≫= λ _, mret tt;
|}.

Definition wallet_reserved (s : wallet_db) (a o x : Z) : Prop :=
  ∃ h, h ∈ rows (entries s) ∧ is_order_hold a o h = true ∧ we_amount h = - x ∧
    ∀ h', h' ∈ rows (entries s) → is_order_hold a o h' = true → h' = h.
Definition wallet_used (s : wallet_db) (k : string) : Prop := ¬ fresh_key k (entries s).
Definition wallet_owns (s : wallet_db) (rid cid a : Z) : Prop :=
  ∃ acc, first_where (same_account rid cid) (accounts s) = Some acc ∧ acc_id acc = a.

Lemma not_used_fresh s k : ¬ wallet_used s k → fresh_key k (entries s).
Proof.
  intros Hu. apply key_lookup_fresh. destruct (first_where _ _) eqn:Hf; [|done].
  destruct Hu. intros Hfr. apply key_lookup_fresh in Hfr. congruence.
Qed.
Lemma used_add s s' h :
  entries s' = add_row h (entries s) → ∀ k, wallet_used s' k → wallet_used s k ∨ k = we_key h.
Proof.
  intros He k Hu. destruct (decide (k = we_key h)) as [->|Hne]; [by right|left].
  intros Hf. apply Hu. intros e. rewrite He, elem_of_add_row. intros [Hin| ->]; [by apply Hf|done].
Qed.

Lemma account_again s rid cid a :
  wallet_owns s rid cid a → ledger_account rid cid s = Ok a s.
Proof.
  intros (acc & Hf & <-). cbn. unfold get_or_create_account, mbind, M_bind, gets.
  rewrite Hf. cbn. by rewrite Hf.
Qed.

Lemma account_total s rid cid : ∃ a s',
  ledger_account rid cid s = Ok a s' ∧ wallet_owns s' rid cid a ∧ entries s' = entries s.
Proof.
  cbn. unfold get_or_create_account, mbind, M_bind, gets.
  destruct (first_where (same_account rid cid) (accounts s)) as [acc|] eqn:Hf.
  - cbn. rewrite Hf. exists (acc_id acc), s. split_and!; [done| |done]. by exists acc.
  - cbn. rewrite first_where_add, Hf. unfold same_account at 1. cbn. rewrite !Z.eqb_refl. cbn.
    eexists _, _. split_and!; [done| |done]. unfold wallet_owns. cbn.
    rewrite first_where_add, Hf. unfold same_account at 1. cbn. rewrite !Z.eqb_refl. cbn. eauto.
Qed.

Lemma hold_accounts a rid x o k b s h s' :
  hold a rid x o k b s = Ok h s' → accounts s' = accounts s.
Proof.
  unfold hold. destruct (x <=q 0); [discriminate|]. wrun.
  destruct (first_where _ (entries s)); [by intros [= _ <-]|].
  destruct (get_row a (accounts s)); [|discriminate]. case_bool_decide; [discriminate|]. wrun.
  destruct (aed _ <q x); [discriminate|].
  match goal with |- context [flush_entry ?f s] =>
    destruct (flush_entry_run f s) as [[_ Hfl]|[err Hfl]] end; rewrite Hfl; wrun;
    [by intros [= _ <-]|discriminate].
Qed.

Lemma hold_law s a rid x o k b s' :
  ledger_wf (entries s) → ¬ wallet_used s k → no_hold a o (entries s) →
  ledger_hold a rid x o k b s = Ok tt s' →
  ledger_wf (entries s') ∧ wallet_reserved s' a o (quantize x) ∧
  posted_sum a (entries s') = posted_sum a (entries s) ∧
  avail_sum a (entries s') = avail_sum a (entries s) - quantize x ∧
  (∀ k', wallet_used s' k' → wallet_used s k' ∨ k' = k) ∧
  (∀ cid a', wallet_owns s rid cid a' → wallet_owns s' rid cid a').
Proof.
  intros Hwf Hf%not_used_fresh Hno Hrun. cbn in Hrun.
  apply bind_Ok in Hrun as (h & s1 & Hrun & [= ->]).
  destruct (hold_then_lookup _ _ _ _ _ _ _ _ _ Hwf Hno Hf Hrun) as (Hwf' & Hin & Hfirst & Hp).
  destruct (hold_Ok _ _ _ _ _ _ _ _ _ Hrun Hf) as (_ & _ & _ & _ & Hamt & _ & _ & _ & Hk & He).
  specialize (Hp a). unfold shift in Hp. rewrite Z.eqb_refl in Hp. injection Hp as Hb Ha.
  split_and!; [done| |cbn in *; lia|cbn in *; lia| |].
  - exists h. split_and!; [done|by apply first_where_Some in Hfirst as [_ ?]|lia|].
    intros h'. rewrite He, elem_of_add_row. intros [Hin'| ->] Hh; [|done].
    by rewrite (Hno h' Hin') in Hh.
  - rewrite <-Hk. by apply used_add.
  - intros cid a'. unfold wallet_owns. by rewrite (hold_accounts _ _ _ _ _ _ _ _ _ Hrun).
Qed.

Lemma reserved_lookup s a o x :
  wallet_reserved s a o x → ∃ h, first_where (is_order_hold a o) (entries s) = Some h ∧
    h ∈ rows (entries s) ∧ we_status h = Held ∧ we_account_id h = a ∧ we_amount h = - x.
Proof.
  intros (h & Hin & Hh & Hx & Hu). exists h.
  assert (first_where (is_order_hold a o) (entries s) = Some h) as Hf by by apply first_where_unique.
  destruct (order_hold_Some s a o h Hf) as (_ & ? & ? & _). done.
Qed.

Lemma capture_law s a rid x o k b :
  ledger_wf (entries s) → ¬ wallet_used s k → wallet_reserved s a o x →
  ∃ s', ledger_capture a rid o k b s = Ok tt s' ∧ ledger_wf (entries s') ∧
    posted_sum a (entries s') = posted_sum a (entries s) - x ∧
    avail_sum a (entries s') = avail_sum a (entries s).
Proof.
  intros Hwf Hf%not_used_fresh (h & Hfirst & Hin & Hst & Ha & Hx)%reserved_lookup.
  cbn. unfold capture. wrun. pose proof Hf as Hf'. apply key_lookup_fresh in Hf'.
  rewrite Hf', Hfirst. wrun. eexists. split; [done|]. cbn. split.
  { eapply ledger_step_wf; [by apply ls_capture|done]. }
  pose proof (positions_settle (entries s) h (captured h k) a) as Hp.
  unfold positions, shift in Hp. rewrite Ha, Z.eqb_refl in Hp.
  specialize (Hp (lw_table _ Hwf) Hin Hst eq_refl Ha eq_refl eq_refl).
  injection Hp as Hb Hav. cbn in *. lia.
Qed.

Lemma release_law s a rid x o k b s' :
  ledger_wf (entries s) → ¬ wallet_used s k → wallet_reserved s a o x →
  ledger_release a rid o k b s = Ok tt s' →
  ledger_wf (entries s') ∧ posted_sum a (entries s') = posted_sum a (entries s) ∧
  avail_sum a (entries s') = avail_sum a (entries s) + x.
Proof.
  intros Hwf Hf%not_used_fresh (h & Hfirst & Hin & Hst & Ha & Hx)%reserved_lookup Hrun.
  cbn in Hrun. apply bind_Ok in Hrun as (r & s1 & Hrun & [= ->]).
  assert (ledger_wf (entries s')) as Hwf'.
  { replace s' with (final (release a rid o k b s)) by by rewrite Hrun.
    eapply ledger_step_wf; [by apply release_step|done]. }
  split; [done|]. revert Hrun. unfold release. wrun.
  apply key_lookup_fresh in Hf. rewrite Hf, Hfirst. wrun.
  match goal with |- context [flush_entry ?f ?s0] =>
    destruct (flush_entry_run f s0) as [[Hfr Hfl]|[err Hfl]] end; rewrite Hfl; wrun;
    [|discriminate].
  intros [= _ <-]. cbn.
  match goal with |- context [add_row ?r ?t] =>
    pose proof (positions_add_posted r t a eq_refl) as Hp end.
  pose proof (positions_settle (entries s) h (posted_hold h) a (lw_table _ Hwf) Hin Hst
    eq_refl eq_refl eq_refl eq_refl) as Hp'.
  unfold positions, shift in Hp, Hp'. cbn in Hp. rewrite Z.eqb_refl in Hp. rewrite Ha, Z.eqb_refl in Hp'.
  injection Hp as Hb Hav. injection Hp' as Hb' Hav'. cbn in *. lia.
Qed.

#[global] Program Instance wallet_ledger : Ledger wallet_db wallet_error := {|
  ledger_bal s a := posted_sum a (entries s);
  ledger_spendable s a := avail_sum a (entries s);
  ledger_reserved := wallet_reserved;
  ledger_unreserved s a o := no_hold a o (entries s);
  ledger_used := wallet_used;
  ledger_owns := wallet_owns;
  ledger_ok s := ledger_wf (entries s);
|}.
Next Obligation.
  intros s rid cid. destruct (account_total s rid cid) as (a & s' & Hrun & Ho & He).
  exists a, s'. unfold wallet_used. rewrite He. by split_and!.
Qed.
Next Obligation. exact account_again. Qed.
Next Obligation. done. Qed.
Next Obligation. exact hold_law. Qed.
Next Obligation. exact capture_law. Qed.
Next Obligation. exact release_law. Qed.
