(* ===== verification/OrderPayments.v ===== *)
(** * Order payment composition ([app.ordering.payments], [app.payments.billing])

    How fees, coupons, till discounts and store credit make up what an order costs
    and what the rider collects.  The store credit is any [LedgerOps] (the wallet
    is one, see [WalletLedger]); the coupons are those of [Coupons]. *)

From S2P Require Import Prelude Money Db AuditTrail Coupons Ledger.

(** ** Data *)

(** The money columns of [orders], in cents. *)
Record Order := Bill {
  po_id : Z;
  po_restaurant_id : Z;
  po_customer_id : Z;
  po_subtotal : Z;
  po_delivery_fee_aed : Z;
  po_total : Z;
  po_service_charge_aed : Z;
  po_packaging_charge_aed : Z;
  po_min_order_surcharge_aed : Z;
  po_manager_discount_aed : Z;
  po_staff_discount_aed : Z;
  po_coupon_id : option Z;
  po_coupon_discount_aed : Z;
  po_wallet_applied_aed : Z;
}.
#[global] Instance Order_row : Row Order := po_id.

Definition set_subtotal (x : Z) (o : Order) : Order :=
  let '(Bill i r c _ f t sc pc ms md sd ci cd wa) := o in Bill i r c x f t sc pc ms md sd ci cd wa.
Definition set_total (x : Z) (o : Order) : Order :=
  let '(Bill i r c s f _ sc pc ms md sd ci cd wa) := o in Bill i r c s f x sc pc ms md sd ci cd wa.
Definition set_fees (service packaging surcharge : Z) (o : Order) : Order :=
  let '(Bill i r c s f t _ _ _ md sd ci cd wa) := o in
  Bill i r c s f t service packaging surcharge md sd ci cd wa.
Definition set_manager_discount (x : Z) (o : Order) : Order :=
  let '(Bill i r c s f t sc pc ms _ sd ci cd wa) := o in Bill i r c s f t sc pc ms x sd ci cd wa.
Definition set_coupon_id (x : option Z) (o : Order) : Order :=
  let '(Bill i r c s f t sc pc ms md sd _ cd wa) := o in Bill i r c s f t sc pc ms md sd x cd wa.
Definition set_coupon_discount (x : Z) (o : Order) : Order :=
  let '(Bill i r c s f t sc pc ms md sd ci _ wa) := o in Bill i r c s f t sc pc ms md sd ci x wa.
Definition set_wallet_applied (x : Z) (o : Order) : Order :=
  let '(Bill i r c s f t sc pc ms md sd ci cd _) := o in Bill i r c s f t sc pc ms md sd ci cd x.

Record OrderItem := {
  oi_id : Z;
  oi_order_id : Z;
  oi_price_aed : Z;
  oi_qty : Z;
  oi_cancelled : bool;
}.
#[global] Instance OrderItem_row : Row OrderItem := oi_id.

(** ** Billing settings ([payments/billing.py]) *)

(** A stored setting: missing, a number ([Decimal(str(float(...)))] of it), or
    something [float()] raises on. *)
Inductive setting := Absent | Number (q : Q) | Malformed.
Record billing_settings := {
  raw_service_charge_pct : setting;
  raw_packaging_charge_aed : setting;
  raw_min_order_aed : setting;
}.
Record billing := { service_charge_pct : Q; packaging_charge_aed : Q; min_order_aed : Q }.

Definition setting_value (s : setting) : option Q :=
  match s with Absent => Some 0%Q | Number q => Some q | Malformed => None end.

(** [None]: the call raises. *)
Definition get_billing_settings (raw : billing_settings) : option billing :=
  pct ← setting_value (raw_service_charge_pct raw);
  pack ← setting_value (raw_packaging_charge_aed raw);
  mino ← setting_value (raw_min_order_aed raw);
  Some {| service_charge_pct := pct; packaging_charge_aed := pack; min_order_aed := mino |}.

Definition set_billing_settings (raw : billing_settings) (pct pack mino : option Q)
    : billing_settings * option billing :=
  let upd old v := match v with Some q => Number q | None => old end in
  let raw' := {| raw_service_charge_pct := upd (raw_service_charge_pct raw) pct;
                 raw_packaging_charge_aed := upd (raw_packaging_charge_aed raw) pack;
                 raw_min_order_aed := upd (raw_min_order_aed raw) mino |} in
  (raw', get_billing_settings raw').

Definition apply_billing_fees (cfg : billing) (order : Order) : Order :=
  let subtotal := po_subtotal order in
  let pct := service_charge_pct cfg in
  let service := if 0 <q pct then quantize (ddiv (aed subtotal * pct) 100) else 0 in
  let pack := quantize (packaging_charge_aed cfg) in
  let min_order := quantize (min_order_aed cfg) in
  let surcharge := if (0 <? min_order) && (subtotal <? min_order) then min_order - subtotal else 0 in
  set_fees service (Z.max pack 0) surcharge order.

(** ** What is due at the door *)

Definition cod_due_aed (order : Order) : Z :=
  Z.max (po_total order - po_wallet_applied_aed order) 0.

(** ** The session *)

Section payments.
Context {W E : Type} {Hops : LedgerOps W E}.

Record pay_db := {
  po_orders : table Order;
  po_items : table OrderItem;
  po_restaurants : list (Z * billing_settings);
  po_ledger : W;
  po_coupons : coupon_db;
}.
Definition with_po_orders (t : table Order) (s : pay_db) : pay_db :=
  {| po_orders := t; po_items := po_items s; po_restaurants := po_restaurants s;
     po_ledger := po_ledger s; po_coupons := po_coupons s |}.

#[local] Program Instance ledger_lens : Lens pay_db W := {|
  view := po_ledger;
  put w s := {| po_orders := po_orders s; po_items := po_items s;
                po_restaurants := po_restaurants s; po_ledger := w; po_coupons := po_coupons s |};
|}.
Solve Obligations with by intros; try destruct s.
#[local] Program Instance coupon_lens : Lens pay_db coupon_db := {|
  view := po_coupons;
  put c s := {| po_orders := po_orders s; po_items := po_items s;
                po_restaurants := po_restaurants s; po_ledger := po_ledger s; po_coupons := c |};
|}.
Solve Obligations with by intros; try destruct s.

Inductive pay_error :=
| LedgerRaised (e : E)
| CouponRaised (e : coupon_error)
| NotAttached (order_id : Z).  (** the order passed in is not a row of the session *)

Abbreviation P := (M pay_db pay_error).

Definition in_ledger {A} (m : M W E A) : P A := zoom LedgerRaised m.
Definition in_coupons {A} (m : CM A) : P A := zoom CouponRaised m.

(** The [order] argument of the calls is an attached row, named by its id. *)
Definition the_order (order_id : Z) : P Order :=
  t ← gets po_orders;
  match get_row order_id t with Some o => mret o | None => raise (NotAttached order_id) end.
Definition update_order (order_id : Z) (f : Order → Order) : P unit :=
  o ← the_order order_id;
  modify (λ s, with_po_orders (set_row (f o) (po_orders s)) s).

Definition order_items (order_id : Z) (s : pay_db) : list OrderItem :=
  all_where (λ i, oi_order_id i =? order_id) (po_items s).
Definition items_subtotal (l : list OrderItem) : Z := zsum (λ i, oi_price_aed i * oi_qty i) l.

Definition billing_of (restaurant_id : Z) (s : pay_db) : option billing :=
  raw ← snd <$> List.find (λ r, fst r =? restaurant_id) (po_restaurants s);
  get_billing_settings raw.

Definition order_key (order_id : Z) (suffix : string) : string :=
  "order:" +:+ pretty order_id +:+ suffix.

(** The total of an order whose fee columns are set. *)
Definition total_of (o : Order) : Z :=
  Z.max (po_subtotal o + po_delivery_fee_aed o + po_service_charge_aed o
         + po_packaging_charge_aed o + po_min_order_surcharge_aed o
         - Z.max (po_coupon_discount_aed o) 0 - Z.max (po_manager_discount_aed o) 0
         - Z.max (po_staff_discount_aed o) 0)
        (po_delivery_fee_aed o).

(** The part of a recomputation that writes the order's own columns. *)
Definition recompute_columns (items : list OrderItem) (cfg : option billing) (o : Order) : Order :=
  let o1 := match items with [] => o | _ => set_subtotal (items_subtotal items) o end in
  let o2 := match cfg with Some b => apply_billing_fees b o1 | None => o1 end in
  set_total (total_of o2) o2.

Definition recompute_order_total (order_id : Z) : P Z :=
  items ← gets (order_items order_id);
  o ← the_order order_id;
  cfg ← gets (billing_of (po_restaurant_id o));
  update_order order_id (recompute_columns items cfg) ≫= λ _,
  o ← the_order order_id;
  let new_total := po_total o in
  let subtotal := str_cents (po_subtotal o) in
  (if new_total <? po_wallet_applied_aed o then
     acc ← in_ledger (ledger_account (po_restaurant_id o) (po_customer_id o));
     in_ledger (ledger_release acc (po_restaurant_id o) order_id
       (order_key order_id (":walletrelease:recompute:" +:+ subtotal)) "system") ≫= λ _,
     update_order order_id (set_wallet_applied 0) ≫= λ _,
     avail ← in_ledger (ledger_available acc);
     let to_apply := Z.min new_total avail in
     if 0 <? to_apply then
       in_ledger (ledger_hold acc (po_restaurant_id o) (aed to_apply) order_id
         (order_key order_id (":wallethold:recompute:" +:+ subtotal)) "system") ≫= λ _,
       update_order order_id (set_wallet_applied to_apply)
     else mret tt
   else mret tt) ≫= λ _,
  mret new_total.

(** What the calls report: discount, total (or wallet part) and cash due. *)
Record payment_summary := { ps_discount : Z; ps_amount : Z; ps_cod_due : Z }.

Definition apply_coupon (order_id : Z) (coupon_code : string) : P payment_summary :=
  o ← the_order order_id;
  r ← in_coupons (validate_and_redeem (po_restaurant_id o) coupon_code (po_customer_id o)
        order_id (po_subtotal o) (order_key order_id ":coupon"));
  update_order order_id (λ o, set_coupon_discount (cr_discount_applied_aed r)
                                (set_coupon_id (Some (cr_coupon_id r)) o)) ≫= λ _,
  recompute_order_total order_id ≫= λ _,
  o' ← the_order order_id;
  mret {| ps_discount := po_coupon_discount_aed o'; ps_amount := po_total o';
          ps_cod_due := cod_due_aed o' |}.

(** The coupon half of [apply_at_confirm]. *)
Definition confirm_coupon (order_id : Z) (coupon_code : option string) : P Z :=
  match coupon_code with
  | None => mret 0
  | Some code =>
      if code =s "" then mret 0 else
      o ← the_order order_id;
      r ← in_coupons (validate_and_redeem (po_restaurant_id o) code (po_customer_id o)
            order_id (po_subtotal o) (order_key order_id ":coupon"));
      let coupon_discount := cr_discount_applied_aed r in
      update_order order_id (λ o,
        set_total (Z.max (po_total o - coupon_discount) (po_delivery_fee_aed o))
          (set_coupon_discount coupon_discount o)) ≫= λ _,
      mret coupon_discount
  end.

(** The wallet half of [apply_at_confirm]. *)
Definition confirm_wallet (order_id : Z) (use_wallet : bool) (created_by : string) : P unit :=
  o ← the_order order_id;
  if use_wallet && (po_wallet_applied_aed o <=? 0) then
    acc ← in_ledger (ledger_account (po_restaurant_id o) (po_customer_id o));
    avail ← in_ledger (ledger_available acc);
    let to_apply := Z.min avail (po_total o) in
    if 0 <? to_apply then
      in_ledger (ledger_hold acc (po_restaurant_id o) (aed to_apply) order_id
        (order_key order_id ":wallethold") created_by) ≫= λ _,
      update_order order_id (set_wallet_applied to_apply)
    else mret tt
  else mret tt.

Definition apply_at_confirm (order_id : Z) (coupon_code : option string) (use_wallet : bool)
    (created_by : string) : P payment_summary :=
  coupon_discount ← confirm_coupon order_id coupon_code;
  confirm_wallet order_id use_wallet created_by ≫= λ _,
  o ← the_order order_id;
  mret {| ps_discount := coupon_discount; ps_amount := po_wallet_applied_aed o;
          ps_cod_due := po_total o - po_wallet_applied_aed o |}.

Definition capture_on_deliver (order_id : Z) (created_by : string) : P unit :=
  o ← the_order order_id;
  if po_wallet_applied_aed o <=? 0 then mret tt else
  acc ← in_ledger (ledger_account (po_restaurant_id o) (po_customer_id o));
  in_ledger (ledger_capture acc (po_restaurant_id o) order_id
    (order_key order_id ":walletcapture") created_by).

Definition release_on_cancel (order_id : Z) (created_by : string) : P unit :=
  o ← the_order order_id;
  if po_wallet_applied_aed o <=? 0 then mret tt else
  acc ← in_ledger (ledger_account (po_restaurant_id o) (po_customer_id o));
  in_ledger (ledger_release acc (po_restaurant_id o) order_id
    (order_key order_id ":walletrelease") created_by) ≫= λ _,
  update_order order_id (set_wallet_applied 0).
End payments.

#[global] Existing Instances ledger_lens coupon_lens.
#[global] Arguments recompute_columns : simpl never.
#[global] Arguments total_of : simpl never.
#[global] Arguments apply_billing_fees : simpl never.
#[global] Arguments order_key : simpl never.
