(* ===== verification/OrderPaymentsFacts.v ===== *)
(** * Correctness of the order payment composition

    The money identities of an order's total, the idempotence of its
    recomputation, and what confirm, deliver and cancel do to the customer's store
    credit.  Everything but the closing counterexamples is proved for any ledger
    that keeps the promise of [Ledger]. *)

From S2P Require Import Prelude Money Db AuditTrail Clock Coupons Ledger OrderPayments.
From S2P Require Wallet WalletLedger.

(** ** Columns *)

Lemma set_wallet_applied_same o : set_wallet_applied (po_wallet_applied_aed o) o = o.
Proof. by destruct o. Qed.
Lemma set_wallet_applied_twice x y o :
  set_wallet_applied x (set_wallet_applied y o) = set_wallet_applied x o.
Proof. by destruct o. Qed.

(** The inputs of a recomputation that it does not itself write. *)
Lemma recompute_columns_keeps items cfg o :
  let o' := recompute_columns items cfg o in
  po_id o' = po_id o ∧ po_restaurant_id o' = po_restaurant_id o ∧
  po_customer_id o' = po_customer_id o ∧ po_delivery_fee_aed o' = po_delivery_fee_aed o ∧
  po_wallet_applied_aed o' = po_wallet_applied_aed o.
Proof. destruct o, items, cfg; done. Qed.

Lemma recompute_columns_total items cfg o :
  po_total (recompute_columns items cfg o) = total_of (recompute_columns items cfg o).
Proof. destruct o, items, cfg; done. Qed.

(** Recomputing the columns again changes nothing, whatever the wallet part is. *)
Lemma recompute_columns_idem items cfg o w :
  recompute_columns items cfg (set_wallet_applied w (recompute_columns items cfg o)) =
  set_wallet_applied w (recompute_columns items cfg o).
Proof. destruct o, items, cfg; done. Qed.

Lemma total_floor o : po_delivery_fee_aed o ≤ total_of o.
Proof. unfold total_of. lia. Qed.

(** ** Running the calls *)

Section facts.
Context {W E : Type} `{Hops : !LedgerOps W E}.
Implicit Types (s : @pay_db W).

Lemma the_order_run oid s o :
  get_row oid (po_orders s) = Some o → the_order (E := E) oid s = Ok o s.
Proof. intros Hg. unfold the_order, mbind, M_bind, gets. by rewrite Hg. Qed.

Definition put_order (o : Order) s : pay_db := with_po_orders (set_row o (po_orders s)) s.

Lemma update_order_run oid f s o :
  get_row oid (po_orders s) = Some o →
  update_order (E := E) oid f s = Ok tt (put_order (f o) s).
Proof.
  intros Hg. unfold update_order. by rewrite (bind_run_Ok _ _ _ _ _ (the_order_run _ _ _ Hg)).
Qed.

Lemma put_order_lookup oid s o o' :
  get_row oid (po_orders s) = Some o → po_id o' = po_id o →
  get_row oid (po_orders (put_order o' s)) = Some o'.
Proof.
  intros Hg Hid. pose proof (get_row_Some _ _ _ Hg) as [_ Hoid].
  change (po_id o = oid) in Hoid. rewrite <-Hoid, <-Hid.
  apply (get_row_set o' o). change (get_row (po_id o') (po_orders s) = Some o). congruence.
Qed.

Lemma in_ledger_Ok {A} (m : M W E A) s a s' :
  in_ledger m s = Ok a s' ↔ ∃ w, m (po_ledger s) = Ok a w ∧ s' = put w s.
Proof. exact (zoom_Ok LedgerRaised m s a s'). Qed.
Lemma in_ledger_run {A} (m : M W E A) s a w :
  m (po_ledger s) = Ok a w → in_ledger m s = Ok a (put w s).
Proof. intros Hm. unfold in_ledger, zoom. cbn. by rewrite Hm. Qed.

Lemma put_ledger_view (w : W) s : po_ledger (put w s) = w.
Proof. done. Qed.
End facts.

(** [pay_run]: step the run hypothesis [H] through its next bind. *)
Ltac pay_run H :=
  let a := fresh "a" in let s1 := fresh "s" in let H1 := fresh "Hrun" in
  apply bind_Ok in H as (a & s1 & H1 & H).
Ltac pay_ledger H :=
  let w := fresh "w" in let Hw := fresh "Hw" in
  apply in_ledger_Ok in H as (w & Hw & ->).

Section recompute.
Context {W E : Type} `{Hops : !LedgerOps W E}.
Implicit Types (s : @pay_db W).

(** The clamp of the wallet part, from the state in which the columns are set. *)
Lemma recompute_Ok oid s t s' o :
  get_row oid (po_orders s) = Some o → recompute_order_total (E := E) oid s = Ok t s' →
  let o1 := recompute_columns (order_items oid s) (billing_of (po_restaurant_id o) s) o in
  t = po_total o1 ∧ po_items s' = po_items s ∧ po_restaurants s' = po_restaurants s ∧
  ∃ w, get_row oid (po_orders s') = Some (set_wallet_applied w o1) ∧
    if t <? po_wallet_applied_aed o then w = 0 ∨ 0 < w ≤ t else w = po_wallet_applied_aed o.
Proof.
  intros Hg Hrun o1.
  destruct (recompute_columns_keeps (order_items oid s) (billing_of (po_restaurant_id o) s) o)
    as (Hid & Hrid & Hcid & Hfee & Hwa). fold o1 in Hid, Hrid, Hcid, Hfee, Hwa.
  assert (get_row oid (po_orders (put_order o1 s)) = Some o1) as Hg1
    by by apply (put_order_lookup _ _ o).
  revert Hrun. unfold recompute_order_total. rewrite (bind_run_Ok (gets _) _ s _ s eq_refl).
  rewrite (bind_run_Ok _ _ _ _ _ (the_order_run _ _ _ Hg)), (bind_run_Ok (gets _) _ s _ s eq_refl).
  rewrite (bind_run_Ok _ _ _ _ _ (update_order_run _ _ _ _ Hg)). fold o1.
  rewrite (bind_run_Ok _ _ _ _ _ (the_order_run _ _ _ Hg1)), Hwa.
  intros Hrun. pay_run Hrun. injection Hrun as <- <-.
  split; [done|]. destruct (po_total o1 <? po_wallet_applied_aed o).
  2:{ injection Hrun0 as _ <-. split_and!; [done..|]. eexists. split; [|done].
      by rewrite set_wallet_applied_same. }
  pay_run Hrun0. pay_ledger Hrun. pay_run Hrun0. pay_ledger Hrun. pay_run Hrun0.
  rewrite (update_order_run oid _ _ o1) in Hrun by exact Hg1. injection Hrun as _ <-.
  pay_run Hrun0. pay_ledger Hrun.
  assert (∀ (w' : W), get_row oid (po_orders (put w' (put_order (set_wallet_applied 0 o1)
    (put w0 (put w (put_order o1 s)))))) = Some (set_wallet_applied 0 o1)) as Hg2.
  { intros w'. apply (put_order_lookup oid _ o1); [exact Hg1|by destruct o1]. }
  destruct (0 <? Z.min _ _) eqn:Hpos; zbool.
  - pay_run Hrun0. pay_ledger Hrun. erewrite update_order_run in Hrun0 by apply Hg2.
    injection Hrun0 as _ <-. split_and!; [done..|]. eexists. split; [|right; split; [exact Hpos|lia]].
    rewrite <-(set_wallet_applied_twice (po_total o1 `min` a3) 0 o1). eapply put_order_lookup; [exact (Hg2 w2)|by destruct o1].
  - injection Hrun0 as _ <-. split_and!; [done..|]. exists 0. split; [exact (Hg2 w1)|by left].
Qed.


Lemma set_row_same (r : Order) t : table_wf t → r ∈ rows t → set_row r t = t.
Proof.
  intros Hwf Hin. unfold set_row. destruct t as [l n]. cbn. f_equal.
  rewrite <-(map_id l) at 2. apply map_ext_in. intros x Hx%list_elem_of_In.
  destruct (row_id x =? row_id r) eqn:Hid; [|done]. zbool. by apply (wf_unique _ Hwf).
Qed.

(** The recomputation is idempotent for a given cart: run again straight after a
    run that returned, it returns the same total and changes nothing at all, in
    particular it touches neither the ledger nor the coupons. *)
Theorem recompute_idempotent oid s t s' o :
  get_row oid (po_orders s) = Some o → 0 ≤ po_delivery_fee_aed o →
  recompute_order_total (E := E) oid s = Ok t s' → table_wf (po_orders s') →
  recompute_order_total (E := E) oid s' = Ok t s'.
Proof.
  intros Hg Hfee Hrun Hwf. destruct (recompute_Ok _ _ _ _ _ Hg Hrun) as (Ht & Hi & Hr & w & Hg' & Hw).
  destruct (recompute_columns_keeps (order_items oid s) (billing_of (po_restaurant_id o) s) o)
    as (_ & Hrid & _ & Hf & _).
  pose proof (total_floor (recompute_columns (order_items oid s)
    (billing_of (po_restaurant_id o) s) o)) as Hfloor.
  rewrite <-recompute_columns_total in Hfloor.
  set (o1 := recompute_columns _ _ _) in *. set (o2 := set_wallet_applied w o1) in *.
  assert (po_restaurant_id o2 = po_restaurant_id o) as Hrid2 by (subst o2; by destruct o1).
  assert (po_total o2 = t) as Ht2 by (subst o2; by destruct o1).
  assert (po_wallet_applied_aed o2 = w) as Hw2 by (subst o2; by destruct o1).
  assert (put_order o2 s' = s') as Hput.
  { unfold put_order. rewrite set_row_same; [by destruct s'|done|].
    by apply get_row_Some in Hg' as [? _]. }
  unfold recompute_order_total.
  rewrite (bind_run_Ok (gets _) _ s' _ s' eq_refl), (bind_run_Ok _ _ _ _ _ (the_order_run _ _ _ Hg')),
    (bind_run_Ok (gets _) _ s' _ s' eq_refl), (bind_run_Ok _ _ _ _ _ (update_order_run _ _ _ _ Hg')).
  assert (recompute_columns (order_items oid s') (billing_of (po_restaurant_id o2) s') o2 = o2) as ->.
  { rewrite Hrid2. unfold order_items, billing_of. rewrite Hi, Hr. apply recompute_columns_idem. }
  rewrite Hput, (bind_run_Ok _ _ _ _ _ (the_order_run _ _ _ Hg')), Ht2, Hw2.
  assert (t <? w = false) as ->; [|done].
  apply Z.ltb_ge. destruct (t <? po_wallet_applied_aed o) eqn:Hc; zbool; lia.
Qed.
End recompute.

(** ** Confirm, then deliver or cancel *)

Lemma append_inj (p a b : string) : p +:+ a = p +:+ b → a = b.
Proof. induction p as [|c p IH]; cbn; [done|]. intros [= ?]. by apply IH. Qed.
Lemma order_key_inj oid a b : order_key oid a = order_key oid b → a = b.
Proof. unfold order_key. by intros ?%append_inj%append_inj. Qed.

Section settle.
Context {W E : Type} `{Hops : !LedgerOps W E} `{HL : !Ledger W E}.
Implicit Types (s : @pay_db W).

Lemma available_run a s :
  in_ledger (E := E) (ledger_available a) s = Ok (ledger_spendable (po_ledger s) a) s.
Proof.
  unfold in_ledger, zoom. cbn. rewrite ledger_available_run. by destruct s.
Qed.

Lemma account_run rid cid a s :
  ledger_account rid cid (po_ledger s) = Ok a (po_ledger s) →
  in_ledger (E := E) (ledger_account rid cid) s = Ok a s.
Proof. intros Ha. unfold in_ledger, zoom. cbn. rewrite Ha. by destruct s. Qed.

(** The store credit confirmed for an order: the session once [confirm_wallet] has
    reserved [w] cents on account [a]. *)
Record credit_reserved (oid : Z) (o : Order) (a w : Z) s s' : Prop := {
  cr_order : get_row oid (po_orders s') = Some (set_wallet_applied w o);
  cr_within : 0 < w ≤ po_total o;
  cr_reserved : ledger_reserved (po_ledger s') a oid w;
  cr_good : ledger_ok (po_ledger s');
  cr_owner : ledger_owns (po_ledger s') (po_restaurant_id o) (po_customer_id o) a;
  cr_bal : ledger_bal (po_ledger s') a = ledger_bal (po_ledger s) a;
  cr_spendable : ledger_spendable (po_ledger s') a = ledger_spendable (po_ledger s) a - w;
  cr_keys : ∀ k, ledger_used (po_ledger s') k →
    ledger_used (po_ledger s) k ∨ k = order_key oid ":wallethold";
}.

Definition unpaid (oid : Z) (o : Order) s : Prop :=
  get_row oid (po_orders s) = Some o ∧ po_wallet_applied_aed o = 0 ∧
  ledger_ok (po_ledger s) ∧
  (∀ suffix, ¬ ledger_used (po_ledger s) (order_key oid suffix)) ∧
  (∀ a, ledger_unreserved (po_ledger s) a oid).

Lemma unused_after oid o a w s s' suffix :
  unpaid oid o s → credit_reserved oid o a w s s' → suffix ≠ ":wallethold"%string →
  ¬ ledger_used (po_ledger s') (order_key oid suffix).
Proof.
  intros (_ & _ & _ & Hkeys & _) Hcr Hne [Hu|Heq]%(cr_keys _ _ _ _ _ _ Hcr);
    [by apply Hkeys in Hu|by apply order_key_inj in Heq].
Qed.

Lemma confirm_wallet_reserves oid o by_ s s' :
  unpaid oid o s → confirm_wallet (E := E) oid true by_ s = Ok tt s' →
  (get_row oid (po_orders s') = Some o ∧ ∃ a, ledger_owns (po_ledger s') (po_restaurant_id o) (po_customer_id o) a ∧
     ledger_bal (po_ledger s') = ledger_bal (po_ledger s) ∧
     ledger_spendable (po_ledger s') = ledger_spendable (po_ledger s)) ∨
  ∃ a w, credit_reserved oid o a w s s'.
Proof.
  intros (Hg & Hwa & Hok & Hkeys & Hun) Hrun. unfold confirm_wallet in Hrun.
  rewrite (bind_run_Ok _ _ _ _ _ (the_order_run _ _ _ Hg)), Hwa in Hrun.
  change (true && (0 <=? 0)) with true in Hrun. cbv iota in Hrun.
  destruct (ledger_account_total (po_ledger s) (po_restaurant_id o) (po_customer_id o))
    as (a & w1 & Hacc & Hown & Hb1 & Hs1 & Hok1 & Hk1 & Hu1).
  rewrite (bind_run_Ok _ _ _ _ _ (in_ledger_run _ _ _ _ Hacc)) in Hrun.
  rewrite (bind_run_Ok _ _ _ _ _ (available_run a _)) in Hrun. cbn [po_ledger put ledger_lens] in Hrun.
  destruct (0 <? _) eqn:Hpos; zbool.
  2:{ injection Hrun as <-. left. split; [done|]. by exists a. }
  right. pay_run Hrun. pay_ledger Hrun0. destruct a0. cbn in Hw.
  destruct (ledger_hold_law _ _ _ _ _ _ _ _ (Hok1 Hok) ltac:(rewrite Hk1; apply Hkeys)
    ltac:(apply Hu1, Hun) Hw) as (Hok2 & Hres & Hb2 & Hs2 & Hk2 & Hown2).
  rewrite quantize_aed in Hres, Hs2.
  erewrite update_order_run in Hrun by exact Hg. injection Hrun as <-.
  exists a, (ledger_spendable w1 a `min` po_total o). split; cbn; try done.
  - eapply put_order_lookup; [exact Hg|by destruct o].
  - lia.
  - by apply Hown2.
  - by rewrite Hb2, Hb1.
  - by rewrite Hs2, Hs1.
  - intros k [Hu%Hk1| ->]%Hk2; auto.
Qed.


(** C28. Confirm then cancel: cancelling the order afterwards, when it returns, gives
    the reserved credit back in full, leaves the settled balance as it was, and
    clears the credit recorded on the order. *)
Theorem confirm_then_cancel_restores oid o by_ by_' s s1 s2 :
  unpaid oid o s → confirm_wallet (E := E) oid true by_ s = Ok tt s1 →
  release_on_cancel (E := E) oid by_' s1 = Ok tt s2 →
  get_row oid (po_orders s2) = Some o ∧
  ∃ a, ledger_bal (po_ledger s2) a = ledger_bal (po_ledger s) a ∧
       ledger_spendable (po_ledger s2) a = ledger_spendable (po_ledger s) a ∧
       ledger_owns (po_ledger s1) (po_restaurant_id o) (po_customer_id o) a.
Proof.
  intros Hun Hrun Hcan. pose proof Hun as (Hg & Hwa & _ & Hkeys & _).
  destruct (confirm_wallet_reserves _ _ _ _ _ Hun Hrun) as [[Hg' (a & Ho & Hb & Hs)]|(a & w & Hcr)].
  { unfold release_on_cancel in Hcan.
    rewrite (bind_run_Ok _ _ _ _ _ (the_order_run _ _ _ Hg')), Hwa in Hcan. injection Hcan as <-.
    split; [done|]. exists a. by rewrite Hb, Hs. }
  pose proof (cr_order _ _ _ _ _ _ Hcr) as Hg1.
  assert (po_wallet_applied_aed (set_wallet_applied w o) = w ∧
    po_restaurant_id (set_wallet_applied w o) = po_restaurant_id o ∧
    po_customer_id (set_wallet_applied w o) = po_customer_id o) as (Ew & Er & Ec) by by destruct o.
  pose proof (cr_within _ _ _ _ _ _ Hcr) as Hpos.
  unfold release_on_cancel in Hcan.
  rewrite (bind_run_Ok _ _ _ _ _ (the_order_run _ _ _ Hg1)), Ew, Er, Ec in Hcan.
  rewrite (proj2 (Z.leb_gt _ _)) in Hcan by lia.
  pose proof (ledger_account_again _ _ _ _ (cr_owner _ _ _ _ _ _ Hcr)) as Hacc.
  rewrite (bind_run_Ok _ _ _ _ _ (account_run _ _ _ _ Hacc)) in Hcan.
  pay_run Hcan. pay_ledger Hrun0. destruct a0.
  destruct (ledger_release_law _ _ _ _ _ _ _ _ (cr_good _ _ _ _ _ _ Hcr)
    (unused_after _ _ _ _ _ _ ":walletrelease" Hun Hcr ltac:(done))
    (cr_reserved _ _ _ _ _ _ Hcr) Hw) as (_ & Hb & Hs).
  erewrite update_order_run in Hcan by exact Hg1. injection Hcan as <-. split.
  - assert (set_wallet_applied 0 (set_wallet_applied w o) = o) as Ho.
    { rewrite set_wallet_applied_twice. rewrite <-Hwa at 1. apply set_wallet_applied_same. }
    rewrite <-Ho at 2. eapply put_order_lookup; [exact Hg1|by destruct o].
  - exists a. cbn. rewrite Hb, Hs, (cr_bal _ _ _ _ _ _ Hcr), (cr_spendable _ _ _ _ _ _ Hcr).
    split_and!; [done|lia|apply Hcr].
Qed.
End settle.

(** ** On the wallet itself *)

Definition demo_wallet : Wallet.wallet_db :=
  final (Wallet.credit 1 7 (200 # 1) "c1" Wallet.Refund_credit None None "mgr"
    (Wallet.Build_wallet_db empty_table empty_table [] 0)).
Definition demo_coupons : coupon_db := Build_coupon_db empty_table empty_table [] 0.
(** Order 5 of customer 7: one line of AED 100, free delivery. *)
Definition demo_bill : Order := Bill 5 1 7 10000 0 10000 0 0 0 0 0 None 0 0.
Definition demo_line (cancelled : bool) : OrderItem := Build_OrderItem 1 5 10000 1 cancelled.
Definition demo_pay : @pay_db Wallet.wallet_db :=
  {| po_orders := Table [demo_bill] 6; po_items := Table [demo_line false] 2; po_restaurants := [];
     po_ledger := demo_wallet; po_coupons := demo_coupons |}.

(** The store credit applied to order 5, and the customer's settled balance. *)
Definition applied (s : @pay_db Wallet.wallet_db) : option Z :=
  po_wallet_applied_aed <$> get_row 5 (po_orders s).
Definition total (s : @pay_db Wallet.wallet_db) : option Z := po_total <$> get_row 5 (po_orders s).
Definition settled (s : @pay_db Wallet.wallet_db) : Z := Wallet.posted_sum 1 (Wallet.entries (po_ledger s)).
(** A till discount is granted, then the order is recomputed. *)
Definition discounted (x : Z) (s : @pay_db Wallet.wallet_db) : @pay_db Wallet.wallet_db :=
  final (recompute_order_total (E := Wallet.wallet_error) 5
    (final (update_order (E := Wallet.wallet_error) 5 (set_manager_discount x) s))).
Definition confirmed (s : @pay_db Wallet.wallet_db) : @pay_db Wallet.wallet_db :=
  final (confirm_wallet (E := Wallet.wallet_error) 5 true "customer" s).
Definition delivered (s : @pay_db Wallet.wallet_db) : @pay_db Wallet.wallet_db :=
  final (capture_on_deliver (E := Wallet.wallet_error) 5 "system" s).

(** The clamp works once per subtotal.  Its ledger keys name only the order and
    the subtotal, so a second, larger discount on the same cart finds both keys
    used: the old reservation stays.  An order of AED 100 paid by store credit and
    discounted to 80, then to 50, records 50 of credit but takes 80 from the
    customer on delivery. *)
Theorem second_discount_overcaptures :
  let s1 := confirmed demo_pay in
  let s2 := discounted 2000 s1 in
  let s3 := discounted 5000 s2 in
  applied s1 = Some 10000 ∧ applied s2 = Some 8000 ∧ total s3 = Some 5000 ∧
  applied s3 = Some 5000 ∧ settled (delivered s3) = settled s3 - 8000.
Proof. vm_compute. by split_and!. Qed.

(** Cancelled lines come back: the recomputation sums every line of the order, so
    after the only line is cancelled a recomputation still bills it. *)
Theorem recompute_bills_cancelled_lines :
  let s := {| po_orders := Table [set_total 0 (set_subtotal 0 demo_bill)] 6;
              po_items := Table [demo_line true] 2; po_restaurants := [];
              po_ledger := demo_wallet; po_coupons := demo_coupons |} in
  value (recompute_order_total (E := Wallet.wallet_error) 5 s) = Some 10000.
Proof. vm_compute. reflexivity. Qed.

(** A fixed AED 15 coupon, and order 5 confirmed with it [n] times. *)
Definition demo_coupon : Coupon := {|
  c_id := 1; c_restaurant_id := 1; c_customer_id := None; c_order_id := None; c_code := "FIX15";
  c_kind := Multi_use; c_discount_type := Fixed; c_discount_aed := Some 1500; c_percent := None;
  c_max_discount_aed := None; c_min_order_aed := 0; c_applies_to := Whole_order;
  c_per_customer_limit := None; c_total_redemption_limit := None; c_status := CActive;
  c_valid_from := None; c_expires_at := None; c_created_by := None; c_redeemed_at := None;
  c_redeemed_on_order_id := None |}.
Fixpoint confirmed_with_coupon (n : nat) : @pay_db Wallet.wallet_db :=
  match n with
  | O => {| po_orders := Table [demo_bill] 6; po_items := Table [demo_line false] 2;
            po_restaurants := []; po_ledger := demo_wallet;
            po_coupons := Build_coupon_db (Table [demo_coupon] 2) empty_table [] 0 |}
  | S m => final (apply_at_confirm (E := Wallet.wallet_error) 5 (Some "FIX15"%string) false
                    "customer" (confirmed_with_coupon m))
  end.

(** Confirming twice discounts twice: the redemption is replayed (one row in the
    coupon ledger) but its discount is taken off the total again, and the order
    never records which coupon it was. *)
Theorem confirm_replay_discounts_twice :
  total (confirmed_with_coupon 1) = Some 8500 ∧ total (confirmed_with_coupon 2) = Some 7000 ∧
  length (rows (redemptions (po_coupons (confirmed_with_coupon 2)))) = 1%nat ∧
  (po_coupon_id <$> get_row 5 (po_orders (confirmed_with_coupon 2))) = Some None.
Proof. vm_compute. by split_and!. Qed.

(** ** Witnesses *)

Lemma demo_unpaid : unpaid 5 demo_bill demo_pay.
Proof.
  assert (WalletFacts.ledger_wf (Wallet.entries demo_wallet)) as Hwf.
  { apply WalletFacts.ledger_step_wf with (t := empty_table).
    - apply (WalletFacts.credit_step (Wallet.Build_wallet_db empty_table empty_table [] 0)).
    - apply WalletFacts.empty_wallet_wf. }
  assert (∀ e, e ∈ rows (Wallet.entries demo_wallet) →
    Wallet.we_key e = "c1"%string ∧ Wallet.we_type e = Wallet.Refund_credit) as Hrows.
  { intros e He. vm_compute in He. apply list_elem_of_singleton in He as ->. done. }
  split_and!; [done|done|exact Hwf| |].
  - intros suffix Hu. apply Hu. intros e He Hk. destruct (Hrows e He) as [Hk' _]. rewrite Hk' in Hk. discriminate.
  - intros a e He. unfold Wallet.is_order_hold. destruct (Hrows e He) as [_ ->].
    by rewrite andb_false_r.
Qed.


Example recompute_idempotent_witness :
  recompute_order_total (E := Wallet.wallet_error) 5 (discounted 2000 (confirmed demo_pay)) =
  Ok 8000 (discounted 2000 (confirmed demo_pay)).
Proof.
  eapply (recompute_idempotent (E := Wallet.wallet_error) 5
    (final (update_order (E := Wallet.wallet_error) 5 (set_manager_discount 2000) (confirmed demo_pay))) 8000
    (discounted 2000 (confirmed demo_pay)) (Bill 5 1 7 10000 0 10000 0 0 0 2000 0 None 0 10000)).
  - vm_compute. reflexivity.
  - cbn. lia.
  - vm_compute. reflexivity.
  - assert (po_orders (discounted 2000 (confirmed demo_pay)) =
      Table [Bill 5 1 7 10000 0 8000 0 0 0 2000 0 None 0 8000] 6) as -> by (vm_compute; reflexivity).
    apply (add_row_wf _ (Table [] 5)); [split; cbn; [set_solver|constructor|set_solver]|reflexivity].
Defined.


Example confirm_then_cancel_restores_witness :
  ∃ a, ledger_owns (po_ledger (confirmed demo_pay)) 1 7 a ∧
  ledger_bal (po_ledger (final (release_on_cancel (E := Wallet.wallet_error) 5 "system" (confirmed demo_pay)))) a =
    ledger_bal demo_wallet a.
Proof.
  destruct (confirm_then_cancel_restores (E := Wallet.wallet_error) 5 demo_bill "customer" "system" demo_pay
    (confirmed demo_pay)
    (final (release_on_cancel (E := Wallet.wallet_error) 5 "system" (confirmed demo_pay)))
    demo_unpaid ltac:(vm_compute; reflexivity) ltac:(vm_compute; reflexivity)) as (_ & a & Hb & _ & Ho).
  exists a. split; [exact Ho|exact Hb].
Defined.
