(* ===== verification/OrderFsm.v ===== *)
(** * The order lifecycle ([app.ordering.fsm], [app.ordering.order_types])

    The status graph of an order, the single step every other service takes through
    it ([transition]), and the effects of that step: the audit row, the marketplace
    push, the customer's denormalised statistics and the realtime events. *)

From S2P Require Import Prelude Strings Db AuditTrail.

(** ** Order types ([ordering/order_types.py]) *)

Definition ORDER_TYPES : list string :=
  ["delivery"; "dine_in"; "takeaway"; "drive_thru"; "qr"; "tableside"; "aggregator"; "online"]%string.
Definition ADDRESS_REQUIRED_TYPES : list string := ["delivery"; "online"; "aggregator"]%string.
Definition TABLE_BOUND_TYPES : list string := ["dine_in"; "qr"; "tableside"]%string.
Definition PRIORITIES : list string := ["normal"; "priority"; "rush"]%string.

Inductive order_error :=
| IllegalTransition (current new : string)
| InvalidOrderType (order_type : string)
| InvalidPriority (priority : string)
| OrderNotFound (order_id : Z).

Definition validate_order_type (order_type : string) : order_error + string :=
  let value := lower (strip order_type) in
  if in_strs value ORDER_TYPES then inr value else inl (InvalidOrderType order_type).
Definition validate_priority (priority : string) : order_error + string :=
  let value := lower (strip priority) in
  if in_strs value PRIORITIES then inr value else inl (InvalidPriority priority).
Definition requires_address (order_type : string) : bool := in_strs order_type ADDRESS_REQUIRED_TYPES.
Definition requires_table (order_type : string) : bool := in_strs order_type TABLE_BOUND_TYPES.

(** ** The status graph *)

Inductive OrderStatus :=
| DRAFT | PENDING_CONFIRMATION | CONFIRMED | PREPARING | READY | ASSIGNED | PICKED_UP
| ARRIVING | DELIVERED | CANCELLED | UNDELIVERABLE | ON_RESALE | RESOLD | WRITTEN_OFF.
#[global] Instance OrderStatus_eq_dec : EqDecision OrderStatus.
Proof. solve_decision. Defined.

Definition status_value (s : OrderStatus) : string :=
  match s with
  | DRAFT => "draft" | PENDING_CONFIRMATION => "pending_confirmation"
  | CONFIRMED => "confirmed" | PREPARING => "preparing" | READY => "ready"
  | ASSIGNED => "assigned" | PICKED_UP => "picked_up" | ARRIVING => "arriving"
  | DELIVERED => "delivered" | CANCELLED => "cancelled" | UNDELIVERABLE => "undeliverable"
  | ON_RESALE => "on_resale" | RESOLD => "resold" | WRITTEN_OFF => "written_off"
  end.

Definition OPEN_ORDER_STATUSES : list string :=
  ["draft"; "pending_confirmation"; "confirmed"; "preparing"; "ready"; "assigned";
   "picked_up"; "arriving"]%string.

(** [OrderFSM.TRANSITIONS]: the adjacency map. *)
Definition TRANSITIONS (current : OrderStatus) : list OrderStatus :=
  match current with
  | DRAFT => [PENDING_CONFIRMATION; CANCELLED]
  | PENDING_CONFIRMATION => [CONFIRMED; CANCELLED]
  | CONFIRMED => [PREPARING; CANCELLED; DELIVERED]
  | PREPARING => [READY; ON_RESALE; CANCELLED; DELIVERED]
  | READY => [ASSIGNED; CANCELLED; DELIVERED]
  | ASSIGNED => [PICKED_UP; CANCELLED]
  | PICKED_UP => [ARRIVING; UNDELIVERABLE; CANCELLED]
  | ARRIVING => [DELIVERED; UNDELIVERABLE; CANCELLED]
  | DELIVERED => []
  | CANCELLED => []
  | UNDELIVERABLE => []
  | ON_RESALE => [RESOLD; WRITTEN_OFF]
  | RESOLD => []
  | WRITTEN_OFF => []
  end.

Definition next_states (current : OrderStatus) : list OrderStatus := TRANSITIONS current.
Definition validate (current new : OrderStatus) : bool := bool_decide (new ∈ TRANSITIONS current).

(** ** The session *)

(** The columns of [orders] that the step reads or writes. *)
Record Order := {
  o_id : Z;
  o_restaurant_id : Z;
  o_customer_id : Z;
  o_status : OrderStatus;
  o_total : Z;  (** cents *)
  o_table_id : option Z;
  o_aggregator_source : option string;
  o_aggregator_order_ref : option string;
  o_created_at : Z;
}.
#[global] Instance Order_row : Row Order := o_id.

Definition with_status (st : OrderStatus) (o : Order) : Order :=
  {| o_id := o_id o; o_restaurant_id := o_restaurant_id o; o_customer_id := o_customer_id o;
     o_status := st; o_total := o_total o; o_table_id := o_table_id o;
     o_aggregator_source := o_aggregator_source o;
     o_aggregator_order_ref := o_aggregator_order_ref o; o_created_at := o_created_at o |}.

(** The statistics of a customer's orders. *)
Record order_stats := {
  total_orders : Z;
  total_spend : Z;
  first_order_at : option Z;
  last_order_at : option Z;
}.

Record Customer := { cu_id : Z; cu_stats : order_stats }.
#[global] Instance Customer_row : Row Customer := cu_id.

(** A realtime event: branch, topic and its fields. *)
Record event := Event { ev_restaurant_id : Z; ev_topic : string; ev_fields : list (string * Z) }.
#[global] Instance event_eq_dec : EqDecision event.
Proof. solve_decision. Defined.

(** A call of a marketplace's API: provider, the provider's order reference, status. *)
Record marketplace_push := Push { mp_provider : string; mp_order_ref : string; mp_status : string }.

Record fsm_db := {
  orders : table Order;
  customers : table Customer;
  fsm_audit : list audit_row;
  realtime_events : list event;
  pushes : list marketplace_push;
}.

Definition with_orders (t : table Order) (s : fsm_db) : fsm_db :=
  {| orders := t; customers := customers s; fsm_audit := fsm_audit s;
     realtime_events := realtime_events s; pushes := pushes s |}.
Definition with_customers (t : table Customer) (s : fsm_db) : fsm_db :=
  {| orders := orders s; customers := t; fsm_audit := fsm_audit s;
     realtime_events := realtime_events s; pushes := pushes s |}.
Definition with_events (l : list event) (s : fsm_db) : fsm_db :=
  {| orders := orders s; customers := customers s; fsm_audit := fsm_audit s;
     realtime_events := l; pushes := pushes s |}.
Definition with_pushes (l : list marketplace_push) (s : fsm_db) : fsm_db :=
  {| orders := orders s; customers := customers s; fsm_audit := fsm_audit s;
     realtime_events := realtime_events s; pushes := l |}.
#[global] Instance fsm_has_audit : HasAudit fsm_db :=
  {| audit_log := fsm_audit;
     put_audit l s := {| orders := orders s; customers := customers s; fsm_audit := l;
                         realtime_events := realtime_events s; pushes := pushes s |} |}.

Abbreviation F := (M fsm_db order_error).

(** ** Realtime events ([realtime/hooks.py]) *)

(** [queue_event]: parked until the commit, duplicates collapsed. *)
Definition queue_event (restaurant_id : option Z) (topic : string)
    (fields : list (string * Z)) : F unit :=
  match restaurant_id with
  | None => mret tt
  | Some rid =>
      pending ← gets realtime_events;
      let entry := Event rid topic fields in
      if bool_decide (entry ∈ pending) then mret tt
      else modify (with_events (pending ++ [entry]))
  end.

(** ** The customer's statistics ([ordering/service.py]) *)

Definition placed (o : Order) : bool := negb (bool_decide (o_status o = DRAFT)).
Definition of_customer (customer_id : Z) (o : Order) : bool := o_customer_id o =? customer_id.

(** SQL's MIN and MAX: NULL over no rows. *)
Definition min_of (l : list Z) : option Z :=
  match l with [] => None | x :: l' => Some (foldr Z.min x l') end.
Definition max_of (l : list Z) : option Z :=
  match l with [] => None | x :: l' => Some (foldr Z.max x l') end.

(** The row of [compute_customer_order_stats] for one customer. *)
Definition compute_customer_order_stats (customer_id : Z) (t : table Order) : order_stats :=
  let mine := all_where (of_customer customer_id) t in
  let stamps := o_created_at <$> List.filter placed mine in
  {| total_orders := count placed mine;
     total_spend := zsum (λ o, if bool_decide (o_status o = DELIVERED) then o_total o else 0) mine;
     first_order_at := min_of stamps;
     last_order_at := max_of stamps |}.

Definition recompute_customer_stats (customer_id : Z) : F unit :=
  cs ← gets customers;
  match get_row customer_id cs with
  | None => mret tt
  | Some c =>
      t ← gets orders;
      modify (with_customers
        (set_row {| cu_id := cu_id c; cu_stats := compute_customer_order_stats customer_id t |} cs))
  end.

(** ** The marketplace push ([aggregators/factory.py], [aggregators/live.py]) *)

Definition _SUPPORTED : list string :=
  ["talabat"; "deliveroo"; "careem"; "ubereats"; "noon"; "keeta"]%string.

Definition MARKETPLACE_STATUS_MAP (status : OrderStatus) : option string :=
  match status with
  | CONFIRMED => Some "accepted" | PREPARING => Some "preparing"
  | READY => Some "ready_for_pickup" | ASSIGNED => Some "driver_assigned"
  | PICKED_UP => Some "picked_up" | ARRIVING => Some "nearby"
  | DELIVERED => Some "delivered" | CANCELLED => Some "cancelled"
  | _ => None
  end.

(** The push of a status change: an unsupported provider raises, and every
    exception of the push is swallowed, so the step goes on either way. *)
Definition push_status (o : Order) (new_status : OrderStatus) : F unit :=
  match o_aggregator_source o, o_aggregator_order_ref o with
  | Some source, Some ref =>
      if truthy source && truthy ref then
        let key := lower (strip source) in
        if in_strs key _SUPPORTED then
          modify (λ s, with_pushes (pushes s ++
            [Push key ref (default (status_value new_status) (MARKETPLACE_STATUS_MAP new_status))]) s)
        else mret tt
      else mret tt
  | _, _ => mret tt
  end.

(** ** The step ([transition]) *)

Definition transition (o : Order) (new_status : OrderStatus) (actor : string)
    (extra_audit : option jdict) : F unit :=
  if negb (validate (o_status o) new_status)
  then raise (IllegalTransition (status_value (o_status o)) (status_value new_status))
  else
    modify (λ s, with_orders (set_row (with_status new_status o) (orders s)) s) ≫= λ _,
    push_status o new_status ≫= λ _,
    audit actor (o_restaurant_id o) "order" (pretty (o_id o)) "order_status_transition"
      (Some (("status", JStr (status_value (o_status o))) :: default [] extra_audit)%string)
      (Some [("status", JStr (status_value new_status))]%string) ≫= λ _,
    recompute_customer_stats (o_customer_id o) ≫= λ _,
    queue_event (Some (o_restaurant_id o)) "orders" [("order_id", o_id o)]%string ≫= λ _,
    queue_event (Some (o_restaurant_id o)) "kds" [("order_id", o_id o)]%string ≫= λ _,
    match o_table_id o with
    | Some t => if t =? 0 then mret tt
                else queue_event (Some (o_restaurant_id o)) "tables" [("table_id", t)]%string
    | None => mret tt
    end.

(** A service that takes an order through several steps, reloading it each time. *)
Definition drive (order_id : Z) (actor : string) (l : list OrderStatus) : F unit :=
  for_each (λ st,
    t ← gets orders;
    match get_row order_id t with
    | None => raise (OrderNotFound order_id)
    | Some o => transition o st actor None
    end) l.
