(* ===== verification/OrderFsmFacts.v ===== *)
(** * Correctness of the order lifecycle

    The step obeys the status graph and does all of its bookkeeping; every order's
    history is short and never repeats a status; the customers' statistics and the
    realtime queue stay consistent through every step. *)

From S2P Require Import Prelude Strings Db AuditTrail OrderFsm.

(** ** The graph *)

(** The number of steps left before the order is closed. *)
Definition rank (s : OrderStatus) : nat :=
  match s with
  | DRAFT => 8 | PENDING_CONFIRMATION => 7 | CONFIRMED => 6 | PREPARING => 5 | READY => 4
  | ASSIGNED => 3 | PICKED_UP => 2 | ARRIVING => 1 | ON_RESALE => 1
  | DELIVERED | CANCELLED | UNDELIVERABLE | RESOLD | WRITTEN_OFF => 0
  end.

Lemma validate_true cur new : validate cur new = true ↔ new ∈ TRANSITIONS cur.
Proof. apply bool_decide_eq_true. Qed.

Lemma rank_decreases cur new : validate cur new = true → (rank new < rank cur)%nat.
Proof. by destruct cur, new; vm_compute; try discriminate; try lia. Qed.

Lemma rank_bound s : (rank s ≤ 8)%nat.
Proof. destruct s; cbn; lia. Qed.

(** ** The step's bookkeeping *)

Lemma queue_event_run rid topic fields s :
  ∃ l, queue_event (Some rid) topic fields s = Ok tt (with_events l s) ∧
    Event rid topic fields ∈ l ∧ (∀ e, e ∈ realtime_events s → e ∈ l) ∧
    (NoDup (realtime_events s) → NoDup l).
Proof.
  unfold queue_event, mbind, M_bind, gets. case_bool_decide as Hin.
  - exists (realtime_events s). split_and!; [by destruct s|done|done|done].
  - exists (realtime_events s ++ [Event rid topic fields]).
    split_and!; [done|set_solver|set_solver|].
    intros Hnd. apply NoDup_app. split_and!; [done|set_solver|]. apply NoDup_singleton.
Qed.

Lemma push_status_run o st s :
  ∃ l, push_status o st s = Ok tt (with_pushes l s) ∧ ∃ l', l = pushes s ++ l' ∧ (length l' ≤ 1)%nat.
Proof.
  assert (push_status o st s = Ok tt (with_pushes (pushes s ++ []) s) ∨
    ∃ p, push_status o st s = Ok tt (with_pushes (pushes s ++ [p]) s)) as [H|[p H]].
  { unfold push_status. rewrite app_nil_r.
    destruct (o_aggregator_source o) as [src|]; [|left; by destruct s].
    destruct (o_aggregator_order_ref o) as [ref|]; [|left; by destruct s].
    destruct (_ && _); [|left; by destruct s].
    destruct (in_strs _ _); [right; eexists; done|left; by destruct s]. }
  - exists (pushes s ++ []). split; [done|]. exists []. split; [done|cbn; lia].
  - exists (pushes s ++ [p]). split; [done|]. exists [p]. split; [done|cbn; lia].
Qed.

Definition recomputed (cid : Z) (t : table Order) (cs : table Customer) : table Customer :=
  match get_row cid cs with
  | None => cs
  | Some c => set_row {| cu_id := cu_id c; cu_stats := compute_customer_order_stats cid t |} cs
  end.

Lemma recompute_run cid s :
  recompute_customer_stats cid s = Ok tt (with_customers (recomputed cid (orders s) (customers s)) s).
Proof.
  unfold recompute_customer_stats, recomputed, mbind, M_bind, gets.
  destruct (get_row cid (customers s)); [done|by destruct s].
Qed.

(** What an accepted step leaves behind. *)
Record stepped (o : Order) (new : OrderStatus) (actor : string) (extra : option jdict)
    (s s' : fsm_db) : Prop := {
  stepped_orders : orders s' = set_row (with_status new o) (orders s);
  stepped_customers : customers s' = recomputed (o_customer_id o) (orders s') (customers s);
  stepped_audit : fsm_audit s' = fsm_audit s ++ [AuditLog actor None (Some (o_restaurant_id o))
      "order" (pretty (o_id o)) "order_status_transition"
      (Some (("status", JStr (status_value (o_status o))) :: default [] extra)%string)
      (Some [("status", JStr (status_value new))]%string)];
  stepped_announced : Event (o_restaurant_id o) "orders" [("order_id", o_id o)]%string
                      ∈ realtime_events s';
  stepped_events : ∀ e, e ∈ realtime_events s → e ∈ realtime_events s';
  stepped_nodup : NoDup (realtime_events s) → NoDup (realtime_events s');
  stepped_pushes : ∃ l, pushes s' = pushes s ++ l ∧ (length l ≤ 1)%nat;
}.

Lemma transition_accepts o new actor extra s :
  validate (o_status o) new = true →
  ∃ s', transition o new actor extra s = Ok tt s' ∧ stepped o new actor extra s s'.
Proof.
  intros Hv. unfold transition. rewrite Hv. cbn [negb].
  unfold mbind at 1, M_bind at 1, modify at 1. set (s1 := with_orders _ s).
  destruct (push_status_run o new s1) as (lp & Hp & l' & -> & Hlen).
  rewrite (bind_run_Ok _ _ _ _ _ Hp), (bind_run_Ok _ _ _ _ _ (audit_run _ _ _ _ _ _ _ _)).
  erewrite bind_run_Ok by apply recompute_run. set (s2 := with_customers _ _).
  destruct (queue_event_run (o_restaurant_id o) "orders" [("order_id", o_id o)]%string s2)
    as (l1 & H1 & Hin1 & Hk1 & Hn1).
  rewrite (bind_run_Ok _ _ _ _ _ H1).
  destruct (queue_event_run (o_restaurant_id o) "kds" [("order_id", o_id o)]%string
    (with_events l1 s2)) as (l2 & H2 & Hin2 & Hk2 & Hn2).
  rewrite (bind_run_Ok _ _ _ _ _ H2). cbn in *.
  assert (∀ l3, Event (o_restaurant_id o) "orders" [("order_id", o_id o)]%string ∈ l3 →
    (∀ e, e ∈ realtime_events s → e ∈ l3) → (NoDup (realtime_events s) → NoDup l3) →
    stepped o new actor extra s (with_events l3 (with_events l2 (with_events l1 s2)))) as Hdone.
  { intros l3 Hin Hk Hn. split; cbn; eauto. }
  assert (with_events l2 (with_events l1 s2) =
    with_events l2 (with_events l2 (with_events l1 s2))) as Hsame by done.
  assert (stepped o new actor extra s (with_events l2 (with_events l1 s2))).
  { rewrite Hsame. apply Hdone; auto. }
  destruct (o_table_id o) as [t|]; [|by eauto]. destruct (t =? 0); [by eauto|].
  destruct (queue_event_run (o_restaurant_id o) "tables" [("table_id", t)]%string
    (with_events l2 (with_events l1 s2))) as (l3 & H3 & _ & Hk3 & Hn3).
  eexists. split; [exact H3|]. apply Hdone; cbn in *; auto.
Qed.

Lemma transition_rejects o new actor extra s :
  validate (o_status o) new = false →
  transition o new actor extra s =
    Err (IllegalTransition (status_value (o_status o)) (status_value new)) s.
Proof. intros Hv. unfold transition. by rewrite Hv. Qed.

(** C26. The step follows the status graph and never acts off it.  If the new
    status is a successor of the order's, the step succeeds with its whole
    bookkeeping done: the row has the new status and no other row changed, exactly
    one audit row with the before and after status is appended, the order's event
    is queued without losing or duplicating any, and the marketplace is called at
    most once.  Otherwise it raises and leaves the session as it was. *)
Theorem transition_follows_graph o new actor extra s :
  (new ∈ TRANSITIONS (o_status o) →
     ∃ s', transition o new actor extra s = Ok tt s' ∧ stepped o new actor extra s s') ∧
  (new ∉ TRANSITIONS (o_status o) →
     transition o new actor extra s =
       Err (IllegalTransition (status_value (o_status o)) (status_value new)) s).
Proof.
  split; intros Hin.
  - apply transition_accepts. by apply validate_true.
  - apply transition_rejects. by apply bool_decide_eq_false.
Qed.

(** ** Histories *)

Lemma stepped_lookup o new actor extra s s' :
  stepped o new actor extra s s' → get_row (o_id o) (orders s) = Some o →
  get_row (o_id o) (orders s') = Some (with_status new o).
Proof. intros Hst Hg. rewrite (stepped_orders _ _ _ _ _ _ Hst). exact (get_row_set (with_status new o) o (orders s) Hg). Qed.

Lemma drive_history oid actor l : ∀ s s' o,
  get_row oid (orders s) = Some o → drive oid actor l s = Ok tt s' →
  (length l ≤ rank (o_status o))%nat ∧
  (∀ st, st ∈ l → (rank st < rank (o_status o))%nat) ∧ NoDup l.
Proof.
  induction l as [|st l IH]; intros s s' o Hg Hrun.
  { split_and!; [cbn; lia|set_solver|constructor]. }
  unfold drive in Hrun. cbn [for_each] in Hrun. apply bind_Ok in Hrun as ([] & s1 & Hst & Hrun).
  unfold mbind, M_bind, gets in Hst. rewrite Hg in Hst.
  destruct (validate (o_status o) st) eqn:Hv.
  2:{ by rewrite transition_rejects in Hst. }
  destruct (transition_accepts o st actor None s Hv) as (s2 & Hs2 & Hstep).
  rewrite Hst in Hs2. injection Hs2 as <-.
  pose proof (rank_decreases _ _ Hv) as Hlt.
  assert (o_id o = oid) as <- by by apply get_row_Some in Hg as [_ ?].
  destruct (IH s1 s' (with_status st o)) as (Hlen & Hall & Hnd);
    [by eapply stepped_lookup|exact Hrun|]. cbn in Hlen, Hall.
  split_and!; [cbn; lia| |].
  - intros st' [->|Hin]%elem_of_cons; [done|]. specialize (Hall st' Hin). lia.
  - constructor; [|done]. intros Hin. specialize (Hall st Hin). lia.
Qed.


(** No order is stuck: from any status but the closed ones, the services can
    drive the order to a closed status; and a status is closed, in the graph,
    exactly when it is neither one of the open-ticket statuses nor on resale. *)
Theorem order_can_be_closed oid actor s o :
  get_row oid (orders s) = Some o →
  (∃ l s' o', drive oid actor l s = Ok tt s' ∧ get_row oid (orders s') = Some o' ∧
     TRANSITIONS (o_status o') = []) ∧
  (TRANSITIONS (o_status o) = [] ↔
     in_strs (status_value (o_status o)) OPEN_ORDER_STATUSES = false ∧ o_status o ≠ ON_RESALE).
Proof.
  intros Hg. assert (o_id o = oid) as <- by by apply get_row_Some in Hg as [_ ?].
  split; [|destruct (o_status o); vm_compute; split; intuition congruence].
  destruct (TRANSITIONS (o_status o)) as [|x rest] eqn:Hnext.
  { exists [], s, o. done. }
  assert (∃ st, validate (o_status o) st = true ∧ TRANSITIONS st = []) as (st & Hv & Hend).
  { destruct (o_status o); try discriminate;
      first [by exists CANCELLED|by exists WRITTEN_OFF]. }
  destruct (transition_accepts o st actor None s Hv) as (s' & Hs' & Hstep).
  exists [st], s', (with_status st o). split_and!; [|by eapply stepped_lookup|done].
  unfold drive. cbn [for_each]. unfold mbind, M_bind, gets. by rewrite Hg, Hs'.
Qed.

(** ** The customers' statistics *)

Definition stats_in_sync (s : fsm_db) : Prop :=
  ∀ c, c ∈ rows (customers s) → cu_stats c = compute_customer_order_stats (cu_id c) (orders s).

Lemma all_where_set_other (p : Order → bool) r t :
  (∀ r', r' ∈ rows t → row_id r' = row_id r → p r' = false) → p r = false →
  all_where p (set_row r t) = all_where p t.
Proof.
  unfold all_where, set_row. cbn. induction (rows t) as [|x l IH]; intros Ho Hr; cbn; [done|].
  rewrite IH; [|intros r' Hr'; apply Ho; set_solver|done].
  destruct (row_id x =? row_id r) eqn:Hid; [|done]. zbool.
  rewrite Hr, (Ho x); [done|set_solver|done].
Qed.

Lemma recomputed_row cid t cs c :
  table_wf cs → c ∈ rows (recomputed cid t cs) →
  (cu_id c = cid ∧ cu_stats c = compute_customer_order_stats cid t) ∨
  (cu_id c ≠ cid ∧ c ∈ rows cs).
Proof.
  intros Hwf. unfold recomputed. destruct (get_row cid cs) as [c0|] eqn:Hg.
  - apply get_row_Some in Hg as [Hin0 Hid]. change (cu_id c0 = cid) in Hid.
    intros [[-> _]|[Hin Hne]]%elem_of_set_row; [by left|]. right. cbn in Hne.
    change (row_id c) with (cu_id c) in Hne. split; [congruence|done].
  - intros Hin. right. split; [|done]. intros <-.
    pose proof (get_row_wf cs c Hwf Hin) as Hg'.
    change (get_row (cu_id c) cs = Some c) in Hg'. congruence.
Qed.

(** The denormalised statistics stay in step with the orders: if every
    customer's order count, delivered spend, and first and last order time agree
    with the orders table, they still do after any step of any order, accepted or
    refused. *)
Theorem stats_stay_in_sync o new actor extra s :
  table_wf (orders s) → table_wf (customers s) → o ∈ rows (orders s) → stats_in_sync s →
  stats_in_sync (final (transition o new actor extra s)).
Proof.
  intros Hwo Hwc Hin Hsync. destruct (validate (o_status o) new) eqn:Hv.
  2:{ by rewrite transition_rejects. }
  destruct (transition_accepts o new actor extra s Hv) as (s' & Hrun & Hst). rewrite Hrun.
  intros c. cbn [final]. rewrite (stepped_customers _ _ _ _ _ _ Hst).
  intros [[Hc ->]|[Hne Hc]]%recomputed_row; [by rewrite Hc| |done].
  rewrite (Hsync c Hc), (stepped_orders _ _ _ _ _ _ Hst). unfold compute_customer_order_stats.
  rewrite all_where_set_other; [done| |].
  - intros r Hr Hid. rewrite (wf_unique _ Hwo r o Hr Hin Hid).
    apply Z.eqb_neq. unfold of_customer. congruence.
  - apply Z.eqb_neq. cbn. congruence.
Qed.

(** ** Witnesses *)

Definition demo_order : Order :=
  {| o_id := 1; o_restaurant_id := 3; o_customer_id := 7; o_status := ARRIVING; o_total := 4500;
     o_table_id := None; o_aggregator_source := Some "Talabat"%string;
     o_aggregator_order_ref := Some "T-9"%string; o_created_at := 100 |}.
Definition demo_customer (spend : Z) : Customer :=
  {| cu_id := 7; cu_stats := {| total_orders := 1; total_spend := spend;
       first_order_at := Some 100; last_order_at := Some 100 |} |}.
Definition demo_fsm : fsm_db :=
  {| orders := add_row demo_order empty_table; customers := Table [demo_customer 0] 8;
     fsm_audit := []; realtime_events := []; pushes := [] |}.

Lemma demo_customers_wf : table_wf (customers demo_fsm).
Proof.
  split; cbn.
  - intros r1 r2 H1 H2 _. apply list_elem_of_singleton in H1, H2. congruence.
  - apply NoDup_singleton.
  - intros r Hr. apply list_elem_of_singleton in Hr as ->. cbn. lia.
Qed.

Example transition_delivers :
  (customers (final (transition demo_order DELIVERED "rider" None demo_fsm)),
   pushes (final (transition demo_order DELIVERED "rider" None demo_fsm))) =
  (Table [demo_customer 4500] 8, [Push "talabat" "T-9" "delivered"]).
Proof. vm_compute. reflexivity. Qed.


Example order_can_be_closed_witness :
  ∃ l s' o', drive 1 "rider" l demo_fsm = Ok tt s' ∧ get_row 1 (orders s') = Some o' ∧
     TRANSITIONS (o_status o') = [].
Proof. apply (order_can_be_closed 1 "rider" demo_fsm demo_order). reflexivity. Defined.

Example stats_stay_in_sync_witness :
  stats_in_sync (final (transition demo_order DELIVERED "rider" None demo_fsm)).
Proof.
  apply stats_stay_in_sync.
  - apply (add_row_wf demo_order empty_table); [apply empty_table_wf|reflexivity].
  - exact demo_customers_wf.
  - vm_compute. left.
  - intros c Hc. apply list_elem_of_singleton in Hc as ->. reflexivity.
Defined.
