(* ===== verification/Fees.v ===== *)
(** * Delivery fees ([app.geo.fees], [app.ordering.fees], [app.dispatch.zones])

    The fee of a delivery: a priced zone that contains the drop-off, or the
    distance tiers of the restaurant, or the fixed tiers of the specification.
    Distances are kilometres (finite floats, as exact rationals) and fees are in
    cents where the code quantizes them and free decimals where it does not. *)

From S2P Require Import Prelude Money.

Inductive fee_error :=
| OutOfRadiusError (distance_km : Q)
| UndeliverableError (distance_km : Q)
| EmptyTiers.   (** [max()] of no tiers: ValueError *)

(** ** The fixed tiers ([geo/fees.py]) *)

Definition MAX_RADIUS_KM : Q := 10.
Definition delivery_fee_aed (distance_km : Q) : fee_error + Q :=
  if distance_km <=q 3 then inr (aed 0)
  else if distance_km <=q 5 then inr (aed 500)
  else if distance_km <=q MAX_RADIUS_KM then inr (aed 1000)
  else inl (OutOfRadiusError distance_km).

(** ** Zones *)

Record zone := {
  zone_name : string;
  center_lat : Q;
  center_lng : Q;
  zone_radius_km : Q;
  zone_fee : option Q;
}.

(** A tier: up to [max_km], the fee. *)
Record tier := Tier { max_km : Q; fee : Q }.

(** The restaurant's stored settings: each stored tier is a pair of numbers, or
    something the conversion raises on. *)
Record fee_settings := {
  delivery_fee_tiers : list (option (Q * Q));
  delivery_zones : list zone;
}.

Section zones.
(** [app.geo.haversine.distance_km]: great-circle distance, in floating-point
    trigonometry. *)
Context (distance : Q → Q → Q → Q → Q).

Definition in_zone (lat lon : Q) (z : zone) : bool :=
  distance lat lon (center_lat z) (center_lng z) <=q zone_radius_km z.

Definition zone_for_point (lat lon : Q) (zones : list zone) : option string :=
  zone_name <$> List.find (in_zone lat lon) zones.

Definition zone_fee_aed (lat lon : Q) (zones : list zone) : option Z :=
  match zones with
  | [] => None
  | _ =>
      name ← zone_for_point lat lon zones;
      z ← List.find (λ z, (zone_name z =s name) && match zone_fee z with Some _ => true | None => false end) zones;
      quantize <$> zone_fee z
  end.

End zones.

(** ** The restaurant's tiers ([ordering/fees.py]) *)

Definition _DEFAULT_TIERS : list tier := [Tier 3 (aed 0); Tier 5 (aed 500); Tier 10 (aed 1000)].

(** [None]: the fixed tiers apply. *)
Definition fee_settings_from_restaurant (settings : fee_settings) : option (list tier) :=
  match delivery_fee_tiers settings with
  | [] => None
  | raw => mapM (λ t, '(km, f) ← t; Some (Tier km f)) raw
  end.

Definition Qmax2 (x y : Q) : Q := if x <=q y then y else x.
(** [max(t["max_km"] for t in tiers)] *)
Definition max_radius (tiers : list tier) : option Q :=
  match tiers with
  | [] => None
  | t :: l => Some (foldl (λ m t, if m <q max_km t then max_km t else m) (max_km t) l)
  end.
Definition radius_km (settings : option (list tier)) : option Q :=
  max_radius (default _DEFAULT_TIERS settings).

(** [sorted(tiers, key=max_km)]: stable. *)
Fixpoint insert_tier (t : tier) (l : list tier) : list tier :=
  match l with
  | [] => [t]
  | u :: l' => if max_km t <=q max_km u then t :: l else u :: insert_tier t l'
  end.
Fixpoint sort_tiers (l : list tier) : list tier :=
  match l with [] => [] | t :: l' => insert_tier t (sort_tiers l') end.

Definition distance_fee (distance_km : Q) (settings : option (list tier)) : fee_error + Q :=
  let tiers := default _DEFAULT_TIERS settings in
  match max_radius tiers with
  | None => inl EmptyTiers
  | Some r =>
      if r <q distance_km then inl (UndeliverableError distance_km)
      else match List.find (λ t, distance_km <=q max_km t) (sort_tiers tiers) with
           | Some t => inr (fee t)
           | None => inl (UndeliverableError distance_km)
           end
  end.

(** ** Properties *)

Lemma qlt_true x y : (x <q y) = true ↔ (x < y)%Q.
Proof. rewrite negb_true_iff. apply qle_false. Qed.

Lemma max_radius_spec tiers r :
  max_radius tiers = Some r →
  (∃ t, t ∈ tiers ∧ max_km t = r) ∧ ∀ t, t ∈ tiers → (max_km t <= r)%Q.
Proof.
  destruct tiers as [|t0 l]; [done|]. cbn. intros [= <-].
  assert (∀ m, let r := foldl (λ m t, if m <q max_km t then max_km t else m) m l in
    (r = m ∨ ∃ t, t ∈ l ∧ max_km t = r) ∧ (m <= r)%Q ∧ ∀ t, t ∈ l → (max_km t <= r)%Q) as Hf.
  { induction l as [|u l IH]; intros m; cbn.
    { split_and!; [by left|lra|set_solver]. }
    destruct (m <q max_km u) eqn:Hlt.
    - apply qlt_true in Hlt. destruct (IH (max_km u)) as (Hin & Hge & Hall). split_and!.
      + right. destruct Hin as [->|(t & ? & ?)]; [exists u|exists t]; set_solver.
      + lra.
      + intros t [->|?]%elem_of_cons; [done|by apply Hall].
    - apply negb_false_iff, qle_true in Hlt. destruct (IH m) as (Hin & Hge & Hall). split_and!.
      + destruct Hin as [?|(t & ? & ?)]; [by left|right; exists t; set_solver].
      + done.
      + intros t [->|?]%elem_of_cons; [lra|by apply Hall]. }
  destruct (Hf (max_km t0)) as (Hin & Hge & Hall). split.
  - destruct Hin as [Heq|(t & ? & ?)]; [exists t0; split; [set_solver|done]|exists t; set_solver].
  - intros t [->|?]%elem_of_cons; [done|by apply Hall].
Qed.

Lemma elem_of_insert_tier t u l : t ∈ insert_tier u l ↔ t = u ∨ t ∈ l.
Proof.
  induction l as [|v l IH]; cbn; [set_solver|]. destruct (_ <=q _); [set_solver|].
  rewrite !elem_of_cons, IH. tauto.
Qed.
Lemma elem_of_sort_tiers t l : t ∈ sort_tiers l ↔ t ∈ l.
Proof. induction l as [|u l IH]; cbn; [done|]. by rewrite elem_of_insert_tier, elem_of_cons, IH. Qed.

(** Ascending in [max_km]. *)
Fixpoint ascending (l : list tier) : Prop :=
  match l with [] => True | t :: l' => (∀ u, u ∈ l' → (max_km t <= max_km u)%Q) ∧ ascending l' end.
Lemma insert_ascending t l : ascending l → ascending (insert_tier t l).
Proof.
  induction l as [|u l IH]; cbn; [set_solver|]. intros [Hu Hl].
  destruct (max_km t <=q max_km u) eqn:Hle; cbn.
  - apply qle_true in Hle. split; [|by split].
    intros v [->|Hv]%elem_of_cons; [done|]. specialize (Hu v Hv). lra.
  - apply qle_false in Hle. split; [|by apply IH].
    intros v [->|Hv]%elem_of_insert_tier; [lra|by apply Hu].
Qed.
Lemma sort_ascending l : ascending (sort_tiers l).
Proof. induction l as [|t l IH]; cbn; [done|]. by apply insert_ascending. Qed.

Lemma find_ascending d l t :
  ascending l → List.find (λ t, d <=q max_km t) l = Some t →
  t ∈ l ∧ (d <= max_km t)%Q ∧ ∀ u, u ∈ l → (d <= max_km u)%Q → (max_km t <= max_km u)%Q.
Proof.
  induction l as [|v l IH]; cbn; [done|]. intros [Hv Hl].
  destruct (d <=q max_km v) eqn:Hle.
  - intros [= ->]. apply qle_true in Hle. split_and!; [set_solver|done|].
    intros u [->|Hu]%elem_of_cons _; [lra|by apply Hv].
  - apply qle_false in Hle. intros Hf. destruct (IH Hl Hf) as (Hin & Hd & Hmin).
    split_and!; [set_solver|done|]. intros u [->|Hu]%elem_of_cons Hdu; [lra|by apply Hmin].
Qed.

(** The tier fee is the one the restaurant configured.  For a non-empty list of
    tiers in any order, a delivery is refused exactly when it is beyond every tier;
    otherwise the fee is that of a tier reaching the drop-off that no other tier
    reaching it undercuts in distance. *)
Theorem distance_fee_is_nearest_tier d tiers :
  tiers ≠ [] →
  match distance_fee d (Some tiers) with
  | inr f => ∃ t, t ∈ tiers ∧ fee t = f ∧ (d <= max_km t)%Q ∧
      ∀ u, u ∈ tiers → (d <= max_km u)%Q → (max_km t <= max_km u)%Q
  | inl e => e = UndeliverableError d ∧ ∀ u, u ∈ tiers → (max_km u < d)%Q
  end.
Proof.
  intros Hne. unfold distance_fee. change (default _DEFAULT_TIERS (Some tiers)) with tiers.
  destruct (max_radius tiers) as [r|] eqn:Hr; [|by destruct tiers].
  apply max_radius_spec in Hr as [(tm & Hin & Htm) Hmax].
  destruct (r <q d) eqn:Hfar.
  { apply qlt_true in Hfar. split; [done|]. intros u Hu. specialize (Hmax u Hu). lra. }
  apply negb_false_iff, qle_true in Hfar.
  destruct (List.find _ _) as [t|] eqn:Hf.
  - destruct (find_ascending d _ t (sort_ascending tiers) Hf) as (Ht & Hd & Hmin).
    exists t. split_and!; [by apply elem_of_sort_tiers|done|done|].
    intros u Hu. apply Hmin. by apply elem_of_sort_tiers.
  - exfalso. pose proof (List.find_none _ _ Hf tm) as Hn.
    rewrite <-list_elem_of_In, elem_of_sort_tiers in Hn. specialize (Hn Hin). cbn in Hn.
    apply qle_false in Hn. rewrite Htm in Hn. lra.
Qed.

(** ** The fee of a delivery *)

Section delivery.
Context (distance : Q → Q → Q → Q → Q).

(** [drop]: the drop-off and the restaurant's settings, when both coordinates are
    given. *)
Definition calculate_fee (distance_km : Q) (settings : option (list tier))
    (drop : option (Q * Q * fee_settings)) : fee_error + Q :=
  match '(lat, lon, rs) ← drop; zone_fee_aed distance lat lon (delivery_zones rs) with
  | Some f => inr (aed f)
  | None => distance_fee distance_km settings
  end.

Definition resolve_delivery_fee (distance_km : Q) (drop : option (Q * Q)) (settings : fee_settings)
    : fee_error + Q :=
  match '(lat, lon) ← drop; zone_fee_aed distance lat lon (delivery_zones settings) with
  | Some f => inr (aed f)
  | None => calculate_fee distance_km (fee_settings_from_restaurant settings) None
  end.

(** The two fee primitives agree: without configured tiers, the settings-driven
    calculation is the fixed primitive of the specification at every distance. *)
Theorem calculate_fee_default_agrees d :
  match calculate_fee d None None, delivery_fee_aed d with
  | inr f, inr g => f = g
  | inl e, inl e' => e = UndeliverableError d ∧ e' = OutOfRadiusError d
  | _, _ => False
  end.
Proof.
  unfold calculate_fee, distance_fee, delivery_fee_aed, MAX_RADIUS_KM.
  change (default _DEFAULT_TIERS None) with _DEFAULT_TIERS.
  assert (max_radius _DEFAULT_TIERS = Some 10%Q) as -> by reflexivity.
  assert (sort_tiers _DEFAULT_TIERS = _DEFAULT_TIERS) as -> by reflexivity. cbn.
  destruct (d <=q 3) eqn:H3, (d <=q 5) eqn:H5, (d <=q 10) eqn:H10; cbn; try done;
    qbool; exfalso; lra.
Qed.

(** A misconfigured zone price never loses the fee: whatever the zones, the fee
    is a priced zone's, quantized, with the drop-off inside a zone of that name, or
    it is the fee of the tiers. *)
Theorem resolve_delivery_fee_sources d lat lon settings :
  (∃ z z' f, z ∈ delivery_zones settings ∧ in_zone distance lat lon z = true ∧
     z' ∈ delivery_zones settings ∧ zone_name z' = zone_name z ∧ zone_fee z' = Some f ∧
     resolve_delivery_fee d (Some (lat, lon)) settings = inr (aed (quantize f))) ∨
  resolve_delivery_fee d (Some (lat, lon)) settings =
    distance_fee d (fee_settings_from_restaurant settings).
Proof.
  unfold resolve_delivery_fee, calculate_fee, zone_fee_aed, zone_for_point. cbn.
  destruct (delivery_zones settings) as [|z0 zs] eqn:Hz; [by right|]. rewrite <-Hz.
  destruct (List.find (in_zone distance lat lon) (delivery_zones settings)) as [z|] eqn:Hf; [|by right]. cbn.
  match goal with |- context [List.find ?p _ ≫= _] =>
    destruct (List.find p (delivery_zones settings)) as [z'|] eqn:Hf' end; [|by right]. cbn.
  apply List.find_some in Hf as [Hin Hzone]. apply List.find_some in Hf' as [Hin' Hp]. zbool.
  destruct (zone_fee z') as [f|] eqn:Hfee; [|done]. left. exists z, z', f. cbn.
  rewrite !list_elem_of_In. by split_and!.
Qed.
End delivery.

(** An unpriced zone shadows a priced one: where two zones overlap and the first
    has no fee, the drop-off pays the distance tier although it lies in a zone
    priced at AED 2. *)
Theorem unpriced_zone_shadows_priced :
  let dist (_ _ _ _ : Q) : Q := 0%Q in
  let priced := Build_zone "marina" 0 0 5 (Some 2%Q) in
  let unpriced := Build_zone "batching" 0 0 5 None in
  zone_fee_aed dist 0 0 [priced] = Some 200 ∧
  resolve_delivery_fee dist 4 (Some (0, 0)%Q) (Build_fee_settings [] [unpriced; priced]) = inr (aed 500).
Proof. vm_compute. by split. Qed.

(** ** Witnesses *)

Example distance_fee_is_nearest_tier_witness :
  ∃ t, t ∈ [Tier 8 (aed 700); Tier 2 (aed 100)] ∧ fee t = aed 700 ∧ (4 <= max_km t)%Q.
Proof.
  pose proof (distance_fee_is_nearest_tier 4 [Tier 8 (aed 700); Tier 2 (aed 100)] ltac:(discriminate)) as H.
  cbn in H. destruct H as (t & Hin & Hf & Hd & _). exists t. split_and!; [exact Hin|exact Hf|exact Hd].
Defined.
