(* ===== verification/Tax.v ===== *)
(** * UAE VAT ([app.ordering.tax], [app.compliance.tax_settings])

    VAT on top of net prices or extracted from gross ones, per line with the
    dish's own rate, its snapshot on the order at confirmation, and the tax
    invoice's breakdown by rate.  Amounts are cents; rates and intermediate
    results are decimals.  The invoice keeps amounts as numbers where the code
    prints them with [str]. *)

From S2P Require Import Prelude Money Strings Db.

(** ** Settings ([compliance/tax_settings.py]) *)

Definition DEFAULT_VAT_RATE : Q := 5 # 100.
Definition DEFAULT_SIMPLIFIED_THRESHOLD_AED : Q := 10000.
Definition DEFAULT_RETENTION_DAYS : Z := 2555.

(** A stored value that [Decimal(str(value))] is applied to. *)
Inductive stored := Unset | Value (q : Q) | Unreadable.
Definition stored_or (d : Q) (s : stored) : Q :=
  match s with Unset => d | Value q => q | Unreadable => d end.

Record raw_tax_settings := {
  raw_tax_pricing_mode : option string;
  raw_default_vat_rate : stored;
  raw_threshold : stored;
  raw_retention_days : Z;          (** 0: not set *)
  raw_trn : option string;
}.
Record tax_config := {
  trn : option string;
  tax_pricing_mode : string;
  default_vat_rate : Q;
  simplified_invoice_threshold_aed : Q;
  data_retention_days : Z;
}.

Definition no_tax_settings : raw_tax_settings := Build_raw_tax_settings None Unset Unset 0 None.

Definition tax_settings (settings : option raw_tax_settings) : tax_config :=
  let s := default no_tax_settings settings in
  let mode := match raw_tax_pricing_mode s with
              | Some m => if truthy m then lower m else "exclusive"%string
              | None => "exclusive"%string end in
  let retention := if raw_retention_days s =? 0 then DEFAULT_RETENTION_DAYS else raw_retention_days s in
  let trn' := strip (default ""%string (raw_trn s)) in
  {| trn := if truthy trn' then Some trn' else None;
     tax_pricing_mode := if in_strs mode ["inclusive"; "exclusive"]%string then mode else "exclusive"%string;
     default_vat_rate := stored_or DEFAULT_VAT_RATE (raw_default_vat_rate s);
     simplified_invoice_threshold_aed := stored_or DEFAULT_SIMPLIFIED_THRESHOLD_AED (raw_threshold s);
     data_retention_days := Z.max 30 retention |}.

(** ** VAT of an amount *)

Definition _q (d : Q) : Z := quantize_half_up d.

Definition vat_from_exclusive (net rate : Q) : Z := _q (net * rate).

(** Net and VAT. *)
Definition vat_from_inclusive (gross rate : Q) : Z * Z :=
  if rate <=q 0 then (_q gross, 0)
  else
    let net := _q (ddiv gross (1 + rate)) in
    let vat := _q (gross - aed net) in
    (net, vat).

Definition vat_of (mode : string) (amount rate : Q) : Z :=
  if mode =s "inclusive" then snd (vat_from_inclusive amount rate) else vat_from_exclusive amount rate.
Definition taxable_of (mode : string) (amount : Z) (rate : Q) : Z :=
  if mode =s "inclusive" then fst (vat_from_inclusive (aed amount) rate) else amount.

(** ** Orders and lines *)

Record TaxedOrder := {
  to_id : Z;
  to_restaurant_id : Z;
  to_order_number : string;
  to_subtotal : Z;
  to_delivery_fee_aed : Z;
  to_total : Z;
  to_vat_rate : Q;
  to_vat_amount_aed : Z;
  to_tax_pricing_mode : option string;
  to_invoice_kind : option string;
}.
#[global] Instance TaxedOrder_row : Row TaxedOrder := to_id.
Record TaxedItem := {
  ti_id : Z;
  ti_order_id : Z;
  ti_dish_id : Z;
  ti_dish_name : string;
  ti_price_aed : Z;
  ti_qty : Z;
  ti_vat_rate : option Q;
  ti_vat_amount_aed : Z;
}.
#[global] Instance TaxedItem_row : Row TaxedItem := ti_id.

Definition line_total (i : TaxedItem) : Z := ti_price_aed i * ti_qty i.

Definition with_vat (rate : Q) (vat : Z) (mode : string) (o : TaxedOrder) : TaxedOrder :=
  {| to_id := to_id o; to_restaurant_id := to_restaurant_id o; to_order_number := to_order_number o;
     to_subtotal := to_subtotal o; to_delivery_fee_aed := to_delivery_fee_aed o; to_total := to_total o;
     to_vat_rate := rate; to_vat_amount_aed := vat; to_tax_pricing_mode := Some mode;
     to_invoice_kind := to_invoice_kind o |}.
Definition with_vat_amount (vat : Z) (o : TaxedOrder) : TaxedOrder :=
  with_vat (to_vat_rate o) vat (default ""%string (to_tax_pricing_mode o)) o.
Definition with_kind (kind : string) (o : TaxedOrder) : TaxedOrder :=
  {| to_id := to_id o; to_restaurant_id := to_restaurant_id o; to_order_number := to_order_number o;
     to_subtotal := to_subtotal o; to_delivery_fee_aed := to_delivery_fee_aed o; to_total := to_total o;
     to_vat_rate := to_vat_rate o; to_vat_amount_aed := to_vat_amount_aed o;
     to_tax_pricing_mode := to_tax_pricing_mode o; to_invoice_kind := Some kind |}.

Definition apply_vat (vat_rate : Q) (pricing_mode : string) (o : TaxedOrder) : TaxedOrder :=
  let mode := lower (if truthy pricing_mode then pricing_mode else "exclusive"%string) in
  with_vat vat_rate (vat_of mode (aed (to_subtotal o)) vat_rate) mode o.

Definition apply_line_vat (rate : Q) (pricing_mode : string) (i : TaxedItem) : TaxedItem :=
  {| ti_id := ti_id i; ti_order_id := ti_order_id i; ti_dish_id := ti_dish_id i;
     ti_dish_name := ti_dish_name i; ti_price_aed := ti_price_aed i; ti_qty := ti_qty i;
     ti_vat_rate := Some rate;
     ti_vat_amount_aed := vat_of pricing_mode (aed (line_total i)) rate |}.

Definition resolve_invoice_kind (total_aed : Q) (buyer_trn : option string) (threshold : Q) : string :=
  if otruthy (strip <$> buyer_trn) then "tax_invoice"
  else if threshold <q total_aed then "tax_invoice"
  else "simplified_tax_invoice".

(** ** The snapshot at confirmation *)

Record tax_db := {
  tx_orders : table TaxedOrder;
  tx_items : table TaxedItem;
  tx_dish_rates : list (Z * option Q);   (** dishes and their own rates *)
  tx_settings : option raw_tax_settings; (** the restaurant's, when it exists *)
}.
Abbreviation T := (M tax_db unit).

Definition order_lines (order_id : Z) (t : table TaxedItem) : list TaxedItem :=
  all_where (λ i, ti_order_id i =? order_id) t.

(** The rate of a line: the dish's own, else the restaurant's default. *)
Definition line_rate (dishes : list (Z * option Q)) (default_rate : Q) (dish_id : Z) : Q :=
  if dish_id =? 0 then default_rate
  else default default_rate (d ← List.find (λ d, fst d =? dish_id) dishes; snd d).

Definition apply_order_vat_from_settings (order : TaxedOrder) : T TaxedOrder :=
  cfg ← gets (λ s, tax_settings (tx_settings s));
  let mode := tax_pricing_mode cfg in
  let default_rate := default_vat_rate cfg in
  let order1 := apply_vat default_rate mode order in
  items ← gets (λ s, order_lines (to_id order) (tx_items s));
  dishes ← gets tx_dish_rates;
  total_line_vat ← for_fold (λ item acc,
    let item' := apply_line_vat (line_rate dishes default_rate (ti_dish_id item)) mode item in
    modify (λ s, {| tx_orders := tx_orders s; tx_items := set_row item' (tx_items s);
                    tx_dish_rates := tx_dish_rates s; tx_settings := tx_settings s |}) ≫= λ _,
    mret (acc + ti_vat_amount_aed item')) items 0;
  let order2 := match items with [] => order1 | _ => with_vat_amount total_line_vat order1 end in
  let kind := resolve_invoice_kind (aed (to_total order2)) None (simplified_invoice_threshold_aed cfg) in
  let order3 := with_kind kind order2 in
  modify (λ s, {| tx_orders := set_row order3 (tx_orders s); tx_items := tx_items s;
                  tx_dish_rates := tx_dish_rates s; tx_settings := tx_settings s |}) ≫= λ _,
  mret order3.

(** ** The tax invoice *)

(** [_first_set]: the first value that is set; a real zero survives. *)
Fixpoint _first_set (values : list (option Q)) : Q :=
  match values with [] => 0 | Some v :: _ => v | None :: l => _first_set l end.

Record bucket := Bucket { b_rate : Q; b_taxable_aed : Z; b_vat_aed : Z }.

(** Rates have at most four decimals, so their texts are equal when they are. *)
Fixpoint add_to_bucket (rate : Q) (taxable vat : Z) (l : list bucket) : list bucket :=
  match l with
  | [] => [Bucket rate taxable vat]
  | b :: l' =>
      if Qeq_bool (b_rate b) rate
      then Bucket (b_rate b) (b_taxable_aed b + taxable) (b_vat_aed b + vat) :: l'
      else b :: add_to_bucket rate taxable vat l'
  end.

Record invoice_line := {
  il_dish_name : string; il_qty : Z; il_price_aed : Z; il_line_total_aed : Z;
  il_vat_rate : Q; il_vat_amount_aed : Z; il_taxable_aed : Z;
}.
Record invoice := {
  inv_document_type : string;
  inv_simplified : bool;
  inv_trn : option string;
  inv_number : string;
  inv_tax_pricing_mode : string;
  inv_line_items : list invoice_line;
  inv_vat_breakdown : list bucket;
  inv_subtotal_aed : Z;
  inv_delivery_fee_aed : Z;
  inv_vat_rate : Q;
  inv_vat_amount_aed : Z;
  inv_total_aed : Z;
}.

(** The VAT of an invoice line: the stored one, or recomputed when it is zero. *)
Definition invoice_vat (mode : string) (rate : Q) (i : TaxedItem) : Z :=
  if (ti_vat_amount_aed i =? 0) && (0 <? line_total i)
  then vat_of mode (aed (line_total i)) rate else ti_vat_amount_aed i.

Definition invoice_line_of (mode : string) (rate : Q) (i : TaxedItem) : invoice_line :=
  {| il_dish_name := ti_dish_name i; il_qty := ti_qty i; il_price_aed := ti_price_aed i;
     il_line_total_aed := line_total i; il_vat_rate := rate;
     il_vat_amount_aed := invoice_vat mode rate i;
     il_taxable_aed := taxable_of mode (line_total i) rate |}.

Definition item_rate (o : TaxedOrder) (cfg : tax_config) (i : TaxedItem) : Q :=
  _first_set [ti_vat_rate i; Some (to_vat_rate o); Some (default_vat_rate cfg)].

(** The loop over the lines: the line items and the buckets so far. *)
Fixpoint invoice_lines (mode : string) (rate_of : TaxedItem → Q) (items : list TaxedItem)
    (acc : list invoice_line * list bucket) : list invoice_line * list bucket :=
  match items with
  | [] => acc
  | i :: items' =>
      let rate := rate_of i in
      invoice_lines mode rate_of items'
        (fst acc ++ [invoice_line_of mode rate i],
         add_to_bucket rate (taxable_of mode (line_total i) rate) (invoice_vat mode rate i) (snd acc))
  end.

(** [None]: "order not found". *)
Definition build_tax_invoice (order_id restaurant_id : Z) (document_type buyer_trn : option string)
    (s : tax_db) : option invoice :=
  order ← get_row order_id (tx_orders s);
  if negb (to_restaurant_id order =? restaurant_id) then None else
  let cfg := tax_settings (tx_settings s) in
  let items := order_lines order_id (tx_items s) in
  let or_else (o : option string) (d : string) :=
    match o with Some x => if truthy x then x else d | None => d end in
  let kind := or_else document_type (or_else (to_invoice_kind order)
    (resolve_invoice_kind (aed (to_total order)) buyer_trn (simplified_invoice_threshold_aed cfg))) in
  let mode := or_else (to_tax_pricing_mode order) (tax_pricing_mode cfg) in
  let '(line_items, rate_buckets) := invoice_lines mode (item_rate order cfg) items ([], []) in
  Some {| inv_document_type := kind; inv_simplified := kind =s "simplified_tax_invoice";
          inv_trn := trn cfg; inv_number := to_order_number order; inv_tax_pricing_mode := mode;
          inv_line_items := line_items; inv_vat_breakdown := rate_buckets;
          inv_subtotal_aed := to_subtotal order; inv_delivery_fee_aed := to_delivery_fee_aed order;
          inv_vat_rate := to_vat_rate order; inv_vat_amount_aed := to_vat_amount_aed order;
          inv_total_aed := to_total order |}.

#[global] Arguments vat_of : simpl never.
#[global] Arguments taxable_of : simpl never.
#[global] Arguments vat_from_inclusive : simpl never.
#[global] Arguments tax_settings : simpl never.
