(* ===== verification/TaxFacts.v ===== *)
(** * Correctness of the VAT computations

    The identity net + VAT = gross, bounds and accuracy of both directions, the
    rounding drift of line-by-line VAT, the snapshot of an order, and the invoice
    breakdown's totals. *)

From S2P Require Import Prelude Money Strings Db Tax.

(** ** One amount *)

Lemma half_up_error x : (Qabs.Qabs (aed (quantize_half_up x) - x) <= 1 # 200)%Q.
Proof.
  destruct x as [n d]. unfold quantize_half_up. cbn [Qnum Qden].
  pose proof (div_half_up_error (n * 100) (Zpos d) ltac:(lia)) as He.
  set (q := div_half_up _ _) in *. unfold aed, Qabs.Qabs, Qminus, Qplus, Qopp, Qle. cbn [Qnum Qden].
  replace (q * Zpos d + - n * 100) with (q * Zpos d - n * 100) by ring. lia.
Qed.

Lemma half_up_error_bounds x :
  (x - (1 # 200) <= aed (quantize_half_up x) <= x + (1 # 200))%Q.
Proof. pose proof (half_up_error x) as H. apply Qabs.Qabs_Qle_condition in H. lra. Qed.

Lemma aed_lt_succ c c' : (aed c < aed c' + (1 # 100))%Q → c ≤ c'.
Proof. unfold Qlt, aed. cbn. lia. Qed.

(** The quotient of a gross amount and [1 + rate], for a positive rate. *)
Lemma net_quotient g rate :
  0 ≤ g ≤ 10 ^ 12 → (0 < rate)%Q →
  let y := (aed g / (1 + rate))%Q in
  (0 <= y <= aed g)%Q ∧ (0 <= ddiv (aed g) (1 + rate))%Q ∧
  (y - (1 # 10000) <= ddiv (aed g) (1 + rate) <= y + (1 # 10000))%Q.
Proof.
  intros Hg Hr y. assert (0 <= aed g)%Q as Hg0 by (unfold Qle, aed; cbn; lia).
  assert (aed g <= 10 ^ 10)%Q as Hg1.
  { change (10 ^ 10)%Q with (10000000000 # 1)%Q. unfold Qle, aed; cbn; lia. }
  assert (0 <= y <= aed g)%Q as Hy.
  { split; [apply Qle_shift_div_l; lra|apply Qle_shift_div_r; [lra|]].
    assert (0 <= aed g * rate)%Q by (apply Qmult_le_0_compat; lra). lra. }
  split; [done|]. apply ctx_round_close. split; [apply Hy|]. apply (Qle_trans _ (aed g)); [apply Hy|done].
Qed.

(** Extraction loses nothing: for every gross amount in cents and every rate,
    the net and the VAT extracted from it add up to exactly the gross; for a
    non-negative rate and amount both are non-negative, and the net is within
    0.0051 of the exact quotient. *)
Theorem vat_from_inclusive_adds_up g rate :
  let '(net, vat) := vat_from_inclusive (aed g) rate in
  net + vat = g ∧
  (0 ≤ g ≤ 10 ^ 12 → (0 <= rate)%Q →
     0 ≤ vat ∧ 0 ≤ net ∧
     (aed g / (1 + rate) - (51 # 10000) <= aed net <= aed g / (1 + rate) + (51 # 10000))%Q).
Proof.
  unfold vat_from_inclusive, _q. destruct (rate <=q 0) eqn:Hr; qbool.
  - rewrite quantize_half_up_aed. split; [lia|]. intros Hg Hr0. assert (aed g / (1 + rate) == aed g)%Q as Hq.
    { assert (rate == 0)%Q as -> by lra. field. }
    rewrite Hq. split_and!; [lia|lia|lra|lra].
  - set (net := quantize_half_up (ddiv _ _)).
    assert (quantize_half_up (aed g - aed net) = g - net) as Hv.
    { transitivity (quantize_half_up (aed (g - net))); [|apply quantize_half_up_aed].
      unfold quantize_half_up, aed, Qminus, Qplus, Qopp. cbn [Qnum Qden].
      replace ((g * 100 + - net * 100) * 100) with ((g - net) * 100 * 100) by ring.
      change (Zpos (100 * 100)) with (100 * 100). by apply div_half_up_scale. }
    rewrite Hv. split; [lia|]. intros Hg Hr0.
    destruct (net_quotient g rate Hg Hr) as (Hy & Hnn & Hc).
    pose proof (half_up_error_bounds (ddiv (aed g) (1 + rate))) as He. fold net in He.
    assert (0 ≤ net) by by apply quantize_half_up_nonneg.
    assert (net ≤ g) by (apply aed_lt_succ; lra).
    split_and!; [lia|lia|lra|lra].
Qed.

Lemma vat_from_exclusive_error net rate :
  (net * rate - (1 # 200) <= aed (vat_from_exclusive net rate) <= net * rate + (1 # 200))%Q.
Proof. apply half_up_error_bounds. Qed.

(** ** The rounding drift of line VAT *)

Definition exclusive_vat (rate : Q) (i : TaxedItem) : Z :=
  ti_vat_amount_aed (apply_line_vat rate "exclusive" i).

Definition lines_total (l : list TaxedItem) : Z := zsum line_total l.

(** Line-by-line VAT drifts by at most half a cent per line: with one rate for
    the whole order, the sum of the rounded line amounts differs from the exact
    VAT of the lines' total by at most half a cent times the number of lines. *)
Theorem line_vat_drift rate l :
  (Qabs.Qabs (aed (zsum (exclusive_vat rate) l) - aed (lines_total l) * rate)
   <= inject_Z (Z.of_nat (length l)) * (1 # 200))%Q.
Proof.
  apply Qabs.Qabs_Qle_condition. unfold lines_total. induction l as [|i l IH].
  { cbn [zsum length]. rewrite aed_0. change (inject_Z (Z.of_nat 0)) with 0%Q. lra. }
  cbn [zsum length]. rewrite <-!aed_add, Nat2Z.inj_succ, <-Z.add_1_r, inject_Z_plus.
  assert (aed (line_total i) * rate - (1 # 200) <= aed (exclusive_vat rate i)
          <= aed (line_total i) * rate + (1 # 200))%Q as H.
  { unfold exclusive_vat, apply_line_vat. cbn [ti_vat_amount_aed]. apply vat_from_exclusive_error. }
  change (inject_Z 1) with 1%Q. lra.
Qed.

(** ** The snapshot *)

(** The lines of an order as the snapshot stamps them. *)
Definition stamped (s : tax_db) (i : TaxedItem) : TaxedItem :=
  let cfg := tax_settings (tx_settings s) in
  apply_line_vat (line_rate (tx_dish_rates s) (default_vat_rate cfg) (ti_dish_id i)) (tax_pricing_mode cfg) i.

Definition tax_set_items (t : table TaxedItem) (s : tax_db) : tax_db :=
  {| tx_orders := tx_orders s; tx_items := t; tx_dish_rates := tx_dish_rates s; tx_settings := tx_settings s |}.

(** The loop of the snapshot, from any accumulated total. *)
Lemma stamp_loop s0 l : ∀ s acc,
  for_fold (λ item acc,
    let item' := stamped s0 item in
    modify (λ s, tax_set_items (set_row item' (tx_items s)) s) ≫= λ _,
    mret (acc + ti_vat_amount_aed item')) l acc s =
  Ok (E := unit) (acc + zsum (λ i, ti_vat_amount_aed (stamped s0 i)) l)
     (tax_set_items (foldl (λ t i, set_row (stamped s0 i) t) (tx_items s) l) s).
Proof.
  induction l as [|i l IH]; intros s acc; cbn [for_fold zsum foldl].
  - rewrite Z.add_0_r. by destruct s.
  - unfold mbind, M_bind, modify, mret, M_ret. rewrite IH. cbn [tx_items tax_set_items]. f_equal. lia.
Qed.

Lemma lower_mode s : lower (tax_pricing_mode (tax_settings s)) = tax_pricing_mode (tax_settings s) ∧
  truthy (tax_pricing_mode (tax_settings s)) = true.
Proof.
  unfold tax_settings. cbn [tax_pricing_mode]. destruct (in_strs _ _) eqn:Hin; [|done].
  apply in_strs_spec in Hin. apply elem_of_cons in Hin as [->|Hin]; [done|].
  apply list_elem_of_singleton in Hin as ->. done.
Qed.

Lemma foldl_set_row_other (f : TaxedItem → TaxedItem) l t i :
  (∀ x, ti_id (f x) = ti_id x) → (∀ x, x ∈ l → ti_id x ≠ i) →
  get_row i (foldl (λ t x, set_row (f x) t) t l) = get_row i t.
Proof.
  intros Hid. revert t. induction l as [|x l IH]; intros t Hne; cbn; [done|].
  rewrite IH by set_solver. apply get_row_set_ne. change (i ≠ ti_id (f x)). rewrite Hid.
  intros ->. by apply (Hne x); [left|].
Qed.

Lemma foldl_set_row_in (f : TaxedItem → TaxedItem) l t i :
  (∀ x, ti_id (f x) = ti_id x) → NoDup (ti_id <$> l) → i ∈ l →
  (∀ x, x ∈ l → get_row (ti_id x) t = Some x) →
  get_row (ti_id i) (foldl (λ t x, set_row (f x) t) t l) = Some (f i).
Proof.
  intros Hid. revert t. induction l as [|x l IH]; intros t Hnd Hin Hg; [set_solver|].
  apply NoDup_cons in Hnd as [Hx Hnd]. cbn [foldl]. apply elem_of_cons in Hin as [->|Hin].
  - rewrite foldl_set_row_other; [|done|].
    + rewrite <-(Hid x). pose proof (get_row_set (f x) x t) as Hset.
      apply Hset. change (get_row (ti_id (f x)) t = Some x). rewrite Hid. apply Hg. by left.
    + intros y Hy Heq. apply Hx. rewrite <-Heq. by apply list_elem_of_fmap_2.
  - apply IH; [done|done|]. intros y Hy. etransitivity; [|apply Hg; by right].
    apply get_row_set_ne. change (ti_id y ≠ ti_id (f x)). rewrite Hid. intros Heq. apply Hx.
    rewrite <-Heq. by apply list_elem_of_fmap_2.
Qed.

(** The VAT snapshot of an order.  It always succeeds; the order keeps its money
    columns and gets the settings' mode and default rate; with lines its VAT is the
    sum of the line amounts, each line stamped with its dish's own rate or the
    default one and the VAT of its total at that rate; without lines it is the VAT
    of the subtotal; and no line of another order changes. *)
Theorem vat_snapshot order s :
  let cfg := tax_settings (tx_settings s) in
  let lines := order_lines (to_id order) (tx_items s) in
  table_wf (tx_items s) →
  ∃ o' s', apply_order_vat_from_settings order s = Ok o' s' ∧
    to_total o' = to_total order ∧ to_subtotal o' = to_subtotal order ∧
    to_vat_rate o' = default_vat_rate cfg ∧ to_tax_pricing_mode o' = Some (tax_pricing_mode cfg) ∧
    to_vat_amount_aed o' =
      match lines with
      | [] => vat_of (tax_pricing_mode cfg) (aed (to_subtotal order)) (default_vat_rate cfg)
      | _ => zsum (λ i, ti_vat_amount_aed (stamped s i)) lines
      end ∧
    (∀ i, i ∈ lines → get_row (ti_id i) (tx_items s') = Some (stamped s i)) ∧
    (∀ i, (∀ x, x ∈ lines → ti_id x ≠ i) → get_row i (tx_items s') = get_row i (tx_items s)).
Proof.
  intros cfg lines Hwf. unfold apply_order_vat_from_settings.
  rewrite !(bind_run_Ok (gets _) _ s _ s eq_refl). fold cfg lines.
  pose proof (stamp_loop s lines s 0) as Hloop. rewrite Z.add_0_l in Hloop.
  rewrite (bind_run_Ok _ _ _ _ _ Hloop).
  destruct (lower_mode (tx_settings s)) as [Hlow Htr]. fold cfg in Hlow, Htr.
  eexists _, _. split; [reflexivity|]. cbn [with_kind to_total to_subtotal to_vat_rate
    to_tax_pricing_mode to_vat_amount_aed tx_items tax_set_items].
  unfold apply_vat. rewrite Htr, Hlow.
  assert (∀ i, i ∈ lines → get_row (ti_id i) (tx_items s) = Some i) as Hget.
  { intros i [Hi _]%elem_of_all_where. exact (get_row_wf _ _ Hwf Hi). }
  split_and!; try (by destruct lines).
  - intros i Hi. apply (foldl_set_row_in (stamped s)); [done| |done|done].
    apply NoDup_fmap_2_strong.
    + intros x y [Hx _]%elem_of_all_where [Hy _]%elem_of_all_where Heq. by apply (wf_unique _ Hwf).
    + subst lines. unfold order_lines, all_where.
      apply NoDup_ListNoDup, List.NoDup_filter, NoDup_ListNoDup, Hwf.
  - intros i Hi. by apply (foldl_set_row_other (stamped s)).
Qed.

(** ** The invoice *)

Lemma add_to_bucket_sums rate x v l :
  zsum b_taxable_aed (add_to_bucket rate x v l) = zsum b_taxable_aed l + x ∧
  zsum b_vat_aed (add_to_bucket rate x v l) = zsum b_vat_aed l + v.
Proof.
  induction l as [|b l [IH1 IH2]]; cbn; [lia|]. destruct (Qeq_bool _ _); cbn; [lia|].
  rewrite IH1, IH2. lia.
Qed.

Definition distinct_rates (l : list bucket) : Prop :=
  ∀ i j b c, l !! i = Some b → l !! j = Some c → (b_rate b == b_rate c)%Q → i = j.

Lemma add_to_bucket_rates rate x v l b :
  b ∈ add_to_bucket rate x v l → (b_rate b == rate)%Q ∨ ∃ c, c ∈ l ∧ b_rate c = b_rate b.
Proof.
  induction l as [|c l IH]; cbn.
  - intros ->%list_elem_of_singleton. by left.
  - destruct (Qeq_bool _ _) eqn:He.
    + intros [->|Hb]%elem_of_cons; right; [exists c|exists b]; set_solver.
    + intros [->|Hb]%elem_of_cons; [right; exists c; set_solver|].
      destruct (IH Hb) as [?|(d & ? & ?)]; [by left|right; exists d; set_solver].
Qed.

Lemma add_to_bucket_distinct rate x v l :
  distinct_rates l → distinct_rates (add_to_bucket rate x v l).
Proof.
  induction l as [|c l IH]; intros Hd; cbn.
  - intros i j b b' Hi Hj _. apply list_lookup_singleton_Some in Hi as [-> _], Hj as [-> _]. done.
  - assert (distinct_rates l) as Hdl.
    { intros i j b b' Hi Hj He. pose proof (Hd (S i) (S j) b b' Hi Hj He). lia. }
    assert (∀ b, b ∈ l → ¬ (b_rate b == b_rate c)%Q) as Hc.
    { intros b [i Hi]%list_elem_of_lookup Heq. specialize (Hd (S i) O b c Hi eq_refl Heq). lia. }
    destruct (Qeq_bool (b_rate c) rate) eqn:He.
    + intros [|i] [|j] b b' Hi Hj Heq; cbn in *; simplify_eq/=; try done.
      * apply list_elem_of_lookup_2 in Hj. destruct (Hc _ Hj). by symmetry.
      * apply list_elem_of_lookup_2 in Hi. by destruct (Hc _ Hi).
      * f_equal. by eapply Hdl.
    + assert (∀ b, b ∈ add_to_bucket rate x v l → ¬ (b_rate b == b_rate c)%Q) as Hc'.
      { intros b [Heq|(d & Hin & Heq)]%add_to_bucket_rates.
        - intros Heq'. apply Qeq_bool_neq in He. apply He. by rewrite <-Heq'.
        - rewrite <-Heq. by apply Hc. }
      specialize (IH Hdl). intros [|i] [|j] b b' Hi Hj Heq; cbn in *; simplify_eq/=; try done.
      * apply list_elem_of_lookup_2 in Hj. destruct (Hc' _ Hj). by symmetry.
      * apply list_elem_of_lookup_2 in Hi. by destruct (Hc' _ Hi).
      * f_equal. by eapply IH.
Qed.

Lemma invoice_lines_spec mode rate_of items : ∀ acc,
  let r := invoice_lines mode rate_of items acc in
  fst r = fst acc ++ map (λ i, invoice_line_of mode (rate_of i) i) items ∧
  zsum b_taxable_aed (snd r) = zsum b_taxable_aed (snd acc)
    + zsum (λ i, taxable_of mode (line_total i) (rate_of i)) items ∧
  zsum b_vat_aed (snd r) = zsum b_vat_aed (snd acc)
    + zsum (λ i, invoice_vat mode (rate_of i) i) items ∧
  (distinct_rates (snd acc) → distinct_rates (snd r)).
Proof.
  induction items as [|i items IH]; intros acc; cbn [invoice_lines].
  { cbn. rewrite app_nil_r. split_and!; [done|lia|lia|done]. }
  match goal with |- context [invoice_lines _ _ items ?acc'] =>
    destruct (IH acc') as (H1 & H2 & H3 & H4) end. cbn [fst snd] in *.
  pose proof (add_to_bucket_sums (rate_of i) (taxable_of mode (line_total i) (rate_of i))
    (invoice_vat mode (rate_of i) i) (snd acc)) as [Hs1 Hs2].
  rewrite H1, H2, H3, Hs1, Hs2. cbn [map zsum]. split_and!; [by rewrite <-app_assoc|lia|lia|].
  intros Hd. by apply H4, add_to_bucket_distinct.
Qed.

(** The invoice's breakdown is its lines, grouped: one line item per order line in
    order, one bucket per distinct rate, and the buckets' taxable and VAT totals are
    those of the line items; in exclusive mode the taxable total is the sum of the
    line totals. *)
Theorem invoice_breakdown_totals oid rid kind buyer s inv :
  build_tax_invoice oid rid kind buyer s = Some inv →
  length (inv_line_items inv) = length (order_lines oid (tx_items s)) ∧
  distinct_rates (inv_vat_breakdown inv) ∧
  zsum b_taxable_aed (inv_vat_breakdown inv) = zsum il_taxable_aed (inv_line_items inv) ∧
  zsum b_vat_aed (inv_vat_breakdown inv) = zsum il_vat_amount_aed (inv_line_items inv) ∧
  (inv_tax_pricing_mode inv ≠ "inclusive"%string →
   zsum b_taxable_aed (inv_vat_breakdown inv) = lines_total (order_lines oid (tx_items s))).
Proof.
  unfold build_tax_invoice. destruct (get_row oid (tx_orders s)) as [o|]; [|done]. cbn.
  destruct (negb _); [done|].
  set (mode := match to_tax_pricing_mode o with Some x => _ | None => _ end).
  set (rate_of := item_rate o _).
  pose proof (invoice_lines_spec mode rate_of (order_lines oid (tx_items s)) ([], [])) as Hspec.
  destruct (invoice_lines _ _ _ _) as [items buckets]. cbn in Hspec.
  destruct Hspec as (-> & Ht & Hv & Hd). intros [= <-]. cbn.
  assert (∀ (f : invoice_line → Z) l,
    zsum f (map (λ i, invoice_line_of mode (rate_of i) i) l) =
    zsum (λ i, f (invoice_line_of mode (rate_of i) i)) l) as Hmap.
  { intros f l. induction l as [|i l IH]; cbn [zsum map]; [done|]. by rewrite IH. }
  rewrite !Hmap, Ht, Hv, length_map. cbn. split_and!; [done| |done|done|].
  - apply Hd. intros i j b c Hi. by rewrite lookup_nil in Hi.
  - intros Hm. apply zsum_ext. intros i _. unfold taxable_of.
    by destruct (String.eqb_spec mode "inclusive").
Qed.

(** ** Witnesses *)

Definition demo_item (id price qty : Z) (rate : option Q) : TaxedItem :=
  Build_TaxedItem id 5 id "dish" price qty rate 0.
Definition demo_tax : tax_db :=
  {| tx_orders := Table [Build_TaxedOrder 5 1 "R1-0005" 3500 0 3500 (5 # 100) 0 None None] 6;
     tx_items := Table [demo_item 1 1050 2 None; demo_item 2 1400 1 None] 3;
     tx_dish_rates := [(1, None); (2, Some 0%Q)];
     tx_settings := None |}.

Lemma demo_items_wf : table_wf (tx_items demo_tax).
Proof.
  apply (add_row_wf (demo_item 2 1400 1 None) (Table [demo_item 1 1050 2 None] 2)); [|reflexivity].
  apply (add_row_wf (demo_item 1 1050 2 None) (Table [] 1)); [|reflexivity].
  split; cbn; [set_solver|constructor|set_solver].
Qed.

Example vat_snapshot_witness :
  ∃ o' s', apply_order_vat_from_settings (Build_TaxedOrder 5 1 "R1-0005" 3500 0 3500 (5 # 100) 0 None None) demo_tax
    = Ok o' s' ∧ to_vat_amount_aed o' = 105.
Proof.
  destruct (vat_snapshot (Build_TaxedOrder 5 1 "R1-0005" 3500 0 3500 (5 # 100) 0 None None) demo_tax
    demo_items_wf) as (o' & s' & Hrun & _ & _ & _ & _ & Hv & _).
  exists o', s'. split; [exact Hrun|rewrite Hv; vm_compute; reflexivity].
Defined.

Example invoice_breakdown_totals_witness :
  (inv ← build_tax_invoice 5 1 None None demo_tax; Some (zsum b_taxable_aed (inv_vat_breakdown inv))) = Some 3500.
Proof.
  destruct (build_tax_invoice 5 1 None None demo_tax) as [inv|] eqn:Hinv; [|vm_compute in Hinv; discriminate].
  cbn. f_equal. destruct (invoice_breakdown_totals _ _ _ _ _ _ Hinv) as (_ & _ & _ & _ & H).
  rewrite H; [vm_compute; reflexivity|]. vm_compute in Hinv. injection Hinv as <-. cbn. discriminate.
Defined.
