(* ===== verification/Decimals.v ===== *)
(** * Numbers in identifiers: [f"{n:04d}"], [str.isdigit] and [int(text)]

    Order, invoice and credit-note numbers end in a zero-padded decimal number that
    the allocation of the next one parses back. *)

From Stdlib Require Import Ascii Decimal DecimalString DecimalN.
From S2P Require Import Prelude.

(** [str(n)] of a natural number, and [int(text)] of a text of digits. *)
Definition show_nat (n : N) : string := NilZero.string_of_uint (N.to_uint n).
(** [suffix.isdigit()] and then [int(suffix)]. *)
Definition read_digits (s : string) : option N := N.of_uint <$> NilZero.uint_of_string s.

Fixpoint zeros (k : nat) : string := match k with O => "" | S k' => String "0"%char (zeros k') end.
(** [f"{n:0kd}"] *)
Definition pad (k : nat) (n : N) : string :=
  let s := show_nat n in zeros (k - String.length s) +:+ s.

(** [s.startswith(p)], giving what follows. *)
Fixpoint after_prefix (p s : string) : option string :=
  match p, s with
  | EmptyString, _ => Some s
  | String a p', String b s' => if Ascii.eqb a b then after_prefix p' s' else None
  | _, _ => None
  end.

Lemma after_prefix_app p s : after_prefix p (p +:+ s) = Some s.
Proof.
  induction p as [|c p IH]; [by destruct s|]. change (String c p +:+ s) with (String c (p +:+ s)).
  cbn. by rewrite Ascii.eqb_refl.
Qed.

Lemma to_uint_nonnil n : N.to_uint n ≠ Nil.
Proof.
  intros Hn. assert (n = 0%N) as ->; [|done].
  rewrite <-(Unsigned.of_to n), Hn. done.
Qed.

Lemma show_nat_nonempty n : show_nat n ≠ EmptyString.
Proof.
  unfold show_nat. pose proof (to_uint_nonnil n). by destruct (N.to_uint n).
Qed.

Lemma read_show n : read_digits (show_nat n) = Some n.
Proof.
  unfold read_digits, show_nat. rewrite NilZero.usu by apply to_uint_nonnil. cbn.
  by rewrite Unsigned.of_to.
Qed.

Lemma read_zero s : s ≠ EmptyString → read_digits (String "0"%char s) = read_digits s.
Proof.
  destruct s as [|c s]; [done|]. intros _. unfold read_digits, NilZero.uint_of_string.
  cbn [NilEmpty.uint_of_string]. by destruct (uint_of_char c _).
Qed.

Lemma zeros_app_nonempty k s : s ≠ EmptyString → zeros k +:+ s ≠ EmptyString.
Proof. by destruct k. Qed.

(** Padding does not change the number read back. *)
Lemma read_pad k n : read_digits (pad k n) = Some n.
Proof.
  unfold pad. pose proof (show_nat_nonempty n) as Hne. pose proof (read_show n) as Hr.
  set (s := show_nat n) in *. induction (k - String.length s)%nat as [|j IH]; [exact Hr|].
  change (zeros (S j) +:+ s) with (String "0"%char (zeros j +:+ s)).
  rewrite read_zero by by apply zeros_app_nonempty. done.
Qed.

Example pad_example : pad 4 7 = "0007" ∧ pad 4 12345 = "12345".
Proof. by split. Qed.

#[global] Arguments read_digits : simpl never.
#[global] Arguments pad : simpl never.
