(* ===== verification/Payments.v ===== *)
(** * Payments ([app.payments.service], [app.payments.models])

    The tender ledger of an order: charges (with the double-tap guard), refunds,
    credit notes, deposits, house accounts, payment links, pay-later, and the
    import and reconciliation of processor settlements.  The payment processor is
    a parameter: [gateway] answers each call as it likes.  Amounts reach the
    service in whole cents. *)

From S2P Require Import Prelude Money Strings Db Clock Decimals.

(** ** Data *)

Definition GATEWAY_TENDERS : list string :=
  ["card"; "apple_pay"; "google_pay"; "tap_to_pay"; "online"]%string.
Definition LOCAL_TENDERS : list string :=
  ["cash"; "wallet"; "deposit"; "pay_later"; "room_charge"; "gift_card"; "house_account"]%string.
Definition ALL_TENDERS : list string := GATEWAY_TENDERS ++ LOCAL_TENDERS.

Inductive txn_status := TPending | TSucceeded | TFailed | TRefunded | TPartially_refunded.
#[global] Instance txn_status_eq_dec : EqDecision txn_status.
Proof. solve_decision. Defined.

Record PaymentTransaction := {
  pt_id : Z;
  pt_restaurant_id : Z;
  pt_order_id : Z;
  pt_tender_type : string;
  pt_amount_aed : Z;
  pt_tip_aed : Z;
  pt_provider : string;
  pt_provider_charge_id : option string;
  pt_status : txn_status;
  pt_refunded_amount_aed : Z;
  pt_channel : string;
  pt_reference_meta : option string;
  pt_wallet_session_id : option string;
  pt_created_at : Z;
}.
#[global] Instance PaymentTransaction_row : Row PaymentTransaction := pt_id.

Record CreditNote := {
  cn_id : Z;
  cn_restaurant_id : Z;
  cn_order_id : Z;
  cn_transaction_id : Z;
  cn_amount_aed : Z;
  cn_reason : option string;
  cn_number : string;
  cn_issued_at : Z;
}.
#[global] Instance CreditNote_row : Row CreditNote := cn_id.

Inductive link_status := LPending | LPaid | LExpired | LCancelled.
#[global] Instance link_status_eq_dec : EqDecision link_status.
Proof. solve_decision. Defined.

Record PaymentLink := {
  pl_id : Z;
  pl_restaurant_id : Z;
  pl_order_id : Z;
  pl_token : string;
  pl_amount_aed : Z;
  pl_status : link_status;
  pl_expires_at : Z;
  pl_paid_transaction_id : option Z;
  pl_created_by : string;
}.
#[global] Instance PaymentLink_row : Row PaymentLink := pl_id.

Inductive settlement_status := SOpen | SMatched | SPartial | SUnmatched.
#[global] Instance settlement_status_eq_dec : EqDecision settlement_status.
Proof. solve_decision. Defined.
Inductive line_match := Matched | Unmatched | Amount_mismatch.
#[global] Instance line_match_eq_dec : EqDecision line_match.
Proof. solve_decision. Defined.

Record PaymentSettlement := {
  ps_id : Z;
  ps_restaurant_id : Z;
  ps_provider : string;
  ps_provider_payout_id : string;
  ps_amount_aed : Z;
  ps_settled_at : Z;
  ps_status : settlement_status;
  ps_matched_txn_count : Z;
  ps_notes : option string;
}.
#[global] Instance PaymentSettlement_row : Row PaymentSettlement := ps_id.
Record PaymentSettlementLine := {
  psl_id : Z;
  psl_settlement_id : Z;
  psl_provider_charge_id : string;
  psl_amount_aed : Z;
  psl_payment_transaction_id : option Z;
  psl_match_status : line_match;
}.
#[global] Instance PaymentSettlementLine_row : Row PaymentSettlementLine := psl_id.

(** The order columns payments write, and the customer's house account. *)
Record PaidOrder := {
  pd_id : Z;
  pd_restaurant_id : Z;
  pd_total : Z;
  pd_deposit_paid_aed : Z;
  pd_payment_terms : option string;
  pd_room_number : option string;
  pd_pay_later_due_at : option Z;
}.
#[global] Instance PaidOrder_row : Row PaidOrder := pd_id.
Record HouseCustomer := {
  hc_id : Z;
  hc_restaurant_id : Z;
  hc_enabled : bool;
  hc_balance_aed : Z;
  hc_credit_limit_aed : option Z;
}.
#[global] Instance HouseCustomer_row : Row HouseCustomer := hc_id.

(** The processor's answers. *)
Record ChargeResult := { cg_success : bool; cg_provider_charge_id : string; cg_error : option string }.
Record RefundResult := { rf_success : bool; rf_error : option string }.

Record payments_db := {
  transactions : table PaymentTransaction;
  credit_notes : table CreditNote;
  links : table PaymentLink;
  settlements : table PaymentSettlement;
  settlement_lines : table PaymentSettlementLine;
  pay_orders : table PaidOrder;
  house_customers : table HouseCustomer;
  gateway_calls : nat;   (** calls made to the processor so far *)
  pay_now : Z;
}.
Definition with_transactions (t : table PaymentTransaction) (s : payments_db) : payments_db :=
  Build_payments_db t (credit_notes s) (links s) (settlements s) (settlement_lines s)
    (pay_orders s) (house_customers s) (gateway_calls s) (pay_now s).
Definition with_credit_notes (t : table CreditNote) (s : payments_db) : payments_db :=
  Build_payments_db (transactions s) t (links s) (settlements s) (settlement_lines s)
    (pay_orders s) (house_customers s) (gateway_calls s) (pay_now s).
Definition with_links (t : table PaymentLink) (s : payments_db) : payments_db :=
  Build_payments_db (transactions s) (credit_notes s) t (settlements s) (settlement_lines s)
    (pay_orders s) (house_customers s) (gateway_calls s) (pay_now s).
Definition with_settlements (t : table PaymentSettlement) (l : table PaymentSettlementLine)
    (s : payments_db) : payments_db :=
  Build_payments_db (transactions s) (credit_notes s) (links s) t l
    (pay_orders s) (house_customers s) (gateway_calls s) (pay_now s).
Definition with_pay_orders (t : table PaidOrder) (s : payments_db) : payments_db :=
  Build_payments_db (transactions s) (credit_notes s) (links s) (settlements s) (settlement_lines s)
    t (house_customers s) (gateway_calls s) (pay_now s).
Definition with_house_customers (t : table HouseCustomer) (s : payments_db) : payments_db :=
  Build_payments_db (transactions s) (credit_notes s) (links s) (settlements s) (settlement_lines s)
    (pay_orders s) t (gateway_calls s) (pay_now s).
Definition with_gateway_calls (n : nat) (s : payments_db) : payments_db :=
  Build_payments_db (transactions s) (credit_notes s) (links s) (settlements s) (settlement_lines s)
    (pay_orders s) (house_customers s) n (pay_now s).

Inductive payment_error :=
| UnsupportedTender (tender_type : string)
| RoomNumberRequired
| DuplicateChargeError (order_id amount : Z)
| PaymentFailed (reason : string)
| TransactionNotFound (id : Z)
| InsufficientPaymentError (amount remaining : Z)
| NotRefunded (id : Z)
| CreditExceedsRefund (amount refunded : Z)
| CreditNoteNumbers (restaurant_id : Z)
| PayOrderNotFound (id : Z)
| CustomerNotFound (id : Z)
| HouseAccountDisabled (id : Z)
| CreditLimitExceeded (limit : Z)
| NothingToCharge
| LinkNotFound
| LinkNotPayable
| PaymentIntegrityError.

Abbreviation PM := (M payments_db payment_error).

Definition or_failed (error : option string) (text : string) : string :=
  match error with Some e => if truthy e then e else text | None => text end.

Section service.
(** The processor's answer to its [n]-th call. *)
Context (charge : nat → Z → string → string → ChargeResult).
Context (refund : nat → string → Z → RefundResult).
(** The gateway is the mock one. *)
Context (gateway_is_mock : bool).

(** ** Charges *)

Definition window (seconds_ : Z) (s : payments_db) : Z := pay_now s - seconds seconds_.
Definition is_duplicate (restaurant_id order_id amount cutoff : Z) (t : PaymentTransaction) : bool :=
  (pt_restaurant_id t =? restaurant_id) && (pt_order_id t =? order_id) && (pt_amount_aed t =? amount)
  && bool_decide (pt_status t ∈ [TPending; TSucceeded]) && (cutoff <=? pt_created_at t).

Definition detect_duplicate_charge (restaurant_id order_id amount_aed window_seconds : Z) : PM bool :=
  gets (λ s, match first_where (is_duplicate restaurant_id order_id amount_aed (window window_seconds s))
                     (transactions s) with
             | Some _ => true | None => false end).

Definition add_txn (mk : Z → PaymentTransaction) : PM PaymentTransaction :=
  t ← gets transactions;
  let row := mk (next_id t) in
  modify (with_transactions (add_row row t)) ≫= λ _, mret row.
Definition update_txn (row : PaymentTransaction) : PM unit :=
  modify (λ s, with_transactions (set_row row (transactions s)) s).
Definition update_pay_order (id : Z) (f : PaidOrder → PaidOrder) : PM unit :=
  t ← gets pay_orders;
  match get_row id t with
  | Some o => modify (with_pay_orders (set_row (f o) t))
  | None => mret tt
  end.
Definition with_terms (terms : string) (room : option string) (o : PaidOrder) : PaidOrder :=
  Build_PaidOrder (pd_id o) (pd_restaurant_id o) (pd_total o) (pd_deposit_paid_aed o) (Some terms)
    room (pd_pay_later_due_at o).

Definition call_charge (amount : Z) (tender reference : string) : PM ChargeResult :=
  n ← gets gateway_calls;
  modify (with_gateway_calls (S n)) ≫= λ _,
  mret (charge n amount tender reference).
Definition call_refund (charge_id : string) (amount : Z) : PM RefundResult :=
  n ← gets gateway_calls;
  modify (with_gateway_calls (S n)) ≫= λ _,
  mret (refund n charge_id amount).

(** Tenders whose processor session doubles as the wallet session. *)
Definition SESSION_TENDERS : list string := ["apple_pay"; "google_pay"; "tap_to_pay"; "online"]%string.

Definition charge_tender (restaurant_id order_id : Z) (tender_type : string)
    (amount_aed tip_aed : Z) (channel : string) (reference_meta wallet_session_id : option string)
    : PM PaymentTransaction :=
  if negb (in_strs tender_type ALL_TENDERS) then raise (UnsupportedTender tender_type) else
  if (tender_type =s "room_charge") && negb (otruthy (strip <$> reference_meta))
  then raise RoomNumberRequired else
  let reference_meta :=
    if (tender_type =s "tap_to_pay") && negb (otruthy reference_meta || otruthy wallet_session_id)
    then Some "softpos"%string else reference_meta in
  duplicate ← detect_duplicate_charge restaurant_id order_id amount_aed 30;
  if (duplicate : bool) then raise (DuplicateChargeError order_id amount_aed) else
  now ← gets pay_now;
  let txn provider charge_id status session id := {|
    pt_id := id; pt_restaurant_id := restaurant_id; pt_order_id := order_id;
    pt_tender_type := tender_type; pt_amount_aed := amount_aed; pt_tip_aed := tip_aed;
    pt_provider := provider; pt_provider_charge_id := charge_id; pt_status := status;
    pt_refunded_amount_aed := 0; pt_channel := (if truthy channel then channel else "till");
    pt_reference_meta := reference_meta; pt_wallet_session_id := session; pt_created_at := now |} in
  if in_strs tender_type GATEWAY_TENDERS then
    result ← call_charge (amount_aed + tip_aed) tender_type
      ("order:" +:+ pretty order_id +:+ ":" +:+ tender_type);
    let provider : string := if gateway_is_mock then "mock" else "stripe" in
    if cg_success result then
      let charge_id := cg_provider_charge_id result in
      let session :=
        match wallet_session_id with
        | Some w => Some w
        | None => if truthy charge_id && in_strs tender_type SESSION_TENDERS then Some charge_id else None
        end in
      add_txn (txn provider (Some charge_id) TSucceeded session)
    else
      add_txn (txn provider None TFailed wallet_session_id) ≫= λ _,
      raise (PaymentFailed (or_failed (cg_error result) "payment failed"))
  else
    (if tender_type =s "room_charge"
     then update_pay_order order_id (with_terms "room_charge" reference_meta)
     else mret tt) ≫= λ _,
    (if tender_type =s "pay_later"
     then update_pay_order order_id (λ o, with_terms "pay_later" (pd_room_number o) o)
     else mret tt) ≫= λ _,
    add_txn (txn tender_type None TSucceeded wallet_session_id).

(** ** What was paid *)

Definition counts_as_paid (order_id : Z) (t : PaymentTransaction) : bool :=
  (pt_order_id t =? order_id) && bool_decide (pt_status t ∈ [TSucceeded; TRefunded]).
Definition net_amount (t : PaymentTransaction) : Z := pt_amount_aed t - pt_refunded_amount_aed t.
Definition total_paid (order_id : Z) : PM Z :=
  gets (λ s, sum_where (counts_as_paid order_id) net_amount (transactions s)).

(** ** Refunds *)

Definition with_refunded (amount : Z) (t : PaymentTransaction) : PaymentTransaction :=
  {| pt_id := pt_id t; pt_restaurant_id := pt_restaurant_id t; pt_order_id := pt_order_id t;
     pt_tender_type := pt_tender_type t; pt_amount_aed := pt_amount_aed t; pt_tip_aed := pt_tip_aed t;
     pt_provider := pt_provider t; pt_provider_charge_id := pt_provider_charge_id t;
     pt_status := if pt_amount_aed t <=? pt_refunded_amount_aed t + amount
                  then TRefunded else TPartially_refunded;
     pt_refunded_amount_aed := pt_refunded_amount_aed t + amount; pt_channel := pt_channel t;
     pt_reference_meta := pt_reference_meta t; pt_wallet_session_id := pt_wallet_session_id t;
     pt_created_at := pt_created_at t |}.

Definition the_txn (transaction_id restaurant_id : Z) : PM PaymentTransaction :=
  t ← gets transactions;
  match get_row transaction_id t with
  | Some txn => if pt_restaurant_id txn =? restaurant_id then mret txn
                else raise (TransactionNotFound transaction_id)
  | None => raise (TransactionNotFound transaction_id)
  end.

Definition refund_transaction (transaction_id restaurant_id amount_aed : Z) : PM PaymentTransaction :=
  txn ← the_txn transaction_id restaurant_id;
  let remaining := pt_amount_aed txn - pt_refunded_amount_aed txn in
  if remaining <? amount_aed then raise (InsufficientPaymentError amount_aed remaining) else
  (if in_strs (pt_tender_type txn) GATEWAY_TENDERS && otruthy (pt_provider_charge_id txn) then
     result ← call_refund (default "" (pt_provider_charge_id txn)) amount_aed;
     if rf_success result then mret tt
     else raise (PaymentFailed (or_failed (rf_error result) "refund failed"))
   else mret tt) ≫= λ _,
  let txn' := with_refunded amount_aed txn in
  update_txn txn' ≫= λ _, mret txn'.

(** ** Credit notes *)

Definition credit_note_prefix (restaurant_id : Z) : string :=
  "CN-" +:+ pretty restaurant_id +:+ "-".
Definition note_seq (restaurant_id : Z) (number : string) : N :=
  default 0%N (after_prefix (credit_note_prefix restaurant_id) number ≫= read_digits).
Definition _next_credit_note_seq (restaurant_id : Z) (t : table CreditNote) : N :=
  (foldr N.max 0 (note_seq restaurant_id <$>
     (cn_number <$> all_where (λ c, (cn_restaurant_id c =? restaurant_id)%Z) t)) + 1)%N.

Definition number_taken (restaurant_id : Z) (number : string) (t : table CreditNote) : bool :=
  match first_where (λ c, (cn_restaurant_id c =? restaurant_id) && (cn_number c =s number)) t with
  | Some _ => true | None => false end.

(** The five attempts of the allocation loop, from [attempt] on. *)
Fixpoint allocate_note (fuel : nat) (restaurant_id : Z) (seq : N) (mk : string → Z → CreditNote)
    : PM CreditNote :=
  match fuel with
  | O => raise (CreditNoteNumbers restaurant_id)
  | S fuel' =>
      t ← gets credit_notes;
      let number := credit_note_prefix restaurant_id +:+ pad 4 seq in
      if number_taken restaurant_id number t then allocate_note fuel' restaurant_id (seq + 1)%N mk
      else
        let row := mk number (next_id t) in
        modify (with_credit_notes (add_row row t)) ≫= λ _, mret row
  end.

Definition issued_against (transaction_id : Z) (t : table CreditNote) : Z :=
  sum_where (λ c, cn_transaction_id c =? transaction_id) cn_amount_aed t.

Definition issue_credit_note (restaurant_id order_id transaction_id amount_aed : Z)
    (reason : option string) : PM CreditNote :=
  txn ← the_txn transaction_id restaurant_id;
  if negb (bool_decide (pt_status txn ∈ [TRefunded; TPartially_refunded]))
  then raise (NotRefunded transaction_id) else
  already_issued ← gets (λ s, issued_against transaction_id (credit_notes s));
  if pt_refunded_amount_aed txn <? already_issued + amount_aed
  then raise (CreditExceedsRefund amount_aed (pt_refunded_amount_aed txn)) else
  base_seq ← gets (λ s, _next_credit_note_seq restaurant_id (credit_notes s));
  now ← gets pay_now;
  allocate_note 5 restaurant_id base_seq (λ number id, {|
    cn_id := id; cn_restaurant_id := restaurant_id; cn_order_id := order_id;
    cn_transaction_id := transaction_id; cn_amount_aed := amount_aed; cn_reason := reason;
    cn_number := number; cn_issued_at := now |}).

(** ** Deposits *)

Definition the_pay_order (order_id restaurant_id : Z) : PM PaidOrder :=
  t ← gets pay_orders;
  match get_row order_id t with
  | Some o => if pd_restaurant_id o =? restaurant_id then mret o else raise (PayOrderNotFound order_id)
  | None => raise (PayOrderNotFound order_id)
  end.

Definition charge_deposit (restaurant_id order_id amount_aed : Z) : PM PaymentTransaction :=
  _ ← the_pay_order order_id restaurant_id;
  txn ← charge_tender restaurant_id order_id "deposit" amount_aed 0 "till" None None;
  update_pay_order order_id (λ o,
    Build_PaidOrder (pd_id o) (pd_restaurant_id o) (pd_total o) (pd_deposit_paid_aed o + amount_aed)
      (pd_payment_terms o) (pd_room_number o) (pd_pay_later_due_at o)) ≫= λ _,
  mret txn.

(** ** House accounts *)

Definition the_customer (customer_id restaurant_id : Z) : PM HouseCustomer :=
  t ← gets house_customers;
  match get_row customer_id t with
  | Some c => if hc_restaurant_id c =? restaurant_id then mret c else raise (CustomerNotFound customer_id)
  | None => raise (CustomerNotFound customer_id)
  end.
Definition with_house (enabled : bool) (balance : Z) (c : HouseCustomer) : HouseCustomer :=
  Build_HouseCustomer (hc_id c) (hc_restaurant_id c) enabled balance (hc_credit_limit_aed c).
Definition update_customer (c : HouseCustomer) : PM unit :=
  modify (λ s, with_house_customers (set_row c (house_customers s)) s).

Definition enable_house_account (restaurant_id customer_id : Z) : PM HouseCustomer :=
  c ← the_customer customer_id restaurant_id;
  let c' := with_house true (hc_balance_aed c) c in
  update_customer c' ≫= λ _, mret c'.

Definition charge_to_house_account (restaurant_id customer_id order_id amount_aed : Z) : PM Z :=
  c ← the_customer customer_id restaurant_id;
  if negb (hc_enabled c) then raise (HouseAccountDisabled customer_id) else
  let new_balance := hc_balance_aed c + amount_aed in
  match hc_credit_limit_aed c with
  | Some limit =>
      if limit <? new_balance then raise (CreditLimitExceeded limit)
      else update_customer (with_house (hc_enabled c) new_balance c) ≫= λ _, mret new_balance
  | None => update_customer (with_house (hc_enabled c) new_balance c) ≫= λ _, mret new_balance
  end.

Definition settle_house_account (restaurant_id customer_id amount_aed : Z) : PM Z :=
  c ← the_customer customer_id restaurant_id;
  let new_balance := Z.max (hc_balance_aed c - amount_aed) 0 in
  update_customer (with_house (hc_enabled c) new_balance c) ≫= λ _, mret new_balance.

(** ** Payment links *)

(** The amount asked for, or what is left on the order. *)
Definition amount_due (order : PaidOrder) (amount_aed : option Z) (paid : Z) : Z :=
  default (Z.max (pd_total order - paid) 0) amount_aed.

Definition create_payment_link (restaurant_id order_id : Z) (amount_aed : option Z)
    (expires_hours : Z) (created_by token : string) : PM PaymentLink :=
  order ← the_pay_order order_id restaurant_id;
  paid ← total_paid order_id;
  let amount := amount_due order amount_aed paid in
  if amount <=? 0 then raise NothingToCharge else
  now ← gets pay_now;
  t ← gets links;
  match first_where (λ l, pl_token l =s token) t with
  | Some _ => raise PaymentIntegrityError
  | None =>
      let link := {| pl_id := next_id t; pl_restaurant_id := restaurant_id; pl_order_id := order_id;
        pl_token := token; pl_amount_aed := amount; pl_status := LPending;
        pl_expires_at := now + hours expires_hours; pl_paid_transaction_id := None;
        pl_created_by := created_by |} in
      modify (with_links (add_row link t)) ≫= λ _, mret link
  end.

Definition get_payment_link (token : string) : PM (option PaymentLink) :=
  gets (λ s, first_where (λ l, pl_token l =s token) (links s)).

Definition with_link (st : link_status) (paid : option Z) (l : PaymentLink) : PaymentLink :=
  Build_PaymentLink (pl_id l) (pl_restaurant_id l) (pl_order_id l) (pl_token l) (pl_amount_aed l) st
    (pl_expires_at l) paid (pl_created_by l).
Definition update_link (l : PaymentLink) : PM unit :=
  modify (λ s, with_links (set_row l (links s)) s).

Definition complete_payment_link (token tender_type : string) : PM PaymentTransaction :=
  found ← get_payment_link token;
  match found with
  | None => raise LinkNotFound
  | Some link =>
      now ← gets pay_now;
      if negb (bool_decide (pl_status link = LPending)) || (pl_expires_at link <? now) then
        (if bool_decide (pl_status link = LPending)
         then update_link (with_link LExpired (pl_paid_transaction_id link) link)
         else mret tt) ≫= λ _,
        raise LinkNotPayable
      else
        txn ← charge_tender (pl_restaurant_id link) (pl_order_id link) tender_type (pl_amount_aed link) 0
          "payment_link" (Some ("link:" +:+ String.substring 0 12 (pl_token link))) None;
        update_link (with_link LPaid (Some (pt_id txn)) link) ≫= λ _,
        mret txn
  end.

Definition list_payment_links (restaurant_id : Z) (status : option link_status) : PM (list PaymentLink) :=
  gets (λ s, take 100 (List.rev (all_where (λ l, (pl_restaurant_id l =? restaurant_id) &&
    match status with Some st => bool_decide (pl_status l = st) | None => true end) (links s)))).

(** ** Pay later *)

Definition mark_pay_later (restaurant_id order_id : Z) (amount_aed due_at : option Z)
    : PM PaymentTransaction :=
  order ← the_pay_order order_id restaurant_id;
  paid ← total_paid order_id;
  let amount := amount_due order amount_aed paid in
  if amount <=? 0 then raise NothingToCharge else
  now ← gets pay_now;
  let due := default (now + days 7) due_at in
  update_pay_order order_id (λ o,
    Build_PaidOrder (pd_id o) (pd_restaurant_id o) (pd_total o) (pd_deposit_paid_aed o)
      (Some "pay_later"%string) (pd_room_number o) (Some due)) ≫= λ _,
  charge_tender restaurant_id order_id "pay_later" amount 0 "till" (Some (datetime_isoformat due)) None.

(** ** Settlements *)

Definition of_charge (restaurant_id : Z) (charge_id : string) (t : PaymentTransaction) : bool :=
  (pt_restaurant_id t =? restaurant_id) && bool_decide (pt_provider_charge_id t = Some charge_id).

(** The match of one settlement line against the charges: its transaction and status. *)
Definition match_line (restaurant_id : Z) (charge_id : string) (amount : Q) (t : table PaymentTransaction)
    : option Z * line_match :=
  match first_where (of_charge restaurant_id charge_id) t with
  | None => (None, Unmatched)
  | Some txn => (Some (pt_id txn),
      if Qeq_bool (aed (pt_amount_aed txn)) amount then Matched else Amount_mismatch)
  end.

Definition import_line (restaurant_id settlement_id : Z) (raw : string * Q) (matched : Z) : PM Z :=
  let '(charge_id, amount) := raw in
  t ← gets transactions;
  let '(txn_id, st) := match_line restaurant_id charge_id amount t in
  modify (λ s, with_settlements (settlements s) (add_row {|
    psl_id := next_id (settlement_lines s); psl_settlement_id := settlement_id;
    psl_provider_charge_id := charge_id;
    psl_amount_aed := quantize_half_up amount;  (* the NUMERIC(8, 2) column rounds *)
    psl_payment_transaction_id := txn_id; psl_match_status := st |} (settlement_lines s)) s) ≫= λ _,
  mret (if bool_decide (st = Matched) then matched + 1 else matched).

Definition settlement_verdict (matched lines_ : Z) : settlement_status :=
  if (matched =? lines_) && (0 <? lines_) then SMatched
  else if 0 <? matched then SPartial else SUnmatched.

Definition import_settlement (restaurant_id : Z) (provider provider_payout_id : string)
    (amount_aed : Z) (settled_at : option Z) (lines : list (string * Q)) (notes : option string)
    : PM PaymentSettlement :=
  now ← gets pay_now;
  t ← gets settlements;
  let settlement st n := {| ps_id := next_id t; ps_restaurant_id := restaurant_id;
    ps_provider := provider; ps_provider_payout_id := provider_payout_id; ps_amount_aed := amount_aed;
    ps_settled_at := default now settled_at; ps_status := st; ps_matched_txn_count := n;
    ps_notes := notes |} in
  modify (λ s, with_settlements (add_row (settlement SOpen 0) t) (settlement_lines s) s) ≫= λ _,
  matched ← for_fold (import_line restaurant_id (next_id t)) lines 0;
  let row := settlement (settlement_verdict matched (Z.of_nat (length lines))) matched in
  modify (λ s, with_settlements (set_row row (settlements s)) (settlement_lines s) s) ≫= λ _,
  mret row.

(** ** Reconciliation *)

Record reconciliation := {
  gateway_txn_count : Z;
  matched_line_count : Z;
  unmatched_txn_count : Z;
  gateway_total_aed : Z;
  matched_total_aed : Z;
  unmatched_transactions : list PaymentTransaction;
}.

Definition reconciled (restaurant_id : Z) (start_date end_date : option Z) (t : PaymentTransaction) : bool :=
  (pt_restaurant_id t =? restaurant_id) && in_strs (pt_tender_type t) GATEWAY_TENDERS
  && bool_decide (pt_status t ∈ [TSucceeded; TRefunded; TPartially_refunded])
  && match start_date with Some d => d <=? pt_created_at t | None => true end
  && match end_date with Some d => pt_created_at t <=? d | None => true end.

Definition has_charge (t : PaymentTransaction) : bool := otruthy (pt_provider_charge_id t).
Definition charge_of (t : PaymentTransaction) : string := default ""%string (pt_provider_charge_id t).

Definition reconciliation_report (restaurant_id : Z) (start_date end_date : option Z)
    : PM reconciliation :=
  txns ← gets (λ s, all_where (reconciled restaurant_id start_date end_date) (transactions s));
  let charge_ids := charge_of <$> List.filter has_charge txns in
  matched_lines ← gets (λ s, all_where (λ l, in_strs (psl_provider_charge_id l) charge_ids
                              && bool_decide (psl_match_status l = Matched)) (settlement_lines s));
  let matched_ids := psl_provider_charge_id <$> matched_lines in
  let unmatched := List.filter (λ t, has_charge t && negb (in_strs (charge_of t) matched_ids)) txns in
  mret {| gateway_txn_count := Z.of_nat (length txns);
          matched_line_count := Z.of_nat (length matched_lines);
          unmatched_txn_count := Z.of_nat (length unmatched);
          gateway_total_aed := zsum pt_amount_aed txns;
          matched_total_aed := zsum psl_amount_aed matched_lines;
          unmatched_transactions := take 100 unmatched |}.

Definition list_order_transactions (restaurant_id order_id : Z) : PM (list PaymentTransaction) :=
  gets (λ s, all_where (λ t, (pt_restaurant_id t =? restaurant_id) && (pt_order_id t =? order_id))
               (transactions s)).
End service.

#[global] Arguments charge_tender : simpl never.
#[global] Arguments credit_note_prefix : simpl never.
#[global] Arguments match_line : simpl never.
#[global] Arguments number_taken : simpl never.
#[global] Arguments _next_credit_note_seq : simpl never.
#[global] Arguments issued_against : simpl never.
#[global] Arguments allocate_note : simpl never.
#[global] Arguments import_line : simpl never.
