(* ===== verification/PaymentsFacts.v ===== *)
(** * Correctness of the payment ledger

    Outcomes of a charge and the double-tap guard; the bounds that refunds and
    credit notes keep on every reachable ledger; credit-note numbering; payment
    links, house accounts and settlement imports. *)

From S2P Require Import Prelude Money Strings Db Clock Decimals Payments.

(** [prun]: advance the call in the goal through reads and writes. *)
Ltac prun :=
  unfold the_txn, the_pay_order, the_customer, update_pay_order, update_txn, update_customer,
    update_link, add_txn, total_paid, get_payment_link, detect_duplicate_charge, call_charge, call_refund;
  unfold mbind, M_bind, mret, M_ret, gets, modify, raise; cbn.

Section facts.
Context (charge : nat → Z → string → string → ChargeResult)
  (refund : nat → string → Z → RefundResult) (mock : bool).

Notation charge_tender := (charge_tender charge mock).
Notation refund_transaction := (refund_transaction refund).

(** ** Charges *)

(** A tender the service takes: a known one, with a room number for a room charge. *)
Definition acceptable (tender : string) (meta : option string) : bool :=
  in_strs tender ALL_TENDERS && negb ((tender =s "room_charge") && negb (otruthy (strip <$> meta))).

Definition duplicate_in (rid oid amount : Z) (s : payments_db) : bool :=
  match first_where (is_duplicate rid oid amount (window 30 s)) (transactions s) with
  | Some _ => true | None => false end.

(** The row a charge adds: new, unrefunded, for this order and amount. *)
Definition charge_row (rid oid amount tip : Z) (tender : string) (st : txn_status)
    (s : payments_db) (txn : PaymentTransaction) : Prop :=
  pt_id txn = next_id (transactions s) ∧ pt_restaurant_id txn = rid ∧ pt_order_id txn = oid ∧
  pt_amount_aed txn = amount ∧ pt_tip_aed txn = tip ∧ pt_tender_type txn = tender ∧
  pt_status txn = st ∧ pt_refunded_amount_aed txn = 0 ∧ pt_created_at txn = pay_now s.

Definition same_ledgers (s s' : payments_db) : Prop :=
  credit_notes s' = credit_notes s ∧ links s' = links s ∧ settlements s' = settlements s ∧
  settlement_lines s' = settlement_lines s ∧ house_customers s' = house_customers s ∧
  pay_now s' = pay_now s.

Inductive charged (rid oid amount tip : Z) (tender : string) (meta : option string) (s : payments_db)
  : outcome payments_db payment_error PaymentTransaction → Prop :=
| ch_refused e :
    acceptable tender meta = false → charged rid oid amount tip tender meta s (Err e s)
| ch_duplicate :
    acceptable tender meta = true → duplicate_in rid oid amount s = true →
    charged rid oid amount tip tender meta s (Err (DuplicateChargeError oid amount) s)
| ch_declined e txn s' :
    acceptable tender meta = true → duplicate_in rid oid amount s = false →
    in_strs tender GATEWAY_TENDERS = true →
    charge_row rid oid amount tip tender TFailed s txn →
    transactions s' = add_row txn (transactions s) → same_ledgers s s' →
    pay_orders s' = pay_orders s →
    charged rid oid amount tip tender meta s (Err (PaymentFailed e) s')
| ch_accepted txn s' :
    acceptable tender meta = true → duplicate_in rid oid amount s = false →
    charge_row rid oid amount tip tender TSucceeded s txn →
    transactions s' = add_row txn (transactions s) → same_ledgers s s' →
    charged rid oid amount tip tender meta s (Ok txn s').

Lemma update_pay_order_run oid f s :
  ∃ t, update_pay_order oid f s = Ok tt (with_pay_orders t s).
Proof.
  prun. destruct (get_row oid (pay_orders s)); [by eexists|]. exists (pay_orders s). by destruct s.
Qed.

Lemma maybe_update_run (b : bool) oid f s :
  ∃ t, (if b then update_pay_order oid f else mret tt) s = Ok tt (with_pay_orders t s).
Proof.
  destruct b; [apply update_pay_order_run|]. exists (pay_orders s). by destruct s.
Qed.

Lemma charge_tender_outcome rid oid tender amount tip channel meta session s :
  charged rid oid amount tip tender meta s
    (charge_tender rid oid tender amount tip channel meta session s).
Proof.
  unfold Payments.charge_tender. destruct (in_strs tender ALL_TENDERS) eqn:Hall; cbn [negb].
  2:{ apply ch_refused. unfold acceptable. by rewrite Hall. }
  destruct ((tender =s "room_charge") && _) eqn:Hroom.
  { apply ch_refused. unfold acceptable. by rewrite Hall, Hroom. }
  assert (acceptable tender meta = true) as Hacc by (unfold acceptable; by rewrite Hall, Hroom).
  prun. fold (duplicate_in rid oid amount s). destruct (duplicate_in rid oid amount s) eqn:Hdup.
  { by apply ch_duplicate. }
  destruct (in_strs tender GATEWAY_TENDERS) eqn:Hgw.
  - prun. match goal with |- context [cg_success ?r] => destruct (cg_success r) end.
    + by eapply ch_accepted.
    + eapply ch_declined; [done|done|done| |reflexivity|done|done]; done.
  - fold (@M_bind payments_db payment_error).
    destruct (maybe_update_run (tender =s "room_charge") oid (with_terms "room_charge"
      (if (tender =s "tap_to_pay") && negb (otruthy meta || otruthy session) then Some "softpos"%string else meta)) s)
      as (t1 & H1).
    destruct (maybe_update_run (tender =s "pay_later") oid
      (λ o, with_terms "pay_later" (pd_room_number o) o) (with_pay_orders t1 s)) as (t2 & H2).
    unfold mret, M_ret in H1, H2.
    match goal with |- charged _ _ _ _ _ _ _ (match ?m with _ => _ end) => replace m with
      (Ok (E := payment_error) tt (with_pay_orders t1 s)) by (symmetry; exact H1) end.
    match goal with |- charged _ _ _ _ _ _ _ (match ?m with _ => _ end) => replace m with
      (Ok (E := payment_error) tt (with_pay_orders t2 (with_pay_orders t1 s))) by (symmetry; exact H2) end.
    by eapply ch_accepted.
Qed.

Definition paid (oid : Z) (s : payments_db) : Z :=
  sum_where (counts_as_paid oid) net_amount (transactions s).

(** A charge does one of four things.  A tender it does not take, and a charge of
    the same amount to the same order within the last 30 seconds, are refused with
    nothing written; a declined card leaves exactly one failed row and the order as
    it was; otherwise exactly one succeeded row is added, and what the order has
    paid grows by exactly the amount. *)
Theorem charge_tender_effect rid oid tender amount tip channel meta session s :
  charged rid oid amount tip tender meta s (charge_tender rid oid tender amount tip channel meta session s) ∧
  paid oid (final (charge_tender rid oid tender amount tip channel meta session s)) =
    paid oid s + (if is_ok (charge_tender rid oid tender amount tip channel meta session s) then amount else 0).
Proof.
  pose proof (charge_tender_outcome rid oid tender amount tip channel meta session s) as Hc.
  split; [done|]. unfold paid.
  destruct Hc as [e|Hd|e txn s' _ _ _ Hrow Ht|txn s' _ _ Hrow Ht]; cbn [final is_ok]; [lia|lia|..];
    destruct Hrow as (_ & _ & Ho & Ha & _ & _ & Hst & Hr & _);
    rewrite Ht, sum_where_add; unfold counts_as_paid, net_amount; rewrite Ho, Hst, Z.eqb_refl, Ha, Hr; cbn.
  - rewrite bool_decide_false by set_solver. lia.
  - rewrite bool_decide_true by set_solver. lia.
Qed.

(** The double-tap guard: as long as a succeeded charge is on the ledger and at
    most 30 seconds old, the same amount cannot be charged to the order again by any
    tender, and nothing is written or sent to the processor. *)
Theorem double_tap_refused txn tender tip channel meta session s :
  txn ∈ rows (transactions s) → pt_status txn = TSucceeded →
  pay_now s ≤ pt_created_at txn + seconds 30 → acceptable tender meta = true →
  charge_tender (pt_restaurant_id txn) (pt_order_id txn) tender (pt_amount_aed txn) tip channel meta session s =
    Err (DuplicateChargeError (pt_order_id txn) (pt_amount_aed txn)) s.
Proof.
  intros Hin Hst Hnow Hacc.
  assert (duplicate_in (pt_restaurant_id txn) (pt_order_id txn) (pt_amount_aed txn) s = true) as Hdup.
  { unfold duplicate_in. destruct (first_where _ _) eqn:Hf; [done|].
    rewrite first_where_None in Hf. specialize (Hf txn Hin). unfold is_duplicate, window in Hf.
    rewrite !Z.eqb_refl, Hst, bool_decide_true in Hf by set_solver. cbn in Hf. zbool. lia. }
  pose proof (charge_tender_outcome (pt_restaurant_id txn) (pt_order_id txn) tender (pt_amount_aed txn)
    tip channel meta session s) as Hc.
  inversion Hc; congruence.
Qed.

(** ** Refunds and credit notes *)

(** What refunds and credit notes keep true of a ledger. *)
Record ledger_inv (s : payments_db) : Prop := {
  li_txns : table_wf (transactions s);
  li_notes : table_wf (credit_notes s);
  li_refunded : ∀ t, t ∈ rows (transactions s) → 0 ≤ pt_refunded_amount_aed t ≤ pt_amount_aed t;
  li_credited : ∀ t, t ∈ rows (transactions s) →
    issued_against (pt_id t) (credit_notes s) ≤ pt_refunded_amount_aed t;
  li_referenced : ∀ c, c ∈ rows (credit_notes s) → cn_transaction_id c < next_id (transactions s);
  li_numbers : unique_on (λ c, (cn_restaurant_id c, cn_number c)) (credit_notes s);
}.

Lemma the_txn_run i rid s :
  (∃ t, t ∈ rows (transactions s) ∧ pt_id t = i ∧ pt_restaurant_id t = rid ∧ the_txn i rid s = Ok t s) ∨
  the_txn i rid s = Err (TransactionNotFound i) s.
Proof.
  prun. destruct (get_row i (transactions s)) as [t|] eqn:Hg; [|by right].
  apply get_row_Some in Hg as [Hin Hid]. destruct (_ =? rid) eqn:Hr; [left|by right]. zbool. by exists t.
Qed.

Lemma issued_none i t : (∀ c, c ∈ rows t → cn_transaction_id c ≠ i) → issued_against i t = 0.
Proof.
  intros Hne. unfold issued_against, sum_where. induction (rows t) as [|c l IH]; [done|]. cbn.
  rewrite IH by (intros; apply Hne; set_solver).
  destruct (Z.eqb_spec (cn_transaction_id c) i) as [Heq|]; [|lia].
  exfalso. apply (Hne c); [set_solver|done].
Qed.

Lemma add_charge_inv rid oid amount tip tender st s s' txn :
  0 ≤ amount → charge_row rid oid amount tip tender st s txn →
  transactions s' = add_row txn (transactions s) → same_ledgers s s' → ledger_inv s → ledger_inv s'.
Proof.
  intros Ha (Hid & _ & _ & Hamt & _ & _ & _ & Href & _) Ht (Hc & _) [Hw Hn Hr Hi Hf Hu].
  split; rewrite ?Ht, ?Hc; [by apply add_row_wf|done| | | |done].
  - intros t. rewrite elem_of_add_row. intros [Hin| ->]; [by apply Hr|lia].
  - intros t. rewrite elem_of_add_row. intros [Hin| ->]; [by apply Hi|].
    rewrite issued_none; [lia|]. intros c Hc' Heq. specialize (Hf c Hc'). lia.
  - intros c Hc'. rewrite next_id_add. specialize (Hf c Hc'). lia.
Qed.

Lemma charge_inv rid oid tender amount tip channel meta session s :
  0 ≤ amount → ledger_inv s →
  ledger_inv (final (charge_tender rid oid tender amount tip channel meta session s)).
Proof.
  intros Ha Hinv.
  pose proof (charge_tender_outcome rid oid tender amount tip channel meta session s) as Hc.
  destruct Hc; cbn [final]; try done; by eapply add_charge_inv.
Qed.

(** A refund that went through, or one that wrote nothing but a call to the processor. *)
Lemma refund_outcome i rid amount s :
  (∃ t, t ∈ rows (transactions s) ∧ pt_id t = i ∧
     amount ≤ pt_amount_aed t - pt_refunded_amount_aed t ∧
     ∃ n, refund_transaction i rid amount s =
       Ok (with_refunded amount t)
          (with_transactions (set_row (with_refunded amount t) (transactions s)) (with_gateway_calls n s))) ∨
  ∃ e n, refund_transaction i rid amount s = Err e (with_gateway_calls n s).
Proof.
  assert (s = with_gateway_calls (gateway_calls s) s) as Hsame by by destruct s.
  unfold Payments.refund_transaction.
  destruct (the_txn_run i rid s) as [(t & Hin & Hid & Hr & Hrun)|Hrun].
  2:{ right. eexists _, (gateway_calls s). rewrite (bind_run_Err _ _ _ _ _ Hrun). by rewrite <-Hsame. }
  rewrite (bind_run_Ok _ _ _ _ _ Hrun). destruct (_ <? amount) eqn:Hlt; zbool.
  { right. eexists _, (gateway_calls s). by rewrite <-Hsame. }
  destruct (in_strs _ _ && _).
  - prun. match goal with |- context [rf_success ?r] => destruct (rf_success r) end; [left|right; by eexists _, _].
    exists t. split_and!; [done|done|done|]. by eexists.
  - left. exists t. split_and!; [done|done|done|]. exists (gateway_calls s). prun. by rewrite <-Hsame.
Qed.

Lemma refund_inv i rid amount s :
  0 ≤ amount → ledger_inv s → ledger_inv (final (refund_transaction i rid amount s)).
Proof.
  intros Ha Hinv.
  destruct (refund_outcome i rid amount s) as [(t & Hin & Hid & Hle & n & ->)|(e & n & ->)].
  2:{ by destruct Hinv. }
  destruct Hinv as [Hw Hn Hr Hi Hf Hu]. cbn [final].
  assert (∀ t', t' ∈ rows (set_row (with_refunded amount t) (transactions s)) →
    t' ∈ rows (transactions s) ∨ t' = with_refunded amount t) as Hrows.
  { intros t' [[-> _]|[? _]]%elem_of_set_row; [by right|by left]. }
  split; cbn [transactions with_transactions credit_notes with_gateway_calls].
  - by apply set_row_wf.
  - done.
  - intros t' [Hin'| ->]%Hrows; [by apply Hr|]. cbn. specialize (Hr t Hin). lia.
  - intros t' [Hin'| ->]%Hrows; [by apply Hi|]. cbn. specialize (Hi t Hin). lia.
  - intros c Hc. rewrite next_id_set. by apply Hf.
  - done.
Qed.

(** *** Credit-note numbers *)

Lemma foldr_max_ge (l : list N) n : n ∈ l → (n ≤ foldr N.max 0 l)%N.
Proof. induction l as [|x l IH]; [set_solver|]. cbn. intros [->|Hin]%elem_of_cons; [lia|]. specialize (IH Hin). lia. Qed.

Lemma note_seq_number rid n : note_seq rid (credit_note_prefix rid +:+ pad 4 n) = n.
Proof. unfold note_seq. rewrite after_prefix_app. cbn. by rewrite read_pad. Qed.

Lemma next_number_fresh rid t :
  number_taken rid (credit_note_prefix rid +:+ pad 4 (_next_credit_note_seq rid t)) t = false.
Proof.
  unfold number_taken. destruct (first_where _ _) as [c|] eqn:Hf; [|done]. exfalso.
  apply first_where_Some in Hf as [Hin Hp]. zbool.
  assert (note_seq rid (cn_number c) ≤ foldr N.max 0 (note_seq rid <$>
    (cn_number <$> all_where (λ c, (cn_restaurant_id c =? rid)%Z) t)))%N as Hle.
  { apply foldr_max_ge, list_elem_of_fmap_2, list_elem_of_fmap_2, elem_of_all_where.
    split; [done|by apply Z.eqb_eq]. }
  match goal with H : cn_number c = _ |- _ => rewrite H, note_seq_number in Hle end.
  unfold _next_credit_note_seq in Hle. lia.
Qed.

Lemma allocate_first fuel rid seq mk s :
  let number := credit_note_prefix rid +:+ pad 4 seq in
  number_taken rid number (credit_notes s) = false →
  allocate_note (S fuel) rid seq mk s =
    Ok (mk number (next_id (credit_notes s)))
       (with_credit_notes (add_row (mk number (next_id (credit_notes s))) (credit_notes s)) s).
Proof. intros number Hf. unfold allocate_note, mbind, M_bind, gets. fold number. by rewrite Hf. Qed.

(** An issue that is in order. *)
Lemma issue_accepted rid oid i amount reason s t :
  table_wf (transactions s) → t ∈ rows (transactions s) → pt_id t = i → pt_restaurant_id t = rid →
  pt_status t = TRefunded ∨ pt_status t = TPartially_refunded →
  issued_against i (credit_notes s) + amount ≤ pt_refunded_amount_aed t →
  ∃ c, issue_credit_note rid oid i amount reason s =
         Ok c (with_credit_notes (add_row c (credit_notes s)) s) ∧
    cn_number c = credit_note_prefix rid +:+ pad 4 (_next_credit_note_seq rid (credit_notes s)) ∧
    cn_amount_aed c = amount ∧ cn_transaction_id c = i ∧ cn_restaurant_id c = rid ∧
    cn_id c = next_id (credit_notes s) ∧
    (∀ c', c' ∈ rows (credit_notes s) → cn_restaurant_id c' = rid → cn_number c' ≠ cn_number c).
Proof.
  intros Hw Hin Hid Hr Hst Hroom. unfold issue_credit_note.
  assert (the_txn i rid s = Ok t s) as Hrun.
  { prun. subst i. change (pt_id t) with (row_id t). rewrite (get_row_wf _ _ Hw Hin). by rewrite Hr, Z.eqb_refl. }
  rewrite (bind_run_Ok _ _ _ _ _ Hrun), bool_decide_true by (destruct Hst as [-> | ->]; set_solver).
  prun. rewrite (proj2 (Z.ltb_ge _ _)) by lia. rewrite allocate_first by apply next_number_fresh. eexists. split; [done|]. cbn.
  split_and!; try done. intros c' Hc' Hrid Heq.
  pose proof (next_number_fresh rid (credit_notes s)) as Hf. unfold number_taken in Hf.
  destruct (first_where _ _) eqn:Hfw; [done|]. rewrite first_where_None in Hfw. specialize (Hfw c' Hc').
  rewrite Hrid, Heq, Z.eqb_refl, String.eqb_refl in Hfw. done.
Qed.

(** Credit notes are numbered without gaps or collisions: against a refunded
    transaction of the branch with room left, issuing one always succeeds, on the
    first of its five attempts, with the number after the highest in use, which no
    note of the branch has. *)
Theorem credit_note_issued rid oid i amount reason s t :
  table_wf (transactions s) → t ∈ rows (transactions s) → pt_id t = i → pt_restaurant_id t = rid →
  pt_status t = TRefunded ∨ pt_status t = TPartially_refunded →
  issued_against i (credit_notes s) + amount ≤ pt_refunded_amount_aed t →
  ∃ c, issue_credit_note rid oid i amount reason s =
         Ok c (with_credit_notes (add_row c (credit_notes s)) s) ∧
    cn_number c = credit_note_prefix rid +:+ pad 4 (_next_credit_note_seq rid (credit_notes s)) ∧
    cn_amount_aed c = amount ∧ cn_transaction_id c = i ∧ cn_restaurant_id c = rid ∧
    cn_id c = next_id (credit_notes s) ∧
    (∀ c', c' ∈ rows (credit_notes s) → cn_restaurant_id c' = rid → cn_number c' ≠ cn_number c).
Proof. intros. by eapply issue_accepted. Qed.

(** Issuing either adds such a note or writes nothing. *)
Lemma issue_outcome rid oid i amount reason s :
  ledger_inv s →
  (∃ c t, issue_credit_note rid oid i amount reason s = Ok c (with_credit_notes (add_row c (credit_notes s)) s) ∧
    t ∈ rows (transactions s) ∧ pt_id t = i ∧
    issued_against i (credit_notes s) + amount ≤ pt_refunded_amount_aed t ∧
    cn_amount_aed c = amount ∧ cn_transaction_id c = i ∧ cn_id c = next_id (credit_notes s) ∧
    (∀ c', c' ∈ rows (credit_notes s) → (cn_restaurant_id c', cn_number c') ≠ (cn_restaurant_id c, cn_number c))) ∨
  ∃ e, issue_credit_note rid oid i amount reason s = Err e s.
Proof.
  intros Hinv. destruct (the_txn_run i rid s) as [(t & Hin & Hid & Hr & Hrun)|Hrun].
  2:{ right. unfold issue_credit_note. rewrite (bind_run_Err _ _ _ _ _ Hrun). by eexists. }
  destruct (decide (pt_status t ∈ [TRefunded; TPartially_refunded])) as [Hst|Hst].
  2:{ right. unfold issue_credit_note. rewrite (bind_run_Ok _ _ _ _ _ Hrun), bool_decide_false by done.
      by eexists. }
  destruct (decide (issued_against i (credit_notes s) + amount ≤ pt_refunded_amount_aed t)) as [Hle|Hgt].
  2:{ right. unfold issue_credit_note. rewrite (bind_run_Ok _ _ _ _ _ Hrun), bool_decide_true by done.
      prun. rewrite (proj2 (Z.ltb_lt _ _)) by lia. by eexists. }
  left. destruct (issue_accepted rid oid i amount reason s t (li_txns s Hinv) Hin Hid Hr)
    as (c & Hc & Hnum & Ha & Hti & Hrid & Hcid & Hfresh); [set_solver|done|].
  exists c, t. split_and!; try done. intros c' Hc' [= Hr' Hn']. apply (Hfresh c' Hc'); congruence.
Qed.

Lemma issue_inv rid oid i amount reason s :
  0 ≤ amount → ledger_inv s → ledger_inv (final (issue_credit_note rid oid i amount reason s)).
Proof.
  intros Ha Hinv. destruct (issue_outcome rid oid i amount reason s Hinv)
    as [(c & t & -> & Hin & Hid & Hle & Hamt & Hti & Hcid & Hfresh)|(e & ->)]; [|done].
  destruct Hinv as [Hw Hn Hr Hi Hf Hu]. cbn [final].
  split; cbn [transactions credit_notes with_credit_notes].
  - done.
  - by apply add_row_wf.
  - done.
  - intros t' Ht'. unfold issued_against. rewrite sum_where_add.
    fold (issued_against (pt_id t') (credit_notes s)). specialize (Hi t' Ht').
    destruct (Z.eqb_spec (cn_transaction_id c) (pt_id t')) as [Heq|]; [|lia].
    assert (t' = t) as -> by (apply (wf_unique _ Hw); [done|done|unfold row_id, PaymentTransaction_row; congruence]).
    rewrite <-Hid in Hle. lia.
  - intros c'. rewrite elem_of_add_row. intros [Hc'| ->]; [by apply Hf|].
    rewrite Hti, <-Hid. exact (wf_fresh _ Hw t Hin).
  - apply add_row_unique; [done|]. intros c' Hc'. by apply Hfresh.
Qed.

(** *** Reachable ledgers *)

Inductive payment_call :=
| Charge (rid oid : Z) (tender : string) (amount tip : Z) (channel : string) (meta session : option string)
| Refund (i rid amount : Z)
| IssueNote (rid oid i amount : Z) (reason : option string)
| Tick (dt : Z).

(** Amounts as the request schemas accept them: charges and refunds of at least
    zero, credit notes above zero. *)
Definition accepted (c : payment_call) : Prop :=
  match c with
  | Charge _ _ _ amount _ _ _ _ => 0 ≤ amount
  | Refund _ _ amount => 0 ≤ amount
  | IssueNote _ _ _ amount _ => 0 < amount
  | Tick dt => 0 ≤ dt
  end.

Definition tick (dt : Z) (s : payments_db) : payments_db :=
  Build_payments_db (transactions s) (credit_notes s) (links s) (settlements s) (settlement_lines s)
    (pay_orders s) (house_customers s) (gateway_calls s) (pay_now s + dt).

Definition pay_after (c : payment_call) (s : payments_db) : payments_db :=
  match c with
  | Charge rid oid tender amount tip channel meta session =>
      final (charge_tender rid oid tender amount tip channel meta session s)
  | Refund i rid amount => final (refund_transaction i rid amount s)
  | IssueNote rid oid i amount reason => final (issue_credit_note rid oid i amount reason s)
  | Tick dt => tick dt s
  end.

Definition empty_payments : payments_db :=
  Build_payments_db empty_table empty_table empty_table empty_table empty_table empty_table empty_table 0 0.

Inductive pay_reachable : payments_db → Prop :=
| pre_empty : pay_reachable empty_payments
| pre_call c s : pay_reachable s → accepted c → pay_reachable (pay_after c s).

Lemma empty_inv : ledger_inv empty_payments.
Proof.
  split; cbn; [apply empty_table_wf|apply empty_table_wf|set_solver..|].
  intros r1 r2 Hr. by apply not_elem_of_nil in Hr.
Qed.

Lemma pay_reachable_inv s : pay_reachable s → ledger_inv s.
Proof.
  induction 1 as [|c s _ IH Hc]; [apply empty_inv|]. destruct c; cbn in *.
  - by apply charge_inv.
  - by apply refund_inv.
  - apply issue_inv; [lia|done].
  - by destruct IH.
Qed.


(** ** Payment links *)

(** A payment link pays at most once: completing a link that is not pending, or is
    past its expiry, charges nothing (an overdue pending link becomes expired);
    completing a payable one, when the charge goes through, marks exactly that link
    paid with the new transaction. *)
Theorem payment_link_single_use token tender s l :
  table_wf (links s) → first_where (λ l, pl_token l =s token) (links s) = Some l →
  let payable := bool_decide (pl_status l = LPending) && (pay_now s <=? pl_expires_at l) in
  match complete_payment_link charge mock token tender s with
  | Ok txn s' => payable = true ∧ pt_amount_aed txn = pl_amount_aed l ∧ pt_order_id txn = pl_order_id l ∧
      links s' = set_row (with_link LPaid (Some (pt_id txn)) l) (links s)
  | Err e s' =>
      if payable then links s' = links s
      else e = LinkNotPayable ∧ transactions s' = transactions s ∧ gateway_calls s' = gateway_calls s ∧
           links s' = if bool_decide (pl_status l = LPending)
                      then set_row (with_link LExpired (pl_paid_transaction_id l) l) (links s) else links s
  end.
Proof.
  intros Hw Hf payable. unfold complete_payment_link. prun. rewrite Hf. prun. subst payable.
  destruct (bool_decide (pl_status l = LPending)) eqn:Hp; cbn [negb orb andb]; [|done].
  destruct (pl_expires_at l <? pay_now s) eqn:He.
  { replace (pay_now s <=? pl_expires_at l) with false by (symmetry; apply Z.leb_gt; zbool; lia). done. }
  replace (pay_now s <=? pl_expires_at l) with true by (symmetry; apply Z.leb_le; zbool; lia).
  match goal with |- context [Payments.charge_tender charge mock ?a ?b ?c ?d ?e ?f ?g ?h s] =>
    pose proof (charge_tender_outcome a b c d e f g h s) as Hc;
    destruct (Payments.charge_tender charge mock a b c d e f g h s) as [txn s'|err s'] end.
  - inversion Hc as [| | |txn' s'' _ _ Hrow Ht Hsame]; subst. cbn.
    destruct Hrow as (_ & _ & Ho & Ha & _). destruct Hsame as (_ & -> & _). done.
  - inversion Hc as [| |e' txn' s'' _ _ _ _ _ Hsame _|]; subst; try done. by destruct Hsame as (_ & -> & _).
Qed.

(** ** House accounts *)

(** A tab stays inside its limit and never goes negative: a charge succeeds only
    on an enabled account of the branch and then moves its balance by the amount to
    at most its limit; a settlement moves it to the balance less the payment, floored
    at zero; a refused charge writes nothing. *)
Theorem house_account_bounds rid cid oid amount s c :
  table_wf (house_customers s) → c ∈ rows (house_customers s) → hc_id c = cid → hc_restaurant_id c = rid →
  (match charge_to_house_account rid cid oid amount s with
   | Ok b s' => hc_enabled c = true ∧ b = hc_balance_aed c + amount ∧
       (∀ limit, hc_credit_limit_aed c = Some limit → b ≤ limit) ∧
       get_row cid (house_customers s') = Some (with_house true b c)
   | Err e s' => s' = s ∧ (hc_enabled c = false ∨
       ∃ limit, hc_credit_limit_aed c = Some limit ∧ limit < hc_balance_aed c + amount)
   end) ∧
  ∃ s', settle_house_account rid cid amount s = Ok (Z.max (hc_balance_aed c - amount) 0) s' ∧
    get_row cid (house_customers s') = Some (with_house (hc_enabled c) (Z.max (hc_balance_aed c - amount) 0) c).
Proof.
  intros Hw Hin Hid Hr.
  assert (get_row cid (house_customers s) = Some c) as Hg by (rewrite <-Hid; exact (get_row_wf _ _ Hw Hin)).
  assert (∀ b x, get_row cid (set_row (with_house b x c) (house_customers s)) = Some (with_house b x c)) as Hset.
  { intros b x. pose proof (get_row_set (with_house b x c) c (house_customers s)) as Hset.
    change (row_id (with_house b x c)) with (hc_id c) in Hset. rewrite Hid in Hset. by apply Hset. }
  split; unfold charge_to_house_account, settle_house_account; prun; rewrite Hg, Hr, Z.eqb_refl; prun.
  - destruct (hc_enabled c) eqn:He; cbn; [|by auto].
    destruct (hc_credit_limit_aed c) as [limit|] eqn:Hl; cbn.
    + destruct (limit <? _) eqn:Hlt; zbool; cbn.
      * split; [done|]. right. by exists limit.
      * split_and!; [done|done|intros ? [= <-]; lia|apply Hset].
    + split_and!; [done|done|done|apply Hset].
  - eexists. split; [done|apply Hset].
Qed.

(** ** Settlements *)

(** The statuses of a settlement file's lines against the charges. *)
Definition line_statuses (rid : Z) (lines : list (string * Q)) (t : table PaymentTransaction) : list line_match :=
  (λ l, snd (match_line rid (fst l) (snd l) t)) <$> lines.
Definition matched_count (l : list line_match) : Z := count (λ st, bool_decide (st = Matched)) l.

Definition settlement_line (rid sid : Z) (raw : string * Q) (s : payments_db) : PaymentSettlementLine := {|
  psl_id := next_id (settlement_lines s); psl_settlement_id := sid;
  psl_provider_charge_id := fst raw; psl_amount_aed := quantize_half_up (snd raw);
  psl_payment_transaction_id := fst (match_line rid (fst raw) (snd raw) (transactions s));
  psl_match_status := snd (match_line rid (fst raw) (snd raw) (transactions s)) |}.

Lemma import_line_run rid sid raw n s :
  import_line rid sid raw n s =
    Ok (if bool_decide (snd (match_line rid (fst raw) (snd raw) (transactions s)) = Matched) then n + 1 else n)
       (with_settlements (settlements s)
          (add_row (settlement_line rid sid raw s) (settlement_lines s)) s).
Proof.
  destruct raw as [cid amt]. unfold import_line, settlement_line. prun.
  by destruct (match_line rid cid amt (transactions s)).
Qed.

Lemma import_lines_run rid sid lines : ∀ s n,
  ∃ new s', for_fold (import_line rid sid) lines n s =
      Ok (n + matched_count (line_statuses rid lines (transactions s))) s' ∧
    settlements s' = settlements s ∧ transactions s' = transactions s ∧
    rows (settlement_lines s') = rows (settlement_lines s) ++ new ∧
    psl_match_status <$> new = line_statuses rid lines (transactions s) ∧
    Forall (λ l, psl_settlement_id l = sid) new.
Proof.
  induction lines as [|raw lines IH]; intros s n; cbn [for_fold].
  { exists [], s. cbn. rewrite Z.add_0_r, app_nil_r. by split_and!. }
  rewrite (bind_run_Ok _ _ _ _ _ (import_line_run rid sid raw n s)).
  set (row := settlement_line rid sid raw s).
  match goal with |- context [for_fold _ lines ?n' ?s'] =>
    destruct (IH s' n') as (new & s'' & Hrun & Hs & Ht & Hrows & Hst & Hall) end.
  exists (row :: new), s''. rewrite Hrun. cbn in Hs, Ht, Hrows, Hst |- *.
  split_and!; [|done|done|rewrite Hrows; unfold add_row; cbn; by rewrite <-app_assoc|by rewrite Hst|by constructor].
  f_equal. unfold matched_count, count, line_statuses. cbn. case_bool_decide; lia.
Qed.

Lemma matched_count_all l :
  0 ≤ matched_count l ≤ Z.of_nat (length l) ∧
  (matched_count l = Z.of_nat (length l) ↔ Forall (eq Matched) l).
Proof.
  unfold matched_count, count. induction l as [|x l [IH1 IH2]]; cbn [zsum length]; [done|].
  rewrite Nat2Z.inj_succ, Forall_cons, <-IH2. case_bool_decide; intuition (congruence || lia).
Qed.

Lemma verdict_spec l :
  (settlement_verdict (matched_count l) (Z.of_nat (length l)) = SMatched ↔
     l ≠ [] ∧ Forall (eq Matched) l) ∧
  (settlement_verdict (matched_count l) (Z.of_nat (length l)) = SUnmatched ↔ matched_count l = 0).
Proof.
  destruct (matched_count_all l) as [Hle Hall]. rewrite <-Hall.
  assert (l ≠ [] ↔ 0 < Z.of_nat (length l)) as -> by (destruct l; cbn; split; done || lia).
  unfold settlement_verdict.
  destruct (matched_count l =? Z.of_nat (length l)) eqn:He, (0 <? Z.of_nat (length l)) eqn:H0,
    (0 <? matched_count l) eqn:Hm; zbool; cbn; intuition (congruence || lia).
Qed.

(** A settlement import is judged by its lines.  It always succeeds and adds one
    line per line of the file, each with the status of its charge (matched when the
    branch has a charge of that id and exactly that amount); the batch records how
    many matched, and is matched when all of at least one line did, partial when only
    some did, unmatched when none did. *)
Theorem settlement_import_verdict rid provider payout amount at_ lines notes s :
  let l := line_statuses rid lines (transactions s) in
  ∃ st s' new, import_settlement rid provider payout amount at_ lines notes s = Ok st s' ∧
    ps_matched_txn_count st = matched_count l ∧ transactions s' = transactions s ∧
    rows (settlement_lines s') = rows (settlement_lines s) ++ new ∧
    psl_match_status <$> new = l ∧
    (ps_status st = SMatched ↔ l ≠ [] ∧ Forall (eq Matched) l) ∧
    (ps_status st = SUnmatched ↔ matched_count l = 0).
Proof.
  intros l. unfold import_settlement. prun.
  match goal with |- context [for_fold (import_line rid ?sid) lines 0 ?s1] =>
    destruct (import_lines_run rid sid lines s1 0) as (new & s' & Hrun & _ & Ht & Hrows & Hst & _) end.
  rewrite Hrun. cbn [transactions settlement_lines with_settlements] in Ht, Hrows, Hst |- *.
  fold l in Hst |- *. rewrite Z.add_0_l.
  assert (length lines = length l) as -> by (subst l; unfold line_statuses; by rewrite length_fmap).
  eexists _, _, new. split; [done|].
  split; [done|]. split; [exact Ht|]. split; [exact Hrows|]. split; [exact Hst|]. apply verdict_spec.
Qed.
End facts.

(** ** Where the ledger falls short *)

Definition yes_charge (n : nat) (_ : Z) (_ _ : string) : ChargeResult :=
  Build_ChargeResult true ("ch_" +:+ pretty n) None.
Definition no_charge (_ : nat) (_ : Z) (_ _ : string) : ChargeResult :=
  Build_ChargeResult false "" (Some "declined"%string).
Definition yes_refund (_ : nat) (_ : string) (_ : Z) : RefundResult := Build_RefundResult true None.

(** Order 5 of branch 1 charged AED 100 by [tender]. *)
Definition charged_100 (ch : nat → Z → string → string → ChargeResult) (tender : string) : payments_db :=
  final (charge_tender ch true 1 5 tender 10000 0 "till" None None empty_payments).

(** A partial refund forgets the payment: an order that paid AED 100 in cash and
    got 1 back counts as having paid nothing, because partially refunded
    transactions are left out of the total. *)
Theorem partial_refund_forgets_payment :
  let s := charged_100 yes_charge "cash" in
  let s' := final (refund_transaction yes_refund 1 1 100 s) in
  paid 5 s = 10000 ∧ paid 5 s' = 0.
Proof. vm_compute. by split. Qed.

(** A declined charge can be refunded and credited: the failed row of a declined
    card accepts a full refund without any call to the processor, and then a credit
    note for money that was never paid. *)
Theorem declined_charge_creditable :
  let s := charged_100 no_charge "card" in
  let s' := final (refund_transaction yes_refund 1 1 10000 s) in
  paid 5 s = 0 ∧ gateway_calls s' = gateway_calls s ∧
  is_ok (issue_credit_note 1 5 1 10000 None s') = true.
Proof. vm_compute. by split_and!. Qed.

(** A refund may be negative: refunding AED -50 of a charge of 100 is accepted,
    and a refund of 150 is then within what remains. *)
Theorem negative_refund_accepted :
  let s := charged_100 yes_charge "cash" in
  let s' := final (refund_transaction yes_refund 1 1 (-5000) s) in
  is_ok (refund_transaction yes_refund 1 1 15000 s') = true ∧
  is_ok (refund_transaction yes_refund 1 1 15000 s) = false.
Proof. vm_compute. by split. Qed.

(** ** Witnesses *)

Definition paid_100 : payments_db := charged_100 yes_charge "cash".
Definition cash_txn : PaymentTransaction :=
  Build_PaymentTransaction 1 1 5 "cash" 10000 0 "cash" None TSucceeded 0 "till" None None 0.

Example double_tap_refused_witness :
  charge_tender yes_charge true 1 5 "card" 10000 0 "till" None None paid_100 =
    Err (DuplicateChargeError 5 10000) paid_100.
Proof.
  apply (double_tap_refused yes_charge true cash_txn "card" 0 "till" None None paid_100).
  - vm_compute. left.
  - reflexivity.
  - vm_compute. discriminate.
  - reflexivity.
Defined.

Definition refunded_40 : payments_db := final (refund_transaction yes_refund 1 1 4000 paid_100).
Lemma refunded_40_reachable : pay_reachable yes_charge yes_refund true refunded_40.
Proof.
  apply (pre_call _ _ _ (Refund 1 1 4000)); [|cbn; lia].
  apply (pre_call _ _ _ (Charge 1 5 "cash" 10000 0 "till" None None)); [apply pre_empty|cbn; lia].
Qed.


Example credit_note_issued_witness :
  ∃ c, issue_credit_note 1 5 1 4000 None refunded_40 =
         Ok c (with_credit_notes (add_row c (credit_notes refunded_40)) refunded_40) ∧
    cn_number c = "CN-1-0001"%string.
Proof.
  destruct (credit_note_issued 1 5 1 4000 None refunded_40 (with_refunded 4000 cash_txn)
    (li_txns _ (pay_reachable_inv _ _ _ _ refunded_40_reachable)) ltac:(vm_compute; left) eq_refl eq_refl
    (or_intror eq_refl) ltac:(vm_compute; discriminate)) as (c & Hc & Hn & _).
  exists c. split; [exact Hc|]. rewrite Hn. vm_compute. reflexivity.
Defined.

Definition demo_link : PaymentLink := Build_PaymentLink 1 1 5 "tok-abcdefghijkl" 2500 LPending (hours 48) None "manager".
Definition demo_links : payments_db := with_links (Table [demo_link] 2) empty_payments.

Example payment_link_single_use_witness :
  links (final (complete_payment_link yes_charge true "tok-abcdefghijkl" "online" demo_links)) =
    Table [with_link LPaid (Some 1) demo_link] 2.
Proof.
  assert (table_wf (links demo_links)) as Hwf.
  { apply (add_row_wf demo_link (Table [] 1)); [|reflexivity]. split; cbn; [set_solver|constructor|set_solver]. }
  pose proof (payment_link_single_use yes_charge true "tok-abcdefghijkl" "online" demo_links demo_link Hwf eq_refl) as H.
  destruct (complete_payment_link yes_charge true "tok-abcdefghijkl" "online" demo_links) as [txn s'|e s'] eqn:Hrun.
  - destruct H as (_ & _ & _ & Hl). cbn [final]. rewrite Hl. vm_compute in Hrun. injection Hrun as <- _. reflexivity.
  - vm_compute in Hrun. discriminate.
Defined.

Definition demo_house : HouseCustomer := Build_HouseCustomer 7 1 true 4000 (Some 5000).
Definition demo_tab : payments_db := with_house_customers (Table [demo_house] 8) empty_payments.

Example house_account_bounds_witness :
  charge_to_house_account 1 7 5 2000 demo_tab = Err (CreditLimitExceeded 5000) demo_tab ∧
  ∃ s', settle_house_account 1 7 9000 demo_tab = Ok 0 s'.
Proof.
  assert (table_wf (house_customers demo_tab)) as Hwf.
  { apply (add_row_wf demo_house (Table [] 7)); [|reflexivity]. split; cbn; [set_solver|constructor|set_solver]. }
  destruct (house_account_bounds 1 7 5 9000 demo_tab demo_house Hwf ltac:(vm_compute; left) eq_refl eq_refl)
    as (_ & s' & Hs & _).
  split; [reflexivity|]. exists s'. exact Hs.
Defined.
