(* ===== verification/CartDb.v ===== *)
(** * Orders and their lines: the data of the cart and the open tab ([ordering/models.py],
    [menu/])

    The columns of orders, lines and dishes that the services of [ordering/service.py]
    and [ordering/pos_orders.py] read and write; amounts are whole cents.  Calls of
    other components (the wallet, loyalty, dispatch, the kitchen, notifications) are
    the log [cart_calls]. *)

From S2P Require Import Prelude Money Strings Db AuditTrail Clock OrderFsm.

Record CartOrder := {
  co_id : Z;
  co_restaurant_id : Z;
  co_customer_id : Z;
  co_order_number : string;
  co_status : OrderStatus;
  co_priority : string;
  co_order_type : string;
  co_table_id : option Z;
  co_staff_id : option Z;
  co_subtotal : Z;
  co_delivery_fee_aed : Z;
  co_total : Z;
  co_held_at : option Z;
  co_held_reason : option string;
  co_cancellation_reason : option string;
  co_cancelled_at : option Z;
  co_daily_token : option Z;
  co_resale_of_order_id : option Z;
  co_created_at : Z;
  co_updated_at : Z;
}.
#[global] Instance CartOrder_row : Row CartOrder := co_id.
#[global] Instance CartOrder_eq_dec : EqDecision CartOrder.
Proof. solve_decision. Defined.
Definition with_totals (subtotal total : Z) (o : CartOrder) : CartOrder :=
  Build_CartOrder (co_id o) (co_restaurant_id o) (co_customer_id o) (co_order_number o) (co_status
    o) (co_priority o) (co_order_type o) (co_table_id o) (co_staff_id o) subtotal
    (co_delivery_fee_aed o) total (co_held_at o) (co_held_reason o) (co_cancellation_reason o)
    (co_cancelled_at o) (co_daily_token o) (co_resale_of_order_id o) (co_created_at o)
    (co_updated_at o).
Definition with_cart_status (st : OrderStatus) (o : CartOrder) : CartOrder :=
  Build_CartOrder (co_id o) (co_restaurant_id o) (co_customer_id o) (co_order_number o) st
    (co_priority o) (co_order_type o) (co_table_id o) (co_staff_id o) (co_subtotal o)
    (co_delivery_fee_aed o) (co_total o) (co_held_at o) (co_held_reason o) (co_cancellation_reason
    o) (co_cancelled_at o) (co_daily_token o) (co_resale_of_order_id o) (co_created_at o)
    (co_updated_at o).
Definition with_hold (at_ : option Z) (reason : option string) (o : CartOrder) : CartOrder :=
  Build_CartOrder (co_id o) (co_restaurant_id o) (co_customer_id o) (co_order_number o) (co_status
    o) (co_priority o) (co_order_type o) (co_table_id o) (co_staff_id o) (co_subtotal o)
    (co_delivery_fee_aed o) (co_total o) at_ reason (co_cancellation_reason o) (co_cancelled_at o)
    (co_daily_token o) (co_resale_of_order_id o) (co_created_at o) (co_updated_at o).
Definition with_priority (p : string) (o : CartOrder) : CartOrder :=
  Build_CartOrder (co_id o) (co_restaurant_id o) (co_customer_id o) (co_order_number o) (co_status
    o) p (co_order_type o) (co_table_id o) (co_staff_id o) (co_subtotal o) (co_delivery_fee_aed o)
    (co_total o) (co_held_at o) (co_held_reason o) (co_cancellation_reason o) (co_cancelled_at o)
    (co_daily_token o) (co_resale_of_order_id o) (co_created_at o) (co_updated_at o).
Definition with_cancellation (reason : option string) (at_ : option Z) (o : CartOrder) : CartOrder :=
  Build_CartOrder (co_id o) (co_restaurant_id o) (co_customer_id o) (co_order_number o) (co_status
    o) (co_priority o) (co_order_type o) (co_table_id o) (co_staff_id o) (co_subtotal o)
    (co_delivery_fee_aed o) (co_total o) (co_held_at o) (co_held_reason o) reason at_
    (co_daily_token o) (co_resale_of_order_id o) (co_created_at o) (co_updated_at o).
Definition with_place (table_id staff_id : option Z) (o : CartOrder) : CartOrder :=
  Build_CartOrder (co_id o) (co_restaurant_id o) (co_customer_id o) (co_order_number o) (co_status
    o) (co_priority o) (co_order_type o) table_id staff_id (co_subtotal o) (co_delivery_fee_aed o)
    (co_total o) (co_held_at o) (co_held_reason o) (co_cancellation_reason o) (co_cancelled_at o)
    (co_daily_token o) (co_resale_of_order_id o) (co_created_at o) (co_updated_at o).
Definition with_updated (now : Z) (o : CartOrder) : CartOrder :=
  Build_CartOrder (co_id o) (co_restaurant_id o) (co_customer_id o) (co_order_number o) (co_status
    o) (co_priority o) (co_order_type o) (co_table_id o) (co_staff_id o) (co_subtotal o)
    (co_delivery_fee_aed o) (co_total o) (co_held_at o) (co_held_reason o) (co_cancellation_reason
    o) (co_cancelled_at o) (co_daily_token o) (co_resale_of_order_id o) (co_created_at o) now.

Record Line := {
  ln_id : Z;
  ln_order_id : Z;
  ln_dish_id : Z;
  ln_dish_number : option Z;
  ln_dish_name : string;
  ln_variant_name : option string;
  ln_price_aed : Z;
  ln_qty : Z;
  ln_notes : option string;
  ln_cancelled : bool;
  ln_cancelled_reason : option string;
  ln_merged_from_order_id : option Z;
  ln_selected_modifiers : list (Z * string * Z);
  ln_seat_number : option Z;
  ln_course_number : Z;
  ln_course_held : bool;
  ln_fired_at : option Z;
  ln_is_takeaway : bool;
  ln_allergens_snapshot : list string;
  ln_station_id_snapshot : option Z;
}.
#[global] Instance Line_row : Row Line := ln_id.
#[global] Instance Line_eq_dec : EqDecision Line.
Proof. solve_decision. Defined.
Definition with_qty (q : Z) (l : Line) : Line :=
  Build_Line (ln_id l) (ln_order_id l) (ln_dish_id l) (ln_dish_number l) (ln_dish_name l)
    (ln_variant_name l) (ln_price_aed l) q (ln_notes l) (ln_cancelled l) (ln_cancelled_reason l)
    (ln_merged_from_order_id l) (ln_selected_modifiers l) (ln_seat_number l) (ln_course_number l)
    (ln_course_held l) (ln_fired_at l) (ln_is_takeaway l) (ln_allergens_snapshot l)
    (ln_station_id_snapshot l).
Definition with_notes (n : option string) (l : Line) : Line :=
  Build_Line (ln_id l) (ln_order_id l) (ln_dish_id l) (ln_dish_number l) (ln_dish_name l)
    (ln_variant_name l) (ln_price_aed l) (ln_qty l) n (ln_cancelled l) (ln_cancelled_reason l)
    (ln_merged_from_order_id l) (ln_selected_modifiers l) (ln_seat_number l) (ln_course_number l)
    (ln_course_held l) (ln_fired_at l) (ln_is_takeaway l) (ln_allergens_snapshot l)
    (ln_station_id_snapshot l).
Definition with_line_cancelled (reason : option string) (l : Line) : Line :=
  Build_Line (ln_id l) (ln_order_id l) (ln_dish_id l) (ln_dish_number l) (ln_dish_name l)
    (ln_variant_name l) (ln_price_aed l) (ln_qty l) (ln_notes l) true reason
    (ln_merged_from_order_id l) (ln_selected_modifiers l) (ln_seat_number l) (ln_course_number l)
    (ln_course_held l) (ln_fired_at l) (ln_is_takeaway l) (ln_allergens_snapshot l)
    (ln_station_id_snapshot l).
Definition with_order (order_id : Z) (merged_from : option Z) (l : Line) : Line :=
  Build_Line (ln_id l) order_id (ln_dish_id l) (ln_dish_number l) (ln_dish_name l) (ln_variant_name
    l) (ln_price_aed l) (ln_qty l) (ln_notes l) (ln_cancelled l) (ln_cancelled_reason l) merged_from
    (ln_selected_modifiers l) (ln_seat_number l) (ln_course_number l) (ln_course_held l)
    (ln_fired_at l) (ln_is_takeaway l) (ln_allergens_snapshot l) (ln_station_id_snapshot l).
Definition with_fired (now : Z) (l : Line) : Line :=
  Build_Line (ln_id l) (ln_order_id l) (ln_dish_id l) (ln_dish_number l) (ln_dish_name l)
    (ln_variant_name l) (ln_price_aed l) (ln_qty l) (ln_notes l) (ln_cancelled l)
    (ln_cancelled_reason l) (ln_merged_from_order_id l) (ln_selected_modifiers l) (ln_seat_number l)
    (ln_course_number l) false (Some now) (ln_is_takeaway l) (ln_allergens_snapshot l)
    (ln_station_id_snapshot l).

Record CartDish := {
  cd_id : Z;
  cd_restaurant_id : Z;
  cd_dish_number : option Z;
  cd_name : string;
  cd_price_aed : option Z;
  cd_sale_price_aed : option Z;
  cd_allergens : list string;
  cd_stock_remaining : option Z;
  cd_auto_hide_when_oos : bool;
  cd_is_available : bool;
}.
#[global] Instance CartDish_row : Row CartDish := cd_id.
#[global] Instance CartDish_eq_dec : EqDecision CartDish.
Proof. solve_decision. Defined.
Definition with_countdown (remaining : option Z) (available : bool) (d : CartDish) : CartDish :=
  Build_CartDish (cd_id d) (cd_restaurant_id d) (cd_dish_number d) (cd_name d) (cd_price_aed d)
    (cd_sale_price_aed d) (cd_allergens d) remaining (cd_auto_hide_when_oos d) available.

(** ** Prices and modifiers *)

Inductive rule_type := RTime | RChannel | RBranch.
(** Times of day in microseconds. *)
Record DishPriceRule := {
  pr_id : Z;
  pr_restaurant_id : Z;
  pr_dish_id : Z;
  pr_rule_type : rule_type;
  pr_start_time : option Z;
  pr_end_time : option Z;
  pr_days_of_week : option (list Z);
  pr_channel : option string;
  pr_branch_id : option Z;
  pr_price_aed : Z;
}.
#[global] Instance DishPriceRule_row : Row DishPriceRule := pr_id.
Record ModifierGroup := {
  mg_id : Z; mg_dish_id : Z; mg_name : string; mg_min_select : Z; mg_max_select : Z; mg_required : bool;
}.
#[global] Instance ModifierGroup_row : Row ModifierGroup := mg_id.
Record Modifier := { mo_id : Z; mo_group_id : Z; mo_name : string; mo_price_delta_aed : Z }.
#[global] Instance Modifier_row : Row Modifier := mo_id.

(** ** The session *)

Inductive cart_call :=
| CReleaseWallet (order_id : Z)
| CReverseEarn (order_id : Z)
| CReleaseDispatch (order_id : Z)
| CTransition (order_id : Z) (from to : OrderStatus)
| CNotifyCustomer (order_id : Z) (status_key : string)
| CNotifyPartner (order_id : Z) (event_type : string)
| CInvalidatePreview (restaurant_id : Z)
| CCreateTickets (order_id : Z) (line_ids : list Z).

Record cart_db := {
  cart_orders : table CartOrder;
  cart_lines : table Line;
  cart_dishes : table CartDish;
  price_rules : table DishPriceRule;
  modifier_groups : table ModifierGroup;
  modifiers : table Modifier;
  staff_of : list (Z * Z);   (** staff members: id and restaurant *)
  cart_audit : list audit_row;
  cart_calls : list cart_call;
  cart_now : Z;
}.
Definition with_cart_orders (t : table CartOrder) (s : cart_db) : cart_db :=
  Build_cart_db t (cart_lines s) (cart_dishes s) (price_rules s) (modifier_groups s) (modifiers s)
    (staff_of s) (cart_audit s) (cart_calls s) (cart_now s).
Definition with_cart_lines (t : table Line) (s : cart_db) : cart_db :=
  Build_cart_db (cart_orders s) t (cart_dishes s) (price_rules s) (modifier_groups s) (modifiers s)
    (staff_of s) (cart_audit s) (cart_calls s) (cart_now s).
Definition with_cart_dishes (t : table CartDish) (s : cart_db) : cart_db :=
  Build_cart_db (cart_orders s) (cart_lines s) t (price_rules s) (modifier_groups s) (modifiers s)
    (staff_of s) (cart_audit s) (cart_calls s) (cart_now s).
Definition with_price_rules (t : table DishPriceRule) (s : cart_db) : cart_db :=
  Build_cart_db (cart_orders s) (cart_lines s) (cart_dishes s) t (modifier_groups s) (modifiers s)
    (staff_of s) (cart_audit s) (cart_calls s) (cart_now s).
Definition with_cart_calls (t : list cart_call) (s : cart_db) : cart_db :=
  Build_cart_db (cart_orders s) (cart_lines s) (cart_dishes s) (price_rules s) (modifier_groups s)
    (modifiers s) (staff_of s) (cart_audit s) t (cart_now s).
#[global] Instance cart_has_audit : HasAudit cart_db := {|
  audit_log := cart_audit;
  put_audit l s := Build_cart_db (cart_orders s) (cart_lines s) (cart_dishes s) (price_rules s)
    (modifier_groups s) (modifiers s) (staff_of s) l (cart_calls s) (cart_now s);
|}.

Inductive cart_error :=
| CartOrderNotFound
| LineNotFound
| NotModifiable (st : OrderStatus)
| LineCancelled
| BadQuantity
| ForcedModifier (group : string)
| PriceMissing
| PriceRuleNotFound
| UnknownRuleType
| NoItemIds
| ForeignItems
| NoSeatItems (seat : Z)
| SelfMerge
| NotMergeable (primary secondary : OrderStatus)
| NothingToUnmerge
| StaffNotFound
| CannotCancel (st : OrderStatus)
| UnknownActor (actor : string)
| CartIllegalTransition (from to : OrderStatus)
| NumbersExhausted (restaurant_id : Z)
| NumberTaken (number : string)
| NotHoldable (st : OrderStatus)
| AlreadyHeld
| NotHeld
| BadPriority (p : string)
| BadCourse
| FireWhileHeld
| NothingHeld (course : Z).

Abbreviation CM := (M cart_db cart_error).

(** An UPDATE is emitted when a column changed; it stamps [updated_at]. *)
Definition update_order (o : CartOrder) : CM unit :=
  modify (λ s,
    let changed := match get_row (co_id o) (cart_orders s) with
                   | Some o0 => negb (bool_decide (o = o0)) | None => true end in
    with_cart_orders (set_row (if changed then with_updated (cart_now s) o else o) (cart_orders s)) s).
Definition update_line (l : Line) : CM unit := modify (λ s, with_cart_lines (set_row l (cart_lines s)) s).
Definition delete_line (l : Line) : CM unit :=
  modify (λ s, with_cart_lines (del_row (ln_id l) (cart_lines s)) s).
Definition log_call (c : cart_call) : CM unit :=
  modify (λ s, with_cart_calls (cart_calls s ++ [c]) s).
Definition add_line (mk : Z → Line) : CM Line :=
  t ← gets cart_lines; modify (with_cart_lines (add_row (mk (next_id t)) t)) ≫= λ _, mret (mk (next_id t)).

(** The lines of an order, in the order of the table. *)
Definition lines_on (order_id : Z) (s : cart_db) : list Line :=
  all_where (λ l, ln_order_id l =? order_id) (cart_lines s).
Definition line_amount (l : Line) : Z := ln_price_aed l * ln_qty l.
