(* ===== verification/Carts.v ===== *)
(** * The cart ([ordering/service.py], [menu/pricing.py], [menu/modifier_service.py])

    Opening a draft with its number, the month's token, the price of a dish at a moment
    and channel, forced modifiers, and the operations on a draft's lines, each of which
    recomputes the order's totals from its lines. *)

From Stdlib Require Import Ascii.
From S2P Require Import Prelude Money Strings Db AuditTrail Clock Decimals OrderFsm CartDb.

(** ** Numbers *)

(** [int(text)]: blanks around, a sign, digits with single underscores between. *)
Fixpoint drop_underscores (s : string) (digit_before : bool) : option string :=
  match s with
  | EmptyString => if digit_before then Some EmptyString else None
  | String c s' =>
      if Ascii.eqb c "_"%char then if digit_before then drop_underscores s' false else None
      else String c <$> drop_underscores s' true
  end.
Definition py_int (s : string) : option Z :=
  let t := strip s in
  let '(neg, t) := match t with
                   | String c t' => if Ascii.eqb c "-"%char then (true, t')
                                    else if Ascii.eqb c "+"%char then (false, t') else (false, t)
                   | EmptyString => (false, t)
                   end in
  t ← drop_underscores t false;
  n ← read_digits t;
  Some (if neg : bool then - Z.of_N n else Z.of_N n).

(** [text.rsplit("-", 1)[-1]] *)
Fixpoint after_last_dash (s : string) : string :=
  let fix has_dash (s : string) : bool :=
    match s with EmptyString => false | String c s' => Ascii.eqb c "-"%char || has_dash s' end in
  match s with
  | EmptyString => s
  | String c s' => if has_dash s' then after_last_dash s' else if Ascii.eqb c "-"%char then s' else s
  end.

Definition order_seq (number : string) : option Z := py_int (after_last_dash number).
Definition _next_order_seq (restaurant_id : Z) (t : table CartOrder) : Z :=
  fold_left (λ m number, match order_seq number with Some n => Z.max m n | None => m end)
    (co_order_number <$> all_where (λ o, co_restaurant_id o =? restaurant_id) t) 0 + 1.
Definition order_number_of (restaurant_id seq : Z) : string :=
  "R" +:+ pretty restaurant_id +:+ "-" +:+ pad 4 (Z.to_N seq).

Definition draft_order (id restaurant_id customer_id : Z) (number : string) (now : Z) : CartOrder := {|
  co_id := id; co_restaurant_id := restaurant_id; co_customer_id := customer_id; co_order_number := number;
  co_status := DRAFT; co_priority := "normal"; co_order_type := "delivery"; co_table_id := None;
  co_staff_id := None; co_subtotal := 0; co_delivery_fee_aed := 0; co_total := 0; co_held_at := None;
  co_held_reason := None; co_cancellation_reason := None; co_cancelled_at := None; co_daily_token := None;
  co_resale_of_order_id := None; co_created_at := now; co_updated_at := now |}.

(** UNIQUE(restaurant_id, order_number) *)
Definition order_number_taken (restaurant_id : Z) (number : string) (t : table CartOrder) : bool :=
  match first_where (λ o, (co_restaurant_id o =? restaurant_id) && (co_order_number o =s number)) t with
  | Some _ => true | None => false end.

(** The five attempts of the loop, from number [seq] on. *)
Fixpoint allocate_order (fuel : nat) (restaurant_id customer_id seq : Z) : CM CartOrder :=
  match fuel with
  | O => raise (NumbersExhausted restaurant_id)
  | S fuel' =>
      t ← gets cart_orders;
      now ← gets cart_now;
      let number := order_number_of restaurant_id seq in
      if order_number_taken restaurant_id number t then allocate_order fuel' restaurant_id customer_id (seq + 1)
      else
        let o := draft_order (next_id t) restaurant_id customer_id number now in
        modify (with_cart_orders (add_row o t)) ≫= λ _, mret o
  end.
Definition create_draft_order (restaurant_id customer_id : Z) : CM CartOrder :=
  base_seq ← gets (λ s, _next_order_seq restaurant_id (cart_orders s));
  allocate_order 5 restaurant_id customer_id base_seq.

(** The Dubai calendar month of a UTC instant: year and month. *)
Definition dubai_offset : Z := hours 4.
Definition dubai_month (t : Z) : Z * Z := let '(y, m, _) := civil (date_of (t + dubai_offset)) in (y, m).
Definition month_tokens (restaurant_id now : Z) (t : table CartOrder) : list Z :=
  omap co_daily_token (all_where (λ o, (co_restaurant_id o =? restaurant_id)
    && bool_decide (dubai_month (co_created_at o) = dubai_month now)) t).
Definition allocate_daily_token (restaurant_id : Z) : CM Z :=
  now ← gets cart_now;
  t ← gets cart_orders;
  mret (match month_tokens restaurant_id now t with [] => 0 | x :: l => fold_left Z.max l x end + 1).

(** ** Prices *)

Definition local_time_of (t : Z) : Z := (t + dubai_offset) mod day.
Definition _rule_matches (r : DishPriceRule) (at_ : Z) (channel : option string) (branch_id : option Z) : bool :=
  match pr_rule_type r with
  | RTime =>
      match pr_days_of_week r with
      | Some ds => existsb (Z.eqb (weekday (date_of (at_ + dubai_offset)))) ds
      | None => true
      end &&
      match pr_start_time r, pr_end_time r with
      | Some a, Some b =>
          let t := local_time_of at_ in
          if a <=? b then (a <=? t) && (t <=? b) else (a <=? t) || (t <=? b)
      | _, _ => true
      end
  | RChannel => match channel with Some c => bool_decide (pr_channel r = Some c) | None => false end
  | RBranch => match pr_branch_id r with None => true | Some b => bool_decide (branch_id = Some b) end
  end.

(** [None]: the dish is not there ([ValueError]); a dish may have no price. *)
Definition resolve_dish_price (dish_id at_ : Z) (channel : option string) (branch_id : option Z)
    : CM (option (option Z)) :=
  found ← gets (λ s, get_row dish_id (cart_dishes s));
  match found with
  | None => mret None
  | Some dish =>
      rules ← gets (λ s, sort_by (λ a b, pr_id a <=? pr_id b) (all_where (λ r, pr_dish_id r =? dish_id) (price_rules s)));
      mret (Some (match List.find (λ r, _rule_matches r at_ channel branch_id) rules with
                  | Some r => Some (pr_price_aed r)
                  | None => cd_price_aed dish
                  end))
  end.

Definition create_price_rule (restaurant_id dish_id : Z) (type : string) (price_aed : Z)
    (start_time end_time : option Z) (days_of_week : option (list Z)) (channel : option string)
    (branch_id : option Z) : CM DishPriceRule :=
  match (if type =s "time" then Some RTime else if type =s "channel" then Some RChannel
         else if type =s "branch" then Some RBranch else None) with
  | None => raise UnknownRuleType
  | Some ty =>
      t ← gets price_rules;
      let r := {| pr_id := next_id t; pr_restaurant_id := restaurant_id; pr_dish_id := dish_id; pr_rule_type := ty;
        pr_start_time := start_time; pr_end_time := end_time; pr_days_of_week := days_of_week;
        pr_channel := channel; pr_branch_id := branch_id; pr_price_aed := price_aed |} in
      modify (with_price_rules (add_row r t)) ≫= λ _, mret r
  end.
Definition rule_type_value (ty : rule_type) : string :=
  match ty with RTime => "time" | RChannel => "channel" | RBranch => "branch" end.
Definition delete_price_rule (restaurant_id dish_id rule_id : Z) : CM unit :=
  found ← gets (λ s, get_row rule_id (price_rules s));
  match found with
  | None => raise PriceRuleNotFound
  | Some r =>
      if negb ((pr_restaurant_id r =? restaurant_id) && (pr_dish_id r =? dish_id)) then raise PriceRuleNotFound else
      _ ← audit "manager" restaurant_id "price_rule" (pretty rule_id) "deleted"
            (Some [("rule_type", JStr (rule_type_value (pr_rule_type r))); ("price_aed", JStr (str_cents (pr_price_aed r)));
                   ("channel", jopt_str (pr_channel r))]%string) None;
      modify (λ s, with_price_rules (del_row rule_id (price_rules s)) s)
  end.

(** A serving size: its name and price. *)
Record Variant := { va_name : option string; va_price_aed : Z }.
Definition _effective_unit_price (dish : CartDish) (variant : option Variant) : option Z :=
  match variant with
  | Some v => Some (va_price_aed v)
  | None =>
      match cd_sale_price_aed dish with
      | Some sale =>
          if (0 <? sale) && match cd_price_aed dish with None => true | Some base => sale <? base end
          then Some sale else cd_price_aed dish
      | None => cd_price_aed dish
      end
  end.

(** ** Modifiers *)

Definition picked (selected : list Z) (m : Modifier) : bool := existsb (Z.eqb (mo_id m)) selected.
Definition group_choices (selected : list Z) (g : ModifierGroup) (s : cart_db) : Z :=
  Z.of_nat (length (all_where (λ m, (mo_group_id m =? mg_id g) && picked selected m) (modifiers s))).
Definition group_refused (selected : list Z) (s : cart_db) (g : ModifierGroup) : bool :=
  let min_req := if mg_required g && (mg_min_select g <? 1) then 1 else mg_min_select g in
  let chosen := group_choices selected g s in
  (chosen <? min_req) || (mg_max_select g <? chosen).
Definition validate_forced_modifiers (dish_id : Z) (selected : list Z) : CM unit :=
  s ← gets id;
  match List.find (group_refused selected s) (all_where (λ g, mg_dish_id g =? dish_id) (modifier_groups s)) with
  | Some g => raise (ForcedModifier (mg_name g))
  | None => mret tt
  end.

(** ** Lines *)

(** Totals over every line of the order, cancelled or not. *)
Definition recompute_cart (order_id : Z) : CM unit :=
  found ← gets (λ s, get_row order_id (cart_orders s));
  match found with
  | None => mret tt
  | Some o =>
      subtotal ← gets (λ s, zsum line_amount (lines_on order_id s));
      update_order (with_totals subtotal (subtotal + co_delivery_fee_aed o) o)
  end.

Record item_request := {
  ir_qty : Z;
  ir_notes : option string;
  ir_variant : option Variant;
  ir_price_override : option Z;
  ir_course_number : Z;
  ir_course_held : bool;
  ir_is_takeaway : bool;
  ir_modifier_ids : list Z;
  ir_skip_validation : bool;
}.

(** The price of the dish itself, before modifiers. *)
Definition item_price (o : CartOrder) (dish : CartDish) (r : item_request) : CM (option Z) :=
  match ir_price_override r, ir_variant r with
  | Some p, None => mret (Some p)
  | _, Some v => mret (_effective_unit_price dish (Some v))
  | None, None =>
      now ← gets cart_now;
      let channel := (if truthy (co_order_type o) then co_order_type o else "delivery")%string in
      resolved ← resolve_dish_price (cd_id dish) now (Some channel) (Some (co_restaurant_id o));
      mret (match resolved with
            | None => _effective_unit_price dish None
            | Some p =>
                match cd_sale_price_aed dish, cd_price_aed dish with
                | Some sale, Some base =>
                    if bool_decide (p = Some base) && (0 <? sale) && (sale <? base) then Some sale else p
                | _, _ => p
                end
            end)
  end.

(** The line an added item folds into. *)
Definition same_line (order_id dish_id : Z) (r : item_request) (l : Line) : bool :=
  (ln_order_id l =? order_id) && (ln_dish_id l =? dish_id) &&
  bool_decide (ln_variant_name l = (ir_variant r ≫= va_name)) &&
  (ln_course_number l =? ir_course_number r) && Bool.eqb (ln_is_takeaway l) (ir_is_takeaway r) &&
  (if otruthy (ir_notes r) then bool_decide (ln_notes l = ir_notes r) else bool_decide (ln_notes l = None)) &&
  negb (ln_cancelled l).

(** The item countdown of the dish. *)
Definition count_down (dish : CartDish) (qty : Z) : CM unit :=
  match cd_stock_remaining dish with
  | None => mret tt
  | Some remaining =>
      let left := Z.max 0 (remaining - qty) in
      modify (λ s, with_cart_dishes (set_row (with_countdown (Some left)
        (if (left <=? 0) && cd_auto_hide_when_oos dish then false else cd_is_available dish) dish) (cart_dishes s)) s)
  end.

Definition new_line (o : CartOrder) (dish : CartDish) (r : item_request) (mods : list Modifier) (price id : Z) : Line := {|
  ln_id := id; ln_order_id := co_id o; ln_dish_id := cd_id dish; ln_dish_number := cd_dish_number dish;
  ln_dish_name := cd_name dish; ln_variant_name := ir_variant r ≫= va_name; ln_price_aed := price;
  ln_qty := ir_qty r; ln_notes := ir_notes r; ln_cancelled := false; ln_cancelled_reason := None;
  ln_merged_from_order_id := None;
  ln_selected_modifiers := (λ m, (mo_id m, mo_name m, mo_price_delta_aed m)) <$> mods;
  ln_seat_number := None; ln_course_number := ir_course_number r; ln_course_held := ir_course_held r;
  ln_fired_at := None; ln_is_takeaway := ir_is_takeaway r; ln_allergens_snapshot := cd_allergens dish;
  ln_station_id_snapshot := None |}.
(** The line that takes the item: an equal one, or a new one. *)
Definition place_item (o : CartOrder) (dish : CartDish) (r : item_request) (mods : list Modifier)
    (unit_price : option Z) : CM Line :=
  existing ← gets (λ s, first_where (same_line (co_id o) (cd_id dish) r) (cart_lines s));
  match existing with
  | Some l =>
      let l' := with_qty (ln_qty l + ir_qty r) l in
      let l' := if otruthy (ir_notes r) then with_notes (ir_notes r) l' else l' in
      update_line l' ≫= λ _, mret l'
  | None =>
      match unit_price with
      | None => raise PriceMissing
      | Some price => add_line (new_line o dish r mods price)
      end
  end.
Definition add_item (o : CartOrder) (dish : CartDish) (r : item_request) : CM Line :=
  (if ir_skip_validation r then mret tt else validate_forced_modifiers (cd_id dish) (ir_modifier_ids r)) ≫= λ _,
  base ← item_price o dish r;
  mods ← gets (λ s, match ir_modifier_ids r with [] => [] | ids => all_where (picked ids) (modifiers s) end);
  (match base, ir_modifier_ids r with None, _ :: _ => raise PriceMissing | _, _ => mret tt end) ≫= λ _,
  item ← place_item o dish r mods ((λ b, b + zsum mo_price_delta_aed mods) <$> base);
  count_down dish (ir_qty r) ≫= λ _,
  recompute_cart (co_id o) ≫= λ _,
  mret item.

(** Units taken from the lines, newest first. *)
Fixpoint take_units (items : list Line) (remaining removed : Z) : CM Z :=
  match items with
  | [] => mret removed
  | l :: items' =>
      if remaining <=? 0 then mret removed else
      let take := Z.min (ln_qty l) remaining in
      (if ln_qty l - take <=? 0 then delete_line l else update_line (with_qty (ln_qty l - take) l)) ≫= λ _,
      take_units items' (remaining - take) (removed + take)
  end.
Definition dish_lines (order_id dish_id : Z) (s : cart_db) : list Line :=
  all_where (λ l, (ln_order_id l =? order_id) && (ln_dish_id l =? dish_id)) (cart_lines s).
Definition remove_item (order_id dish_id qty : Z) : CM Z :=
  items ← gets (λ s, sort_by (λ a b, ln_id b <=? ln_id a) (dish_lines order_id dish_id s));
  removed ← take_units items (Z.max 0 qty) 0;
  if removed =? 0 then mret 0 else
  recompute_cart order_id ≫= λ _, mret removed.

Definition noted (l : Line) : bool := truthy (strip (default "" (ln_notes l))).
Definition delete_others (survivor : Z) (items : list Line) : CM unit :=
  for_each (λ l, if ln_id l =? survivor then mret tt else delete_line l) items.
Definition set_item_qty (order_id dish_id qty : Z) (variant_name : option string) : CM (option Line) :=
  items ← gets (λ s, sort_by (λ a b, ln_id a <=? ln_id b)
    (List.filter (λ l, match variant_name with Some v => bool_decide (ln_variant_name l = Some v) | None => true end)
      (dish_lines order_id dish_id s)));
  match items with
  | [] => mret None
  | first :: _ =>
      survivor ← (if qty <=? 0 then for_each delete_line items ≫= λ _, mret None
                  else
                    let kept := default first (List.find noted items) in
                    update_line (with_qty qty kept) ≫= λ _,
                    delete_others (ln_id kept) items ≫= λ _, mret (Some (with_qty qty kept)));
      recompute_cart order_id ≫= λ _, mret survivor
  end.

Definition set_item_note (order_id dish_id : Z) (notes : string) (qty : option Z) : CM (option Line) :=
  let clean_notes := strip notes in
  if negb (truthy clean_notes) then mret None else
  items ← gets (λ s, sort_by (λ a b, ln_id a <=? ln_id b) (dish_lines order_id dish_id s));
  match items with
  | [] => mret None
  | first :: _ =>
      let kept := default first (List.find (λ l, strip (default "" (ln_notes l)) =s clean_notes) items) in
      let survivor := with_qty (match qty with Some q => Z.max 1 q | None => zsum ln_qty items end)
                        (with_notes (Some clean_notes) kept) in
      update_line survivor ≫= λ _,
      delete_others (ln_id kept) items ≫= λ _,
      recompute_cart order_id ≫= λ _, mret (Some survivor)
  end.
