(* ===== verification/CartFacts.v ===== *)
(** * Correctness of the cart

    An order number parses back to its sequence and is fresh at the first attempt; the
    totals of an order are its lines' after every operation; removing and setting
    quantities; where the code departs from its intention. *)

From Stdlib Require Import Ascii Decimal DecimalString DecimalN.
From S2P Require Import Prelude Money Strings Db AuditTrail Clock Decimals OrderFsm CartDb Carts.

(** ** Numbers read back *)

Definition is_digit (c : ascii) : bool := let n := nat_of_ascii c in (48 <=? n)%nat && (n <=? 57)%nat.
Fixpoint all_digits (s : string) : bool :=
  match s with EmptyString => true | String c s' => is_digit c && all_digits s' end.

Lemma all_digits_app s1 s2 : all_digits (s1 +:+ s2) = all_digits s1 && all_digits s2.
Proof. induction s1 as [|c s1 IH]; [done|]. rewrite app_cons_string. cbn. rewrite IH. by rewrite andb_assoc. Qed.
Lemma uint_digits d : all_digits (NilEmpty.string_of_uint d) = true.
Proof. induction d; cbn; auto. Qed.
Lemma show_nat_digits n : all_digits (show_nat n) = true.
Proof. unfold show_nat, NilZero.string_of_uint. destruct (N.to_uint n); [done|apply uint_digits..]. Qed.
Lemma pad_digits k n : all_digits (pad k n) = true.
Proof.
  unfold pad. rewrite all_digits_app, show_nat_digits, andb_true_r.
  induction (k - String.length (show_nat n))%nat; cbn; auto.
Qed.
Lemma pad_nonempty k n : pad k n ≠ EmptyString.
Proof. unfold pad. apply zeros_app_nonempty, show_nat_nonempty. Qed.

Ltac digit_char c := destruct c as [[] [] [] [] [] [] [] []]; try discriminate; try reflexivity.

Lemma digits_drop_underscores s b : all_digits s = true → s ≠ EmptyString → drop_underscores s b = Some s.
Proof.
  revert b. induction s as [|c s IH]; intros b Hd Hne; [done|]. cbn in *. apply andb_true_iff in Hd as [Hc Hd].
  assert (Ascii.eqb c "_" = false) as ->. by digit_char c.
  destruct s as [|c' s]; [done|]. by rewrite IH.
Qed.
Lemma digits_lstrip s : all_digits s = true → lstrip s = s.
Proof.
  destruct s as [|c s]; [done|]. cbn. intros [Hc _]%andb_true_iff.
  assert (is_space c = false) as ->; [|done]. digit_char c; done.
Qed.
Lemma all_digits_rev s : all_digits (String.rev s) = all_digits s.
Proof.
  assert (∀ s t, all_digits (String.rev_app s t) = all_digits s && all_digits t) as Hgen.
  { clear. induction s as [|c s IH]; intros t; cbn; [done|]. rewrite IH. cbn. destruct (is_digit c), (all_digits s); done. }
  unfold String.rev. rewrite Hgen. cbn. by rewrite andb_true_r.
Qed.
Lemma string_rev_rev s : String.rev (String.rev s) = s.
Proof.
  assert (∀ s t u, String.rev_app (String.rev_app s t) u = String.rev_app t (s +:+ u)) as Hgen.
  { clear. induction s as [|c s IH]; intros t u; [done|]. rewrite app_cons_string. cbn. by rewrite IH. }
  unfold String.rev. rewrite Hgen. cbn. induction s as [|c s IH]; [done|]. by rewrite app_cons_string, IH.
Qed.
Lemma digits_strip s : all_digits s = true → strip s = s.
Proof.
  intros Hd. unfold strip, rstrip. rewrite (digits_lstrip s) by done.
  rewrite digits_lstrip by by rewrite all_digits_rev. apply string_rev_rev.
Qed.

Lemma digits_py_int s : all_digits s = true → s ≠ EmptyString → py_int s = Z.of_N <$> read_digits s.
Proof.
  intros Hd Hne. unfold py_int. rewrite digits_strip by done.
  destruct s as [|c s]; [done|]. pose proof Hd as Hd'. cbn in Hd'. apply andb_true_iff in Hd' as [Hc _].
  assert (Ascii.eqb c "-" = false ∧ Ascii.eqb c "+" = false) as [-> ->] by (split; digit_char c).
  rewrite digits_drop_underscores by done. cbn. by destruct (read_digits (String c s)).
Qed.

Fixpoint has_dash (s : string) : bool :=
  match s with EmptyString => false | String c s' => Ascii.eqb c "-" || has_dash s' end.
Lemma digits_no_dash s : all_digits s = true → has_dash s = false.
Proof.
  induction s as [|c s IH]; [done|]. cbn. intros [Hc Hd]%andb_true_iff. rewrite IH by done.
  rewrite orb_false_r. digit_char c.
Qed.
Lemma after_last_dash_cons c s :
  after_last_dash (String c s) =
    if has_dash s then after_last_dash s else if Ascii.eqb c "-" then s else String c s.
Proof. done. Qed.
Lemma has_dash_app s1 s2 : has_dash (s1 +:+ s2) = has_dash s1 || has_dash s2.
Proof. induction s1 as [|c s1 IH]; [done|]. rewrite app_cons_string. cbn. rewrite IH. by rewrite orb_assoc. Qed.
Lemma after_last_dash_app p s : has_dash s = false → after_last_dash (p +:+ "-" +:+ s) = s.
Proof.
  intros Hs. induction p as [|c p IH].
  - change ("" +:+ "-" +:+ s) with (String "-" s). rewrite after_last_dash_cons, Hs. done.
  - change (String c p +:+ "-" +:+ s) with (String c (p +:+ "-" +:+ s)).
    rewrite after_last_dash_cons, has_dash_app. cbn. by rewrite orb_true_r.
Qed.

(** The number of an order parses back to its sequence. *)
Lemma order_seq_read rid n : 0 ≤ n → order_seq (order_number_of rid n) = Some n.
Proof.
  intros Hn. unfold order_seq, order_number_of.
  rewrite (app_assoc_string "R").
  rewrite after_last_dash_app by apply digits_no_dash, pad_digits.
  rewrite digits_py_int by (apply pad_digits || apply pad_nonempty). rewrite read_pad. cbn. f_equal. lia.
Qed.

Lemma fold_seq_ge (l : list string) m :
  m ≤ fold_left (λ m number, match order_seq number with Some n => Z.max m n | None => m end) l m ∧
  ∀ x n, x ∈ l → order_seq x = Some n →
    n ≤ fold_left (λ m number, match order_seq number with Some n => Z.max m n | None => m end) l m.
Proof.
  revert m. induction l as [|y l IH]; intros m; cbn; [split; [lia|set_solver]|].
  destruct (IH (match order_seq y with Some n => Z.max m n | None => m end)) as [Hm Hl]. split.
  - destruct (order_seq y); lia.
  - intros x n [->|Hx]%elem_of_cons Hn; [|eauto]. rewrite Hn in *. lia.
Qed.

Lemma next_order_seq_fresh rid t o n :
  o ∈ rows t → co_restaurant_id o = rid → order_seq (co_order_number o) = Some n → n < _next_order_seq rid t.
Proof.
  intros Ho Hr Hn. unfold _next_order_seq.
  destruct (fold_seq_ge (co_order_number <$> all_where (λ o, co_restaurant_id o =? rid) t) 0) as [_ Hl].
  enough (n ≤ _) by (eapply Z.le_lt_trans; [eassumption|apply Z.lt_add_pos_r; lia]).
  eapply Hl; [|done]. apply list_elem_of_fmap. exists o. split; [done|]. apply elem_of_all_where.
  split; [done|]. by apply Z.eqb_eq.
Qed.
Lemma next_order_seq_pos rid t : 0 < _next_order_seq rid t.
Proof.
  unfold _next_order_seq. pose proof (proj1 (fold_seq_ge (co_order_number <$> all_where (λ o, co_restaurant_id o =? rid) t) 0)).
  lia.
Qed.

Lemma next_number_free rid t : order_number_taken rid (order_number_of rid (_next_order_seq rid t)) t = false.
Proof.
  unfold order_number_taken. destruct (first_where _ t) as [o|] eqn:Hf; [|done]. exfalso.
  apply first_where_Some in Hf as [Ho Hp]. zbool.
  pose proof (next_order_seq_pos rid t) as Hpos.
  assert (order_seq (co_order_number o) = Some (_next_order_seq rid t)) as Hs.
  { rewrite H0. apply order_seq_read. lia. }
  pose proof (next_order_seq_fresh rid t o _ Ho ltac:(done) Hs). lia.
Qed.

Definition next_draft (rid cid : Z) (s : cart_db) : CartOrder :=
  draft_order (next_id (cart_orders s)) rid cid (order_number_of rid (_next_order_seq rid (cart_orders s))) (cart_now s).
Lemma create_draft_run rid cid s :
  create_draft_order rid cid s = Ok (next_draft rid cid s) (with_cart_orders (add_row (next_draft rid cid s) (cart_orders s)) s).
Proof.
  unfold create_draft_order. erewrite bind_run_Ok by reflexivity. cbn [allocate_order].
  do 2 (erewrite bind_run_Ok by reflexivity; cbv beta zeta). by rewrite next_number_free.
Qed.

(** An order number reads back and is fresh.  Opening a draft always succeeds at the
    first of its five attempts, whatever numbers the restaurant's orders carry: the
    draft's number parses back to the sequence it was made from, which is above every
    sequence in use, so no other order of the restaurant carries it. *)
Theorem draft_number_reads_back rid cid s :
  let n := _next_order_seq rid (cart_orders s) in
  let o := next_draft rid cid s in
  create_draft_order rid cid s = Ok o (with_cart_orders (add_row o (cart_orders s)) s) ∧
  order_seq (co_order_number o) = Some n ∧
  (∀ o' m, o' ∈ rows (cart_orders s) → co_restaurant_id o' = rid → order_seq (co_order_number o') = Some m → m < n) ∧
  (∀ o', o' ∈ rows (cart_orders s) → co_restaurant_id o' = rid → co_order_number o' ≠ co_order_number o).
Proof.
  intros n o. pose proof (next_order_seq_pos rid (cart_orders s)) as Hpos.
  assert (Hseq : order_seq (co_order_number o) = Some n) by (apply order_seq_read; lia).
  split_and!; [apply create_draft_run|done|intros o' m; apply next_order_seq_fresh|].
  intros o' Ho' Hr Heq. rewrite <-Heq in Hseq.
  pose proof (next_order_seq_fresh rid _ o' n Ho' Hr Hseq). lia.
Qed.

(** ** Units of a dish *)

Definition on_dish (oid did : Z) (l : Line) : bool := (ln_order_id l =? oid) && (ln_dish_id l =? did).
(** How many of a dish an order holds. *)
Definition units (oid : Z) (s : cart_db) (did : Z) : Z := sum_where (on_dish oid did) ln_qty (cart_lines s).

Lemma units_zsum oid s did : units oid s did = zsum ln_qty (dish_lines oid did s).
Proof. apply sum_where_all. Qed.

(** An operation on the lines of one dish of one order. *)
Record touches (oid did : Z) (t t' : table Line) : Prop := {
  to_wf : table_wf t';
  to_other : ∀ l, on_dish oid did l = false → l ∈ rows t' ↔ l ∈ rows t;
  to_pos : ∀ l, l ∈ rows t' → on_dish oid did l = true → 1 ≤ ln_qty l;
}.
Definition positive (oid : Z) (t : table Line) : Prop := ∀ l, l ∈ rows t → ln_order_id l = oid → 1 ≤ ln_qty l.

Lemma on_dish_true oid did l : on_dish oid did l = true ↔ ln_order_id l = oid ∧ ln_dish_id l = did.
Proof. unfold on_dish. by rewrite andb_true_iff, !Z.eqb_eq. Qed.

Lemma touches_refl oid did t : table_wf t → positive oid t → touches oid did t t.
Proof. intros Hwf Hpos. split; [done..|]. intros l Hl [? _]%on_dish_true. by apply Hpos. Qed.
Lemma touches_trans oid did t1 t2 t3 : touches oid did t1 t2 → touches oid did t2 t3 → touches oid did t1 t3.
Proof. intros H1 H2. split; [apply H2| |apply H2]. intros l Hl. rewrite (to_other _ _ _ _ H2), (to_other _ _ _ _ H1); done. Qed.
Lemma touches_units oid did t t' d :
  table_wf t → touches oid did t t' → d ≠ did → sum_where (on_dish oid d) ln_qty t' = sum_where (on_dish oid d) ln_qty t.
Proof.
  intros Hwf H Hd. apply sum_where_same; [apply H|done|]. intros l [Ho Hl]%on_dish_true. apply (to_other _ _ _ _ H).
  apply not_true_iff_false. rewrite on_dish_true. naive_solver.
Qed.
Lemma touches_positive oid did t t' : positive oid t → touches oid did t t' → positive oid t'.
Proof.
  intros Hpos H l Hl Ho. destruct (on_dish oid did l) eqn:Hd; [by apply (to_pos _ _ _ _ H)|].
  apply Hpos; [|done]. by apply (to_other _ _ _ _ H).
Qed.

Lemma touches_set oid did t l l' :
  table_wf t → positive oid t → l ∈ rows t → on_dish oid did l = true → ln_id l' = ln_id l →
  ln_order_id l' = oid → ln_dish_id l' = did → 1 ≤ ln_qty l' →
  touches oid did t (set_row l' t) ∧
  sum_where (on_dish oid did) ln_qty (set_row l' t) = sum_where (on_dish oid did) ln_qty t - ln_qty l + ln_qty l'.
Proof.
  intros Hwf Hpos Hl Hd Hid Ho Hdi Hq.
  assert (Hd' : on_dish oid did l' = true) by by apply on_dish_true.
  split.
  - split; [by apply set_row_wf| |].
    + intros x Hx. split.
      * intros Hin. apply elem_of_set_row in Hin as [[-> _]|[? _]]; [congruence|done].
      * intros Hin. pose proof (elem_of_set_row_2 l' x t Hin) as H. change (row_id l') with (ln_id l') in H.
        change (row_id x) with (ln_id x) in H. destruct (ln_id x =? ln_id l') eqn:E; [|done]. zbool.
        rewrite (wf_unique _ Hwf x l Hin Hl) in Hx; [congruence|by rewrite Hid in E].
    + intros x Hin [Hxo _]%on_dish_true. apply elem_of_set_row in Hin as [[-> _]|[? _]]; [done|by apply Hpos].
  - rewrite (sum_where_set _ _ _ l) by done. by rewrite Hd, Hd'.
Qed.
Lemma touches_del oid did t l :
  table_wf t → positive oid t → l ∈ rows t → on_dish oid did l = true →
  touches oid did t (del_row (ln_id l) t) ∧
  sum_where (on_dish oid did) ln_qty (del_row (ln_id l) t) = sum_where (on_dish oid did) ln_qty t - ln_qty l.
Proof.
  intros Hwf Hpos Hl Hd. split.
  - split; [by apply del_row_wf| |].
    + intros x Hx. rewrite elem_of_del_row. split; [tauto|]. intros Hin. split; [done|]. intros Hid.
      rewrite (wf_unique _ Hwf x l) in Hx; [congruence|done..].
    + intros x [Hin _]%elem_of_del_row [Hxo _]%on_dish_true. by apply Hpos.
  - rewrite (sum_where_del _ _ _ l) by done. by rewrite Hd.
Qed.

Lemma stays_set t (l l' x : Line) :
  table_wf t → l ∈ rows t → ln_id l' = ln_id l → x ∈ rows t → x ≠ l → x ∈ rows (set_row l' t).
Proof.
  intros Hwf Hl Hid Hx Hne. pose proof (elem_of_set_row_2 l' x t Hx) as H.
  change (row_id l') with (ln_id l') in H. change (row_id x) with (ln_id x) in H.
  destruct (ln_id x =? ln_id l') eqn:E; [|done]. zbool. destruct Hne. apply (wf_unique _ Hwf); [done..|].
  by rewrite Hid in E.
Qed.
Lemma stays_del t (l x : Line) :
  table_wf t → l ∈ rows t → x ∈ rows t → x ≠ l → x ∈ rows (del_row (ln_id l) t).
Proof.
  intros Hwf Hl Hx Hne. apply elem_of_del_row. split; [done|]. intros Hid. destruct Hne. by apply (wf_unique _ Hwf).
Qed.

(** The session with other lines. *)
Definition lines_changed (t : table Line) (s : cart_db) : cart_db := with_cart_lines t s.

Lemma take_units_run oid did items remaining removed s :
  table_wf (cart_lines s) → positive oid (cart_lines s) → 0 ≤ remaining → NoDup items →
  (∀ l, l ∈ items → l ∈ rows (cart_lines s) ∧ on_dish oid did l = true) →
  ∃ t, take_units items remaining removed s = Ok (removed + Z.min remaining (zsum ln_qty items)) (with_cart_lines t s) ∧
    touches oid did (cart_lines s) t ∧
    sum_where (on_dish oid did) ln_qty t = sum_where (on_dish oid did) ln_qty (cart_lines s) - Z.min remaining (zsum ln_qty items) ∧
    (remaining = 0 ∨ items = [] → t = cart_lines s).
Proof.
  revert remaining removed s. induction items as [|l items IH]; intros remaining removed s Hwf Hpos Hrem Hnd Hin.
  { exists (cart_lines s). cbn. split_and!; [f_equal; [lia|by destruct s]|by apply touches_refl|lia|done]. }
  cbn [take_units]. destruct (Hin l) as [Hl Hd]; [set_solver|]. pose proof Hd as [Ho Hdi]%on_dish_true.
  pose proof (Hpos l Hl Ho) as Hq.
  assert (0 ≤ zsum ln_qty items) as Hsum.
  { apply zsum_nonneg. intros x Hx. destruct (Hin x) as [Hxr [Hxo _]%on_dish_true]; [set_solver|].
    pose proof (Hpos x Hxr Hxo). lia. }
  apply NoDup_cons in Hnd as [Hnl Hnd]. cbn [zsum]. destruct (remaining <=? 0) eqn:Hr0; zbool.
  { exists (cart_lines s). split_and!; [unfold mret, M_ret; f_equal; [lia|by destruct s]|by apply touches_refl|lia|done]. }
  set (take := Z.min (ln_qty l) remaining).
  assert (∃ t1, (if ln_qty l - take <=? 0 then delete_line l else update_line (with_qty (ln_qty l - take) l)) s
            = Ok tt (with_cart_lines t1 s) ∧ touches oid did (cart_lines s) t1 ∧
          sum_where (on_dish oid did) ln_qty t1 = sum_where (on_dish oid did) ln_qty (cart_lines s) - take ∧
          (∀ x, x ∈ items → x ∈ rows t1)) as (t1 & Hrun & Ht1 & Hs1 & Hstay).
  { destruct (ln_qty l - take <=? 0) eqn:E; zbool.
    - destruct (touches_del oid did (cart_lines s) l) as [H1 H2]; [done..|]. eexists. split; [reflexivity|].
      split_and!; [done|rewrite H2; lia|]. intros x Hx. apply stays_del; [done..|apply Hin; set_solver|set_solver].
    - destruct (touches_set oid did (cart_lines s) l (with_qty (ln_qty l - take) l)) as [H1 H2]; [done..|cbn; lia|].
      eexists. split; [reflexivity|]. split_and!; [done|rewrite H2; cbn; lia|].
      intros x Hx. apply (stays_set _ l); [done..|apply Hin; set_solver|set_solver]. }
  destruct (IH (remaining - take) (removed + take) (with_cart_lines t1 s)) as (t2 & Hrun2 & Ht2 & Hs2 & _).
  - apply Ht1.
  - by eapply touches_positive.
  - lia.
  - done.
  - intros x Hx. split; [by apply Hstay|]. apply Hin. set_solver.
  - exists t2. rewrite (bind_run_Ok _ _ _ _ _ Hrun), Hrun2. split_and!.
    + f_equal. lia.
    + by eapply touches_trans.
    + cbn [cart_lines with_cart_lines] in Hs2. rewrite Hs2, Hs1. lia.
    + intros [?|?]; [lia|done].
Qed.

(** Deleting the lines that are not kept. *)
Lemma delete_lines_run oid did (keep : Line → bool) items s :
  table_wf (cart_lines s) → positive oid (cart_lines s) → NoDup items →
  (∀ l, l ∈ items → keep l = false → l ∈ rows (cart_lines s) ∧ on_dish oid did l = true) →
  ∃ t, for_each (λ l, if keep l then mret tt else delete_line l) items s = Ok tt (with_cart_lines t s) ∧
    touches oid did (cart_lines s) t ∧
    sum_where (on_dish oid did) ln_qty t =
      sum_where (on_dish oid did) ln_qty (cart_lines s) - zsum (λ l, if keep l then 0 else ln_qty l) items.
Proof.
  revert s. induction items as [|l items IH]; intros s Hwf Hpos Hnd Hin; cbn [for_each].
  { exists (cart_lines s). cbn. split_and!; [by destruct s|by apply touches_refl|lia]. }
  apply NoDup_cons in Hnd as [Hnl Hnd]. cbn [zsum]. destruct (keep l) eqn:Hk.
  - destruct (IH s) as (t & Hrun & Ht & Hs); [done..|set_solver|]. exists t.
    erewrite bind_run_Ok by reflexivity. split_and!; [done|done|lia].
  - destruct (Hin l) as [Hl Hd]; [set_solver|done|].
    destruct (touches_del oid did (cart_lines s) l) as [H1 H2]; [done..|].
    destruct (IH (with_cart_lines (del_row (ln_id l) (cart_lines s)) s)) as (t & Hrun & Ht & Hs).
    + apply H1.
    + by eapply touches_positive.
    + done.
    + intros x Hx Hkx. destruct (Hin x) as [Hxr Hxd]; [set_solver|done|]. split; [|done]. apply stays_del; [done..|set_solver].
    + exists t. erewrite bind_run_Ok by reflexivity. split_and!; [exact Hrun|by eapply touches_trans|].
      cbn [cart_lines with_cart_lines] in Hs. lia.
Qed.

(** ** Operations on a cart *)

Definition of_order (oid : Z) (l : Line) : bool := ln_order_id l =? oid.
(** The order's totals are those of its lines. *)
Definition in_sync (oid : Z) (s : cart_db) : Prop := ∃ o, get_row oid (cart_orders s) = Some o ∧
  co_subtotal o = sum_where (of_order oid) line_amount (cart_lines s) ∧ co_total o = co_subtotal o + co_delivery_fee_aed o.

Record cart_ok (oid : Z) (s : cart_db) : Prop := {
  ck_lines : table_wf (cart_lines s);
  ck_orders : table_wf (cart_orders s);
  ck_positive : positive oid (cart_lines s);
  ck_order : is_Some (get_row oid (cart_orders s));
}.

Lemma get_update_order i o s :
  is_Some (get_row (co_id o) (cart_orders s)) →
  ∃ o', get_row i (cart_orders (final (update_order o s))) =
      (if i =? co_id o then Some o' else get_row i (cart_orders s)) ∧
    co_subtotal o' = co_subtotal o ∧ co_total o' = co_total o ∧ co_delivery_fee_aed o' = co_delivery_fee_aed o ∧
    co_restaurant_id o' = co_restaurant_id o ∧ co_status o' = co_status o ∧ co_id o' = co_id o.
Proof.
  intros [o0 Ho0]. unfold update_order, modify. cbn [final cart_orders with_cart_orders].
  set (o' := if _ : bool then with_updated (cart_now s) o else o).
  assert (co_id o' = co_id o ∧ co_subtotal o' = co_subtotal o ∧ co_total o' = co_total o ∧
    co_delivery_fee_aed o' = co_delivery_fee_aed o ∧ co_restaurant_id o' = co_restaurant_id o ∧ co_status o' = co_status o)
    as (Hid & ? & ? & ? & ? & ?).
  { unfold o'. by destruct (match _ with Some _ => _ | None => _ end). }
  clearbody o'. exists o'. split; [|done]. destruct (i =? co_id o) eqn:E; zbool.
  - subst i. by apply (get_row_set_eq _ _ o0).
  - apply get_row_set_ne. change (row_id o') with (co_id o'). congruence.
Qed.
Lemma cart_update_order_run o s : update_order o s = Ok tt (final (update_order o s)).
Proof. done. Qed.
Lemma update_order_lines o s : cart_lines (final (update_order o s)) = cart_lines s.
Proof. done. Qed.

Lemma recompute_cart_run oid s :
  table_wf (cart_orders s) → is_Some (get_row oid (cart_orders s)) →
  ∃ s', recompute_cart oid s = Ok tt s' ∧ cart_lines s' = cart_lines s ∧ table_wf (cart_orders s') ∧ in_sync oid s'.
Proof.
  intros Hwf [o Ho]. unfold recompute_cart. erewrite bind_run_Ok by reflexivity. rewrite Ho.
  erewrite bind_run_Ok by reflexivity. cbv beta. rewrite cart_update_order_run. eexists. split; [reflexivity|].
  assert (Hid : co_id o = oid) by (apply get_row_Some in Ho as [_ Ho]; exact Ho).
  split_and!; [done|by apply set_row_wf|]. unfold in_sync. rewrite update_order_lines.
  destruct (get_update_order oid (with_totals (zsum line_amount (lines_on oid s))
    (zsum line_amount (lines_on oid s) + co_delivery_fee_aed o) o) s) as (o' & Hg & Hs & Ht & Hf & _); [cbn; rewrite Hid, Ho; eauto|].
  change (co_id (with_totals _ _ o)) with (co_id o) in Hg. rewrite Hid, Z.eqb_refl in Hg. exists o'. split; [done|].
  cbn in Hs, Ht, Hf.
  rewrite Hs, Ht, Hf. split; [|done]. by rewrite sum_where_all.
Qed.

(** What an operation on the lines of dish [did] leaves: [u] units of it. *)
Record cart_effect (oid did : Z) (u : Z) (s s' : cart_db) : Prop := {
  ce_touches : touches oid did (cart_lines s) (cart_lines s');
  ce_units : units oid s' did = u;
  ce_orders : table_wf (cart_orders s');
  ce_sync : in_sync oid s → in_sync oid s';
  ce_there : is_Some (get_row oid (cart_orders s'));
}.

Lemma in_sync_there oid s : in_sync oid s → is_Some (get_row oid (cart_orders s)).
Proof. intros (o & -> & _). done. Qed.

(** The usual end of an operation: the lines changed, the totals are recomputed. *)
Lemma recompute_effect oid did u s s1 :
  cart_ok oid s → touches oid did (cart_lines s) (cart_lines s1) → units oid s1 did = u → cart_orders s1 = cart_orders s →
  ∃ s', recompute_cart oid s1 = Ok tt s' ∧ cart_effect oid did u s s'.
Proof.
  intros [Hl Ho Hp Hs] Ht Hu Heq.
  destruct (recompute_cart_run oid s1) as (s' & Hrun & Hlines & Hwf & Hsync); [by rewrite Heq..|].
  exists s'. split; [done|]. split; [by rewrite Hlines|unfold units in *; by rewrite Hlines|done|done|by apply in_sync_there].
Qed.

Lemma dish_lines_spec oid did s l : l ∈ dish_lines oid did s ↔ l ∈ rows (cart_lines s) ∧ on_dish oid did l = true.
Proof. apply elem_of_all_where. Qed.
Lemma dish_lines_NoDup oid did s : table_wf (cart_lines s) → NoDup (dish_lines oid did s).
Proof. intros Hwf. apply NoDup_ListNoDup, List.NoDup_filter, NoDup_ListNoDup, Hwf. Qed.

Lemma positive_sum_nil {A} (f : A → Z) (l : list A) : (∀ x, x ∈ l → 1 ≤ f x) → zsum f l ≤ 0 → l = [].
Proof.
  destruct l as [|y l]; [done|]. cbn. intros Hf Hsum. pose proof (Hf y ltac:(set_solver)).
  assert (0 ≤ zsum f l) by (apply zsum_nonneg; intros x Hx; pose proof (Hf x ltac:(set_solver)); lia). lia.
Qed.

Lemma remove_item_effect oid did qty s :
  cart_ok oid s →
  let u := units oid s did in
  ∃ s', remove_item oid did qty s = Ok (Z.min (Z.max 0 qty) u) s' ∧
    cart_effect oid did (u - Z.min (Z.max 0 qty) u) s s'.
Proof.
  intros Hok u. pose proof Hok as [Hl Ho Hp Hs]. unfold remove_item. erewrite bind_run_Ok by reflexivity. cbv beta.
  set (items := sort_by _ _).
  assert (Hperm : items ≡ₚ dish_lines oid did s) by apply sort_by_perm.
  assert (Hsum : zsum ln_qty items = u) by (unfold u; rewrite units_zsum; by apply zsum_Permutation).
  destruct (take_units_run oid did items (Z.max 0 qty) 0 s) as (t & Hrun & Ht & Hu & Hnone); [done..|lia| | |].
  { rewrite Hperm. by apply dish_lines_NoDup. }
  { intros l. rewrite Hperm. apply dish_lines_spec. }
  rewrite (bind_run_Ok _ _ _ _ _ Hrun). rewrite Hsum, !Z.add_0_l in *.
  destruct (Z.min (Z.max 0 qty) u =? 0) eqn:E; zbool.
  - exists (with_cart_lines t s). rewrite E. split; [done|].
    assert (t = cart_lines s) as ->.
    { apply Hnone. destruct (decide (Z.max 0 qty = 0)) as [|Hq]; [by left|right].
      apply (positive_sum_nil ln_qty); [|lia]. intros x Hx. rewrite Hperm, dish_lines_spec in Hx.
      destruct Hx as [Hx [Hxo _]%on_dish_true]. by apply Hp. }
    replace (with_cart_lines (cart_lines s) s) with s by by destruct s.
    split; [by apply touches_refl|unfold u; lia|done|done|done].
  - destruct (recompute_effect oid did (u - Z.min (Z.max 0 qty) u) s (with_cart_lines t s)) as (s' & Hrun2 & Heff);
      [done|done|exact Hu|done|].
    exists s'. rewrite (bind_run_Ok _ _ _ _ _ Hrun2). done.
Qed.

Lemma zsum_but_one {A} (key : A → Z) (f : A → Z) k (l : list A) :
  NoDup l → k ∈ l → (∀ x, x ∈ l → key x = key k → x = k) →
  zsum (λ x, if key x =? key k then 0 else f x) l = zsum f l - f k.
Proof.
  induction 1 as [|x l Hx Hl IH]; intros Hk Hu; [set_solver|]. cbn. destruct (key x =? key k) eqn:E; zbool.
  - assert (x = k) as -> by (apply Hu; [set_solver|done]).
    rewrite (zsum_ext _ f); [lia|]. intros y Hy. destruct (key y =? key k) eqn:Ey; [|done]. zbool.
    destruct Hx. by rewrite <-(Hu y) by set_solver.
  - apply elem_of_cons in Hk as [->|Hk]; [done|]. rewrite IH by set_solver. lia.
Qed.

(** The lines of the dish become one: the survivor, changed, and the others deleted. *)
Lemma fold_lines_run oid did kept survivor items s :
  cart_ok oid s → kept ∈ items → items ≡ₚ dish_lines oid did s → ln_id survivor = ln_id kept →
  ln_order_id survivor = oid → ln_dish_id survivor = did → 1 ≤ ln_qty survivor →
  ∃ t, (update_line survivor ≫= λ _, delete_others (ln_id kept) items) s = Ok tt (with_cart_lines t s) ∧
    touches oid did (cart_lines s) t ∧ sum_where (on_dish oid did) ln_qty t = ln_qty survivor.
Proof.
  intros [Hl Ho Hp Hs] Hk Hperm Hid Hso Hsd Hq.
  assert (Hin : ∀ l, l ∈ items → l ∈ rows (cart_lines s) ∧ on_dish oid did l = true)
    by (intros l; rewrite Hperm; apply dish_lines_spec).
  assert (Hnd : NoDup items) by (rewrite Hperm; by apply dish_lines_NoDup).
  destruct (Hin kept Hk) as [Hkr Hkd].
  destruct (touches_set oid did (cart_lines s) kept survivor) as [H1 H2]; [done..|].
  destruct (delete_lines_run oid did (λ l, ln_id l =? ln_id kept) items (with_cart_lines (set_row survivor (cart_lines s)) s))
    as (t & Hrun & Ht & Hu).
  - apply H1.
  - by eapply touches_positive.
  - done.
  - intros l Hli Hne. zbool. destruct (Hin l Hli) as [Hlr Hld]. split; [|done].
    apply (stays_set _ kept); [done..|congruence].
  - exists t. erewrite bind_run_Ok by reflexivity. split_and!; [exact Hrun|by eapply touches_trans|].
    cbn [cart_lines with_cart_lines] in Hu. rewrite Hu, H2.
    assert (Hsum : zsum (λ l, if ln_id l =? ln_id kept then 0 else ln_qty l) items = zsum ln_qty items - ln_qty kept).
    { clear Hrun Hu Ht t H2 H1. apply zsum_but_one; [done|done|].
      intros x Hx Heq. apply (wf_unique _ Hl); [by apply Hin|done|done]. }
    rewrite Hsum. pose proof (units_zsum oid s did) as Hun. unfold units in Hun.
    rewrite (zsum_Permutation _ _ _ Hperm). lia.
Qed.

Lemma set_item_qty_effect oid did qty s :
  cart_ok oid s →
  ∃ r s', set_item_qty oid did qty None s = Ok r s' ∧
    cart_effect oid did (if units oid s did =? 0 then 0 else Z.max 0 qty) s s'.
Proof.
  intros Hok. pose proof Hok as [Hl Ho Hp Hs]. unfold set_item_qty. erewrite bind_run_Ok by reflexivity. cbv beta.
  set (items := sort_by _ _).
  assert (Hperm : items ≡ₚ dish_lines oid did s).
  { unfold items. rewrite sort_by_perm. clear items. by induction (dish_lines oid did s) as [|x l IH]; cbn; [|rewrite IH]. }
  assert (Hin : ∀ l, l ∈ items → l ∈ rows (cart_lines s) ∧ on_dish oid did l = true)
    by (intros l; rewrite Hperm; apply dish_lines_spec).
  assert (Hsum : zsum ln_qty items = units oid s did) by (rewrite units_zsum; by apply zsum_Permutation).
  assert (Hnd : NoDup items) by (rewrite Hperm; by apply dish_lines_NoDup).
  clearbody items. destruct items as [|first items'].
  { exists None, s. cbn in Hsum. rewrite <-Hsum. cbn. split; [done|]. split; [by apply touches_refl|done..]. }
  assert (units oid s did =? 0 = false) as ->.
  { apply Z.eqb_neq. intros H0. assert (first :: items' = []) as [=]. apply (positive_sum_nil ln_qty); [|lia].
    intros x Hx. destruct (Hin x Hx) as [Hxr [Hxo _]%on_dish_true]. by apply Hp. }
  set (items := first :: items') in *. destruct (qty <=? 0) eqn:Hq; zbool.
  - destruct (delete_lines_run oid did (λ _, false) items s) as (t & Hrun & Ht & Hu); [done..|auto|].
    destruct (recompute_effect oid did 0 s (with_cart_lines t s)) as (s' & Hrun2 & Heff); [done|done| |done|].
    { etrans; [exact Hu|]. change (zsum _ items) with (zsum ln_qty items).
      fold (units oid s did). lia. }
    exists None, s'. rewrite (Z.max_l 0 qty) by lia. split; [|done].
    rewrite (bind_run_Ok _ _ _ None (with_cart_lines t s)); [|by rewrite (bind_run_Ok _ _ _ _ _ Hrun)].
    by rewrite (bind_run_Ok _ _ _ _ _ Hrun2).
  - set (kept := default first (List.find noted items)).
    assert (Hk : kept ∈ items).
    { unfold kept. destruct (List.find noted items) as [l|] eqn:Hf; cbn; [|set_solver]. by apply find_Some_in in Hf as [? _]. }
    destruct (Hin kept Hk) as [_ [Hko Hkd]%on_dish_true].
    destruct (fold_lines_run oid did kept (with_qty qty kept) items s) as (t & Hrun & Ht & Hu); [done..|cbn; lia|].
    destruct (recompute_effect oid did qty s (with_cart_lines t s)) as (s' & Hrun2 & Heff); [done|done|exact Hu|done|].
    exists (Some (with_qty qty kept)), s'. rewrite (Z.max_r 0 qty) by lia. split; [|done].
    rewrite (bind_run_Ok _ _ _ (Some (with_qty qty kept)) (with_cart_lines t s)).
    { by rewrite (bind_run_Ok _ _ _ _ _ Hrun2). }
    apply bind_Ok in Hrun as ([] & s1 & H1 & H2). rewrite (bind_run_Ok _ _ _ _ _ H1). by rewrite (bind_run_Ok _ _ _ _ _ H2).
Qed.

Lemma set_item_note_effect oid did notes qty s :
  cart_ok oid s →
  ∃ r s', set_item_note oid did notes qty s = Ok r s' ∧
    cart_effect oid did
      (if truthy (strip notes) && negb (units oid s did =? 0) then
         match qty with Some q => Z.max 1 q | None => units oid s did end
       else units oid s did) s s'.
Proof.
  intros Hok. pose proof Hok as [Hl Ho Hp Hs]. unfold set_item_note.
  destruct (truthy (strip notes)) eqn:Hn; cbn [negb andb].
  2: { exists None, s. split; [done|]. split; [by apply touches_refl|done..]. }
  erewrite bind_run_Ok by reflexivity. cbv beta. set (items := sort_by _ _).
  assert (Hperm : items ≡ₚ dish_lines oid did s) by apply sort_by_perm.
  assert (Hin : ∀ l, l ∈ items → l ∈ rows (cart_lines s) ∧ on_dish oid did l = true)
    by (intros l; rewrite Hperm; apply dish_lines_spec).
  assert (Hsum : zsum ln_qty items = units oid s did) by (rewrite units_zsum; by apply zsum_Permutation).
  clearbody items. destruct items as [|first items'].
  { exists None, s. cbn in Hsum. rewrite <-Hsum. cbn. split; [done|]. split; [by apply touches_refl|done..]. }
  assert (Hpos : 1 ≤ units oid s did).
  { destruct (decide (1 ≤ units oid s did)) as [|Hn1]; [done|]. exfalso.
    assert (first :: items' = []) as [=]. apply (positive_sum_nil ln_qty); [|lia].
    intros x Hx. destruct (Hin x Hx) as [Hxr [Hxo _]%on_dish_true]. by apply Hp. }
  assert (units oid s did =? 0 = false) as -> by lia. cbn [negb].
  set (items := first :: items') in *.
  set (kept := default first (List.find _ items)).
  assert (Hk : kept ∈ items).
  { unfold kept. destruct (List.find _ items) as [l|] eqn:Hf; cbn; [|set_solver]. by apply find_Some_in in Hf as [? _]. }
  destruct (Hin kept Hk) as [_ [Hko Hkd]%on_dish_true].
  set (survivor := with_qty _ (with_notes _ kept)).
  destruct (fold_lines_run oid did kept survivor items s) as (t & Hrun & Ht & Hu); [done..| |].
  { change (1 ≤ match qty with Some q => Z.max 1 q | None => zsum ln_qty items end). destruct qty; lia. }
  destruct (recompute_effect oid did (ln_qty survivor) s (with_cart_lines t s)) as (s' & Hrun2 & Heff); [done|done|exact Hu|done|].
  exists (Some survivor), s'. split.
  - apply bind_Ok in Hrun as ([] & s1 & H1 & H2). rewrite (bind_run_Ok _ _ _ _ _ H1), (bind_run_Ok _ _ _ _ _ H2).
    by rewrite (bind_run_Ok _ _ _ _ _ Hrun2).
  - replace (match qty with Some q => Z.max 1 q | None => units oid s did end) with (ln_qty survivor); [done|].
    unfold survivor; cbn [ln_qty with_qty]. by destruct qty.
Qed.

Lemma touches_add oid did t l :
  table_wf t → positive oid t → ln_id l = next_id t → ln_order_id l = oid → ln_dish_id l = did → 1 ≤ ln_qty l →
  touches oid did t (add_row l t) ∧
  sum_where (on_dish oid did) ln_qty (add_row l t) = sum_where (on_dish oid did) ln_qty t + ln_qty l.
Proof.
  intros Hwf Hpos Hid Ho Hd Hq. assert (Hdl : on_dish oid did l = true) by by apply on_dish_true.
  split; [split|by rewrite sum_where_add, Hdl]; [by apply add_row_wf| |].
  - intros x Hx. rewrite elem_of_add_row. split; [intros [?| ->]; [done|congruence]|by left].
  - intros x [Hx| ->]%elem_of_add_row [Hxo _]%on_dish_true; [by apply Hpos|done].
Qed.

Lemma validate_run did selected s :
  validate_forced_modifiers did selected s =
    match List.find (group_refused selected s) (all_where (λ g, mg_dish_id g =? did) (modifier_groups s)) with
    | Some g => Err (ForcedModifier (mg_name g)) s
    | None => Ok tt s
    end.
Proof. unfold validate_forced_modifiers. erewrite bind_run_Ok by reflexivity. unfold id. by destruct (List.find _ _). Qed.

Lemma resolve_dish_price_run did at_ channel branch s : ∃ p, resolve_dish_price did at_ channel branch s = Ok p s ∧
  match get_row did (cart_dishes s) with
  | None => p = None
  | Some d => ∃ q, p = Some q ∧ (is_Some (cd_price_aed d) → is_Some q)
  end.
Proof.
  unfold resolve_dish_price. erewrite bind_run_Ok by reflexivity. cbv beta.
  destruct (get_row did (cart_dishes s)) as [d|]; [|eauto].
  erewrite bind_run_Ok by reflexivity. cbv beta. eexists. split; [reflexivity|]. eexists. split; [done|].
  by destruct (List.find _ _).
Qed.
Lemma item_price_run o dish r s : ∃ p, item_price o dish r s = Ok p s ∧
  (is_Some (cd_price_aed dish) → get_row (cd_id dish) (cart_dishes s) = Some dish → is_Some p).
Proof.
  unfold item_price. destruct (ir_price_override r) as [p|], (ir_variant r) as [v|]; [by eauto..|].
  erewrite bind_run_Ok by reflexivity. cbv beta zeta.
  destruct (resolve_dish_price_run (cd_id dish) (cart_now s)
    (Some (if truthy (co_order_type o) then co_order_type o else "delivery"%string)) (Some (co_restaurant_id o)) s) as (p & Hrun & Hp).
  rewrite (bind_run_Ok _ _ _ _ _ Hrun). eexists. split; [reflexivity|]. intros Hprice Hg. rewrite Hg in Hp.
  destruct Hp as (q & -> & Hq). specialize (Hq Hprice). destruct Hprice as [b ->].
  destruct (cd_sale_price_aed dish); [|done]. by destruct (_ && _).
Qed.

Lemma count_down_run dish qty s : ∃ s', count_down dish qty s = Ok tt s' ∧
  cart_lines s' = cart_lines s ∧ cart_orders s' = cart_orders s.
Proof. unfold count_down. destruct (cd_stock_remaining dish); eexists; (split; [reflexivity|done]). Qed.

(** When an item can be added: its forced groups are satisfied and it has a price. *)
Definition addable (dish : CartDish) (r : item_request) (s : cart_db) : Prop :=
  (ir_skip_validation r = true ∨
   ∀ g, g ∈ rows (modifier_groups s) → mg_dish_id g = cd_id dish → group_refused (ir_modifier_ids r) s g = false) ∧
  is_Some (cd_price_aed dish) ∧ get_row (cd_id dish) (cart_dishes s) = Some dish.

Lemma addable_forced dish r s : addable dish r s →
  (if ir_skip_validation r then mret tt else validate_forced_modifiers (cd_id dish) (ir_modifier_ids r)) s = Ok tt s.
Proof.
  intros [[->|Hg] _]; [done|]. destruct (ir_skip_validation r); [done|]. rewrite validate_run.
  destruct (List.find _ _) as [g|] eqn:Hf; [|done]. apply find_Some_in in Hf as [Hin Hr].
  apply elem_of_all_where in Hin as [Hin Hd]. zbool. by rewrite Hg in Hr.
Qed.

Lemma same_line_spec oid did r l :
  same_line oid did r l = true → ln_order_id l = oid ∧ ln_dish_id l = did ∧ ln_cancelled l = false.
Proof.
  unfold same_line. rewrite !andb_true_iff, negb_true_iff, !Z.eqb_eq. tauto.
Qed.

(** The line an added item goes to. *)
Lemma place_item_run o dish r mods price s :
  cart_ok (co_id o) s → 1 ≤ ir_qty r →
  (place_item o dish r mods price s = Err PriceMissing s ∧ price = None) ∨
  ∃ l t, place_item o dish r mods price s = Ok l (with_cart_lines t s) ∧ touches (co_id o) (cd_id dish) (cart_lines s) t ∧
    sum_where (on_dish (co_id o) (cd_id dish)) ln_qty t = units (co_id o) s (cd_id dish) + ir_qty r.
Proof.
  intros [Hl Ho Hp Hs] Hq. unfold place_item. erewrite bind_run_Ok by reflexivity. cbv beta zeta.
  destruct (first_where _ (cart_lines s)) as [l|] eqn:Hf.
  - right. apply first_where_Some in Hf as [Hin (Hlo & Hld & _)%same_line_spec]. pose proof (Hp l Hin Hlo).
    set (l' := if otruthy _ then _ else _).
    assert (ln_id l' = ln_id l ∧ ln_order_id l' = co_id o ∧ ln_dish_id l' = cd_id dish ∧ ln_qty l' = ln_qty l + ir_qty r)
      as (H1 & H2 & H3 & H4) by (unfold l'; by destruct (otruthy _)).
    clearbody l'. destruct (touches_set (co_id o) (cd_id dish) (cart_lines s) l l') as [Ht Hu];
      [done|done|done|by apply on_dish_true|done|done|done|lia|].
    exists l', (set_row l' (cart_lines s)). split; [done|]. split; [done|]. unfold units. lia.
  - destruct price as [price|]; [right|by left].
    set (l := new_line o dish r mods price (next_id (cart_lines s))).
    destruct (touches_add (co_id o) (cd_id dish) (cart_lines s) l) as [Ht Hu]; [done..|].
    exists l, (add_row l (cart_lines s)). done.
Qed.

Lemma add_item_effect o dish r s :
  cart_ok (co_id o) s → 1 ≤ ir_qty r →
  (∃ l s', add_item o dish r s = Ok l s' ∧
    cart_effect (co_id o) (cd_id dish) (units (co_id o) s (cd_id dish) + ir_qty r) s s') ∨
  (∃ e, add_item o dish r s = Err e s ∧ ¬ addable dish r s).
Proof.
  intros Hok Hq. unfold add_item.
  set (check := if ir_skip_validation r then _ else _).
  assert (check s = Ok tt s ∨ ∃ e, check s = Err e s) as [Hv|[e Hv]].
  { unfold check. destruct (ir_skip_validation r); [by left|]. rewrite validate_run. destruct (List.find _ _); eauto. }
  2: { right. exists e. rewrite (bind_run_Err _ _ _ _ _ Hv). split; [done|]. intros Ha%addable_forced. fold check in Ha. congruence. }
  rewrite (bind_run_Ok _ _ _ _ _ Hv). destruct (item_price_run o dish r s) as (base & Hb & Hsome).
  rewrite (bind_run_Ok _ _ _ _ _ Hb). erewrite bind_run_Ok by reflexivity. cbv beta.
  set (mods := match ir_modifier_ids r with [] => [] | _ => _ end).
  set (guard := match base with Some _ => _ | None => _ end).
  assert (guard s = Ok tt s ∨ (base = None ∧ guard s = Err PriceMissing s)) as [Hg|[-> Hg]].
  { unfold guard. destruct base, (ir_modifier_ids r); auto. }
  2: { right. exists PriceMissing. rewrite (bind_run_Err _ _ _ _ _ Hg). split; [done|].
       intros (_ & H1 & H2). by destruct (Hsome H1 H2). }
  rewrite (bind_run_Ok _ _ _ _ _ Hg).
  destruct (place_item_run o dish r mods ((λ b, b + zsum mo_price_delta_aed mods) <$> base) s) as [[He Hn]|(l & t & Hrun & Ht & Hu)];
    [done|done| |].
  { right. exists PriceMissing. rewrite (bind_run_Err _ _ _ _ _ He). split; [done|].
    intros (_ & H1 & H2). by destruct (Hsome H1 H2) as [b ->]. }
  left. rewrite (bind_run_Ok _ _ _ _ _ Hrun).
  destruct (count_down_run dish (ir_qty r) (with_cart_lines t s)) as (s1 & Hrun1 & Hl1 & Ho1).
  rewrite (bind_run_Ok _ _ _ _ _ Hrun1).
  destruct (recompute_effect (co_id o) (cd_id dish) (units (co_id o) s (cd_id dish) + ir_qty r) s s1) as (s' & Hrun2 & Heff);
    [done|by rewrite Hl1|by unfold units; rewrite Hl1|done|].
  exists l, s'. by rewrite (bind_run_Ok _ _ _ _ _ Hrun2).
Qed.

(** ** The cart as a count of units per dish *)

Inductive cart_op :=
| OpAdd (dish : CartDish) (r : item_request)
| OpRemove (dish_id qty : Z)
| OpSetQty (dish_id qty : Z)
| OpSetNote (dish_id : Z) (notes : string) (qty : option Z).
Definition op_valid (op : cart_op) : Prop := match op with OpAdd _ r => 1 ≤ ir_qty r | _ => True end.
Definition op_dish (op : cart_op) : Z :=
  match op with OpAdd dish _ => cd_id dish | OpRemove d _ | OpSetQty d _ | OpSetNote d _ _ => d end.

(** The abstract cart: what an accepted operation does to the count of its dish. *)
Definition op_count (op : cart_op) (n : Z) : Z :=
  match op with
  | OpAdd _ r => n + ir_qty r
  | OpRemove _ qty => n - Z.min (Z.max 0 qty) n
  | OpSetQty _ qty => if n =? 0 then 0 else Z.max 0 qty
  | OpSetNote _ notes qty =>
      if truthy (strip notes) && negb (n =? 0) then match qty with Some q => Z.max 1 q | None => n end else n
  end.
Definition abs_op (op : cart_op) (u : Z → Z) (d : Z) : Z := if d =? op_dish op then op_count op (u d) else u d.
Definition abs_run (u : Z → Z) (trace : list (cart_op * bool)) : Z → Z :=
  fold_left (λ u '(op, accepted), if accepted : bool then abs_op op u else u) trace u.

#[export] Instance abs_op_proper op : Proper (pointwise_relation Z (=) ==> pointwise_relation Z (=)) (abs_op op).
Proof. intros u u' Hu d. unfold abs_op. by rewrite (Hu d). Qed.
#[export] Instance abs_run_proper : Proper (pointwise_relation Z (=) ==> (=) ==> pointwise_relation Z (=)) abs_run.
Proof.
  intros u u' Hu tr _ <-. revert u u' Hu. unfold abs_run. induction tr as [|[op []] tr IH]; intros u u' Hu; cbn; [done| |auto].
  apply IH. by rewrite Hu.
Qed.

Definition run_op (o : CartOrder) (op : cart_op) : CM unit :=
  match op with
  | OpAdd dish r => add_item o dish r ≫= λ _, mret tt
  | OpRemove d qty => remove_item (co_id o) d qty ≫= λ _, mret tt
  | OpSetQty d qty => set_item_qty (co_id o) d qty None ≫= λ _, mret tt
  | OpSetNote d notes qty => set_item_note (co_id o) d notes qty ≫= λ _, mret tt
  end.
(** A history of operations with which of them were accepted. *)
Fixpoint cart_run (o : CartOrder) (ops : list cart_op) (s : cart_db) : list (cart_op * bool) * cart_db :=
  match ops with
  | [] => ([], s)
  | op :: ops' =>
      let out := run_op o op s in
      let '(trace, s') := cart_run o ops' (final out) in ((op, is_ok out) :: trace, s')
  end.

Lemma run_op_effect o op s :
  cart_ok (co_id o) s → op_valid op →
  (∃ s', run_op o op s = Ok tt s' ∧
    cart_effect (co_id o) (op_dish op) (op_count op (units (co_id o) s (op_dish op))) s s') ∨
  (∃ e, run_op o op s = Err e s ∧ ∃ dish r, op = OpAdd dish r ∧ ¬ addable dish r s).
Proof.
  intros Hok Hv. destruct op as [dish r|d qty|d qty|d notes qty]; cbn [run_op op_dish op_count].
  - destruct (add_item_effect o dish r s Hok Hv) as [(l & s' & Hrun & He)|(e & Hrun & Hn)]; [left|right].
    + exists s'. by rewrite (bind_run_Ok _ _ _ _ _ Hrun).
    + exists e. rewrite (bind_run_Err _ _ _ _ _ Hrun). eauto.
  - left. destruct (remove_item_effect (co_id o) d qty s Hok) as (s' & Hrun & He). exists s'.
    by rewrite (bind_run_Ok _ _ _ _ _ Hrun).
  - left. destruct (set_item_qty_effect (co_id o) d qty s Hok) as (r & s' & Hrun & He). exists s'.
    by rewrite (bind_run_Ok _ _ _ _ _ Hrun).
  - left. destruct (set_item_note_effect (co_id o) d notes qty s Hok) as (r & s' & Hrun & He). exists s'.
    by rewrite (bind_run_Ok _ _ _ _ _ Hrun).
Qed.

Lemma cart_effect_ok oid did u s s' : cart_ok oid s → cart_effect oid did u s s' → cart_ok oid s'.
Proof. intros [Hl Ho Hp Hs] [Ht Hu Hwf Hsync Hthere]. split; [apply Ht|done|by eapply touches_positive|done]. Qed.
Lemma cart_effect_units o op s s' :
  cart_ok (co_id o) s → cart_effect (co_id o) (op_dish op) (op_count op (units (co_id o) s (op_dish op))) s s' →
  pointwise_relation Z (=) (units (co_id o) s') (abs_op op (units (co_id o) s)).
Proof.
  intros [Hl _ _ _] [Ht Hu _ _ _] d. unfold abs_op. destruct (d =? op_dish op) eqn:E; zbool; [by subst|].
  by apply (touches_units _ (op_dish op)).
Qed.
Lemma cart_effect_frame oid did u s s' l :
  cart_effect oid did u s s' → ln_order_id l ≠ oid → l ∈ rows (cart_lines s') ↔ l ∈ rows (cart_lines s).
Proof.
  intros [Ht _ _ _ _] Hl. apply (to_other _ _ _ _ Ht). apply not_true_iff_false. rewrite on_dish_true. tauto.
Qed.


(** ** A cart to evaluate *)

Definition ex_dish (id : Z) (name : string) (price : Z) : CartDish := {|
  cd_id := id; cd_restaurant_id := 1; cd_dish_number := None; cd_name := name; cd_price_aed := Some price;
  cd_sale_price_aed := None; cd_allergens := []; cd_stock_remaining := None; cd_auto_hide_when_oos := false;
  cd_is_available := true |}.
Definition biryani : CartDish := ex_dish 10 "biryani" 2500.
Definition karak : CartDish := ex_dish 11 "karak" 300.
Definition ex_request (qty : Z) (mods : list Z) : item_request := {|
  ir_qty := qty; ir_notes := None; ir_variant := None; ir_price_override := None; ir_course_number := 1;
  ir_course_held := false; ir_is_takeaway := false; ir_modifier_ids := mods; ir_skip_validation := false |}.
Definition ex_order : CartOrder := draft_order 1 1 7 "R1-0001" 0.
Definition ex_cart : cart_db := {|
  cart_orders := add_row ex_order empty_table; cart_lines := empty_table;
  cart_dishes := Table [biryani; karak] 12; price_rules := empty_table; modifier_groups := empty_table;
  modifiers := Table [{| mo_id := 1; mo_group_id := 1; mo_name := "double meat"; mo_price_delta_aed := 900 |}] 2;
  staff_of := []; cart_audit := []; cart_calls := []; cart_now := 0 |}.

Lemma ex_cart_ok : cart_ok 1 ex_cart.
Proof.
  split; [by apply table_wf_check|by apply table_wf_check| |by eexists].
  intros l Hl. cbn in Hl. set_solver.
Defined.


(** ** Where the cart departs from its intention *)

Definition cart_after (ops : list cart_op) : cart_db := snd (cart_run ex_order ops ex_cart).

(** The same dish with an extra folds into the plain line: the extra is neither billed
    nor shown to the kitchen. *)
Lemma extra_folds_unbilled :
  let s := cart_after [OpAdd biryani (ex_request 1 []); OpAdd biryani (ex_request 1 [1])] in
  (λ l, (ln_qty l, ln_price_aed l, ln_selected_modifiers l)) <$> rows (cart_lines s) = [(2, 2500, [])] ∧
  co_subtotal <$> get_row 1 (cart_orders s) = Some 5000.
Proof. by vm_compute. Qed.

(** Noting a dish folds its serving sizes into one line at the first size's price. *)
Definition sized (name : string) (price : Z) : item_request := {|
  ir_qty := 1; ir_notes := None; ir_variant := Some {| va_name := Some name; va_price_aed := price |};
  ir_price_override := None; ir_course_number := 1; ir_course_held := false; ir_is_takeaway := false;
  ir_modifier_ids := []; ir_skip_validation := false |}.
Lemma note_folds_sizes :
  let s := cart_after [OpAdd biryani (sized "small" 2000); OpAdd biryani (sized "large" 6000)] in
  let s' := cart_after [OpAdd biryani (sized "small" 2000); OpAdd biryani (sized "large" 6000); OpSetNote 10 "less spicy" None] in
  co_subtotal <$> get_row 1 (cart_orders s) = Some 8000 ∧ co_subtotal <$> get_row 1 (cart_orders s') = Some 4000 ∧
  (λ l, (ln_qty l, ln_variant_name l)) <$> rows (cart_lines s') = [(2, Some "small"%string)].
Proof. by vm_compute. Qed.
