(* ===== verification/Tabs.v ===== *)
(** * The open tab ([ordering/service.py], [ordering/pos_orders.py],
    [ordering/duplicate.py])

    What staff do to an order after it is placed: cancelling and editing lines,
    cancelling the order, splitting and merging bills and undoing a merge, holding,
    priorities, firing courses, repeating an order.  Totals here leave cancelled lines
    out.  The step through the status graph is [OrderFsm.transition]; in this session
    it is the status, the audit row and the logged call. *)

From S2P Require Import Prelude Money Strings Db AuditTrail Decimals OrderFsm CartDb Carts.

(** ** Loading and writing an order *)

Definition get_order_for_tenant (restaurant_id order_id : Z) : CM (option CartOrder) :=
  gets (λ s, first_where (λ o, (co_id o =? order_id) && (co_restaurant_id o =? restaurant_id)) (cart_orders s)).
(** Attributes assigned on the loaded object. *)
Definition change_order (order_id : Z) (f : CartOrder → CartOrder) : CM unit :=
  found ← gets (λ s, get_row order_id (cart_orders s));
  match found with Some o => update_order (f o) | None => mret tt end.
Definition order_of (order_id : Z) (s : cart_db) : option CartOrder := get_row order_id (cart_orders s).
Definition shown_total (order_id : Z) (s : cart_db) : jval :=
  match order_of order_id s with Some o => JStr (str_cents (co_total o)) | None => JNull end.
Definition shown_subtotal (order_id : Z) (s : cart_db) : jval :=
  match order_of order_id s with Some o => JStr (str_cents (co_subtotal o)) | None => JNull end.

Definition live_amount (l : Line) : Z := if ln_cancelled l then 0 else line_amount l.
Definition _recompute_totals_excluding_cancelled (order_id : Z) : CM unit :=
  subtotal ← gets (λ s, zsum live_amount (lines_on order_id s));
  change_order order_id (λ o, with_totals subtotal (subtotal + co_delivery_fee_aed o) o).

(** ** Lines *)

Definition _NON_MODIFIABLE_STATUSES : list OrderStatus :=
  [READY; ASSIGNED; PICKED_UP; ARRIVING; DELIVERED; CANCELLED; UNDELIVERABLE; ON_RESALE; RESOLD; WRITTEN_OFF].
Definition _assert_order_modifiable (o : CartOrder) : CM unit :=
  if bool_decide (co_status o ∈ _NON_MODIFIABLE_STATUSES) then raise (NotModifiable (co_status o)) else mret tt.
Definition _get_order_item_for_tenant (restaurant_id order_id order_item_id : Z) : CM (CartOrder * Line) :=
  found ← get_order_for_tenant restaurant_id order_id;
  match found with
  | None => raise CartOrderNotFound
  | Some o =>
      item ← gets (λ s, get_row order_item_id (cart_lines s));
      match item with
      | Some l => if ln_order_id l =? co_id o then mret (o, l) else raise LineNotFound
      | None => raise LineNotFound
      end
  end.

Definition cancel_order_item (restaurant_id order_id order_item_id : Z) (reason : option string) (actor : string)
    : CM Line :=
  loaded ← _get_order_item_for_tenant restaurant_id order_id order_item_id;
  let '(o, l) := loaded in
  _assert_order_modifiable o ≫= λ _,
  if ln_cancelled l then raise LineCancelled else
  let l' := with_line_cancelled reason l in
  update_line l' ≫= λ _,
  _recompute_totals_excluding_cancelled (co_id o) ≫= λ _,
  after ← gets (λ s, [("cancelled", JBool true); ("cancelled_reason", jopt_str reason);
                      ("subtotal", shown_subtotal (co_id o) s); ("total", shown_total (co_id o) s)]%string);
  audit actor (co_restaurant_id o) "order_item" (pretty (ln_id l)) "order_item_cancelled"
    (Some [("qty", JInt (ln_qty l)); ("cancelled", JBool (ln_cancelled l));
           ("subtotal", JStr (str_cents (co_subtotal o))); ("total", JStr (str_cents (co_total o)))]%string)
    (Some after) ≫= λ _, mret l'.

Definition edit_order_item (restaurant_id order_id order_item_id : Z) (new_qty : option Z) (new_notes : option string)
    (actor : string) : CM Line :=
  loaded ← _get_order_item_for_tenant restaurant_id order_id order_item_id;
  let '(o, l) := loaded in
  _assert_order_modifiable o ≫= λ _,
  if ln_cancelled l then raise LineCancelled else
  if match new_qty with Some q => q <=? 0 | None => false end then raise BadQuantity else
  let qty_changed := match new_qty with Some q => negb (q =? ln_qty l) | None => false end in
  let l' := with_qty (default (ln_qty l) new_qty) l in
  let l' := match new_notes with Some _ => with_notes new_notes l' | None => l' end in
  update_line l' ≫= λ _,
  (if qty_changed then _recompute_totals_excluding_cancelled (co_id o) else mret tt) ≫= λ _,
  after ← gets (λ s, [("qty", JInt (ln_qty l')); ("notes", jopt_str (ln_notes l'));
                      ("subtotal", shown_subtotal (co_id o) s); ("total", shown_total (co_id o) s)]%string);
  audit actor (co_restaurant_id o) "order_item" (pretty (ln_id l)) "order_item_edited"
    (Some [("qty", JInt (ln_qty l)); ("notes", jopt_str (ln_notes l));
           ("subtotal", JStr (str_cents (co_subtotal o))); ("total", JStr (str_cents (co_total o)))]%string)
    (Some after) ≫= λ _, mret l'.

(** ** Cancelling an order *)

(** [fsm.transition] in this session; its other effects are behind [CTransition]. *)
Definition fsm_transition (order_id : Z) (new_status : OrderStatus) (actor : string) (extra : jdict) : CM unit :=
  found ← gets (order_of order_id);
  match found with
  | None => raise CartOrderNotFound
  | Some o =>
      if negb (validate (co_status o) new_status) then raise (CartIllegalTransition (co_status o) new_status) else
      update_order (with_cart_status new_status o) ≫= λ _,
      log_call (CTransition order_id (co_status o) new_status) ≫= λ _,
      _ ← audit actor (co_restaurant_id o) "order" (pretty order_id) "order_status_transition"
            (Some (("status", JStr (status_value (co_status o))) :: extra)%string)
            (Some [("status", JStr (status_value new_status))]%string);
      mret tt
  end.

Definition _CUSTOMER_CANCELLABLE_STATUSES : list OrderStatus := [DRAFT; PENDING_CONFIRMATION; CONFIRMED; PREPARING].
Definition _RESTAURANT_CANCEL_ACTORS : list string := ["manager"; "pos"; "restaurant"]%string.
Definition _emit_cancel_side_effects (order_id : Z) (actor : string) : CM unit :=
  (if in_strs actor _RESTAURANT_CANCEL_ACTORS then log_call (CNotifyCustomer order_id "cancelled") else mret tt) ≫= λ _,
  log_call (CNotifyPartner order_id "order.cancelled").

(** The copy that is offered to the next customer, and its lines. *)
Definition resale_copy (o : CartOrder) (id now : Z) : CartOrder := {|
  co_id := id; co_restaurant_id := co_restaurant_id o; co_customer_id := co_customer_id o;
  co_order_number := co_order_number o +:+ "-RS"; co_status := ON_RESALE; co_priority := co_priority o;
  co_order_type := "delivery"; co_table_id := None; co_staff_id := None; co_subtotal := co_subtotal o;
  co_delivery_fee_aed := co_delivery_fee_aed o; co_total := co_total o; co_held_at := None; co_held_reason := None;
  co_cancellation_reason := None; co_cancelled_at := co_cancelled_at o; co_daily_token := None;
  co_resale_of_order_id := Some (co_id o); co_created_at := now; co_updated_at := now |}.
Definition line_copy (order_id : Z) (l : Line) (id : Z) : Line := {|
  ln_id := id; ln_order_id := order_id; ln_dish_id := ln_dish_id l; ln_dish_number := ln_dish_number l;
  ln_dish_name := ln_dish_name l; ln_variant_name := ln_variant_name l; ln_price_aed := ln_price_aed l;
  ln_qty := ln_qty l; ln_notes := ln_notes l; ln_cancelled := false; ln_cancelled_reason := None;
  ln_merged_from_order_id := None; ln_selected_modifiers := []; ln_seat_number := None; ln_course_number := 1;
  ln_course_held := false; ln_fired_at := None; ln_is_takeaway := false; ln_allergens_snapshot := [];
  ln_station_id_snapshot := None |}.
Definition add_resale (o : CartOrder) : CM CartOrder :=
  t ← gets cart_orders;
  now ← gets cart_now;
  let r := resale_copy o (next_id t) now in
  if order_number_taken (co_restaurant_id r) (co_order_number r) t then raise (NumberTaken (co_order_number r)) else
  modify (with_cart_orders (add_row r t)) ≫= λ _, mret r.

(** A customer gave up food that is already cooking: it is offered to the next one. *)
Definition put_on_resale (order_id : Z) (o : CartOrder) (actor : string) (extra : jdict) : CM (option CartOrder) :=
  fsm_transition order_id ON_RESALE actor extra ≫= λ _,
  now_row ← gets (λ s, default o (order_of order_id s));
  resale ← add_resale now_row;
  items ← gets (lines_on order_id);
  for_each (λ l, add_line (line_copy (co_id resale) l) ≫= λ _, mret tt) items ≫= λ _,
  log_call (CInvalidatePreview (co_restaurant_id o)) ≫= λ _,
  _emit_cancel_side_effects order_id actor ≫= λ _,
  mret (Some resale).
Definition close_cancelled (order_id : Z) (o : CartOrder) (actor : string) (extra : jdict) : CM (option CartOrder) :=
  fsm_transition order_id CANCELLED actor extra ≫= λ _,
  log_call (CInvalidatePreview (co_restaurant_id o)) ≫= λ _,
  _emit_cancel_side_effects order_id actor ≫= λ _,
  mret None.
(** The credit, the loyalty points and the rider are released. *)
Definition release_all (order_id : Z) : CM unit :=
  log_call (CReleaseWallet order_id) ≫= λ _, log_call (CReverseEarn order_id) ≫= λ _,
  log_call (CReleaseDispatch order_id).
Definition cancel_order (order_id : Z) (actor : string) (reason : option string) : CM (option CartOrder) :=
  found ← gets (order_of order_id);
  match found with
  | None => raise CartOrderNotFound
  | Some o =>
      if (actor =s "customer") && negb (bool_decide (co_status o ∈ _CUSTOMER_CANCELLABLE_STATUSES))
      then raise (CannotCancel (co_status o)) else
      if negb (in_strs actor _RESTAURANT_CANCEL_ACTORS) && negb (actor =s "customer") then raise (UnknownActor actor) else
      now ← gets cart_now;
      change_order order_id (with_cancellation reason (Some now)) ≫= λ _,
      release_all order_id ≫= λ _,
      let extra := [("reason", JStr (default "" reason))]%string in
      if bool_decide (co_status o = PREPARING) && (actor =s "customer")
      then put_on_resale order_id o actor extra
      else close_cancelled order_id o actor extra
  end.

(** ** Splitting and merging *)

Definition _MERGEABLE_STATUSES : list OrderStatus := [DRAFT; PENDING_CONFIRMATION; CONFIRMED].

Fixpoint comma_ids (ids : list Z) : string :=
  match ids with
  | [] => ""
  | [i] => pretty i
  | i :: ids' => pretty i +:+ ", " +:+ comma_ids ids'
  end.
Definition ids_json (ids : list Z) : jval := JList ("[" +:+ comma_ids ids +:+ "]") (Z.of_nat (length ids)).

(** The lines are handed to another order, one attribute assignment each. *)
Definition move_lines (to : Z) (tag : Line → option Z) (items : list Line) : CM unit :=
  for_each (λ l, update_line (with_order to (tag l) l)) items.

(** The named lines become a new draft of the same customer and table. *)
Definition split_off (restaurant_id : Z) (o : CartOrder) (unique_ids : list Z) (items : list Line) : CM CartOrder :=
  new_order ← create_draft_order restaurant_id (co_customer_id o);
  change_order (co_id new_order) (with_place (co_table_id o) (co_staff_id o)) ≫= λ _,
  move_lines (co_id new_order) ln_merged_from_order_id items ≫= λ _,
  _recompute_totals_excluding_cancelled (co_id o) ≫= λ _,
  _recompute_totals_excluding_cancelled (co_id new_order) ≫= λ _,
  after ← gets (λ s, [("new_order_id", JInt (co_id new_order)); ("new_order_number", JStr (co_order_number new_order));
                      ("remaining_total", shown_total (co_id o) s); ("new_total", shown_total (co_id new_order) s)]%string);
  _ ← audit "manager" restaurant_id "order" (pretty (co_id o)) "order_split_by_items"
        (Some [("item_ids", ids_json (sort_by Z.leb unique_ids))]%string) (Some after);
  gets (λ s, default new_order (order_of (co_id new_order) s)).
Definition split_order_by_items (restaurant_id order_id : Z) (item_ids : list Z) : CM CartOrder :=
  match item_ids with
  | [] => raise NoItemIds
  | _ =>
      found ← get_order_for_tenant restaurant_id order_id;
      match found with
      | None => raise CartOrderNotFound
      | Some o =>
          _assert_order_modifiable o ≫= λ _,
          let unique_ids := remove_dups item_ids in
          items ← gets (λ s, all_where (λ l, existsb (Z.eqb (ln_id l)) unique_ids && (ln_order_id l =? co_id o)) (cart_lines s));
          if negb (length items =? length unique_ids)%nat then raise ForeignItems
          else split_off restaurant_id o unique_ids items
      end
  end.

Definition split_order_by_seat (restaurant_id order_id seat_number : Z) : CM CartOrder :=
  found ← get_order_for_tenant restaurant_id order_id;
  match found with
  | None => raise CartOrderNotFound
  | Some o =>
      _assert_order_modifiable o ≫= λ _,
      items ← gets (λ s, all_where (λ l, (ln_order_id l =? co_id o) && bool_decide (ln_seat_number l = Some seat_number)) (cart_lines s));
      match items with
      | [] => raise (NoSeatItems seat_number)
      | _ => split_order_by_items restaurant_id order_id (ln_id <$> items)
      end
  end.

Definition mergeable (o : CartOrder) : bool := bool_decide (co_status o ∈ _MERGEABLE_STATUSES).
Definition merge_orders (restaurant_id primary_order_id secondary_order_id : Z) : CM CartOrder :=
  if primary_order_id =? secondary_order_id then raise SelfMerge else
  found1 ← get_order_for_tenant restaurant_id primary_order_id;
  found2 ← get_order_for_tenant restaurant_id secondary_order_id;
  match found1, found2 with
  | Some p, Some q =>
      if negb (mergeable p && mergeable q) then raise (NotMergeable (co_status p) (co_status q)) else
      items ← gets (lines_on (co_id q));
      move_lines (co_id p) (λ _, Some (co_id q)) items ≫= λ _,
      _recompute_totals_excluding_cancelled (co_id p) ≫= λ _,
      cancel_order (co_id q) "manager" (Some ("Merged into order " +:+ co_order_number p)) ≫= λ _,
      after ← gets (λ s, [("primary_total", shown_total (co_id p) s); ("secondary_order_id", JInt (co_id q));
                          ("secondary_status", match order_of (co_id q) s with
                                               | Some q' => JStr (status_value (co_status q')) | None => JNull end)]%string);
      _ ← audit "manager" restaurant_id "order" (pretty (co_id p)) "order_merged"
            (Some [("primary_total", JStr (str_cents (co_total p))); ("secondary_total", JStr (str_cents (co_total q)));
                   ("secondary_status", JStr (status_value (co_status q)))]%string) (Some after);
      gets (λ s, default p (order_of (co_id p) s))
  | _, _ => raise CartOrderNotFound
  end.

(** The orders whose lines the primary took over, the latest changed first. *)
Definition merged_ids (primary_id : Z) (s : cart_db) : list Z := omap ln_merged_from_order_id (lines_on primary_id s).
Definition last_merged (primary_id : Z) (s : cart_db) : option CartOrder :=
  head (sort_by (λ a b, co_updated_at b <=? co_updated_at a)
    (all_where (λ o, existsb (Z.eqb (co_id o)) (merged_ids primary_id s)) (cart_orders s))).
Definition unmerge_last_merge (restaurant_id primary_order_id : Z) (actor : string) : CM CartOrder :=
  found ← get_order_for_tenant restaurant_id primary_order_id;
  match found with
  | None => raise CartOrderNotFound
  | Some p =>
      latest ← gets (last_merged (co_id p));
      match latest with
      | None => raise NothingToUnmerge
      | Some q =>
          items ← gets (λ s, all_where (λ l, (ln_order_id l =? co_id p) &&
                                bool_decide (ln_merged_from_order_id l = Some (co_id q))) (cart_lines s));
          move_lines (co_id q) (λ _, None) items ≫= λ _,
          change_order (co_id q) (λ o, with_cancellation None None (with_cart_status CONFIRMED o)) ≫= λ _,
          _recompute_totals_excluding_cancelled (co_id p) ≫= λ _,
          _recompute_totals_excluding_cancelled (co_id q) ≫= λ _,
          after ← gets (λ s, [("revived_order_id", JInt (co_id q)); ("table_id", jopt_int (co_table_id q));
                              ("primary_total", shown_total (co_id p) s)]%string);
          _ ← audit actor restaurant_id "order" (pretty (co_id p)) "order_unmerged"
                (Some [("secondary_status", JStr (status_value (co_status q)))]%string) (Some after);
          gets (λ s, default q (order_of (co_id q) s))
      end
  end.

Definition transfer_order_staff (restaurant_id order_id new_staff_id : Z) : CM CartOrder :=
  found ← get_order_for_tenant restaurant_id order_id;
  match found with
  | None => raise CartOrderNotFound
  | Some o =>
      staff ← gets (λ s, List.find (λ m, fst m =? new_staff_id) (staff_of s));
      match staff with
      | Some (_, rid) =>
          if negb (rid =? restaurant_id) then raise StaffNotFound else
          change_order order_id (with_place (co_table_id o) (Some new_staff_id)) ≫= λ _,
          _ ← audit "manager" restaurant_id "order" (pretty (co_id o)) "order_staff_transferred"
                (Some [("staff_id", jopt_int (co_staff_id o))]%string) (Some [("staff_id", JInt new_staff_id)]%string);
          gets (λ s, default o (order_of order_id s))
      | None => raise StaffNotFound
      end
  end.

(** ** Repeating an order ([ordering/duplicate.py]) *)

(** [course_number or 1]: zero reads as one. *)
Definition repeat_line (order_id : Z) (l : Line) (id : Z) : Line := {|
  ln_id := id; ln_order_id := order_id; ln_dish_id := ln_dish_id l; ln_dish_number := ln_dish_number l;
  ln_dish_name := ln_dish_name l; ln_variant_name := ln_variant_name l; ln_price_aed := ln_price_aed l;
  ln_qty := ln_qty l; ln_notes := ln_notes l; ln_cancelled := false; ln_cancelled_reason := None;
  ln_merged_from_order_id := None; ln_selected_modifiers := ln_selected_modifiers l;
  ln_seat_number := ln_seat_number l; ln_course_number := if ln_course_number l =? 0 then 1 else ln_course_number l;
  ln_course_held := false; ln_fired_at := None; ln_is_takeaway := false;
  ln_allergens_snapshot := ln_allergens_snapshot l; ln_station_id_snapshot := None |}.
Definition repeated (source : CartOrder) (o : CartOrder) : CartOrder := {|
  co_id := co_id o; co_restaurant_id := co_restaurant_id o; co_customer_id := co_customer_id o;
  co_order_number := co_order_number o; co_status := co_status o; co_priority := co_priority o;
  co_order_type := if truthy (co_order_type source) then co_order_type source else "delivery";
  co_table_id := co_table_id source; co_staff_id := co_staff_id o; co_subtotal := co_subtotal source;
  co_delivery_fee_aed := co_delivery_fee_aed source; co_total := co_total source; co_held_at := co_held_at o;
  co_held_reason := co_held_reason o; co_cancellation_reason := co_cancellation_reason o;
  co_cancelled_at := co_cancelled_at o; co_daily_token := co_daily_token o;
  co_resale_of_order_id := co_resale_of_order_id o; co_created_at := co_created_at o; co_updated_at := co_updated_at o |}.
Definition duplicate_order (restaurant_id order_id : Z) : CM CartOrder :=
  found ← gets (order_of order_id);
  match found with
  | None => raise CartOrderNotFound
  | Some source =>
      if negb (co_restaurant_id source =? restaurant_id) then raise CartOrderNotFound else
      new_order ← create_draft_order restaurant_id (co_customer_id source);
      change_order (co_id new_order) (repeated source) ≫= λ _,
      items ← gets (λ s, List.filter (λ l, negb (ln_cancelled l)) (lines_on (co_id source) s));
      for_each (λ l, add_line (repeat_line (co_id new_order) l) ≫= λ _, mret tt) items ≫= λ _,
      gets (λ s, default new_order (order_of (co_id new_order) s))
  end.

(** ** The till ([ordering/pos_orders.py]) *)

Definition _HOLDABLE : list OrderStatus := [DRAFT; PENDING_CONFIRMATION; CONFIRMED; PREPARING].
(** [session.get] and the tenant check. *)
Definition load_owned (restaurant_id order_id : Z) : CM CartOrder :=
  found ← gets (order_of order_id);
  match found with
  | Some o => if co_restaurant_id o =? restaurant_id then mret o else raise CartOrderNotFound
  | None => raise CartOrderNotFound
  end.
Definition hold_order (restaurant_id order_id : Z) (reason : option string) : CM CartOrder :=
  o ← load_owned restaurant_id order_id;
  if negb (bool_decide (co_status o ∈ _HOLDABLE)) then raise (NotHoldable (co_status o)) else
  if co_held_at o then raise AlreadyHeld else
  now ← gets cart_now;
  change_order order_id (with_hold (Some now) reason) ≫= λ _,
  _ ← audit "manager" restaurant_id "order" (pretty (co_id o)) "held" None (Some [("reason", jopt_str reason)]%string);
  gets (λ s, default o (order_of order_id s)).
Definition unhold_order (restaurant_id order_id : Z) : CM CartOrder :=
  o ← load_owned restaurant_id order_id;
  match co_held_at o with
  | None => raise NotHeld
  | Some _ =>
      change_order order_id (with_hold None None) ≫= λ _,
      _ ← audit "manager" restaurant_id "order" (pretty (co_id o)) "unheld" None (Some []);
      gets (λ s, default o (order_of order_id s))
  end.
Definition set_order_priority (restaurant_id order_id : Z) (priority : string) : CM CartOrder :=
  match validate_priority priority with
  | inl _ => raise (BadPriority priority)
  | inr p =>
      o ← load_owned restaurant_id order_id;
      change_order order_id (with_priority p) ≫= λ _,
      _ ← audit "manager" restaurant_id "order" (pretty (co_id o)) "priority_set"
            (Some [("priority", JStr (co_priority o))]%string) (Some [("priority", JStr p)]%string);
      gets (λ s, default o (order_of order_id s))
  end.
Definition mark_rush (restaurant_id order_id : Z) : CM CartOrder := set_order_priority restaurant_id order_id "rush".

Definition held_for_course (order_id course_number : Z) (l : Line) : bool :=
  (ln_order_id l =? order_id) && (ln_course_number l =? course_number) && ln_course_held l && negb (ln_cancelled l).
Definition fire_course (restaurant_id order_id course_number : Z) : CM (list Line) :=
  if course_number <? 1 then raise BadCourse else
  o ← load_owned restaurant_id order_id;
  if co_held_at o then raise FireWhileHeld else
  items ← gets (λ s, all_where (held_for_course order_id course_number) (cart_lines s));
  match items with
  | [] => raise (NothingHeld course_number)
  | _ =>
      now ← gets cart_now;
      for_each (λ l, update_line (with_fired now l)) items ≫= λ _,
      log_call (CCreateTickets order_id (ln_id <$> items)) ≫= λ _,
      _ ← audit "manager" restaurant_id "order" (pretty (co_id o)) "course_fired" None
            (Some [("course_number", JInt course_number); ("item_ids", ids_json (ln_id <$> items))]%string);
      mret (with_fired now <$> items)
  end.

Definition clamp_limit (limit : Z) : nat := Z.to_nat (Z.min (Z.max limit 1) 100).
Definition list_open_orders (restaurant_id limit : Z) (s : cart_db) : list CartOrder :=
  take (clamp_limit limit) (sort_by (λ a b, co_created_at b <=? co_created_at a)
    (all_where (λ o, (co_restaurant_id o =? restaurant_id) && in_strs (status_value (co_status o)) OPEN_ORDER_STATUSES
                     && bool_decide (co_held_at o = None)) (cart_orders s))).
Definition list_held_orders (restaurant_id limit : Z) (s : cart_db) : list CartOrder :=
  take (clamp_limit limit) (sort_by (λ a b, default 0 (co_held_at b) <=? default 0 (co_held_at a))
    (all_where (λ o, (co_restaurant_id o =? restaurant_id) && bool_decide (co_held_at o ≠ None)) (cart_orders s))).
