(* ===== verification/TabFacts.v ===== *)
(** * Correctness of the open tab

    Merging two bills and undoing it gives every line back to its bill; a split keeps
    every line and every dirham; who may cancel an order and when, and when it is
    offered for resale; totals follow the live lines. *)

From S2P Require Import Prelude Money Strings Db AuditTrail Decimals OrderFsm CartDb Carts CartFacts Tabs.

(** ** Operations that change one order *)

Record only_order (i : Z) (s s' : cart_db) : Prop := {
  oo_wf : table_wf (cart_orders s) → table_wf (cart_orders s');
  oo_other : ∀ j, j ≠ i → order_of j s' = order_of j s;
  oo_lines : cart_lines s' = cart_lines s;
  oo_now : cart_now s' = cart_now s;
  oo_next : next_id (cart_orders s') = next_id (cart_orders s);
  oo_free : ∀ rid n, order_number_taken rid n (cart_orders s) = false → order_number_taken rid n (cart_orders s') = false;
}.
#[export] Instance only_order_preorder i : PreOrder (only_order i).
Proof.
  split; [intros s; by split|]. intros s1 s2 s3 [W1 O1 L1 N1 X1 F1] [W2 O2 L2 N2 X2 F2]. split; [auto| |congruence..|auto].
  intros j Hj. by rewrite O2, O1.
Qed.
(** Log entries and audit rows change no order. *)
Lemma only_order_same i s s' :
  cart_orders s' = cart_orders s → cart_lines s' = cart_lines s → cart_now s' = cart_now s → only_order i s s'.
Proof. intros Ho Hl Hn. split; unfold order_of; rewrite ?Ho; done. Qed.

Lemma number_taken_set rid number o o' t :
  o ∈ rows t → co_restaurant_id o' = co_restaurant_id o → co_order_number o' = co_order_number o →
  order_number_taken rid number t = false → order_number_taken rid number (set_row o' t) = false.
Proof.
  unfold order_number_taken. intros Ho Hr Hn Hfree.
  destruct (first_where _ t) eqn:Hf; [done|]. rewrite first_where_None in Hf.
  destruct (first_where _ (set_row o' t)) as [x|] eqn:Hx; [|done]. exfalso.
  apply first_where_Some in Hx as [Hin Hp]. apply elem_of_set_row in Hin as [[-> _]|[Hin _]].
  - rewrite Hr, Hn in Hp. rewrite Hf in Hp; done.
  - by rewrite Hf in Hp.
Qed.

(** What no operation on an order changes. *)
Definition same_identity (o o' : CartOrder) : Prop :=
  co_id o' = co_id o ∧ co_restaurant_id o' = co_restaurant_id o ∧ co_order_number o' = co_order_number o.
Lemma update_order_spec i o0 o s :
  order_of i s = Some o0 → same_identity o0 o →
  ∃ u s', update_order o s = Ok tt s' ∧ only_order i s s' ∧ order_of i s' = Some (with_updated u o) ∧
    (o ≠ o0 → u = cart_now s).
Proof.
  intros Ho (Hid & Hr & Hn). unfold order_of in Ho. pose proof Ho as [Hin Hi]%get_row_Some. change (row_id o0) with (co_id o0) in Hi.
  rewrite Hi in Hid.
  assert (Hset : ∀ o', co_id o' = i → co_restaurant_id o' = co_restaurant_id o0 → co_order_number o' = co_order_number o0 → only_order i s (with_cart_orders (set_row o' (cart_orders s)) s) ∧
    order_of i (with_cart_orders (set_row o' (cart_orders s)) s) = Some o').
  { intros o' Hid' Hr' Hn'. split; [|by apply (get_row_set_eq i o' o0)]. split; [apply set_row_wf| |done..|].
    - intros j Hj. apply get_row_set_ne. change (row_id o') with (co_id o'). congruence.
    - intros rid n. by apply (number_taken_set _ _ o0). }
  unfold update_order, modify. rewrite Hid, Ho. destruct (decide (o = o0)) as [Heq|Hne].
  - rewrite bool_decide_eq_true_2 by done. cbn [negb]. exists (co_updated_at o). eexists. split; [reflexivity|].
    replace (with_updated (co_updated_at o) o) with o by by destruct o. by destruct (Hset o Hid Hr Hn).
  - rewrite bool_decide_eq_false_2 by done. cbn [negb]. exists (cart_now s). eexists. split; [reflexivity|].
    destruct (Hset (with_updated (cart_now s) o)); done.
Qed.

Lemma order_of_id i s o : order_of i s = Some o → co_id o = i.
Proof. intros Ho. by apply get_row_Some in Ho as [_ Ho]. Qed.

Lemma change_order_spec i f o s :
  order_of i s = Some o → same_identity o (f o) →
  ∃ u s', change_order i f s = Ok tt s' ∧ only_order i s s' ∧ order_of i s' = Some (with_updated u (f o)) ∧
    (f o ≠ o → u = cart_now s).
Proof.
  intros Ho Hid. unfold change_order. erewrite bind_run_Ok by reflexivity. cbv beta.
  unfold order_of in Ho. rewrite Ho. by apply (update_order_spec i o).
Qed.

(** ** Totals of the live lines *)

Definition live_total (oid : Z) (t : table Line) : Z := sum_where (λ l, ln_order_id l =? oid) live_amount t.
Definition live_sync (oid : Z) (s : cart_db) : Prop := ∃ o, order_of oid s = Some o ∧
  co_subtotal o = live_total oid (cart_lines s) ∧ co_total o = co_subtotal o + co_delivery_fee_aed o.

Lemma recompute_live_spec i o s :
  order_of i s = Some o →
  ∃ u s', _recompute_totals_excluding_cancelled i s = Ok tt s' ∧ only_order i s s' ∧
    order_of i s' = Some (with_updated u (with_totals (live_total i (cart_lines s))
      (live_total i (cart_lines s) + co_delivery_fee_aed o) o)) ∧ live_sync i s'.
Proof.
  intros Ho. unfold _recompute_totals_excluding_cancelled. erewrite bind_run_Ok by reflexivity. cbv beta.
  unfold lines_on. rewrite <-sum_where_all. fold (live_total i (cart_lines s)).
  destruct (change_order_spec i (λ o, with_totals (live_total i (cart_lines s)) (live_total i (cart_lines s) + co_delivery_fee_aed o) o)
    o s) as (u & s' & Hrun & Hoo & Hget & _); [done..|].
  exists u, s'. split_and!; [done..|]. eexists. split; [exact Hget|]. by rewrite (oo_lines _ _ _ Hoo).
Qed.

(** ** Handing lines over *)

Definition hand_over (to : Z) (tag : Line → option Z) (p : Line → bool) : table Line → table Line :=
  map_rows (λ l, if p l then with_order to (tag l) l else l).

Lemma move_lines_run to tag p s :
  table_wf (cart_lines s) →
  move_lines to tag (all_where p (cart_lines s)) s = Ok tt (with_cart_lines (hand_over to tag p (cart_lines s)) s).
Proof.
  intros Hwf. unfold move_lines, update_line.
  rewrite (for_each_modify (λ l s, with_cart_lines (set_row (with_order to (tag l) l) (cart_lines s)) s)). f_equal.
  assert (Hgen : ∀ l s, fold_left (λ s l, with_cart_lines (set_row (with_order to (tag l) l) (cart_lines s)) s) l s =
    with_cart_lines (fold_left (λ t l, set_row (with_order to (tag l) l) t) l (cart_lines s)) s).
  { clear. induction l as [|x l IH]; intros s; cbn; [by destruct s|]. by rewrite IH. }
  rewrite Hgen. f_equal. by apply (set_all_rows (λ l, with_order to (tag l) l)).
Qed.

Lemma live_amount_order to tag l : live_amount (with_order to tag l) = live_amount l.
Proof. done. Qed.
Lemma hand_over_live i to tag p t :
  live_total i (hand_over to tag p t) =
    sum_where (λ l, if p l then to =? i else ln_order_id l =? i) live_amount t.
Proof.
  unfold live_total, hand_over, map_rows, sum_where; cbn. induction (rows t) as [|l ls IH]; cbn; [done|]. rewrite IH.
  by destruct (p l).
Qed.

(** ** Cancelling *)

Lemma fsm_transition_spec i o to actor extra s :
  order_of i s = Some o →
  (validate (co_status o) to = false ∧
   fsm_transition i to actor extra s = Err (CartIllegalTransition (co_status o) to) s) ∨
  (validate (co_status o) to = true ∧
   ∃ u s', fsm_transition i to actor extra s = Ok tt s' ∧ only_order i s s' ∧
    order_of i s' = Some (with_updated u (with_cart_status to o)) ∧ (co_status o ≠ to → u = cart_now s) ∧
    cart_calls s' = cart_calls s ++ [CTransition i (co_status o) to]).
Proof.
  intros Ho. unfold fsm_transition. erewrite bind_run_Ok by reflexivity. cbv beta. rewrite Ho.
  destruct (validate (co_status o) to); cbn [negb]; [right|by left]. split; [done|].
  destruct (update_order_spec i o (with_cart_status to o) s) as (u & s1 & Hrun & Hoo & Hget & Hu);
    [done..|].
  rewrite (bind_run_Ok _ _ _ _ _ Hrun). exists u. eexists. split; [reflexivity|].
  assert (Hcalls : cart_calls s1 = cart_calls s) by (unfold update_order, modify in Hrun; by injection Hrun as <-).
  split_and!; [|exact Hget| |by cbn; rewrite Hcalls].
  - etrans; [exact Hoo|]. by apply only_order_same.
  - intros Hne. apply Hu. intros Heq. apply Hne. by rewrite <-Heq.
Qed.

(** Copies appended to the lines. *)
Lemma copy_lines_run (mk : Line → Z → Line) items s :
  (∀ l id, ln_id (mk l id) = id) →
  ∃ t copies, for_each (λ l, add_line (mk l) ≫= λ _, mret tt) items s = Ok tt (with_cart_lines t s) ∧
    rows t = rows (cart_lines s) ++ copies ∧ Forall2 (λ c l, ∃ id, c = mk l id) copies items ∧
    (table_wf (cart_lines s) → table_wf t).
Proof.
  intros Hmk. revert s. induction items as [|l items IH]; intros s; cbn [for_each].
  { exists (cart_lines s), []. rewrite app_nil_r. split_and!; [by destruct s|done|constructor|done]. }
  set (c := mk l (next_id (cart_lines s))).
  destruct (IH (with_cart_lines (add_row c (cart_lines s)) s)) as (t & copies & Hrun & Hrows & Hcp & Hwf).
  exists t, (c :: copies). erewrite bind_run_Ok by reflexivity. split_and!; [exact Hrun| | |].
  - rewrite Hrows. change (cart_lines (with_cart_lines _ s)) with (add_row c (cart_lines s)). unfold add_row; cbn [rows].
    by rewrite <-app_assoc.
  - constructor; [by eexists|done].
  - intros H0. apply Hwf. by apply add_row_wf; [|apply Hmk].
Qed.

Definition may_cancel (actor : string) (st : OrderStatus) : bool :=
  (actor =s "customer") && bool_decide (st ∈ _CUSTOMER_CANCELLABLE_STATUSES) ||
  in_strs actor _RESTAURANT_CANCEL_ACTORS && in_strs (status_value st) OPEN_ORDER_STATUSES.
Definition resells (actor : string) (st : OrderStatus) : bool := bool_decide (st = PREPARING) && (actor =s "customer").

(** What an order looks like once cancelled. *)
Definition cancelled_order (to : OrderStatus) (reason : option string) (now : Z) (o : CartOrder) : CartOrder :=
  with_updated now (with_cart_status to (with_cancellation reason (Some now) o)).

Lemma cancel_status_ok actor st :
  may_cancel actor st = true → validate st (if resells actor st then ON_RESALE else CANCELLED) = true ∧ st ≠ CANCELLED ∧ st ≠ ON_RESALE.
Proof.
  unfold may_cancel, resells. rewrite orb_true_iff, !andb_true_iff. intros [[Ha Hs]|[Ha Hs]].
  - rewrite Ha. destruct st; try (vm_compute in Hs; discriminate); done.
  - assert (actor =s "customer" = false) as ->.
    { apply String.eqb_neq. intros ->. vm_compute in Ha. discriminate. }
    rewrite andb_false_r. destruct st; try (vm_compute in Hs; discriminate); done.
Qed.
Lemma cancel_status_refused actor st :
  may_cancel actor st = false → in_strs actor _RESTAURANT_CANCEL_ACTORS = true → validate st CANCELLED = false.
Proof.
  unfold may_cancel. intros Hm Ha. rewrite Ha in Hm. cbn in Hm. apply orb_false_iff in Hm as [_ Hm].
  destruct st; try (vm_compute in Hm; discriminate); done.
Qed.

Lemma change_order_calls i f s s' : change_order i f s = Ok tt s' → cart_calls s' = cart_calls s.
Proof.
  unfold change_order. erewrite bind_run_Ok by reflexivity. cbv beta.
  destruct (get_row i (cart_orders s)) as [o|]; [unfold update_order, modify|unfold mret, M_ret]; by intros [= <-].
Qed.

(** Calls of other components change neither orders nor lines. *)
Record quiet (s s' : cart_db) : Prop := {
  qu_orders : cart_orders s' = cart_orders s;
  qu_lines : cart_lines s' = cart_lines s;
  qu_now : cart_now s' = cart_now s;
  qu_calls : ∃ l, cart_calls s' = cart_calls s ++ l;
}.
#[export] Instance quiet_preorder : PreOrder quiet.
Proof.
  split; [intros s; split; [done..|]; exists []; by rewrite app_nil_r|].
  intros s1 s2 s3 [O1 L1 N1 [l1 C1]] [O2 L2 N2 [l2 C2]]. split; [congruence..|]. exists (l1 ++ l2). by rewrite C2, C1, app_assoc.
Qed.
Lemma quiet_log c s : quiet s (with_cart_calls (cart_calls s ++ [c]) s).
Proof. split; [done..|by eexists]. Qed.
Lemma quiet_audit l s : quiet s (put_audit l s).
Proof. split; [done..|]. exists []. by rewrite app_nil_r. Qed.
Lemma quiet_only i s s' : quiet s s' → only_order i s s'.
Proof. intros []. by apply only_order_same. Qed.
Lemma quiet_order i s s' : quiet s s' → order_of i s' = order_of i s.
Proof. intros []. unfold order_of. congruence. Qed.
Lemma quiet_call c s s' : quiet s s' → c ∈ cart_calls s → c ∈ cart_calls s'.
Proof. intros [_ _ _ [l ->]] H. set_solver. Qed.

Lemma release_all_run i s : ∃ s', release_all i s = Ok tt s' ∧ quiet s s' ∧ CReleaseWallet i ∈ cart_calls s'.
Proof.
  eexists. split; [reflexivity|]. split; [|cbn; set_solver].
  etrans; [apply quiet_log|]. etrans; [apply quiet_log|]. apply quiet_log.
Qed.
Lemma emit_run i actor s : ∃ s', _emit_cancel_side_effects i actor s = Ok tt s' ∧ quiet s s'.
Proof.
  unfold _emit_cancel_side_effects. destruct (in_strs actor _RESTAURANT_CANCEL_ACTORS); eexists; (split; [reflexivity|]).
  - etrans; apply quiet_log.
  - apply quiet_log.
Qed.
(** The end of a cancellation: the preview is dropped and the others are told. *)
Lemma cancel_end_run {A} rid i actor (r : A) s :
  ∃ s', (log_call (CInvalidatePreview rid) ≫= λ _, _emit_cancel_side_effects i actor ≫= λ _, mret r) s = Ok r s' ∧ quiet s s'.
Proof.
  erewrite bind_run_Ok by reflexivity.
  destruct (emit_run i actor (with_cart_calls (cart_calls s ++ [CInvalidatePreview rid]) s)) as (s' & Hrun & Hq).
  rewrite (bind_run_Ok _ _ _ _ _ Hrun). exists s'. split; [done|]. etrans; [apply quiet_log|done].
Qed.

(** The reason and the moment are written and everything else is released. *)
Lemma cancel_released {A} i o reason (k : CM A) s :
  order_of i s = Some o →
  ∃ u s1, only_order i s s1 ∧ order_of i s1 = Some (with_updated u (with_cancellation reason (Some (cart_now s)) o)) ∧
    CReleaseWallet i ∈ cart_calls s1 ∧
    (now ← gets cart_now; change_order i (with_cancellation reason (Some now)) ≫= λ _, release_all i ≫= λ _, k) s = k s1.
Proof.
  intros Ho. erewrite bind_run_Ok by reflexivity. cbv beta.
  destruct (change_order_spec i (with_cancellation reason (Some (cart_now s))) o s) as (u & s1 & Hrun & Hoo & Hget & _); [done..|].
  rewrite (bind_run_Ok _ _ _ _ _ Hrun). destruct (release_all_run i s1) as (s2 & Hrun2 & Hq & Hc).
  rewrite (bind_run_Ok _ _ _ _ _ Hrun2). exists u, s2. split_and!; [|by rewrite (quiet_order _ _ _ Hq)|done|done].
  etrans; [exact Hoo|]. by apply quiet_only.
Qed.

(** A cancellation that may not happen raises. *)
Lemma cancel_order_run i o actor reason s :
  order_of i s = Some o →
  let extra := [("reason", JStr (default "" reason))]%string in
  if may_cancel actor (co_status o) then
    ∃ u s1, only_order i s s1 ∧ order_of i s1 = Some (with_updated u (with_cancellation reason (Some (cart_now s)) o)) ∧
      CReleaseWallet i ∈ cart_calls s1 ∧
      cancel_order i actor reason s =
        (if resells actor (co_status o) then put_on_resale i o actor extra else close_cancelled i o actor extra) s1
  else is_ok (cancel_order i actor reason s) = false.
Proof.
  intros Ho extra. unfold cancel_order. erewrite (bind_run_Ok (gets (order_of i))) by reflexivity. cbv beta. rewrite Ho.
  pose proof (cancel_status_refused actor (co_status o)) as Href.
  unfold may_cancel in *. fold extra. destruct (actor =s "customer") eqn:Hcust.
  - apply String.eqb_eq in Hcust as ->. change (in_strs "customer" _RESTAURANT_CANCEL_ACTORS) with false in *. cbn [andb negb orb] in *.
    rewrite orb_false_r in *. destruct (bool_decide (co_status o ∈ _CUSTOMER_CANCELLABLE_STATUSES)); cbn [negb]; [|done].
    by apply cancel_released.
  - cbn [andb orb negb] in *. rewrite andb_true_r. destruct (in_strs actor _RESTAURANT_CANCEL_ACTORS) eqn:Hact; cbn [andb negb] in *; [|done].
    destruct (cancel_released i o reason (if resells actor (co_status o) then put_on_resale i o actor extra
      else close_cancelled i o actor extra) s Ho) as (u & s1 & Hoo & Hget & Hcalls & Hrun).
    assert (Hre : resells actor (co_status o) = false) by (unfold resells; by rewrite Hcust, andb_false_r).
    rewrite andb_false_r. rewrite Hre in Hrun |- *. fold extra.
    destruct (in_strs (status_value (co_status o)) OPEN_ORDER_STATUSES); [eauto 10|].
    rewrite Hrun. unfold close_cancelled.
    destruct (fsm_transition_spec i _ CANCELLED actor extra s1 Hget) as [[_ Hf]|[Hv _]].
    + by rewrite (bind_run_Err _ _ _ _ _ Hf).
    + cbn in Hv. by rewrite Href in Hv.
Qed.

Lemma with_updated_twice u u' o : with_updated u (with_updated u' o) = with_updated u o.
Proof. done. Qed.

Lemma cancel_plain_spec i o actor reason s :
  order_of i s = Some o → may_cancel actor (co_status o) = true → resells actor (co_status o) = false →
  ∃ s', cancel_order i actor reason s = Ok None s' ∧ only_order i s s' ∧
    order_of i s' = Some (cancelled_order CANCELLED reason (cart_now s) o) ∧ CReleaseWallet i ∈ cart_calls s'.
Proof.
  intros Ho Hmay Hre. destruct (cancel_status_ok _ _ Hmay) as (Hval & Hnc & _). rewrite Hre in Hval.
  pose proof (cancel_order_run i o actor reason s Ho) as Hrun. cbv zeta in Hrun. rewrite Hmay, Hre in Hrun.
  destruct Hrun as (u & s1 & Hoo1 & Hget1 & Hcalls1 & ->). unfold close_cancelled.
  destruct (fsm_transition_spec i _ CANCELLED actor [("reason", JStr (default "" reason))]%string s1 Hget1)
    as [[Hf _]|(_ & u2 & s2 & Hrun2 & Hoo2 & Hget2 & Hu2 & Hcalls2)]; [cbn in Hf; congruence|].
  rewrite (bind_run_Ok _ _ _ _ _ Hrun2). destruct (cancel_end_run (co_restaurant_id o) i actor (@None CartOrder) s2) as (s3 & -> & Hq).
  exists s3. split_and!; [done| | |].
  - etrans; [exact Hoo1|]. etrans; [exact Hoo2|]. by apply quiet_only.
  - rewrite (quiet_order _ _ _ Hq), Hget2, Hu2 by done. by rewrite (oo_now _ _ _ Hoo1).
  - apply (quiet_call _ _ _ Hq). rewrite Hcalls2. set_solver.
Qed.

(** What a line is worth to the kitchen and the bill. *)
Definition dish_of (l : Line) : Z * option string * Z * Z * option string :=
  (ln_dish_id l, ln_variant_name l, ln_price_aed l, ln_qty l, ln_notes l).

Lemma all_where_rows {R} `{Row R} (p : R → bool) (t t' : table R) l :
  rows t' = rows t ++ l → all_where p t' = all_where p t ++ List.filter p l.
Proof. unfold all_where. intros ->. apply List.filter_app. Qed.
Lemma all_where_none {R} `{Row R} (p : R → bool) (t : table R) : (∀ r, r ∈ rows t → p r = false) → all_where p t = [].
Proof.
  unfold all_where. induction (rows t) as [|r l IH]; cbn; [done|]. intros Hp. rewrite Hp by set_solver. apply IH. set_solver.
Qed.

(** No line belongs to an order that does not exist yet. *)
Definition lines_placed (s : cart_db) : Prop := ∀ l, l ∈ rows (cart_lines s) → ln_order_id l < next_id (cart_orders s).

Lemma copies_on oid (mk : Line → Z → Line) items copies :
  (∀ l id, ln_order_id (mk l id) = oid) → Forall2 (λ c l, ∃ id, c = mk l id) copies items →
  List.filter (λ l, ln_order_id l =? oid) copies = copies.
Proof.
  intros Hmk. induction 1 as [|c l cs ls [id ->] _ IH]; cbn; [done|]. by rewrite Hmk, Z.eqb_refl, IH.
Qed.
Lemma copies_dishes (mk : Line → Z → Line) items copies :
  (∀ l id, dish_of (mk l id) = dish_of l) → Forall2 (λ c l, ∃ id, c = mk l id) copies items →
  dish_of <$> copies = dish_of <$> items.
Proof. intros Hmk. induction 1 as [|c l cs ls [id ->] _ IH]; cbn; [done|]. by rewrite Hmk, IH. Qed.

Lemma get_row_add_old {R} `{Row R} i (r : R) t : i ≠ row_id r → get_row i (add_row r t) = get_row i t.
Proof.
  intros Hi. unfold get_row, add_row; cbn. induction (rows t) as [|x l IH]; cbn; [|by destruct (row_id x =? i)].
  by rewrite (proj2 (Z.eqb_neq _ _)).
Qed.
Lemma put_on_resale_spec i o o1 actor extra s :
  order_of i s = Some o1 → co_status o1 = PREPARING → lines_placed s → i < next_id (cart_orders s) →
  order_number_taken (co_restaurant_id o1) (co_order_number o1 +:+ "-RS") (cart_orders s) = false →
  ∃ c s', put_on_resale i o actor extra s = Ok (Some c) s' ∧
    order_of i s' = Some (with_updated (cart_now s) (with_cart_status ON_RESALE o1)) ∧
    (∃ id, c = resale_copy o1 id (cart_now s)) ∧
    dish_of <$> lines_on (co_id c) s' = dish_of <$> lines_on i s ∧ lines_on i s' = lines_on i s ∧
    (∀ x, x ∈ cart_calls s → x ∈ cart_calls s').
Proof.
  intros Ho Hst Hpl Hi Hfree. unfold put_on_resale.
  destruct (fsm_transition_spec i o1 ON_RESALE actor extra s Ho)
    as [[Hf _]|(_ & u1 & s1 & Hrun1 & Hoo1 & Hget1 & Hu1 & Hcalls1)]; [by rewrite Hst in Hf|].
  rewrite (bind_run_Ok _ _ _ _ _ Hrun1). erewrite bind_run_Ok by reflexivity. cbv beta. rewrite Hget1. cbn [default].
  assert (Hnext : next_id (cart_orders s1) = next_id (cart_orders s)) by apply (oo_next _ _ _ Hoo1).
  set (o2 := with_updated u1 (with_cart_status ON_RESALE o1)).
  set (c := resale_copy o2 (next_id (cart_orders s1)) (cart_now s1)).
  assert (Hadd : add_resale o2 s1 = Ok c (with_cart_orders (add_row c (cart_orders s1)) s1)).
  { unfold add_resale. do 2 (erewrite bind_run_Ok by reflexivity; cbv beta zeta). fold c.
    change (co_restaurant_id c) with (co_restaurant_id o1).
    change (co_order_number c) with (co_order_number o1 +:+ "-RS").
    by rewrite (oo_free _ _ _ Hoo1 _ _ Hfree). }
  rewrite (bind_run_Ok _ _ _ _ _ Hadd). erewrite bind_run_Ok by reflexivity. cbv beta.
  set (s2 := with_cart_orders _ s1).
  destruct (copy_lines_run (line_copy (co_id c)) (lines_on i s2) s2) as (t & copies & Hrun3 & Hrows3 & Hcp & _); [done|].
  rewrite (bind_run_Ok _ _ _ _ _ Hrun3).
  destruct (cancel_end_run (co_restaurant_id o) i actor (Some c) (with_cart_lines t s2)) as (s4 & Hrun4 & Hq).
  rewrite Hrun4. exists c, s4.
  assert (Hl2 : cart_lines s2 = cart_lines s) by apply (oo_lines _ _ _ Hoo1).
  assert (Hon : ∀ j, lines_on j s4 = lines_on j s ++ List.filter (λ l, ln_order_id l =? j) copies).
  { intros j. unfold lines_on. rewrite (qu_lines _ _ Hq). cbn [cart_lines with_cart_lines].
    rewrite (all_where_rows _ (cart_lines s2) t copies Hrows3). by rewrite Hl2. }
  assert (Hc : co_id c = next_id (cart_orders s)) by exact Hnext.
  split_and!; [done| |exists (next_id (cart_orders s1)); unfold c; by rewrite (oo_now _ _ _ Hoo1)| | |].
  - rewrite (quiet_order _ _ _ Hq). unfold order_of; cbn [cart_orders with_cart_lines].
    rewrite Hu1 in Hget1 by by rewrite Hst. unfold order_of in Hget1.
    etrans; [|exact Hget1]. apply get_row_add_old. change (row_id c) with (co_id c). lia.
  - rewrite Hon, (copies_on (co_id c) (line_copy (co_id c)) (lines_on i s2)) by done.
    unfold lines_on at 1. rewrite all_where_none.
    + rewrite (copies_dishes (line_copy (co_id c)) (lines_on i s2)) by done. unfold lines_on. by rewrite Hl2.
    + intros l Hl. apply Z.eqb_neq. pose proof (Hpl l Hl). lia.
  - rewrite Hon. replace (List.filter _ copies) with (@nil Line); [by rewrite app_nil_r|].
    rewrite <-(copies_on (co_id c) (line_copy (co_id c)) (lines_on i s2) copies) by done.
    clear -Hc Hi. clearbody c. induction copies as [|x l IH]; cbn; [done|].
    destruct (ln_order_id x =? co_id c) eqn:E; cbn; [|exact IH]. zbool. rewrite (proj2 (Z.eqb_neq _ _)) by lia. exact IH.
  - intros x Hx. apply (quiet_call _ _ _ Hq). change (x ∈ cart_calls s1). rewrite Hcalls1. set_solver.
Qed.

(** Who may cancel an order, and what becomes of it.  A cancellation succeeds exactly
    when a customer asks before the order is ready, or staff ask before it is delivered;
    then the order carries the reason and the moment and its held credit is released.
    The customer who gives up food that is cooking leaves it on resale, as a copy with
    the same lines and total; every other cancellation closes the order. *)
Theorem cancellation_verdict i o actor reason s :
  order_of i s = Some o → lines_placed s → i < next_id (cart_orders s) →
  order_number_taken (co_restaurant_id o) (co_order_number o +:+ "-RS") (cart_orders s) = false →
  match cancel_order i actor reason s with
  | Ok None s' =>
      may_cancel actor (co_status o) = true ∧ resells actor (co_status o) = false ∧
      order_of i s' = Some (cancelled_order CANCELLED reason (cart_now s) o) ∧ CReleaseWallet i ∈ cart_calls s'
  | Ok (Some c) s' =>
      may_cancel actor (co_status o) = true ∧ resells actor (co_status o) = true ∧
      order_of i s' = Some (cancelled_order ON_RESALE reason (cart_now s) o) ∧ CReleaseWallet i ∈ cart_calls s' ∧
      co_resale_of_order_id c = Some i ∧ co_total c = co_total o ∧
      dish_of <$> lines_on (co_id c) s' = dish_of <$> lines_on i s ∧ lines_on i s' = lines_on i s
  | Err _ _ => may_cancel actor (co_status o) = false
  end.
Proof.
  intros Ho Hpl Hi Hfree. pose proof (cancel_order_run i o actor reason s Ho) as Hrun. cbv zeta in Hrun.
  destruct (may_cancel actor (co_status o)) eqn:Hmay; [|by destruct (cancel_order i actor reason s)].
  destruct (resells actor (co_status o)) eqn:Hre.
  2: { destruct (cancel_plain_spec i o actor reason s Ho Hmay Hre) as (s' & -> & _ & Hget & Hc). done. }
  assert (Hst : co_status o = PREPARING).
  { unfold resells in Hre. apply andb_true_iff in Hre as [Hre _]. by apply bool_decide_eq_true in Hre. }
  destruct Hrun as (u & s1 & Hoo1 & Hget1 & Hcalls1 & ->).
  destruct (put_on_resale_spec i o _ actor [("reason", JStr (default "" reason))]%string s1 Hget1)
    as (c & s2 & -> & Hget2 & [id ->] & Hcopy & Hsame & Hcalls2); [done| | | |].
  - intros l. rewrite (oo_lines _ _ _ Hoo1), (oo_next _ _ _ Hoo1). apply Hpl.
  - by rewrite (oo_next _ _ _ Hoo1).
  - by apply (oo_free _ _ _ Hoo1).
  - assert (Hon : lines_on i s1 = lines_on i s) by (unfold lines_on; by rewrite (oo_lines _ _ _ Hoo1)).
    rewrite Hon in Hcopy, Hsame. split_and!; [done|done| |auto|by rewrite <-(order_of_id _ _ _ Ho)|done..].
    rewrite Hget2. by rewrite (oo_now _ _ _ Hoo1).
Qed.

(** ** Splitting *)

Lemma get_order_for_tenant_spec rid oid s :
  table_wf (cart_orders s) →
  get_order_for_tenant rid oid s =
    Ok (match order_of oid s with Some o => if co_restaurant_id o =? rid then Some o else None | None => None end) s.
Proof.
  intros Hwf. unfold get_order_for_tenant, gets. f_equal. unfold order_of.
  destruct (get_row oid (cart_orders s)) as [o|] eqn:Ho.
  - pose proof Ho as [Hin Hid]%get_row_Some. change (row_id o) with (co_id o) in Hid.
    destruct (co_restaurant_id o =? rid) eqn:Hr.
    + apply first_where_unique; [done|by rewrite Hid, Z.eqb_refl|]. intros o' Hin' Hp. apply andb_true_iff in Hp as [Hp _]. zbool.
      apply (wf_unique _ Hwf); [done..|]. change (co_id o' = co_id o). congruence.
    + apply first_where_None. intros o' Hin'. apply andb_false_iff. destruct (co_id o' =? oid) eqn:E; [right|by left]. zbool.
      rewrite (wf_unique _ Hwf o' o); [by apply Z.eqb_neq|done..|]. change (co_id o' = co_id o). congruence.
  - apply first_where_None. intros o' Hin'. apply andb_false_iff. left. exact (find_None_in _ _ _ Ho Hin').
Qed.

(** The lines of order [oid] named in [ids]. *)
Definition chosen (oid : Z) (ids : list Z) (l : Line) : bool := existsb (Z.eqb (ln_id l)) ids && (ln_order_id l =? oid).
Lemma chosen_spec oid ids l : chosen oid ids l = true ↔ ln_id l ∈ ids ∧ ln_order_id l = oid.
Proof.
  unfold chosen. rewrite andb_true_iff, existsb_exists, Z.eqb_eq. split; [intros [(x & Hx & E) ?]|intros [Hx ?]].
  - zbool. subst x. by rewrite list_elem_of_In.
  - split; [|done]. exists (ln_id l). by rewrite <-list_elem_of_In, Z.eqb_refl.
Qed.

(** All the ids are found exactly when each names a line of the order. *)
Lemma all_found oid ids t :
  table_wf t →
  (length (all_where (chosen oid (remove_dups ids)) t) =? length (remove_dups ids))%nat = true ↔
  ∀ i, i ∈ ids → ∃ l, l ∈ rows t ∧ ln_id l = i ∧ ln_order_id l = oid.
Proof.
  intros Hwf. rewrite Nat.eqb_eq. set (items := all_where _ t).
  assert (Hit : ∀ l, l ∈ items ↔ l ∈ rows t ∧ ln_id l ∈ ids ∧ ln_order_id l = oid).
  { intros l. unfold items. by rewrite elem_of_all_where, chosen_spec, elem_of_remove_dups. }
  assert (Hnd : NoDup (ln_id <$> items)).
  { apply NoDup_fmap_2_strong; [|apply NoDup_ListNoDup, List.NoDup_filter, NoDup_ListNoDup, Hwf].
    intros x y Hx Hy. apply (wf_unique _ Hwf); by apply Hit. }
  assert (Hsub : (ln_id <$> items) ⊆+ remove_dups ids).
  { apply NoDup_submseteq; [done|]. intros i Hi. apply list_elem_of_fmap in Hi as (l & -> & Hl). apply elem_of_remove_dups.
    by apply Hit in Hl as (_ & ? & _). }
  split.
  - intros Hlen i Hi.
    assert (Hperm : (ln_id <$> items) ≡ₚ remove_dups ids).
    { apply submseteq_length_Permutation; [done|rewrite length_fmap; lia]. }
    apply elem_of_remove_dups in Hi. rewrite <-Hperm in Hi. apply list_elem_of_fmap in Hi as (l & -> & Hl).
    apply Hit in Hl as (? & _ & ?). eauto.
  - intros Hall. rewrite <-(length_fmap ln_id items). apply Permutation_length, NoDup_Permutation; [done|apply NoDup_remove_dups|].
    intros i. rewrite elem_of_remove_dups, list_elem_of_fmap. split.
    + intros (l & -> & Hl). by apply Hit in Hl as (_ & ? & _).
    + intros Hi. destruct (Hall i Hi) as (l & Hl & <- & Ho). exists l. split; [done|]. by apply Hit.
Qed.

(** A split is allowed on lines of an order the kitchen has not finished. *)
Definition splittable (o : CartOrder) (ids : list Z) (s : cart_db) : Prop :=
  ids ≠ [] ∧ co_status o ∉ _NON_MODIFIABLE_STATUSES ∧
  ∀ i, i ∈ ids → ∃ l, l ∈ rows (cart_lines s) ∧ ln_id l = i ∧ ln_order_id l = co_id o.

Lemma live_total_moved i to tag p t :
  table_wf t → (∀ l, l ∈ rows t → p l = true → ln_order_id l = i) → to ≠ i →
  live_total i (hand_over to tag p t) = live_total i t - sum_where p live_amount t ∧
  live_total to (hand_over to tag p t) = live_total to t + sum_where p live_amount t.
Proof.
  intros Hwf Hp Hne. rewrite !hand_over_live. unfold live_total, sum_where. rewrite (proj2 (Z.eqb_neq to i)), Z.eqb_refl by done.
  assert (Hp' : ∀ l, l ∈ rows t → p l = true → ln_order_id l = i) by done. clear Hp Hwf. induction (rows t) as [|l ls IH]; cbn; [lia|].
  destruct IH as [IH1 IH2]; [set_solver|]. rewrite IH1, IH2. destruct (p l) eqn:Hpl.
  - rewrite (Hp' l) by (done || set_solver). rewrite Z.eqb_refl, (proj2 (Z.eqb_neq i to)) by congruence. lia.
  - destruct (ln_order_id l =? i), (ln_order_id l =? to); lia.
Qed.

Lemma order_of_add_old i o s :
  i ≠ co_id o → order_of i (with_cart_orders (add_row o (cart_orders s)) s) = order_of i s.
Proof. intros Hi. by apply get_row_add_old. Qed.
Lemma order_of_add_new o s :
  table_wf (cart_orders s) → co_id o = next_id (cart_orders s) →
  order_of (co_id o) (with_cart_orders (add_row o (cart_orders s)) s) = Some o.
Proof.
  intros Hwf Hid. apply (get_row_wf (add_row o (cart_orders s)) o); [by apply add_row_wf|].
  apply elem_of_add_row. by right.
Qed.

Lemma split_off_run rid oid o uids p s :
  table_wf (cart_orders s) → table_wf (cart_lines s) → lines_placed s → order_of oid s = Some o →
  (∀ l, p l = true → ln_order_id l = oid) →
  ∃ n s', split_off rid o uids (all_where p (cart_lines s)) s = Ok n s' ∧ co_id n ≠ oid ∧ order_of (co_id n) s' = Some n ∧
    (co_customer_id n, co_table_id n, co_staff_id n, co_status n) = (co_customer_id o, co_table_id o, co_staff_id o, DRAFT) ∧
    co_order_type n = "delivery" ∧
    cart_lines s' = hand_over (co_id n) ln_merged_from_order_id p (cart_lines s) ∧ live_sync oid s' ∧ live_sync (co_id n) s' ∧
    live_total oid (cart_lines s') + live_total (co_id n) (cart_lines s') = live_total oid (cart_lines s).
Proof.
  intros Hwf Hwl Hpl Ho Hp. pose proof (order_of_id _ _ _ Ho) as Hid. unfold split_off. rewrite Hid.
  rewrite (bind_run_Ok _ _ _ _ _ (create_draft_run rid (co_customer_id o) s)).
  set (n0 := next_draft rid (co_customer_id o) s). set (s1 := with_cart_orders (add_row n0 (cart_orders s)) s).
  assert (Hlt : oid < co_id n0).
  { rewrite <-Hid. apply (wf_fresh _ Hwf). by apply get_row_Some in Ho as [? _]. }
  assert (Hn1 : order_of (co_id n0) s1 = Some n0) by by apply order_of_add_new.
  assert (Ho1 : order_of oid s1 = Some o) by (unfold s1; rewrite order_of_add_old; [done|lia]).
  destruct (change_order_spec (co_id n0) (with_place (co_table_id o) (co_staff_id o)) n0 s1 Hn1)
    as (u2 & s2 & Hrun2 & Hoo2 & Hget2 & _); [done|].
  rewrite (bind_run_Ok _ _ _ _ _ Hrun2).
  assert (Hl2 : cart_lines s2 = cart_lines s) by apply (oo_lines _ _ _ Hoo2).
  pose proof (move_lines_run (co_id n0) ln_merged_from_order_id p s2) as Hmove. rewrite Hl2 in Hmove.
  rewrite (bind_run_Ok _ _ _ _ _ (Hmove Hwl)).
  set (t := hand_over _ _ _ _). set (s3 := with_cart_lines t s2).
  destruct (recompute_live_spec oid o s3) as (u4 & s4 & Hrun4 & Hoo4 & Hget4 & Hsync4).
  { change (order_of oid s2 = Some o). rewrite (oo_other _ _ _ Hoo2) by lia. done. }
  rewrite (bind_run_Ok _ _ _ _ _ Hrun4).
  destruct (recompute_live_spec (co_id n0) (with_updated u2 (with_place (co_table_id o) (co_staff_id o) n0)) s4)
    as (u5 & s5 & Hrun5 & Hoo5 & Hget5 & Hsync5).
  { rewrite (oo_other _ _ _ Hoo4) by lia. done. }
  rewrite (bind_run_Ok _ _ _ _ _ Hrun5).
  erewrite bind_run_Ok by reflexivity. cbv beta. rewrite (bind_run_Ok _ _ _ _ _ (audit_run _ _ _ _ _ _ _ _)).
  unfold gets. set (n := with_updated u5 _) in Hget5. exists n. eexists. split.
  { f_equal. change (default n0 (order_of (co_id n0) s5) = n). by rewrite Hget5. }
  assert (Hl5 : cart_lines s5 = t) by (rewrite (oo_lines _ _ _ Hoo5), (oo_lines _ _ _ Hoo4); done).
  change (co_id n) with (co_id n0). split_and!; [lia|exact Hget5|done|done|exact Hl5| |exact Hsync5|].
  - destruct Hsync4 as (o4 & H4 & Hs4 & Ht4). exists o4. split; [|by rewrite (oo_lines _ _ _ Hoo4) in Hs4; cbn; rewrite Hl5].
    change (order_of oid s5 = Some o4). rewrite (oo_other _ _ _ Hoo5) by lia. done.
  - cbn [cart_lines put_audit cart_has_audit]. rewrite Hl5.
    destruct (live_total_moved oid (co_id n0) ln_merged_from_order_id p (cart_lines s)) as [H1 H2]; [done|auto|lia|].
    unfold t. rewrite H1, H2. enough (live_total (co_id n0) (cart_lines s) = 0) by lia.
    apply sum_where_none. intros l Hl. apply Z.eqb_neq. pose proof (Hpl l Hl). change (co_id n0) with (next_id (cart_orders s)). lia.
Qed.

(** Splitting a bill keeps every line and every dirham.  It succeeds exactly when the
    order can still be modified and all the ids are its lines, and otherwise changes
    nothing; then the named lines, unchanged but for their order, are the new draft's,
    the draft has the order's customer, table and waiter, and the two totals are those
    of the lines each kept. *)
Theorem split_conserves rid oid ids o s :
  table_wf (cart_orders s) → table_wf (cart_lines s) → lines_placed s →
  order_of oid s = Some o → co_restaurant_id o = rid →
  match split_order_by_items rid oid ids s with
  | Ok n s' =>
      splittable o ids s ∧ co_id n ≠ oid ∧ order_of (co_id n) s' = Some n ∧
      (co_customer_id n, co_table_id n, co_staff_id n, co_status n) = (co_customer_id o, co_table_id o, co_staff_id o, DRAFT) ∧
      cart_lines s' = hand_over (co_id n) ln_merged_from_order_id (chosen oid (remove_dups ids)) (cart_lines s) ∧
      live_sync oid s' ∧ live_sync (co_id n) s' ∧
      live_total oid (cart_lines s') + live_total (co_id n) (cart_lines s') = live_total oid (cart_lines s)
  | Err _ s' => s' = s ∧ ¬ splittable o ids s
  end.
Proof.
  intros Hwf Hwl Hpl Ho Hr. pose proof (order_of_id _ _ _ Ho) as Hid. unfold split_order_by_items.
  destruct ids as [|i0 ids0]; [split; [done|]; by intros [? _]|]. set (ids := i0 :: ids0).
  rewrite (bind_run_Ok _ _ _ _ _ (get_order_for_tenant_spec rid oid s Hwf)), Ho, (proj2 (Z.eqb_eq _ _) Hr).
  unfold _assert_order_modifiable. destruct (bool_decide (co_status o ∈ _NON_MODIFIABLE_STATUSES)) eqn:Hmod.
  { split; [done|]. apply bool_decide_eq_true in Hmod. by intros (_ & Hn & _). }
  erewrite bind_run_Ok by reflexivity. erewrite bind_run_Ok by reflexivity. cbv beta zeta.
  change (all_where _ (cart_lines s)) with (all_where (chosen (co_id o) (remove_dups ids)) (cart_lines s)). rewrite Hid.
  pose proof (all_found oid ids (cart_lines s) Hwl) as Hall. apply bool_decide_eq_false in Hmod.
  destruct (length _ =? length _)%nat; cbn [negb].
  - destruct (split_off_run rid oid o (remove_dups ids) (chosen oid (remove_dups ids)) s)
      as (n & s' & -> & Hne & Hget & Hsame & _ & Hrest); [done..|by intros l [_ ?]%chosen_spec|].
    split_and!; try done; try apply Hrest. split_and!; [done|done|]. rewrite Hid. by apply Hall.
  - split; [done|]. intros (_ & _ & H). rewrite Hid in H. by apply Hall in H.
Qed.

(** ** Merging and undoing a merge *)

Lemma mergeable_cancels q : mergeable q = true → may_cancel "manager" (co_status q) = true ∧ resells "manager" (co_status q) = false.
Proof. unfold mergeable. by destruct (co_status q). Qed.

Lemma merge_run rid pid qid p q s :
  table_wf (cart_orders s) → table_wf (cart_lines s) → order_of pid s = Some p → order_of qid s = Some q →
  co_restaurant_id p = rid → co_restaurant_id q = rid → pid ≠ qid → mergeable p = true → mergeable q = true →
  ∃ r s', merge_orders rid pid qid s = Ok r s' ∧ table_wf (cart_orders s') ∧
    cart_lines s' = hand_over pid (λ _, Some qid) (λ l, ln_order_id l =? qid) (cart_lines s) ∧ live_sync pid s' ∧
    (∃ p', order_of pid s' = Some p' ∧ co_restaurant_id p' = rid ∧ co_status p' = co_status p ∧ co_table_id p' = co_table_id p) ∧
    order_of qid s' = Some (cancelled_order CANCELLED (Some ("Merged into order " +:+ co_order_number p)) (cart_now s) q) ∧
    (∀ j, j ≠ pid → j ≠ qid → order_of j s' = order_of j s).
Proof.
  intros Hwf Hwl Hp Hq Hrp Hrq Hne Hmp Hmq. pose proof (order_of_id _ _ _ Hp) as Hpid. pose proof (order_of_id _ _ _ Hq) as Hqid.
  unfold merge_orders. rewrite (proj2 (Z.eqb_neq _ _) Hne).
  rewrite (bind_run_Ok _ _ _ _ _ (get_order_for_tenant_spec rid pid s Hwf)), Hp, (proj2 (Z.eqb_eq _ _) Hrp).
  rewrite (bind_run_Ok _ _ _ _ _ (get_order_for_tenant_spec rid qid s Hwf)), Hq, (proj2 (Z.eqb_eq _ _) Hrq).
  rewrite Hmp, Hmq, Hpid, Hqid. cbn [andb negb]. erewrite bind_run_Ok by reflexivity. cbv beta.
  unfold lines_on. rewrite (bind_run_Ok _ _ _ _ _ (move_lines_run pid (λ _, Some qid) (λ l, ln_order_id l =? qid) s Hwl)).
  set (t := hand_over _ _ _ _). set (s1 := with_cart_lines t s).
  destruct (recompute_live_spec pid p s1 Hp) as (u2 & s2 & Hrun2 & Hoo2 & Hget2 & Hsync2).
  rewrite (bind_run_Ok _ _ _ _ _ Hrun2). destruct (mergeable_cancels q Hmq) as [Hmay Hre].
  destruct (cancel_plain_spec qid q "manager" (Some ("Merged into order " +:+ co_order_number p)) s2)
    as (s3 & Hrun3 & Hoo3 & Hget3 & _); [by rewrite (oo_other _ _ _ Hoo2) by done|done|done|].
  rewrite (bind_run_Ok _ _ _ _ _ Hrun3). erewrite bind_run_Ok by reflexivity. cbv beta.
  rewrite (bind_run_Ok _ _ _ _ _ (audit_run _ _ _ _ _ _ _ _)). eexists _, _. split; [reflexivity|].
  assert (Hl3 : cart_lines s3 = t) by (rewrite (oo_lines _ _ _ Hoo3), (oo_lines _ _ _ Hoo2); done).
  split_and!; [apply (oo_wf _ _ _ Hoo3), (oo_wf _ _ _ Hoo2), Hwf|exact Hl3| | | |].
  - destruct Hsync2 as (o2 & H2 & Hs2 & Ht2). exists o2. rewrite (oo_lines _ _ _ Hoo2) in Hs2. split; [|by cbn; rewrite Hl3].
    change (order_of pid s3 = Some o2). by rewrite (oo_other _ _ _ Hoo3).
  - exists (with_updated u2 (with_totals (live_total pid t) (live_total pid t + co_delivery_fee_aed p) p)). split; [|done].
    etrans; [exact (oo_other _ _ _ Hoo3 pid Hne)|exact Hget2].
  - change (order_of qid s3 = Some (cancelled_order CANCELLED (Some ("Merged into order " +:+ co_order_number p)) (cart_now s) q)).
    rewrite Hget3. by rewrite (oo_now _ _ _ Hoo2).
  - intros j Hj1 Hj2. change (order_of j s3 = order_of j s). by rewrite (oo_other _ _ _ Hoo3), (oo_other _ _ _ Hoo2).
Qed.

Lemma unmerge_run rid pid qid p q actor s :
  table_wf (cart_orders s) → table_wf (cart_lines s) → order_of pid s = Some p → order_of qid s = Some q →
  co_restaurant_id p = rid → pid ≠ qid → last_merged pid s = Some q →
  ∃ r s', unmerge_last_merge rid pid actor s = Ok r s' ∧ 
    cart_lines s' = hand_over qid (λ _, None) (λ l, (ln_order_id l =? pid) && bool_decide (ln_merged_from_order_id l = Some qid)) (cart_lines s) ∧
    live_sync pid s' ∧ live_sync qid s' ∧ order_of qid s' = Some r ∧
    (∃ u x y, r = with_updated u (with_totals x y (with_cancellation None None (with_cart_status CONFIRMED q)))) ∧
    (∀ j, j ≠ pid → j ≠ qid → order_of j s' = order_of j s).
Proof.
  intros Hwf Hwl Hp Hq Hrp Hne Hlast. pose proof (order_of_id _ _ _ Hp) as Hpid. pose proof (order_of_id _ _ _ Hq) as Hqid.
  unfold unmerge_last_merge.
  rewrite (bind_run_Ok _ _ _ _ _ (get_order_for_tenant_spec rid pid s Hwf)), Hp, (proj2 (Z.eqb_eq _ _) Hrp).
  rewrite Hpid. erewrite bind_run_Ok by reflexivity. rewrite Hlast, Hqid. erewrite bind_run_Ok by reflexivity. cbv beta.
  rewrite (bind_run_Ok _ _ _ _ _ (move_lines_run qid (λ _, None) _ s Hwl)).
  set (t := hand_over _ _ _ _). set (s1 := with_cart_lines t s).
  destruct (change_order_spec qid (λ o, with_cancellation None None (with_cart_status CONFIRMED o)) q s1 Hq)
    as (u2 & s2 & Hrun2 & Hoo2 & Hget2 & _); [done|]. rewrite (bind_run_Ok _ _ _ _ _ Hrun2).
  destruct (recompute_live_spec pid p s2) as (u3 & s3 & Hrun3 & Hoo3 & Hget3 & Hsync3); [by rewrite (oo_other _ _ _ Hoo2)|].
  rewrite (bind_run_Ok _ _ _ _ _ Hrun3).
  edestruct (recompute_live_spec qid) as (u4 & s4 & Hrun4 & Hoo4 & Hget4 & Hsync4);
    [rewrite (oo_other _ _ _ Hoo3) by done; exact Hget2|].
  rewrite (bind_run_Ok _ _ _ _ _ Hrun4). erewrite bind_run_Ok by reflexivity. cbv beta.
  rewrite (bind_run_Ok _ _ _ _ _ (audit_run _ _ _ _ _ _ _ _)). unfold gets. set (r := with_updated u4 _) in Hget4.
  exists r. eexists. split; [f_equal; change (default q (order_of qid s4) = r); by rewrite Hget4|].
  assert (Hl4 : cart_lines s4 = t) by (rewrite (oo_lines _ _ _ Hoo4), (oo_lines _ _ _ Hoo3), (oo_lines _ _ _ Hoo2); done).
  split_and!; [exact Hl4| |exact Hsync4|exact Hget4|by eexists _, _, _|].
  - destruct Hsync3 as (o3 & H3 & Hs3 & Ht3). exists o3. rewrite (oo_lines _ _ _ Hoo3) in Hs3. split.
    + change (order_of pid s4 = Some o3). by rewrite (oo_other _ _ _ Hoo4).
    + split; [|done]. rewrite Hs3. cbn [cart_lines put_audit cart_has_audit]. by rewrite Hl4, (oo_lines _ _ _ Hoo2).
  - intros j Hj1 Hj2. change (order_of j s4 = order_of j s).
    by rewrite (oo_other _ _ _ Hoo4), (oo_other _ _ _ Hoo3), (oo_other _ _ _ Hoo2).
Qed.

(** The first of a sorted list is the one every other is strictly below. *)
Lemma head_sort_by {A} (le : A → A → bool) (x : A) l :
  (∀ a b, le a b = false → le b a = true) → (∀ a b c, le a b = true → le b c = true → le a c = true) →
  x ∈ l → (∀ y, y ∈ l → le y x = true → y = x) → head (sort_by le l) = Some x.
Proof.
  intros Htot Htr Hx Hu. pose proof (sort_by_sorted le Htot Htr l) as Hs.
  assert (Hx' : x ∈ sort_by le l) by by apply elem_of_sort_by.
  assert (Hin : ∀ y, y ∈ sort_by le l → y ∈ l) by (intros y; apply elem_of_sort_by).
  destruct (sort_by le l) as [|h t]; [set_solver|]. cbn. f_equal. apply StronglySorted_inv in Hs as [_ Hh].
  apply elem_of_cons in Hx' as [->|Ht]; [done|]. apply Hu; [apply Hin; set_solver|].
  rewrite Forall_forall in Hh. by apply Is_true_true, Hh.
Qed.

Lemma last_merged_spec pid q s :
  table_wf (cart_orders s) → order_of (co_id q) s = Some q → co_id q ∈ merged_ids pid s →
  (∀ k o, k ∈ merged_ids pid s → order_of k s = Some o → k = co_id q ∨ co_updated_at o < co_updated_at q) →
  last_merged pid s = Some q.
Proof.
  intros Hwf Hq Hin Hother. unfold last_merged. apply head_sort_by.
  - intros a b H. lia.
  - intros a b c H1 H2. lia.
  - apply elem_of_all_where. split; [by apply get_row_Some in Hq as [? _]|]. apply existsb_exists.
    exists (co_id q). by rewrite <-list_elem_of_In, Z.eqb_refl.
  - intros o Ho Hle. zbool. apply elem_of_all_where in Ho as [Ho (k & Hk & E)%existsb_exists]. zbool.
    rewrite <-list_elem_of_In in Hk. subst k.
    assert (Hget : order_of (co_id o) s = Some o) by by apply (get_row_wf (cart_orders s) o).
    destruct (Hother _ _ Hk Hget) as [Heq|Hlt]; [|lia]. rewrite Heq in Hget. congruence.
Qed.

Lemma elem_of_merged_ids pid k s :
  k ∈ merged_ids pid s ↔ ∃ l, l ∈ rows (cart_lines s) ∧ ln_order_id l = pid ∧ ln_merged_from_order_id l = Some k.
Proof.
  unfold merged_ids. rewrite list_elem_of_omap. unfold lines_on. setoid_rewrite elem_of_all_where. setoid_rewrite Z.eqb_eq. naive_solver.
Qed.
Lemma elem_of_hand_over to tag p t l :
  l ∈ rows (hand_over to tag p t) ↔ ∃ l0, l0 ∈ rows t ∧ l = if p l0 then with_order to (tag l0) l0 else l0.
Proof. unfold hand_over, map_rows; cbn. rewrite list_elem_of_In, List.in_map_iff. setoid_rewrite <-list_elem_of_In. naive_solver. Qed.

(** Earlier merges into the primary happened before now, and none was of this order. *)
Definition merge_is_new (pid qid : Z) (s : cart_db) : Prop :=
  ∀ l k, l ∈ rows (cart_lines s) → ln_order_id l = pid → ln_merged_from_order_id l = Some k →
    k ≠ pid ∧ k ≠ qid ∧ ∀ o, order_of k s = Some o → co_updated_at o < cart_now s.

Lemma hand_back pid qid t :
  pid ≠ qid →
  (∀ l, l ∈ rows t → ln_order_id l = pid → ln_merged_from_order_id l ≠ Some qid) →
  (∀ l, l ∈ rows t → ln_order_id l = qid → ln_merged_from_order_id l = None) →
  hand_over qid (λ _, None) (λ l, (ln_order_id l =? pid) && bool_decide (ln_merged_from_order_id l = Some qid))
    (hand_over pid (λ _, Some qid) (λ l, ln_order_id l =? qid) t) = t.
Proof.
  intros Hne Hp Hq. unfold hand_over. rewrite map_rows_rows. apply map_rows_id. intros l Hl.
  destruct (ln_order_id l =? qid) eqn:E; zbool.
  - cbn. rewrite Z.eqb_refl, bool_decide_eq_true_2 by done. cbn. pose proof (Hq l Hl E). destruct l; cbn in *. by subst.
  - destruct (ln_order_id l =? pid) eqn:E'; zbool; [|done]. by rewrite bool_decide_eq_false_2 by by apply Hp.
Qed.


(** ** Tabs to evaluate *)

Definition tab_order (id table : Z) (number : string) (st : OrderStatus) (total updated : Z) : CartOrder := {|
  co_id := id; co_restaurant_id := 1; co_customer_id := 7; co_order_number := number; co_status := st;
  co_priority := "normal"; co_order_type := "dine_in"; co_table_id := Some table; co_staff_id := Some 3;
  co_subtotal := total; co_delivery_fee_aed := 0; co_total := total; co_held_at := None; co_held_reason := None;
  co_cancellation_reason := None; co_cancelled_at := None; co_daily_token := None; co_resale_of_order_id := None;
  co_created_at := 0; co_updated_at := updated |}.
Definition tab_line (id order price qty : Z) (cancelled : bool) : Line := {|
  ln_id := id; ln_order_id := order; ln_dish_id := 10; ln_dish_number := None; ln_dish_name := "biryani";
  ln_variant_name := None; ln_price_aed := price; ln_qty := qty; ln_notes := None; ln_cancelled := cancelled;
  ln_cancelled_reason := None; ln_merged_from_order_id := None; ln_selected_modifiers := []; ln_seat_number := None;
  ln_course_number := 1; ln_course_held := false; ln_fired_at := None; ln_is_takeaway := false;
  ln_allergens_snapshot := []; ln_station_id_snapshot := None |}.
Definition ex_tabs (st2 : OrderStatus) : cart_db := {|
  cart_orders := Table [tab_order 1 5 "R1-0001" CONFIRMED 5000 1; tab_order 2 6 "R1-0002" st2 1200 2;
                        tab_order 3 8 "R1-0003" CONFIRMED 900 3] 4;
  cart_lines := Table [tab_line 1 1 2500 2 false; tab_line 2 2 1200 1 false; tab_line 3 2 700 1 true;
                       tab_line 4 3 900 1 false] 5;
  cart_dishes := empty_table; price_rules := empty_table; modifier_groups := empty_table; modifiers := empty_table;
  staff_of := [(3, 1)]; cart_audit := []; cart_calls := []; cart_now := 100 |}.

Lemma ex_tabs_wf st : table_wf (cart_orders (ex_tabs st)) ∧ table_wf (cart_lines (ex_tabs st)).
Proof. split; by apply table_wf_check. Defined.
Lemma ex_tabs_placed st : lines_placed (ex_tabs st).
Proof. intros l Hl. change (ln_order_id l < 4). repeat (apply elem_of_cons in Hl as [->|Hl]; [done|]). set_solver. Defined.

Theorem cancellation_verdict_witness :
  ∃ c s', cancel_order 2 "customer" (Some "late"%string) (ex_tabs PREPARING) = Ok (Some c) s' ∧
    co_resale_of_order_id c = Some 2 ∧ co_total c = 1200.
Proof.
  pose proof (cancellation_verdict 2 (tab_order 2 6 "R1-0002" PREPARING 1200 2) "customer" (Some "late"%string) (ex_tabs PREPARING)
    eq_refl (ex_tabs_placed PREPARING) eq_refl eq_refl) as H.
  destruct (cancel_order 2 "customer" (Some "late"%string) (ex_tabs PREPARING)) as [[c|] s'|e s'] eqn:E.
  - destruct H as (_ & _ & _ & _ & H1 & H2 & _). exists c, s'. split; [reflexivity|split; [exact H1|exact H2]].
  - exfalso. destruct H as (_ & H & _). by vm_compute in H.
  - exfalso. by vm_compute in H.
Defined.
Theorem split_conserves_witness :
  ∃ n s', split_order_by_items 1 2 [3; 3] (ex_tabs CONFIRMED) = Ok n s' ∧
    live_total 2 (cart_lines s') + live_total (co_id n) (cart_lines s') = 1200.
Proof.
  destruct (ex_tabs_wf CONFIRMED) as [H1 H2].
  pose proof (split_conserves 1 2 [3; 3] (tab_order 2 6 "R1-0002" CONFIRMED 1200 2) (ex_tabs CONFIRMED)
    H1 H2 (ex_tabs_placed CONFIRMED) eq_refl eq_refl) as H.
  destruct (split_order_by_items 1 2 [3; 3] (ex_tabs CONFIRMED)) as [n s'|e s'] eqn:E.
  - destruct H as (_ & _ & _ & _ & _ & _ & _ & H). exists n, s'. split; [reflexivity|exact H].
  - exfalso. by vm_compute in E.
Defined.

(** ** Where the code departs from its intention *)

Definition after {A} (m : CM A) (s : cart_db) : cart_db := final (m s).

(** Undoing a merge confirms a bill that was still a draft. *)
Lemma unmerge_confirms_draft :
  co_status <$> order_of 2 (after (unmerge_last_merge 1 1 "cashier") (after (merge_orders 1 1 2) (ex_tabs DRAFT))) = Some CONFIRMED.
Proof. by vm_compute. Qed.

(** A bill merged into a bill that is merged in turn cannot be taken out again: only the
    last origin of a line is kept. *)
Lemma nested_merge_lost :
  let s := after (merge_orders 1 1 2) (after (merge_orders 1 2 3) (ex_tabs CONFIRMED)) in
  let s' := after (unmerge_last_merge 1 1 "cashier") s in
  (λ l, (ln_id l, ln_order_id l)) <$> rows (cart_lines s') = [(1, 1); (2, 2); (3, 2); (4, 2)] ∧
  error (unmerge_last_merge 1 2 "cashier" s') = Some NothingToUnmerge.
Proof. by vm_compute. Qed.

(** The copy offered for resale revives the lines that were cancelled: its lines no
    longer add up to its total. *)
Lemma resale_revives_cancelled :
  let s' := after (cancel_order 2 "customer" None) (ex_tabs PREPARING) in
  co_total <$> order_of 4 s' = Some 1200 ∧ live_total 4 (cart_lines s') = 1900.
Proof. by vm_compute. Qed.

(** A round added to a tab bills its cancelled lines again. *)
Lemma round_bills_cancelled :
  live_total 2 (cart_lines (ex_tabs CONFIRMED)) = 1200 ∧
  let s := after (add_item (tab_order 2 6 "R1-0002" CONFIRMED 1200 2) karak (ex_request 1 [])) (ex_tabs CONFIRMED) in
  co_total <$> order_of 2 s = Some 2200 ∧ live_total 2 (cart_lines s) = 1500.
Proof. by vm_compute. Qed.
