(* ===== verification/Floor.v ===== *)
(** * The dining floor ([tables/service.py], the table routes of [tables/router.py],
    [settle_on_premise_if_paid] of [ordering/service.py], the choice of a tab of
    [ordering/pos_orders.py])

    Tables with their states and labels, tables joined for one party on one invoice,
    the tab a round of items belongs to, and what the payment of an invoice frees.  The
    layout columns (position and rotation, floats) are left out. *)

From S2P Require Import Prelude Money Strings Db AuditTrail Decimals OrderFsm CartDb Carts Tabs Payments.

(** ** Tables *)

Record DiningTable := {
  dt_id : Z;
  dt_restaurant_id : Z;
  dt_label : string;
  dt_seats : Z;
  dt_status : string;
  dt_archived_at : option Z;
  dt_merged_into_table_id : option Z;
  dt_group_bill_order_id : option Z;
}.
#[global] Instance DiningTable_row : Row DiningTable := dt_id.
#[global] Instance DiningTable_eq_dec : EqDecision DiningTable.
Proof. solve_decision. Defined.
Definition with_label (label : string) (t : DiningTable) : DiningTable :=
  Build_DiningTable (dt_id t) (dt_restaurant_id t) label (dt_seats t) (dt_status t) (dt_archived_at t)
    (dt_merged_into_table_id t) (dt_group_bill_order_id t).
Definition with_seats (seats : Z) (t : DiningTable) : DiningTable :=
  Build_DiningTable (dt_id t) (dt_restaurant_id t) (dt_label t) seats (dt_status t) (dt_archived_at t)
    (dt_merged_into_table_id t) (dt_group_bill_order_id t).
Definition with_table_status (st : string) (t : DiningTable) : DiningTable :=
  Build_DiningTable (dt_id t) (dt_restaurant_id t) (dt_label t) (dt_seats t) st (dt_archived_at t)
    (dt_merged_into_table_id t) (dt_group_bill_order_id t).
Definition with_archived (at_ : option Z) (t : DiningTable) : DiningTable :=
  Build_DiningTable (dt_id t) (dt_restaurant_id t) (dt_label t) (dt_seats t) (dt_status t) at_
    (dt_merged_into_table_id t) (dt_group_bill_order_id t).
Definition with_merged (into : option Z) (t : DiningTable) : DiningTable :=
  Build_DiningTable (dt_id t) (dt_restaurant_id t) (dt_label t) (dt_seats t) (dt_status t) (dt_archived_at t)
    into (dt_group_bill_order_id t).
Definition with_group_bill (order_id : option Z) (t : DiningTable) : DiningTable :=
  Build_DiningTable (dt_id t) (dt_restaurant_id t) (dt_label t) (dt_seats t) (dt_status t) (dt_archived_at t)
    (dt_merged_into_table_id t) order_id.

(** The session: the tables, the orders and their lines, the payments. *)
Record floor_db := {
  dining : table DiningTable;
  floor_cart : cart_db;
  floor_payments : payments_db;
  floor_events : list event;
}.
Definition with_dining (t : table DiningTable) (s : floor_db) : floor_db :=
  Build_floor_db t (floor_cart s) (floor_payments s) (floor_events s).
#[global] Program Instance floor_cart_lens : Lens floor_db cart_db := {|
  view := floor_cart;
  put c s := Build_floor_db (dining s) c (floor_payments s) (floor_events s);
|}.
Solve Obligations with by intros; try destruct s.
#[global] Program Instance floor_payments_lens : Lens floor_db payments_db := {|
  view := floor_payments;
  put p s := Build_floor_db (dining s) (floor_cart s) p (floor_events s);
|}.
Solve Obligations with by intros; try destruct s.
#[global] Instance floor_has_audit : HasAudit floor_db := {|
  audit_log s := cart_audit (floor_cart s);
  put_audit l s := Build_floor_db (dining s) (put_audit l (floor_cart s)) (floor_payments s) (floor_events s);
|}.

Inductive floor_error :=
| TableNotFound (table_id : Z)
| FloorOrderNotFound (order_id : Z)
| InvalidTableTransition (from to : string)
| DuplicateTableLabel (label : string)
| TableInUse (label : string)
| NoTableToJoin
| BillNotOnTable (order_id : Z)
| SeveralBills (label : string) (n : Z)
| JoinedElsewhere (label : string)
| HasJoinedTables (label : string)
| NotJoined (label : string)
| FloorCartRaised (e : cart_error)
| FloorPaymentRaised (e : payment_error).

Abbreviation FM := (M floor_db floor_error).
Definition in_cart {A} (m : CM A) : FM A := zoom FloorCartRaised m.

Definition table_of (table_id : Z) (s : floor_db) : option DiningTable := get_row table_id (dining s).
(** Attributes assigned on the loaded object. *)
Definition change_table (table_id : Z) (f : DiningTable → DiningTable) : FM unit :=
  modify (λ s, match table_of table_id s with
               | Some t => with_dining (set_row (f t) (dining s)) s
               | None => s
               end).
(** [realtime.hooks.queue_event] on the topic of the floor. *)
Definition _announce (restaurant_id table_id : Z) : FM unit :=
  modify (λ s,
    let entry := Event restaurant_id "tables" [("table_id", table_id)]%string in
    if bool_decide (entry ∈ floor_events s) then s
    else Build_floor_db (dining s) (floor_cart s) (floor_payments s) (floor_events s ++ [entry])).

(** A foreign key as a Python truth value. *)
Definition linked (link : option Z) : option Z :=
  match link with Some i => if i =? 0 then None else Some i | None => None end.

Definition _TRANSITIONS (st : string) : list string :=
  (if st =s "available" then ["seated"]
   else if st =s "seated" then ["ordered"; "available"]
   else if st =s "ordered" then ["needs_bill"; "available"]
   else if st =s "needs_bill" then ["cleaning"]
   else if st =s "cleaning" then ["available"]
   else [])%string.

Definition _owned_table (restaurant_id table_id : Z) : FM DiningTable :=
  found ← gets (table_of table_id);
  match found with
  | Some t =>
      if negb (dt_restaurant_id t =? restaurant_id) || bool_decide (dt_archived_at t ≠ None)
      then raise (TableNotFound table_id) else mret t
  | None => raise (TableNotFound table_id)
  end.

Definition carries_label (restaurant_id : Z) (label : string) (exclude_id : option Z) (t : DiningTable) : bool :=
  (dt_restaurant_id t =? restaurant_id) && bool_decide (dt_archived_at t = None) &&
  (lower (dt_label t) =s lower (strip label)) &&
  match exclude_id with Some i => negb (dt_id t =? i) | None => true end.
Definition assert_label_free (restaurant_id : Z) (label : string) (exclude_id : option Z) : FM unit :=
  n ← gets (λ s, count_where (carries_label restaurant_id label exclude_id) (dining s));
  if n =? 0 then mret tt else raise (DuplicateTableLabel label).

Definition create_table (restaurant_id : Z) (label : string) (seats : Z) : FM DiningTable :=
  assert_label_free restaurant_id label None ≫= λ _,
  t ← gets dining;
  let row := Build_DiningTable (next_id t) restaurant_id (strip label) seats "available" None None None in
  modify (with_dining (add_row row t)) ≫= λ _,
  _ ← audit "manager" restaurant_id "table" (pretty (dt_id row)) "table_created" None
        (Some [("label", JStr (dt_label row)); ("seats", JInt (dt_seats row))]%string);
  mret row.
Definition update_table (restaurant_id table_id : Z) (label : option string) (seats : option Z) : FM DiningTable :=
  t ← _owned_table restaurant_id table_id;
  match label with
  | Some l =>
      if strip l =s dt_label t then mret tt else
      assert_label_free restaurant_id l (Some table_id) ≫= λ _,
      change_table table_id (with_label (strip l))
  | None => mret tt
  end ≫= λ _,
  match seats with Some n => change_table table_id (with_seats n) | None => mret tt end ≫= λ _,
  gets (λ s, default t (table_of table_id s)).

Definition open_status (st : OrderStatus) : bool := in_strs (status_value st) OPEN_ORDER_STATUSES.
Definition open_at (restaurant_id table_id : Z) (o : CartOrder) : bool :=
  (co_restaurant_id o =? restaurant_id) && bool_decide (co_table_id o = Some table_id) && open_status (co_status o).
Definition archive_table (restaurant_id table_id : Z) : FM DiningTable :=
  t ← _owned_table restaurant_id table_id;
  open_count ← gets (λ s, count_where (open_at restaurant_id table_id) (cart_orders (floor_cart s)));
  if negb (open_count =? 0) then raise (TableInUse (dt_label t)) else
  now ← gets (λ s, cart_now (floor_cart s));
  change_table table_id (with_archived (Some now)) ≫= λ _,
  gets (λ s, default t (table_of table_id s)).

Definition transition_status (restaurant_id table_id : Z) (to_status : string) : FM DiningTable :=
  found ← gets (table_of table_id);
  match found with
  | None => raise (TableNotFound table_id)
  | Some t =>
      if negb (dt_restaurant_id t =? restaurant_id) then raise (TableNotFound table_id) else
      if negb (in_strs to_status (_TRANSITIONS (dt_status t))) then raise (InvalidTableTransition (dt_status t) to_status) else
      change_table table_id (with_table_status to_status) ≫= λ _,
      _announce restaurant_id table_id ≫= λ _,
      gets (λ s, default t (table_of table_id s))
  end.

Definition transfer_order (restaurant_id order_id to_table_id : Z) : FM CartOrder :=
  found ← gets (λ s, order_of order_id (floor_cart s));
  match found with
  | None => raise (FloorOrderNotFound order_id)
  | Some o =>
      if negb (co_restaurant_id o =? restaurant_id) then raise (FloorOrderNotFound order_id) else
      in_cart (change_order order_id (λ o, with_place (Some to_table_id) (co_staff_id o) o)) ≫= λ _,
      gets (λ s, default o (order_of order_id (floor_cart s)))
  end.

(** ** Joined tables *)

Definition group_bill_order_id_for (table_id : Z) (s : floor_db) : option Z :=
  match table_of table_id s with
  | None => None
  | Some t =>
      let primary := match linked (dt_merged_into_table_id t) with
                     | Some p => default t (table_of p s) | None => t end in
      dt_group_bill_order_id primary
  end.
Definition resolve_bill_table_id (table_id : Z) (s : floor_db) : Z :=
  match table_of table_id s with
  | None => table_id
  | Some t => default (dt_id t) (linked (dt_merged_into_table_id t))
  end.
Definition joined_to (primary_id : Z) (t : DiningTable) : bool := bool_decide (dt_merged_into_table_id t = Some primary_id).
Definition group_table_ids (restaurant_id primary_id : Z) (s : floor_db) : list Z :=
  primary_id :: sort_by Z.leb (dt_id <$> all_where (λ t, (dt_restaurant_id t =? restaurant_id) && joined_to primary_id t &&
                                                        bool_decide (dt_archived_at t = None)) (dining s)).

(** [dict.fromkeys]: the first occurrence of each. *)
Fixpoint dict_keys (l : list Z) : list Z :=
  match l with [] => [] | x :: l' => x :: List.filter (λ y, negb (y =? x)) (dict_keys l') end.

Definition _open_bills (restaurant_id table_id : Z) (s : floor_db) : list CartOrder :=
  sort_by (λ a b, (co_created_at a <? co_created_at b) || ((co_created_at a =? co_created_at b) && (co_id a <=? co_id b)))
    (all_where (open_at restaurant_id table_id) (cart_orders (floor_cart s))).

(** Which of the primary's bills the group shares. *)
Definition choose_bill (restaurant_id : Z) (primary : DiningTable) (into_order_id : option Z) : FM unit :=
  existing ← gets (_open_bills restaurant_id (dt_id primary));
  match into_order_id with
  | Some i =>
      match List.find (λ b, co_id b =? i) existing with
      | None => raise (BillNotOnTable i)
      | Some chosen => change_table (dt_id primary) (with_group_bill (Some (co_id chosen)))
      end
  | None =>
      match existing with
      | [] => mret tt
      | [b] => change_table (dt_id primary) (with_group_bill (Some (co_id b)))
      | _ => raise (SeveralBills (dt_label primary) (Z.of_nat (length existing)))
      end
  end.
(** A bill is folded onto the group's, or becomes it. *)
Definition fold_bill (restaurant_id primary_id : Z) (bill : CartOrder) : FM unit :=
  target ← gets (λ s, table_of primary_id s ≫= dt_group_bill_order_id);
  match target with
  | Some t =>
      if negb (t =? co_id bill) then in_cart (merge_orders restaurant_id t (co_id bill)) ≫= λ _, mret tt
      else in_cart (change_order (co_id bill) (λ o, with_place (Some primary_id) (co_staff_id o) o)) ≫= λ _,
           change_table primary_id (with_group_bill (Some (co_id bill)))
  | None =>
      in_cart (change_order (co_id bill) (λ o, with_place (Some primary_id) (co_staff_id o) o)) ≫= λ _,
      change_table primary_id (with_group_bill (Some (co_id bill)))
  end.
Definition join_one (restaurant_id primary_id : Z) (from_order_ids : list Z) (tid : Z) : FM unit :=
  secondary ← _owned_table restaurant_id tid;
  if joined_to primary_id secondary then mret tt else
  match linked (dt_merged_into_table_id secondary) with
  | Some _ => raise (JoinedElsewhere (dt_label secondary))
  | None =>
      children ← gets (λ s, count_where (joined_to (dt_id secondary)) (dining s));
      if negb (children =? 0) then raise (HasJoinedTables (dt_label secondary)) else
      sec_bills ← gets (_open_bills restaurant_id (dt_id secondary));
      if (1 <? length sec_bills)%nat then
        match List.filter (λ b, existsb (Z.eqb (co_id b)) from_order_ids) sec_bills with
        | [] => raise (SeveralBills (dt_label secondary) (Z.of_nat (length sec_bills)))
        | named => for_each (fold_bill restaurant_id primary_id) named
        end
      else
        primary_bills ← gets (_open_bills restaurant_id primary_id);
        change_table tid (λ t, with_table_status (match primary_bills with [] => "seated" | _ => "ordered" end)
                                 (with_merged (Some primary_id) t)) ≫= λ _,
        bills ← gets (_open_bills restaurant_id tid);
        for_each (fold_bill restaurant_id primary_id) bills
  end.
(** The table that holds the group's bill: the one named, or the one it is joined to. *)
Definition group_primary (restaurant_id primary_table_id : Z) : FM DiningTable :=
  first ← _owned_table restaurant_id primary_table_id;
  match linked (dt_merged_into_table_id first) with
  | Some p => _owned_table restaurant_id p
  | None => mret first
  end.
Definition join_group (restaurant_id : Z) (primary : DiningTable) (wanted : list Z) (into_order_id : option Z)
    (from_order_ids : list Z) (actor : string) : FM DiningTable :=
  let primary_id := dt_id primary in
  choose_bill restaurant_id primary into_order_id ≫= λ _,
  for_each (join_one restaurant_id primary_id from_order_ids) wanted ≫= λ _,
  now_row ← gets (λ s, default primary (table_of primary_id s));
  (if in_strs (dt_status now_row) ["available"; "cleaning"; "needs_bill"]%string then
     primary_bills ← gets (_open_bills restaurant_id primary_id);
     change_table primary_id (with_table_status (match primary_bills with [] => "seated" | _ => "ordered" end)%string)
   else mret tt) ≫= λ _,
  _ ← audit actor restaurant_id "table" (pretty primary_id) "tables_joined" None
        (Some [("primary", JStr (dt_label primary)); ("joined", ids_json wanted)]%string);
  _announce restaurant_id primary_id ≫= λ _,
  gets (λ s, default primary (table_of primary_id s)).
Definition join_tables (restaurant_id primary_table_id : Z) (table_ids : list Z) (into_order_id : option Z)
    (from_order_ids : list Z) (actor : string) : FM DiningTable :=
  primary ← group_primary restaurant_id primary_table_id;
  match List.filter (λ t, negb (t =? dt_id primary)) (dict_keys table_ids) with
  | [] => raise NoTableToJoin
  | wanted => join_group restaurant_id primary wanted into_order_id from_order_ids actor
  end.

Definition unjoin_table (restaurant_id table_id : Z) (actor : string) : FM DiningTable :=
  t ← _owned_table restaurant_id table_id;
  match linked (dt_merged_into_table_id t) with
  | None => raise (NotJoined (dt_label t))
  | Some before =>
      change_table table_id (λ t, with_table_status "available" (with_merged None t)) ≫= λ _,
      _ ← audit actor restaurant_id "table" (pretty (dt_id t)) "table_unjoined"
            (Some [("merged_into_table_id", JInt before)]%string) (Some [("status", JStr "available")]%string);
      _announce restaurant_id table_id ≫= λ _,
      gets (λ s, default t (table_of table_id s))
  end.

(** ** The tab a round belongs to ([create_pos_order]) *)

Definition _ADDABLE_STATUSES : list string := ["draft"; "pending_confirmation"; "confirmed"; "preparing"]%string.
Definition tab_addable (o : CartOrder) : bool := in_strs (status_value (co_status o)) _ADDABLE_STATUSES.
Definition tab_for_round (restaurant_id table_id : Z) (s : floor_db) : option CartOrder :=
  let table_id := resolve_bill_table_id table_id s in
  let group :=
    i ← group_bill_order_id_for table_id s;
    first_where (λ o, (co_id o =? i) && (co_restaurant_id o =? restaurant_id) && tab_addable o) (cart_orders (floor_cart s)) in
  match group with
  | Some o => Some o
  | None => head (sort_by (λ a b, co_created_at b <=? co_created_at a)
      (all_where (λ o, (co_restaurant_id o =? restaurant_id) && bool_decide (co_table_id o = Some table_id) && tab_addable o)
        (cart_orders (floor_cart s))))
  end.

(** ** Payment of an invoice *)

Definition ON_PREMISE_ORDER_TYPES : list string := ["dine_in"; "takeaway"; "drive_thru"; "tableside"; "qr"]%string.
Definition _ORDER_TERMINAL_STATUSES : list string :=
  ["delivered"; "cancelled"; "undeliverable"; "on_resale"; "resold"; "written_off"]%string.
Definition order_driven (t : DiningTable) : bool := in_strs (dt_status t) ["ordered"; "needs_bill"; "seated"]%string.
Definition freed (t : DiningTable) : DiningTable := with_group_bill None (with_merged None (with_table_status "available" t)).
Definition free_table (restaurant_id primary_id : Z) (actor : string) (row : DiningTable) : FM unit :=
  if negb (order_driven row) then mret tt else
  change_table (dt_id row) freed ≫= λ _,
  _ ← audit actor restaurant_id "table" (pretty (dt_id row)) "status_change"
        (Some [("status", JStr (dt_status row))]%string)
        (Some [("status", JStr "available"); ("reason", JStr "last_bill_settled"); ("group_primary", JInt primary_id)]%string);
  mret tt.
Definition release_table (o : CartOrder) (table_id : Z) (actor : string) : FM unit :=
  others_open ← gets (λ s, count_where (λ x, open_at (co_restaurant_id o) table_id x && negb (co_id x =? co_id o))
                             (cart_orders (floor_cart s)));
  found ← gets (table_of table_id);
  match found with
  | Some t =>
      if (others_open =? 0) && order_driven t then
        group ← gets (λ s, t :: all_where (λ x, (dt_restaurant_id x =? co_restaurant_id o) && joined_to (dt_id t) x) (dining s));
        for_each (free_table (co_restaurant_id o) (dt_id t) actor) group
      else if negb (others_open =? 0) then
        _ ← audit actor (co_restaurant_id o) "table" (pretty table_id) "table_held_open" None
              (Some [("reason", JStr "other_bills_open"); ("open_bills", JInt others_open)]%string);
        mret tt
      else mret tt
  | None =>
      if negb (others_open =? 0) then
        _ ← audit actor (co_restaurant_id o) "table" (pretty table_id) "table_held_open" None
              (Some [("reason", JStr "other_bills_open"); ("open_bills", JInt others_open)]%string);
        mret tt
      else mret tt
  end.
Definition settle_on_premise_if_paid (restaurant_id order_id : Z) (actor : string) : FM (option CartOrder) :=
  found ← in_cart (get_order_for_tenant restaurant_id order_id);
  match found with
  | None => mret None
  | Some o =>
      if negb (in_strs (co_order_type o) ON_PREMISE_ORDER_TYPES) then mret (Some o) else
      if in_strs (status_value (co_status o)) _ORDER_TERMINAL_STATUSES then mret (Some o) else
      paid ← zoom FloorPaymentRaised (total_paid order_id);
      if paid <? co_total o then mret (Some o) else
      in_cart (fsm_transition order_id DELIVERED actor []) ≫= λ _,
      match co_table_id o with
      | Some table_id => release_table o table_id actor
      | None => mret tt
      end ≫= λ _,
      gets (λ s, Some (default o (order_of order_id (floor_cart s))))
  end.
