(* ===== verification/FloorFacts.v ===== *)
(** * Correctness of the dining floor

    Joins never chain; a successful join leaves one invoice; live labels are distinct;
    paying the last open bill of a table frees its whole group; where the code departs
    from its intention. *)

From S2P Require Import Prelude Money Strings Db AuditTrail Decimals OrderFsm CartDb Carts CartFacts Tabs TabFacts Payments PaymentsFacts Floor.

(** ** Tables under the operations *)

(** A property of the tables alone. *)
Definition on_tables (P : table DiningTable → Prop) (s : floor_db) : Prop := P (dining s).

Lemma in_cart_dining {A} (m : CM A) s : dining (final (in_cart m s)) = dining s.
Proof. unfold in_cart, zoom. by destruct (m (view s)). Qed.
Lemma preserves_in_cart {A} P (m : CM A) : preserves (on_tables P) (in_cart m).
Proof. intros s Hs. unfold on_tables. by rewrite in_cart_dining. Qed.
Lemma preserves_audit P actor rid entity eid action b a :
  preserves (on_tables P) (audit (E := floor_error) actor rid entity eid action b a).
Proof. by intros s. Qed.
Lemma preserves_announce P rid tid : preserves (on_tables P) (_announce rid tid).
Proof. intros s Hs. unfold _announce, modify; cbn. by destruct (bool_decide _). Qed.
Lemma preserves_zoom_payments {A} P (m : M payments_db payment_error A) : preserves (on_tables P) (zoom FloorPaymentRaised m).
Proof. intros s Hs. unfold zoom. by destruct (m (view s)). Qed.

Lemma owned_run rid tid s :
  (∃ t, _owned_table rid tid s = Ok t s ∧ table_of tid s = Some t ∧ dt_restaurant_id t = rid ∧ dt_archived_at t = None) ∨
  _owned_table rid tid s = Err (TableNotFound tid) s.
Proof.
  unfold _owned_table. erewrite bind_run_Ok by reflexivity. cbv beta. destruct (table_of tid s) as [t|]; [|by right].
  destruct (dt_restaurant_id t =? rid) eqn:E; cbn; [|by right]. zbool.
  destruct (dt_archived_at t) eqn:Ha; [by right|]. left. by exists t.
Qed.

(** ** Joins never chain *)

Record no_chain (d : table DiningTable) : Prop := {
  nc_wf : table_wf d;
  nc_one : ∀ a b, a ∈ rows d → b ∈ rows d → linked (dt_merged_into_table_id a) = Some (dt_id b) →
    linked (dt_merged_into_table_id b) = None;
}.
(** Table [p], if there is one, stands on its own. *)
Definition standalone (p : Z) (d : table DiningTable) : Prop :=
  no_chain d ∧ ∀ t, t ∈ rows d → dt_id t = p → linked (dt_merged_into_table_id t) = None.

Lemma linked_Some l i : linked l = Some i ↔ l = Some i ∧ i ≠ 0.
Proof. unfold linked. destruct l as [j|]; [|naive_solver]. destruct (j =? 0) eqn:E; zbool; naive_solver. Qed.

(** Writing a table whose link is as before. *)
Lemma no_chain_set t t' d :
  no_chain d → t ∈ rows d → dt_id t' = dt_id t →
  (dt_merged_into_table_id t' = dt_merged_into_table_id t ∨ linked (dt_merged_into_table_id t') = None) →
  no_chain (set_row t' d).
Proof.
  intros [Hwf Hone] Ht Hid Hl. split; [by apply set_row_wf|]. intros a b Ha Hb Hab.
  apply elem_of_set_row in Ha as [[-> _]|[Ha _]]; apply elem_of_set_row in Hb as [[-> _]|[Hb _]].
  - destruct Hl as [Hl|Hl]; [|done]. rewrite Hl in *. rewrite Hid in Hab. by apply (Hone t t).
  - destruct Hl as [Hl|Hl]; [|congruence]. rewrite Hl in Hab. by apply (Hone t b).
  - destruct Hl as [Hl|Hl]; [|done]. rewrite Hl. rewrite Hid in Hab. by apply (Hone a t).
  - by apply (Hone a b).
Qed.
Lemma standalone_set p t t' d :
  standalone p d → t ∈ rows d → dt_id t' = dt_id t →
  (dt_merged_into_table_id t' = dt_merged_into_table_id t ∨ linked (dt_merged_into_table_id t') = None) →
  standalone p (set_row t' d).
Proof.
  intros [Hnc Hp] Ht Hid Hl. split; [by eapply no_chain_set|]. intros x Hx Hxp.
  apply elem_of_set_row in Hx as [[-> _]|[Hx _]]; [|by apply Hp]. destruct Hl as [->|Hl]; [|done]. apply Hp; [done|congruence].
Qed.
(** Joining a table without a group to one that stands on its own. *)
Lemma standalone_join p t t' d :
  standalone p d → t ∈ rows d → dt_id t' = dt_id t → dt_id t ≠ p → dt_merged_into_table_id t' = Some p →
  (∀ a, a ∈ rows d → dt_merged_into_table_id a ≠ Some (dt_id t)) → standalone p (set_row t' d).
Proof.
  intros [[Hwf Hone] Hp] Ht Hid Hne Hm Hch. split; [split; [by apply set_row_wf|]|].
  - intros a b Ha Hb Hab. apply elem_of_set_row in Ha as [[-> _]|[Ha Hane]]; apply elem_of_set_row in Hb as [[-> _]|[Hb Hbne]].
    + exfalso. apply linked_Some in Hab as [Hab _]. congruence.
    + apply Hp; [done|]. apply linked_Some in Hab as [Hab _]. congruence.
    + exfalso. apply linked_Some in Hab as [Hab _]. apply (Hch a Ha). congruence.
    + by apply (Hone a b).
  - intros x Hx Hxp. apply elem_of_set_row in Hx as [[-> _]|[Hx _]]; [congruence|by apply Hp].
Qed.

Lemma preserves_change P tid f :
  (∀ d t, P d → t ∈ rows d → dt_id t = tid → P (set_row (f t) d)) → preserves (on_tables P) (change_table tid f).
Proof.
  intros Hf s Hs. unfold change_table, modify, table_of; cbn. destruct (get_row tid (dining s)) as [t|] eqn:Ht; [|done].
  apply get_row_Some in Ht as [Hin Hid]. by apply Hf.
Qed.
Lemma preserves_owned {A} P rid tid (k : DiningTable → FM A) :
  (∀ t s, on_tables P s → table_of tid s = Some t → on_tables P (final (k t s))) →
  preserves (on_tables P) (_owned_table rid tid ≫= k).
Proof.
  intros Hk s Hs. destruct (owned_run rid tid s) as [(t & Hrun & Ht & _)|Hrun].
  - rewrite (bind_run_Ok _ _ _ _ _ Hrun). by apply Hk.
  - by rewrite (bind_run_Err _ _ _ _ _ Hrun).
Qed.

(** Properties that hold as long as links are only kept or cut. *)
Definition link_safe (P : table DiningTable → Prop) : Prop :=
  ∀ d t t', P d → t ∈ rows d → dt_id t' = dt_id t →
    (dt_merged_into_table_id t' = dt_merged_into_table_id t ∨ linked (dt_merged_into_table_id t') = None) → P (set_row t' d).
Lemma no_chain_safe : link_safe no_chain.
Proof. intros d t t'. apply no_chain_set. Qed.
Lemma standalone_safe p : link_safe (standalone p).
Proof. intros d t t'. apply standalone_set. Qed.

Lemma preserves_change_safe P tid f :
  link_safe P → (∀ t, dt_id (f t) = dt_id t) →
  (∀ t, dt_merged_into_table_id (f t) = dt_merged_into_table_id t ∨ linked (dt_merged_into_table_id (f t)) = None) →
  preserves (on_tables P) (change_table tid f).
Proof. intros HP Hid Hf. apply preserves_change. intros d t Hd Ht _. by apply (HP d t). Qed.

Create HintDb floor.
#[export] Hint Resolve preserves_in_cart preserves_audit preserves_announce preserves_zoom_payments preserves_ret
  preserves_raise preserves_gets no_chain_safe standalone_safe : floor.
#[export] Hint Extern 4 (preserves (on_tables _) (change_table _ _)) =>
  apply preserves_change_safe; [assumption|done|by auto] : floor.
(** One step of a call at a time, branch by branch. *)
Ltac keep_tables :=
  repeat first
    [ solve [eauto 3 with floor]
    | apply preserves_bind; [|intros ?]
    | apply preserves_for_each; intros ? ?
    | case_match ].

Section safe.
Context (P : table DiningTable → Prop) (HP : link_safe P).

Lemma choose_bill_keeps rid primary into : preserves (on_tables P) (choose_bill rid primary into).
Proof. unfold choose_bill. keep_tables. Qed.
Lemma fold_bill_keeps rid pid bill : preserves (on_tables P) (fold_bill rid pid bill).
Proof. unfold fold_bill. keep_tables. Qed.
Lemma owned_keeps rid tid : preserves (on_tables P) (_owned_table rid tid).
Proof. unfold _owned_table. keep_tables. Qed.
Lemma update_table_keeps rid tid label seats : preserves (on_tables P) (update_table rid tid label seats).
Proof. unfold update_table, _owned_table, assert_label_free. keep_tables. Qed.
Lemma archive_table_keeps rid tid : preserves (on_tables P) (archive_table rid tid).
Proof. unfold archive_table, _owned_table. keep_tables. Qed.
Lemma transition_status_keeps rid tid to : preserves (on_tables P) (transition_status rid tid to).
Proof. unfold transition_status. keep_tables. Qed.
Lemma transfer_order_keeps rid oid tid : preserves (on_tables P) (transfer_order rid oid tid).
Proof. unfold transfer_order. keep_tables. Qed.
Lemma unjoin_table_keeps rid tid actor : preserves (on_tables P) (unjoin_table rid tid actor).
Proof. unfold unjoin_table, _owned_table. keep_tables. Qed.
Lemma settle_keeps rid oid actor : preserves (on_tables P) (settle_on_premise_if_paid rid oid actor).
Proof. unfold settle_on_premise_if_paid, release_table, free_table. keep_tables. Qed.
End safe.

Lemma create_table_keeps rid label seats : preserves (on_tables no_chain) (create_table rid label seats).
Proof.
  unfold create_table, assert_label_free. apply preserves_bind; [keep_tables|intros _]. apply preserves_bind_gets.
  intros s [Hwf Hone]. rewrite bind_final. unfold modify; cbn. unfold on_tables; cbn. split; [by apply add_row_wf|].
  intros a b [Ha| ->]%elem_of_add_row [Hb| ->]%elem_of_add_row Hab; [by apply (Hone a b)|done| |done].
  exfalso. by apply linked_Some in Hab as [Hab _].
Qed.

Lemma no_children tid d :
  count_where (joined_to tid) d = 0 → ∀ a, a ∈ rows d → dt_merged_into_table_id a ≠ Some tid.
Proof.
  intros Hc a Ha Hm. unfold count_where, count in Hc.
  assert (1 ≤ zsum (λ x, if joined_to tid x then 1 else 0) (rows d)); [|lia].
  clear Hc. induction (rows d) as [|x l IH]; [set_solver|]. cbn.
  assert (0 ≤ zsum (λ x, if joined_to tid x then 1 else 0) l) by (apply zsum_nonneg; intros y _; by destruct (joined_to tid y)).
  apply elem_of_cons in Ha as [->|Ha]; [|specialize (IH Ha); destruct (joined_to tid x); lia].
  assert (joined_to tid x = true) as -> by by apply bool_decide_eq_true_2. lia.
Qed.

Lemma join_one_keeps rid pid from tid : tid ≠ pid → preserves (on_tables (standalone pid)) (join_one rid pid from tid).
Proof.
  intros Hne. unfold join_one. apply preserves_owned. intros t s Hs Ht.
  destruct (joined_to pid t); [done|]. destruct (linked (dt_merged_into_table_id t)); [done|].
  erewrite bind_run_Ok by reflexivity. cbv beta. destruct (negb _) eqn:Hch; [done|]. apply negb_false_iff in Hch. zbool.
  pose proof Ht as [Hin Hid]%get_row_Some. change (row_id t) with (dt_id t) in Hid.
  erewrite bind_run_Ok by reflexivity. cbv beta. destruct (Nat.ltb _ _).
  - destruct (List.filter _ _) as [|b l]; [done|]. apply preserves_for_each; [|done].
    intros bill _. apply fold_bill_keeps, standalone_safe.
  - erewrite bind_run_Ok by reflexivity. cbv beta. set (st := match _open_bills rid pid s with [] => _ | _ => _ end).
    assert (Hrun : change_table tid (λ t, with_table_status st (with_merged (Some pid) t)) s =
      Ok tt (with_dining (set_row (with_table_status st (with_merged (Some pid) t)) (dining s)) s)).
    { unfold change_table, modify. by rewrite Ht. }
    rewrite (bind_run_Ok _ _ _ _ _ Hrun). erewrite bind_run_Ok by reflexivity. cbv beta.
    apply preserves_for_each; [intros bill _; apply fold_bill_keeps, standalone_safe|].
    apply (standalone_join pid t); [done|done|done|congruence|done|by apply no_children].
Qed.

Lemma dict_keys_spec l x : x ∈ dict_keys l ↔ x ∈ l.
Proof.
  induction l as [|y l IH]; cbn; [done|]. rewrite !elem_of_cons, !list_elem_of_In, List.filter_In, <-!list_elem_of_In, IH, negb_true_iff, Z.eqb_neq.
  destruct (decide (x = y)); naive_solver.
Qed.
Lemma wanted_spec pid ids tid : tid ∈ List.filter (λ t, negb (t =? pid)) (dict_keys ids) ↔ tid ∈ ids ∧ tid ≠ pid.
Proof. by rewrite list_elem_of_In, List.filter_In, <-list_elem_of_In, dict_keys_spec, negb_true_iff, Z.eqb_neq. Qed.

Lemma group_primary_run rid ptid s :
  no_chain (dining s) →
  (∃ p, group_primary rid ptid s = Ok p s ∧ table_of (dt_id p) s = Some p ∧ dt_restaurant_id p = rid ∧
    linked (dt_merged_into_table_id p) = None ∧ standalone (dt_id p) (dining s)) ∨
  (∃ i, group_primary rid ptid s = Err (TableNotFound i) s).
Proof.
  intros Hnc. unfold group_primary.
  assert (Hdone : ∀ p, p ∈ rows (dining s) → linked (dt_merged_into_table_id p) = None → standalone (dt_id p) (dining s)).
  { intros p Hin Hl. split; [done|]. intros t Ht Hid. by rewrite (wf_unique _ (nc_wf _ Hnc) t p). }
  destruct (owned_run rid ptid s) as [(t & Hrun & Ht & Hr & _)|Hrun]; [|right; exists ptid; by rewrite (bind_run_Err _ _ _ _ _ Hrun)].
  rewrite (bind_run_Ok _ _ _ _ _ Hrun). pose proof Ht as [Hin Hid]%get_row_Some. change (row_id t) with (dt_id t) in Hid.
  destruct (linked (dt_merged_into_table_id t)) as [q|] eqn:Hl.
  - destruct (owned_run rid q s) as [(p & Hrun' & Hp & Hrp & _)|Hrun']; [left|right; eauto].
    pose proof Hp as [Hinp Hidp]%get_row_Some. change (row_id p) with (dt_id p) in Hidp. subst q.
    assert (linked (dt_merged_into_table_id p) = None) by by apply (nc_one _ Hnc t p). exists p. eauto 6.
  - left. exists t. rewrite Hid. split; [done|]. rewrite <-Hid at 2. eauto.
Qed.

Lemma join_group_keeps rid p wanted into from actor :
  dt_id p ∉ wanted → preserves (on_tables (standalone (dt_id p))) (join_group rid p wanted into from actor).
Proof.
  intros Hp. apply preserves_bind; [apply choose_bill_keeps, standalone_safe|intros _].
  apply preserves_bind; [|intros _; pose proof (standalone_safe (dt_id p)); keep_tables].
  apply preserves_for_each. intros tid Htid. apply join_one_keeps. congruence.
Qed.
Lemma join_tables_keeps rid ptid ids into from actor : preserves (on_tables no_chain) (join_tables rid ptid ids into from actor).
Proof.
  intros s Hs. unfold join_tables.
  destruct (group_primary_run rid ptid s Hs) as [(p & Hrun & _ & _ & _ & Hst)|(i & Hrun)].
  2: { by rewrite (bind_run_Err _ _ _ _ _ Hrun). }
  rewrite (bind_run_Ok _ _ _ _ _ Hrun). pose proof (wanted_spec (dt_id p) ids (dt_id p)) as Hw.
  destruct (List.filter _ _) as [|w ws]; [done|].
  destruct (join_group_keeps rid p (w :: ws) into from actor ltac:(tauto) s Hst) as [? _]. done.
Qed.

(** Every call of the floor. *)
Inductive floor_op :=
| OpCreate (rid : Z) (label : string) (seats : Z)
| OpUpdate (rid tid : Z) (label : option string) (seats : option Z)
| OpArchive (rid tid : Z)
| OpTransition (rid tid : Z) (to : string)
| OpTransfer (rid oid tid : Z)
| OpJoin (rid ptid : Z) (ids : list Z) (into : option Z) (from : list Z) (actor : string)
| OpUnjoin (rid tid : Z) (actor : string)
| OpSettle (rid oid : Z) (actor : string)
| OpCart (m : CM unit)
| OpPayment (m : M payments_db payment_error unit).
Definition run_floor (op : floor_op) (s : floor_db) : floor_db :=
  match op with
  | OpCreate rid label seats => final (create_table rid label seats s)
  | OpUpdate rid tid label seats => final (update_table rid tid label seats s)
  | OpArchive rid tid => final (archive_table rid tid s)
  | OpTransition rid tid to => final (transition_status rid tid to s)
  | OpTransfer rid oid tid => final (transfer_order rid oid tid s)
  | OpJoin rid ptid ids into from actor => final (join_tables rid ptid ids into from actor s)
  | OpUnjoin rid tid actor => final (unjoin_table rid tid actor s)
  | OpSettle rid oid actor => final (settle_on_premise_if_paid rid oid actor s)
  | OpCart m => final (in_cart m s)
  | OpPayment m => final (zoom FloorPaymentRaised m s)
  end.

(** C38. Joins never chain.  Whatever the floor, the cart and the till do, in any order
    and failed or not, a table joined to another is joined to one that stands on its
    own, so following a single link from any table reaches the holder of the bill. *)
Theorem joins_never_chain ops s :
  no_chain (dining s) →
  let s' := fold_left (λ s op, run_floor op s) ops s in
  no_chain (dining s') ∧
  ∀ t, table_of t s' ≠ None → table_of (resolve_bill_table_id t s') s' ≠ None →
    resolve_bill_table_id (resolve_bill_table_id t s') s' = resolve_bill_table_id t s'.
Proof.
  intros Hnc s'. assert (Hnc' : no_chain (dining s')).
  { unfold s'. clear s'. revert s Hnc. induction ops as [|op ops IH]; intros s Hs; cbn; [done|]. apply IH.
    destruct op; cbn [run_floor].
    - by apply create_table_keeps.
    - by apply (update_table_keeps _ no_chain_safe).
    - by apply (archive_table_keeps _ no_chain_safe).
    - by apply (transition_status_keeps _ no_chain_safe).
    - by apply (transfer_order_keeps no_chain).
    - by apply join_tables_keeps.
    - by apply (unjoin_table_keeps _ no_chain_safe).
    - by apply (settle_keeps _ no_chain_safe).
    - by apply (preserves_in_cart no_chain).
    - by apply (preserves_zoom_payments no_chain). }
  split; [done|]. clearbody s'. intros i Hi. unfold resolve_bill_table_id. destruct (table_of i s') as [t|] eqn:Ht; [|done].
  pose proof Ht as [Hin Hid]%get_row_Some. change (row_id t) with (dt_id t) in Hid.
  destruct (linked (dt_merged_into_table_id t)) as [p|] eqn:Hl.
  - change (default (dt_id t) (Some p)) with p. destruct (table_of p s') as [tp|] eqn:Hp; [|done]. intros _. pose proof Hp as [Hinp Hidp]%get_row_Some. change (row_id tp) with (dt_id tp) in Hidp.
    rewrite (nc_one _ Hnc' t tp); [exact Hidp|done|done|congruence].
  - change (default (dt_id t) None) with (dt_id t). by rewrite Hid, Ht, Hl.
Qed.

(** ** Paying an invoice *)

Lemma change_table_run i f s :
  table_wf (dining s) → (∀ t, dt_id (f t) = dt_id t) →
  change_table i f s = Ok tt (with_dining (map_rows (λ x, if dt_id x =? i then f x else x) (dining s)) s).
Proof.
  intros Hwf Hf. unfold change_table, modify. f_equal. destruct (table_of i s) as [t|] eqn:Ht.
  - f_equal. apply get_row_Some in Ht as [Hin Hid]. change (row_id t) with (dt_id t) in Hid. unfold set_row, map_rows. f_equal.
    apply List.map_ext_in. intros x Hx. apply list_elem_of_In in Hx. change (row_id x) with (dt_id x).
    change (row_id (f t)) with (dt_id (f t)). rewrite Hf, Hid. destruct (dt_id x =? i) eqn:E; [|done]. zbool.
    rewrite (wf_unique _ Hwf x t); [done..|]. change (dt_id x = dt_id t). congruence.
  - rewrite map_rows_id; [by destruct s|]. intros x Hx. rewrite (proj2 (Z.eqb_neq _ _)); [done|].
    intros Hid. pose proof (find_None_in _ _ x Ht Hx) as H. cbn in H. change (row_id x) with (dt_id x) in H. by zbool.
Qed.

(** The rows of [l] that are order-driven, by id. *)
Definition frees (l : list DiningTable) (x : DiningTable) : bool :=
  existsb (λ r, (dt_id r =? dt_id x) && order_driven r) l.
Lemma free_loop_run rid pid actor l s :
  table_wf (dining s) →
  ∃ s', for_each (free_table rid pid actor) l s = Ok tt s' ∧ cart_orders (floor_cart s') = cart_orders (floor_cart s) ∧
    dining s' = map_rows (λ x, if frees l x then freed x else x) (dining s).
Proof.
  revert s. induction l as [|r l IH]; intros s Hwf; cbn [for_each].
  { exists s. split_and!; [done|done|by rewrite map_rows_id]. }
  assert (∃ s1, free_table rid pid actor r s = Ok tt s1 ∧ cart_orders (floor_cart s1) = cart_orders (floor_cart s) ∧
    dining s1 = map_rows (λ x, if (dt_id r =? dt_id x) && order_driven r then freed x else x) (dining s)) as (s1 & Hrun & Ho1 & Hd1).
  { unfold free_table. destruct (order_driven r); cbn [negb].
    - rewrite (bind_run_Ok _ _ _ _ _ (change_table_run (dt_id r) freed s Hwf ltac:(done))).
      rewrite (bind_run_Ok _ _ _ _ _ (audit_run _ _ _ _ _ _ _ _)). eexists. split; [reflexivity|]. split; [done|].
      apply map_rows_ext. intros x _. by rewrite andb_true_r, Z.eqb_sym.
    - exists s. split_and!; [done|done|]. rewrite map_rows_id; [done|]. intros x _. by rewrite andb_false_r. }
  rewrite (bind_run_Ok _ _ _ _ _ Hrun).
  destruct (IH s1) as (s2 & Hrun2 & Ho2 & Hd2); [rewrite Hd1; apply map_rows_wf; [intros x; by destruct (_ && _)|done]|].
  exists s2. split_and!; [done|congruence|]. rewrite Hd2, Hd1, map_rows_rows. apply map_rows_ext. intros x _.
  unfold frees; cbn. destruct ((dt_id r =? dt_id x) && order_driven r); cbn; [|done]. by destruct (existsb _ l).
Qed.

(** The table of an invoice and those joined to it. *)
Definition in_group (rid : Z) (t x : DiningTable) : bool :=
  bool_decide (x = t) || (dt_restaurant_id x =? rid) && joined_to (dt_id t) x.
Definition other_bills (o : CartOrder) (table_id : Z) (s : floor_db) : Z :=
  count_where (λ x, open_at (co_restaurant_id o) table_id x && negb (co_id x =? co_id o)) (cart_orders (floor_cart s)).
(** The tables once the invoice is closed. *)
Definition floor_after (o : CartOrder) (s : floor_db) : table DiningTable :=
  match co_table_id o ≫= λ i, table_of i s with
  | Some t =>
      if (other_bills o (dt_id t) s =? 0) && order_driven t
      then map_rows (λ x, if in_group (co_restaurant_id o) t x && order_driven x then freed x else x) (dining s)
      else dining s
  | None => dining s
  end.

Lemma frees_group rid t d x :
  table_wf d → t ∈ rows d → x ∈ rows d →
  frees (t :: all_where (λ x, (dt_restaurant_id x =? rid) && joined_to (dt_id t) x) d) x = in_group rid t x && order_driven x.
Proof.
  intros Hwf Ht Hx. apply Bool.eq_iff_eq_true. unfold frees. rewrite existsb_exists, andb_true_iff. split.
  - intros (r & Hr & [E Hod]%andb_true_iff). zbool. rewrite <-list_elem_of_In in Hr.
    assert (r ∈ rows d) as Hrd.
    { apply elem_of_cons in Hr as [->|Hr]; [done|]. by apply elem_of_all_where in Hr as [? _]. }
    assert (r = x) as -> by by apply (wf_unique _ Hwf). split; [|done]. unfold in_group.
    apply elem_of_cons in Hr as [->|Hr]; [by rewrite bool_decide_eq_true_2|]. apply elem_of_all_where in Hr as [_ ->]. apply orb_true_r.
  - intros [Hg Hod]. exists x. rewrite Z.eqb_refl, Hod. split; [|done]. apply list_elem_of_In. unfold in_group in Hg.
    apply orb_true_iff in Hg as [Hg|Hg]; [apply bool_decide_eq_true in Hg as ->; set_solver|].
    apply elem_of_cons. right. by apply elem_of_all_where.
Qed.

Lemma release_table_run o i actor s :
  table_wf (dining s) → co_table_id o = Some i →
  ∃ s', release_table o i actor s = Ok tt s' ∧ cart_orders (floor_cart s') = cart_orders (floor_cart s) ∧ dining s' = floor_after o s.
Proof.
  intros Hwf Hi. unfold release_table, floor_after. rewrite Hi. cbn [mbind option_bind].
  erewrite bind_run_Ok by reflexivity. erewrite bind_run_Ok by reflexivity. cbv beta. fold (other_bills o i s).
  destruct (table_of i s) as [t|] eqn:Ht.
  - pose proof Ht as [Hin Hid]%get_row_Some. change (row_id t) with (dt_id t) in Hid. rewrite Hid.
    destruct ((other_bills o i s =? 0) && order_driven t).
    + erewrite bind_run_Ok by reflexivity. cbv beta. rewrite <-Hid.
      destruct (free_loop_run (co_restaurant_id o) (dt_id t) actor
        (t :: all_where (λ x, (dt_restaurant_id x =? co_restaurant_id o) && joined_to (dt_id t) x) (dining s)) s Hwf) as (s' & Hrun & Ho & Hd).
      exists s'. split_and!; [done|done|]. rewrite Hd. apply map_rows_ext. intros x Hx. by rewrite frees_group.
    + destruct (negb _); eexists; (split; [reflexivity|done]).
  - destruct (negb _); eexists; (split; [reflexivity|done]).
Qed.

Definition paid_on (order_id : Z) (s : floor_db) : Z :=
  sum_where (counts_as_paid order_id) net_amount (transactions (floor_payments s)).
(** The invoice closes: an on-premise order, still open, paid in full. *)
Definition closes (o : CartOrder) (s : floor_db) : bool :=
  in_strs (co_order_type o) ON_PREMISE_ORDER_TYPES && negb (in_strs (status_value (co_status o)) _ORDER_TERMINAL_STATUSES) &&
  (co_total o <=? paid_on (co_id o) s).

Lemma in_rows_get (o : CartOrder) t : table_wf t → o ∈ rows t ↔ get_row (co_id o) t = Some o.
Proof. intros Hwf. split; [by apply (get_row_wf t o)|by intros [? _]%get_row_Some]. Qed.
Lemma only_order_other_bills o i c s :
  table_wf (cart_orders (floor_cart s)) → only_order (co_id o) (floor_cart s) c →
  other_bills o i (put c s) = other_bills o i s.
Proof.
  intros Hwf Hoo. unfold other_bills. change (floor_cart (put c s)) with c. unfold count_where, count.
  apply (sum_where_same _ (λ _, 1)); [by apply (oo_wf _ _ _ Hoo)|done|]. intros r Hr.
  apply andb_true_iff in Hr as [_ Hr]. apply negb_true_iff in Hr. zbool.
  rewrite !in_rows_get by first [done|by apply (oo_wf _ _ _ Hoo)]. pose proof (oo_other _ _ _ Hoo (co_id r) Hr) as H.
  unfold order_of in H. by rewrite H.
Qed.
Lemma floor_after_same o c s :
  table_wf (cart_orders (floor_cart s)) → only_order (co_id o) (floor_cart s) c → floor_after o (put c s) = floor_after o s.
Proof.
  intros Hwf Hoo. unfold floor_after. change (λ i, table_of i (put c s)) with (λ i, table_of i s).
  destruct (co_table_id o ≫= _) as [t|]; [|done]. by rewrite only_order_other_bills.
Qed.

(** Paying an invoice.  Nothing happens to an order that is not on-premise, is
    already closed or is not paid in full.  Otherwise the order is delivered, if its
    status can reach that, and when no other bill is open on its table the table and
    every table joined to it that the order kept occupied become available and stand
    alone again; all other tables and orders are untouched. *)
Theorem settlement_frees_group rid oid o actor s :
  table_wf (cart_orders (floor_cart s)) → table_wf (dining s) →
  order_of oid (floor_cart s) = Some o → co_restaurant_id o = rid →
  match settle_on_premise_if_paid rid oid actor s with
  | Ok r s' =>
      if closes o s then
        validate (co_status o) DELIVERED = true ∧ dining s' = floor_after o s ∧
        (∃ u, order_of oid (floor_cart s') = Some (with_updated u (with_cart_status DELIVERED o)) ∧
              r = Some (with_updated u (with_cart_status DELIVERED o))) ∧
        (∀ j, j ≠ oid → order_of j (floor_cart s') = order_of j (floor_cart s))
      else r = Some o ∧ s' = s
  | Err _ s' => closes o s = true ∧ validate (co_status o) DELIVERED = false ∧ dining s' = dining s
  end.
Proof.
  intros Hwf Hwd Ho Hr. pose proof (order_of_id _ _ _ Ho) as Hid. unfold settle_on_premise_if_paid.
  assert (Hget : in_cart (get_order_for_tenant rid oid) s = Ok (Some o) s).
  { unfold in_cart, zoom. rewrite get_order_for_tenant_spec by done. cbn [view floor_cart_lens]. rewrite Ho, Hr, Z.eqb_refl.
    by destruct s. }
  rewrite (bind_run_Ok _ _ _ _ _ Hget). unfold closes. rewrite Hid.
  destruct (in_strs (co_order_type o) ON_PREMISE_ORDER_TYPES); cbn [negb andb]; [|done].
  destruct (in_strs (status_value (co_status o)) _ORDER_TERMINAL_STATUSES); cbn [negb andb]; [done|].
  assert (Hpaid : zoom FloorPaymentRaised (total_paid oid) s = Ok (paid_on oid s) s) by (unfold zoom; cbn; by destruct s).
  rewrite (bind_run_Ok _ _ _ _ _ Hpaid). rewrite Z.ltb_antisym. destruct (co_total o <=? paid_on oid s); cbn [negb]; [|done].
  destruct (fsm_transition_spec oid o DELIVERED actor [] (floor_cart s) Ho) as [[Hv Hf]|(Hv & u & c & Hf & Hoo & Hgetc & _ & _)].
  { assert (Hrun : in_cart (fsm_transition oid DELIVERED actor []) s = Err (FloorCartRaised (CartIllegalTransition (co_status o) DELIVERED)) s).
    { unfold in_cart, zoom. cbn [view floor_cart_lens]. rewrite Hf. by destruct s. }
    by rewrite (bind_run_Err _ _ _ _ _ Hrun). }
  set (s1 := put c s).
  assert (Hrun : in_cart (fsm_transition oid DELIVERED actor []) s = Ok tt s1).
  { unfold in_cart, zoom. cbn [view floor_cart_lens]. by rewrite Hf. }
  rewrite (bind_run_Ok _ _ _ _ _ Hrun).
  assert (Hend : ∃ s2, match co_table_id o with Some i => release_table o i actor | None => mret tt end s1 = Ok tt s2 ∧
    cart_orders (floor_cart s2) = cart_orders c ∧ dining s2 = floor_after o s1).
  { destruct (co_table_id o) as [i|] eqn:Hi; [by apply (release_table_run o i actor s1)|].
    exists s1. split_and!; [done|done|]. unfold floor_after. by rewrite Hi. }
  destruct Hend as (s2 & Hrun2 & Ho2 & Hd2). rewrite (bind_run_Ok _ _ _ _ _ Hrun2). unfold gets.
  assert (Hord : ∀ j, order_of j (floor_cart s2) = order_of j c) by (intros j; unfold order_of; by rewrite Ho2).
  rewrite Hord, Hgetc. cbn [from_option id]. split_and!; [done| | |].
  - rewrite Hd2. apply floor_after_same; [done|]. by rewrite Hid.
  - by exists u.
  - intros j Hj. rewrite Hord. by apply (oo_other _ _ _ Hoo).
Qed.

(** ** A join leaves one invoice *)

(** Order [j] is an open bill of table [tid]. *)
Definition open_bill (rid tid : Z) (s : floor_db) (j : Z) : Prop :=
  ∃ o, order_of j (floor_cart s) = Some o ∧ open_at rid tid o = true.
Definition link_of (i : Z) (s : floor_db) : option (option Z) := dt_merged_into_table_id <$> table_of i s.
Record floor_wf (s : floor_db) : Prop := {
  fw_orders : table_wf (cart_orders (floor_cart s));
  fw_lines : table_wf (cart_lines (floor_cart s));
  fw_dining : table_wf (dining s);
}.
(** Links are kept and bills only move to the primary [pid]. *)
Record gathers (rid pid : Z) (s s' : floor_db) : Prop := {
  ga_wf : floor_wf s → floor_wf s';
  ga_open : floor_wf s → ∀ tid j, tid ≠ pid → open_bill rid tid s' j → open_bill rid tid s j;
  ga_link : ∀ i, link_of i s' = link_of i s;
}.
#[export] Instance gathers_preorder rid pid : PreOrder (gathers rid pid).
Proof.
  split; [by intros s|]. intros s1 s2 s3 [W1 O1 L1] [W2 O2 L2]. split; [auto| |by intros i; rewrite L2, L1].
  intros Hw tid j Hne Ho. apply O1; [done..|]. by apply O2; [apply W1|..].
Qed.

Lemma merge_orders_gathers rid pid qid (c : cart_db) r c' :
  table_wf (cart_orders c) → table_wf (cart_lines c) → merge_orders rid pid qid c = Ok r c' →
  table_wf (cart_orders c') ∧ table_wf (cart_lines c') ∧
  (∃ q, order_of qid c' = Some q ∧ co_status q = CANCELLED) ∧
  (∀ j o', j ≠ qid → order_of j c' = Some o' → ∃ o, order_of j c = Some o ∧ co_restaurant_id o = co_restaurant_id o' ∧
     co_status o = co_status o' ∧ co_table_id o = co_table_id o').
Proof.
  intros Hwf Hwl Hrun. pose proof Hrun as Hrun0. unfold merge_orders in Hrun0.
  destruct (pid =? qid) eqn:Hne; [done|]. zbool.
  rewrite (bind_run_Ok _ _ _ _ _ (get_order_for_tenant_spec rid pid c Hwf)) in Hrun0.
  rewrite (bind_run_Ok _ _ _ _ _ (get_order_for_tenant_spec rid qid c Hwf)) in Hrun0.
  destruct (order_of pid c) as [p|] eqn:Hp; [|done]. destruct (co_restaurant_id p =? rid) eqn:Hrp; [|done].
  destruct (order_of qid c) as [q|] eqn:Hq; [|done]. destruct (co_restaurant_id q =? rid) eqn:Hrq; [|done].
  destruct (mergeable p) eqn:Hmp; [|done]. destruct (mergeable q) eqn:Hmq; [|done]. clear Hrun0. zbool.
  destruct (merge_run rid pid qid p q c) as (r1 & c1 & Hrun1 & Hwf1 & Hl1 & _ & (p1 & Hp1 & Hrp1 & Hst1 & Ht1) & Hq1 & Hoth); [done..|].
  rewrite Hrun in Hrun1. injection Hrun1 as <- <-. split_and!; [done| |eauto|].
  - rewrite Hl1. apply map_rows_wf; [intros l; by destruct (_ =? _)|done].
  - intros j o' Hj Ho'. destruct (decide (j = pid)) as [->|Hjp].
    + rewrite Hp1 in Ho'. injection Ho' as <-. exists p. by split_and!; [|congruence|..].
    + rewrite Hoth in Ho' by done. eauto.
Qed.

Lemma link_change i j f s :
  (∀ t, dt_id (f t) = dt_id t) → (∀ t, dt_merged_into_table_id (f t) = dt_merged_into_table_id t) → table_wf (dining s) →
  link_of i (final (change_table j f s)) = link_of i s.
Proof.
  intros Hid Hm Hwf. rewrite change_table_run by done. unfold link_of, table_of; cbn [final dining with_dining].
  rewrite get_map_rows by (intros r; by destruct (dt_id r =? j)). destruct (get_row i (dining s)) as [t|]; cbn; [|done].
  destruct (dt_id t =? j); [by rewrite Hm|done].
Qed.
Lemma open_at_spec rid tid o :
  open_at rid tid o = true ↔ co_restaurant_id o = rid ∧ co_table_id o = Some tid ∧ open_status (co_status o) = true.
Proof. unfold open_at. rewrite !andb_true_iff, Z.eqb_eq, bool_decide_eq_true. tauto. Qed.

(** Tables change, bills do not. *)
Lemma gathers_change rid pid j f s :
  (∀ t, dt_id (f t) = dt_id t) → (∀ t, dt_merged_into_table_id (f t) = dt_merged_into_table_id t) → table_wf (dining s) →
  gathers rid pid s (final (change_table j f s)).
Proof.
  intros Hid Hm Hwd. split; [|intros _ tid k _; by rewrite change_table_run|intros i; by apply link_change].
  rewrite change_table_run by done. intros [Ho Hl Hd]. split; [done..|]. cbn. apply map_rows_wf; [|done].
  intros r. by destruct (dt_id r =? j).
Qed.

(** A bill moved to the primary. *)
Lemma move_bill_gathers rid pid bid s :
  floor_wf s →
  ∃ s', in_cart (change_order bid (λ o, with_place (Some pid) (co_staff_id o) o)) s = Ok tt s' ∧ gathers rid pid s s' ∧
    ∀ tid, tid ≠ pid → ¬ open_bill rid tid s' bid.
Proof.
  intros [Hwf Hwl Hwd]. destruct (order_of bid (floor_cart s)) as [o|] eqn:Ho.
  - destruct (change_order_spec bid (λ o, with_place (Some pid) (co_staff_id o) o) o (floor_cart s) Ho)
      as (u & c & Hrun & Hoo & Hget & _); [done|].
    exists (put c s). split; [unfold in_cart, zoom; cbn [view floor_cart_lens]; by rewrite Hrun|].
    assert (Hnot : ∀ tid, tid ≠ pid → ¬ open_bill rid tid (put c s) bid).
    { intros tid Hne (o' & Ho' & (_ & Ht & _)%open_at_spec). change (order_of bid c = Some o') in Ho'. rewrite Hget in Ho'.
      injection Ho' as <-. cbn in Ht. congruence. }
    split; [|done]. split; [|intros _|done].
    + intros [H1 H2 H3]. split; [by apply (oo_wf _ _ _ Hoo)|cbn; by rewrite (oo_lines _ _ _ Hoo)|done].
    + intros tid j Hne Hob. destruct (decide (j = bid)) as [->|Hj]; [by destruct (Hnot tid Hne)|].
      destruct Hob as (o' & Ho' & Hop). exists o'. split; [|done]. by rewrite <-(oo_other _ _ _ Hoo).
  - exists s. unfold in_cart, zoom, change_order. cbn [view floor_cart_lens]. erewrite bind_run_Ok by reflexivity. cbv beta.
    unfold order_of in Ho. rewrite Ho. split; [by destruct s|]. split; [reflexivity|].
    intros tid _ (o' & Ho' & _). unfold order_of in Ho'. congruence.
Qed.

Lemma fold_bill_gathers rid pid b s u s' :
  floor_wf s → fold_bill rid pid b s = Ok u s' →
  gathers rid pid s s' ∧ ∀ tid, tid ≠ pid → ¬ open_bill rid tid s' (co_id b).
Proof.
  intros Hw Hrun.
  assert (Hmove : (in_cart (change_order (co_id b) (λ o, with_place (Some pid) (co_staff_id o) o)) ≫= λ _,
      change_table pid (with_group_bill (Some (co_id b)))) s = Ok u s' →
    gathers rid pid s s' ∧ ∀ tid, tid ≠ pid → ¬ open_bill rid tid s' (co_id b)).
  { clear Hrun. intros Hrun. destruct (move_bill_gathers rid pid (co_id b) s Hw) as (s1 & Hrun1 & Hg1 & Hn1).
    rewrite (bind_run_Ok _ _ _ _ _ Hrun1) in Hrun. pose proof (fw_dining _ (ga_wf _ _ _ _ Hg1 Hw)) as Hwd1.
    pose proof (gathers_change rid pid pid (with_group_bill (Some (co_id b))) s1 ltac:(done) ltac:(done) Hwd1) as Hg2.
    rewrite Hrun in Hg2. cbn in Hg2. split; [by etrans|]. intros tid Hne Hob. apply (Hn1 tid Hne).
    apply (ga_open _ _ _ _ Hg2 (ga_wf _ _ _ _ Hg1 Hw)); done. }
  unfold fold_bill in Hrun. erewrite bind_run_Ok in Hrun by reflexivity. cbv beta in Hrun.
  destruct (table_of pid s ≫= dt_group_bill_order_id) as [t|]; [|by apply Hmove].
  destruct (negb (t =? co_id b)) eqn:Ht; [|by apply Hmove].
  apply bind_Ok in Hrun as (r & s1 & Hrun & [= <- <-]). unfold in_cart in Hrun. apply zoom_Ok in Hrun as (c & Hrun & ->).
  cbn [view floor_cart_lens] in Hrun. destruct Hw as [Hwf Hwl Hwd].
  destruct (merge_orders_gathers rid t (co_id b) (floor_cart s) r c Hwf Hwl Hrun) as (Hwf' & Hwl' & (q & Hq & Hst) & Hoth).
  assert (Hnot : ∀ tid, ¬ open_bill rid tid (put c s) (co_id b)).
  { intros tid (o' & Ho' & (_ & _ & Hop)%open_at_spec). change (order_of (co_id b) c = Some o') in Ho'. rewrite Hq in Ho'.
    injection Ho' as <-. by rewrite Hst in Hop. }
  split; [split|auto]; [done| |done]. intros _ tid j _ Hob. destruct (decide (j = co_id b)) as [->|Hj]; [by destruct (Hnot tid)|].
  destruct Hob as (o' & Ho' & (H1 & H2 & H3)%open_at_spec). destruct (Hoth j o' Hj Ho') as (o & Ho & E1 & E2 & E3).
  exists o. split; [done|]. apply open_at_spec. by rewrite E1, E2, E3.
Qed.

Lemma fold_bills_gathers rid pid bills s u s' :
  floor_wf s → for_each (fold_bill rid pid) bills s = Ok u s' →
  gathers rid pid s s' ∧ ∀ tid b, tid ≠ pid → b ∈ bills → ¬ open_bill rid tid s' (co_id b).
Proof.
  revert s. induction bills as [|b bills IH]; intros s Hw Hrun; cbn [for_each] in Hrun.
  { injection Hrun as _ <-. split; [reflexivity|set_solver]. }
  apply bind_Ok in Hrun as (u1 & s1 & Hrun1 & Hrun). destruct (fold_bill_gathers _ _ _ _ _ _ Hw Hrun1) as [Hg1 Hn1].
  pose proof (ga_wf _ _ _ _ Hg1 Hw) as Hw1. destruct (IH s1 Hw1 Hrun) as [Hg2 Hn2]. split; [by etrans|].
  intros tid b' Hne [->|Hb]%elem_of_cons; [|by apply Hn2]. intros Hob. apply (Hn1 tid Hne).
  by apply (ga_open _ _ _ _ Hg2 Hw1).
Qed.

Lemma open_bills_spec rid tid s :
  floor_wf s → (∀ b, b ∈ _open_bills rid tid s → open_bill rid tid s (co_id b)) ∧
  (∀ j, open_bill rid tid s j → ∃ b, b ∈ _open_bills rid tid s ∧ co_id b = j) ∧
  (1 < length (_open_bills rid tid s) → ∃ j1 j2, j1 ≠ j2 ∧ open_bill rid tid s j1 ∧ open_bill rid tid s j2)%nat.
Proof.
  intros [Hwf _ _].
  assert (Hb : ∀ b, b ∈ _open_bills rid tid s ↔ b ∈ rows (cart_orders (floor_cart s)) ∧ open_at rid tid b = true).
  { intros b. unfold _open_bills. by rewrite elem_of_sort_by, elem_of_all_where. }
  assert (H1 : ∀ b, b ∈ _open_bills rid tid s → open_bill rid tid s (co_id b)).
  { intros b [Hin Hop]%Hb. exists b. split; [by apply in_rows_get|done]. }
  split_and!; [done| |].
  - intros j (o & Ho & Hop). exists o. split; [|by apply (order_of_id _ _ _ Ho)]. apply Hb. split; [|done].
    by apply get_row_Some in Ho as [? _].
  - assert (Hnd : NoDup (_open_bills rid tid s)).
    { unfold _open_bills. rewrite sort_by_perm. apply NoDup_ListNoDup, List.NoDup_filter, NoDup_ListNoDup, Hwf. }
    destruct (_open_bills rid tid s) as [|x [|y l]]; cbn; [lia|lia|intros _].
    apply NoDup_cons in Hnd as [Hx _]. exists (co_id x), (co_id y). split; [|split; apply H1; set_solver].
    intros Heq. apply Hx. rewrite (wf_unique _ Hwf x y); [set_solver| | |done]; apply Hb; set_solver.
Qed.

(** What joining table [tid] comes to. *)
Definition joined_now (rid pid tid : Z) (s s' : floor_db) : Prop :=
  link_of tid s' = Some (Some pid) ∧ (link_of tid s = Some (Some pid) ∨ ∀ j, ¬ open_bill rid tid s' j).
Definition kept_apart (rid tid : Z) (s s' : floor_db) : Prop :=
  link_of tid s' = link_of tid s ∧ ∃ j1 j2, j1 ≠ j2 ∧ open_bill rid tid s j1 ∧ open_bill rid tid s j2.
Record draws (rid pid : Z) (wanted : list Z) (s s' : floor_db) : Prop := {
  dr_wf : floor_wf s';
  dr_open : ∀ t j, t ≠ pid → open_bill rid t s' j → open_bill rid t s j;
  dr_link : ∀ i, i ∉ wanted → link_of i s' = link_of i s;
}.
Lemma gathers_draws rid pid wanted s s' : floor_wf s → gathers rid pid s s' → draws rid pid wanted s s'.
Proof. intros Hw [W O L]. split; [auto..|intros i _; apply L]. Qed.

Lemma link_join i tid pid st s :
  table_wf (dining s) →
  link_of i (final (change_table tid (λ t, with_table_status st (with_merged (Some pid) t)) s)) =
    if i =? tid then (λ _, Some pid) <$> table_of tid s else link_of i s.
Proof.
  intros Hwf. rewrite change_table_run by done. unfold link_of, table_of; cbn [final dining with_dining].
  rewrite get_map_rows by (intros r; by destruct (dt_id r =? tid)).
  destruct (i =? tid) eqn:E; zbool.
  - subst i. destruct (get_row tid (dining s)) as [t|] eqn:Ht; [|done]. apply get_row_Some in Ht as [_ Hid].
    change (row_id t) with (dt_id t) in Hid. cbn. by rewrite Hid, Z.eqb_refl.
  - destruct (get_row i (dining s)) as [t|] eqn:Ht; [|done]. apply get_row_Some in Ht as [_ Hid].
    change (row_id t) with (dt_id t) in Hid. cbn. by rewrite (proj2 (Z.eqb_neq _ _)) by congruence.
Qed.

Lemma join_one_outcome rid pid from tid s u s' :
  floor_wf s → tid ≠ pid → join_one rid pid from tid s = Ok u s' →
  draws rid pid [tid] s s' ∧ (joined_now rid pid tid s s' ∨ kept_apart rid tid s s').
Proof.
  intros Hw Hne Hrun. unfold join_one in Hrun.
  destruct (owned_run rid tid s) as [(t & Hown & Ht & _)|Hown];
    [rewrite (bind_run_Ok _ _ _ _ _ Hown) in Hrun|by rewrite (bind_run_Err _ _ _ _ _ Hown) in Hrun].
  pose proof Ht as [_ Hid]%get_row_Some. change (row_id t) with (dt_id t) in Hid.
  destruct (joined_to pid t) eqn:Hj.
  { injection Hrun as _ <-. apply bool_decide_eq_true in Hj. split; [by apply gathers_draws|]. left.
    assert (link_of tid s = Some (Some pid)) by (unfold link_of; rewrite Ht; cbn; congruence). by split; [|left]. }
  destruct (linked (dt_merged_into_table_id t)); [done|].
  erewrite bind_run_Ok in Hrun by reflexivity. cbv beta in Hrun. destruct (negb _); [done|].
  erewrite bind_run_Ok in Hrun by reflexivity. cbv beta in Hrun. rewrite Hid in Hrun.
  destruct (open_bills_spec rid tid s Hw) as (_ & _ & Htwo). destruct (Nat.ltb _ _) eqn:Hlen.
  - destruct (List.filter _ _) as [|b l]; [done|].
    destruct (fold_bills_gathers rid pid (b :: l) s u s' Hw Hrun) as [Hg _]. split; [by apply gathers_draws|]. right.
    split; [apply Hg|]. apply Htwo. by apply Nat.ltb_lt.
  - erewrite bind_run_Ok in Hrun by reflexivity. cbv beta in Hrun. set (st := match _open_bills rid pid s with [] => _ | _ => _ end) in Hrun.
    pose proof (fw_dining _ Hw) as Hwd.
    pose proof (change_table_run tid (λ t, with_table_status st (with_merged (Some pid) t)) s Hwd ltac:(done)) as Hch.
    pose proof (λ i, link_join i tid pid st s Hwd) as Hlink. rewrite Hch in Hlink. rewrite (bind_run_Ok _ _ _ _ _ Hch) in Hrun.
    set (s1 := with_dining _ s) in *. cbn [final] in Hlink.
    assert (Hw1 : floor_wf s1).
    { destruct Hw as [H1 H2 H3]. split; [done..|]. cbn. apply map_rows_wf; [intros r; by destruct (dt_id r =? tid)|done]. }
    erewrite bind_run_Ok in Hrun by reflexivity. cbv beta in Hrun.
    destruct (fold_bills_gathers rid pid _ s1 u s' Hw1 Hrun) as [Hg Hnone]. split.
    + split; [by apply Hg|intros k j Hk Hob; by apply (ga_open _ _ _ _ Hg Hw1 k j)|].
      intros i Hi. rewrite (ga_link _ _ _ _ Hg), Hlink, (proj2 (Z.eqb_neq _ _)) by set_solver. done.
    + left. split; [rewrite (ga_link _ _ _ _ Hg), Hlink, Z.eqb_refl, Ht; done|]. right. intros j Hob.
      destruct (open_bills_spec rid tid s1 Hw1) as (_ & Hall & _).
      destruct (Hall j) as (b & Hb & <-); [by apply (ga_open _ _ _ _ Hg Hw1)|]. by apply (Hnone tid b Hne Hb).
Qed.

Lemma join_loop_outcome rid pid from wanted s u s' :
  floor_wf s → NoDup wanted → pid ∉ wanted → for_each (join_one rid pid from) wanted s = Ok u s' →
  draws rid pid wanted s s' ∧ ∀ tid, tid ∈ wanted → joined_now rid pid tid s s' ∨ kept_apart rid tid s s'.
Proof.
  revert s. induction wanted as [|w ws IH]; intros s Hw Hnd Hp Hrun; cbn [for_each] in Hrun.
  { injection Hrun as _ <-. split; [by apply gathers_draws|set_solver]. }
  apply NoDup_cons in Hnd as [Hwn Hnd]. apply bind_Ok in Hrun as (u1 & s1 & Hrun1 & Hrun).
  destruct (join_one_outcome rid pid from w s u1 s1 Hw ltac:(set_solver) Hrun1) as [[W1 O1 L1] Hout1].
  destruct (IH s1 W1 Hnd ltac:(set_solver) Hrun) as [[W2 O2 L2] Hout2]. split.
  - split; [done|auto|]. intros i Hi. rewrite L2, L1 by set_solver. done.
  - intros tid [->|Htid]%elem_of_cons.
    + destruct Hout1 as [[Ha Hb]|[Ha Hb]]; [left|right]; (split; [by rewrite L2|]); [|done].
      destruct Hb as [Hb|Hb]; [by left|right]. intros j Hob. apply (Hb j). apply O2; [set_solver|done].
    + assert (Hl : link_of tid s1 = link_of tid s) by (apply L1; set_solver).
      destruct (Hout2 tid Htid) as [[Ha Hb]|[Ha (j1 & j2 & Hj & Ho1 & Ho2)]]; [left|right]; (split; [congruence|]).
      * destruct Hb as [Hb|Hb]; [left; congruence|by right].
      * exists j1, j2. split_and!; [done|apply O1; [set_solver|done]..].
Qed.

Lemma dict_keys_NoDup l : NoDup (dict_keys l).
Proof.
  induction l as [|x l IH]; cbn; constructor.
  - rewrite list_elem_of_In, List.filter_In, Z.eqb_refl. by intros [_ ?].
  - by apply NoDup_ListNoDup, List.NoDup_filter, NoDup_ListNoDup.
Qed.
Lemma choose_bill_gathers rid pid p into s u s' :
  floor_wf s → choose_bill rid p into s = Ok u s' → gathers rid pid s s'.
Proof.
  intros Hw Hrun.
  assert (Hch : ∀ b, change_table (dt_id p) (with_group_bill (Some b)) s = Ok u s' → gathers rid pid s s').
  { intros b Hrun'. pose proof (gathers_change rid pid (dt_id p) (with_group_bill (Some b)) s ltac:(done) ltac:(done) (fw_dining _ Hw)) as H.
    by rewrite Hrun' in H. }
  unfold choose_bill in Hrun. erewrite bind_run_Ok in Hrun by reflexivity. cbv beta in Hrun. destruct into as [i|].
  - destruct (List.find _ _); [by eapply Hch|done].
  - destruct (_open_bills rid (dt_id p) s) as [|b [|b' l]]; [by injection Hrun as _ <-|by eapply Hch|done].
Qed.
(** The end of a join: the primary's status, the audit row and the event. *)
Lemma gathers_quiet rid pid s s' :
  dining s' = dining s → cart_orders (floor_cart s') = cart_orders (floor_cart s) →
  cart_lines (floor_cart s') = cart_lines (floor_cart s) → gathers rid pid s s'.
Proof.
  intros Hd Ho Hl. split; [intros [H1 H2 H3]; by split; rewrite ?Hd, ?Ho, ?Hl| |intros i; unfold link_of, table_of; by rewrite Hd].
  intros _ tid j _ (o & Hj & Hop). exists o. split; [|done]. unfold order_of in *. by rewrite <-Ho.
Qed.
Lemma join_group_outcome rid p wanted into from actor s r s' :
  floor_wf s → dt_id p ∉ wanted → NoDup wanted → join_group rid p wanted into from actor s = Ok r s' →
  dt_id r = dt_id p ∧ draws rid (dt_id p) wanted s s' ∧
  ∀ tid, tid ∈ wanted → joined_now rid (dt_id p) tid s s' ∨ kept_apart rid tid s s'.
Proof.
  intros Hw Hp Hnd Hrun. unfold join_group in Hrun.
  apply bind_Ok in Hrun as (u0 & s0 & Hrun0 & Hrun). pose proof (choose_bill_gathers rid (dt_id p) p into s u0 s0 Hw Hrun0) as Hg0.
  pose proof (ga_wf _ _ _ _ Hg0 Hw) as Hw0. apply bind_Ok in Hrun as (u1 & s1 & Hrun1 & Hrun).
  destruct (join_loop_outcome rid (dt_id p) from wanted s0 u1 s1 Hw0 Hnd Hp Hrun1) as [Hd1 Hout1].
  erewrite bind_run_Ok in Hrun by reflexivity. cbv beta in Hrun. apply bind_Ok in Hrun as (u2 & s2 & Hrun2 & Hrun).
  assert (Hg2 : gathers rid (dt_id p) s1 s2).
  { destruct (in_strs _ _); [|by injection Hrun2 as _ <-]. erewrite bind_run_Ok in Hrun2 by reflexivity. cbv beta in Hrun2.
    pose proof (gathers_change rid (dt_id p) (dt_id p) (with_table_status (match _open_bills rid (dt_id p) s1 with [] => "seated" | _ => "ordered" end)%string)
      s1 ltac:(done) ltac:(done) (fw_dining _ (dr_wf _ _ _ _ _ Hd1))) as H. by rewrite Hrun2 in H. }
  rewrite (bind_run_Ok _ _ _ _ _ (audit_run _ _ _ _ _ _ _ _)) in Hrun. apply bind_Ok in Hrun as (u3 & s3 & Hrun3 & Hrun).
  assert (Hg3 : gathers rid (dt_id p) s2 s3).
  { unfold _announce, modify in Hrun3. injection Hrun3 as _ <-. destruct (bool_decide _); by apply gathers_quiet. }
  injection Hrun as <- <-. assert (Hg : gathers rid (dt_id p) s1 s3) by by etrans.
  split; [destruct (table_of (dt_id p) s3) as [t|] eqn:Ht; [by apply get_row_Some in Ht as [_ Ht]|done]|]. split.
  - destruct Hd1 as [W O L]. split; [by apply Hg| |].
    + intros t j Ht Hob. apply (ga_open _ _ _ _ Hg0 Hw); [done|]. apply O; [done|]. by apply (ga_open _ _ _ _ Hg W).
    + intros i Hi. rewrite (ga_link _ _ _ _ Hg), L by done. apply Hg0.
  - intros tid Htid. assert (Hne : tid ≠ dt_id p) by congruence.
    destruct (Hout1 tid Htid) as [[Ha Hb]|[Ha (j1 & j2 & Hj & Ho1 & Ho2)]]; [left|right]; (split; [rewrite (ga_link _ _ _ _ Hg), Ha; by rewrite ?(ga_link _ _ _ _ Hg0)|]).
    + destruct Hb as [Hb|Hb]; [left; by rewrite <-(ga_link _ _ _ _ Hg0)|right]. intros j Hob. apply (Hb j).
      by apply (ga_open _ _ _ _ Hg (dr_wf _ _ _ _ _ Hd1)).
    + exists j1, j2. split_and!; [done|by apply (ga_open _ _ _ _ Hg0 Hw)..].
Qed.

(** A join leaves one invoice.  After a successful join each table asked for either
    is joined to the primary, with no open bill of its own unless it was joined before,
    or had several open bills and stays on its own with a party of its own; and a round
    rung up at a joined table goes to the same tab as one rung up at the primary. *)
Theorem join_leaves_one_invoice rid ptid ids into from actor s r s' :
  floor_wf s → no_chain (dining s) → join_tables rid ptid ids into from actor s = Ok r s' →
  let pid := dt_id r in
  (∀ tid, tid ∈ ids → tid ≠ pid → joined_now rid pid tid s s' ∨ kept_apart rid tid s s') ∧
  (∀ tid, pid ≠ 0 → link_of tid s' = Some (Some pid) →
     resolve_bill_table_id tid s' = pid ∧ tab_for_round rid tid s' = tab_for_round rid pid s').
Proof.
  intros Hw Hnc Hrun pid. unfold join_tables in Hrun.
  destruct (group_primary_run rid ptid s Hnc) as [(p & Hp & _ & _ & _ & Hst)|(i & Hp)];
    [rewrite (bind_run_Ok _ _ _ _ _ Hp) in Hrun|by rewrite (bind_run_Err _ _ _ _ _ Hp) in Hrun].
  pose proof (wanted_spec (dt_id p) ids) as Hwant.
  assert (Hnd : NoDup (List.filter (λ t, negb (t =? dt_id p)) (dict_keys ids)))
    by apply NoDup_ListNoDup, List.NoDup_filter, NoDup_ListNoDup, dict_keys_NoDup.
  set (wanted := List.filter _ _) in *.
  assert (Hrun' : join_group rid p wanted into from actor s = Ok r s') by (destruct wanted; [done|exact Hrun]).
  clearbody wanted. assert (Hpw : dt_id p ∉ wanted) by (rewrite Hwant; tauto).
  destruct (join_group_outcome _ _ _ _ _ _ _ _ _ Hw Hpw Hnd Hrun') as (Hid & _ & Hout).
  pose proof (join_group_keeps rid p wanted into from actor Hpw s Hst) as Hst'. rewrite Hrun' in Hst'. cbn in Hst'.
  unfold pid in *. rewrite Hid in *. clear pid. split; [intros tid Hin Hne; apply Hout, Hwant; done|].
  intros tid Hnz Hlink.
  assert (Hres : resolve_bill_table_id tid s' = dt_id p).
  { unfold resolve_bill_table_id. unfold link_of in Hlink. destruct (table_of tid s') as [t|]; [|done]. injection Hlink as Hm.
    rewrite Hm. cbn. by rewrite (proj2 (Z.eqb_neq _ _)). }
  split; [done|]. assert (Hresp : resolve_bill_table_id (dt_id p) s' = dt_id p).
  { unfold resolve_bill_table_id. destruct (table_of (dt_id p) s') as [t|] eqn:Ht; [|done]. apply get_row_Some in Ht as [Hin Hti].
    by rewrite (proj2 Hst' t Hin Hti). }
  unfold tab_for_round. by rewrite Hres, Hresp.
Qed.

(** ** Labels *)

Definition live_key (t : DiningTable) : Z * string := (dt_restaurant_id t, lower (dt_label t)).
(** No two live tables of a branch carry the same label, up to case. *)
Record labels_unique (d : table DiningTable) : Prop := {
  lu_wf : table_wf d;
  lu_key : ∀ a b, a ∈ rows d → b ∈ rows d → dt_archived_at a = None → dt_archived_at b = None → live_key a = live_key b → a = b;
}.
Lemma labels_set f t d :
  labels_unique d → t ∈ rows d → dt_id (f t) = dt_id t →
  (dt_archived_at (f t) = None → dt_archived_at t = None ∧
    ∀ b, b ∈ rows d → dt_id b ≠ dt_id t → dt_archived_at b = None → live_key b ≠ live_key (f t)) →
  labels_unique (set_row (f t) d).
Proof.
  intros [Hwf Hu] Ht Hid Hf. split; [by apply set_row_wf|]. intros a b Ha Hb Haa Hab Hk.
  apply elem_of_set_row in Ha as [[-> _]|[Ha Hna]]; apply elem_of_set_row in Hb as [[-> _]|[Hb Hnb]]; [done| | |by apply Hu].
  - destruct (Hf Haa) as [_ H]. destruct (H b Hb); [|done..]. change (dt_id b ≠ dt_id (f t)) in Hnb. congruence.
  - destruct (Hf Hab) as [_ H]. destruct (H a Ha); [|done..]. change (dt_id a ≠ dt_id (f t)) in Hna. congruence.
Qed.
(** A write that keeps the label and does not revive the table. *)
Lemma labels_change i f :
  (∀ t, dt_id (f t) = dt_id t) → (∀ t, live_key (f t) = live_key t) → (∀ t, dt_archived_at (f t) = None → dt_archived_at t = None) →
  preserves (on_tables labels_unique) (change_table i f).
Proof.
  intros Hid Hk Ha. apply preserves_change. intros d t Hd Ht _. apply labels_set; [done..|]. intros Harch.
  specialize (Ha t Harch). split; [done|]. intros b Hb Hne Hba Heq. rewrite Hk in Heq. apply Hne.
  by rewrite (lu_key _ Hd b t).
Qed.

#[export] Hint Extern 4 (preserves (on_tables labels_unique) (change_table _ _)) =>
  apply labels_change; [done|done|intros ? Harchived; first [exact Harchived|discriminate Harchived]] : floor.

Lemma label_free_run rid label exclude s :
  match assert_label_free rid label exclude s with
  | Ok _ s' => s' = s ∧ ∀ t, t ∈ rows (dining s) → carries_label rid label exclude t = false
  | Err _ s' => s' = s
  end.
Proof.
  unfold assert_label_free. erewrite bind_run_Ok by reflexivity. cbv beta. destruct (_ =? 0) eqn:E; [|done]. zbool.
  split; [done|]. intros t Ht. destruct (carries_label rid label exclude t) eqn:Hc; [|done]. exfalso.
  unfold count_where, count in E. induction (rows (dining s)) as [|x l IH]; [set_solver|]. cbn in E.
  assert (0 ≤ count (carries_label rid label exclude) l) as H0 by apply count_nonneg. unfold count in H0.
  apply elem_of_cons in Ht as [->|Ht]; [rewrite Hc in E; lia|]. destruct (carries_label rid label exclude x); [lia|auto].
Qed.
Lemma carries_label_spec rid label exclude t :
  carries_label rid label exclude t = false → dt_restaurant_id t = rid → dt_archived_at t = None →
  match exclude with Some i => dt_id t ≠ i | None => True end → lower (dt_label t) ≠ lower (strip label).
Proof.
  unfold carries_label. intros Hc Hr Ha Hx Heq. rewrite Hr, Z.eqb_refl, bool_decide_eq_true_2, Heq, String.eqb_refl in Hc by done.
  destruct exclude as [i|]; [|done]. cbn in Hc. apply negb_false_iff in Hc. by zbool.
Qed.

Lemma create_table_labels rid label seats : preserves (on_tables labels_unique) (create_table rid label seats).
Proof.
  intros s [Hwf Hu]. unfold create_table. pose proof (label_free_run rid label None s) as Hfree.
  destruct (assert_label_free rid label None s) as [u s1|e s1] eqn:Hrun.
  2: { rewrite (bind_run_Err _ _ _ _ _ Hrun). by subst s1. }
  destruct Hfree as [-> Hfree]. rewrite (bind_run_Ok _ _ _ _ _ Hrun). erewrite bind_run_Ok by reflexivity. cbv beta zeta.
  rewrite bind_final. unfold modify; cbn. unfold on_tables; cbn. split; [by apply add_row_wf|].
  assert (Hnew : ∀ a, a ∈ rows (dining s) → dt_archived_at a = None → live_key a ≠ (rid, lower (strip label))).
  { intros a Ha Hna [= Hr Hl]. by apply (carries_label_spec rid label None a (Hfree a Ha)). }
  intros a b [Ha| ->]%elem_of_add_row [Hb| ->]%elem_of_add_row Haa Hba Hk; [by apply Hu|by destruct (Hnew a)|by destruct (Hnew b)|done].
Qed.
Lemma rename_labels rid tid l s :
  on_tables labels_unique s → (∀ t, table_of tid s = Some t → dt_restaurant_id t = rid) →
  on_tables labels_unique (final ((assert_label_free rid l (Some tid) ≫= λ _, change_table tid (with_label (strip l))) s)).
Proof.
  intros Hs Hr. pose proof (label_free_run rid l (Some tid) s) as Hfree.
  destruct (assert_label_free rid l (Some tid) s) as [u s1|e s1] eqn:Hrun.
  2: { rewrite (bind_run_Err _ _ _ _ _ Hrun). by subst s1. }
  destruct Hfree as [-> Hfree]. rewrite (bind_run_Ok _ _ _ _ _ Hrun). unfold change_table, modify; cbn [final].
  destruct (table_of tid s) as [t|] eqn:Ht; [|done]. pose proof Ht as [Hin Hid]%get_row_Some. change (row_id t) with (dt_id t) in Hid.
  apply (labels_set (with_label (strip l)) t); [done..|]. cbn. intros Ha. split; [done|]. intros b Hb Hne Hba [= Hk1 Hk2].
  apply (carries_label_spec rid l (Some tid) b (Hfree b Hb)); [|done|congruence|done]. rewrite Hk1. by apply Hr.
Qed.
Lemma update_table_labels rid tid label seats : preserves (on_tables labels_unique) (update_table rid tid label seats).
Proof.
  intros s Hs. unfold update_table. destruct (owned_run rid tid s) as [(t & Hrun & Ht & Hr & _)|Hrun].
  2: { by rewrite (bind_run_Err _ _ _ _ _ Hrun). }
  rewrite (bind_run_Ok _ _ _ _ _ Hrun). rewrite bind_final.
  set (m := match label with Some _ => _ | None => _ end).
  assert (Hm : on_tables labels_unique (final (m s))).
  { unfold m. destruct label as [l|]; [|done]. destruct (strip l =s dt_label t); [done|]. apply rename_labels; [done|].
    intros t' Ht'. congruence. }
  destruct (m s) as [u s1|e s1]; [|done]. revert Hm.
  apply (preserves_bind (on_tables labels_unique) (match seats with Some n => change_table tid (with_seats n) | None => mret tt end)); keep_tables.
Qed.

Lemma other_ops_labels op :
  match op with OpCreate _ _ _ | OpUpdate _ _ _ _ => True
  | _ => ∀ s, on_tables labels_unique s → on_tables labels_unique (run_floor op s) end.
Proof.
  destruct op; cbn [run_floor]; try done.
  - change (preserves (on_tables labels_unique) (archive_table rid tid)). unfold archive_table, _owned_table. keep_tables.
  - change (preserves (on_tables labels_unique) (transition_status rid tid to)). unfold transition_status. keep_tables.
  - change (preserves (on_tables labels_unique) (transfer_order rid oid tid)). unfold transfer_order. keep_tables.
  - change (preserves (on_tables labels_unique) (join_tables rid ptid ids into from actor)).
    unfold join_tables, group_primary, join_group, choose_bill, join_one, fold_bill, _owned_table. keep_tables.
  - change (preserves (on_tables labels_unique) (unjoin_table rid tid actor)). unfold unjoin_table, _owned_table. keep_tables.
  - change (preserves (on_tables labels_unique) (settle_on_premise_if_paid rid oid actor)).
    unfold settle_on_premise_if_paid, release_table, free_table. keep_tables.
  - change (preserves (on_tables labels_unique) (in_cart m)). keep_tables.
  - change (preserves (on_tables labels_unique) (zoom FloorPaymentRaised m)). keep_tables.
Qed.

(** Labels stay unique.  Whatever the floor, the cart and the till do, no two live
    tables of a branch carry the same label, up to case: creating and renaming are the
    only calls that can bring a label in, and they check it; archiving only lets one go. *)
Theorem floor_labels_unique ops s :
  labels_unique (dining s) → labels_unique (dining (fold_left (λ s op, run_floor op s) ops s)).
Proof.
  revert s. induction ops as [|op ops IH]; intros s Hs; cbn; [done|]. apply IH.
  pose proof (other_ops_labels op) as Hop. destruct op; try by apply Hop.
  - by apply create_table_labels.
  - by apply update_table_labels.
Qed.

(** ** A floor to evaluate *)

Definition ex_table (id rid : Z) (label st : string) : DiningTable := Build_DiningTable id rid label 4 st None None None.
Definition cash (id order amount : Z) : PaymentTransaction := {|
  pt_id := id; pt_restaurant_id := 1; pt_order_id := order; pt_tender_type := "cash"; pt_amount_aed := amount;
  pt_tip_aed := 0; pt_provider := "cash"; pt_provider_charge_id := None; pt_status := TSucceeded;
  pt_refunded_amount_aed := 0; pt_channel := "till"; pt_reference_meta := None; pt_wallet_session_id := None;
  pt_created_at := 0 |}.
(** Tables 5, 6 and 8 of branch 1, each with a bill, and table 4 of another branch. *)
Definition ex_floor (l : list PaymentTransaction) : floor_db := {|
  dining := Table [ex_table 4 2 "A1" "available"; ex_table 5 1 "T01" "ordered"; ex_table 6 1 "T02" "ordered";
                   ex_table 8 1 "T04" "ordered"] 9;
  floor_cart := ex_tabs CONFIRMED; floor_payments := with_transactions (Table l 9) empty_payments; floor_events := [] |}.

Lemma ex_floor_no_chain l : no_chain (dining (ex_floor l)).
Proof.
  split; [by apply table_wf_check|]. intros a b Ha _ Hab. cbn in Ha.
  repeat (apply elem_of_cons in Ha as [->|Ha]; [discriminate Hab|]). set_solver.
Defined.
Lemma ex_floor_wf l : floor_wf (ex_floor l).
Proof. split; by apply table_wf_check. Defined.
Lemma ex_floor_labels l : labels_unique (dining (ex_floor l)).
Proof.
  split; [by apply table_wf_check|]. intros a b Ha Hb _ _ Hk. cbn in Ha, Hb.
  repeat (apply elem_of_cons in Ha as [->|Ha];
    [repeat (apply elem_of_cons in Hb as [->|Hb]; [first [reflexivity|discriminate Hk]|]); set_solver|]). set_solver.
Defined.

Definition party : list floor_op := [OpJoin 1 5 [6; 8; 5] None [] "cashier"; OpCreate 1 "T09" 2; OpJoin 1 6 [9] None [] "cashier"].
Theorem joins_never_chain_witness : no_chain (dining (fold_left (λ s op, run_floor op s) party (ex_floor []))).
Proof. exact (proj1 (joins_never_chain party (ex_floor []) (ex_floor_no_chain []))). Defined.
Theorem floor_labels_unique_witness :
  labels_unique (dining (fold_left (λ s op, run_floor op s) [OpCreate 1 " t01 " 2; OpUpdate 1 5 (Some "T02"%string) None] (ex_floor []))).
Proof. exact (floor_labels_unique [OpCreate 1 " t01 " 2; OpUpdate 1 5 (Some "T02"%string) None] (ex_floor []) (ex_floor_labels [])). Defined.
Abbreviation ex_join := (join_tables 1 5 [6; 8] None [] "cashier" (ex_floor [])).
Lemma ex_join_links : dt_id <$> value ex_join = Some 5 ∧ link_of 8 (final ex_join) = Some (Some 5) ∧
  link_of 6 (final ex_join) = Some (Some 5) ∧ link_of 6 (ex_floor []) = Some None.
Proof. by vm_compute. Qed.
Theorem join_leaves_one_invoice_witness :
  ∃ r s', ex_join = Ok r s' ∧ dt_id r = 5 ∧ tab_for_round 1 8 s' = tab_for_round 1 5 s' ∧ (∀ j, ¬ open_bill 1 6 s' j).
Proof.
  destruct ex_join_links as (Hr & H8 & H6 & H0). remember ex_join as out eqn:E.
  destruct out as [r s'|e s']; [|discriminate Hr]. cbn in Hr, H8, H6. injection Hr as Hr.
  symmetry in E.
  pose proof (join_leaves_one_invoice 1 5 [6; 8] None [] "cashier" (ex_floor []) r s' (ex_floor_wf []) (ex_floor_no_chain []) E) as [H1 H2].
  rewrite Hr in H1, H2. clear E. exists r, s'. split; [reflexivity|]. split; [exact Hr|]. split; [by apply H2|].
  destruct (H1 6 ltac:(set_solver) ltac:(discriminate)) as [[_ [H|H]]|[H _]]; [congruence|exact H|congruence].
Defined.
Theorem settlement_frees_group_witness :
  ∃ r s', settle_on_premise_if_paid 1 1 "cashier" (ex_floor [cash 1 1 5000]) = Ok r s' ∧
    dt_status <$> table_of 5 s' = Some "available"%string.
Proof.
  pose proof (settlement_frees_group 1 1 (tab_order 1 5 "R1-0001" CONFIRMED 5000 1) "cashier" (ex_floor [cash 1 1 5000])
    (fw_orders _ (ex_floor_wf _)) (fw_dining _ (ex_floor_wf _)) eq_refl eq_refl) as H.
  destruct (settle_on_premise_if_paid 1 1 "cashier" (ex_floor [cash 1 1 5000])) as [r s'|e s']; [|exfalso; destruct H as (_ & H & _); by vm_compute in H].
  exists r, s'. split; [reflexivity|]. change (closes _ _) with true in H. destruct H as (_ & Hd & _). unfold table_of. rewrite Hd. reflexivity.
Defined.

(** ** Where the code departs from its intention *)

Definition floor_after_ops (ops : list floor_op) (s : floor_db) : floor_db := fold_left (λ s op, run_floor op s) ops s.

(** A bill split off a table is a delivery order: paying it in full never closes it. *)
Lemma split_bill_never_settles :
  let s := floor_after_ops [OpCart (split_order_by_items 1 2 [2] ≫= λ _, mret tt); OpSettle 1 4 "cashier"]
             (ex_floor [cash 1 4 1200]) in
  paid_on 4 s = 1200 ∧
  (λ o, (co_total o, co_table_id o, co_status o, co_order_type o)) <$> order_of 4 (floor_cart s) =
    Some (1200, Some 6, DRAFT, "delivery"%string).
Proof. by vm_compute. Qed.

(** A table already marked for cleaning is not released by the payment, and neither are
    the tables joined to it: the next round there goes to the old group. *)
Lemma cleaning_keeps_join :
  let s := floor_after_ops [OpJoin 1 5 [6] None [] "cashier"; OpTransition 1 5 "needs_bill"; OpTransition 1 5 "cleaning";
                            OpSettle 1 1 "cashier"] (ex_floor [cash 1 1 6200]) in
  co_status <$> order_of 1 (floor_cart s) = Some DELIVERED ∧ link_of 6 s = Some (Some 5) ∧
  dt_status <$> table_of 6 s = Some "ordered"%string ∧ group_bill_order_id_for 6 s = Some 1.
Proof. by vm_compute. Qed.

(** When the group's bill is cancelled the group keeps it, and a table with a bill can no
    longer be joined. *)
Lemma stale_group_bill_blocks_join :
  let s := floor_after_ops [OpJoin 1 5 [6] None [] "cashier"; OpCart (cancel_order 1 "manager" None ≫= λ _, mret tt)] (ex_floor []) in
  error (join_tables 1 5 [8] None [] "cashier" s) = Some (FloorCartRaised (NotMergeable CANCELLED CONFIRMED)).
Proof. by vm_compute. Qed.

(** An order can be moved to a table of another branch. *)
Lemma transfer_crosses_branches :
  dt_restaurant_id <$> table_of 4 (ex_floor []) = Some 2 ∧
  (λ o, (co_restaurant_id o, co_table_id o)) <$> value (transfer_order 1 1 4 (ex_floor [])) = Some (1, Some 4).
Proof. by vm_compute. Qed.
