(* ===== verification/Outbox.v ===== *)
(** * The outbound message queue ([app.outbox])

    Messages are rows written in the caller's transaction ([enqueue_message]) and
    sent later by a worker ([_deliver_one] under the [deliver_outbox_message] task,
    re-dispatched by the sweeper).  The provider is a parameter, and its calls are the
    log [provider_calls].  Two callees in other components are logs of the calls made:
    the recording of a message in the conversation history ([mirrored]) and the text
    menu the catalog queues after a refused card ([text_menus]). *)

From S2P Require Import Prelude Strings Db AuditTrail Clock.

(** ** WhatsApp text ([outbox/service.py]) *)

Definition star : Ascii.ascii := Ascii.ascii_of_nat 42.
Definition newline : Ascii.ascii := Ascii.ascii_of_nat 10.
Definition hash : Ascii.ascii := Ascii.ascii_of_nat 35.
Definition is_blank (c : Ascii.ascii) : bool :=
  Ascii.eqb c (Ascii.ascii_of_nat 32) || Ascii.eqb c (Ascii.ascii_of_nat 9).
Definition str1 (c : Ascii.ascii) : string := String c EmptyString.

Fixpoint lstrip_blank (s : string) : string :=
  match s with
  | EmptyString => s
  | String c s' => if is_blank c then lstrip_blank s' else s
  end.
Definition rstrip_blank (s : string) : string := String.rev (lstrip_blank (String.rev s)).
Fixpoint span_hash (s : string) : nat * string :=
  match s with
  | String c s' => if Ascii.eqb c hash then let '(n, r) := span_hash s' in (S n, r) else (O, s)
  | EmptyString => (O, s)
  end.

(** One line under [_MD_HEADER]: one to six hashes, blanks, a title.  A title of
    blanks only is the last blank, when there are at least two. *)
Definition header_line (line : string) : string :=
  let '(n, rest) := span_hash (lstrip_blank line) in
  if ((1 <=? n)%nat && (n <=? 6)%nat)%bool then
    match rest with
    | String c rest' =>
        if is_blank c then
          match lstrip_blank rest' with
          | EmptyString =>
              match String.rev rest' with
              | EmptyString => line
              | String b _ => str1 star +:+ str1 b +:+ str1 star
              end
          | title => str1 star +:+ rstrip_blank title +:+ str1 star
          end
        else line
    | EmptyString => line
    end
  else line.

(** The substitution over the lines of a text; [acc] is the current line, reversed. *)
Fixpoint header_lines (s acc : string) : string :=
  match s with
  | EmptyString => header_line (String.rev acc)
  | String c s' =>
      if Ascii.eqb c newline then header_line (String.rev acc) +:+ String newline (header_lines s' EmptyString)
      else header_lines s' (String c acc)
  end.

(** [_MD_BOLD_STARS]: after two stars, the shortest non-empty text up to two stars. *)
Fixpoint until_stars (s acc : string) : option (string * string) :=
  match s with
  | String c s' =>
      match s' with
      | String d s'' =>
          if Ascii.eqb c star && Ascii.eqb d star && negb (acc =s "") then Some (String.rev acc, s'')
          else until_stars s' (String c acc)
      | EmptyString => None
      end
  | EmptyString => None
  end.
Fixpoint bold_stars (fuel : nat) (s : string) : string :=
  match fuel with
  | O => s
  | S fuel' =>
      match s with
      | String c s' =>
          match s' with
          | String d s'' =>
              if Ascii.eqb c star && Ascii.eqb d star then
                match until_stars s'' EmptyString with
                | Some (inner, rest) => str1 star +:+ inner +:+ String star (bold_stars fuel' rest)
                | None => String c (bold_stars fuel' s')
                end
              else String c (bold_stars fuel' s')
          | EmptyString => s
          end
      | EmptyString => s
      end
  end.

Definition to_whatsapp_text (text : string) : string :=
  let text := header_lines text EmptyString in
  bold_stars (String.length text) text.

(** ** Data *)

Inductive outbox_status := OPending | ODispatching | OSent | OFailed | ODead.
#[global] Instance outbox_status_eq_dec : EqDecision outbox_status.
Proof. solve_decision. Defined.

Record OutboxMessage := {
  om_id : Z;
  om_restaurant_id : Z;
  om_to_phone : string;
  om_payload : jdict;
  om_status : outbox_status;
  om_attempts : Z;
  om_wa_message_id : option string;
  om_key : string;
  om_last_error : option string;
  om_updated_at : Z;
}.
#[global] Instance OutboxMessage_row : Row OutboxMessage := om_id.

(** A row written back with a new status; [onupdate=now()]. *)
Definition with_outcome (st : outbox_status) (attempts : Z) (wa err : option string) (payload : jdict)
    (now : Z) (m : OutboxMessage) : OutboxMessage :=
  {| om_id := om_id m; om_restaurant_id := om_restaurant_id m; om_to_phone := om_to_phone m;
     om_payload := payload; om_status := st; om_attempts := attempts; om_wa_message_id := wa;
     om_key := om_key m; om_last_error := err; om_updated_at := now |}.

(** A message recorded in a conversation: whose, phone, type, payload. *)
Inductive mirror_side := RiderSide | CustomerSide.
Record mirrored_message := { mm_side : mirror_side; mm_restaurant_id : Z; mm_phone : string;
                             mm_type : string; mm_payload : jdict }.

(** A call of the provider: recipient, type, payload, key. *)
Record sent_message := { sm_phone : string; sm_type : string; sm_payload : jdict; sm_key : string }.

Record outbox_db := {
  messages : table OutboxMessage;
  mirrored : list mirrored_message;
  provider_calls : list sent_message;
  text_menus : list Z;          (** outbox rows a text menu was queued for *)
  outbox_now : Z;
}.
Definition with_messages (t : table OutboxMessage) (s : outbox_db) : outbox_db :=
  Build_outbox_db t (mirrored s) (provider_calls s) (text_menus s) (outbox_now s).

(** The only exception that leaves [_deliver_one]: an unknown message type. *)
Inductive outbox_error := BadMessageType.
(** [exc.response.status_code], when the exception has a response. *)
Definition status_code_of (e : outbox_error) : option Z := match e with BadMessageType => None end.
Abbreviation OM := (M outbox_db outbox_error).

Definition update_message (m : OutboxMessage) : OM unit :=
  modify (λ s, with_messages (set_row m (messages s)) s).

(** ** Enqueueing *)

(** [{**d, k: v}]: in place when the key is there, else at the end. *)
Fixpoint dict_set (k : string) (v : jval) (d : jdict) : jdict :=
  match d with
  | [] => [(k, v)]
  | (k', v') :: d' => if k' =s k then (k, v) :: d' else (k', v') :: dict_set k v d'
  end.
(** [{k: v, **d}]: first, unless [d] has its own. *)
Definition dict_default (k : string) (v : jval) (d : jdict) : jdict :=
  (k, default v (dict_get k d)) :: List.filter (λ kv, negb (fst kv =s k)) d.

Definition whatsapp_payload (payload : jdict) : jdict :=
  match dict_get "body" payload with
  | Some (JStr body) => dict_set "body" (JStr (to_whatsapp_text body)) payload
  | _ => payload
  end.

Definition mirror (side : mirror_side) (restaurant_id : Z) (phone type : string) (payload : jdict) : OM unit :=
  modify (λ s, Build_outbox_db (messages s)
    (mirrored s ++ [Build_mirrored_message side restaurant_id phone type payload])
    (provider_calls s) (text_menus s) (outbox_now s)).

Definition enqueue_message (restaurant_id : Z) (to_phone msg_type : string) (payload : jdict)
    (idempotency_key : string) (mirror_rider_conversation mirror_customer_conversation : bool)
    : OM (option OutboxMessage) :=
  if negb (truthy (strip to_phone)) then mret None else
  existing ← gets (λ s, first_where (λ m, om_key m =s idempotency_key) (messages s));
  match existing with
  | Some m => mret (Some m)
  | None =>
      let payload := whatsapp_payload payload in
      now ← gets outbox_now;
      t ← gets messages;
      let row := {| om_id := next_id t; om_restaurant_id := restaurant_id; om_to_phone := to_phone;
        om_payload := dict_default "type" (JStr msg_type) payload; om_status := OPending;
        om_attempts := 0; om_wa_message_id := None; om_key := idempotency_key; om_last_error := None;
        om_updated_at := now |} in
      modify (with_messages (add_row row t)) ≫= λ _,
      (if mirror_rider_conversation
       then mirror RiderSide restaurant_id to_phone msg_type (dict_default "type" (JStr msg_type) payload)
       else mret tt) ≫= λ _,
      (if mirror_customer_conversation
       then mirror CustomerSide restaurant_id to_phone msg_type payload else mret tt) ≫= λ _,
      mret (Some row)
  end.

(** ** The worker ([outbox/worker.py]) *)

Definition _MAX_ATTEMPTS : Z := 3.
Definition _TASK_MAX_RETRIES : Z := 5.
Definition _TERMINAL_STATUSES : list outbox_status := [OSent; ODead].
Definition _RECOVERABLE_STATUSES : list outbox_status := [OPending; OFailed].
Definition _SWEEPER_STALE_MINUTES : Z := 5.
Definition _LAST_ERROR_MAX : nat := 512.

Definition _backoff_countdown (retries : Z) : Z := 10 * 2 ^ retries.
Definition _is_permanent_failure (status_code : Z) : bool :=
  (400 <=? status_code) && (status_code <? 500) && negb (status_code =? 429).

Definition _META_PERMANENT_CODES (code : Z) : option string :=
  if code =? 131047 then Some "24h_window"%string
  else if code =? 131026 then Some "undeliverable"%string
  else if code =? 131009 then Some "catalog_mismatch"%string else None.
Definition _CATALOGUE_TYPES : list string := ["catalog_message"; "product_list"]%string.

(** What a failed send raised: its type and text, and the provider's response when
    it has one, as the fields of its JSON error or as text. *)
Inductive response := JsonError (code : option Z) (fields : list string) | PlainText (text : string).
Record send_exn := { ex_type : string; ex_text : string; ex_response : option response }.
Inductive send_result := Sent (wa_id : string) | SendFailed (e : send_exn).

Fixpoint join (sep : string) (l : list string) : string :=
  match l with [] => "" | [x] => x | x :: l' => x +:+ sep +:+ join sep l' end.
Definition truncate (n : nat) (s : string) : string := String.substring 0 n s.

Definition _describe_failure (exc : send_exn) : string :=
  let detail : string :=
    match ex_response exc with
    | Some (JsonError _ fields) => join " | " fields
    | Some (PlainText t) => truncate _LAST_ERROR_MAX t
    | None => ""
    end in
  truncate _LAST_ERROR_MAX (if truthy detail then detail else ex_type exc +:+ ": " +:+ ex_text exc).

Definition _permanent_meta_failure_reason (exc : send_exn) : option string :=
  match ex_response exc with
  | Some (JsonError (Some code) _) => _META_PERMANENT_CODES code
  | _ => None
  end.

(** [UPDATE ... WHERE status='pending' ... RETURNING id] *)
Definition claimable (restaurant_id : Z) (to_phone : option string) (m : OutboxMessage) : bool :=
  bool_decide (om_status m = OPending) && (om_restaurant_id m =? restaurant_id)
  && match to_phone with Some p => om_to_phone m =s p | None => true end.

Definition claim_pending_outbox_ids (restaurant_id : Z) (to_phone : option string) : OM (list Z) :=
  t ← gets messages;
  now ← gets outbox_now;
  modify (with_messages (Table (map (λ m,
    if claimable restaurant_id to_phone m
    then with_outcome ODispatching (om_attempts m) (om_wa_message_id m) (om_last_error m) (om_payload m) now m
    else m) (rows t)) (next_id t))) ≫= λ _,
  mret (om_id <$> all_where (claimable restaurant_id to_phone) t).

Definition OUTBOUND_TYPES : list string :=
  ["text"; "buttons"; "cta_url"; "list"; "location_request"; "location"; "image"; "document";
   "template"; "product_list"; "catalog_message"]%string.

(** [None]: [OutboundMessageType(...)] raises. *)
Definition _outbox_row_to_outbound (row : OutboxMessage) : option sent_message :=
  match dict_get "type" (om_payload row) with
  | Some (JStr ty) =>
      if in_strs ty OUTBOUND_TYPES then
        Some {| sm_phone := om_to_phone row; sm_type := ty;
                sm_payload := List.filter (λ kv, negb (fst kv =s "type")) (om_payload row);
                sm_key := om_key row |}
      else None
  | _ => None
  end.

Section worker.
(** The provider's answer to its [n]-th send. *)
Context (send : nat → sent_message → send_result).

Definition call_provider (msg : sent_message) : OM send_result :=
  s ← gets provider_calls;
  modify (λ s, Build_outbox_db (messages s) (mirrored s) (provider_calls s ++ [msg]) (text_menus s)
                 (outbox_now s)) ≫= λ _,
  mret (send (length s) msg).

Definition _queue_text_menu_instead (row : OutboxMessage) : OM unit :=
  modify (λ s, Build_outbox_db (messages s) (mirrored s) (provider_calls s) (text_menus s ++ [om_id row])
                 (outbox_now s)).

(** The row after a failed send, and whether a text menu replaces it. *)
Definition failed_row (exc : send_exn) (now : Z) (row : OutboxMessage) : OutboxMessage * bool :=
  let attempts := om_attempts row + 1 in
  let err := Some (_describe_failure exc) in
  match _permanent_meta_failure_reason exc with
  | Some reason =>
      let payload := dict_set "fail_reason" (JStr reason) (om_payload row) in
      (with_outcome ODead attempts (om_wa_message_id row) err payload now row,
       (reason =s "catalog_mismatch") &&
       match dict_get "type" payload with Some (JStr ty) => in_strs ty _CATALOGUE_TYPES | _ => false end)
  | None =>
      (with_outcome (if _MAX_ATTEMPTS <=? attempts then ODead else OFailed) attempts (om_wa_message_id row)
         err (om_payload row) now row, false)
  end.

Definition _deliver_one (outbox_id : Z) : OM unit :=
  found ← gets (λ s, get_row outbox_id (messages s));
  match found with
  | None => mret tt
  | Some row =>
      if bool_decide (om_status row ∈ _TERMINAL_STATUSES) then mret tt else
      match _outbox_row_to_outbound row with
      | None => raise BadMessageType
      | Some msg =>
          result ← call_provider msg;
          now ← gets outbox_now;
          match result with
          | Sent wa_id =>
              update_message (with_outcome OSent (om_attempts row + 1) (Some wa_id) None (om_payload row) now row)
          | SendFailed exc =>
              let '(row', menu) := failed_row exc now row in
              update_message row' ≫= λ _,
              if (menu : bool) then _queue_text_menu_instead row' else mret tt
          end
      end
  end.

Definition _mark_dead (outbox_id : Z) : OM unit :=
  found ← gets (λ s, get_row outbox_id (messages s));
  now ← gets outbox_now;
  match found with
  | None => mret tt
  | Some row =>
      if bool_decide (om_status row ∈ _TERMINAL_STATUSES) then mret tt else
      update_message (with_outcome ODead (om_attempts row + 1) (om_wa_message_id row) (om_last_error row)
                        (om_payload row) now row)
  end.

(** The task's verdict: finished, or retried after a countdown in seconds. *)
Inductive task_result := TaskDone | TaskRetry (countdown : Z).

(** One run of the task, the [retries]-th. *)
Definition deliver_outbox_message (retries outbox_id : Z) : OM task_result :=
  try_except (_deliver_one outbox_id ≫= λ _, mret TaskDone) (λ exc,
    if match status_code_of exc with Some c => _is_permanent_failure c | None => false end
    then _mark_dead outbox_id ≫= λ _, mret TaskDone
    else if _TASK_MAX_RETRIES <=? retries then _mark_dead outbox_id ≫= λ _, mret TaskDone
    else mret (TaskRetry (_backoff_countdown retries))).

Definition stale (cutoff : Z) (m : OutboxMessage) : bool :=
  bool_decide (om_status m ∈ _RECOVERABLE_STATUSES) && (om_updated_at m <? cutoff)
  && (om_attempts m <? _MAX_ATTEMPTS).

(** The sweeper: the ids to re-dispatch; each becomes a [deliver_outbox_message]. *)
Definition _sweep_stale_pending : OM (list Z) :=
  now ← gets outbox_now;
  gets (λ s, om_id <$> all_where (stale (now - minutes _SWEEPER_STALE_MINUTES)) (messages s)).
Definition sweep_failed_outbox : OM Z := ids ← _sweep_stale_pending; mret (Z.of_nat (length ids)).

(** Synchronous delivery ([deliver_outbox_now], [deliver_pending]). *)
Definition deliver_outbox_now (outbox_ids : list Z) : OM unit := for_each _deliver_one outbox_ids.
Definition deliver_pending (restaurant_id : Z) : OM unit :=
  ids ← gets (λ s, om_id <$> all_where (λ m, (om_restaurant_id m =? restaurant_id)
                 && bool_decide (om_status m = OPending)) (messages s));
  deliver_outbox_now ids.
End worker.

#[global] Arguments _describe_failure : simpl never.
#[global] Arguments _outbox_row_to_outbound : simpl never.
#[global] Arguments failed_row : simpl never.
#[global] Arguments whatsapp_payload : simpl never.
#[global] Arguments dict_default : simpl never.
