(* ===== verification/OutboxFacts.v ===== *)
(** * Correctness of the outbound queue

    Exactly-once enqueueing, exclusive claims, and the delivery bound: no row is ever
    sent to the provider more than three times, nor at all once sent or dead. *)

From S2P Require Import Prelude Strings Db AuditTrail Clock Outbox.

Ltac orun :=
  unfold update_message, call_provider, mirror, _queue_text_menu_instead;
  unfold mbind, M_bind, mret, M_ret, gets, modify, raise; cbn.

(** ** Enqueueing *)

Record queue_wf (s : outbox_db) : Prop := {
  qw_table : table_wf (messages s);
  qw_keys : unique_on om_key (messages s);
}.

Lemma key_free k t :
  first_where (λ m, om_key m =s k) t = None ↔ ∀ m, m ∈ rows t → om_key m ≠ k.
Proof.
  rewrite first_where_None. split; intros H m Hm; specialize (H m Hm); [by zbool|by apply String.eqb_neq].
Qed.

(** The messages after an enqueue, whether or not it is mirrored. *)
Lemma enqueue_new rid phone ty payload key mr mc s :
  truthy (strip phone) = true → (∀ m, m ∈ rows (messages s) → om_key m ≠ key) →
  ∃ m s', enqueue_message rid phone ty payload key mr mc s = Ok (Some m) s' ∧
    messages s' = add_row m (messages s) ∧ om_id m = next_id (messages s) ∧ om_key m = key ∧
    om_status m = OPending ∧ om_attempts m = 0 ∧ om_restaurant_id m = rid ∧ om_to_phone m = phone ∧
    provider_calls s' = provider_calls s ∧ outbox_now s' = outbox_now s.
Proof.
  intros Hp Hk%key_free. unfold enqueue_message. rewrite Hp. orun. rewrite Hk.
  destruct mr, mc; orun; eexists _, _; by split_and!.
Qed.

(** A call, on every branch. *)
Lemma enqueue_run rid phone ty payload key mr mc s :
  queue_wf s →
  ∃ r s', enqueue_message rid phone ty payload key mr mc s = Ok r s' ∧ queue_wf s' ∧
  (∀ m, m ∈ rows (messages s) → m ∈ rows (messages s')) ∧
  match r with
  | None => truthy (strip phone) = false ∧ s' = s
  | Some m => om_key m = key ∧ m ∈ rows (messages s') ∧ truthy (strip phone) = true ∧
      (messages s' = messages s ∧ s' = s ∨
       messages s' = add_row m (messages s) ∧ om_status m = OPending ∧ om_attempts m = 0 ∧
       om_restaurant_id m = rid ∧ om_to_phone m = phone ∧
       ∀ m', m' ∈ rows (messages s) → om_key m' ≠ key)
  end.
Proof.
  intros Hwf. destruct (truthy (strip phone)) eqn:Hp.
  2:{ exists None, s. unfold enqueue_message. rewrite Hp. by split_and!. }
  destruct (first_where (λ m, om_key m =s key) (messages s)) as [m|] eqn:Hf.
  - exists (Some m), s. split; [unfold enqueue_message; rewrite Hp; orun; by rewrite Hf|].
    apply first_where_Some in Hf as [Hin Hk]. zbool. split_and!; auto.
  - pose proof (proj1 (key_free _ _) Hf) as Hfree.
    destruct (enqueue_new rid phone ty payload key mr mc s Hp Hfree)
      as (m & s' & Hrun & Hm & Hid & Hk & Hst & Ha & Hr & Hph & _). exists (Some m), s'.
    split; [exact Hrun|]. rewrite Hm. split; [|split; [intros; apply elem_of_add_row; auto|]].
    + destruct Hwf as [Ht Hu]. split; rewrite Hm; [by apply add_row_wf|].
      apply add_row_unique; [done|]. intros r Hr'. rewrite Hk. by apply Hfree.
    + split_and!; [done|apply elem_of_add_row; auto|done|]. right. by split_and!.
Qed.

(** Enqueueing is idempotent on its key.  A blank recipient is dropped and a used
    key returns the row that has it, both writing nothing; otherwise exactly one
    pending row is added.  Keys stay unique whatever is enqueued, so however often a
    notification is enqueued under one key, it is queued once. *)
Theorem enqueue_once rid phone ty payload key mr mc s :
  queue_wf s →
  queue_wf (final (enqueue_message rid phone ty payload key mr mc s)) ∧
  match enqueue_message rid phone ty payload key mr mc s with
  | Ok None s' => truthy (strip phone) = false ∧ s' = s
  | Ok (Some m) s' => om_key m = key ∧ m ∈ rows (messages s') ∧
      (messages s' = messages s ∧ s' = s ∨
       messages s' = add_row m (messages s) ∧ om_status m = OPending ∧ om_attempts m = 0 ∧
       ∀ m', m' ∈ rows (messages s) → om_key m' ≠ key)
  | Err _ _ => False
  end.
Proof.
  intros Hwf. destruct (enqueue_run rid phone ty payload key mr mc s Hwf)
    as ([m|] & s' & -> & Hwf' & _ & H); (split; [done|]); [|done].
  destruct H as (Hk & Hin & _ & [H|(Hm & Hst & Ha & _ & _ & Hf)]); split_and!; auto.
Qed.

(** ** Claiming *)

(** A claim is exclusive: it returns exactly the pending rows of the branch (and
    recipient), all of them become dispatching and no other row changes, so a second
    claim, however it is narrowed, never returns one of them. *)
Theorem claim_exclusive rid phone phone' s :
  table_wf (messages s) →
  ∃ ids s', claim_pending_outbox_ids rid phone s = Ok ids s' ∧
    ids = om_id <$> all_where (claimable rid phone) (messages s) ∧
    (∀ m, m ∈ rows (messages s) → claimable rid phone m = false → m ∈ rows (messages s')) ∧
    (∀ m', m' ∈ rows (messages s') → om_id m' ∈ ids → om_status m' = ODispatching) ∧
    (∀ ids' s'', claim_pending_outbox_ids rid phone' s' = Ok ids' s'' → ∀ i, i ∈ ids → i ∉ ids').
Proof.
  intros Hwf. eexists _, _. split; [reflexivity|]. split; [reflexivity|]. cbn.
  set (f := λ m, if claimable rid phone m then _ else m).
  assert (∀ m, om_id (f m) = om_id m) as Hid by (intros m; subst f; cbn; by destruct (claimable rid phone m)).
  assert (∀ m', m' ∈ map f (rows (messages s)) → om_id m' ∈ om_id <$> all_where (claimable rid phone) (messages s) →
    om_status m' = ODispatching) as Hst.
  { intros m' (m & <- & Hm)%list_elem_of_In%in_map_iff. rewrite Hid.
    intros (m2 & Heq & [Hm2 Hc]%elem_of_all_where)%list_elem_of_fmap.
    apply list_elem_of_In in Hm. assert (m = m2) as -> by (by apply (wf_unique _ Hwf)).
    subst f. cbn. by rewrite Hc. }
  split_and!; [|done|].
  - intros m Hm Hc. apply list_elem_of_In, in_map_iff. exists m. subst f. cbn.
    rewrite Hc. split; [done|by apply list_elem_of_In].
  - intros ids' s'' [= <- _] i Hi (m' & -> & [Hm' Hc]%elem_of_all_where)%list_elem_of_fmap.
    cbn in Hm'. specialize (Hst m' Hm' Hi). unfold claimable in Hc. rewrite Hst in Hc. done.
Qed.

(** ** Delivery *)

Section worker.
Context (send : nat → sent_message → send_result).

(** Sends of one key so far. *)
Definition sends (key : string) (s : outbox_db) : Z :=
  count (λ c, sm_key c =s key) (provider_calls s).
Definition final_status (m : OutboxMessage) : bool := bool_decide (om_status m ∈ _TERMINAL_STATUSES).

(** A queue in which every row counts its own sends, and is given up at three. *)
Record delivery_inv (s : outbox_db) : Prop := {
  di_wf : queue_wf s;
  di_open : ∀ m, m ∈ rows (messages s) → final_status m = false → 0 ≤ om_attempts m < _MAX_ATTEMPTS;
  di_sends : ∀ m, m ∈ rows (messages s) →
    sends (om_key m) s ≤ Z.min (om_attempts m) _MAX_ATTEMPTS;
  di_known : ∀ c, c ∈ provider_calls s → ∃ m, m ∈ rows (messages s) ∧ om_key m = sm_key c;
}.

Lemma final_when m : om_status m = OSent ∨ om_status m = ODead → final_status m = true.
Proof. intros Hst. apply bool_decide_eq_true_2. destruct Hst as [-> | ->]; set_solver. Qed.

(** A delivery that reaches the provider: the row's next version and the call. *)
Lemma deliver_outcome i s :
  (∃ row msg row' menus, get_row i (messages s) = Some row ∧ final_status row = false ∧
     _outbox_row_to_outbound row = Some msg ∧
     om_id row' = om_id row ∧ om_key row' = om_key row ∧ om_attempts row' = om_attempts row + 1 ∧
     (final_status row' = false → om_attempts row' < _MAX_ATTEMPTS) ∧
     _deliver_one send i s = Ok tt (Build_outbox_db (set_row row' (messages s)) (mirrored s)
       (provider_calls s ++ [msg]) menus (outbox_now s))) ∨
  (_deliver_one send i s = Ok tt s ∧
     (get_row i (messages s) = None ∨ ∃ row, get_row i (messages s) = Some row ∧ final_status row = true)) ∨
  _deliver_one send i s = Err BadMessageType s.
Proof.
  unfold _deliver_one. orun. destruct (get_row i (messages s)) as [row|] eqn:Hg; [|right; left; by auto].
  fold (final_status row). destruct (final_status row) eqn:Hf; [right; left; eauto|].
  destruct (_outbox_row_to_outbound row) as [msg|] eqn:Hmsg; [|right; right; reflexivity]. left. orun.
  destruct (send _ msg) as [wa|exc].
  - eexists row, msg, _, _. (split_and!; cycle -1); [reflexivity|done..|].
    rewrite final_when; [done|by left].
  - unfold failed_row. destruct (_permanent_meta_failure_reason exc) as [reason|].
    + match goal with |- context [if ?b then _ else _] => destruct b end; orun;
        eexists row, msg, _, _; ((split_and!; cycle -1); [reflexivity|done..|]);
        (rewrite final_when; [done|by right]).
    + orun. eexists row, msg, _, _. (split_and!; cycle -1); [reflexivity|done..|].
      cbn. destruct (_MAX_ATTEMPTS <=? om_attempts row + 1) eqn:Hm; zbool; [|done].
      rewrite final_when; [done|by right].
Qed.

Lemma outbound_key row msg : _outbox_row_to_outbound row = Some msg → sm_key msg = om_key row.
Proof.
  unfold _outbox_row_to_outbound. destruct (dict_get _ _) as [[]|]; try done.
  destruct (in_strs _ _); [|done]. by intros [= <-].
Qed.

Lemma deliver_keeps_inv i s : delivery_inv s → delivery_inv (final (_deliver_one send i s)).
Proof.
  intros Hinv.
  destruct (deliver_outcome i s) as
    [(row & msg & row' & menus & Hg & Hopen & Hmsg & Hid & Hk & Ha & Hcap & ->)|[[-> _]| ->]]; [|done|done].
  destruct Hinv as [[Ht Hu] Ho Hs Hkn]. apply get_row_Some in Hg as [Hin Hi]. cbn [final].
  pose proof (Ho row Hin Hopen) as Hbound. pose proof (Hs row Hin) as Hsent.
  assert (∀ m, m ∈ rows (set_row row' (messages s)) →
    m = row' ∨ (m ∈ rows (messages s) ∧ om_id m ≠ om_id row)) as Hrows.
  { intros m [[-> _]|[Hm Hne]]%elem_of_set_row; [by left|right].
    change (om_id m ≠ om_id row') in Hne. split; [done|congruence]. }
  assert (∀ k, count (λ c, sm_key c =s k) (provider_calls s ++ [msg]) =
    sends k s + (if om_key row =s k then 1 else 0)) as Hcount.
  { intros k. rewrite count_app. unfold sends. f_equal. cbn. rewrite (outbound_key row msg Hmsg). unfold count. cbn.
    destruct (om_key row =s k); lia. }
  split; cbn [messages provider_calls].
  - split; [by apply set_row_wf|]. apply set_row_unique; [done|]. intros r Hr Hne Heq.
    apply Hne. rewrite Hk in Heq. rewrite (Hu r row Hr Hin Heq). symmetry. exact Hid.
  - intros m [-> |[Hm _]]%Hrows Hf; [specialize (Hcap Hf); lia|by apply Ho].
  - unfold sends. cbn [provider_calls]. intros m [-> |[Hm Hne]]%Hrows; rewrite Hcount.
    + rewrite Hk, String.eqb_refl, Ha. unfold _MAX_ATTEMPTS in *. lia.
    + destruct (String.eqb_spec (om_key row) (om_key m)) as [Heq|]; [|specialize (Hs m Hm); unfold sends in *; lia].
      exfalso. apply Hne. symmetry. by rewrite (Hu row m Hin Hm Heq).
  - intros c [Hc| ->%list_elem_of_singleton]%elem_of_app.
    + destruct (Hkn c Hc) as (m & Hm & Hmk). destruct (decide (om_id m = om_id row)) as [Heq|Hne].
      * exists row'. split; [|rewrite Hk, <-Hmk; f_equal; symmetry; by apply (wf_unique _ Ht)].
        pose proof (elem_of_set_row_2 row' row (messages s) Hin) as H.
        change (row_id row) with (om_id row) in H. change (row_id row') with (om_id row') in H.
        by rewrite Hid, Z.eqb_refl in H.
      * exists m. split; [|done]. pose proof (elem_of_set_row_2 row' m (messages s) Hm) as H.
        change (row_id m) with (om_id m) in H. change (row_id row') with (om_id row') in H.
        by rewrite Hid, (proj2 (Z.eqb_neq _ _) Hne) in H.
    + exists row'. split; [|rewrite Hk; symmetry; by apply outbound_key].
      pose proof (elem_of_set_row_2 row' row (messages s) Hin) as H.
      change (row_id row) with (om_id row) in H. change (row_id row') with (om_id row') in H.
      by rewrite Hid, Z.eqb_refl in H.
Qed.

Lemma enqueue_keeps_inv rid phone ty payload key mr mc s :
  delivery_inv s → delivery_inv (final (enqueue_message rid phone ty payload key mr mc s)).
Proof.
  intros Hinv. destruct (truthy (strip phone)) eqn:Hp.
  2:{ unfold enqueue_message. by rewrite Hp. }
  destruct (first_where (λ m, om_key m =s key) (messages s)) as [m|] eqn:Hf.
  { unfold enqueue_message. rewrite Hp. orun. by rewrite Hf. }
  pose proof (proj1 (key_free _ _) Hf) as Hfree; clear Hf; rename Hfree into Hf. destruct (enqueue_new rid phone ty payload key mr mc s Hp Hf)
    as (m & s' & -> & Hm & Hid & Hk & Hst & Ha & _ & _ & Hcalls & _). cbn [final].
  destruct Hinv as [[Ht Hu] Ho Hs Hkn]. split; rewrite ?Hm.
  - split; rewrite Hm; [by apply add_row_wf|]. apply add_row_unique; [done|].
    intros r Hr. rewrite Hk. by apply Hf.
  - intros m'. rewrite elem_of_add_row. intros [Hm'| ->] Hfin; [by apply Ho|].
    rewrite Ha. unfold _MAX_ATTEMPTS. lia.
  - intros m'. unfold sends. rewrite Hcalls, elem_of_add_row. intros [Hm'| ->]; [by apply Hs|].
    rewrite Ha, Hk. assert (count (λ c, sm_key c =s key) (provider_calls s) = 0) as ->; [|done].
    apply zsum_count_zero with (f := λ _, 1). apply Z.le_ngt. intros Hpos.
    assert (∃ c, c ∈ provider_calls s ∧ sm_key c = key) as (c & Hc & Hck).
    { clear -Hpos. unfold count in Hpos. induction (provider_calls s) as [|c l IH]; cbn in Hpos; [lia|].
      destruct (String.eqb_spec (sm_key c) key); [exists c; set_solver|].
      destruct IH as (c' & ? & ?); [lia|]. exists c'. set_solver. }
    destruct (Hkn c Hc) as (m0 & Hm0 & Hk0). apply (Hf m0 Hm0). congruence.
  - rewrite Hcalls. intros c Hc. destruct (Hkn c Hc) as (m0 & Hm0 & Hk0).
    exists m0. split; [apply elem_of_add_row; auto|done].
Qed.

(** *** Runs of the queue *)

Inductive queue_event_ :=
| Enqueue (rid : Z) (phone ty : string) (payload : jdict) (key : string) (mr mc : bool)
| Deliver (i : Z).

Definition queue_after (e : queue_event_) (s : outbox_db) : outbox_db :=
  match e with
  | Enqueue rid phone ty payload key mr mc => final (enqueue_message rid phone ty payload key mr mc s)
  | Deliver i => final (_deliver_one send i s)
  end.
Definition queue_run (l : list queue_event_) (s : outbox_db) : outbox_db :=
  fold_left (λ s e, queue_after e s) l s.

Definition empty_outbox (now : Z) : outbox_db := Build_outbox_db empty_table [] [] [] now.

Lemma empty_outbox_inv now : delivery_inv (empty_outbox now).
Proof.
  split; cbn; try set_solver. split; cbn; [apply empty_table_wf|].
  intros r1 r2 Hr. by apply not_elem_of_nil in Hr.
Qed.

Lemma queue_run_inv l s : delivery_inv s → delivery_inv (queue_run l s).
Proof.
  revert s. induction l as [|e l IH]; intros s Hs; [done|]. cbn. apply IH.
  destruct e; [by apply enqueue_keeps_inv|by apply deliver_keeps_inv].
Qed.

(** C7. At most three sends.  However enqueues and deliveries of any rows interleave,
    and whatever the provider answers, a queued message has been sent to the provider
    at most as often as its attempts count and never more than three times; and a row
    that is sent or dead is never sent again. *)
Theorem delivery_bounded l now m i :
  let s := queue_run l (empty_outbox now) in
  m ∈ rows (messages s) →
  sends (om_key m) s ≤ Z.min (om_attempts m) 3 ∧
  (final_status m = true → i = om_id m → _deliver_one send i s = Ok tt s).
Proof.
  intros s Hm. pose proof (queue_run_inv l _ (empty_outbox_inv now)) as [[Ht _] _ Hs _].
  split; [by apply Hs|]. intros Hfin ->. unfold _deliver_one. orun.
  pose proof (get_row_wf _ _ Ht Hm) as Hg. change (row_id m) with (om_id m) in Hg.
  subst s. rewrite Hg.
  unfold final_status in Hfin. by rewrite Hfin.
Qed.

(** *** The task *)

(** The task always settles: a run that does not retry has ended, and the runs
    that retry wait 10, 20, 40, 80 and 160 seconds; from the fifth retry on it never
    retries.  A row whose message type is unknown is then dead, whatever its
    attempts. *)
Theorem delivery_task_settles retries i s :
  0 ≤ retries →
  match deliver_outbox_message send retries i s with
  | Ok TaskDone _ => True
  | Ok (TaskRetry c) s' => retries < 5 ∧ c = 10 * 2 ^ retries ∧ s' = s
  | Err _ _ => False
  end ∧
  (∀ row, get_row i (messages s) = Some row → _outbox_row_to_outbound row = None → 5 ≤ retries →
     ∃ row', get_row i (messages (final (deliver_outbox_message send retries i s))) = Some row' ∧
       final_status row' = true).
Proof.
  intros Hr. unfold deliver_outbox_message, try_except, _TASK_MAX_RETRIES. split.
  - destruct (deliver_outcome i s) as
      [(row & msg & row' & menus & _ & _ & _ & _ & _ & _ & _ & H)|[[H _]|H]].
    + by rewrite (bind_run_Ok _ _ _ _ _ H).
    + by rewrite (bind_run_Ok _ _ _ _ _ H).
    + rewrite (bind_run_Err _ _ _ _ _ H). destruct (5 <=? retries) eqn:H5; zbool.
      * unfold _mark_dead. orun. destruct (get_row i (messages s)) as [row|]; [|done].
        by destruct (bool_decide _).
      * cbn. by split_and!.
  - intros row Hg Hbad H5. destruct (final_status row) eqn:Hf.
    + assert (_deliver_one send i s = Ok tt s) as H.
      { unfold _deliver_one. orun. rewrite Hg. unfold final_status in Hf. by rewrite Hf. }
      rewrite (bind_run_Ok _ _ _ _ _ H). cbn. eauto.
    + assert (_deliver_one send i s = Err BadMessageType s) as H.
      { unfold _deliver_one. orun. rewrite Hg. unfold final_status in Hf. by rewrite Hf, Hbad. }
      rewrite (bind_run_Err _ _ _ _ _ H), (proj2 (Z.leb_le _ _) H5).
      unfold _mark_dead. orun. rewrite Hg. unfold final_status in Hf. rewrite Hf. orun.
      pose proof (get_row_Some _ _ _ Hg) as [_ Hi]. change (om_id row = i) in Hi.
      match goal with |- context [set_row ?r _] =>
        pose proof (get_row_set r row (messages s)) as Hset end.
      change (row_id (with_outcome ODead (om_attempts row + 1) (om_wa_message_id row) (om_last_error row)
        (om_payload row) (outbox_now s) row)) with (om_id row) in Hset.
      rewrite Hi in Hset. eexists. split; [by apply Hset|done].
Qed.
End worker.

(** ** Where the queue falls short *)

Definition bad_exn : send_exn := Build_send_exn "ConnectError" "refused" None.
Definition refuse (_ : nat) (_ : sent_message) : send_result := SendFailed bad_exn.
Definition accept (n : nat) (_ : sent_message) : send_result := Sent (pretty n).

Definition hello (now : Z) : outbox_db :=
  final (enqueue_message 1 "+971501234567" "text" [("body", JStr "hi")]%string "k1" false false (empty_outbox now)).

(** A claimed row can be stranded: if its delivery task is lost after the claim,
    the row stays dispatching, which the sweeper does not look at however long it
    waits, so the message is never sent. *)
Theorem claimed_row_never_swept dt :
  let s := final (claim_pending_outbox_ids 1 None (hello 0)) in
  let s' := Build_outbox_db (messages s) (mirrored s) (provider_calls s) (text_menus s) (outbox_now s + dt) in
  map om_status (rows (messages s')) = [ODispatching] ∧ value (_sweep_stale_pending s') = Some [].
Proof. split; reflexivity. Qed.

(** A failed send is not retried by its task: the worker turns every provider
    error into a stored status, so the task sees a success and the exponential
    back-off is reached only by rows it cannot even build. *)
Theorem failed_send_ends_task retries :
  let o := deliver_outbox_message refuse retries 1 (hello 0) in
  value o = Some TaskDone ∧ map om_status (rows (messages (final o))) = [OFailed].
Proof. split; reflexivity. Qed.

(** The Markdown conversion is not idempotent: three stars around a word become
    two, and converting again makes them one. *)
Theorem whatsapp_text_not_idempotent :
  to_whatsapp_text "***hot***" = "**hot**"%string ∧
  to_whatsapp_text (to_whatsapp_text "***hot***") = "*hot*"%string.
Proof. vm_compute. by split. Qed.

Example whatsapp_text_examples :
  to_whatsapp_text "## Our menu ##" = "*Our menu ##*"%string ∧
  to_whatsapp_text "Try **biryani** or __init__" = "Try *biryani* or __init__"%string.
Proof. vm_compute. by split. Qed.

(** ** Witnesses *)

Lemma hello_wf : queue_wf (hello 0).
Proof.
  destruct (enqueue_run 1 "+971501234567" "text" [("body", JStr "hi")]%string "k1" false false (empty_outbox 0))
    as (r & s' & Hrun & Hwf & _); [apply empty_outbox_inv|]. unfold hello. by rewrite Hrun.
Qed.

Example enqueue_once_witness :
  final (enqueue_message 1 "+971501234567" "text" [] "k1" true true (hello 0)) = hello 0 ∧ queue_wf (hello 0).
Proof.
  split; [vm_compute; reflexivity|].
  exact (proj1 (enqueue_once 1 "+971501234567" "text" [("body", JStr "hi")]%string "k1" false false
    (empty_outbox 0) (di_wf _ (empty_outbox_inv 0)))).
Defined.

Example claim_exclusive_witness :
  ∃ ids s', claim_pending_outbox_ids 1 None (hello 0) = Ok ids s' ∧ ids = [1].
Proof.
  destruct (claim_exclusive 1 None None (hello 0) (qw_table _ hello_wf)) as (ids & s' & Hrun & Hids & _).
  exists ids, s'. split; [exact Hrun|]. rewrite Hids. vm_compute. reflexivity.
Defined.

(** The message enqueued twice and delivered five times to a provider that is down. *)
Definition stubborn : list queue_event_ :=
  [Enqueue 1 "+971501234567" "text" [("body", JStr "hi")]%string "k1" false false;
   Enqueue 1 "+971501234567" "text" [] "k1" false false; Deliver 1; Deliver 1; Deliver 1; Deliver 1; Deliver 1].

Example delivery_bounded_witness :
  sends "k1" (queue_run refuse stubborn (empty_outbox 0)) = 3 ∧
  ∃ m, m ∈ rows (messages (queue_run refuse stubborn (empty_outbox 0))) ∧ om_attempts m = 3 ∧
    sends (om_key m) (queue_run refuse stubborn (empty_outbox 0)) ≤ Z.min (om_attempts m) 3.
Proof.
  split; [vm_compute; reflexivity|].
  destruct (rows (messages (queue_run refuse stubborn (empty_outbox 0)))) as [|m l] eqn:Hrows;
    [vm_compute in Hrows; discriminate|].
  exists m. split; [left|]. split; [vm_compute in Hrows; injection Hrows as <- _; reflexivity|].
  apply (delivery_bounded refuse stubborn 0 m (om_id m)). rewrite Hrows. left.
Defined.

(** A message of a type the provider does not have: retried at first, dead at the last. *)
Definition sticker : outbox_db :=
  final (enqueue_message 1 "+971501234567" "sticker" [] "k2" false false (empty_outbox 0)).

Example delivery_task_settles_witness :
  value (deliver_outbox_message refuse 0 1 sticker) = Some (TaskRetry 10) ∧
  ∃ row, get_row 1 (messages (final (deliver_outbox_message refuse 5 1 sticker))) = Some row ∧
    final_status row = true.
Proof.
  split; [vm_compute; reflexivity|].
  eapply (proj2 (delivery_task_settles refuse 5 1 sticker ltac:(lia)));
    [vm_compute; reflexivity|vm_compute; reflexivity|lia].
Defined.
