(* ===== verification/Sla.v ===== *)
(** * The SLA monitor ([app.sla])

    Every tick the monitor looks at the active orders and fires, once per order and
    type, the alerts that are due: at 30, 35 and 40 minutes after the confirmation,
    and the two kitchen warnings.  The 40-minute breach mints an apology coupon.  The
    monitor runs in a session with the outbound queue ([Outbox]) and the coupons
    ([Coupons]); the partner notification is the log of its calls. *)

From S2P Require Import Prelude Money Strings Db AuditTrail Clock Coupons OrderFsm Outbox.

(** ** Data *)

Record SlaOrder := {
  so_id : Z;
  so_restaurant_id : Z;
  so_customer_id : Z;
  so_order_number : string;
  so_status : OrderStatus;
  so_sla_confirmed_at : option Z;
  so_prep_deadline : option Z;
  so_cook_estimate_minutes : option Z;
  so_weather_delay_disclosed : bool;
}.
#[global] Instance SlaOrder_row : Row SlaOrder := so_id.

(** A customer or a restaurant, as far as it is alerted; no phone is the blank one. *)
Record Contact := { ct_id : Z; ct_phone : string }.
#[global] Instance Contact_row : Row Contact := ct_id.

Record SlaEvent := {
  se_id : Z;
  se_order_id : Z;
  se_restaurant_id : Z;
  se_type : string;
  se_ts : Z;
}.
#[global] Instance SlaEvent_row : Row SlaEvent := se_id.

Record sla_db := {
  sla_orders : table SlaOrder;
  sla_customers : table Contact;
  sla_restaurants : table Contact;
  sla_events : table SlaEvent;
  sla_outbox : outbox_db;
  sla_coupons : coupon_db;
  sla_breaches : list Z;                 (** the breach counter, by restaurant *)
  partner_notified : list (Z * string);  (** order and coupon code of [order.late] *)
  sla_now : Z;
}.
Definition with_sla_events (t : table SlaEvent) (s : sla_db) : sla_db :=
  {| sla_orders := sla_orders s; sla_customers := sla_customers s; sla_restaurants := sla_restaurants s;
     sla_events := t; sla_outbox := sla_outbox s; sla_coupons := sla_coupons s;
     sla_breaches := sla_breaches s; partner_notified := partner_notified s; sla_now := sla_now s |}.
Definition with_breaches (l : list Z) (s : sla_db) : sla_db :=
  {| sla_orders := sla_orders s; sla_customers := sla_customers s; sla_restaurants := sla_restaurants s;
     sla_events := sla_events s; sla_outbox := sla_outbox s; sla_coupons := sla_coupons s;
     sla_breaches := l; partner_notified := partner_notified s; sla_now := sla_now s |}.
Definition with_partner_notified (l : list (Z * string)) (s : sla_db) : sla_db :=
  {| sla_orders := sla_orders s; sla_customers := sla_customers s; sla_restaurants := sla_restaurants s;
     sla_events := sla_events s; sla_outbox := sla_outbox s; sla_coupons := sla_coupons s;
     sla_breaches := sla_breaches s; partner_notified := l; sla_now := sla_now s |}.

#[global] Program Instance sla_outbox_lens : Lens sla_db outbox_db := {|
  view := sla_outbox;
  put o s := {| sla_orders := sla_orders s; sla_customers := sla_customers s;
    sla_restaurants := sla_restaurants s; sla_events := sla_events s; sla_outbox := o;
    sla_coupons := sla_coupons s; sla_breaches := sla_breaches s;
    partner_notified := partner_notified s; sla_now := sla_now s |};
|}.
Solve Obligations with by intros; try destruct s.
#[global] Program Instance sla_coupon_lens : Lens sla_db coupon_db := {|
  view := sla_coupons;
  put c s := {| sla_orders := sla_orders s; sla_customers := sla_customers s;
    sla_restaurants := sla_restaurants s; sla_events := sla_events s; sla_outbox := sla_outbox s;
    sla_coupons := c; sla_breaches := sla_breaches s;
    partner_notified := partner_notified s; sla_now := sla_now s |};
|}.
Solve Obligations with by intros; try destruct s.

Inductive sla_error := SlaOutboxRaised (e : outbox_error) | SlaCouponRaised (e : coupon_error).
Abbreviation SM := (M sla_db sla_error).

(** ** Constants *)

Definition _ACTIVE_STATUSES : list OrderStatus :=
  [CONFIRMED; PREPARING; READY; ASSIGNED; PICKED_UP; ARRIVING].
Definition _THRESHOLDS : list (string * Z) := [("yellow_30", 30); ("red_35", 35); ("breach_40", 40)]%string.

(** ** Events *)

(** [INSERT ... ON CONFLICT ON CONSTRAINT uq_sla_events_order_type DO NOTHING
    RETURNING id]: whether a row was inserted. *)
Definition same_event (order_id : Z) (event_type : string) (e : SlaEvent) : bool :=
  (se_order_id e =? order_id) && (se_type e =s event_type).
Definition insert_event (order : SlaOrder) (event_type : string) (now : Z) : SM bool :=
  t ← gets sla_events;
  match first_where (same_event (so_id order) event_type) t with
  | Some _ => mret false
  | None => modify (with_sla_events (add_row
      {| se_id := next_id t; se_order_id := so_id order; se_restaurant_id := so_restaurant_id order;
         se_type := event_type; se_ts := now |} t)) ≫= λ _, mret true
  end.

(** [enqueue_message] of a text, with both mirrors on. *)
Definition send_text (restaurant_id : Z) (to_phone body key : string) : SM unit :=
  zoom SlaOutboxRaised (enqueue_message restaurant_id to_phone "text" [("body", JStr body)]%string key true true)
    ≫= λ _, mret tt.

Definition alert_manager (order : SlaOrder) (body key : string) : SM unit :=
  restaurant ← gets (λ s, get_row (so_restaurant_id order) (sla_restaurants s));
  match restaurant with
  | Some r => send_text (so_restaurant_id order) (ct_phone r) body key
  | None => mret tt
  end.
Definition alert_customer (order : SlaOrder) (body key : string) : SM unit :=
  customer ← gets (λ s, get_row (so_customer_id order) (sla_customers s));
  match customer with
  | Some c => send_text (so_restaurant_id order) (ct_phone c) body key
  | None => mret tt
  end.

Definition customer_body (order : SlaOrder) (event_type : string) : string :=
  if event_type =s "yellow_30"
  then "Your order " +:+ so_order_number order +:+ " is taking longer than expected. "
       +:+ "We're working on it — thank you for your patience!"
  else "We're sorry your order " +:+ so_order_number order +:+ " is delayed. "
       +:+ "A discount coupon will be applied to your next order.".
(** The dictionary of the manager's messages; [_fire_event] is only called with its keys. *)
Definition manager_body (order : SlaOrder) (event_type : string) : string :=
  if event_type =s "yellow_30" then "⚠️ Order " +:+ so_order_number order +:+ " hit 30-min mark."
  else if event_type =s "red_35"
  then "🔴 Order " +:+ so_order_number order +:+ " at 35 min — escalate now!"
  else "🚨 SLA BREACHED: Order " +:+ so_order_number order +:+ " exceeded 40 min.".

Definition customer_key (order_id : Z) (event_type : string) : string :=
  "sla-cust-" +:+ pretty order_id +:+ "-" +:+ event_type.
Definition manager_key (order_id : Z) (event_type : string) : string :=
  "sla-mgr-" +:+ pretty order_id +:+ "-" +:+ event_type.
Definition kitchen_key (order_id : Z) (event_type : string) : string :=
  event_type +:+ "-" +:+ pretty order_id.

Definition _fire_kitchen_event (order : SlaOrder) (now : Z) (event_type body : string) : SM unit :=
  fired ← insert_event order event_type now;
  if negb fired then mret tt else
  alert_manager order body (kitchen_key (so_id order) event_type).

Section monitor.
(** The random tokens drawn for the coupon of an order. *)
Context (tokens : Z → nat → string).

Definition APOLOGY_AED : Z := 1000.  (** [Decimal("10.00")], in cents *)

Definition _fire_event (order : SlaOrder) (event_type : string) (now : Z) : SM unit :=
  fired ← insert_event order event_type now;
  if negb fired then mret tt else
  (if (event_type =s "yellow_30") || (event_type =s "breach_40")
   then alert_customer order (customer_body order event_type) (customer_key (so_id order) event_type)
   else mret tt) ≫= λ _,
  alert_manager order (manager_body order event_type) (manager_key (so_id order) event_type) ≫= λ _,
  (if event_type =s "breach_40"
   then modify (λ s, with_breaches (sla_breaches s ++ [so_restaurant_id order]) s)
   else mret tt) ≫= λ _,
  if (event_type =s "breach_40") && negb (so_weather_delay_disclosed order) then
    coupon ← zoom SlaCouponRaised (issue_coupon (tokens (so_id order)) (so_restaurant_id order)
      (so_customer_id order) (Some (so_id order)) APOLOGY_AED DEFAULT_VALIDITY_DAYS);
    modify (λ s, with_partner_notified (partner_notified s ++ [(so_id order, c_code coupon)]) s)
  else mret tt.

(** ** The tick *)

Definition start_late_body (order : SlaOrder) : string :=
  "🔥 Start cooking " +:+ so_order_number order +:+ " NOW — it won't be "
  +:+ "ready in time for the 40-min SLA otherwise.".
Definition prep_late_body (order : SlaOrder) : string :=
  "👨‍🍳 Plate " +:+ so_order_number order +:+ " NOW — it's past the kitchen "
  +:+ "deadline and the delivery still needs time to make the 40-min SLA.".

(** The point after which the slowest dish cannot finish in time has passed. *)
Definition must_start (order : SlaOrder) (now : Z) : bool :=
  bool_decide (so_status order = CONFIRMED) &&
  match so_prep_deadline order, so_cook_estimate_minutes order with
  | Some pd, Some cook => pd - minutes cook <=? now
  | _, _ => false
  end.
Definition must_plate (order : SlaOrder) (now : Z) : bool :=
  bool_decide (so_status order ∈ [CONFIRMED; PREPARING]) &&
  match so_prep_deadline order with Some pd => pd <=? now | None => false end.

(** The loop's body.  [elapsed_min < threshold] compares [elapsed / 60] seconds in
    floating point, which for instants in microseconds is the exact comparison: a
    microsecond is far more than a rounding error. *)
Definition check_order (now : Z) (order : SlaOrder) : SM unit :=
  match so_sla_confirmed_at order with
  | None => mret tt
  | Some confirmed_at =>
      let elapsed := now - confirmed_at in
      for_each (λ '(event_type, threshold_min),
        if elapsed <? minutes threshold_min then mret tt
        else _fire_event order event_type now) _THRESHOLDS ≫= λ _,
      (if must_start order now
       then _fire_kitchen_event order now "start_late" (start_late_body order) else mret tt) ≫= λ _,
      (if must_plate order now
       then _fire_kitchen_event order now "prep_late" (prep_late_body order) else mret tt)
  end.

Definition active (o : SlaOrder) : bool := bool_decide (so_status o ∈ _ACTIVE_STATUSES).
Definition _run_monitor : SM unit :=
  now ← gets sla_now;
  open_orders ← gets (λ s, all_where active (sla_orders s));
  for_each (check_order now) open_orders.
End monitor.

#[global] Arguments customer_body : simpl never.
#[global] Arguments manager_body : simpl never.
#[global] Arguments customer_key : simpl never.
#[global] Arguments manager_key : simpl never.
#[global] Arguments kitchen_key : simpl never.
