(* ===== verification/SlaFacts.v ===== *)
(** * Correctness of the SLA monitor

    A tick fires exactly the alerts that are due and were not fired before, never
    fails, and mints at most one apology coupon per order for ever. *)

From S2P Require Import Prelude Money Strings Db AuditTrail Clock Coupons CouponFacts OrderFsm Outbox OutboxFacts Sla.

(** ** Alerts of an order *)

(** The alert [k], an order's id and a type, has been fired. *)
Definition fired (k : Z * string) (s : sla_db) : Prop :=
  ∃ e, e ∈ rows (sla_events s) ∧ se_order_id e = k.1 ∧ se_type e = k.2.

(** The alerts due for an order: the thresholds passed, and the kitchen's. *)
Definition due_types (now : Z) (o : SlaOrder) : list string :=
  match so_sla_confirmed_at o with
  | None => []
  | Some c =>
      (fst <$> List.filter (λ k, negb (now - c <? minutes (snd k))) _THRESHOLDS) ++
      (if must_start o now then ["start_late"%string] else []) ++
      (if must_plate o now then ["prep_late"%string] else [])
  end.

Definition event_key (e : SlaEvent) : Z * string := (se_order_id e, se_type e).

(** Apology coupons minted for an order. *)
Definition apologies (oid : Z) (s : sla_db) : Z :=
  count_where (λ c, bool_decide (c_order_id c = Some oid)) (coupons (sla_coupons s)).

Record sla_inv (s : sla_db) : Prop := {
  si_events : table_wf (sla_events s);
  si_once : unique_on event_key (sla_events s);
  si_queue : queue_wf (sla_outbox s);
  si_apology : ∀ oid, apologies oid s ≤ 1;
  si_breach : ∀ oid, 0 < apologies oid s → fired (oid, "breach_40"%string) s;
}.

(** What a tick does not write. *)
Record unmoved (s s' : sla_db) : Prop := {
  um_orders : sla_orders s' = sla_orders s;
  um_customers : sla_customers s' = sla_customers s;
  um_restaurants : sla_restaurants s' = sla_restaurants s;
  um_now : sla_now s' = sla_now s;
  um_queue : ∀ m, m ∈ rows (messages (sla_outbox s)) → m ∈ rows (messages (sla_outbox s'));
}.
#[global] Instance unmoved_preorder : PreOrder unmoved.
Proof.
  split; [by split|]. intros s1 s2 s3 [] []. split; try congruence. auto.
Qed.

(** [fires P m]: [m] succeeds, fires exactly [P], and is idle when all of [P] has
    been fired already. *)
Definition fires (P : Z * string → Prop) (m : SM unit) : Prop :=
  ∀ s, sla_inv s → ∃ s', m s = Ok tt s' ∧ sla_inv s' ∧ unmoved s s' ∧
    (∀ k, fired k s' ↔ fired k s ∨ P k) ∧ ((∀ k, P k → fired k s) → s' = s).

Lemma fires_nothing : fires (λ _, False) (mret tt).
Proof. intros s Hs. exists s. split_and!; try done. intros k. by split; [left|intros [?|]]. Qed.

Lemma fires_ext (P Q : Z * string → Prop) m : (∀ k, P k ↔ Q k) → fires P m → fires Q m.
Proof.
  intros HPQ Hm s Hs. destruct (Hm s Hs) as (s' & Hrun & Hi & Hu & Hk & Hidle).
  exists s'. split_and!; try done; [intros k; rewrite Hk; by rewrite HPQ|].
  intros Hq. apply Hidle. intros k Hp. by apply Hq, HPQ.
Qed.

Lemma fires_bind (P Q : Z * string → Prop) m (f : unit → SM unit) :
  fires P m → fires Q (f tt) → fires (λ k, P k ∨ Q k) (m ≫= f).
Proof.
  intros Hm Hf s Hs. destruct (Hm s Hs) as (s1 & Hrun & Hi1 & Hu1 & Hk1 & Hidle1).
  destruct (Hf s1 Hi1) as (s2 & Hrun2 & Hi2 & Hu2 & Hk2 & Hidle2).
  exists s2. rewrite (bind_run_Ok _ _ _ _ _ Hrun). split_and!; [done|done|by etrans| |].
  - intros k. rewrite Hk2, Hk1. tauto.
  - intros Hpq. rewrite Hidle2; [apply Hidle1; auto|].
    intros k Hq. apply Hk1. left. auto.
Qed.

Lemma fires_for_each {A} (P : A → Z * string → Prop) (f : A → SM unit) l :
  (∀ a, a ∈ l → fires (P a) (f a)) → fires (λ k, ∃ a, a ∈ l ∧ P a k) (for_each f l).
Proof.
  induction l as [|a l IH]; intros Hf; cbn.
  - eapply fires_ext; [|apply fires_nothing]. intros k. split; [done|intros (a & Ha & _); set_solver].
  - eapply fires_ext; [|apply (fires_bind (P a)); [apply Hf; left|apply IH; intros; apply Hf; by right]].
    intros k. cbn. split.
    + intros [?|(a' & ? & ?)]; [exists a|exists a']; (split; [set_solver|done]).
    + intros (a' & [->|?]%elem_of_cons & ?); eauto.
Qed.

Lemma fires_if (b : bool) P m :
  fires P m → fires (λ k, b = true ∧ P k) (if b then m else mret tt).
Proof.
  intros Hm. destruct b; [eapply fires_ext; [|exact Hm]|eapply fires_ext; [|apply fires_nothing]];
    intros k; naive_solver.
Qed.

(** ** One alert *)

Lemma alert_run (o : SlaOrder) (phone : option Contact) rid body key s :
  queue_wf (sla_outbox s) →
  ∃ q, (match phone with Some c => send_text rid (ct_phone c) body key | None => mret tt end) s =
    Ok tt (put q s) ∧ queue_wf q ∧
    (∀ m, m ∈ rows (messages (sla_outbox s)) → m ∈ rows (messages q)) ∧
    (∀ c, phone = Some c → truthy (strip (ct_phone c)) = true → ∃ m, m ∈ rows (messages q) ∧ om_key m = key).
Proof.
  intros Hq. destruct phone as [c|].
  - destruct (enqueue_run rid (ct_phone c) "text" [("body", JStr body)]%string key true true _ Hq)
      as (r & q & Hrun & Hwf & Hkept & Hr). exists q. split_and!; [|done|done|].
    + unfold send_text, zoom, mbind, M_bind. cbn. by rewrite Hrun.
    + intros c' [= <-] Hp. destruct r as [m|]; [|by destruct Hr; congruence].
      destruct Hr as (Hk & Hin & _). eauto.
  - exists (sla_outbox s). split_and!; try done. unfold mret, M_ret. by destruct s.
Qed.

Lemma insert_event_run o ty now s :
  (fired (so_id o, ty) s ∧ insert_event o ty now s = Ok false s) ∨
  (¬ fired (so_id o, ty) s ∧ ∃ e, insert_event o ty now s = Ok true (with_sla_events (add_row e (sla_events s)) s) ∧
     event_key e = (so_id o, ty) ∧ se_id e = next_id (sla_events s)).
Proof.
  unfold insert_event, mbind, M_bind, gets. destruct (first_where _ _) as [e|] eqn:Hf.
  - left. apply first_where_Some in Hf as [Hin He]. unfold same_event in He. zbool. split; [|done].
    exists e. done.
  - right. rewrite first_where_None in Hf. split.
    + intros (e & Hin & Hid & Hty). specialize (Hf e Hin). unfold same_event in Hf. cbn in *.
      by rewrite Hid, Hty, Z.eqb_refl, String.eqb_refl in Hf.
    + eexists. by split_and!.
Qed.

(** The state after an alert is well formed: one event more and, for a breach, at
    most one coupon of the order more. *)
Lemma alert_closes o ty e s s' :
  sla_inv s → ¬ fired (so_id o, ty) s → event_key e = (so_id o, ty) → se_id e = next_id (sla_events s) →
  sla_events s' = add_row e (sla_events s) → queue_wf (sla_outbox s') →
  (coupons (sla_coupons s') = coupons (sla_coupons s) ∨ ty = "breach_40"%string ∧
   ∃ c, coupons (sla_coupons s') = add_row c (coupons (sla_coupons s)) ∧ c_order_id c = Some (so_id o)) →
  sla_inv s' ∧ (∀ k, fired k s' ↔ fired k s ∨ k = (so_id o, ty)).
Proof.
  intros [He Hu Hq Ha Hb] Hnew [= Hid Hty] Hnext Hev Hq' Hc.
  assert (∀ k, fired k s' ↔ fired k s ∨ k = (so_id o, ty)) as Hfired.
  { intros [i t]. unfold fired. rewrite Hev. setoid_rewrite elem_of_add_row. split.
    - intros (e' & [Hin| ->] & Hi & Ht); [left; eauto|right; cbn in *; congruence].
    - intros [(e' & ? & ?)|[= -> ->]]; [exists e'; auto|exists e; auto]. }
  split; [|done]. split; [rewrite Hev; by apply add_row_wf| |done| |].
  - rewrite Hev. apply add_row_unique; [done|]. intros e' Hin [= Hi Ht]. apply Hnew.
    exists e'. cbn. split_and!; congruence.
  - intros oid. specialize (Ha oid). destruct Hc as [Hc|(-> & c & Hc & Hco)]; unfold apologies in *; rewrite Hc; [done|].
    rewrite count_where_add, Hco. destruct (decide (so_id o = oid)) as [<-|Hne].
    + rewrite bool_decide_true by done. destruct (decide (0 < apologies (so_id o) s)) as [Hpos|Hpos];
        [by destruct Hnew; apply Hb|unfold apologies in Hpos; lia].
    + rewrite bool_decide_false by congruence. lia.
  - intros oid. rewrite Hfired. specialize (Hb oid). destruct Hc as [Hc|(-> & c & Hc & Hco)];
      unfold apologies in *; rewrite Hc; [tauto|].
    rewrite count_where_add, Hco. destruct (decide (so_id o = oid)) as [<-|Hne]; [by right|].
    rewrite bool_decide_false by congruence. rewrite Z.add_0_r. tauto.
Qed.

Lemma fires_kitchen o now ty body : fires (eq (so_id o, ty)) (_fire_kitchen_event o now ty body).
Proof.
  intros s Hs. unfold _fire_kitchen_event.
  destruct (insert_event_run o ty now s) as [[Hf Hrun]|(Hf & e & Hrun & Hk & Hn)];
    rewrite (bind_run_Ok _ _ _ _ _ Hrun); cbn [negb].
  { exists s. split_and!; try done. intros k. split; [by left|intros [?|<-]; done]. }
  unfold alert_manager, mbind at 1, M_bind, gets.
  set (s1 := with_sla_events _ s).
  destruct (alert_run o (get_row (so_restaurant_id o) (sla_restaurants s1)) (so_restaurant_id o) body
    (kitchen_key (so_id o) ty) s1 (si_queue s Hs)) as (q & Hal & Hq & Hkept & _).
  exists (put q s1). split; [exact Hal|].
  destruct (alert_closes o ty e s (put q s1)) as [Hi Hfk]; try done; [by left|].
  split; [done|]. split; [by split|]. split; [intros k; rewrite Hfk; naive_solver|].
  intros Hall. destruct Hf. by apply Hall.
Qed.

Section monitor.
Context (tokens : Z → nat → string) {Htokens : ∀ oid, Inj (=) (=) (tokens oid)}.
Notation _fire_event := (_fire_event tokens).
Notation check_order := (check_order tokens).
Notation _run_monitor := (_run_monitor tokens).

(** The coupon a breach mints, unless the delay had been announced. *)
Definition apology_minted (o : SlaOrder) (s s' : sla_db) : Prop :=
  if so_weather_delay_disclosed o then coupons (sla_coupons s') = coupons (sla_coupons s)
  else ∃ c, coupons (sla_coupons s') = add_row c (coupons (sla_coupons s)) ∧
    c_order_id c = Some (so_id o) ∧ c_customer_id c = Some (so_customer_id o) ∧
    c_restaurant_id c = so_restaurant_id o ∧ c_discount_type c = Fixed ∧ c_discount_aed c = Some 1000 ∧
    c_status c = CIssued ∧ c_expires_at c = Some (coupon_now (sla_coupons s) + days 30).

(** A message with this key is queued if its recipient has a phone. *)
Definition alerted (contact : option Contact) (key : string) (s : sla_db) : Prop :=
  ∀ c, contact = Some c → truthy (strip (ct_phone c)) = true →
    ∃ m, m ∈ rows (messages (sla_outbox s)) ∧ om_key m = key.

Definition breach_tail (o : SlaOrder) (ty : string) : SM unit :=
  (if ty =s "breach_40"
   then modify (λ s, with_breaches (sla_breaches s ++ [so_restaurant_id o]) s) else mret tt) ≫= λ _,
  if (ty =s "breach_40") && negb (so_weather_delay_disclosed o) then
    coupon ← zoom SlaCouponRaised (issue_coupon (tokens (so_id o)) (so_restaurant_id o)
      (so_customer_id o) (Some (so_id o)) APOLOGY_AED DEFAULT_VALIDITY_DAYS);
    modify (λ s, with_partner_notified (partner_notified s ++ [(so_id o, c_code coupon)]) s)
  else mret tt.

Lemma breach_tail_run o ty s :
  ∃ s', breach_tail o ty s = Ok tt s' ∧ sla_events s' = sla_events s ∧ sla_outbox s' = sla_outbox s ∧
    unmoved s s' ∧
    (if ty =s "breach_40" then apology_minted o s s'
     else coupons (sla_coupons s') = coupons (sla_coupons s)).
Proof using Htokens.
  unfold breach_tail, apology_minted. destruct (ty =s "breach_40"); cbn [andb]; [|by exists s].
  rewrite (bind_run_Ok _ _ s tt (with_breaches (sla_breaches s ++ [so_restaurant_id o]) s)) by done.
  destruct (so_weather_delay_disclosed o); cbn [negb]; [eexists; by split_and!|].
  destruct (issue_coupon_run (tokens (so_id o)) (so_restaurant_id o) (so_customer_id o) (Some (so_id o))
    APOLOGY_AED DEFAULT_VALIDITY_DAYS (sla_coupons s) (Htokens (so_id o)))
    as (w & j & c & Hmint & -> & _ & _ & Hrows & _ & _).
  unfold zoom, mbind, M_bind. cbn. rewrite Hmint. unfold modify. eexists. split_and!; [done..|].
  eexists. split; [exact Hrows|]. by split_and!.
Qed.

(** The customer's part of an alert. *)
Lemma customer_part_run o ty s :
  queue_wf (sla_outbox s) →
  ∃ q, (if (ty =s "yellow_30") || (ty =s "breach_40")
     then alert_customer o (customer_body o ty) (customer_key (so_id o) ty) else mret tt) s = Ok tt (put q s) ∧
    queue_wf q ∧ (∀ m, m ∈ rows (messages (sla_outbox s)) → m ∈ rows (messages q)) ∧
    (ty = "yellow_30"%string ∨ ty = "breach_40"%string →
      alerted (get_row (so_customer_id o) (sla_customers s)) (customer_key (so_id o) ty) (put q s)).
Proof.
  intros Hs. destruct ((ty =s "yellow_30") || (ty =s "breach_40")) eqn:Hty.
  - destruct (alert_run o (get_row (so_customer_id o) (sla_customers s)) (so_restaurant_id o)
      (customer_body o ty) (customer_key (so_id o) ty) s Hs) as (q & Hal & Hq & Hkept & Hm).
    exists q. by split_and!.
  - exists (sla_outbox s). split_and!; [by destruct s|done|done|]. zbool. tauto.
Qed.

Lemma fire_event_run o ty now s :
  sla_inv s →
  (fired (so_id o, ty) s ∧ _fire_event o ty now s = Ok tt s) ∨
  (¬ fired (so_id o, ty) s ∧ ∃ e s', _fire_event o ty now s = Ok tt s' ∧
     event_key e = (so_id o, ty) ∧ se_id e = next_id (sla_events s) ∧
     sla_events s' = add_row e (sla_events s) ∧ queue_wf (sla_outbox s') ∧ unmoved s s' ∧
     (if ty =s "breach_40" then apology_minted o s s'
      else coupons (sla_coupons s') = coupons (sla_coupons s)) ∧
     alerted (get_row (so_restaurant_id o) (sla_restaurants s)) (manager_key (so_id o) ty) s' ∧
     (ty = "yellow_30"%string ∨ ty = "breach_40"%string →
      alerted (get_row (so_customer_id o) (sla_customers s)) (customer_key (so_id o) ty) s')).
Proof using Htokens.
  intros Hs. unfold Sla._fire_event.
  destruct (insert_event_run o ty now s) as [[Hf Hrun]|(Hf & e & Hrun & Hk & Hn)]; [left|right];
    rewrite (bind_run_Ok _ _ _ _ _ Hrun); cbn [negb]; [done|]. split; [done|].
  set (s1 := with_sla_events _ s).
  destruct (customer_part_run o ty s1 (si_queue s Hs)) as (q1 & Hrun1 & Hq1 & Hkept1 & Hal1).
  rewrite (bind_run_Ok _ _ _ _ _ Hrun1). set (s2 := put q1 s1).
  destruct (alert_run o (get_row (so_restaurant_id o) (sla_restaurants s2)) (so_restaurant_id o)
    (manager_body o ty) (manager_key (so_id o) ty) s2 Hq1) as (q2 & Hrun2 & Hq2 & Hkept2 & Hal2).
  change (alert_manager o (manager_body o ty) (manager_key (so_id o) ty) s2 = Ok tt (put q2 s2)) in Hrun2.
  rewrite (bind_run_Ok _ _ _ _ _ Hrun2). set (s3 := put q2 s2).
  destruct (breach_tail_run o ty s3) as (s' & Hrun3 & Hev & Hout & Hu & Hmint).
  exists e, s'. split; [exact Hrun3|]. split_and!; try done.
  - by rewrite Hout.
  - etrans; [|exact Hu]. split; try done. intros m Hm. by apply Hkept2, Hkept1.
  - intros c Hc Hp. rewrite Hout. by apply Hal2 with c.
  - intros Hor c Hc Hp. destruct (Hal1 Hor c Hc Hp) as (m & Hm & Hmk). exists m.
    rewrite Hout. split; [by apply Hkept2|done].
Qed.

Lemma fires_event o now ty : fires (eq (so_id o, ty)) (_fire_event o ty now).
Proof using Htokens.
  intros s Hs. destruct (fire_event_run o ty now s Hs)
    as [[Hf Hrun]|(Hf & e & s' & Hrun & Hk & Hn & Hev & Hq & Hu & Hc & _)].
  { exists s. split_and!; try done. intros k. split; [by left|intros [?|<-]; done]. }
  destruct (alert_closes o ty e s s' Hs Hf Hk Hn Hev Hq) as [Hi Hfk].
  { destruct (String.eqb_spec ty "breach_40") as [->|]; [|by left].
    unfold apology_minted in Hc. destruct (so_weather_delay_disclosed o); [by left|].
    right. split; [done|]. destruct Hc as (c & Hc & Hco & _). by exists c. }
  exists s'. split_and!; try done; [intros k; rewrite Hfk; naive_solver|].
  intros Hall. destruct Hf. by apply Hall.
Qed.

(** ** The tick *)

Lemma fires_check now o : fires (λ k, k.1 = so_id o ∧ k.2 ∈ due_types now o) (check_order now o).
Proof using Htokens.
  unfold Sla.check_order, due_types. destruct (so_sla_confirmed_at o) as [c|].
  2:{ eapply fires_ext; [|apply fires_nothing]. intros k. set_solver. }
  eapply fires_ext; [|apply fires_bind; [apply (fires_for_each
    (λ tm k, negb (now - c <? minutes (snd tm)) = true ∧ k = (so_id o, fst tm)))|
    apply fires_bind; apply fires_if; apply fires_kitchen]].
  - intros [i t]. cbn [fst snd]. rewrite !elem_of_app, list_elem_of_fmap. split.
    + intros [([ty m] & Hin & Hb & [= -> ->])|[[-> [= <- <-]]|[-> [= <- <-]]]]; (split; [done|]); [left|set_solver..].
      exists (ty, m). split; [done|]. apply list_elem_of_In, List.filter_In. split; [by apply list_elem_of_In|done].
    + intros [-> [([ty m] & -> & Hf)|[Hin|Hin]]].
      * apply list_elem_of_In, List.filter_In in Hf as [Hf Hb]. left. exists (ty, m).
        split_and!; [by apply list_elem_of_In|done|done].
      * right; left. destruct (must_start o now); set_solver.
      * right; right. destruct (must_plate o now); set_solver.
  - intros [ty m] _. cbn [fst snd]. destruct (now - c <? minutes m); cbn [negb].
    + eapply fires_ext; [|apply fires_nothing]. naive_solver.
    + eapply fires_ext; [|apply fires_event]. naive_solver.
Qed.

(** The alert [k] is due: of an active order, at this instant. *)
Definition due (k : Z * string) (s : sla_db) : Prop :=
  ∃ o, o ∈ rows (sla_orders s) ∧ active o = true ∧ k.1 = so_id o ∧ k.2 ∈ due_types (sla_now s) o.

Lemma due_unmoved k s s' : unmoved s s' → due k s ↔ due k s'.
Proof. intros Hu. unfold due. by rewrite (um_orders _ _ Hu), (um_now _ _ Hu). Qed.

Lemma tick_fires s :
  sla_inv s → ∃ s', _run_monitor s = Ok tt s' ∧ sla_inv s' ∧ unmoved s s' ∧
    (∀ k, fired k s' ↔ fired k s ∨ due k s) ∧ ((∀ k, due k s → fired k s) → s' = s).
Proof using Htokens.
  intros Hs. unfold Sla._run_monitor.
  pose proof (fires_for_each (λ o k, k.1 = so_id o ∧ k.2 ∈ due_types (sla_now s) o) (check_order (sla_now s))
    (all_where active (sla_orders s)) (λ o _, fires_check (sla_now s) o) s Hs) as (s' & Hrun & Hi & Hu & Hk & Hid).
  exists s'. split_and!; try done.
  - intros k. rewrite Hk. unfold due. setoid_rewrite elem_of_all_where. naive_solver.
  - intros Hall. apply Hid. intros k (o & [Hin Ha]%elem_of_all_where & Hko). apply Hall. by exists o.
Qed.


(** Histories: ticks, and whatever else happens to orders, queue, coupons and clock,
    as long as nothing else records alerts or mints coupons for an order. *)
Inductive sla_reachable : sla_db → Prop :=
| sr_start s : sla_events s = empty_table → queue_wf (sla_outbox s) → (∀ oid, apologies oid s = 0) →
    sla_reachable s
| sr_tick s : sla_reachable s → sla_reachable (final (_run_monitor s))
| sr_other s s' : sla_reachable s → sla_events s' = sla_events s → queue_wf (sla_outbox s') →
    (∀ oid, apologies oid s' = apologies oid s) → sla_reachable s'.

Lemma sla_reachable_inv s : sla_reachable s → sla_inv s.
Proof using Htokens.
  induction 1 as [s He Hq Ha|s _ IH|s s' _ [Ht Hu _ Ha Hb] He Hq Hap].
  - split; rewrite ?He; [apply empty_table_wf|intros r1 r2 Hr; by apply not_elem_of_nil in Hr|done|..];
      intros oid; rewrite Ha; lia.
  - destruct (tick_fires s IH) as (s' & -> & Hi & _). exact Hi.
  - split; rewrite ?He; try done.
    + intros oid. by rewrite Hap.
    + intros oid. rewrite Hap. intros Hpos. unfold fired. rewrite He. by apply Hb.
Qed.


(** What a breach does, the first time: the breach is recorded, the customer and
    the manager are each queued a message if they have a phone, and unless the delay
    had been announced an apology coupon of AED 10, valid 30 days, is minted for the
    order's customer; the second time nothing happens. *)
Theorem breach_effect o now s :
  sla_inv s →
  (fired (so_id o, "breach_40"%string) s → _fire_event o "breach_40" now s = Ok tt s) ∧
  (¬ fired (so_id o, "breach_40"%string) s →
   ∃ s', _fire_event o "breach_40" now s = Ok tt s' ∧ fired (so_id o, "breach_40"%string) s' ∧
     apology_minted o s s' ∧
     alerted (get_row (so_customer_id o) (sla_customers s)) (customer_key (so_id o) "breach_40") s' ∧
     alerted (get_row (so_restaurant_id o) (sla_restaurants s)) (manager_key (so_id o) "breach_40") s').
Proof using Htokens.
  intros Hs. destruct (fire_event_run o "breach_40" now s Hs)
    as [[Hf Hrun]|(Hf & e & s' & Hrun & Hk & _ & Hev & _ & _ & Hc & Hmgr & Hcust)];
    (split; [try done|try done]).
  intros _. exists s'. split_and!; try done; [|by apply Hcust; right].
  exists e. rewrite Hev. injection Hk as Hid Hty. split_and!; [apply elem_of_add_row; by right|done..].
Qed.
End monitor.

(** ** A day of the monitor *)

Definition late_order (weather : bool) : SlaOrder :=
  Build_SlaOrder 5 1 7 "R1-0005" CONFIRMED (Some 0) (Some (minutes 25)) (Some 15) weather.
Definition demo_sla (weather : bool) : sla_db := {|
  sla_orders := Table [late_order weather] 6;
  sla_customers := Table [Build_Contact 7 "+971501234567"] 8;
  sla_restaurants := Table [Build_Contact 1 "+97141234567"] 2;
  sla_events := empty_table; sla_outbox := empty_outbox (minutes 41);
  sla_coupons := Build_coupon_db empty_table empty_table [] (minutes 41);
  sla_breaches := []; partner_notified := []; sla_now := minutes 41 |}.
Definition drawn (_ : Z) : nat → string := demo_tokens.
#[global] Instance drawn_inj oid : Inj (=) (=) (drawn oid).
Proof. apply demo_tokens_inj. Qed.

(** A customer whose delay was announced because of the weather is still promised a
    coupon by the breach's message, and gets none. *)
Theorem weather_breach_promises_coupon :
  let s := final (_run_monitor drawn (demo_sla true)) in
  apologies 5 s = 0 ∧
  ∃ m, m ∈ rows (messages (sla_outbox s)) ∧ om_key m = "sla-cust-5-breach_40"%string ∧
    dict_get "body" (om_payload m) = Some (JStr
      "We're sorry your order R1-0005 is delayed. A discount coupon will be applied to your next order.").
Proof.
  split; [vm_compute; reflexivity|].
  destruct (List.nth_error (rows (messages (sla_outbox (final (_run_monitor drawn (demo_sla true)))))) 3)
    as [m|] eqn:Hm; [|vm_compute in Hm; discriminate].
  exists m. split; [apply list_elem_of_In; by eapply List.nth_error_In|].
  vm_compute in Hm. injection Hm as <-. split; reflexivity.
Qed.

Lemma demo_sla_reachable : sla_reachable drawn (demo_sla false).
Proof. apply sr_start; [done|apply empty_outbox_inv|done]. Qed.



Example breach_effect_witness :
  ∃ s', _fire_event drawn (late_order false) "breach_40" (minutes 41) (demo_sla false) = Ok tt s' ∧
    apology_minted (late_order false) (demo_sla false) s'.
Proof.
  destruct (proj2 (breach_effect drawn (Htokens := drawn_inj) (late_order false) (minutes 41) (demo_sla false)
    (sla_reachable_inv drawn (Htokens := drawn_inj) _ demo_sla_reachable))) as (s' & Hrun & _ & Hm & _).
  - intros (e & He & _). by apply not_elem_of_nil in He.
  - exists s'. exact (conj Hrun Hm).
Defined.
