(* ===== verification/GiftCards.v ===== *)
(** * Gift cards ([app.giftcards])

    A code-and-PIN card pays an order through the payments component ([Payments], a
    [gift_card] tender); the older phone-based gift credits the recipient's wallet
    ([Wallet]).  SHA-256 is a parameter.  Amounts are whole cents.  [request] is the
    router's transaction: what a failing call wrote is rolled back. *)

From S2P Require Import Prelude Money Strings Db AuditTrail Clock Wallet Decimals Payments.

(** ** Data *)

Inductive card_status := GActive | GVoid | GExhausted.
#[global] Instance card_status_eq_dec : EqDecision card_status.
Proof. solve_decision. Defined.

Record GiftCard := {
  gc_id : Z;
  gc_restaurant_id : Z;
  gc_code : string;
  gc_pin_hash : string;
  gc_initial_amount_aed : Z;
  gc_balance_aed : Z;
  gc_status : card_status;
  gc_customer_id : option Z;
  gc_expires_at : option Z;
  gc_issued_by : string;
}.
#[global] Instance GiftCard_row : Row GiftCard := gc_id.
Definition with_card (balance : Z) (st : card_status) (c : GiftCard) : GiftCard :=
  {| gc_id := gc_id c; gc_restaurant_id := gc_restaurant_id c; gc_code := gc_code c;
     gc_pin_hash := gc_pin_hash c; gc_initial_amount_aed := gc_initial_amount_aed c;
     gc_balance_aed := balance; gc_status := st; gc_customer_id := gc_customer_id c;
     gc_expires_at := gc_expires_at c; gc_issued_by := gc_issued_by c |}.

(** A customer, as far as a gift finds one. *)
Record Recipient := { rp_id : Z; rp_restaurant_id : Z; rp_phone : string }.
#[global] Instance Recipient_row : Row Recipient := rp_id.

Record gift_db := {
  gift_cards : table GiftCard;
  recipients : table Recipient;
  gift_payments : payments_db;
  gift_wallet : wallet_db;
  gift_now : Z;
}.
Definition with_cards (t : table GiftCard) (s : gift_db) : gift_db :=
  Build_gift_db t (recipients s) (gift_payments s) (gift_wallet s) (gift_now s).
Definition with_recipients (t : table Recipient) (s : gift_db) : gift_db :=
  Build_gift_db (gift_cards s) t (gift_payments s) (gift_wallet s) (gift_now s).
#[global] Program Instance gift_payments_lens : Lens gift_db payments_db := {|
  view := gift_payments;
  put p s := Build_gift_db (gift_cards s) (recipients s) p (gift_wallet s) (gift_now s);
|}.
Solve Obligations with by intros; try destruct s.
#[global] Program Instance gift_wallet_lens : Lens gift_db wallet_db := {|
  view := gift_wallet;
  put w s := Build_gift_db (gift_cards s) (recipients s) (gift_payments s) w (gift_now s);
|}.
Solve Obligations with by intros; try destruct s.

Inductive gift_error :=
| GiftAmountNotPositive
| PinTooShort
| GiftCardNotFound
| GiftCardNotActive (st : card_status)
| InvalidPin
| GiftCardExpired
| InsufficientGiftBalance (balance : Z)
| GiftIntegrityError
| GiftPaymentRaised (e : payment_error)
| GiftWalletRaised (e : wallet_error).

Abbreviation GM := (M gift_db gift_error).

Definition code_of (restaurant_id : Z) (code : string) (c : GiftCard) : bool :=
  (gc_restaurant_id c =? restaurant_id) && (gc_code c =s code).
(** [session.add(card); flush()]: UNIQUE(restaurant_id, code). *)
Definition add_card (mk : Z → GiftCard) : GM GiftCard :=
  t ← gets gift_cards;
  let row := mk (next_id t) in
  match first_where (code_of (gc_restaurant_id row) (gc_code row)) t with
  | Some _ => raise GiftIntegrityError
  | None => modify (with_cards (add_row row t)) ≫= λ _, mret row
  end.
Definition update_card (row : GiftCard) : GM unit :=
  modify (λ s, with_cards (set_row row (gift_cards s)) s).

Section service.
(** [hashlib.sha256(...).hexdigest()], and the processor of [Payments]. *)
Context (sha256_hex : string → string).
Context (charge : nat → Z → string → string → ChargeResult).

Definition _hash_pin (pin : string) : string := sha256_hex pin.
(** [token] is the random hex token. *)
Definition _gen_code (token : string) : string := upper token.

(** ** Phone gifts *)

Definition get_or_create_recipient (restaurant_id : Z) (phone : string) : GM Recipient :=
  t ← gets recipients;
  match first_where (λ r, (rp_restaurant_id r =? restaurant_id) && (rp_phone r =s phone)) t with
  | Some r => mret r
  | None =>
      let row := {| rp_id := next_id t; rp_restaurant_id := restaurant_id; rp_phone := phone |} in
      modify (with_recipients (add_row row t)) ≫= λ _, mret row
  end.

Definition purchase_gift_card (restaurant_id : Z) (recipient_phone : string) (amount_aed : Z)
    (purchase_reference created_by : string) : GM WalletEntry :=
  customer ← get_or_create_recipient restaurant_id recipient_phone;
  zoom GiftWalletRaised (credit restaurant_id (rp_id customer) (aed amount_aed)
    ("giftcard:" +:+ purchase_reference) Promo_credit None (Some "gift card purchase"%string) created_by).

Definition get_balance (restaurant_id : Z) (phone : string) : GM Z :=
  t ← gets recipients;
  match first_where (λ r, (rp_restaurant_id r =? restaurant_id) && (rp_phone r =s phone)) t with
  | None => mret 0
  | Some customer =>
      zoom GiftWalletRaised (account ← get_or_create_account restaurant_id (rp_id customer);
                             balance (acc_id account))
  end.

(** ** Cards *)

Definition issue_gift_card (restaurant_id amount_aed : Z) (pin : string) (code : option string)
    (token issued_by : string) (expires_at customer_id : option Z) : GM GiftCard :=
  if amount_aed <=? 0 then raise GiftAmountNotPositive else
  if negb (truthy pin) || (String.length pin <? 4)%nat then raise PinTooShort else
  add_card (λ id, {|
    gc_id := id; gc_restaurant_id := restaurant_id;
    gc_code := upper (match code with Some c => if truthy c then c else _gen_code token
                                    | None => _gen_code token end);
    gc_pin_hash := _hash_pin pin; gc_initial_amount_aed := amount_aed; gc_balance_aed := amount_aed;
    gc_status := GActive; gc_customer_id := customer_id; gc_expires_at := expires_at;
    gc_issued_by := issued_by |}).

Definition lookup_gift_card (restaurant_id : Z) (code : string) : GM (option GiftCard) :=
  gets (λ s, first_where (code_of restaurant_id (upper code)) (gift_cards s)).

Definition redeem_gift_card (restaurant_id : Z) (code pin : string) (order_id amount_aed : Z)
    : GM (GiftCard * PaymentTransaction) :=
  found ← lookup_gift_card restaurant_id code;
  match found with
  | None => raise GiftCardNotFound
  | Some card =>
      if negb (bool_decide (gc_status card = GActive)) then raise (GiftCardNotActive (gc_status card)) else
      if negb (gc_pin_hash card =s _hash_pin pin) then raise InvalidPin else
      now ← gets gift_now;
      if (match gc_expires_at card with Some e => e <? now | None => false end) then
        update_card (with_card (gc_balance_aed card) GVoid card) ≫= λ _, raise GiftCardExpired
      else
      if amount_aed <=? 0 then raise GiftAmountNotPositive else
      if gc_balance_aed card <? amount_aed then raise (InsufficientGiftBalance (gc_balance_aed card)) else
      let left := gc_balance_aed card - amount_aed in
      let card' := with_card left (if left <=? 0 then GExhausted else gc_status card) card in
      update_card card' ≫= λ _,
      txn ← zoom GiftPaymentRaised (charge_tender charge true restaurant_id order_id "gift_card" amount_aed 0
        "till" (Some (gc_code card)) None);
      mret (card', txn)
  end.

Definition list_gift_cards (restaurant_id : Z) (status : option card_status) : GM (list GiftCard) :=
  gets (λ s, take 100 (List.rev (all_where (λ c, (gc_restaurant_id c =? restaurant_id) &&
    match status with Some st => bool_decide (gc_status c = st) | None => true end) (gift_cards s)))).

End service.

(** One request of the router: commit what succeeds, roll back what raises. *)
Definition request {A} (m : GM A) (s : gift_db) : gift_db :=
  match m s with Ok _ s' => s' | Err _ _ => s end.
