(* ===== verification/GiftCardFacts.v ===== *)
(** * Correctness of gift cards

    A card's money is conserved over every history of requests, and exactly when a
    redemption goes through. *)

From S2P Require Import Prelude Money Strings Db AuditTrail Clock Wallet Decimals Payments PaymentsFacts GiftCards.

Section facts.
Context (sha256_hex : string → string) (charge : nat → Z → string → string → ChargeResult).
Notation redeem_gift_card := (redeem_gift_card sha256_hex charge).
Notation issue_gift_card := (issue_gift_card sha256_hex).

(** The gift-card tenders of a code. *)
Definition card_txn (rid : Z) (code : string) (t : PaymentTransaction) : bool :=
  (pt_tender_type t =s "gift_card") && (pt_restaurant_id t =? rid) &&
  bool_decide (pt_reference_meta t = Some code).
Definition spent_on (rid : Z) (code : string) (s : gift_db) : Z :=
  sum_where (card_txn rid code) pt_amount_aed (transactions (gift_payments s)).

Definition card_key (c : GiftCard) : Z * string := (gc_restaurant_id c, gc_code c).

Record card_ok (s : gift_db) (c : GiftCard) : Prop := {
  co_balance : 0 ≤ gc_balance_aed c;
  co_conserved : gc_balance_aed c + spent_on (gc_restaurant_id c) (gc_code c) s = gc_initial_amount_aed c;
  co_active : gc_status c = GActive → 0 < gc_balance_aed c;
  co_exhausted : gc_status c = GExhausted → gc_balance_aed c = 0;
}.
Record gift_inv (s : gift_db) : Prop := {
  gi_cards : table_wf (gift_cards s);
  gi_codes : unique_on card_key (gift_cards s);
  gi_ok : ∀ c, c ∈ rows (gift_cards s) → card_ok s c;
  gi_only : ∀ rid code, (∀ c, c ∈ rows (gift_cards s) → card_key c ≠ (rid, code)) → spent_on rid code s = 0;
}.

Lemma code_of_spec rid code c : code_of rid code c = true ↔ card_key c = (rid, code).
Proof.
  unfold code_of, card_key. rewrite andb_true_iff, Z.eqb_eq, String.eqb_eq. split; [intros [-> ->]|intros [= -> ->]]; done.
Qed.

(** ** Issuing *)

Lemma gift_issue_run rid amount pin code token by_ exp cust s :
  (∃ c, issue_gift_card rid amount pin code token by_ exp cust s = Ok c (with_cards (add_row c (gift_cards s)) s) ∧
    0 < amount ∧ gc_id c = next_id (gift_cards s) ∧ gc_initial_amount_aed c = amount ∧
    gc_balance_aed c = amount ∧ gc_status c = GActive ∧
    ∀ c', c' ∈ rows (gift_cards s) → card_key c' ≠ card_key c) ∨
  ∃ e, issue_gift_card rid amount pin code token by_ exp cust s = Err e s.
Proof.
  unfold GiftCards.issue_gift_card. destruct (amount <=? 0) eqn:Ha; [right; by eexists|].
  destruct (negb (truthy pin) || _); [right; by eexists|].
  unfold add_card, mbind, M_bind, gets. cbn. destruct (first_where _ _) as [c|] eqn:Hf; [right; by eexists|].
  left. eexists. split; [reflexivity|]. zbool. split_and!; try done.
  intros c' Hc' Heq. rewrite first_where_None in Hf. specialize (Hf c' Hc').
  apply code_of_spec in Heq. cbn in Heq. congruence.
Qed.

Lemma gift_issue_inv rid amount pin code token by_ exp cust s :
  gift_inv s → gift_inv (request (issue_gift_card rid amount pin code token by_ exp cust) s).
Proof.
  intros [Hw Hu Hok Honly]. unfold request.
  destruct (gift_issue_run rid amount pin code token by_ exp cust s) as
    [(c & -> & Hpos & Hid & Hini & Hbal & Hst & Hfresh)|(e & ->)]; [|done].
  assert (spent_on (gc_restaurant_id c) (gc_code c) s = 0) as Hzero by (apply Honly; exact Hfresh).
  split; cbn [gift_cards with_cards]; [by apply add_row_wf|by apply add_row_unique| |].
  - intros c'. rewrite elem_of_add_row. intros [Hc'| ->]; [destruct (Hok c' Hc'); by split|].
    split; rewrite ?Hbal, ?Hini, ?Hst; [lia| |done|done]. change (amount + spent_on (gc_restaurant_id c) (gc_code c) s = amount). lia.
  - intros r k Hne. apply (Honly r k). intros c' Hc'. apply Hne, elem_of_add_row. by left.
Qed.

(** ** Redeeming *)

(** The gift-card tender of a redemption, unless it looks like a double tap. *)
Definition gift_txn (rid oid amount : Z) (code : string) (s : payments_db) : PaymentTransaction := {|
  pt_id := next_id (transactions s); pt_restaurant_id := rid; pt_order_id := oid;
  pt_tender_type := "gift_card"; pt_amount_aed := amount; pt_tip_aed := 0; pt_provider := "gift_card";
  pt_provider_charge_id := None; pt_status := TSucceeded; pt_refunded_amount_aed := 0;
  pt_channel := "till"; pt_reference_meta := Some code; pt_wallet_session_id := None;
  pt_created_at := pay_now s |}.

Lemma gift_charge_run rid oid amount code s :
  charge_tender charge true rid oid "gift_card" amount 0 "till" (Some code) None s =
    if duplicate_in rid oid amount s then Err (DuplicateChargeError oid amount) s
    else Ok (gift_txn rid oid amount code s)
            (with_transactions (add_row (gift_txn rid oid amount code s) (transactions s)) s).
Proof.
  unfold charge_tender.
  change (in_strs "gift_card" ALL_TENDERS) with true. change (in_strs "gift_card" GATEWAY_TENDERS) with false.
  cbn [negb String.eqb Ascii.eqb Bool.eqb andb].
  unfold detect_duplicate_charge, mbind, M_bind, gets. fold (duplicate_in rid oid amount s).
  by destruct (duplicate_in rid oid amount s).
Qed.

(** The card can pay this amount. *)
Definition payable (card : GiftCard) (pin : string) (amount now : Z) : Prop :=
  gc_status card = GActive ∧ gc_pin_hash card = sha256_hex pin ∧
  (∀ e, gc_expires_at card = Some e → now ≤ e) ∧ 0 < amount ≤ gc_balance_aed card.

Definition charged_card (amount : Z) (card : GiftCard) : GiftCard :=
  with_card (gc_balance_aed card - amount)
    (if gc_balance_aed card - amount <=? 0 then GExhausted else gc_status card) card.

Lemma redeem_run rid code pin oid amount s :
  (∃ card, first_where (code_of rid (upper code)) (gift_cards s) = Some card ∧
     payable card pin amount (gift_now s) ∧ duplicate_in rid oid amount (gift_payments s) = false ∧
     redeem_gift_card rid code pin oid amount s =
       Ok (charged_card amount card, gift_txn rid oid amount (gc_code card) (gift_payments s))
         (put (with_transactions (add_row (gift_txn rid oid amount (gc_code card) (gift_payments s))
                                    (transactions (gift_payments s))) (gift_payments s))
            (with_cards (set_row (charged_card amount card) (gift_cards s)) s))) ∨
  ((∃ e s', redeem_gift_card rid code pin oid amount s = Err e s') ∧
   ∀ card, first_where (code_of rid (upper code)) (gift_cards s) = Some card →
     payable card pin amount (gift_now s) → duplicate_in rid oid amount (gift_payments s) = true).
Proof.
  unfold GiftCards.redeem_gift_card, lookup_gift_card, _hash_pin, payable, mbind, M_bind, gets.
  destruct (first_where _ _) as [card|]; [|right; split; [by do 2 eexists|done]].
  destruct (decide (gc_status card = GActive)) as [Hst|Hst].
  2:{ rewrite bool_decide_false by done. right. split; [by do 2 eexists|]. intros ? [= <-] (? & _). done. }
  rewrite bool_decide_true by done. cbn [negb].
  destruct (String.eqb_spec (gc_pin_hash card) (sha256_hex pin)) as [Hpin|Hpin]; cbn [negb].
  2:{ right. split; [by do 2 eexists|]. intros ? [= <-] (_ & ? & _). done. }
  destruct (match gc_expires_at card with Some e => e <? gift_now s | None => false end) eqn:Hexp.
  { right. split; [by do 2 eexists|]. intros ? [= <-] (_ & _ & He & _).
    destruct (gc_expires_at card) as [e|]; [|done]. specialize (He e eq_refl). zbool. lia. }
  destruct (amount <=? 0) eqn:Ha; zbool.
  { right. split; [by do 2 eexists|]. intros ? [= <-] (_ & _ & _ & ?). lia. }
  destruct (gc_balance_aed card <? amount) eqn:Hb; zbool.
  { right. split; [by do 2 eexists|]. intros ? [= <-] (_ & _ & _ & ?). lia. }
  cbn. unfold zoom. cbn. rewrite gift_charge_run. cbn.
  destruct (duplicate_in _ _ _ _) eqn:Hdup; [right; split; [by do 2 eexists|done]|].
  left. exists card. split_and!; try done.
  intros e He. rewrite He in Hexp. by zbool.
Qed.

Lemma spent_after_gift rid code r oid amount k s :
  sum_where (card_txn rid code) pt_amount_aed (add_row (gift_txn r oid amount k s) (transactions s)) =
  sum_where (card_txn rid code) pt_amount_aed (transactions s) +
    (if bool_decide ((r, k) = (rid, code)) then amount else 0).
Proof.
  rewrite sum_where_add. f_equal. unfold card_txn. cbn.
  destruct (Z.eqb_spec r rid) as [->|Hne]; cbn.
  - destruct (decide (k = code)) as [->|Hk]; [by rewrite !bool_decide_true|].
    rewrite !bool_decide_false; [done|congruence..].
  - rewrite bool_decide_false; [done|congruence].
Qed.

Lemma redeem_inv rid code pin oid amount s :
  gift_inv s → gift_inv (request (redeem_gift_card rid code pin oid amount) s).
Proof.
  intros [Hw Hu Hok Honly]. unfold request.
  destruct (redeem_run rid code pin oid amount s) as
    [(card & Hf & (Hst & _ & _ & Hpos & Hle) & _ & ->)|[(e & s' & ->) _]]; [|done].
  apply first_where_Some in Hf as [Hin Hk]. apply code_of_spec in Hk. injection Hk as Hr Hc.
  set (card' := charged_card amount card). set (s' := put _ _).
  assert (∀ r k, spent_on r k s' = spent_on r k s + (if bool_decide ((rid, gc_code card) = (r, k)) then amount else 0))
    as Hspent by (intros r k; apply spent_after_gift).
  assert (∀ c, c ∈ rows (set_row card' (gift_cards s)) → c = card' ∨ (c ∈ rows (gift_cards s) ∧ c ≠ card)) as Hrows.
  { intros c [[-> _]|[Hc' Hne]]%elem_of_set_row; [by left|right]. split; [done|]. intros ->. by apply Hne. }
  split; cbn [gift_cards put gift_payments_lens with_cards s'].
  - by apply set_row_wf.
  - apply set_row_unique; [done|]. intros c Hc' Hne Heq. apply Hne.
    change (card_key c = card_key card) in Heq. by rewrite (Hu c card Hc' Hin Heq).
  - intros c [->|[Hc' Hne]]%Hrows.
    + destruct (Hok card Hin) as [Hb Hcons _ _]. split; cbn -[spent_on].
      * lia.
      * rewrite Hspent, Hr, bool_decide_true by done. rewrite Hr in Hcons. lia.
      * destruct (gc_balance_aed card - amount <=? 0) eqn:Hz; [done|]. zbool. lia.
      * destruct (gc_balance_aed card - amount <=? 0) eqn:Hz; [zbool; lia|]. by rewrite Hst.
    + destruct (Hok c Hc') as [Hb Hcons Hact Hexh]. split; [done| |done|done].
      rewrite Hspent, bool_decide_false; [lia|]. intros Heq. apply Hne, (Hu c card Hc' Hin).
      unfold card_key. congruence.
  - intros r k Hne. rewrite Hspent, Honly, bool_decide_false; [done| |].
    + intros Heq. apply (Hne card'); [|change (card_key card = (r, k)); unfold card_key; congruence].
      pose proof (elem_of_set_row_2 card' card (gift_cards s) Hin) as H.
      change (row_id card') with (gc_id card) in H. change (row_id card) with (gc_id card) in H.
      by rewrite Z.eqb_refl in H.
    + intros c Hc' Heq. apply (Hne (if gc_id c =? gc_id card then card' else c)).
      * exact (elem_of_set_row_2 card' c (gift_cards s) Hc').
      * destruct (Z.eqb_spec (gc_id c) (gc_id card)) as [Hid|]; [|done].
        assert (c = card) as -> by (by apply (wf_unique _ Hw)). exact Heq.
Qed.

(** *** Histories *)

(** Issues and redemptions as the router runs them, and whatever else happens to the
    other tables, as long as nobody else writes gift-card tenders. *)
Inductive gift_reachable : gift_db → Prop :=
| gr_start s : gift_cards s = empty_table → (∀ rid code, spent_on rid code s = 0) → gift_reachable s
| gr_issue rid amount pin code token by_ exp cust s :
    gift_reachable s → gift_reachable (request (issue_gift_card rid amount pin code token by_ exp cust) s)
| gr_redeem rid code pin oid amount s :
    gift_reachable s → gift_reachable (request (redeem_gift_card rid code pin oid amount) s)
| gr_other s s' : gift_reachable s → gift_cards s' = gift_cards s →
    (∀ rid code, spent_on rid code s' = spent_on rid code s) → gift_reachable s'.

Lemma gift_reachable_inv s : gift_reachable s → gift_inv s.
Proof.
  induction 1 as [s He Hz|rid amount pin code token by_ exp cust s _ IH|rid code pin oid amount s _ IH|s s' _ [Hw Hu Hok Ho] He Hs].
  - split; rewrite ?He; [apply empty_table_wf|intros r1 r2 H; by apply not_elem_of_nil in H|
      intros c H; by apply not_elem_of_nil in H|auto].
  - by apply gift_issue_inv.
  - by apply redeem_inv.
  - split; rewrite ?He; [done|done| |].
    + intros c Hc. destruct (Hok c Hc). split; rewrite ?Hs; done.
    + intros r k Hne. rewrite Hs. by apply Ho.
Qed.


(** When a redemption goes through: exactly when the branch has a card of that
    code (in any case), active, with that PIN, not expired, with at least the amount
    left, and the charge is not a double tap; then one succeeded gift-card tender of
    that amount is added to the order and the card loses the amount. *)
Theorem redeem_decided rid code pin oid amount s :
  is_ok (redeem_gift_card rid code pin oid amount s) = true ↔
  ∃ card, first_where (code_of rid (upper code)) (gift_cards s) = Some card ∧
    payable card pin amount (gift_now s) ∧ duplicate_in rid oid amount (gift_payments s) = false ∧
    redeem_gift_card rid code pin oid amount s =
      Ok (charged_card amount card, gift_txn rid oid amount (gc_code card) (gift_payments s))
        (put (with_transactions (add_row (gift_txn rid oid amount (gc_code card) (gift_payments s))
                                   (transactions (gift_payments s))) (gift_payments s))
           (with_cards (set_row (charged_card amount card) (gift_cards s)) s)).
Proof.
  destruct (redeem_run rid code pin oid amount s) as [(card & Hf & Hp & Hd & Hrun)|[(e & s' & Hrun) Hno]].
  - split; [intros _; by exists card|by rewrite Hrun].
  - rewrite Hrun. split; [done|]. intros (card & Hf & Hp & Hd & _). specialize (Hno card Hf Hp). congruence.
Qed.
End facts.

(** ** A card in use *)

Definition demo_sha (pin : string) : string := "h" +:+ pin.
Definition no_processor (_ : nat) (_ : Z) (_ _ : string) : ChargeResult := Build_ChargeResult false "" None.
Definition gift_shop : gift_db := Build_gift_db empty_table empty_table
  (Build_payments_db empty_table empty_table empty_table empty_table empty_table empty_table empty_table 0 0)
  (Build_wallet_db empty_table empty_table [] 0) 0.
(** A card of AED 50 that expires after an hour, then AED 20 of it spent. *)
Definition shop_issued : gift_db :=
  request (issue_gift_card demo_sha 1 5000 "1234" (Some "gift50") "" "manager" (Some (hours 1)) None) gift_shop.
Definition shop_used : gift_db :=
  request (redeem_gift_card demo_sha no_processor 1 "Gift50" "1234" 9 2000) shop_issued.

Lemma shop_used_reachable : gift_reachable demo_sha no_processor shop_used.
Proof. apply gr_redeem, gr_issue, gr_start; [done|]. intros. reflexivity. Qed.


(** An expired card is never retired: the redemption marks it void and raises, the
    router rolls the mark back, and the card stays active. *)
Theorem expired_card_stays_active :
  let later := Build_gift_db (gift_cards shop_used) (recipients shop_used) (gift_payments shop_used)
    (gift_wallet shop_used) (hours 2) in
  let call := redeem_gift_card demo_sha no_processor 1 "GIFT50" "1234" 9 1000 in
  error (call later) = Some GiftCardExpired ∧
  map gc_status (rows (gift_cards (final (call later)))) = [GVoid] ∧
  map gc_status (rows (gift_cards (request call later))) = [GActive].
Proof. vm_compute. by split_and!. Qed.
