(* ===== verification/CashDrawer.v ===== *)
(** * Cash drawers ([app.cashdrawer])

    A branch opens one drawer session at a time, records cash put in and taken out,
    and closes it against a count.  Amounts are cents. *)

From S2P Require Import Prelude Db.

(** ** Data *)

Inductive drawer_status := DOpen | DClosed.
#[global] Instance drawer_status_eq_dec : EqDecision drawer_status.
Proof. solve_decision. Defined.

Record CashDrawerSession := {
  ds_id : Z;
  ds_restaurant_id : Z;
  ds_opened_by : string;
  ds_staff_id : option Z;
  ds_opened_at : Z;
  ds_opening_float_aed : Z;
  ds_closed_by : option string;
  ds_closed_at : option Z;
  ds_closing_count_aed : option Z;
  ds_variance_aed : option Z;
  ds_status : drawer_status;
}.
#[global] Instance CashDrawerSession_row : Row CashDrawerSession := ds_id.
Record CashDrawerEvent := {
  de_id : Z;
  de_restaurant_id : Z;
  de_session_id : Z;
  de_type : string;
  de_amount_aed : Z;
  de_reason : option string;
  de_created_by : string;
}.
#[global] Instance CashDrawerEvent_row : Row CashDrawerEvent := de_id.

Record drawer_db := {
  drawers : table CashDrawerSession;
  drawer_events : table CashDrawerEvent;
  drawer_now : Z;
}.
Definition with_drawers (t : table CashDrawerSession) (s : drawer_db) : drawer_db :=
  Build_drawer_db t (drawer_events s) (drawer_now s).
Definition with_drawer_events (t : table CashDrawerEvent) (s : drawer_db) : drawer_db :=
  Build_drawer_db (drawers s) t (drawer_now s).

Inductive drawer_error := DrawerAlreadyOpenError (restaurant_id : Z) | DrawerNotFoundError (session_id : Z).
Abbreviation DM := (M drawer_db drawer_error).

(** ** Operations *)

Definition open_in (restaurant_id : Z) (d : CashDrawerSession) : bool :=
  (ds_restaurant_id d =? restaurant_id) && bool_decide (ds_status d = DOpen).
Definition get_current_session (restaurant_id : Z) : DM (option CashDrawerSession) :=
  gets (λ s, first_where (open_in restaurant_id) (drawers s)).

Definition open_session (restaurant_id : Z) (opened_by : string) (opening_float_aed : Z)
    (staff_id : option Z) : DM CashDrawerSession :=
  existing ← get_current_session restaurant_id;
  match existing with
  | Some _ => raise (DrawerAlreadyOpenError restaurant_id)
  | None =>
      now ← gets drawer_now;
      t ← gets drawers;
      let row := {| ds_id := next_id t; ds_restaurant_id := restaurant_id; ds_opened_by := opened_by;
        ds_staff_id := staff_id; ds_opened_at := now; ds_opening_float_aed := opening_float_aed;
        ds_closed_by := None; ds_closed_at := None; ds_closing_count_aed := None;
        ds_variance_aed := None; ds_status := DOpen |} in
      modify (with_drawers (add_row row t)) ≫= λ _, mret row
  end.

Definition the_drawer (session_id restaurant_id : Z) : DM CashDrawerSession :=
  found ← gets (λ s, get_row session_id (drawers s));
  match found with
  | Some d => if ds_restaurant_id d =? restaurant_id then mret d else raise (DrawerNotFoundError session_id)
  | None => raise (DrawerNotFoundError session_id)
  end.

Definition add_event (session_id restaurant_id : Z) (type : string) (amount_aed : Z)
    (reason : option string) (created_by : string) : DM CashDrawerEvent :=
  the_drawer session_id restaurant_id ≫= λ _,
  t ← gets drawer_events;
  let event := {| de_id := next_id t; de_restaurant_id := restaurant_id; de_session_id := session_id;
    de_type := type; de_amount_aed := amount_aed; de_reason := reason; de_created_by := created_by |} in
  modify (with_drawer_events (add_row event t)) ≫= λ _, mret event.

(** [sum(e.amount_aed for e in events if e.type == type)] over a session's events. *)
Definition moved (session_id : Z) (type : string) (t : table CashDrawerEvent) : Z :=
  zsum (λ e, if de_type e =s type then de_amount_aed e else 0)
    (all_where (λ e, de_session_id e =? session_id) t).
Definition expected_cash (d : CashDrawerSession) (t : table CashDrawerEvent) : Z :=
  ds_opening_float_aed d + moved (ds_id d) "cash_in" t - moved (ds_id d) "cash_out" t.

Definition closed_drawer (closed_by : string) (now closing_count_aed expected : Z)
    (d : CashDrawerSession) : CashDrawerSession :=
  {| ds_id := ds_id d; ds_restaurant_id := ds_restaurant_id d; ds_opened_by := ds_opened_by d;
     ds_staff_id := ds_staff_id d; ds_opened_at := ds_opened_at d;
     ds_opening_float_aed := ds_opening_float_aed d; ds_closed_by := Some closed_by;
     ds_closed_at := Some now; ds_closing_count_aed := Some closing_count_aed;
     ds_variance_aed := Some (closing_count_aed - expected); ds_status := DClosed |}.
Definition close_session (session_id restaurant_id : Z) (closed_by : string) (closing_count_aed : Z)
    : DM CashDrawerSession :=
  drawer ← the_drawer session_id restaurant_id;
  events ← gets drawer_events;
  now ← gets drawer_now;
  let row := closed_drawer closed_by now closing_count_aed (expected_cash drawer events) drawer in
  modify (λ s, with_drawers (set_row row (drawers s)) s) ≫= λ _, mret row.

(** ** One open drawer per branch *)

Inductive drawer_call :=
| OpenDrawer (rid : Z) (by_ : string) (float_ : Z) (staff : option Z)
| DrawerCash (id rid : Z) (type : string) (amount : Z) (reason : option string) (by_ : string)
| CloseDrawer (id rid : Z) (by_ : string) (count_ : Z)
| DrawerClock (dt : Z).
Definition drawer_after (c : drawer_call) (s : drawer_db) : drawer_db :=
  match c with
  | OpenDrawer rid by_ float_ staff => final (open_session rid by_ float_ staff s)
  | DrawerCash id rid type amount reason by_ => final (add_event id rid type amount reason by_ s)
  | CloseDrawer id rid by_ count_ => final (close_session id rid by_ count_ s)
  | DrawerClock dt => Build_drawer_db (drawers s) (drawer_events s) (drawer_now s + dt)
  end.
Definition drawer_run (l : list drawer_call) (s : drawer_db) : drawer_db :=
  fold_left (λ s c, drawer_after c s) l s.
Definition no_drawers : drawer_db := Build_drawer_db empty_table empty_table 0.

(** Closed sessions carry their count and variance; branches have one open session. *)
Record drawer_inv (s : drawer_db) : Prop := {
  di_drawers : table_wf (drawers s);
  di_one_open : ∀ d1 d2, d1 ∈ rows (drawers s) → d2 ∈ rows (drawers s) →
    ds_status d1 = DOpen → ds_status d2 = DOpen → ds_restaurant_id d1 = ds_restaurant_id d2 → d1 = d2;
  di_counted : ∀ d, d ∈ rows (drawers s) →
    (ds_status d = DClosed ↔ is_Some (ds_variance_aed d)) ∧ (ds_status d = DClosed ↔ is_Some (ds_closing_count_aed d));
}.

Lemma open_in_spec rid d : open_in rid d = true ↔ ds_restaurant_id d = rid ∧ ds_status d = DOpen.
Proof. unfold open_in. by rewrite andb_true_iff, Z.eqb_eq, bool_decide_eq_true. Qed.

Lemma the_drawer_run id rid s :
  (∃ d, the_drawer id rid s = Ok d s ∧ d ∈ rows (drawers s) ∧ ds_id d = id ∧ ds_restaurant_id d = rid) ∨
  the_drawer id rid s = Err (DrawerNotFoundError id) s.
Proof.
  unfold the_drawer, mbind, M_bind, gets. destruct (get_row id (drawers s)) as [d|] eqn:Hg; [|by right].
  apply get_row_Some in Hg as [Hin Hid]. destruct (Z.eqb_spec (ds_restaurant_id d) rid); [left; eauto|by right].
Qed.

Lemma drawer_open_inv rid by_ float_ staff s :
  drawer_inv s → drawer_inv (final (open_session rid by_ float_ staff s)).
Proof.
  intros Hinv. unfold open_session, get_current_session, mbind, M_bind, gets.
  destruct (first_where (open_in rid) (drawers s)) as [d|] eqn:Hf; [exact Hinv|]. destruct Hinv as [Hw Ho Hc].
  rewrite first_where_None in Hf.
  assert (∀ d, d ∈ rows (drawers s) → ds_status d = DOpen → ds_restaurant_id d ≠ rid) as Hnone.
  { intros d Hd Hst Hr. specialize (Hf d Hd). assert (open_in rid d = true) by by apply open_in_spec. congruence. }
  cbn. split; cbn [drawers with_drawers]; [by apply add_row_wf| |].
  - intros d1 d2. rewrite !elem_of_add_row. intros [H1| ->] [H2| ->] S1 S2 Hr; [by apply Ho| | |done].
    + by destruct (Hnone d1 H1 S1).
    + by destruct (Hnone d2 H2 S2).
  - intros d. rewrite elem_of_add_row. intros [Hd| ->]; [by apply Hc|]. cbn.
    split; (split; [done|intros [? [=]]]).
Qed.

Lemma drawer_close_inv id rid by_ count_ s :
  drawer_inv s → drawer_inv (final (close_session id rid by_ count_ s)).
Proof.
  intros Hinv. unfold close_session.
  destruct (the_drawer_run id rid s) as [(d & Hrun & Hin & Hid & Hr)|Hrun];
    [|by rewrite (bind_run_Err _ _ _ _ _ Hrun)].
  rewrite (bind_run_Ok _ _ _ _ _ Hrun). destruct Hinv as [Hw Ho Hc]. cbn.
  split; cbn [drawers with_drawers]; [by apply set_row_wf| |].
  - intros d1 d2 [[-> _]|[H1 _]]%elem_of_set_row [[-> _]|[H2 _]]%elem_of_set_row; try done. by apply Ho.
  - intros d1 [[-> _]|[H1 _]]%elem_of_set_row; [|by apply Hc]. cbn. split; (split; [by eexists|done]).
Qed.

Lemma drawer_run_inv l s : drawer_inv s → drawer_inv (drawer_run l s).
Proof.
  revert s. induction l as [|c l IH]; intros s Hs; [done|]. cbn. apply IH. destruct c; cbn.
  - by apply drawer_open_inv.
  - unfold add_event. destruct (the_drawer_run id rid s) as [(d & Hrun & _)|Hrun];
      [rewrite (bind_run_Ok _ _ _ _ _ Hrun)|rewrite (bind_run_Err _ _ _ _ _ Hrun)]; destruct Hs; by split.
  - by apply drawer_close_inv.
  - destruct Hs; by split.
Qed.

(** Drawers of a branch: after any calls, a branch has at most one open session,
    opening another is refused with nothing written, and closing a session of the
    branch always succeeds, records as its variance the count less the float and the
    cash put in plus the cash taken out, and lets the branch open the next. *)
Theorem drawer_sessions l id rid by_ count_ d :
  let s := drawer_run l no_drawers in
  d ∈ rows (drawers s) → ds_id d = id → ds_restaurant_id d = rid → ds_status d = DOpen →
  (∀ d', d' ∈ rows (drawers s) → ds_restaurant_id d' = rid → ds_status d' = DOpen → d' = d) ∧
  (∀ who float_ staff, open_session rid who float_ staff s = Err (DrawerAlreadyOpenError rid) s) ∧
  ∃ d' s', close_session id rid by_ count_ s = Ok d' s' ∧
    ds_variance_aed d' = Some (count_ - (ds_opening_float_aed d
      + moved id "cash_in" (drawer_events s) - moved id "cash_out" (drawer_events s))) ∧
    ∀ who float_ staff, is_ok (open_session rid who float_ staff s') = true.
Proof.
  intros s Hin Hid Hr Hst. assert (drawer_inv s) as Hinv.
  { apply drawer_run_inv. split; cbn; [apply empty_table_wf|intros ? ? H; by apply not_elem_of_nil in H..|
      intros ? H; by apply not_elem_of_nil in H]. }
  pose proof (drawer_close_inv id rid by_ count_ s Hinv) as Hinv'. destruct Hinv as [Hw Ho Hc].
  assert (∀ d', d' ∈ rows (drawers s) → ds_restaurant_id d' = rid → ds_status d' = DOpen → d' = d) as Hone.
  { intros d' Hd' Hr' Hst'. apply Ho; congruence. }
  split; [done|]. split.
  - intros who float_ staff. unfold open_session, get_current_session, mbind, M_bind, gets.
    rewrite (first_where_unique (open_in rid) (drawers s) d); [done|done|by apply open_in_spec|].
    intros d' Hd' [? ?]%open_in_spec. by apply Hone.
  - assert (the_drawer id rid s = Ok d s) as Hrun.
    { unfold the_drawer, mbind, M_bind, gets. rewrite <-Hid. change (ds_id d) with (row_id d).
      by rewrite (get_row_wf _ _ Hw Hin), Hr, Z.eqb_refl. }
    unfold close_session in *. rewrite (bind_run_Ok _ _ _ _ _ Hrun) in *. eexists _, _. split; [reflexivity|].
    split; [cbn; unfold expected_cash; by rewrite Hid|].
    intros who float_ staff. unfold open_session, get_current_session, mbind, M_bind, gets. cbn.
    destruct (first_where (open_in rid) _) as [d'|] eqn:Hf; [exfalso|done].
    apply first_where_Some in Hf as [Hd' [Hr' Hst']%open_in_spec].
    apply elem_of_set_row in Hd' as [[-> _]|[Hd' Hne]]; [done|].
    apply Hne. by rewrite (Hone d' Hd' Hr' Hst').
Qed.

Definition drawer_day : list drawer_call :=
  [OpenDrawer 1 "mgr" 20000 None; DrawerCash 1 1 "cash_in" 5000 None "mgr"; DrawerCash 1 1 "cash_out" 1250 None "mgr"].

Example drawer_sessions_witness :
  ∃ d' s', close_session 1 1 "mgr" 23700 (drawer_run drawer_day no_drawers) = Ok d' s' ∧
    ds_variance_aed d' = Some (-50).
Proof.
  destruct (rows (drawers (drawer_run drawer_day no_drawers))) as [|d l] eqn:Hrows; [vm_compute in Hrows; discriminate|].
  assert (d ∈ rows (drawers (drawer_run drawer_day no_drawers))) as Hin by (rewrite Hrows; left).
  assert (ds_id d = 1 ∧ ds_restaurant_id d = 1 ∧ ds_status d = DOpen ∧ ds_opening_float_aed d = 20000)
    as (H1 & H2 & H3 & H4) by (vm_compute in Hrows; injection Hrows as <- _; repeat split).
  destruct (proj2 (proj2 (drawer_sessions drawer_day 1 1 "mgr" 23700 d Hin H1 H2 H3)))
    as (d' & s' & Hrun & Hv & _).
  exists d', s'. split; [exact Hrun|]. rewrite Hv, H4. vm_compute. reflexivity.
Defined.

(** A closed drawer still takes cash: the event is recorded against the closed
    session, whose variance stays what it was. *)
Theorem closed_drawer_takes_cash :
  let s := drawer_run (drawer_day ++ [CloseDrawer 1 1 "mgr" 23750; DrawerCash 1 1 "cash_out" 9000 None "mgr"]) no_drawers in
  map (λ d, (ds_status d, ds_variance_aed d)) (rows (drawers s)) = [(DClosed, Some 0)] ∧
  moved 1 "cash_out" (drawer_events s) = 10250.
Proof. vm_compute. by split. Qed.
