(* ===== verification/Cod.v ===== *)
(** * Cash on delivery ([app.cod])

    One collection per delivered order, and the end-of-shift reconciliation of a
    rider's cash against what the delivered orders were due ([cod_due_aed] of
    [OrderPayments]).  Dates are UTC. *)

From S2P Require Import Prelude Money Db Clock OrderFsm OrderPayments.

(** ** Data *)

Record CodCollection := {
  cc_id : Z;
  cc_order_id : Z;
  cc_rider_id : Z;
  cc_restaurant_id : Z;
  cc_amount_aed : Z;
  cc_collected_at : Z;
}.
#[global] Instance CodCollection_row : Row CodCollection := cc_id.

Inductive reconciliation_status := Balanced | Variance.
#[global] Instance reconciliation_status_eq_dec : EqDecision reconciliation_status.
Proof. solve_decision. Defined.
Record RiderShiftReconciliation := {
  rs_id : Z;
  rs_rider_id : Z;
  rs_restaurant_id : Z;
  rs_shift_date : Z;
  rs_expected_total_aed : Z;
  rs_collected_total_aed : Z;
  rs_variance_aed : Z;
  rs_status : reconciliation_status;
}.
#[global] Instance RiderShiftReconciliation_row : Row RiderShiftReconciliation := rs_id.

(** A delivered order: its money, its status, who rode it and when it arrived. *)
Record RiddenOrder := {
  ro_bill : OrderPayments.Order;
  ro_status : OrderStatus;
  ro_rider_id : option Z;
  ro_delivered_at : option Z;
}.
#[global] Instance RiddenOrder_row : Row RiddenOrder := λ o, po_id (ro_bill o).

Record cod_db := {
  cod_orders : table RiddenOrder;
  collections : table CodCollection;
  reconciliations : table RiderShiftReconciliation;
  cod_now : Z;
}.
Definition with_collections (t : table CodCollection) (s : cod_db) : cod_db :=
  Build_cod_db (cod_orders s) t (reconciliations s) (cod_now s).
Definition with_reconciliations (t : table RiderShiftReconciliation) (s : cod_db) : cod_db :=
  Build_cod_db (cod_orders s) (collections s) t (cod_now s).

(** Nothing in the service raises. *)
Abbreviation KM := (M cod_db Empty_set).

(** ** Operations *)

Definition record_collection (restaurant_id order_id rider_id amount : Z) (collected_at : option Z)
    : KM CodCollection :=
  existing ← gets (λ s, first_where (λ c, cc_order_id c =? order_id) (collections s));
  match existing with
  | Some c => mret c
  | None =>
      now ← gets cod_now;
      t ← gets collections;
      let row := {| cc_id := next_id t; cc_order_id := order_id; cc_rider_id := rider_id;
        cc_restaurant_id := restaurant_id; cc_amount_aed := amount;
        cc_collected_at := default now collected_at |} in
      modify (with_collections (add_row row t)) ≫= λ _, mret row
  end.

(** The orders delivered, and the cash recorded, by a rider on a date. *)
Definition shift_order (restaurant_id rider_id shift_date : Z) (o : RiddenOrder) : bool :=
  (po_restaurant_id (ro_bill o) =? restaurant_id) && bool_decide (ro_rider_id o = Some rider_id)
  && bool_decide (ro_status o = DELIVERED)
  && match ro_delivered_at o with Some t => date_of t =? shift_date | None => false end.
Definition shift_collection (restaurant_id rider_id shift_date : Z) (c : CodCollection) : bool :=
  (cc_restaurant_id c =? restaurant_id) && (cc_rider_id c =? rider_id)
  && (date_of (cc_collected_at c) =? shift_date).

Definition shift_due (l : list RiddenOrder) : Z := zsum (λ o, cod_due_aed (ro_bill o)) l.

Definition reconcile_shift (restaurant_id rider_id shift_date : Z) (declared_collected_aed : option Q)
    : KM RiderShiftReconciliation :=
  orders ← gets (λ s, all_where (shift_order restaurant_id rider_id shift_date) (cod_orders s));
  ledger_collected ← gets (λ s, sum_where (shift_collection restaurant_id rider_id shift_date)
                                  cc_amount_aed (collections s));
  let collected := match declared_collected_aed with Some q => quantize q | None => ledger_collected end in
  let expected :=
    match orders, declared_collected_aed with
    | [], None => ledger_collected
    | _, _ => shift_due orders
    end in
  let variance := collected - expected in
  t ← gets reconciliations;
  let rec_ := {| rs_id := next_id t; rs_rider_id := rider_id; rs_restaurant_id := restaurant_id;
    rs_shift_date := shift_date; rs_expected_total_aed := expected; rs_collected_total_aed := collected;
    rs_variance_aed := variance; rs_status := if variance =? 0 then Balanced else Variance |} in
  modify (with_reconciliations (add_row rec_ t)) ≫= λ _, mret rec_.

(** ** One collection per order *)

Inductive cod_call :=
| Collect (rid oid rider amount : Z) (at_ : option Z)
| Reconcile (rid rider date : Z) (declared : option Q)
| CodClock (dt : Z)
| CodOrders (t : table RiddenOrder).
Definition cod_after (c : cod_call) (s : cod_db) : cod_db :=
  match c with
  | Collect rid oid rider amount at_ => final (record_collection rid oid rider amount at_ s)
  | Reconcile rid rider date declared => final (reconcile_shift rid rider date declared s)
  | CodClock dt => Build_cod_db (cod_orders s) (collections s) (reconciliations s) (cod_now s + dt)
  | CodOrders t => Build_cod_db t (collections s) (reconciliations s) (cod_now s)
  end.
Definition cod_run (l : list cod_call) (s : cod_db) : cod_db := fold_left (λ s c, cod_after c s) l s.
Definition no_cash : cod_db := Build_cod_db empty_table empty_table empty_table 0.

Lemma collect_cases rid oid rider amount at_ s :
  (∃ c, record_collection rid oid rider amount at_ s = Ok c s ∧ c ∈ rows (collections s) ∧ cc_order_id c = oid) ∨
  (∃ c, record_collection rid oid rider amount at_ s = Ok c (with_collections (add_row c (collections s)) s) ∧
    cc_order_id c = oid ∧ cc_amount_aed c = amount ∧ cc_rider_id c = rider ∧ cc_restaurant_id c = rid ∧
    ∀ c', c' ∈ rows (collections s) → cc_order_id c' ≠ oid).
Proof.
  unfold record_collection, mbind, M_bind, gets.
  destruct (first_where _ _) as [c|] eqn:Hf; [left|right].
  - apply first_where_Some in Hf as [Hin Hc]. zbool. eauto.
  - eexists. split; [reflexivity|]. cbn. split_and!; try done.
    intros c' Hc'. rewrite first_where_None in Hf. specialize (Hf c' Hc'). by zbool.
Qed.

Lemma cod_run_unique l s :
  unique_on cc_order_id (collections s) → unique_on cc_order_id (collections (cod_run l s)).
Proof.
  revert s. induction l as [|c l IH]; intros s Hs; [done|]. cbn. apply IH. destruct c; [|exact Hs..].
  cbn. destruct (collect_cases rid oid rider amount at_ s) as [(c & -> & _)|(c & -> & Hc & _ & _ & _ & Hf)];
    [exact Hs|]. cbn. apply add_row_unique; [done|]. intros c' Hc'. rewrite Hc. by apply Hf.
Qed.

(** A retried "Delivered" never collects twice: over any history an order has at
    most one collection, recording it again returns that collection whatever the new
    amount and writes nothing, and the first recording adds exactly the amount. *)
Theorem collected_once l rid oid rider amount at_ :
  let s := cod_run l no_cash in
  (∀ c1 c2, c1 ∈ rows (collections s) → c2 ∈ rows (collections s) →
     cc_order_id c1 = oid → cc_order_id c2 = oid → c1 = c2) ∧
  (∀ c, c ∈ rows (collections s) → cc_order_id c = oid →
     record_collection rid oid rider amount at_ s = Ok c s) ∧
  ((∀ c, c ∈ rows (collections s) → cc_order_id c ≠ oid) →
     ∃ c, record_collection rid oid rider amount at_ s = Ok c (with_collections (add_row c (collections s)) s) ∧
       cc_order_id c = oid ∧ cc_amount_aed c = amount ∧ cc_rider_id c = rider).
Proof.
  intros s. assert (unique_on cc_order_id (collections s)) as Hu.
  { apply cod_run_unique. intros r1 r2 Hr. by apply not_elem_of_nil in Hr. }
  split; [intros c1 c2 H1 H2 E1 E2; apply Hu; congruence|]. split.
  - intros c Hc Hoid. destruct (collect_cases rid oid rider amount at_ s)
      as [(c' & -> & Hc' & Ho)|(c' & _ & _ & _ & _ & _ & Hf)]; [|by destruct (Hf c Hc)].
    by rewrite (Hu c' c Hc' Hc) by congruence.
  - intros Hnone. destruct (collect_cases rid oid rider amount at_ s)
      as [(c' & _ & Hc' & Ho)|(c' & Hrun & Ho & Ha & Hr & _)]; [by destruct (Hnone c' Hc')|].
    exists c'. by split_and!.
Qed.

(** ** Reconciliation *)

(** The reconciliation of a shift always succeeds and adds one row: its variance
    is the cash less what the delivered orders were due and its status is balanced
    exactly when that is zero.  When the shift's recorded collections are those of
    its delivered orders, each at what it was due, the shift balances; a declared
    count balances exactly when it is that total. *)
Theorem reconciliation_balances rid rider date declared s :
  ∃ r, reconcile_shift rid rider date declared s =
         Ok r (with_reconciliations (add_row r (reconciliations s)) s) ∧
    rs_variance_aed r = rs_collected_total_aed r - rs_expected_total_aed r ∧
    (rs_status r = Balanced ↔ rs_variance_aed r = 0) ∧
    ((λ c, (cc_order_id c, cc_amount_aed c)) <$> all_where (shift_collection rid rider date) (collections s) ≡ₚ
       (λ o, (po_id (ro_bill o), cod_due_aed (ro_bill o))) <$> all_where (shift_order rid rider date) (cod_orders s) →
     match declared with
     | None => rs_status r = Balanced
     | Some q => rs_status r = Balanced ↔ quantize q = sum_where (shift_collection rid rider date) cc_amount_aed (collections s)
     end).
Proof.
  unfold reconcile_shift, gets, modify, mret, M_ret, mbind, M_bind. cbv beta zeta. eexists. split; [reflexivity|]. cbn. split; [done|].
  split; [destruct (_ =? 0) eqn:Hz; zbool; split; done|].
  intros Hperm. apply (zsum_Permutation snd) in Hperm. rewrite !zsum_fmap in Hperm. cbn in Hperm.
  assert (sum_where (shift_collection rid rider date) cc_amount_aed (collections s) =
    shift_due (all_where (shift_order rid rider date) (cod_orders s))) as -> by (rewrite sum_where_all; exact Hperm).
  set (l := all_where (shift_order rid rider date) (cod_orders s)).
  destruct declared as [q|].
  - assert (match l with [] => shift_due l | _ :: _ => shift_due l end = shift_due l) as -> by (by destruct l).
    destruct (Z.eqb_spec (quantize q - shift_due l) 0); split; intros; try done; lia.
  - destruct l; by rewrite Z.sub_diag.
Qed.

(** A shift of two orders, AED 40 and AED 25 of which 5 came from the wallet. *)
Definition ridden (id total wallet : Z) : RiddenOrder :=
  {| ro_bill := Bill id 1 7 total 0 total 0 0 0 0 0 None 0 wallet; ro_status := DELIVERED;
     ro_rider_id := Some 3; ro_delivered_at := Some (hours 20) |}.
Definition shift : cod_db :=
  cod_run [CodOrders (Table [ridden 1 4000 0; ridden 2 2500 500] 3); CodClock (hours 20);
           Collect 1 2 3 2000 None; Collect 1 1 3 4000 None; Collect 1 2 3 9900 None] no_cash.

Example collected_once_witness :
  ∃ c, record_collection 1 2 3 9900 None shift = Ok c shift ∧ cc_amount_aed c = 2000.
Proof.
  destruct (rows (collections shift)) as [|c l] eqn:Hrows; [vm_compute in Hrows; discriminate|].
  exists c. assert (c ∈ rows (collections shift)) as Hin by (rewrite Hrows; left).
  assert (cc_order_id c = 2 ∧ cc_amount_aed c = 2000) as [Ho Ha]
    by (vm_compute in Hrows; injection Hrows as <- _; split; reflexivity).
  split; [|exact Ha]. unfold shift in Hin |- *.
  apply (proj1 (proj2 (collected_once _ 1 2 3 9900 None)) c Hin Ho).
Defined.

Example reconciliation_balances_witness :
  ∃ r s', reconcile_shift 1 3 0 None shift = Ok r s' ∧ rs_status r = Balanced.
Proof.
  destruct (reconciliation_balances 1 3 0 None shift) as (r & Hrun & _ & _ & Hb).
  eexists r, _. split; [exact Hrun|]. apply Hb. vm_compute. apply Permutation_swap.
Defined.
