(* ===== verification/Floats.v ===== *)
(** * Python floats: the binary64 of the Standard Library's [SpecFloat]

    Arithmetic, comparisons, [int(x)], the conversion of a [Decimal] (the nearest
    float, ties to even) and the formatting of a float with [k] decimals, which
    rounds its exact value half to even. *)

From Stdlib Require Import SpecFloat.
From S2P Require Import Prelude Money.

Definition float := spec_float.
Definition fadd : float → float → float := SFadd 53 1024.
Definition fsub : float → float → float := SFsub 53 1024.
Definition fmul : float → float → float := SFmul 53 1024.
Definition fdiv : float → float → float := SFdiv 53 1024.
(** [float(n)], exact below [2 ^ 53]. *)
Definition fint (n : Z) : float := binary_normalize 53 1024 n 0 false.
Notation "x <f y" := (SFltb x y) (at level 70) : pos_scope.
Notation "x <=f y" := (SFleb x y) (at level 70) : pos_scope.
Definition fzero : float := S754_zero false.
(** [min(x, y)] and [max(x, y)]: the first argument unless the second is beyond it. *)
Definition fmin (x y : float) : float := if y <f x then y else x.
Definition fmax (x y : float) : float := if x <f y then y else x.
(** [int(x)]; [None]: it raises. *)
Definition ftrunc (x : float) : option Z :=
  match x with
  | S754_zero _ => Some 0
  | S754_finite s m e =>
      let n := if 0 <=? e then Z.pos m * 2 ^ e else Z.pos m / 2 ^ (- e) in
      Some (if s then - n else n)
  | _ => None
  end.

(** [float(d)] of a Decimal. *)
Definition float_of_Q (x : Q) : float :=
  match Qnum x with
  | Z0 => fzero
  | Zpos n => SFdiv 53 1024 (S754_finite false n 0) (S754_finite false (Qden x) 0)
  | Zneg n => SFdiv 53 1024 (S754_finite true n 0) (S754_finite false (Qden x) 0)
  end.
(** [timedelta.total_seconds()] of a number of microseconds. *)
Definition total_seconds (us : Z) : float := float_of_Q (us # 1000000).
(** The exact value of a finite float. *)
Definition Q_of_float (x : float) : Q :=
  match x with
  | S754_finite s m e =>
      let n := if s then Zneg m else Zpos m in
      if 0 <=? e then inject_Z (n * 2 ^ e) else n # Z.to_pos (2 ^ (- e))
  | _ => 0%Q
  end.
(** [f"{x:.1f}"] of a finite float. *)
Definition fmt1 (x : float) : string :=
  let n := quantize_to 10 (Q_of_float x) in
  (match x with S754_finite true _ _ | S754_zero true => "-" | _ => "" end) +:+ pretty (Z.abs n / 10) +:+ "." +:+ pretty (Z.abs n mod 10).

Example float_of_tenth : float_of_Q (1 # 10) = S754_finite false 7205759403792794 (-56).
Proof. reflexivity. Qed.
Example fmt1_exact : fmt1 (float_of_Q (100 # 3)) = "33.3".
Proof. reflexivity. Qed.
