(* ===== verification/InventoryDb.v ===== *)
(** * Stock: the data of [app.inventory]

    Ingredients, their dated batches and recipes, and the logs the stock operations
    write; the tables of purchasing; one session with the outbound queue.  A quantity
    is a free decimal: a column holds what was assigned to it until it is reloaded,
    and a query compares the stored value, rounded to thousandths ([stored_qty]).
    Sums and products are exact; the code's decimal context rounds one with a
    28-digit quotient at its 28th digit. *)

From S2P Require Import Prelude Money Strings Db AuditTrail Clock Floats Outbox.

Record Ingredient := {
  ing_id : Z;
  ing_restaurant_id : Z;
  ing_name : string;
  ing_unit : string;
  current_stock : Q;
  low_stock_threshold : Q;
  par_level : Q;
  cost_per_unit_aed : Q;
  count_variance_threshold_pct : option Q;
}.
#[global] Instance Ingredient_row : Row Ingredient := ing_id.
Definition with_stock (q : Q) (i : Ingredient) : Ingredient :=
  {| ing_id := ing_id i; ing_restaurant_id := ing_restaurant_id i; ing_name := ing_name i;
     ing_unit := ing_unit i; current_stock := q; low_stock_threshold := low_stock_threshold i;
     par_level := par_level i; cost_per_unit_aed := cost_per_unit_aed i;
     count_variance_threshold_pct := count_variance_threshold_pct i |}.
Definition with_cost (c : Q) (i : Ingredient) : Ingredient :=
  {| ing_id := ing_id i; ing_restaurant_id := ing_restaurant_id i; ing_name := ing_name i;
     ing_unit := ing_unit i; current_stock := current_stock i;
     low_stock_threshold := low_stock_threshold i; par_level := par_level i; cost_per_unit_aed := c;
     count_variance_threshold_pct := count_variance_threshold_pct i |}.

Record IngredientBatch := {
  ib_id : Z;
  ib_restaurant_id : Z;
  ib_ingredient_id : Z;
  ib_qty : Q;
  ib_qty_remaining : Q;
  ib_expiry_date : Z;
  ib_received_at : Z;
  ib_location_id : option Z;
}.
#[global] Instance IngredientBatch_row : Row IngredientBatch := ib_id.
#[global] Instance Q_eq_dec : EqDecision Q.
Proof. solve_decision. Defined.
#[global] Instance IngredientBatch_eq_dec : EqDecision IngredientBatch.
Proof. solve_decision. Defined.
Definition with_remaining (q : Q) (b : IngredientBatch) : IngredientBatch :=
  {| ib_id := ib_id b; ib_restaurant_id := ib_restaurant_id b; ib_ingredient_id := ib_ingredient_id b;
     ib_qty := ib_qty b; ib_qty_remaining := q; ib_expiry_date := ib_expiry_date b;
     ib_received_at := ib_received_at b; ib_location_id := ib_location_id b |}.

Record IngredientSubstitute := {
  su_id : Z;
  su_restaurant_id : Z;
  su_ingredient_id : Z;
  substitute_ingredient_id : Z;
  su_notes : option string;
  conversion_factor : Q;
  su_priority : Z;
}.
#[global] Instance IngredientSubstitute_row : Row IngredientSubstitute := su_id.

Record DishIngredient := {
  di_id : Z;
  di_dish_id : Z;
  di_ingredient_id : Z;
  quantity_per_dish : Q;
  yield_pct : Q;
}.
#[global] Instance DishIngredient_row : Row DishIngredient := di_id.

(** A line of an order, an order and a dish, as far as the stock reads them. *)
Record StockedItem := { si_id : Z; si_order_id : Z; si_dish_id : Z; si_qty : Z; si_cancelled : bool }.
#[global] Instance StockedItem_row : Row StockedItem := si_id.
Record StockedOrder := { sk_id : Z; sk_restaurant_id : Z; sk_status : string; sk_total : Z; sk_created_at : Z }.
#[global] Instance StockedOrder_row : Row StockedOrder := sk_id.
Record StockedDish := {
  sd_id : Z;
  sd_restaurant_id : Z;
  is_available : bool;
  stock_remaining : option Z;
  auto_hide_when_oos : bool;
}.
#[global] Instance StockedDish_row : Row StockedDish := sd_id.

Record WasteLog := {
  wl_id : Z;
  wl_restaurant_id : Z;
  wl_ingredient_id : Z;
  wl_quantity : Q;
  wl_reason : option string;
  wl_reason_type : string;
  wl_recorded_by : string;
  wl_batch_id : option Z;
}.
#[global] Instance WasteLog_row : Row WasteLog := wl_id.

Record StockCountLog := {
  cl_id : Z;
  cl_restaurant_id : Z;
  cl_ingredient_id : Z;
  cl_previous_stock : Q;
  cl_counted_stock : Q;
  cl_variance : Q;
  cl_counted_by : string;
  cl_reason_code : option string;
  cl_reason : option string;
  cl_variance_value_aed : Z;
}.
#[global] Instance StockCountLog_row : Row StockCountLog := cl_id.

Record StockClosingSnapshot := {
  cs_id : Z;
  cs_restaurant_id : Z;
  cs_ingredient_id : Z;
  cs_closing_date : Z;
  cs_closing_stock : Q;
  cs_unit : string;
  cs_valuation_aed : Z;
}.
#[global] Instance StockClosingSnapshot_row : Row StockClosingSnapshot := cs_id.

Record StockAnomalyAlert := {
  an_id : Z;
  an_restaurant_id : Z;
  an_ingredient_id : Z;
  an_alert_type : string;
  an_expected_qty : Q;
  an_actual_qty : Q;
  an_variance_pct : Z;  (** hundredths *)
  an_status : string;
  an_message : option string;
}.
#[global] Instance StockAnomalyAlert_row : Row StockAnomalyAlert := an_id.

Inductive adjustment_status := APending | AApproved | ARejected.
#[global] Instance adjustment_status_eq_dec : EqDecision adjustment_status.
Proof. solve_decision. Defined.
Record StockAdjustmentRequest := {
  ad_id : Z;
  ad_restaurant_id : Z;
  ad_ingredient_id : Z;
  ad_requested_qty : Q;
  ad_previous_qty_snapshot : Q;
  ad_reason : option string;
  ad_status : adjustment_status;
  ad_requested_by : string;
  ad_approved_by : option string;
  ad_decided_at : option Z;
}.
#[global] Instance StockAdjustmentRequest_row : Row StockAdjustmentRequest := ad_id.

Record StockLocation := {
  sl_id : Z; sl_restaurant_id : Z; sl_name : string; sl_code : string; sl_kitchen_role : string;
}.
#[global] Instance StockLocation_row : Row StockLocation := sl_id.

(** ** Purchasing *)

Record Vendor := {
  ve_id : Z;
  ve_restaurant_id : Z;
  ve_name : string;
  ve_phone : option string;
  ve_email : option string;
  ve_is_active : bool;
  ve_notes : option string;
}.
#[global] Instance Vendor_row : Row Vendor := ve_id.

Inductive po_status := PoDraft | PoOrdered | PoPartial | PoReceived | PoCancelled.
#[global] Instance po_status_eq_dec : EqDecision po_status.
Proof. solve_decision. Defined.
Record PurchaseOrder := {
  pu_id : Z; pu_restaurant_id : Z; pu_vendor_id : Z; pu_status : po_status; pu_notes : option string;
}.
#[global] Instance PurchaseOrder_row : Row PurchaseOrder := pu_id.
Definition with_po_status (st : po_status) (p : PurchaseOrder) : PurchaseOrder :=
  {| pu_id := pu_id p; pu_restaurant_id := pu_restaurant_id p; pu_vendor_id := pu_vendor_id p;
     pu_status := st; pu_notes := pu_notes p |}.

Record PurchaseOrderLine := {
  pl_id : Z;
  pl_po_id : Z;
  pl_ingredient_id : Z;
  qty_ordered : Q;
  qty_received : Q;
  pl_unit_cost_aed : Q;
}.
#[global] Instance PurchaseOrderLine_row : Row PurchaseOrderLine := pl_id.
Definition with_received (q : Q) (l : PurchaseOrderLine) : PurchaseOrderLine :=
  {| pl_id := pl_id l; pl_po_id := pl_po_id l; pl_ingredient_id := pl_ingredient_id l;
     qty_ordered := qty_ordered l; qty_received := q; pl_unit_cost_aed := pl_unit_cost_aed l |}.

Record GoodsReceivedNote := {
  gn_id : Z;
  gn_restaurant_id : Z;
  gn_po_id : Z;
  grn_number : string;
  gn_received_by : string;
  gn_notes : option string;
}.
#[global] Instance GoodsReceivedNote_row : Row GoodsReceivedNote := gn_id.
Record GoodsReceivedLine := {
  gl_id : Z;
  gl_grn_id : Z;
  gl_po_line_id : Z;
  gl_ingredient_id : Z;
  gl_qty_received : Q;
  gl_unit_cost_aed : Q;
  gl_expiry_date : option Z;
  gl_created_at : Z;
}.
#[global] Instance GoodsReceivedLine_row : Row GoodsReceivedLine := gl_id.

(** ** The session *)

Record inv_db := {
  ingredients : table Ingredient;
  batches : table IngredientBatch;
  substitutes : table IngredientSubstitute;
  recipes : table DishIngredient;
  inv_items : table StockedItem;
  inv_orders : table StockedOrder;
  inv_dishes : table StockedDish;
  waste_logs : table WasteLog;
  count_logs : table StockCountLog;
  snapshots : table StockClosingSnapshot;
  anomalies : table StockAnomalyAlert;
  adjustments : table StockAdjustmentRequest;
  locations : table StockLocation;
  vendors : table Vendor;
  purchase_orders : table PurchaseOrder;
  po_lines : table PurchaseOrderLine;
  grns : table GoodsReceivedNote;
  grn_lines : table GoodsReceivedLine;
  inv_audit : list audit_row;
  inv_outbox : outbox_db;
  inv_now : Z;
}.
Definition with_ingredients (t : table Ingredient) (s : inv_db) : inv_db :=
  Build_inv_db t (batches s) (substitutes s) (recipes s) (inv_items s) (inv_orders s) (inv_dishes s)
    (waste_logs s) (count_logs s) (snapshots s) (anomalies s) (adjustments s) (locations s) (vendors
    s) (purchase_orders s) (po_lines s) (grns s) (grn_lines s) (inv_audit s) (inv_outbox s) (inv_now
    s).
Definition with_batches (t : table IngredientBatch) (s : inv_db) : inv_db :=
  Build_inv_db (ingredients s) t (substitutes s) (recipes s) (inv_items s) (inv_orders s)
    (inv_dishes s) (waste_logs s) (count_logs s) (snapshots s) (anomalies s) (adjustments s)
    (locations s) (vendors s) (purchase_orders s) (po_lines s) (grns s) (grn_lines s) (inv_audit s)
    (inv_outbox s) (inv_now s).
Definition with_substitutes (t : table IngredientSubstitute) (s : inv_db) : inv_db :=
  Build_inv_db (ingredients s) (batches s) t (recipes s) (inv_items s) (inv_orders s) (inv_dishes s)
    (waste_logs s) (count_logs s) (snapshots s) (anomalies s) (adjustments s) (locations s) (vendors
    s) (purchase_orders s) (po_lines s) (grns s) (grn_lines s) (inv_audit s) (inv_outbox s) (inv_now
    s).
Definition with_waste_logs (t : table WasteLog) (s : inv_db) : inv_db :=
  Build_inv_db (ingredients s) (batches s) (substitutes s) (recipes s) (inv_items s) (inv_orders s)
    (inv_dishes s) t (count_logs s) (snapshots s) (anomalies s) (adjustments s) (locations s)
    (vendors s) (purchase_orders s) (po_lines s) (grns s) (grn_lines s) (inv_audit s) (inv_outbox s)
    (inv_now s).
Definition with_count_logs (t : table StockCountLog) (s : inv_db) : inv_db :=
  Build_inv_db (ingredients s) (batches s) (substitutes s) (recipes s) (inv_items s) (inv_orders s)
    (inv_dishes s) (waste_logs s) t (snapshots s) (anomalies s) (adjustments s) (locations s)
    (vendors s) (purchase_orders s) (po_lines s) (grns s) (grn_lines s) (inv_audit s) (inv_outbox s)
    (inv_now s).
Definition with_snapshots (t : table StockClosingSnapshot) (s : inv_db) : inv_db :=
  Build_inv_db (ingredients s) (batches s) (substitutes s) (recipes s) (inv_items s) (inv_orders s)
    (inv_dishes s) (waste_logs s) (count_logs s) t (anomalies s) (adjustments s) (locations s)
    (vendors s) (purchase_orders s) (po_lines s) (grns s) (grn_lines s) (inv_audit s) (inv_outbox s)
    (inv_now s).
Definition with_anomalies (t : table StockAnomalyAlert) (s : inv_db) : inv_db :=
  Build_inv_db (ingredients s) (batches s) (substitutes s) (recipes s) (inv_items s) (inv_orders s)
    (inv_dishes s) (waste_logs s) (count_logs s) (snapshots s) t (adjustments s) (locations s)
    (vendors s) (purchase_orders s) (po_lines s) (grns s) (grn_lines s) (inv_audit s) (inv_outbox s)
    (inv_now s).
Definition with_adjustments (t : table StockAdjustmentRequest) (s : inv_db) : inv_db :=
  Build_inv_db (ingredients s) (batches s) (substitutes s) (recipes s) (inv_items s) (inv_orders s)
    (inv_dishes s) (waste_logs s) (count_logs s) (snapshots s) (anomalies s) t (locations s)
    (vendors s) (purchase_orders s) (po_lines s) (grns s) (grn_lines s) (inv_audit s) (inv_outbox s)
    (inv_now s).
Definition with_locations (t : table StockLocation) (s : inv_db) : inv_db :=
  Build_inv_db (ingredients s) (batches s) (substitutes s) (recipes s) (inv_items s) (inv_orders s)
    (inv_dishes s) (waste_logs s) (count_logs s) (snapshots s) (anomalies s) (adjustments s) t
    (vendors s) (purchase_orders s) (po_lines s) (grns s) (grn_lines s) (inv_audit s) (inv_outbox s)
    (inv_now s).
Definition with_vendors (t : table Vendor) (s : inv_db) : inv_db :=
  Build_inv_db (ingredients s) (batches s) (substitutes s) (recipes s) (inv_items s) (inv_orders s)
    (inv_dishes s) (waste_logs s) (count_logs s) (snapshots s) (anomalies s) (adjustments s)
    (locations s) t (purchase_orders s) (po_lines s) (grns s) (grn_lines s) (inv_audit s)
    (inv_outbox s) (inv_now s).
Definition with_purchase_orders (t : table PurchaseOrder) (s : inv_db) : inv_db :=
  Build_inv_db (ingredients s) (batches s) (substitutes s) (recipes s) (inv_items s) (inv_orders s)
    (inv_dishes s) (waste_logs s) (count_logs s) (snapshots s) (anomalies s) (adjustments s)
    (locations s) (vendors s) t (po_lines s) (grns s) (grn_lines s) (inv_audit s) (inv_outbox s)
    (inv_now s).
Definition with_po_lines (t : table PurchaseOrderLine) (s : inv_db) : inv_db :=
  Build_inv_db (ingredients s) (batches s) (substitutes s) (recipes s) (inv_items s) (inv_orders s)
    (inv_dishes s) (waste_logs s) (count_logs s) (snapshots s) (anomalies s) (adjustments s)
    (locations s) (vendors s) (purchase_orders s) t (grns s) (grn_lines s) (inv_audit s) (inv_outbox
    s) (inv_now s).
Definition with_grns (t : table GoodsReceivedNote) (s : inv_db) : inv_db :=
  Build_inv_db (ingredients s) (batches s) (substitutes s) (recipes s) (inv_items s) (inv_orders s)
    (inv_dishes s) (waste_logs s) (count_logs s) (snapshots s) (anomalies s) (adjustments s)
    (locations s) (vendors s) (purchase_orders s) (po_lines s) t (grn_lines s) (inv_audit s)
    (inv_outbox s) (inv_now s).
Definition with_grn_lines (t : table GoodsReceivedLine) (s : inv_db) : inv_db :=
  Build_inv_db (ingredients s) (batches s) (substitutes s) (recipes s) (inv_items s) (inv_orders s)
    (inv_dishes s) (waste_logs s) (count_logs s) (snapshots s) (anomalies s) (adjustments s)
    (locations s) (vendors s) (purchase_orders s) (po_lines s) (grns s) t (inv_audit s) (inv_outbox
    s) (inv_now s).
Definition with_inv_dishes (t : table StockedDish) (s : inv_db) : inv_db :=
  Build_inv_db (ingredients s) (batches s) (substitutes s) (recipes s) (inv_items s) (inv_orders s)
    t (waste_logs s) (count_logs s) (snapshots s) (anomalies s) (adjustments s) (locations s)
    (vendors s) (purchase_orders s) (po_lines s) (grns s) (grn_lines s) (inv_audit s) (inv_outbox s)
    (inv_now s).
#[global] Instance inv_has_audit : HasAudit inv_db := {|
  audit_log := inv_audit;
  put_audit t s := Build_inv_db (ingredients s) (batches s) (substitutes s) (recipes s) (inv_items s)
    (inv_orders s) (inv_dishes s) (waste_logs s) (count_logs s) (snapshots s) (anomalies s)
    (adjustments s) (locations s) (vendors s) (purchase_orders s) (po_lines s) (grns s) (grn_lines
    s) t (inv_outbox s) (inv_now s)
|}.
#[global] Program Instance inv_outbox_lens : Lens inv_db outbox_db := {|
  view := inv_outbox;
  put t s := Build_inv_db (ingredients s) (batches s) (substitutes s) (recipes s) (inv_items s)
    (inv_orders s) (inv_dishes s) (waste_logs s) (count_logs s) (snapshots s) (anomalies s)
    (adjustments s) (locations s) (vendors s) (purchase_orders s) (po_lines s) (grns s) (grn_lines
    s) (inv_audit s) t (inv_now s);
|}.
Solve Obligations with by intros; try destruct s.

Inductive inv_error :=
| IngredientNotFound
| AdjustmentNotFound
| AdjustmentAlreadyDecided
| ManagerPhoneMissing
| VendorNotFound
| PurchaseOrderNotFound
| PurchaseOrderIsCancelled
| PoLineNotFound (line_id : Z)
| OverReceipt (qty remaining : Q)
| InvOutboxRaised (e : outbox_error).

Abbreviation IM := (M inv_db inv_error).

(** ** Decimals of quantities *)

Definition qzero (x : Q) : bool := Qnum x =? 0.
(** [min(x, y)]: the first unless the second is smaller. *)
Definition qmin (x y : Q) : Q := if y <q x then y else x.
(** [x.quantize(Decimal("0.001"))] *)
Definition quantize_qty (x : Q) : Q := quantize_to 1000 x # 1000.
(** What a NUMERIC(10, 3) column stores (PostgreSQL rounds ties away from zero). *)
Definition stored_qty (x : Q) : Z := div_half_up (Qnum x * 1000) (Zpos (Qden x)).
(** [str] of a quantity of thousandths, written with its three decimals. *)
Definition three_digits (n : Z) : string :=
  (if n <? 10 then "00" else if n <? 100 then "0" else "") +:+ pretty n.
Definition str_qty (x : Q) : string :=
  let n := quantize_to 1000 x in
  (if n <? 0 then "-" else "") +:+ pretty (Z.abs n / 1000) +:+ "." +:+ three_digits (Z.abs n mod 1000).

Example str_qty_negative : str_qty (-5 # 4) = "-1.250".
Proof. reflexivity. Qed.

Lemma qmin_l x y : (qmin x y <= x)%Q.
Proof. unfold qmin. destruct (y <q x) eqn:H; qbool; lra. Qed.
Lemma qmin_r x y : (qmin x y <= y)%Q.
Proof. unfold qmin. destruct (y <q x) eqn:H; qbool; lra. Qed.
Lemma qmin_cases x y : (qmin x y = x ∧ x <= y)%Q ∨ (qmin x y = y ∧ y < x)%Q.
Proof. unfold qmin. destruct (y <q x) eqn:H; qbool; [right|left]; split; done || lra. Qed.
#[export] Hint Resolve qmin_l qmin_r : pos.
