(* ===== verification/Inventory.v ===== *)
(** * Stock operations ([inventory/service.py])

    Consumption for an order (recipes, yields, first-expired-first-out batches,
    substitutes), waste, counts, batches, closing snapshots, adjustments and the
    low-stock alert. *)

From S2P Require Import Prelude Money Strings Db AuditTrail Clock Floats Outbox InventoryDb.

Definition update_ingredient (i : Ingredient) : IM unit :=
  modify (λ s, with_ingredients (set_row i (ingredients s)) s).
Definition update_batch (b : IngredientBatch) : IM unit :=
  modify (λ s, with_batches (set_row b (batches s)) s).

(** ** First expired, first out *)

(** [ORDER BY expiry_date, id] *)
Definition expires_before (a b : IngredientBatch) : bool :=
  (ib_expiry_date a <? ib_expiry_date b) ||
  ((ib_expiry_date a =? ib_expiry_date b) && (ib_id a <=? ib_id b)).
Definition open_batch (restaurant_id ingredient_id : Z) (b : IngredientBatch) : bool :=
  (ib_restaurant_id b =? restaurant_id) && (ib_ingredient_id b =? ingredient_id) &&
  (0 <? stored_qty (ib_qty_remaining b)).

Fixpoint consume_batches (l : list IngredientBatch) (remaining : Q) : IM Q :=
  match l with
  | [] => mret remaining
  | b :: l' =>
      if remaining <=q 0 then mret remaining else
      let take := qmin (ib_qty_remaining b) remaining in
      update_batch (with_remaining (ib_qty_remaining b - take) b) ≫= λ _,
      consume_batches l' (remaining - take)
  end.

Definition _deduct_fefo_batches (restaurant_id ingredient_id : Z) (qty : Q) : IM Q :=
  l ← gets (λ s, sort_by expires_before (all_where (open_batch restaurant_id ingredient_id) (batches s)));
  consume_batches l qty.

(** ** Substitutes *)

Definition substitute_before (a b : IngredientSubstitute) : bool :=
  (su_priority a <? su_priority b) || ((su_priority a =? su_priority b) && (su_id a <=? su_id b)).

(** One substitute; the [ingredients_by_id] cache and [session.get] give the same row. *)
Definition apply_substitute (restaurant_id : Z) (sub : IngredientSubstitute) (still : Q) : IM Q :=
  alt ← gets (λ s, get_row (substitute_ingredient_id sub) (ingredients s));
  match alt with
  | None => mret still
  | Some alt =>
      if current_stock alt <=q 0 then mret still else
      let factor := if qzero (conversion_factor sub) then 1%Q else conversion_factor sub in
      let need_alt := quantize_qty (still * factor) in
      let take := qmin (current_stock alt) need_alt in
      update_ingredient (with_stock (current_stock alt - take) alt) ≫= λ _,
      _ ← _deduct_fefo_batches restaurant_id (ing_id alt) take;
      let covered := if qzero factor then take else quantize_qty (ddiv take factor) in
      mret (still - covered)%Q
  end.
Fixpoint apply_substitutes (restaurant_id : Z) (subs : list IngredientSubstitute) (still : Q) : IM Q :=
  match subs with
  | [] => mret still
  | sub :: subs' =>
      if still <=q 0 then mret still else
      still' ← apply_substitute restaurant_id sub still;
      apply_substitutes restaurant_id subs' still'
  end.

Definition _apply_substitutes (restaurant_id ingredient_id : Z) (shortfall : Q) : IM Q :=
  if shortfall <=q 0 then mret 0%Q else
  subs ← gets (λ s, sort_by substitute_before (all_where (λ u, (su_restaurant_id u =? restaurant_id) &&
           (su_ingredient_id u =? ingredient_id)) (substitutes s)));
  still ← apply_substitutes restaurant_id subs shortfall;
  mret (if still <q 0 then 0 else still)%Q.

(** ** Consumption for an order *)

Definition in_ids (i : Z) (l : list Z) : bool := existsb (Z.eqb i) l.

Definition live_items (order_id : Z) (s : inv_db) : list StockedItem :=
  all_where (λ i, (si_order_id i =? order_id) && negb (si_cancelled i)) (inv_items s).
Definition qty_of_dish (items : list StockedItem) (dish_id : Z) : Z :=
  zsum (λ i, if si_dish_id i =? dish_id then si_qty i else 0) items.

(** The multiplier of a recipe line's yield. *)
Definition yield_factor (r : DishIngredient) : Q :=
  let yield_pct := if qzero (yield_pct r) then 100%Q else yield_pct r in
  let yield_pct := if yield_pct <=q 0 then 100%Q else yield_pct in
  ddiv 100 yield_pct.
Definition recipe_need (items : list StockedItem) (r : DishIngredient) : Q :=
  quantity_per_dish r * inject_Z (qty_of_dish items (di_dish_id r)) * yield_factor r.

(** [needed[k] += v] of a defaultdict: in place, or at the end. *)
Fixpoint need_add (k : Z) (v : Q) (d : list (Z * Q)) : list (Z * Q) :=
  match d with
  | [] => [(k, v)]
  | (k', v') :: d' => if k' =? k then (k', v' + v)%Q :: d' else (k', v') :: need_add k v d'
  end.
Definition needed_of (items : list StockedItem) (rs : list DishIngredient) : list (Z * Q) :=
  fold_left (λ d r, need_add (di_ingredient_id r) (recipe_need items r) d) rs [].

(** The loaded row of the ingredient, as the session has it now. *)
Definition reread (i : Ingredient) : IM Ingredient :=
  gets (λ s, default i (get_row (ing_id i) (ingredients s))).

(** What stock does not cover: substitutes, and a negative stock for the rest. *)
Definition cover_shortfall (restaurant_id : Z) (ingredient : Ingredient) (shortfall : Q) : IM unit :=
  if 0 <q shortfall then
    still ← _apply_substitutes restaurant_id (ing_id ingredient) shortfall;
    if 0 <q still then
      now ← reread ingredient;
      update_ingredient (with_stock (current_stock now - still) now)
    else mret tt
  else mret tt.

(** [set.add] *)
Definition set_add (i : Z) (l : list Z) : list Z := if in_ids i l then l else l ++ [i].

Definition deduct_ingredient (restaurant_id : Z) (need : Z * Q) (oos : list Z) : IM (list Z) :=
  let '(ingredient_id, need_qty) := need in
  found ← gets (λ s, get_row ingredient_id (ingredients s));
  match found with
  | None => mret oos
  | Some ingredient =>
      let take := qmin (current_stock ingredient) need_qty in
      update_ingredient (with_stock (current_stock ingredient - take) ingredient) ≫= λ _,
      _ ← _deduct_fefo_batches restaurant_id (ing_id ingredient) take;
      cover_shortfall restaurant_id ingredient (need_qty - take) ≫= λ _,
      now ← reread ingredient;
      mret (if current_stock now <=q 0 then set_add (ing_id now) oos else oos)
  end.

Definition hide_dish (d : StockedDish) : StockedDish :=
  {| sd_id := sd_id d; sd_restaurant_id := sd_restaurant_id d; is_available := false;
     stock_remaining := match stock_remaining d with Some _ => Some 0 | None => None end;
     auto_hide_when_oos := auto_hide_when_oos d |}.
Definition hides (restaurant_id : Z) (dish_ids : list Z) (d : StockedDish) : bool :=
  in_ids (sd_id d) dish_ids && (sd_restaurant_id d =? restaurant_id) && auto_hide_when_oos d.
Definition hide_dishes (restaurant_id : Z) (oos : list Z) : IM unit :=
  affected ← gets (λ s, di_dish_id <$> all_where (λ r, in_ids (di_ingredient_id r) oos) (recipes s));
  ds ← gets (λ s, all_where (hides restaurant_id affected) (inv_dishes s));
  for_each (λ d, modify (λ s, with_inv_dishes (set_row (hide_dish d) (inv_dishes s)) s)) ds.

Definition deduct_for_order (restaurant_id order_id : Z) : IM unit :=
  items ← gets (live_items order_id);
  match items with
  | [] => mret tt
  | _ =>
      rs ← gets (λ s, all_where (λ r, in_ids (di_dish_id r) (si_dish_id <$> items)) (recipes s));
      match rs with
      | [] => mret tt
      | _ =>
          oos ← for_fold (deduct_ingredient restaurant_id) (needed_of items rs) [];
          match oos with [] => mret tt | _ => hide_dishes restaurant_id oos end
      end
  end.

(** ** Low stock *)

Definition is_low (i : Ingredient) : bool := current_stock i <=q low_stock_threshold i.
Definition list_low_stock (restaurant_id : Z) : IM (list Ingredient) :=
  gets (λ s, List.filter is_low (all_where (λ i, ing_restaurant_id i =? restaurant_id) (ingredients s))).

Record suggestion := { sg_ingredient_id : Z; sg_name : string; sg_current_stock : Q; sg_par_level : Q; sg_order_qty : Q }.
Definition suggest_reorder_quantities (restaurant_id : Z) : IM (list suggestion) :=
  low ← list_low_stock restaurant_id;
  mret ((λ i, {| sg_ingredient_id := ing_id i; sg_name := ing_name i; sg_current_stock := current_stock i;
                 sg_par_level := par_level i; sg_order_qty := par_level i - current_stock i |}) <$> low).

(** A restaurant as the alert reads it. *)
Record Manager := { mg_restaurant_id : Z; mg_phone : option string }.
Inductive alert_result := NoLowStock | NoWhatsappNumber | AlertEnqueued (outbox_id : Z).

Definition low_stock_line (i : Ingredient) : string :=
  "- " +:+ ing_name i +:+ ": " +:+ str_qty (current_stock i) +:+ " " +:+ ing_unit i +:+
  " (threshold " +:+ str_qty (low_stock_threshold i) +:+ ")".
Definition low_stock_body (low : list Ingredient) : string :=
  "Low-stock alert:" +:+ String newline
    (join (String newline "") (low_stock_line <$> sort_by (λ a b, String.leb (ing_name a) (ing_name b)) low)).
Definition low_stock_key (restaurant_id today : Z) (low : list Ingredient) : string :=
  "inventory-low-stock:" +:+ pretty restaurant_id +:+ ":" +:+ isoformat today +:+ ":" +:+
  join "-" ((λ i, pretty (ing_id i)) <$> sort_by (λ a b, ing_id a <=? ing_id b) low).

Definition low_stock_alert (m : Manager) : IM alert_result :=
  low ← list_low_stock (mg_restaurant_id m);
  match low with
  | [] => mret NoLowStock
  | _ =>
      if negb (otruthy (mg_phone m)) then raise ManagerPhoneMissing else
      now ← gets inv_now;
      msg ← zoom InvOutboxRaised (enqueue_message (mg_restaurant_id m) (default "" (mg_phone m)) "text"
              [("body", JStr (low_stock_body low))]%string
              (low_stock_key (mg_restaurant_id m) (date_of now) low) false false);
      mret (match msg with None => NoWhatsappNumber | Some m => AlertEnqueued (om_id m) end)
  end.

(** ** Waste *)

Definition WASTE_REASON_TYPES : list string :=
  ["wastage"; "spoilage"; "theft"; "over_portion"; "other"]%string.
Definition COUNT_REASON_CODES : list string :=
  ["count_error"; "damage"; "spoilage"; "shrinkage"; "transfer_variance"; "system_correction"; "other"]%string.
Definition DEFAULT_COUNT_VARIANCE_THRESHOLD_PCT : Q := 2.

Definition add_anomaly (restaurant_id ingredient_id : Z) (alert_type : string) (expected actual : Q)
    (variance_pct : Z) (message : option string) : IM unit :=
  modify (λ s, with_anomalies (add_row {| an_id := next_id (anomalies s); an_restaurant_id := restaurant_id;
    an_ingredient_id := ingredient_id; an_alert_type := alert_type; an_expected_qty := expected;
    an_actual_qty := actual; an_variance_pct := variance_pct; an_status := "open"; an_message := message |}
    (anomalies s)) s).

(** [session.get], when the row is the restaurant's. *)
Definition own_ingredient (restaurant_id ingredient_id : Z) (s : inv_db) : option Ingredient :=
  match get_row ingredient_id (ingredients s) with
  | Some i => if ing_restaurant_id i =? restaurant_id then Some i else None
  | None => None
  end.

Definition record_waste (restaurant_id ingredient_id : Z) (quantity : Q) (reason : option string)
    (recorded_by reason_type : string) (batch_id : option Z) : IM WasteLog :=
  let rt := lower (strip (if truthy reason_type then reason_type else "wastage")) in
  let rt := if in_strs rt WASTE_REASON_TYPES then rt else "other"%string in
  found ← gets (own_ingredient restaurant_id ingredient_id);
  (match found with
   | Some i =>
       update_ingredient (with_stock (current_stock i - quantity) i) ≫= λ _,
       _ ← _deduct_fefo_batches restaurant_id ingredient_id quantity; mret tt
   | None => mret tt
   end) ≫= λ _,
  t ← gets waste_logs;
  let log := {| wl_id := next_id t; wl_restaurant_id := restaurant_id; wl_ingredient_id := ingredient_id;
    wl_quantity := quantity; wl_reason := reason; wl_reason_type := rt; wl_recorded_by := recorded_by;
    wl_batch_id := batch_id |} in
  modify (with_waste_logs (add_row log t)) ≫= λ _,
  (if in_strs rt ["theft"; "over_portion"]%string then
     add_anomaly restaurant_id ingredient_id (if rt =s "theft" then "theft_loss" else "over_portion") 0 quantity
       10000 (Some (if otruthy reason then default "" reason else rt))
   else mret tt) ≫= λ _,
  mret log.

(** ** Counts *)

(** [round(x, 2)] through [str] and [Decimal], in hundredths. *)
Definition pct_hundredths (x : float) : Z := quantize (Q_of_float x).
Definition qabs (x : Q) : Q := Z.abs (Qnum x) # Qden x.
Definition em_dash : string :=
  String (Ascii.ascii_of_nat 226) (String (Ascii.ascii_of_nat 128) (String (Ascii.ascii_of_nat 148) EmptyString)).

Definition variance_pct_of (previous variance : Q) : float :=
  if negb (qzero previous) then float_of_Q (ddiv (qabs variance) (qabs previous) * 100)
  else if qzero variance then fzero else float_of_Q 100.

Record count_result := {
  cr_variance : Q;
  cr_previous_stock : Q;
  cr_counted_stock : Q;
  cr_variance_pct : float;
  cr_value_aed : Z;
  cr_reason_code : option string;
  cr_threshold_pct : float;
  cr_flagged : bool;
}.

Definition count_threshold (i : Ingredient) (anomaly_threshold_pct : option float) : float :=
  match anomaly_threshold_pct with
  | Some t => t
  | None => float_of_Q (default DEFAULT_COUNT_VARIANCE_THRESHOLD_PCT (count_variance_threshold_pct i))
  end.
Definition count_code (reason_code : option string) : option string :=
  let c := lower (strip (default "" reason_code)) in
  if negb (truthy c) then None else if in_strs c COUNT_REASON_CODES then Some c else Some "other"%string.

Definition record_stock_count (restaurant_id ingredient_id : Z) (counted_qty : Q) (counted_by : string)
    (anomaly_threshold_pct : option float) (reason_code reason : option string) : IM count_result :=
  found ← gets (own_ingredient restaurant_id ingredient_id);
  match found with
  | None => raise IngredientNotFound
  | Some i =>
      let code := count_code reason_code in
      let previous_stock := current_stock i in
      let variance := (counted_qty - previous_stock)%Q in
      update_ingredient (with_stock counted_qty i) ≫= λ _,
      let variance_value := quantize (variance * cost_per_unit_aed i) in
      modify (λ s, with_count_logs (add_row {| cl_id := next_id (count_logs s); cl_restaurant_id := restaurant_id;
        cl_ingredient_id := ingredient_id; cl_previous_stock := previous_stock; cl_counted_stock := counted_qty;
        cl_variance := variance; cl_counted_by := counted_by; cl_reason_code := code; cl_reason := reason;
        cl_variance_value_aed := variance_value |} (count_logs s)) s) ≫= λ _,
      let threshold := count_threshold i anomaly_threshold_pct in
      let variance_pct := variance_pct_of previous_stock variance in
      let flagged := threshold <f variance_pct in
      (if flagged then
         add_anomaly restaurant_id ingredient_id (if variance <q 0 then "theft_loss" else "count_variance")
           previous_stock counted_qty (pct_hundredths variance_pct)
           (Some ("Stock count variance " +:+ fmt1 variance_pct +:+ "% (" +:+ str_cents variance_value +:+ " AED)" +:+
                  match code with Some c => " " +:+ em_dash +:+ " " +:+ c | None => "" end))
       else mret tt) ≫= λ _,
      _ ← audit counted_by restaurant_id "ingredient" (pretty ingredient_id) "stock_count"
            (Some [("current_stock", JStr (str_qty previous_stock))]%string)
            (Some [("current_stock", JStr (str_qty counted_qty)); ("variance", JStr (str_qty variance));
                   ("variance_value_aed", JStr (str_cents variance_value)); ("reason_code", jopt_str code)]%string);
      mret {| cr_variance := variance; cr_previous_stock := previous_stock; cr_counted_stock := counted_qty;
              cr_variance_pct := variance_pct; cr_value_aed := variance_value; cr_reason_code := code;
              cr_threshold_pct := threshold; cr_flagged := flagged |}
  end.

Record anomaly_result := { ar_pct : float; ar_alert_type : string }.
Definition usage_variance_pct (expected actual : Q) : float :=
  if qzero expected then (if qzero actual then fzero else float_of_Q 100)
  else float_of_Q (ddiv (qabs (actual - expected)) expected * 100).
Definition flag_stock_anomaly (restaurant_id ingredient_id : Z) (expected_qty actual_qty : Q)
    (threshold_pct : float) (persist : bool) : IM (option anomaly_result) :=
  found ← gets (own_ingredient restaurant_id ingredient_id);
  match found with
  | None => raise IngredientNotFound
  | Some _ =>
      let variance_pct := usage_variance_pct expected_qty actual_qty in
      if variance_pct <=f threshold_pct then mret None else
      let alert_type := (if expected_qty <q actual_qty then "over_portion" else "theft_loss")%string in
      (if persist then
         add_anomaly restaurant_id ingredient_id alert_type expected_qty actual_qty (pct_hundredths variance_pct)
           (Some (alert_type +:+ ": " +:+ fmt1 variance_pct +:+ "% variance"))
       else mret tt) ≫= λ _,
      mret (Some {| ar_pct := variance_pct; ar_alert_type := alert_type |})
  end.

(** ** Batches, substitutes, locations *)

Definition add_batch (restaurant_id ingredient_id : Z) (qty : Q) (expiry_date : Z) (location_id : option Z)
    (update_stock : bool) : IM IngredientBatch :=
  now ← gets inv_now;
  t ← gets batches;
  let batch := {| ib_id := next_id t; ib_restaurant_id := restaurant_id; ib_ingredient_id := ingredient_id;
    ib_qty := qty; ib_qty_remaining := qty; ib_expiry_date := expiry_date; ib_received_at := now;
    ib_location_id := location_id |} in
  modify (with_batches (add_row batch t)) ≫= λ _,
  (if update_stock then
     found ← gets (own_ingredient restaurant_id ingredient_id);
     match found with
     | Some i => update_ingredient (with_stock (current_stock i + qty) i)
     | None => mret tt
     end
   else mret tt) ≫= λ _,
  mret batch.

Definition list_expiring_soon (restaurant_id within_days : Z) : IM (list IngredientBatch) :=
  now ← gets inv_now;
  gets (λ s, all_where (λ b, (ib_restaurant_id b =? restaurant_id) &&
          (ib_expiry_date b <=? date_of now + within_days)) (batches s)).

Definition add_substitute (restaurant_id ingredient_id substitute_id : Z) (notes : option string)
    (factor : Q) (priority : Z) : IM IngredientSubstitute :=
  t ← gets substitutes;
  let u := {| su_id := next_id t; su_restaurant_id := restaurant_id; su_ingredient_id := ingredient_id;
    substitute_ingredient_id := substitute_id; su_notes := notes; conversion_factor := factor;
    su_priority := priority |} in
  modify (with_substitutes (add_row u t)) ≫= λ _, mret u.
Definition list_substitutes (restaurant_id ingredient_id : Z) : IM (list IngredientSubstitute) :=
  gets (λ s, all_where (λ u, (su_restaurant_id u =? restaurant_id) && (su_ingredient_id u =? ingredient_id)) (substitutes s)).

Definition location_code (kitchen_role : string) : string :=
  if kitchen_role =s "central" then "central" else if kitchen_role =s "commissary" then "commissary" else "main".
Definition location_name (kitchen_role : string) : string :=
  if kitchen_role =s "central" then "Central Kitchen" else if kitchen_role =s "commissary" then "Commissary"
  else "Main Store".
Definition ensure_default_location (restaurant_id : Z) (kitchen_role : string) : IM StockLocation :=
  let code := location_code kitchen_role in
  existing ← gets (λ s, first_where (λ l, (sl_restaurant_id l =? restaurant_id) && (sl_code l =s code)) (locations s));
  match existing with
  | Some l => mret l
  | None =>
      t ← gets locations;
      let role := if in_strs kitchen_role ["branch"; "central"; "commissary"]%string then kitchen_role else "branch"%string in
      let loc := {| sl_id := next_id t; sl_restaurant_id := restaurant_id; sl_name := location_name role;
                    sl_code := code; sl_kitchen_role := role |} in
      modify (with_locations (add_row loc t)) ≫= λ _, mret loc
  end.
