(* ===== verification/InventoryFacts.v ===== *)
(** * Correctness of stock consumption

    First-expired-first-out consumption empties batches in the order of their expiry
    and conserves quantity; an order consumes exactly what its recipes call for; what
    the substitutes may give; where the code departs from its intention. *)

From S2P Require Import Prelude Money Strings Db AuditTrail Clock Floats Outbox InventoryDb Inventory.

(** ** Batches *)

(** The rows of [batches] with new remaining quantities. *)
Definition rem_by (f : IngredientBatch → Q) (b : IngredientBatch) : IngredientBatch := with_remaining (f b) b.
Definition rem_table (f : IngredientBatch → Q) : table IngredientBatch → table IngredientBatch :=
  map_rows (rem_by f).

(** What first-expired-first-out consumption of [q] from the batches [l] does:
    [f] is what remains of each batch, [left] what could not be taken. *)
Record fefo (l : list IngredientBatch) (q left : Q) (f : IngredientBatch → Q) : Prop := {
  ff_other : ∀ b, b ∉ l → f b = ib_qty_remaining b;
  ff_range : ∀ b, b ∈ l → (0 <= f b <= ib_qty_remaining b)%Q;
  ff_sum : (qtotal (λ b, ib_qty_remaining b - f b) l == q - left)%Q;
  ff_left : (0 <= q)%Q → (0 <= left)%Q;
  ff_none : (q <= 0)%Q → left = q ∧ ∀ b, f b = ib_qty_remaining b;
  ff_drained : (0 < left)%Q → ∀ b, b ∈ l → (f b == 0)%Q;
  ff_order : ∀ l1 b l2, l = l1 ++ b :: l2 → f b ≠ ib_qty_remaining b → ∀ a, a ∈ l1 → (f a == 0)%Q;
}.

Lemma with_remaining_same b : with_remaining (ib_qty_remaining b) b = b.
Proof. by destruct b. Qed.
Lemma rem_table_same t f : (∀ b, b ∈ rows t → f b = ib_qty_remaining b) → rem_table f t = t.
Proof. intros Hf. apply map_rows_id. intros b Hb. unfold rem_by. by rewrite Hf, with_remaining_same. Qed.
Lemma rem_table_wf f t : table_wf t → table_wf (rem_table f t).
Proof. by apply map_rows_wf. Qed.

Lemma fefo_nothing l q :
  (q <= 0)%Q ∨ l = [] → (∀ b, b ∈ l → 0 < ib_qty_remaining b)%Q → fefo l q q ib_qty_remaining.
Proof.
  intros Hq Hpos. split; [done|..].
  - intros b Hb. pose proof (Hpos b Hb). lra.
  - rewrite qtotal_zero; [lra|]. intros x _. lra.
  - done.
  - done.
  - intros Hlt b Hb. destruct Hq as [Hq| ->]; [lra|set_solver].
  - done.
Qed.

(** The first batch [b] gives [take]; the others go on with what is left. *)
Definition take_first (b : IngredientBatch) (take : Q) (f : IngredientBatch → Q) : IngredientBatch → Q :=
  λ x, if decide (x = b) then (ib_qty_remaining b - take)%Q else f x.
Lemma take_first_eq b take f : take_first b take f b = (ib_qty_remaining b - take)%Q.
Proof. unfold take_first. by rewrite decide_True. Qed.
Lemma take_first_ne b take f x : x ≠ b → take_first b take f x = f x.
Proof. intros. unfold take_first. by rewrite decide_False. Qed.

Lemma fefo_cons b l q left f :
  b ∉ l → (∀ x, x ∈ b :: l → 0 < ib_qty_remaining x)%Q → (0 < q)%Q →
  fefo l (q - qmin (ib_qty_remaining b) q) left f →
  fefo (b :: l) q left (take_first b (qmin (ib_qty_remaining b) q) f).
Proof.
  intros Hb Hpos Hq [Hother Hrange Hsum Hleft Hnone Hdrained Horder].
  pose proof (Hpos b ltac:(set_solver)) as Hpb.
  pose proof (qmin_cases (ib_qty_remaining b) q) as Hmin.
  set (take := qmin _ _) in *.
  assert (∀ x, x ∈ l → take_first b take f x = f x) as Hin.
  { intros x Hx. apply take_first_ne. set_solver. }
  assert (Hpt : (0 < take <= ib_qty_remaining b)%Q) by (destruct Hmin as [[-> ?]|[-> ?]]; lra).
  split.
  - intros x Hx. rewrite take_first_ne by set_solver. apply Hother. set_solver.
  - intros x [->|Hx]%elem_of_cons; [rewrite take_first_eq; lra|]. rewrite Hin by done. auto.
  - cbn [qtotal]. rewrite take_first_eq, (qtotal_ext _ (λ b, ib_qty_remaining b - f b)%Q).
    + rewrite Hsum. lra.
    + intros x Hx. by rewrite Hin.
  - intros _. apply Hleft. destruct Hmin as [[-> ?]|[-> ?]]; lra.
  - intros. exfalso. lra.
  - intros Hl x [->|Hx]%elem_of_cons; [|rewrite Hin by done; auto].
    rewrite take_first_eq. destruct Hmin as [[-> ?]|[Heq ?]]; [lra|].
    destruct Hnone as [-> _]; [rewrite Heq; lra|]. rewrite Heq in Hl. lra.
  - intros [|y l1] x l2 [= <- Heq] Hx a Ha; [set_solver|].
    assert (x ∈ l) as Hxl by (rewrite Heq; set_solver). rewrite Hin in Hx by done.
    apply elem_of_cons in Ha as [->|Ha]; [|rewrite Hin by set_solver; by eapply Horder].
    rewrite take_first_eq. destruct Hmin as [[-> ?]|[Hm ?]]; [lra|].
    destruct Hx. apply Hnone. rewrite Hm. lra.
Qed.

Lemma consume_batches_run l q s :
  table_wf (batches s) → NoDup l → (∀ b, b ∈ l → b ∈ rows (batches s)) →
  (∀ b, b ∈ l → 0 < ib_qty_remaining b)%Q →
  ∃ left f, consume_batches l q s = Ok left (with_batches (rem_table f (batches s)) s) ∧ fefo l q left f.
Proof.
  revert q s. induction l as [|b l IH]; intros q s Hwf Hnd Hin Hpos; cbn [consume_batches].
  { exists q, ib_qty_remaining. rewrite rem_table_same by done. split; [by destruct s|].
    apply fefo_nothing; auto. }
  destruct (q <=q 0) eqn:Hq; qbool.
  { exists q, ib_qty_remaining. rewrite rem_table_same by done. split; [by destruct s|].
    apply fefo_nothing; auto. }
  apply NoDup_cons in Hnd as [Hbl Hnd]. set (take := qmin _ _).
  set (b' := with_remaining (ib_qty_remaining b - take) b).
  set (s1 := with_batches (set_row b' (batches s)) s).
  assert (Hb : b ∈ rows (batches s)) by (apply Hin; set_solver).
  assert (Hrows : rows (batches s1) = (λ x, if decide (x = b) then b' else x) <$> rows (batches s)).
  { cbn. apply List.map_ext_in. intros x Hx. apply list_elem_of_In in Hx.
    change (row_id x) with (ib_id x). change (row_id b') with (ib_id b).
    destruct (decide (x = b)) as [->|Hne]; [by rewrite Z.eqb_refl|].
    destruct (ib_id x =? ib_id b) eqn:Hid; [|done]. zbool. destruct Hne. by apply (wf_unique _ Hwf). }
  destruct (IH (q - take)%Q s1) as (left & f & Hrun & Hf).
  - by apply set_row_wf.
  - done.
  - intros x Hx. rewrite Hrows. apply list_elem_of_fmap. exists x.
    rewrite decide_False; [|by intros ->]. split; [done|]. apply Hin. set_solver.
  - intros x Hx. apply Hpos. set_solver.
  - exists left, (take_first b take f). split; [|by apply fefo_cons].
    rewrite (bind_run_Ok _ _ _ tt s1) by done. rewrite Hrun. f_equal.
    assert (rem_table f (batches s1) = rem_table (take_first b take f) (batches s)) as ->; [|done].
    unfold rem_table, map_rows. rewrite Hrows. f_equal. rewrite <-(list_fmap_compose _ (rem_by f)).
    apply list_fmap_ext. intros i x Hx%list_elem_of_lookup_2. cbn. unfold rem_by.
    destruct (decide (x = b)) as [->|Hne]; [|by rewrite take_first_ne].
    rewrite take_first_eq, (ff_other _ _ _ _ Hf); [done|].
    intros Hb'. destruct Hbl.
    by rewrite (wf_unique _ Hwf b' b) in Hb' by (done || (apply Hin; set_solver)).
Qed.

Lemma expires_before_spec a b :
  expires_before a b = true ↔
  ib_expiry_date a < ib_expiry_date b ∨ (ib_expiry_date a = ib_expiry_date b ∧ ib_id a ≤ ib_id b).
Proof. unfold expires_before. rewrite orb_true_iff, andb_true_iff, Z.ltb_lt, Z.eqb_eq, Z.leb_le. done. Qed.
Lemma expires_before_total a b : expires_before a b = false → expires_before b a = true.
Proof. rewrite <-not_true_iff_false, !expires_before_spec. lia. Qed.
Lemma expires_before_trans a b c :
  expires_before a b = true → expires_before b c = true → expires_before a c = true.
Proof. rewrite !expires_before_spec. lia. Qed.

Lemma stored_qty_pos x : 0 < stored_qty x → (0 < x)%Q.
Proof.
  unfold stored_qty, div_half_up. destruct x as [n d]; cbn. intros H.
  unfold Qlt; cbn. destruct (n * 1000 <? 0) eqn:Hn; zbool.
  - pose proof (Z.div_pos (2 * - (n * 1000) + Zpos d) (2 * Zpos d)). lia.
  - destruct (decide (n = 0)) as [->|]; [|lia]. cbn in H. rewrite Z.div_small in H by lia. lia.
Qed.
Lemma open_batch_pos rid iid b : open_batch rid iid b = true → (0 < ib_qty_remaining b)%Q.
Proof. unfold open_batch. intros H. zbool. by apply stored_qty_pos. Qed.

(** The restaurant's batches of an ingredient, and what they hold. *)
Definition batch_of (rid iid : Z) (b : IngredientBatch) : bool :=
  (ib_restaurant_id b =? rid) && (ib_ingredient_id b =? iid).
Definition on_shelf (rid iid : Z) (s : inv_db) : Q :=
  qtotal ib_qty_remaining (all_where (batch_of rid iid) (batches s)).

Lemma open_batch_of rid iid b : open_batch rid iid b = true → batch_of rid iid b = true.
Proof. unfold open_batch, batch_of. by intros [-> _]%andb_true_iff. Qed.

Lemma sorted_before l1 b l2 a :
  StronglySorted expires_before (l1 ++ b :: l2) → a ∈ l1 ++ b :: l2 → a ≠ b → NoDup (ib_id <$> l1 ++ b :: l2) →
  expires_before a b = true → a ∈ l1.
Proof.
  intros Hs Ha Hne Hnd Hab. apply elem_of_app in Ha as [|[->|Ha]%elem_of_cons]; [done..|].
  exfalso. induction l1 as [|x l1 IH]; cbn in *.
  - apply StronglySorted_inv in Hs as [_ Hall]. rewrite Forall_forall in Hall.
    specialize (Hall a Ha). apply Is_true_true in Hall.
    apply NoDup_cons in Hnd as [Hnd _]. apply Hnd.
    replace (ib_id b) with (ib_id a); [by apply list_elem_of_fmap_2|].
    rewrite expires_before_spec in Hab, Hall. lia.
  - apply StronglySorted_inv in Hs as [Hs _]. apply NoDup_cons in Hnd as [_ Hnd]. auto.
Qed.

Lemma fefo_run rid iid q s :
  table_wf (batches s) →
  let l := sort_by expires_before (all_where (open_batch rid iid) (batches s)) in
  ∃ left f, _deduct_fefo_batches rid iid q s = Ok left (with_batches (rem_table f (batches s)) s) ∧
    fefo l q left f ∧ NoDup (ib_id <$> l) ∧
    (∀ b, b ∈ l ↔ b ∈ rows (batches s) ∧ open_batch rid iid b = true).
Proof.
  intros Hwf l. assert (Hin : ∀ b, b ∈ l ↔ b ∈ rows (batches s) ∧ open_batch rid iid b = true).
  { intros b. unfold l. by rewrite elem_of_sort_by, elem_of_all_where. }
  assert (Hnd : NoDup l).
  { unfold l. rewrite sort_by_perm. unfold all_where. apply NoDup_ListNoDup, List.NoDup_filter, NoDup_ListNoDup, Hwf. }
  destruct (consume_batches_run l q s) as (left & f & Hrun & Hf); [done..|set_solver| |].
  { intros b Hb. eapply open_batch_pos. by apply Hin. }
  exists left, f. split_and!; [done|done| |done].
  apply NoDup_fmap_2_strong; [|done]. intros a b Ha Hb Hid. apply (wf_unique _ Hwf); [by apply Hin..|done].
Qed.

(** First expired, first out.  Consuming [qty] of an ingredient never fails and
    changes nothing but its open batches: none goes below zero or grows, the shelf
    loses exactly what was consumed, something is left unfilled only when every open
    batch is empty, and a batch is touched only when all the open batches that expire
    before it are empty. *)
Theorem fefo_consumption rid iid qty s :
  table_wf (batches s) →
  ∃ left f,
    _deduct_fefo_batches rid iid qty s = Ok left (with_batches (rem_table f (batches s)) s) ∧
    (on_shelf rid iid (with_batches (rem_table f (batches s)) s) == on_shelf rid iid s - (qty - left))%Q ∧
    (∀ b, b ∈ rows (batches s) → open_batch rid iid b = false → f b = ib_qty_remaining b) ∧
    (∀ b, b ∈ rows (batches s) → open_batch rid iid b = true → 0 <= f b <= ib_qty_remaining b)%Q ∧
    (if qty <=q 0 then left = qty else
       0 <= left ∧ (0 < left → ∀ b, b ∈ rows (batches s) → open_batch rid iid b = true → f b == 0))%Q ∧
    (∀ a b, a ∈ rows (batches s) → b ∈ rows (batches s) →
       open_batch rid iid a = true → open_batch rid iid b = true →
       expires_before a b = true → a ≠ b → f b ≠ ib_qty_remaining b → (f a == 0)%Q).
Proof.
  intros Hwf. destruct (fefo_run rid iid qty s Hwf) as (left & f & Hrun & Hf & Hnd & Hin).
  set (l := sort_by _ _) in *. exists left, f. split; [done|].
  assert (Hclosed : ∀ b, b ∈ rows (batches s) → open_batch rid iid b = false → f b = ib_qty_remaining b).
  { intros b Hb Ho. apply (ff_other _ _ _ _ Hf). rewrite Hin, Ho. naive_solver. }
  split_and!.
  - rewrite <-(ff_sum _ _ _ _ Hf). unfold on_shelf, all_where. cbn [batches with_batches rem_table rows].
    unfold rem_table, map_rows. cbn [rows]. rewrite !qtotal_filter, (qtotal_fmap (rem_by f)). unfold l. rewrite (qtotal_Permutation _ _ _ (sort_by_perm _ _)).
    unfold all_where. rewrite qtotal_filter.
    rewrite <-qtotal_minus.
    apply qtotal_ext. intros b Hb. change (batch_of rid iid (rem_by f b)) with (batch_of rid iid b).
    cbn [ib_qty_remaining rem_by with_remaining].
    destruct (open_batch rid iid b) eqn:Ho.
    + rewrite (open_batch_of _ _ _ Ho). lra.
    + rewrite (Hclosed b Hb Ho). destruct (batch_of rid iid b); lra.
  - done.
  - intros b Hb Ho. apply (ff_range _ _ _ _ Hf). by apply Hin.
  - destruct (qty <=q 0) eqn:Hq; qbool; [by apply (ff_none _ _ _ _ Hf)|]. split.
    + apply (ff_left _ _ _ _ Hf). lra.
    + intros Hl b Hb Ho. apply (ff_drained _ _ _ _ Hf Hl). by apply Hin.
  - intros a b Ha Hb Hoa Hob Hab Hne Hch.
    destruct (list_elem_of_split l b) as (l1 & l2 & Hl); [by apply Hin|].
    apply (ff_order _ _ _ _ Hf l1 b l2 Hl Hch). apply (sorted_before l1 b l2); rewrite <-?Hl; [|by apply Hin|done..].
    apply sort_by_sorted; [apply expires_before_total|apply expires_before_trans].
Qed.

(** ** Stock *)

(** A call that only moves stock and batches: [g] is the stock of each ingredient after it. *)
Record stock_step (s s' : inv_db) (g : Z → Q) : Prop := {
  st_frame : s' = with_ingredients (ingredients s') (with_batches (batches s') s);
  st_ingredients : table_wf (ingredients s');
  st_batches : table_wf (batches s');
  st_stock : ∀ i, get_row i (ingredients s') = with_stock (g i) <$> get_row i (ingredients s);
}.
Definition stock_wf (s : inv_db) : Prop := table_wf (ingredients s) ∧ table_wf (batches s).

Lemma with_stock_same i : with_stock (current_stock i) i = i.
Proof. by destruct i. Qed.
Lemma stock_step_wf s s' g : stock_step s s' g → stock_wf s'.
Proof. intros []. by split. Qed.
Lemma stock_step_trans s1 s2 s3 g h :
  stock_step s1 s2 g → stock_step s2 s3 h → stock_step s1 s3 h.
Proof.
  intros [F1 _ _ S1] [F2 I2 B2 S2]. split; [|done..|].
  - rewrite F2, F1. by destruct s1.
  - intros i. rewrite S2, S1. by destruct (get_row i (ingredients s1)).
Qed.

Definition stock_at (i : Z) (s : inv_db) : Q := default 0%Q (current_stock <$> get_row i (ingredients s)).
(** The stock of ingredient [i] set to [q]. *)
Definition set_at (i : Z) (q : Q) (s : inv_db) : Z → Q := λ j, if j =? i then q else stock_at j s.

Lemma set_stock_step s i x q :
  stock_wf s → get_row i (ingredients s) = Some x →
  stock_step s (with_ingredients (set_row (with_stock q x) (ingredients s)) s) (set_at i q s).
Proof.
  intros [Hi Hb] Hx. split; [done|by apply set_row_wf|done|]. cbn. intros j. unfold set_at, stock_at.
  pose proof (get_row_Some _ _ _ Hx) as [Hin Hid]. change (row_id x) with (ing_id x) in Hid.
  destruct (j =? i) eqn:Hj; zbool.
  - subst j. rewrite Hx. pose proof (get_row_set (with_stock q x) x (ingredients s)) as Hg.
    change (row_id (with_stock q x)) with (ing_id x) in Hg. rewrite Hid in Hg. by apply Hg.
  - rewrite get_row_set_ne by (change (row_id (with_stock q x)) with (ing_id x); congruence).
    destruct (get_row j (ingredients s)) as [y|]; cbn; [by rewrite with_stock_same|done].
Qed.
Lemma fefo_step rid iid q s :
  stock_wf s → ∃ left s', _deduct_fefo_batches rid iid q s = Ok left s' ∧ stock_step s s' (λ i, stock_at i s).
Proof.
  intros [Hi Hb]. destruct (fefo_run rid iid q s Hb) as (left & f & Hrun & _). do 2 eexists. split; [exact Hrun|].
  split; [done|done|by apply rem_table_wf|]. intros i. unfold stock_at. cbn.
  destruct (get_row i (ingredients s)) as [x|]; cbn; [by rewrite with_stock_same|done].
Qed.

Lemma stock_step_at s s' g i x :
  stock_step s s' g → get_row i (ingredients s) = Some x → get_row i (ingredients s') = Some (with_stock (g i) x).
Proof. intros Hst Hx. by rewrite (st_stock _ _ _ Hst), Hx. Qed.
Lemma stock_step_at_inv s s' g i x :
  stock_step s s' g → get_row i (ingredients s') = Some x → ∃ x0, get_row i (ingredients s) = Some x0 ∧ x = with_stock (g i) x0.
Proof.
  intros Hst. rewrite (st_stock _ _ _ Hst). destruct (get_row i (ingredients s)) as [x0|]; [|done].
  intros [= <-]. eauto.
Qed.

(** Stock is taken from an ingredient, and as much from its batches. *)
Lemma take_stock_run rid i x take s :
  stock_wf s → get_row i (ingredients s) = Some x →
  ∃ s', (∀ A (k : IM A), (update_ingredient (with_stock (current_stock x - take) x) ≫= λ _,
         _deduct_fefo_batches rid (ing_id x) take ≫= λ _, k) s = k s') ∧
    stock_step s s' (set_at i (current_stock x - take) s).
Proof.
  intros Hwf Hx. pose proof (set_stock_step s i x (current_stock x - take) Hwf Hx) as Hset.
  destruct (fefo_step rid (ing_id x) take _ (stock_step_wf _ _ _ Hset)) as (left & s' & Hrun & Hst).
  exists s'. split.
  - intros A k. erewrite bind_run_Ok by reflexivity. by rewrite (bind_run_Ok _ _ _ _ _ Hrun).
  - pose proof (stock_step_trans _ _ _ _ _ Hset Hst) as [Hf Hi Hb Hg]. split; [done..|].
    intros j. rewrite Hg. destruct (get_row j (ingredients s)) as [y|] eqn:Hy; [|done]. cbn. f_equal. f_equal.
    unfold stock_at. by rewrite (st_stock _ _ _ Hset), Hy.
Qed.

Definition no_substitutes (rid : Z) (s : inv_db) : Prop :=
  ∀ u, u ∈ rows (substitutes s) → su_restaurant_id u ≠ rid.

Lemma apply_no_substitutes rid iid sf s :
  no_substitutes rid s → (0 < sf)%Q → _apply_substitutes rid iid sf s = Ok sf s.
Proof.
  intros Hno Hsf. unfold _apply_substitutes. destruct (sf <=q 0) eqn:H; qbool; [lra|].
  assert (all_where (λ u, (su_restaurant_id u =? rid) && (su_ingredient_id u =? iid)) (substitutes s) = []) as Hnil.
  { destruct (all_where _ _) as [|u l] eqn:Hl; [done|]. exfalso.
    assert (Hu : u ∈ u :: l) by set_solver. rewrite <-Hl in Hu. apply elem_of_all_where in Hu as [Hu Hp].
    zbool. by destruct (Hno u). }
  unfold mbind, M_bind, gets, mret, M_ret. rewrite Hnil. cbn.
  destruct (sf <q 0) eqn:Hneg; qbool; [lra|done].
Qed.

Lemma set_at_eq i q s : set_at i q s i = q.
Proof. unfold set_at. by rewrite Z.eqb_refl. Qed.
Lemma set_at_ne i q s j : j ≠ i → set_at i q s j = stock_at j s.
Proof. intros. unfold set_at. by rewrite (proj2 (Z.eqb_neq j i)). Qed.
Lemma stock_at_Some i x s : get_row i (ingredients s) = Some x → stock_at i s = current_stock x.
Proof. unfold stock_at. by intros ->. Qed.

(** What one line of the needs does, no substitute being configured. *)
Record deducted (d : list (Z * Q)) (oos oos' : list Z) (s s' : inv_db) (g : Z → Q) : Prop := {
  de_step : stock_step s s' g;
  de_stock : ∀ j x, get_row j (ingredients s) = Some x →
    (g j == current_stock x - qtotal (λ kv, if fst kv =? j then snd kv else 0) d)%Q;
  de_oos : NoDup (fst <$> d) → ∀ k, k ∈ oos' ↔
    k ∈ oos ∨ (k ∈ fst <$> d ∧ ∃ x, get_row k (ingredients s) = Some x ∧ (g k <= 0)%Q);
}.

Lemma oos_add k oos q :
  ∀ j, j ∈ (if q <=q 0 then set_add k oos else oos) ↔ j ∈ oos ∨ (j = k ∧ (q <= 0)%Q).
Proof.
  intros j. destruct (q <=q 0) eqn:Hq; qbool.
  - unfold set_add. destruct (in_ids k oos) eqn:Hk; [|set_solver].
    unfold in_ids in Hk. apply existsb_exists in Hk as (k' & Hk' & Heq). zbool. subst k'.
    apply list_elem_of_In in Hk'. split; [by left|]. intros [|[-> _]]; done.
  - split; [by left|]. intros [|[_ ?]]; [done|lra].
Qed.

Lemma stock_step_ext s s' g h :
  stock_step s s' g → (∀ i x, get_row i (ingredients s) = Some x → g i = h i) → stock_step s s' h.
Proof.
  intros [Hf Hi Hb Hg] Hgh. split; [done..|]. intros i. rewrite Hg.
  destruct (get_row i (ingredients s)) as [x|] eqn:Hx; [|done]. cbn. by rewrite (Hgh i x).
Qed.

Lemma deducted_one s s' k need oos x q :
  stock_step s s' (set_at k q s) → get_row k (ingredients s) = Some x → (q == current_stock x - need)%Q →
  deducted [(k, need)] oos (if q <=q 0 then set_add k oos else oos) s s' (set_at k q s).
Proof.
  intros Hst Hx Hq. split; [done|..].
  - intros j y Hy. cbn. destruct (k =? j) eqn:Hkj; zbool.
    + subst j. rewrite set_at_eq. simplify_eq. lra.
    + rewrite set_at_ne by done. rewrite (stock_at_Some _ _ _ Hy). lra.
  - intros _ j. rewrite oos_add. cbn. split; (intros [|[Hj Hle]]; [by left|right]).
    + subst j. rewrite set_at_eq. split; [set_solver|eauto].
    + apply list_elem_of_singleton in Hj as ->. destruct Hle as (y & _ & Hle). by rewrite set_at_eq in Hle.
Qed.

Lemma cover_shortfall_run rid k x q1 sf s s1 :
  no_substitutes rid s → get_row k (ingredients s) = Some x → stock_wf s → stock_step s s1 (set_at k q1 s) →
  ∃ s2 q, cover_shortfall rid x sf s1 = Ok tt s2 ∧ stock_step s s2 (set_at k q s) ∧
    (q == if 0 <q sf then q1 - sf else q1)%Q.
Proof.
  intros Hno Hx Hwf Hst. unfold cover_shortfall. destruct (0 <q sf) eqn:Hsf; [|by exists s1, q1].
  assert (Hno1 : no_substitutes rid s1) by (rewrite (st_frame _ _ _ Hst); done).
  pose proof (get_row_Some _ _ _ Hx) as [_ Hid]. change (row_id x) with (ing_id x) in Hid.
  pose proof (stock_step_at _ _ _ _ _ Hst Hx) as Hx1. rewrite set_at_eq in Hx1.
  pose proof (set_stock_step s1 k _ (q1 - sf)%Q (stock_step_wf _ _ _ Hst) Hx1) as Hset.
  eexists _, (q1 - sf)%Q. split; [|split; [|done]].
  - erewrite bind_run_Ok by (apply apply_no_substitutes; [done|by qbool]).
    rewrite Hsf. unfold reread, mbind, M_bind, gets. rewrite Hid, Hx1. reflexivity.
  - eapply stock_step_ext; [exact (stock_step_trans _ _ _ _ _ Hst Hset)|].
    intros j y Hy. destruct (decide (j = k)) as [->|Hj]; [by rewrite !set_at_eq|]. rewrite !set_at_ne by done.
    rewrite (stock_at_Some _ _ _ (stock_step_at _ _ _ _ _ Hst Hy)). cbn. by rewrite set_at_ne, (stock_at_Some _ _ _ Hy).
Qed.

Lemma deduct_ingredient_run rid k need oos s :
  stock_wf s → no_substitutes rid s →
  ∃ oos' s' g, deduct_ingredient rid (k, need) oos s = Ok oos' s' ∧ deducted [(k, need)] oos oos' s s' g.
Proof.
  intros Hwf Hno. unfold deduct_ingredient. erewrite bind_run_Ok by reflexivity. cbv beta.
  destruct (get_row k (ingredients s)) as [x|] eqn:Hx.
  2:{ exists oos, s, (λ i, stock_at i s). split; [done|]. split.
    - destruct Hwf. split; [by destruct s|done..|]. intros j. unfold stock_at.
      destruct (get_row j (ingredients s)) as [y|]; cbn; [by rewrite with_stock_same|done].
    - intros j y Hy. cbn. destruct (k =? j) eqn:Hkj; zbool; [congruence|].
      rewrite (stock_at_Some _ _ _ Hy). lra.
    - intros _ j. cbn. split; [by left|]. intros [|(->%list_elem_of_singleton & y & Hy & _)]; [done|congruence]. }
  set (take := qmin (current_stock x) need).
  destruct (take_stock_run rid k x take s) as (s1 & Hrun & Hst1); [done..|]. rewrite Hrun. clear Hrun.
  set (q1 := (current_stock x - take)%Q) in *.
  pose proof (get_row_Some _ _ _ Hx) as [_ Hid]. change (row_id x) with (ing_id x) in Hid.
  destruct (cover_shortfall_run rid k x q1 (need - take) s s1) as (s2 & q & Hrun & Hst2 & Hq); [done..|].
  rewrite (bind_run_Ok _ _ _ _ _ Hrun). do 3 eexists. split.
  - unfold reread, mbind, M_bind, gets, mret, M_ret.
    rewrite Hid, (stock_step_at _ _ _ _ _ Hst2 Hx), set_at_eq. cbn. rewrite Hid. reflexivity.
  - eapply deducted_one; [done..|]. rewrite Hq. unfold q1.
    destruct (qmin_cases (current_stock x) need) as [[Ht ?]|[Ht ?]]; fold take in Ht; rewrite Ht;
      match goal with |- context [0 <q ?z] => destruct (0 <q z) eqn:Hsf end; qbool. all: lra.
Qed.

Lemma deducted_nil oos s : stock_wf s → deducted [] oos oos s s (λ i, stock_at i s).
Proof.
  intros [Hi Hb]. split.
  - split; [by destruct s|done..|]. intros i. unfold stock_at.
    destruct (get_row i (ingredients s)) as [x|]; cbn; [by rewrite with_stock_same|done].
  - intros j x Hx. cbn. rewrite (stock_at_Some _ _ _ Hx). lra.
  - intros _ k. cbn. set_solver.
Qed.

Lemma deducted_cons kv d oos oos1 oos2 s s1 s2 g h :
  deducted [kv] oos oos1 s s1 g → deducted d oos1 oos2 s1 s2 h → deducted (kv :: d) oos oos2 s s2 h.
Proof.
  intros [Hst1 Hg Ho1] [Hst2 Hh Ho2]. split.
  - by eapply stock_step_trans.
  - intros j x Hx. rewrite (Hh _ _ (stock_step_at _ _ _ _ _ Hst1 Hx)). cbn -[Z.eqb].
    rewrite (Hg _ _ Hx). cbn -[Z.eqb]. lra.
  - intros Hnd k. cbn in Hnd. apply NoDup_cons in Hnd as [Hkv Hnd].
    rewrite Ho2 by done. rewrite Ho1 by (cbn; apply NoDup_singleton). rewrite fmap_cons. cbn.
    assert (∀ x, get_row k (ingredients s) = Some x → k ∉ d.*1 → (h k == g k)%Q) as Hsame.
    { intros x Hx Hk. rewrite (Hh _ _ (stock_step_at _ _ _ _ _ Hst1 Hx)). cbn.
      rewrite qtotal_zero; [lra|]. intros [k' v] Hin. cbn. destruct (k' =? k) eqn:Hk'; zbool; [|lra].
      subst k'. destruct Hk. by apply (list_elem_of_fmap_2 fst _ (k, v)). }
    rewrite list_elem_of_singleton, elem_of_cons. split.
    + intros [[?|(-> & x & Hx & Hle)]|(Hk & x & Hx & Hle)]; [by left|right|right].
      * split; [by left|]. exists x. by rewrite (Hsame x).
      * apply (stock_step_at_inv _ _ _ _ _ Hst1) in Hx as (x0 & Hx0 & ->). eauto.
    + intros [?|([->|Hk] & x & Hx & Hle)]; [by left; left|left; right|right].
      * split; [done|]. exists x. by rewrite <-(Hsame x).
      * split; [done|]. eexists. split; [by eapply stock_step_at|done].
Qed.

Lemma deduct_all_run rid d oos s :
  stock_wf s → no_substitutes rid s →
  ∃ oos' s' g, for_fold (deduct_ingredient rid) d oos s = Ok oos' s' ∧ deducted d oos oos' s s' g.
Proof.
  revert oos s. induction d as [|[k need] d IH]; intros oos s Hwf Hno; cbn [for_fold].
  { exists oos, s, (λ i, stock_at i s). split; [done|].
    by apply deducted_nil. }
  destruct (deduct_ingredient_run rid k need oos s Hwf Hno) as (oos1 & s1 & g & Hrun & Hd).
  destruct (IH oos1 s1) as (oos2 & s2 & h & Hrun2 & Hd2).
  - eapply stock_step_wf, Hd.
  - rewrite (st_frame _ _ _ (de_step _ _ _ _ _ _ Hd)). done.
  - exists oos2, s2, h. rewrite (bind_run_Ok _ _ _ _ _ Hrun). split; [done|]. by eapply deducted_cons.
Qed.

Lemma need_add_keys k v d j : j ∈ (need_add k v d).*1 ↔ j = k ∨ j ∈ d.*1.
Proof.
  induction d as [|[k' v'] d IH]; cbn; [set_solver|].
  destruct (k' =? k) eqn:Hk; zbool; cbn; [|rewrite !elem_of_cons, IH]; set_solver.
Qed.
Lemma need_add_NoDup k v d : NoDup d.*1 → NoDup (need_add k v d).*1.
Proof.
  induction d as [|[k' v'] d IH]; cbn; intros Hnd; [apply NoDup_singleton|].
  apply NoDup_cons in Hnd as [Hk' Hnd].
  destruct (k' =? k) eqn:Hk; zbool; cbn; constructor; auto. rewrite need_add_keys. set_solver.
Qed.
Definition total_of_key (j : Z) (d : list (Z * Q)) : Q := qtotal (λ kv, if fst kv =? j then snd kv else 0)%Q d.
Lemma need_add_total k v d j :
  (total_of_key j (need_add k v d) == total_of_key j d + (if k =? j then v else 0))%Q.
Proof.
  unfold total_of_key. induction d as [|[k' v'] d IH]; cbn -[Z.eqb]; [lra|].
  destruct (k' =? k) eqn:Hk; zbool; cbn -[Z.eqb].
  - subst k'. destruct (k =? j); lra.
  - rewrite IH. lra.
Qed.
Lemma needed_spec items rs :
  NoDup (needed_of items rs).*1 ∧
  (∀ k, k ∈ (needed_of items rs).*1 ↔ k ∈ di_ingredient_id <$> rs) ∧
  (∀ j, total_of_key j (needed_of items rs) ==
        qtotal (λ r, if di_ingredient_id r =? j then recipe_need items r else 0) rs)%Q.
Proof.
  unfold needed_of.
  cut (∀ d, NoDup d.*1 → let d' := fold_left (λ d r, need_add (di_ingredient_id r) (recipe_need items r) d) rs d in
    NoDup d'.*1 ∧ (∀ k, k ∈ d'.*1 ↔ k ∈ d.*1 ∨ k ∈ di_ingredient_id <$> rs) ∧
    (∀ j, total_of_key j d' == total_of_key j d +
       qtotal (λ r, if di_ingredient_id r =? j then recipe_need items r else 0) rs)%Q).
  { intros Hcut. destruct (Hcut []) as (? & Hk & Ht); [constructor|]. split_and!; [done| |].
    - intros k. rewrite Hk. set_solver.
    - intros j. rewrite Ht. unfold total_of_key; cbn. lra. }
  induction rs as [|r rs IH]; intros d Hnd; cbn -[total_of_key].
  - split_and!; [done|set_solver|]. intros j. lra.
  - destruct (IH (need_add (di_ingredient_id r) (recipe_need items r) d)) as (? & Hk & Ht); [by apply need_add_NoDup|].
    split_and!; [done| |].
    + intros k. rewrite Hk, need_add_keys. set_solver.
    + intros j. rewrite Ht, need_add_total. lra.
Qed.

Lemma in_ids_spec k l : in_ids k l = true ↔ k ∈ l.
Proof.
  unfold in_ids. rewrite existsb_exists. split.
  - intros (k' & Hk' & Heq). zbool. subst. by apply list_elem_of_In.
  - intros Hk. exists k. split; [by apply list_elem_of_In|apply Z.eqb_refl].
Qed.

Lemma hide_dishes_run rid oos s :
  table_wf (inv_dishes s) →
  let affected := di_dish_id <$> all_where (λ r, in_ids (di_ingredient_id r) oos) (recipes s) in
  hide_dishes rid oos s =
    Ok tt (with_inv_dishes (map_rows (λ d, if hides rid affected d then hide_dish d else d) (inv_dishes s)) s).
Proof.
  intros Hwf affected. unfold hide_dishes. erewrite bind_run_Ok by reflexivity.
  erewrite bind_run_Ok by reflexivity. fold affected. rewrite for_each_modify. f_equal.
  rewrite <-(set_all_rows hide_dish (hides rid affected) _ Hwf) by done.
  set (l := all_where _ _). clearbody l. clear Hwf. revert s affected.
  cut (∀ t s, inv_dishes s = t → fold_left (λ s d, with_inv_dishes (set_row (hide_dish d) (inv_dishes s)) s) l s =
    with_inv_dishes (fold_left (λ t d, set_row (hide_dish d) t) l t) s).
  { intros Hcut s _. by apply Hcut. }
  induction l as [|d l IH]; intros t s <-; cbn; [by destruct s|]. by rewrite (IH _ _ eq_refl).
Qed.

(** ** An order *)

(** The recipe lines of the dishes an order sells. *)
Definition sold_recipes (items : list StockedItem) (s : inv_db) : list DishIngredient :=
  all_where (λ r, in_ids (di_dish_id r) (si_dish_id <$> items)) (recipes s).
(** An ingredient of [rs] that is at or below zero after the order. *)
Definition ran_out (rs : list DishIngredient) (s' : inv_db) (i : Z) : Prop :=
  i ∈ di_ingredient_id <$> rs ∧ ∃ x, get_row i (ingredients s') = Some x ∧ (current_stock x <= 0)%Q.
Definition sells_out (s s' : inv_db) (rs : list DishIngredient) (rid : Z) (d : StockedDish) : Prop :=
  sd_restaurant_id d = rid ∧ auto_hide_when_oos d = true ∧
  ∃ r, r ∈ rows (recipes s) ∧ di_dish_id r = sd_id d ∧ ran_out rs s' (di_ingredient_id r).

Lemma hides_spec s s' rs rid oos d :
  (∀ k, k ∈ oos ↔ ran_out rs s' k) →
  hides rid (di_dish_id <$> all_where (λ r, in_ids (di_ingredient_id r) oos) (recipes s)) d = true ↔
  sells_out s s' rs rid d.
Proof.
  intros Hoos. unfold hides, sells_out. rewrite !andb_true_iff, Z.eqb_eq, in_ids_spec, list_elem_of_fmap.
  setoid_rewrite elem_of_all_where. setoid_rewrite in_ids_spec. setoid_rewrite Hoos. naive_solver.
Qed.

Lemma deduct_for_order_run rid oid s :
  stock_wf s → table_wf (inv_dishes s) → no_substitutes rid s →
  let rs := sold_recipes (live_items oid s) s in
  ∃ oos s1 g h, deducted (needed_of (live_items oid s) rs) [] oos s s1 g ∧
    deduct_for_order rid oid s = Ok tt (with_inv_dishes (map_rows h (inv_dishes s)) s1) ∧
    ∀ d, h d = if hides rid (di_dish_id <$> all_where (λ r, in_ids (di_ingredient_id r) oos) (recipes s)) d
               then hide_dish d else d.
Proof.
  intros Hwf Hd Hno. unfold deduct_for_order, sold_recipes. set (items := live_items oid s). cbv zeta.
  erewrite bind_run_Ok by reflexivity. fold items.
  assert (Hnone : ∀ rs : list DishIngredient, rs = [] → ∃ oos s1 g h, deducted (needed_of items rs) [] oos s s1 g ∧
    Ok tt s = (Ok tt (with_inv_dishes (map_rows h (inv_dishes s)) s1) : outcome inv_db inv_error unit) ∧
    ∀ d, h d = if hides rid (di_dish_id <$> all_where (λ r, in_ids (di_ingredient_id r) oos) (recipes s)) d
               then hide_dish d else d).
  { intros rs ->. exists [], s, (λ i, stock_at i s), (λ d, d). split_and!; [by apply deducted_nil|..].
    - rewrite map_rows_id by done. by destruct s.
    - intros d. unfold hides.
      replace (all_where _ (recipes s)) with ([] : list DishIngredient); [done|].
      unfold all_where. induction (rows (recipes s)); done. }
  destruct items as [|it items'] eqn:Hitems.
  { apply Hnone. unfold all_where. induction (rows (recipes s)); done. }
  rewrite <-Hitems in *. clearbody items. erewrite bind_run_Ok by reflexivity.
  set (rs := all_where _ _). destruct rs as [|r rs'] eqn:Hrs; [by apply Hnone|]. rewrite <-Hrs. clear Hnone.
  destruct (deduct_all_run rid (needed_of items rs) [] s Hwf Hno) as (oos & s1 & g & Hrun & Hded).
  rewrite (bind_run_Ok _ _ _ _ _ Hrun). 
  pose proof (st_frame _ _ _ (de_step _ _ _ _ _ _ Hded)) as Hfr.
  assert (recipes s1 = recipes s ∧ inv_dishes s1 = inv_dishes s) as [Hrec Hdish] by (by rewrite Hfr).
  destruct oos as [|o oos'] eqn:Ho.
  - exists [], s1, g, (λ d, d). split_and!; [done| |].
    + rewrite map_rows_id, <-Hdish by done. by destruct s1.
    + intros d. unfold hides. replace (all_where _ (recipes s)) with ([] : list DishIngredient); [done|].
      unfold all_where. induction (rows (recipes s)); done.
  - rewrite <-Ho in *. rewrite hide_dishes_run by (by rewrite Hdish).
    eexists oos, s1, g, _. split_and!; [done|by rewrite Hdish|]. intros d. by rewrite Hrec.
Qed.

(** An order consumes exactly what its recipes call for.  Without substitutes,
    every ingredient loses the sum over its recipe lines of the quantity per dish,
    times the dishes sold on lines that were not cancelled, times the yield factor;
    the stock may go below zero.  The dishes that are hidden are exactly the auto-hidden
    ones of the restaurant whose recipe needs an ingredient that this order ran out. *)
Theorem order_consumption rid oid s :
  stock_wf s → table_wf (inv_dishes s) → no_substitutes rid s →
  let items := live_items oid s in
  let rs := sold_recipes items s in
  ∃ s', deduct_for_order rid oid s = Ok tt s' ∧
    (∀ i x, get_row i (ingredients s) = Some x →
       ∃ q, get_row i (ingredients s') = Some (with_stock q x) ∧
         (q == current_stock x - qtotal (λ r, if di_ingredient_id r =? i then recipe_need items r else 0) rs)%Q) ∧
    (∀ d, d ∈ rows (inv_dishes s) →
       (sells_out s s' rs rid d → get_row (sd_id d) (inv_dishes s') = Some (hide_dish d)) ∧
       (¬ sells_out s s' rs rid d → get_row (sd_id d) (inv_dishes s') = Some d)).
Proof.
  intros Hwf Hd Hno items rs.
  destruct (deduct_for_order_run rid oid s Hwf Hd Hno) as (oos & s1 & g & h & Hded & Hrun & Hh).
  fold items rs in Hded, Hrun. destruct (needed_spec items rs) as (Hnd & Hkeys & Htot).
  eexists. split; [exact Hrun|]. destruct Hded as [Hst Hg Hoos].
  assert (Hout : ∀ k, k ∈ oos ↔ ran_out rs (with_inv_dishes (map_rows h (inv_dishes s)) s1) k).
  { intros k. rewrite Hoos by done. unfold ran_out. cbn [ingredients with_inv_dishes]. rewrite Hkeys. split.
    - intros [|(Hk & x & Hx & Hle)]; [set_solver|]. split; [done|]. eexists. split; [exact (stock_step_at _ _ _ _ _ Hst Hx)|done].
    - intros (Hk & x & Hx & Hle). right. split; [done|].
      apply (stock_step_at_inv _ _ _ _ _ Hst) in Hx as (x0 & ? & ->). eauto. }
  split.
  - intros i x Hx. exists (g i). split; [exact (stock_step_at _ _ _ _ _ Hst Hx)|]. rewrite (Hg _ _ Hx), <-Htot. unfold total_of_key. lra.
  - intros d Hin. cbn [inv_dishes with_inv_dishes]. rewrite get_map_rows.
    2:{ intros r. rewrite Hh. by destruct (hides _ _ r). }
    pose proof (get_row_wf _ _ Hd Hin) as Hget. change (row_id d) with (sd_id d) in Hget. rewrite Hget. cbn. rewrite Hh. rewrite <-(hides_spec s _ rs rid oos d Hout).
    destruct (hides _ _ d); naive_solver.
Qed.

(** ** Substitutes *)

Lemma ctx_round_nonneg x : (0 <= x)%Q → (0 <= ctx_round x)%Q.
Proof.
  intros Hx. pose proof (ctx_round_error x) as He. rewrite (Qabs.Qabs_pos x Hx) in He.
  apply Qnot_lt_le. intros Hneg. rewrite Qabs.Qabs_neg in He by lra.
  assert (inject_Z (2 * 10 ^ 27) == 2000000000000000000000000000)%Q as Hc by reflexivity.
  rewrite Hc in He. lra.
Qed.
Lemma ddiv_nonneg x y : (0 <= x)%Q → (0 < y)%Q → (0 <= ddiv x y)%Q.
Proof.
  intros Hx Hy. apply ctx_round_nonneg. apply Qle_shift_div_l; [done|]. lra.
Qed.
Lemma quantize_qty_nonneg x : (0 <= x)%Q → (0 <= quantize_qty x)%Q.
Proof.
  intros Hx. unfold quantize_qty, quantize_to. destruct x as [n d]. unfold Qle in *; cbn in *.
  assert (0 ≤ div_half_even (n * 1000) (Zpos d)); [|lia].
  rewrite <-(div_half_even_exact 0 (Zpos d)) at 1 by lia. apply div_half_even_mono; lia.
Qed.

(** Stocks only fell, and none below zero. *)
Definition drawn (s : inv_db) (g : Z → Q) : Prop :=
  ∀ i x, get_row i (ingredients s) = Some x →
    (g i == current_stock x)%Q ∨ (0 < current_stock x ∧ 0 <= g i <= current_stock x)%Q.

Lemma apply_substitute_run rid sub still s :
  stock_wf s → (0 < conversion_factor sub)%Q → (0 < still)%Q →
  ∃ left s' g, apply_substitute rid sub still s = Ok left s' ∧ (left <= still)%Q ∧ stock_step s s' g ∧ drawn s g.
Proof.
  intros Hwf Hf Hs. unfold apply_substitute. erewrite bind_run_Ok by reflexivity. cbv beta.
  assert (Hsame : ∃ left s' g, Ok still s = (Ok left s' : outcome inv_db inv_error Q) ∧ (left <= still)%Q ∧ stock_step s s' g ∧ drawn s g).
  { exists still, s, (λ i, stock_at i s). split_and!; [done|lra|apply (de_step [] [] []); by apply deducted_nil|].
    intros i x Hx. left. by rewrite (stock_at_Some _ _ _ Hx). }
  destruct (get_row _ (ingredients s)) as [alt|] eqn:Halt; [|exact Hsame].
  destruct (current_stock alt <=q 0) eqn:Hpos; [exact Hsame|]. clear Hsame. qbool.
  set (factor := if qzero (conversion_factor sub) then 1%Q else conversion_factor sub).
  assert (0 < factor)%Q as Hfac by (unfold factor; destruct (qzero _); lra).
  set (need := quantize_qty (still * factor)). set (take := qmin (current_stock alt) need).
  assert (0 <= need)%Q as Hneed by (apply quantize_qty_nonneg; nra).
  assert (0 <= take <= current_stock alt)%Q as Htake.
  { unfold take. destruct (qmin_cases (current_stock alt) need) as [[-> ?]|[-> ?]]; lra. }
  destruct (take_stock_run rid _ alt take s Hwf Halt) as (s1 & Hrun & Hst). rewrite Hrun.
  do 3 eexists. split_and!; [reflexivity| |exact Hst|].
  - assert (0 <= if qzero factor then take else quantize_qty (ddiv take factor))%Q; [|lra].
    destruct (qzero factor); [lra|]. apply quantize_qty_nonneg, ddiv_nonneg; lra.
  - intros i x Hx. destruct (decide (i = substitute_ingredient_id sub)) as [->|Hne].
    + simplify_eq. rewrite set_at_eq. right. lra.
    + rewrite set_at_ne by done. left. by rewrite (stock_at_Some _ _ _ Hx).
Qed.

Lemma drawn_trans s1 s2 g h : stock_step s1 s2 g → drawn s1 g → drawn s2 h → drawn s1 h.
Proof.
  intros Hst Hg Hh i x Hx. specialize (Hg i x Hx).
  specialize (Hh i _ (stock_step_at _ _ _ _ _ Hst Hx)). cbn in Hh. intuition lra.
Qed.

Lemma apply_substitutes_run rid subs still s :
  stock_wf s → (∀ u, u ∈ subs → 0 < conversion_factor u)%Q →
  ∃ left s' g, apply_substitutes rid subs still s = Ok left s' ∧ (left <= still)%Q ∧ stock_step s s' g ∧ drawn s g.
Proof.
  revert still s. induction subs as [|u subs IH]; intros still s Hwf Hpos; cbn [apply_substitutes].
  all: assert (Hsame : ∃ left s' g, Ok still s = (Ok left s' : outcome inv_db inv_error Q) ∧ (left <= still)%Q ∧
    stock_step s s' g ∧ drawn s g).
  1,3: exists still, s, (λ i, stock_at i s); split_and!; [done|lra|apply (de_step [] [] []); by apply deducted_nil|];
    intros i x Hx; left; by rewrite (stock_at_Some _ _ _ Hx).
  { exact Hsame. }
  destruct (still <=q 0) eqn:Hs; [exact Hsame|]. clear Hsame. qbool.
  destruct (apply_substitute_run rid u still s) as (l1 & s1 & g & Hrun & Hle & Hst & Hdr); [done|set_solver|done|].
  destruct (IH l1 s1) as (l2 & s2 & h & Hrun2 & Hle2 & Hst2 & Hdr2); [by eapply stock_step_wf|set_solver|].
  exists l2, s2, h. rewrite (bind_run_Ok _ _ _ _ _ Hrun). split_and!; [done|lra|by eapply stock_step_trans|].
  by eapply drawn_trans.
Qed.

(** Substitutes never overdraw.  With positive conversion factors, substitution
    always succeeds, leaves between nothing and the whole shortfall unfilled, and moves
    nothing but stocks and batches: an ingredient's stock either stays or falls from a
    positive quantity to one that is not negative. *)
Theorem substitutes_never_overdraw rid iid shortfall s :
  stock_wf s → (∀ u, u ∈ rows (substitutes s) → 0 < conversion_factor u)%Q →
  ∃ left s', _apply_substitutes rid iid shortfall s = Ok left s' ∧
    (0 <= left)%Q ∧ (0 <= shortfall → left <= shortfall)%Q ∧
    s' = with_ingredients (ingredients s') (with_batches (batches s') s) ∧
    (∀ i x, get_row i (ingredients s) = Some x → ∃ q, get_row i (ingredients s') = Some (with_stock q x) ∧
       ((q == current_stock x) ∨ (0 < current_stock x ∧ 0 <= q <= current_stock x))%Q).
Proof.
  intros Hwf Hpos. unfold _apply_substitutes. destruct (shortfall <=q 0) eqn:Hs; qbool.
  - exists 0%Q, s. split_and!; [done|lra|intros; lra|by destruct s|].
    intros i x Hx. exists (current_stock x). rewrite with_stock_same. split; [done|left; lra].
  - erewrite bind_run_Ok by reflexivity.
    edestruct (apply_substitutes_run rid) as (l & s' & g & Hrun & Hle & Hst & Hdr); [exact Hwf| |].
    2:{ rewrite (bind_run_Ok _ _ _ _ _ Hrun). do 2 eexists. split; [reflexivity|].
      split_and!; [destruct (l <q 0) eqn:Hl; qbool; lra..|apply Hst|].
      intros i x Hx. exists (g i). split; [exact (stock_step_at _ _ _ _ _ Hst Hx)|by apply Hdr]. }
    intros u [Hu _]%elem_of_sort_by%elem_of_all_where. by apply Hpos.
Qed.

(** ** Concrete states *)

Definition flour : Ingredient :=
  {| ing_id := 1; ing_restaurant_id := 7; ing_name := "Flour"; ing_unit := "kg"; current_stock := 5;
     low_stock_threshold := 2; par_level := 20; cost_per_unit_aed := 3; count_variance_threshold_pct := None |}.
Definition oil : Ingredient :=
  {| ing_id := 2; ing_restaurant_id := 7; ing_name := "Oil"; ing_unit := "l"; current_stock := 1;
     low_stock_threshold := 1; par_level := 10; cost_per_unit_aed := 12; count_variance_threshold_pct := None |}.
Definition batch_row (id iid : Z) (q : Q) (expiry : Z) : IngredientBatch :=
  {| ib_id := id; ib_restaurant_id := 7; ib_ingredient_id := iid; ib_qty := q; ib_qty_remaining := q;
     ib_expiry_date := expiry; ib_received_at := 0; ib_location_id := None |}.
Definition recipe_row (id dish iid : Z) (q yield : Q) : DishIngredient :=
  {| di_id := id; di_dish_id := dish; di_ingredient_id := iid; quantity_per_dish := q; yield_pct := yield |}.
Definition substitute_row (id iid alt : Z) : IngredientSubstitute :=
  {| su_id := id; su_restaurant_id := 7; su_ingredient_id := iid; substitute_ingredient_id := alt;
     su_notes := None; conversion_factor := 1; su_priority := 0 |}.
Definition empty_outbox : outbox_db := Build_outbox_db empty_table [] [] [] 0.
(** Flour and oil with three batches; dish 40 needs both; order 100 sells it twice. *)
Definition kitchen (ings : list Ingredient) (subs : list IngredientSubstitute) : inv_db := {|
  ingredients := Table ings 3;
  batches := Table [batch_row 1 1 3 20; batch_row 2 1 2 10; batch_row 3 2 1 30] 4;
  substitutes := Table subs 2;
  recipes := Table [recipe_row 1 40 1 (1 # 2) 80; recipe_row 2 40 2 (1 # 2) 100] 3;
  inv_items := Table [{| si_id := 1; si_order_id := 100; si_dish_id := 40; si_qty := 2; si_cancelled := false |};
                      {| si_id := 2; si_order_id := 100; si_dish_id := 40; si_qty := 5; si_cancelled := true |}] 3;
  inv_orders := empty_table;
  inv_dishes := Table [{| sd_id := 40; sd_restaurant_id := 7; is_available := true; stock_remaining := Some 3;
                          auto_hide_when_oos := true |}] 41;
  waste_logs := empty_table; count_logs := empty_table; snapshots := empty_table; anomalies := empty_table;
  adjustments := empty_table; locations := empty_table; vendors := empty_table; purchase_orders := empty_table;
  po_lines := empty_table; grns := empty_table; grn_lines := empty_table; inv_audit := [];
  inv_outbox := empty_outbox; inv_now := 0 |}.

Lemma kitchen_wf subs : stock_wf (kitchen [flour; oil] subs).
Proof. split; by apply table_wf_check. Qed.

Lemma fefo_consumption_witness :
  ∃ left f, _deduct_fefo_batches 7 1 4 (kitchen [flour; oil] []) =
    Ok left (with_batches (rem_table f (batches (kitchen [flour; oil] []))) (kitchen [flour; oil] [])).
Proof.
  destruct (fefo_consumption 7 1 4 (kitchen [flour; oil] []) (proj2 (kitchen_wf []))) as (left & f & Hrun & _).
  exists left, f. exact Hrun.
Defined.
(** Four kilos: the batch of day 10 is emptied, the one of day 20 keeps one. *)
Example fefo_order :
  (Qred <$> value (_deduct_fefo_batches 7 1 4 (kitchen [flour; oil] [])),
   (λ b, Qred (ib_qty_remaining b)) <$> rows (batches (final (_deduct_fefo_batches 7 1 4 (kitchen [flour; oil] [])))))
  = (Some 0%Q, [1; 0; 1]%Q).
Proof. reflexivity. Qed.

Lemma order_consumption_witness :
  ∃ s', deduct_for_order 7 100 (kitchen [flour; oil] []) = Ok tt s' ∧
    get_row 40 (inv_dishes s') = Some {| sd_id := 40; sd_restaurant_id := 7; is_available := false;
      stock_remaining := Some 0; auto_hide_when_oos := true |}.
Proof.
  destruct (order_consumption 7 100 (kitchen [flour; oil] []) (kitchen_wf [])) as (s' & Hrun & _ & Hd).
  - by apply table_wf_check.
  - intros u Hu. set_solver.
  - exists s'. split; [exact Hrun|]. destruct (Hd _ (list_elem_of_here _ _)) as [Hd1 _]. apply Hd1.
    split_and!; [done..|]. exists (recipe_row 2 40 2 (1 # 2) 100). split_and!; [|done|].
    + apply list_elem_of_In. cbn. auto.
    + split; [apply list_elem_of_In; vm_compute; auto|].
      replace s' with (final (deduct_for_order 7 100 (kitchen [flour; oil] []))) by by rewrite Hrun.
      eexists. split; [vm_compute; reflexivity|discriminate].
Defined.

Lemma substitutes_never_overdraw_witness :
  ∃ left s', _apply_substitutes 7 1 8 (kitchen [flour; oil] [substitute_row 1 1 2]) = Ok left s' ∧ (left == 7)%Q.
Proof.
  destruct (substitutes_never_overdraw 7 1 8 (kitchen [flour; oil] [substitute_row 1 1 2])) as (l & s' & Hrun & _).
  - apply kitchen_wf.
  - by intros u ->%list_elem_of_singleton.
  - exists l, s'. split; [exact Hrun|]. revert Hrun. vm_compute. by intros [= <- _].
Defined.

(** A gap recorded by an earlier order (a negative stock) is asked of the substitutes
    again by the next order: two kilos needed, seven taken. *)
Lemma earlier_gap_charged_to_substitute :
  let s := kitchen [with_stock (-5) flour; with_stock 100 oil] [substitute_row 1 1 2] in
  match deduct_ingredient 7 (1, 2%Q) [] s with
  | Ok _ s' => (stock_at 1 s' == 0)%Q ∧ (stock_at 2 s' == 93)%Q
  | Err _ _ => False
  end.
Proof. vm_compute. split; reflexivity. Qed.

(** A substitute that runs dry is not among the ingredients that ran out: its own
    dishes stay on sale. *)
Lemma drained_substitute_stays_on_sale :
  let s := kitchen [flour; oil] [substitute_row 1 1 2] in
  match for_fold (deduct_ingredient 7) [(1, 10%Q)] [] s with
  | Ok oos s' => oos = [1] ∧ (stock_at 2 s' == 0)%Q
  | Err _ _ => False
  end.
Proof. vm_compute. split; reflexivity. Qed.

(** Waste recorded against a batch is taken from the batch that expires first. *)
Lemma waste_ignores_batch :
  (λ b, Qred (ib_qty_remaining b)) <$>
    rows (batches (final (record_waste 7 1 1 None "chef" "spoilage" (Some 1) (kitchen [flour; oil] []))))
  = [3; 1; 1]%Q.
Proof. reflexivity. Qed.
