(* ===== verification/StockClosing.v ===== *)
(** * Closing stock, valuation, adjustments and the food-cost report ([inventory/service.py],
    [inventory/costing.py])

    The end-of-day snapshots and their readers, what the stock is worth, the
    adjustments that need an approval, and the comparison of actual with theoretical
    food cost over a period. *)

From S2P Require Import Prelude Money Strings Db AuditTrail Clock Floats Outbox InventoryDb Inventory.

(** What a quantity of an ingredient is worth, in cents. *)
Definition stock_value (i : Ingredient) : Z := quantize (current_stock i * cost_per_unit_aed i).
Definition own_ingredients (restaurant_id : Z) (s : inv_db) : list Ingredient :=
  all_where (λ i, ing_restaurant_id i =? restaurant_id) (ingredients s).

(** ** Closing snapshots *)

Record closing_row := {
  cw_ingredient_id : Z;
  cw_ingredient_name : string;
  cw_closing_stock : Q;
  cw_unit : string;
  cw_valuation_aed : Z;
  cw_closing_date : string;
}.

Definition snapshot_of (restaurant_id ingredient_id date : Z) (c : StockClosingSnapshot) : bool :=
  (cs_restaurant_id c =? restaurant_id) && (cs_ingredient_id c =? ingredient_id) && (cs_closing_date c =? date).
Definition snapshot_row (id restaurant_id date : Z) (i : Ingredient) : StockClosingSnapshot :=
  {| cs_id := id; cs_restaurant_id := restaurant_id; cs_ingredient_id := ing_id i; cs_closing_date := date;
     cs_closing_stock := current_stock i; cs_unit := ing_unit i; cs_valuation_aed := stock_value i |}.

Definition snapshot_one (restaurant_id target : Z) (i : Ingredient) (result : list closing_row)
    : IM (list closing_row) :=
  existing ← gets (λ s, first_where (snapshot_of restaurant_id (ing_id i) target) (snapshots s));
  (match existing with
   | None =>
       modify (λ s, with_snapshots (add_row (snapshot_row (next_id (snapshots s)) restaurant_id target i) (snapshots s)) s)
   | Some c =>
       modify (λ s, with_snapshots (set_row (snapshot_row (cs_id c) restaurant_id target i) (snapshots s)) s)
   end) ≫= λ _,
  mret (result ++ [{| cw_ingredient_id := ing_id i; cw_ingredient_name := ing_name i;
    cw_closing_stock := current_stock i; cw_unit := ing_unit i; cw_valuation_aed := stock_value i;
    cw_closing_date := isoformat target |}]).

Definition take_stock_closing_snapshot (restaurant_id : Z) (target_date : option Z) : IM (list closing_row) :=
  now ← gets inv_now;
  let target := default (date_of now) target_date in
  own ← gets (own_ingredients restaurant_id);
  for_fold (snapshot_one restaurant_id target) own [].

Definition daily_row (names : table Ingredient) (c : StockClosingSnapshot) : closing_row :=
  {| cw_ingredient_id := cs_ingredient_id c;
     cw_ingredient_name := default ""%string (ing_name <$> get_row (cs_ingredient_id c) names);
     cw_closing_stock := cs_closing_stock c; cw_unit := cs_unit c; cw_valuation_aed := cs_valuation_aed c;
     cw_closing_date := isoformat (cs_closing_date c) |}.
Definition daily_stock_closing (restaurant_id target_date : Z) : IM (list closing_row) :=
  snaps ← gets (λ s, all_where (λ c, (cs_restaurant_id c =? restaurant_id) && (cs_closing_date c =? target_date)) (snapshots s));
  match snaps with
  | [] => take_stock_closing_snapshot restaurant_id (Some target_date)
  | _ => names ← gets ingredients; mret (daily_row names <$> snaps)
  end.

Record history_row := { hr_closing_date : string; hr_total_value_aed : Z; hr_items : Z }.
Definition stock_closing_history (restaurant_id days : Z) : IM (list history_row) :=
  now ← gets inv_now;
  let cutoff := date_of now - (Z.max 1 days - 1) in
  t ← gets snapshots;
  let recent := λ c, (cs_restaurant_id c =? restaurant_id) && (cutoff <=? cs_closing_date c) in
  let dates := sort_by (λ a b, b <=? a) (remove_dups (cs_closing_date <$> all_where recent t)) in
  mret ((λ d, let on_day := λ c, recent c && (cs_closing_date c =? d) in
              {| hr_closing_date := isoformat d; hr_total_value_aed := sum_where on_day cs_valuation_aed t;
                 hr_items := count_where on_day t |}) <$> dates).

(** ** Valuation and costing *)

Record valuation := { va_total_value_aed : Z; va_rows : list (Ingredient * Z) }.
Definition inventory_valuation (restaurant_id : Z) : IM valuation :=
  own ← gets (λ s, sort_by (λ a b, ing_id a <=? ing_id b) (own_ingredients restaurant_id s));
  mret {| va_total_value_aed := zsum stock_value own; va_rows := (λ i, (i, stock_value i)) <$> own |}.

Definition dish_cost (dish_id : Z) : IM Q :=
  rs ← gets (λ s, all_where (λ r, di_dish_id r =? dish_id) (recipes s));
  t ← gets ingredients;
  mret (fold_left (λ total r,
    total + quantity_per_dish r * yield_factor r *
      match get_row (di_ingredient_id r) t with Some i => cost_per_unit_aed i | None => 0 end)%Q rs 0%Q).

(** ** Adjustments under approval *)

Definition update_adjustment (a : StockAdjustmentRequest) : IM unit :=
  modify (λ s, with_adjustments (set_row a (adjustments s)) s).
Definition decided (st : adjustment_status) (by_ : string) (at_ : Z) (a : StockAdjustmentRequest)
    : StockAdjustmentRequest :=
  {| ad_id := ad_id a; ad_restaurant_id := ad_restaurant_id a; ad_ingredient_id := ad_ingredient_id a;
     ad_requested_qty := ad_requested_qty a; ad_previous_qty_snapshot := ad_previous_qty_snapshot a;
     ad_reason := ad_reason a; ad_status := st; ad_requested_by := ad_requested_by a;
     ad_approved_by := Some by_; ad_decided_at := Some at_ |}.

Definition request_stock_adjustment (restaurant_id ingredient_id : Z) (requested_qty : Q)
    (reason : option string) (requested_by : string) : IM StockAdjustmentRequest :=
  found ← gets (own_ingredient restaurant_id ingredient_id);
  match found with
  | None => raise IngredientNotFound
  | Some i =>
      t ← gets adjustments;
      let a := {| ad_id := next_id t; ad_restaurant_id := restaurant_id; ad_ingredient_id := ingredient_id;
        ad_requested_qty := requested_qty; ad_previous_qty_snapshot := current_stock i; ad_reason := reason;
        ad_status := APending; ad_requested_by := requested_by; ad_approved_by := None; ad_decided_at := None |} in
      modify (with_adjustments (add_row a t)) ≫= λ _, mret a
  end.

Definition _get_pending_adjustment (restaurant_id adjustment_id : Z) : IM StockAdjustmentRequest :=
  found ← gets (λ s, get_row adjustment_id (adjustments s));
  match found with
  | None => raise AdjustmentNotFound
  | Some a =>
      if negb (ad_restaurant_id a =? restaurant_id) then raise AdjustmentNotFound else
      if negb (bool_decide (ad_status a = APending)) then raise AdjustmentAlreadyDecided else mret a
  end.

Definition approve_stock_adjustment (restaurant_id adjustment_id : Z) (approved_by : string)
    : IM StockAdjustmentRequest :=
  a ← _get_pending_adjustment restaurant_id adjustment_id;
  found ← gets (own_ingredient restaurant_id (ad_ingredient_id a));
  match found with
  | None => raise IngredientNotFound
  | Some i =>
      now ← gets inv_now;
      update_ingredient (with_stock (ad_requested_qty a) i) ≫= λ _,
      let a' := decided AApproved approved_by now a in
      update_adjustment a' ≫= λ _,
      _ ← audit approved_by restaurant_id "stock_adjustment" (pretty (ad_id a)) "approve"
            (Some [("current_stock", JStr (str_qty (current_stock i))); ("status", JStr "pending")]%string)
            (Some [("current_stock", JStr (str_qty (ad_requested_qty a))); ("status", JStr "approved")]%string);
      mret a'
  end.
Definition reject_stock_adjustment (restaurant_id adjustment_id : Z) (approved_by : string)
    : IM StockAdjustmentRequest :=
  a ← _get_pending_adjustment restaurant_id adjustment_id;
  now ← gets inv_now;
  let a' := decided ARejected approved_by now a in
  update_adjustment a' ≫= λ _,
  _ ← audit approved_by restaurant_id "stock_adjustment" (pretty (ad_id a)) "reject"
        (Some [("status", JStr "pending")]%string) (Some [("status", JStr "rejected")]%string);
  mret a'.

(** ** Actual against theoretical food cost *)

(** A row of the report: quantities in thousandths, amounts in cents, as printed. *)
Record avt_row := {
  av_ingredient_id : Z;
  av_opening : Z; av_purchased : Z; av_closing : Z; av_actual : Z; av_theoretical : Z; av_variance : Z;
  av_variance_value_aed : Z; av_theoretical_cost_aed : Z; av_actual_cost_aed : Z;
}.
Record avt_report := {
  rp_rows : list avt_row;
  rp_missing_counts : list string;
  rp_complete : bool;
  rp_sales_aed : option Z;
  rp_theoretical_cost_aed : Z;
  rp_actual_cost_aed : Z;
  rp_variance_value_aed : Z;
  rp_variance_pct_of_sales : option Z;
}.

(** The closing snapshots of a day by ingredient: the last one of an ingredient wins. *)
Definition closing_on (restaurant_id date ingredient_id : Z) (s : inv_db) : option StockClosingSnapshot :=
  List.find (λ c, cs_ingredient_id c =? ingredient_id)
    (List.rev (all_where (λ c, (cs_restaurant_id c =? restaurant_id) && (cs_closing_date c =? date)) (snapshots s))).

Definition in_period (start_ end_ t : Z) : bool := (start_ * day <=? t) && (t <? (end_ + 1) * day).
Definition period_receipts (restaurant_id start_ end_ : Z) (s : inv_db) : list GoodsReceivedLine :=
  all_where (λ l, existsb (λ g, (gn_id g =? gl_grn_id l) && (gn_restaurant_id g =? restaurant_id)) (rows (grns s))
                  && in_period start_ end_ (gl_created_at l)) (grn_lines s).
Definition period_order (restaurant_id start_ end_ : Z) (o : StockedOrder) : bool :=
  (sk_restaurant_id o =? restaurant_id) && negb (in_strs (sk_status o) ["cancelled"; "draft"]%string)
  && in_period start_ end_ (sk_created_at o).
Definition period_items (restaurant_id start_ end_ : Z) (s : inv_db) : list StockedItem :=
  all_where (λ i, existsb (λ o, (sk_id o =? si_order_id i) && period_order restaurant_id start_ end_ o) (rows (inv_orders s))
                  && negb (si_cancelled i)) (inv_items s).

Definition qsum {A} (f : A → Q) (l : list A) : Q := fold_left (λ t x, t + f x)%Q l 0%Q.
Definition need_get (k : Z) (d : list (Z * Q)) : Q :=
  match List.find (λ kv, fst kv =? k) d with Some (_, v) => v | None => 0%Q end.

Definition avt_line (bought bought_value want : Q) (open_row close_row : StockClosingSnapshot) (i : Ingredient)
    : avt_row :=
  let actual := (cs_closing_stock open_row + bought - cs_closing_stock close_row)%Q in
  let variance := (actual - want)%Q in
  {| av_ingredient_id := ing_id i;
     av_opening := quantize_to 1000 (cs_closing_stock open_row); av_purchased := quantize_to 1000 bought;
     av_closing := quantize_to 1000 (cs_closing_stock close_row); av_actual := quantize_to 1000 actual;
     av_theoretical := quantize_to 1000 want; av_variance := quantize_to 1000 variance;
     av_variance_value_aed := quantize (variance * cost_per_unit_aed i);
     av_theoretical_cost_aed := quantize (want * cost_per_unit_aed i);
     av_actual_cost_aed :=
       quantize (aed (cs_valuation_aed open_row) + bought_value - aed (cs_valuation_aed close_row)) |}.

Definition avt_step (restaurant_id start_ end_ : Z) (s : inv_db) (receipts : list GoodsReceivedLine)
    (theoretical : list (Z * Q)) (i : Ingredient) (acc : list avt_row * list string) : list avt_row * list string :=
  let '(rws, missing) := acc in
  let mine := List.filter (λ l, gl_ingredient_id l =? ing_id i) receipts in
  let bought := qsum gl_qty_received mine in
  let bought_value := qsum (λ l, gl_qty_received l * gl_unit_cost_aed l)%Q mine in
  let want := need_get (ing_id i) theoretical in
  match closing_on restaurant_id (start_ - 1) (ing_id i) s, closing_on restaurant_id end_ (ing_id i) s with
  | Some o, Some c => (rws ++ [avt_line bought bought_value want o c i], missing)
  | _, _ => (rws, if (0 <q want) || (0 <q bought) then missing ++ [ing_name i] else missing)
  end.

Definition actual_vs_theoretical (restaurant_id start_ end_ : Z) : IM avt_report :=
  own ← gets (own_ingredients restaurant_id);
  match own with
  | [] => mret {| rp_rows := []; rp_missing_counts := []; rp_complete := true; rp_sales_aed := None;
                  rp_theoretical_cost_aed := 0; rp_actual_cost_aed := 0; rp_variance_value_aed := 0;
                  rp_variance_pct_of_sales := None |}
  | _ =>
      s ← gets id;
      let items := period_items restaurant_id start_ end_ s in
      let theoretical := needed_of items
        (all_where (λ r, in_ids (di_dish_id r) (si_dish_id <$> items)) (recipes s)) in
      let '(rws, missing) := fold_left
        (λ acc i, avt_step restaurant_id start_ end_ s (period_receipts restaurant_id start_ end_ s) theoretical i acc)
        own ([], []) in
      let total_theoretical := zsum av_theoretical_cost_aed rws in
      let total_actual := zsum av_actual_cost_aed rws in
      let sales := sum_where (period_order restaurant_id start_ end_) sk_total (inv_orders s) in
      mret {| rp_rows := sort_by (λ a b, Z.abs (av_variance_value_aed b) <=? Z.abs (av_variance_value_aed a)) rws;
              rp_missing_counts := missing; rp_complete := match missing with [] => true | _ => false end;
              rp_sales_aed := Some sales;
              rp_theoretical_cost_aed := total_theoretical; rp_actual_cost_aed := total_actual;
              rp_variance_value_aed := zsum av_variance_value_aed rws;
              rp_variance_pct_of_sales :=
                if 0 <? sales then Some (quantize (ddiv (aed (total_actual - total_theoretical)) (aed sales) * 100))
                else None |}
  end.
