(* ===== verification/StockClosingFacts.v ===== *)
(** * Correctness of closings and adjustments

    A day's closing is read back as it was taken, whatever was there before, and
    taking it again changes nothing; an adjustment is decided once. *)

From S2P Require Import Prelude Money Strings Db AuditTrail Clock Floats Outbox InventoryDb Inventory InventoryFacts StockClosing.

(** ** Closings *)

Definition closing_row_of (target : Z) (i : Ingredient) : closing_row :=
  {| cw_ingredient_id := ing_id i; cw_ingredient_name := ing_name i; cw_closing_stock := current_stock i;
     cw_unit := ing_unit i; cw_valuation_aed := stock_value i; cw_closing_date := isoformat target |}.
(** The unique key of a snapshot. *)
Definition snapshot_key (c : StockClosingSnapshot) : Z * Z * Z :=
  (cs_restaurant_id c, cs_ingredient_id c, cs_closing_date c).
Definition of_day (rid target : Z) (c : StockClosingSnapshot) : bool :=
  (cs_restaurant_id c =? rid) && (cs_closing_date c =? target).

Lemma snapshot_of_spec rid iid target c :
  snapshot_of rid iid target c = true ↔ snapshot_key c = (rid, iid, target).
Proof.
  unfold snapshot_of, snapshot_key. rewrite !andb_true_iff, !Z.eqb_eq.
  split; [intros [[-> ->] ->]; done|by intros [= -> -> ->]].
Qed.
Lemma of_day_spec rid target c : of_day rid target c = true ↔ cs_restaurant_id c = rid ∧ cs_closing_date c = target.
Proof. unfold of_day. by rewrite andb_true_iff, !Z.eqb_eq. Qed.

(** The snapshots after the ingredients [done] were captured. *)
Record captured (rid target : Z) (own captured_ : list Ingredient) (t0 t : table StockClosingSnapshot) : Prop := {
  cp_wf : table_wf t;
  cp_unique : unique_on snapshot_key t;
  cp_own : ∀ c, c ∈ rows t → of_day rid target c = true → ∃ i, i ∈ own ∧ ing_id i = cs_ingredient_id c;
  cp_done : ∀ i, i ∈ captured_ → ∃ c, c ∈ rows t ∧ c = snapshot_row (cs_id c) rid target i;
  cp_other : ∀ c, of_day rid target c = false → c ∈ rows t ↔ c ∈ rows t0;
}.

Definition capture (rid target : Z) (i : Ingredient) (t : table StockClosingSnapshot) : table StockClosingSnapshot :=
  match first_where (snapshot_of rid (ing_id i) target) t with
  | None => add_row (snapshot_row (next_id t) rid target i) t
  | Some c => set_row (snapshot_row (cs_id c) rid target i) t
  end.

Lemma snapshot_one_run rid target i result s :
  snapshot_one rid target i result s =
    Ok (result ++ [closing_row_of target i]) (with_snapshots (capture rid target i (snapshots s)) s).
Proof.
  unfold snapshot_one, capture, mbind, M_bind, gets, modify, mret, M_ret.
  by destruct (first_where _ (snapshots s)).
Qed.

Lemma snapshot_row_day id rid target i : of_day rid target (snapshot_row id rid target i) = true.
Proof. apply of_day_spec. done. Qed.

Lemma capture_captured rid target own done_ t0 t i :
  i ∈ own → (∀ j, j ∈ done_ → ing_id j ≠ ing_id i) →
  captured rid target own done_ t0 t → captured rid target own (done_ ++ [i]) t0 (capture rid target i t).
Proof.
  intros Hi Hne [Hwf Hu Hown Hdone Hother]. unfold capture.
  destruct (first_where _ t) as [c|] eqn:Hf.
  - apply first_where_Some in Hf as [Hc Hk%snapshot_of_spec].
    set (c' := snapshot_row (cs_id c) rid target i).
    assert (Hid : row_id c' = row_id c) by done.
    assert (Hin : c' ∈ rows (set_row c' t)).
    { pose proof (elem_of_set_row_2 c' c t Hc) as H. rewrite Hid, Z.eqb_refl in H. done. }
    assert (Hkeep : ∀ x, x ∈ rows t → x ≠ c → x ∈ rows (set_row c' t)).
    { intros x Hx Hxc. pose proof (elem_of_set_row_2 c' x t Hx) as H. rewrite Hid in H.
      destruct (row_id x =? row_id c) eqn:E; [|done]. zbool. destruct Hxc. by apply (wf_unique t Hwf). }
    split.
    + by apply set_row_wf.
    + apply set_row_unique; [done|]. intros x Hx Hxid Hkx. apply Hxid. rewrite Hid. f_equal.
      apply Hu; [done..|]. by rewrite Hk, Hkx.
    + intros x Hx Hday. apply elem_of_set_row in Hx as [[-> _]|[Hx _]]; [by exists i|by apply Hown].
    + intros j [Hj| ->%list_elem_of_singleton]%elem_of_app; [|by exists c'].
      destruct (Hdone j Hj) as (x & Hx & Hxj). exists x. split; [|done]. apply Hkeep; [done|].
      intros ->. apply (Hne j Hj). rewrite Hxj in Hk. by injection Hk.
    + intros x Hday. rewrite <-(Hother x Hday). split.
      * intros Hx. apply elem_of_set_row in Hx as [[-> _]|[Hx _]]; [|done].
        by unfold c' in Hday; rewrite snapshot_row_day in Hday.
      * intros Hx. apply Hkeep; [done|]. intros ->. injection Hk as H1 _ H2.
        by rewrite (proj2 (of_day_spec rid target c)) in Hday.
  - rewrite first_where_None in Hf. set (c' := snapshot_row (next_id t) rid target i). split.
    + by apply add_row_wf.
    + apply add_row_unique; [done|]. intros x Hx Hkx. specialize (Hf x Hx).
      by rewrite (proj2 (snapshot_of_spec rid (ing_id i) target x)) in Hf.
    + intros x Hx Hday. apply elem_of_add_row in Hx as [Hx| ->]; [by apply Hown|by exists i].
    + intros j [Hj| ->%list_elem_of_singleton]%elem_of_app.
      * destruct (Hdone j Hj) as (x & Hx & Hxj). exists x. split; [|done]. apply elem_of_add_row. by left.
      * exists c'. split; [|done]. apply elem_of_add_row. by right.
    + intros x Hday. rewrite <-(Hother x Hday), elem_of_add_row. split; [|by left].
      intros [| ->]; [done|]. by unfold c' in Hday; rewrite snapshot_row_day in Hday.
Qed.

Lemma capture_all_run rid target l result s :
  for_fold (snapshot_one rid target) l result s =
    Ok (result ++ (closing_row_of target <$> l))
       (with_snapshots (fold_left (λ t i, capture rid target i t) l (snapshots s)) s).
Proof.
  revert result s. induction l as [|i l IH]; intros result s; cbn.
  - rewrite app_nil_r. by destruct s.
  - rewrite (bind_run_Ok _ _ _ _ _ (snapshot_one_run _ _ _ _ _)), IH. by rewrite <-app_assoc.
Qed.

Lemma capture_all_captured rid target own l done_ t0 t :
  NoDup (ing_id <$> done_ ++ l) → (∀ i, i ∈ l → i ∈ own) → captured rid target own done_ t0 t →
  captured rid target own (done_ ++ l) t0 (fold_left (λ t i, capture rid target i t) l t).
Proof.
  revert done_ t. induction l as [|i l IH]; intros done_ t Hnd Hl Ht; cbn.
  - by rewrite app_nil_r.
  - rewrite (cons_middle i done_ l), app_assoc. apply IH.
    + by rewrite <-app_assoc.
    + set_solver.
    + apply capture_captured; [set_solver| |done]. intros j Hj Heq.
      rewrite fmap_app, NoDup_app in Hnd. destruct Hnd as (_ & Hnd & _).
      apply (Hnd (ing_id j)); [by apply list_elem_of_fmap_2|]. rewrite Heq. cbn. set_solver.
Qed.

(** The closing of a day can be taken: keys are unique and every snapshot of the day is
    of an ingredient that the restaurant still has. *)
Record closing_wf (rid target : Z) (s : inv_db) : Prop := {
  cw_ingredients : table_wf (ingredients s);
  cw_snapshots : table_wf (snapshots s);
  cw_unique : unique_on snapshot_key (snapshots s);
  cw_known : ∀ c, c ∈ rows (snapshots s) → of_day rid target c = true →
    ∃ i, i ∈ own_ingredients rid s ∧ ing_id i = cs_ingredient_id c;
}.

Lemma own_ids_NoDup rid s : table_wf (ingredients s) → NoDup (ing_id <$> own_ingredients rid s).
Proof.
  intros Hwf. apply NoDup_fmap_2_strong.
  - intros i j [Hi _]%elem_of_all_where [Hj _]%elem_of_all_where. by apply (wf_unique _ Hwf).
  - apply NoDup_ListNoDup, List.NoDup_filter, NoDup_ListNoDup, Hwf.
Qed.

Lemma take_snapshot_run rid target s :
  closing_wf rid target s →
  ∃ t, take_stock_closing_snapshot rid (Some target) s =
         Ok (closing_row_of target <$> own_ingredients rid s) (with_snapshots t s) ∧
    captured rid target (own_ingredients rid s) (own_ingredients rid s) (snapshots s) t ∧
    t = fold_left (λ t i, capture rid target i t) (own_ingredients rid s) (snapshots s).
Proof.
  intros [Hi Hs Hu Hk]. eexists. split_and!; [|apply (capture_all_captured _ _ _ _ []); [|done|]|reflexivity].
  - unfold take_stock_closing_snapshot. erewrite bind_run_Ok by reflexivity.
    erewrite bind_run_Ok by reflexivity. apply capture_all_run.
  - by apply own_ids_NoDup.
  - split; [done..|set_solver|done].
Qed.

(** An ingredient captured before is captured the same way again. *)
Lemma capture_again rid target own t0 t i :
  captured rid target own own t0 t → i ∈ own → capture rid target i t = t.
Proof.
  intros [Hwf Hu _ Hdone _] Hi. destruct (Hdone i Hi) as (c & Hc & Heq).
  assert (Hkey : snapshot_key c = (rid, ing_id i, target)) by by rewrite Heq.
  unfold capture. rewrite (first_where_unique _ t c); [| done |by apply snapshot_of_spec|].
  - rewrite <-Heq. destruct t as [l n]. unfold set_row. cbn in *. f_equal.
    rewrite <-(List.map_id l) at 2. apply List.map_ext_in. intros x Hx. apply list_elem_of_In in Hx.
    destruct (row_id x =? row_id c) eqn:Hid; [|done]. zbool. symmetry. by apply (wf_unique _ Hwf).
  - intros x Hx Hp%snapshot_of_spec. apply Hu; [done..|congruence].
Qed.

Lemma daily_closing_run rid target s t0 :
  captured rid target (own_ingredients rid s) (own_ingredients rid s) t0 (snapshots s) →
  table_wf (ingredients s) →
  daily_row (ingredients s) <$> all_where (of_day rid target) (snapshots s) ≡ₚ
    closing_row_of target <$> own_ingredients rid s.
Proof.
  intros Hcap Hi. pose proof Hcap as [Hwf Hu Hown Hdone _].
  assert (Hfrom : ∀ c, c ∈ all_where (of_day rid target) (snapshots s) →
    ∃ i, i ∈ own_ingredients rid s ∧ c = snapshot_row (cs_id c) rid target i).
  { intros c [Hc Hday]%elem_of_all_where. destruct (Hown c Hc Hday) as (i & Hin & Hid). exists i. split; [done|].
    destruct (Hdone i Hin) as (c' & Hc' & Heq). apply of_day_spec in Hday as [Hr Hd].
    assert (c = c') as ->; [|done]. apply Hu; [done..|]. rewrite Heq. unfold snapshot_key. cbn. by rewrite Hr, Hd, Hid. }
  assert (Hrow : ∀ id i, i ∈ own_ingredients rid s →
    daily_row (ingredients s) (snapshot_row id rid target i) = closing_row_of target i).
  { intros id i [Hin _]%elem_of_all_where. unfold daily_row, closing_row_of. cbn.
    pose proof (get_row_wf _ _ Hi Hin) as Hg. change (row_id i) with (ing_id i) in Hg. by rewrite Hg. }
  apply NoDup_Permutation.
  - apply NoDup_fmap_2_strong.
    + intros c c' Hc Hc' Heq. apply (f_equal cw_ingredient_id) in Heq. cbn in Heq.
      apply elem_of_all_where in Hc as [Hc [Hr Hd]%of_day_spec], Hc' as [Hc' [Hr' Hd']%of_day_spec].
      apply Hu; [done..|]. unfold snapshot_key. congruence.
    + apply NoDup_ListNoDup, List.NoDup_filter, NoDup_ListNoDup, Hwf.
  - eapply (NoDup_fmap_1 cw_ingredient_id). rewrite <-list_fmap_compose. by apply own_ids_NoDup.
  - intros w. rewrite !list_elem_of_fmap. split.
    + intros (c & -> & Hc). destruct (Hfrom c Hc) as (i & Hin & ->). exists i. by rewrite Hrow.
    + intros (i & -> & Hin). destruct (Hdone i Hin) as (c & Hc & Heq). exists c.
      split; [rewrite Heq; by rewrite Hrow|]. apply elem_of_all_where. split; [done|].
      rewrite Heq. apply snapshot_row_day.
Qed.

(** A day's closing reads back as it was taken.  Taking the closing captures every
    ingredient of the restaurant at its current stock and value, replaces the day's
    earlier figures and leaves every other day and restaurant alone; the day's closing
    then reads the same rows back (in the order of the table), and taking it again
    gives the same rows and changes nothing. *)
Theorem closing_reads_back rid target s :
  closing_wf rid target s →
  let rws := closing_row_of target <$> own_ingredients rid s in
  ∃ s', take_stock_closing_snapshot rid (Some target) s = Ok rws s' ∧
    s' = with_snapshots (snapshots s') s ∧
    (∀ c, of_day rid target c = false → c ∈ rows (snapshots s') ↔ c ∈ rows (snapshots s)) ∧
    (∃ read, daily_stock_closing rid target s' = Ok read s' ∧ read ≡ₚ rws) ∧
    take_stock_closing_snapshot rid (Some target) s' = Ok rws s'.
Proof.
  intros Hwf rws. destruct (take_snapshot_run rid target s Hwf) as (t & Hrun & Hcap & _).
  set (s' := with_snapshots t s). exists s'.
  assert (Hown : own_ingredients rid s' = own_ingredients rid s) by done.
  assert (Hwf' : closing_wf rid target s').
  { destruct Hwf. split; [done|apply Hcap..|]. rewrite Hown. apply Hcap. }
  assert (Hagain : take_stock_closing_snapshot rid (Some target) s' = Ok rws s').
  { destruct (take_snapshot_run rid target s' Hwf') as (t' & -> & _ & ->). rewrite Hown. f_equal.
    unfold s' at 3. replace (fold_left _ _ _) with t; [done|]. cbn [snapshots s' with_snapshots].
    assert (Hl : ∀ i, i ∈ own_ingredients rid s → capture rid target i t = t) by (intros; by eapply capture_again).
    clear -Hl. induction (own_ingredients rid s) as [|i l IH]; cbn; [done|].
    rewrite (Hl i) by set_solver. apply IH. set_solver. }
  split_and!; [exact Hrun|done|apply Hcap| |exact Hagain].
  pose proof (daily_closing_run rid target s' _ Hcap (cw_ingredients _ _ _ Hwf)) as Hperm.
  unfold daily_stock_closing. erewrite bind_run_Ok by reflexivity. cbv beta.
  change (λ c, (cs_restaurant_id c =? rid) && (cs_closing_date c =? target)) with (of_day rid target).
  destruct (all_where (of_day rid target) (snapshots s')) as [|c l] eqn:Hsnaps.
  - exists rws. by rewrite Hagain.
  - erewrite bind_run_Ok by reflexivity. eexists. split; [reflexivity|exact Hperm].
Qed.

(** Two ingredients, one of them captured earlier in the day. *)
Definition counted_kitchen : inv_db :=
  with_snapshots (Table [snapshot_row 1 7 3 (with_stock 9 oil); snapshot_row 2 7 2 flour] 3) (kitchen [flour; oil] []).
Lemma closing_reads_back_witness :
  ∃ s' read, take_stock_closing_snapshot 7 (Some 3) counted_kitchen =
      Ok (closing_row_of 3 <$> [flour; oil]) s' ∧
    daily_stock_closing 7 3 s' = Ok read s' ∧ read ≡ₚ closing_row_of 3 <$> [flour; oil].
Proof.
  destruct (closing_reads_back 7 3 counted_kitchen) as (s' & Hrun & _ & _ & (read & Hread & Hp) & _).
  - split; [by apply table_wf_check..| |].
    + intros c c' Hc Hc'. cbn in Hc, Hc'. rewrite !elem_of_cons in Hc, Hc'. set_unfold in Hc. set_unfold in Hc'.
      destruct Hc as [->|[->|[]]], Hc' as [->|[->|[]]]; done.
    + intros c Hc Hday. cbn in Hc. rewrite !elem_of_cons in Hc. destruct Hc as [->|[->|Hc]]; [|done|set_solver].
      exists oil. split; [|done]. apply list_elem_of_In. vm_compute. auto.
  - exists s', read. split; [exact Hrun|]. split; [exact Hread|exact Hp].
Defined.

(** ** Adjustments *)

(** An adjustment is decided once.  Approving or rejecting a pending request marks it
    with who decided and when; approving also sets the ingredient's stock to the
    requested quantity, whatever it became in the meantime, and touches nothing else
    but the audit log.  From then on both calls refuse it and change nothing. *)
Theorem adjustment_decided_once rid aid a by_ s s' r :
  table_wf (adjustments s) → get_row aid (adjustments s) = Some a →
  (approve_stock_adjustment rid aid by_ s = Ok r s' ∨ reject_stock_adjustment rid aid by_ s = Ok r s') →
  ad_status a = APending ∧ ad_restaurant_id a = rid ∧
  r = decided (ad_status r) by_ (inv_now s) a ∧ get_row aid (adjustments s') = Some r ∧
  match ad_status r with
  | AApproved => ∃ i, own_ingredient rid (ad_ingredient_id a) s = Some i ∧
      ingredients s' = set_row (with_stock (ad_requested_qty a) i) (ingredients s)
  | ARejected => ingredients s' = ingredients s
  | APending => False
  end ∧
  batches s' = batches s ∧
  ∀ by2, approve_stock_adjustment rid aid by2 s' = Err AdjustmentAlreadyDecided s' ∧
         reject_stock_adjustment rid aid by2 s' = Err AdjustmentAlreadyDecided s'.
Proof.
  intros Hwf Ha Hrun.
  assert (Hid : ad_id a = aid) by (apply get_row_Some in Ha as [_ Ha]; exact Ha).
  assert (Hpend : (∃ f, _get_pending_adjustment rid aid s = Err f s) ∨
    (_get_pending_adjustment rid aid s = Ok a s ∧ ad_status a = APending ∧ ad_restaurant_id a = rid)).
  { unfold _get_pending_adjustment. erewrite bind_run_Ok by reflexivity. rewrite Ha.
    destruct (ad_restaurant_id a =? rid) eqn:Hr; cbn; [|left; by eexists].
    destruct (bool_decide _) eqn:Hst; cbn; [|left; by eexists]. right. by zbool. }
  assert (Hrefuse : ∀ st t, st ≠ APending → adjustments t = set_row (decided st by_ (inv_now s) a) (adjustments s) →
    ad_restaurant_id a = rid → get_row aid (adjustments t) = Some (decided st by_ (inv_now s) a) ∧
    ∀ by2, approve_stock_adjustment rid aid by2 t = Err AdjustmentAlreadyDecided t ∧
           reject_stock_adjustment rid aid by2 t = Err AdjustmentAlreadyDecided t).
  { intros st t Hst Ht Hr.
    assert (Hg : get_row aid (adjustments t) = Some (decided st by_ (inv_now s) a)).
    { rewrite Ht. by apply (get_row_set_eq _ _ a). }
    split; [done|]. intros by2.
    assert (_get_pending_adjustment rid aid t = Err AdjustmentAlreadyDecided t) as Hp.
    { unfold _get_pending_adjustment. erewrite bind_run_Ok by reflexivity. rewrite Hg. cbn.
      rewrite Hr, Z.eqb_refl. cbn. by destruct st. }
    unfold approve_stock_adjustment, reject_stock_adjustment. by rewrite !(bind_run_Err _ _ _ _ _ Hp). }
  destruct Hpend as [[f Hp]|(Hp & Hst & Hr)].
  { unfold approve_stock_adjustment, reject_stock_adjustment in Hrun.
    rewrite !(bind_run_Err _ _ _ _ _ Hp) in Hrun. by destruct Hrun. }
  unfold approve_stock_adjustment, reject_stock_adjustment in Hrun.
  rewrite !(bind_run_Ok _ _ _ _ _ Hp) in Hrun. destruct Hrun as [Hrun|Hrun].
  - unfold mbind at 1, M_bind at 1, gets at 1 in Hrun. cbn beta iota in Hrun.
    destruct (own_ingredient rid (ad_ingredient_id a) s) as [i|] eqn:Hi; [|done].
    injection Hrun as <- Hs. destruct (Hrefuse AApproved s') as [Hg Hno]; [done|by rewrite <-Hs|done|].
    split_and!; eauto; rewrite <-Hs; cbn; eauto.
  - injection Hrun as <- Hs. destruct (Hrefuse ARejected s') as [Hg Hno]; [done|by rewrite <-Hs|done|].
    split_and!; eauto; by rewrite <-Hs.
Qed.

Definition asked : inv_db :=
  final (request_stock_adjustment 7 1 3 None "chef" (kitchen [flour; oil] [])).
Lemma adjustment_decided_once_witness :
  ∃ r s', approve_stock_adjustment 7 1 "manager" asked = Ok r s' ∧
    reject_stock_adjustment 7 1 "owner" s' = Err AdjustmentAlreadyDecided s'.
Proof.
  destruct (approve_stock_adjustment 7 1 "manager" asked) as [r s'|e s'] eqn:Hrun; [|vm_compute in Hrun; discriminate].
  exists r, s'. split; [done|]. destruct (get_row 1 (adjustments asked)) as [a|] eqn:Ha; [|vm_compute in Ha; discriminate].
  destruct (adjustment_decided_once 7 1 a "manager" asked s' r) as (_ & _ & _ & _ & _ & _ & Hno).
  - by apply table_wf_check.
  - done.
  - by left.
  - apply (Hno "owner"%string).
Defined.

(** Approving a correction leaves the batches: the shelf and the stock then disagree. *)
Lemma approval_leaves_batches :
  let s' := final (approve_stock_adjustment 7 1 "manager" asked) in
  (stock_at 1 s' == 3)%Q ∧ (on_shelf 7 1 s' == 5)%Q.
Proof. vm_compute. split; reflexivity. Qed.
