(* ===== verification/Purchasing.v ===== *)
(** * Vendors, purchase orders and goods received ([inventory/purchasing.py])

    A purchase order is received in full or in parts; each receipt raises the stock,
    adds a batch, blends the cost and moves the order's status.  A raise leaves the
    lines received before it, which the router rolls back. *)

From S2P Require Import Prelude Money Strings Db AuditTrail Clock Decimals Outbox InventoryDb Inventory.

(** ** Vendors *)

Definition create_vendor (restaurant_id : Z) (name : string) (phone email notes : option string) : IM Vendor :=
  t ← gets vendors;
  let v := {| ve_id := next_id t; ve_restaurant_id := restaurant_id; ve_name := name; ve_phone := phone;
    ve_email := email; ve_is_active := true; ve_notes := notes |} in
  modify (with_vendors (add_row v t)) ≫= λ _, mret v.
Definition list_vendors (restaurant_id : Z) (active_only : bool) : IM (list Vendor) :=
  gets (λ s, sort_by (λ a b, String.leb (ve_name a) (ve_name b))
    (all_where (λ v, (ve_restaurant_id v =? restaurant_id) && (negb active_only || ve_is_active v)) (vendors s))).

Definition own_vendor (restaurant_id vendor_id : Z) (s : inv_db) : option Vendor :=
  match get_row vendor_id (vendors s) with
  | Some v => if ve_restaurant_id v =? restaurant_id then Some v else None
  | None => None
  end.
Definition keep {A} (new : option A) (old : A) : A := match new with Some x => x | None => old end.
Definition keep_opt {A} (new old : option A) : option A := match new with Some x => Some x | None => old end.
Definition update_vendor (restaurant_id vendor_id : Z) (name phone email notes : option string)
    (is_active : option bool) : IM Vendor :=
  found ← gets (own_vendor restaurant_id vendor_id);
  match found with
  | None => raise VendorNotFound
  | Some v =>
      let v' := {| ve_id := ve_id v; ve_restaurant_id := ve_restaurant_id v; ve_name := keep name (ve_name v);
        ve_phone := keep_opt phone (ve_phone v); ve_email := keep_opt email (ve_email v);
        ve_is_active := keep is_active (ve_is_active v); ve_notes := keep_opt notes (ve_notes v) |} in
      modify (λ s, with_vendors (set_row v' (vendors s)) s) ≫= λ _, mret v'
  end.

(** ** Purchase orders *)

Record po_line_in := { pi_ingredient_id : Z; pi_qty_ordered : Q; pi_unit_cost_aed : Q }.

Definition add_po_line (po_id : Z) (l : po_line_in) : IM unit :=
  modify (λ s, with_po_lines (add_row {| pl_id := next_id (po_lines s); pl_po_id := po_id;
    pl_ingredient_id := pi_ingredient_id l; qty_ordered := pi_qty_ordered l; qty_received := 0;
    pl_unit_cost_aed := pi_unit_cost_aed l |} (po_lines s)) s).
Definition create_purchase_order (restaurant_id vendor_id : Z) (lines : list po_line_in)
    (notes : option string) : IM PurchaseOrder :=
  found ← gets (own_vendor restaurant_id vendor_id);
  match found with
  | None => raise VendorNotFound
  | Some _ =>
      t ← gets purchase_orders;
      let po := {| pu_id := next_id t; pu_restaurant_id := restaurant_id; pu_vendor_id := vendor_id;
        pu_status := PoDraft; pu_notes := notes |} in
      modify (with_purchase_orders (add_row po t)) ≫= λ _,
      for_each (add_po_line (pu_id po)) lines ≫= λ _, mret po
  end.
Definition list_purchase_orders (restaurant_id : Z) (status : option po_status) : IM (list PurchaseOrder) :=
  gets (λ s, sort_by (λ a b, pu_id b <=? pu_id a) (all_where (λ p, (pu_restaurant_id p =? restaurant_id) &&
    match status with Some st => bool_decide (pu_status p = st) | None => true end) (purchase_orders s))).

Definition own_po (restaurant_id po_id : Z) (s : inv_db) : option PurchaseOrder :=
  match get_row po_id (purchase_orders s) with
  | Some p => if pu_restaurant_id p =? restaurant_id then Some p else None
  | None => None
  end.
Definition update_po (p : PurchaseOrder) : IM unit :=
  modify (λ s, with_purchase_orders (set_row p (purchase_orders s)) s).
Definition lines_of (po_id : Z) (s : inv_db) : list PurchaseOrderLine :=
  all_where (λ l, pl_po_id l =? po_id) (po_lines s).

(** ** Receiving *)

Record grn_line_in := { gi_po_line_id : Z; gi_qty : Q; gi_unit_cost : option Q; gi_expiry : option Z }.

(** Without an expiry the batch expires on 2099-12-31. *)
Definition far_future : Z := 47481.
Example far_future_date : isoformat far_future = "2099-12-31".
Proof. reflexivity. Qed.

(** [x.quantize(Decimal("0.0001"), ROUND_HALF_UP)] *)
Definition quantize_cost (x : Q) : Q := div_half_up (Qnum x * 10000) (Zpos (Qden x)) # 10000.
Definition blended_cost (on_hand cost qty unit_cost : Q) : Q :=
  quantize_cost (if 0 <q on_hand then ddiv (on_hand * cost + qty * unit_cost) (on_hand + qty) else unit_cost).

Definition receive_stock (restaurant_id ingredient_id : Z) (qty unit_cost : Q) (expiry : option Z) : IM unit :=
  found ← gets (λ s, get_row ingredient_id (ingredients s));
  match found with
  | None => mret tt
  | Some i =>
      update_ingredient (with_stock (current_stock i + qty)
        (with_cost (blended_cost (current_stock i) (cost_per_unit_aed i) qty unit_cost) i)) ≫= λ _,
      _ ← add_batch restaurant_id ingredient_id qty (default far_future expiry) None false; mret tt
  end.

Definition receive_line (restaurant_id po_id grn_id : Z) (raw : grn_line_in) : IM unit :=
  found ← gets (λ s, get_row (gi_po_line_id raw) (po_lines s));
  match found with
  | None => raise (PoLineNotFound (gi_po_line_id raw))
  | Some line =>
      if negb (pl_po_id line =? po_id) then raise (PoLineNotFound (gi_po_line_id raw)) else
      let qty := gi_qty raw in
      if qty <=q 0 then mret tt else
      let already := qty_received line in
      if qty_ordered line <q already + qty then raise (OverReceipt qty (qty_ordered line - already)) else
      let unit_cost := match gi_unit_cost raw with
                       | Some c => if qzero c then pl_unit_cost_aed line else c
                       | None => pl_unit_cost_aed line
                       end in
      now ← gets inv_now;
      modify (λ s, with_grn_lines (add_row {| gl_id := next_id (grn_lines s); gl_grn_id := grn_id;
        gl_po_line_id := pl_id line; gl_ingredient_id := pl_ingredient_id line; gl_qty_received := qty;
        gl_unit_cost_aed := unit_cost; gl_expiry_date := gi_expiry raw; gl_created_at := now |} (grn_lines s)) s) ≫= λ _,
      modify (λ s, with_po_lines (set_row (with_received (already + qty) line) (po_lines s)) s) ≫= λ _,
      receive_stock restaurant_id (pl_ingredient_id line) qty unit_cost (gi_expiry raw)
  end.

Definition receipt_status (lines : list PurchaseOrderLine) : po_status :=
  if forallb (λ l, qty_ordered l <=q qty_received l) lines then PoReceived
  else if existsb (λ l, 0 <q qty_received l) lines then PoPartial else PoOrdered.

Definition create_grn (restaurant_id po_id : Z) (lines : list grn_line_in) (received_by : string)
    (notes : option string) : IM GoodsReceivedNote :=
  found ← gets (own_po restaurant_id po_id);
  match found with
  | None => raise PurchaseOrderNotFound
  | Some po =>
      if bool_decide (pu_status po = PoCancelled) then raise PurchaseOrderIsCancelled else
      t ← gets grns;
      let count := count_where (λ g, gn_restaurant_id g =? restaurant_id) t in
      let grn := {| gn_id := next_id t; gn_restaurant_id := restaurant_id; gn_po_id := po_id;
        grn_number := "GRN-" +:+ pretty restaurant_id +:+ "-" +:+ pad 4 (Z.to_N (count + 1));
        gn_received_by := received_by; gn_notes := notes |} in
      modify (with_grns (add_row grn t)) ≫= λ _,
      for_each (receive_line restaurant_id po_id (gn_id grn)) lines ≫= λ _,
      all_lines ← gets (lines_of po_id);
      update_po (with_po_status (receipt_status all_lines) po) ≫= λ _,
      mret grn
  end.

Definition outstanding (l : PurchaseOrderLine) : Q := (qty_ordered l - qty_received l)%Q.
Definition outstanding_lines (lines : list PurchaseOrderLine) : list grn_line_in :=
  (λ l, {| gi_po_line_id := pl_id l; gi_qty := outstanding l; gi_unit_cost := Some (pl_unit_cost_aed l);
           gi_expiry := None |}) <$> List.filter (λ l, 0 <q outstanding l) lines.

(** The order read back: [create_grn] moved its status. *)
Definition receive_purchase_order (restaurant_id po_id : Z) : IM PurchaseOrder :=
  found ← gets (own_po restaurant_id po_id);
  match found with
  | None => raise PurchaseOrderNotFound
  | Some po =>
      lines ← gets (lines_of po_id);
      (match outstanding_lines lines with
       | [] => update_po (with_po_status PoReceived po)
       | receive => _ ← create_grn restaurant_id po_id receive "manager" None; mret tt
       end) ≫= λ _,
      gets (λ s, default po (get_row po_id (purchase_orders s)))
  end.
Definition list_grns (restaurant_id : Z) (po_id : option Z) : IM (list GoodsReceivedNote) :=
  gets (λ s, sort_by (λ a b, gn_id b <=? gn_id a) (all_where (λ g, (gn_restaurant_id g =? restaurant_id) &&
    match po_id with Some i => gn_po_id g =? i | None => true end) (grns s))).
