(* ===== verification/PurchasingFacts.v ===== *)
(** * Correctness of goods received

    What a receipt does to the stock, the lines and the status of an order; an order's
    lines are never over-received and a full receipt completes it; the blended cost of
    an ingredient stays between the old cost and the invoice's. *)

From S2P Require Import Prelude Money Strings Db AuditTrail Clock Decimals Outbox InventoryDb Inventory InventoryFacts Purchasing.

(** ** One line *)

Definition line_qty (raw : grn_line_in) : Q := if gi_qty raw <=q 0 then 0%Q else gi_qty raw.
(** The ingredient a received line is of. *)
Definition is_for (s : inv_db) (i : Z) (raw : grn_line_in) : bool :=
  match get_row (gi_po_line_id raw) (po_lines s) with
  | Some l => pl_ingredient_id l =? i
  | None => false
  end.

(** The stocks after some lines were received. *)
Record received (lines : list grn_line_in) (s s' : inv_db) : Prop := {
  rc_lines_wf : table_wf (po_lines s');
  rc_ingredients_wf : table_wf (ingredients s');
  rc_orders : purchase_orders s' = purchase_orders s;
  rc_stock : ∀ i x, get_row i (ingredients s) = Some x → ∃ x', get_row i (ingredients s') = Some x' ∧
    (current_stock x' == current_stock x + qtotal (λ raw, if is_for s i raw then line_qty raw else 0) lines)%Q;
  rc_line : ∀ j l, get_row j (po_lines s) = Some l → ∃ q, get_row j (po_lines s') = Some (with_received q l) ∧
    (q == qty_received l + qtotal (λ raw, if gi_po_line_id raw =? j then line_qty raw else 0) lines)%Q ∧
    (qty_received l <= qty_ordered l → q <= qty_ordered l)%Q;
  rc_same : ∀ j, (∀ raw, raw ∈ lines → gi_po_line_id raw ≠ j) → get_row j (po_lines s') = get_row j (po_lines s);
  rc_gone : ∀ j, get_row j (po_lines s) = None → get_row j (po_lines s') = None;
  rc_ids : pl_id <$> rows (po_lines s') = pl_id <$> rows (po_lines s);
}.
Definition purchase_wf (s : inv_db) : Prop := table_wf (po_lines s) ∧ table_wf (ingredients s).

Lemma with_received_same l : with_received (qty_received l) l = l.
Proof. by destruct l. Qed.

Lemma received_nil s : purchase_wf s → received [] s s.
Proof.
  intros [Hl Hi]. split; [done..| | |done|done|done].
  - intros i x Hx. exists x. split; [done|]. cbn. lra.
  - intros j l Hj. exists (qty_received l). rewrite with_received_same. split_and!; [done|cbn; lra|done].
Qed.

Lemma received_app l1 l2 s s1 s2 :
  received l1 s s1 → received l2 s1 s2 → received (l1 ++ l2) s s2.
Proof.
  intros H1 H2. split; [apply H2..|by rewrite (rc_orders _ _ _ H2), (rc_orders _ _ _ H1)| | | | |].
  - intros i x Hx. destruct (rc_stock _ _ _ H1 i x Hx) as (x1 & Hx1 & Hq1).
    destruct (rc_stock _ _ _ H2 i x1 Hx1) as (x2 & Hx2 & Hq2). exists x2. split; [done|].
    rewrite Hq2, Hq1, qtotal_app.
    rewrite (qtotal_ext (λ raw, if is_for s1 i raw then line_qty raw else 0)%Q
               (λ raw, if is_for s i raw then line_qty raw else 0)%Q l2); [lra|].
    intros raw _. unfold is_for. destruct (get_row (gi_po_line_id raw) (po_lines s)) as [l|] eqn:Hl.
    + destruct (rc_line _ _ _ H1 _ _ Hl) as (q & -> & _). cbn. lra.
    + rewrite (rc_gone _ _ _ H1 _ Hl). lra.
  - intros j l Hj. destruct (rc_line _ _ _ H1 j l Hj) as (q1 & Hj1 & Hq1 & Hb1).
    destruct (rc_line _ _ _ H2 j _ Hj1) as (q2 & Hj2 & Hq2 & Hb2). exists q2. split_and!.
    + rewrite Hj2. by destruct l.
    + cbn in Hq2. rewrite Hq2, Hq1, qtotal_app. lra.
    + cbn in Hb2. auto.
  - intros j Hj. rewrite (rc_same _ _ _ H2), (rc_same _ _ _ H1); [done|set_solver..].
  - intros j Hj. by apply (rc_gone _ _ _ H2), (rc_gone _ _ _ H1).
  - by rewrite (rc_ids _ _ _ H2), (rc_ids _ _ _ H1).
Qed.

Lemma set_row_ids `{Row R} (r : R) t : row_id <$> rows (set_row r t) = row_id <$> rows t.
Proof.
  unfold set_row; cbn. induction (rows t) as [|x l IH]; cbn; [done|]. f_equal; [|exact IH].
  destruct (row_id x =? row_id r) eqn:E; by zbool.
Qed.

(** The stock rises by the quantity. *)
Lemma receive_stock_run rid iid qty cost expiry s :
  table_wf (ingredients s) →
  ∃ s', receive_stock rid iid qty cost expiry s = Ok tt s' ∧ table_wf (ingredients s') ∧
    s' = with_ingredients (ingredients s') (with_batches (batches s') s) ∧
    ∀ i x, get_row i (ingredients s) = Some x → ∃ x', get_row i (ingredients s') = Some x' ∧
      (current_stock x' == current_stock x + if iid =? i then qty else 0)%Q.
Proof.
  intros Hwf. unfold receive_stock. erewrite bind_run_Ok by reflexivity. cbv beta.
  destruct (get_row iid (ingredients s)) as [x|] eqn:Hx.
  - eexists. split; [reflexivity|]. split_and!; [by apply set_row_wf|done|].
    pose proof (get_row_Some _ _ _ Hx) as [_ Hid]. change (row_id x) with (ing_id x) in Hid.
    intros i y Hy. cbn [ingredients with_ingredients with_batches]. destruct (iid =? i) eqn:Hi; zbool.
    + subst i. rewrite (get_row_set_eq iid _ x) by done. eexists. split; [done|]. simplify_eq. cbn. lra.
    + rewrite get_row_set_ne by (change (row_id _) with (ing_id x); congruence). exists y. split; [done|lra].
  - exists s. split_and!; [done|done|by destruct s|]. intros i y Hy. exists y. split; [done|].
    destruct (iid =? i) eqn:Hi; zbool; [congruence|lra].
Qed.

(** What a line that is received does. *)
Lemma receive_line_run rid po grn raw l s :
  purchase_wf s → get_row (gi_po_line_id raw) (po_lines s) = Some l → pl_po_id l = po →
  (gi_qty raw <= 0 ∨ qty_received l + gi_qty raw <= qty_ordered l)%Q →
  ∃ s', receive_line rid po grn raw s = Ok tt s' ∧ received [raw] s s'.
Proof.
  intros Hwf Hl Hpo Hok. unfold receive_line. erewrite bind_run_Ok by reflexivity. cbv beta.
  rewrite Hl, Hpo, Z.eqb_refl. cbn [negb]. destruct (gi_qty raw <=q 0) eqn:Hq.
  { exists s. split; [done|]. destruct (received_nil s Hwf) as [? ? ? Hs Hln ? ? ?]. split; [done..| | |done|done|done].
    - intros i x Hx. destruct (Hs i x Hx) as (x' & ? & Hx'). exists x'. split; [done|].
      rewrite Hx'. cbn. unfold line_qty. rewrite Hq. destruct (is_for s i raw); lra.
    - intros j l' Hj. destruct (Hln j l' Hj) as (q & ? & Hq' & ?). exists q. split_and!; [done| |done].
      rewrite Hq'. cbn -[Z.eqb]. unfold line_qty. rewrite Hq. destruct (gi_po_line_id raw =? j); lra. }
  destruct (qty_ordered l <q _) eqn:Hover; qbool; [exfalso; lra|].
  do 3 (erewrite bind_run_Ok by reflexivity; cbv beta). cbn zeta.
  match goal with |- ∃ s', receive_stock _ _ _ ?c _ ?st = _ ∧ _ => set (cost := c); set (s1 := st) end.
  destruct Hwf as [Hwl Hwi].
  destruct (receive_stock_run rid (pl_ingredient_id l) (gi_qty raw) cost (gi_expiry raw) s1 Hwi)
    as (s' & Hrun & Hwi' & Hfr & Hst).
  exists s'. split; [exact Hrun|].
  assert (Hlines : po_lines s' = set_row (with_received (qty_received l + gi_qty raw) l) (po_lines s)) by by rewrite Hfr.
  pose proof (get_row_Some _ _ _ Hl) as [_ Hid]. change (row_id l) with (pl_id l) in Hid.
  assert (Hlq : line_qty raw = gi_qty raw) by (unfold line_qty; destruct (gi_qty raw <=q 0) eqn:E; [qbool; exfalso; lra|done]).
  split.
  - rewrite Hlines. by apply set_row_wf.
  - done.
  - by rewrite Hfr.
  - intros i x Hx. destruct (Hst i x Hx) as (x' & Hx' & Hq'). exists x'. split; [done|]. rewrite Hq'. cbn -[Z.eqb].
    unfold is_for. rewrite Hl, Hlq. destruct (_ =? i); lra.
  - intros j y Hj. rewrite Hlines. cbn -[Z.eqb]. destruct (gi_po_line_id raw =? j) eqn:Hij; zbool.
    + subst j. rewrite (get_row_set_eq _ _ l) by done. simplify_eq. rewrite Hlq.
      eexists. split_and!; [done|lra|]. intros _. lra.
    + rewrite get_row_set_ne by (change (row_id _) with (pl_id l); congruence). exists (qty_received y).
      rewrite with_received_same. split_and!; [done|lra|done].
  - intros j Hj. rewrite Hlines. rewrite get_row_set_ne; [done|]. change (row_id _) with (pl_id l).
    intros ->. apply (Hj raw); [set_solver|congruence].
  - intros j Hj. rewrite Hlines. rewrite get_row_set_ne; [done|]. change (row_id _) with (pl_id l). congruence.
  - rewrite Hlines. apply (set_row_ids (with_received _ l)).
Qed.

Lemma receive_line_Ok rid po grn raw s s' :
  purchase_wf s → receive_line rid po grn raw s = Ok tt s' → received [raw] s s'.
Proof.
  intros Hwf Hrun. destruct (get_row (gi_po_line_id raw) (po_lines s)) as [l|] eqn:Hl.
  - destruct (decide (pl_po_id l = po)) as [Hpo|Hpo].
    + destruct (gi_qty raw <=q 0) eqn:Hq; [|destruct (qty_ordered l <q qty_received l + gi_qty raw) eqn:Ho].
      1,3: destruct (receive_line_run rid po grn raw l s Hwf Hl Hpo) as (s1 & Hrun1 & Hrec);
        [qbool; tauto|congruence].
      unfold receive_line in Hrun. erewrite bind_run_Ok in Hrun by reflexivity. cbv beta in Hrun.
      rewrite Hl, Hpo, Z.eqb_refl in Hrun. cbn [negb] in Hrun. by rewrite Hq, Ho in Hrun.
    + unfold receive_line in Hrun. erewrite bind_run_Ok in Hrun by reflexivity. cbv beta in Hrun.
      by rewrite Hl, (proj2 (Z.eqb_neq _ _) Hpo) in Hrun.
  - unfold receive_line in Hrun. erewrite bind_run_Ok in Hrun by reflexivity. cbv beta in Hrun. by rewrite Hl in Hrun.
Qed.

Lemma receive_lines_Ok rid po grn lines s s' :
  purchase_wf s → for_each (receive_line rid po grn) lines s = Ok tt s' → received lines s s'.
Proof.
  revert s. induction lines as [|raw lines IH]; intros s Hwf Hrun; cbn in Hrun.
  - injection Hrun as <-. by apply received_nil.
  - apply bind_Ok in Hrun as ([] & s1 & Hrun1 & Hrun2).
    pose proof (receive_line_Ok _ _ _ _ _ _ Hwf Hrun1) as H1.
    apply (received_app [raw] lines s s1 s' H1). apply IH; [|done]. split; apply H1.
Qed.

(** ** Goods received notes *)

Lemma receipt_status_received lines :
  receipt_status lines = PoReceived ↔ ∀ l, l ∈ lines → (qty_ordered l <= qty_received l)%Q.
Proof.
  unfold receipt_status. destruct (forallb _ lines) eqn:Hall.
  - rewrite forallb_forall in Hall. split; [|done]. intros _ l Hl%list_elem_of_In. by apply qle_true, Hall.
  - split; [by destruct (existsb _ lines)|]. intros Hl. rewrite <-not_true_iff_false in Hall. destruct Hall.
    apply forallb_forall. intros l Hin%list_elem_of_In. apply qle_true. auto.
Qed.

(** Goods received are accounted once.  A receipt that goes through raises every
    ingredient's stock by the positive quantities of its lines and every order line by
    what was received on it, never beyond what was ordered; the order it is against is
    the restaurant's, was not cancelled, and is now received exactly when every line of
    it is complete. *)
Theorem goods_received rid po lines by_ notes s s' g :
  purchase_wf s → table_wf (purchase_orders s) → create_grn rid po lines by_ notes s = Ok g s' →
  (∀ i x, get_row i (ingredients s) = Some x → ∃ x', get_row i (ingredients s') = Some x' ∧
    (current_stock x' == current_stock x + qtotal (λ raw, if is_for s i raw then line_qty raw else 0) lines)%Q) ∧
  (∀ j l, get_row j (po_lines s) = Some l → ∃ q, get_row j (po_lines s') = Some (with_received q l) ∧
    (q == qty_received l + qtotal (λ raw, if gi_po_line_id raw =? j then line_qty raw else 0) lines)%Q ∧
    (qty_received l <= qty_ordered l → q <= qty_ordered l)%Q) ∧
  ∃ p st, own_po rid po s = Some p ∧ pu_status p ≠ PoCancelled ∧
    get_row po (purchase_orders s') = Some (with_po_status st p) ∧
    (st = PoReceived ↔ ∀ l, l ∈ lines_of po s' → (qty_ordered l <= qty_received l)%Q).
Proof.
  intros Hwf Hpo Hrun. unfold create_grn in Hrun. erewrite bind_run_Ok in Hrun by reflexivity. cbv beta in Hrun.
  destruct (own_po rid po s) as [p|] eqn:Hown; [|done].
  destruct (bool_decide _) eqn:Hst; [done|]. zbool.
  do 2 (erewrite bind_run_Ok in Hrun by reflexivity; cbv beta zeta in Hrun).
  apply bind_Ok in Hrun as ([] & s1 & Hrecv & Hrun). apply receive_lines_Ok in Hrecv; [|done].
  injection Hrun as _ <-. split_and!.
  - intros i x Hx. apply (rc_stock _ _ _ Hrecv i x Hx).
  - intros j l Hj. apply (rc_line _ _ _ Hrecv j l Hj).
  - exists p, (receipt_status (lines_of po s1)). split_and!; [done|done| |apply receipt_status_received].
    cbn [purchase_orders with_purchase_orders]. rewrite (rc_orders _ _ _ Hrecv).
    unfold own_po in Hown. destruct (get_row po (purchase_orders s)) as [p'|] eqn:Hp; [|done].
    destruct (pu_restaurant_id p' =? rid); [|done]. simplify_eq.
    apply (get_row_set_eq _ _ p); [|done]. by apply get_row_Some in Hp as [_ Hp].
Qed.

(** ** Full receipts *)

Definition outstanding_in (l : PurchaseOrderLine) : grn_line_in :=
  {| gi_po_line_id := pl_id l; gi_qty := outstanding l; gi_unit_cost := Some (pl_unit_cost_aed l); gi_expiry := None |}.

Lemma receive_outstanding_run rid po grn ls s :
  purchase_wf s → NoDup (pl_id <$> ls) →
  (∀ l, l ∈ ls → get_row (pl_id l) (po_lines s) = Some l ∧ pl_po_id l = po) →
  ∃ s', for_each (receive_line rid po grn) (outstanding_in <$> ls) s = Ok tt s' ∧ received (outstanding_in <$> ls) s s'.
Proof.
  revert s. induction ls as [|l ls IH]; intros s Hwf Hnd Hls; cbn.
  - exists s. split; [done|by apply received_nil].
  - destruct (Hls l) as [Hl Hpo]; [set_solver|].
    destruct (receive_line_run rid po grn (outstanding_in l) l s Hwf Hl Hpo) as (s1 & Hrun & H1).
    { right. cbn. unfold outstanding. lra. }
    cbn in Hnd. apply NoDup_cons in Hnd as [Hnl Hnd].
    destruct (IH s1) as (s2 & Hrun2 & H2); [split; apply H1|done| |].
    + intros l' Hl'. destruct (Hls l') as [Hg Hpo']; [set_solver|]. split; [|done].
      rewrite (rc_same _ _ _ H1); [done|]. intros raw ->%list_elem_of_singleton. cbn. intros Heq.
      apply Hnl. rewrite Heq. by apply list_elem_of_fmap_2.
    + exists s2. rewrite (bind_run_Ok _ _ _ _ _ Hrun). split; [done|]. by apply (received_app [_] _ _ s1).
Qed.

Lemma outstanding_total ls l :
  NoDup (pl_id <$> ls) → l ∈ ls →
  (qtotal (λ raw, if gi_po_line_id raw =? pl_id l then line_qty raw else 0) (outstanding_in <$> ls)
   == line_qty (outstanding_in l))%Q.
Proof.
  induction ls as [|x ls IH]; intros Hnd Hl; [set_solver|]. rewrite fmap_cons in *. apply NoDup_cons in Hnd as [Hx Hnd].
  cbn -[Z.eqb line_qty]. apply elem_of_cons in Hl as [->|Hl].
  - rewrite Z.eqb_refl. rewrite qtotal_zero; [lra|].
    intros raw (y & -> & Hy)%list_elem_of_fmap. cbn -[Z.eqb]. destruct (pl_id y =? pl_id x) eqn:E; zbool; [|lra].
    destruct Hx. rewrite <-E. by apply list_elem_of_fmap_2.
  - destruct (pl_id x =? pl_id l) eqn:E; zbool; [destruct Hx; rewrite E; by apply list_elem_of_fmap_2|].
    rewrite IH by done. lra.
Qed.

(** The lines that still wait for goods. *)
Definition waiting (po : Z) (s : inv_db) : list PurchaseOrderLine :=
  List.filter (λ l, 0 <q outstanding l) (lines_of po s).

Lemma waiting_spec po s l :
  l ∈ waiting po s ↔ l ∈ rows (po_lines s) ∧ pl_po_id l = po ∧ (0 < outstanding l)%Q.
Proof.
  unfold waiting. rewrite list_elem_of_In, List.filter_In, <-list_elem_of_In. unfold lines_of.
  rewrite elem_of_all_where, Z.eqb_eq, negb_true_iff, qle_false. tauto.
Qed.
Lemma waiting_NoDup po s : table_wf (po_lines s) → NoDup (pl_id <$> waiting po s).
Proof.
  intros Hwl. apply NoDup_fmap_2_strong.
  - intros a b Ha%waiting_spec Hb%waiting_spec. apply (wf_unique _ Hwl); tauto.
  - apply NoDup_ListNoDup, List.NoDup_filter, List.NoDup_filter, NoDup_ListNoDup, Hwl.
Qed.

(** Once what waited is received, every line of the order is complete. *)
Lemma waiting_received po s s' l :
  table_wf (po_lines s) → (∀ l, l ∈ lines_of po s → qty_received l <= qty_ordered l)%Q →
  received (outstanding_in <$> waiting po s) s s' → l ∈ lines_of po s' → (qty_received l == qty_ordered l)%Q.
Proof.
  intros Hwl Hle Hrec [Hl Hpo]%elem_of_all_where. zbool.
  pose proof (get_row_wf _ _ (rc_lines_wf _ _ _ Hrec) Hl) as Hg. change (row_id l) with (pl_id l) in Hg.
  destruct (get_row (pl_id l) (po_lines s)) as [l0|] eqn:Hl0; [|by rewrite (rc_gone _ _ _ Hrec _ Hl0) in Hg].
  destruct (rc_line _ _ _ Hrec _ _ Hl0) as (q & Hg' & Hq & _). rewrite Hg in Hg'. injection Hg' as ->.
  pose proof (get_row_Some _ _ _ Hl0) as [Hin Hid]. change (row_id l0) with (pl_id l0) in Hid. cbn in *.
  assert (Hl0po : l0 ∈ lines_of po s) by (apply elem_of_all_where; split; [done|by apply Z.eqb_eq]).
  specialize (Hle l0 Hl0po). rewrite Hq. destruct (0 <q outstanding l0) eqn:E; qbool.
  - rewrite (outstanding_total _ l0) by (by apply waiting_NoDup || by apply waiting_spec).
    unfold line_qty; cbn. destruct (outstanding l0 <=q 0) eqn:E'; qbool; unfold outstanding in *; lra.
  - rewrite qtotal_zero; [unfold outstanding in *; lra|].
    intros raw (y & -> & (Hyr & _ & Hy)%waiting_spec)%list_elem_of_fmap. cbn -[Z.eqb].
    destruct (pl_id y =? pl_id l0) eqn:Hid'; zbool; [|lra].
    rewrite (wf_unique _ Hwl y l0 Hyr Hin Hid') in Hy. lra.
Qed.

Lemma receive_waiting_run rid po p by_ notes s :
  purchase_wf s → own_po rid po s = Some p → pu_status p ≠ PoCancelled →
  ∃ g s1, create_grn rid po (outstanding_in <$> waiting po s) by_ notes s =
      Ok g (with_purchase_orders (set_row (with_po_status (receipt_status (lines_of po s1)) p) (purchase_orders s1)) s1) ∧
    received (outstanding_in <$> waiting po s) s s1.
Proof.
  intros Hwf Hown Hst. unfold create_grn. erewrite bind_run_Ok by reflexivity. cbv beta. rewrite Hown.
  rewrite bool_decide_false by done. do 2 (erewrite bind_run_Ok by reflexivity; cbv beta zeta).
  match goal with |- ∃ g s1, (for_each (receive_line _ _ ?gid) _ ≫= _) ?st = _ ∧ _ =>
    destruct (receive_outstanding_run rid po gid (waiting po s) st) as (s1 & Hrun & Hrec) end.
  - exact Hwf.
  - apply waiting_NoDup, Hwf.
  - intros l (Hl & Hpo & _)%waiting_spec. split; [|done]. by apply (get_row_wf _ _ (proj1 Hwf)).
  - rewrite (bind_run_Ok _ _ _ _ _ Hrun). do 2 eexists. split; [reflexivity|].
    destruct Hrec. by split.
Qed.

(** C39. A full receipt completes the order.  For the restaurant's own order, not
    cancelled, none of whose lines is over-received, receiving what is outstanding goes
    through: afterwards every line of the order has exactly what was ordered and the
    order is received. *)
Theorem full_receipt_completes rid po p s :
  purchase_wf s → table_wf (purchase_orders s) → own_po rid po s = Some p → pu_status p ≠ PoCancelled →
  (∀ l, l ∈ lines_of po s → qty_received l <= qty_ordered l)%Q →
  ∃ s', receive_purchase_order rid po s = Ok (with_po_status PoReceived p) s' ∧
    ∀ l, l ∈ lines_of po s' → (qty_received l == qty_ordered l)%Q.
Proof.
  intros Hwf Hpo Hown Hst Hle. pose proof Hwf as [Hwl Hwi].
  assert (get_row po (purchase_orders s) = Some p ∧ pu_id p = po) as [Hp Hpid].
  { unfold own_po in Hown. destruct (get_row po (purchase_orders s)) as [p'|] eqn:Hp; [|done].
    destruct (pu_restaurant_id p' =? rid); [|done]. simplify_eq. split; [done|]. by apply get_row_Some in Hp as [_ Hp]. }
  unfold receive_purchase_order. erewrite bind_run_Ok by reflexivity. cbv beta. rewrite Hown.
  erewrite bind_run_Ok by reflexivity. cbv beta.
  change (outstanding_lines (lines_of po s)) with (outstanding_in <$> waiting po s).
  destruct (waiting po s) as [|w ws] eqn:Hwait; cbn [fmap list_fmap].
  - eexists. split.
    + erewrite bind_run_Ok by reflexivity. unfold gets. f_equal. cbn [purchase_orders with_purchase_orders].
      rewrite (get_row_set_eq po _ p) by done. done.
    + intros l Hl. apply (waiting_received po s s l Hwl Hle); [|done]. rewrite Hwait. by apply received_nil.
  - destruct (receive_waiting_run rid po p "manager" None s Hwf Hown Hst) as (g & s1 & Hrun & Hrec).
    rewrite Hwait in Hrun. assert (Hlines : ∀ l, l ∈ lines_of po s1 → (qty_received l == qty_ordered l)%Q).
    { intros l. by apply (waiting_received po s s1). }
    eexists. split.
    + erewrite bind_run_Ok; [|by rewrite (bind_run_Ok _ _ _ _ _ Hrun)]. unfold gets. f_equal.
      cbn [purchase_orders with_purchase_orders]. rewrite (rc_orders _ _ _ Hrec), (get_row_set_eq po _ p) by done. cbn.
      by rewrite (proj2 (receipt_status_received _)) by (intros l Hl; rewrite Hlines by done; lra).
    + exact Hlines.
Qed.

(** ** The blended cost *)

Lemma quantize_cost_error r :
  ∃ c, quantize_cost r = (c # 10000)%Q ∧ (inject_Z c - (1 # 2) <= r * 10000 <= inject_Z c + (1 # 2))%Q.
Proof.
  exists (div_half_up (Qnum r * 10000) (Zpos (Qden r))). split; [done|].
  pose proof (div_half_up_error (Qnum r * 10000) (Zpos (Qden r)) ltac:(lia)) as He.
  set (c := div_half_up _ _) in *. destruct r as [n d]. cbn in He.
  unfold Qle, inject_Z, Qminus, Qplus, Qopp, Qmult. cbn -[Z.mul]. rewrite ?Pos2Z.inj_mul. lia.
Qed.

Lemma ctx_round_near v b : (0 <= v <= b)%Q → (b <= inject_Z (10 ^ 20))%Q →
  (v - (1 # 1000000) <= ctx_round v <= v + (1 # 1000000))%Q.
Proof.
  intros Hv Hb. pose proof (ctx_round_error v) as He. rewrite (Qabs.Qabs_pos v) in He by tauto.
  assert (inject_Z (2 * 10 ^ 27) == 2000000000000000000000000000)%Q as Hc by reflexivity.
  assert (inject_Z (10 ^ 20) == 100000000000000000000)%Q as Hc2 by reflexivity.
  rewrite Hc in He. rewrite Hc2 in Hb. clear Hc Hc2. revert He. apply Qabs.Qabs_case; intros; split; lra.
Qed.

(** Receiving goods moves the cost between the old cost and the invoice's.  Costs of
    four decimals below a billion stay of four decimals, and the blended one is between
    the two, whatever the quantities and the roundings; without stock on hand it is the
    invoice's. *)
Theorem blended_cost_between on_hand qty a b :
  (0 < qty)%Q → 0 ≤ a < 10 ^ 13 → 0 ≤ b < 10 ^ 13 →
  ∃ c, blended_cost on_hand (a # 10000) qty (b # 10000) = (c # 10000)%Q ∧
    (if 0 <q on_hand then Z.min a b ≤ c ≤ Z.max a b else c = b).
Proof.
  intros Hq Ha Hb. unfold blended_cost. destruct (0 <q on_hand) eqn:Hon; qbool.
  - set (A := (a # 10000)%Q). set (B := (b # 10000)%Q).
    set (lo := (Z.min a b # 10000)%Q). set (hi := (Z.max a b # 10000)%Q).
    assert (0 <= lo /\ lo <= A /\ lo <= B /\ A <= hi /\ B <= hi /\ hi <= inject_Z (10 ^ 20))%Q as (? & ? & ? & ? & ? & ?).
    { unfold lo, hi, A, B, Qle, inject_Z; cbn. lia. }
    assert (lo <= (on_hand * A + qty * B) / (on_hand + qty) <= hi)%Q as Hv.
    { split; [apply Qle_shift_div_l|apply Qle_shift_div_r]; nra. }
    unfold ddiv. set (v := (_ / _)%Q) in *.
    destruct (quantize_cost_error (ctx_round v)) as (c & Hc & Herr). exists c. split; [exact Hc|].
    pose proof (ctx_round_near v hi ltac:(lra) ltac:(done)) as Hnear.
    assert (inject_Z (Z.min a b) == lo * 10000)%Q as Hlo by (unfold lo, Qeq, inject_Z; cbn; lia).
    assert (inject_Z (Z.max a b) == hi * 10000)%Q as Hhi by (unfold hi, Qeq, inject_Z; cbn; lia).
    assert (inject_Z (Z.min a b - 1) < inject_Z c)%Q as Hl.
    { replace (Z.min a b - 1) with (Z.min a b + -1) by lia. rewrite inject_Z_plus, Hlo.
      change (inject_Z (-1)) with (-1)%Q. lra. }
    assert (inject_Z c < inject_Z (Z.max a b + 1))%Q as Hu.
    { rewrite inject_Z_plus, Hhi. change (inject_Z 1) with 1%Q. lra. }
    rewrite <-Zlt_Qlt in Hl, Hu. lia.
  - exists b. unfold quantize_cost. cbn. split; [|done]. by rewrite div_half_up_exact by done.
Qed.

(** ** Concrete states *)

(** Order 1 of the kitchen: ten flour at 2.00, four oil at 13.00, of which one came. *)
Definition ordered_kitchen (st : po_status) (lines : list PurchaseOrderLine) : inv_db :=
  with_purchase_orders (Table [{| pu_id := 1; pu_restaurant_id := 7; pu_vendor_id := 1; pu_status := st; pu_notes := None |}] 2)
    (with_po_lines (Table lines 3) (kitchen [flour; oil] [])).
Definition two_lines : list PurchaseOrderLine :=
  [{| pl_id := 1; pl_po_id := 1; pl_ingredient_id := 1; qty_ordered := 10; qty_received := 0; pl_unit_cost_aed := 2 |};
   {| pl_id := 2; pl_po_id := 1; pl_ingredient_id := 2; qty_ordered := 4; qty_received := 1; pl_unit_cost_aed := 13 |}].
Definition received_flour : list grn_line_in :=
  [{| gi_po_line_id := 1; gi_qty := 4; gi_unit_cost := None; gi_expiry := Some 40 |}].

Lemma goods_received_witness :
  ∃ g s', create_grn 7 1 received_flour "manager" None (ordered_kitchen PoOrdered two_lines) = Ok g s' ∧
    ∃ x', get_row 1 (ingredients s') = Some x' ∧ (current_stock x' == 9)%Q.
Proof.
  destruct (create_grn 7 1 received_flour "manager" None (ordered_kitchen PoOrdered two_lines)) as [g s'|e s'] eqn:Hrun;
    [|vm_compute in Hrun; discriminate].
  exists g, s'. split; [done|].
  destruct (goods_received 7 1 received_flour "manager" None (ordered_kitchen PoOrdered two_lines) s' g) as [Hs _].
  - split; by apply table_wf_check.
  - by apply table_wf_check.
  - done.
  - destruct (Hs 1 flour eq_refl) as (x' & Hx' & Hq). exists x'. split; [done|]. rewrite Hq. vm_compute. reflexivity.
Defined.

Lemma full_receipt_completes_witness :
  ∃ p s', receive_purchase_order 7 1 (ordered_kitchen PoPartial two_lines) = Ok (with_po_status PoReceived p) s'.
Proof.
  destruct (full_receipt_completes 7 1
    {| pu_id := 1; pu_restaurant_id := 7; pu_vendor_id := 1; pu_status := PoPartial; pu_notes := None |}
    (ordered_kitchen PoPartial two_lines)) as (s' & Hrun & _).
  - split; by apply table_wf_check.
  - by apply table_wf_check.
  - done.
  - done.
  - intros l [Hl _]%elem_of_all_where. change (l ∈ two_lines) in Hl. unfold two_lines in Hl.
    rewrite !elem_of_cons in Hl. destruct Hl as [->|[->|Hl]]; [discriminate..|set_solver].
  - by eexists _, s'.
Defined.

Lemma blended_cost_between_witness :
  ∃ c, blended_cost 5 (30000 # 10000) 4 (20000 # 10000) = (c # 10000)%Q ∧ 20000 ≤ c ≤ 30000.
Proof.
  destruct (blended_cost_between 5 4 30000 20000) as (c & Hc & Hb); [done|lia|lia|].
  exists c. split; [exact Hc|]. exact Hb.
Defined.

(** A cancelled order with nothing outstanding is "received" by the full receipt: only
    [create_grn] looks at the status. *)
Lemma cancelled_order_received :
  match receive_purchase_order 7 1 (ordered_kitchen PoCancelled []) with
  | Ok p _ => pu_status p = PoReceived
  | Err _ _ => False
  end.
Proof. reflexivity. Qed.
