(* ===== verification/Batching.v ===== *)
(** * Order batching ([app.dispatch.batching], [app.dispatch.zones])

    Which ready orders one rider takes together: greedy, oldest first, under a cap, a
    geometric gate, a readiness window and the internal delivery target.  Python's
    floats are the binary64 of [SpecFloat], comparisons and roundings included; the
    great-circle formula (trigonometry) and the geo provider are parameters, and so
    are the settings (target, city speed). *)

From Stdlib Require Import SpecFloat.
From S2P Require Import Prelude Floats Clock.

(** ** Data *)

Record point := Point { lat : float; lon : float }.
Record OrderCandidate := {
  bc_order_id : Z;
  bc_at : point;
  bc_ready_at : Z;
  bc_minutes_elapsed : float;
  bc_priority : string;
}.
Record PlannedBatch := { pb_orders : list OrderCandidate; pb_per_order_buffer_min : Z }.
Definition extra_stops (l : list OrderCandidate) : Z := Z.max 0 (Z.of_nat (length l) - 1).
Definition sla_buffer_min (b : PlannedBatch) : Z := extra_stops (pb_orders b) * pb_per_order_buffer_min b.

(** A manual delivery zone. *)
Record bzone := { bz_name : string; bz_center : point; bz_radius_km : float }.

(** A [GeoPort]: distances and whole minutes. *)
Record geo_port := { geo_distance_km : point → point → float; geo_eta_minutes : float → Z }.

Section batching.
(** The formula of [geo/haversine.py] for two different points. *)
Context (great_circle : point → point → float).
(** [settings.geo_city_speed_kmh] and [settings.sla_internal_target_minutes]. *)
Context (CITY_SPEED_KMH : float) (INTERNAL_TARGET_MIN : Z).

Definition distance_km (a b : point) : float :=
  if SFeqb (lat a) (lat b) && SFeqb (lon a) (lon b) then fzero else great_circle a b.

(** ** Zones and detours *)

Definition zone_of (p : point) (zones : list bzone) : option string :=
  bz_name <$> List.find (λ z, distance_km p (bz_center z) <=f bz_radius_km z) zones.

(** The detour of each insertion slot along a route, the append last. *)
Fixpoint slot_detours (a : point) (route : list point) (c : point) : list float :=
  match route with
  | [] => [distance_km a c]
  | b :: route' =>
      fsub (fadd (distance_km a c) (distance_km c b)) (distance_km a b) :: slot_detours b route' c
  end.
Definition fmin_list (l : list float) : option float :=
  match l with [] => None | x :: l' => Some (fold_left fmin l' x) end.
(** [_insertion_detour_km] of both modules. *)
Definition _insertion_detour_km (origin : point) (stops : list point) (candidate : point) : float :=
  fmax fzero (match fmin_list (slot_detours origin stops candidate) with
              | Some best => if SFeqb best fzero then fzero else best
              | None => fzero end).

Definition same_zone_or_corridor (zone_a zone_b : option string) (origin pt_a pt_b : point)
    (max_detour_km : float) : bool :=
  if match zone_a with Some _ => bool_decide (zone_a = zone_b) | None => false end then true
  else if max_detour_km <=f fzero then false
  else fmin (_insertion_detour_km origin [pt_a] pt_b) (_insertion_detour_km origin [pt_b] pt_a) <=f max_detour_km.

Definition _zone_batch_eligible (seed order : OrderCandidate) (zones : list bzone)
    (origin : option point) (max_detour_km : float) : bool :=
  let zone_seed := zone_of (bc_at seed) zones in
  let zone_order := zone_of (bc_at order) zones in
  match origin with
  | None => match zone_seed with Some _ => bool_decide (zone_seed = zone_order) | None => false end
  | Some o => same_zone_or_corridor zone_seed zone_order o (bc_at seed) (bc_at order) max_detour_km
  end.

(** ** Travel times *)

Definition _travel_time_min (a b : point) : float :=
  let d := distance_km a b in
  if d <=f fzero then fzero else fmul (fdiv d CITY_SPEED_KMH) (fint 60).

Section route.
Context (geo_provider : option geo_port).

Definition _leg_minutes (a b : point) : float :=
  match geo_provider with
  | Some g => fint (geo_eta_minutes g (geo_distance_km g a b))
  | None => _travel_time_min a b
  end.

(** The cumulative times after the first stop. *)
Fixpoint cumulative (prev : OrderCandidate) (cum : float) (l : list OrderCandidate) : list float :=
  match l with
  | [] => []
  | curr :: l' =>
      let cum' := fadd cum (_leg_minutes (bc_at prev) (bc_at curr)) in
      cum' :: cumulative curr cum' l'
  end.
Definition _compute_route_time_to_stops (l : list OrderCandidate) (origin : option point) : list float :=
  match l with
  | [] => []
  | first :: l' =>
      let depot_leg := match origin with Some o => _leg_minutes o (bc_at first) | None => fzero end in
      depot_leg :: cumulative first depot_leg l'
  end.

(** [min(remaining, key=...)]: the index of the first smallest. *)
Fixpoint argmin (key : OrderCandidate → float) (l : list OrderCandidate) (i best : nat) (k : float) : nat :=
  match l with
  | [] => best
  | x :: l' => if key x <f k then argmin key l' (S i) i (key x) else argmin key l' (S i) best k
  end.
Definition first_min (key : OrderCandidate → float) (l : list OrderCandidate) : nat :=
  match l with [] => 0%nat | x :: l' => argmin key l' 1 0 (key x) end.

(** The loop of [_sequence_stops], with the number of remaining stops as fuel.
    [remaining.remove(nxt)] takes the stop the minimum chose. *)
Fixpoint visit_nearest (fuel : nat) (cur : point) (remaining : list OrderCandidate) : list OrderCandidate :=
  match fuel with
  | O => []
  | S fuel' =>
      let i := first_min (λ o, _leg_minutes cur (bc_at o)) remaining in
      match remaining !! i with
      | Some nxt => nxt :: visit_nearest fuel' (bc_at nxt) (delete i remaining)
      | None => []
      end
  end.
Definition _sequence_stops (l : list OrderCandidate) (origin : point) : list OrderCandidate :=
  if (length l <=? 1)%nat then l else visit_nearest (length l) origin l.

(** ** The internal target *)

(** What each stop is projected at. *)
Definition projections (l : list OrderCandidate) (buffer : Z) (origin : option point) : list float :=
  zip_with (λ o t, fadd (fadd (bc_minutes_elapsed o) t) (fint buffer)) l
    (_compute_route_time_to_stops l origin).
Definition on_target (l : list OrderCandidate) (buffer : Z) (origin : option point) : bool :=
  forallb (λ p, negb (fint INTERNAL_TARGET_MIN <f p)) (projections l buffer origin).

Definition _within_internal_target (batch : PlannedBatch) (candidate : OrderCandidate)
    (origin : option point) (buffer_per_order : Z) (sequence : bool) : bool :=
  let temp := pb_orders batch ++ [candidate] in
  let temp := match origin with
              | Some o => if sequence then _sequence_stops temp o else temp
              | None => temp end in
  on_target temp (extra_stops temp * buffer_per_order) origin.

(** [None]: [int()] of an infinity or of not a number. *)
Definition compute_batch_total_est_min (batch : PlannedBatch) (origin : option point) : option Z :=
  match projections (pb_orders batch) (sla_buffer_min batch) origin with
  | [] => Some 0
  | p :: ps => Z.max 1 <$> ftrunc (fold_left fmax ps p)
  end.

(** ** Building the batches *)

Record batch_settings := {
  max_per_batch : Z;
  proximity_km : float;
  window_min : Z;
  buffer_per_order : Z;
  max_detour_km : float;
  delivery_zones : list bzone;
}.
Context (cfg : batch_settings) (origin : option point).

Definition corridor : bool :=
  (fzero <f max_detour_km cfg) && match origin with Some _ => true | None => false end.

Definition within_geometry (batch : PlannedBatch) (seed order : OrderCandidate) : bool :=
  match delivery_zones cfg with
  | [] =>
      (distance_km (bc_at seed) (bc_at order) <=f proximity_km cfg) ||
      (corridor && match origin with
                   | Some o => _insertion_detour_km o (bc_at <$> pb_orders batch) (bc_at order) <=f max_detour_km cfg
                   | None => false end)
  | zones => _zone_batch_eligible seed order zones origin (max_detour_km cfg)
  end.

Definition joins (batch : PlannedBatch) (order : OrderCandidate) : bool :=
  match pb_orders batch with
  | [] => false
  | seed :: _ =>
      (Z.of_nat (length (pb_orders batch)) <? max_per_batch cfg)
      && within_geometry batch seed order
      && (bc_ready_at order - bc_ready_at seed <=? minutes (window_min cfg))
      && _within_internal_target batch order origin (buffer_per_order cfg) corridor
  end.
Definition join_batch (batch : PlannedBatch) (order : OrderCandidate) : PlannedBatch :=
  let l := pb_orders batch ++ [order] in
  {| pb_orders := match origin with
                  | Some o => if corridor then _sequence_stops l o else l
                  | None => l end;
     pb_per_order_buffer_min := pb_per_order_buffer_min batch |}.
Definition alone (order : OrderCandidate) : PlannedBatch :=
  {| pb_orders := [order]; pb_per_order_buffer_min := buffer_per_order cfg |}.

(** The inner loop: the first batch that takes the order, or a new one at the end. *)
Fixpoint place (order : OrderCandidate) (batches : list PlannedBatch) : list PlannedBatch :=
  match batches with
  | [] => [alone order]
  | b :: batches' =>
      if joins b order then join_batch b order :: batches' else b :: place order batches'
  end.

(** [sorted(orders, key=ready_at)]: stable. *)
Fixpoint insert_ready (o : OrderCandidate) (l : list OrderCandidate) : list OrderCandidate :=
  match l with
  | [] => [o]
  | x :: l' => if bc_ready_at o <=? bc_ready_at x then o :: l else x :: insert_ready o l'
  end.
Fixpoint sort_ready (l : list OrderCandidate) : list OrderCandidate :=
  match l with [] => [] | o :: l' => insert_ready o (sort_ready l') end.

Definition normal (o : OrderCandidate) : bool := bc_priority o =s "normal".
Definition place_all (l : list OrderCandidate) (batches : list PlannedBatch) : list PlannedBatch :=
  fold_left (λ bs o, place o bs) l batches.
Definition build_batches (orders : list OrderCandidate) : list PlannedBatch :=
  let remaining := sort_ready orders in
  (alone <$> List.filter (λ o, negb (normal o)) remaining) ++ place_all (List.filter normal remaining) [].
End route.
End batching.

#[global] Arguments fint : simpl never.
#[global] Arguments fadd : simpl never.
#[global] Arguments SFltb : simpl never.
#[global] Arguments SFleb : simpl never.
#[global] Arguments join_batch : simpl never.
