(* ===== verification/BatchingFacts.v ===== *)
(** * Correctness of order batching

    Every order is taken exactly once, batches keep their cap and the internal
    target, priority orders ride alone, and without corridor mode a batch stays
    inside its readiness window. *)

From Stdlib Require Import SpecFloat Sorted.
From S2P Require Import Prelude Floats Clock Batching.

Section facts.
Context (great_circle : point → point → float) (CITY_SPEED_KMH : float) (INTERNAL_TARGET_MIN : Z).
Context (geo : option geo_port) (cfg : batch_settings) (origin : option point).

Notation _sequence_stops := (_sequence_stops great_circle CITY_SPEED_KMH geo).
Notation visit_nearest := (visit_nearest great_circle CITY_SPEED_KMH geo).
Notation on_target := (on_target great_circle CITY_SPEED_KMH INTERNAL_TARGET_MIN geo).
Notation joins := (joins great_circle CITY_SPEED_KMH INTERNAL_TARGET_MIN geo cfg origin).
Notation join_batch := (join_batch great_circle CITY_SPEED_KMH geo cfg origin).
Notation place := (place great_circle CITY_SPEED_KMH INTERNAL_TARGET_MIN geo cfg origin).
Notation place_all := (place_all great_circle CITY_SPEED_KMH INTERNAL_TARGET_MIN geo cfg origin).
Notation build_batches := (build_batches great_circle CITY_SPEED_KMH INTERNAL_TARGET_MIN geo cfg origin).
Notation alone := (alone cfg).

(** ** The nearest-first visit is a permutation *)

Lemma argmin_lt key l : ∀ i best k, (best < i)%nat → (argmin key l i best k < i + length l)%nat.
Proof.
  induction l as [|x l IH]; intros i best k Hb; cbn [argmin length]; [lia|].
  destruct (key x <f k);
    [specialize (IH (S i) i (key x))|specialize (IH (S i) best k)]; lia.
Qed.
Lemma first_min_lt key l : l ≠ [] → (first_min key l < length l)%nat.
Proof.
  destruct l as [|x l]; [done|]. intros _. unfold first_min.
  pose proof (argmin_lt key l 1 0 (key x)). cbn. lia.
Qed.

Lemma visit_nearest_perm fuel : ∀ cur l, (length l ≤ fuel)%nat → visit_nearest fuel cur l ≡ₚ l.
Proof.
  induction fuel as [|fuel IH]; intros cur l Hlen.
  - destruct l; [done|cbn in Hlen; lia].
  - destruct (decide (l = [])) as [->|Hne]; [done|]. cbn [Batching.visit_nearest].
    set (i := first_min _ l). assert (i < length l)%nat as Hi by by apply first_min_lt.
    destruct (lookup_lt_is_Some_2 l i Hi) as [x Hx]. rewrite Hx.
    rewrite IH by (pose proof (length_delete l i (mk_is_Some _ _ Hx)); lia).
    symmetry. by apply delete_Permutation.
Qed.
Lemma sequence_perm l o : _sequence_stops l o ≡ₚ l.
Proof.
  unfold Batching._sequence_stops. destruct (length l <=? 1)%nat; [done|]. by apply visit_nearest_perm.
Qed.

(** ** Joining a batch *)

Lemma join_perm b o : pb_orders (join_batch b o) ≡ₚ pb_orders b ++ [o].
Proof.
  unfold Batching.join_batch. cbn. destruct origin as [p|]; [|done].
  destruct (corridor cfg (Some p)); [apply sequence_perm|done].
Qed.

Lemma joins_spec b o : joins b o = true →
  ∃ seed rest, pb_orders b = seed :: rest ∧ Z.of_nat (length (pb_orders b)) < max_per_batch cfg ∧
    bc_ready_at o - bc_ready_at seed ≤ minutes (window_min cfg) ∧
    on_target (pb_orders (join_batch b o))
      (extra_stops (pb_orders (join_batch b o)) * buffer_per_order cfg) origin = true.
Proof.
  unfold Batching.joins. destruct (pb_orders b) as [|seed rest] eqn:Hb; [done|]. intros Hj.
  apply andb_true_iff in Hj as [Hj Ht]. apply andb_true_iff in Hj as [Hj Hw].
  apply andb_true_iff in Hj as [Hm _]. apply Z.ltb_lt in Hm. apply Z.leb_le in Hw.
  exists seed, rest. by split_and!.
Qed.

(** ** What every batch keeps *)

Record batch_ok (b : PlannedBatch) : Prop := {
  ok_some : pb_orders b ≠ [];
  ok_buffer : pb_per_order_buffer_min b = buffer_per_order cfg;
  ok_cap : (length (pb_orders b) ≤ Z.to_nat (Z.max 1 (max_per_batch cfg)))%nat;
  ok_target : (2 ≤ length (pb_orders b))%nat →
    on_target (pb_orders b) (sla_buffer_min b) origin = true;
  ok_alone : ∀ o, o ∈ pb_orders b → normal o = false → pb_orders b = [o];
}.

Lemma alone_ok o : batch_ok (alone o).
Proof.
  split; cbn; [done|done|lia|lia|]. intros o' ->%list_elem_of_singleton. done.
Qed.

Lemma join_ok b o :
  joins b o = true → normal o = true → (∀ o', o' ∈ pb_orders b → normal o' = true) →
  batch_ok b → batch_ok (join_batch b o).
Proof.
  intros Hj Hn Hall [Hsome Hbuf Hcap Htgt Hal].
  destruct (joins_spec b o Hj) as (seed & rest & Hb & Hm & _ & Ht).
  pose proof (join_perm b o) as Hperm. pose proof (Permutation_length Hperm) as Hlen.
  rewrite length_app in Hlen. change (length [o]) with 1%nat in Hlen. split.
  - intros Heq. rewrite Heq in Hlen. cbn [length] in Hlen. lia.
  - done.
  - lia.
  - intros _. unfold sla_buffer_min. change (pb_per_order_buffer_min (join_batch b o)) with (pb_per_order_buffer_min b).
    by rewrite Hbuf.
  - intros o' Hin Hno. rewrite Hperm, elem_of_app, list_elem_of_singleton in Hin.
    destruct Hin as [Hin| ->]; [specialize (Hall o' Hin)|]; congruence.
Qed.

(** *** Placing *)

Notation orders_of bs := (concat (pb_orders <$> bs)).

Lemma place_perm o bs : orders_of (place o bs) ≡ₚ orders_of bs ++ [o].
Proof.
  induction bs as [|b bs IH]; cbn; [done|]. destruct (joins b o); cbn.
  - rewrite join_perm, <-!app_assoc. apply Permutation_app_head, Permutation_app_comm.
  - by rewrite IH, app_assoc.
Qed.
Lemma place_all_perm l : ∀ bs, orders_of (place_all l bs) ≡ₚ orders_of bs ++ l.
Proof.
  induction l as [|o l IH]; intros bs; [by rewrite app_nil_r|].
  change (place_all (o :: l) bs) with (place_all l (place o bs)). rewrite IH, place_perm, <-app_assoc. done.
Qed.

(** An invariant of the batches that joining and opening keep. *)
Lemma place_Forall (P : PlannedBatch → Prop) o bs :
  (∀ b, joins b o = true → b ∈ bs → P b → P (join_batch b o)) → P (alone o) →
  Forall P bs → Forall P (place o bs).
Proof.
  intros Hj Ha. induction 1 as [|b bs Hb Hbs IH]; cbn; [by constructor|].
  destruct (joins b o) eqn:Hjb; constructor; [|done|done|].
  - apply Hj; [done|left|done].
  - apply IH. intros b' Hjb' Hin. apply Hj; [done|by right].
Qed.

Definition normal_batch (b : PlannedBatch) : Prop := ∀ o, o ∈ pb_orders b → normal o = true.

Lemma place_all_ok l : ∀ bs, Forall (λ o, normal o = true) l →
  Forall (λ b, batch_ok b ∧ normal_batch b) bs → Forall (λ b, batch_ok b ∧ normal_batch b) (place_all l bs).
Proof.
  induction l as [|o l IH]; intros bs Hl Hbs; [done|].
  change (place_all (o :: l) bs) with (place_all l (place o bs)).
  inversion Hl as [|? ? Ho Hl']; subst. apply IH; [done|]. apply place_Forall; [| |done].
  - intros b Hj _ [Hok Hn]. split; [by apply join_ok|]. intros o' Hin.
    rewrite join_perm, elem_of_app, list_elem_of_singleton in Hin. destruct Hin as [?| ->]; auto.
  - split; [apply alone_ok|]. intros o' ->%list_elem_of_singleton. done.
Qed.

(** ** Sorting and splitting *)

Lemma insert_ready_perm o l : insert_ready o l ≡ₚ o :: l.
Proof.
  induction l as [|x l IH]; cbn; [done|]. destruct (bc_ready_at o <=? bc_ready_at x); [done|].
  rewrite IH. apply Permutation_swap.
Qed.
Lemma sort_ready_perm l : sort_ready l ≡ₚ l.
Proof. induction l as [|o l IH]; cbn; [done|]. by rewrite insert_ready_perm, IH. Qed.

Lemma filter_split {A} (f : A → bool) l :
  List.filter (λ x, negb (f x)) l ++ List.filter f l ≡ₚ l.
Proof.
  induction l as [|x l IH]; cbn; [done|]. destruct (f x); cbn; [|by rewrite IH].
  by rewrite <-Permutation_middle, IH.
Qed.
Lemma filter_Forall {A} (f : A → bool) l : Forall (λ x, f x = true) (List.filter f l).
Proof. induction l as [|x l IH]; cbn; [constructor|]. destruct (f x) eqn:Hf; [by constructor|done]. Qed.

Lemma orders_of_alone l : orders_of (alone <$> l) = l.
Proof. induction l as [|o l IH]; cbn; [done|]. by f_equal. Qed.

Lemma build_ok orders b : b ∈ build_batches orders → batch_ok b.
Proof.
  unfold Batching.build_batches. intros [Hin|Hin]%elem_of_app.
  - apply list_elem_of_fmap in Hin as (o & -> & _). apply alone_ok.
  - pose proof (place_all_ok (List.filter normal (sort_ready orders)) [] (filter_Forall _ _) (Forall_nil_2 _)) as Hall.
    rewrite Forall_forall in Hall. by apply Hall.
Qed.

Lemma build_perm orders : orders_of (build_batches orders) ≡ₚ orders.
Proof.
  unfold Batching.build_batches. rewrite fmap_app, concat_app, orders_of_alone, place_all_perm. cbn.
  by rewrite filter_split, sort_ready_perm.
Qed.

(** C9. The plan is a partition: every candidate is in exactly one batch (the batches
    together are a permutation of the candidates), no batch is empty or over the
    cap, and an order that is not of normal priority has a batch to itself. *)
Theorem batches_partition orders :
  concat (pb_orders <$> build_batches orders) ≡ₚ orders ∧
  ∀ b, b ∈ build_batches orders →
    (1 ≤ length (pb_orders b) ≤ Z.to_nat (Z.max 1 (max_per_batch cfg)))%nat ∧
    ∀ o, o ∈ pb_orders b → bc_priority o ≠ "normal"%string → pb_orders b = [o].
Proof.
  split.
  - apply build_perm.
  - intros b [Hs _ Hc _ Ha]%build_ok. split.
    + destruct (pb_orders b); [done|]. cbn in *. lia.
    + intros o Hin Hp. apply Ha; [done|]. unfold normal. by apply String.eqb_neq.
Qed.

(** C10. The internal target: in every batch of two stops or more, each stop, in the
    order the rider visits them, is projected (time since confirmation, travel to
    the stop in that order, and the safety buffer of all extra stops) at no more
    than the target. *)
Theorem batches_on_target orders b i o t :
  b ∈ build_batches orders → (2 ≤ length (pb_orders b))%nat →
  pb_orders b !! i = Some o →
  _compute_route_time_to_stops great_circle CITY_SPEED_KMH geo (pb_orders b) origin !! i = Some t →
  (fint INTERNAL_TARGET_MIN <f fadd (fadd (bc_minutes_elapsed o) t)
     (fint (extra_stops (pb_orders b) * buffer_per_order cfg))) = false.
Proof.
  intros [_ Hbuf _ Ht _]%build_ok Hlen Ho Hr. specialize (Ht Hlen).
  unfold Batching.on_target in Ht. rewrite forallb_forall in Ht. apply negb_true_iff, Ht, list_elem_of_In.
  apply list_elem_of_lookup. exists i. unfold projections, sla_buffer_min. rewrite Hbuf.
  rewrite lookup_zip_with, Ho. cbn. by rewrite Hr.
Qed.

(** ** The readiness window *)

(** Ready no earlier than the first stop, and within the window of it. *)
Definition in_window (b : PlannedBatch) : Prop :=
  ∃ seed rest, pb_orders b = seed :: rest ∧
    ∀ o, o ∈ pb_orders b → 0 ≤ bc_ready_at o - bc_ready_at seed ≤ minutes (window_min cfg).

Lemma alone_in_window o : 0 ≤ window_min cfg → in_window (alone o).
Proof.
  intros Hw. exists o, []. split; [done|]. intros o' ->%list_elem_of_singleton.
  unfold minutes, minute, second. lia.
Qed.

Lemma join_in_window b o :
  corridor cfg origin = false → joins b o = true →
  (∀ o', o' ∈ pb_orders b → bc_ready_at o' ≤ bc_ready_at o) → in_window b → in_window (join_batch b o).
Proof.
  intros Hc Hj Hlast (seed & rest & Hb & Hw).
  destruct (joins_spec b o Hj) as (seed' & rest' & Hb' & _ & Hwin & _).
  assert (seed' = seed) as -> by congruence.
  assert (pb_orders (join_batch b o) = pb_orders b ++ [o]) as Heq.
  { unfold Batching.join_batch. rewrite Hc. cbn. by destruct origin. }
  exists seed, (rest ++ [o]). rewrite Heq, Hb. split; [done|].
  intros o'. rewrite <-Hb, elem_of_app, list_elem_of_singleton. intros [Hin| ->]; [by apply Hw|].
  assert (seed ∈ pb_orders b) as Hs by (rewrite Hb; left). specialize (Hlast seed Hs). lia.
Qed.

Definition ready_le (o1 o2 : OrderCandidate) : Prop := bc_ready_at o1 ≤ bc_ready_at o2.

Lemma insert_ready_sorted o l : StronglySorted ready_le l → StronglySorted ready_le (insert_ready o l).
Proof.
  induction 1 as [|x l Hl IH Hx]; cbn; [by repeat constructor|].
  destruct (bc_ready_at o <=? bc_ready_at x) eqn:Hox; zbool.
  - constructor; [by constructor|]. constructor; [done|].
    eapply Forall_impl; [exact Hx|]. intros y Hy. unfold ready_le in *. lia.
  - constructor; [done|]. rewrite insert_ready_perm. constructor; [unfold ready_le; lia|done].
Qed.
Lemma sort_ready_sorted l : StronglySorted ready_le (sort_ready l).
Proof. induction l; cbn; [constructor|by apply insert_ready_sorted]. Qed.
Lemma filter_sorted (f : OrderCandidate → bool) l :
  StronglySorted ready_le l → StronglySorted ready_le (List.filter f l).
Proof.
  induction 1 as [|x l Hl IH Hx]; cbn; [constructor|]. destruct (f x); [|done].
  constructor; [done|]. rewrite Forall_forall in *. intros y Hy. apply Hx.
  apply list_elem_of_In, List.filter_In in Hy as [Hy _]. by apply list_elem_of_In.
Qed.

Lemma place_all_in_window l : ∀ bs,
  0 ≤ window_min cfg → corridor cfg origin = false → StronglySorted ready_le l →
  (∀ o1 o2, o1 ∈ orders_of bs → o2 ∈ l → ready_le o1 o2) →
  Forall in_window bs → Forall in_window (place_all l bs).
Proof.
  induction l as [|o l IH]; intros bs Hw Hc Hl Hlast Hbs; [done|].
  change (place_all (o :: l) bs) with (place_all l (place o bs)).
  apply StronglySorted_inv in Hl as [Hl Ho]. apply IH; [done..| |].
  - intros o1 o2 Hin1 Hin2. rewrite place_perm, elem_of_app, list_elem_of_singleton in Hin1.
    destruct Hin1 as [Hin1| ->]; [apply Hlast; [done|by right]|]. rewrite Forall_forall in Ho. by apply Ho.
  - apply place_Forall; [|by apply alone_in_window|done].
    intros b Hj Hin Hb. apply join_in_window; try done. intros o' Hin'.
    apply (Hlast o' o); [|left]. apply list_elem_of_In, in_concat. exists (pb_orders b).
    split; apply list_elem_of_In; [by apply list_elem_of_fmap_2|done].
Qed.

(** The readiness window: outside corridor mode the orders of a batch were all
    ready within the window of one another, the first stop first. *)
Theorem batches_in_window orders b o1 o2 :
  0 ≤ window_min cfg → corridor cfg origin = false → b ∈ build_batches orders →
  o1 ∈ pb_orders b → o2 ∈ pb_orders b →
  Z.abs (bc_ready_at o1 - bc_ready_at o2) ≤ minutes (window_min cfg).
Proof.
  intros Hw Hc Hin H1 H2. assert (in_window b) as (seed & rest & _ & Hwin).
  { unfold Batching.build_batches in Hin. apply elem_of_app in Hin as [Hin|Hin].
    - apply list_elem_of_fmap in Hin as (o & -> & _). by apply alone_in_window.
    - assert (Forall in_window (place_all (List.filter normal (sort_ready orders)) [])) as Hall.
      { apply place_all_in_window; [done..|apply filter_sorted, sort_ready_sorted| |constructor].
        intros o o' Ho. by apply not_elem_of_nil in Ho. }
      rewrite Forall_forall in Hall. by apply Hall. }
  pose proof (Hwin o1 H1). pose proof (Hwin o2 H2). lia.
Qed.
End facts.

(** ** A street of orders *)

(** Points on a line, a unit of longitude a kilometre. *)
Definition on_street (a b : point) : float := SFabs (fsub (lon a) (lon b)).
Definition at_km (tenths : Z) : point := Point fzero (fdiv (fint tenths) (fint 10)).
Definition street_order (id tenths ready : Z) : OrderCandidate :=
  Build_OrderCandidate id (at_km tenths) (minutes ready) fzero "normal".
Definition street_cfg (detour : Z) : batch_settings :=
  Build_batch_settings 3 (fdiv (fint 5) (fint 10)) 10 10 (fint detour) [].
Definition street_plan (detour : Z) (l : list OrderCandidate) : list PlannedBatch :=
  build_batches on_street (fint 25) 30 None (street_cfg detour) (Some (at_km 0)) l.
Definition street : list OrderCandidate := [street_order 1 20 0; street_order 2 10 9; street_order 3 11 18].

(** In corridor mode the window slides: a nearer order becomes the first stop, later
    orders are compared with it, and three orders ready over 18 minutes share a
    batch whose window is 10. *)
Theorem corridor_window_slides :
  map (λ b, map (λ o, (bc_order_id o, bc_ready_at o / minute)) (pb_orders b)) (street_plan 1 street) =
    [[(2, 9); (3, 18); (1, 0)]].
Proof. vm_compute. reflexivity. Qed.

Example street_without_corridor :
  map (λ b, map bc_order_id (pb_orders b)) (street_plan 0 street) = [[1]; [2; 3]].
Proof. vm_compute. reflexivity. Qed.

Example batches_on_target_witness :
  ∃ b o t, b ∈ street_plan 0 street ∧ bc_order_id o = 3 ∧
    (fint 30 <f fadd (fadd (bc_minutes_elapsed o) t) (fint 10)) = false.
Proof.
  destruct (street_plan 0 street) as [|b0 [|b l]] eqn:Hplan; [vm_compute in Hplan; discriminate..|].
  assert (b ∈ street_plan 0 street) as Hin by (rewrite Hplan; right; left).
  destruct (pb_orders b) as [|o1 [|o l']] eqn:Hb; [vm_compute in Hplan; injection Hplan as <- <- _; discriminate..|].
  destruct (_compute_route_time_to_stops on_street (fint 25) None (pb_orders b) (Some (at_km 0)) !! 1%nat)
    as [t|] eqn:Ht; [|exfalso; vm_compute in Hplan; injection Hplan as <- <- _; vm_compute in Ht; discriminate].
  exists b, o, t. split; [rewrite <-Hplan; exact Hin|].
  assert (length (pb_orders b) = 2%nat ∧ bc_order_id o = 3) as [Hlen Ho].
  { vm_compute in Hplan. injection Hplan as <- <- _. vm_compute in Hb. injection Hb as <- <- _. split; reflexivity. }
  split; [exact Ho|].
  assert (pb_orders b !! 1%nat = Some o) as Hnth by (rewrite Hb; reflexivity).
  pose proof (batches_on_target on_street (fint 25) 30 None (street_cfg 0) (Some (at_km 0)) street b 1 o t Hin
    ltac:(rewrite Hlen; lia) Hnth Ht) as H.
  unfold extra_stops in H. rewrite Hlen in H. exact H.
Defined.

Example batches_in_window_witness :
  ∃ b o1 o2, b ∈ street_plan 0 street ∧ bc_order_id o1 = 2 ∧ bc_order_id o2 = 3 ∧
    Z.abs (bc_ready_at o1 - bc_ready_at o2) ≤ minutes 10.
Proof.
  destruct (street_plan 0 street) as [|b0 [|b l]] eqn:Hplan; [vm_compute in Hplan; discriminate..|].
  assert (b ∈ street_plan 0 street) as Hin by (rewrite Hplan; right; left).
  destruct (pb_orders b) as [|o1 [|o2 l']] eqn:Hb; [vm_compute in Hplan; injection Hplan as <- <- _; discriminate..|].
  exists b, o1, o2. split; [rewrite <-Hplan; exact Hin|].
  assert (bc_order_id o1 = 2 ∧ bc_order_id o2 = 3) as [H1 H2].
  { vm_compute in Hplan. injection Hplan as <- <- _. vm_compute in Hb. injection Hb as <- <- _. split; reflexivity. }
  split; [exact H1|]. split; [exact H2|].
  apply (batches_in_window on_street (fint 25) 30 None (street_cfg 0) (Some (at_km 0)) street b o1 o2);
    [vm_compute; discriminate|vm_compute; reflexivity|exact Hin|rewrite Hb; left|rewrite Hb; right; left].
Defined.
