(* ===== verification/Scoring.v ===== *)
(** * Scoring riders and explaining a dispatch ([app.dispatch.scoring], [app.dispatch.explain],
    [app.dispatch.batch_plan])

    Which of the available riders takes a batch, and the explanation that is stored with
    every assignment.  Floats are binary64 ([Floats]), the roundings of the payload
    included. *)

From Stdlib Require Import SpecFloat.
From S2P Require Import Prelude Money Floats Clock Batching.

(** ** Scores ([scoring.py]) *)

Definition _W_DISTANCE : float := fint 1.
Definition _W_WORKLOAD : float := fint 2.
Definition _W_ONTIME : float := float_of_Q (1 # 10).

Record RiderCandidate := {
  rk_rider_id : Z;
  rk_distance_km : float;
  rk_active_orders : Z;
  rk_on_time_pct : float;
}.
Record breakdown := {
  bd_distance_km : float;
  bd_workload_score : float;
  bd_on_time_pct : float;
  bd_composite : float;
}.
Record ScoredRider := { sr_rider_id : Z; sr_composite : float; sr_breakdown : breakdown }.

Definition score_rider (c : RiderCandidate) : ScoredRider :=
  let distance_score := fmul _W_DISTANCE (rk_distance_km c) in
  let workload_score := fmul _W_WORKLOAD (fint (rk_active_orders c)) in
  let on_time_penalty := fmul _W_ONTIME (fmax fzero (fsub (fint 100) (rk_on_time_pct c))) in
  let composite := fadd (fadd distance_score workload_score) on_time_penalty in
  {| sr_rider_id := rk_rider_id c; sr_composite := composite;
     sr_breakdown := {| bd_distance_km := rk_distance_km c; bd_workload_score := workload_score;
                        bd_on_time_pct := rk_on_time_pct c; bd_composite := composite |} |}.

(** [sorted(..., key=composite)] is stable: an element moves past the next one only when
    that one is smaller. *)
Definition not_worse (a b : ScoredRider) : bool := negb (sr_composite b <f sr_composite a).
Definition rank_riders (candidates : list RiderCandidate) : list ScoredRider :=
  sort_by not_worse (score_rider <$> candidates).

(** ** Explanations ([explain.py]) *)

(** [round(x, 1)]: the nearest tenth of the exact value, half to even, as a float. *)
Definition fround1 (x : float) : float :=
  match x with
  | S754_finite s _ _ =>
      let n := quantize_to 10 (Q_of_float x) in
      if n =? 0 then S754_zero s else float_of_Q (n # 10)
  | _ => x
  end.

Record stop_score := {
  ss_order_id : Z;
  ss_projected_min : float;
  ss_route_min : float;
  ss_buffer_min : Z;
}.
Record rejection := { rj_order_id : Z; rj_reason : string; rj_projected_min : float }.
(** [assignments.algorithm_score] of a planned route; the rider's breakdown is merged in. *)
Record route_score := {
  rt_engine : string;
  rt_engine_fallback : bool;
  rt_route_sequence : list Z;
  rt_total_est_min : float;
  rt_per_stop : list stop_score;
  rt_rejections : list rejection;
  rt_batch_reason : string;
  rt_zone : option string;
  rt_breakdown : option breakdown;
}.

Section explain.
Context (great_circle : point → point → float).
Context (CITY_SPEED_KMH : float).
Context (geo_provider : option geo_port).

(** The distinct zones of the stops, the stops outside every zone left out. *)
Definition named_zones (l : list OrderCandidate) (zones : list bzone) : list string :=
  omap (λ o, zone_of great_circle (bc_at o) zones) l.
Definition _infer_batch_reason (l : list OrderCandidate) (corridor : bool) (zones : list bzone) : string :=
  if (length l <=? 1)%nat then "solo" else
  if negb (bool_decide (zones = [])) && (length (remove_dups (named_zones l zones)) =? 1)%nat
  then (if corridor then "same_zone_corridor_ok" else "same_zone")
  else if corridor then "corridor_ok" else "proximity".
(** Both of the code's last branches return the first named zone. *)
Definition _zone_label (l : list OrderCandidate) (zones : list bzone) : option string :=
  head (List.filter (λ z, negb (z =s "")) (named_zones l zones)).

Fixpoint stop_scores (l : list OrderCandidate) (times : list float) (per_order_buffer_min i : Z)
    (projected_by_order : Z → option float) : list stop_score :=
  match l, times with
  | o :: l', t :: ts =>
      let buffer_min := per_order_buffer_min * i in
      {| ss_order_id := bc_order_id o;
         ss_projected_min :=
           match projected_by_order (bc_order_id o) with
           | Some p => fround1 p
           | None => fround1 (fadd (fadd (bc_minutes_elapsed o) t) (fint buffer_min))
           end;
         ss_route_min := fround1 t;
         ss_buffer_min := buffer_min |} :: stop_scores l' ts per_order_buffer_min (i + 1) projected_by_order
  | _, _ => []
  end.

(** The callers pass the total; [projected_by_order] is empty for the greedy engine. *)
Definition build_route_algorithm_score (engine : string) (engine_fallback : bool) (l : list OrderCandidate)
    (per_order_buffer_min : Z) (origin : option point) (rider_breakdown : option breakdown)
    (rejections : list rejection) (total_est_min : Z) (projected_by_order : Z → option float)
    (corridor : bool) (zones : list bzone) : route_score :=
  {| rt_engine := engine; rt_engine_fallback := engine_fallback;
     rt_route_sequence := bc_order_id <$> l;
     rt_total_est_min := fint total_est_min;
     rt_per_stop := stop_scores l (_compute_route_time_to_stops great_circle CITY_SPEED_KMH geo_provider l origin)
                      per_order_buffer_min 0 projected_by_order;
     rt_rejections := rejections;
     rt_batch_reason := _infer_batch_reason l corridor zones;
     rt_zone := _zone_label l zones;
     rt_breakdown := rider_breakdown |}.

Definition build_rejections_for_dropped (order_ids : list Z) (candidates : list OrderCandidate)
    (origin : point) : list rejection :=
  omap (λ oid,
    c ← List.find (λ c, bc_order_id c =? oid) candidates;
    let leg := _leg_minutes great_circle CITY_SPEED_KMH geo_provider origin (bc_at c) in
    Some {| rj_order_id := oid; rj_reason := "sla_risk";
            rj_projected_min := fround1 (fadd (bc_minutes_elapsed c) leg) |}) order_ids.
End explain.

(** ** Previews ([batch_plan.py]) *)

(** [labels_from_batches]: A, B, ... for the batches of two orders or more. *)
Fixpoint labels_from (group_index : nat) (batches : list PlannedBatch) : list (Z * Ascii.ascii) :=
  match batches with
  | [] => []
  | b :: batches' =>
      if (length (pb_orders b) <? 2)%nat then labels_from group_index batches'
      else ((λ o, (bc_order_id o, Ascii.ascii_of_nat (65 + group_index))) <$> pb_orders b)
             ++ labels_from (S group_index) batches'
  end.
Definition labels_from_batches (batches : list PlannedBatch) : list (Z * Ascii.ascii) := labels_from 0 batches.

(** ** The best rider *)

(** Floats that are numbers are ordered by [<]: sign, then exponent, then mantissa. *)
Definition is_number (x : float) : bool := match x with S754_nan => false | _ => true end.
Lemma flt_negative_trans x y z :
  is_number x = true → is_number y = true → is_number z = true →
  (y <f x) = false → (z <f y) = false → (z <f x) = false.
Proof.
  unfold SFltb, SFcompare.
  destruct x as [[]|[]| |[] mx ex], y as [[]|[]| |[] my ey], z as [[]|[]| |[] mz ez]; try done; cbn; intros _ _ _.
  all: change (PosDef.Pos.compare_cont Eq) with Pos.compare.
  all: destruct (Z.compare_spec ey ex), (Z.compare_spec ez ey), (Z.compare_spec ez ex); subst; try lia; try done.
  all: destruct (Pos.compare_spec my mx), (Pos.compare_spec mz my), (Pos.compare_spec mz mx); subst; try done; lia.
Qed.

Lemma insert_by_head (x : ScoredRider) l b l' :
  insert_by not_worse x l = b :: l' → b = x ∨ (∃ l0, l = b :: l0 ∧ not_worse x b = false).
Proof. destruct l as [|y l0]; cbn; [intros [= ->]; auto|]. destruct (not_worse x y) eqn:Hw; intros [= -> _]; eauto. Qed.

(** Nobody scores better than the first of the ranking. *)
Lemma best_first l b l' :
  (∀ r, r ∈ l → is_number (sr_composite r) = true) → sort_by not_worse l = b :: l' →
  b ∈ l ∧ ∀ r, r ∈ l → (sr_composite r <f sr_composite b) = false.
Proof.
  revert b l'. induction l as [|x l IH]; intros b l' Hn; cbn; [done|]. intros Hi.
  assert (Hxx : (sr_composite x <f sr_composite x) = false).
  { unfold SFltb, SFcompare. destruct (sr_composite x) as [[]|[]| |[] m e]; try done;
      by rewrite ?Z.compare_refl, ?Pos.compare_cont_refl. }
  destruct (sort_by not_worse l) as [|y ys] eqn:Hs.
  { cbn in Hi. injection Hi as -> _. assert (l = []) as ->.
    { apply Permutation_nil. by rewrite <-Hs, (sort_by_perm not_worse l). }
    split; [set_solver|]. intros r Hr. by apply list_elem_of_singleton in Hr as ->. }
  destruct (IH y ys) as [Hy Hall]; [set_solver|done|].
  destruct (insert_by_head _ _ _ _ Hi) as [->|(l0 & [= <- ->] & Hw)].
  - split; [set_solver|]. intros r [->|Hr]%elem_of_cons; [done|].
    cbn in Hi. destruct (not_worse x y) eqn:Hxy; [|by injection Hi as -> _; apply Hall].
    apply negb_true_iff in Hxy. apply (flt_negative_trans _ (sr_composite y)); [apply Hn; set_solver..|done|by apply Hall].
  - split; [set_solver|]. intros r [->|Hr]%elem_of_cons; [|by apply Hall].
    apply negb_false_iff in Hw.
    destruct (sr_composite x <f sr_composite y) eqn:Hc; [|done].
    assert (Hx : is_number (sr_composite x) = true) by (apply Hn; set_solver).
    assert (Hyn : is_number (sr_composite y) = true) by (apply Hn; set_solver).
    revert Hw Hc Hx Hyn. generalize (sr_composite x) (sr_composite y). clear. intros u v.
    unfold SFltb, SFcompare. destruct u as [[]|[]| |[] mu eu], v as [[]|[]| |[] mv ev]; try done; cbn.
    all: change (PosDef.Pos.compare_cont Eq) with Pos.compare.
    all: destruct (Z.compare_spec ev eu), (Z.compare_spec eu ev); subst; try lia; try done.
    all: destruct (Pos.compare_spec mv mu), (Pos.compare_spec mu mv); subst; try done; lia.
Qed.
