(* ===== verification/Notify.v ===== *)
(** * Window-aware customer notifications ([app.whatsapp.templates])

    Within 24 hours of the customer's last message a notice goes out as free text;
    later only an approved utility template may be sent.  Either way it is a row of the
    outbound queue ([Outbox]), once per key. *)

From S2P Require Import Prelude Money Strings Db AuditTrail Clock Outbox.

(** ** Data *)

Record Conversation := { cv_id : Z; cv_restaurant_id : Z; cv_phone : string; cv_counterpart : string }.
#[global] Instance Conversation_row : Row Conversation := cv_id.

(** A message of a conversation; [ms_ts] is the provider's stamp in seconds. *)
Record ChatMessage := { ms_id : Z; ms_conversation_id : Z; ms_direction : string; ms_ts : option Z }.
#[global] Instance ChatMessage_row : Row ChatMessage := ms_id.

Record notify_db := {
  conversations : table Conversation;
  chat_messages : table ChatMessage;
  notify_outbox : outbox_db;
}.
#[global] Program Instance notify_outbox_lens : Lens notify_db outbox_db := {|
  view := notify_outbox;
  put o s := Build_notify_db (conversations s) (chat_messages s) o;
|}.
Solve Obligations with by intros; try destruct s.

Inductive notify_error :=
| UnknownTemplate (key : string)
| NotifyOutboxRaised (e : outbox_error).

Abbreviation NM := (M notify_db notify_error).

(** ** Operations *)

Definition _WINDOW_SECONDS : Z := 24 * 60 * 60.

(** [UTILITY_TEMPLATES[key]]: the language of a registered template. *)
Definition UTILITY_TEMPLATES (key : string) : option string :=
  if in_strs key ["wallet_credit_added"; "coupon_issued"; "ticket_resolution"; "complaint_received"]%string
  then Some "en"%string else None.

Definition last_by_id (l : list ChatMessage) : option ChatMessage :=
  head (sort_by (λ a b, ms_id b <=? ms_id a) l).

Definition _within_window (restaurant_id : Z) (phone : string) : NM bool :=
  conv ← gets (λ s, first_where (λ c, (cv_restaurant_id c =? restaurant_id) && (cv_phone c =s phone)
                                      && (cv_counterpart c =s "customer")) (conversations s));
  match conv with
  | None => mret false
  | Some c =>
      last ← gets (λ s, last_by_id (all_where (λ m, (ms_conversation_id m =? cv_id c)
                                                    && (ms_direction m =s "inbound")) (chat_messages s)));
      now ← gets (λ s, outbox_now (notify_outbox s) / second);
      mret (match from_option ms_ts None last with
            | Some ts => negb (ts =? 0) && (now - ts <=? _WINDOW_SECONDS)
            | None => false
            end)
  end.

(** [_template_components]: the body's positional text parameters, as JSON text. *)
Definition quoted (s : string) : string :=
  let q := String (Ascii.ascii_of_nat 34) "" in q +:+ s +:+ q.
Definition text_parameter (v : string) : string :=
  "{" +:+ quoted "type" +:+ ": " +:+ quoted "text" +:+ ", " +:+ quoted "text" +:+ ": " +:+ quoted v +:+ "}".
Definition _template_components (variables : list string) : jval :=
  JList ("[{" +:+ quoted "type" +:+ ": " +:+ quoted "body" +:+ ", " +:+ quoted "parameters" +:+ ": [" +:+
         String.concat ", " (text_parameter <$> variables) +:+ "]}]") 1.

Definition notify_customer (restaurant_id : Z) (phone session_text template_key : string)
    (variables : list string) (idempotency_key : string) : NM unit :=
  match UTILITY_TEMPLATES template_key with
  | None => raise (UnknownTemplate template_key)
  | Some language =>
      inside ← _within_window restaurant_id phone;
      let ty := if (inside : bool) then "text"%string else "template"%string in
      let payload : jdict :=
        if (inside : bool) then [("body", JStr session_text)]%string
        else [("name", JStr template_key); ("language", JStr language);
              ("components", _template_components variables)]%string in
      _ ← zoom NotifyOutboxRaised (enqueue_message restaurant_id phone ty payload idempotency_key true true);
      mret tt
  end.

(** Queueing a message never raises, nor does a registered template. *)
Lemma enqueue_total rid phone ty payload key mr mc s :
  ∃ r o, enqueue_message rid phone ty payload key mr mc s = Ok r o.
Proof.
  unfold enqueue_message, mbind, M_bind, gets, modify, mret, M_ret, mirror, modify.
  destruct (negb (truthy (strip phone))); [eauto|]. destruct (first_where _ _); [eauto|]. destruct mr, mc; eauto.
Qed.
Lemma notify_customer_run rid phone text key language vars ikey s :
  UTILITY_TEMPLATES key = Some language →
  ∃ o, notify_customer rid phone text key vars ikey s = Ok tt (put o s).
Proof.
  intros Hkey. unfold notify_customer. rewrite Hkey.
  assert (Hw : ∃ b, _within_window rid phone s = Ok b s).
  { unfold _within_window. erewrite bind_run_Ok by reflexivity. destruct (first_where _ _); eexists; reflexivity. }
  destruct Hw as [b Hb]. rewrite (bind_run_Ok _ _ _ _ _ Hb). cbv zeta.
  match goal with |- context [enqueue_message rid phone ?ty ?p ikey true true] =>
    destruct (enqueue_total rid phone ty p ikey true true (notify_outbox s)) as (r & o & Hrun) end.
  exists o. unfold zoom, mbind, M_bind. cbn [view notify_outbox_lens]. by rewrite Hrun.
Qed.
