(* ===== verification/Loyalty.v ===== *)
(** * The loyalty programme ([app.loyalty])

    Tiers with their reward coupons, store credit earned on delivery, points, stamp
    cards, favourites and referrals, over the wallet, the coupons and the customer
    notifications.  The statistics a tier is computed from are the columns
    [recompute_customer_stats] keeps ([OrderFsm]); the other columns of the customer
    are [Member]s here.  Amounts of the settings are whole fils. *)

From S2P Require Import Prelude Money Strings Db AuditTrail Clock Wallet Coupons OrderFsm Outbox Notify.

(** ** Settings *)

Inductive tier := Bronze | Silver | Gold.
#[global] Instance tier_eq_dec : EqDecision tier.
Proof. solve_decision. Defined.

Definition _TIER_RANK (t : option tier) : Z :=
  match t with None => 0 | Some Bronze => 1 | Some Silver => 2 | Some Gold => 3 end.
Definition _TIER_ORDER : list tier := [Gold; Silver; Bronze].
Definition _TIER_EMOJI (t : tier) : string :=
  match t with Gold => "🥇" | Silver => "🥈" | Bronze => "🥉" end.
Definition tier_str (t : tier) : string :=
  match t with Bronze => "bronze" | Silver => "silver" | Gold => "gold" end.
(** [tier.title()]. *)
Definition tier_title (t : tier) : string :=
  match t with Bronze => "Bronze" | Silver => "Silver" | Gold => "Gold" end.
Definition tier_json (t : option tier) : jval := jopt_str (tier_str <$> t).

Record tier_cfg := { min_orders : Z; min_spend_aed : Z; max_recency_days : option Q }.

(** A tier's perk; [rw_text] is how the configured amount prints. *)
Record reward_cfg := { rw_discount_aed : Z; rw_text : string; every_n_orders : Z }.

(** [settings.loyalty] as stored: a key may be missing. *)
Record loyalty_block := {
  raw_enabled : option bool;
  raw_earn_rate : option Q;
  raw_earn_max : option Z;
  raw_tiers : option (tier → option tier_cfg);
  raw_rewards : option (tier → option reward_cfg);
  raw_grace_days : option Q;
  raw_stamps_required : option Z;
  raw_points_per_aed : option Q;
}.
Record loyalty_cfg := {
  enabled : bool;
  earn_rate : Q;
  earn_max_per_order_aed : Z;
  tiers : tier → option tier_cfg;
  tier_rewards : tier → option reward_cfg;
  demotion_grace_days : Q;
}.

(** [DEFAULT_SETTINGS["loyalty"]] of [identity/models.py]. *)
Definition default_tiers (t : tier) : option tier_cfg :=
  Some match t with
  | Gold => {| min_orders := 5; min_spend_aed := 30000; max_recency_days := Some 30%Q |}
  | Silver => {| min_orders := 3; min_spend_aed := 12000; max_recency_days := Some 60%Q |}
  | Bronze => {| min_orders := 2; min_spend_aed := 0; max_recency_days := Some 90%Q |}
  end.
Definition default_rewards (t : tier) : option reward_cfg :=
  match t with
  | Gold => Some {| rw_discount_aed := 2500; rw_text := "25"; every_n_orders := 5 |}
  | Silver => Some {| rw_discount_aed := 1000; rw_text := "10"; every_n_orders := 6 |}
  | Bronze => None
  end.

(** The defaults, overwritten key by key. *)
Definition _loyalty_cfg (settings : option loyalty_block) : loyalty_cfg :=
  let key {A} (f : loyalty_block → option A) (d : A) : A := default d (settings ≫= f) in
  {| enabled := key raw_enabled false;
     earn_rate := key raw_earn_rate (1 # 20)%Q;
     earn_max_per_order_aed := key raw_earn_max 2000;
     tiers := key raw_tiers default_tiers;
     tier_rewards := key raw_rewards default_rewards;
     demotion_grace_days := key raw_grace_days 30%Q |}.

(** ** Tiers *)

(** The microseconds since the last order.  The code divides them by a day in floating
    point and compares with a number of days; for settings of whole days the rounding
    is far below a microsecond, so the exact comparison is the same. *)
Definition _recency_days (last_order_at : option Z) (now : Z) : option Z :=
  (λ t, now - t) <$> last_order_at.
Definition older_than (max_days : Q) (recency : Z) : bool :=
  (max_days * inject_Z day <q inject_Z recency).

Definition _qualifies (c : tier_cfg) (total_orders total_spend : Z) (recency : option Z) : bool :=
  if total_orders <? min_orders c then false else
  if total_spend <? min_spend_aed c then false else
  match max_recency_days c with
  | Some m => match recency with None => false | Some r => negb (older_than m r) end
  | None => true
  end.

Definition with_grace (grace : Q) (c : tier_cfg) : tier_cfg :=
  {| min_orders := min_orders c; min_spend_aed := min_spend_aed c;
     max_recency_days := (λ m, m + grace)%Q <$> max_recency_days c |}.

Fixpoint first_tier (cfg : loyalty_cfg) (grace : Q) (st : order_stats) (recency : option Z)
    (l : list tier) : option tier :=
  match l with
  | [] => None
  | name :: l' =>
      match tiers cfg name with
      | None => first_tier cfg grace st recency l'
      | Some c =>
          let c := if Qeq_bool grace 0 then c else with_grace grace c in
          if _qualifies c (total_orders st) (total_spend st) recency then Some name
          else first_tier cfg grace st recency l'
      end
  end.
Definition compute_tier (cfg : loyalty_cfg) (st : order_stats) (now : Z) (recency_grace_days : Q)
    : option tier :=
  first_tier cfg recency_grace_days st (_recency_days (last_order_at st) now) _TIER_ORDER.

(** ** The session *)

(** The loyalty columns of a customer. *)
Record Member := {
  mb_id : Z;
  mb_restaurant_id : Z;
  mb_phone : string;
  loyalty_tier : option tier;
  loyalty_tier_since : option Z;
  loyalty_tier_locked : bool;
  loyalty_reward_anchor : Z;
  referred_by_customer_id : option Z;
  loyalty_points : Z;
}.
#[global] Instance Member_row : Row Member := mb_id.
Definition with_tier (t : option tier) (since : option Z) (locked : bool) (anchor : Z) (m : Member) : Member :=
  {| mb_id := mb_id m; mb_restaurant_id := mb_restaurant_id m; mb_phone := mb_phone m; loyalty_tier := t;
     loyalty_tier_since := since; loyalty_tier_locked := locked; loyalty_reward_anchor := anchor;
     referred_by_customer_id := referred_by_customer_id m; loyalty_points := loyalty_points m |}.
Definition with_points (n : Z) (m : Member) : Member :=
  {| mb_id := mb_id m; mb_restaurant_id := mb_restaurant_id m; mb_phone := mb_phone m;
     loyalty_tier := loyalty_tier m; loyalty_tier_since := loyalty_tier_since m;
     loyalty_tier_locked := loyalty_tier_locked m; loyalty_reward_anchor := loyalty_reward_anchor m;
     referred_by_customer_id := referred_by_customer_id m; loyalty_points := n |}.
Definition with_referrer (r : option Z) (m : Member) : Member :=
  {| mb_id := mb_id m; mb_restaurant_id := mb_restaurant_id m; mb_phone := mb_phone m;
     loyalty_tier := loyalty_tier m; loyalty_tier_since := loyalty_tier_since m;
     loyalty_tier_locked := loyalty_tier_locked m; loyalty_reward_anchor := loyalty_reward_anchor m;
     referred_by_customer_id := r; loyalty_points := loyalty_points m |}.

Record StampCard := {
  sc_id : Z; sc_restaurant_id : Z; sc_customer_id : Z;
  stamps : Z; rewards_redeemed : Z; stamps_required : Z;
}.
#[global] Instance StampCard_row : Row StampCard := sc_id.
Definition with_stamps (n redeemed required : Z) (c : StampCard) : StampCard :=
  {| sc_id := sc_id c; sc_restaurant_id := sc_restaurant_id c; sc_customer_id := sc_customer_id c;
     stamps := n; rewards_redeemed := redeemed; stamps_required := required |}.

Record LoyaltyPointEntry := {
  lp_id : Z; lp_restaurant_id : Z; lp_customer_id : Z;
  lp_points : Z; lp_reason : string; lp_order_id : option Z; lp_key : string;
}.
#[global] Instance LoyaltyPointEntry_row : Row LoyaltyPointEntry := lp_id.

Record ReferralCode := { rc_id : Z; rc_restaurant_id : Z; rc_customer_id : Z; rc_code : string }.
#[global] Instance ReferralCode_row : Row ReferralCode := rc_id.

(** A line of an order, as favourites count it. *)
Record EatenLine := { el_id : Z; el_order_id : Z; el_dish_id : option Z; el_dish_name : string; el_qty : Z }.
#[global] Instance EatenLine_row : Row EatenLine := el_id.
Record CustomerFavorite := {
  cf_id : Z; cf_restaurant_id : Z; cf_customer_id : Z;
  cf_dish_id : option Z; cf_dish_name : string; cf_order_count : Z;
}.
#[global] Instance CustomerFavorite_row : Row CustomerFavorite := cf_id.

Record Venue := { vn_id : Z; vn_name : string }.
#[global] Instance Venue_row : Row Venue := vn_id.

Record loyalty_db := {
  members : table Member;
  stamp_cards : table StampCard;
  point_entries : table LoyaltyPointEntry;
  referral_codes : table ReferralCode;
  favorites : table CustomerFavorite;
  eaten_lines : table EatenLine;
  venues : table Venue;
  lo_fsm : fsm_db;
  lo_wallet : wallet_db;
  lo_coupons : coupon_db;
  lo_notify : notify_db;
  lo_audit : list audit_row;
  lo_now : Z;
}.
Definition with_members (t : table Member) (s : loyalty_db) : loyalty_db :=
  Build_loyalty_db t (stamp_cards s) (point_entries s) (referral_codes s) (favorites s) (eaten_lines s)
    (venues s) (lo_fsm s) (lo_wallet s) (lo_coupons s) (lo_notify s) (lo_audit s) (lo_now s).
Definition with_stamp_cards (t : table StampCard) (s : loyalty_db) : loyalty_db :=
  Build_loyalty_db (members s) t (point_entries s) (referral_codes s) (favorites s) (eaten_lines s)
    (venues s) (lo_fsm s) (lo_wallet s) (lo_coupons s) (lo_notify s) (lo_audit s) (lo_now s).
Definition with_point_entries (t : table LoyaltyPointEntry) (s : loyalty_db) : loyalty_db :=
  Build_loyalty_db (members s) (stamp_cards s) t (referral_codes s) (favorites s) (eaten_lines s)
    (venues s) (lo_fsm s) (lo_wallet s) (lo_coupons s) (lo_notify s) (lo_audit s) (lo_now s).
Definition with_referral_codes (t : table ReferralCode) (s : loyalty_db) : loyalty_db :=
  Build_loyalty_db (members s) (stamp_cards s) (point_entries s) t (favorites s) (eaten_lines s)
    (venues s) (lo_fsm s) (lo_wallet s) (lo_coupons s) (lo_notify s) (lo_audit s) (lo_now s).
Definition with_favorites (t : table CustomerFavorite) (s : loyalty_db) : loyalty_db :=
  Build_loyalty_db (members s) (stamp_cards s) (point_entries s) (referral_codes s) t (eaten_lines s)
    (venues s) (lo_fsm s) (lo_wallet s) (lo_coupons s) (lo_notify s) (lo_audit s) (lo_now s).

#[global] Program Instance loyalty_wallet_lens : Lens loyalty_db wallet_db := {|
  view := lo_wallet;
  put w s := Build_loyalty_db (members s) (stamp_cards s) (point_entries s) (referral_codes s) (favorites s)
    (eaten_lines s) (venues s) (lo_fsm s) w (lo_coupons s) (lo_notify s) (lo_audit s) (lo_now s);
|}.
Solve Obligations with by intros; try destruct s.
#[global] Program Instance loyalty_coupon_lens : Lens loyalty_db coupon_db := {|
  view := lo_coupons;
  put c s := Build_loyalty_db (members s) (stamp_cards s) (point_entries s) (referral_codes s) (favorites s)
    (eaten_lines s) (venues s) (lo_fsm s) (lo_wallet s) c (lo_notify s) (lo_audit s) (lo_now s);
|}.
Solve Obligations with by intros; try destruct s.
#[global] Program Instance loyalty_notify_lens : Lens loyalty_db notify_db := {|
  view := lo_notify;
  put n s := Build_loyalty_db (members s) (stamp_cards s) (point_entries s) (referral_codes s) (favorites s)
    (eaten_lines s) (venues s) (lo_fsm s) (lo_wallet s) (lo_coupons s) n (lo_audit s) (lo_now s);
|}.
Solve Obligations with by intros; try destruct s.
#[global] Program Instance loyalty_fsm_lens : Lens loyalty_db fsm_db := {|
  view := lo_fsm;
  put f s := Build_loyalty_db (members s) (stamp_cards s) (point_entries s) (referral_codes s) (favorites s)
    (eaten_lines s) (venues s) f (lo_wallet s) (lo_coupons s) (lo_notify s) (lo_audit s) (lo_now s);
|}.
Solve Obligations with by intros; try destruct s.
#[global] Instance loyalty_has_audit : HasAudit loyalty_db := {|
  audit_log := lo_audit;
  put_audit l s := Build_loyalty_db (members s) (stamp_cards s) (point_entries s) (referral_codes s) (favorites s)
    (eaten_lines s) (venues s) (lo_fsm s) (lo_wallet s) (lo_coupons s) (lo_notify s) l (lo_now s);
|}.

Inductive loyalty_error :=
| MemberNotAttached (customer_id : Z)  (** the customer passed in is not a row of the session *)
| InvalidTier (tier : string)
| NeedStamps (need have : Z)
| MemberNotFound
| PointsNotPositive
| InsufficientPoints
| UnknownReferralCode (code : string)
| UnknownNewCustomer (customer_id : Z)
| OwnReferralCode
| AlreadyReferred (customer_id : Z)
| NoUniqueReferralCode
| LoyaltyIntegrityError
| LoyaltyWalletRaised (e : wallet_error)
| LoyaltyCouponRaised (e : coupon_error)
| LoyaltyNotifyRaised (e : notify_error).

Abbreviation LM := (M loyalty_db loyalty_error).

(** The [customer] argument is an attached row, named by its id. *)
Definition the_member (customer_id : Z) : LM Member :=
  found ← gets (λ s, get_row customer_id (members s));
  match found with Some m => mret m | None => raise (MemberNotAttached customer_id) end.
Definition update_member (row : Member) : LM unit :=
  modify (λ s, with_members (set_row row (members s)) s).
Definition no_stats : order_stats :=
  {| total_orders := 0; total_spend := 0; first_order_at := None; last_order_at := None |}.
Definition stats_of (customer_id : Z) (s : loyalty_db) : order_stats :=
  default no_stats (cu_stats <$> get_row customer_id (customers (lo_fsm s))).
Definition venue_name (restaurant_id : Z) (fallback : string) (s : loyalty_db) : string :=
  default fallback (vn_name <$> get_row restaurant_id (venues s)).

Section service.
(** The random tokens of the [n]-th coupon. *)
Context (tokens : Z → nat → string).

Definition mint_coupon (restaurant_id customer_id discount_aed : Z) : LM Coupon :=
  n ← gets (λ s, next_id (coupons (lo_coupons s)));
  zoom LoyaltyCouponRaised
    (issue_coupon (tokens n) restaurant_id customer_id None discount_aed DEFAULT_VALIDITY_DAYS).

(** ** Rewards *)

Definition reward_text (t : tier) (code amount venue : string) : string :=
  _TIER_EMOJI t +:+ " " +:+ tier_title t +:+ " reward! Coupon " +:+ code +:+ " — AED " +:+ amount
  +:+ " off your next order at " +:+ venue +:+ ". 🎁".

Definition _issue_tier_reward (customer_id : Z) (cfg : loyalty_cfg) (t : tier) (notify : bool) : LM unit :=
  match tier_rewards cfg t with
  | None => mret tt
  | Some rcfg =>
      let discount := rw_discount_aed rcfg in
      if discount <=? 0 then mret tt else
      customer ← the_member customer_id;
      coupon ← mint_coupon (mb_restaurant_id customer) (mb_id customer) discount;
      if negb notify then mret tt else
      rname ← gets (venue_name (mb_restaurant_id customer) "the restaurant");
      zoom LoyaltyNotifyRaised (notify_customer (mb_restaurant_id customer) (mb_phone customer)
        (reward_text t (c_code coupon) (rw_text rcfg) rname) "coupon_issued"
        [rname; c_code coupon; rw_text rcfg] ("loyalty:reward:" +:+ pretty (c_id coupon)))
  end.

Definition tierup_key (m : Member) (t : tier) : string :=
  "loyalty:tierup:" +:+ pretty (mb_id m) +:+ ":" +:+ tier_str t +:+ ":" +:+
  match loyalty_tier_since m with Some at_ => isoformat (date_of at_) | None => "x" end.

Definition _notify_tier_up (customer_id : Z) (t : tier) : LM unit :=
  customer ← the_member customer_id;
  rname ← gets (venue_name (mb_restaurant_id customer) "us");
  _ ← zoom LoyaltyNotifyRaised (zoom NotifyOutboxRaised
        (enqueue_message (mb_restaurant_id customer) (mb_phone customer) "text"
          [("body", JStr (_TIER_EMOJI t +:+ " You're now a " +:+ tier_title t +:+ " member at " +:+ rname
                          +:+ "! Enjoy your perks. 🎉"))]%string (tierup_key customer t) true true));
  mret tt.

(** The tier a recomputation decides on: a drop is held back while the customer still
    qualifies for the current tier with the grace added to its recency. *)
Definition decided_tier (cfg : loyalty_cfg) (st : order_stats) (current : option tier) (now : Z) : option tier :=
  let strict := compute_tier cfg st now 0 in
  if (_TIER_RANK strict <? _TIER_RANK current) && negb (bool_decide (current = None)) then
    let kept := compute_tier cfg st now (demotion_grace_days cfg) in
    if _TIER_RANK current <=? _TIER_RANK kept then current else strict
  else strict.

Definition recompute_tier (customer_id : Z) (settings : option loyalty_block) (notify : bool)
    : LM (bool * option tier * option tier) :=
  let cfg := _loyalty_cfg settings in
  customer ← the_member customer_id;
  let current := loyalty_tier customer in
  if negb (enabled cfg) then mret (false, current, current) else
  if loyalty_tier_locked customer then mret (false, current, current) else
  now ← gets lo_now;
  st ← gets (stats_of customer_id);
  let new_tier := decided_tier cfg st current now in
  if bool_decide (new_tier = current) then mret (false, current, current) else
  let upgraded := _TIER_RANK current <? _TIER_RANK new_tier in
  update_member (with_tier new_tier (Some now) (loyalty_tier_locked customer)
    (if upgraded then total_orders st else loyalty_reward_anchor customer) customer) ≫= λ _,
  _ ← audit "system" (mb_restaurant_id customer) "customer" (pretty (mb_id customer)) "loyalty_tier_change"
        (Some [("tier", tier_json current)]%string) (Some [("tier", tier_json new_tier)]%string);
  match new_tier with
  | Some t =>
      if upgraded then
        _issue_tier_reward customer_id cfg t notify ≫= λ _,
        (if notify then _notify_tier_up customer_id t else mret tt) ≫= λ _,
        mret (true, current, new_tier)
      else mret (true, current, new_tier)
  | None => mret (true, current, new_tier)
  end.

Definition maybe_issue_recurring_reward (customer_id : Z) (settings : option loyalty_block) (notify : bool)
    : LM bool :=
  let cfg := _loyalty_cfg settings in
  customer ← the_member customer_id;
  match loyalty_tier customer with
  | None => mret false
  | Some t =>
      if negb (enabled cfg) then mret false else
      match tier_rewards cfg t with
      | None => mret false
      | Some rcfg =>
          let every_n := every_n_orders rcfg in
          if every_n <=? 0 then mret false else
          st ← gets (stats_of customer_id);
          let held := total_orders st - loyalty_reward_anchor customer in
          if (held <=? 0) || negb (held mod every_n =? 0) then mret false else
          _issue_tier_reward customer_id cfg t notify ≫= λ _, mret true
      end
  end.

(** ** The manager's override *)

Definition tier_of_str (t : string) : option tier :=
  if t =s "gold" then Some Gold else if t =s "silver" then Some Silver
  else if t =s "bronze" then Some Bronze else None.

Definition set_manual_tier (customer_id : Z) (t : option string) (created_by : string) : LM unit :=
  customer ← the_member customer_id;
  let wanted := t ≫= tier_of_str in
  match t, wanted with
  | Some name, None => raise (InvalidTier name)
  | _, _ =>
      now ← gets lo_now;
      st ← gets (stats_of customer_id);
      update_member (with_tier wanted (Some now) true (total_orders st) customer) ≫= λ _,
      _ ← audit created_by (mb_restaurant_id customer) "customer" (pretty (mb_id customer)) "loyalty_manual_tier"
            (Some [("tier", tier_json (loyalty_tier customer)); ("locked", JBool (loyalty_tier_locked customer))]%string)
            (Some [("tier", tier_json wanted); ("locked", JBool true)]%string);
      mret tt
  end.

Definition unlock_tier (customer_id : Z) (created_by : string) : LM unit :=
  customer ← the_member customer_id;
  update_member (with_tier (loyalty_tier customer) (loyalty_tier_since customer) false
    (loyalty_reward_anchor customer) customer) ≫= λ _,
  _ ← audit created_by (mb_restaurant_id customer) "customer" (pretty (mb_id customer)) "loyalty_unlock"
        (Some [("locked", JBool true)]%string) (Some [("locked", JBool false)]%string);
  mret tt.

(** ** Progress towards the next tier *)

Definition tiers_above (current : option tier) : list tier :=
  match current with
  | None => [Bronze; Silver; Gold] | Some Bronze => [Silver; Gold]
  | Some Silver => [Gold] | Some Gold => []
  end.

Definition progress_line (current : option tier) (st : order_stats) (name : tier) (c : tier_cfg) : string :=
  let need_orders := Z.max 0 (min_orders c - total_orders st) in
  let need_spend := Z.max 0 (min_spend_aed c - total_spend st) in
  let parts := (if need_orders =? 0 then [] else [pretty need_orders +:+ " more order(s)"]) ++
               (if 0 <? need_spend then ["AED " +:+ str_cents need_spend +:+ " more spend"] else []) in
  let gap := match parts with [] => "just keep ordering to stay active" | _ => String.concat " and " parts end in
  (match current with Some t => "You're " +:+ tier_title t +:+ ". " | None => "" end) +:+
  (if need_orders =? 0 then "" else pretty need_orders) +:+
  "To reach " +:+ tier_title name +:+ " " +:+ _TIER_EMOJI name +:+ ": " +:+ gap +:+ ".".

Fixpoint next_line (cfg : loyalty_cfg) (current : option tier) (st : order_stats) (l : list tier) : string :=
  match l with
  | [] => "You're at our top tier" +:+
          (match current with Some t => " (" +:+ tier_title t +:+ ")" | None => "" end) +:+ " 🏆 — thank you!"
  | name :: l' =>
      match tiers cfg name with
      | None => next_line cfg current st l'
      | Some c => progress_line current st name c
      end
  end.

Definition tier_progress_text (settings : option loyalty_block) (st : order_stats) (now : Z) : string :=
  let cfg := _loyalty_cfg settings in
  if negb (enabled cfg) then "We don't have a loyalty program right now 😊" else
  let current := compute_tier cfg st now 0 in
  next_line cfg current st (tiers_above current).

(** ** Store credit earned on delivery *)

Definition earn_key (order_id : Z) : string := "loyalty:earn:" +:+ pretty order_id.
Definition earn_reverse_key (order_id : Z) : string := "loyalty:earn:reverse:" +:+ pretty order_id.

(** The order passed in, as the programme reads it. *)
Record earned_order := { eo_id : Z; eo_restaurant_id : Z; eo_customer_id : Z; eo_subtotal : Z }.

Definition earned_amount (cfg : loyalty_cfg) (subtotal : Z) : Z :=
  let amount := quantize (aed subtotal * earn_rate cfg) in
  if 0 <? earn_max_per_order_aed cfg then Z.min amount (earn_max_per_order_aed cfg) else amount.

Definition earn (o : earned_order) (settings : option loyalty_block) : LM Z :=
  let cfg := _loyalty_cfg settings in
  if negb (enabled cfg) then mret 0 else
  if earn_rate cfg <=q 0 then mret 0 else
  let amount := earned_amount cfg (eo_subtotal o) in
  if amount <=? 0 then mret 0 else
  _ ← zoom LoyaltyWalletRaised (credit (eo_restaurant_id o) (eo_customer_id o) (aed amount) (earn_key (eo_id o))
        Promo_credit None (Some "loyalty earn"%string) "system");
  mret amount.

Definition reverse_earn (o : earned_order) (created_by : string) : LM unit :=
  entry ← gets (λ s, first_where (λ e, we_key e =s earn_key (eo_id o)) (entries (lo_wallet s)));
  match entry with
  | None => mret tt
  | Some e =>
      if negb (bool_decide (we_status e = Posted)) then mret tt else
      _ ← zoom LoyaltyWalletRaised (reverse (we_id e) (eo_restaurant_id o) (earn_reverse_key (eo_id o))
            "loyalty earn reversed (refund/cancel)" created_by);
      mret tt
  end.

(** ** Stamp cards ([loyalty/crm.py]) *)

Definition card_of (restaurant_id customer_id : Z) (c : StampCard) : bool :=
  (sc_restaurant_id c =? restaurant_id) && (sc_customer_id c =? customer_id).

Definition get_or_create_stamp_card (restaurant_id customer_id required : Z) : LM StampCard :=
  t ← gets stamp_cards;
  match first_where (card_of restaurant_id customer_id) t with
  | Some card => mret card
  | None =>
      let row := {| sc_id := next_id t; sc_restaurant_id := restaurant_id; sc_customer_id := customer_id;
                    stamps := 0; rewards_redeemed := 0; stamps_required := required |} in
      modify (with_stamp_cards (add_row row t)) ≫= λ _, mret row
  end.
Definition update_card (row : StampCard) : LM unit :=
  modify (λ s, with_stamp_cards (set_row row (stamp_cards s)) s).

Definition add_stamp (restaurant_id customer_id required count_ : Z) : LM StampCard :=
  card ← get_or_create_stamp_card restaurant_id customer_id required;
  let card' := with_stamps (stamps card + Z.max count_ 0) (rewards_redeemed card) required card in
  update_card card' ≫= λ _, mret card'.

(** [int(x or 10)]. *)
Definition or_ten (n : Z) : Z := if n =? 0 then 10 else n.
Definition STAMP_REWARD_AED : Z := 1500.  (** [Decimal("15.00")] *)

Definition redeem_stamp_reward (restaurant_id customer_id : Z) : LM (StampCard * Coupon) :=
  card ← get_or_create_stamp_card restaurant_id customer_id 10;
  let need := or_ten (stamps_required card) in
  if stamps card <? need then raise (NeedStamps need (stamps card)) else
  let card' := with_stamps (stamps card - need) (rewards_redeemed card + 1) (stamps_required card) card in
  update_card card' ≫= λ _,
  coupon ← mint_coupon restaurant_id customer_id STAMP_REWARD_AED;
  mret (card', coupon).

(** ** Points *)

Definition award_loyalty_points (restaurant_id customer_id points : Z) (reason : string)
    (order_id : option Z) (idempotency_key : string) : LM Z :=
  cust ← gets (λ s, get_row customer_id (members s));
  let held := match cust with Some c => loyalty_points c | None => 0 end in
  if points =? 0 then mret held else
  existing ← gets (λ s, first_where (λ e, lp_key e =s idempotency_key) (point_entries s));
  match existing, cust with
  | Some _, _ => mret held
  | None, None => raise MemberNotFound
  | None, Some c =>
      if negb (mb_restaurant_id c =? restaurant_id) then raise MemberNotFound else
      let new_bal := Z.max (loyalty_points c + points) 0 in
      update_member (with_points new_bal c) ≫= λ _,
      modify (λ s, with_point_entries (add_row
        {| lp_id := next_id (point_entries s); lp_restaurant_id := restaurant_id; lp_customer_id := customer_id;
           lp_points := points; lp_reason := reason; lp_order_id := order_id; lp_key := idempotency_key |}
        (point_entries s)) s) ≫= λ _,
      mret new_bal
  end.

(** [str(datetime.timestamp())]: seconds, with the microseconds that are not zero. *)
Fixpoint drop_zeros (s : string) : string :=
  match s with
  | EmptyString => EmptyString
  | String c s' =>
      match drop_zeros s' with
      | EmptyString => if Ascii.eqb c (Ascii.ascii_of_nat 48) then EmptyString else String c EmptyString
      | r => String c r
      end
  end.
Definition timestamp_str (t : Z) : string :=
  pretty (t / second) +:+ "." +:+
  match drop_zeros (six_digits (t mod second)) with EmptyString => "0" | f => f end.
Definition redeem_key (customer_id points now : Z) : string :=
  "points:redeem:" +:+ pretty customer_id +:+ ":" +:+ pretty points +:+ ":" +:+ timestamp_str now.

Definition redeem_loyalty_points (restaurant_id customer_id points : Z) (reason : string) : LM Z :=
  if points <=? 0 then raise PointsNotPositive else
  cust ← gets (λ s, get_row customer_id (members s));
  match cust with
  | None => raise MemberNotFound
  | Some c =>
      if negb (mb_restaurant_id c =? restaurant_id) then raise MemberNotFound else
      if loyalty_points c <? points then raise InsufficientPoints else
      now ← gets lo_now;
      award_loyalty_points restaurant_id customer_id (- points) reason None (redeem_key customer_id points now)
  end.

(** ** Favourites *)

Definition favorite_statuses : list string :=
  ["confirmed"; "preparing"; "out_for_delivery"; "delivered"; "ready"]%string.

(** [Counter]: the dishes in the order they were first met, with their units. *)
Definition dish_key : Type := option Z * string.
Fixpoint count_up (k : dish_key) (n : Z) (l : list (dish_key * Z)) : list (dish_key * Z) :=
  match l with
  | [] => [(k, n)]
  | (k', m) :: l' => if bool_decide (k' = k) then (k', m + n) :: l' else (k', m) :: count_up k n l'
  end.
(** The name of a dish, or the stand-in of a line without one; [qty or 1]. *)
Definition line_key (l : EatenLine) : dish_key :=
  (el_dish_id l,
   if truthy (el_dish_name l) then el_dish_name l
   else "dish-" +:+ match el_dish_id l with Some i => pretty i | None => "None" end).
Definition line_units (l : EatenLine) : Z := if el_qty l =? 0 then 1 else el_qty l.
Definition counted (lines : list EatenLine) : list (dish_key * Z) :=
  fold_left (λ c l, count_up (line_key l) (line_units l) c) lines [].
(** [Counter.most_common(n)]. *)
Definition most_common (n : nat) (c : list (dish_key * Z)) : list (dish_key * Z) :=
  take n (sort_by (λ x y, snd y <=? snd x) c).

Definition favorite_of (restaurant_id customer_id : Z) (f : CustomerFavorite) : bool :=
  (cf_restaurant_id f =? restaurant_id) && (cf_customer_id f =? customer_id).
Definition favorite_row (restaurant_id customer_id id : Z) (k : dish_key * Z) : CustomerFavorite :=
  {| cf_id := id; cf_restaurant_id := restaurant_id; cf_customer_id := customer_id;
     cf_dish_id := fst (fst k); cf_dish_name := snd (fst k); cf_order_count := snd k |}.

(** UNIQUE(restaurant_id, customer_id, dish_id), checked when the new rows are flushed:
    a NULL dish clashes with nothing. *)
Fixpoint same_dish_twice (l : list (option Z)) : bool :=
  match l with
  | [] => false
  | Some i :: l' => existsb (λ d, bool_decide (d = Some i)) l' || same_dish_twice l'
  | None :: l' => same_dish_twice l'
  end.

Definition refresh_favorites (restaurant_id customer_id : Z) (limit : nat) : LM (list CustomerFavorite) :=
  mine ← gets (λ s, all_where (λ o, (o_restaurant_id o =? restaurant_id) && (o_customer_id o =? customer_id)
                 && in_strs (status_value (o_status o)) favorite_statuses) (orders (lo_fsm s)));
  match mine with
  | [] => mret []
  | _ =>
      items ← gets (λ s, all_where (λ l, existsb (λ o, o_id o =? el_order_id l) mine) (eaten_lines s));
      existing ← gets (λ s, all_where (favorite_of restaurant_id customer_id) (favorites s));
      for_each (λ f, modify (λ s, with_favorites (del_row (cf_id f) (favorites s)) s)) existing ≫= λ _,
      let top := most_common limit (counted items) in
      if same_dish_twice ((λ k, fst (fst k)) <$> top) then raise LoyaltyIntegrityError else
      for_fold (λ k acc,
        t ← gets favorites;
        let row := favorite_row restaurant_id customer_id (next_id t) k in
        modify (with_favorites (add_row row t)) ≫= λ _, mret (acc ++ [row])) top []
  end.

(** ** The hooks of a delivery *)

Definition points_key (order_id : Z) : string := "points:earn:" +:+ pretty order_id.
(** [float(loyalty.get("points_per_aed", 1) or 1)]: a rate of zero reads as one. *)
Definition points_rate (settings : option loyalty_block) : Q :=
  let rate := default 1%Q (settings ≫= raw_points_per_aed) in if Qeq_bool rate 0 then 1%Q else rate.
Definition earned_points (settings : option loyalty_block) (subtotal : Z) : Z :=
  qtrunc (aed subtotal * points_rate settings).

Definition on_delivery_crm_hooks (o : earned_order) (customer_id : Z) (settings : option loyalty_block)
    : LM unit :=
  let required := or_ten (default 10 (settings ≫= raw_stamps_required)) in
  add_stamp (eo_restaurant_id o) customer_id required 1 ≫= λ _,
  let pts := earned_points settings (eo_subtotal o) in
  (if 0 <? pts
   then _ ← award_loyalty_points (eo_restaurant_id o) customer_id pts "order_earn" (Some (eo_id o))
              (points_key (eo_id o)); mret tt
   else mret tt) ≫= λ _,
  _ ← refresh_favorites (eo_restaurant_id o) customer_id 10;
  _ ← audit "system" (eo_restaurant_id o) "customer" (pretty customer_id) "crm_delivery_hooks" None
        (Some [("order_id", JInt (eo_id o)); ("points", JInt pts); ("stamps_required", JInt required)]%string);
  mret tt.

(** ** Referrals ([loyalty/referrals.py]) *)

Definition REFERRAL_BONUS_AED : Z := 1000.
Definition _MAX_ATTEMPTS : nat := 10.

(** The retry loop; [codes i] is the [i]-th random code.  [None]: ten clashes. *)
Fixpoint free_code (fuel : nat) (clash : string → bool) (codes : nat → string) (i : nat) : option string :=
  match fuel with
  | O => None
  | S n => if clash (codes i) then free_code n clash codes (S i) else Some (codes i)
  end.
Definition code_clash (restaurant_id : Z) (t : table ReferralCode) (code : string) : bool :=
  existsb (λ r, (rc_restaurant_id r =? restaurant_id) && (rc_code r =s code)) (rows t).

Definition generate_referral_code (codes : nat → string) (restaurant_id customer_id : Z) : LM ReferralCode :=
  t ← gets referral_codes;
  match first_where (λ r, (rc_restaurant_id r =? restaurant_id) && (rc_customer_id r =? customer_id)) t with
  | Some r => mret r
  | None =>
      match free_code _MAX_ATTEMPTS (code_clash restaurant_id t) codes 0 with
      | None => raise NoUniqueReferralCode
      | Some code =>
          let row := {| rc_id := next_id t; rc_restaurant_id := restaurant_id;
                        rc_customer_id := customer_id; rc_code := code |} in
          modify (with_referral_codes (add_row row t)) ≫= λ _,
          _ ← audit "system" restaurant_id "referral_code" (pretty (rc_id row)) "generated" None
                (Some [("customer_id", JInt customer_id); ("code", JStr code)]%string);
          mret row
      end
  end.

Definition referral_key (code : string) (new_customer_id : Z) (side : string) : string :=
  "referral:" +:+ code +:+ ":" +:+ pretty new_customer_id +:+ ":" +:+ side.

Definition redeem_referral (restaurant_id : Z) (code : string) (new_customer_id : Z) : LM (Z * Z * Z) :=
  found ← gets (λ s, first_where (λ r, (rc_restaurant_id r =? restaurant_id) && (rc_code r =s code))
                       (referral_codes s));
  match found with
  | None => raise (UnknownReferralCode code)
  | Some code_row =>
      new_customer ← gets (λ s, get_row new_customer_id (members s));
      match new_customer with
      | None => raise (UnknownNewCustomer new_customer_id)
      | Some c =>
          if negb (mb_restaurant_id c =? restaurant_id) then raise (UnknownNewCustomer new_customer_id) else
          if rc_customer_id code_row =? new_customer_id then raise OwnReferralCode else
          match referred_by_customer_id c with
          | Some _ => raise (AlreadyReferred new_customer_id)
          | None =>
              update_member (with_referrer (Some (rc_customer_id code_row)) c) ≫= λ _,
              _ ← zoom LoyaltyWalletRaised (credit restaurant_id (rc_customer_id code_row) (aed REFERRAL_BONUS_AED)
                    (referral_key code new_customer_id "referrer") Promo_credit None
                    (Some ("referral bonus (referred customer " +:+ pretty new_customer_id +:+ ")")) "system");
              _ ← zoom LoyaltyWalletRaised (credit restaurant_id new_customer_id (aed REFERRAL_BONUS_AED)
                    (referral_key code new_customer_id "new") Promo_credit None
                    (Some ("referral bonus (used code " +:+ code +:+ ")")) "system");
              _ ← audit "system" restaurant_id "customer" (pretty new_customer_id) "referral_redeemed"
                    (Some [("referred_by_customer_id", JNull)]%string)
                    (Some [("referred_by_customer_id", JInt (rc_customer_id code_row)); ("code", JStr code)]%string);
              mret (rc_customer_id code_row, new_customer_id, REFERRAL_BONUS_AED)
          end
      end
  end.
End service.

(** ** The nightly task ([loyalty/worker.py]) *)

(** A restaurant's own pass: [block] is its settings. *)
Definition recompute_tenant (tokens : Z → nat → string) (restaurant_id : Z) (block : option loyalty_block)
    (changed : Z) : LM Z :=
  if negb (default false (block ≫= raw_enabled)) then mret changed else
  customers ← gets (λ s, all_where (λ m, mb_restaurant_id m =? restaurant_id) (members s));
  for_fold (λ c n, r ← recompute_tier tokens (mb_id c) block true;
                   let '(did, _, _) := r in if (did : bool) then mret (n + 1) else mret n) customers changed.
Definition _run (tokens : Z → nat → string) (restaurants : list (Z * option loyalty_block)) : LM Z :=
  for_fold (λ r n, recompute_tenant tokens (fst r) (snd r) n) restaurants 0.

#[global] Arguments earned_amount : simpl never.
#[global] Arguments older_than : simpl never.
#[global] Arguments earn_key : simpl never.
#[global] Arguments earn_reverse_key : simpl never.
#[global] Arguments points_key : simpl never.
#[global] Arguments redeem_key : simpl never.
#[global] Arguments referral_key : simpl never.
#[global] Arguments reward_text : simpl never.
#[global] Arguments tierup_key : simpl never.
#[global] Arguments progress_line : simpl never.
