(* ===== verification/LoyaltyFacts.v ===== *)
(** * Facts about the loyalty programme

    The points ledger, the stamp cards and the referral codes over every history of
    calls; what a tier recomputation decides; store credit earned and clawed back; a
    referral pays once. *)

From S2P Require Import Prelude Money Strings Db AuditTrail Clock Wallet WalletFacts Coupons CouponFacts OrderFsm Outbox Notify Loyalty.

(** ** What holds of the programme's tables *)

Definition points_of (customer_id : Z) (t : table LoyaltyPointEntry) : Z :=
  sum_where (λ e, lp_customer_id e =? customer_id) lp_points t.

(** [known] are the referrals on record: they can only stay. *)
Section keeps.
Context (known : list (Z * Z)).

Record programme_ok (ms : table Member) (cards : table StampCard) (es : table LoyaltyPointEntry)
    (codes : table ReferralCode) : Prop := {
  po_members : table_wf ms;
  po_entries : table_wf es;
  po_cards : table_wf cards;
  po_codes : table_wf codes;
  po_points : ∀ m, m ∈ rows ms → loyalty_points m = points_of (mb_id m) es ∧ 0 ≤ loyalty_points m;
  po_keys : unique_on lp_key es;
  po_orders : ∀ e o, e ∈ rows es → lp_order_id e = Some o → lp_key e = points_key o;
  po_owner : ∀ e, e ∈ rows es → ∃ m, m ∈ rows ms ∧ mb_id m = lp_customer_id e;
  po_stamps : ∀ c, c ∈ rows cards → 0 ≤ stamps c;
  po_card : unique_on (λ c, (sc_restaurant_id c, sc_customer_id c)) cards;
  po_code : unique_on (λ r, (rc_restaurant_id r, rc_code r)) codes;
  po_owns : unique_on (λ r, (rc_restaurant_id r, rc_customer_id r)) codes;
  po_known : ∀ c o, (c, o) ∈ known → ∃ m, m ∈ rows ms ∧ mb_id m = c ∧ referred_by_customer_id m = Some o;
}.
Definition programme (s : loyalty_db) : Prop :=
  programme_ok (members s) (stamp_cards s) (point_entries s) (referral_codes s).

(** A change of a member that keeps its identity, its points and who referred it. *)
Definition same_account_of (m m' : Member) : Prop :=
  mb_id m' = mb_id m ∧ loyalty_points m' = loyalty_points m ∧
  (referred_by_customer_id m = None ∨ referred_by_customer_id m' = referred_by_customer_id m).

(** Known referrals survive a write that keeps them. *)
Lemma known_set (ms : table Member) m m' :
  table_wf ms → m ∈ rows ms → mb_id m' = mb_id m →
  (referred_by_customer_id m = None ∨ referred_by_customer_id m' = referred_by_customer_id m) →
  (∀ c o, (c, o) ∈ known → ∃ x, x ∈ rows ms ∧ mb_id x = c ∧ referred_by_customer_id x = Some o) →
  (∀ c o, (c, o) ∈ known → ∃ x, x ∈ rows (set_row m' ms) ∧ mb_id x = c ∧ referred_by_customer_id x = Some o).
Proof.
  intros Hwf Hm Hid Href Hk c o Hco. destruct (Hk c o Hco) as (x & Hx & Hxc & Hxo).
  exists (if row_id x =? row_id m' then m' else x). split; [by apply elem_of_set_row_2|].
  destruct (row_id x =? row_id m') eqn:Hc; [|done]. apply Z.eqb_eq in Hc.
  assert (x = m) as ->. { apply (wf_unique _ Hwf); [done..|]. exact (eq_trans Hc Hid). }
  split; [congruence|]. destruct Href as [Hn|Hs]; congruence.
Qed.

Lemma programme_member m m' s :
  get_row (mb_id m) (members s) = Some m → same_account_of m m' →
  programme s → programme (with_members (set_row m' (members s)) s).
Proof.
  intros [Hm _]%get_row_Some (Hid & Hpts & Href) [? ? ? ? Hp ? ? Ho ? ? ? ? Hk]. split; try done; cbn;
    [| | |by apply (known_set (members s) m)].
  - by apply set_row_wf.
  - intros x [[-> _]|[Hx _]]%elem_of_set_row; [|by apply Hp]. rewrite Hid, Hpts. by apply Hp.
  - intros e He. destruct (Ho e He) as (x & Hx & Hxe).
    exists (if row_id x =? row_id m' then m' else x). split; [by apply elem_of_set_row_2|].
    destruct (row_id x =? row_id m') eqn:Hc; [|done]. apply Z.eqb_eq in Hc. exact (eq_trans (eq_sym Hc) Hxe).
Qed.

(** *** Calls of other components leave the tables alone *)

Lemma preserves_zoom_wallet {A} (m : W A) : preserves programme (zoom LoyaltyWalletRaised m).
Proof. intros s Hs. unfold zoom. by destruct (m (view s)). Qed.
Lemma preserves_zoom_coupons {A} (m : M coupon_db coupon_error A) : preserves programme (zoom LoyaltyCouponRaised m).
Proof. intros s Hs. unfold zoom. by destruct (m (view s)). Qed.
Lemma preserves_zoom_notify {A} (m : NM A) : preserves programme (zoom LoyaltyNotifyRaised m).
Proof. intros s Hs. unfold zoom. by destruct (m (view s)). Qed.
Lemma preserves_loyalty_audit actor rid entity eid action b a :
  preserves programme (audit (E := loyalty_error) actor rid entity eid action b a).
Proof. by intros s. Qed.
Lemma preserves_favorites (f : loyalty_db → table CustomerFavorite) :
  preserves programme (modify (E := loyalty_error) (λ s, with_favorites (f s) s)).
Proof. by intros s. Qed.
Lemma preserves_for_fold {A B} (f : A → B → LM B) l : ∀ b,
  (∀ a b, preserves programme (f a b)) → preserves programme (for_fold f l b).
Proof.
  induction l as [|x l IH]; intros b Hf; cbn; [apply preserves_ret|].
  apply preserves_bind; [apply Hf|]. intros b'. by apply IH.
Qed.

Lemma the_member_run cid s :
  the_member cid s =
    match get_row cid (members s) with Some m => Ok m s | None => Err (MemberNotAttached cid) s end.
Proof. unfold the_member. erewrite bind_run_Ok by reflexivity. cbv beta. by destruct (get_row _ _). Qed.
Lemma preserves_the_member cid : preserves programme (the_member cid).
Proof. intros s Hs. rewrite the_member_run. by destruct (get_row _ _). Qed.

Create HintDb loyalty discriminated.
#[local] Hint Resolve preserves_ret preserves_raise preserves_gets preserves_zoom_wallet preserves_zoom_coupons
  preserves_zoom_notify preserves_loyalty_audit preserves_the_member : loyalty.
#[local] Hint Extern 4 (preserves programme (modify _)) => apply preserves_favorites : loyalty.
Ltac keep_programme :=
  repeat first
    [ solve [eauto 2 with loyalty]
    | apply preserves_bind; [|intros ?]
    | apply preserves_for_each; intros ? _
    | apply preserves_for_fold; intros ? ?
    | match goal with
      | |- preserves _ (if ?b then _ else _) => destruct b eqn:?
      | |- preserves _ (match ?x with _ => _ end) => destruct x eqn:?
      end ].

(** A call that loads a member and goes on from there. *)
Lemma preserves_member_call {A} cid (f : Member → LM A) :
  (∀ m s, get_row cid (members s) = Some m → programme s → programme (final (f m s))) →
  preserves programme (the_member cid ≫= f).
Proof.
  intros Hf s Hs. rewrite bind_final, the_member_run. destruct (get_row _ _) as [m|] eqn:Hm; [by apply Hf|done].
Qed.

(** A write of the member that was loaded, and the rest of the call. *)
Lemma member_then {A} cid m m' s (k : LM A) :
  get_row cid (members s) = Some m → same_account_of m m' →
  programme s → preserves programme k → programme (final ((update_member m' ≫= λ _, k) s)).
Proof.
  intros Hm Hsame Hs Hk. erewrite bind_run_Ok by reflexivity. apply Hk.
  pose proof Hm as [_ Hcid]%get_row_Some. change (row_id m) with (mb_id m) in Hcid. subst cid.
  by apply programme_member with m.
Qed.

Context (tokens : Z → nat → string).

Lemma mint_keeps rid cid d : preserves programme (mint_coupon tokens rid cid d).
Proof. unfold mint_coupon. keep_programme. Qed.
#[local] Hint Resolve mint_keeps : loyalty.
Lemma reward_keeps cid cfg t b : preserves programme (_issue_tier_reward tokens cid cfg t b).
Proof. unfold _issue_tier_reward. keep_programme. Qed.
Lemma notify_up_keeps cid t : preserves programme (_notify_tier_up cid t).
Proof. unfold _notify_tier_up. keep_programme. Qed.
#[local] Hint Resolve reward_keeps notify_up_keeps : loyalty.

Lemma recompute_tier_keeps cid st b : preserves programme (recompute_tier tokens cid st b).
Proof.
  unfold recompute_tier. apply preserves_member_call. intros m s Hm Hs.
  destruct (negb (enabled _)); [done|]. destruct (loyalty_tier_locked m) eqn:Hl; [done|].
  erewrite bind_run_Ok by reflexivity. cbv beta. erewrite bind_run_Ok by reflexivity. cbv beta zeta.
  destruct (bool_decide _); [done|]. eapply member_then; [done|by split_and!; auto|done|]. keep_programme.
Qed.
Lemma recurring_keeps cid st b : preserves programme (maybe_issue_recurring_reward tokens cid st b).
Proof. unfold maybe_issue_recurring_reward. keep_programme. Qed.
Lemma set_manual_keeps cid t by_ : preserves programme (set_manual_tier cid t by_).
Proof.
  unfold set_manual_tier. apply preserves_member_call. intros m s Hm Hs. cbv zeta.
  destruct t as [name|], (_ ≫= tier_of_str) as [w|]; try done;
    (erewrite bind_run_Ok by reflexivity; cbv beta; erewrite bind_run_Ok by reflexivity; cbv beta;
     eapply member_then; [done|by split_and!; auto|done|]; keep_programme).
Qed.
Lemma unlock_keeps cid by_ : preserves programme (unlock_tier cid by_).
Proof.
  unfold unlock_tier. apply preserves_member_call. intros m s Hm Hs.
  eapply member_then; [done|by split_and!; auto|done|]. keep_programme.
Qed.
Lemma earn_keeps o st : preserves programme (earn o st).
Proof. unfold earn. keep_programme. Qed.
Lemma reverse_earn_keeps o by_ : preserves programme (reverse_earn o by_).
Proof. unfold reverse_earn. keep_programme. Qed.
Lemma refresh_keeps rid cid n : preserves programme (refresh_favorites rid cid n).
Proof. unfold refresh_favorites. keep_programme. Qed.

(** *** Stamp cards *)

Lemma stamp_card_run rid cid n s :
  programme s →
  ∃ c s', get_or_create_stamp_card rid cid n s = Ok c s' ∧ programme s' ∧
    get_row (sc_id c) (stamp_cards s') = Some c ∧ sc_restaurant_id c = rid ∧ sc_customer_id c = cid ∧
    (first_where (card_of rid cid) (stamp_cards s) = Some c ∧ s' = s ∨
     first_where (card_of rid cid) (stamp_cards s) = None ∧ stamps c = 0 ∧ rewards_redeemed c = 0 ∧
     stamps_required c = n ∧ s' = with_stamp_cards (add_row c (stamp_cards s)) s).
Proof.
  intros Hs. unfold get_or_create_stamp_card. erewrite bind_run_Ok by reflexivity. cbv beta.
  destruct (first_where _ _) as [c|] eqn:Hf.
  - pose proof Hf as [Hin Hc]%first_where_Some. unfold card_of in Hc. zbool.
    exists c, s. split_and!; [done|done| |done|done|by left]. apply (get_row_wf _ c); [apply Hs|done].
  - eexists _, _. split; [reflexivity|]. rewrite first_where_None in Hf.
    destruct Hs as [? ? ? ? ? ? ? ? Hst Hu ? ? ?]. split_and!; [split; try done| |done|done|by right].
    + cbn. by apply add_row_wf.
    + intros c. cbn. rewrite elem_of_add_row. intros [Hc| ->]; [by apply Hst|done].
    + cbn. apply add_row_unique; [done|]. intros c Hc Heq. cbn in Heq. injection Heq as H1 H2.
      specialize (Hf c Hc). unfold card_of in Hf. rewrite H1, H2, !Z.eqb_refl in Hf. done.
    + cbn. match goal with |- get_row ?i (add_row ?r ?t) = _ => exact (get_row_add r t ltac:(done) eq_refl) end.
Qed.

(** The card's count changes, nothing else does. *)
Lemma update_card_keeps c n red req s :
  programme s → get_row (sc_id c) (stamp_cards s) = Some c → 0 ≤ n →
  programme (with_stamp_cards (set_row (with_stamps n red req c) (stamp_cards s)) s).
Proof.
  intros [? ? ? ? ? ? ? ? Hst Hu ? ? ?] [Hc _]%get_row_Some Hn. split; try done; cbn.
  - by apply set_row_wf.
  - intros x [[-> _]|[Hx _]]%elem_of_set_row; [done|by apply Hst].
  - apply set_row_unique; [done|]. intros x Hx Hne Heq. cbn in Heq. apply Hne. cbn.
    by rewrite (Hu x c Hx Hc Heq).
Qed.

Lemma add_stamp_run rid cid n k s :
  programme s →
  ∃ c s', add_stamp rid cid n k s = Ok c s' ∧ programme s' ∧
    get_row (sc_id c) (stamp_cards s') = Some c ∧ sc_restaurant_id c = rid ∧ sc_customer_id c = cid ∧
    stamps_required c = n ∧
    stamps c = default 0 (stamps <$> first_where (card_of rid cid) (stamp_cards s)) + Z.max k 0 ∧
    members s' = members s ∧ point_entries s' = point_entries s ∧ lo_fsm s' = lo_fsm s.
Proof.
  intros Hs. unfold add_stamp. destruct (stamp_card_run rid cid n s Hs) as (c & s1 & Hrun & Hs1 & Hg & Hr & Hc & Hcase).
  rewrite (bind_run_Ok _ _ _ _ _ Hrun). cbv zeta.
  eexists _, _. split; [erewrite bind_run_Ok by reflexivity; reflexivity|].
  assert (Hn : 0 ≤ stamps c). { pose proof Hg as [Hin _]%get_row_Some. by apply Hs1. }
  split_and!; [by apply update_card_keeps; [..|cbn; lia]| |done..| | | |].
  - cbn. eapply get_row_set_eq; [done|exact Hg].
  - cbn. destruct Hcase as [[-> ->]|(-> & -> & _)]; done.
  - by destruct Hcase as [[_ ->]|(_ & _ & _ & _ & ->)].
  - by destruct Hcase as [[_ ->]|(_ & _ & _ & _ & ->)].
  - by destruct Hcase as [[_ ->]|(_ & _ & _ & _ & ->)].
Qed.
Lemma add_stamp_keeps rid cid n k : preserves programme (add_stamp rid cid n k).
Proof. intros s Hs. destruct (add_stamp_run rid cid n k s Hs) as (c & s' & -> & Hs' & _). done. Qed.

Lemma redeem_stamp_keeps rid cid : preserves programme (redeem_stamp_reward tokens rid cid).
Proof.
  intros s Hs. unfold redeem_stamp_reward.
  destruct (stamp_card_run rid cid 10 s Hs) as (c & s1 & Hrun & Hs1 & Hg & _).
  rewrite (bind_run_Ok _ _ _ _ _ Hrun). cbv zeta. destruct (stamps c <? or_ten _) eqn:Hlt; [done|].
  erewrite bind_run_Ok by reflexivity. apply (preserves_bind (S := loyalty_db)); [apply mint_keeps|intros; apply preserves_ret|].
  apply update_card_keeps; [done..|]. zbool. lia.
Qed.

(** *** Points *)

Lemma award_run rid cid pts reason oid key s :
  programme s → (∀ o, oid = Some o → key = points_key o) →
  (∀ c, get_row cid (members s) = Some c → 0 ≤ loyalty_points c + pts) →
  match award_loyalty_points rid cid pts reason oid key s with
  | Err e s' => e = MemberNotFound ∧ s' = s
  | Ok n s' =>
      programme s' ∧ n = default 0 (loyalty_points <$> get_row cid (members s')) ∧
      (s' = s ∧ (pts = 0 ∨ ∃ e, e ∈ rows (point_entries s) ∧ lp_key e = key) ∨
       (∀ e, e ∈ rows (point_entries s) → lp_key e ≠ key) ∧
       ∃ c, get_row cid (members s) = Some c ∧ mb_restaurant_id c = rid ∧
         s' = with_point_entries (add_row {| lp_id := next_id (point_entries s); lp_restaurant_id := rid;
                lp_customer_id := cid; lp_points := pts; lp_reason := reason; lp_order_id := oid; lp_key := key |}
                (point_entries s)) (with_members (set_row (with_points (loyalty_points c + pts) c) (members s)) s))
  end.
Proof.
  intros Hs Hord Hpos. unfold award_loyalty_points. erewrite bind_run_Ok by reflexivity. cbv beta zeta.
  destruct (pts =? 0) eqn:H0.
  { cbn. zbool. split_and!; [done|by destruct (get_row _ _)|]. left. auto. }
  erewrite bind_run_Ok by reflexivity. cbv beta.
  destruct (first_where _ _) as [e|] eqn:Hf.
  { apply first_where_Some in Hf as [He Hk]. apply String.eqb_eq in Hk. cbn.
    split_and!; [done|by destruct (get_row _ _)|]. left. eauto. }
  rewrite first_where_None in Hf.
  assert (Hfresh : ∀ e, e ∈ rows (point_entries s) → lp_key e ≠ key).
  { intros e He. specialize (Hf e He). cbn in Hf. by apply String.eqb_neq in Hf. }
  destruct (get_row cid (members s)) as [c|] eqn:Hc; [|done].
  destruct (mb_restaurant_id c =? rid) eqn:Hr; [|done]. cbn [negb]. zbool.
  erewrite bind_run_Ok by reflexivity. erewrite bind_run_Ok by reflexivity.
  specialize (Hpos c eq_refl). rewrite Z.max_l by done. unfold mret, M_ret.
  pose proof Hc as [Hin Hid]%get_row_Some. change (row_id c) with (mb_id c) in Hid.
  assert (Hg : get_row cid (set_row (with_points (loyalty_points c + pts) c) (members s)) =
               Some (with_points (loyalty_points c + pts) c)) by by eapply get_row_set_eq.
  split_and!; [|cbn; by rewrite Hg|right; split; [done|]; exists c; by split_and!].
  destruct Hs as [? ? ? ? Hp Hk Ho Hw ? ? ? ? Hkn]. split; try done; cbn;
    [| | | | | |apply (known_set (members s) c); [done..|by right|done]].
  - by apply set_row_wf.
  - by apply add_row_wf.
  - intros x Hx. unfold points_of. rewrite sum_where_add. cbn [lp_customer_id lp_points].
    apply elem_of_set_row in Hx as [[-> _]|[Hx Hne]].
    + cbn. rewrite Hid, Z.eqb_refl. destruct (Hp c Hin) as [Hpc _]. unfold points_of in Hpc. rewrite Hid in Hpc. lia.
    + destruct (Hp x Hx) as [Hpx ?]. unfold points_of in Hpx. replace (cid =? mb_id x) with false; [lia|].
      symmetry. apply Z.eqb_neq. intros Heq. apply Hne. exact (eq_trans (eq_sym Heq) (eq_sym Hid)).
  - apply add_row_unique; [done|]. intros e He. cbn. by apply Hfresh.
  - intros e o. rewrite elem_of_add_row. intros [He| ->]; [by apply Ho|]. apply Hord.
  - intros e. rewrite elem_of_add_row. intros [He| ->].
    + destruct (Hw e He) as (x & Hx & Hxe).
      exists (if row_id x =? row_id (with_points (loyalty_points c + pts) c) then with_points (loyalty_points c + pts) c else x).
      split; [by apply elem_of_set_row_2|]. destruct (row_id x =? _) eqn:Hc'; [|done].
      apply Z.eqb_eq in Hc'. exact (eq_trans (eq_sym Hc') Hxe).
    + exists (with_points (loyalty_points c + pts) c). split; [|done]. by apply get_row_Some in Hg as [? _].
Qed.

Lemma award_keeps rid cid pts reason oid key s :
  programme s → (∀ o, oid = Some o → key = points_key o) →
  (∀ c, get_row cid (members s) = Some c → 0 ≤ loyalty_points c + pts) →
  programme (final (award_loyalty_points rid cid pts reason oid key s)).
Proof.
  intros Hs Ho Hp. pose proof (award_run rid cid pts reason oid key s Hs Ho Hp) as Hrun.
  destruct (award_loyalty_points _ _ _ _ _ _ s) as [n s'|e s']; [by destruct Hrun|by destruct Hrun as [_ ->]].
Qed.

Lemma redeem_points_keeps rid cid pts reason : preserves programme (redeem_loyalty_points rid cid pts reason).
Proof.
  intros s Hs. unfold redeem_loyalty_points. destruct (pts <=? 0) eqn:H0; [done|].
  erewrite bind_run_Ok by reflexivity. cbv beta. destruct (get_row cid (members s)) as [c|] eqn:Hc; [|done].
  destruct (negb _); [done|]. destruct (loyalty_points c <? pts) eqn:Hlt; [done|].
  erewrite bind_run_Ok by reflexivity. cbv beta. zbool. apply award_keeps; [done..|].
  intros c' Hc'. simplify_eq. lia.
Qed.

Lemma hooks_keep o cid st : preserves programme (on_delivery_crm_hooks o cid st).
Proof.
  unfold on_delivery_crm_hooks. apply preserves_bind; [apply add_stamp_keeps|]. intros c. cbv zeta.
  apply preserves_bind.
  - destruct (0 <? _) eqn:Hpos; [|apply preserves_ret]. apply preserves_bind; [|intros; apply preserves_ret].
    intros s Hs. apply award_keeps; [done|by intros ? [= ->]|]. intros m Hm. zbool.
    apply get_row_Some in Hm as [Hm _]. destruct (po_points _ _ _ _ Hs m Hm). lia.
  - intros _. apply preserves_bind; [apply refresh_keeps|]. intros _. keep_programme.
Qed.

(** *** Referral codes *)

Lemma free_code_spec clash codes fuel : ∀ i code,
  free_code fuel clash codes i = Some code → clash code = false.
Proof.
  induction fuel as [|n IH]; intros i code; cbn; [done|].
  destruct (clash (codes i)) eqn:Hc; [apply IH|]. by intros [= <-].
Qed.
Lemma generate_code_keeps codes rid cid : preserves programme (generate_referral_code codes rid cid).
Proof.
  intros s Hs. unfold generate_referral_code. erewrite bind_run_Ok by reflexivity. cbv beta.
  destruct (first_where _ _) as [r|] eqn:Hf; [done|]. rewrite first_where_None in Hf.
  destruct (free_code _ _ _ _) as [code|] eqn:Hfree; [|done]. apply free_code_spec in Hfree.
  erewrite bind_run_Ok by reflexivity. cbn.
  assert (Hnew : ∀ r, r ∈ rows (referral_codes s) → rc_restaurant_id r = rid → rc_code r ≠ code).
  { intros r Hr Hrid Hcode. rewrite <-not_true_iff_false in Hfree. apply Hfree. unfold code_clash.
    apply List.existsb_exists. exists r. split; [by apply list_elem_of_In|].
    by rewrite Hrid, Hcode, Z.eqb_refl, String.eqb_refl. }
  destruct Hs. split; try done; cbn.
  - by apply add_row_wf.
  - apply add_row_unique; [done|]. intros r Hr [= H1 H2]. by destruct (Hnew r Hr H1).
  - apply add_row_unique; [done|]. intros r Hr [= H1 H2]. specialize (Hf r Hr). cbn in Hf.
    by rewrite H1, H2, !Z.eqb_refl in Hf.
Qed.

Lemma redeem_referral_keeps rid code cid : preserves programme (redeem_referral rid code cid).
Proof.
  intros s Hs. unfold redeem_referral. erewrite bind_run_Ok by reflexivity. cbv beta.
  destruct (first_where _ _) as [r|]; [|done]. erewrite bind_run_Ok by reflexivity. cbv beta.
  destruct (get_row cid (members s)) as [c|] eqn:Hc; [|done].
  destruct (negb _); [done|]. destruct (_ =? cid); [done|]. destruct (referred_by_customer_id c) eqn:Href; [done|].
  eapply member_then; [done|by split_and!; auto|done|]. keep_programme.
Qed.

(** ** Every history *)

Inductive loyalty_op :=
| Recompute (customer_id : Z) (settings : option loyalty_block) (notify : bool)
| Recurring (customer_id : Z) (settings : option loyalty_block) (notify : bool)
| Override (customer_id : Z) (t : option string) (created_by : string)
| Unlock (customer_id : Z) (created_by : string)
| Earn (o : earned_order) (settings : option loyalty_block)
| Unearn (o : earned_order) (created_by : string)
| Hooks (o : earned_order) (customer_id : Z) (settings : option loyalty_block)
| RedeemPoints (restaurant_id customer_id points : Z) (reason : string)
| RedeemStamps (restaurant_id customer_id : Z)
| NewCode (codes : nat → string) (restaurant_id customer_id : Z)
| Refer (restaurant_id : Z) (code : string) (new_customer_id : Z).

Definition after_op (op : loyalty_op) (s : loyalty_db) : loyalty_db :=
  match op with
  | Recompute c st n => final (recompute_tier tokens c st n s)
  | Recurring c st n => final (maybe_issue_recurring_reward tokens c st n s)
  | Override c t b => final (set_manual_tier c t b s)
  | Unlock c b => final (unlock_tier c b s)
  | Earn o st => final (earn o st s)
  | Unearn o b => final (reverse_earn o b s)
  | Hooks o c st => final (on_delivery_crm_hooks o c st s)
  | RedeemPoints r c p why => final (redeem_loyalty_points r c p why s)
  | RedeemStamps r c => final (redeem_stamp_reward tokens r c s)
  | NewCode cs r c => final (generate_referral_code cs r c s)
  | Refer r code c => final (redeem_referral r code c s)
  end.
Definition after_ops (l : list loyalty_op) (s : loyalty_db) : loyalty_db := fold_left (λ s op, after_op op s) l s.

Lemma after_op_keeps op s : programme s → programme (after_op op s).
Proof.
  intros Hs. destruct op; cbn.
  - by apply recompute_tier_keeps.
  - by apply recurring_keeps.
  - by apply set_manual_keeps.
  - by apply unlock_keeps.
  - by apply earn_keeps.
  - by apply reverse_earn_keeps.
  - by apply hooks_keep.
  - by apply redeem_points_keeps.
  - by apply redeem_stamp_keeps.
  - by apply generate_code_keeps.
  - by apply redeem_referral_keeps.
Qed.
Lemma after_ops_keeps l : ∀ s, programme s → programme (after_ops l s).
Proof. induction l as [|op l IH]; intros s Hs; [done|]. cbn. by apply IH, after_op_keeps. Qed.

End keeps.

(** The programme before its first call: members without points, nothing recorded. *)
Record programme_start (s : loyalty_db) : Prop := {
  ps_members : table_wf (members s);
  ps_points : ∀ m, m ∈ rows (members s) → loyalty_points m = 0;
  ps_empty : stamp_cards s = empty_table ∧ point_entries s = empty_table ∧ referral_codes s = empty_table;
}.
Lemma start_programme s : programme_start s → programme [] s.
Proof.
  intros [Hwf Hp (Hc & He & Hr)]. unfold programme. rewrite Hc, He, Hr.
  split; try apply empty_table_wf; try done; try (intros ? ? []%elem_of_nil); try (by intros ? []%elem_of_nil); try (by intros ? ? []%elem_of_nil).
  intros m Hm. rewrite Hp by done. done.
Qed.

(** C29. Over every history of the programme's calls a customer's points are what the
    ledger adds up to and never negative, and an order earns points at most once. *)
Theorem points_match_ledger tokens l s m :
  programme_start s → let s' := after_ops tokens l s in
  m ∈ rows (members s') →
  loyalty_points m = points_of (mb_id m) (point_entries s') ∧ 0 ≤ loyalty_points m ∧
  (∀ e1 e2 o, e1 ∈ rows (point_entries s') → e2 ∈ rows (point_entries s') →
     lp_order_id e1 = Some o → lp_order_id e2 = Some o → e1 = e2).
Proof.
  intros Hstart s' Hm. pose proof (after_ops_keeps [] tokens l s (start_programme s Hstart)) as Hs'. fold s' in Hs'.
  destruct (po_points _ _ _ _ _ Hs' m Hm) as [Hp H0]. split_and!; [done..|].
  intros e1 e2 o H1 H2 Ho1 Ho2. apply (po_keys _ _ _ _ _ Hs'); [done..|].
  by rewrite (po_orders _ _ _ _ _ Hs' e1 o), (po_orders _ _ _ _ _ Hs' e2 o).
Qed.

(** ** Tiers *)

(** What a tier asks of a customer, its recency loosened by [grace] days. *)
Definition holds_tier (cfg : loyalty_cfg) (st : order_stats) (now : Z) (grace : Q) (t : tier) : bool :=
  match tiers cfg t with
  | None => false
  | Some c => _qualifies (if Qeq_bool grace 0 then c else with_grace grace c)
                (total_orders st) (total_spend st) (_recency_days (last_order_at st) now)
  end.
(** [best] is the highest tier the customer holds. *)
Definition highest (cfg : loyalty_cfg) (st : order_stats) (now : Z) (grace : Q) (best : option tier) : Prop :=
  (∀ t, best = Some t → holds_tier cfg st now grace t = true) ∧
  (∀ t, holds_tier cfg st now grace t = true → _TIER_RANK (Some t) ≤ _TIER_RANK best).

Lemma first_tier_find cfg st now grace l :
  first_tier cfg grace st (_recency_days (last_order_at st) now) l = List.find (holds_tier cfg st now grace) l.
Proof.
  induction l as [|t l IH]; cbn [first_tier List.find]; [done|]. rewrite IH.
  unfold holds_tier. by destruct (tiers cfg t).
Qed.
Lemma compute_tier_highest cfg st now grace : highest cfg st now grace (compute_tier cfg st now grace).
Proof.
  unfold highest, compute_tier, _TIER_ORDER. rewrite first_tier_find. cbn [List.find].
  destruct (holds_tier cfg st now grace Gold) eqn:Hg, (holds_tier cfg st now grace Silver) eqn:Hv,
    (holds_tier cfg st now grace Bronze) eqn:Hb;
    (split; intros t; [by intros [= <-]|by destruct t; rewrite ?Hg, ?Hv, ?Hb]).
Qed.

(** ** Rewards *)

(** Nothing but coupons, notifications and the audit log has moved. *)
Definition only_rewards (s s' : loyalty_db) : Prop :=
  members s' = members s ∧ stamp_cards s' = stamp_cards s ∧ point_entries s' = point_entries s ∧
  referral_codes s' = referral_codes s ∧ favorites s' = favorites s ∧ lo_fsm s' = lo_fsm s ∧
  lo_wallet s' = lo_wallet s ∧ lo_now s' = lo_now s.
(** A coupon of [d] for the customer, or none. *)
Definition minted (rid cid : Z) (due : option Z) (s s' : loyalty_db) : Prop :=
  match due with
  | None => coupons (lo_coupons s') = coupons (lo_coupons s)
  | Some d => ∃ c, coupons (lo_coupons s') = add_row c (coupons (lo_coupons s)) ∧
      c_restaurant_id c = rid ∧ c_customer_id c = Some cid ∧ c_status c = CIssued ∧ c_discount_aed c = Some d ∧
      ∀ c', c' ∈ rows (coupons (lo_coupons s)) → c_code c' ≠ c_code c
  end.
Definition reward_of (cfg : loyalty_cfg) (t : tier) : option Z :=
  match tier_rewards cfg t with
  | None => None
  | Some r => if rw_discount_aed r <=? 0 then None else Some (rw_discount_aed r)
  end.

Section rewards.
Context (tokens : Z → nat → string) (Htokens : ∀ n, Inj (=) (=) (tokens n)).

Lemma mint_coupon_run rid cid d s :
  ∃ c s', mint_coupon tokens rid cid d s = Ok c s' ∧ only_rewards s s' ∧ minted rid cid (Some d) s s' ∧
    lo_notify s' = lo_notify s ∧ venues s' = venues s.
Proof.
  unfold mint_coupon. erewrite bind_run_Ok by reflexivity. cbv beta.
  destruct (issue_coupon_run (tokens (next_id (coupons (lo_coupons s)))) rid cid None d DEFAULT_VALIDITY_DAYS (lo_coupons s) (Htokens _))
    as (s' & j & c & Hrun & -> & _ & Hfresh & Hc & _).
  eexists _, (put s' s). split; [unfold zoom; cbn [view loyalty_coupon_lens]; by rewrite Hrun|].
  split; [by split_and!|]. split; [|done].
  eexists. split; [exact Hc|]. by split_and!.
Qed.

Lemma issue_reward_run cid cfg t b m s :
  get_row cid (members s) = Some m →
  ∃ s', _issue_tier_reward tokens cid cfg t b s = Ok tt s' ∧ only_rewards s s' ∧
    minted (mb_restaurant_id m) cid (reward_of cfg t) s s'.
Proof.
  intros Hm. pose proof Hm as [_ Hid]%get_row_Some. change (row_id m) with (mb_id m) in Hid.
  unfold _issue_tier_reward, reward_of. destruct (tier_rewards cfg t) as [r|]; [|by exists s; split_and!].
  cbv zeta. destruct (rw_discount_aed r <=? 0); [by exists s; split_and!|].
  assert (Hmem : the_member cid s = Ok m s) by (by rewrite the_member_run, Hm).
  rewrite (bind_run_Ok _ _ _ _ _ Hmem), Hid.
  destruct (mint_coupon_run (mb_restaurant_id m) cid (rw_discount_aed r) s) as (c & s1 & Hrun & Hq & Hmint & _).
  rewrite (bind_run_Ok _ _ _ _ _ Hrun). destruct b; cbn [negb]; [|by exists s1].
  erewrite bind_run_Ok by reflexivity. cbv beta.
  match goal with |- context [notify_customer ?a ?b ?c ?d ?e ?f] =>
    destruct (notify_customer_run a b c d "en" e f (lo_notify s1) eq_refl) as (o & Ho) end.
  eexists. split; [unfold zoom; cbn [view loyalty_notify_lens]; by rewrite Ho|]. done.
Qed.

Lemma tier_up_run cid t m s :
  get_row cid (members s) = Some m →
  ∃ s', _notify_tier_up cid t s = Ok tt s' ∧ only_rewards s s' ∧ lo_coupons s' = lo_coupons s.
Proof.
  intros Hm. unfold _notify_tier_up.
  assert (Hmem : the_member cid s = Ok m s) by (by rewrite the_member_run, Hm).
  rewrite (bind_run_Ok _ _ _ _ _ Hmem). erewrite bind_run_Ok by reflexivity. cbv beta.
  match goal with |- context [enqueue_message ?a ?b ?c ?d ?e ?f ?g] =>
    destruct (enqueue_total a b c d e f g (notify_outbox (lo_notify s))) as (r & o & Ho) end.
  eexists. unfold zoom, mbind, M_bind. cbn [view loyalty_notify_lens notify_outbox_lens].
  rewrite Ho. split; [reflexivity|]. by split_and!.
Qed.

(** The coupon a change of tier earns: only an upgrade is rewarded. *)
Definition welcome_due (cfg : loyalty_cfg) (current new : option tier) : option Z :=
  if _TIER_RANK current <? _TIER_RANK new then new ≫= reward_of cfg else None.

(** A recomputation of an unlocked customer's tier always completes.  It decides on
    the highest tier the customer holds, except that a tier they already have is kept
    while they hold it, or a higher one, with the grace days added; it writes the
    customer only on a change, resets the reward anchor only on an upgrade, and mints
    the welcome coupon of the new tier exactly then. *)
Theorem tier_recomputed cid settings notify s m :
  get_row cid (members s) = Some m → loyalty_tier_locked m = false →
  let cfg := _loyalty_cfg settings in let st := stats_of cid s in let cur := loyalty_tier m in
  enabled cfg = true →
  ∃ new s', recompute_tier tokens cid settings notify s = Ok (negb (bool_decide (new = cur)), cur, new) s' ∧
    (∃ strict kept, highest cfg st (lo_now s) 0 strict ∧ highest cfg st (lo_now s) (demotion_grace_days cfg) kept ∧
       new = (if _TIER_RANK strict <? _TIER_RANK cur
              then if _TIER_RANK cur <=? _TIER_RANK kept then cur else strict else strict)) ∧
    members s' = (if bool_decide (new = cur) then members s
                  else set_row (with_tier new (Some (lo_now s)) false
                         (if _TIER_RANK cur <? _TIER_RANK new then total_orders st else loyalty_reward_anchor m) m)
                         (members s)) ∧
    lo_wallet s' = lo_wallet s ∧ point_entries s' = point_entries s ∧ stamp_cards s' = stamp_cards s ∧
    minted (mb_restaurant_id m) cid (welcome_due cfg cur new) s s'.
Proof.
  intros Hm Hl cfg st cur Hen. exists (decided_tier cfg st cur (lo_now s)).
  set (new := decided_tier cfg st cur (lo_now s)).
  assert (Hdec : ∃ strict kept, highest cfg st (lo_now s) 0 strict ∧
      highest cfg st (lo_now s) (demotion_grace_days cfg) kept ∧
      new = (if _TIER_RANK strict <? _TIER_RANK cur
             then if _TIER_RANK cur <=? _TIER_RANK kept then cur else strict else strict)).
  { eexists _, _. split; [apply compute_tier_highest|]. split; [apply compute_tier_highest|].
    unfold new, decided_tier. destruct (_ <? _) eqn:Hlt; [|done]. cbn [andb].
    rewrite bool_decide_eq_false_2; [done|]. intros Hc. rewrite Hc in Hlt. zbool. unfold compute_tier in Hlt.
    destruct (first_tier _ _ _ _ _) as [[]|]; cbn in Hlt; lia. }
  assert (Hmem : the_member cid s = Ok m s) by (by rewrite the_member_run, Hm).
  unfold recompute_tier. cbv zeta. rewrite (bind_run_Ok _ _ _ _ _ Hmem). fold cfg. rewrite Hen. cbn [negb]. rewrite Hl.
  erewrite bind_run_Ok by reflexivity. cbv beta. erewrite bind_run_Ok by reflexivity. cbv beta.
  fold st. fold cur. fold new. clearbody new.
  destruct (bool_decide (new = cur)) eqn:Hsame.
  { apply bool_decide_eq_true in Hsame. exists s. split; [by rewrite Hsame|]. split; [exact Hdec|].
    split_and!; try done. unfold welcome_due. by rewrite Hsame, Z.ltb_irrefl. }
  set (m' := with_tier new (Some (lo_now s)) false _ m).
  erewrite bind_run_Ok by reflexivity. cbv beta. erewrite bind_run_Ok by reflexivity. cbv beta.
  match goal with |- context [match new with _ => _ end ?x] => set (s1 := x) end.
  assert (Hm1 : get_row cid (members s1) = Some m').
  { pose proof Hm as [_ Hid]%get_row_Some. eapply get_row_set_eq; [exact Hid|exact Hm]. }
  assert (Hid1 : mb_restaurant_id m' = mb_restaurant_id m) by done.
  unfold welcome_due.
  destruct new as [t|]; [destruct (_TIER_RANK cur <? _) eqn:Hup|].
  - destruct (issue_reward_run cid cfg t notify m' s1 Hm1) as (s2 & Hr & Hq & Hmint).
    rewrite (bind_run_Ok _ _ _ _ _ Hr). cbv beta.
    destruct Hq as (Hmem2 & Hsc & Hpe & _ & _ & _ & Hw & _).
    assert (Hup' : ∃ s3, (if notify then _notify_tier_up cid t else mret tt) s2 = Ok tt s3 ∧ only_rewards s2 s3 ∧
        lo_coupons s3 = lo_coupons s2).
    { destruct notify; [|by exists s2; split_and!]. eapply tier_up_run. by rewrite Hmem2. }
    destruct Hup' as (s3 & Hn & (Hmem3 & Hsc3 & Hpe3 & _ & _ & _ & Hw3 & _) & Hc3).
    rewrite (bind_run_Ok _ _ _ _ _ Hn). exists s3. split; [done|]. split; [exact Hdec|].
    rewrite Hmem3, Hmem2, Hw3, Hw, Hpe3, Hpe, Hsc3, Hsc. split_and!; try done.
    unfold minted in *. rewrite Hc3. exact Hmint.
  - exists s1. by split_and!.
  - exists s1. replace (_TIER_RANK cur <? _TIER_RANK None) with false; [by split_and!|].
    symmetry. apply Z.ltb_ge. by destruct cur as [[]|].
Qed.
End rewards.

(** ** Store credit earned and clawed back *)

Lemma credit_fits rid cid x k ty tk n b s e s' :
  credit rid cid x k ty tk n b s = Ok e s' → fresh_key k (entries s) → numeric_fits 10 (quantize x) = true.
Proof.
  unfold credit. destruct (x <=q 0); [discriminate|]. intros Hrun Hf.
  unfold _existing_by_key in Hrun. erewrite bind_run_Ok in Hrun by reflexivity.
  apply key_lookup_fresh in Hf. cbv beta in Hrun. rewrite Hf in Hrun.
  apply bind_Ok in Hrun as (a & s1 & _ & Hrun). apply bind_Ok in Hrun as (now & s2 & _ & Hrun).
  apply bind_Ok in Hrun as (r & s3 & Hfl & _). unfold flush_entry in Hfl.
  erewrite bind_run_Ok in Hfl by reflexivity. cbv beta zeta in Hfl. cbn [we_amount] in Hfl.
  unfold _q in Hfl. by destruct (numeric_fits 10 (quantize x)).
Qed.

(** A successful reversal of a posted entry, its key unused. *)
Lemma reverse_run i e rid key note by_ s :
  get_row i (entries s) = Some e → we_status e = Posted → fresh_key key (entries s) →
  numeric_fits 10 (we_amount e) = true →
  ∃ r s', reverse i rid key note by_ s = Ok r s' ∧ entries s' = add_row r (entries s) ∧
    we_key r = key ∧ we_status r = Posted ∧ we_account_id r = we_account_id e ∧ we_amount r = - we_amount e ∧
    we_reverses_entry_id r = Some (we_id e).
Proof.
  intros Hg Hst Hf Hfit. unfold reverse, _existing_by_key. erewrite bind_run_Ok by reflexivity. cbv beta.
  pose proof Hf as Hk. apply key_lookup_fresh in Hk. rewrite Hk. erewrite bind_run_Ok by reflexivity. cbv beta.
  rewrite Hg, Hst. rewrite bool_decide_eq_false_2 by done. erewrite bind_run_Ok by reflexivity. cbv beta.
  unfold flush_entry, mbind, M_bind, gets, modify, mret, M_ret. cbn [we_amount we_key].
  replace (numeric_fits 10 (- we_amount e)) with true.
  2:{ unfold numeric_fits in *. by rewrite Z.abs_opp. }
  cbn [negb]. rewrite Hk. cbn. eexists _, _. split; [reflexivity|]. by split_and!.
Qed.

Lemma reverse_again i rid key note by_ e s :
  first_where (λ e', we_key e' =s key) (entries s) = Some e → reverse i rid key note by_ s = Ok e s.
Proof.
  intros Hf. unfold reverse, _existing_by_key. erewrite bind_run_Ok by reflexivity. cbv beta. by rewrite Hf.
Qed.

Lemma zoom_wallet_run {A} (m : W A) s a w :
  m (lo_wallet s) = Ok a w → zoom LoyaltyWalletRaised m s = Ok a (put w s).
Proof. intros Hm. unfold zoom. cbn [view loyalty_wallet_lens]. by rewrite Hm. Qed.

(** Earning again finds the entry of the order and writes nothing. *)
Lemma earn_again o settings v e s :
  first_where (λ e', we_key e' =s earn_key (eo_id o)) (entries (lo_wallet s)) = Some e →
  enabled (_loyalty_cfg settings) = true → (earn_rate (_loyalty_cfg settings) <=q 0) = false →
  v = earned_amount (_loyalty_cfg settings) (eo_subtotal o) → 0 < v →
  earn o settings s = Ok v s.
Proof.
  intros Hf Hen Hrate -> Hv. unfold earn. cbv zeta. rewrite Hen, Hrate. cbn [negb].
  replace (_ <=? 0) with false by (symmetry; by apply Z.leb_gt).
  assert (Hcr : credit (eo_restaurant_id o) (eo_customer_id o)
    (aed (earned_amount (_loyalty_cfg settings) (eo_subtotal o))) (earn_key (eo_id o)) Promo_credit None
    (Some "loyalty earn"%string) "system" (lo_wallet s) = Ok e (lo_wallet s)).
  { unfold credit. destruct (aed _ <=q 0) eqn:Hpos.
    { apply Qle_bool_iff in Hpos. unfold aed, Qle in Hpos. cbn in Hpos. lia. }
    unfold _existing_by_key. erewrite bind_run_Ok by reflexivity. cbv beta. by rewrite Hf. }
  rewrite (bind_run_Ok _ _ _ _ _ (zoom_wallet_run _ _ _ _ Hcr)). unfold mret, M_ret. f_equal. by destruct s.
Qed.

(** Store credit for an order is posted once: earning again returns the same amount and
    changes nothing.  The clawback of a refund takes exactly that entry back, for every
    account the journal's sums are what they were before the earning, a second clawback
    does nothing, and the order can never earn again. *)
Theorem earn_clawed_back o settings s v s1 :
  ledger_wf (entries (lo_wallet s)) →
  fresh_key (earn_key (eo_id o)) (entries (lo_wallet s)) →
  fresh_key (earn_reverse_key (eo_id o)) (entries (lo_wallet s)) →
  earn o settings s = Ok v s1 → 0 < v →
  v = earned_amount (_loyalty_cfg settings) (eo_subtotal o) ∧
  (∃ e, entries (lo_wallet s1) = add_row e (entries (lo_wallet s)) ∧ we_amount e = v ∧
     we_status e = Posted ∧ we_key e = earn_key (eo_id o)) ∧
  earn o settings s1 = Ok v s1 ∧
  ∀ by_, ∃ s2, reverse_earn o by_ s1 = Ok tt s2 ∧
    (∀ a, posted_sum a (entries (lo_wallet s2)) = posted_sum a (entries (lo_wallet s)) ∧
          held_sum a (entries (lo_wallet s2)) = held_sum a (entries (lo_wallet s))) ∧
    reverse_earn o by_ s2 = Ok tt s2 ∧ earn o settings s2 = Ok v s2.
Proof.
  intros Hwf Hf Hfr Hearn Hv. pose proof Hearn as Hrun. unfold earn in Hrun. cbv zeta in Hrun.
  destruct (enabled (_loyalty_cfg settings)) eqn:Hen; cbn [negb] in Hrun; [|inv_run; lia].
  destruct (earn_rate (_loyalty_cfg settings) <=q 0) eqn:Hrate; [inv_run; lia|].
  destruct (_ <=? 0) eqn:Hamt; [inv_run; lia|].
  apply bind_Ok in Hrun as (e & s' & Hz & [= <- <-]). apply zoom_Ok in Hz as (w & Hcr & ->).
  cbn [view loyalty_wallet_lens] in Hcr.
  set (v := earned_amount _ _) in *. split; [done|].
  pose proof (credit_fits _ _ _ _ _ _ _ _ _ _ _ Hcr Hf) as Hfit.
  destruct (credit_Ok _ _ _ _ _ _ _ _ _ _ _ Hcr) as (_ & Hkey & Hin & Hrest).
  destruct (Hrest Hf) as (Hst & Ham & Hent). rewrite quantize_aed in Ham, Hfit.
  set (s1 := put w s). assert (Hw1 : lo_wallet s1 = w) by done.
  assert (Hwf1 : ledger_wf (entries w)).
  { pose proof (credit_step (lo_wallet s) (eo_restaurant_id o) (eo_customer_id o) (aed v) (earn_key (eo_id o))
      Promo_credit None (Some "loyalty earn"%string) "system") as Hstep.
    rewrite Hcr in Hstep. cbn [final] in Hstep. exact (ledger_step_wf _ _ Hstep Hwf). }
  assert (Hfind : first_where (λ e', we_key e' =s earn_key (eo_id o)) (entries w) = Some e).
  { rewrite <-Hkey. by apply existing_by_key_wf. }
  split_and!; [by exists e|by apply earn_again with e|]. intros by_.
  assert (Hne : earn_key (eo_id o) ≠ earn_reverse_key (eo_id o)).
  { unfold earn_key, earn_reverse_key. rewrite !app_cons_string, !app_nil_string. intros Heq.
    apply (f_equal String.length) in Heq. cbn in Heq. lia. }
  assert (Hfr1 : fresh_key (earn_reverse_key (eo_id o)) (entries w)).
  { intros e' He'. rewrite Hent, elem_of_add_row in He'. destruct He' as [He'| ->]; [by apply Hfr|].
    by rewrite Hkey. }
  destruct (reverse_run (we_id e) e (eo_restaurant_id o) (earn_reverse_key (eo_id o))
    "loyalty earn reversed (refund/cancel)" by_ w) as (r & w2 & Hrev & Hent2 & Hkr & Hsr & Har & Hamr & _);
    [apply (get_row_wf _ e); [apply Hwf1|done]|done|done|by rewrite Ham|].
  exists (put w2 s1).
  assert (Hun : reverse_earn o by_ s1 = Ok tt (put w2 s1)).
  { unfold reverse_earn. erewrite bind_run_Ok by reflexivity. cbv beta. rewrite Hw1, Hfind, Hst. rewrite bool_decide_eq_true_2 by done. cbn [negb].
    by rewrite (bind_run_Ok _ _ _ _ _ (zoom_wallet_run _ s1 _ _ Hrev)). }
  assert (Hr2 : first_where (λ e', we_key e' =s earn_reverse_key (eo_id o)) (entries w2) = Some r).
  { rewrite Hent2, first_where_add. apply key_lookup_fresh in Hfr1. by rewrite Hfr1, Hkr, String.eqb_refl. }
  assert (He2 : first_where (λ e', we_key e' =s earn_key (eo_id o)) (entries w2) = Some e).
  { by rewrite Hent2, first_where_add, Hfind. }
  split; [exact Hun|]. split_and!.
  - intros a. cbn. rewrite Hent2, Hent, !posted_sum_add, !held_sum_add. unfold on_account.
    rewrite Hst, Hsr, Har, Hamr. by destruct (we_account_id e =? a); vm_compute (bool_decide _); cbn; split; lia.
  - unfold reverse_earn. erewrite bind_run_Ok by reflexivity. cbv beta.
    change (lo_wallet (put w2 s1)) with w2. rewrite He2, Hst. rewrite bool_decide_eq_true_2 by done. cbn [negb].
    erewrite bind_run_Ok; [|exact (zoom_wallet_run _ (put w2 s1) _ _ (reverse_again _ _ _ _ _ r w2 Hr2))]. done.
  - by apply earn_again with e.
Qed.

(** ** Referrals *)

(** A credit whose key is unused posts one entry on the customer's account. *)
Definition credits_customer (rid cid amount : Z) (key : string) (e : WalletEntry) (w : wallet_db) : Prop :=
  we_key e = key ∧ we_status e = Posted ∧ we_amount e = amount ∧
  ∃ a, a ∈ rows (accounts w) ∧ acc_id a = we_account_id e ∧ acc_restaurant_id a = rid ∧ acc_customer_id a = cid.

Lemma account_rows rid cid s a s' :
  get_or_create_account rid cid s = Ok a s' →
  a ∈ rows (accounts s') ∧ acc_restaurant_id a = rid ∧ acc_customer_id a = cid ∧
  (∀ x, x ∈ rows (accounts s) → x ∈ rows (accounts s')) ∧ entries s' = entries s.
Proof.
  unfold get_or_create_account, mbind, M_bind, gets, modify, mret, M_ret.
  destruct (first_where (same_account rid cid) (accounts s)) as [b|] eqn:Hf; cbn.
  - rewrite Hf. intros [= <- <-]. apply first_where_Some in Hf as [Hin Hs]. unfold same_account in Hs. zbool. by split_and!.
  - destruct (first_where _ (add_row _ _)) as [b|] eqn:Hb; [|discriminate]. intros [= <- <-].
    apply first_where_Some in Hb as [Hin Hs]. unfold same_account in Hs. zbool. split_and!; try done.
    intros x Hx. cbn. apply elem_of_app. by left.
Qed.

Lemma credit_posts rid cid x k ty tk n b s e s' :
  credit rid cid x k ty tk n b s = Ok e s' → fresh_key k (entries s) →
  credits_customer rid cid (quantize x) k e s' ∧ entries s' = add_row e (entries s) ∧
  (∀ a, a ∈ rows (accounts s) → a ∈ rows (accounts s')).
Proof.
  intros Hrun Hf. destruct (credit_Ok _ _ _ _ _ _ _ _ _ _ _ Hrun) as (_ & Hk & _ & Hrest).
  destruct (Hrest Hf) as (Hst & Ham & Hent). revert Hrun. unfold credit. destruct (x <=q 0); [discriminate|].
  intros Hrun. unfold _existing_by_key in Hrun. erewrite bind_run_Ok in Hrun by reflexivity. cbv beta in Hrun.
  apply key_lookup_fresh in Hf. rewrite Hf in Hrun.
  apply bind_Ok in Hrun as (a & s1 & Hacc & Hrun). apply account_rows in Hacc as (Hin & Hr & Hc & Hmono & _).
  erewrite bind_run_Ok in Hrun by reflexivity. cbv beta in Hrun. apply bind_Ok in Hrun as (e' & s2 & Hfl & Hrun).
  apply bind_Ok in Hrun as (r & s3 & Hau & Hrun). rewrite audit_run in Hau. injection Hau as _ <-.
  injection Hrun as -> <-.
  assert (Hs2 : accounts s2 = accounts s1 ∧ we_account_id e = acc_id a).
  { match type of Hfl with flush_entry ?f _ = _ => destruct (flush_entry_run f s1) as [[_ Hrun]|[err Hrun]] end;
      rewrite Hrun in Hfl; [|discriminate]. by injection Hfl as <- <-. }
  destruct Hs2 as [Hs2 Hacc]. split_and!; [|done|cbn; by rewrite Hs2].
  split_and!; [done..|]. exists a. cbn. rewrite Hs2. by split_and!.
Qed.

Lemma referral_keys_differ code cid : referral_key code cid "referrer" ≠ referral_key code cid "new".
Proof. unfold referral_key. intros Heq. do 5 apply (inj (String.append _)) in Heq. discriminate. Qed.

(** C31. A referral pays once.  The redemption that succeeds credits AED 10 to the owner of
    the code and AED 10 to the customer, who are different, and records the owner on
    the customer; whatever calls follow, that record stays, and no code of any
    restaurant is redeemed for this customer again: a further attempt raises and
    posts nothing. *)
Theorem referral_pays_once tokens rid code cid s r s1 :
  programme [] s →
  fresh_key (referral_key code cid "referrer") (entries (lo_wallet s)) →
  fresh_key (referral_key code cid "new") (entries (lo_wallet s)) →
  redeem_referral rid code cid s = Ok r s1 →
  ∃ owner e1 e2, r = (owner, cid, REFERRAL_BONUS_AED) ∧ owner ≠ cid ∧
    entries (lo_wallet s1) = add_row e2 (add_row e1 (entries (lo_wallet s))) ∧
    credits_customer rid owner REFERRAL_BONUS_AED (referral_key code cid "referrer") e1 (lo_wallet s1) ∧
    credits_customer rid cid REFERRAL_BONUS_AED (referral_key code cid "new") e2 (lo_wallet s1) ∧
    ∀ l rid' code', let s2 := after_ops tokens l s1 in
      (∃ m, get_row cid (members s2) = Some m ∧ referred_by_customer_id m = Some owner) ∧
      ∃ err, redeem_referral rid' code' cid s2 = Err err s2.
Proof.
  intros Hs Hf1 Hf2 Hrun. pose proof (redeem_referral_keeps [] rid code cid s Hs) as Hs1.
  rewrite Hrun in Hs1. cbn [final] in Hs1.
  unfold redeem_referral in Hrun. erewrite bind_run_Ok in Hrun by reflexivity. cbv beta in Hrun.
  destruct (first_where _ _) as [row|]; [|discriminate]. erewrite bind_run_Ok in Hrun by reflexivity. cbv beta in Hrun.
  destruct (get_row cid (members s)) as [c|] eqn:Hc; [|discriminate].
  destruct (negb (mb_restaurant_id c =? rid)); [discriminate|].
  destruct (rc_customer_id row =? cid) eqn:Hown; [discriminate|]. zbool.
  destruct (referred_by_customer_id c) eqn:Href; [discriminate|].
  erewrite bind_run_Ok in Hrun by reflexivity. cbv beta in Hrun.
  apply bind_Ok in Hrun as (e1 & t1 & H1 & Hrun). apply zoom_Ok in H1 as (w1 & H1 & ->).
  apply bind_Ok in Hrun as (e2 & t2 & H2 & Hrun). apply zoom_Ok in H2 as (w2 & H2 & ->).
  apply bind_Ok in Hrun as (au & t3 & Hau & Hrun). rewrite audit_run in Hau. injection Hau as _ <-.
  injection Hrun as <- <-. cbn [view loyalty_wallet_lens lo_wallet with_members] in H1, H2.
  destruct (credit_posts _ _ _ _ _ _ _ _ _ _ _ H1 Hf1) as (Hp1 & He1 & _).
  assert (Hf2' : fresh_key (referral_key code cid "new") (entries w1)).
  { intros e He. rewrite He1, elem_of_add_row in He. destruct He as [He| ->]; [by apply Hf2|].
    destruct Hp1 as [-> _]. apply referral_keys_differ. }
  destruct (credit_posts _ _ _ _ _ _ _ _ _ _ _ H2 Hf2') as (Hp2 & He2 & Hmono).
  rewrite quantize_aed in Hp1, Hp2.
  match goal with |- context [lo_wallet ?t] => set (s1 := t) in * end.
  assert (Hw : lo_wallet s1 = w2) by done.
  exists (rc_customer_id row), e1, e2. rewrite Hw. split_and!; [done|done|rewrite He2; exact (f_equal (add_row e2) He1)| |done|].
  { destruct Hp1 as (? & ? & ? & a & Ha & ?). split_and!; [done..|]. exists a. split; [by apply Hmono|done]. }
  intros l rid' code' s2.
  assert (Hk : programme [(cid, rc_customer_id row)] s1).
  { pose proof Hc as [_ Hid]%get_row_Some.
    assert (Hin : with_referrer (Some (rc_customer_id row)) c ∈ rows (members s1)).
    { eapply proj1, get_row_Some. exact (get_row_set_eq cid (with_referrer (Some (rc_customer_id row)) c) c (members s) Hid Hc). }
    destruct Hs1. split; try done. intros c' o' [= -> ->]%list_elem_of_singleton.
    eexists. split; [exact Hin|done]. }
  apply (after_ops_keeps _ tokens l) in Hk. fold s2 in Hk.
  destruct (po_known _ _ _ _ _ Hk cid (rc_customer_id row)) as (m & Hm & Hid & Hrm); [set_solver|].
  assert (Hg : get_row cid (members s2) = Some m).
  { rewrite <-Hid. apply (get_row_wf _ m); [apply Hk|done]. }
  split; [by exists m|]. unfold redeem_referral. erewrite bind_run_Ok by reflexivity. cbv beta.
  destruct (first_where _ _) as [row'|]; [|by eexists]. erewrite bind_run_Ok by reflexivity. cbv beta. rewrite Hg.
  destruct (negb _); [by eexists|]. destruct (_ =? cid); [by eexists|]. rewrite Hrm. by eexists.
Qed.

(** ** Witnesses *)

(** A restaurant with the programme switched on, everything else at its defaults. *)
Definition switched_on : loyalty_block :=
  {| raw_enabled := Some true; raw_earn_rate := None; raw_earn_max := None; raw_tiers := None;
     raw_rewards := None; raw_grace_days := None; raw_stamps_required := None; raw_points_per_aed := None |}.
Definition a_member (id : Z) (t : option tier) (anchor : Z) : Member :=
  {| mb_id := id; mb_restaurant_id := 7; mb_phone := "+97150000000" +:+ pretty id; loyalty_tier := t;
     loyalty_tier_since := None; loyalty_tier_locked := false; loyalty_reward_anchor := anchor;
     referred_by_customer_id := None; loyalty_points := 0 |}.
Definition a_history (id orders spend last : Z) : Customer :=
  {| cu_id := id; cu_stats := {| total_orders := orders; total_spend := spend; first_order_at := Some 0;
                                 last_order_at := Some last |} |}.
(** Customers 1 and 2 of restaurant 7, at the noon of day 100. *)
Definition club (ms : list Member) (cs : list Customer) : loyalty_db :=
  {| members := Table ms 3; stamp_cards := empty_table; point_entries := empty_table;
     referral_codes := empty_table; favorites := empty_table; eaten_lines := empty_table;
     venues := Table [{| vn_id := 7; vn_name := "Biryani House" |}] 8;
     lo_fsm := {| orders := empty_table; customers := Table cs 3; fsm_audit := []; realtime_events := []; pushes := [] |};
     lo_wallet := empty_wallet; lo_coupons := empty_coupons;
     lo_notify := {| conversations := empty_table; chat_messages := empty_table;
                     notify_outbox := {| messages := empty_table; mirrored := []; provider_calls := [];
                                         text_menus := []; outbox_now := days 100 + hours 12 |} |};
     lo_audit := []; lo_now := days 100 + hours 12 |}.
Definition quiet_gold : loyalty_db := club [a_member 1 (Some Gold) 5; a_member 2 None 0]
  [a_history 1 10 60000 (days 95); a_history 2 3 13000 (days 99)].
Definition club_tokens (n : Z) (i : nat) : string := pretty (Z.of_nat i).
#[global] Instance club_tokens_inj n : Inj (=) (=) (club_tokens n).
Proof. intros i j H. unfold club_tokens in H. apply (inj pretty) in H. lia. Qed.

Lemma club_start ms cs :
  ids_increasing ms 3 = true → forallb (λ m, loyalty_points m =? 0) ms = true → programme_start (club ms cs).
Proof.
  intros Hi Hp. split; [by apply table_wf_check| |by split_and!]. intros m Hm. rewrite forallb_forall in Hp.
  apply Z.eqb_eq, Hp, list_elem_of_In, Hm.
Qed.

Definition meal (id : Z) : earned_order :=
  {| eo_id := id; eo_restaurant_id := 7; eo_customer_id := 1; eo_subtotal := 4250 |}.
Definition busy_day : list loyalty_op :=
  [Hooks (meal 5) 1 (Some switched_on); Hooks (meal 5) 1 (Some switched_on); RedeemPoints 7 1 20 "redeem"].

Example points_match_ledger_witness :
  let s' := after_ops club_tokens busy_day quiet_gold in
  ∃ m, m ∈ rows (members s') ∧ loyalty_points m = 22 ∧ points_of (mb_id m) (point_entries s') = 22.
Proof.
  intros s'. assert (Hm : ∃ m, m ∈ rows (members s') ∧ loyalty_points m = 22).
  { eexists. split; [unfold s'; vm_compute; apply list_elem_of_here|reflexivity]. }
  destruct Hm as (m & Hm & H22). exists m. split_and!; [exact Hm|exact H22|].
  destruct (points_match_ledger club_tokens busy_day quiet_gold m) as [Heq _]; [by apply club_start|exact Hm|].
  exact (eq_trans (eq_sym Heq) H22).
Defined.

Example tier_recomputed_witness :
  ∃ s', recompute_tier club_tokens 2 (Some switched_on) true quiet_gold = Ok (true, None, Some Silver) s' ∧
    minted 7 2 (Some 1000) quiet_gold s'.
Proof.
  destruct (tier_recomputed club_tokens club_tokens_inj 2 (Some switched_on) true quiet_gold (a_member 2 None 0))
    as (new & s' & Hrun & _ & _ & _ & _ & _ & Hmint); [reflexivity|reflexivity|reflexivity|].
  assert (Hnew : new = Some Silver).
  { assert (Hv : value (recompute_tier club_tokens 2 (Some switched_on) true quiet_gold) = Some (true, None, Some Silver))
      by (vm_compute; reflexivity). rewrite Hrun in Hv. cbn in Hv. congruence. }
  subst new. exists s'. split; [exact Hrun|exact Hmint].
Defined.

Lemma club_wallet_wf ms cs : ledger_wf (entries (lo_wallet (club ms cs))).
Proof. apply empty_wallet_wf. Qed.

Example earn_clawed_back_witness :
  ∃ s1, earn (meal 5) (Some switched_on) quiet_gold = Ok 212 s1 ∧ earn (meal 5) (Some switched_on) s1 = Ok 212 s1 ∧
    ∃ s2, reverse_earn (meal 5) "system" s1 = Ok tt s2 ∧ posted_sum 1 (entries (lo_wallet s2)) = 0.
Proof.
  destruct (earn (meal 5) (Some switched_on) quiet_gold) as [v s1|e s1] eqn:Hrun;
    [|vm_compute in Hrun; discriminate].
  assert (Hv : v = 212) by (vm_compute in Hrun; congruence). subst v.
  destruct (earn_clawed_back (meal 5) (Some switched_on) quiet_gold 212 s1) as (_ & _ & Hagain & Hback).
  - apply club_wallet_wf.
  - intros e He. by apply elem_of_nil in He.
  - intros e He. by apply elem_of_nil in He.
  - exact Hrun.
  - reflexivity.
  - exists s1. split_and!; [reflexivity|exact Hagain|].
    destruct (Hback "system"%string) as (s2 & Hrev & Hsum & _). exists s2. split; [exact Hrev|].
    destruct (Hsum 1) as [-> _]. reflexivity.
Defined.

(** Customer 1 has the code; customer 2, with three orders behind them, redeems it. *)
Definition coded : loyalty_db := after_ops club_tokens [NewCode (λ _, "AB12CD"%string) 7 1] quiet_gold.

Example referral_pays_once_witness :
  ∃ r s1, redeem_referral 7 "AB12CD" 2 coded = Ok r s1 ∧
    ∃ err, redeem_referral 7 "AB12CD" 2 s1 = Err err s1.
Proof.
  destruct (redeem_referral 7 "AB12CD" 2 coded) as [r s1|e s1] eqn:Hrun; [|vm_compute in Hrun; discriminate].
  destruct (referral_pays_once club_tokens 7 "AB12CD" 2 coded r s1) as (owner & e1 & e2 & _ & _ & _ & _ & _ & Hafter).
  - apply after_ops_keeps, start_programme, club_start; reflexivity.
  - intros e He. by apply elem_of_nil in He.
  - intros e He. by apply elem_of_nil in He.
  - exact Hrun.
  - exists r, s1. split; [reflexivity|]. destruct (Hafter [] 7 "AB12CD"%string) as [_ Herr]. exact Herr.
Defined.

(** ** Where the code falls short *)

(** The every-N reward is issued per call, not per milestone: two deliveries while the
    customer's order count stands at the multiple mint two coupons. *)
Theorem recurring_reward_repeats :
  let once := maybe_issue_recurring_reward club_tokens 1 (Some switched_on) true quiet_gold in
  let twice := maybe_issue_recurring_reward club_tokens 1 (Some switched_on) true (final once) in
  value once = Some true ∧ value twice = Some true ∧ length (rows (coupons (lo_coupons (final twice)))) = 2%nat.
Proof. vm_compute. by split_and!. Qed.

(** A rate of zero points per dirham reads as the default of one. *)
Theorem zero_points_rate_earns b :
  raw_points_per_aed b = Some 0%Q → earned_points (Some b) 4250 = 42.
Proof. intros Hb. unfold earned_points, points_rate. cbn. by rewrite Hb. Qed.

(** The progress text starts with the bare number of missing orders. *)
Theorem progress_repeats_count :
  tier_progress_text (Some switched_on) (cu_stats (a_history 1 2 5000 (days 99))) (days 100) =
  ("You're Bronze. 1To reach Silver 🥈: 1 more order(s) and AED 70.00 more spend.")%string.
Proof. vm_compute. reflexivity. Qed.

(** The grace days keep only the current tier: a gold customer who still holds silver
    with the grace is demoted to bronze. *)
Theorem grace_skips_lower_tier :
  let st := cu_stats (a_history 1 10 60000 0) in let cfg := _loyalty_cfg (Some switched_on) in
  compute_tier cfg st (days 70) (demotion_grace_days cfg) = Some Silver ∧
  decided_tier cfg st (Some Gold) (days 70) = Some Bronze.
Proof. vm_compute. by split. Qed.

(** A dish that was renamed between two orders is counted twice under one id, and the
    rewritten favourites violate their UNIQUE constraint. *)
Definition renamed_dish : loyalty_db :=
  let o := {| o_id := 1; o_restaurant_id := 7; o_customer_id := 1; o_status := DELIVERED; o_total := 4250;
              o_table_id := None; o_aggregator_source := None; o_aggregator_order_ref := None; o_created_at := 0 |} in
  let s := quiet_gold in
  Build_loyalty_db (members s) (stamp_cards s) (point_entries s) (referral_codes s) (favorites s)
    (Table [{| el_id := 1; el_order_id := 1; el_dish_id := Some 4; el_dish_name := "Biryani"; el_qty := 1 |};
            {| el_id := 2; el_order_id := 1; el_dish_id := Some 4; el_dish_name := "Chicken Biryani"; el_qty := 1 |}] 3)
    (venues s) {| orders := Table [o] 2; customers := customers (lo_fsm s); fsm_audit := []; realtime_events := []; pushes := [] |}
    (lo_wallet s) (lo_coupons s) (lo_notify s) (lo_audit s) (lo_now s).
Theorem renamed_dish_breaks_favorites :
  error (refresh_favorites 7 1 10 renamed_dish) = Some LoyaltyIntegrityError ∧
  error (on_delivery_crm_hooks (meal 1) 1 (Some switched_on) renamed_dish) = Some LoyaltyIntegrityError.
Proof. vm_compute. by split. Qed.

(** Any customer counts as new, and two customers can refer one another. *)
Theorem customers_refer_each_other :
  let s := after_ops club_tokens [NewCode (λ _, "AB12CD"%string) 7 1; NewCode (λ _, "ZX98YW"%string) 7 2;
             Refer 7 "AB12CD" 2; Refer 7 "ZX98YW" 1] quiet_gold in
  length (rows (entries (lo_wallet s))) = 4%nat ∧ zsum we_amount (rows (entries (lo_wallet s))) = 4000.
Proof. vm_compute. by split. Qed.
