(* ===== verification/Fleet.v ===== *)
(** * Riders and deliveries ([app.dispatch])

    The state machine of a delivery, the batches of stops riders carry, manual
    assignment and reassignment, the actions of the rider's app, live tracking, proof of
    delivery, and the riders themselves ([identity/service.py]).  An order is three rows
    here that the database keeps as one: its lifecycle ([OrderFsm.Order]), its money
    ([OrderPayments.Order]) and its [Delivery].  The service runs in one session with the
    order lifecycle, the wallet, the coupons, the loyalty programme, the outbound queue
    and the cash collections. *)

From Stdlib Require Import SpecFloat.
From S2P Require Import Prelude Money Strings Db AuditTrail Clock Floats Wallet Coupons Ledger WalletLedger OrderFsm OrderPayments Outbox Notify Loyalty Cod Batching Scoring.

(** ** Data ([dispatch/models.py]) *)

(** The dispatch columns of [orders]. *)
Record Delivery := {
  dl_id : Z;
  order_number : string;
  address_id : option Z;
  dl_rider_id : option Z;
  priority : string;
  sla_confirmed_at : option Z;
  sla_deadline : option Z;
  prep_deadline : option Z;
  promised_eta : option Z;
  dl_updated_at : option Z;
  dl_delivered_at : option Z;
  late : option bool;
  delivery_failure_reason : option string;
  delivery_photo_url : option string;
  delivery_otp : option string;
  delivery_otp_verified_at : option Z;
  otp_required_at_deliver : bool;
}.
#[global] Instance Delivery_row : Row Delivery := dl_id.

(** Writes of the columns the services assign. *)
Definition on_rider (r : option Z) (d : Delivery) : Delivery :=
  Build_Delivery (dl_id d) (order_number d) (address_id d) r (priority d) (sla_confirmed_at d) (sla_deadline d)
    (prep_deadline d) (promised_eta d) (dl_updated_at d) (dl_delivered_at d) (late d) (delivery_failure_reason d)
    (delivery_photo_url d) (delivery_otp d) (delivery_otp_verified_at d) (otp_required_at_deliver d).
Definition with_eta (eta : option Z) (d : Delivery) : Delivery :=
  Build_Delivery (dl_id d) (order_number d) (address_id d) (dl_rider_id d) (priority d) (sla_confirmed_at d) (sla_deadline d)
    (prep_deadline d) eta (dl_updated_at d) (dl_delivered_at d) (late d) (delivery_failure_reason d)
    (delivery_photo_url d) (delivery_otp d) (delivery_otp_verified_at d) (otp_required_at_deliver d).
(** [delivered_at], and [late] against the deadline when there is one. *)
Definition stamped (now : Z) (d : Delivery) : Delivery :=
  Build_Delivery (dl_id d) (order_number d) (address_id d) (dl_rider_id d) (priority d) (sla_confirmed_at d) (sla_deadline d)
    (prep_deadline d) (promised_eta d) (dl_updated_at d) (Some now)
    (match sla_deadline d with Some t => Some (t <? now) | None => late d end) (delivery_failure_reason d)
    (delivery_photo_url d) (delivery_otp d) (delivery_otp_verified_at d) (otp_required_at_deliver d).
Definition with_failure (reason : string) (d : Delivery) : Delivery :=
  Build_Delivery (dl_id d) (order_number d) (address_id d) (dl_rider_id d) (priority d) (sla_confirmed_at d) (sla_deadline d)
    (prep_deadline d) (promised_eta d) (dl_updated_at d) (dl_delivered_at d) (late d) (Some reason)
    (delivery_photo_url d) (delivery_otp d) (delivery_otp_verified_at d) (otp_required_at_deliver d).
Definition with_photo (url : string) (d : Delivery) : Delivery :=
  Build_Delivery (dl_id d) (order_number d) (address_id d) (dl_rider_id d) (priority d) (sla_confirmed_at d) (sla_deadline d)
    (prep_deadline d) (promised_eta d) (dl_updated_at d) (dl_delivered_at d) (late d) (delivery_failure_reason d)
    (Some url) (delivery_otp d) (delivery_otp_verified_at d) (otp_required_at_deliver d).
Definition with_otp (otp : option string) (verified : option Z) (d : Delivery) : Delivery :=
  Build_Delivery (dl_id d) (order_number d) (address_id d) (dl_rider_id d) (priority d) (sla_confirmed_at d) (sla_deadline d)
    (prep_deadline d) (promised_eta d) (dl_updated_at d) (dl_delivered_at d) (late d) (delivery_failure_reason d)
    (delivery_photo_url d) otp verified (otp_required_at_deliver d).
Definition requiring_otp (b : bool) (d : Delivery) : Delivery :=
  Build_Delivery (dl_id d) (order_number d) (address_id d) (dl_rider_id d) (priority d) (sla_confirmed_at d) (sla_deadline d)
    (prep_deadline d) (promised_eta d) (dl_updated_at d) (dl_delivered_at d) (late d) (delivery_failure_reason d)
    (delivery_photo_url d) (delivery_otp d) (delivery_otp_verified_at d) b.

Inductive batch_status := BPlanned | BPickedUp | BInProgress | BCompleted.
#[global] Instance batch_status_eq_dec : EqDecision batch_status.
Proof. solve_decision. Defined.
(** [route] is its list of stops. *)
Record Batch := {
  ba_id : Z; ba_restaurant_id : Z; ba_rider_id : Z; ba_status : batch_status;
  ba_route : list (Z * point); ba_total_est_min : option Z;
}.
#[global] Instance Batch_row : Row Batch := ba_id.
Definition batch_in (st : batch_status) (b : Batch) : Batch :=
  {| ba_id := ba_id b; ba_restaurant_id := ba_restaurant_id b; ba_rider_id := ba_rider_id b; ba_status := st;
     ba_route := ba_route b; ba_total_est_min := ba_total_est_min b |}.

Record BatchOrder := {
  bo_id : Z; bo_batch_id : Z; bo_order_id : Z; bo_sequence : Z; bo_delivered_at : option Z;
}.
#[global] Instance BatchOrder_row : Row BatchOrder := bo_id.
Definition handled_at (now : Z) (b : BatchOrder) : BatchOrder :=
  {| bo_id := bo_id b; bo_batch_id := bo_batch_id b; bo_order_id := bo_order_id b;
     bo_sequence := bo_sequence b; bo_delivered_at := Some now |}.
Definition is_handled (b : BatchOrder) : bool := bool_decide (bo_delivered_at b ≠ None).

(** Why a rider was chosen. *)
Inductive assignment_score :=
| ManualAssign (actor : string)
| ManualReassign (previous_rider_id : option Z) (actor : string)
| RouteScore (score : route_score).
Record Assignment := {
  as_id : Z; as_order_id : Z; as_rider_id : Z; as_batch_id : option Z; as_assigned_at : Z;
  algorithm_score : assignment_score;
}.
#[global] Instance Assignment_row : Row Assignment := as_id.

Record RiderLocation := { rl_id : Z; rl_rider_id : Z; rl_restaurant_id : Z; rl_at : point; rl_ts : Z }.
#[global] Instance RiderLocation_row : Row RiderLocation := rl_id.

Inductive tracking_status := TRACKING_ACTIVE | TRACKING_STOPPED | TRACKING_EXPIRED.
#[global] Instance tracking_status_eq_dec : EqDecision tracking_status.
Proof. solve_decision. Defined.
Record OrderTrackingSession := {
  ot_id : Z; ot_order_id : Z; ot_rider_id : Z; ot_restaurant_id : Z;
  tracking_token : string; rider_token : string; ot_status : tracking_status;
  latest_at : option point; started_at : Z; last_location_at : option Z;
  stopped_at : option Z; expires_at : Z;
}.
#[global] Instance OrderTrackingSession_row : Row OrderTrackingSession := ot_id.

Inductive rider_status := Available | OnDelivery | OffShift | Deactivated.
#[global] Instance rider_status_eq_dec : EqDecision rider_status.
Proof. solve_decision. Defined.
Definition rider_status_str (st : rider_status) : string :=
  match st with Available => "available" | OnDelivery => "on_delivery" | OffShift => "off_shift"
              | Deactivated => "deactivated" end.
Record Rider := {
  ri_id : Z; ri_restaurant_id : Z; ri_name : string; ri_phone : string; ri_status : rider_status;
  on_duty : bool; device_token : option string; pairing_code : option string;
  pairing_code_expires_at : option Z; push_token : option string; on_time_pct : option float;
}.
#[global] Instance Rider_row : Row Rider := ri_id.
Definition rider_in (st : rider_status) (r : Rider) : Rider :=
  Build_Rider (ri_id r) (ri_restaurant_id r) (ri_name r) (ri_phone r) st (on_duty r) (device_token r) (pairing_code r)
    (pairing_code_expires_at r) (push_token r) (on_time_pct r).
Definition with_duty (b : bool) (r : Rider) : Rider :=
  Build_Rider (ri_id r) (ri_restaurant_id r) (ri_name r) (ri_phone r) (ri_status r) b (device_token r) (pairing_code r)
    (pairing_code_expires_at r) (push_token r) (on_time_pct r).
Definition with_pairing (token code : option string) (until : option Z) (r : Rider) : Rider :=
  Build_Rider (ri_id r) (ri_restaurant_id r) (ri_name r) (ri_phone r) (ri_status r) (on_duty r) token code
    until (push_token r) (on_time_pct r).
Definition with_push_token (t : option string) (r : Rider) : Rider :=
  Build_Rider (ri_id r) (ri_restaurant_id r) (ri_name r) (ri_phone r) (ri_status r) (on_duty r) (device_token r)
    (pairing_code r) (pairing_code_expires_at r) t (on_time_pct r).

Record CustomerAddress := { ad_id : Z; ad_at : option point }.
#[global] Instance CustomerAddress_row : Row CustomerAddress := ad_id.

(** The restaurant: its position (both coordinates or none) and its settings; a key
    may be missing. *)
Record dispatch_settings := {
  raw_prep_lead_min : option Z;
  raw_hold_seconds : option Z;
  raw_proximity_km : option float;
  raw_window_minutes : option Z;
  raw_max_orders : option Z;
  raw_buffer_minutes : option Z;
  raw_max_detour_km : option float;
  raw_zones : list bzone;            (** missing or empty *)
  raw_engine : option string;
  raw_expedite_radius_km : option float;
}.
Record Branch := {
  br_id : Z; br_phone : string; br_at : option point;
  br_loyalty : option loyalty_block; require_otp_on_deliver : bool; br_dispatch : dispatch_settings;
}.
#[global] Instance Branch_row : Row Branch := br_id.

(** Calls that leave this part of the system: pushes to the rider's phone, the partner
    webhooks, the marketing hook and the preview cache. *)
Record push_message := PushMessage { to_token : string; push_title : string; push_body : string }.
Inductive outside_call :=
| PushSent (m : push_message)
| PartnerEvent (order_id : Z) (event_type : string)
| MarketingDelivered (order_id : Z)
| PreviewDropped (restaurant_id : Z).

(** ** The session *)

Record fleet_db := {
  fl_loyalty : loyalty_db;
  deliveries : table Delivery;
  batches : table Batch;
  batch_orders : table BatchOrder;
  assignments : table Assignment;
  trackings : table OrderTrackingSession;
  locations : table RiderLocation;
  riders : table Rider;
  branches : table Branch;
  addresses : table CustomerAddress;
  fl_bills : table OrderPayments.Order * table OrderItem * list (Z * billing_settings);
  fl_cod : cod_db;
  fl_audit : list audit_row;
  outside : list outside_call;
  draws : Z;   (** random numbers drawn so far *)
  expedited : list Z;   (** the orders with an [sla_events] row of type [batch_expedite] *)
}.
Definition with_expedited (l : list Z) (s : fleet_db) : fleet_db :=
  Build_fleet_db (fl_loyalty s) (deliveries s) (batches s) (batch_orders s) (assignments s) (trackings s) (locations s)
    (riders s) (branches s) (addresses s) (fl_bills s) (fl_cod s) (fl_audit s) (outside s) (draws s) l.
Definition fl_now (s : fleet_db) : Z := lo_now (fl_loyalty s).
Definition fl_orders (s : fleet_db) : table OrderFsm.Order := orders (lo_fsm (fl_loyalty s)).
Definition with_deliveries (t : table Delivery) (s : fleet_db) : fleet_db :=
  Build_fleet_db (fl_loyalty s) t (batches s) (batch_orders s) (assignments s) (trackings s) (locations s)
    (riders s) (branches s) (addresses s) (fl_bills s) (fl_cod s) (fl_audit s) (outside s) (draws s) (expedited s).
Definition with_batches (t : table Batch) (s : fleet_db) : fleet_db :=
  Build_fleet_db (fl_loyalty s) (deliveries s) t (batch_orders s) (assignments s) (trackings s) (locations s)
    (riders s) (branches s) (addresses s) (fl_bills s) (fl_cod s) (fl_audit s) (outside s) (draws s) (expedited s).
Definition with_stops (t : table BatchOrder) (s : fleet_db) : fleet_db :=
  Build_fleet_db (fl_loyalty s) (deliveries s) (batches s) t (assignments s) (trackings s) (locations s)
    (riders s) (branches s) (addresses s) (fl_bills s) (fl_cod s) (fl_audit s) (outside s) (draws s) (expedited s).
Definition with_assignments (t : table Assignment) (s : fleet_db) : fleet_db :=
  Build_fleet_db (fl_loyalty s) (deliveries s) (batches s) (batch_orders s) t (trackings s) (locations s)
    (riders s) (branches s) (addresses s) (fl_bills s) (fl_cod s) (fl_audit s) (outside s) (draws s) (expedited s).
Definition with_trackings (t : table OrderTrackingSession) (s : fleet_db) : fleet_db :=
  Build_fleet_db (fl_loyalty s) (deliveries s) (batches s) (batch_orders s) (assignments s) t (locations s)
    (riders s) (branches s) (addresses s) (fl_bills s) (fl_cod s) (fl_audit s) (outside s) (draws s) (expedited s).
Definition with_locations (t : table RiderLocation) (s : fleet_db) : fleet_db :=
  Build_fleet_db (fl_loyalty s) (deliveries s) (batches s) (batch_orders s) (assignments s) (trackings s) t
    (riders s) (branches s) (addresses s) (fl_bills s) (fl_cod s) (fl_audit s) (outside s) (draws s) (expedited s).
Definition with_riders (t : table Rider) (s : fleet_db) : fleet_db :=
  Build_fleet_db (fl_loyalty s) (deliveries s) (batches s) (batch_orders s) (assignments s) (trackings s) (locations s)
    t (branches s) (addresses s) (fl_bills s) (fl_cod s) (fl_audit s) (outside s) (draws s) (expedited s).
Definition with_outside (t : list outside_call) (s : fleet_db) : fleet_db :=
  Build_fleet_db (fl_loyalty s) (deliveries s) (batches s) (batch_orders s) (assignments s) (trackings s) (locations s)
    (riders s) (branches s) (addresses s) (fl_bills s) (fl_cod s) (fl_audit s) t (draws s) (expedited s).
Definition with_draws (t : Z) (s : fleet_db) : fleet_db :=
  Build_fleet_db (fl_loyalty s) (deliveries s) (batches s) (batch_orders s) (assignments s) (trackings s) (locations s)
    (riders s) (branches s) (addresses s) (fl_bills s) (fl_cod s) (fl_audit s) (outside s) t (expedited s).

#[global] Program Instance fleet_loyalty_lens : Lens fleet_db loyalty_db := {|
  view := fl_loyalty;
  put l s := Build_fleet_db l (deliveries s) (batches s) (batch_orders s) (assignments s) (trackings s) (locations s)
    (riders s) (branches s) (addresses s) (fl_bills s) (fl_cod s) (fl_audit s) (outside s) (draws s) (expedited s);
|}.
Solve Obligations with by intros; try destruct s.
#[global] Program Instance fleet_cod_lens : Lens fleet_db cod_db := {|
  view := fl_cod;
  put c s := Build_fleet_db (fl_loyalty s) (deliveries s) (batches s) (batch_orders s) (assignments s) (trackings s) (locations s)
    (riders s) (branches s) (addresses s) (fl_bills s) c (fl_audit s) (outside s) (draws s) (expedited s);
|}.
Solve Obligations with by intros; try destruct s.
#[global] Instance fleet_has_audit : HasAudit fleet_db := {|
  audit_log := fl_audit;
  put_audit l s := Build_fleet_db (fl_loyalty s) (deliveries s) (batches s) (batch_orders s) (assignments s) (trackings s) (locations s)
    (riders s) (branches s) (addresses s) (fl_bills s) (fl_cod s) l (outside s) (draws s) (expedited s);
|}.
#[global] Instance fleet_fsm_lens : Lens fleet_db fsm_db := lens_comp fleet_loyalty_lens loyalty_fsm_lens.
#[global] Instance fleet_outbox_lens : Lens fleet_db outbox_db :=
  lens_comp (lens_comp fleet_loyalty_lens loyalty_notify_lens) notify_outbox_lens.
(** The money of the orders, with the wallet and the coupons of the session. *)
#[global] Program Instance fleet_pay_lens : Lens fleet_db (pay_db (W := wallet_db)) := {|
  view s := {| po_orders := fst (fst (fl_bills s)); po_items := snd (fst (fl_bills s));
               po_restaurants := snd (fl_bills s);
               po_ledger := lo_wallet (fl_loyalty s); po_coupons := lo_coupons (fl_loyalty s) |};
  put p s := let l := put (Lens := loyalty_coupon_lens) (po_coupons p)
                       (put (Lens := loyalty_wallet_lens) (po_ledger p) (fl_loyalty s)) in
    Build_fleet_db l (deliveries s) (batches s) (batch_orders s) (assignments s) (trackings s) (locations s)
      (riders s) (branches s) (addresses s) (po_orders p, po_items p, po_restaurants p) (fl_cod s) (fl_audit s)
      (outside s) (draws s) (expedited s);
|}.
Next Obligation. by intros []. Qed.
Next Obligation. intros [[] ? ? ? ? ? ? ? ? ? [[] ?] ? ? ? ? ?]. reflexivity. Qed.
Next Obligation. by intros [] [] [[] ? ? ? ? ? ? ? ? ? ? ? ? ? ? ?]. Qed.

Inductive fleet_error :=
| DeliveryNotFound (order_id : Z)
| CannotMove (order_id : Z) (from to : OrderStatus)
| OtpRequired (order_id : Z)
| OtpMismatch
| NotDeliverable (order_id : Z) (status : OrderStatus)
| PhotoRequired
| FailureReasonRequired
| CannotFail (e : order_error)       (** [ValueError] over the transition's exception *)
| NotReassignable (status : OrderStatus)
| NotAssignable (status : OrderStatus)
| RiderNotFound
| RiderIsDeactivated
| RiderUnpaired
| RiderOffDuty
| AlreadyWithRider
| NoAssignedRider
| BadCoordinates
| StopTaken (order_id : Z)           (** UNIQUE (order_id) of [batch_orders] *)
| RiderHasHistory
| RiderReferenced                    (** a foreign key to the rider, at the commit *)
| SessionRolledBack                  (** a failed flush: the session refuses every later statement *)
| NoRestaurant (restaurant_id : Z)
| PositionMissing                    (** a [TypeError] over the restaurant's missing position *)
| EstimateRaised                     (** [int()] of a float that is no number *)
| FleetFsmRaised (e : order_error)
| FleetPayRaised (e : pay_error (E := wallet_error))
| FleetLoyaltyRaised (e : loyalty_error)
| FleetOutboxRaised (e : outbox_error).

Abbreviation FM := (M fleet_db fleet_error).

Definition set_delivery (d : Delivery) : FM unit := modify (λ s, with_deliveries (set_row d (deliveries s)) s).
Definition set_batch (b : Batch) : FM unit := modify (λ s, with_batches (set_row b (batches s)) s).
Definition set_rider (r : Rider) : FM unit := modify (λ s, with_riders (set_row r (riders s)) s).
Definition call_outside (c : outside_call) : FM unit := modify (λ s, with_outside (outside s ++ [c]) s).

(** [session.get(Order, id)]: both halves of the row. *)
Definition both_halves (order_id : Z) (s : fleet_db) : option (OrderFsm.Order * Delivery) :=
  match get_row order_id (fl_orders s), get_row order_id (deliveries s) with
  | Some o, Some d => Some (o, d)
  | _, _ => None
  end.
(** [order.status = ...], past the status graph. *)
Definition assign_status (order_id : Z) (st : OrderStatus) : FM unit :=
  zoom FleetFsmRaised (modify (λ s, with_orders (map_rows (λ o,
    if o_id o =? order_id then with_status st o else o) (orders s)) s)).
Definition stop_of (order_id : Z) (s : fleet_db) : option BatchOrder :=
  first_where (λ b, bo_order_id b =? order_id) (batch_orders s).
Definition stops_in (batch_id : Z) (s : fleet_db) : list BatchOrder :=
  all_where (λ b, bo_batch_id b =? batch_id) (batch_orders s).

Section fleet.
(** The random tokens of the [n]-th coupon; the [n]-th draws of [secrets]. *)
Context (tokens : Z → nat → string) (randbelow : Z → Z) (token_urlsafe : Z → string).

Definition draw : FM Z := n ← gets draws; modify (with_draws (n + 1)) ≫= λ _, mret n.

(** ** Live tracking ([tracking_live.py]) *)

Definition tracking_of (order_id : Z) (s : fleet_db) : option OrderTrackingSession :=
  first_where (λ t, ot_order_id t =? order_id) (trackings s).
Definition set_tracking (t : OrderTrackingSession) : FM unit :=
  modify (λ s, with_trackings (set_row t (trackings s)) s).
Definition TRACKING_TTL : Z := hours 6.

(** The row of an order that was tracked before, live again.  Tokens are never empty. *)
Definition revived (rider_id restaurant_id now : Z) (t : OrderTrackingSession) : OrderTrackingSession :=
  let active := bool_decide (ot_status t = TRACKING_ACTIVE) in
  {| ot_id := ot_id t; ot_order_id := ot_order_id t; ot_rider_id := rider_id; ot_restaurant_id := restaurant_id;
     tracking_token := tracking_token t; rider_token := rider_token t; ot_status := TRACKING_ACTIVE;
     latest_at := latest_at t; started_at := if active then started_at t else now;
     last_location_at := last_location_at t; stopped_at := if active then stopped_at t else None;
     expires_at := if expires_at t <=? now then now + TRACKING_TTL else expires_at t |}.

Definition ensure_tracking_session (order_id : Z) : FM OrderTrackingSession :=
  found ← gets (both_halves order_id);
  match found with
  | None => raise (DeliveryNotFound order_id)
  | Some (o, d) =>
      match dl_rider_id d with
      | None => raise NoAssignedRider
      | Some r =>
          existing ← gets (tracking_of order_id);
          now ← gets fl_now;
          match existing with
          | Some t =>
              let t' := revived r (o_restaurant_id o) now t in set_tracking t' ≫= λ _, mret t'
          | None =>
              n1 ← draw; n2 ← draw;
              t ← gets trackings;
              let row := {| ot_id := next_id t; ot_order_id := order_id; ot_rider_id := r;
                ot_restaurant_id := o_restaurant_id o; tracking_token := token_urlsafe n1;
                rider_token := token_urlsafe n2; ot_status := TRACKING_ACTIVE; latest_at := None;
                started_at := now; last_location_at := None; stopped_at := None; expires_at := now + TRACKING_TTL |} in
              modify (with_trackings (add_row row t)) ≫= λ _, mret row
          end
      end
  end.

Definition stop_tracking_session (order_id : Z) (reason : tracking_status) : FM unit :=
  found ← gets (tracking_of order_id);
  match found with
  | None => mret tt
  | Some t =>
      now ← gets fl_now;
      set_tracking {| ot_id := ot_id t; ot_order_id := ot_order_id t; ot_rider_id := ot_rider_id t;
        ot_restaurant_id := ot_restaurant_id t; tracking_token := tracking_token t; rider_token := rider_token t;
        ot_status := reason; latest_at := latest_at t; started_at := started_at t;
        last_location_at := last_location_at t; stopped_at := Some now; expires_at := now |}
  end.

Definition is_tracking_accessible (t : OrderTrackingSession) (now : Z) : bool :=
  bool_decide (ot_status t = TRACKING_ACTIVE) && (now <? expires_at t).

(** ** Positions ([tracking_live.py], [rider_app.py], [rider_location.py]) *)

Definition _validate_coordinates (p : point) : bool :=
  (fint (-90) <=f lat p) && (lat p <=f fint 90) && (fint (-180) <=f lon p) && (lon p <=f fint 180).
Definition add_ping (rider_id restaurant_id : Z) (p : point) (ts : Z) : FM unit :=
  modify (λ s, with_locations (add_row {| rl_id := next_id (locations s); rl_rider_id := rider_id;
    rl_restaurant_id := restaurant_id; rl_at := p; rl_ts := ts |} (locations s)) s).
Definition pinged (p : point) (now : Z) (t : OrderTrackingSession) : OrderTrackingSession :=
  {| ot_id := ot_id t; ot_order_id := ot_order_id t; ot_rider_id := ot_rider_id t;
     ot_restaurant_id := ot_restaurant_id t; tracking_token := tracking_token t; rider_token := rider_token t;
     ot_status := TRACKING_ACTIVE; latest_at := Some p; started_at := started_at t; last_location_at := Some now;
     stopped_at := stopped_at t; expires_at := if expires_at t <=? now then now + TRACKING_TTL else expires_at t |}.

Definition update_rider_location (r : Rider) (p : point) (ts : option Z) : FM unit :=
  now ← gets fl_now;
  add_ping (ri_id r) (ri_restaurant_id r) p (default now ts).

Definition record_tracking_location (t : OrderTrackingSession) (p : point) : FM unit :=
  if negb (_validate_coordinates p) then raise BadCoordinates else
  now ← gets fl_now;
  set_tracking (pinged p now t) ≫= λ _, add_ping (ot_rider_id t) (ot_restaurant_id t) p now.

(** The claim of the first ping is one conditional UPDATE; then every live session of the
    rider takes the position. *)
Definition live_for (rider_id : Z) (t : OrderTrackingSession) : bool :=
  (ot_rider_id t =? rider_id) && bool_decide (ot_status t = TRACKING_ACTIVE).
Definition record_rider_app_location (r : Rider) (p : point) : FM (list Z) :=
  if negb (_validate_coordinates p) then raise BadCoordinates else
  now ← gets fl_now;
  first_pings ← gets (λ s, ot_order_id <$> all_where (λ t, live_for (ri_id r) t
                             && bool_decide (last_location_at t = None)) (trackings s));
  modify (λ s, with_trackings (map_rows (λ t, if live_for (ri_id r) t then pinged p now t else t) (trackings s)) s) ≫= λ _,
  add_ping (ri_id r) (ri_restaurant_id r) p now ≫= λ _,
  mret first_pings.

(** ** Pairing the app ([rider_app.py]) *)

Definition _PAIRING_TTL_MINUTES : Z := 60.
Definition create_pairing_code (pairing_codes : Z → string) (r : Rider) : FM string :=
  n ← draw;
  now ← gets fl_now;
  set_rider (with_pairing (device_token r) (Some (pairing_codes n)) (Some (now + minutes _PAIRING_TTL_MINUTES)) r) ≫= λ _,
  mret (pairing_codes n).
Definition redeem_pairing_code (code : string) : FM (option Rider) :=
  let normalized := upper (strip code) in
  if negb (truthy normalized) then mret None else
  found ← gets (λ s, first_where (λ r, bool_decide (pairing_code r = Some normalized)) (riders s));
  now ← gets fl_now;
  match found with
  | None => mret None
  | Some r =>
      match pairing_code_expires_at r with
      | None => mret None
      | Some until =>
          if until <=? now then mret None else
          n ← draw;
          let r' := with_pairing (Some (token_urlsafe n)) None None r in
          set_rider r' ≫= λ _, mret (Some r')
      end
  end.
Definition set_push_token (r : Rider) (token : string) : FM unit :=
  let t := strip token in set_rider (with_push_token (if truthy t then Some t else None) r).

Definition push_to (r : Rider) (title body : string) : FM unit :=
  match push_token r with
  | Some t => if truthy t then call_outside (PushSent (PushMessage t title body)) else mret tt
  | None => mret tt
  end.
Definition notify_rider_assigned (r : Rider) (order_count : Z) : FM unit :=
  push_to r "New delivery assigned"
    ("You have " +:+ pretty order_count +:+ " " +:+ (if order_count =? 1 then "delivery" else "deliveries")
     +:+ " ready — open the app to start.").
Definition notify_rider_cancelled (r : Rider) (number : string) : FM unit :=
  push_to r "Order cancelled" ("Order " +:+ number +:+ " was cancelled — do not collect or deliver it.").

(** ** Proof of delivery ([delivery_proof.py]) *)

Definition _DELIVERY_FSM (st : OrderStatus) : list OrderStatus :=
  match st with
  | ASSIGNED => [PICKED_UP] | PICKED_UP => [ARRIVING] | ARRIVING => [DELIVERED] | _ => []
  end.
Definition DELIVERABLE_STATUSES : list OrderStatus := [ASSIGNED; PICKED_UP; ARRIVING].

(** A photo given by its address (an upload of its bytes is not modelled). *)
Definition set_delivery_photo (restaurant_id order_id : Z) (photo_url : option string) : FM unit :=
  found ← gets (both_halves order_id);
  match found with
  | None => raise (DeliveryNotFound order_id)
  | Some (o, d) =>
      if negb (o_restaurant_id o =? restaurant_id) then raise (DeliveryNotFound order_id) else
      if negb (bool_decide (o_status o ∈ DELIVERABLE_STATUSES)) then raise (NotDeliverable order_id (o_status o)) else
      match photo_url with
      | Some url => if truthy url then set_delivery (with_photo url d) else raise PhotoRequired
      | None => raise PhotoRequired
      end
  end.

Definition generate_delivery_otp (order_id : Z) : FM unit :=
  n ← draw;
  let otp := four_digits (randbelow n) in
  modify (λ s, with_deliveries (map_rows (λ d, if dl_id d =? order_id then with_otp (Some otp) None d else d)
                 (deliveries s)) s).

Definition verify_delivery_otp (restaurant_id order_id : Z) (otp : string) : FM bool :=
  found ← gets (both_halves order_id);
  match found with
  | None => raise (DeliveryNotFound order_id)
  | Some (o, d) =>
      if negb (o_restaurant_id o =? restaurant_id) then raise (DeliveryNotFound order_id) else
      if negb (otruthy (delivery_otp d) && bool_decide (delivery_otp d = Some otp)) then raise OtpMismatch else
      now ← gets fl_now;
      set_delivery (with_otp (delivery_otp d) (Some now) d) ≫= λ _, mret true
  end.

Definition assert_otp_satisfied (d : Delivery) : bool :=
  negb (otp_required_at_deliver d && bool_decide (delivery_otp_verified_at d = None)).

(** ** Closing a stop ([delivery.py]) *)

(** The stop is handled; when it was the last one of its batch, the batch is completed
    and its rider is free. *)
Definition stamp_batch_stop_handled (order_id now : Z) : FM (option Z) :=
  found ← gets (stop_of order_id);
  match found with
  | None => mret None
  | Some bo =>
      modify (λ s, with_stops (set_row (handled_at now bo) (batch_orders s)) s) ≫= λ _,
      siblings ← gets (stops_in (bo_batch_id bo));
      (if forallb is_handled siblings then
         batch ← gets (λ s, get_row (bo_batch_id bo) (batches s));
         match batch with
         | None => mret tt
         | Some b =>
             set_batch (batch_in BCompleted b) ≫= λ _,
             rider ← gets (λ s, get_row (ba_rider_id b) (riders s));
             match rider with Some r => set_rider (rider_in Available r) | None => mret tt end
         end
       else mret tt) ≫= λ _,
      mret (Some (bo_batch_id bo))
  end.
Definition _complete_batch_order (order_id now : Z) : FM unit :=
  _ ← stamp_batch_stop_handled order_id now; mret tt.

(** ** The delivery state machine ([delivery.py]) *)

(** The loyalty calls of a delivery.  An exception of theirs is swallowed ([best_effort]),
    but a flush that violates a constraint leaves the session unusable: its next
    statement raises. *)
Definition bill_subtotal (order_id : Z) (s : fleet_db) : Z :=
  match get_row order_id (fst (fst (fl_bills s))) with Some b => po_subtotal b | None => 0 end.
Definition loyalty_hooks (o : OrderFsm.Order) : FM unit :=
  restaurant ← gets (λ s, get_row (o_restaurant_id o) (branches s));
  customer ← gets (λ s, get_row (o_customer_id o) (members (fl_loyalty s)));
  subtotal ← gets (bill_subtotal (o_id o));
  match restaurant, customer with
  | Some br, Some c =>
      let settings := br_loyalty br in
      let eo := {| eo_id := o_id o; eo_restaurant_id := o_restaurant_id o; eo_customer_id := o_customer_id o;
                   eo_subtotal := subtotal |} in
      zoom FleetLoyaltyRaised (
        _ ← earn eo settings;
        _ ← recompute_tier tokens (mb_id c) settings true;
        _ ← maybe_issue_recurring_reward tokens (mb_id c) settings true;
        on_delivery_crm_hooks eo (mb_id c) settings)
  | _, _ => mret tt
  end.
Definition session_lost (e : fleet_error) : bool :=
  match e with FleetLoyaltyRaised LoyaltyIntegrityError | StopTaken _ => true | _ => false end.
(** [try: ... except Exception: pass]. *)
Definition best_effort (m : FM unit) : FM unit :=
  try_except m (λ e, if session_lost e then raise SessionRolledBack else mret tt).
Definition loyalty_never_blocks (o : OrderFsm.Order) : FM unit :=
  best_effort (loyalty_hooks o).

(** [notify_partner_delivery_transition]: the events a webhook exists for. *)
Definition _EVENT_BY_STATUS (st : OrderStatus) : option string :=
  match st with
  | ASSIGNED => Some "order.rider_assigned" | PICKED_UP => Some "order.picked_up"
  | DELIVERED => Some "order.delivered" | _ => None
  end.
Definition notify_partner (order_id : Z) (st : OrderStatus) : FM unit :=
  match _EVENT_BY_STATUS st with Some ev => call_outside (PartnerEvent order_id ev) | None => mret tt end.

(** What a delivery adds to the step. *)
Definition deliver_effects (order_id now : Z) (d : Delivery) : FM unit :=
  set_delivery (stamped now d) ≫= λ _,
  _complete_batch_order order_id now ≫= λ _,
  stop_tracking_session order_id TRACKING_EXPIRED ≫= λ _,
  zoom FleetPayRaised (capture_on_deliver order_id "system").

Definition status_json (st : OrderStatus) : jdict := [("status", JStr (status_value st))]%string.

Definition advance_delivery (order_id : Z) (to_status : OrderStatus) : FM unit :=
  found ← gets (both_halves order_id);
  match found with
  | None => raise (DeliveryNotFound order_id)
  | Some (o, d) =>
      if negb (bool_decide (to_status ∈ _DELIVERY_FSM (o_status o)))
      then raise (CannotMove order_id (o_status o) to_status) else
      if bool_decide (to_status = DELIVERED) && negb (assert_otp_satisfied d) then raise (OtpRequired order_id) else
      now ← gets fl_now;
      assign_status order_id to_status ≫= λ _,
      (if bool_decide (to_status = ARRIVING) then generate_delivery_otp order_id else mret tt) ≫= λ _,
      (if bool_decide (to_status = DELIVERED) then deliver_effects order_id now d else mret tt) ≫= λ _,
      _ ← audit "rider" (o_restaurant_id o) "order" (pretty order_id) "state_transition"
            (Some (status_json (o_status o))) (Some (status_json to_status));
      zoom FleetFsmRaised (recompute_customer_stats (o_customer_id o)) ≫= λ _,
      (if bool_decide (to_status = DELIVERED)
       then loyalty_never_blocks o ≫= λ _, call_outside (MarketingDelivered order_id)
       else mret tt) ≫= λ _,
      notify_partner order_id to_status
  end.

(** ** Failed deliveries *)

Definition DELIVERY_FAILURE_REASONS : list string :=
  ["customer_unreachable"; "wrong_address"; "refused"; "unsafe"; "other"]%string.
Fixpoint underscored (s : string) : string :=
  match s with
  | EmptyString => EmptyString
  | String c s' => String (if Ascii.eqb c (Ascii.ascii_of_nat 32) then Ascii.ascii_of_nat 95 else c) (underscored s')
  end.
(** The canonical codes, or free text marked as [other]. *)
Definition clean_reason (cleaned : string) : string :=
  if negb (in_strs (underscored (lower cleaned)) DELIVERY_FAILURE_REASONS) && negb (String.prefix "other" cleaned)
  then "other:" +:+ cleaned else cleaned.

Definition mark_delivery_failed (restaurant_id order_id : Z) (reason : string) : FM unit :=
  found ← gets (both_halves order_id);
  match found with
  | None => raise (DeliveryNotFound order_id)
  | Some (o, d) =>
      if negb (o_restaurant_id o =? restaurant_id) then raise (DeliveryNotFound order_id) else
      let cleaned := strip reason in
      if negb (truthy cleaned) then raise FailureReasonRequired else
      set_delivery (with_failure (clean_reason cleaned) d) ≫= λ _,
      zoom CannotFail (transition o UNDELIVERABLE "manager" None)
  end.

(** ** Telling the customer ([rider_flow.py], [tracking.py]) *)

Definition _HUMAN_STATUS (st : OrderStatus) : string :=
  match st with
  | DRAFT => "We're still taking your order."
  | PENDING_CONFIRMATION => "Waiting for your confirmation."
  | CONFIRMED => "Order confirmed — heading to the kitchen."
  | PREPARING => "The restaurant has started preparing your order."
  | READY => "Your order is ready and waiting for a rider."
  | ASSIGNED => "A rider has been assigned to your order."
  | PICKED_UP => "Your order has been picked up by our rider for delivery."
  | ARRIVING => "Your rider is on the way!"
  | DELIVERED => "Your order has been delivered. Enjoy!"
  | CANCELLED => "This order was cancelled."
  | UNDELIVERABLE => "Sorry, we couldn't deliver your order. Please contact the restaurant for help."
  | _ => "We're processing your order."
  end.
Definition _EN_ROUTE : list OrderStatus := [ASSIGNED; PICKED_UP; ARRIVING].

(** The geo provider: distances, whole minutes with a buffer, and whether it estimates. *)
Record tracking_geo := { tg_distance_km : point → point → float; tg_eta_minutes : float → Z → Z; is_estimate : bool }.
Context (geo : tracking_geo) (public_base_url : string).

Definition _latest_rider_position (rider_id : Z) (s : fleet_db) : option point :=
  rl_at <$> head (sort_by (λ a b, rl_ts b <=? rl_ts a) (all_where (λ l, rl_rider_id l =? rider_id) (locations s))).
Definition dropoff_of (d : Delivery) (s : fleet_db) : option point :=
  i ← address_id d; a ← get_row i (addresses s); ad_at a.
(** Ten minutes for every stop before this one in its batch. *)
Definition stop_buffer (order_id : Z) (s : fleet_db) : Z :=
  match stop_of order_id s with
  | Some bo => if (1 <? length (stops_in (bo_batch_id bo) s))%nat then 10 * Z.max 0 (bo_sequence bo - 1) else 0
  | None => 0
  end.
Definition build_tracking_reply (o : OrderFsm.Order) (d : Delivery) (s : fleet_db) : string :=
  let base := _HUMAN_STATUS (o_status o) in
  if negb (bool_decide (o_status o ∈ _EN_ROUTE)) then base else
  match dl_rider_id d with
  | None => base
  | Some r =>
      match _latest_rider_position r s, dropoff_of d s with
      | Some rider_pos, Some drop =>
          let dist := tg_distance_km geo rider_pos drop in
          if fint 50 <f dist then base else
          base +:+ " ETA ~" +:+ pretty (tg_eta_minutes geo dist (stop_buffer (o_id o) s)) +:+ " min"
          +:+ (if is_estimate geo then " (estimated)" else "") +:+ "."
      | _, _ => base
      end
  end.
Definition build_tracking_url (token : string) : string := public_base_url +:+ "/track/" +:+ token.

Definition status_notice (key : string) (order_id : Z) : string := "cust-" +:+ key +:+ "-" +:+ pretty order_id.
Definition queue_text (restaurant_id : Z) (phone body key : string) : FM unit :=
  _ ← zoom FleetOutboxRaised (enqueue_message restaurant_id phone "text" [("body", JStr body)]%string key true true);
  mret tt.

Definition _notify_customer_status (restaurant_id order_id : Z) (status_key : string) : FM unit :=
  found ← gets (both_halves order_id);
  match found with
  | None => mret tt
  | Some (o, d) =>
      let key := status_notice status_key order_id in
      known ← gets (λ s, first_where (λ m, om_key m =s key) (messages (view s : outbox_db)));
      customer ← gets (λ s, get_row (o_customer_id o) (members (fl_loyalty s)));
      match known, customer with
      | None, Some c =>
          if negb (truthy (mb_phone c)) then mret tt else
          reply ← gets (build_tracking_reply o d);
          if status_key =s "near_door" then
            queue_text restaurant_id (mb_phone c) "Keep an eye on the door — our rider is just around the corner!" key
          else if status_key =s "cancelled" then
            queue_text restaurant_id (mb_phone c)
              ("We're sorry — your order #" +:+ order_number d +:+ " was cancelled by the restaurant 🙏 " +:+
               "You haven't been charged (cash on delivery). Send 'hi' whenever you'd like to order again 😊") key
          else if status_key =s "picked_up" then
            t ← ensure_tracking_session order_id;
            _ ← zoom FleetOutboxRaised (enqueue_message restaurant_id (mb_phone c) "cta_url"
                  [("body", JStr (reply +:+ String newline (String newline "Track your order live on the map below.")));
                   ("button_label", JStr "Track my order");
                   ("url", JStr (build_tracking_url (tracking_token t)))]%string key true true);
            mret tt
          else queue_text restaurant_id (mb_phone c) reply key
      | _, _ => mret tt
      end
  end.

Definition _TRACKER_LIVE_WINDOW_MIN : Z := 15.
Definition _rider_tracker_is_live (rider_id : Z) (s : fleet_db) : bool :=
  existsb (λ l, (rl_rider_id l =? rider_id) && (fl_now s - minutes _TRACKER_LIVE_WINDOW_MIN <=? rl_ts l))
    (rows (locations s)).

(** ** Assigning riders ([service.py]) *)

(** Orders of a rider that are on their way. *)
Definition live_statuses : list OrderStatus := [ASSIGNED; PICKED_UP; ARRIVING].
Definition rides (rider_id : Z) (s : fleet_db) (o : OrderFsm.Order) : bool :=
  match get_row (o_id o) (deliveries s) with
  | Some d => bool_decide (dl_rider_id d = Some rider_id)
  | None => false
  end.
Definition live_orders (rider_id : Z) (s : fleet_db) : list OrderFsm.Order :=
  all_where (λ o, rides rider_id s o && bool_decide (o_status o ∈ live_statuses)) (fl_orders s).
Definition _active_order_count (rider_id : Z) (s : fleet_db) : Z := Z.of_nat (length (live_orders rider_id s)).

Definition ride_with (order_id : Z) (r : option Z) : FM unit :=
  modify (λ s, with_deliveries (map_rows (λ d, if dl_id d =? order_id then on_rider r d else d) (deliveries s)) s).
Definition set_rider_status_of (rider_id : Z) (st : rider_status) : FM unit :=
  modify (λ s, with_riders (map_rows (λ r, if ri_id r =? rider_id then rider_in st r else r) (riders s)) s).
Definition add_batch (restaurant_id rider_id : Z) (route : list (Z * point)) (total_est : option Z) : FM Z :=
  t ← gets batches;
  modify (with_batches (add_row {| ba_id := next_id t; ba_restaurant_id := restaurant_id; ba_rider_id := rider_id;
    ba_status := BPlanned; ba_route := route; ba_total_est_min := total_est |} t)) ≫= λ _,
  mret (next_id t).
(** A stop; an order has at most one. *)
Definition add_stop (batch_id order_id seq : Z) : FM unit :=
  taken ← gets (stop_of order_id);
  match taken with
  | Some _ => raise (StopTaken order_id)
  | None =>
      modify (λ s, with_stops (add_row {| bo_id := next_id (batch_orders s); bo_batch_id := batch_id;
        bo_order_id := order_id; bo_sequence := seq; bo_delivered_at := None |} (batch_orders s)) s)
  end.
Definition add_assignment (order_id rider_id batch_id now : Z) (score : assignment_score) : FM unit :=
  modify (λ s, with_assignments (add_row {| as_id := next_id (assignments s); as_order_id := order_id;
    as_rider_id := rider_id; as_batch_id := Some batch_id; as_assigned_at := now; algorithm_score := score |}
    (assignments s)) s).
Definition del_stop (bo : BatchOrder) : FM unit :=
  modify (λ s, with_stops (del_row (bo_id bo) (batch_orders s)) s).
(** A batch that lost its last stop is complete. *)
Definition close_if_empty (batch_id : Z) : FM unit :=
  remaining ← gets (stops_in batch_id);
  match remaining with
  | [] => modify (λ s, with_batches (map_rows (λ b, if ba_id b =? batch_id then batch_in BCompleted b else b)
                         (batches s)) s)
  | _ => mret tt
  end.

Definition rider_json (r : option Z) : jdict := [("rider_id", jopt_int r)]%string.

(** *** The route of one rider: [_commit_route] *)

Definition commit_stop (restaurant_id rider_id batch_id now : Z) (score : assignment_score)
    (stop : Z * (Z * point)) : FM unit :=
  let '(seq, (order_id, _)) := stop in
  found ← gets (both_halves order_id);
  match found with
  | None => raise (DeliveryNotFound order_id)
  | Some (o, d) =>
      let st := if bool_decide (o_status o = READY) then ASSIGNED else o_status o in
      assign_status order_id st ≫= λ _,
      ride_with order_id (Some rider_id) ≫= λ _,
      add_stop batch_id order_id seq ≫= λ _,
      add_assignment order_id rider_id batch_id now score ≫= λ _,
      _ ← audit "system" restaurant_id "order" (pretty order_id) "state_transition"
            (Some (status_json (o_status o) ++ rider_json (dl_rider_id d)))
            (Some (status_json st ++ rider_json (Some rider_id)));
      if bool_decide (st = ASSIGNED) then notify_partner order_id ASSIGNED else mret tt
  end.
Definition numbered {A} (l : list A) : list (Z * A) := imap (λ i x, (Z.of_nat i + 1, x)) l.

Definition _commit_route (restaurant_id : Z) (rider : Rider) (stops : list (Z * point)) (total_est : Z)
    (score : assignment_score) (now : Z) : FM Z :=
  batch_id ← add_batch restaurant_id (ri_id rider) stops (Some total_est);
  for_each (commit_stop restaurant_id (ri_id rider) batch_id now score) (numbered stops) ≫= λ _,
  set_rider_status_of (ri_id rider) OnDelivery ≫= λ _,
  notify_rider_assigned rider (Z.of_nat (length stops)) ≫= λ _,
  mret (Z.of_nat (length stops)).

(** *** Releasing a cancelled order *)

Definition release_order_from_dispatch (order_id : Z) (actor : string) : FM bool :=
  found ← gets (both_halves order_id);
  match found with
  | None => mret false
  | Some (o, d) =>
      bo ← gets (stop_of order_id);
      let rider_id := dl_rider_id d in
      if bool_decide (bo = None) && bool_decide (rider_id = None) then mret false else
      match bo with Some b => del_stop b | None => mret tt end ≫= λ _,
      stop_tracking_session order_id TRACKING_STOPPED ≫= λ _,
      match rider_id with
      | None => mret tt
      | Some rid =>
          rider ← gets (λ s, get_row rid (riders s));
          match rider with
          | None => mret tt
          | Some r =>
              live ← gets (λ s, List.filter (λ x, negb (o_id x =? order_id)) (live_orders rid s));
              (if bool_decide (live = []) && negb (bool_decide (ri_status r = Deactivated))
               then set_rider_status_of rid Available else mret tt) ≫= λ _,
              notify_rider_cancelled r (order_number d)
          end
      end ≫= λ _,
      match bo with Some b => close_if_empty (bo_batch_id b) | None => mret tt end ≫= λ _,
      ride_with order_id None ≫= λ _,
      _ ← audit actor (o_restaurant_id o) "order" (pretty order_id) "released_from_dispatch"
            (Some (rider_json rider_id)) (Some (rider_json None));
      mret true
  end.

(** *** The manager's assignments *)

(** Who may be given an order. *)
Definition refuse_rider (restaurant_id : Z) (rider : option Rider) : option fleet_error :=
  match rider with
  | None => Some RiderNotFound
  | Some r =>
      if negb (ri_restaurant_id r =? restaurant_id) then Some RiderNotFound else
      if bool_decide (ri_status r = Deactivated) then Some RiderIsDeactivated else
      if bool_decide (device_token r = None) then Some RiderUnpaired else
      if negb (on_duty r) then Some RiderOffDuty else None
  end.

Definition free_if_idle (rider_id : Z) : FM unit :=
  rider ← gets (λ s, get_row rider_id (riders s));
  match rider with
  | None => mret tt
  | Some r =>
      if bool_decide (ri_status r = Deactivated) then mret tt else
      live ← gets (live_orders rider_id);
      if bool_decide (live = []) then set_rider_status_of rider_id Available else mret tt
  end.

Definition reassign_order (restaurant_id order_id new_rider_id : Z) (actor : string) : FM unit :=
  found ← gets (both_halves order_id);
  match found with
  | None => raise (DeliveryNotFound order_id)
  | Some (o, d) =>
      if negb (o_restaurant_id o =? restaurant_id) then raise (DeliveryNotFound order_id) else
      if negb (bool_decide (o_status o = ASSIGNED)) then raise (NotReassignable (o_status o)) else
      new_rider ← gets (λ s, get_row new_rider_id (riders s));
      match refuse_rider restaurant_id new_rider, new_rider with
      | Some e, _ => raise e
      | None, None => raise RiderNotFound
      | None, Some nr =>
          let old_rider_id := dl_rider_id d in
          if bool_decide (old_rider_id = Some new_rider_id) then raise AlreadyWithRider else
          bo ← gets (stop_of order_id);
          match bo with Some b => del_stop b | None => mret tt end ≫= λ _,
          batch_id ← add_batch restaurant_id new_rider_id [] None;
          add_stop batch_id order_id 1 ≫= λ _,
          ride_with order_id (Some new_rider_id) ≫= λ _,
          now ← gets fl_now;
          add_assignment order_id new_rider_id batch_id now (ManualReassign old_rider_id actor) ≫= λ _,
          _ ← audit actor restaurant_id "order" (pretty order_id) "reassigned" (Some (rider_json old_rider_id))
                (Some (rider_json (Some new_rider_id) ++ [("previous_rider_id", jopt_int old_rider_id)]%string));
          set_rider_status_of new_rider_id OnDelivery ≫= λ _,
          match old_rider_id with
          | Some old => if old =? 0 then mret tt else free_if_idle old
          | None => mret tt
          end ≫= λ _,
          match bo with Some b => close_if_empty (bo_batch_id b) | None => mret tt end ≫= λ _,
          notify_rider_assigned nr 1 ≫= λ _,
          call_outside (PreviewDropped restaurant_id)
      end
  end.

Definition assignable_statuses : list OrderStatus := [READY; PREPARING; CONFIRMED].
Definition assign_order (restaurant_id order_id rider_id : Z) (actor : string) : FM unit :=
  found ← gets (both_halves order_id);
  match found with
  | None => raise (DeliveryNotFound order_id)
  | Some (o, d) =>
      if negb (o_restaurant_id o =? restaurant_id) then raise (DeliveryNotFound order_id) else
      if negb (bool_decide (dl_rider_id d = None)) || bool_decide (o_status o = ASSIGNED)
      then reassign_order restaurant_id order_id rider_id actor else
      if negb (bool_decide (o_status o ∈ assignable_statuses)) then raise (NotAssignable (o_status o)) else
      rider ← gets (λ s, get_row rider_id (riders s));
      match refuse_rider restaurant_id rider, rider with
      | Some e, _ => raise e
      | None, None => raise RiderNotFound
      | None, Some r =>
          batch_id ← add_batch restaurant_id rider_id [] None;
          add_stop batch_id order_id 1 ≫= λ _,
          zoom FleetFsmRaised (transition o ASSIGNED actor None) ≫= λ _,
          otp ← gets (λ s, default false (require_otp_on_deliver <$> get_row restaurant_id (branches s)));
          modify (λ s, with_deliveries (map_rows (λ x, if dl_id x =? order_id
            then requiring_otp otp (on_rider (Some rider_id) x) else x) (deliveries s)) s) ≫= λ _,
          now ← gets fl_now;
          add_assignment order_id rider_id batch_id now (ManualAssign actor) ≫= λ _,
          _ ← audit actor restaurant_id "order" (pretty order_id) "manual_assign"
                (Some (rider_json None ++ [("status", JStr "unassigned")]%string)) (Some (rider_json (Some rider_id)));
          set_rider_status_of rider_id OnDelivery ≫= λ _,
          notify_rider_assigned r 1 ≫= λ _,
          call_outside (PreviewDropped restaurant_id)
      end
  end.

(** ** The rider's actions ([rider_actions.py]) *)

Inductive PickupOutcome := PickedUpRun | NoBatchResend | NoBatchNone | NoStops.
Record PickupResult := {
  pr_outcome : PickupOutcome; pr_batch_id : option Z; pr_first_order : option Z; pr_resend_order : option Z;
}.
Definition by_sequence (l : list BatchOrder) : list BatchOrder :=
  sort_by (λ a b, bo_sequence a <=? bo_sequence b) l.
Definition newest_first (l : list Batch) : list Batch := sort_by (λ a b, ba_id b <=? ba_id a) l.

(** The batch named by the request when it is the rider's planned one, else the newest
    planned one. *)
Definition batch_to_pick (rider_id : Z) (batch_id : option Z) (s : fleet_db) : option Batch :=
  let named := i ← batch_id; if i =? 0 then None else get_row i (batches s) in
  let fallback := head (newest_first (all_where (λ b, (ba_rider_id b =? rider_id)
                    && bool_decide (ba_status b = BPlanned)) (batches s))) in
  match named with
  | Some b => if (ba_rider_id b =? rider_id) && bool_decide (ba_status b = BPlanned) then Some b else fallback
  | None => fallback
  end.
(** The open stop of a run that was picked up. *)
Definition stop_to_resend (rider_id : Z) (s : fleet_db) : option BatchOrder :=
  head (by_sequence (all_where (λ bo, negb (is_handled bo) &&
    match get_row (bo_batch_id bo) (batches s) with
    | Some b => (ba_rider_id b =? rider_id) && bool_decide (ba_status b = BPickedUp)
    | None => false
    end) (batch_orders s))).

Definition pick_up_stop (bo : BatchOrder) (first : option Z) : FM (option Z) :=
  found ← gets (both_halves (bo_order_id bo));
  match found with
  | None => mret first
  | Some _ =>
      advance_delivery (bo_order_id bo) PICKED_UP ≫= λ _,
      _ ← ensure_tracking_session (bo_order_id bo);
      mret (match first with None => Some (bo_order_id bo) | Some f => Some f end)
  end.

Definition mark_batch_picked_up (rider_id : Z) (batch_id : option Z) : FM PickupResult :=
  batch ← gets (batch_to_pick rider_id batch_id);
  match batch with
  | None =>
      bo ← gets (stop_to_resend rider_id);
      order ← gets (λ s, b ← bo; fst <$> both_halves (bo_order_id b) s);
      mret match order with
           | Some o => {| pr_outcome := NoBatchResend; pr_batch_id := None; pr_first_order := None;
                          pr_resend_order := Some (o_id o) |}
           | None => {| pr_outcome := NoBatchNone; pr_batch_id := None; pr_first_order := None;
                        pr_resend_order := None |}
           end
  | Some b =>
      set_batch (batch_in BPickedUp b) ≫= λ _,
      bos ← gets (λ s, by_sequence (stops_in (ba_id b) s));
      first ← for_fold pick_up_stop bos None;
      mret {| pr_outcome := match first with Some _ => PickedUpRun | None => NoStops end;
              pr_batch_id := Some (ba_id b); pr_first_order := first; pr_resend_order := None |}
  end.

Inductive StopOutcome := Delivered | NotLive | NotDelivered | InvalidStatus | Ignored.
Record StopResult := {
  sp_outcome : StopOutcome; sp_next_order : option Z; sp_batch_id : option Z; sp_batch_complete : bool;
}.
Definition plain_result (out : StopOutcome) : StopResult :=
  {| sp_outcome := out; sp_next_order := None; sp_batch_id := None; sp_batch_complete := false |}.

(** The dispatch engine, run again when a rider is freed. *)
Context (run_dispatch_engine : Z → FM unit).

(** What follows a stop that was closed: the next open one, or the end of the run. *)
Definition resolve_next (restaurant_id order_id : Z) (out : StopOutcome) : FM StopResult :=
  bo ← gets (stop_of order_id);
  match bo with
  | None => mret (plain_result out)
  | Some b =>
      remaining ← gets (λ s, by_sequence (List.filter (λ x, negb (is_handled x)) (stops_in (bo_batch_id b) s)));
      match remaining with
      | nxt :: _ =>
          mret {| sp_outcome := out; sp_next_order := Some (bo_order_id nxt); sp_batch_id := Some (bo_batch_id b);
                  sp_batch_complete := false |}
      | [] =>
          best_effort (run_dispatch_engine restaurant_id) ≫= λ _,
          mret {| sp_outcome := out; sp_next_order := None; sp_batch_id := Some (bo_batch_id b);
                  sp_batch_complete := true |}
      end
  end.

Definition bill_due (order_id : Z) (s : fleet_db) : Z :=
  match get_row order_id (fst (fst (fl_bills s))) with Some b => cod_due_aed b | None => 0 end.
Definition absurd_cod (e : Empty_set) : fleet_error := match e with end.

Definition mark_order_delivered (restaurant_id rider_id order_id : Z) (cod_amount : option Z) : FM StopResult :=
  found ← gets (both_halves order_id);
  match found with
  | None => mret (plain_result Ignored)
  | Some (o, d) =>
      if negb (bool_decide (dl_rider_id d = Some rider_id)) then mret (plain_result Ignored) else
      live ← gets (_rider_tracker_is_live rider_id);
      if negb live then mret (plain_result NotLive) else
      (if bool_decide (o_status o = PICKED_UP) then advance_delivery order_id ARRIVING else mret tt) ≫= λ _,
      advance_delivery order_id DELIVERED ≫= λ _,
      _notify_customer_status restaurant_id order_id "delivered" ≫= λ _,
      due ← gets (bill_due order_id);
      _ ← zoom absurd_cod (record_collection restaurant_id order_id rider_id (default due cod_amount) None);
      resolve_next restaurant_id order_id Delivered
  end.

Definition mark_order_not_delivered (restaurant_id rider_id order_id : Z) (reason : string) : FM StopResult :=
  found ← gets (both_halves order_id);
  match found with
  | None => mret (plain_result Ignored)
  | Some (o, d) =>
      if negb (bool_decide (dl_rider_id d = Some rider_id)) then mret (plain_result Ignored) else
      if negb (bool_decide (o_status o ∈ [PICKED_UP; ARRIVING])) then mret (plain_result InvalidStatus) else
      let cleaned := strip (if truthy reason then reason else "customer_unreachable"%string) in
      set_delivery (with_failure (clean_reason cleaned) d) ≫= λ _,
      zoom FleetFsmRaised (transition o UNDELIVERABLE "rider" None) ≫= λ _,
      zoom FleetPayRaised (release_on_cancel order_id "system") ≫= λ _,
      stop_tracking_session order_id TRACKING_STOPPED ≫= λ _,
      _notify_customer_status restaurant_id order_id "undeliverable" ≫= λ _,
      now ← gets fl_now;
      _ ← stamp_batch_stop_handled order_id now;
      resolve_next restaurant_id order_id NotDelivered
  end.

(** ** Riders ([identity/service.py]) *)

Definition status_of_rider (st : rider_status) : jdict := [("status", JStr (rider_status_str st))]%string.

Definition set_rider_status (restaurant_id rider_id : Z) (st : rider_status) : FM bool :=
  rider ← gets (λ s, get_row rider_id (riders s));
  match rider with
  | None => mret false
  | Some r =>
      if negb (ri_restaurant_id r =? restaurant_id) then mret false else
      set_rider (rider_in st r) ≫= λ _,
      _ ← audit "manager" restaurant_id "rider" (pretty rider_id) "status_changed"
            (Some (status_of_rider (ri_status r))) (Some (status_of_rider st));
      mret true
  end.

Definition duty_json (r : Rider) : jdict :=
  (("on_duty", JBool (on_duty r)) :: status_of_rider (ri_status r))%string.
Definition set_rider_on_duty (restaurant_id rider_id : Z) (duty : bool) : FM bool :=
  rider ← gets (λ s, get_row rider_id (riders s));
  match rider with
  | None => mret false
  | Some r =>
      if negb (ri_restaurant_id r =? restaurant_id) then mret false else
      if bool_decide (ri_status r = Deactivated) then mret true else
      let r1 := with_duty duty r in
      let r2 := if duty && bool_decide (ri_status r = OffShift) then rider_in Available r1 else r1 in
      set_rider r2 ≫= λ _,
      _ ← audit "manager" restaurant_id "rider" (pretty rider_id) "duty_changed"
            (Some (duty_json r)) (Some (duty_json r2));
      mret true
  end.

Definition has_cash_records (rider_id : Z) (s : fleet_db) : bool :=
  existsb (λ c, cc_rider_id c =? rider_id) (rows (collections (fl_cod s))) ||
  existsb (λ r, rs_rider_id r =? rider_id) (rows (reconciliations (fl_cod s))).

(** An order on its way goes back to the pool. *)
Definition detached_status (st : OrderStatus) : OrderStatus :=
  if bool_decide (st ∈ live_statuses) then READY else st.
Definition detach_order (order_id : Z) : FM unit :=
  zoom FleetFsmRaised (modify (λ s, with_orders (map_rows (λ o,
    if o_id o =? order_id then with_status (detached_status (o_status o)) o else o) (orders s)) s)) ≫= λ _,
  ride_with order_id None.

Definition delete_rider (restaurant_id rider_id : Z) : FM bool :=
  rider ← gets (λ s, get_row rider_id (riders s));
  match rider with
  | None => mret false
  | Some r =>
      if negb (ri_restaurant_id r =? restaurant_id) then mret false else
      money ← gets (has_cash_records rider_id);
      if (money : bool) then raise RiderHasHistory else
      mine ← gets (λ s, all_where (λ d, bool_decide (dl_rider_id d = Some rider_id)) (deliveries s));
      for_each (λ d, detach_order (dl_id d)) mine ≫= λ _,
      modify (λ s, with_locations (del_where (λ l, rl_rider_id l =? rider_id) (locations s)) s) ≫= λ _,
      modify (λ s, with_assignments (del_where (λ a, as_rider_id a =? rider_id) (assignments s)) s) ≫= λ _,
      ids ← gets (λ s, ba_id <$> all_where (λ b, ba_rider_id b =? rider_id) (batches s));
      modify (λ s, with_stops (del_where (λ b, bool_decide (bo_batch_id b ∈ ids)) (batch_orders s)) s) ≫= λ _,
      modify (λ s, with_batches (del_where (λ b, bool_decide (ba_id b ∈ ids)) (batches s)) s) ≫= λ _,
      _ ← audit "manager" restaurant_id "rider" (pretty rider_id) "deleted"
            (Some [("name", JStr (ri_name r)); ("phone", JStr (ri_phone r))]%string) None;
      tracked ← gets (λ s, existsb (λ t, ot_rider_id t =? rider_id) (rows (trackings s)));
      (if (tracked : bool) then raise RiderReferenced else mret tt) ≫= λ _,
      modify (λ s, with_riders (del_row rider_id (riders s)) s) ≫= λ _,
      mret true
  end.
End fleet.

#[global] Arguments clean_reason : simpl never.
#[global] Arguments status_notice : simpl never.
#[global] Arguments build_tracking_reply : simpl never.
