(* ===== verification/FleetFacts.v ===== *)
(** * Facts about riders and deliveries

    What holds of the fleet's tables over every history of requests; what a delivery
    does, from the door to the wallet; what a reassignment does; and where the code
    loses orders and riders. *)

From Stdlib Require Import SpecFloat.
From S2P Require Import Prelude Money Strings Db AuditTrail Clock Floats Wallet Coupons Ledger WalletLedger OrderFsm OrderFsmFacts OrderPayments Outbox Notify Loyalty LoyaltyFacts Cod Batching Scoring Fleet.

(** ** What holds of the tables *)

Definition closed_status (st : OrderStatus) : bool := bool_decide (st ∈ [DELIVERED; UNDELIVERABLE]).

Record fleet_inv (os : table OrderFsm.Order) (ds : table Delivery) (bs : table Batch) (ss : table BatchOrder) : Prop := {
  fi_batches : table_wf bs;
  fi_stops : table_wf ss;
  (** an order is in one run at most *)
  fi_once : unique_on bo_order_id ss;
  (** the rider of a stop's order is the rider of its batch *)
  fi_rider : ∀ b, b ∈ rows ss → ∃ ba d, get_row (bo_batch_id b) bs = Some ba ∧
    get_row (bo_order_id b) ds = Some d ∧ dl_rider_id d = Some (ba_rider_id ba);
  (** a handled stop's order is delivered or undeliverable *)
  fi_handled : ∀ b, b ∈ rows ss → is_handled b = true →
    ∃ o, get_row (bo_order_id b) os = Some o ∧ closed_status (o_status o) = true;
  (** a completed batch has no open stop *)
  fi_completed : ∀ b ba, b ∈ rows ss → get_row (bo_batch_id b) bs = Some ba → ba_status ba = BCompleted →
    is_handled b = true;
  (** an order that requires the code was delivered with it *)
  fi_code : ∀ i o d, get_row i os = Some o → get_row i ds = Some d → o_status o = DELIVERED →
    assert_otp_satisfied d = true;
  fi_orders : table_wf os;
  fi_deliveries : table_wf ds;
}.
Definition fleet_ok (s : fleet_db) : Prop := fleet_inv (fl_orders s) (deliveries s) (batches s) (batch_orders s).

Lemma elem_of_map_rows {R} `{Row R} (h : R → R) (t : table R) x : x ∈ rows (map_rows h t) ↔ ∃ r, r ∈ rows t ∧ x = h r.
Proof.
  unfold map_rows; cbn. rewrite list_elem_of_In, List.in_map_iff.
  split; intros (r & ? & ?); exists r; rewrite list_elem_of_In in *; auto.
Qed.

(** A write of a row that was loaded. *)
Lemma set_as_map {R} `{Row R} (g : R → R) (t : table R) i r :
  table_wf t → get_row i t = Some r → (∀ x, row_id (g x) = row_id x) →
  set_row (g r) t = map_rows (λ x, if row_id x =? i then g x else x) t.
Proof.
  intros Hwf [Hin <-]%get_row_Some Hid. pose proof (rows_set_row g r t Hwf Hid Hin) as Hrows.
  destruct t as [l n]. unfold map_rows, set_row in *. cbn in *. by rewrite Hrows.
Qed.

Section tables.
Context (os : table OrderFsm.Order) (ds : table Delivery) (bs : table Batch) (ss : table BatchOrder).
Context (Hinv : fleet_inv os ds bs ss).

(** A change of status: never away from the closed ones, and to delivered with the code. *)
Lemma inv_status i st o :
  get_row i os = Some o →
  closed_status (o_status o) = false ∨ closed_status st = true ∧ st = o_status o →
  (st = DELIVERED → ∀ d, get_row i ds = Some d → assert_otp_satisfied d = true) →
  fleet_inv (map_rows (λ o, if o_id o =? i then with_status st o else o) os) ds bs ss.
Proof.
  intros Ho Hst Hcode. destruct Hinv as [Hb Hs Hu Hr Hh Hc Hk Hwo Hwd].
  assert (Hg : ∀ j, get_row j (map_rows (λ o, if o_id o =? i then with_status st o else o) os) =
    (λ o, if o_id o =? i then with_status st o else o) <$> get_row j os).
  { intros j. apply get_map_rows. intros x. by destruct (o_id x =? i). }
  split; try done.
  - intros b Hin Hhd. destruct (Hh b Hin Hhd) as (o' & Hget & Hcl). rewrite Hg, Hget. eexists. split; [reflexivity|].
    destruct (o_id o' =? i) eqn:Hi; [|done]. cbn. zbool.
    pose proof Hget as [_ Hid]%get_row_Some. change (row_id o') with (o_id o') in Hid.
    assert (o' = o) as -> by (rewrite <-Hid, Hi, Ho in Hget; congruence).
    destruct Hst as [Hf|[Ht _]]; congruence.
  - intros j o' d. rewrite Hg. destruct (get_row j os) as [o1|] eqn:Ho1; [|done]. cbn. intros [= <-] Hd Hdel.
    destruct (o_id o1 =? i) eqn:Hi; [|by apply (Hk j o1)]. cbn in Hdel. subst st. zbool.
    apply get_row_Some in Ho1 as [_ Hid]. change (row_id o1) with (o_id o1) in Hid. subst. by apply Hcode.
  - apply map_rows_wf; [|done]. intros x. by destruct (o_id x =? i).
Qed.

(** A change of a delivery's columns that keeps its stop's rider and its code. *)
Lemma inv_delivery i (h : Delivery → Delivery) :
  (∀ d, dl_id (h d) = dl_id d) →
  (∀ d b ba, get_row i ds = Some d → b ∈ rows ss → bo_order_id b = i → get_row (bo_batch_id b) bs = Some ba →
    dl_rider_id d = Some (ba_rider_id ba) → dl_rider_id (h d) = Some (ba_rider_id ba)) →
  (∀ d o, get_row i ds = Some d → get_row i os = Some o → o_status o = DELIVERED →
    assert_otp_satisfied d = true → assert_otp_satisfied (h d) = true) →
  fleet_inv os (map_rows (λ d, if dl_id d =? i then h d else d) ds) bs ss.
Proof.
  intros Hid Hrider Hcode. destruct Hinv as [Hb Hs Hu Hr Hh Hc Hk Hwo Hwd].
  assert (Hg : ∀ j, get_row j (map_rows (λ d, if dl_id d =? i then h d else d) ds) =
    (λ d, if dl_id d =? i then h d else d) <$> get_row j ds).
  { intros j. apply get_map_rows. intros x. destruct (dl_id x =? i); [apply Hid|done]. }
  split; try done.
  - intros b Hin. destruct (Hr b Hin) as (ba & d & Hba & Hd & Heq). exists ba. rewrite Hg, Hd. eexists.
    split_and!; [done|reflexivity|]. destruct (dl_id d =? i) eqn:Hi; [|done]. zbool.
    pose proof Hd as [_ Hdi]%get_row_Some. change (row_id d) with (dl_id d) in Hdi.
    apply (Hrider d b ba); congruence.
  - intros j o d. rewrite Hg. destruct (get_row j ds) as [d0|] eqn:Hd0; [|done]. cbn. intros Ho [= <-] Hdel.
    destruct (dl_id d0 =? i) eqn:Hi; [|by apply (Hk j o)]. zbool.
    pose proof Hd0 as [_ Hdi]%get_row_Some. change (row_id d0) with (dl_id d0) in Hdi.
    assert (j = i) as -> by congruence. apply (Hcode d0 o); [done..|]. by apply (Hk i o).
  - apply map_rows_wf; [|done]. intros x. destruct (dl_id x =? i); [apply Hid|done].
Qed.

Lemma inv_add_batch b : ba_id b = next_id bs → ba_status b ≠ BCompleted → fleet_inv os ds (add_row b bs) ss.
Proof.
  intros Hid Hst. destruct Hinv as [Hb Hs Hu Hr Hh Hc Hk Hwo Hwd].
  assert (Hold : ∀ i ba, get_row i bs = Some ba → get_row i (add_row b bs) = Some ba).
  { intros i ba Hg. rewrite get_row_add_ne; [done|]. pose proof Hg as [Hin Hi]%get_row_Some.
    apply (wf_fresh _ Hb) in Hin. change (row_id b) with (ba_id b). lia. }
  split; try done.
  - by apply add_row_wf.
  - intros x Hx. destruct (Hr x Hx) as (ba & d & Hba & ?). exists ba, d. split; [by apply Hold|done].
  - intros x ba Hx Hg Hcomp. destruct (Hr x Hx) as (ba' & _ & Hba & _). apply (Hc x ba' Hx Hba).
    rewrite (Hold _ _ Hba) in Hg. congruence.
Qed.

Lemma inv_add_stop x ba d :
  bo_id x = next_id ss → (∀ b, b ∈ rows ss → bo_order_id b ≠ bo_order_id x) → is_handled x = false →
  get_row (bo_batch_id x) bs = Some ba → ba_status ba ≠ BCompleted →
  get_row (bo_order_id x) ds = Some d → dl_rider_id d = Some (ba_rider_id ba) →
  fleet_inv os ds bs (add_row x ss).
Proof.
  intros Hid Hfree Hopen Hba Hst Hd Hrd. destruct Hinv as [Hb Hs Hu Hr Hh Hc Hk Hwo Hwd]. split; try done.
  - by apply add_row_wf.
  - by apply add_row_unique.
  - intros b [Hin| ->]%elem_of_add_row; [by apply Hr|]. by exists ba, d.
  - intros b [Hin| ->]%elem_of_add_row Hhd; [by apply Hh|congruence].
  - intros b ba' [Hin| ->]%elem_of_add_row Hg Hcomp; [by apply (Hc b ba')|]. congruence.
Qed.

(** Stops that leave, whatever the reason. *)
Lemma inv_stops_leave ss' :
  table_wf ss' → (∀ b, b ∈ rows ss' → b ∈ rows ss) → fleet_inv os ds bs ss'.
Proof.
  intros Hwf Hsub. destruct Hinv as [Hb Hs Hu Hr Hh Hc Hk Hwo Hwd]. split; try done.
  - intros b1 b2 H1 H2. apply Hu; by apply Hsub.
  - intros b Hin. by apply Hr, Hsub.
  - intros b Hin. by apply Hh, Hsub.
  - intros b ba Hin. by apply Hc, Hsub.
Qed.

Lemma inv_handle now x o :
  x ∈ rows ss → get_row (bo_order_id x) os = Some o → closed_status (o_status o) = true →
  fleet_inv os ds bs (set_row (handled_at now x) ss).
Proof.
  intros Hx Ho Hcl. destruct Hinv as [Hb Hs Hu Hr Hh Hc Hk Hwo Hwd]. split; try done.
  - by apply set_row_wf.
  - intros b1 b2 [[-> _]|[H1 N1]]%elem_of_set_row [[-> _]|[H2 N2]]%elem_of_set_row Heq; cbn in *; try done.
    + destruct N2. by rewrite (Hu x b2).
    + destruct N1. by rewrite (Hu b1 x).
    + by apply Hu.
  - intros b [[-> _]|[Hin _]]%elem_of_set_row; [|by apply Hr]. apply (Hr x Hx).
  - intros b [[-> _]|[Hin _]]%elem_of_set_row Hhd; [|by apply Hh]. by exists o.
  - intros b ba [[-> _]|[Hin _]]%elem_of_set_row Hg Hcomp; [done|by apply (Hc b ba)].
Qed.

(** A batch that changes its status, completed only without open stops. *)
Lemma inv_batch_status i st :
  (st = BCompleted → ∀ b, b ∈ rows ss → bo_batch_id b = i → is_handled b = true) →
  fleet_inv os ds (map_rows (λ b, if ba_id b =? i then batch_in st b else b) bs) ss.
Proof.
  intros Hst. destruct Hinv as [Hb Hs Hu Hr Hh Hc Hk Hwo Hwd].
  assert (Hid : ∀ b, row_id (if ba_id b =? i then batch_in st b else b) = row_id b).
  { intros b. by destruct (ba_id b =? i). }
  assert (Hg : ∀ j, get_row j (map_rows (λ b, if ba_id b =? i then batch_in st b else b) bs) =
    (λ b, if ba_id b =? i then batch_in st b else b) <$> get_row j bs) by (intros j; by apply get_map_rows).
  split; try done.
  - by apply map_rows_wf.
  - intros b Hin. destruct (Hr b Hin) as (ba & d & Hba & Hd & Heq). rewrite Hg, Hba. eexists _, d.
    split_and!; [reflexivity|done|]. by destruct (ba_id ba =? i).
  - intros b ba Hin. rewrite Hg. destruct (get_row (bo_batch_id b) bs) as [b0|] eqn:Hb0; [|done].
    cbn. intros [= <-] Hcomp. destruct (ba_id b0 =? i) eqn:Hi; [|by apply (Hc b b0)]. zbool.
    pose proof Hb0 as [_ Hbi]%get_row_Some. change (row_id b0) with (ba_id b0) in Hbi.
    apply Hst; [exact Hcomp|done|congruence].
Qed.

(** Batches that leave with all their stops. *)
Lemma inv_batches_leave bs' :
  table_wf bs' → (∀ b, b ∈ rows bs' → b ∈ rows bs) →
  (∀ x ba, x ∈ rows ss → get_row (bo_batch_id x) bs = Some ba → ba ∈ rows bs') →
  fleet_inv os ds bs' ss.
Proof.
  intros Hwf Hsub Hkeep. destruct Hinv as [Hb Hs Hu Hr Hh Hc Hk Hwo Hwd].
  assert (Hg : ∀ x ba, x ∈ rows ss → get_row (bo_batch_id x) bs = Some ba → get_row (bo_batch_id x) bs' = Some ba).
  { intros x ba Hx Hba. pose proof (Hkeep x ba Hx Hba) as Hin. pose proof Hba as [_ Hi]%get_row_Some.
    rewrite <-Hi. by apply get_row_wf. }
  split; try done.
  - intros x Hx. destruct (Hr x Hx) as (ba & d & Hba & ?). exists ba, d. split; [by apply Hg|done].
  - intros x ba Hx Hba Hcomp. destruct (Hr x Hx) as (ba' & d & Hba' & _). apply (Hc x ba'); [done..|].
    rewrite (Hg x ba' Hx Hba') in Hba. congruence.
Qed.
End tables.

(** ** Calls that leave the tables of the fleet alone *)

(** The loyalty programme reads the orders and never writes them. *)
Section loyalty_reads.
Context (f : fsm_db).
Definition orders_are (l : loyalty_db) : Prop := lo_fsm l = f.
Lemma orders_zoom_wallet {A} (m : W A) : preserves orders_are (zoom LoyaltyWalletRaised m).
Proof. intros s Hs. unfold zoom. by destruct (m (view s)). Qed.
Lemma orders_zoom_coupons {A} (m : M coupon_db coupon_error A) : preserves orders_are (zoom LoyaltyCouponRaised m).
Proof. intros s Hs. unfold zoom. by destruct (m (view s)). Qed.
Lemma orders_zoom_notify {A} (m : NM A) : preserves orders_are (zoom LoyaltyNotifyRaised m).
Proof. intros s Hs. unfold zoom. by destruct (m (view s)). Qed.
Lemma orders_audit actor rid entity eid action b a :
  preserves orders_are (audit (E := loyalty_error) actor rid entity eid action b a).
Proof. by intros s. Qed.
Lemma orders_for_fold {A B} (g : A → B → LM B) l : ∀ b,
  (∀ a b, preserves orders_are (g a b)) → preserves orders_are (for_fold g l b).
Proof.
  induction l as [|x l IH]; intros b Hf; cbn; [apply preserves_ret|].
  apply preserves_bind; [apply Hf|]. intros b'. by apply IH.
Qed.
Create HintDb reads discriminated.
#[local] Hint Resolve preserves_ret preserves_raise preserves_gets orders_zoom_wallet orders_zoom_coupons
  orders_zoom_notify orders_audit : reads.
#[local] Hint Extern 4 (preserves orders_are (modify _)) => (by intros s) : reads.
Ltac only_reads :=
  repeat first
    [ solve [eauto 2 with reads]
    | apply preserves_bind; [|intros ?]
    | apply preserves_for_each; intros ? _
    | apply orders_for_fold; intros ? ?
    | match goal with
      | |- preserves _ (if ?b then _ else _) => destruct b eqn:?
      | |- preserves _ (match ?x with _ => _ end) => destruct x eqn:?
      end ].
Lemma hooks_only_read tokens eo cid st :
  preserves orders_are (_ ← earn eo st; _ ← recompute_tier tokens cid st true;
                        _ ← maybe_issue_recurring_reward tokens cid st true; on_delivery_crm_hooks eo cid st).
Proof.
  unfold earn, recompute_tier, maybe_issue_recurring_reward, on_delivery_crm_hooks, add_stamp, award_loyalty_points,
    refresh_favorites, get_or_create_stamp_card, update_card, update_member, the_member, _issue_tier_reward, mint_coupon,
    _notify_tier_up. only_reads.
Qed.
End loyalty_reads.

Definition same_fleet (s0 s : fleet_db) : Prop :=
  fl_orders s = fl_orders s0 ∧ deliveries s = deliveries s0 ∧ batches s = batches s0 ∧ batch_orders s = batch_orders s0.
Lemma same_fleet_ok s0 s : same_fleet s0 s → fleet_ok s0 → fleet_ok s.
Proof. unfold fleet_ok. by intros (-> & -> & -> & ->). Qed.

Section quiet.
Context (s0 : fleet_db).
Abbreviation quiet m := (preserves (same_fleet s0) m).

Lemma quiet_modify (f : fleet_db → fleet_db) :
  (∀ s, fl_orders (f s) = fl_orders s ∧ deliveries (f s) = deliveries s ∧ batches (f s) = batches s ∧
        batch_orders (f s) = batch_orders s) → quiet (modify (E := fleet_error) f).
Proof.
  intros Hf. apply preserves_modify. intros s (H1 & H2 & H3 & H4). destruct (Hf s) as (E1 & E2 & E3 & E4).
  unfold same_fleet. by rewrite <-H1, <-H2, <-H3, <-H4.
Qed.
Lemma quiet_pay {A} (m : M (pay_db (W := wallet_db)) (pay_error (E := wallet_error)) A) :
  quiet (zoom FleetPayRaised m).
Proof. intros s Hs. unfold zoom. by destruct (m (view s)). Qed.
Lemma quiet_outbox {A} (m : M outbox_db outbox_error A) : quiet (zoom FleetOutboxRaised m).
Proof. intros s Hs. unfold zoom. by destruct (m (view s)). Qed.
Lemma quiet_cod {A} (m : M cod_db Empty_set A) : quiet (zoom absurd_cod m).
Proof. intros s Hs. unfold zoom. by destruct (m (view s)). Qed.
Lemma fleet_quiet_audit actor rid entity eid action b a :
  quiet (audit (E := fleet_error) actor rid entity eid action b a).
Proof. by intros s. Qed.
Lemma quiet_stats cid : quiet (zoom FleetFsmRaised (recompute_customer_stats cid)).
Proof. intros s Hs. unfold zoom. rewrite recompute_run. exact Hs. Qed.
Lemma quiet_best_effort m : quiet m → quiet (best_effort m).
Proof.
  intros Hm s Hs. specialize (Hm s Hs). unfold best_effort, try_except. destruct (m s) as [a s'|e s']; [done|].
  by destruct (session_lost e).
Qed.

Create HintDb quiet discriminated.
#[local] Hint Resolve preserves_ret preserves_raise preserves_gets quiet_pay quiet_outbox quiet_cod fleet_quiet_audit
  quiet_stats : quiet.
#[local] Hint Extern 4 (preserves _ (modify _)) => (apply quiet_modify; by intros) : quiet.
Ltac be_quiet :=
  repeat first
    [ solve [eauto 2 with quiet]
    | apply preserves_bind; [|intros ?]
    | match goal with
      | |- preserves _ (if ?b then _ else _) => destruct b eqn:?
      | |- preserves _ (match ?x with _ => _ end) => destruct x eqn:?
      end ].

Context (tokens : Z → nat → string) (token_urlsafe : Z → string) (geo : tracking_geo) (url : string).
Lemma quiet_ensure oid : quiet (ensure_tracking_session token_urlsafe oid).
Proof. unfold ensure_tracking_session, draw, set_tracking. be_quiet. Qed.
Lemma quiet_stop oid reason : quiet (stop_tracking_session oid reason).
Proof. unfold stop_tracking_session, set_tracking. be_quiet. Qed.
Lemma quiet_push r t b : quiet (push_to r t b).
Proof. unfold push_to, call_outside. be_quiet. Qed.
Lemma quiet_partner oid st : quiet (notify_partner oid st).
Proof. unfold notify_partner, call_outside. be_quiet. Qed.
#[local] Hint Resolve quiet_ensure quiet_stop quiet_push quiet_partner : quiet.
Lemma quiet_notice rid oid key : quiet (_notify_customer_status token_urlsafe geo url rid oid key).
Proof. unfold _notify_customer_status, queue_text. be_quiet. Qed.
Lemma quiet_rider r st : quiet (set_rider_status_of r st).
Proof. unfold set_rider_status_of. be_quiet. Qed.
Lemma quiet_idle r : quiet (free_if_idle r).
Proof. unfold free_if_idle, set_rider_status_of. be_quiet. Qed.
Lemma quiet_loyalty o : quiet (loyalty_never_blocks tokens o).
Proof.
  unfold loyalty_never_blocks. apply quiet_best_effort. unfold loyalty_hooks.
  do 3 (apply preserves_bind; [apply preserves_gets|intros ?]).
  destruct a as [br|], a0 as [c|]; [|apply preserves_ret..]. cbv zeta.
  intros s Hs. unfold zoom. cbn [view fleet_loyalty_lens].
  match goal with |- context [match ?m (fl_loyalty s) with _ => _ end] =>
    pose proof (hooks_only_read (lo_fsm (fl_loyalty s)) tokens
      {| eo_id := o_id o; eo_restaurant_id := o_restaurant_id o; eo_customer_id := o_customer_id o; eo_subtotal := a1 |}
      (mb_id c) (br_loyalty br) (fl_loyalty s) eq_refl) as Hf; set (r := m (fl_loyalty s)) in * end.
  destruct Hs as (H1 & H2 & H3 & H4).
  destruct r as [x l|x l]; cbn in *; unfold orders_are in Hf; (split_and!; [|done..]);
    unfold fl_orders in *; cbn; by rewrite Hf.
Qed.
End quiet.

Lemma ret_run {S E A} (a b : A) (s s' : S) : mret (M := M S E) a s = Ok b s' → b = a ∧ s' = s.
Proof. by intros [= -> ->]. Qed.
Lemma same_fleet_refl s : same_fleet s s.
Proof. done. Qed.
Lemma quiet_run {A} (m : FM A) s a s' : preserves (same_fleet s) m → m s = Ok a s' → same_fleet s s'.
Proof. intros Hm Hrun. specialize (Hm s (same_fleet_refl s)). by rewrite Hrun in Hm. Qed.

(** ** Closing a stop *)

Lemma stop_of_Some oid s b : stop_of oid s = Some b → b ∈ rows (batch_orders s) ∧ bo_order_id b = oid.
Proof. intros [Hin Hb]%first_where_Some. by zbool. Qed.
Lemma stop_of_None oid s b : stop_of oid s = None → b ∈ rows (batch_orders s) → bo_order_id b ≠ oid.
Proof. intros Hn Hin. unfold stop_of in Hn. rewrite first_where_None in Hn. specialize (Hn b Hin). by zbool. Qed.
Lemma elem_of_stops_in i s b : b ∈ stops_in i s ↔ b ∈ rows (batch_orders s) ∧ bo_batch_id b = i.
Proof. unfold stops_in. rewrite elem_of_all_where. rewrite Z.eqb_eq. done. Qed.

(** The stop as it is left, and the batch and its rider when it was the last one. *)
Definition after_stop (oid now : Z) (s s' : fleet_db) : Prop :=
  match stop_of oid s with
  | None => s' = s
  | Some bo =>
      let s1 := with_stops (set_row (handled_at now bo) (batch_orders s)) s in
      if forallb is_handled (stops_in (bo_batch_id bo) s1) then
        match get_row (bo_batch_id bo) (batches s) with
        | None => s' = s1
        | Some b =>
            let s2 := with_batches (set_row (batch_in BCompleted b) (batches s)) s1 in
            match get_row (ba_rider_id b) (riders s) with
            | Some r => s' = with_riders (set_row (rider_in Available r) (riders s)) s2
            | None => s' = s2
            end
        end
      else s' = s1
  end.
Lemma stamp_run oid now s :
  ∃ s', stamp_batch_stop_handled oid now s = Ok (bo_batch_id <$> stop_of oid s) s' ∧ after_stop oid now s s'.
Proof.
  unfold stamp_batch_stop_handled, after_stop. erewrite bind_run_Ok by reflexivity. cbv beta.
  destruct (stop_of oid s) as [bo|] eqn:Hb; [|by eexists]. do 2 (erewrite bind_run_Ok by reflexivity; cbv beta).
  set (s1 := with_stops _ s). unfold mbind at 1, M_bind at 1.
  destruct (forallb is_handled _); [|by eexists]. erewrite bind_run_Ok by reflexivity. cbv beta.
  change (batches s1) with (batches s). destruct (get_row _ (batches s)) as [b|]; [|by eexists].
  do 2 (erewrite bind_run_Ok by reflexivity; cbv beta).
  change (riders _) with (riders s). destruct (get_row _ (riders s)); by eexists.
Qed.

Lemma after_stop_ok oid now s s' o :
  get_row oid (fl_orders s) = Some o → closed_status (o_status o) = true →
  after_stop oid now s s' → fleet_ok s →
  fleet_ok s' ∧ fl_orders s' = fl_orders s ∧ deliveries s' = deliveries s.
Proof.
  intros Ho Hcl Hrun Hok. unfold after_stop in Hrun. destruct (stop_of oid s) as [bo|] eqn:Hb; [|by subst].
  apply stop_of_Some in Hb as [Hin Hoid]. set (s1 := with_stops _ s) in Hrun.
  assert (Hok1 : fleet_ok s1).
  { unfold fleet_ok; cbn. apply (inv_handle _ _ _ _ Hok now bo o); [done| |done]. congruence. }
  destruct (forallb is_handled _) eqn:Hall; [|by subst].
  destruct (get_row (bo_batch_id bo) (batches s)) as [b|] eqn:Hba; [|by subst].
  set (s2 := with_batches _ s1) in Hrun.
  assert (Hok2 : fleet_ok s2).
  { unfold fleet_ok; cbn.
    rewrite (set_as_map (batch_in BCompleted) (batches s) (bo_batch_id bo) b); [|by destruct Hok|done|done].
    apply (inv_batch_status _ _ _ _ Hok1). intros _ x Hx Hxb. rewrite forallb_forall in Hall.
    apply Hall, list_elem_of_In, elem_of_stops_in. split; [exact Hx|congruence]. }
  destruct (get_row (ba_rider_id b) (riders s)); by subst.
Qed.

(** ** A step of a delivery *)

Lemma both_halves_Some oid s o d :
  both_halves oid s = Some (o, d) → get_row oid (fl_orders s) = Some o ∧ get_row oid (deliveries s) = Some d.
Proof. unfold both_halves. destruct (get_row _ _); [|done]. destruct (get_row _ (deliveries s)); [|done]. by intros [= -> ->]. Qed.
Lemma both_halves_intro oid s o d :
  get_row oid (fl_orders s) = Some o → get_row oid (deliveries s) = Some d → both_halves oid s = Some (o, d).
Proof. unfold both_halves. by intros -> ->. Qed.

(** The session after the status was written. *)
Definition restatus (oid : Z) (st : OrderStatus) (s : fleet_db) : fleet_db :=
  put (Lens := fleet_fsm_lens) (with_orders (map_rows (λ o, if o_id o =? oid then with_status st o else o) (fl_orders s))
        (lo_fsm (fl_loyalty s))) s.
Lemma assign_status_run oid st s : assign_status oid st s = Ok tt (restatus oid st s).
Proof. reflexivity. Qed.
Lemma get_restatus oid st s o :
  get_row oid (fl_orders s) = Some o → get_row oid (fl_orders (restatus oid st s)) = Some (with_status st o).
Proof.
  intros Ho. unfold restatus, fl_orders; cbn. rewrite get_map_rows by (intros r; by destruct (o_id r =? oid)).
  unfold fl_orders in Ho. rewrite Ho. cbn. apply get_row_Some in Ho as [_ Hid]. change (row_id o) with (o_id o) in Hid.
  by rewrite Hid, Z.eqb_refl.
Qed.
Lemma next_is_delivery st st' : st' ∈ _DELIVERY_FSM st → closed_status st = false ∧ (st' = DELIVERED → st = ARRIVING).
Proof. destruct st; cbn; intros Hin; try (by apply elem_of_nil in Hin); apply list_elem_of_singleton in Hin as ->; done. Qed.
Lemma restatus_ok oid st s o d :
  both_halves oid s = Some (o, d) → closed_status (o_status o) = false →
  (st = DELIVERED → assert_otp_satisfied d = true) → fleet_ok s → fleet_ok (restatus oid st s).
Proof.
  intros [Ho Hd]%both_halves_Some Hcl Hcode Hok.
  apply (inv_status _ _ _ _ Hok oid st o); [done|by left|]. intros Hst d'. rewrite Hd. intros [= <-]. by apply Hcode.
Qed.

Section steps.
Context (tokens : Z → nat → string) (randbelow : Z → Z) (token_urlsafe : Z → string).
Context (geo : tracking_geo) (url : string) (redispatch : Z → FM unit).

Lemma generate_keeps oid s s' :
  generate_delivery_otp randbelow oid s = Ok tt s' → fleet_ok s →
  (∀ o, get_row oid (fl_orders s) = Some o → o_status o ≠ DELIVERED) → fleet_ok s'.
Proof.
  unfold generate_delivery_otp, draw. intros Hrun Hok Hnd. inv_run. unfold fleet_ok; cbn.
  apply (inv_delivery _ _ _ _ Hok oid); [done|by intros d b ba _ _ _ _ ?|].
  intros d o Hd Ho Hst. by destruct (Hnd o Ho).
Qed.

Lemma deliver_effects_run oid now d s s' :
  deliver_effects oid now d s = Ok tt s' →
  ∃ s1 s2 p, after_stop oid now (with_deliveries (set_row (stamped now d) (deliveries s)) s) s1 ∧
    stop_tracking_session oid TRACKING_EXPIRED s1 = Ok tt s2 ∧
    capture_on_deliver oid "system" (view (Lens := fleet_pay_lens) s2) = Ok tt p ∧ s' = put p s2.
Proof.
  unfold deliver_effects, _complete_batch_order, set_delivery. intros Hrun.
  erewrite bind_run_Ok in Hrun by reflexivity. set (s0 := with_deliveries _ s) in *.
  destruct (stamp_run oid now s0) as (s1 & Hst & Haft).
  apply bind_Ok in Hrun as ([] & s1' & Hc & Hrun). apply bind_Ok in Hc as (r & s1'' & Hc & [= <-]).
  rewrite Hst in Hc. injection Hc as _ <-.
  apply bind_Ok in Hrun as ([] & s2 & Htr & Hrun). apply zoom_Ok in Hrun as (p & Hp & ->). by exists s1, s2, p.
Qed.

Lemma deliver_effects_keep oid now d o s s' :
  deliver_effects oid now d s = Ok tt s' → fleet_ok s →
  get_row oid (fl_orders s) = Some o → o_status o = DELIVERED → get_row oid (deliveries s) = Some d → fleet_ok s'.
Proof.
  intros (s1 & s2 & p & Haft & Htr & _ & ->)%deliver_effects_run Hok Ho Hst Hd.
  set (s0 := with_deliveries _ s) in Haft.
  assert (Hok0 : fleet_ok s0).
  { unfold fleet_ok; cbn. rewrite (set_as_map (stamped now) (deliveries s) oid d); [|by destruct Hok|done|done].
    apply (inv_delivery _ _ _ _ Hok); done. }
  destruct (after_stop_ok oid now s0 s1 o) as (Hok1 & _ & _); [done|by rewrite Hst|done|done|].
  apply (quiet_run _ _ _ _ (quiet_stop s1 oid _)) in Htr. by apply (same_fleet_ok _ _ Htr) in Hok1.
Qed.

Lemma advance_keeps oid st s s' :
  advance_delivery tokens randbelow oid st s = Ok tt s' → fleet_ok s → fleet_ok s'.
Proof.
  unfold advance_delivery. intros Hrun Hok. erewrite bind_run_Ok in Hrun by reflexivity. cbv beta in Hrun.
  destruct (both_halves oid s) as [[o d]|] eqn:Hb; [|done].
  case_bool_decide as Hst; [|done]. cbn [negb] in Hrun. apply next_is_delivery in Hst as [Hcl Har].
  destruct (bool_decide (st = DELIVERED) && negb (assert_otp_satisfied d)) eqn:Hotp; [done|].
  erewrite bind_run_Ok in Hrun by reflexivity. cbv beta in Hrun.
  rewrite (bind_run_Ok _ _ _ _ _ (assign_status_run oid st s)) in Hrun.
  pose proof (both_halves_Some _ _ _ _ Hb) as [Ho Hd]. pose proof (get_restatus _ st _ _ Ho) as Ho1.
  assert (Hok1 : fleet_ok (restatus oid st s)).
  { apply (restatus_ok oid st s o d); [done..| |done]. intros ->. by apply negb_false_iff in Hotp. }
  apply bind_Ok in Hrun as ([] & s2 & Hgen & Hrun).
  assert (Hok2 : fleet_ok s2 ∧ (st = DELIVERED → s2 = restatus oid st s)).
  { destruct (bool_decide (st = ARRIVING)) eqn:Hs; [|by apply ret_run in Hgen as [_ ->]]. zbool. split; [|by subst].
    apply (generate_keeps _ _ _ Hgen Hok1). intros o'. rewrite Ho1. intros [= <-]. by subst. }
  destruct Hok2 as [Hok2 Hsame]. apply bind_Ok in Hrun as ([] & s3 & Hdel & Hrun).
  assert (Hok3 : fleet_ok s3).
  { destruct (bool_decide (st = DELIVERED)) eqn:Hs; [|by apply ret_run in Hdel as [_ ->]]. zbool. specialize (Hsame Hs). subst s2.
    by apply (deliver_effects_keep _ _ _ _ _ _ Hdel Hok2 Ho1). }
  apply same_fleet_ok with s3; [|done]. revert Hrun. apply quiet_run.
  apply preserves_bind; [apply fleet_quiet_audit|intros _]. apply preserves_bind; [apply quiet_stats|intros _].
  apply preserves_bind; [|intros _; apply quiet_partner].
  case_bool_decide; [|apply preserves_ret]. apply preserves_bind; [apply quiet_loyalty|intros _]. by apply quiet_modify.
Qed.

(** ** Assigning *)

(** An order without a stop gets a rider and a stop in that rider's batch. *)
Lemma inv_join os ds bs ss oid (h : Delivery → Delivery) x ba d :
  fleet_inv os ds bs ss → (∀ b, b ∈ rows ss → bo_order_id b ≠ oid) →
  bo_id x = next_id ss → bo_order_id x = oid → is_handled x = false →
  get_row (bo_batch_id x) bs = Some ba → ba_status ba ≠ BCompleted →
  (∀ d, dl_id (h d) = dl_id d) → get_row oid ds = Some d → dl_rider_id (h d) = Some (ba_rider_id ba) →
  (∀ o, get_row oid os = Some o → o_status o = DELIVERED → assert_otp_satisfied d = true → assert_otp_satisfied (h d) = true) →
  fleet_inv os (map_rows (λ d, if dl_id d =? oid then h d else d) ds) bs (add_row x ss).
Proof.
  intros Hinv Hfree Hid Hx Hopen Hba Hst Hh Hd Hr Hcode.
  assert (Hinv' : fleet_inv os (map_rows (λ d, if dl_id d =? oid then h d else d) ds) bs ss).
  { apply (inv_delivery _ _ _ _ Hinv oid h Hh).
    - intros d' b ba' _ Hin Hb. by destruct (Hfree b Hin).
    - intros d' o Hd' Ho. assert (d' = d) as -> by congruence. by apply Hcode. }
  apply (inv_add_stop _ _ _ _ Hinv' x ba (h d)); [done|by rewrite Hx|done..| |done].
  rewrite get_map_rows by (intros r; destruct (dl_id r =? oid); [apply Hh|done]). rewrite Hx, Hd. cbn.
  pose proof Hd as [_ Hi]%get_row_Some. change (row_id d) with (dl_id d) in Hi. by rewrite Hi, Z.eqb_refl.
Qed.

Lemma ride_with_free os ds bs ss oid r :
  fleet_inv os ds bs ss → (∀ b, b ∈ rows ss → bo_order_id b ≠ oid) →
  fleet_inv os (map_rows (λ d, if dl_id d =? oid then on_rider r d else d) ds) bs ss.
Proof.
  intros Hinv Hfree. apply (inv_delivery _ _ _ _ Hinv); [done| |by intros d o _ _ _ ?].
  intros d b ba _ Hin Hb. by destruct (Hfree b Hin).
Qed.

Lemma stop_leaves s oid bo :
  fleet_ok s → stop_of oid s = Some bo →
  fleet_inv (fl_orders s) (deliveries s) (batches s) (del_row (bo_id bo) (batch_orders s)) ∧
  ∀ b, b ∈ rows (del_row (bo_id bo) (batch_orders s)) → bo_order_id b ≠ oid.
Proof.
  intros Hok [Hin Hoid]%stop_of_Some. split.
  - apply (inv_stops_leave _ _ _ _ Hok); [apply del_row_wf; by destruct Hok|]. by intros b [Hb _]%elem_of_del_row.
  - intros b [Hb Hne]%elem_of_del_row Hbo. apply Hne. by rewrite (fi_once _ _ _ _ Hok b bo Hb Hin) by congruence.
Qed.

(** Detaching the stop of an order, if it has one. *)
Lemma detach_run oid s :
  fleet_ok s → ∃ s1, match stop_of oid s with Some b => del_stop b | None => mret tt end s = Ok tt s1 ∧
    s1 = with_stops (batch_orders s1) s ∧ fleet_ok s1 ∧ ∀ b, b ∈ rows (batch_orders s1) → bo_order_id b ≠ oid.
Proof.
  intros Hok. destruct (stop_of oid s) as [bo|] eqn:Hb.
  - eexists. split; [reflexivity|]. cbn. destruct (stop_leaves _ _ _ Hok Hb). done.
  - exists s. split_and!; [done|by destruct s|done|]. intros b. by apply stop_of_None.
Qed.

Lemma close_if_empty_keeps i s s' :
  close_if_empty i s = Ok tt s' → fleet_ok s → fleet_ok s' ∧ batch_orders s' = batch_orders s.
Proof.
  unfold close_if_empty. intros Hrun Hok. erewrite bind_run_Ok in Hrun by reflexivity. cbv beta in Hrun.
  destruct (stops_in i s) as [|b l] eqn:Hs; [|by apply ret_run in Hrun as [_ ->]].
  injection Hrun as <-. split; [|done]. unfold fleet_ok; cbn. apply (inv_batch_status _ _ _ _ Hok).
  intros _ b Hin Hb. assert (b ∈ stops_in i s) as Hi by by apply elem_of_stops_in. rewrite Hs in Hi. by apply elem_of_nil in Hi.
Qed.

Lemma release_keeps oid actor s r s' :
  release_order_from_dispatch oid actor s = Ok r s' → fleet_ok s → fleet_ok s'.
Proof.
  unfold release_order_from_dispatch. intros Hrun Hok. erewrite bind_run_Ok in Hrun by reflexivity. cbv beta in Hrun.
  destruct (both_halves oid s) as [[o d]|]; [|by apply ret_run in Hrun as [_ ->]].
  erewrite bind_run_Ok in Hrun by reflexivity. cbv beta zeta in Hrun.
  destruct (_ && _); [by apply ret_run in Hrun as [_ ->]|].
  destruct (detach_run oid s Hok) as (s1 & Hdet & _ & Hok1 & Hfree). rewrite (bind_run_Ok _ _ _ _ _ Hdet) in Hrun.
  apply bind_Ok in Hrun as ([] & s2 & Htr & Hrun). apply (quiet_run _ _ _ _ (quiet_stop s1 oid _)) in Htr as Hq2.
  apply bind_Ok in Hrun as ([] & s3 & Hri & Hrun).
  assert (Hq3 : same_fleet s2 s3).
  { revert Hri. apply quiet_run. destruct (dl_rider_id d) as [ri|]; [|apply preserves_ret].
    apply preserves_bind; [apply preserves_gets|intros [rr|]; [|apply preserves_ret]].
    apply preserves_bind; [apply preserves_gets|intros live].
    apply preserves_bind; [|intros _; apply quiet_push]. destruct (_ && _); [apply quiet_rider|apply preserves_ret]. }
  assert (Hok3 : fleet_ok s3) by (apply (same_fleet_ok _ _ Hq3), (same_fleet_ok _ _ Hq2), Hok1).
  assert (Hfree3 : ∀ b, b ∈ rows (batch_orders s3) → bo_order_id b ≠ oid).
  { destruct Hq3 as (_ & _ & _ & ->), Hq2 as (_ & _ & _ & ->). done. }
  apply bind_Ok in Hrun as ([] & s4 & Hcl & Hrun).
  assert (Hok4 : fleet_ok s4 ∧ batch_orders s4 = batch_orders s3).
  { destruct (stop_of oid s); [by apply close_if_empty_keeps in Hcl|by apply ret_run in Hcl as [_ ->]]. }
  destruct Hok4 as [Hok4 Hst]. do 2 (erewrite bind_run_Ok in Hrun by reflexivity; cbv beta in Hrun).
  apply ret_run in Hrun as [_ ->].
  unfold fleet_ok; cbn. apply ride_with_free; [done|]. by rewrite Hst.
Qed.

Lemma add_stop_inv bid oid seq s s' :
  add_stop bid oid seq s = Ok tt s' →
  (∀ b, b ∈ rows (batch_orders s) → bo_order_id b ≠ oid) ∧
  s' = with_stops (add_row {| bo_id := next_id (batch_orders s); bo_batch_id := bid; bo_order_id := oid;
                              bo_sequence := seq; bo_delivered_at := None |} (batch_orders s)) s.
Proof.
  unfold add_stop. intros Hrun. erewrite bind_run_Ok in Hrun by reflexivity. cbv beta in Hrun.
  destruct (stop_of oid s) eqn:Hs; [done|]. injection Hrun as <-. split; [|done]. intros b. by apply stop_of_None.
Qed.

(** A fresh batch of one order for a rider. *)
Lemma place_keeps os ds bs ss oid (h : Delivery → Delivery) b x d :
  fleet_inv os ds bs ss → (∀ y, y ∈ rows ss → bo_order_id y ≠ oid) →
  ba_id b = next_id bs → ba_status b = BPlanned →
  bo_id x = next_id ss → bo_order_id x = oid → is_handled x = false → bo_batch_id x = next_id bs →
  (∀ d, dl_id (h d) = dl_id d) → get_row oid ds = Some d → dl_rider_id (h d) = Some (ba_rider_id b) →
  (∀ o, get_row oid os = Some o → o_status o ≠ DELIVERED) →
  fleet_inv os (map_rows (λ d, if dl_id d =? oid then h d else d) ds) (add_row b bs) (add_row x ss).
Proof.
  intros Hinv Hfree Hb Hst Hx Hox Hopen Hbx Hh Hd Hr Hnd.
  assert (Hinv' : fleet_inv os ds (add_row b bs) ss) by (apply inv_add_batch; [done..|by rewrite Hst]).
  apply (inv_join _ _ _ _ _ h x b d Hinv'); try done.
  - rewrite Hbx, <-Hb. apply (get_row_add b bs); [apply (fi_batches _ _ _ _ Hinv)|exact Hb].
  - by rewrite Hst.
  - intros o Ho Hdel. by destruct (Hnd o Ho).
Qed.

Lemma reassign_keeps rid oid new actor s s' :
  reassign_order rid oid new actor s = Ok tt s' → fleet_ok s → fleet_ok s'.
Proof.
  unfold reassign_order. intros Hrun Hok. erewrite bind_run_Ok in Hrun by reflexivity. cbv beta in Hrun.
  destruct (both_halves oid s) as [[o d]|] eqn:Hb; [|done]. destruct (negb _); [done|].
  destruct (negb (bool_decide (o_status o = ASSIGNED))) eqn:Hst; [done|]. zbool.
  erewrite bind_run_Ok in Hrun by reflexivity. cbv beta in Hrun.
  destruct (refuse_rider _ _); [done|]. destruct (get_row new (riders s)) as [nr|]; [|done]. cbv zeta in Hrun.
  destruct (bool_decide _); [done|]. erewrite bind_run_Ok in Hrun by reflexivity. cbv beta in Hrun.
  destruct (detach_run oid s Hok) as (s1 & Hdet & Hs1 & Hok1 & Hfree). rewrite (bind_run_Ok _ _ _ _ _ Hdet) in Hrun.
  erewrite bind_run_Ok in Hrun by reflexivity. cbv beta in Hrun.
  apply bind_Ok in Hrun as ([] & s3 & Hadd & Hrun). apply add_stop_inv in Hadd as [_ ->].
  do 5 (erewrite bind_run_Ok in Hrun by reflexivity; cbv beta in Hrun).
  match type of Hrun with _ ?st = _ => set (s4 := st) in Hrun end.
  apply both_halves_Some in Hb as [Ho Hd].
  assert (Hok4 : fleet_ok s4).
  { unfold fleet_ok; cbn. apply (place_keeps _ _ _ _ oid (on_rider (Some new)) _ _ d Hok1); try done.
    - by rewrite Hs1.
    - rewrite Hs1. intros o'. unfold fl_orders in *; cbn. rewrite Ho. intros [= <-]. by rewrite Hst. }
  apply bind_Ok in Hrun as ([] & s5 & Hold & Hrun).
  assert (Hok5 : fleet_ok s5).
  { apply same_fleet_ok with s4; [|done]. revert Hold. apply quiet_run.
    destruct (dl_rider_id d) as [old|]; [|apply preserves_ret]. destruct (old =? 0); [apply preserves_ret|apply quiet_idle]. }
  apply bind_Ok in Hrun as ([] & s6 & Hcl & Hrun).
  assert (Hok6 : fleet_ok s6).
  { destruct (stop_of oid s); [by destruct (close_if_empty_keeps _ _ _ Hcl Hok5)|by apply ret_run in Hcl as [_ ->]]. }
  apply same_fleet_ok with s6; [|done]. revert Hrun. apply quiet_run.
  apply preserves_bind; [apply quiet_push|intros _]. by apply quiet_modify.
Qed.

(** A step of the lifecycle taken by the fleet or by another service. *)
Lemma transition_run inj o st actor extra s s' :
  zoom (E' := fleet_error) inj (transition o st actor extra) s = Ok tt s' →
  validate (o_status o) st = true ∧ fl_orders s' = set_row (with_status st o) (fl_orders s) ∧
  s' = put (Lens := fleet_fsm_lens) (lo_fsm (fl_loyalty s')) s.
Proof.
  intros (f & Hrun & ->)%zoom_Ok. destruct (validate (o_status o) st) eqn:Hv.
  2:{ by rewrite transition_rejects in Hrun. }
  destruct (transition_accepts o st actor extra (view s) Hv) as (f' & Hrun' & Hstep).
  rewrite Hrun' in Hrun. injection Hrun as ->. split_and!; [done| |done].
  unfold fl_orders. cbn. exact (stepped_orders _ _ _ _ _ _ Hstep).
Qed.

Lemma transition_keeps inj o st actor extra s s' oid :
  zoom (E' := fleet_error) inj (transition o st actor extra) s = Ok tt s' → fleet_ok s →
  get_row oid (fl_orders s) = Some o → st ≠ DELIVERED →
  fleet_ok s' ∧ s' = put (Lens := fleet_fsm_lens) (lo_fsm (fl_loyalty s')) s ∧
  get_row oid (fl_orders s') = Some (with_status st o).
Proof.
  intros (Hv & Hos & Hs')%transition_run Hok Ho Hst. split_and!; [|done|].
  - assert (Hq : deliveries s' = deliveries s ∧ batches s' = batches s ∧ batch_orders s' = batch_orders s) by by rewrite Hs'.
    unfold fleet_ok. destruct Hq as (-> & -> & ->). rewrite Hos.
    rewrite (set_as_map (with_status st) _ oid o); [|by destruct Hok|done|done].
    apply (inv_status _ _ _ _ Hok oid st o); [done| |done]. left. by destruct (o_status o).
  - rewrite Hos. apply (get_row_set_eq oid _ o); [|done]. by apply get_row_Some in Ho as [_ ?].
Qed.

Lemma assign_keeps rid oid r actor s s' :
  assign_order rid oid r actor s = Ok tt s' → fleet_ok s → fleet_ok s'.
Proof.
  unfold assign_order. intros Hrun Hok. erewrite bind_run_Ok in Hrun by reflexivity. cbv beta in Hrun.
  destruct (both_halves oid s) as [[o d]|] eqn:Hb; [|done]. destruct (negb (_ =? _)); [done|].
  destruct (_ || _); [by apply reassign_keeps in Hrun|]. destruct (negb _); [done|].
  erewrite bind_run_Ok in Hrun by reflexivity. cbv beta in Hrun.
  destruct (refuse_rider _ _); [done|]. destruct (get_row r (riders s)) as [nr|]; [|done].
  erewrite bind_run_Ok in Hrun by reflexivity. cbv beta in Hrun.
  apply bind_Ok in Hrun as ([] & s2 & Hadd & Hrun). apply add_stop_inv in Hadd as [Hfree ->].
  apply bind_Ok in Hrun as ([] & s3 & Htr & Hrun).
  apply both_halves_Some in Hb as [Ho Hd]. pose proof (transition_run _ _ _ _ _ _ _ Htr) as (Hv & Hos & Hs3).
  do 5 (erewrite bind_run_Ok in Hrun by reflexivity; cbv beta in Hrun).
  match type of Hrun with _ ?st = _ => set (s4 := st) in Hrun end.
  assert (Hok4 : fleet_ok s4).
  { unfold fleet_ok. change (fl_orders s4) with (fl_orders s3). rewrite Hos. subst s4. rewrite Hs3. cbn.
    rewrite (set_as_map (with_status ASSIGNED) _ oid o); [|apply (fi_orders _ _ _ _ Hok)|exact Ho|done].
    match goal with |- fleet_inv _ (map_rows (λ x, if dl_id x =? oid then requiring_otp ?q (on_rider ?w x) else x) _) _ _ =>
      apply (place_keeps _ _ _ _ oid (λ x, requiring_otp q (on_rider w x)) _ _ d) end; try done.
    - apply (inv_status _ _ _ _ Hok oid ASSIGNED o); [exact Ho|left; by destruct (o_status o)|done].
    - intros o'. rewrite get_map_rows by (intros x; by destruct (row_id x =? oid)).
      match goal with |- (_ <$> get_row _ (fl_orders ?t)) = _ → _ => change (fl_orders t) with (fl_orders s) end. rewrite Ho.
      cbn. intros [= <-]. apply get_row_Some in Ho as [_ Hi]. rewrite Hi, Z.eqb_refl. done. }
  apply same_fleet_ok with s4; [|done]. revert Hrun. apply quiet_run.
  apply preserves_bind; [apply quiet_rider|intros _].
  apply preserves_bind; [apply quiet_push|intros _]. by apply quiet_modify.
Qed.

(** A write of a delivery's columns other than its rider. *)
Lemma columns_keep oid (h : Delivery → Delivery) d s :
  fleet_ok s → get_row oid (deliveries s) = Some d →
  (∀ x, dl_id (h x) = dl_id x ∧ dl_rider_id (h x) = dl_rider_id x) →
  (assert_otp_satisfied d = true → assert_otp_satisfied (h d) = true) →
  fleet_ok (with_deliveries (set_row (h d) (deliveries s)) s).
Proof.
  intros Hok Hd Hh Hcode. unfold fleet_ok; cbn.
  rewrite (set_as_map h (deliveries s) oid d); [|by destruct Hok|done|intros x; apply Hh].
  apply (inv_delivery _ _ _ _ Hok).
  - intros x. apply Hh.
  - intros x b ba _ _ _ _ <-. apply Hh.
  - intros x o Hx _ _. assert (x = d) as -> by congruence. done.
Qed.

Lemma failed_keeps rid oid reason s s' :
  mark_delivery_failed rid oid reason s = Ok tt s' → fleet_ok s → fleet_ok s'.
Proof.
  unfold mark_delivery_failed. intros Hrun Hok. erewrite bind_run_Ok in Hrun by reflexivity. cbv beta in Hrun.
  destruct (both_halves oid s) as [[o d]|] eqn:Hb; [|done]. destruct (negb _); [done|]. cbv zeta in Hrun.
  destruct (negb _); [done|]. erewrite bind_run_Ok in Hrun by reflexivity. cbv beta in Hrun.
  apply both_halves_Some in Hb as [Ho Hd].
  assert (Hok1 := columns_keep oid (with_failure (clean_reason (strip reason))) d s Hok Hd (λ x, conj eq_refl eq_refl) id).
  by destruct (transition_keeps _ _ _ _ _ _ _ oid Hrun Hok1 Ho).
Qed.

Lemma photo_keeps rid oid url' s s' : set_delivery_photo rid oid url' s = Ok tt s' → fleet_ok s → fleet_ok s'.
Proof.
  unfold set_delivery_photo. intros Hrun Hok. erewrite bind_run_Ok in Hrun by reflexivity. cbv beta in Hrun.
  destruct (both_halves oid s) as [[o d]|] eqn:Hb; [|done]. do 2 (destruct (negb _); [done|]).
  destruct url' as [u|]; [|done]. destruct (truthy u); [|done]. injection Hrun as <-.
  apply both_halves_Some in Hb as [Ho Hd]. by apply (columns_keep oid (with_photo u) d).
Qed.

Lemma verify_keeps rid oid otp s b s' : verify_delivery_otp rid oid otp s = Ok b s' → fleet_ok s → fleet_ok s'.
Proof.
  unfold verify_delivery_otp. intros Hrun Hok. erewrite bind_run_Ok in Hrun by reflexivity. cbv beta in Hrun.
  destruct (both_halves oid s) as [[o d]|] eqn:Hb; [|done]. do 2 (destruct (negb _); [done|]).
  erewrite bind_run_Ok in Hrun by reflexivity. cbv beta in Hrun. injection Hrun as _ <-.
  apply both_halves_Some in Hb as [Ho Hd].
  apply (columns_keep oid (with_otp (delivery_otp d) (Some (fl_now s))) d); [done..|].
  intros _. unfold assert_otp_satisfied. cbn. by rewrite andb_false_r.
Qed.

Lemma pick_up_keeps l : ∀ first s r s',
  for_fold (pick_up_stop tokens randbelow token_urlsafe) l first s = Ok r s' → fleet_ok s → fleet_ok s'.
Proof.
  induction l as [|bo l IH]; intros first s r s' Hrun Hok; [by apply ret_run in Hrun as [_ ->]|].
  apply bind_Ok in Hrun as (f & s1 & Hrun & Hl). apply (IH _ _ _ _ Hl).
  unfold pick_up_stop in Hrun. erewrite bind_run_Ok in Hrun by reflexivity. cbv beta in Hrun.
  destruct (both_halves _ s) as [[o d]|]; [|by apply ret_run in Hrun as [_ ->]].
  apply bind_Ok in Hrun as ([] & s2 & Hadv & Hrun). apply advance_keeps in Hadv; [|done].
  apply bind_Ok in Hrun as (t & s3 & Hen & Hrun). apply ret_run in Hrun as [_ ->].
  apply (quiet_run _ _ _ _ (quiet_ensure s2 token_urlsafe _)) in Hen. by apply same_fleet_ok in Hen.
Qed.

Lemma pickup_keeps ri bid s r s' :
  mark_batch_picked_up tokens randbelow token_urlsafe ri bid s = Ok r s' → fleet_ok s → fleet_ok s'.
Proof.
  unfold mark_batch_picked_up. intros Hrun Hok. erewrite bind_run_Ok in Hrun by reflexivity. cbv beta in Hrun.
  destruct (batch_to_pick ri bid s) as [b|] eqn:Hb.
  2:{ do 2 (erewrite bind_run_Ok in Hrun by reflexivity; cbv beta in Hrun). by apply ret_run in Hrun as [_ ->]. }
  do 2 (erewrite bind_run_Ok in Hrun by reflexivity; cbv beta in Hrun).
  apply bind_Ok in Hrun as (f & s1 & Hrun & Hl). apply ret_run in Hl as [_ ->]. apply pick_up_keeps in Hrun; [done|].
  unfold fleet_ok; cbn.
  assert (Hin : b ∈ rows (batches s)).
  { unfold batch_to_pick in Hb. cbv zeta in Hb.
    assert (Hfall : ∀ x, head (newest_first (all_where (λ b, (ba_rider_id b =? ri) && bool_decide (ba_status b = BPlanned)) (batches s))) = Some x → x ∈ rows (batches s)).
    { intros x Hx. destruct (newest_first _) as [|y l] eqn:Hl; [done|]. injection Hx as ->.
      assert (x ∈ newest_first (all_where (λ b, (ba_rider_id b =? ri) && bool_decide (ba_status b = BPlanned)) (batches s))) as Hin by (rewrite Hl; set_solver).
      unfold newest_first in Hin. apply elem_of_sort_by, elem_of_all_where in Hin. by destruct Hin. }
    destruct (bid ≫= _) as [b0|] eqn:Hn; [|by apply Hfall]. destruct (_ && _); [|by apply Hfall]. injection Hb as ->.
    destruct bid as [i|]; [|done]. cbn in Hn. destruct (i =? 0); [done|]. by apply get_row_Some in Hn as [? _]. }
  rewrite (set_as_map (batch_in BPickedUp) (batches s) (ba_id b) b);
    [|by destruct Hok|apply (get_row_wf (batches s) b); [by destruct Hok|done]|done].
  by apply (inv_batch_status _ _ _ _ Hok).
Qed.

Context (Hredispatch : ∀ rid s a s', best_effort (redispatch rid) s = Ok a s' → fleet_ok s → fleet_ok s').

Lemma resolve_keeps rid oid out s r s' : resolve_next redispatch rid oid out s = Ok r s' → fleet_ok s → fleet_ok s'.
Proof.
  unfold resolve_next. intros Hrun Hok. erewrite bind_run_Ok in Hrun by reflexivity. cbv beta in Hrun.
  destruct (stop_of oid s) as [b|]; [|by apply ret_run in Hrun as [_ ->]].
  erewrite bind_run_Ok in Hrun by reflexivity. cbv beta in Hrun.
  destruct (by_sequence _) as [|nxt l]; [|by apply ret_run in Hrun as [_ ->]].
  apply bind_Ok in Hrun as ([] & s1 & Hd & Hrun). apply ret_run in Hrun as [_ ->]. by apply Hredispatch in Hd.
Qed.

Lemma delivered_keeps rid ri oid cod s r s' :
  mark_order_delivered tokens randbelow token_urlsafe geo url redispatch rid ri oid cod s = Ok r s' →
  fleet_ok s → fleet_ok s'.
Proof.
  unfold mark_order_delivered. intros Hrun Hok. erewrite bind_run_Ok in Hrun by reflexivity. cbv beta in Hrun.
  destruct (both_halves oid s) as [[o d]|]; [|by apply ret_run in Hrun as [_ ->]].
  destruct (negb _); [by apply ret_run in Hrun as [_ ->]|].
  erewrite bind_run_Ok in Hrun by reflexivity. cbv beta in Hrun. destruct (negb _); [by apply ret_run in Hrun as [_ ->]|].
  apply bind_Ok in Hrun as ([] & s1 & H1 & Hrun).
  assert (Hok1 : fleet_ok s1).
  { destruct (bool_decide _); [by apply advance_keeps in H1|by apply ret_run in H1 as [_ ->]]. }
  apply bind_Ok in Hrun as ([] & s2 & H2 & Hrun). apply advance_keeps in H2; [|done].
  apply bind_Ok in Hrun as ([] & s3 & H3 & Hrun). apply (quiet_run _ _ _ _ (quiet_notice s2 token_urlsafe geo url _ _ _)) in H3.
  erewrite bind_run_Ok in Hrun by reflexivity. cbv beta in Hrun.
  apply bind_Ok in Hrun as (c & s4 & H4 & Hrun). apply (quiet_run _ _ _ _ (quiet_cod s3 _)) in H4.
  apply resolve_keeps in Hrun; [done|]. by apply (same_fleet_ok _ _ H4), (same_fleet_ok _ _ H3).
Qed.

Lemma not_delivered_keeps rid ri oid reason s r s' :
  mark_order_not_delivered token_urlsafe geo url redispatch rid ri oid reason s = Ok r s' →
  fleet_ok s → fleet_ok s'.
Proof.
  unfold mark_order_not_delivered. intros Hrun Hok. erewrite bind_run_Ok in Hrun by reflexivity. cbv beta in Hrun.
  destruct (both_halves oid s) as [[o d]|] eqn:Hb; [|by apply ret_run in Hrun as [_ ->]].
  do 2 (destruct (negb _); [by apply ret_run in Hrun as [_ ->]|]). cbv zeta in Hrun.
  erewrite bind_run_Ok in Hrun by reflexivity. cbv beta in Hrun.
  apply both_halves_Some in Hb as [Ho Hd].
  match type of Hrun with context [with_deliveries (set_row (with_failure ?w d) (deliveries s)) s] =>
    assert (Hok0 := columns_keep oid (with_failure w) d s Hok Hd (λ x, conj eq_refl eq_refl) id) end.
  apply bind_Ok in Hrun as ([] & s1 & H1 & Hrun).
  destruct (transition_keeps _ _ _ _ _ _ _ oid H1 Hok0 Ho) as (Hok1 & _ & Ho1); [done|].
  apply bind_Ok in Hrun as ([] & s2 & H2 & Hrun). apply (quiet_run _ _ _ _ (quiet_pay s1 _)) in H2.
  apply bind_Ok in Hrun as ([] & s3 & H3 & Hrun). apply (quiet_run _ _ _ _ (quiet_stop s2 _ _)) in H3.
  apply bind_Ok in Hrun as ([] & s4 & H4 & Hrun). apply (quiet_run _ _ _ _ (quiet_notice s3 token_urlsafe geo url _ _ _)) in H4.
  erewrite bind_run_Ok in Hrun by reflexivity. cbv beta in Hrun.
  apply bind_Ok in Hrun as (x & s5 & H5 & Hrun). destruct (stamp_run oid (fl_now s4) s4) as (s5' & Hst & Haft).
  rewrite Hst in H5. injection H5 as _ <-. apply resolve_keeps in Hrun; [done|].
  assert (Hok4 : fleet_ok s4) by by apply (same_fleet_ok _ _ H4), (same_fleet_ok _ _ H3), (same_fleet_ok _ _ H2).
  destruct (after_stop_ok oid (fl_now s4) s4 s5' (with_status UNDELIVERABLE o)) as [? _]; [|done..].
  destruct H4 as (-> & _), H3 as (-> & _), H2 as (-> & _). done.
Qed.

End steps.

Section facts.
Context (tokens : Z → nat → string) (randbelow : Z → Z).

(** *** Riders that leave *)

Lemma inv_detach os ds bs ss i :
  fleet_inv os ds bs ss → (∀ b, b ∈ rows ss → bo_order_id b ≠ i) →
  fleet_inv (map_rows (λ o, if o_id o =? i then with_status (detached_status (o_status o)) o else o) os)
            (map_rows (λ d, if dl_id d =? i then on_rider None d else d) ds) bs ss.
Proof.
  intros Hinv Hfree. apply ride_with_free; [|done].
  destruct (get_row i os) as [o|] eqn:Ho.
  - rewrite (map_rows_ext _ (λ x, if o_id x =? i then with_status (detached_status (o_status o)) x else x)).
    2:{ intros r Hr. destruct (o_id r =? i) eqn:Hi; [|done]. zbool.
        assert (r = o) as ->; [|done]. pose proof Ho as [Hin Hid]%get_row_Some.
        apply (wf_unique _ (fi_orders _ _ _ _ Hinv)); [done..|]. exact (eq_trans Hi (eq_sym Hid)). }
    apply (inv_status _ _ _ _ Hinv i _ o Ho).
    + unfold detached_status. case_bool_decide as Hl; [left|]; [by destruct (o_status o); cbn in *; set_solver|].
      destruct (closed_status (o_status o)) eqn:Hc; auto.
    + unfold detached_status. intros Hdel d Hd. apply (fi_code _ _ _ _ Hinv i o); [done..|].
      revert Hdel. by case_bool_decide.
  - rewrite (map_rows_id _ os); [done|]. intros r Hr. destruct (o_id r =? i) eqn:Hi; [|done]. zbool.
    assert (get_row i os = Some r) as Hg; [|congruence]. rewrite <-Hi.
    by apply (get_row_wf os r (fi_orders _ _ _ _ Hinv)).
Qed.

Lemma detach_loop l : ∀ s s', for_each (λ d, detach_order (dl_id d)) l s = Ok tt s' →
  batches s' = batches s ∧ batch_orders s' = batch_orders s ∧
  ∀ bs ss, fleet_inv (fl_orders s) (deliveries s) bs ss →
    (∀ d b, d ∈ l → b ∈ rows ss → bo_order_id b ≠ dl_id d) → fleet_inv (fl_orders s') (deliveries s') bs ss.
Proof.
  induction l as [|d l IH]; intros s s' Hrun; [by apply ret_run in Hrun as [_ ->]|].
  apply bind_Ok in Hrun as ([] & s1 & H1 & Hrun). apply IH in Hrun as (Hb & Hs & Hrest).
  unfold detach_order in H1. erewrite bind_run_Ok in H1 by reflexivity. injection H1 as <-.
  split_and!; [exact Hb|exact Hs|]. intros bs ss Hinv Hfree. apply Hrest.
  - apply (inv_detach _ _ _ _ (dl_id d) Hinv). intros b Hin. apply Hfree; set_solver.
  - intros d' b Hd' Hin. apply Hfree; set_solver.
Qed.

Lemma delete_keeps rid ri s r s' : delete_rider rid ri s = Ok r s' → fleet_ok s → fleet_ok s'.
Proof.
  unfold delete_rider. intros Hrun Hok. erewrite bind_run_Ok in Hrun by reflexivity. cbv beta in Hrun.
  destruct (get_row ri (riders s)) as [rr|]; [|by apply ret_run in Hrun as [_ ->]].
  destruct (negb _); [by apply ret_run in Hrun as [_ ->]|].
  erewrite bind_run_Ok in Hrun by reflexivity. cbv beta in Hrun. destruct (has_cash_records _ _); [done|].
  erewrite bind_run_Ok in Hrun by reflexivity. cbv beta in Hrun.
  apply bind_Ok in Hrun as ([] & s1 & Hl & Hrun). apply detach_loop in Hl as (Hb & Hs & Hl).
  do 7 (erewrite bind_run_Ok in Hrun by reflexivity; cbv beta in Hrun).
  match type of Hrun with ((if ?t then _ else _) ≫= _) ?st = _ => destruct t; [done|]; set (s2 := st) in Hrun end.
  do 2 (erewrite bind_run_Ok in Hrun by reflexivity; cbv beta in Hrun). apply ret_run in Hrun as [_ ->].
  unfold fleet_ok; cbn. rewrite Hb, Hs.
  set (ids := ba_id <$> all_where (λ b, ba_rider_id b =? ri) (batches s)).
  assert (Hids : ∀ b ba, b ∈ rows (batch_orders s) → get_row (bo_batch_id b) (batches s) = Some ba →
            bo_batch_id b ∈ ids ↔ ba_rider_id ba = ri).
  { intros b ba Hin Hba. unfold ids. rewrite list_elem_of_fmap. pose proof Hba as [Hbin Hbid]%get_row_Some.
    change (row_id ba) with (ba_id ba) in Hbid. split.
    - intros (ba' & Hid & [Hin' Hri]%elem_of_all_where). zbool.
      assert (ba' = ba) as ->; [|done]. apply (wf_unique _ (fi_batches _ _ _ _ Hok)); [done..|].
      change (ba_id ba' = ba_id ba). congruence.
    - intros Hri. exists ba. split; [done|]. apply elem_of_all_where. split; [done|]. by apply Z.eqb_eq. }
  assert (Hinv1 : fleet_inv (fl_orders s) (deliveries s) (batches s)
    (del_where (λ b, bool_decide (bo_batch_id b ∈ ids)) (batch_orders s))).
  { apply (inv_stops_leave _ _ _ _ Hok); [apply del_where_wf; by destruct Hok|]. by intros b [Hbin _]%elem_of_del_where. }
  apply Hl.
  - apply (inv_batches_leave _ _ _ _ Hinv1); [apply del_where_wf; by destruct Hok|by intros b [? _]%elem_of_del_where|].
    intros x ba [Hx Hni]%elem_of_del_where Hba. apply elem_of_del_where. pose proof Hba as [Hbin Hbid]%get_row_Some.
    split; [done|]. change (row_id ba) with (ba_id ba) in Hbid. by rewrite Hbid.
  - intros d b [Hd Hri]%elem_of_all_where [Hin Hni]%elem_of_del_where Heq. zbool.
    destruct (fi_rider _ _ _ _ Hok b Hin) as (ba & d' & Hba & Hd' & Hr).
    assert (d' = d) as ->.
    { pose proof (get_row_wf (deliveries s) d (fi_deliveries _ _ _ _ Hok) Hd) as Hg.
      change (row_id d) with (dl_id d) in Hg. congruence. }
    apply Hni. apply (Hids b ba Hin Hba). congruence.
Qed.

(** *** The engine's routes *)

Lemma commit_stop_keeps rid ri bid now sc st s s' ba :
  commit_stop rid ri bid now sc st s = Ok tt s' → fleet_ok s →
  get_row bid (batches s) = Some ba → ba_status ba ≠ BCompleted → ba_rider_id ba = ri →
  fleet_ok s' ∧ batches s' = batches s.
Proof.
  destruct st as [seq [oid p]]. unfold commit_stop. intros Hrun Hok Hba Hst Hri.
  erewrite bind_run_Ok in Hrun by reflexivity. cbv beta in Hrun.
  destruct (both_halves oid s) as [[o d]|] eqn:Hb; [|done]. cbv zeta in Hrun.
  set (st := if bool_decide _ then ASSIGNED else o_status o) in *.
  assert (Hcase : o_status o = READY ∧ st = ASSIGNED ∨ st = o_status o).
  { unfold st. destruct (bool_decide_reflect (o_status o = READY)); auto. }
  rewrite (bind_run_Ok _ _ _ _ _ (assign_status_run oid st s)) in Hrun.
  erewrite bind_run_Ok in Hrun by reflexivity. cbv beta in Hrun.
  apply bind_Ok in Hrun as ([] & s2 & Hadd & Hrun). apply add_stop_inv in Hadd as [Hfree ->].
  do 2 (erewrite bind_run_Ok in Hrun by reflexivity; cbv beta in Hrun).
  match type of Hrun with _ ?x = _ => set (s3 := x) in Hrun end.
  apply both_halves_Some in Hb as [Ho Hd].
  assert (Hok3 : fleet_ok s3).
  { unfold fleet_ok; cbn. eapply (inv_join _ _ _ _ oid (on_rider (Some ri)) _ ba d); try done.
    - apply (inv_status _ _ _ _ Hok oid st o Ho).
      + destruct Hcase as [[-> _]| ->]; [by left|]. destruct (closed_status (o_status o)); auto.
      + intros Hdel d' Hd'. apply (fi_code _ _ _ _ Hok oid o); [done..|]. destruct Hcase as [[_ Hs]|Hs]; congruence.
    - by rewrite Hri. }
  assert (Hq : same_fleet s3 s').
  { revert Hrun. apply quiet_run. destruct (bool_decide (st = ASSIGNED)); [apply quiet_partner|apply preserves_ret]. }
  split; [by apply (same_fleet_ok _ _ Hq)|]. by destruct Hq as (_ & _ & -> & _).
Qed.

Lemma commit_route_keeps rid r stops est sc now s n s' :
  _commit_route rid r stops est sc now s = Ok n s' → fleet_ok s → fleet_ok s'.
Proof.
  unfold _commit_route. intros Hrun Hok. erewrite bind_run_Ok in Hrun by reflexivity. cbv beta in Hrun.
  match type of Hrun with _ ?x = _ => set (s1 := x) in Hrun end.
  assert (Hok1 : fleet_ok s1) by by apply (inv_add_batch _ _ _ _ Hok).
  assert (Hb1 : ∃ ba, get_row (next_id (batches s)) (batches s1) = Some ba ∧ ba_status ba = BPlanned ∧ ba_rider_id ba = ri_id r).
  { set (b := {| ba_id := next_id (batches s); ba_restaurant_id := rid; ba_rider_id := ri_id r; ba_status := BPlanned;
                 ba_route := stops; ba_total_est_min := Some est |}).
    exists b. split; [exact (get_row_add b (batches s) (fi_batches _ _ _ _ Hok) eq_refl)|done]. }
  apply bind_Ok in Hrun as ([] & s2 & Hl & Hrun).
  assert (Hloop : ∀ l s1 s2, for_each (commit_stop rid (ri_id r) (next_id (batches s)) now sc) l s1 = Ok tt s2 →
    fleet_ok s1 → (∃ ba, get_row (next_id (batches s)) (batches s1) = Some ba ∧ ba_status ba = BPlanned ∧ ba_rider_id ba = ri_id r) →
    fleet_ok s2).
  { clear. intros l. induction l as [|x l IH]; intros s1 s2 Hl Hok (ba & Hba & Hst & Hri);
      [by apply ret_run in Hl as [_ ->]|].
    apply bind_Ok in Hl as ([] & s3 & Hx & Hl).
    destruct (commit_stop_keeps _ _ _ _ _ _ _ _ ba Hx Hok Hba) as [Hok3 Hb3]; [by rewrite Hst|done|].
    apply (IH _ _ Hl Hok3). rewrite Hb3. eauto. }
  apply same_fleet_ok with s2; [|by apply (Hloop _ _ _ Hl)]. revert Hrun. apply quiet_run.
  apply preserves_bind; [apply quiet_rider|intros _]. apply preserves_bind; [apply quiet_push|intros _]. apply preserves_ret.
Qed.

(** ** What a delivery does *)

Lemma get_row_in {R} `{Row R} (t : table R) r : r ∈ rows t → ∃ r0, get_row (row_id r) t = Some r0.
Proof.
  intros Hin. destruct (get_row (row_id r) t) eqn:Hg; [eauto|]. unfold get_row in Hg.
  pose proof (find_None_in _ _ _ Hg Hin) as Hf. cbn in Hf. by rewrite Z.eqb_refl in Hf.
Qed.

Lemma loyalty_run o s :
  ∃ l, loyalty_never_blocks tokens o s = Err SessionRolledBack (put (Lens := fleet_loyalty_lens) l s) ∨
       loyalty_never_blocks tokens o s = Ok tt (put (Lens := fleet_loyalty_lens) l s) ∧
       lo_fsm l = lo_fsm (fl_loyalty s).
Proof.
  unfold loyalty_never_blocks, best_effort, loyalty_hooks, try_except.
  do 3 (erewrite bind_run_Ok by reflexivity; cbv beta).
  destruct (get_row (o_restaurant_id o) (branches s)) as [br|], (get_row (o_customer_id o) (members (fl_loyalty s))) as [c|];
    try (exists (fl_loyalty s); right; split; [by destruct s|done]).
  cbv zeta. unfold zoom. cbn [view fleet_loyalty_lens].
  match goal with |- context [match ?m (fl_loyalty s) with _ => _ end] =>
    pose proof (hooks_only_read (lo_fsm (fl_loyalty s)) tokens
      {| eo_id := o_id o; eo_restaurant_id := o_restaurant_id o; eo_customer_id := o_customer_id o;
         eo_subtotal := bill_subtotal (o_id o) s |}
      (mb_id c) (br_loyalty br) (fl_loyalty s) eq_refl) as Hf; destruct (m (fl_loyalty s)) as [[] l|e l] end;
    cbn in Hf; unfold orders_are in Hf; exists l; [right; done|].
  destruct (session_lost _); [by left|by right].
Qed.

(** The stop, its batch and its rider after the order [oid] was closed. *)
Record stop_closed (oid now : Z) (s s' : fleet_db) : Prop := {
  sc_stop : ∀ bo, stop_of oid s = Some bo → get_row (bo_id bo) (batch_orders s') = Some (handled_at now bo);
  sc_last : ∀ bo b r, stop_of oid s = Some bo → get_row (bo_batch_id bo) (batches s) = Some b →
    get_row (ba_rider_id b) (riders s) = Some r →
    (∀ x, x ∈ stops_in (bo_batch_id bo) s → x = bo ∨ is_handled x = true) →
    get_row (bo_batch_id bo) (batches s') = Some (batch_in BCompleted b) ∧
    get_row (ba_rider_id b) (riders s') = Some (rider_in Available r);
  sc_more : ∀ bo x, stop_of oid s = Some bo → x ∈ stops_in (bo_batch_id bo) s → bo_id x ≠ bo_id bo →
    is_handled x = false → batches s' = batches s ∧ riders s' = riders s;
  sc_none : stop_of oid s = None → batch_orders s' = batch_orders s ∧ batches s' = batches s ∧ riders s' = riders s;
}.
Lemma after_stop_closed oid now s s' : fleet_ok s → after_stop oid now s s' → stop_closed oid now s s'.
Proof.
  intros Hok Haft. unfold after_stop in Haft. destruct (stop_of oid s) as [bo|] eqn:Hbo; [|subst; by split; intros; try congruence].
  pose proof (stop_of_Some _ _ _ Hbo) as [Hin Hoid]. set (s1 := with_stops _ s) in Haft.
  destruct (get_row_in _ _ Hin) as [bo0 Hg0].
  assert (Hstop : batch_orders s' = batch_orders s1).
  { destruct (forallb _ _); [|by subst]. destruct (get_row (bo_batch_id bo) (batches s)) as [b|]; [|by subst].
    destruct (get_row (ba_rider_id b) (riders s)); by subst. }
  assert (Hall : forallb is_handled (stops_in (bo_batch_id bo) s1) = true ↔
    ∀ x, x ∈ stops_in (bo_batch_id bo) s → x = bo ∨ is_handled x = true).
  { rewrite forallb_forall. split.
    - intros Hf x [Hx Hxb]%elem_of_stops_in. destruct (Z.eq_dec (bo_id x) (bo_id bo)) as [Hid|Hne].
      { left. by apply (wf_unique _ (fi_stops _ _ _ _ Hok)). }
      right. apply Hf, list_elem_of_In, elem_of_stops_in. split; [|done].
      pose proof (elem_of_set_row_2 (handled_at now bo) x (batch_orders s) Hx) as Hx'.
      change (row_id x =? row_id (handled_at now bo)) with (bo_id x =? bo_id bo) in Hx'.
      by rewrite (proj2 (Z.eqb_neq _ _) Hne) in Hx'.
    - intros Hf x [Hx Hxb]%list_elem_of_In%elem_of_stops_in.
      apply elem_of_set_row in Hx as [[-> _]|[Hx Hne]]; [done|].
      destruct (Hf x) as [->|?]; [by apply elem_of_stops_in|by destruct Hne|done]. }
  split.
  - intros bo' Hbo'. assert (bo' = bo) as -> by congruence. rewrite Hstop. exact (get_row_set (handled_at now bo) bo0 _ Hg0).
  - intros bo' b r Hbo' Hb Hr Hd. assert (bo' = bo) as -> by congruence. rewrite (proj2 Hall Hd), Hb, Hr in Haft. subst s'. cbn.
    split; [apply (get_row_set_eq _ (batch_in BCompleted b) b); [by apply get_row_Some in Hb as [_ ?]|done]|].
    apply (get_row_set_eq _ (rider_in Available r) r); [by apply get_row_Some in Hr as [_ ?]|done].
  - intros bo' x Hbo' Hx Hne Hopen. assert (bo' = bo) as -> by congruence. destruct (forallb _ _) eqn:Hf; [|by subst].
    destruct (proj1 Hall eq_refl x Hx) as [->|?]; congruence.
  - congruence.
Qed.

Record delivered_state (oid : Z) (o : OrderFsm.Order) (d : Delivery) (p : pay_db (W := wallet_db)) (s s' : fleet_db) : Prop := {
  dv_order : both_halves oid s' = Some (with_status DELIVERED o, stamped (fl_now s) d);
  dv_stop : stop_closed oid (fl_now s) s s';
  dv_money : fl_bills s' = (OrderPayments.po_orders p, po_items p, po_restaurants p);
  dv_tracking : ∀ t, tracking_of oid s = Some t → ∃ t', get_row (ot_id t) (trackings s') = Some t' ∧
    ot_status t' = TRACKING_EXPIRED ∧ is_tracking_accessible t' (fl_now s) = false;
  dv_outside : outside s' = outside s ++ [MarketingDelivered oid; PartnerEvent oid "order.delivered"];
}.

(** The capture does not depend on what a delivery wrote before it. *)
Lemma stop_tracking_run oid reason s :
  ∃ t, stop_tracking_session oid reason s = Ok tt (with_trackings t s) ∧
    ∀ x, tracking_of oid s = Some x → ∃ x', get_row (ot_id x) t = Some x' ∧ ot_status x' = reason ∧
      is_tracking_accessible x' (fl_now s) = false.
Proof.
  unfold stop_tracking_session. erewrite bind_run_Ok by reflexivity. cbv beta.
  destruct (tracking_of oid s) as [x|] eqn:Hx.
  - do 1 (erewrite bind_run_Ok by reflexivity; cbv beta). eexists. split; [reflexivity|].
    intros x0 [= <-]. eexists. pose proof Hx as [Hin _]%first_where_Some. destruct (get_row_in _ _ Hin) as [y Hy].
    split; [match goal with |- get_row _ (set_row ?r _) = _ => exact (get_row_set r y _ Hy) end|].
    split; [done|]. unfold is_tracking_accessible. cbn. rewrite Z.ltb_irrefl. apply andb_false_r.
  - exists (trackings s). split; [by destruct s|done].
Qed.

Lemma stats_run cid s :
  zoom FleetFsmRaised (recompute_customer_stats cid) s =
    Ok tt (put (Lens := fleet_fsm_lens) (with_customers (recomputed cid (fl_orders s) (customers (lo_fsm (fl_loyalty s))))
             (lo_fsm (fl_loyalty s))) s).
Proof. unfold zoom. by rewrite recompute_run. Qed.

(** Nothing but the loyalty part and the log of outside calls changes after the capture. *)
Lemma delivery_tail_run o to_ s :
  ∃ s', (_ ← audit "rider" (o_restaurant_id o) "order" (pretty (o_id o)) "state_transition"
            (Some (status_json (o_status o))) (Some (status_json to_));
         zoom FleetFsmRaised (recompute_customer_stats (o_customer_id o)) ≫= λ _,
         (loyalty_never_blocks tokens o ≫= λ _, call_outside (MarketingDelivered (o_id o))) ≫= λ _,
         notify_partner (o_id o) DELIVERED) s = s' ∧
    match s' with
    | Ok _ s' => same_fleet s s' ∧ riders s' = riders s ∧ trackings s' = trackings s ∧ fl_bills s' = fl_bills s ∧
        outside s' = outside s ++ [MarketingDelivered (o_id o); PartnerEvent (o_id o) "order.delivered"]
    | Err e s' => e = SessionRolledBack
    end.
Proof.
  eexists. split; [reflexivity|]. erewrite bind_run_Ok by reflexivity. cbv beta.
  rewrite (bind_run_Ok _ _ _ _ _ (stats_run _ _)).
  match goal with |- match _ ?st with _ => _ end => set (s1 := st) end.
  unfold mbind at 1 2, M_bind at 1 2. destruct (loyalty_run o s1) as (l & [Hl|[Hl Hf]]); rewrite Hl; [done|].
  cbn. unfold same_fleet, fl_orders. cbn. rewrite Hf. split_and!; try done. cbn. by rewrite <-app_assoc.
Qed.

Lemma both_halves_id oid s o d : both_halves oid s = Some (o, d) → o_id o = oid ∧ dl_id d = oid.
Proof. intros [[_ Ho]%get_row_Some [_ Hd]%get_row_Some]%both_halves_Some. done. Qed.

(** The writes of a delivery before the capture: their run, and what is left to settle. *)
Lemma deliver_effects_total oid o d s :
  fleet_ok s → both_halves oid s = Some (o, d) → o_status o = DELIVERED →
  ∃ s2, fl_bills s2 = fl_bills s ∧ outside s2 = outside s ∧ fl_now s2 = fl_now s ∧
    view (Lens := fleet_pay_lens) s2 = view (Lens := fleet_pay_lens) s ∧
    both_halves oid s2 = Some (o, stamped (fl_now s) d) ∧ stop_closed oid (fl_now s) s s2 ∧
    (∀ t, tracking_of oid s = Some t → ∃ t', get_row (ot_id t) (trackings s2) = Some t' ∧
      ot_status t' = TRACKING_EXPIRED ∧ is_tracking_accessible t' (fl_now s) = false) ∧
    deliver_effects oid (fl_now s) d s = zoom FleetPayRaised (capture_on_deliver oid "system") s2.
Proof.
  intros Hok Hb Hst. pose proof (both_halves_Some _ _ _ _ Hb) as [Ho Hd].
  set (now := fl_now s). set (s0 := with_deliveries (set_row (stamped now d) (deliveries s)) s).
  assert (Hok0 : fleet_ok s0).
  { unfold fleet_ok; cbn. rewrite (set_as_map (stamped now) (deliveries s) oid d); [|by destruct Hok|done|done].
    apply (inv_delivery _ _ _ _ Hok); done. }
  destruct (stamp_run oid now s0) as (s1 & Hstamp & Haft).
  destruct (after_stop_ok oid now s0 s1 o Ho) as (Hok1 & Hos1 & Hds1); [by rewrite Hst|done..|].
  destruct (stop_tracking_run oid TRACKING_EXPIRED s1) as (t & Htr & Hts).
  assert (Hsame : fl_loyalty s1 = fl_loyalty s ∧ fl_bills s1 = fl_bills s ∧ outside s1 = outside s ∧ trackings s1 = trackings s).
  { unfold after_stop in Haft. destruct (stop_of oid s0); [|by subst]. destruct (forallb _ _); [|by subst].
    destruct (get_row _ (batches s0)) as [ba|]; [|by subst]. destruct (get_row (ba_rider_id ba) (riders s0)); by subst. }
  destruct Hsame as (Hlo & Hbi & Hout & Htrk). exists (with_trackings t s1). split_and!; try done.
  - unfold fl_now. cbn. by rewrite Hlo.
  - cbn. by rewrite Hlo, Hbi.
  - apply both_halves_intro; cbn; [exact (eq_trans (f_equal (get_row oid) Hos1) Ho)|].
    rewrite Hds1. apply (get_row_set_eq oid (stamped now d) d); [by apply get_row_Some in Hd as [_ ?]|done].
  - destruct (after_stop_closed oid now s0 s1 Hok0 Haft) as [H1 H2 H3 H4]. by split.
  - intros x Hx. unfold tracking_of in Hts. rewrite Htrk in Hts. destruct (Hts x Hx) as (x' & ? & ? & Hacc). exists x'.
    split_and!; try done. unfold fl_now in Hacc. by rewrite Hlo in Hacc.
  - unfold deliver_effects, set_delivery, _complete_batch_order. erewrite bind_run_Ok by reflexivity.
    change (with_deliveries _ s) with s0. unfold mbind at 1 3, M_bind at 1 3. rewrite Hstamp. cbn [mret M_ret].
    unfold mbind, M_bind. by rewrite Htr.
Qed.

(** C13. Handing an order over.  An order that is not arriving cannot be delivered, and
    one that requires the customer's code cannot be delivered before the code was
    verified; both refusals change nothing.  Otherwise the delivery stands or falls with
    the capture of the store credit held for the order, run on the session's money as it
    was.  When the capture succeeds the order is delivered and stamped, late exactly when
    its deadline has passed; its stop is handled and, when every other stop of the batch
    was handled before, the batch is completed and its rider available; its tracking page
    is closed.  No exception of the loyalty programme undoes any of this: only a violated
    constraint, which takes the whole transaction down. *)
Theorem delivery_settles oid s o d :
  fleet_ok s → both_halves oid s = Some (o, d) →
  let run := advance_delivery tokens randbelow oid DELIVERED s in
  (o_status o ≠ ARRIVING → run = Err (CannotMove oid (o_status o) DELIVERED) s) ∧
  (o_status o = ARRIVING → otp_required_at_deliver d = true → delivery_otp_verified_at d = None →
     run = Err (OtpRequired oid) s) ∧
  (o_status o = ARRIVING → (otp_required_at_deliver d = true → delivery_otp_verified_at d ≠ None) →
     match capture_on_deliver oid "system" (view (Lens := fleet_pay_lens) s) with
     | Err e _ => ∃ s', run = Err (FleetPayRaised e) s'
     | Ok _ p => ∃ s', run = Err SessionRolledBack s' ∨ run = Ok tt s' ∧ delivered_state oid o d p s s'
     end).
Proof.
  intros Hok Hb run. pose proof (both_halves_id _ _ _ _ Hb) as [Hoid Hdid].
  assert (Hrun : run = (if negb (bool_decide (DELIVERED ∈ _DELIVERY_FSM (o_status o)))
    then Err (CannotMove oid (o_status o) DELIVERED) s else if negb (assert_otp_satisfied d) then Err (OtpRequired oid) s
    else (deliver_effects oid (fl_now s) d ≫= λ _,
      _ ← audit "rider" (o_restaurant_id o) "order" (pretty oid) "state_transition"
            (Some (status_json (o_status o))) (Some (status_json DELIVERED));
      zoom FleetFsmRaised (recompute_customer_stats (o_customer_id o)) ≫= λ _,
      (loyalty_never_blocks tokens o ≫= λ _, call_outside (MarketingDelivered oid)) ≫= λ _,
      notify_partner oid DELIVERED) (restatus oid DELIVERED s))).
  { unfold run, advance_delivery. erewrite bind_run_Ok by reflexivity. cbv beta. rewrite Hb.
    destruct (negb (bool_decide _)); [done|]. rewrite bool_decide_eq_true_2 by done. cbn [andb].
    destruct (negb _); [done|]. erewrite bind_run_Ok by reflexivity. cbv beta.
    rewrite (bind_run_Ok _ _ _ _ _ (assign_status_run _ _ _)). rewrite bool_decide_eq_false_2 by done. reflexivity. }
  clearbody run. split_and!.
  - intros Hne. rewrite Hrun, bool_decide_eq_false_2; [done|]. intros Hin. apply next_is_delivery in Hin as [_ Hin].
    by apply Hne, Hin.
  - intros Har Hreq Hv. rewrite Hrun, Har. cbn. unfold assert_otp_satisfied. by rewrite Hreq, Hv.
  - intros Har Hcode. rewrite Har in Hrun.
    assert (Hotp : assert_otp_satisfied d = true).
    { unfold assert_otp_satisfied. destruct (otp_required_at_deliver d); [|done]. cbn.
      by rewrite bool_decide_eq_false_2 by by apply Hcode. }
    rewrite bool_decide_eq_true_2 in Hrun by (cbn; set_solver). rewrite Hotp in Hrun. cbn [negb] in Hrun.
    pose proof (both_halves_Some _ _ _ _ Hb) as [Ho Hd].
    assert (Hok1 : fleet_ok (restatus oid DELIVERED s)) by (apply (restatus_ok _ _ _ o d); by rewrite ?Har).
    destruct (deliver_effects_total oid (with_status DELIVERED o) d (restatus oid DELIVERED s))
      as (s2 & Hbi & Hout & Hnow & Hview & Hb2 & Hstop & Htr & Heff); [done| |done|].
    { apply both_halves_intro; [by apply get_restatus|exact Hd]. }
    change (fl_now (restatus oid DELIVERED s)) with (fl_now s) in *.
    unfold mbind at 1, M_bind at 1 in Hrun. rewrite Heff in Hrun. unfold zoom at 1 in Hrun. rewrite Hview in Hrun.
    change (view (restatus oid DELIVERED s)) with (view (Lens := fleet_pay_lens) s) in Hrun.
    destruct (capture_on_deliver oid "system" _) as [[] p|e p]; [|by eexists].
    destruct (delivery_tail_run o DELIVERED (put p s2)) as (r & Htail & Hr). rewrite Hoid, Har in Htail.
    rewrite Htail in Hrun. destruct r as [[] s'|e s']; [|exists s'; left; by subst]. exists s'. right. split; [done|].
    destruct Hr as ((E1 & E2 & E3 & E4) & E5 & E6 & E7 & E8). split.
    + destruct (both_halves_Some _ _ _ _ Hb2) as [G1 G2]. apply both_halves_intro; [by rewrite E1|by rewrite E2].
    + destruct Hstop as [H1 H2 H3 H4]. cbn in E3, E4, E5. rewrite <-E3, <-E4, <-E5 in *. by split.
    + exact E7.
    + intros t Ht. rewrite E6. by apply Htr.
    + rewrite E8, Hoid. cbn. by rewrite Hout.
Qed.
End facts.
