(* ===== verification/Optimizer.v ===== *)
(** * The dispatch optimizer ([app.dispatch.optimizer])

    Priority orders get a rider of their own; the others become a vehicle routing problem
    that OR-Tools solves.  The model handed to the solver is built as in the code, and the
    solver is a parameter: a function of that model which runs out of time, finds nothing,
    or returns the visits of every vehicle. *)

From Stdlib Require Import SpecFloat.
From S2P Require Import Prelude Money Floats Clock Batching.

(** ** Data *)

Definition _SCALE : Z := 100.
Definition _DROP_PENALTY : Z := 10000000.
Definition _LOCKED_DROP_PENALTY : Z := 100000000.

Record OptOrder := {
  op_order_id : Z; op_at : point; op_minutes_elapsed : float; op_priority : string;
  op_locked_rider_id : option Z;
}.
Record OptRider := { or_rider_id : Z; or_at : point; or_active_load : Z }.
Record OptRoute := { rt_rider_id : Z; rt_order_ids : list Z; rt_projected_minutes : list (Z * float) }.
Record OptPlan := { pl_routes : list OptRoute; pl_unassigned : list Z }.

(** [route.projected_minutes.get(oid, 0)]. *)
Definition projected_of (r : OptRoute) (oid : Z) : option float :=
  snd <$> List.find (λ p, fst p =? oid) (rt_projected_minutes r).

(** *** The model of the solver *)

(** A node: the bound on its cumulated time, the vehicle it is pinned to, and what
    dropping it costs. *)
Record vrp_node := { nd_budget : Z; nd_vehicle : option nat; nd_penalty : Z }.
Record vrp_model := {
  vm_matrix : list (list Z);
  vm_vehicles : nat;
  vm_horizon : Z;
  vm_nodes : list vrp_node;
  vm_time_limit : Z;
}.
(** A visit: the node (from 1, the depot is 0) and the cumulated time there. *)
Inductive vrp_outcome :=
| TimedOut
| NoSolution
| Solution (visits : list (list (nat * Z))).

(** What the constraints given to the solver say of a solution: a visited node is one of
    the nodes, it is visited once, within its bound, by the vehicle it is pinned to. *)
Record vrp_solves (m : vrp_model) (visits : list (list (nat * Z))) : Prop := {
  vs_vehicles : length visits = vm_vehicles m;
  vs_nodes : ∀ n c, (n, c) ∈ concat visits → (1 ≤ n ≤ length (vm_nodes m))%nat;
  vs_once : NoDup (fst <$> concat visits);
  vs_budget : ∀ n c nd, (n, c) ∈ concat visits → vm_nodes m !! (n - 1)%nat = Some nd → c ≤ nd_budget nd;
  vs_pinned : ∀ v l n c nd w, visits !! v = Some l → (n, c) ∈ l → vm_nodes m !! (n - 1)%nat = Some nd →
    nd_vehicle nd = Some w → v = w;
}.

(** ** Building the plan *)

(** [int(round(x))]: half to even. *)
Definition round_int (x : float) : Z := quantize_to 1 (Q_of_float x).

Section optimizer.
Context (great_circle : point → point → float) (CITY_SPEED_KMH : float).
Context (geo_provider : option geo_port).
(** The provider's matrix of minutes, when it has one. *)
Context (distance_matrix : option (list point → list (list float))).
Context (solve : vrp_model → vrp_outcome).
Context (customer_sla_min : Z).

Definition leg (a b : point) : float := _leg_minutes great_circle CITY_SPEED_KMH geo_provider a b.

Definition _budget_units (o : OptOrder) : Z :=
  let remaining := fsub (fint customer_sla_min) (op_minutes_elapsed o) in
  if remaining <=f fzero then 0 else default 0 (ftrunc (fmul remaining (fint _SCALE))).

(** [sorted(..., key=minutes_elapsed, reverse=True)]: stable. *)
Definition tightest_first (l : list OptOrder) : list OptOrder :=
  sort_by (λ a b, negb (op_minutes_elapsed a <f op_minutes_elapsed b)) l.

(** [min(free, key=(leg, load))]: tuples compare by the first component that differs. *)
Definition nearer (origin : point) (a b : OptRider) : bool :=
  let la := leg (or_at a) origin in let lb := leg (or_at b) origin in
  if SFeqb la lb then or_active_load a <? or_active_load b else la <f lb.
Fixpoint nearest (origin : point) (best : OptRider) (l : list OptRider) : OptRider :=
  match l with
  | [] => best
  | r :: l' => nearest origin (if nearer origin r best then r else best) l'
  end.

(** The loop over the priority orders: routes, dropped orders, riders used. *)
Fixpoint serve_priority (origin : point) (riders : list OptRider) (l : list OptOrder) (used : list Z)
    : list OptRoute * list Z * list Z :=
  match l with
  | [] => ([], [], used)
  | o :: l' =>
      let skip := let '(routes, dropped, u) := serve_priority origin riders l' used in
                  (routes, op_order_id o :: dropped, u) in
      match List.filter (λ r, negb (bool_decide (or_rider_id r ∈ used))) riders with
      | [] => skip
      | r :: free =>
          let projected := fadd (op_minutes_elapsed o) (leg origin (op_at o)) in
          if fint customer_sla_min <f projected then skip else
          let best := nearest origin r free in
          let '(routes, dropped, u) := serve_priority origin riders l' (or_rider_id best :: used) in
          ({| rt_rider_id := or_rider_id best; rt_order_ids := [op_order_id o];
              rt_projected_minutes := [(op_order_id o, projected)] |} :: routes, dropped, u)
      end
  end.
Definition _assign_priority (origin : point) (riders : list OptRider) (l : list OptOrder) : list OptRoute * list Z * list Z :=
  serve_priority origin riders (tightest_first l) [].

(** The travel times, in hundredths of a minute. *)
Definition entry (minutes : nat → nat → float) (i j : nat) : Z :=
  if (i =? j)%nat then 0 else round_int (fmul (minutes i j) (fint _SCALE)).
Definition travel_matrix (points : list point) (origin : point) : list (list Z) :=
  let n := length points in
  let at_ i := default origin (points !! i) in
  let minutes i j :=
    match distance_matrix with
    | Some dm => default fzero (default [] (dm points !! i) !! j)
    | None => leg (at_ i) (at_ j)
    end in
  (λ i, (λ j, entry minutes i j) <$> seq 0 n) <$> seq 0 n.

Definition vehicle_of (riders : list OptRider) (rider_id : Z) : option nat :=
  fst <$> list_find (λ r, or_rider_id r = rider_id) riders.
Definition node_of (riders : list OptRider) (o : OptOrder) : vrp_node :=
  let pinned := op_locked_rider_id o ≫= vehicle_of riders in
  {| nd_budget := _budget_units o; nd_vehicle := pinned;
     nd_penalty := match pinned with Some _ => _LOCKED_DROP_PENALTY | None => _DROP_PENALTY end |}.
Definition model_of (origin : point) (riders : list OptRider) (normal : list OptOrder) (time_limit : Z) : vrp_model :=
  {| vm_matrix := travel_matrix (origin :: (op_at <$> normal)) origin;
     vm_vehicles := length riders;
     vm_horizon := customer_sla_min * _SCALE;
     vm_nodes := node_of riders <$> normal;
     vm_time_limit := time_limit |}.

(** The visits of one vehicle as a route. *)
Definition visited (normal : list OptOrder) (l : list (nat * Z)) : list (OptOrder * Z) :=
  omap (λ v, o ← normal !! (fst v - 1)%nat; Some (o, snd v)) l.
Definition read_route (normal : list OptOrder) (r : OptRider) (l : list (nat * Z)) : OptRoute :=
  let stops := visited normal l in
  {| rt_rider_id := or_rider_id r; rt_order_ids := (λ v, op_order_id (fst v)) <$> stops;
     rt_projected_minutes :=
       (λ v, (op_order_id (fst v), fadd (op_minutes_elapsed (fst v)) (float_of_Q (snd v # 100)))) <$> stops |}.
Definition read_routes (normal : list OptOrder) (riders : list OptRider) (visits : list (list (nat * Z))) : list OptRoute :=
  List.filter (λ r, negb (bool_decide (rt_order_ids r = []))) (zip_with (read_route normal) riders visits).

Definition is_normal (o : OptOrder) : bool := op_priority o =s "normal".

(** [None]: the solve ran out of the time its caller allows. *)
Definition optimize_dispatch (orders : list OptOrder) (riders : list OptRider) (origin : point) (time_limit : Z)
    : option OptPlan :=
  match orders with
  | [] => Some {| pl_routes := []; pl_unassigned := [] |}
  | _ =>
      let normal := List.filter is_normal orders in
      let '(prio_routes, prio_dropped, used) :=
        _assign_priority origin riders (List.filter (λ o, negb (is_normal o)) orders) in
      let vrp_riders := List.filter (λ r, negb (bool_decide (or_rider_id r ∈ used))) riders in
      let all_dropped := {| pl_routes := prio_routes; pl_unassigned := prio_dropped ++ (op_order_id <$> normal) |} in
      match normal, vrp_riders with
      | [], _ => Some {| pl_routes := prio_routes; pl_unassigned := prio_dropped |}
      | _, [] => Some all_dropped
      | _, _ =>
          match solve (model_of origin vrp_riders normal time_limit) with
          | TimedOut => None
          | NoSolution => Some all_dropped
          | Solution visits =>
              let routes := read_routes normal vrp_riders visits in
              let served := concat (rt_order_ids <$> routes) in
              Some {| pl_routes := prio_routes ++ routes;
                      pl_unassigned := prio_dropped ++ List.filter (λ i, negb (bool_decide (i ∈ served))) (op_order_id <$> normal) |}
          end
      end
  end.
End optimizer.

#[global] Arguments _budget_units : simpl never.
#[global] Arguments travel_matrix : simpl never.
#[global] Arguments visited : simpl never.

(** ** What a plan does with the orders *)

Section facts.
Context (great_circle : point → point → float) (CITY_SPEED_KMH : float) (geo_provider : option geo_port).
Context (distance_matrix : option (list point → list (list float))) (solve : vrp_model → vrp_outcome).
Context (customer_sla_min : Z).

Definition routed (p : OptPlan) : list Z := concat (rt_order_ids <$> pl_routes p).

Lemma serve_priority_spec origin riders l : ∀ used routes dropped used',
  serve_priority great_circle CITY_SPEED_KMH geo_provider customer_sla_min origin riders l used = (routes, dropped, used') →
  concat (rt_order_ids <$> routes) ++ dropped ≡ₚ op_order_id <$> l ∧
  NoDup (rt_rider_id <$> routes) ∧
  (∀ r, r ∈ routes → rt_rider_id r ∈ (or_rider_id <$> riders) ∧ rt_rider_id r ∉ used ∧ rt_rider_id r ∈ used') ∧
  (∀ i, i ∈ used → i ∈ used') ∧
  (∀ i, i ∈ used' → i ∈ used ∨ ∃ r, r ∈ routes ∧ rt_rider_id r = i) ∧
  (∀ r, r ∈ routes → ∃ o, o ∈ l ∧ rt_order_ids r = [op_order_id o]).
Proof.
  induction l as [|o l IH]; intros used routes dropped used'; cbn.
  { intros [= <- <- <-]. cbn. split_and!; [done|constructor|by intros r ?%elem_of_nil|done|auto|by intros r ?%elem_of_nil]. }
  set (free := List.filter _ riders).
  assert (Hskip : ∀ x, (let '(routes, dropped, u) := serve_priority great_circle CITY_SPEED_KMH geo_provider customer_sla_min origin riders l used
      in (routes, op_order_id o :: dropped, u)) = x → x = (routes, dropped, used') →
    concat (rt_order_ids <$> routes) ++ dropped ≡ₚ op_order_id o :: (op_order_id <$> l) ∧
    NoDup (rt_rider_id <$> routes) ∧
    (∀ r, r ∈ routes → rt_rider_id r ∈ (or_rider_id <$> riders) ∧ rt_rider_id r ∉ used ∧ rt_rider_id r ∈ used') ∧
    (∀ i, i ∈ used → i ∈ used') ∧
    (∀ i, i ∈ used' → i ∈ used ∨ ∃ r, r ∈ routes ∧ rt_rider_id r = i) ∧
    (∀ r, r ∈ routes → ∃ o', o' ∈ o :: l ∧ rt_order_ids r = [op_order_id o'])).
  { intros x <-. destruct (serve_priority _ _ _ _ _ _ l used) as [[rs ds] u] eqn:Hl. intros [= <- <- <-].
    destruct (IH _ _ _ _ Hl) as (Hp & Hn & Hr & Hu & Hw & Ho). split_and!; try done.
    - rewrite <-Hp. symmetry. apply Permutation_middle.
    - intros r Hin. destruct (Ho r Hin) as (o' & ? & ?). exists o'. split; [by right|done]. }
  destruct free as [|r fr] eqn:Hfree; [by apply Hskip|].
  destruct (fint customer_sla_min <f _); [by apply Hskip|]. clear Hskip.
  assert (Hbest : nearest great_circle CITY_SPEED_KMH geo_provider origin r fr ∈ free).
  { rewrite Hfree. clear. revert r. induction fr as [|x fr IHf]; intros r; cbn; [set_solver|].
    specialize (IHf (if nearer great_circle CITY_SPEED_KMH geo_provider origin x r then x else r)).
    destruct (nearer _ _ _ _ _ _); set_solver. }
  rewrite Hfree in Hbest. set (best := nearest _ _ _ _ _ _) in *.
  assert (Hb : best ∈ riders ∧ or_rider_id best ∉ used).
  { rewrite <-Hfree in Hbest. unfold free in Hbest. rewrite list_elem_of_In, List.filter_In, <-list_elem_of_In in Hbest.
    destruct Hbest as [? Hneg]. zbool. done. }
  destruct (serve_priority _ _ _ _ _ _ l _) as [[rs ds] u] eqn:Hl. intros [= <- <- <-].
  destruct (IH _ _ _ _ Hl) as (Hp & Hn & Hr & Hu & Hw & Ho). split_and!.
  - cbn. by rewrite Hp.
  - cbn. apply NoDup_cons. split; [|done]. intros (x & Hx & Hin)%list_elem_of_fmap.
    destruct (Hr x Hin) as (_ & Hnot & _). apply Hnot. rewrite <-Hx. set_solver.
  - intros x [->|Hin]%elem_of_cons; cbn.
    + split_and!; [apply list_elem_of_fmap; exists best; tauto|tauto|apply Hu; set_solver].
    + destruct (Hr x Hin) as (? & ? & ?). split_and!; [done|set_solver|done].
  - intros i Hi. apply Hu. set_solver.
  - intros i Hi. destruct (Hw i Hi) as [[->|?]%elem_of_cons|(x & ? & ?)]; [right; eexists; split; [by left|done]|by left|].
    right. exists x. split; [by right|done].
  - intros x [->|Hin]%elem_of_cons; cbn; [exists o; split; [by left|done]|].
    destruct (Ho x Hin) as (o' & ? & ?). exists o'. split; [by right|done].
Qed.

(** Reading the visits back. *)
Lemma visited_app normal l1 l2 : visited normal (l1 ++ l2) = visited normal l1 ++ visited normal l2.
Proof. apply omap_app. Qed.
Lemma visited_cons normal n c l :
  visited normal ((n, c) :: l) =
    match normal !! (n - 1)%nat with Some o => (o, c) :: visited normal l | None => visited normal l end.
Proof. unfold visited. cbn. by destruct (normal !! _). Qed.
Lemma read_routes_orders normal : ∀ (riders : list OptRider) visits,
  length visits = length riders →
  concat (rt_order_ids <$> read_routes normal riders visits) = (λ v, op_order_id (fst v)) <$> visited normal (concat visits).
Proof.
  unfold read_routes. induction riders as [|r riders IH]; intros [|v visits] Hlen; cbn in *; try lia; [done|].
  rewrite visited_app, fmap_app, <-IH by lia. unfold read_route at 1.
  by destruct (visited normal v).
Qed.

Lemma visited_lookup normal l o c :
  (o, c) ∈ visited normal l ↔ ∃ n, (n, c) ∈ l ∧ normal !! (n - 1)%nat = Some o.
Proof.
  unfold visited. rewrite list_elem_of_omap. split.
  - intros ([n c'] & Hin & Hv). cbn in Hv. destruct (normal !! (n - 1)%nat) eqn:Hn; [|done].
    injection Hv as -> ->. eauto.
  - intros (n & Hin & Hn). exists (n, c). split; [done|]. cbn. by rewrite Hn.
Qed.

Lemma visited_NoDup normal l :
  NoDup (op_order_id <$> normal) → NoDup (fst <$> l) → (∀ n c, (n, c) ∈ l → (1 ≤ n)%nat) →
  NoDup ((λ v : OptOrder * Z, op_order_id (fst v)) <$> visited normal l).
Proof.
  intros Hids. induction l as [|[n c] l IH]; [constructor|]. rewrite visited_cons. cbn. intros [Hn Hnd]%NoDup_cons Hpos.
  assert (IH' := IH Hnd (λ n c Hin, Hpos n c (list_elem_of_further _ _ _ Hin))).
  destruct (normal !! (n - 1)%nat) as [o|] eqn:Ho; [|exact IH']. cbn. apply NoDup_cons. split; [|exact IH'].
  intros ([o' c'] & Heq & (n' & Hin & Ho')%visited_lookup)%list_elem_of_fmap. cbn in Heq.
  assert (n = n') as <-; [|apply Hn, list_elem_of_fmap; by exists (n, c')].
  assert (H1 : (op_order_id <$> normal) !! (n - 1)%nat = Some (op_order_id o)) by by rewrite list_lookup_fmap, Ho.
  assert (H2 : (op_order_id <$> normal) !! (n' - 1)%nat = Some (op_order_id o)) by by rewrite list_lookup_fmap, Ho', Heq.
  pose proof (NoDup_lookup _ _ _ _ Hids H1 H2). pose proof (Hpos n c ltac:(set_solver)).
  pose proof (Hpos n' c' ltac:(set_solver)). lia.
Qed.

(** What was served and what was not, together, are the orders. *)
Lemma served_or_not (served ids : list Z) :
  NoDup served → NoDup ids → (∀ i, i ∈ served → i ∈ ids) →
  served ++ List.filter (λ i, negb (bool_decide (i ∈ served))) ids ≡ₚ ids.
Proof.
  intros Hs Hi Hsub. apply NoDup_Permutation; [|done|].
  - apply NoDup_app. split_and!; [done| |by apply NoDup_ListNoDup, List.NoDup_filter, NoDup_ListNoDup].
    intros x Hx Hf. rewrite list_elem_of_In, List.filter_In in Hf. destruct Hf as [_ Hf]. by zbool.
  - intros x. rewrite elem_of_app, !list_elem_of_In, List.filter_In, <-!list_elem_of_In. split.
    + intros [Hx|[Hx _]]; auto.
    + intros Hx. destruct (decide (x ∈ served)); [by left|right]. by rewrite bool_decide_eq_false_2.
Qed.

Abbreviation optimize := (optimize_dispatch great_circle CITY_SPEED_KMH geo_provider distance_matrix solve customer_sla_min).

Lemma read_routes_in normal : ∀ (riders : list OptRider) visits r,
  r ∈ read_routes normal riders visits →
  ∃ v rd l, riders !! v = Some rd ∧ visits !! v = Some l ∧ r = read_route normal rd l.
Proof.
  unfold read_routes. induction riders as [|x riders IH]; intros [|v visits] r; cbn; try by intros ?%elem_of_nil.
  intros Hin. destruct (negb _); [apply elem_of_cons in Hin as [->|Hin]; [by exists 0%nat, x, v|]|];
    (destruct (IH _ _ Hin) as (k & rd & l & ? & ? & ?); by exists (S k), rd, l).
Qed.
End facts.

(** The rider of an order's lock, or a priority order took that rider. *)
Definition lock_kept (orders : list OptOrder) (plan : OptPlan) (r : OptRoute) (w : Z) : Prop :=
  rt_rider_id r = w ∨ ∃ r' o', r' ∈ pl_routes plan ∧ rt_rider_id r' = w ∧ o' ∈ orders ∧
    is_normal o' = false ∧ rt_order_ids r' = [op_order_id o'].

Lemma split_normal (orders : list OptOrder) :
  List.filter (λ o, negb (is_normal o)) orders ++ List.filter is_normal orders ≡ₚ orders.
Proof.
  induction orders as [|o l IH]; cbn; [done|]. destruct (is_normal o); cbn; [|by rewrite IH].
  rewrite <-Permutation_middle. by rewrite IH.
Qed.

(** A plan loses no order and doubles none; a rider gets one route; a normal order is on a
    route within its deadline, by the rider it is locked to. *)
Definition plan_sound (sla : Z) (orders : list OptOrder) (riders : list OptRider) (plan : OptPlan) : Prop :=
  routed plan ++ pl_unassigned plan ≡ₚ op_order_id <$> orders ∧
  NoDup (rt_rider_id <$> pl_routes plan) ∧
  (∀ r, r ∈ pl_routes plan → rt_rider_id r ∈ (or_rider_id <$> riders)) ∧
  (∀ r o, r ∈ pl_routes plan → o ∈ orders → is_normal o = true → op_order_id o ∈ rt_order_ids r →
     (∃ c, (op_order_id o, fadd (op_minutes_elapsed o) (float_of_Q (c # 100))) ∈ rt_projected_minutes r ∧
           c ≤ _budget_units sla o) ∧
     ∀ w, op_locked_rider_id o = Some w → w ∈ (or_rider_id <$> riders) → lock_kept orders plan r w).

Definition normals (orders : list OptOrder) : list OptOrder := List.filter is_normal orders.
Definition priorities (orders : list OptOrder) : list OptOrder := List.filter (λ o, negb (is_normal o)) orders.

(** What the routes of the normal orders keep to. *)
Definition route_kept (sla : Z) (riders : list OptRider) (used : list Z) (r : OptRoute) (o : OptOrder) : Prop :=
  (∃ c, (op_order_id o, fadd (op_minutes_elapsed o) (float_of_Q (c # 100))) ∈ rt_projected_minutes r ∧
        c ≤ _budget_units sla o) ∧
  ∀ w, op_locked_rider_id o = Some w → w ∈ (or_rider_id <$> riders) → rt_rider_id r = w ∨ w ∈ used.

(** The priority routes [prs] followed by routes [rs] of the normal orders. *)
Section plan.
Context (great_circle : point → point → float) (speed : float) (geo : option geo_port) (sla : Z) (origin : point).
Context (orders : list OptOrder) (riders : list OptRider) (prs : list OptRoute) (drops used : list Z).
Context (Hids : NoDup (op_order_id <$> orders)).
Context (Hp : _assign_priority great_circle speed geo sla origin riders (priorities orders) = (prs, drops, used)).

Lemma in_normals o : o ∈ normals orders ↔ o ∈ orders ∧ is_normal o = true.
Proof. unfold normals. by rewrite !list_elem_of_In, List.filter_In. Qed.
Lemma ids_split : (op_order_id <$> priorities orders) ++ (op_order_id <$> normals orders) ≡ₚ op_order_id <$> orders.
Proof. rewrite <-fmap_app. apply fmap_Permutation, split_normal. Qed.
Lemma priority_ids : concat (rt_order_ids <$> prs) ++ drops ≡ₚ op_order_id <$> priorities orders.
Proof. destruct (serve_priority_spec _ _ _ _ _ _ _ _ _ _ _ Hp) as [-> _]. apply fmap_Permutation, sort_by_perm. Qed.
Lemma priority_route_not_normal r o : r ∈ prs → o ∈ normals orders → op_order_id o ∉ rt_order_ids r.
Proof.
  intros Hr Ho Hin. pose proof Hids as Hnd. rewrite <-ids_split in Hnd. apply NoDup_app in Hnd as (_ & Hdis & _).
  apply (Hdis (op_order_id o)); [|apply list_elem_of_fmap; by exists o].
  rewrite <-priority_ids. apply elem_of_app. left. apply list_elem_of_In, in_concat. exists (rt_order_ids r).
  split; [|by apply list_elem_of_In]. apply list_elem_of_In, list_elem_of_fmap. by exists r.
Qed.
Lemma used_by_priority w : w ∈ used → ∃ r' o', r' ∈ prs ∧ rt_rider_id r' = w ∧ o' ∈ orders ∧
  is_normal o' = false ∧ rt_order_ids r' = [op_order_id o'].
Proof.
  intros Hu. destruct (serve_priority_spec _ _ _ _ _ _ _ _ _ _ _ Hp) as (_ & _ & _ & _ & Hpu & Hpo).
  destruct (Hpu w Hu) as [?%elem_of_nil|(r' & Hr' & Hrw)]; [done|]. destruct (Hpo r' Hr') as (o' & Ho' & Hio').
  unfold tightest_first in Ho'. apply elem_of_sort_by, list_elem_of_In, List.filter_In in Ho' as [Hio Hno].
  exists r', o'. split_and!; [done..|by apply list_elem_of_In|by apply negb_true_iff|done].
Qed.

Lemma plan_closes rs un (plan := {| pl_routes := prs ++ rs; pl_unassigned := drops ++ un |}) :
  concat (rt_order_ids <$> rs) ++ un ≡ₚ op_order_id <$> normals orders → NoDup (rt_rider_id <$> rs) →
  (∀ r, r ∈ rs → rt_rider_id r ∈ (or_rider_id <$> riders) ∧ rt_rider_id r ∉ used) →
  (∀ r o, r ∈ rs → o ∈ normals orders → op_order_id o ∈ rt_order_ids r → route_kept sla riders used r o) →
  plan_sound sla orders riders plan.
Proof.
  intros H1 H2 H3 H4. destruct (serve_priority_spec _ _ _ _ _ _ _ _ _ _ _ Hp) as (_ & Hpn & Hpr & _). split_and!.
  - unfold routed; cbn. rewrite fmap_app, concat_app, <-ids_split, <-priority_ids, <-H1, <-!(assoc_L (++)).
    apply Permutation_app_head. rewrite !(assoc_L (++)). apply Permutation_app_tail, Permutation_app_comm.
  - cbn. rewrite fmap_app. apply NoDup_app. split_and!; [done| |done].
    intros i (r & -> & Hr)%list_elem_of_fmap (r' & Heq & Hr')%list_elem_of_fmap.
    destruct (Hpr r Hr) as (_ & _ & Hu), (H3 r' Hr') as [_ Hnu]. congruence.
  - intros r [Hr|Hr]%elem_of_app; [by apply Hpr|by apply H3].
  - intros r o Hr Ho Hn Hin. assert (Hon : o ∈ normals orders) by by apply in_normals.
    apply elem_of_app in Hr as [Hr|Hr]; [by destruct (priority_route_not_normal r o Hr Hon)|].
    destruct (H4 r o Hr Hon Hin) as [Hc Hl]. split; [done|]. intros w Hw Hwr.
    destruct (Hl w Hw Hwr) as [?|Hu]; [by left|right].
    destruct (used_by_priority w Hu) as (r' & o' & ? & ? & ? & ? & ?). exists r', o'.
    split_and!; [by apply elem_of_app; left|done..].
Qed.

(** The routes read from a solution. *)
Definition left_riders : list OptRider := List.filter (λ r, negb (bool_decide (or_rider_id r ∈ used))) riders.
Lemma in_left_riders r : r ∈ left_riders ↔ r ∈ riders ∧ or_rider_id r ∉ used.
Proof.
  unfold left_riders. by rewrite list_elem_of_In, List.filter_In, <-!list_elem_of_In, negb_true_iff, bool_decide_eq_false.
Qed.

Lemma solution_kept dm limit visits r o :
  NoDup (or_rider_id <$> riders) →
  vrp_solves (model_of great_circle speed geo dm sla origin left_riders (normals orders) limit) visits →
  r ∈ read_routes (normals orders) left_riders visits → o ∈ normals orders → op_order_id o ∈ rt_order_ids r →
  route_kept sla riders used r o.
Proof.
  intros Hrids Hsol Hr Ho Hin. destruct (read_routes_in _ _ _ _ Hr) as (v & rd & l & Hrd & Hl & ->). cbn in Hin.
  apply list_elem_of_fmap in Hin as ([o' c] & Heq & (n & Hn & Ho')%visited_lookup). cbn in Heq.
  assert (o' = o) as ->.
  { assert (Hnn : NoDup (op_order_id <$> normals orders)).
    { pose proof Hids as Hnd. rewrite <-ids_split in Hnd. by apply NoDup_app in Hnd as (_ & _ & ?). }
    apply list_elem_of_lookup in Ho as [k Hk]. assert ((n - 1)%nat = k) as <-; [|congruence].
    apply (NoDup_lookup _ _ _ (op_order_id o) Hnn); rewrite list_lookup_fmap; [by rewrite Ho', Heq|by rewrite Hk]. }
  assert (Hcat : (n, c) ∈ concat visits).
  { apply list_elem_of_In, in_concat. exists l. rewrite <-!list_elem_of_In. split; [|done]. by apply list_elem_of_lookup_2 in Hl. }
  assert (Hnode : vm_nodes (model_of great_circle speed geo dm sla origin left_riders (normals orders) limit) !! (n - 1)%nat
    = Some (node_of sla left_riders o)) by (cbn; by rewrite list_lookup_fmap, Ho').
  split.
  - exists c. split; [|by apply (vs_budget _ _ Hsol n c _ Hcat Hnode)].
    cbn. apply list_elem_of_fmap. exists (o, c). split; [done|]. apply visited_lookup. eauto.
  - intros w Hw Hwr. destruct (decide (w ∈ used)) as [|Hnu]; [by right|left]. cbn.
    destruct (list_find (λ r, or_rider_id r = w) left_riders) as [[k x]|] eqn:Hf.
    + assert (v = k) as ->.
      { apply (vs_pinned _ _ Hsol v l n c _ k Hl Hn Hnode). cbn. rewrite Hw. cbn. unfold vehicle_of. by rewrite Hf. }
      apply list_find_Some in Hf as (Hx & Hxw & _). congruence.
    + apply list_elem_of_fmap in Hwr as (x & -> & Hx).
      pose proof (list_find_None (λ r, or_rider_id r = or_rider_id x) left_riders) as [Hall _].
      rewrite Forall_forall in Hall. destruct (Hall Hf x); [by apply in_left_riders|done].
Qed.

Lemma solution_routes dm limit visits (rs := read_routes (normals orders) left_riders visits) :
  NoDup (or_rider_id <$> riders) →
  vrp_solves (model_of great_circle speed geo dm sla origin left_riders (normals orders) limit) visits →
  concat (rt_order_ids <$> rs) ++ List.filter (λ i, negb (bool_decide (i ∈ concat (rt_order_ids <$> rs)))) (op_order_id <$> normals orders)
    ≡ₚ op_order_id <$> normals orders ∧
  NoDup (rt_rider_id <$> rs) ∧ (∀ r, r ∈ rs → rt_rider_id r ∈ (or_rider_id <$> riders) ∧ rt_rider_id r ∉ used).
Proof.
  intros Hrids Hsol. pose proof (vs_vehicles _ _ Hsol) as Hlen. cbn in Hlen.
  assert (Hnn : NoDup (op_order_id <$> normals orders)).
  { pose proof Hids as Hnd. rewrite <-ids_split in Hnd. by apply NoDup_app in Hnd as (_ & _ & ?). }
  assert (Hin : ∀ r, r ∈ rs → ∃ x, x ∈ left_riders ∧ rt_rider_id r = or_rider_id x).
  { intros r Hr. destruct (read_routes_in _ _ _ _ Hr) as (v & rd & l & Hrd & _ & ->). exists rd.
    split; [by apply list_elem_of_lookup_2 in Hrd|done]. }
  split_and!.
  - unfold rs. rewrite read_routes_orders by done. apply served_or_not; [|done|].
    + apply visited_NoDup; [done|by destruct Hsol|]. intros n c Hn. by apply (vs_nodes _ _ Hsol n c).
    + intros i ([o c] & -> & (n & _ & Ho)%visited_lookup)%list_elem_of_fmap. apply list_elem_of_fmap. exists o.
      split; [done|]. by apply list_elem_of_lookup_2 in Ho.
  - assert (Hnl : NoDup (or_rider_id <$> left_riders)).
    { unfold left_riders. clear -Hrids. induction riders as [|r l IH]; [constructor|]. cbn in Hrids.
      apply NoDup_cons in Hrids as [Hr Hl]. cbn. destruct (negb _); [|by apply IH]. cbn. apply NoDup_cons. split; [|by apply IH].
      intros (x & Hx & Hin%list_elem_of_In%List.filter_In)%list_elem_of_fmap. destruct Hin as [Hin%list_elem_of_In _].
      apply Hr, list_elem_of_fmap. eauto. }
    unfold rs, read_routes. clear -Hnl. revert visits. generalize (normals orders) as nl. intros nl.
    revert Hnl. generalize left_riders as l. induction l as [|r l IH]; intros Hnl [|v visits]; cbn; try constructor.
    cbn in Hnl. apply NoDup_cons in Hnl as [Hr Hl]. destruct (negb _); [|by apply IH]. cbn. apply NoDup_cons.
    split; [|by apply IH]. intros (x & Hx & Hin)%list_elem_of_fmap.
    destruct (read_routes_in nl l visits x Hin) as (k & rd & l' & Hrd & _ & ->). cbn in Hx. apply Hr.
    rewrite Hx. apply list_elem_of_fmap. exists rd. split; [done|]. by apply list_elem_of_lookup_2 in Hrd.
  - intros r Hr. destruct (Hin r Hr) as (x & [Hx Hu]%in_left_riders & ->). split; [|done].
    apply list_elem_of_fmap. by exists x.
Qed.
End plan.

(** C14. A plan of the optimizer loses no order and doubles none: when the solver keeps to
    the constraints it was given, every order is on exactly one route or reported
    unassigned.  Routes go to riders that were offered, one route a rider.  A normal order
    is only routed within what is left of its customer deadline, in hundredths of a
    minute of driving, and one that is locked to an offered rider goes to no other rider,
    unless a priority order took the rider it is locked to. *)
Theorem plan_partitions great_circle speed geo dm solve sla orders riders origin limit plan :
  NoDup (op_order_id <$> orders) → NoDup (or_rider_id <$> riders) →
  (∀ m visits, solve m = Solution visits → vrp_solves m visits) →
  optimize_dispatch great_circle speed geo dm solve sla orders riders origin limit = Some plan →
  plan_sound sla orders riders plan.
Proof.
  intros Hids Hrids Hsolve. unfold optimize_dispatch. destruct orders as [|o0 os] eqn:Hos.
  { intros [= <-]. unfold plan_sound, routed. cbn.
    split_and!; [done|constructor|by intros r ?%elem_of_nil|by intros r o ?%elem_of_nil]. }
  rewrite <-Hos in *. clear Hos o0 os. fold (normals orders) (priorities orders).
  destruct (_assign_priority _ _ _ _ _ _ _) as [[prs drops] used] eqn:Hp. fold (left_riders riders used).
  assert (Hgo : plan_sound sla orders riders {| pl_routes := prs; pl_unassigned := drops ++ (op_order_id <$> normals orders) |}).
  { rewrite <-(app_nil_r prs). apply (plan_closes _ _ _ _ _ _ _ _ _ _ Hids Hp []);
      [done|constructor|by intros r ?%elem_of_nil|by intros r o ?%elem_of_nil]. }
  destruct (normals orders) as [|n ns] eqn:Hn; [intros [= <-]; by rewrite <-(app_nil_r drops)|].
  destruct (left_riders riders used) as [|v vs] eqn:Hv; [by intros [= <-]|].
  rewrite <-Hn, <-Hv in *. destruct (solve _) as [| |visits] eqn:Hs; [done|by intros [= <-]|].
  apply Hsolve in Hs. intros [= <-]. destruct (solution_routes _ _ _ _ _ _ _ _ Hids _ _ _ Hrids Hs) as (H1 & H2 & H3).
  apply (plan_closes _ _ _ _ _ _ _ _ _ _ Hids Hp _ _ H1 H2 H3).
  intros r o Hr Ho Hin. by apply (solution_kept _ _ _ _ _ _ _ _ Hids _ _ _ _ _ Hrids Hs Hr Ho).
Qed.

(** Three riders, a priority order and two normal ones, the second locked to rider 3. *)
#[global] Instance vrp_node_eq : EqDecision vrp_node.
Proof. solve_decision. Defined.
#[global] Instance vrp_model_eq : EqDecision vrp_model.
Proof. solve_decision. Defined.
Definition spot (n : Z) : point := Point (fint n) (fint n).
Definition shop_riders : list OptRider :=
  (λ i, {| or_rider_id := i; or_at := spot i; or_active_load := 0 |}) <$> [1; 2; 3].
Definition shop_orders : list OptOrder :=
  (λ p, {| op_order_id := fst p; op_at := spot (fst p); op_minutes_elapsed := fint 5;
           op_priority := fst (snd p); op_locked_rider_id := snd (snd p) |})
  <$> [(7, ("normal", None)); (8, ("vip", None)); (9, ("normal", Some 3))].
Definition flat_model : vrp_model :=
  {| vm_matrix := [[0; 400; 400]; [400; 0; 400]; [400; 400; 0]]; vm_vehicles := 2; vm_horizon := 4000;
     vm_nodes := [{| nd_budget := 3500; nd_vehicle := None; nd_penalty := 10000000 |};
                  {| nd_budget := 3500; nd_vehicle := Some 1%nat; nd_penalty := 100000000 |}];
     vm_time_limit := 1 |}.
Definition one_solution (m : vrp_model) : vrp_outcome :=
  if decide (m = flat_model) then Solution [[]; [(2%nat, 400); (1%nat, 800)]] else NoSolution.
Lemma one_solution_solves m visits : one_solution m = Solution visits → vrp_solves m visits.
Proof.
  unfold one_solution. destruct (decide (m = flat_model)) as [->|]; [|done]. intros [= <-]. split; cbn.
  - done.
  - intros n c. rewrite !elem_of_cons, elem_of_nil. intros [[= -> _]|[[= -> _]|[]]]; lia.
  - rewrite !NoDup_cons. split_and!; [set_solver|set_solver|constructor].
  - intros n c nd. rewrite !elem_of_cons, elem_of_nil. intros [[= -> ->]|[[= -> ->]|[]]] [= <-]; cbn; lia.
  - intros [|[|v]] l n c nd w; cbn; [intros [= <-] ?%elem_of_nil; done|intros [= <-]|done].
    rewrite !elem_of_cons, elem_of_nil. intros [[= -> ->]|[[= -> ->]|[]]] [= <-]; by intros [= <-].
Qed.
Lemma plan_partitions_witness :
  let plan := {| pl_routes := [{| rt_rider_id := 1; rt_order_ids := [8]; rt_projected_minutes := [(8, fint 9)] |};
                               {| rt_rider_id := 3; rt_order_ids := [9; 7];
                                  rt_projected_minutes := [(9, fint 9); (7, fint 13)] |}];
                 pl_unassigned := [] |} in
  optimize_dispatch (λ _ _, fint 2) (fint 30) None None one_solution 40 shop_orders shop_riders (spot 0) 1 = Some plan ∧
  plan_sound 40 shop_orders shop_riders plan.
Proof.
  assert (H : optimize_dispatch (λ _ _, fint 2) (fint 30) None None one_solution 40 shop_orders shop_riders (spot 0) 1 = Some
    {| pl_routes := [{| rt_rider_id := 1; rt_order_ids := [8]; rt_projected_minutes := [(8, fint 9)] |};
                     {| rt_rider_id := 3; rt_order_ids := [9; 7]; rt_projected_minutes := [(9, fint 9); (7, fint 13)] |}];
       pl_unassigned := [] |}) by (vm_compute; reflexivity).
  split; [exact H|]. apply (plan_partitions (λ _ _, fint 2) (fint 30) None None one_solution 40 shop_orders shop_riders (spot 0) 1);
    [by apply (bool_decide_unpack _); vm_compute|by apply (bool_decide_unpack _); vm_compute|apply one_solution_solves|exact H].
Defined.
