(* ===== verification/Dispatch.v ===== *)
(** * The dispatch engine ([app.dispatch.service], [app.dispatch.candidate_pool])

    Which ready orders leave with which rider: the pool of orders, the window that holds
    a lone order for a batch mate, the greedy engine, the engine built on the optimizer,
    and the sweep over the restaurants.  The geo provider, the great-circle formula and
    the solver are parameters, and so are the settings.  The advisory lock of the database
    makes the runs of one restaurant follow one another, which is how they are modelled. *)

From Stdlib Require Import SpecFloat.
From S2P Require Import Prelude Money Strings Db AuditTrail Clock Floats OrderFsm Outbox Notify Loyalty Batching Scoring Fleet Optimizer.

(** ** Times as floats *)

(** The minutes the code makes of a time difference. *)
Definition minutes_of (us : Z) : float := fdiv (total_seconds us) (fint 60).
(** [timedelta(minutes=x)] of a finite float: the whole minutes exactly, the fraction as a
    float product, the sum rounded half to even. *)
Definition timedelta_minutes (x : float) : Z :=
  let whole := default 0 (ftrunc x) in
  let part := fmul (fint 60000000) (fsub x (fint whole)) in
  quantize_to 1 (inject_Z (whole * 60000000) + Q_of_float part).

(** ** The order pool ([candidate_pool.py]) *)

Record CandidatePoolResult := {
  cp_candidates : list OrderCandidate;
  cp_skipped_no_geo : list Delivery;
}.
Definition both_rows (s : fleet_db) : list (OrderFsm.Order * Delivery) :=
  omap (λ o, d ← get_row (o_id o) (deliveries s); Some (o, d)) (rows (fl_orders s)).
(** Orders of the restaurant without a rider, in one of the statuses. *)
Definition without_rider (restaurant_id : Z) (sts : list OrderStatus) (s : fleet_db) : list (OrderFsm.Order * Delivery) :=
  List.filter (λ p, (o_restaurant_id (fst p) =? restaurant_id) && bool_decide (dl_rider_id (snd p) = None)
                    && bool_decide (o_status (fst p) ∈ sts)) (both_rows s).
Definition by_order_id (l : list (OrderFsm.Order * Delivery)) : list (OrderFsm.Order * Delivery) :=
  sort_by (λ a b, o_id (fst a) <=? o_id (fst b)) l.

Definition _minutes_since_sla (d : Delivery) (now : Z) : float :=
  match sla_confirmed_at d with
  | None => fzero
  | Some t => fmax fzero (minutes_of (now - t))
  end.
Definition priority_of (d : Delivery) : string := if truthy (priority d) then priority d else "normal".

(** [_dropoff_coords]: a mapping from the orders to their pins. *)
Definition _dropoff_coords (orders : list (OrderFsm.Order * Delivery)) (s : fleet_db) (order_id : Z) : option point :=
  p ← List.find (λ p, o_id (fst p) =? order_id) orders; dropoff_of (snd p) s.

(** An order still cooking counts when its deadline is near. *)
Definition prep_is_near (prep_lead_min now : Z) (o : OrderFsm.Order) (d : Delivery) : bool :=
  if bool_decide (o_status o = PREPARING) then
    match prep_deadline d with
    | None => false
    | Some t => negb (fint prep_lead_min <f minutes_of (t - now))
    end
  else true.
Definition candidate_at (now : Z) (d : Delivery) (p : point) : OrderCandidate :=
  {| bc_order_id := dl_id d; bc_at := p; bc_ready_at := default now (dl_updated_at d);
     bc_minutes_elapsed := _minutes_since_sla d now; bc_priority := priority_of d |}.
Definition build_order_candidates (restaurant_id prep_lead_min now : Z) (coords : Z → option point) (s : fleet_db)
    : CandidatePoolResult :=
  let orders := List.filter (λ p, prep_is_near prep_lead_min now (fst p) (snd p))
                  (by_order_id (without_rider restaurant_id [READY; PREPARING] s)) in
  {| cp_candidates := omap (λ p, c ← coords (o_id (fst p)); Some (candidate_at now (snd p) c)) orders;
     cp_skipped_no_geo := omap (λ p, match coords (o_id (fst p)) with
                                     | None => Some (snd p) | Some _ => None end) orders |}.

(** ** Riders *)

(** Free, on duty, and paired with the app. *)
Definition is_eligible (restaurant_id : Z) (r : Rider) : bool :=
  (ri_restaurant_id r =? restaurant_id) && bool_decide (ri_status r = Available) && on_duty r
  && bool_decide (device_token r ≠ None).
Definition eligible_riders (restaurant_id : Z) (s : fleet_db) : list Rider :=
  all_where (is_eligible restaurant_id) (riders s).
(** The last ping wins. *)
Definition _latest_rider_positions (restaurant_id : Z) (s : fleet_db) (rider_id : Z) : option point :=
  rl_at <$> last (List.filter (λ l, rl_rider_id l =? rider_id)
    (sort_by (λ a b, rl_ts a <=? rl_ts b) (all_where (λ l, rl_restaurant_id l =? restaurant_id) (locations s)))).

Record DispatchResult := { assigned_count : Z; unassigned_count : Z; needs_retry : bool }.
Definition nothing_done : DispatchResult := {| assigned_count := 0; unassigned_count := 0; needs_retry := false |}.
Definition and_assigned (n : Z) (r : DispatchResult) : DispatchResult :=
  {| assigned_count := assigned_count r + n; unassigned_count := unassigned_count r; needs_retry := needs_retry r |}.
Definition and_waiting (n : Z) (r : DispatchResult) : DispatchResult :=
  {| assigned_count := assigned_count r; unassigned_count := unassigned_count r + n; needs_retry := true |}.

Definition set_delivery_eta (order_id : Z) (eta : Z) : FM unit :=
  modify (λ s, with_deliveries (map_rows (λ d, if dl_id d =? order_id then with_eta (Some eta) d else d) (deliveries s)) s).
Definition number_of (order_id : Z) (s : fleet_db) : string :=
  default "" (order_number <$> get_row order_id (deliveries s)).

Section engine.
Context (great_circle : point → point → float) (CITY_SPEED_KMH : float) (geo : geo_port).
Context (distance_matrix : option (list point → list (list float))) (solve : vrp_model → vrp_outcome).
(** [sla_customer_minutes], [sla_internal_target_minutes], [sla_buffer_per_order_minutes]. *)
Context (customer_sla_min internal_target_min default_buffer_min : Z).

Definition leg_minutes (a b : point) : float := _leg_minutes great_circle CITY_SPEED_KMH (Some geo) a b.
Definition km (a b : point) : float := distance_km great_circle a b.

(** ** Settings *)

Definition _batch_plan_settings_from_restaurant (ds : dispatch_settings) : batch_settings :=
  {| max_per_batch := default 3 (raw_max_orders ds);
     proximity_km := default (float_of_Q (3 # 2)) (raw_proximity_km ds);
     window_min := default 10 (raw_window_minutes ds);
     buffer_per_order := default default_buffer_min (raw_buffer_minutes ds);
     max_detour_km := default fzero (raw_max_detour_km ds);
     delivery_zones := raw_zones ds |}.
Definition dispatch_engine (ds : dispatch_settings) : string := default "ortools" (raw_engine ds).

Definition total_est (b : PlannedBatch) (origin : option point) : option Z :=
  compute_batch_total_est_min great_circle CITY_SPEED_KMH (Some geo) b origin.

(** ** The greedy engine *)

(** The distance of a rider to the restaurant; without a ping the rider is there.
    [None]: a ping and no restaurant position is a [TypeError]. *)
Definition rider_distance (br : Branch) (position : option point) : option float :=
  match position, br_at br with
  | Some p, Some b => Some (km p b)
  | None, Some b => Some (km b b)
  | None, None => Some fzero
  | Some _, None => None
  end.
Definition rider_candidate (br : Branch) (s : fleet_db) (r : Rider) : option RiderCandidate :=
  dist ← rider_distance br (_latest_rider_positions (br_id br) s (ri_id r));
  Some {| rk_rider_id := ri_id r; rk_distance_km := dist; rk_active_orders := _active_order_count (ri_id r) s;
          rk_on_time_pct := default (fint 100) (on_time_pct r) |}.

Definition ten_minutes (now : Z) : Z := now / minutes 10.
Definition queue_alert (br : Branch) (body key : string) : FM unit := queue_text (br_id br) (br_phone br) body key.

Definition no_rider_alert (br : Branch) (now : Z) (planned : PlannedBatch) (origin : option point) : FM unit :=
  let n := pretty (Z.of_nat (length (pb_orders planned))) in
  let seed := pretty (default 0 (bc_order_id <$> head (pb_orders planned))) in
  queue_alert br ("No available riders for " +:+ n +:+ " ready order(s). Orders are waiting; dispatch will retry.")
    ("norider-" +:+ pretty (br_id br) +:+ "-" +:+ seed +:+ "-" +:+ pretty (ten_minutes now)) ≫= λ _,
  match total_est planned origin with
  | None => raise EstimateRaised
  | Some projected =>
      if negb (customer_sla_min <? projected) then mret tt else
      numbers ← gets (λ s, join ", " ((λ o, number_of (bc_order_id o) s) <$> pb_orders planned));
      queue_alert br ("⚠️ Order(s) " +:+ numbers +:+ " can't meet the " +:+ pretty customer_sla_min
        +:+ "-min SLA with current riders (projected ~" +:+ pretty projected
        +:+ " min and still waiting). Add a rider or mark priority now.")
        ("slabreach-pred-" +:+ pretty (br_id br) +:+ "-" +:+ seed)
  end.

(** One batch: the riders as they are now, the best of them takes it. *)
Definition dispatch_batch (br : Branch) (now : Z) (engine_fallback : bool) (origin : option point)
    (planned : PlannedBatch) (res : DispatchResult) : FM DispatchResult :=
  let n := Z.of_nat (length (pb_orders planned)) in
  let cfg := _batch_plan_settings_from_restaurant (br_dispatch br) in
  free ← gets (eligible_riders (br_id br));
  match free with
  | [] => no_rider_alert br now planned origin ≫= λ _, mret (and_waiting n res)
  | _ =>
      scored ← gets (λ s, rank_riders <$> mapM (rider_candidate br s) free);
      match scored with
      | None => raise PositionMissing
      | Some l =>
          match head l, sc ← head l; List.find (λ r, ri_id r =? sr_rider_id sc) free with
          | Some best, Some rider =>
              let seq_orders := match origin with
                | Some o => _sequence_stops great_circle CITY_SPEED_KMH (Some geo) (pb_orders planned) o
                | None => pb_orders planned end in
              match total_est {| pb_orders := seq_orders;
                                 pb_per_order_buffer_min := pb_per_order_buffer_min planned |} origin with
              | None => raise EstimateRaised
              | Some est =>
                  k ← _commit_route (br_id br) rider ((λ o, (bc_order_id o, bc_at o)) <$> seq_orders) est
                        (RouteScore (build_route_algorithm_score great_circle CITY_SPEED_KMH (Some geo) "greedy"
                          engine_fallback seq_orders (buffer_per_order cfg) origin (Some (sr_breakdown best)) [] est
                          (λ _, None) (corridor cfg origin) (delivery_zones cfg))) now;
                  mret (and_assigned k res)
              end
          | _, _ => mret res   (** unreachable: the ranking is of these riders *)
          end
      end
  end.

Definition is_priority (b : PlannedBatch) : bool :=
  match pb_orders b with o :: _ => negb (bc_priority o =s "normal") | [] => false end.
(** [sort(key=..., reverse=True)]: stable; an estimate that cannot be computed raises. *)
Definition longest_first (l : list PlannedBatch) (origin : option point) : option (list PlannedBatch) :=
  ests ← mapM (λ b, e ← total_est b origin; Some (e, b)) l;
  Some (snd <$> sort_by (λ a b : Z * PlannedBatch, fst b <=? fst a) ests).
Definition dispatch_order (l : list PlannedBatch) (origin : option point) : option (list PlannedBatch) :=
  normal ← longest_first (List.filter (λ b, negb (is_priority b)) l) origin;
  Some (List.filter is_priority l ++ normal).

Definition greedy_batches (br : Branch) (origin : option point) (candidates : list OrderCandidate) : list PlannedBatch :=
  build_batches great_circle CITY_SPEED_KMH internal_target_min (Some geo)
    (_batch_plan_settings_from_restaurant (br_dispatch br)) origin candidates.
Definition _dispatch_greedy (br : Branch) (candidates : list OrderCandidate) (now : Z) (engine_fallback : bool)
    : FM DispatchResult :=
  match dispatch_order (greedy_batches br (br_at br) candidates) (br_at br) with
  | None => raise EstimateRaised
  | Some l => for_fold (dispatch_batch br now engine_fallback (br_at br)) l nothing_done
  end.

(** ** The engine on the optimizer *)

Definition _route_breaches_customer_sla (route : OptRoute) : bool :=
  (1 <? length (rt_order_ids route))%nat
  && existsb (λ oid, fint customer_sla_min <f default fzero (projected_of route oid)) (rt_order_ids route).

(** Solo legs by the same rider, and the orders none of them could serve in time. *)
Fixpoint split_stops (rider_id : Z) (origin : point) (coords : Z → option point) (elapsed : Z → float) (ids : list Z)
    : list OptRoute * list Z :=
  match ids with
  | [] => ([], [])
  | oid :: ids' =>
      let '(solos, dropped) := split_stops rider_id origin coords elapsed ids' in
      let projected := fadd (elapsed oid) (leg_minutes origin (default origin (coords oid))) in
      if projected <=f fint customer_sla_min
      then ({| rt_rider_id := rider_id; rt_order_ids := [oid]; rt_projected_minutes := [(oid, projected)] |} :: solos, dropped)
      else (solos, oid :: dropped)
  end.
Definition _split_route_on_sla_risk (route : OptRoute) (origin : point) (coords : Z → option point) (elapsed : Z → float)
    : list OptRoute * list Z :=
  split_stops (rt_rider_id route) origin coords elapsed (rt_order_ids route).

Definition append_new (l : list Z) (x : Z) : list Z := if bool_decide (x ∈ l) then l else l ++ [x].
Fixpoint rebuild_routes (origin : point) (coords : Z → option point) (elapsed : Z → float) (routes : list OptRoute)
    (unassigned : list Z) : list OptRoute * list Z :=
  match routes with
  | [] => ([], unassigned)
  | r :: routes' =>
      if negb (_route_breaches_customer_sla r) then
        let '(rebuilt, u) := rebuild_routes origin coords elapsed routes' unassigned in (r :: rebuilt, u)
      else
        let '(solos, dropped) := _split_route_on_sla_risk r origin coords elapsed in
        let '(rebuilt, u) := rebuild_routes origin coords elapsed routes' (fold_left append_new dropped unassigned) in
        (solos ++ rebuilt, u)
  end.
Definition _apply_unbatch_sla_safety (plan : OptPlan) (origin : point) (coords : Z → option point) (elapsed : Z → float)
    : OptPlan :=
  let '(routes, unassigned) := rebuild_routes origin coords elapsed (pl_routes plan) (pl_unassigned plan) in
  {| pl_routes := routes; pl_unassigned := unassigned |}.

(** The index of the last route that holds an order. *)
Definition route_of (plan : OptPlan) (oid : Z) : option nat :=
  fst <$> last (List.filter (λ p : nat * OptRoute, bool_decide (oid ∈ rt_order_ids (snd p)))
                  (imap (λ i r, (i, r)) (pl_routes plan))).
Definition _plan_splits_batch (batch_order_ids : list Z) (plan : OptPlan) : bool :=
  if (length batch_order_ids <? 2)%nat then false else
  existsb (λ oid, bool_decide (oid ∈ pl_unassigned plan) || bool_decide (route_of plan oid = None)) batch_order_ids
  || (1 <? length (remove_dups (omap (route_of plan) batch_order_ids)))%nat.

(** The planned batches that hold two movable orders or more, in the order of their ids. *)
Definition is_planned (s : fleet_db) (batch_id : Z) : bool :=
  match get_row batch_id (batches s) with Some b => bool_decide (ba_status b = BPlanned) | None => false end.
Definition _planned_multi_batch_groups (restaurant_id : Z) (movable_ids : list Z) (s : fleet_db) : list (Z * list Z) :=
  List.filter (λ g, (2 <=? length (snd g))%nat)
    ((λ b, (ba_id b, bo_order_id <$> by_sequence (List.filter (λ x, bool_decide (bo_order_id x ∈ movable_ids))
                                                   (stops_in (ba_id b) s))))
     <$> sort_by (λ a b, ba_id a <=? ba_id b)
           (all_where (λ b, (ba_restaurant_id b =? restaurant_id) && bool_decide (ba_status b = BPlanned)) (batches s))).

(** Orders assigned and not yet picked up, with a pin. *)
Definition is_movable (restaurant_id : Z) (s : fleet_db) (p : OrderFsm.Order * Delivery) : bool :=
  (o_restaurant_id (fst p) =? restaurant_id) && bool_decide (o_status (fst p) = ASSIGNED)
  && bool_decide (dl_rider_id (snd p) ≠ None)
  && match stop_of (o_id (fst p)) s with Some bo => is_planned s (bo_batch_id bo) | None => false end.
Definition movable_orders (restaurant_id : Z) (s : fleet_db) : list (OrderFsm.Order * Delivery) :=
  List.filter (λ p, is_movable restaurant_id s p && bool_decide (dropoff_of (snd p) s ≠ None)) (both_rows s).

(** The stops a rider's movable orders have now, in their sequence. *)
Definition current_sequence (movable_ids : list Z) (s : fleet_db) (rider_id : Z) : list Z :=
  bo_order_id <$> by_sequence (List.filter (λ b, bool_decide (bo_order_id b ∈ movable_ids) &&
    match get_row (bo_batch_id b) (batches s) with Some ba => ba_rider_id ba =? rider_id | None => false end)
    (rows (batch_orders s))).

Definition listed (l : list Z) : string := "[" +:+ join ", " (pretty <$> l) +:+ "]".
Definition route_json (r : OptRoute) : string :=
  "{" +:+ quoted "rider_id" +:+ ": " +:+ pretty (rt_rider_id r) +:+ ", " +:+ quoted "order_ids" +:+ ": "
  +:+ listed (rt_order_ids r) +:+ ", " +:+ quoted "projected_min" +:+ ": {"
  +:+ join ", " ((λ oid, quoted (pretty oid) +:+ ": " +:+ fmt1 (default fzero (projected_of r oid))) <$> rt_order_ids r)
  +:+ "}}".
Definition report_split (br : Branch) (now : Z) (plan : OptPlan) (g : Z * list Z) : FM unit :=
  let '(batch_id, order_ids) := g in
  if negb (_plan_splits_batch order_ids plan) then mret tt else
  let touched := List.filter (λ r, existsb (λ oid, bool_decide (oid ∈ order_ids)) (rt_order_ids r)) (pl_routes plan) in
  let unassigned := List.filter (λ oid, bool_decide (oid ∈ order_ids)) (pl_unassigned plan) in
  _ ← audit "system" (br_id br) "batch" (pretty batch_id) "batch_split_sla_risk"
        (Some [("order_ids", JList (listed order_ids) (Z.of_nat (length order_ids)))]%string)
        (Some [("reason", JStr "sla_risk");
               ("routes", JList ("[" +:+ join ", " (route_json <$> touched) +:+ "]") (Z.of_nat (length touched)));
               ("unassigned", JList (listed unassigned) (Z.of_nat (length unassigned)))]%string);
  queue_alert br ("⚠️ Batch #" +:+ pretty batch_id +:+ " was split — re-planning would breach the "
    +:+ pretty customer_sla_min +:+ "-min SLA for one or more stops. Orders are being routed solo or held for a fresh rider.")
    ("batch-split-sla-" +:+ pretty (br_id br) +:+ "-" +:+ pretty batch_id +:+ "-" +:+ pretty (now / minutes 1)).

(** A shift of more than five minutes is told to the customer. *)
Definition _notify_eta_change (restaurant_id order_id : Z) (projected_min : float) (now : Z) : FM unit :=
  found ← gets (both_halves order_id);
  match found with
  | None => mret tt
  | Some (o, d) =>
      match sla_confirmed_at d with
      | None => mret tt
      | Some base =>
          let new_eta := base + timedelta_minutes projected_min in
          if match promised_eta d with Some old => Z.abs (new_eta - old) <=? minutes 5 | None => false end
          then mret tt else
          set_delivery_eta order_id new_eta ≫= λ _,
          customer ← gets (λ s, get_row (o_customer_id o) (members (fl_loyalty s)));
          match customer with
          | None => mret tt
          | Some c =>
              queue_text restaurant_id (mb_phone c)
                ("Update on your order " +:+ order_number d +:+ ": it's now arriving in about "
                 +:+ pretty (Z.max 1 (round_int (minutes_of (new_eta - now)))) +:+ " min. Thanks for your patience! 🙏")
                ("eta-change-" +:+ pretty order_id +:+ "-" +:+ pretty (new_eta / minutes 1))
          end
      end
  end.

(** The write of one route of the plan; the movable orders leave their batches first. *)
Definition commit_planned (br : Branch) (now : Z) (origin : point) (coords : Z → option point) (pool_ids movable_ids : list Z)
    (current : Z → list Z) (rejections : list rejection) (vehicles : list Rider) (route : OptRoute) (res : DispatchResult)
    : FM DispatchResult :=
  match List.find (λ r, ri_id r =? rt_rider_id route) vehicles with
  | None => mret res
  | Some rider =>
      let new_ids := rt_order_ids route in
      let fresh := List.filter (λ oid, bool_decide (oid ∈ pool_ids)) new_ids in
      if bool_decide (new_ids = current (ri_id rider)) && bool_decide (fresh = []) then mret res else
      let moved := List.filter (λ oid, bool_decide (oid ∈ movable_ids)) new_ids in
      modify (λ s, with_stops (del_where (λ b, bool_decide (bo_order_id b ∈ moved)) (batch_orders s)) s) ≫= λ _,
      modify (λ s, with_assignments (del_where (λ a, bool_decide (as_order_id a ∈ moved)) (assignments s)) s) ≫= λ _,
      let at_ oid := default origin (coords oid) in
      let cfg := _batch_plan_settings_from_restaurant (br_dispatch br) in
      let est := Z.max 1 (foldr Z.max 1 ((λ oid, round_int (default fzero (projected_of route oid))) <$> new_ids)) in
      seq ← gets (λ s, omap (λ oid, d ← get_row oid (deliveries s); Some (candidate_at now d (at_ oid))) new_ids);
      _ ← _commit_route (br_id br) rider ((λ oid, (oid, at_ oid)) <$> new_ids) est
            (RouteScore (build_route_algorithm_score great_circle CITY_SPEED_KMH (Some geo) "ortools" false seq
               (buffer_per_order cfg) (Some origin) None rejections est (projected_of route)
               (fzero <f max_detour_km cfg) (delivery_zones cfg))) now;
      for_each (λ oid, _notify_eta_change (br_id br) oid (default fzero (projected_of route oid)) now) moved ≫= λ _,
      mret (and_assigned (Z.of_nat (length fresh)) res)
  end.

(** Batches that hold no stop any more go, with their assignments. *)
Definition drop_empty_batches (restaurant_id : Z) : FM unit :=
  ids ← gets (λ s, ba_id <$> all_where (λ b, (ba_restaurant_id b =? restaurant_id)
                                 && bool_decide (stops_in (ba_id b) s = [])) (batches s));
  modify (λ s, with_assignments (del_where (λ a, match as_batch_id a with
            | Some i => bool_decide (i ∈ ids) | None => false end) (assignments s)) s) ≫= λ _,
  modify (λ s, with_batches (del_where (λ b, bool_decide (ba_id b ∈ ids)) (batches s)) s).

Definition zmin_list (l : list Z) : Z := match l with [] => 0 | x :: l' => fold_left Z.min l' x end.
Definition report_dropped (br : Branch) (now : Z) (dropped_ready : list Z) (res : DispatchResult) : FM DispatchResult :=
  match dropped_ready with
  | [] => mret res
  | _ =>
      let n := Z.of_nat (length dropped_ready) in
      numbers ← gets (λ s, join ", " ((λ oid, number_of oid s) <$> dropped_ready));
      queue_alert br ("⚠️ " +:+ pretty n +:+ " order(s) can't meet the " +:+ pretty customer_sla_min
        +:+ "-min SLA with current riders: " +:+ numbers +:+ ". Add a rider or mark priority now.")
        ("slabreach-opt-" +:+ pretty (br_id br) +:+ "-" +:+ pretty (zmin_list dropped_ready) +:+ "-"
         +:+ pretty (ten_minutes now)) ≫= λ _,
      mret (and_waiting n res)
  end.

(** What the optimizer is asked: the vehicles and the orders. *)
Definition vehicle_pool (restaurant_id : Z) (busy : list Z) (s : fleet_db) : list Rider :=
  all_where (λ r, (ri_restaurant_id r =? restaurant_id)
                  && (is_eligible restaurant_id r || bool_decide (ri_id r ∈ busy))) (riders s).
Definition opt_of_candidate (c : OrderCandidate) : OptOrder :=
  {| op_order_id := bc_order_id c; op_at := bc_at c; op_minutes_elapsed := bc_minutes_elapsed c;
     op_priority := bc_priority c; op_locked_rider_id := None |}.
Definition opt_of_movable (now : Z) (vehicles : list Rider) (s : fleet_db) (p : OrderFsm.Order * Delivery) : option OptOrder :=
  pin ← dropoff_of (snd p) s;
  rid ← dl_rider_id (snd p);
  if existsb (λ r, ri_id r =? rid) vehicles then
    Some {| op_order_id := o_id (fst p); op_at := pin; op_minutes_elapsed := _minutes_since_sla (snd p) now;
            op_priority := priority_of (snd p); op_locked_rider_id := Some rid |}
  else None.
Definition opt_rider (restaurant_id : Z) (origin : point) (s : fleet_db) (r : Rider) : OptRider :=
  {| or_rider_id := ri_id r; or_at := default origin (_latest_rider_positions restaurant_id s (ri_id r));
     or_active_load := _active_order_count (ri_id r) s |}.
(** [max(1, int(2.0) - 1)] seconds for the solver. *)
Definition solve_limit : Z := 1.

Definition _dispatch_ortools (br : Branch) (candidates : list OrderCandidate) (now : Z) : FM DispatchResult :=
  match br_at br with
  | None => mret {| assigned_count := 0; unassigned_count := 0; needs_retry := true |}
  | Some origin =>
      let pool_ids := bc_order_id <$> candidates in
      ready_ids ← gets (λ s, List.filter (λ oid, bool_decide (o_status <$> get_row oid (fl_orders s) = Some READY)) pool_ids);
      movable ← gets (movable_orders (br_id br));
      pins ← gets (_dropoff_coords movable);
      let movable_ids := (λ p, o_id (fst p)) <$> movable in
      let coords oid := if bool_decide (oid ∈ movable_ids) then pins oid
                        else bc_at <$> List.find (λ c, bc_order_id c =? oid) candidates in
      let busy := omap (λ p, dl_rider_id (snd p)) movable in
      vehicles ← gets (vehicle_pool (br_id br) busy);
      orders ← gets (λ s, (opt_of_candidate <$> candidates) ++ omap (opt_of_movable now vehicles s) movable);
      opt_riders ← gets (λ s, opt_rider (br_id br) origin s <$> vehicles);
      elapsed ← gets (λ s oid, match get_row oid (deliveries s) with
                               | Some d => _minutes_since_sla d now | None => fzero end);
      match optimize_dispatch great_circle CITY_SPEED_KMH (Some geo) distance_matrix solve customer_sla_min
              orders opt_riders origin solve_limit with
      | None => _dispatch_greedy br candidates now true
      | Some plan0 =>
          let plan := _apply_unbatch_sla_safety plan0 origin coords elapsed in
          groups ← gets (_planned_multi_batch_groups (br_id br) movable_ids);
          for_each (report_split br now plan) groups ≫= λ _,
          current ← gets (current_sequence movable_ids);
          let dropped_ready := List.filter (λ oid, bool_decide (oid ∈ ready_ids)) (pl_unassigned plan) in
          let rejections := build_rejections_for_dropped great_circle CITY_SPEED_KMH (Some geo) dropped_ready
                              candidates origin in
          res ← for_fold (commit_planned br now origin coords pool_ids movable_ids current rejections vehicles)
                  (pl_routes plan) nothing_done;
          drop_empty_batches (br_id br) ≫= λ _,
          report_dropped br now dropped_ready res
      end
  end.

(** ** The hold window *)

Definition _nearest_rider_eta_min (br : Branch) (s : fleet_db) : float :=
  match br_at br with
  | None => fzero
  | Some origin =>
      default fzero (fmin_list ((λ r, leg_minutes (default origin (_latest_rider_positions (br_id br) s (ri_id r))) origin)
        <$> all_where (λ r, (ri_restaurant_id r =? br_id br) && bool_decide (ri_status r = Available) && on_duty r) (riders s)))
  end.

Definition _hold_until (ready_at hold_seconds : Z) (at_ : point) (pipeline : list (OrderFsm.Order * Delivery))
    (coords : Z → option point) (hold_proximity_km rider_eta_min : float) : Z :=
  let hold_deadline := ready_at + seconds hold_seconds in
  let mates := omap (λ p, c ← coords (o_id (fst p)); t ← prep_deadline (snd p);
                          if hold_proximity_km <f km at_ c then None else Some t) pipeline in
  match mates with
  | [] => hold_deadline
  | _ => Z.min hold_deadline (zmin_list mates - timedelta_minutes rider_eta_min)
  end.

(** Whether a ready order leaves in this pass. *)
Definition leaves_now (now hold_seconds : Z) (ready : list OrderCandidate) (pipeline : list (OrderFsm.Order * Delivery))
    (coords : Z → option point) (hold_proximity_km rider_eta_min : float) (c : OrderCandidate) : bool :=
  let hold_deadline := _hold_until (bc_ready_at c) hold_seconds (bc_at c) pipeline coords hold_proximity_km rider_eta_min in
  let remaining_hold_sec := fmax fzero (total_seconds (hold_deadline - now)) in
  let has_mate := existsb (λ other, negb (bc_order_id other =? bc_order_id c)
                            && (km (bc_at c) (bc_at other) <=f hold_proximity_km)) ready in
  let has_pipeline_mate := existsb (λ p, match coords (o_id (fst p)) with
                                         | Some q => km (bc_at c) q <=f hold_proximity_km | None => false end) pipeline in
  let sla_pressure := fint internal_target_min <=f fadd (bc_minutes_elapsed c) (fdiv remaining_hold_sec (fint 60)) in
  negb (bc_priority c =s "normal") || (hold_deadline <=? now) || has_mate || sla_pressure || negb has_pipeline_mate.

Definition has_status (st : OrderStatus) (s : fleet_db) (c : OrderCandidate) : bool :=
  bool_decide (o_status <$> get_row (bc_order_id c) (fl_orders s) = Some st).
(** The candidates of this pass, when the window is on. *)
Definition hold_window (br : Branch) (now : Z) (candidates : list OrderCandidate) (s : fleet_db) : list OrderCandidate :=
  let hold_seconds := default 0 (raw_hold_seconds (br_dispatch br)) in
  let ready := List.filter (has_status READY s) candidates in
  let preparing := List.filter (has_status PREPARING s) candidates in
  if (0 <? hold_seconds) && negb (bool_decide (ready = [])) then
    let pipeline := without_rider (br_id br) [CONFIRMED; PREPARING] s in
    List.filter (leaves_now now hold_seconds ready pipeline (_dropoff_coords pipeline s)
      (default (fint 1) (raw_proximity_km (br_dispatch br))) (_nearest_rider_eta_min br s)) ready ++ preparing
  else candidates.

(** ** A run of the engine *)

Definition no_geo_alert (br : Branch) (now : Z) (skipped : list Delivery) : FM unit :=
  match skipped with
  | [] => mret tt
  | d :: _ =>
      queue_alert br (pretty (Z.of_nat (length skipped)) +:+ " ready order(s) have no delivery location and can't be auto-dispatched: "
        +:+ join ", " (order_number <$> skipped) +:+ ". Add a delivery pin to dispatch them.")
        ("nogeo-" +:+ pretty (br_id br) +:+ "-" +:+ pretty (dl_id d) +:+ "-" +:+ pretty (now / minutes 1))
  end.

Definition order_pool (br : Branch) (now : Z) (s : fleet_db) : CandidatePoolResult :=
  build_order_candidates (br_id br) (default 8 (raw_prep_lead_min (br_dispatch br))) now
    (_dropoff_coords (without_rider (br_id br) [READY; PREPARING] s) s) s.
Definition _dispatch (restaurant_id : Z) : FM DispatchResult :=
  restaurant ← gets (λ s, get_row restaurant_id (branches s));
  match restaurant with
  | None => raise (NoRestaurant restaurant_id)
  | Some br =>
      now ← gets fl_now;
      pool ← gets (order_pool br now);
      no_geo_alert br now (cp_skipped_no_geo pool) ≫= λ _,
      candidates ← gets (hold_window br now (cp_candidates pool));
      if bool_decide (candidates = []) then mret nothing_done else
      if dispatch_engine (br_dispatch br) =s "ortools" then _dispatch_ortools br candidates now
      else _dispatch_greedy br candidates now false
  end.

(** The kitchen is told which cooking orders go where a delivery is going now; an order
    is told of once, and a failure stays here. *)
Definition expedite (br : Branch) (radius : float) (dest_pts : list point) (p : OrderFsm.Order * Delivery) : FM unit :=
  pin ← gets (dropoff_of (snd p));
  match pin with
  | None => mret tt
  | Some q =>
      if negb (existsb (λ dp, km q dp <=f radius) dest_pts) then mret tt else
      known ← gets expedited;
      if bool_decide (o_id (fst p) ∈ known) then mret tt else
      modify (with_expedited (known ++ [o_id (fst p)])) ≫= λ _,
      queue_alert br ("🍱 Order " +:+ order_number (snd p) +:+ " is headed to the same area as a delivery going out now — "
        +:+ "prioritise it so it can batch the next run (saves a rider trip).")
        ("batch-expedite-" +:+ pretty (o_id (fst p)))
  end.
Definition with_statuses (restaurant_id : Z) (sts : list OrderStatus) (s : fleet_db) : list (OrderFsm.Order * Delivery) :=
  List.filter (λ p, (o_restaurant_id (fst p) =? restaurant_id) && bool_decide (o_status (fst p) ∈ sts)) (both_rows s).
Definition nudge_cooking_orders (restaurant_id : Z) : FM unit :=
  restaurant ← gets (λ s, get_row restaurant_id (branches s));
  match restaurant with
  | None => mret tt
  | Some br =>
      let radius := default (float_of_Q (3 # 2)) (raw_expedite_radius_km (br_dispatch br)) in
      dest_pts ← gets (λ s, omap (λ p, dropoff_of (snd p) s) (with_statuses restaurant_id [ASSIGNED] s));
      cooking ← gets (with_statuses restaurant_id [CONFIRMED; PREPARING]);
      if bool_decide (dest_pts = []) then mret tt else for_each (expedite br radius dest_pts) cooking
  end.
Definition _nudge_batchable_cooking_orders (restaurant_id : Z) : FM unit := best_effort (nudge_cooking_orders restaurant_id).

Definition run_dispatch_engine (restaurant_id : Z) : FM DispatchResult :=
  result ← _dispatch restaurant_id;
  _nudge_batchable_cooking_orders restaurant_id ≫= λ _,
  mret result.

(** Every restaurant with a ready order and no rider for it; a run that fails is rolled back. *)
Definition waiting_restaurants (s : fleet_db) : list Z :=
  remove_dups ((λ p, o_restaurant_id (fst p)) <$>
    List.filter (λ p : OrderFsm.Order * Delivery, bool_decide (o_status (fst p) = READY)
                   && bool_decide (dl_rider_id (snd p) = None)) (both_rows s)).
Definition sweep_one (restaurant_id : Z) : FM unit := λ s,
  match run_dispatch_engine restaurant_id s with Ok _ s' => Ok tt s' | Err _ _ => Ok tt s end.
Definition sweep_ready_once : FM Z :=
  ids ← gets waiting_restaurants;
  for_each sweep_one ids ≫= λ _,
  mret (Z.of_nat (length ids)).

(** ** The preview *)

Definition _build_preview_candidates (br : Branch) (now : Z) (s : fleet_db) : list OrderCandidate :=
  cp_candidates (order_pool br now s).
(** [None]: the direct call of the optimizer has no time-out, so none is expected here. *)
Definition dry_plan_batches (br : Branch) (candidates : list OrderCandidate) (s : fleet_db) : option (list PlannedBatch) :=
  let cfg := _batch_plan_settings_from_restaurant (br_dispatch br) in
  match br_at br with
  | Some origin =>
      if negb (dispatch_engine (br_dispatch br) =s "ortools") || (length candidates <? 2)%nat
      then Some (greedy_batches br (br_at br) candidates) else
      let free := eligible_riders (br_id br) s in
      let vehicles := match free with
        | [] => [{| or_rider_id := 0; or_at := origin; or_active_load := 0 |}]
        | _ => (λ r, {| or_rider_id := ri_id r; or_active_load := 0;
                        or_at := default origin (_latest_rider_positions (br_id br) s (ri_id r)) |}) <$> free end in
      plan ← optimize_dispatch great_circle CITY_SPEED_KMH (Some geo) distance_matrix solve 40
               (opt_of_candidate <$> candidates) vehicles origin 1;
      Some (omap (λ r,
        let seq := omap (λ oid, List.find (λ c, bc_order_id c =? oid) candidates) (rt_order_ids r) in
        if (2 <=? length (rt_order_ids r))%nat && (2 <=? length seq)%nat
        then Some {| pb_orders := seq; pb_per_order_buffer_min := buffer_per_order cfg |} else None) (pl_routes plan))
  | None => Some (greedy_batches br None candidates)
  end.
(** The labels shown next to the orders; the cache of the previews is left out. *)
Definition preview_batch_groups (br : Branch) (now : Z) (s : fleet_db) : option (list (Z * Ascii.ascii)) :=
  let candidates := _build_preview_candidates br now s in
  if (length candidates <? 2)%nat then Some [] else
  labels_from_batches <$> dry_plan_batches br candidates s.
End engine.
