(* ===== verification/DispatchFacts.v ===== *)
(** * Facts about the dispatch engine

    A run keeps the fleet's tables in order however it ends; the greedy engine loses no
    order, uses a rider once and leaves none idle while an order waits; every history of
    the fleet's requests keeps the invariant; and the cases the engine leaves behind. *)

From Stdlib Require Import SpecFloat.
From S2P Require Import Prelude Money Strings Db AuditTrail Clock Floats OrderFsm OrderFsmFacts Outbox Notify Loyalty Batching BatchingFacts Scoring Fleet FleetFacts Optimizer Dispatch.

(** ** Calls that keep the tables in order, also when they raise *)

Definition keeps {A} (m : FM A) : Prop :=
  ∀ s, fleet_ok s → match m s with Ok _ s' => fleet_ok s' | Err e s' => session_lost e = true ∨ fleet_ok s' end.

Lemma keeps_ret {A} (a : A) : keeps (mret a).
Proof. by intros s. Qed.
Lemma keeps_raise {A} e : keeps (A := A) (raise e).
Proof. by right. Qed.
Lemma keeps_gets {A} (f : fleet_db → A) : keeps (gets f).
Proof. by intros s. Qed.
Lemma keeps_bind {A B} (m : FM A) (f : A → FM B) : keeps m → (∀ a, keeps (f a)) → keeps (m ≫= f).
Proof.
  intros Hm Hf s Hs. specialize (Hm s Hs). unfold mbind, M_bind. destruct (m s) as [a s'|e s']; [by apply Hf|done].
Qed.
Lemma keeps_quiet {A} (m : FM A) : (∀ s0, preserves (same_fleet s0) m) → keeps m.
Proof.
  intros Hm s Hs. specialize (Hm s s (same_fleet_refl s)). destruct (m s) as [a s'|e s']; [|right]; by apply same_fleet_ok in Hm.
Qed.
Lemma keeps_for_each {A} (f : A → FM unit) l : (∀ x, keeps (f x)) → keeps (for_each f l).
Proof. intros Hf. induction l as [|x l IH]; [apply keeps_ret|]. apply keeps_bind; [apply Hf|by intros _]. Qed.
Lemma keeps_for_fold {A B} (f : A → B → FM B) l : (∀ x b, keeps (f x b)) → ∀ b, keeps (for_fold f l b).
Proof. intros Hf. induction l as [|x l IH]; intros b; [apply keeps_ret|]. apply keeps_bind; [apply Hf|apply IH]. Qed.
Lemma keeps_modify (f : fleet_db → fleet_db) : (∀ s, fleet_ok s → fleet_ok (f s)) → keeps (modify f).
Proof. intros Hf s. apply Hf. Qed.
(** What [best_effort] returns from. *)
Lemma keeps_best_effort m s a s' : keeps m → best_effort m s = Ok a s' → fleet_ok s → fleet_ok s'.
Proof.
  intros Hm Hrun Hok. specialize (Hm s Hok). unfold best_effort, try_except in Hrun.
  destruct (m s) as [x sx|e sx]; [by injection Hrun as _ <-|]. destruct (session_lost e) eqn:He; [done|].
  injection Hrun as _ <-. by destruct Hm.
Qed.

Lemma quiet_queue s0 rid phone body key : preserves (same_fleet s0) (queue_text rid phone body key).
Proof. unfold queue_text. apply preserves_bind; [apply quiet_outbox|intros _; apply preserves_ret]. Qed.
Lemma keeps_alert br body key : keeps (queue_alert br body key).
Proof. apply keeps_quiet. intros s0. apply quiet_queue. Qed.

Create HintDb keeps discriminated.
#[export] Hint Resolve keeps_ret keeps_raise keeps_gets keeps_alert : keeps.
Ltac be_kept :=
  repeat first
    [ solve [eauto 2 with keeps]
    | apply keeps_bind; [|intros ?]
    | apply keeps_for_each; intros ?
    | apply keeps_for_fold; intros ? ?
    | match goal with
      | |- keeps (if ?b then _ else _) => destruct b eqn:?
      | |- keeps (match ?x with _ => _ end) => destruct x eqn:?
      end ].

(** A route: every stop is added to a planned batch of the rider. *)
Lemma commit_stop_err rid ri bid now sc st s e s' :
  commit_stop rid ri bid now sc st s = Err e s' → session_lost e = true ∨ s' = s.
Proof.
  destruct st as [seq [oid p]]. unfold commit_stop. intros Hrun.
  erewrite bind_run_Ok in Hrun by reflexivity. cbv beta in Hrun.
  destruct (both_halves oid s) as [[o d]|]; [|injection Hrun as _ <-; by right]. cbv zeta in Hrun.
  rewrite (bind_run_Ok _ _ _ _ _ (assign_status_run oid _ s)) in Hrun.
  erewrite bind_run_Ok in Hrun by reflexivity. cbv beta in Hrun.
  match type of Hrun with (add_stop _ _ _ ≫= _) ?x = _ => set (s1 := x) in Hrun end.
  unfold mbind at 1, M_bind at 1 in Hrun. destruct (add_stop bid oid seq s1) as [[] s2|e2 s2] eqn:Ha.
  - do 2 (erewrite bind_run_Ok in Hrun by reflexivity; cbv beta in Hrun). by destruct (bool_decide (_ = ASSIGNED)).
  - injection Hrun as <- <-. left. unfold add_stop in Ha. erewrite bind_run_Ok in Ha by reflexivity. cbv beta in Ha.
    destruct (stop_of oid s1); [by injection Ha as <- _|done].
Qed.
Definition has_batch (bid ri : Z) (s : fleet_db) : Prop :=
  ∃ ba, get_row bid (batches s) = Some ba ∧ ba_status ba = BPlanned ∧ ba_rider_id ba = ri.
Lemma commit_stops_keep rid ri bid now sc l : ∀ s, fleet_ok s → has_batch bid ri s →
  match for_each (commit_stop rid ri bid now sc) l s with
  | Ok _ s' => fleet_ok s'
  | Err e s' => session_lost e = true ∨ fleet_ok s'
  end.
Proof.
  induction l as [|x l IH]; intros s Hok Hba; [done|]. cbn. unfold mbind, M_bind.
  destruct (commit_stop rid ri bid now sc x s) as [[] s1|e s1] eqn:Hx.
  - destruct Hba as (ba & Hba & Hst & Hri).
    destruct (commit_stop_keeps _ _ _ _ _ _ _ _ ba Hx Hok Hba) as [Hok1 Hb1]; [by rewrite Hst|done|].
    apply IH; [done|]. exists ba. by rewrite Hb1.
  - destruct (commit_stop_err _ _ _ _ _ _ _ _ _ Hx) as [?| ->]; auto.
Qed.
Lemma keeps_commit_route rid r stops est sc now : keeps (_commit_route rid r stops est sc now).
Proof.
  intros s Hok. unfold _commit_route. erewrite bind_run_Ok by reflexivity. cbv beta.
  match goal with |- context [_ ?x] => match type of x with fleet_db => set (s1 := x) end end.
  assert (Hok1 : fleet_ok s1) by by apply (inv_add_batch _ _ _ _ Hok).
  assert (Hb1 : has_batch (next_id (batches s)) (ri_id r) s1).
  { set (b := {| ba_id := next_id (batches s); ba_restaurant_id := rid; ba_rider_id := ri_id r; ba_status := BPlanned;
                 ba_route := stops; ba_total_est_min := Some est |}).
    exists b. split; [exact (get_row_add b (batches s) (fi_batches _ _ _ _ Hok) eq_refl)|done]. }
  pose proof (commit_stops_keep rid (ri_id r) (next_id (batches s)) now sc (numbered stops) s1 Hok1 Hb1) as Hl.
  unfold mbind at 1, M_bind at 1. destruct (for_each _ _ s1) as [[] s2|e s2]; [|done].
  revert s2 Hl. apply keeps_quiet. intros s0. apply preserves_bind; [apply quiet_rider|intros _].
  apply preserves_bind; [apply quiet_push|intros _]. apply preserves_ret.
Qed.
#[export] Hint Resolve keeps_commit_route : keeps.

Lemma keeps_eta oid eta : keeps (set_delivery_eta oid eta).
Proof.
  apply keeps_modify. intros s Hok. apply (inv_delivery _ _ _ _ Hok oid (with_eta (Some eta))); [done| |by intros d o _ _ _ ?].
  by intros d b ba _ _ _ _ <-.
Qed.
Lemma keeps_stops_leave p : keeps (modify (λ s, with_stops (del_where p (batch_orders s)) s)).
Proof.
  apply keeps_modify. intros s Hok. apply (inv_stops_leave _ _ _ _ Hok); [apply del_where_wf; by destruct Hok|].
  by intros b [? _]%elem_of_del_where.
Qed.
Lemma keeps_silent (f : fleet_db → fleet_db) :
  (∀ s, fl_orders (f s) = fl_orders s ∧ deliveries (f s) = deliveries s ∧ batches (f s) = batches s ∧
        batch_orders (f s) = batch_orders s) → keeps (modify f).
Proof. intros Hf. apply keeps_quiet. intros s0. by apply quiet_modify. Qed.
#[export] Hint Resolve keeps_eta keeps_stops_leave : keeps.
#[export] Hint Extern 4 (keeps (modify _)) => (apply keeps_silent; by intros) : keeps.
#[export] Hint Extern 4 (keeps (audit _ _ _ _ _ _ _)) => (apply keeps_quiet; intros ?; apply fleet_quiet_audit) : keeps.
#[export] Hint Extern 4 (keeps (queue_text _ _ _ _)) => (apply keeps_quiet; intros ?; apply quiet_queue) : keeps.

(** A batch that holds no stop can go. *)
Lemma keeps_drop_empty rid : keeps (drop_empty_batches rid).
Proof.
  intros s Hok. unfold drop_empty_batches. do 2 (erewrite bind_run_Ok by reflexivity; cbv beta). unfold modify.
  unfold fleet_ok; cbn. apply (inv_batches_leave _ _ _ _ Hok); [apply del_where_wf; by destruct Hok|by intros b [? _]%elem_of_del_where|].
  intros x ba Hx Hba. apply elem_of_del_where. pose proof Hba as [Hbin Hbid]%get_row_Some.
  split; [done|]. apply bool_decide_eq_false. intros (ba' & Hid & [_ Hp]%elem_of_all_where)%list_elem_of_fmap. zbool.
  assert (x ∈ stops_in (ba_id ba') s) as Hin; [|rewrite H0 in Hin; by apply elem_of_nil in Hin].
  apply elem_of_stops_in. split; [done|]. rewrite <-Hid. by symmetry.
Qed.
#[export] Hint Resolve keeps_drop_empty : keeps.

Section engine.
Context (great_circle : point → point → float) (speed : float) (geo : geo_port).
Context (dm : option (list point → list (list float))) (solve : vrp_model → vrp_outcome).
Context (sla target buffer : Z).

Lemma keeps_greedy br cs now fb : keeps (_dispatch_greedy great_circle speed geo sla target buffer br cs now fb).
Proof. unfold _dispatch_greedy, dispatch_batch, no_rider_alert. be_kept. Qed.
Lemma keeps_ortools br cs now : keeps (_dispatch_ortools great_circle speed geo dm solve sla target buffer br cs now).
Proof.
  unfold _dispatch_ortools, report_split, commit_planned, report_dropped, _notify_eta_change. be_kept. apply keeps_greedy.
Qed.
Lemma keeps_nudge rid : keeps (_nudge_batchable_cooking_orders great_circle rid).
Proof.
  apply keeps_quiet. intros s0. apply quiet_best_effort. unfold nudge_cooking_orders, expedite, queue_alert.
  apply preserves_bind; [apply preserves_gets|intros [br|]; [|apply preserves_ret]]. cbv zeta.
  do 2 (apply preserves_bind; [apply preserves_gets|intros ?]). destruct (bool_decide _); [apply preserves_ret|].
  apply preserves_for_each. intros p _. apply preserves_bind; [apply preserves_gets|intros [q|]; [|apply preserves_ret]].
  destruct (negb _); [apply preserves_ret|]. apply preserves_bind; [apply preserves_gets|intros known].
  destruct (bool_decide _); [apply preserves_ret|].
  apply preserves_bind; [by apply quiet_modify|intros _; apply quiet_queue].
Qed.
Lemma keeps_dispatch rid : keeps (run_dispatch_engine great_circle speed geo dm solve sla target buffer rid).
Proof.
  unfold run_dispatch_engine, _dispatch, no_geo_alert.
  be_kept; [apply keeps_ortools|apply keeps_greedy|apply keeps_nudge].
Qed.
End engine.

(** ** Every history *)

(** Another service places an order: both halves, under the next number. *)
Lemma inv_place os ds bs ss o d :
  fleet_inv os ds bs ss → o_id o = next_id os → dl_id d = next_id ds → o_id o = dl_id d → o_status o ≠ DELIVERED →
  fleet_inv (add_row o os) (add_row d ds) bs ss.
Proof.
  intros Hinv Ho Hd Hod Hst.
  assert (Hos : ∀ i x, get_row i os = Some x → get_row i (add_row o os) = Some x).
  { intros i x Hg. rewrite get_row_add_ne; [done|]. pose proof Hg as [Hin Hi]%get_row_Some.
    apply (wf_fresh _ (fi_orders _ _ _ _ Hinv)) in Hin. change (row_id o) with (o_id o). lia. }
  assert (Hds : ∀ i x, get_row i ds = Some x → get_row i (add_row d ds) = Some x).
  { intros i x Hg. rewrite get_row_add_ne; [done|]. pose proof Hg as [Hin Hi]%get_row_Some.
    apply (wf_fresh _ (fi_deliveries _ _ _ _ Hinv)) in Hin. change (row_id d) with (dl_id d). lia. }
  destruct Hinv as [H1 H2 H3 H4 H5 H6 H7 H8 H9]. split; try done.
  - intros b Hb. destruct (H4 b Hb) as (ba & x & ? & Hx & ?). exists ba, x. eauto.
  - intros b Hb Hh. destruct (H5 b Hb Hh) as (x & Hx & ?). eauto.
  - intros i x y Hx Hy Hdel. destruct (decide (i = o_id o)) as [->|Hne].
    + pose proof (get_row_add o os H8 Ho) as Hg. change (row_id o) with (o_id o) in Hg. congruence.
    + rewrite get_row_add_ne in Hx by done. rewrite get_row_add_ne in Hy by (change (row_id d) with (dl_id d); congruence).
      by apply (H7 i x).
  - by apply add_row_wf.
  - by apply add_row_wf.
Qed.

(** The requests the fleet serves; a request that raises is rolled back. *)
Inductive fleet_request :=
| RunDispatch (restaurant_id : Z)
| SweepReady
| AssignOrder (restaurant_id order_id rider_id : Z) (actor : string)
| ReassignOrder (restaurant_id order_id rider_id : Z) (actor : string)
| ReleaseOrder (order_id : Z) (actor : string)
| PickUpRun (rider_id : Z) (batch_id : option Z)
| DeliverOrder (restaurant_id rider_id order_id : Z) (cod_amount : option Z)
| ReturnOrder (restaurant_id rider_id order_id : Z) (reason : string)
| AdvanceOrder (order_id : Z) (to_status : OrderStatus)
| FailDelivery (restaurant_id order_id : Z) (reason : string)
| AddPhoto (restaurant_id order_id : Z) (photo_url : option string)
| VerifyOtp (restaurant_id order_id : Z) (otp : string)
| SetRiderStatus (restaurant_id rider_id : Z) (st : rider_status)
| SetRiderDuty (restaurant_id rider_id : Z) (duty : bool)
| DeleteRider (restaurant_id rider_id : Z).

Definition ignoring {A} (m : FM A) : FM unit := m ≫= λ _, mret tt.

Section history.
Context (great_circle : point → point → float) (speed : float) (geo : geo_port).
Context (dm : option (list point → list (list float))) (solve : vrp_model → vrp_outcome).
Context (sla target buffer : Z).
Context (tokens : Z → nat → string) (randbelow : Z → Z) (token_urlsafe : Z → string).
Context (tgeo : tracking_geo) (url : string).

Definition redispatch (rid : Z) : FM unit := ignoring (run_dispatch_engine great_circle speed geo dm solve sla target buffer rid).
Definition serve (r : fleet_request) : FM unit :=
  match r with
  | RunDispatch rid => redispatch rid
  | SweepReady => ignoring (sweep_ready_once great_circle speed geo dm solve sla target buffer)
  | AssignOrder rid oid ri actor => assign_order rid oid ri actor
  | ReassignOrder rid oid ri actor => reassign_order rid oid ri actor
  | ReleaseOrder oid actor => ignoring (release_order_from_dispatch oid actor)
  | PickUpRun ri bid => ignoring (mark_batch_picked_up tokens randbelow token_urlsafe ri bid)
  | DeliverOrder rid ri oid cod =>
      ignoring (mark_order_delivered tokens randbelow token_urlsafe tgeo url redispatch rid ri oid cod)
  | ReturnOrder rid ri oid reason =>
      ignoring (mark_order_not_delivered token_urlsafe tgeo url redispatch rid ri oid reason)
  | AdvanceOrder oid st => advance_delivery tokens randbelow oid st
  | FailDelivery rid oid reason => mark_delivery_failed rid oid reason
  | AddPhoto rid oid u => set_delivery_photo rid oid u
  | VerifyOtp rid oid otp => ignoring (verify_delivery_otp rid oid otp)
  | SetRiderStatus rid ri st => ignoring (set_rider_status rid ri st)
  | SetRiderDuty rid ri duty => ignoring (set_rider_on_duty rid ri duty)
  | DeleteRider rid ri => ignoring (delete_rider rid ri)
  end.

(** A step of the system: a request that was served; an order placed, or moved along its
    lifecycle short of a delivery, by another service; a write outside these tables. *)
Inductive fleet_step : fleet_db → fleet_db → Prop :=
| Served r s s' : serve r s = Ok tt s' → fleet_step s s'
| OrderPlaced o d s s' :
    o_id o = next_id (fl_orders s) → dl_id d = next_id (deliveries s) → o_id o = dl_id d → o_status o ≠ DELIVERED →
    fl_orders s' = add_row o (fl_orders s) → deliveries s' = add_row d (deliveries s) →
    batches s' = batches s → batch_orders s' = batch_orders s → fleet_step s s'
| OrderMoved oid o st actor extra s s' :
    get_row oid (fl_orders s) = Some o → st ≠ DELIVERED →
    zoom FleetFsmRaised (transition o st actor extra) s = Ok tt s' → fleet_step s s'
| Elsewhere s s' : same_fleet s s' → fleet_step s s'.

Lemma redispatch_keeps rid s a s' : best_effort (redispatch rid) s = Ok a s' → fleet_ok s → fleet_ok s'.
Proof.
  apply keeps_best_effort. apply keeps_bind; [apply keeps_dispatch|intros _; apply keeps_ret].
Qed.
Lemma keeps_run {A} (m : FM A) s a s' : keeps m → m s = Ok a s' → fleet_ok s → fleet_ok s'.
Proof. intros Hm Hrun Hok. specialize (Hm s Hok). by rewrite Hrun in Hm. Qed.
Lemma sweep_keeps : keeps (sweep_ready_once great_circle speed geo dm solve sla target buffer).
Proof.
  unfold sweep_ready_once. be_kept. intros s Hok. unfold sweep_one.
  pose proof (keeps_dispatch great_circle speed geo dm solve sla target buffer x s Hok) as Hd.
  by destruct (run_dispatch_engine _ _ _ _ _ _ _ _ _ s).
Qed.
Lemma ignoring_Ok {A} (m : FM A) s s' : ignoring m s = Ok tt s' → ∃ a, m s = Ok a s'.
Proof. intros (a & s1 & Hm & [_ ->]%ret_run)%bind_Ok. by exists a. Qed.
Lemma rider_status_keeps rid ri st s b s' : set_rider_status rid ri st s = Ok b s' → fleet_ok s → fleet_ok s'.
Proof.
  intros Hrun%quiet_run; [by apply same_fleet_ok|]. unfold set_rider_status, set_rider.
  apply preserves_bind; [apply preserves_gets|intros [r|]; [|apply preserves_ret]].
  destruct (negb _); [apply preserves_ret|]. apply preserves_bind; [by apply quiet_modify|intros _].
  apply preserves_bind; [apply fleet_quiet_audit|intros _; apply preserves_ret].
Qed.
Lemma rider_duty_keeps rid ri b s r s' : set_rider_on_duty rid ri b s = Ok r s' → fleet_ok s → fleet_ok s'.
Proof.
  intros Hrun%quiet_run; [by apply same_fleet_ok|]. unfold set_rider_on_duty, set_rider.
  apply preserves_bind; [apply preserves_gets|intros [x|]; [|apply preserves_ret]].
  destruct (negb _); [apply preserves_ret|]. destruct (bool_decide _); [apply preserves_ret|].
  apply preserves_bind; [by apply quiet_modify|intros _].
  apply preserves_bind; [apply fleet_quiet_audit|intros _; apply preserves_ret].
Qed.

Lemma serve_keeps r s s' : serve r s = Ok tt s' → fleet_ok s → fleet_ok s'.
Proof.
  destruct r; cbn [serve]; intros Hrun Hok; try (apply ignoring_Ok in Hrun as [a Hrun]).
  - by apply (keeps_run _ _ _ _ (keeps_dispatch _ _ _ _ _ _ _ _ _) Hrun).
  - by apply (keeps_run _ _ _ _ sweep_keeps Hrun).
  - by apply assign_keeps in Hrun.
  - by apply reassign_keeps in Hrun.
  - by apply release_keeps in Hrun.
  - by apply (pickup_keeps _ _ _ redispatch) in Hrun.
  - by apply (delivered_keeps _ _ _ _ _ _ redispatch_keeps _ _ _ _ _ _ _ Hrun).
  - by apply (not_delivered_keeps _ _ _ _ redispatch_keeps _ _ _ _ _ _ _ Hrun).
  - by apply advance_keeps in Hrun.
  - by apply failed_keeps in Hrun.
  - by apply photo_keeps in Hrun.
  - by apply verify_keeps in Hrun.
  - by apply rider_status_keeps in Hrun.
  - by apply rider_duty_keeps in Hrun.
  - by apply delete_keeps in Hrun.
Qed.
Lemma step_keeps s s' : fleet_step s s' → fleet_ok s → fleet_ok s'.
Proof.
  intros [r ? ? Hrun|o d ? ? Ho Hd Hod Hst E1 E2 E3 E4|oid o st actor extra ? ? Ho Hst Hrun|? ? Hsame] Hok.
  - by apply serve_keeps in Hrun.
  - unfold fleet_ok. rewrite E1, E2, E3, E4. by apply inv_place.
  - by destruct (transition_keeps _ _ _ _ _ _ _ oid Hrun Hok Ho Hst).
  - by apply (same_fleet_ok _ _ Hsame).
Qed.

(** A request as its caller sees it. *)
Definition handled (s : fleet_db) (r : fleet_request) : fleet_db :=
  match serve r s with Ok _ s' => s' | Err _ _ => s end.
Lemma handled_steps l : ∀ s, rtc fleet_step s (fold_left handled l s).
Proof.
  induction l as [|r l IH]; intros s; [done|]. cbn [fold_left]. unfold handled at 2.
  destruct (serve r s) as [[] s'|e s'] eqn:Hr; [|apply IH]. eapply rtc_l; [by eapply Served|apply IH].
Qed.

End history.

(** ** What a greedy run does *)

(** The stops of a run: order and position. *)
Definition stop_key (b : BatchOrder) : Z * (Z * Z) := (bo_batch_id b, (bo_order_id b, bo_sequence b)).
Definition run_keys (b : Batch) : list (Z * (Z * Z)) :=
  (λ p : Z * (Z * point), (ba_id b, (fst (snd p), fst p))) <$> numbered (ba_route b).

(** The tables a run of the engine works with are as they were. *)
Definition same_work (s s' : fleet_db) : Prop :=
  batches s' = batches s ∧ batch_orders s' = batch_orders s ∧ riders s' = riders s.
Lemma work_outbox {A} (m : M outbox_db outbox_error A) s a s' :
  zoom FleetOutboxRaised m s = Ok a s' → same_work s s'.
Proof. by intros (o & _ & ->)%zoom_Ok. Qed.
Lemma work_queue rid phone body key s s' : queue_text rid phone body key s = Ok tt s' → same_work s s'.
Proof. unfold queue_text. intros (x & s1 & Hq & [_ ->]%ret_run)%bind_Ok. by apply work_outbox in Hq. Qed.
Lemma same_work_trans s s1 s2 : same_work s s1 → same_work s1 s2 → same_work s s2.
Proof. intros (E1 & E2 & E3) (F1 & F2 & F3). unfold same_work. by rewrite F1, F2, F3. Qed.

Lemma commit_stops_run rid ri bid now sc l : ∀ s s',
  for_each (commit_stop rid ri bid now sc) l s = Ok tt s' →
  batches s' = batches s ∧ riders s' = riders s ∧
  stop_key <$> rows (batch_orders s') =
    (stop_key <$> rows (batch_orders s)) ++ ((λ p : Z * (Z * point), (bid, (fst (snd p), fst p))) <$> l).
Proof.
  induction l as [|[seq [oid p]] l IH]; intros s s' Hrun; [apply ret_run in Hrun as [_ ->]; by rewrite app_nil_r|].
  apply bind_Ok in Hrun as ([] & s1 & H1 & Hrun). apply IH in Hrun as (Hb & Hr & Hk). rewrite Hb, Hr, Hk. clear IH Hb Hr Hk.
  unfold commit_stop in H1. erewrite bind_run_Ok in H1 by reflexivity. cbv beta in H1.
  destruct (both_halves oid s) as [[o d]|]; [|done]. cbv zeta in H1.
  rewrite (bind_run_Ok _ _ _ _ _ (assign_status_run oid _ s)) in H1.
  erewrite bind_run_Ok in H1 by reflexivity. cbv beta in H1.
  apply bind_Ok in H1 as ([] & s2 & Hadd & H1). apply add_stop_inv in Hadd as [_ ->].
  do 2 (erewrite bind_run_Ok in H1 by reflexivity; cbv beta in H1).
  match type of H1 with _ ?x = _ => set (s3 := x) in H1 end.
  assert (Hs : batches s1 = batches s3 ∧ riders s1 = riders s3 ∧ batch_orders s1 = batch_orders s3)
    by (destruct (bool_decide (_ = ASSIGNED)); [|apply ret_run in H1 as [_ ->]; done]; injection H1 as <-; done).
  destruct Hs as (-> & -> & ->). split_and!; [done|done|].
  change (rows (batch_orders s3)) with (rows (batch_orders s) ++ [{| bo_id := next_id (batch_orders s); bo_batch_id := bid;
    bo_order_id := oid; bo_sequence := seq; bo_delivered_at := None |}]).
  by rewrite fmap_app, <-(assoc_L (++)).
Qed.

(** One route, committed. *)
Lemma commit_route_run rid r stops est sc now s n s' :
  _commit_route rid r stops est sc now s = Ok n s' →
  n = Z.of_nat (length stops) ∧
  ∃ b, batches s' = add_row b (batches s) ∧ ba_id b = next_id (batches s) ∧ ba_restaurant_id b = rid ∧
    ba_rider_id b = ri_id r ∧ ba_status b = BPlanned ∧ ba_route b = stops ∧
    stop_key <$> rows (batch_orders s') = (stop_key <$> rows (batch_orders s)) ++ run_keys b ∧
    riders s' = map_rows (λ x, if ri_id x =? ri_id r then rider_in OnDelivery x else x) (riders s).
Proof.
  unfold _commit_route. intros Hrun. erewrite bind_run_Ok in Hrun by reflexivity. cbv beta in Hrun.
  apply bind_Ok in Hrun as ([] & s1 & Hl & Hrun). apply commit_stops_run in Hl as (Hb & Hr & Hk).
  erewrite bind_run_Ok in Hrun by reflexivity. cbv beta in Hrun.
  apply bind_Ok in Hrun as ([] & s2 & Hp & [-> ->]%ret_run).
  assert (Hs : batches s2 = batches s1 ∧ batch_orders s2 = batch_orders s1 ∧
    riders s2 = map_rows (λ x, if ri_id x =? ri_id r then rider_in OnDelivery x else x) (riders s1)).
  { unfold notify_rider_assigned, push_to in Hp. destruct (push_token r) as [t|]; [destruct (truthy t)|];
      injection Hp as <-; done. }
  destruct Hs as (-> & -> & ->). split; [done|]. eexists. split; [exact Hb|]. cbn.
  split_and!; try done. by rewrite Hr.
Qed.

Section greedy.
Context (great_circle : point → point → float) (speed : float) (geo : geo_port) (sla target buffer : Z).

Abbreviation orders_of bs := (concat (pb_orders <$> bs)).

(** One batch: either no rider is free, or the best free rider takes it whole. *)
Record batch_taken (br : Branch) (planned : PlannedBatch) (s s' : fleet_db) (b : Batch) (r : Rider) : Prop := {
  bt_rider : r ∈ eligible_riders (br_id br) s;
  bt_batch : batches s' = add_row b (batches s);
  bt_id : ba_id b = next_id (batches s);
  bt_of : ba_restaurant_id b = br_id br ∧ ba_rider_id b = ri_id r ∧ ba_status b = BPlanned;
  bt_route : ba_route b ≡ₚ (λ o, (bc_order_id o, bc_at o)) <$> pb_orders planned;
  bt_stops : stop_key <$> rows (batch_orders s') = (stop_key <$> rows (batch_orders s)) ++ run_keys b;
  bt_riders : riders s' = map_rows (λ x, if ri_id x =? ri_id r then rider_in OnDelivery x else x) (riders s);
  bt_best : ∀ x c, x ∈ eligible_riders (br_id br) s → rider_candidate great_circle br s x = Some c →
    (∀ y k, y ∈ eligible_riders (br_id br) s → rider_candidate great_circle br s y = Some k →
       is_number (sr_composite (score_rider k)) = true) →
    ∃ y k, y ∈ eligible_riders (br_id br) s ∧ ri_id y = ri_id r ∧ rider_candidate great_circle br s y = Some k ∧
      (sr_composite (score_rider c) <f sr_composite (score_rider k)) = false;
}.

Lemma no_rider_run br now planned origin s s' :
  no_rider_alert great_circle speed geo sla br now planned origin s = Ok tt s' → same_work s s'.
Proof.
  unfold no_rider_alert, queue_alert. cbv zeta. intros ([] & s1 & H1%work_queue & Hrun)%bind_Ok.
  destruct (total_est _ _ _ _ _) as [e|]; [|done]. destruct (negb _); [by apply ret_run in Hrun as [_ ->]|].
  erewrite bind_run_Ok in Hrun by reflexivity. cbv beta in Hrun. apply work_queue in Hrun.
  by apply (same_work_trans s s1).
Qed.

Lemma candidate_rider br s x c : rider_candidate great_circle br s x = Some c → rk_rider_id c = ri_id x.
Proof. unfold rider_candidate. destruct (rider_distance _ _ _); [|done]. by intros [= <-]. Qed.

(** The scored riders are the free ones. *)
Lemma ranked_rider br s free cands sc :
  Forall2 (λ x c, rider_candidate great_circle br s x = Some c) free cands → sc ∈ rank_riders cands →
  ∃ x k, x ∈ free ∧ rider_candidate great_circle br s x = Some k ∧ sc = score_rider k ∧ sr_rider_id sc = ri_id x.
Proof.
  intros Hm Hin. unfold rank_riders in Hin. apply elem_of_sort_by, list_elem_of_fmap in Hin as (k & -> & Hk).
  apply list_elem_of_lookup in Hk as [i Hi]. destruct (Forall2_lookup_r _ _ _ _ _ Hm Hi) as (x & Hx & Hc).
  exists x, k. split_and!; [by apply list_elem_of_lookup_2 in Hx|done|done|]. cbn. by apply (candidate_rider br s).
Qed.

Lemma batch_run br now fb origin planned res s res' s' :
  dispatch_batch great_circle speed geo sla buffer br now fb origin planned res s = Ok res' s' →
  let n := Z.of_nat (length (pb_orders planned)) in
  (eligible_riders (br_id br) s = [] ∧ same_work s s' ∧ res' = and_waiting n res) ∨
  (∃ b r, batch_taken br planned s s' b r ∧ res' = and_assigned n res).
Proof.
  intros Hrun n. unfold dispatch_batch in Hrun. cbv zeta in Hrun. erewrite bind_run_Ok in Hrun by reflexivity. cbv beta in Hrun.
  destruct (eligible_riders (br_id br) s) as [|r0 rs] eqn:Hel.
  { left. apply bind_Ok in Hrun as ([] & s1 & H1%no_rider_run & [-> ->]%ret_run). done. }
  right. rewrite <-Hel in Hrun. set (free := eligible_riders (br_id br) s) in *.
  erewrite bind_run_Ok in Hrun by reflexivity. cbv beta in Hrun.
  destruct (mapM (rider_candidate great_circle br s) free) as [cands|] eqn:Hm; [|done]. cbn in Hrun.
  apply mapM_Some_1 in Hm. destruct (rank_riders cands) as [|best l] eqn:Hrank; cbn in Hrun.
  { exfalso. unfold rank_riders in Hrank. pose proof (sort_by_perm not_worse (score_rider <$> cands)) as Hp.
    rewrite Hrank in Hp. apply Permutation_nil in Hp. destruct cands; [|done]. by rewrite Hel in Hm; inversion Hm. }
  destruct (List.find (λ r, ri_id r =? sr_rider_id best) free) as [r|] eqn:Hf.
  2:{ exfalso. destruct (ranked_rider br s free cands best) as (x & k & Hx & _ & _ & Hid); [done|rewrite Hrank; by left|].
      pose proof (List.find_none _ _ Hf x (proj1 (list_elem_of_In _ _) Hx)) as Hne. cbn in Hne. by rewrite Hid, Z.eqb_refl in Hne. }
  destruct (total_est _ _ _ _ _) as [est|]; [|done].
  apply bind_Ok in Hrun as (k & s1 & Hc & [-> ->]%ret_run). apply commit_route_run in Hc as (-> & b & H1 & H2 & H3 & H4 & H5 & H6 & H7 & H8).
  exists b, r. apply List.find_some in Hf as [Hin Hid]. zbool. apply list_elem_of_In in Hin.
  assert (Hperm : ∀ o, match o with Some p => _sequence_stops great_circle speed (Some geo) (pb_orders planned) p
    | None => pb_orders planned end ≡ₚ pb_orders planned) by (intros [p|]; [apply sequence_perm|done]).
  split; [split; try done|].
  - rewrite H6. apply fmap_Permutation, Hperm.
  - intros x c Hx Hcx Hnum. fold free in Hx, Hnum.
    destruct (best_first (score_rider <$> cands) best l) as [Hb Hall]; [|exact Hrank|].
    { intros sc Hsc. destruct (ranked_rider br s free cands sc) as (y & k & Hy & Hk & -> & _); [done| |by apply (Hnum y k)].
      unfold rank_riders. by apply elem_of_sort_by. }
    destruct (ranked_rider br s free cands best) as (y & k & Hy & Hk & -> & Hyid); [done|rewrite Hrank; by left|].
    exists y, k. split_and!; [done|congruence|done|]. apply Hall.
    apply list_elem_of_lookup in Hx as [i Hi]. destruct (Forall2_lookup_l _ _ _ _ _ Hm Hi) as (c' & Hc' & Hcc).
    apply list_elem_of_fmap. exists c. split; [done|]. assert (c' = c) as -> by congruence. by apply list_elem_of_lookup_2 in Hc'.
  - f_equal. rewrite length_fmap. unfold n. f_equal. apply Permutation_length, Hperm.
Qed.

(** A rider that took a batch is not free any more; the others stay what they were. *)
Lemma eligible_after br planned s s' b r x :
  batch_taken br planned s s' b r → x ∈ eligible_riders (br_id br) s' →
  x ∈ eligible_riders (br_id br) s ∧ ri_id x ≠ ri_id r.
Proof.
  intros Ht. unfold eligible_riders. rewrite !elem_of_all_where, (bt_riders _ _ _ _ _ _ Ht), elem_of_map_rows.
  intros ((y & Hy & ->) & He). destruct (ri_id y =? ri_id r) eqn:Hid; [by unfold is_eligible in He; rewrite andb_false_r in He|].
  by zbool.
Qed.

(** What the batches of a run add up to: the new runs hold what was assigned, [waiting] the rest. *)
Record greedy_outcome (br : Branch) (pool : list OrderCandidate) (res res' : DispatchResult) (s s' : fleet_db)
    (new : list Batch) (waiting : list OrderCandidate) : Prop := {
  go_batches : rows (batches s') = rows (batches s) ++ new;
  go_pool : concat (ba_route <$> new) ++ ((λ o, (bc_order_id o, bc_at o)) <$> waiting) ≡ₚ (λ o, (bc_order_id o, bc_at o)) <$> pool;
  go_assigned : assigned_count res' = assigned_count res + Z.of_nat (length (concat (ba_route <$> new)));
  go_waiting : unassigned_count res' = unassigned_count res + Z.of_nat (length waiting);
  go_retry : needs_retry res' = needs_retry res || negb (bool_decide (waiting = []));
  go_once : NoDup (ba_rider_id <$> new);
  go_planned : ∀ b, b ∈ new → ba_restaurant_id b = br_id br ∧ ba_status b = BPlanned;
  go_riders : ∀ b, b ∈ new → ∃ r, r ∈ eligible_riders (br_id br) s ∧ ri_id r = ba_rider_id b;
  go_stops : stop_key <$> rows (batch_orders s') = (stop_key <$> rows (batch_orders s)) ++ concat (run_keys <$> new);
  go_left : ∀ x, x ∈ eligible_riders (br_id br) s' → x ∈ eligible_riders (br_id br) s ∧ ri_id x ∉ (ba_rider_id <$> new);
  go_no_idle : waiting ≠ [] → eligible_riders (br_id br) s' = [];
}.

Lemma greedy_loop br now fb origin l : ∀ res s res' s',
  for_fold (dispatch_batch great_circle speed geo sla buffer br now fb origin) l res s = Ok res' s' →
  (∀ b, b ∈ l → pb_orders b ≠ []) →
  ∃ new waiting, greedy_outcome br (orders_of l) res res' s s' new waiting.
Proof.
  induction l as [|pb l IH]; intros res s res' s' Hrun Hne.
  { apply ret_run in Hrun as [-> ->]. exists [], []. split; cbn; rewrite ?app_nil_r, ?orb_false_r, ?Z.add_0_r; try done.
    - constructor.
    - by intros b ?%elem_of_nil.
    - by intros b ?%elem_of_nil.
    - intros x Hx. split; [done|]. by intros ?%elem_of_nil. }
  apply bind_Ok in Hrun as (res1 & s1 & H1%batch_run & Hrun).
  destruct (IH _ _ _ _ Hrun) as (new & waiting & H); [intros b Hb; apply Hne; by right|]. clear IH Hrun.
  destruct H as [G1 G2 G3 G4 G5 G6 G7 G8 G9 G10 G11]. destruct H1 as [(Hel & (E1 & E2 & E3) & ->)|(b & r & Ht & ->)].
  - exists new, (pb_orders pb ++ waiting).
    assert (Hel1 : eligible_riders (br_id br) s1 = []) by (unfold eligible_riders in *; by rewrite E3).
    assert (Hnew : new = []).
    { destruct new as [|b new]; [done|]. destruct (G8 b) as (x & Hx & _); [by left|]. rewrite Hel1 in Hx. by apply elem_of_nil in Hx. }
    subst new. split; try done; cbn in *.
    + by rewrite G1, E1.
    + rewrite !fmap_app. by apply Permutation_app_head.
    + by rewrite G4, length_app, Nat2Z.inj_add, Z.add_assoc.
    + rewrite G5, bool_decide_eq_false_2; [by rewrite orb_true_r|]. intros [? _]%app_nil. by apply (Hne pb); [left|].
    + by intros b ?%elem_of_nil.
    + by rewrite G9, E2.
    + intros x Hx. apply G10 in Hx as [Hx _]. by rewrite Hel1 in Hx; apply elem_of_nil in Hx.
    + intros _. destruct (eligible_riders (br_id br) s') as [|x xs] eqn:Hs; [done|]. destruct (G10 x) as [Hx _]; [by left|].
      rewrite Hel1 in Hx. by apply elem_of_nil in Hx.
  - assert (Hlen : length (ba_route b) = length (pb_orders pb)) by (by rewrite (bt_route _ _ _ _ _ _ Ht), length_fmap).
    exists (b :: new), waiting. split; try done; cbn.
    + rewrite G1, (bt_batch _ _ _ _ _ _ Ht). change (rows (add_row b (batches s))) with (rows (batches s) ++ [b]).
      by rewrite <-(assoc_L (++)).
    + rewrite fmap_app, <-G2, <-(bt_route _ _ _ _ _ _ Ht). by rewrite (assoc_L (++)).
    + rewrite length_app, Hlen. cbn in G3. lia.
    + constructor; [|done]. intros (b' & Hid & Hb')%list_elem_of_fmap. destruct (G8 b' Hb') as (x & Hx & Hxid).
      apply (eligible_after _ _ _ _ _ _ _ Ht) in Hx as [_ Hne']. apply Hne'.
      destruct (bt_of _ _ _ _ _ _ Ht) as (_ & <- & _). congruence.
    + intros b' [->|Hb']%elem_of_cons; [|by apply G7]. by destruct (bt_of _ _ _ _ _ _ Ht) as (? & _ & ?).
    + intros b' [->|Hb']%elem_of_cons.
      * exists r. split; [by destruct Ht|]. by destruct (bt_of _ _ _ _ _ _ Ht) as (_ & -> & _).
      * destruct (G8 b' Hb') as (x & Hx & Hxid). apply (eligible_after _ _ _ _ _ _ _ Ht) in Hx as [Hx _]. eauto.
    + by rewrite G9, (bt_stops _ _ _ _ _ _ Ht), <-(assoc_L (++)).
    + intros x Hx. apply G10 in Hx as [Hx Hni]. apply (eligible_after _ _ _ _ _ _ _ Ht) in Hx as [Hx Hner]. split; [done|].
      destruct (bt_of _ _ _ _ _ _ Ht) as (_ & Hr & _).
      apply not_elem_of_cons. by rewrite Hr.
Qed.

(** The order in which the batches are served loses none. *)
Lemma dispatch_order_perm l origin l' : dispatch_order great_circle speed geo l origin = Some l' → l' ≡ₚ l.
Proof.
  unfold dispatch_order, longest_first.
  destruct (mapM _ (List.filter (λ b, negb (is_priority b)) l)) as [ests|] eqn:Hm; [|done]. cbn. intros [= <-].
  assert (Hs : snd <$> ests = List.filter (λ b, negb (is_priority b)) l).
  { apply mapM_Some_1 in Hm. induction Hm as [|x [e y] xs ys Hxy _ IH]; [done|].
    destruct (total_est _ _ _ x origin); [|done]. injection Hxy as _ <-. cbn. by rewrite IH. }
  rewrite sort_by_perm, Hs. apply (Permutation_trans (Permutation_app_comm _ _)). apply filter_split.
Qed.

(** C12. The greedy engine neither loses an order nor gives it twice.  After a run every
    candidate is either a stop of exactly one new run or still waiting, and the counts it
    reports are those of the two; a retry is asked for exactly when something waits.
    Every new run belongs to a rider who was free, on duty and paired when the run began,
    no rider gets two, and an order is left waiting only when no such rider is left. *)
Theorem greedy_conserves br candidates now fb s res s' :
  _dispatch_greedy great_circle speed geo sla target buffer br candidates now fb s = Ok res s' →
  ∃ new waiting, greedy_outcome br candidates nothing_done res s s' new waiting.
Proof.
  unfold _dispatch_greedy, greedy_batches. set (bs := build_batches _ _ _ _ _ _ _).
  destruct (dispatch_order _ _ _ bs (br_at br)) as [l|] eqn:Hl; [|done]. intros Hrun.
  apply dispatch_order_perm in Hl. destruct (greedy_loop _ _ _ _ _ _ _ _ _ Hrun) as (new & waiting & H).
  - intros b Hb. rewrite Hl in Hb. unfold bs in Hb. apply build_ok in Hb. by destruct Hb.
  - exists new, waiting. destruct H as [G1 G2 G3 G4 G5 G6 G7 G8 G9 G10 G11]. split; try done.
    rewrite G2. apply fmap_Permutation. rewrite Hl. apply build_perm.
Qed.
End greedy.
