(* ===== verification/FleetCases.v ===== *)
(** * What the dispatcher leaves behind, and a small town

    Orders the dispatcher gives to a rider while they still cook, and orders a manager may
    not assign though the code lists their status; and concrete states on which the
    theorems about the fleet are applied. *)

From Stdlib Require Import SpecFloat.
From S2P Require Import Prelude Money Strings Db AuditTrail Clock Floats Wallet Coupons OrderFsm OrderFsmFacts OrderPayments Outbox Notify Loyalty Cod Batching Scoring Fleet FleetFacts Optimizer Dispatch DispatchFacts.

(** ** Orders that are stuck *)

Lemma elem_of_both_rows s p : p ∈ both_rows s → fst p ∈ rows (fl_orders s) ∧ get_row (o_id (fst p)) (deliveries s) = Some (snd p).
Proof.
  unfold both_rows. rewrite list_elem_of_omap. intros (o & Ho & Hp). destruct (get_row (o_id o) (deliveries s)) as [d|] eqn:Hd; [|done].
  by injection Hp as <-.
Qed.

(** A stop of another order leaves this one as it is. *)
Lemma pick_up_other tokens randbelow token_urlsafe bo first s first' s' oid :
  pick_up_stop tokens randbelow token_urlsafe bo first s = Ok first' s' → bo_order_id bo ≠ oid →
  get_row oid (fl_orders s') = get_row oid (fl_orders s) ∧ deliveries s' = deliveries s.
Proof.
  unfold pick_up_stop. intros Hrun Hne. erewrite bind_run_Ok in Hrun by reflexivity. cbv beta in Hrun.
  destruct (both_halves _ s) as [[o d]|] eqn:Hb; [|by apply ret_run in Hrun as [_ ->]].
  apply bind_Ok in Hrun as ([] & s1 & Hadv & Hrun). apply bind_Ok in Hrun as (t & s2 & Hen & [_ ->]%ret_run).
  apply (quiet_run _ _ _ _ (quiet_ensure s1 token_urlsafe _)) in Hen as (-> & -> & _).
  unfold advance_delivery in Hadv. erewrite bind_run_Ok in Hadv by reflexivity. cbv beta in Hadv. rewrite Hb in Hadv.
  destruct (negb _); [done|]. rewrite (bool_decide_eq_false_2 (PICKED_UP = DELIVERED)) in Hadv by done. cbn [andb] in Hadv.
  erewrite bind_run_Ok in Hadv by reflexivity. cbv beta in Hadv.
  rewrite (bind_run_Ok _ _ _ _ _ (assign_status_run _ _ _)) in Hadv. rewrite bool_decide_eq_false_2 in Hadv by done.
  do 3 (erewrite bind_run_Ok in Hadv by reflexivity; cbv beta in Hadv).
  match type of Hadv with _ ?x = _ => set (s3 := x) in Hadv end.
  assert (Hq : same_fleet s3 s1).
  { revert Hadv. apply quiet_run. apply preserves_bind; [apply quiet_stats|intros _].
    apply preserves_bind; [apply preserves_ret|intros _; apply quiet_partner]. }
  destruct Hq as (-> & -> & _). split; [|done].
  change (fl_orders s3) with (map_rows (λ o, if o_id o =? bo_order_id bo then with_status PICKED_UP o else o) (fl_orders s)).
  rewrite get_map_rows by (intros r; by destruct (o_id r =? bo_order_id bo)).
  destruct (get_row oid (fl_orders s)) as [x|] eqn:Hx; [|done]. cbn. apply get_row_Some in Hx as [_ Hid].
  change (row_id x) with (o_id x) in Hid. by rewrite (proj2 (Z.eqb_neq (o_id x) (bo_order_id bo))) by congruence.
Qed.
Lemma pick_up_ready tokens randbelow token_urlsafe l : ∀ bo first s o d,
  bo ∈ l → both_halves (bo_order_id bo) s = Some (o, d) → o_status o = READY →
  is_ok (for_fold (pick_up_stop tokens randbelow token_urlsafe) l first s) = false.
Proof.
  induction l as [|x l IH]; intros bo first s o d Hin Hb Hst; [by apply elem_of_nil in Hin|].
  cbn. unfold mbind, M_bind. destruct (pick_up_stop _ _ _ x first s) as [f s1|e s1] eqn:Hx; [|done].
  destruct (decide (bo_order_id x = bo_order_id bo)) as [Heq|Hne].
  - unfold pick_up_stop in Hx. erewrite bind_run_Ok in Hx by reflexivity. cbv beta in Hx. rewrite Heq, Hb in Hx.
    apply bind_Ok in Hx as ([] & s2 & Hadv & _). unfold advance_delivery in Hadv.
    erewrite bind_run_Ok in Hadv by reflexivity. cbv beta in Hadv. by rewrite Hb, Hst in Hadv.
  - apply elem_of_cons in Hin as [->|Hin]; [done|]. apply pick_up_other with (oid := bo_order_id bo) in Hx as [Ho Hd]; [|done].
    apply (IH bo f s1 o d Hin); [|done]. unfold both_halves. by rewrite Ho, Hd.
Qed.

(** C15. Orders that no request of the dispatcher moves.  An order that was given to a
    rider while it was still cooking keeps its own status, so once the kitchen has marked
    it ready it is ready and already has a rider: no run of the engine considers it (it is
    neither a candidate nor movable), the manager's assignment of it is refused as a
    reassignment of an order that is not assigned, and the rider cannot pick up the run
    it is in, whatever else is in that run.  And an order that is confirmed or still
    cooking is never assigned by hand, although the check names both statuses. *)
Theorem kitchen_orders_stuck tokens randbelow token_urlsafe s oid o d ri :
  fleet_ok s → both_halves oid s = Some (o, d) →
  (o_status o = READY → dl_rider_id d = Some ri →
     (∀ br now, oid ∉ bc_order_id <$> cp_candidates (order_pool br now s)) ∧
     (∀ rid, oid ∉ (λ p, o_id (fst p)) <$> movable_orders rid s) ∧
     (∀ new actor, assign_order (o_restaurant_id o) oid new actor s = Err (NotReassignable READY) s) ∧
     (∀ bo b, stop_of oid s = Some bo → get_row (bo_batch_id bo) (batches s) = Some b → ba_id b ≠ 0 → ba_status b = BPlanned →
        is_ok (mark_batch_picked_up tokens randbelow token_urlsafe ri (Some (ba_id b)) s) = false)) ∧
  (o_status o ∈ [CONFIRMED; PREPARING] → dl_rider_id d = None →
     ∀ new actor, is_ok (assign_order (o_restaurant_id o) oid new actor s) = false).
Proof.
  intros Hok Hb. pose proof (both_halves_Some _ _ _ _ Hb) as [Ho Hd]. pose proof (both_halves_id _ _ _ _ Hb) as [Hoid Hdid]. split.
  - intros Hst Hri. split_and!.
    + intros br now (c & Hc & Hin)%list_elem_of_fmap. unfold order_pool, build_order_candidates in Hin. cbn [cp_candidates] in Hin.
      apply list_elem_of_omap in Hin as (p & Hp & Hpc). destruct (_dropoff_coords _ s (o_id (fst p))) as [q|]; [|done].
      injection Hpc as <-. cbn in Hc. rewrite list_elem_of_In, List.filter_In, <-list_elem_of_In in Hp. destruct Hp as [Hp _].
      unfold by_order_id in Hp. apply elem_of_sort_by in Hp. unfold without_rider in Hp.
      rewrite list_elem_of_In, List.filter_In, <-list_elem_of_In in Hp. destruct Hp as [Hp Hn]. zbool.
      apply elem_of_both_rows in Hp as [_ Hp]. pose proof Hp as [_ Hpid]%get_row_Some. change (row_id (snd p)) with (dl_id (snd p)) in Hpid.
      congruence.
    + intros rid (p & Hpid & Hin)%list_elem_of_fmap. unfold movable_orders in Hin.
      rewrite list_elem_of_In, List.filter_In, <-list_elem_of_In in Hin. destruct Hin as [Hp Hm].
      unfold is_movable in Hm. zbool. apply elem_of_both_rows in Hp as [Hp _].
      pose proof (get_row_wf _ _ (fi_orders _ _ _ _ Hok) Hp) as Hg. change (row_id (fst p)) with (o_id (fst p)) in Hg. congruence.
    + intros new actor. unfold assign_order. erewrite bind_run_Ok by reflexivity. cbv beta. rewrite Hb, Z.eqb_refl, Hri. cbn.
      unfold reassign_order. erewrite bind_run_Ok by reflexivity. cbv beta. rewrite Hb, Z.eqb_refl, Hst. done.
    + intros bo b Hbo Hba Hz Hpl. pose proof Hbo as [Hbin Hboid]%stop_of_Some.
      destruct (fi_rider _ _ _ _ Hok bo Hbin) as (ba & d' & Hba' & Hd' & Hr').
      assert (ba = b) as -> by congruence. assert (d' = d) as -> by congruence.
      pose proof Hba as [_ Hbid]%get_row_Some. change (row_id b) with (ba_id b) in Hbid.
      assert (Hpick : batch_to_pick ri (Some (ba_id b)) s = Some b).
      { unfold batch_to_pick. cbn. rewrite (proj2 (Z.eqb_neq _ _) Hz), Hbid, Hba.
        assert (ba_rider_id b = ri) as -> by congruence. by rewrite Z.eqb_refl, bool_decide_eq_true_2. }
      unfold mark_batch_picked_up. erewrite bind_run_Ok by reflexivity. cbv beta. rewrite Hpick.
      do 2 (erewrite bind_run_Ok by reflexivity; cbv beta). unfold mbind at 1, M_bind at 1.
      match goal with |- context [for_fold ?f ?l None ?st] =>
        pose proof (pick_up_ready tokens randbelow token_urlsafe l bo None st o d) as Hno; destruct (for_fold f l None st) end; [|done].
      apply Hno; [|by rewrite Hboid|done]. unfold by_sequence. apply elem_of_sort_by, elem_of_stops_in. by rewrite Hbid.
  - intros Hst Hri new actor.
    destruct (assign_order (o_restaurant_id o) oid new actor s) as [[] s'|] eqn:Hrun; [exfalso|done].
    unfold assign_order in Hrun. erewrite bind_run_Ok in Hrun by reflexivity. cbv beta in Hrun.
    rewrite Hb, Z.eqb_refl, Hri in Hrun. cbn [negb orb] in Hrun.
    destruct (_ || _) eqn:Has; [apply orb_true_iff in Has as [Has|Has]; zbool; [done|];
      rewrite Has, !elem_of_cons, elem_of_nil in Hst; by destruct Hst as [?|[?|[]]]|].
    destruct (negb (bool_decide (o_status o ∈ _))); [done|]. erewrite bind_run_Ok in Hrun by reflexivity. cbv beta in Hrun.
    destruct (refuse_rider _ _); [done|]. destruct (get_row new (riders s)) as [nr|]; [|done].
    erewrite bind_run_Ok in Hrun by reflexivity. cbv beta in Hrun.
    apply bind_Ok in Hrun as ([] & s2 & _ & Hrun). apply bind_Ok in Hrun as ([] & s3 & Htr & _).
    apply transition_run in Htr as (Hv & _). revert Hv Hst. rewrite !elem_of_cons, elem_of_nil.
    by intros Hv [E|[E|[]]]; rewrite E in Hv.
Qed.

(** ** A small town

    A plane with kilometres for coordinates: a restaurant at the origin, customers along
    the road, two minutes a kilometre. *)
Definition spot_at (x y : Z) : point := Point (fint x) (fint y).
Definition flat_km (a b : point) : float := fadd (SFabs (fsub (lat a) (lat b))) (SFabs (fsub (lon a) (lon b))).
Definition flat_geo : geo_port :=
  {| geo_distance_km := flat_km; geo_eta_minutes d := 2 * default 0 (ftrunc d) |}.
Definition flat_tracking : tracking_geo :=
  {| tg_distance_km := flat_km; tg_eta_minutes d b := 2 * default 0 (ftrunc d) + b; is_estimate := true |}.
Definition listing {R} (l : list R) : table R := Table l (Z.of_nat (length l) + 1).

Definition town_now : Z := hours 12.
Definition town_order (i : Z) (st : OrderStatus) : OrderFsm.Order :=
  {| o_id := i; o_restaurant_id := 1; o_customer_id := 1; o_status := st; o_total := 5000; o_table_id := None;
     o_aggregator_source := None; o_aggregator_order_ref := None; o_created_at := 0 |}.
(** The customer of order [i] lives at address [i]; twenty minutes ago they confirmed. *)
Definition town_delivery (i : Z) (rider deadline : option Z) : Delivery :=
  {| dl_id := i; order_number := "R" +:+ pretty i; address_id := Some i; dl_rider_id := rider; priority := "normal";
     sla_confirmed_at := Some (town_now - minutes 10); sla_deadline := Some (town_now + minutes 30);
     prep_deadline := deadline; promised_eta := None; dl_updated_at := Some (town_now - minutes 1);
     dl_delivered_at := None; late := None; delivery_failure_reason := None; delivery_photo_url := None;
     delivery_otp := None; delivery_otp_verified_at := None; otp_required_at_deliver := false |}.
Definition town_bill (i : Z) : OrderPayments.Order := Bill i 1 1 4500 500 5000 0 0 0 0 0 None 0 0.
Definition town_rider (i : Z) (st : rider_status) (paired : bool) : Rider :=
  {| ri_id := i; ri_restaurant_id := 1; ri_name := "Rider"; ri_phone := "050"; ri_status := st; on_duty := true;
     device_token := if paired then Some "token"%string else None; pairing_code := None; pairing_code_expires_at := None;
     push_token := None; on_time_pct := None |}.
Definition town_branch (engine : string) : Branch :=
  {| br_id := 1; br_phone := "04"; br_at := Some (spot_at 0 0); br_loyalty := None; require_otp_on_deliver := true;
     br_dispatch := {| raw_prep_lead_min := None; raw_hold_seconds := None; raw_proximity_km := None;
       raw_window_minutes := None; raw_max_orders := None; raw_buffer_minutes := None; raw_max_detour_km := None;
       raw_zones := []; raw_engine := Some engine; raw_expedite_radius_km := None |} |}.
Definition town_member : Member :=
  {| mb_id := 1; mb_restaurant_id := 1; mb_phone := "055"; loyalty_tier := None; loyalty_tier_since := None;
     loyalty_tier_locked := false; loyalty_reward_anchor := 0; referred_by_customer_id := None; loyalty_points := 0 |}.

(** Nothing is assigned yet. *)
Definition town (engine : string) (os : list (OrderStatus * option Z)) (homes : list point) (rs : list Rider) : fleet_db :=
  let ids := (λ k, Z.of_nat k + 1) <$> seq 0 (length os) in
  {| fl_loyalty :=
       {| members := listing [town_member]; stamp_cards := empty_table; point_entries := empty_table;
          referral_codes := empty_table; favorites := empty_table; eaten_lines := empty_table; venues := empty_table;
          lo_fsm := {| orders := listing (zip_with (λ i p, town_order i (fst p)) ids os); customers := empty_table;
                       fsm_audit := []; realtime_events := []; OrderFsm.pushes := [] |};
          lo_wallet := {| accounts := empty_table; entries := empty_table; wallet_audit := []; wallet_now := town_now |};
          lo_coupons := {| coupons := empty_table; redemptions := empty_table; coupon_audit := []; coupon_now := town_now |};
          lo_notify := {| conversations := empty_table; chat_messages := empty_table;
                          notify_outbox := Build_outbox_db empty_table [] [] [] town_now |};
          lo_audit := []; lo_now := town_now |};
     deliveries := listing (zip_with (λ i p, town_delivery i None (snd p)) ids os);
     batches := empty_table; batch_orders := empty_table; assignments := empty_table; trackings := empty_table;
     locations := empty_table; riders := listing rs; branches := listing [town_branch engine];
     addresses := listing (zip_with (λ i p, {| ad_id := i; ad_at := Some p |}) ids homes);
     fl_bills := (listing (town_bill <$> ids), empty_table, []); fl_cod := no_cash; fl_audit := []; outside := [];
     draws := 0; expedited := [] |}.

(** A town without runs is in order. *)
Lemma listing_wf {R} `{Row R} (l : list R) :
  NoDup (row_id <$> l) → Forall (λ r, row_id r ≤ Z.of_nat (length l)) l → table_wf (listing l).
Proof.
  intros Hnd Hle. rewrite Forall_forall in Hle. split; cbn.
  - intros r1 r2 H1 H2 Heq. apply list_elem_of_lookup in H1 as [i Hi], H2 as [j Hj].
    assert (i = j) as <-; [|congruence].
    apply (NoDup_lookup _ _ _ (row_id r1) Hnd); rewrite list_lookup_fmap; [by rewrite Hi|by rewrite Hj, Heq].
  - by apply NoDup_fmap_1 in Hnd.
  - intros r Hr. specialize (Hle r Hr). lia.
Qed.
Definition fresh_town (s : fleet_db) : bool :=
  bool_decide (rows (batches s) = []) && bool_decide (rows (batch_orders s) = [])
  && forallb (λ o, negb (bool_decide (o_status o = DELIVERED))) (rows (fl_orders s)).
Lemma town_ok s : fresh_town s = true → table_wf (fl_orders s) → table_wf (deliveries s) → table_wf (batches s) →
  table_wf (batch_orders s) → fleet_ok s.
Proof.
  unfold fresh_town. intros Hf Ho Hd Hb Hs. zbool. rewrite forallb_forall in H0.
  assert (Hno : ∀ b, b ∉ rows (batch_orders s)) by (intros b; rewrite H1; apply not_elem_of_nil).
  split; try done; try (intros b; intros; by destruct (Hno b)).
  - intros i o d [Hin _]%get_row_Some _ Hst. apply list_elem_of_In, H0 in Hin. zbool. done.
Qed.
Ltac town := apply town_ok; [vm_compute; reflexivity|..];
  (apply listing_wf || apply empty_table_wf); by apply (bool_decide_unpack _); vm_compute.

(** *** Lunch: three orders, one rider who can ride *)
Definition lunch : fleet_db := town "greedy" [(READY, None); (READY, None); (READY, None)]
  [spot_at 1 0; spot_at 1 1; spot_at 9 0] [town_rider 1 Available true; town_rider 2 Available false].
Lemma lunch_ok : fleet_ok lunch.
Proof. town. Qed.
Definition lunch_pool : list OrderCandidate := cp_candidates (order_pool (town_branch "greedy") town_now lunch).
Abbreviation lunch_run :=
  (_dispatch_greedy flat_km (fint 30) flat_geo 40 30 10 (town_branch "greedy") lunch_pool town_now false lunch).

(** The far order leaves first; the two near ones wait. *)
Lemma greedy_conserves_witness :
  let res := {| assigned_count := 1; unassigned_count := 2; needs_retry := true |} in
  lunch_run = Ok res (final lunch_run) ∧
  ∃ new waiting, greedy_outcome (town_branch "greedy") lunch_pool nothing_done res lunch (final lunch_run) new waiting.
Proof.
  assert (H : lunch_run = Ok {| assigned_count := 1; unassigned_count := 2; needs_retry := true |} (final lunch_run))
    by (vm_compute; reflexivity).
  split; [exact H|]. exact (greedy_conserves _ _ _ _ _ _ _ _ _ _ _ _ _ H).
Defined.

(** *** A delivery by hand, with the customer's code *)
Definition town_codes (n : Z) : Z := 1000 + n.
Definition town_serve : fleet_db → fleet_request → fleet_db :=
  handled flat_km (fint 30) flat_geo None (λ _, NoSolution) 40 30 10 (λ _ _, "C"%string) town_codes pretty flat_tracking "https://x".
Definition rider_pings (s : fleet_db) : fleet_db :=
  final (update_rider_location (town_rider 1 Available true) (spot_at 1 0) None s).
Definition picked_up : fleet_db := fold_left town_serve [AssignOrder 1 1 1 "manager"; PickUpRun 1 None; AdvanceOrder 1 ARRIVING] lunch.
Definition without_code : fleet_db := fold_left town_serve [DeliverOrder 1 1 1 None] (rider_pings picked_up).
Definition with_code : fleet_db := fold_left town_serve [VerifyOtp 1 1 "1002"; DeliverOrder 1 1 1 None] (rider_pings picked_up).

Abbreviation town_step := (fleet_step flat_km (fint 30) flat_geo None (λ _, NoSolution) 40 30 10 (λ _ _, "C"%string) town_codes
  pretty flat_tracking "https://x").
Lemma town_steps l s : rtc town_step s (fold_left town_serve l s).
Proof. apply handled_steps. Qed.
Lemma pings_same s : same_fleet s (rider_pings s).
Proof. done. Qed.
Lemma with_code_reached : rtc town_step lunch with_code.
Proof.
  trans picked_up; [apply town_steps|].
  apply (rtc_l _ _ (rider_pings picked_up)); [apply Elsewhere, pings_same|apply town_steps].
Qed.
Lemma without_code_reached : rtc town_step lunch without_code.
Proof.
  trans picked_up; [apply town_steps|].
  apply (rtc_l _ _ (rider_pings picked_up)); [apply Elsewhere, pings_same|apply town_steps].
Qed.


(** The door step of the same day, the code verified before. *)
Lemma town_served_ok l : ∀ s, fleet_ok s → fleet_ok (fold_left town_serve l s).
Proof.
  induction l as [|r l IH]; intros s Hok; [done|]. cbn [fold_left]. apply IH. unfold town_serve, handled.
  destruct (serve _ _ _ _ _ _ _ _ _ _ _ _ _ r s) as [[] s'|] eqn:Hr; [|done]. by apply serve_keeps in Hr.
Qed.
Definition at_the_door : fleet_db := fold_left town_serve [VerifyOtp 1 1 "1002"] (rider_pings picked_up).
Lemma at_the_door_ok : fleet_ok at_the_door.
Proof.
  apply town_served_ok, (same_fleet_ok picked_up); [apply pings_same|]. apply town_served_ok, lunch_ok.
Qed.
Abbreviation door_halves := (both_halves 1 at_the_door).
Lemma delivery_settles_witness :
  match door_halves with
  | None => False
  | Some (o, d) =>
      o_status o = ARRIVING ∧ otp_required_at_deliver d = true ∧ delivery_otp_verified_at d ≠ None ∧
      match capture_on_deliver 1 "system" (view (Lens := fleet_pay_lens) at_the_door) with
      | Err _ _ => False
      | Ok _ p => ∃ s', advance_delivery (λ _ _, "C"%string) town_codes 1 DELIVERED at_the_door = Err SessionRolledBack s' ∨
          advance_delivery (λ _ _, "C"%string) town_codes 1 DELIVERED at_the_door = Ok tt s' ∧
          delivered_state 1 o d p at_the_door s'
      end
  end.
Proof.
  assert (Hst : (λ p, (o_status (fst p), (otp_required_at_deliver (snd p), delivery_otp_verified_at (snd p)))) <$> door_halves
    = Some (ARRIVING, (true, Some town_now))) by (vm_compute; reflexivity).
  assert (Hcap : is_ok (capture_on_deliver 1 "system" (view (Lens := fleet_pay_lens) at_the_door)) = true)
    by (vm_compute; reflexivity).
  destruct door_halves as [[o d]|] eqn:Hb; [|discriminate Hst]. injection Hst as Ho Hreq Hv.
  split; [exact Ho|]. split; [exact Hreq|]. split; [by rewrite Hv|].
  pose proof (delivery_settles (λ _ _, "C"%string) town_codes 1 at_the_door o d at_the_door_ok Hb) as (_ & _ & Hd).
  assert (Hd' := Hd Ho (λ _, ltac:(by rewrite Hv))). clear Hd.
  destruct (capture_on_deliver 1 "system" (view (Lens := fleet_pay_lens) at_the_door)); [exact Hd'|discriminate Hcap].
Defined.

(** An order given away while it cooks, then marked ready. *)
Definition early : fleet_db := town "greedy" [(PREPARING, Some (town_now + minutes 5)); (CONFIRMED, None)]
  [spot_at 1 0; spot_at 2 0] [town_rider 1 Available true; town_rider 2 Available true].
Definition kitchen_done (s : fleet_db) : fleet_db :=
  match get_row 1 (fl_orders s) with
  | Some o => final (zoom (E' := fleet_error) FleetFsmRaised (transition o READY "manager" None) s)
  | None => s
  end.
Definition stuck : fleet_db := kitchen_done (fold_left town_serve [RunDispatch 1] early).
Lemma kitchen_done_ok s : fleet_ok s → fleet_ok (kitchen_done s).
Proof.
  intros Hok. unfold kitchen_done. destruct (get_row 1 (fl_orders s)) as [o|] eqn:Ho; [|done].
  destruct (zoom (E' := fleet_error) FleetFsmRaised (transition o READY "manager" None) s) as [[] s'|e s'] eqn:Hrun; cbn.
  - by destruct (transition_keeps _ _ _ _ _ _ _ 1 Hrun Hok Ho).
  - unfold zoom in Hrun. destruct (transition o READY "manager" None (view s)) as [|e' f] eqn:Htr; [done|].
    injection Hrun as _ <-. destruct (validate (o_status o) READY) eqn:Hv.
    + destruct (transition_accepts o READY "manager" None (view s) Hv) as (f' & Hrun' & _). congruence.
    + rewrite transition_rejects in Htr by done. injection Htr as _ Hf. rewrite <-Hf. by apply (same_fleet_ok s).
Qed.
Lemma early_ok : fleet_ok early.
Proof. town. Qed.
Lemma stuck_ok : fleet_ok stuck.
Proof. apply kitchen_done_ok, town_served_ok, early_ok. Qed.

(** Order 1 is ready, rides with rider 1, and stays there; order 2 is only confirmed. *)
Abbreviation stuck_halves i := (both_halves i stuck).
Lemma kitchen_orders_stuck_witness :
  match stuck_halves 1, stuck_halves 2 with
  | Some (o, d), Some (o2, d2) =>
      o_status o = READY ∧ dl_rider_id d = Some 1 ∧ stop_of 1 stuck ≠ None ∧
      (1 ∉ (λ p, o_id (fst p)) <$> movable_orders 1 stuck) ∧
      o_status o2 = CONFIRMED ∧ dl_rider_id d2 = None ∧
      (∀ new actor, is_ok (assign_order (o_restaurant_id o2) 2 new actor stuck) = false)
  | _, _ => False
  end.
Proof.
  assert (H1 : (λ p, (o_status (fst p), dl_rider_id (snd p))) <$> stuck_halves 1 = Some (READY, Some 1)) by (vm_compute; reflexivity).
  assert (H2 : (λ p, (o_status (fst p), dl_rider_id (snd p))) <$> stuck_halves 2 = Some (CONFIRMED, None)) by (vm_compute; reflexivity).
  assert (Hs : bool_decide (stop_of 1 stuck = None) = false) by (vm_compute; reflexivity).
  destruct (stuck_halves 1) as [[o d]|] eqn:Hb1; [|discriminate H1]. destruct (stuck_halves 2) as [[o2 d2]|] eqn:Hb2; [|discriminate H2].
  injection H1 as Ho Hr. injection H2 as Ho2 Hr2. apply bool_decide_eq_false in Hs.
  pose proof (kitchen_orders_stuck (λ _ _, "C"%string) town_codes pretty stuck 1 o d 1 stuck_ok Hb1) as [Hstuck _].
  pose proof (kitchen_orders_stuck (λ _ _, "C"%string) town_codes pretty stuck 2 o2 d2 1 stuck_ok Hb2) as [_ Hnever].
  destruct (Hstuck Ho Hr) as (_ & Hmov & _). split_and!; [exact Ho|exact Hr|exact Hs|apply Hmov|exact Ho2|exact Hr2|].
  apply Hnever; [rewrite Ho2; by left|exact Hr2].
Defined.
