(* ===== verification/Idempotency.v ===== *)
(** * Replayed requests ([app.idempotency.middleware])

    The middleware answers a mutating request that carries an [Idempotency-Key] it has
    seen with the recorded response.  The application behind it is a parameter; two
    requests in flight interleave at the point where the middleware calls it. *)

From S2P Require Import Prelude Db.

(** ** Data *)

Record http_request := {
  rq_key : option string;      (** the [Idempotency-Key] header *)
  rq_method : string;
  rq_path : string;
  rq_restaurant_id : option Z; (** the tenant of the bearer token, if it decodes *)
  rq_content : string;
}.
Record http_response := { rsp_status : Z; rsp_content : string }.

Record IdempotencyKey := {
  ik_id : Z;
  ik_restaurant_id : Z;
  ik_key : string;
  ik_method : string;
  ik_path : string;
  ik_response_status : Z;
  ik_response_body : string;
}.
#[global] Instance IdempotencyKey_row : Row IdempotencyKey := ik_id.

Definition _MUTATING_METHODS : list string := ["POST"; "PATCH"; "PUT"; "DELETE"]%string.

(** What a request is deduplicated under, if it is. *)
Definition scope := (Z * string * string * string)%type.
Definition scope_of (r : http_request) : option scope :=
  match rq_key r with
  | None => None
  | Some key =>
      if negb (bool_decide (rq_method r ∈ _MUTATING_METHODS)) then None else
      match rq_restaurant_id r with
      | None => None
      | Some rid => Some (rid, key, rq_method r, rq_path r)
      end
  end.
Definition recorded_scope (k : IdempotencyKey) : scope :=
  (ik_restaurant_id k, ik_key k, ik_method k, ik_path k).
Definition lookup_key (sc : scope) (t : table IdempotencyKey) : option IdempotencyKey :=
  first_where (λ k, bool_decide (recorded_scope k = sc)) t.

Section middleware.
(** The application: its state, and what a request does to it. *)
Context {A : Type} (call_next : http_request → A → http_response * A).

Record served := { app : A; keys : table IdempotencyKey }.

(** The first half of [dispatch]: the recorded response, if there is one. *)
Definition check_key (r : http_request) (s : served) : option http_response :=
  sc ← scope_of r;
  k ← lookup_key sc (keys s);
  Some {| rsp_status := ik_response_status k; rsp_content := ik_response_body k |}.

(** The second half: the application runs, and a success is recorded unless the row
    is there already ([IntegrityError]) or the write fails ([write_ok] false). *)
Definition record_response (write_ok : bool) (r : http_request) (resp : http_response)
    (t : table IdempotencyKey) : table IdempotencyKey :=
  match scope_of r with
  | Some ((rid, key, method, path) as sc) =>
      if (200 <=? rsp_status resp) && (rsp_status resp <? 300) && write_ok then
        match lookup_key sc t with
        | Some _ => t
        | None => add_row {| ik_id := next_id t; ik_restaurant_id := rid; ik_key := key; ik_method := method;
            ik_path := path; ik_response_status := rsp_status resp; ik_response_body := rsp_content resp |} t
        end
      else t
  | None => t
  end.
Definition run_request (write_ok : bool) (r : http_request) (s : served) : http_response * served :=
  let '(resp, a) := call_next r (app s) in
  (resp, {| app := a; keys := record_response write_ok r resp (keys s) |}).

Definition dispatch (write_ok : bool) (r : http_request) (s : served) : http_response * served :=
  match check_key r s with
  | Some resp => (resp, s)
  | None => run_request write_ok r s
  end.

(** ** Requests in flight *)

(** [Arrive r]: a request passes the first half; [Finish i]: the [i]-th of those
    waiting runs and is recorded.  A request answered from the record never waits. *)
Inductive http_event := Arrive (r : http_request) | Finish (i : nat) (write_ok : bool).
Record server := { state : served; waiting : list http_request; answers : list http_response }.
Definition server_step (e : http_event) (v : server) : server :=
  match e with
  | Arrive r =>
      match check_key r (state v) with
      | Some resp => {| state := state v; waiting := waiting v; answers := answers v ++ [resp] |}
      | None => {| state := state v; waiting := waiting v ++ [r]; answers := answers v |}
      end
  | Finish i write_ok =>
      match waiting v !! i with
      | Some r =>
          let '(resp, s) := run_request write_ok r (state v) in
          {| state := s; waiting := delete i (waiting v); answers := answers v ++ [resp] |}
      | None => v
      end
  end.
Definition server_run (l : list http_event) (v : server) : server := fold_left (λ v e, server_step e v) l v.

(** ** Replays *)

Lemma lookup_key_add sc row t :
  lookup_key sc (add_row row t) =
    match lookup_key sc t with Some k => Some k | None => if bool_decide (recorded_scope row = sc) then Some row else None end.
Proof. exact (first_where_add (λ k, bool_decide (recorded_scope k = sc)) row t). Qed.

Lemma record_keeps write_ok r resp t sc k :
  lookup_key sc t = Some k → lookup_key sc (record_response write_ok r resp t) = Some k.
Proof.
  intros Hk. unfold record_response. destruct (scope_of r) as [[[[rid key] me] pa]|]; [|done].
  destruct (_ && write_ok); [|done]. destruct (lookup_key (rid, key, me, pa) t); [done|].
  by rewrite lookup_key_add, Hk.
Qed.

Lemma dispatch_keeps write_ok r s sc k :
  lookup_key sc (keys s) = Some k → lookup_key sc (keys (snd (dispatch write_ok r s))) = Some k.
Proof.
  intros Hk. unfold dispatch. destruct (check_key r s); [done|]. unfold run_request.
  destruct (call_next r (app s)) as [resp a]. by apply record_keeps.
Qed.

Definition dispatch_all (l : list (bool * http_request)) (s : served) : served :=
  fold_left (λ s wr, snd (dispatch (fst wr) (snd wr) s)) l s.

Lemma dispatch_all_keeps l : ∀ s sc k,
  lookup_key sc (keys s) = Some k → lookup_key sc (keys (dispatch_all l s)) = Some k.
Proof. induction l as [|[w r] l IH]; intros s sc k Hk; [done|]. cbn. apply IH. by apply dispatch_keeps. Qed.

(** A success is replayed, not repeated: once a request with a key has been
    answered with a 2xx and its record written, then after any other requests, a
    request of the same tenant, key, method and path is answered with the same
    status and body, and neither the application nor the records change. *)
Theorem success_replayed r r' s s1 resp l sc w :
  scope_of r = Some sc → scope_of r' = Some sc → lookup_key sc (keys s) = None →
  dispatch true r s = (resp, s1) → 200 ≤ rsp_status resp < 300 →
  dispatch w r' (dispatch_all l s1) = (resp, dispatch_all l s1).
Proof.
  intros Hr Hr' Hnew Hrun Hok. unfold dispatch in Hrun. unfold check_key in Hrun at 1. rewrite Hr in Hrun.
  cbn in Hrun. rewrite Hnew in Hrun. cbn in Hrun. unfold run_request in Hrun.
  destruct (call_next r (app s)) as [resp0 a]. injection Hrun as -> <-.
  destruct sc as [[[rid key] me] pa].
  assert (∃ k, lookup_key (rid, key, me, pa) (record_response true r resp (keys s)) = Some k ∧
    ik_response_status k = rsp_status resp ∧ ik_response_body k = rsp_content resp) as (k & Hk & Hs & Hb).
  { unfold record_response. rewrite Hr, (proj2 (Z.leb_le _ _)), (proj2 (Z.ltb_lt _ _)) by lia. cbn.
    rewrite Hnew, lookup_key_add, Hnew. rewrite bool_decide_true by done. eexists. by split_and!. }
  set (s1 := Build_served a _). assert (lookup_key (rid, key, me, pa) (keys (dispatch_all l s1)) = Some k) as Hk'
    by by apply dispatch_all_keeps.
  unfold dispatch, check_key. rewrite Hr'. cbn. rewrite Hk'. cbn. rewrite Hs, Hb. by destruct resp.
Qed.

(** What is not deduplicated runs: no key, a reading method, no tenant, or no record. *)
Lemma unrecorded_runs w r s :
  (∀ sc, scope_of r = Some sc → lookup_key sc (keys s) = None) → dispatch w r s = run_request w r s.
Proof.
  intros Hn. unfold dispatch, check_key. destruct (scope_of r) as [sc|]; [|done]. cbn. by rewrite (Hn sc eq_refl).
Qed.
End middleware.

(** ** An application that counts its orders *)

Definition count_orders (_ : http_request) (n : Z) : http_response * Z :=
  ({| rsp_status := 201; rsp_content := pretty (n + 1) |}, n + 1).
Definition post_order : http_request :=
  Build_http_request (Some "k1") "POST" "/api/v1/orders" (Some 1) "{}".
Definition fresh_server : served (A := Z) := Build_served 0 empty_table.

Example success_replayed_witness :
  ∃ s1, dispatch count_orders true post_order fresh_server = (Build_http_response 201 "1", s1) ∧
    dispatch count_orders true post_order s1 = (Build_http_response 201 "1", s1).
Proof.
  exists (snd (dispatch count_orders true post_order fresh_server)). split; [vm_compute; reflexivity|].
  apply (success_replayed count_orders post_order post_order fresh_server _ (Build_http_response 201 "1") []
    (1, "k1", "POST", "/api/v1/orders")%string true);
    [vm_compute; reflexivity..|cbn; lia].
Defined.

(** Two copies in flight together both reach the application: the second record is
    refused, but the mutation has been applied twice. *)
Theorem concurrent_copies_apply_twice :
  let v := server_run count_orders
    [Arrive post_order; Arrive post_order; Finish 0 true; Finish 0 true]
    (Build_server fresh_server [] []) in
  app (state v) = 2 ∧ length (rows (keys (state v))) = 1%nat ∧ map rsp_content (answers v) = ["1"; "2"]%string.
Proof. vm_compute. by split_and!. Qed.
