(* ===== verification/Staff.v ===== *)
(** * Staff: members, sign-in, PINs and approvals ([app.staff])

    The tables of [staff/models.py], the branch-scoped identity of [staff/identity.py],
    the role gate of [staff/deps.py], the manager approvals of [staff/approvals.py], the
    mistakes of [staff/mistakes.py] and the handlers of [staff/router.py] that change
    them.  Attendance, shifts and tips ([Attendance]) use the same session.

    Argon2 and the token library are parameters: [verify] is [PasswordHasher.verify],
    [hash salt] is [PasswordHasher.hash] with the salt it draws, [jwt_decode] gives the
    claims of a token that verifies for an audience. *)

From S2P Require Import Prelude Money Strings Db AuditTrail Clock OrderFsm.

(** ** Data *)

Record StaffMember := {
  sm_id : Z;
  sm_restaurant_id : Z;
  sm_staff_code : option Z;
  sm_name : string;
  sm_phone : option string;
  sm_role : string;
  sm_pin_hash : string;
  sm_is_active : bool;
  sm_training_mode : bool;
}.
#[global] Instance StaffMember_row : Row StaffMember := sm_id.

Inductive clock_type := ClockIn | ClockOut | BreakStart | BreakEnd.
#[global] Instance clock_type_eq_dec : EqDecision clock_type.
Proof. solve_decision. Defined.
Record ClockEvent := {
  ce_id : Z;
  ce_restaurant_id : Z;
  ce_staff_id : Z;
  ce_type : clock_type;
  ce_at : Z;
}.
#[global] Instance ClockEvent_row : Row ClockEvent := ce_id.

Record ApprovalRequest := {
  ap_id : Z;
  ap_restaurant_id : Z;
  ap_action_type : string;
  ap_status : string;
  ap_requested_by_staff_id : option Z;
  ap_approved_by_staff_id : option Z;
  ap_order_id : option Z;
  ap_amount_aed : option Z;
  ap_payload : jdict;
  ap_reason : option string;
  ap_resolved_at : option Z;
}.
#[global] Instance ApprovalRequest_row : Row ApprovalRequest := ap_id.

Record StaffMistake := {
  mk_id : Z;
  mk_restaurant_id : Z;
  mk_staff_id : Z;
  mk_order_id : option Z;
  mk_mistake_type : string;
  mk_amount_aed : Z;
  mk_notes : option string;
}.
#[global] Instance StaffMistake_row : Row StaffMistake := mk_id.

Record SuspiciousActivityAlert := {
  sa_id : Z;
  sa_restaurant_id : Z;
  sa_alert_type : string;
  sa_severity : string;
  sa_staff_id : option Z;
  sa_detail : jdict;
  sa_acknowledged : bool;
}.
#[global] Instance SuspiciousActivityAlert_row : Row SuspiciousActivityAlert := sa_id.

Inductive shift_status := ShScheduled | ShOpen | ShClosed.
#[global] Instance shift_status_eq_dec : EqDecision shift_status.
Proof. solve_decision. Defined.
Record Shift := {
  sh_id : Z;
  sh_restaurant_id : Z;
  sh_staff_id : Z;
  sh_scheduled_start : Z;
  sh_scheduled_end : Z;
  sh_status : shift_status;
  sh_actual_start : option Z;
  sh_actual_end : option Z;
}.
#[global] Instance Shift_row : Row Shift := sh_id.

(** The columns of branches, organizations, orders and payments the services read. *)
Record Branch := {
  br_id : Z;
  br_name : string;
  br_store_code : string;
  br_location_uuid : string;
  br_organization_id : option Z;
  br_is_active : bool;
  br_password_hash : string;
}.
#[global] Instance Branch_row : Row Branch := br_id.
Record Organization := { og_id : Z; og_account_uuid : string }.
#[global] Instance Organization_row : Row Organization := og_id.
Record StaffOrder := {
  st_id : Z;
  st_restaurant_id : Z;
  st_status : OrderStatus;
  st_staff_id : option Z;
  st_tip_staff_id : option Z;
  st_total : Z;
  st_is_training : bool;
  st_created_at : Z;
  st_delivered_at : option Z;
}.
#[global] Instance StaffOrder_row : Row StaffOrder := st_id.
Record TipPayment := { tp_id : Z; tp_order_id : Z; tp_tip_aed : Z }.
#[global] Instance TipPayment_row : Row TipPayment := tp_id.

Record staff_db := {
  staff_members : table StaffMember;
  clock_events : table ClockEvent;
  approvals : table ApprovalRequest;
  mistakes : table StaffMistake;
  alerts : table SuspiciousActivityAlert;
  shifts : table Shift;
  branches : table Branch;
  organizations : table Organization;
  staff_orders : table StaffOrder;
  tip_payments : table TipPayment;
  staff_audit : list audit_row;
}.
Definition with_members t s := Build_staff_db t (clock_events s) (approvals s) (mistakes s) (alerts s)
  (shifts s) (branches s) (organizations s) (staff_orders s) (tip_payments s) (staff_audit s).
Definition with_clock_events t s := Build_staff_db (staff_members s) t (approvals s) (mistakes s) (alerts s)
  (shifts s) (branches s) (organizations s) (staff_orders s) (tip_payments s) (staff_audit s).
Definition with_approvals t s := Build_staff_db (staff_members s) (clock_events s) t (mistakes s) (alerts s)
  (shifts s) (branches s) (organizations s) (staff_orders s) (tip_payments s) (staff_audit s).
Definition with_mistakes t s := Build_staff_db (staff_members s) (clock_events s) (approvals s) t (alerts s)
  (shifts s) (branches s) (organizations s) (staff_orders s) (tip_payments s) (staff_audit s).
Definition with_alerts t s := Build_staff_db (staff_members s) (clock_events s) (approvals s) (mistakes s) t
  (shifts s) (branches s) (organizations s) (staff_orders s) (tip_payments s) (staff_audit s).
Definition with_shifts t s := Build_staff_db (staff_members s) (clock_events s) (approvals s) (mistakes s)
  (alerts s) t (branches s) (organizations s) (staff_orders s) (tip_payments s) (staff_audit s).
Definition with_staff_orders t s := Build_staff_db (staff_members s) (clock_events s) (approvals s)
  (mistakes s) (alerts s) (shifts s) (branches s) (organizations s) t (tip_payments s) (staff_audit s).
Definition with_staff_audit l s := Build_staff_db (staff_members s) (clock_events s) (approvals s)
  (mistakes s) (alerts s) (shifts s) (branches s) (organizations s) (staff_orders s) (tip_payments s) l.
#[global] Instance staff_has_audit : HasAudit staff_db := {|
  audit_log := staff_audit;
  put_audit := with_staff_audit;
|}.

Inductive staff_error :=
| AlreadyClockedInError (staff_id : Z)
| NotClockedInError (staff_id : Z)
| AlreadyOnBreakError (staff_id : Z)
| NotOnBreakError (staff_id : Z)
| InvalidManagerPinError (text : string)
| WeakPinError (text : string)
| DuplicatePinError (text : string)
| StaffValueError (text : string)
| StaffHTTP (status_code : Z) (detail : string).
Abbreviation SM := (M staff_db staff_error).

(** ** Identity *)

Definition WEAK_PINS : list string :=
  ["0000"; "1111"; "2222"; "3333"; "4444"; "5555"; "6666"; "7777"; "8888"; "9999";
   "1234"; "12345"; "123456"; "4321"; "54321"; "654321"; "1212"; "2121";
   "1004"; "2000"; "2020"; "2580"; "0852"; "1313"; "6969"; "1122"; "1010"].

Definition ord (c : Ascii.ascii) : Z := Z.of_nat (Ascii.nat_of_ascii c).
(** [{ord(b) - ord(a) for a, b in zip(p, p[1:])}] is [{1}] or [{-1}]. *)
Fixpoint steps_by (d : Z) (p : list Ascii.ascii) : bool :=
  match p with
  | a :: (b :: _) as rest => (ord b - ord a =? d) && steps_by d rest
  | _ => true
  end.
Definition _is_sequential (p : string) : bool :=
  let l := String.list_ascii_of_string p in
  (1 <? length l)%nat && (steps_by 1 l || steps_by (-1) l).
Definition is_digit (c : Ascii.ascii) : bool := (48 <=? ord c) && (ord c <=? 57).
(** [p.isdigit()] of a text that is not empty. *)
Definition all_digits (p : string) : bool :=
  truthy p && forallb is_digit (String.list_ascii_of_string p).
(** [len(set(p)) == 1]. *)
Definition one_character (p : string) : bool :=
  match String.list_ascii_of_string p with
  | [] => false
  | c :: l => forallb (Ascii.eqb c) l
  end.

Definition validate_pin_strength (pin : string) : SM string :=
  let p := strip pin in
  if (String.length p <? 4)%nat then raise (WeakPinError "PIN must be at least 4 digits") else
  if in_strs p WEAK_PINS then raise (WeakPinError "that PIN is too common — choose a different one") else
  if one_character p then raise (WeakPinError "PIN cannot be the same digit repeated") else
  if all_digits p && _is_sequential p then raise (WeakPinError "PIN cannot be a run of consecutive digits") else
  mret p.

(** [func.max(StaffMember.staff_code)] over the rows that have one. *)
Definition max_code (l : list StaffMember) : option Z :=
  foldr (λ m acc, match sm_staff_code m, acc with
                  | Some c, Some a => Some (Z.max c a)
                  | Some c, None => Some c
                  | None, _ => acc
                  end) None l.
Definition next_staff_code (restaurant_id : Z) : SM Z :=
  gets (λ s, default 0 (max_code (all_where (λ m, sm_restaurant_id m =? restaurant_id) (staff_members s))) + 1).

Definition by_store_key (key : string) (b : Branch) : bool :=
  (br_store_code b =s upper key) || (br_location_uuid b =s lower key).
Definition resolve_store (store : string) : SM (option Branch) :=
  let key := strip store in
  if negb (truthy key) then mret None else gets (λ s, first_where (by_store_key key) (branches s)).

Definition resolve_location (account : option string) (location : string) : SM (option Branch) :=
  restaurant ← resolve_store location;
  match restaurant with
  | None => mret None
  | Some b =>
      if negb (otruthy account) then mret (Some b) else
      let a := default "" account in
      org ← (if truthy (strip a)
             then gets (λ s, first_where (λ o, og_account_uuid o =s lower (strip a)) (organizations s))
             else mret None);
      match org with
      | None => mret None
      | Some o => mret (if bool_decide (br_organization_id b = Some (og_id o)) then Some b else None)
      end
  end.

Definition find_staff_for_login (restaurant_id : Z) (staff_code staff_id : option Z) : SM (option StaffMember) :=
  match staff_code, staff_id with
  | Some c, _ => gets (λ s, first_where (λ m, (sm_restaurant_id m =? restaurant_id) &&
                     bool_decide (sm_staff_code m = Some c)) (staff_members s))
  | None, Some i => gets (λ s, first_where (λ m, (sm_restaurant_id m =? restaurant_id) && (sm_id m =? i))
                      (staff_members s))
  | None, None => mret None
  end.

Section crypto.
Context (verify : string → string → bool) (hash : Z → string → string).

(** [verify_password plain hashed]: whatever the hasher raises is a mismatch. *)
Definition verify_password (plain hashed : string) : bool := verify plain hashed.

Definition in_branch (restaurant_id : Z) (m : StaffMember) : bool := sm_restaurant_id m =? restaurant_id.
Definition active_in (restaurant_id : Z) (m : StaffMember) : bool := in_branch restaurant_id m && sm_is_active m.

(** The rows whose PIN is already the candidate. *)
Definition pin_clash (pin : string) (exclude_staff_id : option Z) (m : StaffMember) : bool :=
  negb (bool_decide (exclude_staff_id = Some (sm_id m))) && verify_password pin (sm_pin_hash m).
Definition assert_pin_unique_in_restaurant (restaurant_id : Z) (pin : string) (exclude_staff_id : option Z) : SM unit :=
  rows_ ← gets (λ s, all_where (active_in restaurant_id) (staff_members s));
  if existsb (pin_clash pin exclude_staff_id) rows_
  then raise (DuplicatePinError "another active staff member here already uses this PIN")
  else mret tt.

Definition _guard_pin (restaurant_id : Z) (pin : string) (exclude_staff_id : option Z) : SM string :=
  try_except (checked ← validate_pin_strength pin;
              assert_pin_unique_in_restaurant restaurant_id checked exclude_staff_id ≫= λ _, mret checked)
    (λ e, match e with
          | WeakPinError t => raise (StaffHTTP 422 t)
          | DuplicatePinError t => raise (StaffHTTP 422 t)
          | _ => raise e
          end).

Definition _get_owned_staff (staff_id restaurant_id : Z) : SM StaffMember :=
  found ← gets (λ s, get_row staff_id (staff_members s));
  match found with
  | Some m => if sm_restaurant_id m =? restaurant_id then mret m else raise (StaffHTTP 404 "staff member not found")
  | None => raise (StaffHTTP 404 "staff member not found")
  end.

(** *** Sign-in *)

Record claims := { cl_sub : Z; cl_role : option string }.

(** [body.location or body.store or ""]. *)
Definition login_key (location store : option string) : string :=
  if otruthy location then default "" location else if otruthy store then default "" store else "".
Definition staff_login (account location store : option string) (staff_code staff_id : option Z) (pin : string)
    : SM (claims * StaffMember) :=
  found ← resolve_location account (login_key location store);
  let restaurant := match found with Some b => if br_is_active b then Some b else None | None => None end in
  staff ← match restaurant with
          | None => mret None
          | Some b => find_staff_for_login (br_id b) staff_code staff_id
          end;
  match staff with
  | Some m => if sm_is_active m && verify_password pin (sm_pin_hash m)
              then mret ({| cl_sub := sm_id m; cl_role := Some (sm_role m) |}, m)
              else raise (StaffHTTP 401 "invalid location, staff number or PIN")
  | None => raise (StaffHTTP 401 "invalid location, staff number or PIN")
  end.

(** [require_role] on the bearer token, as the branch of the caller. *)
Section gate.
Context (jwt_decode : string → string → option claims).

Definition branch_of (restaurant_id : Z) : SM Branch :=
  found ← gets (λ s, get_row restaurant_id (branches s));
  match found with Some b => mret b | None => raise (StaffHTTP 401 "unknown restaurant") end.
Definition require_role (roles : list string) (creds : option string) : SM Branch :=
  match creds with
  | None => raise (StaffHTTP 401 "missing token")
  | Some token =>
      match jwt_decode token "manager" with
      | Some c => branch_of (cl_sub c)
      | None =>
          match jwt_decode token "staff" with
          | None => raise (StaffHTTP 401 "invalid token")
          | Some c =>
              let role := default "" (cl_role c) in
              if negb (in_strs role roles) && negb (role =s "owner")
              then raise (StaffHTTP 403 "insufficient role")
              else
                found ← gets (λ s, get_row (cl_sub c) (staff_members s));
                match found with
                | None => raise (StaffHTTP 401 "unknown staff member")
                | Some m => branch_of (sm_restaurant_id m)
                end
          end
      end
  end.

(** [current_staff_id] and [staff_me]: the caller's own row while it is active. *)
Definition current_staff_id (creds : option string) : option Z :=
  creds ≫= λ token, cl_sub <$> jwt_decode token "staff".
Definition staff_me (creds : option string) : SM StaffMember :=
  match current_staff_id creds with
  | None => raise (StaffHTTP 401 "staff session required")
  | Some i =>
      found ← gets (λ s, get_row i (staff_members s));
      match found with
      | Some m => if sm_is_active m then mret m else raise (StaffHTTP 401 "unknown staff member")
      | None => raise (StaffHTTP 401 "unknown staff member")
      end
  end.
End gate.

(** *** Members *)

Definition ASSIGNABLE_ROLES : list string := ["manager"; "waiter"; "cashier"; "kitchen"].
(** The validator of [StaffIn.role]; [None]: the request is refused. *)
Definition _known_role (v : string) : option string :=
  let r := lower (strip v) in if in_strs r ASSIGNABLE_ROLES then Some r else None.

(** A new member, by [create_staff] and [create_manager]. *)
Definition new_member (restaurant_id salt : Z) (name : string) (phone : option string) (role pin : string)
    : SM StaffMember :=
  checked ← _guard_pin restaurant_id pin None;
  code ← next_staff_code restaurant_id;
  t ← gets staff_members;
  let staff := {| sm_id := next_id t; sm_restaurant_id := restaurant_id; sm_staff_code := Some code;
    sm_name := name; sm_phone := phone; sm_role := role; sm_pin_hash := hash salt checked;
    sm_is_active := true; sm_training_mode := false |} in
  modify (with_members (add_row staff t)) ≫= λ _, mret staff.
Definition create_staff (restaurant_id salt : Z) (name : string) (phone : option string) (role pin : string)
    : SM StaffMember :=
  staff ← new_member restaurant_id salt name phone role pin;
  audit ("restaurant:" +:+ pretty restaurant_id) restaurant_id "staff_member" (pretty (sm_id staff)) "staff_created"
    None (Some [("name", JStr (sm_name staff)); ("role", JStr (sm_role staff))]) ≫= λ _, mret staff.
Definition create_manager (restaurant_id salt : Z) (name : string) (phone : option string) (pin : string)
    : SM StaffMember :=
  staff ← new_member restaurant_id salt name phone "manager" pin;
  audit "owner" restaurant_id "staff_member" (pretty (sm_id staff)) "manager_created"
    None (Some [("name", JStr (sm_name staff)); ("role", JStr "manager")]) ≫= λ _, mret staff.

Definition update_member (m : StaffMember) : SM unit :=
  modify (λ s, with_members (set_row m (staff_members s)) s).
Definition with_pin (h : string) (m : StaffMember) : StaffMember :=
  {| sm_id := sm_id m; sm_restaurant_id := sm_restaurant_id m; sm_staff_code := sm_staff_code m;
     sm_name := sm_name m; sm_phone := sm_phone m; sm_role := sm_role m; sm_pin_hash := h;
     sm_is_active := sm_is_active m; sm_training_mode := sm_training_mode m |}.
Definition with_flags (active training : bool) (m : StaffMember) : StaffMember :=
  {| sm_id := sm_id m; sm_restaurant_id := sm_restaurant_id m; sm_staff_code := sm_staff_code m;
     sm_name := sm_name m; sm_phone := sm_phone m; sm_role := sm_role m; sm_pin_hash := sm_pin_hash m;
     sm_is_active := active; sm_training_mode := training |}.
(** The fields of a patch that are given. *)
Definition patched (name phone : option string) (is_active : option bool) (m : StaffMember) : StaffMember :=
  {| sm_id := sm_id m; sm_restaurant_id := sm_restaurant_id m; sm_staff_code := sm_staff_code m;
     sm_name := default (sm_name m) name; sm_phone := match phone with Some p => Some p | None => sm_phone m end;
     sm_role := sm_role m; sm_pin_hash := sm_pin_hash m;
     sm_is_active := default (sm_is_active m) is_active; sm_training_mode := sm_training_mode m |}.

Definition member_json (m : StaffMember) : jdict :=
  [("name", JStr (sm_name m)); ("phone", jopt_str (sm_phone m)); ("is_active", JBool (sm_is_active m))].
(** The loaded row is patched before the PIN is checked; the query of the check flushes it. *)
Definition patch_member (actor action : string) (restaurant_id salt : Z) (m : StaffMember)
    (name phone pin : option string) (is_active : option bool) : SM StaffMember :=
  let m1 := patched name phone is_active m in
  update_member m1 ≫= λ _,
  m2 ← match pin with
       | None => mret m1
       | Some p =>
           checked ← _guard_pin restaurant_id p (Some (sm_id m));
           let m2 := with_pin (hash salt checked) m1 in
           update_member m2 ≫= λ _, mret m2
       end;
  audit actor restaurant_id "staff_member" (pretty (sm_id m)) action (Some (member_json m))
    (Some (member_json m2 ++ [("pin_reset", JBool (bool_decide (is_Some pin)))])) ≫= λ _, mret m2.

Definition is_management (m : StaffMember) : bool := in_strs (sm_role m) ["manager"; "owner"].
Definition update_staff (restaurant_id salt staff_id : Z) (name phone pin : option string) (is_active : option bool)
    : SM StaffMember :=
  m ← _get_owned_staff staff_id restaurant_id;
  if is_management m then raise (StaffHTTP 409 "Managers are edited in Manager Management (owner only).") else
  patch_member "manager" "staff_updated" restaurant_id salt m name phone pin is_active.

Definition _get_owned_manager (staff_id restaurant_id : Z) : SM StaffMember :=
  found ← gets (λ s, get_row staff_id (staff_members s));
  match found with
  | Some m => if (sm_restaurant_id m =? restaurant_id) && (sm_role m =s "manager") then mret m
              else raise (StaffHTTP 404 "manager not found")
  | None => raise (StaffHTTP 404 "manager not found")
  end.
Definition update_manager (restaurant_id salt staff_id : Z) (name phone pin : option string) (is_active : option bool)
    : SM StaffMember :=
  m ← _get_owned_manager staff_id restaurant_id;
  patch_member "owner" "manager_updated" restaurant_id salt m name phone pin is_active.

Definition deactivate (actor action : string) (restaurant_id : Z) (m : StaffMember) : SM unit :=
  update_member (with_flags false (sm_training_mode m) m) ≫= λ _,
  audit actor restaurant_id "staff_member" (pretty (sm_id m)) action
    (Some [("is_active", JBool true)]) (Some [("is_active", JBool false)]) ≫= λ _, mret tt.
Definition delete_staff (restaurant_id staff_id : Z) : SM unit :=
  m ← _get_owned_staff staff_id restaurant_id;
  if is_management m then raise (StaffHTTP 409 "Managers are removed in Manager Management (owner only).") else
  deactivate "manager" "staff_deactivated" restaurant_id m.
Definition delete_manager (restaurant_id staff_id : Z) : SM unit :=
  m ← _get_owned_manager staff_id restaurant_id;
  deactivate "owner" "manager_deactivated" restaurant_id m.

Definition set_training_mode (restaurant_id staff_id : Z) (training_mode : bool) : SM StaffMember :=
  found ← gets (λ s, get_row staff_id (staff_members s));
  match found with
  | Some m =>
      if sm_restaurant_id m =? restaurant_id then
        let m' := with_flags (sm_is_active m) training_mode m in
        update_member m' ≫= λ _, mret m'
      else raise (StaffValueError "staff member not found")
  | None => raise (StaffValueError "staff member not found")
  end.
Definition patch_training_mode (restaurant_id staff_id : Z) (training_mode : bool) : SM StaffMember :=
  m ← try_except (set_training_mode restaurant_id staff_id training_mode)
        (λ e, match e with StaffValueError t => raise (StaffHTTP 404 t) | _ => raise e end);
  audit ("restaurant:" +:+ pretty restaurant_id) restaurant_id "staff_member" (pretty staff_id) "training_mode_set"
    None (Some [("training_mode", JBool training_mode)]) ≫= λ _, mret m.

(** *** Approvals *)

Definition find_manager_by_pin (restaurant_id : Z) (pin : string) : SM (option StaffMember) :=
  managers ← gets (λ s, all_where (λ m, active_in restaurant_id m && (sm_role m =s "manager")) (staff_members s));
  mret (List.find (λ m, verify_password pin (sm_pin_hash m)) managers).

Definition verify_manager_pin (restaurant : Branch) (pin : string) : SM (string * option Z) :=
  if negb (truthy pin) then raise (InvalidManagerPinError "manager PIN required") else
  manager ← find_manager_by_pin (br_id restaurant) pin;
  match manager with
  | Some m => mret ("staff:" +:+ pretty (sm_id m), Some (sm_id m))
  | None =>
      if verify_password pin (br_password_hash restaurant)
      then mret ("restaurant:" +:+ pretty (br_id restaurant), None)
      else raise (InvalidManagerPinError "invalid manager PIN")
  end.

Definition create_approval_request (restaurant_id : Z) (action_type : string) (order_id amount_aed : option Z)
    (reason : option string) (requested_by_staff_id : option Z) (payload : jdict) (status : string)
    (approved_by_staff_id : option Z) (now : Z) : SM ApprovalRequest :=
  t ← gets approvals;
  let row := {| ap_id := next_id t; ap_restaurant_id := restaurant_id; ap_action_type := action_type;
    ap_status := status; ap_requested_by_staff_id := requested_by_staff_id;
    ap_approved_by_staff_id := approved_by_staff_id; ap_order_id := order_id; ap_amount_aed := amount_aed;
    ap_payload := payload; ap_reason := reason;
    ap_resolved_at := if status =s "pending" then None else Some now |} in
  modify (with_approvals (add_row row t)) ≫= λ _, mret row.

Definition jopt_cents (o : option Z) : jval := match o with Some c => JStr (str_cents c) | None => JNull end.
Definition approve_with_pin (restaurant : Branch) (action_type pin : string) (order_id amount_aed : option Z)
    (reason : option string) (requested_by_staff_id : option Z) (payload : jdict) (now : Z) : SM ApprovalRequest :=
  who ← verify_manager_pin restaurant pin;
  row ← create_approval_request (br_id restaurant) action_type order_id amount_aed reason requested_by_staff_id
          payload "approved" who.2 now;
  audit who.1 (br_id restaurant) "approval_request" (pretty (ap_id row)) (action_type +:+ "_approved") None
    (Some [("order_id", jopt_int order_id); ("amount_aed", jopt_cents amount_aed); ("reason", jopt_str reason)])
    ≫= λ _, mret row.

Definition raise_suspicious (restaurant_id : Z) (alert_type severity : string) (staff_id : option Z)
    (detail : jdict) : SM SuspiciousActivityAlert :=
  t ← gets alerts;
  let row := {| sa_id := next_id t; sa_restaurant_id := restaurant_id; sa_alert_type := alert_type;
    sa_severity := severity; sa_staff_id := staff_id; sa_detail := detail; sa_acknowledged := false |} in
  modify (with_alerts (add_row row t)) ≫= λ _,
  audit "system" restaurant_id "suspicious_activity" (pretty (sa_id row)) alert_type None (Some detail)
    ≫= λ _, mret row.

(** The endpoint: a wrong PIN is refused, and the alert about it is committed. *)
Definition create_approval_with_pin (restaurant : Branch) (action_type pin : string) (order_id amount_aed : option Z)
    (reason : option string) (requested_by_staff_id : option Z) (payload : jdict) (now : Z) : SM ApprovalRequest :=
  try_except (approve_with_pin restaurant action_type pin order_id amount_aed reason requested_by_staff_id payload now)
    (λ e, match e with
          | InvalidManagerPinError t =>
              raise_suspicious (br_id restaurant) "failed_manager_pin" "high" requested_by_staff_id
                [("action_type", JStr action_type); ("order_id", jopt_int order_id)] ≫= λ _,
              raise (StaffHTTP 403 t)
          | _ => raise e
          end).

Definition acknowledge_alert (restaurant_id alert_id : Z) : SM SuspiciousActivityAlert :=
  found ← gets (λ s, get_row alert_id (alerts s));
  match found with
  | Some a =>
      if sa_restaurant_id a =? restaurant_id then
        let a' := {| sa_id := sa_id a; sa_restaurant_id := sa_restaurant_id a; sa_alert_type := sa_alert_type a;
          sa_severity := sa_severity a; sa_staff_id := sa_staff_id a; sa_detail := sa_detail a;
          sa_acknowledged := true |} in
        modify (λ s, with_alerts (set_row a' (alerts s)) s) ≫= λ _, mret a'
      else raise (StaffValueError "alert not found")
  | None => raise (StaffValueError "alert not found")
  end.

Definition DISCOUNT_PIN_THRESHOLD_AED : Z := 2000.
Definition discount_requires_pin (amount_aed : Z) : bool := DISCOUNT_PIN_THRESHOLD_AED <=? amount_aed.

(** *** Mistakes *)

Definition MISTAKE_TYPES : list string :=
  ["void"; "wrong_item"; "comp"; "spill"; "overcharge"; "undercharge"; "other"].
Definition record_mistake (restaurant_id staff_id : Z) (mistake_type : string) (order_id : option Z)
    (amount_aed : Z) (notes : option string) : SM StaffMistake :=
  let mt := lower (strip (if truthy mistake_type then mistake_type else "other")) in
  if negb (in_strs mt MISTAKE_TYPES) then raise (StaffValueError "invalid mistake_type") else
  t ← gets mistakes;
  let row := {| mk_id := next_id t; mk_restaurant_id := restaurant_id; mk_staff_id := staff_id;
    mk_order_id := order_id; mk_mistake_type := mt; mk_amount_aed := amount_aed; mk_notes := notes |} in
  modify (with_mistakes (add_row row t)) ≫= λ _,
  audit ("staff:" +:+ pretty staff_id) restaurant_id "staff_mistake" (pretty (mk_id row)) "mistake_recorded" None
    (Some [("type", JStr mt); ("order_id", jopt_int order_id); ("amount_aed", JStr (str_cents amount_aed))])
    ≫= λ _, mret row.
Definition create_mistake (restaurant_id staff_id : Z) (mistake_type : string) (order_id : option Z)
    (amount_aed : Z) (notes : option string) : SM StaffMistake :=
  _get_owned_staff staff_id restaurant_id ≫= λ _,
  row ← try_except (record_mistake restaurant_id staff_id mistake_type order_id amount_aed notes)
          (λ e, match e with StaffValueError t => raise (StaffHTTP 422 t) | _ => raise e end);
  (if (5000 <=? amount_aed) || (mistake_type =s "void")
   then raise_suspicious restaurant_id "high_value_mistake" (if amount_aed <? 10000 then "medium" else "high")
          (Some staff_id) [("mistake_type", JStr mistake_type); ("amount_aed", JStr (str_cents amount_aed));
                           ("order_id", jopt_int order_id)] ≫= λ _, mret tt
   else mret tt) ≫= λ _,
  mret row.

End crypto.

(** ** The router's write requests, one transaction each *)

Inductive staff_request :=
| CreateStaff (restaurant_id salt : Z) (name : string) (phone : option string) (role pin : string)
| CreateManager (restaurant_id salt : Z) (name : string) (phone : option string) (pin : string)
| UpdateStaff (restaurant_id salt staff_id : Z) (name phone pin : option string) (is_active : option bool)
| UpdateManager (restaurant_id salt staff_id : Z) (name phone pin : option string) (is_active : option bool)
| DeleteStaff (restaurant_id staff_id : Z)
| DeleteManager (restaurant_id staff_id : Z)
| SetTraining (restaurant_id staff_id : Z) (training_mode : bool)
| Approve (restaurant : Branch) (action_type pin : string) (order_id amount_aed : option Z) (reason : option string)
    (requested_by_staff_id : option Z) (payload : jdict) (now : Z)
| Mistake (restaurant_id staff_id : Z) (mistake_type : string) (order_id : option Z) (amount_aed : Z)
    (notes : option string)
| AcknowledgeAlert (restaurant_id alert_id : Z).

Section history.
Context (verify : string → string → bool) (hash : Z → string → string).
Definition staff_after (r : staff_request) (s : staff_db) : staff_db :=
  match r with
  | CreateStaff rid salt name phone role pin =>
      match _known_role role with
      | Some role' => final (atomically (create_staff verify hash rid salt name phone role' pin) s)
      | None => s
      end
  | CreateManager rid salt name phone pin => final (atomically (create_manager verify hash rid salt name phone pin) s)
  | UpdateStaff rid salt i name phone pin act =>
      final (atomically (update_staff verify hash rid salt i name phone pin act) s)
  | UpdateManager rid salt i name phone pin act =>
      final (atomically (update_manager verify hash rid salt i name phone pin act) s)
  | DeleteStaff rid i => final (atomically (delete_staff rid i) s)
  | DeleteManager rid i => final (atomically (delete_manager rid i) s)
  | SetTraining rid i b => final (atomically (patch_training_mode rid i b) s)
  | Approve b ty pin oid amt reason req payload now =>
      final (create_approval_with_pin verify b ty pin oid amt reason req payload now s)
  | Mistake rid i ty oid amt notes => final (atomically (create_mistake rid i ty oid amt notes) s)
  | AcknowledgeAlert rid i => final (atomically (acknowledge_alert rid i) s)
  end.
Definition staff_run (l : list staff_request) (s : staff_db) : staff_db := fold_left (λ s r, staff_after r s) l s.
End history.
