(* ===== verification/StaffFacts.v ===== *)
(** * Facts about staff: numbers, PINs, sign-in and approvals ([Staff])

    What every request does to the members' table ([members_change]), the invariants
    that follow from it, and what sign-in, the role gate and the approvals let through. *)

From S2P Require Import Prelude Money Strings Db AuditTrail Clock OrderFsm Staff.

(** ** What a request writes *)

(** Calls that leave the members alone. *)
Abbreviation spares_members m := (∀ t, preserves (λ s, staff_members s = t) m).
Create HintDb staff discriminated.
#[local] Hint Resolve preserves_ret preserves_raise preserves_gets preserves_atomically : staff.

Lemma spares_audit actor rid entity eid action b a :
  spares_members (audit (E := staff_error) actor rid entity eid action b a).
Proof. intros t s Hs. exact Hs. Qed.
Lemma spares_bind {A B} (m : SM A) (f : A → SM B) :
  spares_members m → (∀ a, spares_members (f a)) → spares_members (m ≫= f).
Proof. intros Hm Hf t. apply preserves_bind; auto. Qed.
Lemma spares_modify (f : staff_db → staff_db) :
  (∀ s, staff_members (f s) = staff_members s) → spares_members (modify (E := staff_error) f).
Proof. intros Hf t. apply preserves_modify. intros s <-. apply Hf. Qed.
#[local] Hint Resolve spares_audit spares_bind spares_modify : staff.
Ltac spares := intros t; repeat (apply preserves_bind; [|intros ?]); eauto with staff.

Lemma spares_suspicious rid ty sev i d : spares_members (raise_suspicious rid ty sev i d).
Proof. unfold raise_suspicious. spares. Qed.
Lemma spares_request rid ty oid amt reason req payload st who now :
  spares_members (create_approval_request rid ty oid amt reason req payload st who now).
Proof. unfold create_approval_request. spares. Qed.
#[local] Hint Resolve spares_suspicious spares_request : staff.

Section facts.
Context (verify : string → string → bool) (hash : Z → string → string).

(** [pin] is held by no active member of the branch, the excluded one aside. *)
Definition pin_free (rid : Z) (pin : string) (ex : option Z) (t : table StaffMember) : Prop :=
  ∀ m, m ∈ rows t → sm_restaurant_id m = rid → sm_is_active m = true → ex ≠ Some (sm_id m) →
    verify pin (sm_pin_hash m) = false.

Lemma validate_pin_run pin s p s' :
  validate_pin_strength pin s = Ok p s' →
  s' = s ∧ p = strip pin ∧ (4 ≤ String.length p)%nat ∧ p ∉ WEAK_PINS ∧ one_character p = false.
Proof.
  unfold validate_pin_strength. destruct (_ <? _)%nat eqn:Hlen; [done|].
  destruct (in_strs _ _) eqn:Hw; [done|]. destruct (one_character _) eqn:H1; [done|].
  destruct (all_digits _ && _); [done|]. intros [= <- <-]. apply Nat.ltb_ge in Hlen.
  split_and!; try done. rewrite <-in_strs_spec. congruence.
Qed.

Lemma pin_unique_run rid pin ex s :
  assert_pin_unique_in_restaurant verify rid pin ex s = Ok tt s ∧ pin_free rid pin ex (staff_members s) ∨
  ∃ t, assert_pin_unique_in_restaurant verify rid pin ex s = Err (DuplicatePinError t) s.
Proof.
  unfold assert_pin_unique_in_restaurant, mbind, M_bind, gets.
  destruct (existsb _ _) eqn:He; [right; by eexists|left]. split; [done|]. intros m Hm Hr Ha Hex.
  destruct (verify pin (sm_pin_hash m)) eqn:Hv; [|done]. apply not_true_iff_false in He. destruct He.
  apply existsb_exists. exists m. split.
  - apply list_elem_of_In, elem_of_all_where. split; [done|]. unfold active_in, in_branch. by rewrite Hr, Z.eqb_refl, Ha.
  - unfold pin_clash, verify_password. rewrite Hv. by rewrite bool_decide_eq_false_2.
Qed.

Lemma guard_pin_run rid pin ex s p s' :
  _guard_pin verify rid pin ex s = Ok p s' →
  s' = s ∧ p = strip pin ∧ pin_free rid p ex (staff_members s).
Proof.
  unfold _guard_pin. intros H%try_raise_Ok; [|by intros []]. inv_run. apply validate_pin_run in Hrun as (-> & -> & _).
  destruct (pin_unique_run rid (strip pin) ex s) as [[Hu Hf]|[t Hu]]; rewrite Hu in Hrun0; [|done]. by simplify_eq.
Qed.

(** ** The members' table *)

Definition known_role (m : StaffMember) : Prop := sm_role m ∈ ASSIGNABLE_ROLES.
(** The number the next member of the branch gets. *)
Definition next_code (rid : Z) (t : table StaffMember) : Z :=
  default 0 (max_code (all_where (λ m, sm_restaurant_id m =? rid) t)) + 1.
Definition same_person (m m' : StaffMember) : Prop :=
  sm_id m' = sm_id m ∧ sm_restaurant_id m' = sm_restaurant_id m ∧ sm_staff_code m' = sm_staff_code m ∧
  sm_role m' = sm_role m.
(** A rewritten row has a PIN that was free, or the one it had, and is not brought back. *)
Definition pin_ok (back : bool) (m m' : StaffMember) (t : table StaffMember) : Prop :=
  (∃ salt p, sm_pin_hash m' = hash salt p ∧ pin_free (sm_restaurant_id m) p (Some (sm_id m)) t) ∨
  (sm_pin_hash m' = sm_pin_hash m ∧ (back = false → sm_is_active m' = true → sm_is_active m = true)).

Inductive members_change (back : bool) (t : table StaffMember) : table StaffMember → Prop :=
| mc_same : members_change back t t
| mc_hired m salt p :
    sm_id m = next_id t → sm_staff_code m = Some (next_code (sm_restaurant_id m) t) → known_role m →
    sm_pin_hash m = hash salt p → pin_free (sm_restaurant_id m) p None t →
    members_change back t (add_row m t)
| mc_edited m m' :
    m ∈ rows t → same_person m m' → pin_ok back m m' t → members_change back t (set_row m' t).

Lemma set_row_set_row (r1 r2 : StaffMember) t :
  sm_id r1 = sm_id r2 → set_row r2 (set_row r1 t) = set_row r2 t.
Proof.
  intros Hid. unfold set_row; cbn. f_equal. rewrite List.map_map. apply List.map_ext. intros r. cbn.
  change row_id with sm_id. destruct (sm_id r =? sm_id r1) eqn:H1; rewrite <-Hid; [|by rewrite H1].
  by rewrite Z.eqb_refl, H1.
Qed.

(** A new member: the next number, a free PIN. *)
Lemma new_member_run rid salt name phone role pin s m s' :
  new_member verify hash rid salt name phone role pin s = Ok m s' →
  role ∈ ASSIGNABLE_ROLES →
  members_change false (staff_members s) (staff_members s') ∧
  staff_members s' = add_row m (staff_members s) ∧ sm_restaurant_id m = rid ∧ sm_role m = role.
Proof.
  unfold new_member, next_staff_code. intros H Hrole. inv_run.
  apply guard_pin_run in Hrun as (-> & -> & Hfree). split_and!; [|done..].
  by eapply mc_hired.
Qed.

(** An edit of a member of the branch. *)
Lemma patch_member_run actor action salt m name phone pin act s m' s' :
  m ∈ rows (staff_members s) →
  patch_member verify hash actor action (sm_restaurant_id m) salt m name phone pin act s = Ok m' s' →
  members_change (match pin, act with None, Some true => negb (sm_is_active m) | _, _ => false end)
    (staff_members s) (staff_members s').
Proof.
  unfold patch_member, update_member, audit, record_audit. intros Hm H.
  apply bind_Ok in H as ([] & s1 & [= <-] & H). apply bind_Ok in H as (m2 & s2 & H2 & H). inv_run. cbn [staff_members put_audit staff_has_audit with_staff_audit].
  destruct pin as [p|].
  - apply bind_Ok in H2 as (p' & s1 & (-> & -> & Hfree)%guard_pin_run & H2). inv_run. cbn.
    rewrite set_row_set_row by done. apply (mc_edited _ _ m); [done|done|]. left. eexists _, _. split; [done|].
    intros x Hx Hr Ha Hex. apply Hfree; [|done..]. cbn.
    pose proof (elem_of_set_row_2 (patched name phone act m) x _ Hx) as Hin.
    change row_id with sm_id in Hin. destruct (_ =? _) eqn:Hid; [|done]. zbool. cbn in Hid. congruence.
  - inv_run. cbn. apply (mc_edited _ _ m); [done|done|]. right. split; [done|]. destruct act as [[]|]; cbn; try done.
    by destruct (sm_is_active m).
Qed.

Lemma owned_staff_run i rid s m s' :
  _get_owned_staff i rid s = Ok m s' → s' = s ∧ m ∈ rows (staff_members s) ∧ get_row i (staff_members s) = Some m ∧ sm_restaurant_id m = rid.
Proof.
  unfold _get_owned_staff. intros H. inv_run. destruct (get_row i (staff_members st)) as [x|] eqn:Hg; [|done].
  destruct (Z.eqb_spec (sm_restaurant_id x) rid); [|done]. inv_run. by destruct (get_row_Some _ _ _ Hg) as [? _].
Qed.
Lemma owned_manager_run i rid s m s' :
  _get_owned_manager i rid s = Ok m s' → s' = s ∧ m ∈ rows (staff_members s) ∧ get_row i (staff_members s) = Some m ∧ sm_restaurant_id m = rid.
Proof.
  unfold _get_owned_manager. intros H. inv_run. destruct (get_row i (staff_members st)) as [x|] eqn:Hg; [|done].
  destruct (_ && _) eqn:He; [|done]. inv_run. zbool. by destruct (get_row_Some _ _ _ Hg) as [? _].
Qed.
Lemma deactivate_run actor action rid m s s' :
  m ∈ rows (staff_members s) → deactivate actor action rid m s = Ok tt s' →
  members_change false (staff_members s) (staff_members s').
Proof.
  unfold deactivate, update_member, audit, record_audit. intros Hm H. inv_run. apply (mc_edited _ _ m); [done|done|]. by right.
Qed.
Lemma training_run rid i b s m s' :
  set_training_mode rid i b s = Ok m s' → members_change false (staff_members s) (staff_members s').
Proof.
  unfold set_training_mode, update_member. intros H. inv_run.
  destruct (get_row i (staff_members st)) as [x|] eqn:Hg; [|done]. destruct (_ =? _); [|done]. inv_run.
  apply get_row_Some in Hg as [Hx _]. apply (mc_edited _ _ x); [done|done|]. by right.
Qed.

(** *** Requests *)

(** The request that makes an inactive member active again and leaves the PIN. *)
Definition brings_back (r : staff_request) (s : staff_db) : bool :=
  match r with
  | UpdateStaff _ _ i _ _ None (Some true) | UpdateManager _ _ i _ _ None (Some true) =>
      match get_row i (staff_members s) with Some m => negb (sm_is_active m) | None => false end
  | _ => false
  end.

Lemma atomically_change {A} back (m : SM A) s :
  (∀ a s', m s = Ok a s' → members_change back (staff_members s) (staff_members s')) →
  members_change back (staff_members s) (staff_members (final (atomically m s))).
Proof. unfold atomically. destruct (m s) as [a s'|e s'] eqn:Hr; [by eauto|]. intros _. apply mc_same. Qed.
Lemma spares_change {A} back (m : SM A) s :
  spares_members m → members_change back (staff_members s) (staff_members (final (m s))).
Proof. intros Hm. rewrite (Hm _ s eq_refl). apply mc_same. Qed.

Lemma create_staff_change rid salt name phone role pin s :
  role ∈ ASSIGNABLE_ROLES →
  members_change false (staff_members s) (staff_members (final (atomically (create_staff verify hash rid salt name phone role pin) s))).
Proof.
  intros Hrole. apply atomically_change. intros m s'. unfold create_staff, audit, record_audit. intros H. inv_run.
  by apply new_member_run in Hrun as (Hc & _).
Qed.
Lemma create_manager_change rid salt name phone pin s :
  members_change false (staff_members s) (staff_members (final (atomically (create_manager verify hash rid salt name phone pin) s))).
Proof.
  apply atomically_change. intros m s'. unfold create_manager, audit, record_audit. intros H. inv_run.
  apply new_member_run in Hrun as (Hc & _); [done|]. left.
Qed.
Lemma update_staff_change rid salt i name phone pin act s :
  members_change (brings_back (UpdateStaff rid salt i name phone pin act) s) (staff_members s)
    (staff_members (final (atomically (update_staff verify hash rid salt i name phone pin act) s))).
Proof.
  apply atomically_change. unfold update_staff. intros m' s' H.
  apply bind_Ok in H as (m & s1 & (-> & Hm & Hg & <-)%owned_staff_run & H).
  destruct (is_management m); [done|]. apply patch_member_run in H; [|done]. cbn. rewrite Hg.
  by destruct pin, act as [[]|].
Qed.
Lemma update_manager_change rid salt i name phone pin act s :
  members_change (brings_back (UpdateManager rid salt i name phone pin act) s) (staff_members s)
    (staff_members (final (atomically (update_manager verify hash rid salt i name phone pin act) s))).
Proof.
  apply atomically_change. unfold update_manager. intros m' s' H.
  apply bind_Ok in H as (m & s1 & (-> & Hm & Hg & <-)%owned_manager_run & H).
  apply patch_member_run in H; [|done]. cbn. rewrite Hg. by destruct pin, act as [[]|].
Qed.
Lemma delete_staff_change rid i s :
  members_change false (staff_members s) (staff_members (final (atomically (delete_staff rid i) s))).
Proof.
  apply atomically_change. unfold delete_staff. intros [] s' H.
  apply bind_Ok in H as (m & s1 & (-> & Hm & _)%owned_staff_run & H).
  destruct (is_management m); [done|]. by apply deactivate_run in H.
Qed.
Lemma delete_manager_change rid i s :
  members_change false (staff_members s) (staff_members (final (atomically (delete_manager rid i) s))).
Proof.
  apply atomically_change. unfold delete_manager. intros [] s' H.
  apply bind_Ok in H as (m & s1 & (-> & Hm & _)%owned_manager_run & H). by apply deactivate_run in H.
Qed.
Lemma patch_training_change rid i b s :
  members_change false (staff_members s) (staff_members (final (atomically (patch_training_mode rid i b) s))).
Proof.
  apply atomically_change. unfold patch_training_mode, audit, record_audit. intros m s' H.
  apply bind_Ok in H as (m0 & s1 & Hr & H). apply try_raise_Ok in Hr; [|by intros []].
  inv_run. by apply training_run in Hr.
Qed.

Lemma spares_verify b pin : spares_members (verify_manager_pin verify b pin).
Proof.
  unfold verify_manager_pin. intros t. destruct (negb _); [apply preserves_raise|].
  unfold find_manager_by_pin. apply preserves_bind; [|intros [m|]].
  { apply preserves_bind; [apply preserves_gets|intros ?; apply preserves_ret]. }
  { apply preserves_ret. } destruct (verify_password _ _ _); [apply preserves_ret|apply preserves_raise].
Qed.
Lemma spares_approval b ty pin oid amt reason req payload now :
  spares_members (create_approval_with_pin verify b ty pin oid amt reason req payload now).
Proof.
  intros t. unfold create_approval_with_pin, approve_with_pin. apply preserves_try.
  - apply preserves_bind; [apply spares_verify|intros who]. apply preserves_bind; [apply spares_request|intros row].
    apply preserves_bind; [apply spares_audit|intros _]. apply preserves_ret.
  - intros []; try apply preserves_raise. apply preserves_bind; [apply spares_suspicious|intros _]. apply preserves_raise.
Qed.
Lemma spares_mistake rid i ty oid amt notes : spares_members (create_mistake rid i ty oid amt notes).
Proof.
  intros t. unfold create_mistake, _get_owned_staff. repeat (apply preserves_bind; [|intros ?]); try apply preserves_gets.
  - destruct a; [destruct (_ =? _)|]; eauto with staff.
  - apply preserves_try; [|intros []; apply preserves_raise]. unfold record_mistake. destruct (negb _); [apply preserves_raise|].
    apply preserves_bind; [apply preserves_gets|intros ?]. apply preserves_bind; [by apply preserves_modify|intros _].
    apply preserves_bind; [apply spares_audit|intros _]. apply preserves_ret.
  - destruct (_ || _); [|apply preserves_ret]. apply preserves_bind; [apply spares_suspicious|intros _]. apply preserves_ret.
Qed.
Lemma spares_acknowledge rid i : spares_members (acknowledge_alert rid i).
Proof.
  intros t. unfold acknowledge_alert. apply preserves_bind; [apply preserves_gets|intros [a|]]; [|apply preserves_raise].
  destruct (_ =? _); [|apply preserves_raise]. apply preserves_bind; [by apply preserves_modify|intros _]. apply preserves_ret.
Qed.

(** What any request does to the members. *)
Lemma staff_after_change r s :
  members_change (brings_back r s) (staff_members s) (staff_members (staff_after verify hash r s)).
Proof.
  destruct r; cbn -[brings_back].
  - destruct (_known_role role) as [role'|] eqn:Hr; [|apply mc_same]. apply create_staff_change.
    revert Hr. unfold _known_role. destruct (in_strs _ _) eqn:Hin; [|done]. intros [= <-]. by apply in_strs_spec.
  - apply create_manager_change.
  - apply update_staff_change.
  - apply update_manager_change.
  - apply delete_staff_change.
  - apply delete_manager_change.
  - apply patch_training_change.
  - apply spares_change, spares_approval.
  - apply spares_change. intros t. apply preserves_atomically, spares_mistake.
  - apply spares_change. intros t. apply preserves_atomically, spares_acknowledge.
Qed.

(** ** Numbers *)

Lemma max_code_cons x l : max_code (x :: l) =
  match sm_staff_code x, max_code l with
  | Some c, Some a => Some (Z.max c a) | Some c, None => Some c | None, acc => acc
  end.
Proof. done. Qed.
Lemma max_code_ub l m c :
  m ∈ l → sm_staff_code m = Some c → ∃ a, max_code l = Some a ∧ c ≤ a.
Proof.
  induction l as [|x l IH]; [set_solver|]. intros [->|Hm]%elem_of_cons Hc; rewrite max_code_cons.
  - rewrite Hc. destruct (max_code l); (eexists; split; [reflexivity|lia]).
  - destruct (IH Hm Hc) as (a & -> & Ha). destruct (sm_staff_code x); (eexists; split; [reflexivity|lia]).
Qed.
Lemma max_code_nonneg l : (∀ m c, m ∈ l → sm_staff_code m = Some c → 0 ≤ c) → 0 ≤ default 0 (max_code l).
Proof.
  induction l as [|x l IH]; intros Hl; [done|]. rewrite max_code_cons. assert (0 ≤ default 0 (max_code l)) by (apply IH; set_solver).
  destruct (sm_staff_code x) as [c|] eqn:Hc; [|done]. specialize (Hl x c). destruct (max_code l); cbn in *; [|set_solver]. lia.
Qed.
Lemma next_code_above rid t m c :
  m ∈ rows t → sm_restaurant_id m = rid → sm_staff_code m = Some c → c < next_code rid t.
Proof.
  intros Hm Hr Hc. destruct (max_code_ub (all_where (λ m, sm_restaurant_id m =? rid) t) m c) as (a & Ha & Hle); [|done|].
  - apply elem_of_all_where. by zbool; rewrite Hr, Z.eqb_refl.
  - unfold next_code. rewrite Ha. cbn. lia.
Qed.

(** Every member has a number of at least one, its own in the branch, and a role that can
    be given. *)
Record staff_inv (t : table StaffMember) : Prop := {
  si_wf : table_wf t;
  si_numbered : ∀ m, m ∈ rows t → ∃ c, sm_staff_code m = Some c ∧ 1 ≤ c;
  si_distinct : ∀ m1 m2, m1 ∈ rows t → m2 ∈ rows t → sm_restaurant_id m1 = sm_restaurant_id m2 →
    sm_staff_code m1 = sm_staff_code m2 → m1 = m2;
  si_roles : ∀ m, m ∈ rows t → known_role m;
}.

Lemma next_code_positive rid t : staff_inv t → 1 ≤ next_code rid t.
Proof.
  intros [_ Hn _ _]. unfold next_code. enough (0 ≤ default 0 (max_code (all_where (λ m, sm_restaurant_id m =? rid) t))) by lia.
  apply max_code_nonneg. intros m c [Hm _]%elem_of_all_where Hc. destruct (Hn m Hm) as (c' & Hc' & ?). simplify_eq. lia.
Qed.

Lemma edited_identity m m' : same_person m m' → sm_id m' = sm_id m ∧ sm_restaurant_id m' = sm_restaurant_id m ∧
  sm_staff_code m' = sm_staff_code m ∧ (known_role m → known_role m').
Proof. intros (Hi & Hr & Hc & Hro). split_and!; try done. unfold known_role. by rewrite Hro. Qed.

(** A row of a table with one row edited: what it was before. *)
Lemma edited_row t m m' x :
  table_wf t → m ∈ rows t → same_person m m' → x ∈ rows (set_row m' t) →
  ∃ y, y ∈ rows t ∧ same_person y x ∧ (x = y ∨ y = m ∧ x = m').
Proof.
  intros Hwf Hm Hp [[-> (y & Hy & Hid)]|[Hx _]]%elem_of_set_row.
  - exists m. by split_and!; [| |right].
  - exists x. split_and!; [done|by repeat split|by left].
Qed.

Lemma members_change_inv back t t' : members_change back t t' → staff_inv t → staff_inv t'.
Proof.
  intros Hc Hinv. pose proof Hinv as [Hwf Hn Hd Hro]. destruct Hc as [|m salt p Hid Hcode Hrole _ _|m m' Hm Hp _]; [done|split|split].
  - by apply add_row_wf.
  - intros x [Hx| ->]%elem_of_add_row; [by apply Hn|]. eexists. split; [done|by apply next_code_positive].
  - assert (∀ x, x ∈ rows t → sm_restaurant_id x = sm_restaurant_id m → sm_staff_code x ≠ sm_staff_code m) as Hfresh.
    { intros x Hx Hr He. rewrite Hcode in He. pose proof (next_code_above _ t x _ Hx Hr He). lia. }
    intros x y [Hx| ->]%elem_of_add_row [Hy| ->]%elem_of_add_row Hr He; [by apply Hd| | |done].
    + by destruct (Hfresh x Hx Hr).
    + by destruct (Hfresh y Hy).
  - intros x [Hx| ->]%elem_of_add_row; [by apply Hro|done].
  - by apply set_row_wf.
  - intros x Hx. destruct (edited_row t m m' x) as (y & Hy & (_ & _ & -> & _) & _); [done..|]. by apply Hn.
  - intros x y Hx Hy Hr He. destruct (edited_row t m m' x) as (x0 & Hx0 & (Hi1 & Hr1 & Hc1 & _) & H1); [done..|].
    destruct (edited_row t m m' y) as (y0 & Hy0 & (Hi2 & Hr2 & Hc2 & _) & H2); [done..|].
    assert (x0 = y0) as -> by (apply Hd; congruence).
    apply (wf_unique (set_row m' t)); [by apply set_row_wf|done|done|]. change row_id with sm_id. congruence.
  - intros x Hx. destruct (edited_row t m m' x) as (y & Hy & Hxy & _); [done..|].
    apply (edited_identity y x Hxy). by apply Hro.
Qed.

Lemma staff_run_inv l s : staff_inv (staff_members s) → staff_inv (staff_members (staff_run verify hash l s)).
Proof.
  revert s. induction l as [|r l IH]; intros s Hs; [done|]. cbn. apply IH. by eapply members_change_inv; [apply staff_after_change|].
Qed.
Lemma empty_staff_inv : staff_inv empty_table.
Proof. split; [apply empty_table_wf|cbn; set_solver..]. Qed.

(** Staff numbers: whatever requests are served, from a platform without staff, the
    members of a branch have distinct numbers of at least one and a role of the list;
    the next request deletes and renumbers nobody, and whoever it adds gets a number
    above every number the branch has ever given. *)
Theorem staff_numbers_never_reused l r s0 :
  let s := staff_run verify hash l (with_members empty_table s0) in
  let s' := staff_after verify hash r s in
  (∀ m, m ∈ rows (staff_members s) → known_role m ∧ ∃ c, sm_staff_code m = Some c ∧ 1 ≤ c) ∧
  (∀ m1 m2, m1 ∈ rows (staff_members s) → m2 ∈ rows (staff_members s) →
    sm_restaurant_id m1 = sm_restaurant_id m2 → sm_staff_code m1 = sm_staff_code m2 → m1 = m2) ∧
  (∀ m, m ∈ rows (staff_members s) → ∃ m', m' ∈ rows (staff_members s') ∧ same_person m m') ∧
  (∀ m', m' ∈ rows (staff_members s') →
    (∃ m, m ∈ rows (staff_members s) ∧ same_person m m') ∨
    ∃ c, sm_staff_code m' = Some c ∧ ∀ m k, m ∈ rows (staff_members s) →
      sm_restaurant_id m = sm_restaurant_id m' → sm_staff_code m = Some k → k < c).
Proof.
  intros s s'. assert (staff_inv (staff_members s)) as Hinv by apply staff_run_inv, empty_staff_inv.
  assert (members_change (brings_back r s) (staff_members s) (staff_members s')) as Hc by apply staff_after_change.
  clearbody s'. generalize dependent (staff_members s'). clear s'. intros t' Hc.
  pose proof Hinv as [Hwf Hn Hd Hro]. split_and!; [by auto|done|..].
  - intros m Hm. destruct Hc as [|x salt p Hid Hcode _ _ _|x x' Hx Hp _].
    + by exists m.
    + exists m. split; [|done]. apply elem_of_add_row. by left.
    + pose proof (elem_of_set_row_2 x' m _ Hm) as Hin. change row_id with sm_id in Hin. destruct (_ =? _) eqn:Hid; [|by exists m].
      zbool. exists x'. split; [done|]. replace m with x; [done|]. apply (wf_unique _ Hwf); [done..|].
      change row_id with sm_id. destruct Hp as (Hi & _). congruence.
  - intros m' Hm'. destruct Hc as [|x salt p Hid Hcode _ _ _|x x' Hx Hp _].
    + left. by exists m'.
    + apply elem_of_add_row in Hm' as [Hm'| ->]; [left; by exists m'|right].
      eexists. split; [done|]. intros m k Hm Hr Hk. by eapply next_code_above.
    + left. destruct (edited_row (staff_members s) x x' m') as (y & Hy & Hs & _); [done..|]. eauto.
Qed.

(** ** PINs *)

(** No PIN opens the rows of two active members of a branch. *)
Definition pins_distinct (t : table StaffMember) : Prop :=
  ∀ m1 m2 p, m1 ∈ rows t → m2 ∈ rows t → sm_restaurant_id m1 = sm_restaurant_id m2 →
    sm_is_active m1 = true → sm_is_active m2 = true →
    verify p (sm_pin_hash m1) = true → verify p (sm_pin_hash m2) = true → m1 = m2.

Fixpoint nobody_brought_back (l : list staff_request) (s : staff_db) : bool :=
  match l with
  | [] => true
  | r :: l' => negb (brings_back r s) && nobody_brought_back l' (staff_after verify hash r s)
  end.

(** A PIN verifies against no hash of another (argon2's collision resistance). *)
Hypothesis verify_sound : ∀ salt p q, verify p (hash salt q) = true → p = q.

Lemma pins_distinct_change t t' :
  table_wf t → members_change false t t' → pins_distinct t → pins_distinct t'.
Proof.
  intros Hwf Hc Hp. destruct Hc as [|m salt q Hid _ _ Hq Hfree|m m' Hm Hsame Hpin]; [done| |].
  - assert (∀ x p, x ∈ rows t → sm_restaurant_id x = sm_restaurant_id m → sm_is_active x = true →
      verify p (sm_pin_hash x) = true → verify p (sm_pin_hash m) = true → False) as Hno.
    { intros x p Hx Hr Ha H1 H2. rewrite Hq in H2. apply verify_sound in H2 as ->.
      by rewrite (Hfree x Hx Hr Ha) in H1. }
    intros x y p [Hx| ->]%elem_of_add_row [Hy| ->]%elem_of_add_row Hr Hax Hay H1 H2; [by eapply Hp| | |done].
    + by destruct (Hno x p).
    + by destruct (Hno y p).
  - assert (∀ x p, x ∈ rows t → sm_id x ≠ sm_id m → sm_restaurant_id x = sm_restaurant_id m → sm_is_active x = true →
      sm_is_active m' = true → verify p (sm_pin_hash x) = true → verify p (sm_pin_hash m') = true → False) as Hno.
    { intros x p Hx Hne Hr Hax Ham H1 H2. destruct Hpin as [(salt & q & Hq & Hfree)|[Hh Hact]].
      - rewrite Hq in H2. apply verify_sound in H2 as ->. rewrite (Hfree x) in H1; [done..|]. intros [= ?]. congruence.
      - apply Hne. f_equal. eapply (Hp x m p); [done..| |done|congruence]. by apply Hact. }
    destruct Hsame as (Hi & Hb & _).
    intros x y p [[-> _]|[Hx Hnx]]%elem_of_set_row [[-> _]|[Hy Hny]]%elem_of_set_row Hr Hax Hay H1 H2;
      change row_id with sm_id in *; [done| | |by eapply Hp].
    + destruct (Hno y p); congruence.
    + destruct (Hno x p); congruence.
Qed.

Lemma pins_distinct_run l s :
  staff_inv (staff_members s) → pins_distinct (staff_members s) → nobody_brought_back l s = true →
  pins_distinct (staff_members (staff_run verify hash l s)).
Proof.
  revert s. induction l as [|r l IH]; intros s Hs Hp Hb; [done|]. cbn in *. zbool.
  pose proof (staff_after_change r s) as Hc. apply IH; [by eapply members_change_inv| |done].
  replace (brings_back r s) with false in Hc by done. apply (pins_distinct_change (staff_members s)); [apply Hs|done..].
Qed.

(** ** Approvals *)

(** Who a PIN approves as. *)
Inductive approver (b : Branch) (pin : string) (t : table StaffMember) : option Z → Prop :=
| approver_manager m : m ∈ rows t → sm_restaurant_id m = br_id b → sm_is_active m = true → sm_role m = "manager" →
    verify pin (sm_pin_hash m) = true → approver b pin t (Some (sm_id m))
| approver_owner : verify pin (br_password_hash b) = true → approver b pin t None.

Lemma verify_manager_run b pin s :
  (∃ label who, verify_manager_pin verify b pin s = Ok (label, who) s ∧ approver b pin (staff_members s) who) ∨
  (∃ t, verify_manager_pin verify b pin s = Err (InvalidManagerPinError t) s).
Proof.
  unfold verify_manager_pin, find_manager_by_pin, mbind, M_bind, gets, mret, M_ret.
  destruct (negb (truthy pin)); [right; by eexists|].
  destruct (List.find _ _) as [m|] eqn:Hf.
  - left. eexists _, _. split; [done|]. apply find_Some_in in Hf as [Hm Hv]. apply elem_of_all_where in Hm as [Hm Hp].
    unfold active_in, in_branch in Hp. zbool. by apply approver_manager.
  - destruct (verify_password verify pin (br_password_hash b)) eqn:Hv; [left|right; by eexists].
    eexists _, _. split; [done|]. by apply approver_owner.
Qed.

(** C33. Approvals: after any requests that bring no inactive member back without a new
    PIN, an approval is recorded exactly when the PIN is the one of an active manager of
    the branch or the owner's password; the manager it names is the only active member
    of the branch that PIN opens; any other PIN is refused with 403, leaves the
    approvals as they are and one new alert behind. *)
Theorem approvals_attributed l s0 b ty pin oid amt reason req payload now :
  nobody_brought_back l (with_members empty_table s0) = true →
  let s := staff_run verify hash l (with_members empty_table s0) in
  match create_approval_with_pin verify b ty pin oid amt reason req payload now s with
  | Ok row s' =>
      ap_status row = "approved" ∧ ap_restaurant_id row = br_id b ∧ approvals s' = add_row row (approvals s) ∧
      approver b pin (staff_members s) (ap_approved_by_staff_id row) ∧
      (∀ i m, ap_approved_by_staff_id row = Some i → m ∈ rows (staff_members s) → sm_restaurant_id m = br_id b →
        sm_is_active m = true → verify pin (sm_pin_hash m) = true → sm_id m = i)
  | Err e s' =>
      (∃ t, e = StaffHTTP 403 t) ∧ approvals s' = approvals s ∧
      (∃ a, alerts s' = add_row a (alerts s) ∧ sa_alert_type a = "failed_manager_pin" ∧ sa_restaurant_id a = br_id b) ∧
      (truthy pin = true → ∀ who, ¬ approver b pin (staff_members s) who)
  end.
Proof.
  intros Hb s. assert (pins_distinct (staff_members s)) as Hp.
  { apply pins_distinct_run; [apply empty_staff_inv|cbn; intros ? ? ?; set_solver|done]. }
  unfold create_approval_with_pin, try_except, approve_with_pin.
  destruct (verify_manager_run b pin s) as [(label & who & Hr & Ha)|[t Hr]].
  - rewrite (bind_run_Ok _ _ _ _ _ Hr). cbn. split_and!; try done.
    intros i m Hwho Hm Hbr Hact Hv. cbn in Hwho. subst who. inversion Ha as [m0 Hm0 Hr0 Ha0 Hro Hv0|]; subst.
    f_equal. by apply (Hp m m0 pin); [..|congruence| | | |].
  - rewrite (bind_run_Err _ _ _ _ _ Hr). cbn. split_and!; [by eexists|done|by eexists|].
    intros Ht who Ha. revert Hr. unfold verify_manager_pin, find_manager_by_pin, mbind, M_bind, gets, mret, M_ret.
    rewrite Ht. cbn. destruct (List.find _ _) as [m0|] eqn:Hf; [done|]. intros Hr.
    inversion Ha as [m Hm Hbr Hact Hro Hv|Hv]; subst; [|by unfold verify_password in Hr; rewrite Hv in Hr].
    apply (find_None_in _ _ m) in Hf; [by unfold verify_password in Hf; rewrite Hv in Hf|].
    apply elem_of_all_where. split; [done|]. unfold active_in, in_branch. by rewrite Hbr, Z.eqb_refl, Hact, Hro.
Qed.

(** ** Sign-in *)

Lemma resolve_location_reads account key s : ∃ found, resolve_location account key s = Ok found s.
Proof.
  unfold resolve_location, resolve_store, mbind, M_bind, gets, mret, M_ret.
  destruct (negb (truthy (strip key))); [by eexists|]. destruct (first_where _ _) as [b|]; [|by eexists].
  destruct (negb (otruthy account)); [by eexists|]. destruct (truthy (strip _)); [|by eexists].
  destruct (first_where _ _); by eexists.
Qed.
Lemma find_staff_reads rid code i s :
  ∃ staff, find_staff_for_login rid code i s = Ok staff s ∧
    match staff with
    | Some m => m ∈ rows (staff_members s) ∧ sm_restaurant_id m = rid ∧
                match code with Some k => sm_staff_code m = Some k | None => Some (sm_id m) = i end
    | None => True
    end.
Proof.
  unfold find_staff_for_login, gets, mret, M_ret. destruct code as [k|]; [|destruct i as [i|]]; (eexists; split; [done|]).
  - destruct (first_where _ _) as [m|] eqn:Hf; [|done]. apply first_where_Some in Hf as [Hm Hp]. by zbool.
  - destruct (first_where _ _) as [m|] eqn:Hf; [|done]. apply first_where_Some in Hf as [Hm Hp]. zbool. by subst.
  - done.
Qed.

(** Sign-in: a member gets a token exactly when the key names an active branch, the
    number (or id) finds an active member inside that branch and the PIN is that
    member's; the token carries the member's role.  Every other sign-in fails with the
    same answer, and none writes anything. *)
Theorem login_scoped account location store code i pin s :
  match staff_login verify account location store code i pin s with
  | Ok (c, m) s' =>
      s' = s ∧ (∃ b, resolve_location account (login_key location store) s = Ok (Some b) s ∧
                     br_is_active b = true ∧ sm_restaurant_id m = br_id b) ∧
      m ∈ rows (staff_members s) ∧ sm_is_active m = true ∧ verify pin (sm_pin_hash m) = true ∧
      c = {| cl_sub := sm_id m; cl_role := Some (sm_role m) |} ∧
      match code with Some k => sm_staff_code m = Some k | None => Some (sm_id m) = i end
  | Err e s' =>
      s' = s ∧ e = StaffHTTP 401 "invalid location, staff number or PIN" ∧
      ∀ b m, resolve_location account (login_key location store) s = Ok (Some b) s → br_is_active b = true →
        find_staff_for_login (br_id b) code i s = Ok (Some m) s → sm_is_active m = true →
        verify pin (sm_pin_hash m) = false
  end.
Proof.
  unfold staff_login. set (key := login_key location store).
  destruct (resolve_location_reads account key s) as [found Hr]. rewrite (bind_run_Ok _ _ _ _ _ Hr), Hr.
  destruct found as [b|]; [destruct (br_is_active b) eqn:Hact|].
  - destruct (find_staff_reads (br_id b) code i s) as (staff & Hf & Hstaff). rewrite (bind_run_Ok _ _ _ _ _ Hf).
    destruct staff as [m|]; [destruct Hstaff as (Hm & Hb & Hid); destruct (_ && _) eqn:He|].
    + zbool. cbn. split_and!; try done. by exists b.
    + cbn. split_and!; [done..|]. intros b' m' [= <-] _. rewrite Hf. intros [= <-] Ha.
      by rewrite Ha in He.
    + cbn. split_and!; [done..|]. intros b' m' [= <-] _. by rewrite Hf.
  - cbn. split_and!; [done..|]. intros b' m' [= <-]. congruence.
  - by cbn.
Qed.

(** The gate reads the role from the token and the branch from the member's row. *)
Theorem require_role_lets_through jwt_decode roles creds s b s' :
  require_role jwt_decode roles creds s = Ok b s' →
  s' = s ∧ b ∈ rows (branches s) ∧ ∃ token, creds = Some token ∧
    ((∃ c, jwt_decode token "manager" = Some c ∧ br_id b = cl_sub c) ∨
     (∃ c m, jwt_decode token "staff" = Some c ∧ (default "" (cl_role c) ∈ roles ∨ cl_role c = Some "owner") ∧
        get_row (cl_sub c) (staff_members s) = Some m ∧ br_id b = sm_restaurant_id m)).
Proof.
  assert (∀ i, branch_of i s = Ok b s' → s' = s ∧ b ∈ rows (branches s) ∧ br_id b = i) as Hb.
  { unfold branch_of. intros i H. inv_run. destruct (get_row i (branches st)) as [x|] eqn:Hg; [|done]. inv_run.
    by apply get_row_Some in Hg. }
  unfold require_role. destruct creds as [token|]; [|done].
  destruct (jwt_decode token "manager") as [c|] eqn:Hm.
  - intros (-> & Hin & Hid)%Hb. split_and!; [done..|]. exists token. split; [done|left]. eauto.
  - destruct (jwt_decode token "staff") as [c|] eqn:Hs; [|done]. destruct (_ && _) eqn:Hrole; [done|].
    unfold mbind, M_bind, gets. destruct (get_row (cl_sub c) (staff_members s)) as [m|] eqn:Hg; [|done].
    intros H. apply Hb in H as (-> & Hin & Hid). split_and!; [done..|]. exists token. split; [done|right]. exists c, m.
    split_and!; try done. apply andb_false_iff in Hrole as [Hrole|Hrole]; zbool; [left; by apply in_strs_spec|right].
    by destruct (cl_role c); cbn in Hrole; subst.
Qed.
End facts.

(** ** On concrete requests *)

(** PINs in the clear stand for their hashes. *)
Definition plain_hash (salt : Z) (p : string) : string := p.
Definition no_staff : staff_db := {|
  staff_members := empty_table; clock_events := empty_table; approvals := empty_table; mistakes := empty_table;
  alerts := empty_table; shifts := empty_table;
  branches := Table [{| br_id := 1; br_name := "Marina"; br_store_code := "MRN7QX2K"; br_location_uuid := "loc-1";
    br_organization_id := None; br_is_active := true; br_password_hash := "owner-secret" |}] 2;
  organizations := empty_table; staff_orders := empty_table; tip_payments := empty_table; staff_audit := [] |}.
Definition marina : Branch :=
  {| br_id := 1; br_name := "Marina"; br_store_code := "MRN7QX2K"; br_location_uuid := "loc-1";
     br_organization_id := None; br_is_active := true; br_password_hash := "owner-secret" |}.

Definition two_managers : list staff_request :=
  [CreateManager 1 0 "Aisha" None "8641"; CreateManager 1 1 "Badr" None "7913"].

Example approvals_attributed_witness :
  ∃ row s', create_approval_with_pin String.eqb marina "void" "7913" None (Some 2500) None None [] 0
      (staff_run String.eqb plain_hash two_managers no_staff) = Ok row s' ∧ ap_approved_by_staff_id row = Some 2.
Proof.
  assert (∀ (salt : Z) p q, (p =s plain_hash salt q) = true → p = q) as Hv by (intros salt p q ?; by zbool).
  pose proof (approvals_attributed String.eqb plain_hash Hv two_managers no_staff marina "void" "7913" None (Some 2500)
    None None [] 0 ltac:(vm_compute; reflexivity)) as H.
  cbv zeta in H. change (with_members empty_table no_staff) with no_staff in H.
  destruct (create_approval_with_pin String.eqb marina "void" "7913" None (Some 2500) None None [] 0
    (staff_run String.eqb plain_hash two_managers no_staff)) as [row s'|e s'] eqn:Hrun; [|vm_compute in Hrun; discriminate].
  exists row, s'. split; [reflexivity|]. destruct H as (_ & _ & _ & Happ & _). vm_compute in Hrun.
  injection Hrun as <- _. reflexivity.
Defined.

(** A manager who leaves, a colleague hired with the PIN that became free, and the first
    one's return with it: the PIN opens both, and what either approves is recorded as
    the first one's. *)
Theorem reactivation_shares_pin :
  let s := staff_run String.eqb plain_hash
    [CreateManager 1 0 "Aisha" None "8641"; DeleteManager 1 1; CreateManager 1 1 "Badr" None "8641";
     UpdateManager 1 2 1 None None None (Some true)] no_staff in
  map (λ m, (sm_name m, sm_is_active m, sm_pin_hash m)) (rows (staff_members s)) =
    [("Aisha", true, "8641"); ("Badr", true, "8641")] ∧
  ap_approved_by_staff_id <$> value (create_approval_with_pin String.eqb marina "void" "8641" None None None None [] 0 s)
    = Some (Some 1).
Proof. vm_compute. by split. Qed.

(** A member who was deactivated keeps what the token allows: only [staff_me] turns it
    away. *)
Theorem deactivated_token_still_works :
  let s := staff_run String.eqb plain_hash [CreateManager 1 0 "Aisha" None "8641"; DeleteManager 1 1] no_staff in
  let jwt (token audience : string) :=
    if audience =s "staff" then Some {| cl_sub := 1; cl_role := Some "manager" |} else None in
  value (require_role jwt ["manager"] (Some "token") s) = Some marina ∧
  error (staff_me jwt (Some "token") s) = Some (StaffHTTP 401 "unknown staff member").
Proof. vm_compute. by split. Qed.
