(* ===== verification/Attendance.v ===== *)
(** * Attendance, shifts and tips ([staff/service.py], [staff/scheduling.py],
    [staff/tips.py], [staff/performance.py])

    The clock of a member is a log of events; what the member is doing is read off the
    last one.  Hours are floats of seconds, as the code adds them up.  Shifts open and
    close and punch the clock; tips of a period are pooled or attributed.  The tables
    are those of [Staff]. *)

From S2P Require Import Prelude Money Strings Db AuditTrail Clock Floats OrderFsm Staff.

(** ** The clock *)

Definition clock_type_str (t : clock_type) : string :=
  match t with ClockIn => "clock_in" | ClockOut => "clock_out" | BreakStart => "break_start" | BreakEnd => "break_end" end.
Definition clock_type_of (s : string) : option clock_type :=
  if s =s "clock_in" then Some ClockIn else if s =s "clock_out" then Some ClockOut else
  if s =s "break_start" then Some BreakStart else if s =s "break_end" then Some BreakEnd else None.

Definition events_of (staff_id restaurant_id : Z) (e : ClockEvent) : bool :=
  (ce_staff_id e =? staff_id) && (ce_restaurant_id e =? restaurant_id).
(** [ORDER BY at DESC LIMIT 1]. *)
Definition latest (l : list ClockEvent) : option ClockEvent := head (sort_by (λ a b, ce_at b <=? ce_at a) l).
Definition _last_event (staff_id restaurant_id : Z) : SM (option ClockEvent) :=
  gets (λ s, latest (all_where (events_of staff_id restaurant_id) (clock_events s))).

Definition punch (restaurant_id staff_id : Z) (type : clock_type) (at_ : Z) : SM ClockEvent :=
  t ← gets clock_events;
  let event := {| ce_id := next_id t; ce_restaurant_id := restaurant_id; ce_staff_id := staff_id;
    ce_type := type; ce_at := at_ |} in
  modify (with_clock_events (add_row event t)) ≫= λ _, mret event.

Definition clock_in (staff_id restaurant_id at_ : Z) : SM ClockEvent :=
  last ← _last_event staff_id restaurant_id;
  match ce_type <$> last with
  | Some ClockIn | Some BreakStart => raise (AlreadyClockedInError staff_id)
  | _ => punch restaurant_id staff_id ClockIn at_
  end.
Definition clock_out (staff_id restaurant_id at_ : Z) : SM ClockEvent :=
  last ← _last_event staff_id restaurant_id;
  match ce_type <$> last with
  | Some ClockIn | Some BreakEnd => punch restaurant_id staff_id ClockOut at_
  | _ => raise (NotClockedInError staff_id)
  end.
Definition start_break (staff_id restaurant_id at_ : Z) : SM ClockEvent :=
  last ← _last_event staff_id restaurant_id;
  match ce_type <$> last with
  | None | Some ClockOut => raise (NotClockedInError staff_id)
  | Some BreakStart => raise (AlreadyOnBreakError staff_id)
  | _ => punch restaurant_id staff_id BreakStart at_
  end.
Definition end_break (staff_id restaurant_id at_ : Z) : SM ClockEvent :=
  last ← _last_event staff_id restaurant_id;
  match ce_type <$> last with
  | Some BreakStart => punch restaurant_id staff_id BreakEnd at_
  | _ => raise (NotOnBreakError staff_id)
  end.
Definition get_current_status (staff_id restaurant_id : Z) : SM string :=
  last ← _last_event staff_id restaurant_id;
  mret match ce_type <$> last with
       | None | Some ClockOut => "clocked_out"
       | Some BreakStart => "on_break"
       | _ => "clocked_in"
       end.

(** The endpoint's choice among the four. *)
Definition clock_op (type : clock_type) (staff_id restaurant_id now : Z) : SM ClockEvent :=
  match type with
  | ClockIn => clock_in staff_id restaurant_id now
  | ClockOut => clock_out staff_id restaurant_id now
  | BreakStart => start_break staff_id restaurant_id now
  | BreakEnd => end_break staff_id restaurant_id now
  end.
Definition local_hour (now : Z) : Z := ((now mod day) / hour + 4) mod 24.
Definition after_hours (now : Z) : bool := (local_hour now <? 6) || (23 <=? local_hour now).
Definition http_conflict (e : staff_error) : staff_error :=
  match e with
  | AlreadyClockedInError i => StaffHTTP 409 ("staff " +:+ pretty i +:+ " is already clocked in")
  | NotClockedInError i => StaffHTTP 409 ("staff " +:+ pretty i +:+ " is not clocked in")
  | AlreadyOnBreakError i => StaffHTTP 409 ("staff " +:+ pretty i +:+ " is already on break")
  | NotOnBreakError i => StaffHTTP 409 ("staff " +:+ pretty i +:+ " is not on break")
  | _ => e
  end.
Definition clock (restaurant_id staff_id : Z) (type : string) (now : Z) : SM ClockEvent :=
  _get_owned_staff staff_id restaurant_id ≫= λ _,
  event ← match clock_type_of type with
          | None => raise (StaffHTTP 422 "type must be clock_in, clock_out, break_start, or break_end")
          | Some ty =>
              e ← try_except (clock_op ty staff_id restaurant_id now) (λ e, raise (http_conflict e));
              (if bool_decide (ty = ClockIn) && after_hours now
               then raise_suspicious restaurant_id "after_hours_clock_in" "low" (Some staff_id)
                      [("at", JStr (datetime_isoformat now)); ("local_hour_approx", JInt (local_hour now))] ≫= λ _, mret tt
               else mret tt) ≫= λ _, mret e
          end;
  audit ("staff:" +:+ pretty staff_id) restaurant_id "clock_event" (pretty staff_id) type None
    (Some [("at", JStr (datetime_isoformat now))]) ≫= λ _, mret event.

(** ** Hours *)

Record hours_acc := {
  ha_total : float;
  ha_break : float;
  ha_open_in : option Z;
  ha_open_break : option Z;
}.
Definition hours_step (a : hours_acc) (e : ClockEvent) : hours_acc :=
  match ce_type e with
  | ClockIn => {| ha_total := ha_total a; ha_break := ha_break a; ha_open_in := Some (ce_at e);
                  ha_open_break := ha_open_break a |}
  | ClockOut =>
      match ha_open_in a with
      | Some t => {| ha_total := fadd (ha_total a) (total_seconds (ce_at e - t)); ha_break := ha_break a;
                     ha_open_in := None; ha_open_break := ha_open_break a |}
      | None => a
      end
  | BreakStart => {| ha_total := ha_total a; ha_break := ha_break a; ha_open_in := ha_open_in a;
                     ha_open_break := Some (ce_at e) |}
  | BreakEnd =>
      match ha_open_break a with
      | Some t => {| ha_total := ha_total a; ha_break := fadd (ha_break a) (total_seconds (ce_at e - t));
                     ha_open_in := ha_open_in a; ha_open_break := None |}
      | None => a
      end
  end.
Definition no_hours : hours_acc :=
  {| ha_total := fzero; ha_break := fzero; ha_open_in := None; ha_open_break := None |}.
(** [datetime.combine(date, time.min)] and [datetime.combine(date, time.max)]. *)
Definition day_start (date : Z) : Z := date * day.
Definition day_end (date : Z) : Z := date * day + day - 1.
Definition within (from to t : Z) : bool := (from <=? t) && (t <=? to).
Definition by_time (l : list ClockEvent) : list ClockEvent := sort_by (λ a b, ce_at a <=? ce_at b) l.
Definition compute_hours (staff_id restaurant_id target_date : Z) : SM float :=
  gets (λ s,
    let events := by_time (all_where (λ e, events_of staff_id restaurant_id e &&
                             within (day_start target_date) (day_end target_date) (ce_at e)) (clock_events s)) in
    let a := fold_left hours_step events no_hours in
    fdiv (fsub (ha_total a) (ha_break a)) (fint 3600)).
Definition OVERTIME_THRESHOLD_HOURS : float := fint 8.
Definition compute_overtime_hours (worked_hours : float) : float :=
  fmax fzero (fsub worked_hours OVERTIME_THRESHOLD_HOURS).

Definition compute_sales (staff_id restaurant_id target_date : Z) : SM Z :=
  gets (λ s, sum_where (λ o, bool_decide (st_staff_id o = Some staff_id) && (st_restaurant_id o =? restaurant_id) &&
                 within (day_start target_date) (day_end target_date) (st_created_at o) && negb (st_is_training o))
               st_total (staff_orders s)).

(** The hours of [performance_report]: the days of the range are added up, and the
    threshold of one day is taken off the total. *)
Fixpoint report_hours (days_ : nat) (staff_id restaurant_id d : Z) (total : float) : SM (float * float) :=
  match days_ with
  | O => mret (total, compute_overtime_hours total)
  | S k =>
      h ← compute_hours staff_id restaurant_id d;
      report_hours k staff_id restaurant_id (d + 1) (fadd total h)
  end.
Definition range_days (start_date end_date : Z) : nat := Z.to_nat (end_date - start_date + 1).

(** [attendance_for_date] of one member. *)
Definition scheduled_hours (l : list Shift) : float :=
  fold_left (λ acc sh, fadd acc (fmax fzero (fdiv (total_seconds (sh_scheduled_end sh - sh_scheduled_start sh)) (fint 3600))))
    l fzero.
Definition attendance_status (scheduled worked : float) : string :=
  if (fzero <f scheduled) && (worked <=f fzero) then "absent" else
  if (fzero <f scheduled) && (fzero <f worked) then "present" else
  if fzero <f worked then "unscheduled_work" else "off".

(** ** Shifts *)

Definition create_shift (restaurant_id staff_id scheduled_start scheduled_end : Z) : SM Shift :=
  t ← gets shifts;
  let shift := {| sh_id := next_id t; sh_restaurant_id := restaurant_id; sh_staff_id := staff_id;
    sh_scheduled_start := scheduled_start; sh_scheduled_end := scheduled_end; sh_status := ShScheduled;
    sh_actual_start := None; sh_actual_end := None |} in
  modify (with_shifts (add_row shift t)) ≫= λ _, mret shift.
Definition list_shifts_for_week (restaurant_id week_start : Z) : SM (list Shift) :=
  gets (λ s, sort_by (λ a b, sh_scheduled_start a <=? sh_scheduled_start b)
    (all_where (λ sh, (sh_restaurant_id sh =? restaurant_id) && (day_start week_start <=? sh_scheduled_start sh) &&
                      (sh_scheduled_start sh <? day_start (week_start + 7))) (shifts s))).

Definition the_shift (restaurant_id shift_id : Z) : SM Shift :=
  found ← gets (λ s, get_row shift_id (shifts s));
  match found with
  | Some sh => if sh_restaurant_id sh =? restaurant_id then mret sh else raise (StaffValueError "shift not found")
  | None => raise (StaffValueError "shift not found")
  end.
Definition with_shift (st : shift_status) (from to : option Z) (sh : Shift) : Shift :=
  {| sh_id := sh_id sh; sh_restaurant_id := sh_restaurant_id sh; sh_staff_id := sh_staff_id sh;
     sh_scheduled_start := sh_scheduled_start sh; sh_scheduled_end := sh_scheduled_end sh; sh_status := st;
     sh_actual_start := from; sh_actual_end := to |}.
Definition update_shift (sh : Shift) : SM Shift :=
  modify (λ s, with_shifts (set_row sh (shifts s)) s) ≫= λ _, mret sh.
Definition open_shift (restaurant_id shift_id now : Z) : SM Shift :=
  sh ← the_shift restaurant_id shift_id;
  match sh_status sh with
  | ShOpen => raise (StaffValueError "shift already open")
  | ShClosed => raise (StaffValueError "shift already closed")
  | ShScheduled => update_shift (with_shift ShOpen (Some now) (sh_actual_end sh) sh)
  end.
Definition close_shift (restaurant_id shift_id now : Z) : SM Shift :=
  sh ← the_shift restaurant_id shift_id;
  match sh_status sh with
  | ShClosed => raise (StaffValueError "shift already closed")
  | _ => update_shift (with_shift ShClosed (Some (default now (sh_actual_start sh))) (Some now) sh)
  end.

Definition shift_422 {A} (m : SM A) : SM A :=
  try_except m (λ e, match e with StaffValueError t => raise (StaffHTTP 422 t) | _ => raise e end).
(** Opening a shift clocks its member in, unless already in; closing it clocks out,
    unless not in.  [now'] is the clock's later reading. *)
Definition open_shift_endpoint (restaurant_id shift_id now now' : Z) : SM Shift :=
  shift_422 (
    sh ← open_shift restaurant_id shift_id now;
    try_except (clock_in (sh_staff_id sh) restaurant_id now' ≫= λ _, mret tt)
      (λ e, match e with AlreadyClockedInError _ => mret tt | _ => raise e end) ≫= λ _, mret sh).
Definition close_shift_endpoint (restaurant_id shift_id now now' : Z) : SM Shift :=
  shift_422 (
    sh ← close_shift restaurant_id shift_id now;
    try_except (clock_out (sh_staff_id sh) restaurant_id now' ≫= λ _, mret tt)
      (λ e, match e with NotClockedInError _ => mret tt | _ => raise e end) ≫= λ _, mret sh).
Definition create_shift_endpoint (restaurant_id staff_id scheduled_start scheduled_end : Z) : SM Shift :=
  _get_owned_staff staff_id restaurant_id ≫= λ _,
  shift ← create_shift restaurant_id staff_id scheduled_start scheduled_end;
  audit ("restaurant:" +:+ pretty restaurant_id) restaurant_id "shift" (pretty (sh_id shift)) "shift_created" None
    (Some [("staff_id", JInt staff_id); ("scheduled_start", JStr (datetime_isoformat scheduled_start))]) ≫= λ _,
  mret shift.

(** ** Tips *)

(** The payments of the orders [p] selects, with their orders. *)
Definition tips_joined (p : StaffOrder → bool) (s : staff_db) : list (StaffOrder * TipPayment) :=
  concat (map (λ pay, match get_row (tp_order_id pay) (staff_orders s) with
                      | Some o => if p o then [(o, pay)] else []
                      | None => []
                      end) (rows (tip_payments s))).
Definition clocked_in_during (restaurant_id from to : Z) (e : ClockEvent) : bool :=
  (ce_restaurant_id e =? restaurant_id) && bool_decide (ce_type e = ClockIn) && within from to (ce_at e).
(** The delivered orders whose tips are pooled. *)
Definition pooled_order (restaurant_id from to : Z) (o : StaffOrder) : bool :=
  (st_restaurant_id o =? restaurant_id) && bool_decide (st_status o = DELIVERED) &&
  match st_delivered_at o with Some t => within from to t | None => false end && negb (st_is_training o).
Definition pooled_tips (restaurant_id from to : Z) (s : staff_db) : Z :=
  zsum (λ r, tp_tip_aed r.2) (tips_joined (pooled_order restaurant_id from to) s).
Definition pool_members (restaurant_id from to : Z) (s : staff_db) : list Z :=
  remove_dups (map ce_staff_id (all_where (clocked_in_during restaurant_id from to) (clock_events s))).
Definition distribute_tip_pool (restaurant_id start_date end_date : Z) : SM (gmap Z Z) :=
  gets (λ s,
    let from := day_start start_date in
    let to := day_end end_date in
    let total_tips := pooled_tips restaurant_id from to s in
    if total_tips <=? 0 then ∅ else
    let staff_ids := pool_members restaurant_id from to s in
    match staff_ids with
    | [] => ∅
    | _ =>
        let share := quantize (ddiv (aed total_tips) (inject_Z (Z.of_nat (length staff_ids)))) in
        list_to_map (map (λ i, (i, share)) staff_ids)
    end).

(** [tip_staff_id or staff_id]. *)
Definition or_id (a b : option Z) : option Z :=
  match a with Some i => if i =? 0 then b else a | None => b end.
Definition add_tip (out : gmap Z Z) (r : StaffOrder * TipPayment) : gmap Z Z :=
  match or_id (st_tip_staff_id r.1) (st_staff_id r.1) with
  | Some sid => <[sid := default 0 (out !! sid) + tp_tip_aed r.2]> out
  | None => out
  end.
Definition tips_by_staff (restaurant_id start_date end_date : Z) : SM (gmap Z Z) :=
  gets (λ s,
    let rows_ := tips_joined (λ o, (st_restaurant_id o =? restaurant_id) &&
                   within (day_start start_date) (day_end end_date) (st_created_at o) && negb (st_is_training o)) s in
    fold_left add_tip (List.filter (λ r, 0 <? tp_tip_aed r.2) rows_) ∅).

Definition with_tip_staff (i : Z) (o : StaffOrder) : StaffOrder :=
  {| st_id := st_id o; st_restaurant_id := st_restaurant_id o; st_status := st_status o; st_staff_id := st_staff_id o;
     st_tip_staff_id := Some i; st_total := st_total o; st_is_training := st_is_training o;
     st_created_at := st_created_at o; st_delivered_at := st_delivered_at o |}.
Definition attribute_tip_to_staff (restaurant_id order_id staff_id : Z) : SM unit :=
  found ← gets (λ s, get_row order_id (staff_orders s));
  match found with
  | Some o =>
      if st_restaurant_id o =? restaurant_id
      then modify (λ s, with_staff_orders (set_row (with_tip_staff staff_id o) (staff_orders s)) s)
      else raise (StaffValueError "order not found")
  | None => raise (StaffValueError "order not found")
  end.
Definition attribute_tip_endpoint (restaurant_id order_id staff_id : Z) : SM unit :=
  _get_owned_staff staff_id restaurant_id ≫= λ _,
  try_except (attribute_tip_to_staff restaurant_id order_id staff_id)
    (λ e, match e with StaffValueError t => raise (StaffHTTP 404 t) | _ => raise e end).
