(* ===== verification/AttendanceFacts.v ===== *)
(** * Facts about attendance, shifts and tips ([Attendance])

    The clock as a machine with four states, the shift that opens and closes it, and the
    tip pool; then what the code does with a second clock-in, a break at closing time
    and the overtime of a week. *)

From S2P Require Import Prelude Money Strings Db AuditTrail Clock Floats OrderFsm Staff Attendance.

(** ** What a member is doing *)

(** [Back]: returned from a break. *)
Inductive presence := Off | OnFloor | Back | Pause.
#[global] Instance presence_eq_dec : EqDecision presence.
Proof. solve_decision. Defined.
Definition presence_of (t : option clock_type) : presence :=
  match t with
  | None | Some ClockOut => Off
  | Some ClockIn => OnFloor
  | Some BreakEnd => Back
  | Some BreakStart => Pause
  end.
Definition accepts (p : presence) (t : clock_type) : bool :=
  match p, t with
  | Off, ClockIn => true
  | OnFloor, (ClockOut | BreakStart) => true
  | Back, (ClockIn | ClockOut | BreakStart) => true
  | Pause, BreakEnd => true
  | _, _ => false
  end.
Definition moves (p : presence) (t : clock_type) : presence := if accepts p t then presence_of (Some t) else p.
Definition presence_label (p : presence) : string :=
  match p with Off => "clocked_out" | Pause => "on_break" | _ => "clocked_in" end.

(** A punch: branch, member, type, instant. *)
Abbreviation punched := (Z * Z * clock_type * Z)%type.
Definition spec_step (rid i : Z) (p : presence) (c : punched) : presence :=
  match c with (r, j, t, _) => if (r =? rid) && (j =? i) then moves p t else p end.
Definition spec (l : list punched) (rid i : Z) : presence := fold_left (spec_step rid i) l Off.
Definition punch_after (c : punched) (s : staff_db) : staff_db :=
  match c with (rid, i, t, now) => final (atomically (clock_op t i rid now) s) end.
Definition punch_run (l : list punched) (s : staff_db) : staff_db := fold_left (λ s c, punch_after c s) l s.

(** *** The last event *)

Definition presence_in (s : staff_db) (rid i : Z) : presence :=
  presence_of (ce_type <$> latest (all_where (events_of i rid) (clock_events s))).

Lemma latest_spec l x : latest l = Some x → x ∈ l ∧ ∀ y, y ∈ l → ce_at y ≤ ce_at x.
Proof.
  unfold latest. set (le := λ a b : ClockEvent, ce_at b <=? ce_at a).
  assert (StronglySorted le (sort_by le l)) as Hs.
  { apply sort_by_sorted; subst le; cbn; intros; rewrite ?Z.leb_le, ?Z.leb_gt in *; lia. }
  assert (∀ y, y ∈ sort_by le l ↔ y ∈ l) as He by (intros; apply elem_of_sort_by).
  destruct (sort_by le l) as [|a l'] eqn:Hl; [done|]. intros [= ->]. split; [apply He; left|].
  intros y [->|Hy]%He%elem_of_cons; [lia|]. apply StronglySorted_inv in Hs as [_ Ha].
  rewrite Forall_forall in Ha. specialize (Ha y Hy). apply Is_true_true in Ha. subst le. cbn in Ha. by zbool.
Qed.
Lemma latest_None l : latest l = None → l = [].
Proof.
  unfold latest. set (le := λ a b : ClockEvent, _). intros Hn. destruct l as [|x l]; [done|].
  pose proof (elem_of_sort_by le x (x :: l)) as [_ H]. specialize (H ltac:(left)).
  destruct (sort_by le (x :: l)); [by apply not_elem_of_nil in H|done].
Qed.
Lemma latest_snoc l e : (∀ y, y ∈ l → ce_at y < ce_at e) → latest (l ++ [e]) = Some e.
Proof.
  intros Hl. destruct (latest (l ++ [e])) as [x|] eqn:Hx.
  - apply latest_spec in Hx as [Hin Hmax]. apply elem_of_app in Hin as [Hin|Hin%list_elem_of_singleton]; [|by subst].
    specialize (Hl x Hin). specialize (Hmax e ltac:(set_solver)). lia.
  - apply latest_None in Hx. by destruct l.
Qed.
Lemma all_where_add {R} `{Row R} (p : R → bool) r t :
  all_where p (add_row r t) = all_where p t ++ (if p r then [r] else []).
Proof. unfold all_where, add_row. cbn [rows]. rewrite List.filter_app. cbn. by destruct (p r). Qed.

(** *** One punch *)

(** The events of the log are before [now]. *)
Definition log_before (s : staff_db) (now : Z) : Prop := ∀ e, e ∈ rows (clock_events s) → ce_at e < now.

Definition event_at (s : staff_db) (rid i : Z) (t : clock_type) (now : Z) : ClockEvent :=
  {| ce_id := next_id (clock_events s); ce_restaurant_id := rid; ce_staff_id := i; ce_type := t; ce_at := now |}.
Lemma clock_op_run t i rid now s :
  if accepts (presence_in s rid i) t
  then clock_op t i rid now s = Ok (event_at s rid i t now)
         (with_clock_events (add_row (event_at s rid i t now) (clock_events s)) s)
  else ∃ e, clock_op t i rid now s = Err e s.
Proof.
  unfold presence_in. destruct t; cbn [clock_op]; unfold clock_in, clock_out, start_break, end_break, _last_event, mbind, M_bind, gets;
    destruct (ce_type <$> latest _) as [[]|]; cbn; try reflexivity; by eexists.
Qed.

Lemma presence_punched t i rid now s rid' i' :
  log_before s now →
  presence_in (with_clock_events (add_row (event_at s rid i t now) (clock_events s)) s) rid' i' =
    if (rid =? rid') && (i =? i') then presence_of (Some t) else presence_in s rid' i'.
Proof.
  intros Hlog. unfold presence_in. cbn [clock_events with_clock_events]. rewrite all_where_add.
  unfold events_of at 2. cbn. rewrite andb_comm. destruct (_ && _); [|by rewrite app_nil_r].
  rewrite latest_snoc; [done|]. intros y [Hy _]%elem_of_all_where. by apply Hlog.
Qed.

Fixpoint increasing (from : Z) (l : list punched) : Prop :=
  match l with [] => True | (_, _, _, now) :: l' => from < now ∧ increasing now l' end.

Lemma punch_run_spec l s from p :
  increasing from l → log_before s (from + 1) → (∀ rid i, presence_in s rid i = p rid i) →
  ∀ rid i, presence_in (punch_run l s) rid i = fold_left (spec_step rid i) l (p rid i).
Proof.
  revert s from p. induction l as [|[[[rid i] t] now] l IH]; intros s from p Hinc Hlog Hp; [done|].
  destruct Hinc as [Hnow Hinc]. cbn [punch_run fold_left]. fold (punch_run l (punch_after (rid, i, t, now) s)).
  assert (log_before (punch_after (rid, i, t, now) s) (now + 1) ∧
          ∀ r j, presence_in (punch_after (rid, i, t, now) s) r j = spec_step r j (p r j) (rid, i, t, now)) as [Hlog' Hp'].
  { unfold punch_after, atomically. pose proof (clock_op_run t i rid now s) as Hrun.
    assert (log_before s now) as Hb by (intros e He; specialize (Hlog e He); lia).
    destruct (accepts (presence_in s rid i) t) eqn:Ha; [rewrite Hrun|destruct Hrun as [e ->]]; cbn [final].
    - split; [intros e [He| ->]%elem_of_add_row; [specialize (Hb e He)|cbn]; lia|].
      intros r j. rewrite presence_punched by done. cbn. destruct (_ && _) eqn:He; [|apply Hp].
      zbool. subst. unfold moves. rewrite <-Hp, Ha. done.
    - split; [intros e' He'; specialize (Hb e' He'); lia|]. intros r j. cbn. destruct (_ && _) eqn:He; [|apply Hp].
      zbool. subst. unfold moves. by rewrite <-Hp, Ha. }
  by apply (IH _ now).
Qed.

(** C32. Attendance refines a machine per member with the states off, on the floor, back
    from a break and on a break: after any punches at increasing times the status the
    code reports is the machine's, and it accepts a further punch exactly when the
    machine does. *)
Theorem attendance_refines l s0 from rid i :
  increasing from l →
  let s := punch_run l (with_clock_events empty_table s0) in
  get_current_status i rid s = Ok (presence_label (spec l rid i)) s ∧
  ∀ t now, is_ok (clock_op t i rid now s) = accepts (spec l rid i) t.
Proof.
  intros Hinc s. assert (∀ rid i, presence_in s rid i = spec l rid i) as Hp.
  { apply (punch_run_spec _ _ from (λ _ _, Off)); [done| |done]. intros e He. by apply not_elem_of_nil in He. }
  rewrite <-(Hp rid i). split.
  - unfold get_current_status, _last_event, mbind, M_bind, gets, mret, M_ret, presence_in.
    by destruct (ce_type <$> latest _) as [[]|].
  - intros t now. pose proof (clock_op_run t i rid now s) as Hrun. destruct (accepts _ t); [by rewrite Hrun|].
    by destruct Hrun as [e ->].
Qed.

(** ** Shifts and the clock *)

Lemma close_shift_run rid sid now s :
  match close_shift rid sid now s with
  | Ok sh s' =>
      ∃ sh0, get_row sid (shifts s) = Some sh0 ∧ sh_restaurant_id sh0 = rid ∧ sh_status sh0 ≠ ShClosed ∧
        sh = with_shift ShClosed (Some (default now (sh_actual_start sh0))) (Some now) sh0 ∧
        s' = with_shifts (set_row sh (shifts s)) s
  | Err e s' => s' = s ∧ ∃ t, e = StaffValueError t
  end.
Proof.
  unfold close_shift, the_shift, mbind, M_bind, gets. destruct (get_row sid (shifts s)) as [sh|] eqn:Hg; [|cbn; eauto].
  destruct (Z.eqb_spec (sh_restaurant_id sh) rid); [|cbn; eauto]. unfold mret, M_ret.
  destruct (sh_status sh) eqn:Hst; cbn; [..|eauto]; exists sh; rewrite Hst; by split_and!.
Qed.
Lemma clock_out_refused i rid now s :
  accepts (presence_in s rid i) ClockOut = false →
  clock_out i rid now s = Err (NotClockedInError i) s ∧ presence_in s rid i ∈ [Off; Pause].
Proof.
  unfold presence_in, clock_out, _last_event, mbind, M_bind, gets.
  destruct (ce_type <$> latest _) as [[]|]; cbn; try done; intros _; (split; [done|set_solver]).
Qed.

(** Closing a shift: of a shift of the branch that is scheduled or open it succeeds,
    records when work began and ended and clocks the member out if the member is on the
    floor or back from a break; a member on a break stays on the break.  Every other
    close is refused with 422 and writes nothing. *)
Theorem closing_a_shift rid sid now now' s :
  log_before s now' →
  match atomically (close_shift_endpoint rid sid now now') s with
  | Ok sh s' =>
      ∃ sh0, get_row sid (shifts s) = Some sh0 ∧ sh_restaurant_id sh0 = rid ∧ sh_status sh0 ≠ ShClosed ∧
        sh = with_shift ShClosed (Some (default now (sh_actual_start sh0))) (Some now) sh0 ∧
        shifts s' = set_row sh (shifts s) ∧
        ∀ r j, presence_in s' r j =
          if (r =? rid) && (j =? sh_staff_id sh0) && accepts (presence_in s r j) ClockOut then Off else presence_in s r j
  | Err e s' => s' = s ∧ ∃ t, e = StaffHTTP 422 t
  end.
Proof.
  intros Hlog. unfold atomically, close_shift_endpoint, shift_422, try_except.
  pose proof (close_shift_run rid sid now s) as Hc.
  destruct (close_shift rid sid now s) as [sh s1|e s1] eqn:Hrun.
  - rewrite (bind_run_Ok _ _ _ _ _ Hrun). destruct Hc as (sh0 & Hg & Hr & Hst & -> & ->).
    set (sh := with_shift _ _ _ sh0). set (s1 := with_shifts _ s).
    pose proof (clock_op_run ClockOut (sh_staff_id sh) rid now' s1) as Hout. cbn [clock_op] in Hout.
    assert (∀ r j, presence_in s1 r j = presence_in s r j) as Hsame by done.
    destruct (accepts (presence_in s1 rid (sh_staff_id sh)) ClockOut) eqn:Ha.
    + unfold mbind at 1, M_bind at 1. rewrite (bind_run_Ok _ _ _ _ _ Hout). cbn [mret M_ret].
      exists sh0. split_and!; try done. intros r j. rewrite presence_punched by done. rewrite Hsame.
      rewrite (Z.eqb_sym rid r), (Z.eqb_sym _ j). destruct (_ && _) eqn:He; [|done].
      zbool. subst. change (sh_staff_id sh) with (sh_staff_id sh0) in *. by rewrite <-Hsame, Ha.
    + destruct (clock_out_refused (sh_staff_id sh) rid now' s1) as [Hno _]; [done|].
      unfold mbind at 1, M_bind at 1. rewrite (bind_run_Err _ _ _ _ _ Hno). cbn.
      exists sh0. split_and!; try done. intros r j. destruct (_ && accepts _ _) eqn:He; [|done].
      zbool. subst. change (sh_staff_id sh) with (sh_staff_id sh0) in *. rewrite Hsame in Ha. congruence.
  - rewrite (bind_run_Err _ _ _ _ _ Hrun). destruct Hc as (-> & t & ->). cbn. split; [done|by eexists].
Qed.

(** ** Tips *)

Lemma share_near total n :
  0 < total ≤ 10 ^ 12 → 0 < n →
  let share := quantize (ddiv (aed total) (inject_Z n)) in 0 ≤ share ∧ Z.abs (n * share - total) < n.
Proof.
  intros Ht Hn share. set (x := (aed total / inject_Z n)%Q).
  assert (0 < inject_Z n)%Q as Hnq by (unfold Qlt; cbn; lia).
  assert (x * inject_Z n == aed total)%Q as Hx by (unfold x; field; lra).
  assert (0 <= x <= 10 ^ 10)%Q as Hb.
  { change (10 ^ 10)%Q with (10000000000 # 1)%Q. split.
    - apply Qle_shift_div_l; [done|]. unfold Qle, aed; cbn; lia.
    - apply Qle_shift_div_r; [done|]. unfold Qle, aed, Qmult, inject_Z; cbn; lia. }
  destruct (ctx_round_close x Hb) as [H0 Hc]. change (ctx_round x) with (ddiv (aed total) (inject_Z n)) in H0, Hc.
  pose proof (quantize_near (ddiv (aed total) (inject_Z n))) as Hq. fold share in Hq.
  split; [by apply quantize_nonneg|].
  assert (aed share - (3 # 400) <= x <= aed share + (3 # 400))%Q as [H1 H2] by lra.
  assert ((aed share - (3 # 400)) * inject_Z n <= aed total)%Q as H3 by (rewrite <-Hx; apply Qmult_le_compat_r; lra).
  assert (aed total <= (aed share + (3 # 400)) * inject_Z n)%Q as H4 by (rewrite <-Hx; apply Qmult_le_compat_r; lra).
  unfold Qle, aed, Qmult, Qminus, Qplus, Qopp, inject_Z in H3, H4; cbn -[Z.mul] in H3, H4. lia.
Qed.

(** The tip pool: the members who clocked in during the period, and nobody else,
    get the same share, and the shares add up to the tips of the delivered orders of
    the period to within a fil per member.  Without tips or without members nobody gets
    anything. *)
Theorem tip_pool_shared rid d1 d2 s :
  let total := pooled_tips rid (day_start d1) (day_end d2) s in
  let members := pool_members rid (day_start d1) (day_end d2) s in
  0 < total ≤ 10 ^ 12 →
  ∃ pool share, distribute_tip_pool rid d1 d2 s = Ok pool s ∧ 0 ≤ share ∧
    (∀ i, pool !! i = Some share ↔ i ∈ members) ∧ (∀ i, is_Some (pool !! i) → i ∈ members) ∧
    (members ≠ [] → Z.abs (Z.of_nat (length members) * share - total) < Z.of_nat (length members)) ∧
    ∀ i, i ∈ members ↔ ∃ e, e ∈ rows (clock_events s) ∧ ce_staff_id e = i ∧ ce_restaurant_id e = rid ∧
                         ce_type e = ClockIn ∧ day_start d1 ≤ ce_at e ≤ day_end d2.
Proof.
  intros total members Ht. unfold distribute_tip_pool, gets. fold total members.
  rewrite (proj2 (Z.leb_gt total 0)) by lia.
  assert (∀ i, i ∈ members ↔ ∃ e, e ∈ rows (clock_events s) ∧ ce_staff_id e = i ∧ ce_restaurant_id e = rid ∧
                         ce_type e = ClockIn ∧ day_start d1 ≤ ce_at e ≤ day_end d2) as Hin.
  { intros i. unfold members, pool_members. rewrite elem_of_remove_dups, list_elem_of_In, List.in_map_iff.
    setoid_rewrite <-list_elem_of_In. setoid_rewrite elem_of_all_where. unfold clocked_in_during, within.
    split; [intros (e & He & Hm & Hp); exists e; zbool; naive_solver|].
    intros (e & He & Hi & Hr & Hty & H1 & H2). exists e. split_and!; try done.
    rewrite Hr, Z.eqb_refl, bool_decide_eq_true_2 by done. cbn. apply andb_true_iff. rewrite !Z.leb_le. lia. }
  assert (NoDup members) as Hnd by apply NoDup_remove_dups.
  destruct members as [|i0 l0] eqn:Hm.
  { exists ∅, 0. split; [done|]. split; [done|]. split; [intros i; rewrite lookup_empty; split; [done|set_solver]|].
    split; [intros i; rewrite lookup_empty; by intros []|]. split; [done|exact Hin]. }
  rewrite <-Hm in *. set (share := quantize _). destruct (share_near total (Z.of_nat (length members))) as [H0 Hs]; [done|by rewrite Hm|].
  assert (∀ i, (list_to_map (map (λ i, (i, share)) members) : gmap Z Z) !! i = Some share ↔ i ∈ members) as Hl.
  { intros i. rewrite <-elem_of_list_to_map.
    - rewrite list_elem_of_In, List.in_map_iff. setoid_rewrite <-list_elem_of_In. naive_solver.
    - change (fmap fst ?l) with (map fst l). by rewrite List.map_map, List.map_id. }
  exists (list_to_map (map (λ i, (i, share)) members)), share. split_and!; [by unfold share; rewrite Hm|done|done| |done|done].
  intros i [v Hv]. apply elem_of_list_to_map_2 in Hv. rewrite list_elem_of_In, List.in_map_iff in Hv.
  destruct Hv as (j & [= -> _] & Hj). by apply list_elem_of_In.
Qed.

(** ** On concrete days *)

Definition bare : staff_db := {|
  staff_members := empty_table; clock_events := empty_table; approvals := empty_table; mistakes := empty_table;
  alerts := empty_table; shifts := empty_table; branches := empty_table; organizations := empty_table;
  staff_orders := empty_table; tip_payments := empty_table; staff_audit := [] |}.
(** [h:m] of a day. *)
Definition at_time (date h m : Z) : Z := date * day + h * hour + m * minute.

(** A morning from nine, a break at noon and back. *)
Definition morning : list punched :=
  [(1, 7, ClockIn, at_time 19000 9 0); (1, 7, BreakStart, at_time 19000 12 0); (1, 7, BreakEnd, at_time 19000 12 30)].

Example attendance_refines_witness :
  get_current_status 7 1 (punch_run morning (with_clock_events empty_table bare)) = Ok "clocked_in"
    (punch_run morning (with_clock_events empty_table bare)) ∧
  is_ok (clock_op BreakEnd 7 1 (at_time 19000 13 0) (punch_run morning (with_clock_events empty_table bare))) = false.
Proof.
  destruct (attendance_refines morning bare 0 1 7 ltac:(vm_compute; repeat split)) as [Hs Hop].
  split; [exact Hs|]. rewrite Hop. vm_compute. reflexivity.
Defined.

Definition with_tips (l : list (Z * Z)) (staff : list Z) : staff_db := {|
  staff_members := empty_table;
  clock_events := Table (map (λ i, {| ce_id := i; ce_restaurant_id := 1; ce_staff_id := i; ce_type := ClockIn;
                                      ce_at := at_time 19000 9 0 |}) staff) 100;
  approvals := empty_table; mistakes := empty_table; alerts := empty_table; shifts := empty_table;
  branches := empty_table; organizations := empty_table;
  staff_orders := Table (map (λ p, {| st_id := p.1; st_restaurant_id := 1; st_status := DELIVERED; st_staff_id := None;
     st_tip_staff_id := None; st_total := 1000; st_is_training := false; st_created_at := at_time 19000 12 0;
     st_delivered_at := Some (at_time 19000 12 40) |}) l) 100;
  tip_payments := Table (map (λ p, {| tp_id := p.1; tp_order_id := p.1; tp_tip_aed := p.2 |}) l) 100;
  staff_audit := [] |}.

Example tip_pool_shared_witness :
  ∃ pool share, distribute_tip_pool 1 19000 19000 (with_tips [(1, 500); (2, 501)] [4; 5; 6]) = Ok pool
      (with_tips [(1, 500); (2, 501)] [4; 5; 6]) ∧ Z.abs (3 * share - 1001) < 3.
Proof.
  destruct (tip_pool_shared 1 19000 19000 (with_tips [(1, 500); (2, 501)] [4; 5; 6]) ltac:(vm_compute; split; congruence))
    as (pool & share & Hrun & _ & _ & _ & Hs & _).
  exists pool, share. split; [exact Hrun|]. apply Hs. vm_compute. discriminate.
Defined.

(** Three members share five fils: each is paid two, one more than was collected. *)
Theorem tip_pool_overpays :
  (λ pool, zsum snd (map_to_list pool)) <$> value (distribute_tip_pool 1 19000 19000 (with_tips [(1, 5)] [4; 5; 6])) = Some 6.
Proof. vm_compute. reflexivity. Qed.

Definition hours_after (l : list punched) : option float :=
  value (compute_hours 7 1 19000 (punch_run l (with_clock_events empty_table bare))).

(** Whoever returns from the break and leaves at five worked seven hours and a half; a
    second clock-in after the break is accepted, and leaves four: the morning is lost
    and the break is still deducted. *)
Theorem second_clock_in_loses_the_morning :
  hours_after (morning ++ [(1, 7, ClockOut, at_time 19000 17 0)]) = Some (float_of_Q (15 # 2)) ∧
  hours_after (morning ++ [(1, 7, ClockIn, at_time 19000 12 30); (1, 7, ClockOut, at_time 19000 17 0)]) = Some (fint 4).
Proof. vm_compute. split; reflexivity. Qed.

(** The shift of member 7, from nine to five. *)
Definition with_shift_of_7 (s : staff_db) : staff_db :=
  final (create_shift 1 7 (at_time 19000 9 0) (at_time 19000 17 0) s).
Definition at_work (l : list punched) : staff_db := with_shift_of_7 (punch_run l (with_clock_events empty_table bare)).

Example closing_a_shift_witness :
  ∃ sh s', atomically (close_shift_endpoint 1 1 (at_time 19000 17 0) (at_time 19000 17 1)) (at_work morning) = Ok sh s' ∧
    sh_status sh = ShClosed ∧ presence_in s' 1 7 = Off.
Proof.
  assert (log_before (at_work morning) (at_time 19000 17 1)) as Hlog.
  { intros e He. vm_compute in He. repeat (apply elem_of_cons in He as [->|He]; [vm_compute; reflexivity|]).
    by apply not_elem_of_nil in He. }
  pose proof (closing_a_shift 1 1 (at_time 19000 17 0) (at_time 19000 17 1) (at_work morning) Hlog) as H.
  destruct (atomically _ _) as [sh s'|e s'] eqn:Hrun; [|vm_compute in Hrun; discriminate].
  destruct H as (sh0 & Hg & _ & _ & -> & _ & Hp). exists (with_shift ShClosed (Some (default (at_time 19000 17 0) (sh_actual_start sh0)))
    (Some (at_time 19000 17 0)) sh0), s'. split; [reflexivity|]. split; [reflexivity|]. rewrite Hp.
  vm_compute in Hg. injection Hg as <-. vm_compute. reflexivity.
Defined.

(** A member still on a break when the shift closes stays on the break, clocked in, and
    none of the day counts as hours. *)
Theorem shift_closed_on_a_break :
  let s := final (atomically (close_shift_endpoint 1 1 (at_time 19000 17 0) (at_time 19000 17 1)) (at_work (take 2 morning))) in
  map sh_status (rows (shifts s)) = [ShClosed] ∧
  value (get_current_status 7 1 s) = Some "on_break" ∧
  value (compute_hours 7 1 19000 s) = Some fzero.
Proof. vm_compute. by repeat split. Qed.

(** Two days of eight hours: no overtime on either day, eight hours of it in the report. *)
Theorem report_overtime_over_days :
  let s := punch_run [(1, 7, ClockIn, at_time 19000 9 0); (1, 7, ClockOut, at_time 19000 17 0);
                      (1, 7, ClockIn, at_time 19001 9 0); (1, 7, ClockOut, at_time 19001 17 0)]
             (with_clock_events empty_table bare) in
  compute_overtime_hours <$> value (compute_hours 7 1 19000 s) = Some fzero ∧
  compute_overtime_hours <$> value (compute_hours 7 1 19001 s) = Some fzero ∧
  value (report_hours (range_days 19000 19001) 7 1 19000 fzero s) = Some (fint 16, fint 8).
Proof. vm_compute. by repeat split. Qed.
