(* ===== verification/KitchenDb.v ===== *)
(** * The kitchen's session: stations, print jobs, printers and the lines on the pass
    ([kds/models.py], [kds/printer_status.py])

    The kitchen runs in one session with the fleet ([Fleet]), which holds an order's
    lifecycle, money and delivery; the columns of orders and lines that only the kitchen
    reads or writes are here. *)

From S2P Require Import Prelude Money Strings Db AuditTrail Clock Floats Wallet OrderFsm OrderPayments Outbox Loyalty Batching Scoring Fleet.

(** ** Data *)

Record KitchenStation := {
  ks_id : Z;
  ks_restaurant_id : Z;
  ks_name : string;
  ks_station_type : string;
  ks_kitchen_code : string;
  ks_printer_ip : option string;
  ks_printer_port : option Z;
  ks_fallback_station_id : option Z;
  ks_is_active : bool;
}.
#[global] Instance KitchenStation_row : Row KitchenStation := ks_id.

Record CategoryStationDefault := {
  cs_id : Z;
  cs_restaurant_id : Z;
  cs_category : string;
  cs_station_id : Z;
}.
#[global] Instance CategoryStationDefault_row : Row CategoryStationDefault := cs_id.

Record PrintJob := {
  pj_id : Z;
  pj_restaurant_id : Z;
  pj_station_id : Z;
  pj_order_id : Z;
  pj_payload : string;
  pj_status : string;
  pj_attempts : Z;
  pj_via_fallback : bool;
  pj_original_station_id : option Z;
}.
#[global] Instance PrintJob_row : Row PrintJob := pj_id.

Record PrinterStatus := {
  pt_id : Z;
  pt_restaurant_id : Z;
  pt_station_id : Z;
  pt_healthy : bool;
  pt_last_heartbeat_at : Z;
}.
#[global] Instance PrinterStatus_row : Row PrinterStatus := pt_id.

Record KitchenDish := {
  kd_id : Z;
  kd_restaurant_id : Z;
  kd_category : option string;
  kd_station_id : option Z;
  kd_prep_minutes : option Z;
}.
#[global] Instance KitchenDish_row : Row KitchenDish := kd_id.

(** A chosen modifier: an object with a name (or without), or something else, as printed. *)
Inductive chosen_modifier := ModDict (name : option string) (text : string) | ModOther (text : string).

Inductive kitchen_status := KReceived | KPreparing | KReady.
#[global] Instance kitchen_status_eq_dec : EqDecision kitchen_status.
Proof. solve_decision. Defined.
Definition kitchen_status_str (st : kitchen_status) : string :=
  match st with KReceived => "received" | KPreparing => "preparing" | KReady => "ready" end.

(** The kitchen's columns of [order_items]. *)
Record Ticket := {
  tk_id : Z;
  tk_order_id : Z;
  tk_dish_id : Z;
  tk_dish_name : string;
  tk_variant_name : option string;
  tk_qty : Z;
  tk_notes : option string;
  tk_cancelled : bool;
  tk_selected_modifiers : list chosen_modifier;
  tk_allergens_snapshot : list string;
  tk_course_held : bool;
  tk_created_at : Z;
  tk_kitchen_status : kitchen_status;
  tk_station_id_snapshot : option Z;
  tk_kitchen_code_snapshot : option string;
  tk_kitchen_received_at : option Z;
  tk_bumped_at : option Z;
  tk_bumped_by_staff_id : option Z;
  tk_packaging_checked : bool;
  tk_quality_checked : bool;
  tk_missing_item_confirmed : bool;
  tk_missing_item_note : option string;
}.
#[global] Instance Ticket_row : Row Ticket := tk_id.

(** Where the line is cooked and when it came in. *)
Definition routed (st : kitchen_status) (station : option Z) (code : option string) (received : option Z) (t : Ticket) : Ticket :=
  Build_Ticket (tk_id t) (tk_order_id t) (tk_dish_id t) (tk_dish_name t) (tk_variant_name t) (tk_qty t) (tk_notes t)
    (tk_cancelled t) (tk_selected_modifiers t) (tk_allergens_snapshot t) (tk_course_held t) (tk_created_at t)
    st station code received (tk_bumped_at t) (tk_bumped_by_staff_id t) (tk_packaging_checked t) (tk_quality_checked t)
    (tk_missing_item_confirmed t) (tk_missing_item_note t).
Definition rehomed (station : option Z) (t : Ticket) : Ticket :=
  routed (tk_kitchen_status t) station (tk_kitchen_code_snapshot t) (tk_kitchen_received_at t) t.
(** Its progress: status, bump time and by whom. *)
Definition progressed (st : kitchen_status) (at_ by_ : option Z) (t : Ticket) : Ticket :=
  Build_Ticket (tk_id t) (tk_order_id t) (tk_dish_id t) (tk_dish_name t) (tk_variant_name t) (tk_qty t) (tk_notes t)
    (tk_cancelled t) (tk_selected_modifiers t) (tk_allergens_snapshot t) (tk_course_held t) (tk_created_at t)
    st (tk_station_id_snapshot t) (tk_kitchen_code_snapshot t) (tk_kitchen_received_at t) at_ by_
    (tk_packaging_checked t) (tk_quality_checked t) (tk_missing_item_confirmed t) (tk_missing_item_note t).
Definition checked (packaging quality missing : bool) (note : option string) (t : Ticket) : Ticket :=
  Build_Ticket (tk_id t) (tk_order_id t) (tk_dish_id t) (tk_dish_name t) (tk_variant_name t) (tk_qty t) (tk_notes t)
    (tk_cancelled t) (tk_selected_modifiers t) (tk_allergens_snapshot t) (tk_course_held t) (tk_created_at t)
    (tk_kitchen_status t) (tk_station_id_snapshot t) (tk_kitchen_code_snapshot t) (tk_kitchen_received_at t)
    (tk_bumped_at t) (tk_bumped_by_staff_id t) packaging quality missing note.

(** The kitchen's columns of [orders]. *)
Record KitchenOrder := {
  ko_id : Z;
  ko_order_type : string;
  ko_held_at : option Z;
  ko_customer_allergy_notes : option string;
  ko_staff_id : option Z;
  ko_daily_token : option Z;
  ko_source_channel : option string;
  ko_cook_estimate_minutes : option Z;
}.
#[global] Instance KitchenOrder_row : Row KitchenOrder := ko_id.
Definition with_cook_estimate (m : option Z) (k : KitchenOrder) : KitchenOrder :=
  {| ko_id := ko_id k; ko_order_type := ko_order_type k; ko_held_at := ko_held_at k;
     ko_customer_allergy_notes := ko_customer_allergy_notes k; ko_staff_id := ko_staff_id k;
     ko_daily_token := ko_daily_token k; ko_source_channel := ko_source_channel k; ko_cook_estimate_minutes := m |}.

(** The restaurant's kitchen settings; a key may be missing. *)
Record kitchen_settings := {
  raw_prep_handling_minutes : option Z;
  raw_batch_safety_minutes : option Z;
  raw_default_prep_minutes : option Z;
}.

(** Calls to the parts that keep their own session: the VAT of the confirmed order, the
    marketplace push, the stock. *)
Inductive kitchen_call :=
| KApplyVat (order_id : Z)
| KPushPartner (order_id : Z)
| KDeductStock (order_id : Z)
| KRecomputeTotal (order_id : Z)
| KFlushWebhooks (restaurant_id : Z)
| KDeliverOutbox (ids : list Z)
| KInvalidatePreview (restaurant_id : Z).

(** ** The session *)

Record kitchen_db := {
  kt_fleet : fleet_db;
  stations : table KitchenStation;
  category_defaults : table CategoryStationDefault;
  print_jobs : table PrintJob;
  printer_statuses : table PrinterStatus;
  kitchen_dishes : table KitchenDish;
  tickets : table Ticket;
  kitchen_orders : table KitchenOrder;
  table_labels : list (Z * string);
  kitchen_settings_of : list (Z * kitchen_settings);
  kitchen_calls : list kitchen_call;
}.
Definition with_stations t s := Build_kitchen_db (kt_fleet s) t (category_defaults s) (print_jobs s) (printer_statuses s)
  (kitchen_dishes s) (tickets s) (kitchen_orders s) (table_labels s) (kitchen_settings_of s) (kitchen_calls s).
Definition with_defaults t s := Build_kitchen_db (kt_fleet s) (stations s) t (print_jobs s) (printer_statuses s)
  (kitchen_dishes s) (tickets s) (kitchen_orders s) (table_labels s) (kitchen_settings_of s) (kitchen_calls s).
Definition with_print_jobs t s := Build_kitchen_db (kt_fleet s) (stations s) (category_defaults s) t (printer_statuses s)
  (kitchen_dishes s) (tickets s) (kitchen_orders s) (table_labels s) (kitchen_settings_of s) (kitchen_calls s).
Definition with_printers t s := Build_kitchen_db (kt_fleet s) (stations s) (category_defaults s) (print_jobs s) t
  (kitchen_dishes s) (tickets s) (kitchen_orders s) (table_labels s) (kitchen_settings_of s) (kitchen_calls s).
Definition with_dishes t s := Build_kitchen_db (kt_fleet s) (stations s) (category_defaults s) (print_jobs s)
  (printer_statuses s) t (tickets s) (kitchen_orders s) (table_labels s) (kitchen_settings_of s) (kitchen_calls s).
Definition with_tickets t s := Build_kitchen_db (kt_fleet s) (stations s) (category_defaults s) (print_jobs s)
  (printer_statuses s) (kitchen_dishes s) t (kitchen_orders s) (table_labels s) (kitchen_settings_of s) (kitchen_calls s).
Definition with_kitchen_orders t s := Build_kitchen_db (kt_fleet s) (stations s) (category_defaults s) (print_jobs s)
  (printer_statuses s) (kitchen_dishes s) (tickets s) t (table_labels s) (kitchen_settings_of s) (kitchen_calls s).
Definition with_kitchen_calls l s := Build_kitchen_db (kt_fleet s) (stations s) (category_defaults s) (print_jobs s)
  (printer_statuses s) (kitchen_dishes s) (tickets s) (kitchen_orders s) (table_labels s) (kitchen_settings_of s) l.

#[global] Program Instance kitchen_fleet_lens : Lens kitchen_db fleet_db := {|
  view := kt_fleet;
  put f s := Build_kitchen_db f (stations s) (category_defaults s) (print_jobs s) (printer_statuses s)
    (kitchen_dishes s) (tickets s) (kitchen_orders s) (table_labels s) (kitchen_settings_of s) (kitchen_calls s);
|}.
Solve Obligations with by intros; try destruct s.
#[global] Instance kitchen_has_audit : HasAudit kitchen_db := {|
  audit_log s := audit_log (kt_fleet s);
  put_audit l s := put (put_audit l (kt_fleet s)) s;
|}.

Inductive kitchen_error :=
| KHTTP (status_code : Z) (detail : string)
| KValueError (text : string)
| DishMissing (dish_id : Z)            (** an [AttributeError] on [None] *)
| StationNameTaken                     (** UNIQUE (restaurant_id, kitchen_code, name) *)
| KFleetRaised (e : fleet_error).
Abbreviation KM := (M kitchen_db kitchen_error).

Definition kt_now (s : kitchen_db) : Z := fl_now (kt_fleet s).
Definition call_kitchen (c : kitchen_call) : KM unit := modify (λ s, with_kitchen_calls (kitchen_calls s ++ [c]) s).

(** [session.get(Order, id)]: the three parts of the row. *)
Record KOrder := Whole { w_order : OrderFsm.Order; w_delivery : Delivery; w_kitchen : KitchenOrder }.
Definition whole_order (order_id : Z) (s : kitchen_db) : option KOrder :=
  match both_halves order_id (kt_fleet s), get_row order_id (kitchen_orders s) with
  | Some (o, d), Some k => Some (Whole o d k)
  | _, _ => None
  end.
Definition set_ticket (t : Ticket) : KM unit := modify (λ s, with_tickets (set_row t (tickets s)) s).
Definition tickets_of (order_id : Z) (s : kitchen_db) : list Ticket :=
  all_where (λ t, tk_order_id t =? order_id) (tickets s).
