(* ===== verification/Kitchen.v ===== *)
(** * The kitchen display ([kds/service.py], [kds/router.py])

    Where a line is cooked, the tickets and print jobs of an order, the printers and
    their fallbacks, the stations themselves, and what the boards show.  Bumping a line
    and the order-level flow are in [KitchenFlow]. *)

From S2P Require Import Prelude Money Strings Db AuditTrail Clock Floats Wallet OrderFsm OrderPayments Outbox Loyalty Batching Scoring Fleet KitchenDb.

(** ** Stations *)

Definition STATION_TYPES : list string :=
  ["main"; "grill"; "fry"; "beverage"; "dessert"; "pizza"; "cloud"; "general"].
Definition DEFAULT_STATION_PRESETS : list (string * string) :=
  [("Main", "main"); ("Grill", "grill"); ("Fry", "fry"); ("Beverage", "beverage"); ("Dessert", "dessert");
   ("Pizza", "pizza"); ("Cloud Kitchen", "cloud")].
Definition validate_station_type (station_type : string) : string + string :=
  let value := lower (strip (if truthy station_type then station_type else "general")) in
  if in_strs value STATION_TYPES then inr value else inl ("invalid station_type " +:+ station_type).

Definition in_kitchen (restaurant_id : Z) (code : string) (st : KitchenStation) : bool :=
  (ks_restaurant_id st =? restaurant_id) && (ks_kitchen_code st =s code).
Definition named_in (restaurant_id : Z) (code name : string) (st : KitchenStation) : bool :=
  in_kitchen restaurant_id code st && (ks_name st =s name).

(** A new station; the flush checks the unique name. *)
Definition add_station (restaurant_id : Z) (name station_type code : string) (ip : option string)
    (port fallback : option Z) (active : bool) : KM KitchenStation :=
  t ← gets stations;
  if existsb (named_in restaurant_id code name) (rows t) then raise StationNameTaken else
  let st := {| ks_id := next_id t; ks_restaurant_id := restaurant_id; ks_name := name; ks_station_type := station_type;
    ks_kitchen_code := code; ks_printer_ip := ip; ks_printer_port := port; ks_fallback_station_id := fallback;
    ks_is_active := active |} in
  modify (with_stations (add_row st t)) ≫= λ _, mret st.

Definition get_or_create_main_station (restaurant_id : Z) (kitchen_code : string) : KM KitchenStation :=
  existing ← gets (λ s, first_where (named_in restaurant_id kitchen_code "Main") (stations s));
  match existing with
  | Some st => mret st
  | None => add_station restaurant_id "Main" "main" kitchen_code None None None true
  end.

Definition ensure_default_stations (restaurant_id : Z) (kitchen_code : string) : KM (list KitchenStation) :=
  existing ← gets (λ s, all_where (in_kitchen restaurant_id kitchen_code) (stations s));
  let by_name := map (λ st, lower (ks_name st)) existing in
  for_each (λ p : string * string,
    if in_strs (lower p.1) by_name then mret tt
    else add_station restaurant_id p.1 p.2 kitchen_code None None None true ≫= λ _, mret tt)
    DEFAULT_STATION_PRESETS ≫= λ _,
  gets (λ s, all_where (in_kitchen restaurant_id kitchen_code) (stations s)).

Definition _get_owned_station (station_id restaurant_id : Z) : KM KitchenStation :=
  found ← gets (λ s, get_row station_id (stations s));
  match found with
  | Some st => if ks_restaurant_id st =? restaurant_id then mret st else raise (KHTTP 404 "station not found")
  | None => raise (KHTTP 404 "station not found")
  end.

Definition create_station (restaurant_id : Z) (name station_type code : string) (ip : option string)
    (port fallback : option Z) (active : bool) : KM KitchenStation :=
  match validate_station_type station_type with
  | inl t => raise (KHTTP 422 t)
  | inr stype =>
      match fallback with
      | Some f => _get_owned_station f restaurant_id ≫= λ _, mret tt
      | None => mret tt
      end ≫= λ _,
      add_station restaurant_id name stype code ip port fallback active
  end.

(** The patch: a field that is not given stays; [name] may be given as null. *)
Record StationPatch := {
  sp_name : option (option string);
  sp_station_type : option string;
  sp_printer_ip : option (option string);
  sp_printer_port : option (option Z);
  sp_is_active : option bool;
}.
Definition patched_station (name : string) (p : StationPatch) (st : KitchenStation) : KitchenStation :=
  {| ks_id := ks_id st; ks_restaurant_id := ks_restaurant_id st; ks_name := name;
     ks_station_type := default (ks_station_type st) (sp_station_type p); ks_kitchen_code := ks_kitchen_code st;
     ks_printer_ip := default (ks_printer_ip st) (sp_printer_ip p);
     ks_printer_port := default (ks_printer_port st) (sp_printer_port p);
     ks_fallback_station_id := ks_fallback_station_id st; ks_is_active := default (ks_is_active st) (sp_is_active p) |}.
(** The audited fields: those given, as they were and as they were asked for. *)
Definition given_fields (p : StationPatch) (before : bool) (name : string) (st : KitchenStation) : jdict :=
  let st' := patched_station name p st in
  let at_ {A} (f : KitchenStation → A) := f (if before then st else st') in
  (if sp_name p then [("name", JStr (at_ ks_name))] else []) ++
  (if sp_station_type p then [("station_type", JStr (at_ ks_station_type))] else []) ++
  (if sp_printer_ip p then [("printer_ip", jopt_str (at_ ks_printer_ip))] else []) ++
  (if sp_printer_port p then [("printer_port", jopt_int (at_ ks_printer_port))] else []) ++
  (if sp_is_active p then [("is_active", JBool (at_ ks_is_active))] else []).
Definition new_name (restaurant_id : Z) (st : KitchenStation) (p : StationPatch) : KM string :=
  match sp_name p with
  | None => mret (ks_name st)
  | Some n =>
      if (ks_name st =s "Main") && negb (bool_decide (n = Some "Main"))
      then raise (KHTTP 409 "The Main kitchen cannot be renamed.") else
      let name := strip (default "" n) in
      if negb (truthy name) then raise (KHTTP 422 "Kitchen name cannot be empty.") else
      dup ← gets (λ s, first_where (λ x, named_in restaurant_id (ks_kitchen_code st) name x && negb (ks_id x =? ks_id st))
                         (stations s));
      match dup with
      | Some _ => raise (KHTTP 409 "A kitchen with that name exists.")
      | None => mret name
      end
  end.
Definition update_station (restaurant_id station_id : Z) (p : StationPatch) : KM KitchenStation :=
  st ← _get_owned_station station_id restaurant_id;
  name ← new_name restaurant_id st p;
  let st' := patched_station name p st in
  modify (λ s, with_stations (set_row st' (stations s)) s) ≫= λ _,
  audit "manager" restaurant_id "kitchen_station" (pretty station_id) "station_edited"
    (Some (given_fields p true name st)) (Some (given_fields p false name st)) ≫= λ _, mret st'.

(** *** Category wiring *)

Definition wired (restaurant_id : Z) (category : string) (d : CategoryStationDefault) : bool :=
  (cs_restaurant_id d =? restaurant_id) && (cs_category d =s category).
Definition set_category_station_default (restaurant_id : Z) (category : string) (station_id : Z)
    : KM CategoryStationDefault :=
  found ← gets (λ s, get_row station_id (stations s));
  match found with
  | Some st =>
      if negb (ks_restaurant_id st =? restaurant_id) then raise (KValueError "station not found") else
      row ← gets (λ s, first_where (wired restaurant_id category) (category_defaults s));
      match row with
      | None =>
          t ← gets category_defaults;
          let d := {| cs_id := next_id t; cs_restaurant_id := restaurant_id; cs_category := category;
                      cs_station_id := station_id |} in
          modify (with_defaults (add_row d t)) ≫= λ _, mret d
      | Some d =>
          let d' := {| cs_id := cs_id d; cs_restaurant_id := cs_restaurant_id d; cs_category := cs_category d;
                       cs_station_id := station_id |} in
          modify (λ s, with_defaults (set_row d' (category_defaults s)) s) ≫= λ _, mret d'
      end
  | None => raise (KValueError "station not found")
  end.
Definition upsert_category_default (restaurant_id : Z) (category : string) (station_id : Z) : KM CategoryStationDefault :=
  try_except (set_category_station_default restaurant_id category station_id)
    (λ e, match e with KValueError t => raise (KHTTP 404 t) | _ => raise e end).
Definition delete_category_default (restaurant_id : Z) (category : string) : KM unit :=
  row ← gets (λ s, first_where (wired restaurant_id category) (category_defaults s));
  match row with
  | None => raise (KHTTP 404 "Category is not wired.")
  | Some d =>
      modify (λ s, with_defaults (del_row (cs_id d) (category_defaults s)) s) ≫= λ _,
      audit "manager" restaurant_id "category_station_default" category "category_unwired"
        (Some [("category", JStr category); ("station_id", JInt (cs_station_id d))]) (Some []) ≫= λ _, mret tt
  end.
(** A dish's own kitchen ([patch_dish] of [menu/router.py]). *)
Definition with_dish_station (station_id : option Z) (d : KitchenDish) : KitchenDish :=
  {| kd_id := kd_id d; kd_restaurant_id := kd_restaurant_id d; kd_category := kd_category d;
     kd_station_id := station_id; kd_prep_minutes := kd_prep_minutes d |}.
Definition wire_dish (restaurant_id dish_id : Z) (station_id : option Z) : KM unit :=
  found ← gets (λ s, get_row dish_id (kitchen_dishes s));
  match found with
  | None => raise (KHTTP 404 "dish not found")
  | Some d =>
      if negb (kd_restaurant_id d =? restaurant_id) then raise (KHTTP 404 "dish not found") else
      owned ← gets (λ s, match station_id with
                         | None => true
                         | Some i => bool_decide (is_Some (first_where (λ st, (ks_id st =? i) &&
                                       (ks_restaurant_id st =? restaurant_id)) (stations s)))
                         end);
      if (owned : bool) then modify (λ s, with_dishes (set_row (with_dish_station station_id d) (kitchen_dishes s)) s)
      else raise (KHTTP 422 "unknown kitchen station")
  end.

(** *** Removing a station *)

(** Everything that names the station is re-homed, cleared or dropped before it goes. *)
Definition rehome_jobs (station_id main_id : Z) (j : PrintJob) : PrintJob :=
  {| pj_id := pj_id j; pj_restaurant_id := pj_restaurant_id j;
     pj_station_id := if pj_station_id j =? station_id then main_id else pj_station_id j;
     pj_order_id := pj_order_id j; pj_payload := pj_payload j; pj_status := pj_status j; pj_attempts := pj_attempts j;
     pj_via_fallback := pj_via_fallback j;
     pj_original_station_id := if bool_decide (pj_original_station_id j = Some station_id) then None
                               else pj_original_station_id j |}.
Definition rehome_ticket (station_id main_id : Z) (t : Ticket) : Ticket :=
  if bool_decide (tk_station_id_snapshot t = Some station_id) then rehomed (Some main_id) t else t.
Definition unwire_dish (restaurant_id station_id : Z) (d : KitchenDish) : KitchenDish :=
  if (kd_restaurant_id d =? restaurant_id) && bool_decide (kd_station_id d = Some station_id)
  then with_dish_station None d else d.
Definition drop_fallback (restaurant_id station_id : Z) (st : KitchenStation) : KitchenStation :=
  if (ks_restaurant_id st =? restaurant_id) && bool_decide (ks_fallback_station_id st = Some station_id)
  then {| ks_id := ks_id st; ks_restaurant_id := ks_restaurant_id st; ks_name := ks_name st;
          ks_station_type := ks_station_type st; ks_kitchen_code := ks_kitchen_code st; ks_printer_ip := ks_printer_ip st;
          ks_printer_port := ks_printer_port st; ks_fallback_station_id := None; ks_is_active := ks_is_active st |}
  else st.
(** The wirings of the branch that lead to the station. *)
Definition wired_to (restaurant_id station_id : Z) (d : CategoryStationDefault) : bool :=
  (cs_restaurant_id d =? restaurant_id) && (cs_station_id d =? station_id).

Definition delete_station (restaurant_id station_id : Z) : KM unit :=
  st ← _get_owned_station station_id restaurant_id;
  if ks_name st =s "Main" then raise (KHTTP 409 "The Main kitchen cannot be deleted.") else
  main ← get_or_create_main_station restaurant_id (ks_kitchen_code st);
  before ← gets (λ s, s);
  modify (λ s, with_defaults (del_where (wired_to restaurant_id station_id) (category_defaults s)) s) ≫= λ _,
  modify (λ s, with_dishes (map_rows (unwire_dish restaurant_id station_id) (kitchen_dishes s)) s) ≫= λ _,
  modify (λ s, with_tickets (map_rows (rehome_ticket station_id (ks_id main)) (tickets s)) s) ≫= λ _,
  modify (λ s, with_print_jobs (map_rows (rehome_jobs station_id (ks_id main)) (print_jobs s)) s) ≫= λ _,
  modify (λ s, with_printers (del_where (λ p, pt_station_id p =? station_id) (printer_statuses s)) s) ≫= λ _,
  modify (λ s, with_stations (map_rows (drop_fallback restaurant_id station_id) (stations s)) s) ≫= λ _,
  audit "manager" restaurant_id "kitchen_station" (pretty station_id) "station_deleted"
    (Some [("name", JStr (ks_name st)); ("kitchen_code", JStr (ks_kitchen_code st))])
    (Some [("reassigned_to_main", JInt (ks_id main));
           ("categories_dropped", JInt (count_where (wired_to restaurant_id station_id) (category_defaults before)));
           ("dishes_cleared", JInt (count_where (λ d, (kd_restaurant_id d =? restaurant_id) &&
                                        bool_decide (kd_station_id d = Some station_id)) (kitchen_dishes before)));
           ("tickets_moved", JInt (count_where (λ t, bool_decide (tk_station_id_snapshot t = Some station_id))
                                     (tickets before)))]) ≫= λ _,
  modify (λ s, with_stations (del_row station_id (stations s)) s).

(** ** Routing *)

Definition resolve_station (restaurant_id : Z) (dish : KitchenDish) (kitchen_code : option string) : KM Z :=
  match kd_station_id dish with
  | Some i => mret i
  | None =>
      wire ← (if otruthy (kd_category dish)
              then gets (λ s, first_where (wired restaurant_id (default "" (kd_category dish))) (category_defaults s))
              else mret None);
      match wire with
      | Some d => mret (cs_station_id d)
      | None =>
          main ← get_or_create_main_station restaurant_id
                   (if otruthy kitchen_code then default "" kitchen_code else "main");
          mret (ks_id main)
      end
  end.

(** ** Print jobs *)

Definition modifier_bit (m : chosen_modifier) : string :=
  match m with
  | ModDict (Some n) t => if truthy n then n else t
  | ModDict None t => t
  | ModOther t => t
  end.
Definition _format_print_line (t : Ticket) : string :=
  pretty (tk_qty t) +:+ "x " +:+ tk_dish_name t
  +:+ (if otruthy (tk_variant_name t) then " (" +:+ default "" (tk_variant_name t) +:+ ")" else "")
  +:+ match tk_selected_modifiers t with
      | [] => ""
      | mods => " +" +:+ String.concat ", " (map modifier_bit mods)
      end
  +:+ (if otruthy (tk_notes t) then " NOTE:" +:+ default "" (tk_notes t) else "")
  +:+ match tk_allergens_snapshot t with
      | [] => ""
      | l => " ALLERGENS:" +:+ String.concat "," l
      end.
Definition newline : string := String (Ascii.ascii_of_nat 10) "".
Definition build_print_payload (o : KOrder) (station_items : list Ticket) : string :=
  let d := w_delivery o in
  "Order " +:+ order_number d
  +:+ (if truthy (priority d) && negb (priority d =s "normal") then " [" +:+ upper (priority d) +:+ "]" else "")
  +:+ (if otruthy (ko_customer_allergy_notes (w_kitchen o))
       then newline +:+ "CUSTOMER ALLERGY: " +:+ default "" (ko_customer_allergy_notes (w_kitchen o)) else "")
  +:+ match prep_deadline d with Some t => newline +:+ "ETA plate-by: " +:+ datetime_isoformat t | None => "" end
  +:+ newline +:+ String.concat newline (map _format_print_line station_items).

(** The heartbeat of a station; of several rows the last one counts. *)
Definition get_printer_status (restaurant_id : Z) (s : kitchen_db) : list PrinterStatus :=
  all_where (λ p, pt_restaurant_id p =? restaurant_id) (printer_statuses s).
Definition unhealthy (restaurant_id station_id : Z) (s : kitchen_db) : bool :=
  match List.find (λ p, pt_station_id p =? station_id) (List.rev (get_printer_status restaurant_id s)) with
  | Some p => negb (pt_healthy p)
  | None => false
  end.
Definition _resolve_print_station (restaurant_id station_id : Z) (s : kitchen_db) : Z * bool * option Z :=
  match get_row station_id (stations s) with
  | None => (station_id, false, None)
  | Some st =>
      if negb (unhealthy restaurant_id station_id s) then (station_id, false, None) else
      match ks_fallback_station_id st with
      | None => (station_id, false, None)
      | Some fb => if unhealthy restaurant_id fb s then (station_id, false, None) else (fb, true, Some station_id)
      end
  end.

Definition record_printer_heartbeat (restaurant_id station_id : Z) (healthy : bool) : KM unit :=
  now ← gets kt_now;
  row ← gets (λ s, first_where (λ p, (pt_restaurant_id p =? restaurant_id) && (pt_station_id p =? station_id))
                     (printer_statuses s));
  t ← gets printer_statuses;
  match row with
  | None => modify (with_printers (add_row {| pt_id := next_id t; pt_restaurant_id := restaurant_id;
              pt_station_id := station_id; pt_healthy := healthy; pt_last_heartbeat_at := now |} t))
  | Some p => modify (with_printers (set_row {| pt_id := pt_id p; pt_restaurant_id := pt_restaurant_id p;
              pt_station_id := pt_station_id p; pt_healthy := healthy; pt_last_heartbeat_at := now |} t))
  end.
Definition printer_heartbeat (restaurant_id station_id : Z) (healthy : bool) : KM unit :=
  _get_owned_station station_id restaurant_id ≫= λ _, record_printer_heartbeat restaurant_id station_id healthy.

(** A job's new status; a failure goes to the station's fallback, once. *)
Definition failed_over (st : option KitchenStation) (j : PrintJob) : PrintJob :=
  let reroute := match st with Some x => match ks_fallback_station_id x with Some fb => if fb =? 0 then None else Some fb | None => None end | None => None end in
  match reroute with
  | Some fb =>
      if pj_via_fallback j then j else
      {| pj_id := pj_id j; pj_restaurant_id := pj_restaurant_id j; pj_station_id := fb; pj_order_id := pj_order_id j;
         pj_payload := pj_payload j; pj_status := "pending"; pj_attempts := pj_attempts j; pj_via_fallback := true;
         pj_original_station_id := Some (pj_station_id j) |}
  | None => j
  end.
Definition with_job_status (st : string) (attempts : Z) (j : PrintJob) : PrintJob :=
  {| pj_id := pj_id j; pj_restaurant_id := pj_restaurant_id j; pj_station_id := pj_station_id j;
     pj_order_id := pj_order_id j; pj_payload := pj_payload j; pj_status := st; pj_attempts := attempts;
     pj_via_fallback := pj_via_fallback j; pj_original_station_id := pj_original_station_id j |}.
Definition update_print_job_status (restaurant_id job_id : Z) (new_status : string) : KM PrintJob :=
  found ← gets (λ s, get_row job_id (print_jobs s));
  match found with
  | None => raise (KHTTP 404 "print job not found")
  | Some j =>
      if negb (pj_restaurant_id j =? restaurant_id) then raise (KHTTP 404 "print job not found") else
      st ← gets (λ s, get_row (pj_station_id j) (stations s));
      let j' := if new_status =s "failed" then failed_over st (with_job_status new_status (pj_attempts j + 1) j)
                else with_job_status new_status (pj_attempts j) j in
      modify (λ s, with_print_jobs (set_row j' (print_jobs s)) s) ≫= λ _, mret j'
  end.

(** ** Tickets *)

(** [by_station[station_id].append(item)], stations in the order they come up. *)
Fixpoint append_at {A} (k : Z) (x : A) (l : list (Z * list A)) : list (Z * list A) :=
  match l with
  | [] => [(k, [x])]
  | (k', xs) :: l' => if k' =? k then (k', xs ++ [x]) :: l' else (k', xs) :: append_at k x l'
  end.

(** One line goes to its station. *)
Definition route_item (restaurant_id now : Z) (kitchen_code : option string) (item : Ticket)
    (by_station : list (Z * list Ticket)) : KM (list (Z * list Ticket)) :=
  if tk_cancelled item then mret by_station else
  dish ← gets (λ s, get_row (tk_dish_id item) (kitchen_dishes s));
  match dish with
  | None => raise (DishMissing (tk_dish_id item))
  | Some d =>
      station_id ← resolve_station restaurant_id d kitchen_code;
      station ← gets (λ s, get_row station_id (stations s));
      let code := match station with
                  | Some st => ks_kitchen_code st
                  | None => if otruthy kitchen_code then default "" kitchen_code else "main"
                  end in
      let item' := routed KReceived (Some station_id) (Some code) (Some now) item in
      set_ticket item' ≫= λ _, mret (append_at station_id item' by_station)
  end.
Definition add_print_job (restaurant_id : Z) (o : KOrder) (g : Z * list Ticket) : KM unit :=
  target ← gets (_resolve_print_station restaurant_id g.1);
  t ← gets print_jobs;
  modify (with_print_jobs (add_row {| pj_id := next_id t; pj_restaurant_id := restaurant_id;
    pj_station_id := target.1.1; pj_order_id := o_id (w_order o); pj_payload := build_print_payload o g.2;
    pj_status := "pending"; pj_attempts := 0; pj_via_fallback := target.1.2; pj_original_station_id := target.2 |} t)).
Definition create_tickets_for_items (restaurant_id : Z) (o : KOrder) (items : list Ticket) (kitchen_code : option string)
    : KM unit :=
  if bool_decide (items = []) then mret tt else
  now ← gets kt_now;
  groups ← for_fold (route_item restaurant_id now kitchen_code) items [];
  for_each (add_print_job restaurant_id o) groups.

Definition live_tickets (order_id : Z) (s : kitchen_db) : list Ticket :=
  all_where (λ t, (tk_order_id t =? order_id) && negb (tk_cancelled t)) (tickets s).
Definition create_tickets_for_order (restaurant_id : Z) (o : KOrder) (kitchen_code : option string) : KM unit :=
  items ← gets (live_tickets (o_id (w_order o)));
  create_tickets_for_items restaurant_id o (List.filter (λ t, negb (tk_course_held t)) items) kitchen_code.

(** ** The checks at the pass *)

Definition _get_owned_item (item_id restaurant_id : Z) : KM Ticket :=
  found ← gets (λ s, get_row item_id (tickets s));
  match found with
  | None => raise (KHTTP 404 "item not found")
  | Some t =>
      o ← gets (λ s, get_row (tk_order_id t) (fl_orders (kt_fleet s)));
      match o with
      | Some o => if o_restaurant_id o =? restaurant_id then mret t else raise (KHTTP 404 "item not found")
      | None => raise (KHTTP 404 "item not found")
      end
  end.
Definition check_item (f : Ticket → Ticket) (restaurant_id item_id : Z) : KM Ticket :=
  t ← _get_owned_item item_id restaurant_id;
  let t' := f t in set_ticket t' ≫= λ _, mret t'.
Definition mark_packaging_checked : Z → Z → KM Ticket :=
  check_item (λ t, checked true (tk_quality_checked t) (tk_missing_item_confirmed t) (tk_missing_item_note t) t).
Definition mark_quality_checked : Z → Z → KM Ticket :=
  check_item (λ t, checked (tk_packaging_checked t) true (tk_missing_item_confirmed t) (tk_missing_item_note t) t).
Definition mark_missing_item (note : option string) : Z → Z → KM Ticket :=
  check_item (λ t, checked (tk_packaging_checked t) (tk_quality_checked t) true note t).
Definition missing_item_confirm (restaurant_id item_id : Z) (note : option string) : KM Ticket :=
  t ← mark_missing_item note restaurant_id item_id;
  audit "kitchen" restaurant_id "order_item" (pretty item_id) "missing_item_confirmed" None
    (Some [("note", jopt_str note)]) ≫= λ _, mret t.
Definition start_prep (restaurant_id item_id : Z) : KM Ticket :=
  t ← _get_owned_item item_id restaurant_id;
  let t' := progressed KPreparing (tk_bumped_at t) (tk_bumped_by_staff_id t) t in
  set_ticket t' ≫= λ _, mret t'.
Definition recall_item (restaurant_id item_id : Z) : KM Ticket :=
  t ← _get_owned_item item_id restaurant_id;
  let t' := progressed KReceived None None t in
  set_ticket t' ≫= λ _,
  audit "kitchen" restaurant_id "order_item" (pretty item_id) "recall"
    (Some [("kitchen_status", JStr (kitchen_status_str (tk_kitchen_status t)))])
    (Some [("kitchen_status", JStr "received")]) ≫= λ _, mret t'.

(** ** The boards *)

Definition WARNING_AFTER_MINUTES : float := fint 8.
Definition LATE_AFTER_MINUTES : float := fint 15.
Definition DEAD_ORDER_STATUSES : list OrderStatus := [CANCELLED; ON_RESALE].
Definition ticket_urgency (age_minutes : float) : string :=
  if LATE_AFTER_MINUTES <=f age_minutes then "late" else
  if WARNING_AFTER_MINUTES <=f age_minutes then "warning" else "ok".

(** What a ticket on the board shows of its line, its order and its age. *)
Record BoardTicket := {
  bt_line : Ticket;
  bt_order_number : option string;
  bt_priority : option string;
  bt_order_settled : bool;
  bt_estimated_ready_at : option string;
  bt_age_seconds : Z;
  bt_age_minutes : float;
  bt_urgency : string;
  bt_table_label : option string;
  bt_category : option string;
}.
Definition dict_of {A} (l : list (Z * A)) (k : Z) : option A := snd <$> List.find (λ p, p.1 =? k) (List.rev l).
Definition age_of (now : Z) (t : Ticket) : float :=
  let created := default (tk_created_at t) (tk_kitchen_received_at t) in
  fmax fzero (total_seconds (now - created)).
Definition enrich_ticket (item : Ticket) (order : option KOrder) (now : Z) (labels categories : list (Z * string))
    : BoardTicket :=
  let age := age_of now item in
  let minutes_ := fdiv age (fint 60) in
  {| bt_line := item;
     bt_order_number := order_number ∘ w_delivery <$> order;
     bt_priority := priority ∘ w_delivery <$> order;
     bt_order_settled := match order with Some o => bool_decide (o_status (w_order o) = DELIVERED) | None => false end;
     bt_estimated_ready_at := o ← order; datetime_isoformat <$>
       match prep_deadline (w_delivery o) with Some t => Some t | None => promised_eta (w_delivery o) end;
     bt_age_seconds := default 0 (ftrunc age);
     bt_age_minutes := fround1 minutes_;
     bt_urgency := ticket_urgency minutes_;
     bt_table_label := o ← order; t ← o_table_id (w_order o); dict_of labels t;
     bt_category := dict_of categories (tk_dish_id item) |}.

Definition dead (o : KOrder) : bool := bool_decide (o_status (w_order o) ∈ DEAD_ORDER_STATUSES).
(** The lines the join with a live order of the branch selects. *)
Definition on_pass (restaurant_id : Z) (p : KOrder → bool) (q : Ticket → bool) (s : kitchen_db) : list Ticket :=
  all_where (λ t, q t && negb (tk_cancelled t) &&
    match whole_order (tk_order_id t) s with
    | Some o => (o_restaurant_id (w_order o) =? restaurant_id) && negb (dead o) && p o
    | None => false
    end) (tickets s).
Definition station_lines (restaurant_id station_id : Z) (include_ready : bool) : kitchen_db → list Ticket :=
  on_pass restaurant_id (λ o, bool_decide (ko_held_at (w_kitchen o) = None))
    (λ t, bool_decide (tk_station_id_snapshot t = Some station_id) &&
          bool_decide (tk_kitchen_status t ∈ [KReceived; KPreparing] ++ (if include_ready then [KReady] else []))).
(** [kitchen_received_at] ascending, nulls last, then [created_at]. *)
Definition came_first (a b : Ticket) : bool :=
  match tk_kitchen_received_at a, tk_kitchen_received_at b with
  | Some x, Some y => (x <? y) || ((x =? y) && (tk_created_at a <=? tk_created_at b))
  | Some _, None => true
  | None, Some _ => false
  | None, None => tk_created_at a <=? tk_created_at b
  end.
Definition band (t : BoardTicket) : Z :=
  let p := default "" (bt_priority t) in
  if in_strs (if truthy p then p else "normal") ["rush"; "priority"] then 0 else 1.
Definition before_on_board (a b : BoardTicket) : bool :=
  (band a <? band b) || ((band a =? band b) && (bt_age_seconds b <=? bt_age_seconds a)).
(** The categories and table labels of the lines, batch-loaded. *)
Definition categories_of (l : list Ticket) (s : kitchen_db) : list (Z * string) :=
  omap (λ d, if existsb (λ t, tk_dish_id t =? kd_id d) l && otruthy (kd_category d)
             then Some (kd_id d, default "" (kd_category d)) else None) (rows (kitchen_dishes s)).
Definition list_station_tickets (restaurant_id station_id : Z) (include_ready : bool) : KM (list BoardTicket) :=
  gets (λ s,
    let rows_ := sort_by came_first (station_lines restaurant_id station_id include_ready s) in
    let enriched := map (λ t, enrich_ticket t (whole_order (tk_order_id t) s) (kt_now s) (table_labels s)
                                (categories_of rows_ s)) rows_ in
    sort_by before_on_board (sort_by before_on_board enriched)).
Definition station_tickets (restaurant_id station_id : Z) (include_ready : bool) : KM (list BoardTicket) :=
  _get_owned_station station_id restaurant_id ≫= λ _, list_station_tickets restaurant_id station_id include_ready.

(** The plated lines by order, orders and lines ascending. *)
Definition by_order_then_id (a b : Ticket) : bool :=
  (tk_order_id a <? tk_order_id b) || ((tk_order_id a =? tk_order_id b) && (tk_id a <=? tk_id b)).
Definition list_ready_for_pickup (restaurant_id : Z) : KM (list (Z * list Ticket)) :=
  gets (λ s, fold_left (λ acc t, append_at (tk_order_id t) t acc)
    (sort_by by_order_then_id (on_pass restaurant_id (λ _, true) (λ t, bool_decide (tk_kitchen_status t = KReady)) s)) []).

(** The bell of whoever placed the order: every line that counts is plated, and the last
    one after the client's watermark. *)
Record ReadyAlert := {
  ra_order_id : Z;
  ra_order_number : string;
  ra_daily_token : option Z;
  ra_table_label : option string;
  ra_order_type : string;
  ra_ready_at : Z;
}.
Definition max_stamp (l : list Z) : option Z := match l with [] => None | x :: l' => Some (foldl Z.max x l') end.
Definition ready_alert (since : Z) (s : kitchen_db) (o : KOrder) : option ReadyAlert :=
  let active := live_tickets (o_id (w_order o)) s in
  if bool_decide (active = []) then None else
  if existsb (λ t, negb (bool_decide (tk_kitchen_status t = KReady))) active then None else
  ready_at ← max_stamp (omap tk_bumped_at active);
  if ready_at <=? since then None else
  Some {| ra_order_id := o_id (w_order o); ra_order_number := order_number (w_delivery o);
          ra_daily_token := ko_daily_token (w_kitchen o); ra_table_label := t ← o_table_id (w_order o); dict_of (table_labels s) t;
          ra_order_type := ko_order_type (w_kitchen o); ra_ready_at := ready_at |}.
Definition whole_orders (s : kitchen_db) : list KOrder := omap (λ o, whole_order (o_id o) s) (rows (fl_orders (kt_fleet s))).
Definition rung_orders (restaurant_id staff_id : Z) (s : kitchen_db) : list KOrder :=
  List.filter (λ o, (o_restaurant_id (w_order o) =? restaurant_id) &&
    bool_decide (ko_staff_id (w_kitchen o) = Some staff_id) &&
    negb (bool_decide (o_status (w_order o) ∈ [DELIVERED; CANCELLED])) &&
    (kt_now s - hours 12 <=? o_created_at (w_order o))) (whole_orders s).
(** The orders whose bell rings, before they are sorted: in the order of their first lines. *)
Definition ready_alerts_of (restaurant_id staff_id since : Z) (s : kitchen_db) : list ReadyAlert :=
  omap (λ g : Z * list Ticket,
    w ← List.find (λ o, o_id (w_order o) =? g.1) (rung_orders restaurant_id staff_id s); ready_alert since s w)
    (fold_left (λ acc t, append_at (tk_order_id t) t acc) (rows (tickets s)) []).
Definition ready_alerts (restaurant_id : Z) (staff_id since : option Z) : KM (list ReadyAlert) :=
  match staff_id with
  | None => mret []
  | Some me => gets (λ s, take 20 (sort_by (λ a b, ra_ready_at b <=? ra_ready_at a)
                 (ready_alerts_of restaurant_id me (default (kt_now s) since) s)))
  end.
