(* ===== verification/KitchenFlow.v ===== *)
(** * Through the kitchen: confirming, cooking, bumping and changing an order
    ([ordering/service.py], [kds/router.py])

    The order-level flow over the boards of [Kitchen], the order's lifecycle, its money
    and the dispatcher: [finalize_confirmation] starts the clock and fires the tickets,
    [advance_kitchen_status] takes the order to the pass and hands it to dispatch,
    [bump_item] calls a line away and [modify_order] replaces the lines. *)

From S2P Require Import Prelude Money Strings Db AuditTrail Clock Floats Wallet Ledger WalletLedger OrderFsm OrderPayments Outbox Loyalty Batching Scoring Optimizer Fleet Dispatch KitchenDb Kitchen.

(** A request that commits in between: what the first part wrote stays. *)
Definition after_commit {A B} (m : KM A) (f : A → KM B) : KM B := λ s,
  match m s with
  | Ok a s1 => match f a s1 with Ok b s2 => Ok b s2 | Err e _ => Err e s1 end
  | Err e _ => Err e s
  end.

(** The clock columns of a confirmed order. *)
Definition clock_started (now : Z) (sla_min : Z) (prep : option Z) (d : Delivery) : Delivery :=
  Build_Delivery (dl_id d) (order_number d) (address_id d) (dl_rider_id d) (priority d) (Some now)
    (Some (now + minutes sla_min)) prep (Some (now + minutes sla_min)) (dl_updated_at d) (dl_delivered_at d) (late d)
    (delivery_failure_reason d) (delivery_photo_url d) (delivery_otp d) (delivery_otp_verified_at d)
    (otp_required_at_deliver d).
Definition with_prep_deadline (prep : option Z) (d : Delivery) : Delivery :=
  Build_Delivery (dl_id d) (order_number d) (address_id d) (dl_rider_id d) (priority d) (sla_confirmed_at d)
    (sla_deadline d) prep (promised_eta d) (dl_updated_at d) (dl_delivered_at d) (late d)
    (delivery_failure_reason d) (delivery_photo_url d) (delivery_otp d) (delivery_otp_verified_at d)
    (otp_required_at_deliver d).
(** The literal of [finalize_confirmation] and [modify_order]. *)
Definition CONFIRM_SLA_MINUTES : Z := 40.

Definition in_fleet {A} : FM A → KM A := zoom KFleetRaised.
Definition the_order_whole (order_id : Z) : KM KOrder :=
  found ← gets (whole_order order_id);
  match found with Some o => mret o | None => raise (KValueError "Order not found") end.
(** [fsm_transition] on the order as it is now. *)
Definition step_to (order_id : Z) (st : OrderStatus) (actor : string) : KM unit :=
  o ← the_order_whole order_id;
  in_fleet (zoom FleetFsmRaised (transition (w_order o) st actor None)).
Definition change_delivery (order_id : Z) (f : Delivery → Delivery) : KM unit :=
  o ← the_order_whole order_id; in_fleet (set_delivery (f (w_delivery o))).
Definition change_kitchen_order (order_id : Z) (f : KitchenOrder → KitchenOrder) : KM unit :=
  o ← the_order_whole order_id;
  modify (λ s, with_kitchen_orders (set_row (f (w_kitchen o)) (kitchen_orders s)) s).

Section flow.
(** [settings.sla_customer_minutes] and the geo provider. *)
Context (sla_customer_minutes : Z) (geo : geo_port).

(** ** The plate-by time *)

Definition settings_in (restaurant_id : Z) (s : kitchen_db) : kitchen_settings :=
  default {| raw_prep_handling_minutes := None; raw_batch_safety_minutes := None; raw_default_prep_minutes := None |}
    (snd <$> List.find (λ p, p.1 =? restaurant_id) (kitchen_settings_of s)).
Definition compute_prep_deadline (o : KOrder) (now : Z) (s : kitchen_db) : option Z :=
  let fl := kt_fleet s in
  addr ← (i ← address_id (w_delivery o); a ← get_row i (addresses fl); ad_at a);
  here ← (br ← get_row (o_restaurant_id (w_order o)) (branches fl); br_at br);
  let drive_min := geo_eta_minutes geo (geo_distance_km geo here addr) in
  let rs := settings_in (o_restaurant_id (w_order o)) s in
  let handling := default 5 (raw_prep_handling_minutes rs) in
  let safety := default 5 (raw_batch_safety_minutes rs) in
  let budget := sla_customer_minutes - drive_min - handling - safety in
  Some (Z.max (now + minutes budget) now).

(** The slowest dish gates the order. *)
Definition compute_cook_estimate (o : KOrder) (s : kitchen_db) : option Z :=
  match tickets_of (o_id (w_order o)) s with
  | [] => None
  | t :: l =>
      let fallback := match get_row (o_restaurant_id (w_order o)) (branches (kt_fleet s)) with
                      | Some br => default 15 (raw_default_prep_minutes (settings_in (br_id br) s))
                      | None => 15
                      end in
      let minutes_of_line (t : Ticket) :=
        match get_row (tk_dish_id t) (kitchen_dishes s) ≫= kd_prep_minutes with
        | Some m => if m =? 0 then fallback else m
        | None => fallback
        end in
      Some (foldl (λ acc t, Z.max acc (minutes_of_line t)) (minutes_of_line t) l)
  end.

(** The SLA clock, the plate-by time and the cook estimate, from now. *)
Definition start_clock (order_id : Z) : KM unit :=
  now ← gets kt_now;
  o ← the_order_whole order_id;
  prep ← gets (compute_prep_deadline o now);
  change_delivery order_id (clock_started now CONFIRM_SLA_MINUTES prep) ≫= λ _,
  cook ← gets (compute_cook_estimate o);
  change_kitchen_order order_id (with_cook_estimate cook).

(** ** Confirming *)

Definition finalize_confirmation (order_id : Z) (actor : string) : KM unit :=
  o ← the_order_whole order_id;
  let st := o_status (w_order o) in
  if negb (bool_decide (st ∈ [DRAFT; PENDING_CONFIRMATION])) then mret tt else
  (if bool_decide (st = DRAFT) then step_to order_id PENDING_CONFIRMATION actor else mret tt) ≫= λ _,
  step_to order_id CONFIRMED actor ≫= λ _,
  start_clock order_id ≫= λ _,
  call_kitchen (KApplyVat order_id) ≫= λ _,
  in_fleet (zoom FleetPayRaised (apply_at_confirm order_id None true actor)) ≫= λ _,
  call_kitchen (KPushPartner order_id) ≫= λ _,
  (if in_strs (ko_order_type (w_kitchen o)) ["delivery"; "online"] then mret tt else
   o' ← the_order_whole order_id;
   create_tickets_for_order (o_restaurant_id (w_order o)) o' None) ≫= λ _,
  call_kitchen (KDeductStock order_id).

(** ** Changing the lines *)

(** A line of the new basket; its dish, size, price and wish. *)
Record new_entry := {
  ne_dish : KitchenDish;
  ne_dish_name : string;
  ne_allergens : list string;
  ne_unit_price : Z;      (** [price_aed] of the entry, or the dish's effective price *)
  ne_qty : Z;
  ne_notes : option string;
  ne_variant_name : option string;
}.
Definition entry_ticket (order_id id now : Z) (e : new_entry) : Ticket :=
  Build_Ticket id order_id (kd_id (ne_dish e)) (ne_dish_name e) (ne_variant_name e) (ne_qty e) (ne_notes e) false []
    (ne_allergens e) false now KReceived None None None None None false false false None.
Definition entry_item (order_id id : Z) (e : new_entry) : OrderItem :=
  {| oi_id := id; oi_order_id := order_id; oi_price_aed := ne_unit_price e; oi_qty := ne_qty e; oi_cancelled := false |}.

(** The priced half of the lines. *)
Definition change_items (f : table OrderItem → table OrderItem) : KM unit :=
  in_fleet (modify (λ s, let p := view (Lens := fleet_pay_lens) s in
    put (Lens := fleet_pay_lens) {| po_orders := po_orders p; po_items := f (po_items p);
      po_restaurants := po_restaurants p; po_ledger := po_ledger p; po_coupons := po_coupons p |} s)).
Definition add_entry (order_id : Z) (e : new_entry) : KM unit :=
  now ← gets kt_now;
  t ← gets tickets;
  modify (with_tickets (add_row (entry_ticket order_id (next_id t) now e) t)) ≫= λ _,
  change_items (add_row (entry_item order_id (next_id t) e)).

Definition _NON_MODIFIABLE_STATUSES : list OrderStatus :=
  [READY; ASSIGNED; PICKED_UP; ARRIVING; DELIVERED; CANCELLED; UNDELIVERABLE; ON_RESALE; RESOLD; WRITTEN_OFF].
Definition bill_json (order_id : Z) (s : kitchen_db) : jdict :=
  match get_row order_id (po_orders (view (Lens := fleet_pay_lens) (kt_fleet s))) with
  | Some b => [("subtotal", JStr (str_cents (po_subtotal b))); ("total", JStr (str_cents (po_total b)))]
  | None => []
  end%string.
Definition deadline_json (o : KOrder) : jdict :=
  [("sla_deadline", jopt_str (datetime_isoformat <$> sla_deadline (w_delivery o)))]%string.
Definition modify_order (order_id : Z) (new_items : list new_entry) (actor : string) : KM unit :=
  o ← the_order_whole order_id;
  if bool_decide (o_status (w_order o) ∈ _NON_MODIFIABLE_STATUSES)
  then raise (KValueError ("Order modification not allowed at status '" +:+ status_value (o_status (w_order o)) +:+ "'.")) else
  before ← gets (bill_json order_id);
  modify (λ s, with_tickets (del_where (λ t, tk_order_id t =? order_id) (tickets s)) s) ≫= λ _,
  change_items (del_where (λ i, oi_order_id i =? order_id)) ≫= λ _,
  for_each (add_entry order_id) new_items ≫= λ _,
  in_fleet (zoom FleetPayRaised (recompute_order_total order_id)) ≫= λ _,
  start_clock order_id ≫= λ _,
  o' ← the_order_whole order_id;
  after ← gets (bill_json order_id);
  audit actor (o_restaurant_id (w_order o)) "order" (pretty order_id) "order_modified"
    (Some ((("status"%string, JStr (status_value (o_status (w_order o)))) :: before) ++ deadline_json o)%list)
    (Some (after ++ deadline_json o')%list) ≫= λ _,
  mret tt.

(** ** To the pass *)

Definition _KITCHEN_TRANSITIONS (st : OrderStatus) : option OrderStatus :=
  match st with CONFIRMED => Some PREPARING | PREPARING => Some READY | _ => None end.

(** [f"{t:%H:%M}"] in Dubai. *)
Definition dubai_clock (t : Z) : string :=
  let l := (t + hours 4) mod day in two_digits (l / hour) +:+ ":" +:+ two_digits ((l mod hour) / minute).
(** A plate-by time more than five minutes earlier than before is told to the kitchen. *)
Definition _refresh_prep_deadline (order_id : Z) : KM unit :=
  o ← the_order_whole order_id;
  now ← gets kt_now;
  new ← gets (compute_prep_deadline o (default now (sla_confirmed_at (w_delivery o))));
  match new with
  | None => mret tt
  | Some new =>
      change_delivery order_id (with_prep_deadline (Some new)) ≫= λ _,
      match prep_deadline (w_delivery o) with
      | None => mret tt
      | Some old =>
          if old - new <=? minutes 5 then mret tt else
          br ← gets (λ s, get_row (o_restaurant_id (w_order o)) (branches (kt_fleet s)));
          match br with
          | None => mret tt
          | Some br =>
              in_fleet (queue_text (br_id br) (br_phone br)
                ("⏱️ Heads up — order " +:+ order_number (w_delivery o) +:+ " now needs to be plated by "
                 +:+ dubai_clock new +:+ " (the delivery got farther). Expedite to keep the 40-min SLA.")
                ("prep-tighten-" +:+ pretty order_id +:+ "-" +:+ pretty (new / minute)))
          end
      end
  end.

(** The lines without a station yet, courses that are held aside. *)
Definition unrouted (order_id : Z) (s : kitchen_db) : list Ticket :=
  List.filter (λ t, bool_decide (tk_station_id_snapshot t = None) && negb (tk_course_held t)) (live_tickets order_id s).

(** The dispatcher, the customer's notification. *)
Context (dispatch : Z → FM DispatchResult) (notify : Z → Z → string → FM unit).

Definition _auto_dispatch_on_ready (restaurant_id : Z) : KM unit := λ s,
  match in_fleet (dispatch restaurant_id) s with
  | Err _ _ => Ok tt s
  | Ok _ s1 =>
      let ids := map om_id (all_where (λ m, (om_restaurant_id m =? restaurant_id) &&
                   bool_decide (om_status m = OPending)) (messages (view (Lens := fleet_outbox_lens) (kt_fleet s1)))) in
      (call_kitchen (KFlushWebhooks restaurant_id) ≫= λ _, call_kitchen (KDeliverOutbox ids)) s1
  end.

(** What is committed before the dispatcher runs. *)
Definition advance_step (order_id : Z) (actor : string) : KM OrderStatus :=
  o ← the_order_whole order_id;
  match _KITCHEN_TRANSITIONS (o_status (w_order o)) with
  | None => raise (KValueError ("Cannot advance kitchen status from '" +:+ status_value (o_status (w_order o))
              +:+ "'. Only confirmed or preparing orders can be advanced."))
  | Some next_status =>
      step_to order_id next_status actor ≫= λ _,
      (if bool_decide (next_status = PREPARING) then
         _refresh_prep_deadline order_id ≫= λ _,
         fireable ← gets (unrouted order_id);
         o' ← the_order_whole order_id;
         create_tickets_for_items (o_restaurant_id (w_order o)) o' fireable None ≫= λ _,
         in_fleet (notify (o_restaurant_id (w_order o)) order_id "preparing")
       else mret tt) ≫= λ _,
      mret next_status
  end.
Definition advance_kitchen_status (order_id : Z) (actor : string) : KM unit :=
  after_commit (advance_step order_id actor) (λ st,
    o ← the_order_whole order_id;
    (if bool_decide (st = READY) then _auto_dispatch_on_ready (o_restaurant_id (w_order o)) else mret tt) ≫= λ _,
    call_kitchen (KInvalidatePreview (o_restaurant_id (w_order o)))).

(** ** Bumping a line *)

Definition bump_step (restaurant_id item_id : Z) (staff_id actor_staff_id : option Z) : KM Ticket :=
  t ← _get_owned_item item_id restaurant_id;
  now ← gets kt_now;
  let bumped_by := match staff_id with Some i => if i =? 0 then actor_staff_id else staff_id | None => actor_staff_id end in
  let t' := progressed KReady (Some now) (match bumped_by with Some _ => bumped_by | None => tk_bumped_by_staff_id t end) t in
  set_ticket t' ≫= λ _,
  record_audit actor_staff_id "kitchen" "order_item" (pretty item_id) "bump" (Some restaurant_id)
    (Some [("kitchen_status", JStr (kitchen_status_str (tk_kitchen_status t)))])
    (Some [("kitchen_status", JStr "ready"); ("staff_id", jopt_int bumped_by)]) None ≫= λ _, mret t'.
(** A line that counts and is not plated. *)
Definition still_cooking (order_id : Z) (s : kitchen_db) : bool :=
  existsb (λ t, negb (bool_decide (tk_kitchen_status t = KReady))) (live_tickets order_id s).
Definition bump_item (restaurant_id item_id : Z) (staff_id actor_staff_id : option Z) : KM Ticket :=
  after_commit (bump_step restaurant_id item_id staff_id actor_staff_id) (λ t,
    found ← gets (whole_order (tk_order_id t));
    match found with
    | Some o =>
        if negb (bool_decide (o_status (w_order o) = PREPARING)) then mret t else
        remaining ← gets (still_cooking (tk_order_id t));
        if (remaining : bool) then mret t else
        try_except (advance_kitchen_status (tk_order_id t) "kitchen")
          (λ e, match e with KValueError _ => mret tt | _ => raise e end) ≫= λ _, mret t
    | None => mret t
    end).

(** ** Requests *)

(** What the routers and the confirmation call, one constructor per request; [name : ...] in
    a patch as in [StationPatch]. *)
Inductive kitchen_request :=
| REnsureStations (rid : Z) (code : string)
| RCreateStation (rid : Z) (name station_type code : string) (ip : option string) (port fallback : option Z) (active : bool)
| RUpdateStation (rid i : Z) (p : StationPatch)
| RDeleteStation (rid i : Z)
| RWireCategory (rid : Z) (category : string) (i : Z)
| RUnwireCategory (rid : Z) (category : string)
| RWireDish (rid i : Z) (station : option Z)
| RHeartbeat (rid i : Z) (healthy : bool)
| RJobStatus (rid i : Z) (status : string)
| RPackaging (rid i : Z)
| RQuality (rid i : Z)
| RMissing (rid i : Z) (note : option string)
| RStart (rid i : Z)
| RRecall (rid i : Z)
| RBump (rid i : Z) (who actor : option Z)
| RConfirm (oid : Z) (actor : string)
| RModify (oid : Z) (items : list new_entry) (actor : string)
| RAdvance (oid : Z) (actor : string).
Definition void {A} (m : KM A) : KM unit := m ≫= λ _, mret tt.
Definition kitchen_run (r : kitchen_request) : KM unit :=
  match r with
  | REnsureStations rid code => atomically (void (ensure_default_stations rid code))
  | RCreateStation rid name ty code ip port fb act => atomically (void (create_station rid name ty code ip port fb act))
  | RUpdateStation rid i p => atomically (void (update_station rid i p))
  | RDeleteStation rid i => atomically (delete_station rid i)
  | RWireCategory rid c i => atomically (void (upsert_category_default rid c i))
  | RUnwireCategory rid c => atomically (delete_category_default rid c)
  | RWireDish rid i st => atomically (wire_dish rid i st)
  | RHeartbeat rid i h => atomically (printer_heartbeat rid i h)
  | RJobStatus rid i st => atomically (void (update_print_job_status rid i st))
  | RPackaging rid i => atomically (void (mark_packaging_checked rid i))
  | RQuality rid i => atomically (void (mark_quality_checked rid i))
  | RMissing rid i note => atomically (void (missing_item_confirm rid i note))
  | RStart rid i => atomically (void (start_prep rid i))
  | RRecall rid i => atomically (void (recall_item rid i))
  | RBump rid i who actor => void (bump_item rid i who actor)
  | RConfirm oid actor => atomically (finalize_confirmation oid actor)
  | RModify oid items actor => atomically (modify_order oid items actor)
  | RAdvance oid actor => advance_kitchen_status oid actor
  end.
Definition kitchen_history (l : list kitchen_request) (s : kitchen_db) : kitchen_db :=
  fold_left (λ s r, final (kitchen_run r s)) l s.
End flow.
