(* ===== verification/KitchenFacts.v ===== *)
(** * Facts about the kitchen display ([Kitchen])

    The references between stations, wirings, dishes, tickets, print jobs and printers
    ([kitchen_inv]) and that every call keeps them; what firing tickets writes; what the
    boards list and in which order. *)

From S2P Require Import Prelude Money Strings Db AuditTrail Clock Floats Wallet OrderFsm OrderPayments Outbox Loyalty Batching Scoring Optimizer Fleet Dispatch KitchenDb Kitchen KitchenFlow.

(** ** References *)

(** A station of the branch, and a station of any branch. *)
Definition station_in (rid i : Z) (t : table KitchenStation) : Prop :=
  ∃ st, st ∈ rows t ∧ ks_id st = i ∧ ks_restaurant_id st = rid.
Definition station_exists (i : Z) (t : table KitchenStation) : Prop := ∃ st, st ∈ rows t ∧ ks_id st = i.
Definition opt_all {A} (P : A → Prop) (o : option A) : Prop := match o with Some x => P x | None => True end.

Record kitchen_inv (s : kitchen_db) : Prop := {
  ki_stations : table_wf (stations s);
  ki_names : unique_on (λ st, (ks_restaurant_id st, ks_kitchen_code st, ks_name st)) (stations s);
  ki_fallbacks : ∀ st, st ∈ rows (stations s) →
    opt_all (λ f, station_in (ks_restaurant_id st) f (stations s)) (ks_fallback_station_id st);
  ki_defaults : ∀ d, d ∈ rows (category_defaults s) → station_in (cs_restaurant_id d) (cs_station_id d) (stations s);
  ki_dishes : ∀ d, d ∈ rows (kitchen_dishes s) →
    opt_all (λ i, station_in (kd_restaurant_id d) i (stations s)) (kd_station_id d);
  ki_tickets : ∀ t, t ∈ rows (tickets s) → opt_all (λ i, station_exists i (stations s)) (tk_station_id_snapshot t);
  ki_jobs : ∀ j, j ∈ rows (print_jobs s) → station_exists (pj_station_id j) (stations s) ∧
    opt_all (λ i, station_exists i (stations s)) (pj_original_station_id j);
  ki_printers : ∀ p, p ∈ rows (printer_statuses s) → station_exists (pt_station_id p) (stations s);
}.
Abbreviation keeps_kitchen m := (preserves kitchen_inv m).

Lemma opt_all_impl {A} (P Q : A → Prop) o : (∀ x, P x → Q x) → opt_all P o → opt_all Q o.
Proof. destruct o; cbn; auto. Qed.
Lemma station_in_exists rid i t : station_in rid i t → station_exists i t.
Proof. intros (st & ? & ? & _). by exists st. Qed.
Lemma get_station i t st : get_row i t = Some st → station_exists i t.
Proof. intros [? ?]%get_row_Some. by exists st. Qed.

(** The invariant depends on the kitchen's tables only. *)
Lemma kitchen_inv_ext s s' :
  stations s' = stations s → category_defaults s' = category_defaults s → kitchen_dishes s' = kitchen_dishes s →
  tickets s' = tickets s → print_jobs s' = print_jobs s → printer_statuses s' = printer_statuses s →
  kitchen_inv s → kitchen_inv s'.
Proof. intros H1 H2 H3 H4 H5 H6 []. split; rewrite ?H1, ?H2, ?H3, ?H4, ?H5, ?H6; done. Qed.

Lemma keeps_fleet {A} (m : FM A) : keeps_kitchen (in_fleet m).
Proof.
  intros s Hs. unfold in_fleet, zoom. destruct (m (view s)); cbn [final]; by apply (kitchen_inv_ext s).
Qed.
Lemma keeps_audit actor rid entity eid action b a :
  keeps_kitchen (audit (E := kitchen_error) actor rid entity eid action b a).
Proof. intros s Hs. by apply (kitchen_inv_ext s). Qed.
Lemma keeps_call c : keeps_kitchen (call_kitchen c).
Proof. intros s Hs. by apply (kitchen_inv_ext s). Qed.

(** *** Writes *)

(** Stations that stay, under the same branch. *)
Definition stations_grow (t t' : table KitchenStation) : Prop :=
  (∀ st, st ∈ rows t → ∃ st', st' ∈ rows t' ∧ ks_id st' = ks_id st ∧ ks_restaurant_id st' = ks_restaurant_id st).
Lemma grow_in t t' rid i : stations_grow t t' → station_in rid i t → station_in rid i t'.
Proof. intros Hg (st & Hst & <- & <-). destruct (Hg st Hst) as (st' & ? & ? & ?). by exists st'. Qed.
Lemma grow_exists t t' i : stations_grow t t' → station_exists i t → station_exists i t'.
Proof. intros Hg (st & Hst & <-). destruct (Hg st Hst) as (st' & ? & ? & _). by exists st'. Qed.

Lemma inv_stations t s :
  stations_grow (stations s) t → table_wf t →
  unique_on (λ st, (ks_restaurant_id st, ks_kitchen_code st, ks_name st)) t →
  (∀ st, st ∈ rows t → opt_all (λ f, station_in (ks_restaurant_id st) f t) (ks_fallback_station_id st)) →
  kitchen_inv s → kitchen_inv (with_stations t s).
Proof.
  intros Hg Hwf Hu Hf [_ _ _ H4 H5 H6 H7 H8]. split; cbn; try done.
  - intros d Hd. eapply grow_in; eauto.
  - intros d Hd. eapply opt_all_impl; [|by apply H5]. intros i. by apply grow_in.
  - intros d Hd. eapply opt_all_impl; [|by apply H6]. intros i. by apply grow_exists.
  - intros j Hj. destruct (H7 j Hj). split; [by eapply grow_exists|]. eapply opt_all_impl; [|done]. intros i. by apply grow_exists.
  - intros p Hp. eapply grow_exists; eauto.
Qed.
Lemma inv_defaults t s :
  (∀ d, d ∈ rows t → station_in (cs_restaurant_id d) (cs_station_id d) (stations s)) →
  kitchen_inv s → kitchen_inv (with_defaults t s).
Proof. intros Ht []. by split. Qed.
Lemma inv_dishes t s :
  (∀ d, d ∈ rows t → opt_all (λ i, station_in (kd_restaurant_id d) i (stations s)) (kd_station_id d)) →
  kitchen_inv s → kitchen_inv (with_dishes t s).
Proof. intros Ht []. by split. Qed.
Lemma inv_tickets t s :
  (∀ d, d ∈ rows t → opt_all (λ i, station_exists i (stations s)) (tk_station_id_snapshot d)) →
  kitchen_inv s → kitchen_inv (with_tickets t s).
Proof. intros Ht []. by split. Qed.
Lemma inv_jobs t s :
  (∀ j, j ∈ rows t → station_exists (pj_station_id j) (stations s) ∧
     opt_all (λ i, station_exists i (stations s)) (pj_original_station_id j)) →
  kitchen_inv s → kitchen_inv (with_print_jobs t s).
Proof. intros Ht []. by split. Qed.
Lemma inv_printers t s :
  (∀ p, p ∈ rows t → station_exists (pt_station_id p) (stations s)) →
  kitchen_inv s → kitchen_inv (with_printers t s).
Proof. intros Ht []. by split. Qed.

Lemma set_ticket_keeps t s :
  opt_all (λ i, station_exists i (stations s)) (tk_station_id_snapshot t) → kitchen_inv s →
  kitchen_inv (final (set_ticket t s)).
Proof.
  intros Ht Hs. cbn. apply inv_tickets; [|done]. intros d [[-> _]|[Hd _]]%elem_of_set_row; [done|]. by apply Hs.
Qed.

(** *** Stations *)

Lemma grow_add st t : stations_grow t (add_row st t).
Proof. intros x Hx. exists x. split_and!; [|done..]. apply elem_of_add_row. by left. Qed.

Lemma add_station_run rid name ty code ip port fb act s :
  (∃ st, add_station rid name ty code ip port fb act s = Ok st (with_stations (add_row st (stations s)) s) ∧
    ks_id st = next_id (stations s) ∧ ks_restaurant_id st = rid ∧ ks_kitchen_code st = code ∧ ks_name st = name ∧
    ks_fallback_station_id st = fb ∧
    ∀ x, x ∈ rows (stations s) → (ks_restaurant_id x, ks_kitchen_code x, ks_name x) ≠ (rid, code, name)) ∨
  add_station rid name ty code ip port fb act s = Err StationNameTaken s.
Proof.
  unfold add_station, mbind, M_bind, gets. destruct (existsb _ _) eqn:He; [by right|left].
  eexists. split_and!; [reflexivity..|]. intros x Hx [= H1 H2 H3]. apply not_true_iff_false in He. destruct He.
  apply existsb_exists. exists x. split; [by apply list_elem_of_In|]. unfold named_in, in_kitchen.
  by rewrite H1, H2, H3, Z.eqb_refl, !String.eqb_refl.
Qed.
Lemma add_station_keeps rid name ty code ip port fb act s :
  kitchen_inv s → opt_all (λ f, station_in rid f (stations s)) fb →
  kitchen_inv (final (add_station rid name ty code ip port fb act s)).
Proof.
  intros Hs Hfb. destruct (add_station_run rid name ty code ip port fb act s) as
    [(st & Hrun & Hid & Hr & Hc & Hn & Hf & Hfresh)|Hrun]; rewrite Hrun; [|done]. cbn.
  pose proof (grow_add st (stations s)) as Hg.
  apply inv_stations; [done|by apply add_row_wf; [apply Hs|]| | |done].
  - apply add_row_unique; [apply Hs|]. intros x Hx. rewrite Hr, Hc, Hn. by apply Hfresh.
  - intros x [Hx| ->]%elem_of_add_row.
    + eapply opt_all_impl; [|by apply Hs]. intros f. by apply grow_in.
    + rewrite Hf, Hr. eapply opt_all_impl; [|done]. intros f. by apply grow_in.
Qed.
Lemma keeps_main rid code : keeps_kitchen (get_or_create_main_station rid code).
Proof.
  intros s Hs. unfold get_or_create_main_station, mbind, M_bind, gets. destruct (first_where _ _); [done|].
  by apply add_station_keeps.
Qed.
(** The kitchen's fallback station is always there afterwards. *)
Lemma main_run rid code s :
  ∃ st s', get_or_create_main_station rid code s = Ok st s' ∧
    st ∈ rows (stations s') ∧ ks_restaurant_id st = rid ∧ ks_kitchen_code st = code ∧ ks_name st = "Main" ∧
    (s' = s ∨ s' = with_stations (add_row st (stations s)) s ∧ ks_id st = next_id (stations s)).
Proof.
  unfold get_or_create_main_station, mbind, M_bind, gets. destruct (first_where _ _) as [st|] eqn:Hf.
  - apply first_where_Some in Hf as [Hst Hn]. unfold named_in, in_kitchen in Hn. zbool. exists st, s. split_and!; auto.
  - destruct (add_station_run rid "Main" "main" code None None None true s) as
      [(st & Hrun & Hid & Hr & Hc & Hn & _ & _)|Hrun]; rewrite ?Hrun.
    + eexists _, _. split; [done|]. split_and!; [apply elem_of_add_row; by right|done..|by right].
    + exfalso. revert Hrun. unfold add_station, mbind, M_bind, gets. destruct (existsb _ _) eqn:He; [|done].
      apply existsb_exists in He as (x & Hx%list_elem_of_In & Hp). rewrite first_where_None in Hf. by rewrite (Hf x Hx) in Hp.
Qed.

Lemma keeps_ensure rid code : keeps_kitchen (ensure_default_stations rid code).
Proof.
  unfold ensure_default_stations. apply preserves_bind_gets. intros s Hs. rewrite bind_final.
  assert (kitchen_inv (final (for_each (λ p : string * string,
    if in_strs (lower p.1) (map (λ st, lower (ks_name st)) (all_where (in_kitchen rid code) (stations s))) then mret tt
    else add_station rid p.1 p.2 code None None None true ≫= λ _, mret tt) DEFAULT_STATION_PRESETS s))) as H.
  { apply preserves_for_each; [|done]. intros p _. destruct (in_strs _ _); [apply preserves_ret|].
    apply preserves_bind; [|intros _; apply preserves_ret]. intros s0 Hs0. by apply add_station_keeps. }
  destruct (for_each _ _ s); [exact H|exact H].
Qed.

Lemma owned_station_run i rid s :
  (∃ st, _get_owned_station i rid s = Ok st s ∧ st ∈ rows (stations s) ∧ ks_id st = i ∧ ks_restaurant_id st = rid) ∨
  _get_owned_station i rid s = Err (KHTTP 404 "station not found") s.
Proof.
  unfold _get_owned_station, mbind, M_bind, gets. destruct (get_row i (stations s)) as [st|] eqn:Hg; [|by right].
  apply get_row_Some in Hg as [? ?]. destruct (Z.eqb_spec (ks_restaurant_id st) rid); [left; by exists st|by right].
Qed.

Lemma keeps_create_station rid name ty code ip port fb act : keeps_kitchen (create_station rid name ty code ip port fb act).
Proof.
  intros s Hs. unfold create_station. destruct (validate_station_type ty) as [t|stype]; [done|].
  destruct fb as [f|].
  - destruct (owned_station_run f rid s) as [(st & Hrun & Hst & Hi & Hr)|Hrun].
    + assert ((_get_owned_station f rid ≫= λ _, mret tt) s = Ok tt s) as Hm by (by rewrite (bind_run_Ok _ _ _ _ _ Hrun)).
      rewrite (bind_run_Ok _ _ _ _ _ Hm). apply add_station_keeps; [done|]. by exists st.
    + assert ((_get_owned_station f rid ≫= λ _, mret tt) s = Err (KHTTP 404 "station not found") s) as Hm
        by (by rewrite (bind_run_Err _ _ _ _ _ Hrun)).
      by rewrite (bind_run_Err _ _ _ _ _ Hm).
  - by apply add_station_keeps.
Qed.

(** A station rewritten under its branch and fallback. *)
Lemma set_station_keeps st st' s :
  kitchen_inv s → st ∈ rows (stations s) → ks_id st' = ks_id st → ks_restaurant_id st' = ks_restaurant_id st →
  ks_fallback_station_id st' = ks_fallback_station_id st →
  (∀ x, x ∈ rows (stations s) → ks_id x ≠ ks_id st →
    (ks_restaurant_id x, ks_kitchen_code x, ks_name x) ≠ (ks_restaurant_id st', ks_kitchen_code st', ks_name st')) →
  kitchen_inv (with_stations (set_row st' (stations s)) s).
Proof.
  intros Hs Hst Hi Hr Hf Hn.
  assert (stations_grow (stations s) (set_row st' (stations s))) as Hg.
  { intros x Hx. pose proof (elem_of_set_row_2 st' x _ Hx) as Hin. change row_id with ks_id in Hin.
    destruct (_ =? _) eqn:Hid; [|by exists x]. zbool. exists st'. split_and!; [done|done|].
    rewrite Hr. f_equal. apply (wf_unique _ (ki_stations _ Hs)); [done..|]. change row_id with ks_id. congruence. }
  apply inv_stations; [done|by apply set_row_wf, Hs| | |done].
  - apply set_row_unique; [apply Hs|]. intros x Hx Hne. apply Hn; [done|]. change row_id with ks_id in Hne. congruence.
  - intros x [[-> _]|[Hx _]]%elem_of_set_row.
    + rewrite Hf, Hr. eapply opt_all_impl; [|by apply Hs]. intros f. by apply grow_in.
    + eapply opt_all_impl; [|by apply Hs]. intros f. by apply grow_in.
Qed.

Lemma new_name_run rid st p s name s' :
  new_name rid st p s = Ok name s' →
  s' = s ∧ (name = ks_name st ∨
            ∀ x, x ∈ rows (stations s) → named_in rid (ks_kitchen_code st) name x = true → ks_id x = ks_id st).
Proof.
  unfold new_name. destruct (sp_name p) as [n|]; [|intros [= <- <-]; auto].
  destruct (_ && _); [done|]. destruct (negb _); [done|]. unfold mbind, M_bind, gets.
  destruct (first_where _ _) eqn:Hf; [done|]. intros [= <- <-]. split; [done|right]. intros x Hx Hn.
  rewrite first_where_None in Hf. specialize (Hf x Hx). rewrite Hn in Hf. cbn in Hf. by zbool.
Qed.
Lemma keeps_update_station rid i p : keeps_kitchen (update_station rid i p).
Proof.
  intros s Hs. unfold update_station.
  destruct (owned_station_run i rid s) as [(st & Hrun & Hst & Hi & Hr)|Hrun];
    [rewrite (bind_run_Ok _ _ _ _ _ Hrun)|by rewrite (bind_run_Err _ _ _ _ _ Hrun)].
  rewrite bind_final. destruct (new_name rid st p s) as [name s1|e s1] eqn:Hn.
  - apply new_name_run in Hn as [-> Hn]. cbn. apply (kitchen_inv_ext (with_stations (set_row (patched_station name p st) (stations s)) s)); [done..|].
    apply (set_station_keeps st); [done..|]. intros x Hx Hne [= H1 H2 H3]. apply Hne. destruct Hn as [->|Hn].
    + f_equal. apply (ki_names _ Hs); [done..|]. by rewrite H1, H2, H3.
    + apply Hn; [done|]. unfold named_in, in_kitchen. by rewrite H1, H2, H3, Hr, Z.eqb_refl, !String.eqb_refl.
  - revert Hn. unfold new_name. destruct (sp_name p) as [n|]; [|done]. destruct (_ && _); [by intros [= _ <-]|].
    destruct (negb _); [by intros [= _ <-]|]. unfold mbind, M_bind, gets. destruct (first_where _ _); [by intros [= _ <-]|done].
Qed.

(** *** Wirings *)

Lemma keeps_category rid cat i : keeps_kitchen (upsert_category_default rid cat i).
Proof.
  apply preserves_try; [|intros []; apply preserves_raise].
  unfold set_category_station_default. apply preserves_bind_gets. intros s Hs.
  destruct (get_row i (stations s)) as [st|] eqn:Hg; [|done]. apply get_row_Some in Hg as [Hst Hi].
  destruct (Z.eqb_spec (ks_restaurant_id st) rid) as [Hr|]; cbn [negb]; [|done].
  unfold mbind, M_bind, gets. destruct (first_where _ _) as [d|] eqn:Hf; cbn.
  - apply first_where_Some in Hf as [Hd Hw]. unfold wired in Hw. zbool.
    apply inv_defaults; [|done]. intros x [[-> _]|[Hx _]]%elem_of_set_row; [|by apply Hs].
    cbn. exists st. split_and!; [done|exact Hi|congruence].
  - apply inv_defaults; [|done]. intros x [Hx| ->]%elem_of_add_row; [by apply Hs|]. by exists st.
Qed.
Lemma keeps_uncategory rid cat : keeps_kitchen (delete_category_default rid cat).
Proof.
  unfold delete_category_default. apply preserves_bind_gets. intros s Hs. destruct (first_where _ _) as [d|]; [|done].
  cbn. apply (kitchen_inv_ext (with_defaults (del_row (cs_id d) (category_defaults s)) s)); [done..|].
  apply inv_defaults; [|done]. intros x [Hx _]%elem_of_del_row. by apply Hs.
Qed.
Lemma keeps_wire_dish rid i st : keeps_kitchen (wire_dish rid i st).
Proof.
  unfold wire_dish. apply preserves_bind_gets. intros s Hs. destruct (get_row i (kitchen_dishes s)) as [d|] eqn:Hg; [|done].
  destruct (Z.eqb_spec (kd_restaurant_id d) rid) as [Hr|]; cbn [negb]; [|done]. unfold mbind, M_bind, gets.
  destruct st as [k|]; [destruct (first_where _ _) as [x|] eqn:Hf|]; cbn.
  - apply first_where_Some in Hf as [Hx Hp]. zbool. apply inv_dishes; [|done].
    intros y [[-> _]|[Hy _]]%elem_of_set_row; [|by apply Hs]. cbn. exists x. split_and!; [done|congruence..].
  - done.
  - apply inv_dishes; [|done]. intros y [[-> _]|[Hy _]]%elem_of_set_row; [done|by apply Hs].
Qed.

(** *** Removing a station *)

Lemma delete_station_run rid i s s' :
  delete_station rid i s = Ok tt s' →
  ∃ st main s1, st ∈ rows (stations s) ∧ ks_id st = i ∧ ks_restaurant_id st = rid ∧ ks_name st ≠ "Main" ∧
    get_or_create_main_station rid (ks_kitchen_code st) s = Ok main s1 ∧
    stations s' = del_row i (map_rows (drop_fallback rid i) (stations s1)) ∧
    category_defaults s' = del_where (wired_to rid i) (category_defaults s1) ∧
    kitchen_dishes s' = map_rows (unwire_dish rid i) (kitchen_dishes s1) ∧
    tickets s' = map_rows (rehome_ticket i (ks_id main)) (tickets s1) ∧
    print_jobs s' = map_rows (rehome_jobs i (ks_id main)) (print_jobs s1) ∧
    printer_statuses s' = del_where (λ p, pt_station_id p =? i) (printer_statuses s1).
Proof.
  unfold delete_station, audit, record_audit. intros H. apply bind_Ok in H as (st & s0 & Hst & H).
  destruct (owned_station_run i rid s) as [(st' & Hrun & Hin & Hi & Hr)|Hrun]; rewrite Hrun in Hst; [|done].
  injection Hst as <- <-. destruct (ks_name st' =s "Main") eqn:Hn; [done|]. zbool.
  apply bind_Ok in H as (main & s1 & Hm & H). exists st', main, s1. inv_run. by split_and!.
Qed.

Lemma map_station_rows (h : KitchenStation → KitchenStation) t x :
  x ∈ rows (map_rows h t) ↔ ∃ y, y ∈ rows t ∧ x = h y.
Proof.
  unfold map_rows; cbn. rewrite list_elem_of_In, List.in_map_iff. setoid_rewrite <-list_elem_of_In. naive_solver.
Qed.
Lemma drop_fallback_same rid i st :
  ks_id (drop_fallback rid i st) = ks_id st ∧ ks_restaurant_id (drop_fallback rid i st) = ks_restaurant_id st ∧
  ks_kitchen_code (drop_fallback rid i st) = ks_kitchen_code st ∧ ks_name (drop_fallback rid i st) = ks_name st.
Proof. unfold drop_fallback. by destruct (_ && _). Qed.
(** A station other than the removed one is still there. *)
Lemma station_survives rid i r k t :
  k ≠ i → station_in r k t → station_in r k (del_row i (map_rows (drop_fallback rid i) t)).
Proof.
  intros Hne (st & Hst & Hk & Hr). destruct (drop_fallback_same rid i st) as (H1 & H2 & _).
  exists (drop_fallback rid i st). split_and!; [|congruence..]. apply elem_of_del_row. change row_id with ks_id.
  split; [|congruence]. apply map_station_rows. eauto.
Qed.
Lemma station_exists_survives rid i k t :
  k ≠ i → station_exists k t → station_exists k (del_row i (map_rows (drop_fallback rid i) t)).
Proof. intros Hne (st & Hst & Hk). apply (station_in_exists (ks_restaurant_id st)), station_survives; [done|]. by exists st. Qed.

Lemma deleted_stations_wf rid i t :
  table_wf t → table_wf (del_row i (map_rows (drop_fallback rid i) t)).
Proof. intros Ht. apply del_row_wf, map_rows_wf; [|done]. intros st. apply (drop_fallback_same rid i st). Qed.

Lemma deleted_inv rid i st main s s' :
  kitchen_inv s → st ∈ rows (stations s) → ks_id st = i → ks_restaurant_id st = rid →
  main ∈ rows (stations s) → ks_id main ≠ i →
  stations s' = del_row i (map_rows (drop_fallback rid i) (stations s)) →
  category_defaults s' = del_where (wired_to rid i) (category_defaults s) →
  kitchen_dishes s' = map_rows (unwire_dish rid i) (kitchen_dishes s) →
  tickets s' = map_rows (rehome_ticket i (ks_id main)) (tickets s) →
  print_jobs s' = map_rows (rehome_jobs i (ks_id main)) (print_jobs s) →
  printer_statuses s' = del_where (λ p, pt_station_id p =? i) (printer_statuses s) →
  kitchen_inv s'.
Proof.
  intros Hs Hst Hi Hr Hmain Hne E1 E2 E3 E4 E5 E6.
  assert (∀ r, station_in r i (stations s) → r = rid) as Hown.
  { intros r (x & Hx & Hxi & <-). rewrite <-Hr. f_equal. apply (wf_unique _ (ki_stations _ Hs)); [done..|].
    change row_id with ks_id. congruence. }
  assert (station_exists (ks_id main) (stations s')) as Hmain'.
  { rewrite E1. apply station_exists_survives; [done|]. by exists main. }
  destruct Hs as [H1 H2 H3 H4 H5 H6 H7 H8]. split.
  - rewrite E1. by apply deleted_stations_wf.
  - rewrite E1. intros x y [(x0 & Hx & ->)%map_station_rows _]%elem_of_del_row [(y0 & Hy & ->)%map_station_rows _]%elem_of_del_row.
    destruct (drop_fallback_same rid i x0) as (_ & -> & -> & ->). destruct (drop_fallback_same rid i y0) as (_ & -> & -> & ->).
    intros He. f_equal. by apply H2.
  - rewrite E1. intros x [(y & Hy & ->)%map_station_rows _]%elem_of_del_row.
    destruct (drop_fallback_same rid i y) as (_ & -> & _). specialize (H3 y Hy). unfold drop_fallback.
    destruct (_ && _) eqn:Hd; [done|]. destruct (ks_fallback_station_id y) as [f|]; [|done]. cbn in *.
    apply station_survives; [|done]. intros ->. apply Hown in H3. rewrite H3, Z.eqb_refl in Hd. cbn in Hd. by zbool.
  - rewrite E1, E2. intros d [Hd Hw]%elem_of_del_where. specialize (H4 d Hd). apply station_survives; [|done].
    intros He. rewrite He in H4. apply Hown in H4. unfold wired_to in Hw. by rewrite H4, He, !Z.eqb_refl in Hw.
  - rewrite E1, E3. intros x Hx. unfold map_rows in Hx; cbn in Hx. rewrite list_elem_of_In, List.in_map_iff in Hx.
    destruct Hx as (d & <- & Hd%list_elem_of_In). specialize (H5 d Hd). unfold unwire_dish. destruct (_ && _) eqn:Hw; [done|].
    destruct (kd_station_id d) as [k|]; [|done]. cbn in *. apply station_survives; [|done]. intros ->.
    apply Hown in H5. rewrite H5, Z.eqb_refl in Hw. cbn in Hw. by zbool.
  - rewrite E4. intros x Hx. unfold map_rows in Hx; cbn in Hx. rewrite list_elem_of_In, List.in_map_iff in Hx.
    destruct Hx as (t & <- & Ht%list_elem_of_In). specialize (H6 t Ht). unfold rehome_ticket. destruct (bool_decide _) eqn:Hw; [done|].
    destruct (tk_station_id_snapshot t) as [k|]; [|done]. cbn in *. rewrite E1. apply station_exists_survives; [|done]. intros ->. by zbool.
  - rewrite E5. intros x Hx. unfold map_rows in Hx; cbn in Hx. rewrite list_elem_of_In, List.in_map_iff in Hx.
    destruct Hx as (j & <- & Hj%list_elem_of_In). destruct (H7 j Hj) as [Ha Hb]. split; cbn.
    + destruct (_ =? _) eqn:Hw; [done|]. zbool. rewrite E1. by apply station_exists_survives.
    + destruct (bool_decide _) eqn:Hw; [done|]. destruct (pj_original_station_id j) as [k|]; [|done]. cbn in *.
      rewrite E1. apply station_exists_survives; [|done]. intros ->. by zbool.
  - rewrite E6. intros p [Hp Hw]%elem_of_del_where. zbool. rewrite E1. apply station_exists_survives; [done|]. by apply H8.
Qed.

Lemma keeps_delete_station rid i : keeps_kitchen (atomically (delete_station rid i)).
Proof.
  intros s Hs. unfold atomically. destruct (delete_station rid i s) as [[] s'|e s'] eqn:Hd; [|done]. cbn.
  apply delete_station_run in Hd as (st & main & s1 & Hst & Hi & Hr & Hn & Hm & E1 & E2 & E3 & E4 & E5 & E6).
  pose proof (keeps_main rid (ks_kitchen_code st) s Hs) as Hs1. rewrite Hm in Hs1. cbn in Hs1.
  destruct (main_run rid (ks_kitchen_code st) s) as (m & s2 & Hm' & Hmin & _ & _ & Hmn & Hs2). rewrite Hm in Hm'. injection Hm' as <- <-.
  assert (st ∈ rows (stations s1)) as Hst1.
  { destruct Hs2 as [->|[-> _]]; [done|]. apply elem_of_add_row. by left. }
  apply (deleted_inv rid i st main s1); try done. intros He. apply Hn. rewrite <-Hmn. f_equal.
  apply (wf_unique _ (ki_stations _ Hs1)); [done..|]. change row_id with ks_id. congruence.
Qed.

(** *** Printers and print jobs *)

Lemma keeps_heartbeat rid i h : keeps_kitchen (printer_heartbeat rid i h).
Proof.
  intros s Hs. unfold printer_heartbeat.
  destruct (owned_station_run i rid s) as [(st & Hrun & Hst & Hi & _)|Hrun];
    [rewrite (bind_run_Ok _ _ _ _ _ Hrun)|by rewrite (bind_run_Err _ _ _ _ _ Hrun)].
  unfold record_printer_heartbeat, mbind, M_bind, gets. destruct (first_where _ _) as [p|] eqn:Hf; cbn; apply inv_printers; try done.
  - apply first_where_Some in Hf as [Hp _]. intros x [[-> _]|[Hx _]]%elem_of_set_row; [|by apply Hs]. by apply (ki_printers _ Hs p).
  - intros x [Hx| ->]%elem_of_add_row; [by apply Hs|]. by exists st.
Qed.

Lemma failed_over_targets st j t :
  station_exists (pj_station_id j) t → opt_all (λ i, station_exists i t) (pj_original_station_id j) →
  (∀ x f, st = Some x → ks_fallback_station_id x = Some f → station_exists f t) →
  station_exists (pj_station_id (failed_over st j)) t ∧
  opt_all (λ i, station_exists i t) (pj_original_station_id (failed_over st j)).
Proof.
  intros H1 H2 Hf. unfold failed_over. destruct st as [x|]; [|done].
  destruct (ks_fallback_station_id x) as [f|] eqn:Hx; [|done]. destruct (f =? 0); [done|].
  destruct (pj_via_fallback j); [done|]. cbn. eauto.
Qed.
Lemma keeps_job_status rid i st : keeps_kitchen (update_print_job_status rid i st).
Proof.
  unfold update_print_job_status. apply preserves_bind_gets. intros s Hs.
  destruct (get_row i (print_jobs s)) as [j|] eqn:Hg; [|done]. destruct (negb _); [done|].
  apply get_row_Some in Hg as [Hj _]. destruct (ki_jobs _ Hs j Hj) as [Ha Hb]. cbn. apply inv_jobs; [|done].
  intros x [[-> _]|[Hx _]]%elem_of_set_row; [|by apply Hs]. destruct (st =s "failed"); [|done].
  apply failed_over_targets; [done|done|]. intros x f [Hx _]%get_row_Some Hf.
  pose proof (ki_fallbacks _ Hs x Hx) as Hfb. rewrite Hf in Hfb. by apply (station_in_exists (ks_restaurant_id x)).
Qed.

Lemma print_target rid k s :
  kitchen_inv s → station_exists k (stations s) →
  station_exists (_resolve_print_station rid k s).1.1 (stations s) ∧
  opt_all (λ i, station_exists i (stations s)) (_resolve_print_station rid k s).2.
Proof.
  intros Hs Hk. unfold _resolve_print_station. destruct (get_row k (stations s)) as [st|] eqn:Hg; [|done].
  destruct (negb _); [done|]. destruct (ks_fallback_station_id st) as [f|] eqn:Hf; [|done].
  destruct (unhealthy rid f s); [done|]. cbn. split; [|done]. apply get_row_Some in Hg as [Hst _].
  pose proof (ki_fallbacks _ Hs st Hst) as Hfb. rewrite Hf in Hfb. by apply (station_in_exists (ks_restaurant_id st)).
Qed.

(** *** Tickets *)

Lemma resolve_run rid d code s :
  kitchen_inv s → d ∈ rows (kitchen_dishes s) →
  ∃ k s', resolve_station rid d code s = Ok k s' ∧ kitchen_inv s' ∧ station_exists k (stations s') ∧
    stations_grow (stations s) (stations s') ∧ tickets s' = tickets s ∧ kitchen_dishes s' = kitchen_dishes s ∧
    print_jobs s' = print_jobs s ∧ kt_fleet s' = kt_fleet s ∧ kitchen_orders s' = kitchen_orders s.
Proof.
  intros Hs Hd. assert (stations_grow (stations s) (stations s)) as Hrefl by (intros x ?; by exists x).
  unfold resolve_station. pose proof (ki_dishes _ Hs d Hd) as Hst.
  destruct (kd_station_id d) as [k|]; cbn in *; [exists k, s; split_and!; try done; by eapply station_in_exists|].
  set (w := if otruthy (kd_category d) then first_where (wired rid (default "" (kd_category d))) (category_defaults s) else None).
  assert ((if otruthy (kd_category d) then gets (λ s, first_where (wired rid (default "" (kd_category d))) (category_defaults s))
           else mret None) s = Ok (E := kitchen_error) w s) as Hw by (subst w; by destruct (otruthy _)).
  rewrite (bind_run_Ok _ _ _ _ _ Hw). destruct w as [c|] eqn:Hwc.
  - exists (cs_station_id c), s. split_and!; try done. subst w. destruct (otruthy _); [|done].
    apply first_where_Some in Hwc as [Hc _]. eapply station_in_exists. by apply Hs.
  - destruct (main_run rid (if otruthy code then default "" code else "main") s) as (m & s' & Hm & Hin & _ & _ & _ & Hs').
    rewrite (bind_run_Ok _ _ _ _ _ Hm). exists (ks_id m), s'. pose proof (keeps_main rid (if otruthy code then default "" code else "main") s Hs) as Hk.
    rewrite Hm in Hk. destruct Hs' as [->|[-> _]]; split_and!; try done; try (by exists m). apply grow_add.
Qed.

(** The line as it goes to station [k]. *)
Definition fired (now k : Z) (code : string) (t : Ticket) : Ticket := routed KReceived (Some k) (Some code) (Some now) t.

Lemma route_run rid now code t groups s :
  kitchen_inv s →
  if tk_cancelled t then route_item rid now code t groups s = Ok groups s
  else match get_row (tk_dish_id t) (kitchen_dishes s) with
       | None => route_item rid now code t groups s = Err (DishMissing (tk_dish_id t)) s
       | Some d => ∃ k c s', route_item rid now code t groups s = Ok (append_at k (fired now k c t) groups) s' ∧
           kitchen_inv s' ∧ station_exists k (stations s') ∧ stations_grow (stations s) (stations s') ∧
           tickets s' = set_row (fired now k c t) (tickets s) ∧ kitchen_dishes s' = kitchen_dishes s ∧
           print_jobs s' = print_jobs s ∧ kt_fleet s' = kt_fleet s ∧ kitchen_orders s' = kitchen_orders s
       end.
Proof.
  intros Hs. unfold route_item. destruct (tk_cancelled t) eqn:Hc; [done|].
  rewrite (bind_run_Ok _ _ s (get_row (tk_dish_id t) (kitchen_dishes s)) s) by done.
  destruct (get_row (tk_dish_id t) (kitchen_dishes s)) as [d|] eqn:Hg; [|done].
  apply get_row_Some in Hg as [Hd _].
  destruct (resolve_run rid d code s Hs Hd) as (k & s1 & Hr & Hs1 & Hk & Hgr & E1 & E2 & E3 & E4 & E5).
  rewrite (bind_run_Ok _ _ _ _ _ Hr). eexists k, _, _. split; [reflexivity|].
  split; [apply (set_ticket_keeps (fired now k _ t)); [exact Hk|done]|]. cbn. rewrite E1. by split_and!.
Qed.

(** *** Grouping *)

Lemma append_at_perm {A} k (x : A) l : concat (snd <$> append_at k x l) ≡ₚ x :: concat (snd <$> l).
Proof.
  induction l as [|[k' xs] l IH]; cbn; [done|]. destruct (k' =? k); cbn.
  - rewrite <-app_assoc. cbn. by rewrite <-Permutation_middle.
  - rewrite IH. by rewrite <-Permutation_middle.
Qed.
Lemma append_at_keys {A} k (x : A) l i : i ∈ fst <$> append_at k x l ↔ i = k ∨ i ∈ fst <$> l.
Proof.
  induction l as [|[k' xs] l IH]; cbn; [set_solver|]. destruct (Z.eqb_spec k' k); cbn; [set_solver|].
  set_solver.
Qed.
Lemma append_at_NoDup {A} k (x : A) l : NoDup (fst <$> l) → NoDup (fst <$> append_at k x l).
Proof.
  induction l as [|[k' xs] l IH]; cbn; intros Hl; [repeat constructor; set_solver|].
  destruct (Z.eqb_spec k' k); [done|]. cbn. apply NoDup_cons in Hl as [H1 H2]. apply NoDup_cons. split; [|by apply IH].
  rewrite append_at_keys. set_solver.
Qed.
Lemma append_at_member {A} k (x : A) l g :
  g ∈ append_at k x l → g.1 = k ∧ (∃ xs, g.2 = xs ++ [x] ∧ (xs = [] ∨ (k, xs) ∈ l)) ∨ g ∈ l.
Proof.
  induction l as [|[k' xs] l IH]; cbn.
  - intros ->%list_elem_of_singleton. left. split; [done|]. exists []. split; [done|by left].
  - destruct (Z.eqb_spec k' k) as [Hk|Hk]; intros [Hg|Hg]%elem_of_cons.
    + left. subst. split; [done|]. exists xs. split; [done|]. right. by left.
    + right. by right.
    + right. subst. by left.
    + destruct (IH Hg) as [(H1 & ys & H2 & H3)|H]; [left|right; by right]. split; [done|]. exists ys. split; [done|].
      destruct H3; [by left|right; by right].
Qed.

(** Lines by the key [key]: every line is in one group, under its key. *)
Definition group_by {A} (key : A → Z) (l : list A) (g : list (Z * list A)) : list (Z * list A) :=
  fold_left (λ g x, append_at (key x) x g) l g.
Record grouped {A} (key : A → Z) (l : list A) (g : list (Z * list A)) : Prop := {
  gr_all : concat (snd <$> g) ≡ₚ l;
  gr_keys : NoDup (fst <$> g);
  gr_key : ∀ k xs x, (k, xs) ∈ g → x ∈ xs → key x = k;
  gr_nonempty : ∀ k xs, (k, xs) ∈ g → xs ≠ [];
}.
Lemma group_by_grouped {A} (key : A → Z) l l0 g :
  grouped key l0 g → grouped key (l0 ++ l) (group_by key l g).
Proof.
  revert l0 g. induction l as [|x l IH]; intros l0 g [H1 H2 H3 H4]; cbn; [by rewrite app_nil_r; split|].
  replace (l0 ++ x :: l) with ((l0 ++ [x]) ++ l) by (by rewrite <-app_assoc). apply IH. split.
  - rewrite append_at_perm, H1. by rewrite Permutation_app_comm.
  - by apply append_at_NoDup.
  - intros k xs y Hg Hy. destruct (append_at_member _ _ _ _ Hg) as [(Hk & ys & Hxs & Hys)|Hin]; [|by eapply H3].
    cbn in *. subst. apply elem_of_app in Hy as [Hy| ->%list_elem_of_singleton]; [|done].
    destruct Hys as [->|Hys]; [by apply not_elem_of_nil in Hy|by eapply H3].
  - intros k xs Hg. destruct (append_at_member _ _ _ _ Hg) as [(Hk & ys & Hxs & _)|Hin]; [|by eapply H4].
    cbn in *. subst. by destruct ys.
Qed.
Lemma group_by_nil {A} (key : A → Z) l : grouped key l (group_by key l []).
Proof. apply (group_by_grouped key l []). split; [done|constructor|intros ? ? ? H; by apply not_elem_of_nil in H..|intros ? ? H; by apply not_elem_of_nil in H]. Qed.

(** *** Firing *)

Definition key_of (t : Ticket) : Z := default 0 (tk_station_id_snapshot t).
(** What the kitchen leaves alone when it fires lines. *)
Definition same_rest (s s' : kitchen_db) : Prop :=
  kitchen_dishes s' = kitchen_dishes s ∧ kt_fleet s' = kt_fleet s ∧ kitchen_orders s' = kitchen_orders s.

Lemma route_all rid now code l groups s :
  kitchen_inv s →
  match for_fold (route_item rid now code) l groups s with
  | Ok g s' => kitchen_inv s' ∧ stations_grow (stations s) (stations s') ∧ print_jobs s' = print_jobs s ∧ same_rest s s' ∧
      ∃ fs, Forall2 (λ t f, ∃ k c, f = fired now k c t ∧ station_exists k (stations s')) (List.filter (λ t, negb (tk_cancelled t)) l) fs ∧
        g = group_by key_of fs groups ∧ tickets s' = fold_left (λ t f, set_row f t) fs (tickets s)
  | Err e s' => kitchen_inv s'
  end.
Proof.
  revert groups s. induction l as [|t l IH]; intros groups s Hs; cbn [for_fold].
  { split_and!; try done; [by intros x ?; exists x|]. exists []. by split_and!. }
  pose proof (route_run rid now code t groups s Hs) as Hr. cbn [List.filter].
  destruct (tk_cancelled t) eqn:Hc; cbn [negb].
  { rewrite (bind_run_Ok _ _ _ _ _ Hr). apply IH, Hs. }
  destruct (get_row (tk_dish_id t) (kitchen_dishes s)) as [d|]; [|by rewrite (bind_run_Err _ _ _ _ _ Hr)].
  destruct Hr as (k & c & s1 & Hr & Hs1 & Hk & Hg & E1 & E2 & E3 & E4 & E5). rewrite (bind_run_Ok _ _ _ _ _ Hr).
  specialize (IH (append_at k (fired now k c t) groups) s1 Hs1).
  destruct (for_fold _ l _ s1) as [g s2|e s2]; [|done].
  destruct IH as (Hs2 & Hg2 & E6 & (E7 & E8 & E9) & fs & Hfs & -> & Ht).
  split_and!; [done| |by rewrite E6|by split_and!; etransitivity|].
  - intros x Hx. destruct (Hg x Hx) as (y & Hy & H1 & H2). destruct (Hg2 y Hy) as (z & Hz & H3 & H4). exists z. split_and!; congruence.
  - exists (fired now k c t :: fs). split_and!; [constructor; [|done]|done|by rewrite Ht, E1].
    exists k, c. split; [done|]. by eapply grow_exists.
Qed.

Definition job_for (rid : Z) (o : KOrder) (s : kitchen_db) (g : Z * list Ticket) (j : PrintJob) : Prop :=
  pj_restaurant_id j = rid ∧ pj_order_id j = o_id (w_order o) ∧ pj_payload j = build_print_payload o g.2 ∧
  pj_status j = "pending" ∧ pj_attempts j = 0 ∧
  (pj_station_id j, pj_via_fallback j, pj_original_station_id j) = _resolve_print_station rid g.1 s.

Lemma target_ext rid k t s : _resolve_print_station rid k (with_print_jobs t s) = _resolve_print_station rid k s.
Proof. done. Qed.
Lemma jobs_run rid o gs s :
  ∃ t js, for_each (add_print_job rid o) gs s = Ok tt (with_print_jobs t s) ∧
    rows t = rows (print_jobs s) ++ js ∧ Forall2 (job_for rid o s) gs js.
Proof.
  revert s. induction gs as [|g gs IH]; intros s.
  - exists (print_jobs s), []. split_and!; [by destruct s|by rewrite app_nil_r|constructor].
  - cbn [for_each]. eassert (add_print_job rid o g s = Ok tt (with_print_jobs (add_row _ (print_jobs s)) s)) as Hadd by reflexivity.
    rewrite (bind_run_Ok _ _ _ _ _ Hadd). clear Hadd. set (j := {| pj_id := _ |}).
    destruct (IH (with_print_jobs (add_row j (print_jobs s)) s)) as (t & js & Hrun & Hrows & Hjs).
    exists t, (j :: js). split_and!; [exact Hrun| |constructor; [|exact Hjs]].
    + change (rows t = (rows (print_jobs s) ++ [j]) ++ js) in Hrows. by rewrite Hrows, <-app_assoc.
    + split_and!; try done. cbn. by destruct (_resolve_print_station rid g.1 s) as [[? ?] ?].
Qed.

(** What firing writes: every live line once, into the group of its station; one job per
    group, with the group's text, where the station or its fallback prints. *)
Record fires_lines (rid : Z) (o : KOrder) (items : list Ticket) (s s' : kitchen_db) (now : Z) : Prop := {
  fi_inv : kitchen_inv s';
  fi_grow : stations_grow (stations s) (stations s');
  fi_rest : same_rest s s';
  fi_lines : ∃ fs gs js,
    Forall2 (λ t f, ∃ k c, f = fired now k c t ∧ station_exists k (stations s'))
      (List.filter (λ t, negb (tk_cancelled t)) items) fs ∧
    tickets s' = fold_left (λ t f, set_row f t) fs (tickets s) ∧
    grouped key_of fs gs ∧
    rows (print_jobs s') = rows (print_jobs s) ++ js ∧ Forall2 (job_for rid o s') gs js;
}.

Lemma group_station (fs : list Ticket) gs k xs t :
  grouped key_of fs gs → (∀ f, f ∈ fs → ∃ k, tk_station_id_snapshot f = Some k ∧ station_exists k t) →
  (k, xs) ∈ gs → station_exists k t.
Proof.
  intros [Hall _ Hkey Hne] Hfs Hg. pose proof (Hne _ _ Hg) as Hn. destruct xs as [|x xs]; [done|].
  destruct (Hfs x) as (i & Hi & Hex).
  { rewrite <-Hall. apply list_elem_of_In, List.in_concat. exists (x :: xs). rewrite <-!list_elem_of_In.
    split; [|by left]. apply list_elem_of_fmap. by exists (k, x :: xs). }
  rewrite <-(Hkey k (x :: xs) x Hg) by by left. unfold key_of. by rewrite Hi.
Qed.

Lemma fire_run rid o items code s s' :
  kitchen_inv s → create_tickets_for_items rid o items code s = Ok tt s' → fires_lines rid o items s s' (kt_now s).
Proof.
  intros Hs. unfold create_tickets_for_items. destruct (bool_decide (items = [])) eqn:Hi; zbool.
  { intros [= <-]. subst. split; [done|by intros x ?; exists x|done|]. exists [], [], [].
    split_and!; [constructor|done|apply (group_by_nil key_of [])|by rewrite app_nil_r|constructor]. }
  rewrite (bind_run_Ok _ _ s (kt_now s) s) by done.
  pose proof (route_all rid (kt_now s) code items [] s Hs) as Hr.
  destruct (for_fold _ items [] s) as [g s1|e s1] eqn:Hf; [|by rewrite (bind_run_Err _ _ _ _ _ Hf)].
  rewrite (bind_run_Ok _ _ _ _ _ Hf). destruct Hr as (Hs1 & Hg & Hj & Hrest & fs & Hfs & -> & Ht).
  destruct (jobs_run rid o (group_by key_of fs []) s1) as (t & js & Hrun & Hrows & Hjs). rewrite Hrun. intros [= <-].
  pose proof (group_by_nil key_of fs) as Hgr. split; [|done|done|].
  - apply inv_jobs; [|done]. intros j. rewrite Hrows. intros [Hjin|Hjin]%elem_of_app; [by apply Hs1|].
    apply list_elem_of_lookup_1 in Hjin as (i & Hji). destruct (Forall2_lookup_r _ _ _ _ _ Hjs Hji) as ([k xs] & Hgi & Hjob).
    destruct Hjob as (_ & _ & _ & _ & _ & Htar). cbn [fst snd] in Htar.
    assert (station_exists k (stations s1)) as Hk.
    { apply (group_station fs (group_by key_of fs []) k xs); [done| |by apply list_elem_of_lookup_2 in Hgi].
      intros f Hfin. apply list_elem_of_lookup_1 in Hfin as (n & Hn).
      destruct (Forall2_lookup_r _ _ _ _ _ Hfs Hn) as (t0 & _ & k0 & c & -> & Hk0). by exists k0. }
    pose proof (print_target rid k s1 Hs1 Hk) as Hpt. rewrite <-Htar in Hpt. exact Hpt.
  - exists fs, (group_by key_of fs []), js. split_and!; try done.
    change (rows t = rows (print_jobs s) ++ js). by rewrite Hrows, Hj.
Qed.

Lemma keeps_fire rid o items code : keeps_kitchen (create_tickets_for_items rid o items code).
Proof.
  intros s Hs. destruct (create_tickets_for_items rid o items code s) as [[] s'|e s'] eqn:Hrun; cbn [final].
  { by apply fire_run in Hrun as [? _ _ _]. }
  revert Hrun. unfold create_tickets_for_items. destruct (bool_decide _); [done|].
  rewrite (bind_run_Ok _ _ s (kt_now s) s) by done. pose proof (route_all rid (kt_now s) code items [] s Hs) as Hr.
  destruct (for_fold _ items [] s) as [g s1|e' s1] eqn:Hf.
  - rewrite (bind_run_Ok _ _ _ _ _ Hf). destruct (jobs_run rid o g s1) as (t & js & -> & _). done.
  - rewrite (bind_run_Err _ _ _ _ _ Hf). by intros [= _ <-].
Qed.
