(* ===== verification/KitchenFlowFacts.v ===== *)
(** * Facts about the way of an order through the kitchen ([KitchenFlow])

    Every request keeps the references of [KitchenFacts]; firing an order; the clock of a
    confirmed order; the kitchen ticket button, the bump that finishes an order, and the
    boards. *)

From S2P Require Import Prelude Money Strings Db AuditTrail Clock Floats Wallet OrderFsm OrderFsmFacts OrderPayments Outbox Loyalty Batching Scoring Optimizer Fleet FleetFacts Dispatch KitchenDb Kitchen KitchenFlow KitchenFacts.

(** ** Requests *)

Lemma preserves_after_commit {A B} I (m : KM A) (f : A → KM B) :
  preserves I m → (∀ a, preserves I (f a)) → preserves I (after_commit m f).
Proof.
  intros Hm Hf s Hs. unfold after_commit. specialize (Hm s Hs). destruct (m s) as [a s1|e s1]; [|done].
  specialize (Hf a s1 Hm). by destruct (f a s1).
Qed.
#[local] Hint Resolve keeps_fleet keeps_call keeps_audit keeps_fire : pos.

Lemma owned_item_run i rid s :
  (∃ t, _get_owned_item i rid s = Ok t s ∧ t ∈ rows (tickets s) ∧ tk_id t = i) ∨
  _get_owned_item i rid s = Err (KHTTP 404 "item not found") s.
Proof.
  unfold _get_owned_item, mbind, M_bind, gets. destruct (get_row i (tickets s)) as [t|] eqn:Hg; [|by right].
  apply get_row_Some in Hg as [? ?]. destruct (get_row (tk_order_id t) _) as [o|]; [|by right].
  destruct (_ =? _); [left; by exists t|by right].
Qed.
(** A write to a line that stays at its station. *)
Lemma keeps_item {B} i rid (f : Ticket → KM B) :
  (∀ t s, t ∈ rows (tickets s) → kitchen_inv s → kitchen_inv (final (f t s))) →
  keeps_kitchen (_get_owned_item i rid ≫= f).
Proof.
  intros Hf s Hs. destruct (owned_item_run i rid s) as [(t & Hrun & Ht & _)|Hrun].
  - rewrite (bind_run_Ok _ _ _ _ _ Hrun). by apply Hf.
  - by rewrite (bind_run_Err _ _ _ _ _ Hrun).
Qed.
Lemma set_same_station t t' s :
  t ∈ rows (tickets s) → tk_station_id_snapshot t' = tk_station_id_snapshot t → kitchen_inv s →
  kitchen_inv (final (set_ticket t' s)).
Proof. intros Ht Hst Hs. apply set_ticket_keeps; [|done]. rewrite Hst. by apply Hs. Qed.

Lemma keeps_check f rid i : (∀ t, tk_station_id_snapshot (f t) = tk_station_id_snapshot t) → keeps_kitchen (check_item f rid i).
Proof. intros Hf. apply keeps_item. intros t s Ht Hs. by apply (set_same_station t). Qed.
Lemma keeps_missing rid i note : keeps_kitchen (missing_item_confirm rid i note).
Proof.
  apply preserves_bind; [by apply keeps_check|intros t]. apply preserves_bind; [apply keeps_audit|intros _; apply preserves_ret].
Qed.
Lemma keeps_start rid i : keeps_kitchen (start_prep rid i).
Proof. apply keeps_item. intros t s Ht Hs. by apply (set_same_station t). Qed.
Lemma keeps_recall rid i : keeps_kitchen (recall_item rid i).
Proof.
  apply keeps_item. intros t s Ht Hs. rewrite bind_final. cbn [set_ticket modify].
  apply (kitchen_inv_ext (final (set_ticket (progressed KReceived None None t) s))); try done. by apply (set_same_station t).
Qed.

Ltac keeps_tac :=
  repeat match goal with
  | |- preserves _ (_ ≫= _) => apply preserves_bind; [|intros ?]
  | |- preserves _ (gets _) => apply preserves_gets
  | |- preserves _ (mret _) => apply preserves_ret
  | |- preserves _ (raise _) => apply preserves_raise
  | |- preserves _ (in_fleet _) => apply keeps_fleet
  | |- preserves _ (call_kitchen _) => apply keeps_call
  | |- preserves _ (audit _ _ _ _ _ _ _) => apply keeps_audit
  | |- preserves _ (create_tickets_for_items _ _ _ _) => apply keeps_fire
  | |- preserves _ (for_each _ _) => apply preserves_for_each; intros ? _
  | |- preserves _ (if ?b then _ else _) => destruct b
  | |- preserves _ (match ?x with _ => _ end) => destruct x
  end; auto with pos.

Lemma keeps_the_order oid : keeps_kitchen (the_order_whole oid).
Proof. unfold the_order_whole. keeps_tac. Qed.
#[local] Hint Resolve keeps_the_order : pos.
Lemma keeps_step_to oid st actor : keeps_kitchen (step_to oid st actor).
Proof. unfold step_to. keeps_tac. Qed.
Lemma keeps_change_delivery oid f : keeps_kitchen (change_delivery oid f).
Proof. unfold change_delivery. keeps_tac. Qed.
Lemma keeps_change_kitchen_order oid f : keeps_kitchen (change_kitchen_order oid f).
Proof. unfold change_kitchen_order. keeps_tac. apply preserves_modify. intros s. by apply kitchen_inv_ext. Qed.
#[local] Hint Resolve keeps_step_to keeps_change_delivery keeps_change_kitchen_order : pos.
Lemma keeps_change_items f : keeps_kitchen (change_items f).
Proof. apply keeps_fleet. Qed.
#[local] Hint Resolve keeps_change_items : pos.

Section flow_facts.
Context (sla_customer_minutes : Z) (geo : geo_port).
Context (dispatch : Z → FM DispatchResult) (notify : Z → Z → string → FM unit).

Lemma keeps_start_clock oid : keeps_kitchen (start_clock sla_customer_minutes geo oid).
Proof. unfold start_clock. keeps_tac. Qed.
#[local] Hint Resolve keeps_start_clock : pos.
Lemma keeps_finalize oid actor : keeps_kitchen (finalize_confirmation sla_customer_minutes geo oid actor).
Proof. unfold finalize_confirmation, create_tickets_for_order. keeps_tac. Qed.
Lemma keeps_add_entry oid e : keeps_kitchen (add_entry oid e).
Proof.
  unfold add_entry. apply preserves_bind; [apply preserves_gets|intros now]. apply preserves_bind_gets. intros s Hs. rewrite bind_final.
  cbn [modify]. apply keeps_change_items. apply inv_tickets; [|done]. intros t [Ht| ->]%elem_of_add_row; [by apply Hs|done].
Qed.
#[local] Hint Resolve keeps_add_entry : pos.
Lemma keeps_modify_order oid items actor : keeps_kitchen (modify_order sla_customer_minutes geo oid items actor).
Proof.
  unfold modify_order. keeps_tac. apply preserves_modify. intros s Hs. apply inv_tickets; [|done].
  intros t [Ht _]%elem_of_del_where. by apply Hs.
Qed.
Lemma keeps_refresh oid : keeps_kitchen (_refresh_prep_deadline sla_customer_minutes geo oid).
Proof. unfold _refresh_prep_deadline. keeps_tac. Qed.
#[local] Hint Resolve keeps_refresh : pos.
Lemma keeps_auto_dispatch rid : keeps_kitchen (_auto_dispatch_on_ready dispatch rid).
Proof.
  intros s Hs. unfold _auto_dispatch_on_ready. pose proof (keeps_fleet (dispatch rid) s Hs) as H.
  destruct (in_fleet (dispatch rid) s) as [r s1|e s1]; [|done]. by apply (kitchen_inv_ext s1).
Qed.
#[local] Hint Resolve keeps_auto_dispatch : pos.
Lemma keeps_advance_step oid actor : keeps_kitchen (advance_step sla_customer_minutes geo notify oid actor).
Proof. unfold advance_step. keeps_tac. Qed.
Lemma keeps_advance oid actor : keeps_kitchen (advance_kitchen_status sla_customer_minutes geo dispatch notify oid actor).
Proof. apply preserves_after_commit; [apply keeps_advance_step|intros st]. keeps_tac. Qed.
Lemma keeps_bump_step rid i who actor : keeps_kitchen (bump_step rid i who actor).
Proof.
  apply keeps_item. intros t s Ht Hs. cbv beta. unfold mbind, M_bind, gets. cbn [set_ticket modify].
  eapply (kitchen_inv_ext (final (set_ticket (progressed KReady _ _ t) s))); [done..|]. by apply (set_same_station t).
Qed.
Lemma keeps_bump rid i who actor : keeps_kitchen (bump_item sla_customer_minutes geo dispatch notify rid i who actor).
Proof.
  apply preserves_after_commit; [apply keeps_bump_step|intros t]. keeps_tac.
  apply preserves_try; [apply keeps_advance|intros []; keeps_tac].
Qed.

Lemma keeps_void {A} (m : KM A) : keeps_kitchen m → keeps_kitchen (void m).
Proof. intros Hm. apply preserves_bind; [done|intros _; apply preserves_ret]. Qed.
Lemma keeps_request r : keeps_kitchen (kitchen_run sla_customer_minutes geo dispatch notify r).
Proof.
  destruct r; cbn [kitchen_run]; try apply keeps_delete_station; try apply preserves_atomically; try apply keeps_void;
    auto using keeps_ensure, keeps_create_station, keeps_update_station, keeps_category, keeps_uncategory, keeps_wire_dish,
      keeps_heartbeat, keeps_job_status, keeps_missing, keeps_start, keeps_recall, keeps_bump, keeps_finalize, keeps_modify_order, keeps_advance;
    by apply keeps_check.
Qed.
End flow_facts.

(** ** Lines after firing *)

Lemma find_app {A} (p : A → bool) l1 l2 :
  List.find p (l1 ++ l2) = match List.find p l1 with Some x => Some x | None => List.find p l2 end.
Proof. induction l1 as [|x l1 IH]; cbn; [done|]. by destruct (p x). Qed.
Lemma get_row_sets (fs : list Ticket) t i :
  get_row i (fold_left (λ t f, set_row f t) fs t) =
    match get_row i t with
    | None => None
    | Some r => Some (default r (List.find (λ f, tk_id f =? i) (List.rev fs)))
    end.
Proof.
  revert t. induction fs as [|f fs IH]; intros t; cbn [fold_left List.rev]; [by destruct (get_row i t)|].
  rewrite IH, find_app. cbn [List.find]. destruct (Z.eqb_spec (tk_id f) i) as [<-|Hne].
  - destruct (get_row (tk_id f) t) as [r|] eqn:Hr.
    + rewrite (get_row_set_eq _ f r) by done. by destruct (List.find _ _).
    + destruct (get_row (tk_id f) (set_row f t)) as [r|] eqn:Hs; [exfalso|done].
      apply get_row_Some in Hs as [Hin Hid]. apply elem_of_set_row in Hin as [(-> & r0 & Hr0 & Hid0)|[Hin Hne]]; [|done].
      pose proof (find_None_in _ _ _ Hr Hr0) as Hf. cbn in Hf. zbool. done.
  - rewrite get_row_set_ne by done. destruct (get_row i t) as [r|]; [|done]. by destruct (List.find _ (List.rev fs)).
Qed.

(** ** What the steps leave alone *)

Record untouched (s s' : kitchen_db) : Prop := {
  un_tickets : tickets s' = tickets s;
  un_stations : stations s' = stations s;
  un_defaults : category_defaults s' = category_defaults s;
  un_dishes : kitchen_dishes s' = kitchen_dishes s;
  un_jobs : print_jobs s' = print_jobs s;
  un_printers : printer_statuses s' = printer_statuses s;
  un_settings : kitchen_settings_of s' = kitchen_settings_of s;
  un_now : kt_now s' = kt_now s;
  un_branches : branches (kt_fleet s') = branches (kt_fleet s);
  un_addresses : addresses (kt_fleet s') = addresses (kt_fleet s);
}.
#[global] Instance untouched_preorder : PreOrder untouched.
Proof. split; [by intros s|]. intros s1 s2 s3 [] []. split; congruence. Qed.

Lemma whole_order_Some oid s o d k :
  whole_order oid s = Some (Whole o d k) ↔
  get_row oid (fl_orders (kt_fleet s)) = Some o ∧ get_row oid (deliveries (kt_fleet s)) = Some d ∧
  get_row oid (kitchen_orders s) = Some k.
Proof.
  unfold whole_order, both_halves. destruct (get_row oid (fl_orders _)), (get_row oid (deliveries _)), (get_row oid (kitchen_orders s));
    naive_solver.
Qed.
Lemma whole_order_run oid s w s' : the_order_whole oid s = Ok w s' → s' = s ∧ whole_order oid s = Some w.
Proof. unfold the_order_whole, mbind, M_bind, gets. destruct (whole_order oid s); [|done]. by intros [= <- <-]. Qed.
Lemma the_order_Ok oid s w : whole_order oid s = Some w → the_order_whole oid s = Ok w s.
Proof. unfold the_order_whole, mbind, M_bind, gets. by intros ->. Qed.

Lemma step_to_run oid st actor s s' :
  step_to oid st actor s = Ok tt s' →
  ∃ o d k, whole_order oid s = Some (Whole o d k) ∧ validate (o_status o) st = true ∧
    whole_order oid s' = Some (Whole (with_status st o) d k) ∧ untouched s s'.
Proof.
  unfold step_to. intros (w & s0 & [-> Hw]%whole_order_run & Hrun)%bind_Ok. destruct w as [o d k].
  apply zoom_Ok in Hrun as (f & Hrun & ->). cbn [w_order] in Hrun. exists o, d, k. split; [done|].
  apply transition_run in Hrun as (Hv & Hos & Hf). split; [done|].
  apply whole_order_Some in Hw as (Ho & Hd & Hk).
  assert (get_row oid (fl_orders f) = Some (with_status st o)) as Ho'.
  { rewrite Hos. apply (get_row_set_eq _ _ o); [|done]. by apply get_row_Some in Ho as [_ ?]. }
  split; [|rewrite Hf; by split]. apply whole_order_Some. split_and!; [exact Ho'| |exact Hk]. cbn. by rewrite Hf.
Qed.
Lemma change_delivery_run oid f s s' :
  (∀ d, dl_id (f d) = dl_id d) → change_delivery oid f s = Ok tt s' →
  ∃ o d k, whole_order oid s = Some (Whole o d k) ∧ whole_order oid s' = Some (Whole o (f d) k) ∧ untouched s s'.
Proof.
  intros Hf. unfold change_delivery. intros (w & s0 & [-> Hw]%whole_order_run & Hrun)%bind_Ok. destruct w as [o d k].
  injection Hrun as <-. exists o, d, k. split; [done|]. apply whole_order_Some in Hw as (Ho & Hd & Hk). split; [|by split].
  apply whole_order_Some. split_and!; [exact Ho| |exact Hk]. cbn. apply (get_row_set_eq _ _ d); [|done].
  apply get_row_Some in Hd as [_ <-]. apply Hf.
Qed.
Lemma change_kitchen_order_run oid f s s' :
  (∀ k, ko_id (f k) = ko_id k) → change_kitchen_order oid f s = Ok tt s' →
  ∃ o d k, whole_order oid s = Some (Whole o d k) ∧ whole_order oid s' = Some (Whole o d (f k)) ∧ untouched s s'.
Proof.
  intros Hf. unfold change_kitchen_order. intros (w & s0 & [-> Hw]%whole_order_run & Hrun)%bind_Ok. destruct w as [o d k].
  injection Hrun as <-. exists o, d, k. split; [done|]. apply whole_order_Some in Hw as (Ho & Hd & Hk). split; [|by split].
  apply whole_order_Some. split_and!; [exact Ho|exact Hd|]. cbn. apply (get_row_set_eq _ _ k); [|done].
  apply get_row_Some in Hk as [_ <-]. apply Hf.
Qed.
(** A call that keeps the order's rows. *)
Lemma quiet_in_fleet {A} oid (m : FM A) s a s' :
  in_fleet m s = Ok a s' → (∀ f, preserves (same_fleet f) m) → whole_order oid s' = whole_order oid s.
Proof.
  intros (f & Hrun & ->)%zoom_Ok Hm. apply (quiet_run _ _ _ _ (Hm _)) in Hrun as (H1 & H2 & _).
  unfold whole_order, both_halves. cbn. by rewrite H1, H2.
Qed.

Lemma deadline_ext sla geo o now s s' :
  untouched s s' → compute_prep_deadline sla geo o now s' = compute_prep_deadline sla geo o now s.
Proof. intros []. unfold compute_prep_deadline, settings_in. by rewrite un_branches0, un_addresses0, un_settings0. Qed.
Lemma estimate_ext o s s' : untouched s s' → compute_cook_estimate o s' = compute_cook_estimate o s.
Proof.
  intros []. unfold compute_cook_estimate, tickets_of, settings_in. by rewrite un_tickets0, un_dishes0, un_branches0, un_settings0.
Qed.

Lemma start_clock_run sla geo oid s s' :
  start_clock sla geo oid s = Ok tt s' →
  ∃ o d k, whole_order oid s = Some (Whole o d k) ∧ untouched s s' ∧
    whole_order oid s' = Some (Whole o
      (clock_started (kt_now s) CONFIRM_SLA_MINUTES (compute_prep_deadline sla geo (Whole o d k) (kt_now s) s) d)
      (with_cook_estimate (compute_cook_estimate (Whole o d k) s) k)).
Proof.
  unfold start_clock. intros (now & s0 & [= <- <-] & Hrun)%bind_Ok. apply bind_Ok in Hrun as (w & s0 & [-> Hw]%whole_order_run & Hrun).
  apply bind_Ok in Hrun as (p & s0 & [= <- <-] & Hrun). apply bind_Ok in Hrun as ([] & s1 & H1 & Hrun).
  apply bind_Ok in Hrun as (c & s2 & [= <- <-] & H2). destruct w as [o d k].
  apply change_delivery_run in H1 as (o1 & d1 & k1 & Hw1 & Hw2 & Hu1); [|done]. rewrite Hw in Hw1. injection Hw1 as <- <- <-.
  apply change_kitchen_order_run in H2 as (o2 & d2 & k2 & Hw3 & Hw4 & Hu2); [|done]. rewrite Hw2 in Hw3. injection Hw3 as <- <- <-.
  exists o, d, k. split; [done|]. split; [by etrans|]. by rewrite Hw4, (estimate_ext _ s s1).
Qed.

(** ** Firing, line by line *)

(** The lines are at a station, each once in one print job of its station; other lines and
    what has been printed stay. *)
Record sent_to_stations (rid oid : Z) (lines : list Ticket) (s s' : kitchen_db) : Prop := {
  st_lines : ∀ t, t ∈ lines → ∃ k c, get_row (tk_id t) (tickets s') = Some (fired (kt_now s) k c t) ∧ station_exists k (stations s');
  st_others : ∀ i, i ∉ tk_id <$> lines → get_row i (tickets s') = get_row i (tickets s);
  st_jobs : ∃ o fs gs js, o_id (w_order o) = oid ∧
    Forall2 (λ t f, ∃ k c, f = fired (kt_now s) k c t) lines fs ∧ grouped key_of fs gs ∧
    rows (print_jobs s') = rows (print_jobs s) ++ js ∧ Forall2 (job_for rid o s') gs js;
}.

Lemma find_rev_Some {A} (p : A → bool) l x : List.find p (List.rev l) = Some x → x ∈ l ∧ p x = true.
Proof. intros [Hx Hp]%find_Some_in. by rewrite list_elem_of_In, <-in_rev, <-list_elem_of_In in Hx. Qed.
Lemma find_rev_None {A} (p : A → bool) l x : List.find p (List.rev l) = None → x ∈ l → p x = false.
Proof. intros Hf Hx. apply (find_None_in _ _ _ Hf). by rewrite list_elem_of_In, <-in_rev, <-list_elem_of_In. Qed.

Lemma fire_sent rid o lines s s' :
  table_wf (tickets s) → (∀ t, t ∈ lines → t ∈ rows (tickets s) ∧ tk_cancelled t = false) →
  fires_lines rid o lines s s' (kt_now s) → sent_to_stations rid (o_id (w_order o)) lines s s'.
Proof.
  intros Hwf Hin [_ _ _ (fs & gs & js & Hfs & Ht & Hg & Hj & Hjs)].
  assert (List.filter (λ t, negb (tk_cancelled t)) lines = lines) as Hall.
  { clear -Hin. induction lines as [|x l IH]; [done|]. cbn. rewrite (proj2 (Hin x ltac:(by left))). cbn. f_equal. apply IH.
    intros t Hx. apply Hin. by right. }
  rewrite Hall in Hfs.
  assert (∀ f, f ∈ fs → ∃ t k c, t ∈ lines ∧ f = fired (kt_now s) k c t ∧ station_exists k (stations s')) as Hback.
  { intros f (n & Hn)%list_elem_of_lookup_1. destruct (Forall2_lookup_r _ _ _ _ _ Hfs Hn) as (t & Hlt & k & c & -> & Hk).
    apply list_elem_of_lookup_2 in Hlt. eauto 8. }
  split.
  - intros t Hx. destruct (Hin t Hx) as [Hrow _]. rewrite Ht, get_row_sets. change (tk_id t) with (row_id t).
    rewrite (get_row_wf _ _ Hwf Hrow). destruct (List.find _ _) as [x|] eqn:Hfind.
    + apply find_rev_Some in Hfind as [Hxf Hxi]. zbool. destruct (Hback x Hxf) as (t' & k & c & Ht' & -> & Hk).
      assert (t' = t) as -> by (apply (wf_unique _ Hwf); [by apply Hin|done|exact Hxi]). by exists k, c.
    + apply list_elem_of_lookup_1 in Hx as (n & Hn). destruct (Forall2_lookup_l _ _ _ _ _ Hfs Hn) as (f & Hf & k & c & -> & Hk).
      apply list_elem_of_lookup_2 in Hf. apply (find_rev_None _ _ _ Hfind) in Hf. cbn in Hf. zbool. done.
  - intros i Hi. rewrite Ht, get_row_sets. destruct (get_row i (tickets s)) as [r|]; [|done]. f_equal.
    destruct (List.find _ _) as [x|] eqn:Hfind; [exfalso|done]. apply find_rev_Some in Hfind as [Hxf Hxi]. zbool.
    destruct (Hback x Hxf) as (t & k & c & Ht' & -> & _). apply Hi, list_elem_of_fmap. by exists t.
  - exists o, fs, gs, js. split_and!; try done. eapply Forall2_impl; [done|]. intros t f (k & c & -> & _). by exists k, c.
Qed.

Lemma sets_wf (fs : list Ticket) t : table_wf t → table_wf (fold_left (λ t f, set_row f t) fs t).
Proof. revert t. induction fs as [|f fs IH]; intros t Ht; cbn; [done|]. apply IH. by apply set_row_wf. Qed.
Lemma live_in oid s t : t ∈ live_tickets oid s ↔ t ∈ rows (tickets s) ∧ tk_order_id t = oid ∧ tk_cancelled t = false.
Proof.
  unfold live_tickets. rewrite elem_of_all_where. rewrite andb_true_iff, negb_true_iff, Z.eqb_eq. tauto.
Qed.
Lemma filter_in {A} (p : A → bool) l x : x ∈ List.filter p l ↔ x ∈ l ∧ p x = true.
Proof. rewrite !list_elem_of_In. apply List.filter_In. Qed.
(** Firing an order's lines, seen from around it. *)
Lemma fire_order rid o p code s s' :
  kitchen_inv s → table_wf (tickets s) →
  create_tickets_for_items rid o (List.filter p (live_tickets (o_id (w_order o)) s)) code s = Ok tt s' →
  sent_to_stations rid (o_id (w_order o)) (List.filter p (live_tickets (o_id (w_order o)) s)) s s' ∧
  same_rest s s' ∧ kitchen_inv s' ∧ table_wf (tickets s').
Proof.
  intros Hs Hwf Hrun%fire_run; [|done]. split_and!; [|by destruct Hrun..|].
  - apply fire_sent; [done| |done]. intros t [Ht _]%filter_in. by apply live_in in Ht as (? & _ & ?).
  - destruct Hrun as [_ _ _ (fs & gs & js & _ & -> & _)]. by apply sets_wf.
Qed.
Lemma same_rest_whole oid s s' : same_rest s s' → whole_order oid s' = whole_order oid s.
Proof. intros (_ & Hf & Hk). unfold whole_order. by rewrite Hf, Hk. Qed.

Section properties.
Context (sla_customer_minutes : Z) (geo : geo_port).
Context (dispatch : Z → FM DispatchResult).
Context (token_urlsafe : Z → string) (tracking : tracking_geo) (url : string).
Abbreviation notify := (_notify_customer_status token_urlsafe tracking url).

(** No history of requests leaves a dangling reference in the kitchen: every fallback,
    category wiring and dish points to a station of its own branch, every fired line, print
    job and printer to a station that exists, and station names stay unique in a kitchen,
    also across removals, failed requests, and the calls that commit half way. *)
Theorem kitchen_references (l : list kitchen_request) s :
  kitchen_inv s → kitchen_inv (kitchen_history sla_customer_minutes geo dispatch notify l s).
Proof.
  unfold kitchen_history. revert s. induction l as [|r l IH]; intros s Hs; cbn; [done|]. apply IH.
  by apply keeps_request.
Qed.

(** The confirmed order: its rows, and its lines at their stations unless a rider brings it. *)
Definition confirmed_order (w : KOrder) (s : kitchen_db) : KOrder :=
  Whole (with_status CONFIRMED (w_order w))
    (clock_started (kt_now s) CONFIRM_SLA_MINUTES (compute_prep_deadline sla_customer_minutes geo w (kt_now s) s) (w_delivery w))
    (with_cook_estimate (compute_cook_estimate w s) (w_kitchen w)).
Definition goes_out (w : KOrder) : bool := in_strs (ko_order_type (w_kitchen w)) ["delivery"; "online"].
Definition not_held (t : Ticket) : bool := negb (tk_course_held t).

Lemma confirm_steps oid actor s s1 w :
  whole_order oid s = Some w → o_status (w_order w) ∈ [DRAFT; PENDING_CONFIRMATION] →
  ((if bool_decide (o_status (w_order w) = DRAFT) then step_to oid PENDING_CONFIRMATION actor else mret tt) ≫= λ _,
   step_to oid CONFIRMED actor) s = Ok tt s1 →
  whole_order oid s1 = Some (Whole (with_status CONFIRMED (w_order w)) (w_delivery w) (w_kitchen w)) ∧ untouched s s1.
Proof.
  destruct w as [o d k]. cbn. intros Hw Hst ([] & s0 & H1 & H2)%bind_Ok.
  apply step_to_run in H2 as (o2 & d2 & k2 & Hw2 & _ & Hw' & Hu2).
  case_bool_decide.
  - apply step_to_run in H1 as (o1 & d1 & k1 & Hw1 & _ & Hw1' & Hu1). rewrite Hw in Hw1. injection Hw1 as <- <- <-.
    rewrite Hw1' in Hw2. injection Hw2 as <- <- <-. split; [exact Hw'|by etrans].
  - injection H1 as <-. rewrite Hw in Hw2. injection Hw2 as <- <- <-. done.
Qed.

(** The firing of a confirmed order, from the state before its confirmation. *)
Lemma confirm_fire oid s s5 s6 w :
  kitchen_inv s → table_wf (tickets s) → untouched s s5 → o_id (w_order w) = oid →
  whole_order oid s5 = Some (confirmed_order w s) →
  (if goes_out w then mret tt else
   o' ← the_order_whole oid; create_tickets_for_order (o_restaurant_id (w_order w)) o' None) s5 = Ok tt s6 →
  whole_order oid s6 = Some (confirmed_order w s) ∧
  (if goes_out w then tickets s6 = tickets s ∧ print_jobs s6 = print_jobs s
   else sent_to_stations (o_restaurant_id (w_order w)) oid (List.filter not_held (live_tickets oid s)) s s6).
Proof.
  intros Hinv Hwf [E1 E2 E3 E4 E5 E6 _ E7 _ _] Hoid Hw5 H6. destruct (goes_out w).
  { injection H6 as <-. done. }
  apply bind_Ok in H6 as (w' & s0 & [-> Hw']%whole_order_run & H6).
  assert (w' = confirmed_order w s) as -> by congruence.
  unfold create_tickets_for_order in H6. apply bind_Ok in H6 as (it & s0 & [= <- <-] & H6).
  apply (fire_order _ (confirmed_order w s)) in H6 as (Hsent & Hrest & _ & _); [|by apply (kitchen_inv_ext s)|by rewrite E1].
  rewrite (same_rest_whole oid s5 s6 Hrest). split; [done|]. revert Hsent.
  assert (live_tickets (o_id (w_order (confirmed_order w s))) s5 = live_tickets oid s) as ->.
  { unfold live_tickets. rewrite E1. cbn. by rewrite Hoid. }
  cbn. rewrite Hoid. intros [S1 S2 S3]. rewrite E7 in S1, S3. rewrite E1 in S2. rewrite E5 in S3. by split.
Qed.


Lemma queue_text_quiet rid phone body key f : preserves (same_fleet f) (queue_text rid phone body key).
Proof. unfold queue_text. apply preserves_bind; [apply quiet_outbox|intros _; apply preserves_ret]. Qed.
Lemma queue_text_untouched rid phone body key s s' : in_fleet (queue_text rid phone body key) s = Ok tt s' → untouched s s'.
Proof.
  intros (f & Hrun & ->)%zoom_Ok. unfold queue_text in Hrun. apply bind_Ok in Hrun as (b & s1 & Hrun & [= <-]).
  apply zoom_Ok in Hrun as (x & _ & ->). by split.
Qed.
(** The refreshed plate-by time: nothing but that column of the order, and a message. *)
Lemma refresh_run oid s s' o d k :
  whole_order oid s = Some (Whole o d k) → _refresh_prep_deadline sla_customer_minutes geo oid s = Ok tt s' →
  untouched s s' ∧ ∃ d', whole_order oid s' = Some (Whole o d' k).
Proof.
  intros Hw. unfold _refresh_prep_deadline. rewrite (bind_run_Ok _ _ _ _ _ (the_order_Ok _ _ _ Hw)).
  intros (now & s0 & [= <- <-] & Hrun)%bind_Ok. apply bind_Ok in Hrun as (new & s0 & [= <- <-] & Hrun).
  destruct (compute_prep_deadline _ _ _ _ _) as [new|]; [|injection Hrun as <-; split; [reflexivity|by exists d]].
  apply bind_Ok in Hrun as ([] & s1 & H1 & Hrun). apply change_delivery_run in H1 as (o1 & d1 & k1 & Hw1 & Hw2 & Hu1); [|done].
  rewrite Hw in Hw1. injection Hw1 as <- <- <-.
  destruct (prep_deadline _) as [old|]; [|injection Hrun as <-; by eauto].
  destruct (old - new <=? minutes 5); [injection Hrun as <-; by eauto|].
  apply bind_Ok in Hrun as (br & s0 & [= <- <-] & Hrun).
  destruct (get_row _ (branches _)) as [br|]; [|injection Hrun as <-; by eauto].
  split; [etrans; [exact Hu1|by apply queue_text_untouched in Hrun]|].
  eexists. rewrite (quiet_in_fleet oid _ _ _ _ Hrun); [exact Hw2|]. intros f. apply queue_text_quiet.
Qed.

Lemma none_unrouted oid s s' :
  table_wf (tickets s') →
  (∀ t, t ∈ unrouted oid s → ∃ k c, get_row (tk_id t) (tickets s') = Some (fired (kt_now s) k c t) ∧ station_exists k (stations s')) →
  (∀ i, i ∉ tk_id <$> unrouted oid s → get_row i (tickets s') = get_row i (tickets s)) → unrouted oid s' = [].
Proof.
  intros Hwf H1 H2. apply elem_of_nil_inv. intros t [Ht Hun]%filter_in. apply live_in in Ht as (Ht & Hto & Htc).
  pose proof (get_row_wf _ _ Hwf Ht) as Hg. change (row_id t) with (tk_id t) in Hg.
  destruct (decide (tk_id t ∈ tk_id <$> unrouted oid s)) as [(t0 & Hid & Hin)%list_elem_of_fmap|Hnin].
  - destruct (H1 t0 Hin) as (k & c & Hf & _). rewrite <-Hid, Hg in Hf. injection Hf as ->. by cbn in Hun.
  - rewrite (H2 _ Hnin) in Hg. apply get_row_Some in Hg as [Hin _]. apply Hnin, list_elem_of_fmap. exists t. split; [done|].
    apply filter_in. split; [by apply live_in|done].
Qed.

(** C16. The kitchen ticket of a confirmed order leaves nothing behind: the order is being
    prepared, every line that counts, is not held for a later course and had no station is
    now at one and in exactly one print job of that station, no line is left without a
    station, and the lines that were fired before keep their station and their progress. *)
Theorem kitchen_ticket_leaves_none oid actor s s' st w :
  kitchen_inv s → table_wf (tickets s) → whole_order oid s = Some w → o_id (w_order w) = oid →
  o_status (w_order w) = CONFIRMED →
  advance_step sla_customer_minutes geo notify oid actor s = Ok st s' →
  st = PREPARING ∧ unrouted oid s' = [] ∧
  sent_to_stations (o_restaurant_id (w_order w)) oid (unrouted oid s) s s' ∧
  (option_map (λ x, o_status (w_order x)) (whole_order oid s') = Some PREPARING).
Proof.
  intros Hinv Hwf Hw Hoid Hst. unfold advance_step. rewrite (bind_run_Ok _ _ _ _ _ (the_order_Ok _ _ _ Hw)).
  rewrite Hst. cbn [_KITCHEN_TRANSITIONS]. intros ([] & s1 & H1 & Hrun)%bind_Ok.
  apply bind_Ok in Hrun as ([] & s5 & H5 & [= <- <-]). split; [done|].
  apply step_to_run in H1 as (o & d & k & Hw0 & _ & Hw1 & Hu1). rewrite Hw in Hw0. injection Hw0 as ->. cbn in Hoid |- *.
  rewrite bool_decide_eq_true_2 in H5 by done. apply bind_Ok in H5 as ([] & s2 & H2 & Hrun).
  destruct (refresh_run _ _ _ _ _ _ Hw1 H2) as (Hu2 & d2 & Hw2).
  apply bind_Ok in Hrun as (fl & s0 & [= <- <-] & Hrun). apply bind_Ok in Hrun as (w2 & s0 & [-> Hw2']%whole_order_run & Hrun).
  rewrite Hw2 in Hw2'. injection Hw2' as <-.
  apply bind_Ok in Hrun as ([] & s3 & H3 & H4).
  assert (untouched s s2) as Hu by (by etrans).
  destruct Hu as [E1 E2 E3 E4 E5 E6 _ E7 _ _].
  assert (live_tickets oid s2 = live_tickets oid s) as Hl by (unfold live_tickets; by rewrite E1).
  unfold unrouted in H3. rewrite <-Hoid in H3 at 1.
  apply (fire_order _ (Whole (with_status PREPARING o) d2 k)) in H3 as (Hsent & Hrest & _ & Hwf3); [|by apply (kitchen_inv_ext s)|by rewrite E1].
  cbn in Hsent. rewrite Hoid, Hl in Hsent. change (List.filter _ (live_tickets oid s)) with (unrouted oid s) in Hsent.
  assert (whole_order oid s5 = whole_order oid s3) as Hw5 by (apply (quiet_in_fleet oid _ _ _ _ H4); intros f; apply quiet_notice).
  apply zoom_Ok in H4 as (f & _ & ->). destruct Hsent as [S1 S2 S3]. rewrite E7 in S1, S3. rewrite E1 in S2. rewrite E5 in S3.
  split_and!; [|by split|].
  - by apply (none_unrouted oid s).
  - rewrite Hw5, (same_rest_whole oid s2 s3 Hrest), Hw2. done.
Qed.

(** Stepping the order succeeds when the graph allows it. *)
Lemma step_to_Ok oid st actor s w :
  whole_order oid s = Some w → validate (o_status (w_order w)) st = true → ∃ s', step_to oid st actor s = Ok tt s'.
Proof.
  intros Hw Hv. unfold step_to. rewrite (bind_run_Ok _ _ _ _ _ (the_order_Ok _ _ _ Hw)).
  unfold in_fleet, zoom at 1. unfold zoom at 1.
  destruct (transition_accepts (w_order w) st actor None (view (kt_fleet s)) Hv) as (f & Hrun & _).
  change (view s) with (kt_fleet s). rewrite Hrun. eauto.
Qed.
(** The last step of the kitchen: the order is ready, its lines are as they were. *)
Lemma plated_run oid actor s w :
  whole_order oid s = Some w → o_status (w_order w) = PREPARING →
  ∃ s', advance_step sla_customer_minutes geo notify oid actor s = Ok READY s' ∧ untouched s s' ∧
    whole_order oid s' = Some (Whole (with_status READY (w_order w)) (w_delivery w) (w_kitchen w)).
Proof.
  intros Hw Hst. unfold advance_step. rewrite (bind_run_Ok _ _ _ _ _ (the_order_Ok _ _ _ Hw)). rewrite Hst. cbn [_KITCHEN_TRANSITIONS].
  destruct (step_to_Ok oid READY actor s w Hw) as (s' & Hrun); [by rewrite Hst|]. exists s'.
  rewrite (bind_run_Ok _ _ _ _ _ Hrun). split; [done|].
  apply step_to_run in Hrun as (o & d & k & Hw0 & _ & Hw' & Hu). rewrite Hw in Hw0. injection Hw0 as ->. done.
Qed.

Definition bumped (now : Z) (by_ : option Z) (t : Ticket) : Ticket :=
  progressed KReady (Some now) (match by_ with Some _ => by_ | None => tk_bumped_by_staff_id t end) t.
Definition who_bumped (who actor : option Z) : option Z :=
  match who with Some i => if i =? 0 then actor else who | None => actor end.
Lemma bump_step_run rid i who actor s t w :
  get_row i (tickets s) = Some t → whole_order (tk_order_id t) s = Some w → o_restaurant_id (w_order w) = rid →
  ∃ s1, bump_step rid i who actor s = Ok (bumped (kt_now s) (who_bumped who actor) t) s1 ∧
    tickets s1 = set_row (bumped (kt_now s) (who_bumped who actor) t) (tickets s) ∧
    whole_order (tk_order_id t) s1 = Some w.
Proof.
  destruct w as [o d k]. intros Ht Hw Hr. pose proof Hw as (Ho & _ & _)%whole_order_Some. cbn in Hr.
  assert (_get_owned_item i rid s = Ok t s) as Hown.
  { unfold _get_owned_item, mbind, M_bind, gets. rewrite Ht, Ho, Hr, Z.eqb_refl. done. }
  unfold bump_step. rewrite (bind_run_Ok _ _ _ _ _ Hown). eexists. split; [reflexivity|]. split; [done|]. exact Hw.
Qed.

(** The order is being prepared and no other line of it that counts is still cooking. *)
Definition last_line (t : Ticket) (w : KOrder) (s : kitchen_db) : bool :=
  bool_decide (o_status (w_order w) = PREPARING) &&
  forallb (λ x, (tk_id x =? tk_id t) || bool_decide (tk_kitchen_status x = KReady)) (live_tickets (tk_order_id t) s).

Lemma last_line_spec t now by_ w s s1 :
  table_wf (tickets s) → get_row (tk_id t) (tickets s) = Some t → tickets s1 = set_row (bumped now by_ t) (tickets s) →
  bool_decide (o_status (w_order w) = PREPARING) = true →
  still_cooking (tk_order_id t) s1 = negb (last_line t w s).
Proof.
  intros Hwf Ht Hs1 Hp. unfold last_line, still_cooking. rewrite Hp. cbn [andb]. apply eq_true_iff_eq.
  rewrite existsb_exists, negb_true_iff, <-not_true_iff_false, forallb_forall. setoid_rewrite <-list_elem_of_In.
  setoid_rewrite live_in. rewrite Hs1. split.
  - intros (x & (Hx & Hxo & Hxc) & Hr) Hall. apply elem_of_set_row in Hx as [(-> & _)|[Hx Hne]]; [by cbn in Hr|].
    specialize (Hall x (conj Hx (conj Hxo Hxc))). apply orb_true_iff in Hall as [Hall|Hall]; zbool; [by apply Hne|].
    by rewrite Hall in Hr.
  - intros Hn. destruct (existsb (λ x, negb ((tk_id x =? tk_id t) || bool_decide (tk_kitchen_status x = KReady)))
        (live_tickets (tk_order_id t) s)) eqn:He.
    + apply existsb_exists in He as (x & Hx%list_elem_of_In & Hp'). apply live_in in Hx as (Hx & Hxo & Hxc).
      zbool. pose proof (elem_of_set_row_2 (bumped now by_ t) x _ Hx) as Hin. change (row_id x) with (tk_id x) in Hin.
      change (row_id (bumped now by_ t)) with (tk_id t) in Hin. rewrite (proj2 (Z.eqb_neq _ _)) in Hin by done.
      exists x. split; [done|]. apply negb_true_iff. by apply bool_decide_eq_false.
    + exfalso. apply Hn. intros x Hx. apply live_in in Hx.
      apply not_true_iff_false in He. destruct (_ || _) eqn:Hb; [done|]. destruct He. apply existsb_exists. exists x.
      rewrite <-list_elem_of_In, Hb. done.
Qed.


(** Lines of an order without a station. *)
Definition never_fired (oid : Z) (t : table Ticket) : Prop :=
  ∀ x, x ∈ rows t → tk_order_id x = oid → tk_station_id_snapshot x = None.
Lemma add_entries_run oid items s s' :
  for_each (add_entry oid) items s = Ok tt s' → never_fired oid (tickets s) →
  never_fired oid (tickets s') ∧ whole_order oid s' = whole_order oid s.
Proof.
  revert s. induction items as [|e items IH]; intros s; cbn [for_each].
  { by intros [= <-]. }
  intros ([] & s1 & H1 & H2)%bind_Ok Hnf.
  assert (never_fired oid (tickets s1) ∧ whole_order oid s1 = whole_order oid s) as [Hn1 Hw1].
  { unfold add_entry in H1. apply bind_Ok in H1 as (n & s0 & [= <- <-] & H1). apply bind_Ok in H1 as (t & s0 & [= <- <-] & H1).
    apply bind_Ok in H1 as ([] & s0 & [= <-] & H1). apply zoom_Ok in H1 as (f & [= <-] & ->). split; [|done].
    intros x [Hx| ->]%elem_of_add_row Hxo; [by apply Hnf|done]. }
  destruct (IH s1 H2 Hn1) as [Hn2 Hw2]. split; [done|]. congruence.
Qed.

(** A basket that is changed while its order is being prepared never reaches a
    station: the new lines have none, so no board shows them, the order keeps its status,
    and the only step it can still take leads to ready without firing them.  (The kitchen
    ticket fires lines on the step from confirmed only.) *)
Theorem modified_order_unfired oid items actor s s' w :
  whole_order oid s = Some w → o_status (w_order w) = PREPARING →
  modify_order sla_customer_minutes geo oid items actor s = Ok tt s' →
  never_fired oid (tickets s') ∧
  (∀ rid k ready x, x ∈ station_lines rid k ready s' → tk_order_id x ≠ oid) ∧
  ∃ s2, advance_step sla_customer_minutes geo notify oid actor s' = Ok READY s2 ∧ tickets s2 = tickets s' ∧ print_jobs s2 = print_jobs s'.
Proof.
  intros Hw Hst. unfold modify_order. rewrite (bind_run_Ok _ _ _ _ _ (the_order_Ok _ _ _ Hw)), Hst.
  rewrite bool_decide_eq_false_2 by (by apply (bool_decide_unpack _)). intros (b & s0 & [= <- <-] & Hrun)%bind_Ok.
  apply bind_Ok in Hrun as ([] & s1 & [= <-] & Hrun). apply bind_Ok in Hrun as ([] & s2 & H2 & Hrun).
  apply zoom_Ok in H2 as (f & [= <-] & ->).
  apply bind_Ok in Hrun as ([] & s3 & H3 & Hrun). apply add_entries_run in H3 as [Hn3 Hw3].
  2:{ intros x [_ Hx]%elem_of_del_where Hxo. by zbool. }
  apply bind_Ok in Hrun as (tot & s4 & H4 & Hrun).
  assert (whole_order oid s4 = whole_order oid s3) as Hw4 by (apply (quiet_in_fleet oid _ _ _ _ H4); intros f; apply quiet_pay).
  apply zoom_Ok in H4 as (f4 & _ & ->).
  apply bind_Ok in Hrun as ([] & s5 & H5 & Hrun). apply start_clock_run in H5 as (o & d & k & Hw5 & Hu & Hw5').
  apply bind_Ok in Hrun as (w' & s6 & [-> _]%whole_order_run & Hrun). apply bind_Ok in Hrun as (a & s6 & [= <- <-] & Hrun).
  apply bind_Ok in Hrun as (row & s6 & H6 & [= <-]). injection H6 as _ <-.
  assert (never_fired oid (tickets s5)) as Hn5 by (by rewrite (un_tickets _ _ Hu)).
  split; [exact Hn5|]. split.
  - intros rid kk ready x Hx Hxo. unfold station_lines, on_pass in Hx. apply elem_of_all_where in Hx as [Hx Hp]. zbool.
    specialize (Hn5 x Hx Hxo). congruence.
  - assert (w = Whole o (w_delivery w) (w_kitchen w)) as Ho.
    { rewrite Hw4, Hw3 in Hw5. change (whole_order oid s = Some (Whole o d k)) in Hw5. rewrite Hw in Hw5. by injection Hw5 as ->. }
    rewrite Ho in Hst. cbn in Hst.
    match goal with |- ∃ s2, advance_step _ _ _ _ _ ?x = _ ∧ _ => destruct (plated_run oid actor x _ Hw5' Hst) as (s7 & Hadv & Hu7 & _) end.
    exists s7. split; [done|]. split; [apply (un_tickets _ _ Hu7)|apply (un_jobs _ _ Hu7)].
Qed.
End properties.
