(* ===== verification/KitchenCases.v ===== *)
(** * The kitchen's boards, its times and a small kitchen

    What the boards list and in which order, the plate-by time, what removing a station
    leaves; and a concrete kitchen: the orders that get stuck, and the states the theorems
    about the kitchen are applied to. *)

From Stdlib Require Import SpecFloat.
From S2P Require Import Prelude Money Strings Db AuditTrail Clock Floats Wallet Coupons OrderFsm OrderFsmFacts OrderPayments Outbox Notify Loyalty Cod Batching Scoring Optimizer Fleet FleetFacts Dispatch DispatchFacts FleetCases KitchenDb Kitchen KitchenFlow KitchenFacts KitchenFlowFacts.

(** ** The boards *)

Lemma before_on_board_total a b : before_on_board a b = false → before_on_board b a = true.
Proof.
  unfold before_on_board. rewrite orb_false_iff, andb_false_iff, orb_true_iff, andb_true_iff, !Z.ltb_ge, Z.ltb_lt, Z.eqb_neq,
    Z.eqb_eq, Z.leb_gt, Z.leb_le. lia.
Qed.
Lemma before_on_board_trans a b c : before_on_board a b = true → before_on_board b c = true → before_on_board a c = true.
Proof. unfold before_on_board. rewrite !orb_true_iff, !andb_true_iff, !Z.ltb_lt, !Z.eqb_eq, !Z.leb_le. lia. Qed.

Lemma elem_of_station_lines rid k ready s t :
  t ∈ station_lines rid k ready s ↔
  t ∈ rows (tickets s) ∧ tk_station_id_snapshot t = Some k ∧ tk_cancelled t = false ∧
  (tk_kitchen_status t = KReady → ready = true) ∧
  ∃ w, whole_order (tk_order_id t) s = Some w ∧ o_restaurant_id (w_order w) = rid ∧ dead w = false ∧ ko_held_at (w_kitchen w) = None.
Proof.
  unfold station_lines, on_pass. rewrite elem_of_all_where, !andb_true_iff, negb_true_iff, !bool_decide_eq_true.
  assert (tk_kitchen_status t ∈ [KReceived; KPreparing] ++ (if ready then [KReady] else []) ↔ (tk_kitchen_status t = KReady → ready = true)) as ->.
  { destruct (tk_kitchen_status t), ready; cbn; set_solver. }
  destruct (whole_order (tk_order_id t) s) as [w|].
  - rewrite !andb_true_iff, negb_true_iff, Z.eqb_eq, bool_decide_eq_true. split.
    + intros (? & ((? & ?) & ?) & (? & ?) & ?). split_and!; try done. by exists w.
    + intros (? & ? & ? & ? & w' & [= <-] & ? & ? & ?). by split_and!.
  - split; [by intros (? & _ & ?)|by intros (_ & _ & _ & _ & w & ? & _)].
Qed.

Lemma enriched_lines (f : Ticket → BoardTicket) l : (∀ t, bt_line (f t) = t) → bt_line <$> map f l = l.
Proof. intros Hf. induction l as [|t l IH]; cbn; [done|]. by rewrite Hf, IH. Qed.

(** A station's board shows each line that is cooked there exactly once: the lines at
    the station that count, not yet plated (or also those), of orders of the branch that
    are neither cancelled, resold nor held; rush orders come before the others, and among
    them the lines that wait longest.  Looking changes nothing. *)
Theorem board_shows_station rid k ready s :
  ∃ board, list_station_tickets rid k ready s = Ok board s ∧
    bt_line <$> board ≡ₚ station_lines rid k ready s ∧ StronglySorted before_on_board board ∧
    ∀ t, t ∈ bt_line <$> board ↔
      t ∈ rows (tickets s) ∧ tk_station_id_snapshot t = Some k ∧ tk_cancelled t = false ∧
      (tk_kitchen_status t = KReady → ready = true) ∧
      ∃ w, whole_order (tk_order_id t) s = Some w ∧ o_restaurant_id (w_order w) = rid ∧ dead w = false ∧ ko_held_at (w_kitchen w) = None.
Proof.
  eexists. split; [reflexivity|]. match goal with |- bt_line <$> ?b ≡ₚ _ ∧ _ => set (board := b) end.
  assert (bt_line <$> board ≡ₚ station_lines rid k ready s) as Hp.
  { subst board. cbv zeta. rewrite !sort_by_perm, enriched_lines by done. done. }
  split; [done|]. split; [apply sort_by_sorted; [apply before_on_board_total|apply before_on_board_trans]|].
  intros t. rewrite Hp. apply elem_of_station_lines.
Qed.

(** ** The plate-by time *)

(** The plate-by time leaves the rider what the settings ask for: it is never before
    the start of the clock, and when the promise leaves any cooking time at all, plating by
    then and driving, with the handling and batching margins, keeps the customer's promise
    exactly. *)
Theorem plate_by_keeps_promise sla geo w now s p a b :
  compute_prep_deadline sla geo w now s = Some p →
  (i ← address_id (w_delivery w); x ← get_row i (addresses (kt_fleet s)); ad_at x) = Some a →
  (x ← get_row (o_restaurant_id (w_order w)) (branches (kt_fleet s)); br_at x) = Some b →
  let rs := settings_in (o_restaurant_id (w_order w)) s in
  let away := geo_eta_minutes geo (geo_distance_km geo b a) + default 5 (raw_prep_handling_minutes rs) + default 5 (raw_batch_safety_minutes rs) in
  now ≤ p ∧ (if away <=? sla then p + minutes away = now + minutes sla else p = now).
Proof.
  intros Hp Ha Hb. cbv zeta. unfold compute_prep_deadline in Hp. rewrite Ha, Hb in Hp. cbn in Hp. injection Hp as <-.
  unfold minutes, minute, second in *. destruct (_ <=? _) eqn:Hle; zbool; split; try lia.
Qed.

(** ** Removing a station *)

Definition at_station (k : Z) (t : Ticket) : bool := bool_decide (tk_station_id_snapshot t = Some k).
Lemma rehomed_count i m l :
  m ≠ i → count (at_station m) (map (rehome_ticket i m) l) = count (at_station m) l + count (at_station i) l.
Proof.
  intros Hne. unfold count. induction l as [|t l IH]; cbn; [done|]. rewrite IH. unfold at_station, rehome_ticket.
  destruct (bool_decide (tk_station_id_snapshot t = Some i)) eqn:Hi; zbool.
  - rewrite bool_decide_eq_true_2 by done. rewrite bool_decide_eq_false_2 by congruence. lia.
  - destruct (bool_decide _); lia.
Qed.

(** Removing a station loses no work: its lines, fired or plated, are at the Main
    station of the same kitchen afterwards, which therefore has as many lines as both had;
    the other lines stay where they are; and nothing names the removed station any more: no
    line, print job, printer, wiring, dish or fallback.  The Main station is never removed. *)
Theorem station_removed rid i s s' :
  kitchen_inv s → delete_station rid i s = Ok tt s' →
  ∃ main, main ∈ rows (stations s') ∧ ks_name main = "Main" ∧ ks_restaurant_id main = rid ∧ ks_id main ≠ i ∧
    count_where (at_station (ks_id main)) (tickets s') =
      count_where (at_station (ks_id main)) (tickets s) + count_where (at_station i) (tickets s) ∧
    (∀ t, t ∈ rows (tickets s) → rehome_ticket i (ks_id main) t ∈ rows (tickets s')) ∧
    ¬ station_exists i (stations s') ∧ kitchen_inv s' ∧
    (∀ t, t ∈ rows (tickets s') → tk_station_id_snapshot t ≠ Some i).
Proof.
  intros Hs Hrun. pose proof (keeps_delete_station rid i s Hs) as Hinv'. unfold atomically in Hinv'. rewrite Hrun in Hinv'. cbn in Hinv'.
  apply delete_station_run in Hrun as (st & main & s1 & Hst & Hi & Hr & Hn & Hm & E1 & E2 & E3 & E4 & E5 & E6).
  destruct (main_run rid (ks_kitchen_code st) s) as (m & s2 & Hm' & Hmin & Hmr & _ & Hmn & Hs2). rewrite Hm in Hm'. injection Hm' as <- <-.
  pose proof (keeps_main rid (ks_kitchen_code st) s Hs) as Hs1. rewrite Hm in Hs1. cbn in Hs1.
  assert (tickets s1 = tickets s) as Ht1 by by destruct Hs2 as [->|[-> _]].
  assert (st ∈ rows (stations s1)) as Hst1.
  { destruct Hs2 as [->|[-> _]]; [done|]. apply elem_of_add_row. by left. }
  assert (ks_id main ≠ i) as Hne.
  { intros He. apply Hn. rewrite <-Hmn. f_equal. apply (wf_unique _ (ki_stations _ Hs1)); [done..|]. change row_id with ks_id. congruence. }
  destruct (drop_fallback_same rid i main) as (Hd1 & Hd2 & _ & Hd4).
  assert (¬ station_exists i (stations s')) as Hgone.
  { intros (x & Hx & Hxi). rewrite E1 in Hx. apply elem_of_del_row in Hx as [_ Hx]. done. }
  exists (drop_fallback rid i main). rewrite Hd1, Hd2, Hd4. split_and!; try done.
  - rewrite E1. apply elem_of_del_row. change row_id with ks_id. rewrite Hd1. split; [|done]. apply map_station_rows. eauto.
  - rewrite E4, Ht1. apply rehomed_count. done.
  - intros t Ht. rewrite E4, Ht1. cbn. apply list_elem_of_In, List.in_map, list_elem_of_In, Ht.
  - intros t Ht He. apply Hgone. pose proof (ki_tickets _ Hinv' t Ht) as Hx. by rewrite He in Hx.
Qed.

(** ** The bell *)

Lemma max_stamp_spec l m : max_stamp l = Some m → m ∈ l ∧ ∀ x, x ∈ l → x ≤ m.
Proof.
  destruct l as [|x l]; [done|]. cbn. intros [= <-]. revert x. induction l as [|y l IH]; intros x; cbn.
  - split; [by left|]. intros z ->%list_elem_of_singleton. lia.
  - destruct (IH (Z.max x y)) as [H1 H2]. split.
    + apply elem_of_cons in H1 as [H1|H1]; [rewrite H1; destruct (Z.max_spec x y) as [[_ ->]|[_ ->]]; [right; left|left]|right; by right].
    + intros z [->|[->|Hz]%elem_of_cons]%elem_of_cons; [specialize (H2 (Z.max x y) ltac:(by left)); lia..|].
      apply H2. by right.
Qed.
(** The bell rings for an order when all its lines that count are plated and the last
    of them was plated after the watermark the client sent, and it tells when that was.  The
    caller's orders only: those they placed in their branch, open, of the last half day. *)
Theorem bell_rings_when_ready rid me since s a :
  a ∈ ready_alerts_of rid me since s →
  ∃ w, w ∈ whole_orders s ∧ ra_order_id a = o_id (w_order w) ∧ o_restaurant_id (w_order w) = rid ∧
    ko_staff_id (w_kitchen w) = Some me ∧ o_status (w_order w) ∉ [DELIVERED; CANCELLED] ∧
    kt_now s - hours 12 ≤ o_created_at (w_order w) ∧ since < ra_ready_at a ∧
    live_tickets (o_id (w_order w)) s ≠ [] ∧
    (∀ t, t ∈ live_tickets (o_id (w_order w)) s → tk_kitchen_status t = KReady ∧ ∀ b, tk_bumped_at t = Some b → b ≤ ra_ready_at a) ∧
    (∃ t, t ∈ live_tickets (o_id (w_order w)) s ∧ tk_bumped_at t = Some (ra_ready_at a)).
Proof.
  unfold ready_alerts_of. rewrite list_elem_of_omap. intros (g & _ & Ha).
  destruct (List.find _ _) as [w|] eqn:Hf; [|done]. cbn in Ha. apply find_Some_in in Hf as [Hw _].
  apply filter_in in Hw as [Hw Hp]. zbool.
  unfold ready_alert in Ha. destruct (bool_decide (live_tickets _ s = [])) eqn:Hne; [done|]. zbool.
  destruct (existsb _ _) eqn:Hall; [done|]. destruct (max_stamp _) as [m|] eqn:Hm; [|done]. cbn in Ha.
  destruct (m <=? since) eqn:Hs; [done|]. zbool. injection Ha as <-. cbn.
  apply max_stamp_spec in Hm as [Hin Hmax]. exists w. split_and!; try done.
  - intros t Ht. split.
    + apply not_true_iff_false in Hall. destruct (decide (tk_kitchen_status t = KReady)) as [|Hnr]; [done|]. destruct Hall.
      apply existsb_exists. exists t. rewrite <-list_elem_of_In. split; [done|]. by rewrite bool_decide_eq_false_2.
    + intros b Hb. apply Hmax, list_elem_of_omap. by exists t.
  - apply list_elem_of_omap in Hin as (t & Ht & Hb). by exists t.
Qed.

(** ** A small kitchen

    The town's restaurant with a Main station and a grill whose printer is down: an order
    being prepared, a confirmed delivery and a draft of a table with a held course. *)
Definition small_station (i : Z) (name ty : string) (fb : option Z) : KitchenStation :=
  {| ks_id := i; ks_restaurant_id := 1; ks_name := name; ks_station_type := ty; ks_kitchen_code := "main"; ks_printer_ip := None;
     ks_printer_port := None; ks_fallback_station_id := fb; ks_is_active := true |}.
Definition small_line (i oid dish : Z) (station : option Z) (held : bool) : Ticket :=
  Build_Ticket i oid dish "Kebab" None 2 None false [] ["nuts"%string] held town_now KReceived station (if station then Some "main"%string else None)
    (if station then Some town_now else None) None None false false false None.
Definition small_order (i : Z) (ty : string) : KitchenOrder :=
  {| ko_id := i; ko_order_type := ty; ko_held_at := None; ko_customer_allergy_notes := None; ko_staff_id := Some 7;
     ko_daily_token := None; ko_source_channel := None; ko_cook_estimate_minutes := None |}.
Definition kebab : KitchenDish :=
  {| kd_id := 1; kd_restaurant_id := 1; kd_category := Some "Grill"%string; kd_station_id := None; kd_prep_minutes := Some 12 |}.
Definition small_kitchen : kitchen_db :=
  {| kt_fleet := town "greedy" [(PREPARING, None); (CONFIRMED, None); (DRAFT, None)] [spot_at 1 0; spot_at 2 0; spot_at 3 0]
       [town_rider 1 Available true];
     stations := listing [small_station 1 "Main" "main" None; small_station 2 "Grill" "grill" (Some 1)];
     category_defaults := listing [{| cs_id := 1; cs_restaurant_id := 1; cs_category := "Grill"; cs_station_id := 2 |}];
     print_jobs := empty_table;
     printer_statuses := listing [{| pt_id := 1; pt_restaurant_id := 1; pt_station_id := 2; pt_healthy := false; pt_last_heartbeat_at := town_now |}];
     kitchen_dishes := listing [kebab; {| kd_id := 2; kd_restaurant_id := 1; kd_category := None; kd_station_id := None; kd_prep_minutes := None |}];
     tickets := listing [small_line 1 1 1 (Some 2) false; small_line 2 2 1 None false; small_line 3 2 2 None false;
                         small_line 4 3 1 None true; small_line 5 3 1 None false];
     kitchen_orders := listing [small_order 1 "delivery"; small_order 2 "delivery"; small_order 3 "dine_in"];
     table_labels := []; kitchen_settings_of := []; kitchen_calls := [] |}.

Lemma small_kitchen_ok : kitchen_inv small_kitchen.
Proof.
  split; cbn.
  - apply table_wf_check. reflexivity.
  - intros a b Ha Hb. cbn in Ha, Hb. rewrite !elem_of_cons, elem_of_nil in Ha, Hb.
    destruct Ha as [->|[->|[]]], Hb as [->|[->|[]]]; try done; by intros [=].
  - intros st. rewrite !elem_of_cons, elem_of_nil. intros [->|[->|[]]]; [done|]. cbn. exists (small_station 1 "Main" "main" None).
    split; [by left|done].
  - intros d. rewrite !elem_of_cons, elem_of_nil. intros [->|[]]. exists (small_station 2 "Grill" "grill" (Some 1)).
    split; [by right; left|done].
  - intros d. rewrite !elem_of_cons, elem_of_nil. by intros [->|[->|[]]].
  - intros t. rewrite !elem_of_cons, elem_of_nil. intros [->|[->|[->|[->|[->|[]]]]]]; try done. cbn.
    exists (small_station 2 "Grill" "grill" (Some 1)). split; [by right; left|done].
  - intros j. by intros ?%elem_of_nil.
  - intros p. rewrite !elem_of_cons, elem_of_nil. intros [->|[]]. exists (small_station 2 "Grill" "grill" (Some 1)).
    split; [by right; left|done].
Qed.
Lemma small_tickets_ok : table_wf (tickets small_kitchen).
Proof. apply table_wf_check. reflexivity. Qed.

(** The greedy engine and the notices of the town. *)
Definition town_dispatch (rid : Z) : FM DispatchResult :=
  run_dispatch_engine flat_km (fint 30) flat_geo None (λ _, NoSolution) 40 30 10 rid.
Abbreviation town_notice := (_notify_customer_status pretty flat_tracking "https://x").

(** *** A day in it *)

Abbreviation whole oid := (default (Whole (town_order 0 DRAFT) (town_delivery 0 None None) (small_order 0 "")) (whole_order oid small_kitchen)).
Definition the_day : list kitchen_request :=
  [RConfirm 3 "cashier"; RAdvance 2 "manager"; RDeleteStation 1 2; RBump 1 1 None (Some 3); RBump 1 5 None None; RJobStatus 1 1 "failed"].
Lemma kitchen_references_witness :
  kitchen_inv (kitchen_history 40 flat_geo town_dispatch town_notice the_day small_kitchen).
Proof. apply kitchen_references. exact small_kitchen_ok. Defined.

Abbreviation kot := (advance_step 40 flat_geo town_notice 2 "manager" small_kitchen).
Lemma kot_run : kot = Ok PREPARING (final kot).
Proof. vm_compute. reflexivity. Qed.
Lemma kitchen_ticket_leaves_none_witness :
  tk_id <$> unrouted 2 small_kitchen = [2; 3] ∧ unrouted 2 (final kot) = [] ∧
  sent_to_stations 1 2 (unrouted 2 small_kitchen) small_kitchen (final kot).
Proof.
  split; [reflexivity|].
  destruct (kitchen_ticket_leaves_none 40 flat_geo pretty flat_tracking "https://x" 2 "manager" small_kitchen (final kot) PREPARING (whole 2))
    as (_ & H1 & H2 & _); [exact small_kitchen_ok|exact small_tickets_ok|vm_compute; reflexivity..|exact kot_run|done].
Defined.

Abbreviation confirmed := (finalize_confirmation 40 flat_geo 3 "cashier" small_kitchen).
Lemma confirmed_run : confirmed = Ok tt (final confirmed).
Proof. vm_compute. reflexivity. Qed.


Lemma plate_by_keeps_promise_witness :
  compute_prep_deadline 40 flat_geo (whole 2) town_now small_kitchen = Some (town_now + minutes 26) ∧ town_now ≤ town_now + minutes 26.
Proof.
  split; [vm_compute; reflexivity|].
  destruct (plate_by_keeps_promise 40 flat_geo (whole 2) town_now small_kitchen (town_now + minutes 26) (spot_at 2 0) (spot_at 0 0))
    as [H _]; [vm_compute; reflexivity..|exact H].
Defined.

Abbreviation without_grill := (delete_station 1 2 small_kitchen).
Lemma without_grill_run : without_grill = Ok tt (final without_grill).
Proof. vm_compute. reflexivity. Qed.
Lemma station_removed_witness : ¬ station_exists 2 (stations (final without_grill)).
Proof.
  destruct (station_removed 1 2 small_kitchen (final without_grill) small_kitchen_ok without_grill_run) as (m & _ & _ & _ & _ & _ & _ & H & _).
  exact H.
Defined.

(** *** What goes wrong *)

Definition juice : new_entry :=
  {| ne_dish := {| kd_id := 2; kd_restaurant_id := 1; kd_category := None; kd_station_id := None; kd_prep_minutes := None |};
     ne_dish_name := "Juice"; ne_allergens := []; ne_unit_price := 1000; ne_qty := 1; ne_notes := None; ne_variant_name := None |}.
Abbreviation changed := (modify_order 40 flat_geo 1 [juice] "customer" small_kitchen).
Lemma changed_run : changed = Ok tt (final changed).
Proof. vm_compute. reflexivity. Qed.
Lemma modified_order_unfired_witness :
  (tk_id <$> live_tickets 1 (final changed)) = [6] ∧ never_fired 1 (tickets (final changed)).
Proof.
  split; [vm_compute; reflexivity|].
  apply (modified_order_unfired 40 flat_geo pretty flat_tracking "https://x" 1 [juice] "customer" small_kitchen (final changed) (whole 1));
    [vm_compute; reflexivity..|exact changed_run].
Defined.

(** A table order whose only line is called away before the kitchen ticket is printed: the
    ticket then takes the order to being prepared, with all its lines plated and none on
    the board, so no bump will ever finish it. *)
Definition one_dish : kitchen_db := with_tickets (listing [small_line 1 3 1 None false]) small_kitchen.
Definition one_dish_after : kitchen_db :=
  kitchen_history 40 flat_geo town_dispatch town_notice [RConfirm 3 "cashier"; RBump 1 1 None None; RAdvance 3 "cashier"] one_dish.
Theorem bumped_before_the_ticket :
  option_map (o_status ∘ w_order) (whole_order 3 one_dish_after) = Some PREPARING ∧
  tk_kitchen_status <$> live_tickets 3 one_dish_after = [KReady] ∧
  station_lines 1 1 false one_dish_after = [] ∧ station_lines 1 2 false one_dish_after = [].
Proof. vm_compute. done. Qed.

(** A plated line that is recalled after its order is ready: the order stays with the
    rider while the dish is cooked again. *)
Definition recalled : kitchen_db := kitchen_history 40 flat_geo town_dispatch town_notice [RBump 1 1 None None; RRecall 1 1] small_kitchen.
Theorem recall_leaves_order_ready :
  option_map (o_status ∘ w_order) (whole_order 1 recalled) = Some ASSIGNED ∧ tk_kitchen_status <$> live_tickets 1 recalled = [KReceived].
Proof. vm_compute. done. Qed.

(** A failed print job goes to the fallback even when the fallback's printer is down too,
    which the first printing avoids. *)
Definition both_down : kitchen_db :=
  kitchen_history 40 flat_geo town_dispatch town_notice [RHeartbeat 1 2 true; RAdvance 2 "manager"; RHeartbeat 1 1 false; RJobStatus 1 1 "failed"] small_kitchen.
Theorem failed_job_to_dead_printer :
  unhealthy 1 1 both_down = true ∧
  option_map (λ j, (pj_station_id j, pj_status j, pj_via_fallback j)) (get_row 1 (print_jobs both_down)) = Some (1, "pending"%string, true).
Proof. vm_compute. done. Qed.
