(* ===== verification/Transfers.v ===== *)
(** * Stock between branches ([organizations/stock_transfer_branch.py],
    [organizations/stock_transfer_router.py], [organizations/stock_transfer.py])

    A branch sends stock to a sibling (or asks for it), the stock is on the road, the
    destination counts it in; and the older pair of the head office, which moves both ends
    at once.  A request of a router loads the stored quantities, thousandths of a unit
    ([as_stored]), computes with free decimals, and stores when it commits. *)

From S2P Require Import Prelude Money Strings Db AuditTrail Clock Outbox InventoryDb.

(** ** Data *)

Inductive transfer_status := TPending | TInTransit | TCompleted | TCancelled.
#[global] Instance transfer_status_eq_dec : EqDecision transfer_status.
Proof. solve_decision. Defined.
Definition transfer_status_str (st : transfer_status) : string :=
  match st with TPending => "pending" | TInTransit => "in_transit" | TCompleted => "completed" | TCancelled => "cancelled" end.

Record StockTransfer := {
  tr_id : Z;
  tr_organization_id : Z;
  tr_from_restaurant_id : Z;
  tr_to_restaurant_id : Z;
  tr_status : transfer_status;
  tr_dispatched_by : option string;
  tr_received_by : option string;
  tr_note : option string;
}.
#[global] Instance StockTransfer_row : Row StockTransfer := tr_id.
Record StockTransferLine := {
  tl_id : Z;
  tl_transfer_id : Z;
  tl_ingredient_name : string;
  tl_unit : string;
  tl_qty_requested : option Q;
  tl_quantity : Q;
  tl_qty_received : option Q;
}.
#[global] Instance StockTransferLine_row : Row StockTransferLine := tl_id.
(** A restaurant, as a branch of its organisation. *)
Record OrgBranch := { ob_id : Z; ob_organization_id : option Z; ob_name : string }.
#[global] Instance OrgBranch_row : Row OrgBranch := ob_id.

(** A line of a request body; a quantity of the second kind is by name. *)
Record line_in := { li_ingredient_name : string; li_quantity : Q; li_unit : option string }.

Record transfers_db := {
  org_branches : table OrgBranch;
  ingredients_at : table Ingredient;
  stock_transfers : table StockTransfer;
  transfer_lines : table StockTransferLine;
  inventory_changed : list Z;   (** the realtime events queued, by branch *)
}.
Definition with_ingredients_at t s := Build_transfers_db (org_branches s) t (stock_transfers s) (transfer_lines s) (inventory_changed s).
Definition with_transfers t s := Build_transfers_db (org_branches s) (ingredients_at s) t (transfer_lines s) (inventory_changed s).
Definition with_transfer_lines t s := Build_transfers_db (org_branches s) (ingredients_at s) (stock_transfers s) t (inventory_changed s).
Definition with_changed l s := Build_transfers_db (org_branches s) (ingredients_at s) (stock_transfers s) (transfer_lines s) l.

(** The [ValueError]s; the routers' HTTP errors. *)
Inductive transfer_error :=
| BranchNotFound
| SameBranch
| OtherOrganization
| NotOfOrganization (which : string)
| NoLines
| QuantityNotPositive
| NoSuchIngredient (name : string)
| NotEnoughStock (have : Q) (unit name : string)
| TransferNotFound
| OnlyTheAsked (what : string)
| OnlyTheAsker
| OnlyTheDestination
| OnlyTheSender
| WrongStatus (what : string) (st : transfer_status)
| NegativeQuantity
| MoreThanAsked (qty : Q) (name : string)
| MoreThanSent (qty : Q) (name : string)
| NothingApproved
| TransferHTTP (code : Z).
Abbreviation TM := (M transfers_db transfer_error).

Definition set_ingredient_at (i : Ingredient) : TM unit := modify (λ s, with_ingredients_at (set_row i (ingredients_at s)) s).
Definition set_transfer (t : StockTransfer) : TM unit := modify (λ s, with_transfers (set_row t (stock_transfers s)) s).
Definition set_transfer_line (l : StockTransferLine) : TM unit := modify (λ s, with_transfer_lines (set_row l (transfer_lines s)) s).
Definition lines_in (transfer_id : Z) (s : transfers_db) : list StockTransferLine :=
  all_where (λ l, tl_transfer_id l =? transfer_id) (transfer_lines s).
Definition named_at (restaurant_id : Z) (name : string) (i : Ingredient) : bool :=
  (ing_restaurant_id i =? restaurant_id) && (ing_name i =s name).
Definition ingredient_at (restaurant_id : Z) (name : string) (s : transfers_db) : option Ingredient :=
  first_where (named_at restaurant_id name) (ingredients_at s).

Definition with_transfer_status (st : transfer_status) (t : StockTransfer) : StockTransfer :=
  {| tr_id := tr_id t; tr_organization_id := tr_organization_id t; tr_from_restaurant_id := tr_from_restaurant_id t;
     tr_to_restaurant_id := tr_to_restaurant_id t; tr_status := st; tr_dispatched_by := tr_dispatched_by t;
     tr_received_by := tr_received_by t; tr_note := tr_note t |}.
Definition with_quantity (q : Q) (l : StockTransferLine) : StockTransferLine :=
  {| tl_id := tl_id l; tl_transfer_id := tl_transfer_id l; tl_ingredient_name := tl_ingredient_name l; tl_unit := tl_unit l;
     tl_qty_requested := tl_qty_requested l; tl_quantity := q; tl_qty_received := tl_qty_received l |}.
Definition with_qty_received (q : Q) (l : StockTransferLine) : StockTransferLine :=
  {| tl_id := tl_id l; tl_transfer_id := tl_transfer_id l; tl_ingredient_name := tl_ingredient_name l; tl_unit := tl_unit l;
     tl_qty_requested := tl_qty_requested l; tl_quantity := tl_quantity l; tl_qty_received := Some q |}.

(** ** Sending *)

Definition _sibling_branch (restaurant_id other_id : Z) : TM (OrgBranch * OrgBranch) :=
  mine ← gets (λ s, get_row restaurant_id (org_branches s));
  other ← gets (λ s, get_row other_id (org_branches s));
  match mine, other with
  | Some m, Some o =>
      if ob_id m =? ob_id o then raise SameBranch else
      match ob_organization_id m with
      | None => raise OtherOrganization
      | Some _ => if bool_decide (ob_organization_id m = ob_organization_id o) then mret (m, o) else raise OtherOrganization
      end
  | _, _ => raise BranchNotFound
  end.

Definition add_transfer (org_id from to : Z) (st : transfer_status) (by_ note : option string) : TM StockTransfer :=
  t ← gets stock_transfers;
  let tr := {| tr_id := next_id t; tr_organization_id := org_id; tr_from_restaurant_id := from; tr_to_restaurant_id := to;
    tr_status := st; tr_dispatched_by := by_; tr_received_by := None; tr_note := note |} in
  modify (with_transfers (add_row tr t)) ≫= λ _, mret tr.
Definition add_transfer_line (transfer_id : Z) (name unit_ : string) (requested : option Q) (qty : Q) : TM unit :=
  t ← gets transfer_lines;
  modify (with_transfer_lines (add_row {| tl_id := next_id t; tl_transfer_id := transfer_id; tl_ingredient_name := name;
    tl_unit := unit_; tl_qty_requested := requested; tl_quantity := qty; tl_qty_received := None |} t)).

(** Stock leaves a branch, if it has it. *)
Definition take_stock (restaurant_id : Z) (name : string) (qty : Q) : TM Ingredient :=
  source ← gets (ingredient_at restaurant_id name);
  match source with
  | None => raise (NoSuchIngredient name)
  | Some i =>
      if current_stock i <q qty then raise (NotEnoughStock (current_stock i) (ing_unit i) name) else
      set_ingredient_at (with_stock (current_stock i - qty) i) ≫= λ _, mret i
  end.

Definition send_line (from transfer_id : Z) (l : line_in) : TM unit :=
  let name := strip (li_ingredient_name l) in
  if li_quantity l <=q 0 then raise QuantityNotPositive else
  i ← take_stock from name (li_quantity l);
  add_transfer_line transfer_id name (if otruthy (li_unit l) then default "" (li_unit l) else ing_unit i) None (li_quantity l).
Definition dispatch_stock_transfer (from to : Z) (lines : list line_in) (dispatched_by : string) (note : option string)
    : TM StockTransfer :=
  if bool_decide (lines = []) then raise NoLines else
  p ← _sibling_branch from to;
  transfer ← add_transfer (default 0 (ob_organization_id p.1)) (ob_id p.1) (ob_id p.2) TInTransit (Some dispatched_by) note;
  for_each (send_line (ob_id p.1) (tr_id transfer)) lines ≫= λ _, mret transfer.

(** ** Asking *)

Definition ask_line (mine holder transfer_id : Z) (l : line_in) : TM unit :=
  let name := strip (li_ingredient_name l) in
  if li_quantity l <=q 0 then raise QuantityNotPositive else
  known ← gets (λ s, first_where (λ i, (named_at mine name i || named_at holder name i)) (ingredients_at s));
  let unit_ := if otruthy (li_unit l) then default "" (li_unit l) else
              match known with Some i => ing_unit i | None => "unit" end in
  add_transfer_line transfer_id name unit_ (Some (li_quantity l)) (li_quantity l).
Definition request_stock_transfer (requesting from : Z) (lines : list line_in) (note : option string) : TM StockTransfer :=
  if bool_decide (lines = []) then raise NoLines else
  p ← _sibling_branch requesting from;
  transfer ← add_transfer (default 0 (ob_organization_id p.1)) (ob_id p.2) (ob_id p.1) TPending None note;
  for_each (ask_line (ob_id p.1) (ob_id p.2) (tr_id transfer)) lines ≫= λ _, mret transfer.

Definition the_transfer (transfer_id : Z) : TM StockTransfer :=
  found ← gets (λ s, get_row transfer_id (stock_transfers s));
  match found with Some t => mret t | None => raise TransferNotFound end.

(** A quantity by name; of several the last counts. *)
Definition by_name (quantities : list (string * Q)) (name : string) : option Q :=
  snd <$> List.find (λ p, p.1 =s name) (List.rev quantities).
Definition asked_for (l : StockTransferLine) : Q := default (tl_quantity l) (tl_qty_requested l).
(** The quantity of a line that will be sent; the lines to send so far. *)
Definition approve_line (quantities : list (string * Q)) (l : StockTransferLine) (sending : list StockTransferLine)
    : TM (list StockTransferLine) :=
  let qty := default (asked_for l) (by_name quantities (tl_ingredient_name l)) in
  if qty <q 0 then raise NegativeQuantity else
  if asked_for l <q qty then raise (MoreThanAsked qty (tl_ingredient_name l)) else
  let l' := with_quantity qty l in
  set_transfer_line l' ≫= λ _, mret (if 0 <q qty then sending ++ [l'] else sending).
Definition approve_stock_transfer (transfer_id from : Z) (dispatched_by : string) (quantities : list (string * Q))
    : TM StockTransfer :=
  transfer ← the_transfer transfer_id;
  if negb (tr_from_restaurant_id transfer =? from) then raise (OnlyTheAsked "approve") else
  if negb (bool_decide (tr_status transfer = TPending)) then raise (WrongStatus "approve" (tr_status transfer)) else
  lines ← gets (lines_in (tr_id transfer));
  sending ← for_fold (approve_line quantities) lines [];
  if bool_decide (sending = []) then raise NothingApproved else
  for_each (λ l, take_stock (tr_from_restaurant_id transfer) (tl_ingredient_name l) (tl_quantity l) ≫= λ _, mret tt) sending ≫= λ _,
  let t' := {| tr_id := tr_id transfer; tr_organization_id := tr_organization_id transfer;
    tr_from_restaurant_id := tr_from_restaurant_id transfer; tr_to_restaurant_id := tr_to_restaurant_id transfer;
    tr_status := TInTransit; tr_dispatched_by := Some dispatched_by; tr_received_by := tr_received_by transfer;
    tr_note := tr_note transfer |} in
  set_transfer t' ≫= λ _, mret t'.

Definition declined_note (note reason : option string) : option string :=
  if otruthy reason then
    let d := "Declined: " +:+ default "" reason in
    Some (if otruthy note then default "" note +:+ " · " +:+ d else d)
  else note.
Definition decline_stock_transfer (transfer_id from : Z) (reason : option string) : TM StockTransfer :=
  transfer ← the_transfer transfer_id;
  if negb (tr_from_restaurant_id transfer =? from) then raise (OnlyTheAsked "decline") else
  if negb (bool_decide (tr_status transfer = TPending)) then raise (WrongStatus "decline" (tr_status transfer)) else
  let t' := {| tr_id := tr_id transfer; tr_organization_id := tr_organization_id transfer;
    tr_from_restaurant_id := tr_from_restaurant_id transfer; tr_to_restaurant_id := tr_to_restaurant_id transfer;
    tr_status := TCancelled; tr_dispatched_by := tr_dispatched_by transfer; tr_received_by := tr_received_by transfer;
    tr_note := declined_note (tr_note transfer) reason |} in
  set_transfer t' ≫= λ _, mret t'.
Definition withdraw_stock_request (transfer_id requesting : Z) : TM StockTransfer :=
  transfer ← the_transfer transfer_id;
  if negb (tr_to_restaurant_id transfer =? requesting) then raise OnlyTheAsker else
  if bool_decide (tr_status transfer = TCancelled) then mret transfer else
  if negb (bool_decide (tr_status transfer = TPending)) then raise (WrongStatus "withdraw" (tr_status transfer)) else
  let t' := with_transfer_status TCancelled transfer in
  set_transfer t' ≫= λ _, mret t'.

(** ** Arriving *)

(** The destination's ingredient of that name, made if it is not there. *)
Definition receiving (to : Z) (name unit_ : string) : TM Ingredient :=
  dest ← gets (ingredient_at to name);
  match dest with
  | Some i => mret i
  | None =>
      t ← gets ingredients_at;
      let i := {| ing_id := next_id t; ing_restaurant_id := to; ing_name := name; ing_unit := unit_; current_stock := 0;
        low_stock_threshold := 0; par_level := 0; cost_per_unit_aed := 0; count_variance_threshold_pct := None |} in
      modify (with_ingredients_at (add_row i t)) ≫= λ _, mret i
  end.
Definition put_stock (to : Z) (name unit_ : string) (qty : Q) : TM unit :=
  i ← receiving to name unit_;
  set_ingredient_at (with_stock (current_stock i + qty) i).
Definition receive_line_of (to : Z) (received : option (list (string * Q))) (l : StockTransferLine) : TM unit :=
  let arrived := match received with
                 | None => tl_quantity l
                 | Some r => default (tl_quantity l) (by_name r (tl_ingredient_name l))
                 end in
  if arrived <q 0 then raise NegativeQuantity else
  if tl_quantity l <q arrived then raise (MoreThanSent arrived (tl_ingredient_name l)) else
  set_transfer_line (with_qty_received arrived l) ≫= λ _,
  if qzero arrived then mret tt else put_stock to (tl_ingredient_name l) (tl_unit l) arrived.
Definition receive_stock_transfer (transfer_id to : Z) (received_by : string) (received : option (list (string * Q)))
    : TM StockTransfer :=
  transfer ← the_transfer transfer_id;
  if negb (tr_to_restaurant_id transfer =? to) then raise OnlyTheDestination else
  if bool_decide (tr_status transfer = TCompleted) then mret transfer else
  if negb (bool_decide (tr_status transfer = TInTransit)) then raise (WrongStatus "receive" (tr_status transfer)) else
  lines ← gets (lines_in (tr_id transfer));
  for_each (receive_line_of (tr_to_restaurant_id transfer) received) lines ≫= λ _,
  let t' := {| tr_id := tr_id transfer; tr_organization_id := tr_organization_id transfer;
    tr_from_restaurant_id := tr_from_restaurant_id transfer; tr_to_restaurant_id := tr_to_restaurant_id transfer;
    tr_status := TCompleted; tr_dispatched_by := tr_dispatched_by transfer; tr_received_by := Some received_by;
    tr_note := tr_note transfer |} in
  set_transfer t' ≫= λ _, mret t'.

(** Back to the sender; a name it does not stock any more is skipped. *)
Definition return_line (from : Z) (l : StockTransferLine) : TM unit :=
  source ← gets (ingredient_at from (tl_ingredient_name l));
  match source with
  | Some i => set_ingredient_at (with_stock (current_stock i + tl_quantity l) i)
  | None => mret tt
  end.
Definition cancel_stock_transfer (transfer_id from : Z) : TM StockTransfer :=
  transfer ← the_transfer transfer_id;
  if negb (tr_from_restaurant_id transfer =? from) then raise OnlyTheSender else
  if bool_decide (tr_status transfer = TCancelled) then mret transfer else
  if negb (bool_decide (tr_status transfer = TInTransit)) then raise (WrongStatus "cancel" (tr_status transfer)) else
  lines ← gets (lines_in (tr_id transfer));
  for_each (return_line (tr_from_restaurant_id transfer)) lines ≫= λ _,
  let t' := with_transfer_status TCancelled transfer in
  set_transfer t' ≫= λ _, mret t'.

(** ** The head office's pair *)

Definition of_organization (restaurant_id org_id : Z) (s : transfers_db) : bool :=
  match get_row restaurant_id (org_branches s) with
  | Some b => bool_decide (ob_organization_id b = Some org_id)
  | None => false
  end.
Definition create_stock_transfer (org_id from to : Z) (lines : list line_in) : TM StockTransfer :=
  ours ← gets (of_organization from org_id);
  if negb ours then raise (NotOfOrganization "from") else
  theirs ← gets (of_organization to org_id);
  if negb theirs then raise (NotOfOrganization "to") else
  transfer ← add_transfer org_id from to TPending None None;
  for_each (λ l, add_transfer_line (tr_id transfer) (li_ingredient_name l) (default "" (li_unit l)) None (li_quantity l)) lines
    ≫= λ _, mret transfer.
Definition move_line (from to : Z) (l : StockTransferLine) : TM unit :=
  source ← gets (ingredient_at from (tl_ingredient_name l));
  match source with
  | None => raise (NoSuchIngredient (tl_ingredient_name l))
  | Some i =>
      set_ingredient_at (with_stock (current_stock i - tl_quantity l) i) ≫= λ _,
      put_stock to (tl_ingredient_name l) (tl_unit l) (tl_quantity l)
  end.
Definition complete_stock_transfer (transfer_id : Z) : TM StockTransfer :=
  transfer ← the_transfer transfer_id;
  if bool_decide (tr_status transfer = TCompleted) then mret transfer else
  lines ← gets (lines_in transfer_id);
  for_each (move_line (tr_from_restaurant_id transfer) (tr_to_restaurant_id transfer)) lines ≫= λ _,
  let t' := with_transfer_status TCompleted transfer in
  set_transfer t' ≫= λ _, mret t'.

(** ** Requests *)

(** What the columns hold once stored. *)
Definition thousandths (x : Q) : Q := stored_qty x # 1000.
Definition line_as_stored (l : StockTransferLine) : StockTransferLine :=
  {| tl_id := tl_id l; tl_transfer_id := tl_transfer_id l; tl_ingredient_name := tl_ingredient_name l; tl_unit := tl_unit l;
     tl_qty_requested := thousandths <$> tl_qty_requested l; tl_quantity := thousandths (tl_quantity l);
     tl_qty_received := thousandths <$> tl_qty_received l |}.
Definition as_stored (s : transfers_db) : transfers_db :=
  with_transfer_lines (map_rows line_as_stored (transfer_lines s))
    (with_ingredients_at (map_rows (λ i, with_stock (thousandths (current_stock i)) i) (ingredients_at s)) s).
Definition commit : TM unit := modify as_stored.

(** [sub in s] *)
Fixpoint contains (sub s : string) : bool :=
  String.prefix sub s || match s with EmptyString => false | String _ s' => contains sub s' end.
(** How a refusal leaves the router, which reads the text of the exception: someone else's
    transfer is not found ([phrase] is the refusal the endpoint looks for). *)
Definition refusal (phrase : string) (e : transfer_error) : transfer_error :=
  let told text := TransferHTTP (if contains phrase text || contains "not found" text then 404 else 409) in
  match e with
  | OnlyTheAsked _ | OnlyTheAsker | OnlyTheDestination | OnlyTheSender | TransferNotFound => TransferHTTP 404
  | NoSuchIngredient name | MoreThanAsked _ name | MoreThanSent _ name => told name
  | NotEnoughStock _ unit_ name => told (unit_ +:+ " of " +:+ name)
  | _ => TransferHTTP 409
  end.
Definition announce (restaurant_id other : Z) : TM unit :=
  modify (λ s, with_changed (inventory_changed s ++ [restaurant_id; other]) s).
(** One request: the service call, both branches told, the commit. *)
Definition branch_request (status : transfer_error → transfer_error) (restaurant_id : Z) (other : StockTransfer → Z)
    (m : TM StockTransfer) : TM unit :=
  atomically (t ← try_except m (λ e, raise (status e)); announce restaurant_id (other t) ≫= λ _, commit).

Inductive transfer_request :=
| TDispatch (from to : Z) (lines : list line_in) (note : option string)
| TRequest (mine from : Z) (lines : list line_in) (note : option string)
| TApprove (mine id : Z) (lines : list (string * Q))
| TDecline (mine id : Z) (reason : option string)
| TWithdraw (mine id : Z)
| TReceive (mine id : Z) (lines : list (string * Q))
| TCancel (mine id : Z).
Definition transfer_run (r : transfer_request) : TM unit :=
  let bad_request := λ _, TransferHTTP 400 in
  match r with
  | TDispatch mine to lines note => branch_request bad_request mine (λ _, to) (dispatch_stock_transfer mine to lines "manager" note)
  | TRequest mine from lines note => branch_request bad_request mine (λ _, from) (request_stock_transfer mine from lines note)
  | TApprove mine id l => branch_request (refusal "only the branch being asked") mine tr_to_restaurant_id (approve_stock_transfer id mine "manager" l)
  | TDecline mine id reason => branch_request (refusal "only the branch being asked") mine tr_to_restaurant_id (decline_stock_transfer id mine reason)
  | TWithdraw mine id => branch_request (refusal "only the branch that asked") mine tr_from_restaurant_id (withdraw_stock_request id mine)
  | TReceive mine id l =>
      branch_request (refusal "only the destination branch") mine tr_from_restaurant_id
        (receive_stock_transfer id mine "manager" (if bool_decide (l = []) then None else Some l))
  | TCancel mine id => branch_request (refusal "only the sending branch") mine tr_to_restaurant_id (cancel_stock_transfer id mine)
  end.
Definition transfer_history (l : list transfer_request) (s : transfers_db) : transfers_db :=
  fold_left (λ s r, final (transfer_run r s)) l s.

(** The head office's completion: another organisation's transfer is refused after it ran,
    and rolled back. *)
Definition complete_request (org_id transfer_id : Z) : TM unit :=
  atomically (t ← try_except (complete_stock_transfer transfer_id) (λ _, raise (TransferHTTP 400));
    if negb (tr_organization_id t =? org_id) then raise (TransferHTTP 403) else commit).
Definition create_request (org_id from to : Z) (lines : list line_in) : TM unit :=
  atomically (try_except (create_stock_transfer org_id from to lines) (λ _, raise (TransferHTTP 400)) ≫= λ _, commit).
