(* ===== verification/TransferFacts.v ===== *)
(** * Facts about stock between branches ([Transfers])

    Stock is conserved: what the branches hold, what is on the road and what went missing
    on it add up, over every history of the branches' requests; transfers only move
    forward; and what the head office's completion does to a transfer of a branch. *)

From S2P Require Import Prelude Money Strings Db AuditTrail Clock Outbox InventoryDb Transfers.

(** ** Thousandths *)

Definition is_milli (x : Q) (n : Z) : Prop := Qnum x * 1000 = n * Zpos (Qden x).
Definition milli (x : Q) : bool := Qnum x * 1000 mod Zpos (Qden x) =? 0.
Lemma milli_spec x : milli x = true ↔ is_milli x (stored_qty x).
Proof.
  unfold milli, is_milli, stored_qty, div_half_up. set (d := Zpos (Qden x)). assert (0 < d) by (by subst d).
  rewrite Z.eqb_eq. split; intros Hm.
  - apply Z.mod_divide in Hm as [n Hn]; [|lia]. rewrite Hn. f_equal.
    destruct (n * d <? 0) eqn:Hs; zbool.
    + replace (2 * - (n * d) + d) with (d + (- n) * (2 * d)) by ring. rewrite Z.div_add, Z.div_small by lia. lia.
    + replace (2 * (n * d) + d) with (d + n * (2 * d)) by ring. rewrite Z.div_add, Z.div_small by lia. lia.
  - rewrite Hm. apply Z.mod_mul. lia.
Qed.
Lemma stored_milli x n : is_milli x n → stored_qty x = n.
Proof.
  intros Hn. assert (milli x = true) as Hm.
  { unfold milli. rewrite Hn, Z.mod_mul by done. apply Z.eqb_refl. }
  apply milli_spec in Hm. unfold is_milli in *. nia.
Qed.
Lemma is_milli_milli x n : is_milli x n → milli x = true.
Proof. intros Hn. apply milli_spec. by rewrite (stored_milli _ _ Hn). Qed.
Lemma milli_plus x y : milli x = true → milli y = true → milli (x + y) = true ∧ stored_qty (x + y) = stored_qty x + stored_qty y.
Proof.
  rewrite !milli_spec. intros Hx Hy.
  assert (is_milli (x + y) (stored_qty x + stored_qty y)) as H.
  { unfold is_milli in *. unfold Qplus; cbn [Qnum Qden]. rewrite Pos2Z.inj_mul. nia. }
  by rewrite (stored_milli _ _ H).
Qed.
Lemma milli_minus x y : milli x = true → milli y = true → milli (x - y) = true ∧ stored_qty (x - y) = stored_qty x - stored_qty y.
Proof.
  intros Hx Hy. assert (milli (- y) = true ∧ stored_qty (- y) = - stored_qty y) as [Hn Hs].
  { apply milli_spec in Hy. assert (is_milli (- y) (- stored_qty y)) as H by (unfold is_milli in *; cbn; nia).
    by rewrite (is_milli_milli _ _ H), (stored_milli _ _ H). }
  destruct (milli_plus x (- y) Hx Hn) as [H1 H2]. split; [done|]. unfold Qminus. lia.
Qed.
Lemma milli_lt x y : milli x = true → milli y = true → (x <q y) = (stored_qty x <? stored_qty y).
Proof.
  rewrite !milli_spec. unfold is_milli. intros Hx Hy. apply eq_true_iff_eq. rewrite negb_true_iff, <-not_true_iff_false, Z.ltb_lt.
  rewrite Qle_bool_iff. unfold Qle. destruct x as [a b], y as [c d]; cbn [Qnum Qden] in *.
  set (n := stored_qty (a # b)) in *. set (m := stored_qty (c # d)) in *.
  assert (c * Zpos b * 1000 = m * (Zpos b * Zpos d)) as H1 by (rewrite Z.mul_shuffle0, Hy; ring).
  assert (a * Zpos d * 1000 = n * (Zpos b * Zpos d)) as H2 by (rewrite Z.mul_shuffle0, Hx; ring).
  assert (0 < Zpos b * Zpos d) by lia. split; intros H'; [|intros Hle]; nia.
Qed.
Lemma milli_thousandths x : milli (thousandths x) = true ∧ stored_qty (thousandths x) = stored_qty x.
Proof.
  assert (is_milli (thousandths x) (stored_qty x)) as H by (unfold is_milli, thousandths; cbn; lia).
  by rewrite (is_milli_milli _ _ H), (stored_milli _ _ H).
Qed.
Lemma milli_zero : milli 0 = true. Proof. done. Qed.
Lemma qzero_stored x : qzero x = true → stored_qty x = 0.
Proof. unfold qzero. intros H. zbool. apply stored_milli. unfold is_milli. by rewrite H. Qed.

(** ** What is where *)

Definition status_in (s : transfers_db) (i : Z) : option transfer_status := tr_status <$> get_row i (stock_transfers s).
(** What a line still stands for: nothing before it is sent and after it is called back; in
    between, and for ever, what was sent and did not arrive. *)
Definition line_weight (st : option transfer_status) (l : StockTransferLine) : Z :=
  match st with
  | Some TInTransit | Some TCompleted => stored_qty (tl_quantity l) - match tl_qty_received l with Some r => stored_qty r | None => 0 end
  | _ => 0
  end.
Definition held_in_branches (name : string) (s : transfers_db) : Z :=
  sum_where (λ i, ing_name i =s name) (λ i, stored_qty (current_stock i)) (ingredients_at s).
Definition away (name : string) (s : transfers_db) : Z :=
  sum_where (λ l, tl_ingredient_name l =s name) (λ l, line_weight (status_in s (tl_transfer_id l)) l) (transfer_lines s).
Definition total_stock (name : string) (s : transfers_db) : Z := held_in_branches name s + away name s.

Definition opt_milli (o : option Q) : bool := match o with Some q => milli q | None => true end.
(** Each line under its transfer: thousandths, never negative, counted in at most once and no
    more than was sent, and, on the road, sent by a branch that stocks it. *)
Record line_ok (s : transfers_db) (l : StockTransferLine) : Prop := {
  lo_milli : milli (tl_quantity l) = true ∧ opt_milli (tl_qty_requested l) = true ∧ opt_milli (tl_qty_received l) = true;
  lo_quantity : 0 ≤ stored_qty (tl_quantity l);
  lo_received : ∀ r, tl_qty_received l = Some r → 0 ≤ stored_qty r ≤ stored_qty (tl_quantity l);
  lo_transfer : ∃ t, get_row (tl_transfer_id l) (stock_transfers s) = Some t ∧
    (tr_status t = TInTransit → stored_qty (tl_quantity l) = 0 ∨
       is_Some (ingredient_at (tr_from_restaurant_id t) (tl_ingredient_name l) s));
}.
Definition uncounted (s : transfers_db) : Prop :=
  ∀ l t, l ∈ rows (transfer_lines s) → get_row (tl_transfer_id l) (stock_transfers s) = Some t →
    tr_status t ≠ TCompleted → tl_qty_received l = None.
Record transfers_ok (s : transfers_db) : Prop := {
  to_ingredients : table_wf (ingredients_at s);
  to_transfers : table_wf (stock_transfers s);
  to_lines_wf : table_wf (transfer_lines s);
  to_stock : ∀ i, i ∈ rows (ingredients_at s) → milli (current_stock i) = true ∧ 0 ≤ stored_qty (current_stock i);
  to_lines : ∀ l, l ∈ rows (transfer_lines s) → line_ok s l;
}.

(** ** Stock in and out *)

Lemma set_stock_held nm i q s :
  table_wf (ingredients_at s) → i ∈ rows (ingredients_at s) →
  held_in_branches nm (with_ingredients_at (set_row (with_stock q i) (ingredients_at s)) s) =
    held_in_branches nm s + if ing_name i =s nm then stored_qty q - stored_qty (current_stock i) else 0.
Proof.
  intros Hwf Hi. unfold held_in_branches. cbn [ingredients_at with_ingredients_at].
  rewrite (sum_where_set _ _ (with_stock q i) i) by done. cbn. destruct (ing_name i =s nm); lia.
Qed.
Lemma ingredient_at_some r nm s i : ingredient_at r nm s = Some i → i ∈ rows (ingredients_at s) ∧ ing_restaurant_id i = r ∧ ing_name i = nm.
Proof. intros [Hi Hn]%first_where_Some. unfold named_at in Hn. zbool. done. Qed.
Lemma ingredient_at_keeps r nm i q s :
  table_wf (ingredients_at s) → i ∈ rows (ingredients_at s) → is_Some (ingredient_at r nm s) →
  is_Some (ingredient_at r nm (with_ingredients_at (set_row (with_stock q i) (ingredients_at s)) s)).
Proof.
  intros Hwf Hi [x Hx]. apply ingredient_at_some in Hx as (Hx & Hr & Hn).
  destruct (ingredient_at r nm (with_ingredients_at _ s)) eqn:Hf; [by eexists|exfalso].
  unfold ingredient_at in Hf. rewrite first_where_None in Hf.
  pose proof (elem_of_set_row_2 (with_stock q i) x _ Hx) as Hin. specialize (Hf _ Hin). unfold named_at in Hf.
  assert (ing_restaurant_id i = ing_restaurant_id x ∧ ing_name i = ing_name x ∨ row_id x ≠ row_id i) as Hsame.
  { destruct (decide (row_id x = row_id i)) as [He|]; [left|by right]. by rewrite (wf_unique _ Hwf x i Hx Hi He). }
  change (row_id (with_stock q i)) with (row_id i) in Hf. destruct (row_id x =? row_id i) eqn:Hid; zbool.
  - destruct Hsame as [[H1 H2]|]; [|done]. cbn in Hf. by rewrite H1, H2, Hr, Hn, Z.eqb_refl, String.eqb_refl in Hf.
  - by rewrite Hr, Hn, Z.eqb_refl, String.eqb_refl in Hf.
Qed.

(** *** Writes that keep the session in order *)

Lemma get_row_add_some {R} `{Row R} (t : table R) r i x : get_row i t = Some x → get_row i (add_row r t) = Some x.
Proof. intros Hg. change (first_where (λ r, row_id r =? i) (add_row r t) = Some x). rewrite first_where_add. unfold get_row in Hg. unfold first_where. by rewrite Hg. Qed.

(** A line's condition depends on the transfers and on who stocks what. *)
Lemma line_ok_ext s s' l :
  (∀ i t, get_row i (stock_transfers s) = Some t → get_row i (stock_transfers s') = Some t) →
  (∀ r nm, is_Some (ingredient_at r nm s) → is_Some (ingredient_at r nm s')) → line_ok s l → line_ok s' l.
Proof.
  intros Ht Hi [H1 H2 H3 (t & Hg & H5)]. split; [done..|]. exists t. split; [by apply Ht|].
  intros Hst. destruct (H5 Hst); auto.
Qed.
Lemma set_stock_ok i q s :
  transfers_ok s → i ∈ rows (ingredients_at s) → milli q = true → 0 ≤ stored_qty q →
  transfers_ok (with_ingredients_at (set_row (with_stock q i) (ingredients_at s)) s).
Proof.
  intros [H1 H2 H3 H4 H5] Hi Hm Hq. split; [by apply set_row_wf|done|done| |].
  - intros x [[-> _]|[Hx _]]%elem_of_set_row; [done|by apply H4].
  - intros l Hl. apply (line_ok_ext s); [done| |by apply H5]. intros r nm. by apply ingredient_at_keeps.
Qed.
Lemma add_ingredient_ok i s :
  transfers_ok s → row_id i = next_id (ingredients_at s) → milli (current_stock i) = true → 0 ≤ stored_qty (current_stock i) →
  transfers_ok (with_ingredients_at (add_row i (ingredients_at s)) s).
Proof.
  intros [H1 H2 H3 H4 H5] Hid Hm Hq. split; [by apply add_row_wf|done|done| |].
  - intros x [Hx| ->]%elem_of_add_row; [by apply H4|done].
  - intros l Hl. apply (line_ok_ext s); [done| |by apply H5]. intros r nm [x Hx]. unfold ingredient_at in *. cbn.
    rewrite first_where_add, Hx. by eexists.
Qed.
Lemma set_line_ok l s :
  transfers_ok s → line_ok s l → transfers_ok (with_transfer_lines (set_row l (transfer_lines s)) s).
Proof.
  intros [H1 H2 H3 H4 H5] Hl. split; [done|done|by apply set_row_wf|done|].
  intros x [[-> _]|[Hx _]]%elem_of_set_row; [by apply (line_ok_ext s)|apply (line_ok_ext s); [done..|by apply H5]].
Qed.
Lemma add_line_ok l s :
  transfers_ok s → row_id l = next_id (transfer_lines s) → line_ok s l → transfers_ok (with_transfer_lines (add_row l (transfer_lines s)) s).
Proof.
  intros [H1 H2 H3 H4 H5] Hid Hl. split; [done|done|by apply add_row_wf|done|].
  intros x [Hx| ->]%elem_of_add_row; [apply (line_ok_ext s); [done..|by apply H5]|by apply (line_ok_ext s)].
Qed.
Lemma add_transfer_ok t s :
  transfers_ok s → row_id t = next_id (stock_transfers s) → transfers_ok (with_transfers (add_row t (stock_transfers s)) s).
Proof.
  intros [H1 H2 H3 H4 H5] Hid. split; [done|by apply add_row_wf|done|done|].
  intros x Hx. apply (line_ok_ext s); [|done|by apply H5]. intros i y. apply get_row_add_some.
Qed.
(** A transfer's next status, if its lines allow it. *)
Lemma set_transfer_ok id t t' s :
  transfers_ok s → get_row id (stock_transfers s) = Some t → tr_id t' = id → tr_from_restaurant_id t' = tr_from_restaurant_id t →
  (∀ l, l ∈ lines_in id s → tr_status t' = TInTransit →
    stored_qty (tl_quantity l) = 0 ∨ is_Some (ingredient_at (tr_from_restaurant_id t) (tl_ingredient_name l) s)) →
  transfers_ok (with_transfers (set_row t' (stock_transfers s)) s).
Proof.
  intros [H1 H2 H3 H4 H5] Hg Hid Hfrom Hl. split; [done|by apply set_row_wf|done|done|].
  intros l Hin. destruct (H5 l Hin) as [L1 L2 L3 (x & Hx & L5)]. split; [done..|].
  destruct (decide (tl_transfer_id l = id)) as [He|Hne].
  - exists t'. split; [apply (get_row_set_eq _ _ t); [by rewrite He|by rewrite He]|].
    rewrite Hfrom. apply Hl. apply elem_of_all_where. split; [done|]. by apply Z.eqb_eq.
  - exists x. cbn. rewrite get_row_set_ne by (change (row_id t') with (tr_id t'); congruence). done.
Qed.

(** *** Where a line's weight goes *)

Lemma sum_where_zero {R} (p : R → bool) (f : R → Z) (t : table R) :
  (∀ r, r ∈ rows t → p r = true → f r = 0) → sum_where p f t = 0.
Proof.
  intros Hf. unfold sum_where. rewrite (zsum_ext _ (λ _, 0)); [by rewrite zsum_const|].
  intros r Hr. destruct (p r) eqn:Hp; [by apply Hf|done].
Qed.

Lemma away_ext nm s s' :
  transfer_lines s' = transfer_lines s →
  (∀ l, l ∈ rows (transfer_lines s) → line_weight (status_in s' (tl_transfer_id l)) l = line_weight (status_in s (tl_transfer_id l)) l) →
  away nm s' = away nm s.
Proof.
  intros Hl Hw. unfold away. rewrite Hl. apply zsum_ext. intros l Hin. by rewrite Hw.
Qed.
(** A new status moves the weights of the transfer's lines only. *)
Lemma away_status nm id t t' s :
  get_row id (stock_transfers s) = Some t → tr_id t' = id →
  away nm (with_transfers (set_row t' (stock_transfers s)) s) =
    away nm s + sum_where (λ l, (tl_transfer_id l =? id) && (tl_ingredient_name l =s nm))
      (λ l, line_weight (Some (tr_status t')) l - line_weight (Some (tr_status t)) l) (transfer_lines s).
Proof.
  intros Hg Hid. unfold away, sum_where. cbn [transfer_lines with_transfers]. rewrite <-zsum_add. apply zsum_ext. intros l Hl.
  unfold status_in. cbn [stock_transfers with_transfers]. destruct (Z.eqb_spec (tl_transfer_id l) id) as [He|Hne]; cbn [andb].
  - rewrite He, Hg, (get_row_set_eq _ _ t) by done. cbn. destruct (_ =s nm); lia.
  - rewrite get_row_set_ne by (change (row_id t') with (tr_id t'); congruence). destruct (_ =s nm); lia.
Qed.
Lemma away_set_line nm l l' s :
  table_wf (transfer_lines s) → l ∈ rows (transfer_lines s) → tl_id l' = tl_id l → tl_transfer_id l' = tl_transfer_id l →
  tl_ingredient_name l' = tl_ingredient_name l →
  away nm (with_transfer_lines (set_row l' (transfer_lines s)) s) =
    away nm s + if tl_ingredient_name l =s nm
                then line_weight (status_in s (tl_transfer_id l)) l' - line_weight (status_in s (tl_transfer_id l)) l else 0.
Proof.
  intros Hwf Hl Hid Ht Hn. unfold away. cbn [transfer_lines with_transfer_lines].
  change (status_in (with_transfer_lines _ s)) with (status_in s). rewrite (sum_where_set _ _ l' l) by done. rewrite Hn, Ht.
  destruct (_ =s nm); lia.
Qed.
Lemma away_add_line nm l s :
  away nm (with_transfer_lines (add_row l (transfer_lines s)) s) =
    away nm s + if tl_ingredient_name l =s nm then line_weight (status_in s (tl_transfer_id l)) l else 0.
Proof. unfold away. cbn [transfer_lines with_transfer_lines]. by rewrite sum_where_add. Qed.
Lemma away_stock nm t s : away nm (with_ingredients_at t s) = away nm s.
Proof. done. Qed.
Lemma held_lines nm t s : held_in_branches nm (with_transfer_lines t s) = held_in_branches nm s.
Proof. done. Qed.

(** ** The steps *)

Definition kept (nm : string) (s s' : transfers_db) : Prop :=
  transfers_ok s' ∧ total_stock nm s' = total_stock nm s ∧ (uncounted s → uncounted s').

(** Stock taken: the branch has it, and holds that much less. *)
Lemma take_stock_Ok r nm q s i s' :
  take_stock r nm q s = Ok i s' → transfers_ok s → milli q = true →
  ingredient_at r nm s = Some i ∧ s' = with_ingredients_at (set_row (with_stock (current_stock i - q) i) (ingredients_at s)) s ∧
  (0 ≤ stored_qty q → transfers_ok s') ∧
  ∀ n, held_in_branches n s' = held_in_branches n s - if nm =s n then stored_qty q else 0.
Proof.
  unfold take_stock, mbind, M_bind, gets. destruct (ingredient_at r nm s) as [x|] eqn:Hx; [|done].
  destruct (current_stock x <q q) eqn:Hlt; [done|]. intros [= <- <-] Hok Hq.
  apply ingredient_at_some in Hx as (Hin & Hr & Hn). destruct (to_stock _ Hok x Hin) as [Hm Hp].
  rewrite milli_lt in Hlt by done. zbool. destruct (milli_minus _ _ Hm Hq) as [Hm' Hs'].
  split; [done|]. split; [done|]. split.
  - intros Hq0. apply set_stock_ok; [done..|]. lia.
  - intros n. rewrite set_stock_held by (done || apply Hok). rewrite Hn, Hs'. destruct (_ =s n); lia.
Qed.
Lemma put_stock_run r nm u q s s' :
  put_stock r nm u q s = Ok tt s' → transfers_ok s → milli q = true → 0 ≤ stored_qty q →
  transfers_ok s' ∧ (∀ n, held_in_branches n s' = held_in_branches n s + if nm =s n then stored_qty q else 0) ∧
  transfer_lines s' = transfer_lines s ∧ stock_transfers s' = stock_transfers s.
Proof.
  unfold put_stock. intros (i & s1 & H1 & [= <-])%bind_Ok Hok Hq H0.
  assert (transfers_ok s1 ∧ i ∈ rows (ingredients_at s1) ∧ ing_name i = nm ∧ (∀ n, held_in_branches n s1 = held_in_branches n s) ∧
    transfer_lines s1 = transfer_lines s ∧ stock_transfers s1 = stock_transfers s) as (Hok1 & Hi & Hn & Hh & Hl & Ht).
  { unfold receiving, mbind, M_bind, gets in H1. destruct (ingredient_at r nm s) as [x|] eqn:Hx.
    - injection H1 as <- <-. apply ingredient_at_some in Hx as (? & ? & ?). by split_and!.
    - injection H1 as <- <-. split_and!; try done; [by apply add_ingredient_ok|apply elem_of_add_row; by right|].
      intros n. unfold held_in_branches. cbn [ingredients_at with_ingredients_at]. rewrite sum_where_add. cbn.
      destruct (nm =s n); [|lia]. change (stored_qty 0) with 0. lia. }
  destruct (to_stock _ Hok1 i Hi) as [Hm Hp]. destruct (milli_plus _ _ Hm Hq) as [Hm' Hs'].
  split_and!; [apply set_stock_ok; [done..|]; lia| |done|done].
  intros n. rewrite set_stock_held by (done || apply Hok1). rewrite Hn, Hs', Hh. destruct (_ =s n); lia.
Qed.

(** *** Sending and asking *)

Lemma positive_stored q : milli q = true → (q <=q 0) = false → 0 < stored_qty q.
Proof.
  intros Hm Hq. assert ((0 <q q) = true) as H by (by rewrite Hq). rewrite milli_lt in H by done. zbool. exact H.
Qed.
Lemma send_step nm from tid l s s' tr :
  transfers_ok s → get_row tid (stock_transfers s) = Some tr → tr_status tr = TInTransit → tr_from_restaurant_id tr = from →
  milli (li_quantity l) = true → send_line from tid l s = Ok tt s' → kept nm s s' ∧ stock_transfers s' = stock_transfers s.
Proof.
  intros Hok Hg Hst Hfrom Hm. unfold send_line. destruct (li_quantity l <=q 0) eqn:Hq; [done|].
  apply (positive_stored _ Hm) in Hq. intros (i & s1 & H1 & H2)%bind_Ok.
  apply (take_stock_Ok _ _ _ _ _ _ H1 Hok) in Hm as Hrun. destruct Hrun as (Hi & -> & Hok1 & Hh). specialize (Hok1 ltac:(lia)).
  unfold add_transfer_line, mbind, M_bind, gets, modify in H2. injection H2 as <-.
  match goal with |- kept nm s (with_transfer_lines (add_row ?x _) ?s1) ∧ _ => set (new := x); set (s2 := s1) in * end.
  change (kept nm s (with_transfer_lines (add_row new (transfer_lines s2)) s2) ∧ stock_transfers s = stock_transfers s).
  split; [|done]. assert (line_ok s2 new) as Hnew.
  { split; cbn; [done|lia|done|]. exists tr. split; [exact Hg|]. intros _. right. rewrite Hfrom.
    apply ingredient_at_keeps; [apply Hok|by apply ingredient_at_some in Hi as (? & _)|by eexists]. }
  split; [by apply add_line_ok|]. split.
  2:{ intros Hun y t [Hy| ->]%elem_of_add_row Hgy Hc; [by apply (Hun y t)|done]. }
  unfold total_stock. rewrite away_add_line, held_lines.
  subst s2. rewrite Hh, away_stock. change (status_in (with_ingredients_at _ s)) with (status_in s).
  unfold status_in. cbn [tl_transfer_id new]. change (tl_transfer_id new) with tid. rewrite Hg. cbn. rewrite Hst.
  change (tl_ingredient_name new) with (strip (li_ingredient_name l)). destruct (_ =s nm); cbn; lia.
Qed.
(** A loop of steps that keep the totals. *)
Lemma loop_kept nm {A} (f : A → TM unit) l s s' (P : transfers_db → Prop) :
  (∀ x s s', x ∈ l → transfers_ok s → P s → f x s = Ok tt s' → kept nm s s' ∧ P s') →
  transfers_ok s → P s → for_each f l s = Ok tt s' → kept nm s s' ∧ P s'.
Proof.
  revert s. induction l as [|x l IH]; intros s Hf Hok HP; cbn [for_each]; [by intros [= <-]|].
  intros ([] & s1 & H1 & H2)%bind_Ok. destruct (Hf x s s1 ltac:(by left) Hok HP H1) as [(Hok1 & Ht1 & Hu1) HP1].
  destruct (IH s1) as [(Hok2 & Ht2 & Hu2) HP2]; [by intros; eapply Hf; [by right|..]|done..|].
  split; [|done]. split; [done|]. split; [congruence|auto].
Qed.
Lemma added_total nm t s :
  transfers_ok s → row_id t = next_id (stock_transfers s) →
  total_stock nm (with_transfers (add_row t (stock_transfers s)) s) = total_stock nm s.
Proof.
  intros Hok Hid. unfold total_stock. f_equal. apply away_ext; [done|]. intros l Hl.
  destruct (lo_transfer _ _ (to_lines _ Hok l Hl)) as (x & Hx & _). unfold status_in. cbn [stock_transfers with_transfers].
  by rewrite (get_row_add_some _ _ _ _ Hx), Hx.
Qed.
Lemma new_transfer nm org from to st by_ note s tr s1 :
  transfers_ok s → add_transfer org from to st by_ note s = Ok tr s1 →
  kept nm s s1 ∧ get_row (tr_id tr) (stock_transfers s1) = Some tr ∧ tr_status tr = st ∧ tr_from_restaurant_id tr = from.
Proof.
  intros Hok. unfold add_transfer, mbind, M_bind, gets. intros [= <- <-]. split_and!; [split_and!|..]; try done.
  - by apply add_transfer_ok.
  - by apply added_total.
  - intros Hun l t Hl Ht Hc. destruct (lo_transfer _ _ (to_lines _ Hok l Hl)) as (x & Hx & _).
    pose proof (get_row_add_some (stock_transfers s) {| tr_id := next_id (stock_transfers s); tr_organization_id := org; tr_from_restaurant_id := from;
      tr_to_restaurant_id := to; tr_status := st; tr_dispatched_by := by_; tr_received_by := None; tr_note := note |} _ _ Hx) as Hx'.
    cbn in Ht. rewrite Hx' in Ht. injection Ht as <-. by apply (Hun l x).
  - apply (get_row_add _ _ (to_transfers _ Hok)). done.
Qed.

Lemma sibling_run from to s p s' : _sibling_branch from to s = Ok p s' → s' = s.
Proof.
  unfold _sibling_branch, mbind, M_bind, gets. destruct (get_row from _) as [m|]; [|done].
  destruct (get_row to _) as [o|]; [|done]. destruct (ob_id m =? ob_id o); [done|].
  destruct (ob_organization_id m); [|done]. destruct (bool_decide _); [by intros [= _ <-]|done].
Qed.
Lemma dispatch_kept nm from to lines by_ note s t s' :
  transfers_ok s → Forall (λ l, milli (li_quantity l) = true) lines →
  dispatch_stock_transfer from to lines by_ note s = Ok t s' → kept nm s s'.
Proof.
  intros Hok Hl. unfold dispatch_stock_transfer. destruct (bool_decide _); [done|]. intros (p & s0 & Hp & Hrun)%bind_Ok.
  apply sibling_run in Hp as ->.
  apply bind_Ok in Hrun as (tr & s1 & H1 & Hrun). apply bind_Ok in Hrun as ([] & s2 & H2 & [= <- <-]).
  apply (new_transfer nm) in H1 as ((Hok1 & Ht1 & Hu1) & Hg & Hst & Hfrom); [|done].
  cut (kept nm s1 s2); [intros (? & ? & ?); split_and!; [done|congruence|auto]|].
  apply (loop_kept nm (send_line (ob_id p.1) (tr_id tr)) lines s1 s2 (λ s, get_row (tr_id tr) (stock_transfers s) = Some tr)); [|done..].
  rewrite Forall_forall in Hl. intros x sa sb Hx Hsa Hga Hrun. destruct (send_step nm _ _ _ _ _ tr Hsa Hga Hst Hfrom (Hl x Hx) Hrun) as [? E].
  by rewrite E.
Qed.
Lemma request_kept nm mine from lines note s t s' :
  transfers_ok s → Forall (λ l, milli (li_quantity l) = true) lines →
  request_stock_transfer mine from lines note s = Ok t s' → kept nm s s'.
Proof.
  intros Hok Hl. unfold request_stock_transfer. destruct (bool_decide _); [done|]. intros (p & s0 & Hp & Hrun)%bind_Ok.
  apply sibling_run in Hp as ->.
  apply bind_Ok in Hrun as (tr & s1 & H1 & Hrun). apply bind_Ok in Hrun as ([] & s2 & H2 & [= <- <-]).
  apply (new_transfer nm) in H1 as ((Hok1 & Ht1 & Hu1) & Hg & Hst & _); [|done].
  cut (kept nm s1 s2); [intros (? & ? & ?); split_and!; [done|congruence|auto]|].
  apply (loop_kept nm (ask_line (ob_id p.1) (ob_id p.2) (tr_id tr)) lines s1 s2 (λ s, get_row (tr_id tr) (stock_transfers s) = Some tr)); [|done..].
  rewrite Forall_forall in Hl. intros x sa sb Hx Hsa Hga. unfold ask_line. destruct (li_quantity x <=q 0) eqn:Hq; [done|].
  apply (positive_stored _ (Hl x Hx)) in Hq. unfold add_transfer_line, mbind, M_bind, gets, modify. intros [= <-]. split; [|done].
  split_and!; [apply add_line_ok; [done..|]| |].
  - split; cbn; [by rewrite (Hl x Hx)|lia|done|]. exists tr. by rewrite Hst.
  - unfold total_stock. rewrite away_add_line, held_lines. cbn. unfold status_in. rewrite Hga. cbn. rewrite Hst. destruct (_ =s nm); lia.
  - intros Hun y t' [Hy| ->]%elem_of_add_row Hgy Hc; [by apply (Hun y t')|done].
Qed.

(** *** Turning down and taking back *)

Lemma the_transfer_run id s t s' : the_transfer id s = Ok t s' → s' = s ∧ get_row id (stock_transfers s) = Some t ∧ tr_id t = id.
Proof.
  unfold the_transfer, mbind, M_bind, gets. destruct (get_row id _) as [x|] eqn:Hx; [|done]. intros [= <- <-].
  by pose proof (get_row_Some _ _ _ Hx) as [_ ?].
Qed.
Lemma elem_of_lines_in id s l : l ∈ lines_in id s ↔ l ∈ rows (transfer_lines s) ∧ tl_transfer_id l = id.
Proof. unfold lines_in. rewrite elem_of_all_where, Z.eqb_eq. done. Qed.
Lemma uncounted_status id t t' s :
  get_row id (stock_transfers s) = Some t → tr_id t' = id → (tr_status t = TCompleted → tr_status t' = TCompleted) →
  uncounted s → uncounted (with_transfers (set_row t' (stock_transfers s)) s).
Proof.
  intros Hg Hid Hst Hun l x Hl Hx Hc. cbn in Hl, Hx. destruct (decide (tl_transfer_id l = id)) as [He|Hne].
  - rewrite He, (get_row_set_eq _ _ t) in Hx by done. injection Hx as <-. apply (Hun l t Hl); [by rewrite He|auto].
  - rewrite get_row_set_ne in Hx by (change (row_id t') with (tr_id t'); congruence). by apply (Hun l x).
Qed.
(** A transfer that was never sent is closed. *)
Lemma close_pending nm id t t' s :
  transfers_ok s → get_row id (stock_transfers s) = Some t → tr_status t = TPending → tr_status t' = TCancelled →
  tr_id t' = id → tr_from_restaurant_id t' = tr_from_restaurant_id t → kept nm s (with_transfers (set_row t' (stock_transfers s)) s).
Proof.
  intros Hok Hg Hst Hst' Hid Hfrom. split_and!.
  - apply (set_transfer_ok id t); [done..|]. intros l _. by rewrite Hst'.
  - unfold total_stock. rewrite (away_status nm id t) by done. rewrite Hst, Hst'. cbn.
    rewrite sum_where_zero; [|done]. change (held_in_branches nm (with_transfers _ s)) with (held_in_branches nm s). lia.
  - apply (uncounted_status id t); [done..|]. by rewrite Hst.
Qed.
Lemma decline_kept nm id from reason s t s' :
  transfers_ok s → decline_stock_transfer id from reason s = Ok t s' → kept nm s s'.
Proof.
  intros Hok (x & s0 & H1 & Hrun)%bind_Ok. apply the_transfer_run in H1 as (-> & Hg & Hid).
  destruct (negb (_ =? _)); [done|]. destruct (negb (bool_decide _)) eqn:Hst; [done|]. zbool. injection Hrun as _ <-.
  by apply (close_pending nm id x).
Qed.
Lemma withdraw_kept nm id mine s t s' : transfers_ok s → withdraw_stock_request id mine s = Ok t s' → kept nm s s'.
Proof.
  intros Hok (x & s0 & H1 & Hrun)%bind_Ok. apply the_transfer_run in H1 as (-> & Hg & Hid).
  destruct (negb (_ =? _)); [done|]. destruct (bool_decide (tr_status x = TCancelled)); [by injection Hrun as _ <-; split_and!|].
  destruct (negb (bool_decide _)) eqn:Hst; [done|]. zbool. injection Hrun as _ <-. by apply (close_pending nm id x).
Qed.

(** *** Arriving *)

Lemma by_name_milli l nm q : Forall (λ p, milli p.2 = true) l → by_name l nm = Some q → milli q = true.
Proof.
  unfold by_name. destruct (List.find _ _) as [p|] eqn:Hf; [|done]. cbn. intros Hl [= <-].
  apply find_Some_in in Hf as [Hp _]. rewrite Forall_forall in Hl. apply Hl. by rewrite list_elem_of_In, <-in_rev, <-list_elem_of_In in Hp.
Qed.
Definition arrived_of (received : option (list (string * Q))) (l : StockTransferLine) : Q :=
  match received with
  | None => tl_quantity l
  | Some r => default (tl_quantity l) (by_name r (tl_ingredient_name l))
  end.
Definition opt_forall (l : option (list (string * Q))) : Prop := match l with Some l => Forall (λ p, milli p.2 = true) l | None => True end.
Lemma receive_step nm to received l s s' t :
  transfers_ok s → opt_forall received → l ∈ rows (transfer_lines s) → get_row (tl_transfer_id l) (stock_transfers s) = Some t →
  tr_status t = TInTransit → tl_qty_received l = None → receive_line_of to received l s = Ok tt s' →
  transfers_ok s' ∧ total_stock nm s' = total_stock nm s ∧ stock_transfers s' = stock_transfers s ∧
  transfer_lines s' = set_row (with_qty_received (arrived_of received l) l) (transfer_lines s).
Proof.
  intros Hok Hre Hl Hg Hst Hnone. destruct (to_lines _ Hok l Hl) as [(Lm & Lr & _) L2 L3 L4].
  assert (milli (arrived_of received l) = true) as Ha.
  { unfold arrived_of. destruct received as [r|]; [|done]. destruct (by_name r _) as [q|] eqn:Hq; [|done]. by apply (by_name_milli r _ q) in Hq. }
  unfold receive_line_of. fold (arrived_of received l). set (a := arrived_of received l) in *. cbv zeta.
  destruct (a <q 0) eqn:H0; [done|]. destruct (tl_quantity l <q a) eqn:Hmax; [done|].
  rewrite milli_lt in H0, Hmax by done. change (stored_qty 0) with 0 in H0. zbool.
  intros ([] & s1 & [= <-] & H2)%bind_Ok.
  set (l' := with_qty_received a l) in *. set (s1 := with_transfer_lines _ s) in *.
  assert (transfers_ok s1) as Hok1.
  { apply set_line_ok; [done|]. split; cbn; [by rewrite Lm, Lr, Ha|done| |done]. intros r [= <-]. lia. }
  assert (away nm s1 = away nm s - if tl_ingredient_name l =s nm then stored_qty a else 0) as Hw.
  { unfold s1. rewrite (away_set_line nm l) by (done || apply Hok). unfold status_in. rewrite Hg. cbn. rewrite Hst, Hnone. cbn.
    destruct (_ =s nm); lia. }
  destruct (qzero a) eqn:Hz.
  - injection H2 as <-. split_and!; try done. unfold total_stock. rewrite Hw. change (held_in_branches nm s1) with (held_in_branches nm s).
    rewrite (qzero_stored a Hz). destruct (_ =s nm); lia.
  - apply put_stock_run in H2 as (Hok2 & Hh & El & Et); [|done..]. split_and!; [done| |by rewrite Et|by rewrite El].
    assert (away nm s' = away nm s1) as Hw2.
    { apply away_ext; [done|]. intros y _. unfold status_in. by rewrite Et. }
    unfold total_stock. rewrite Hh, Hw2, Hw. change (held_in_branches nm s1) with (held_in_branches nm s). destruct (_ =s nm); lia.
Qed.
Lemma receive_loop nm to received ls id t s s' :
  transfers_ok s → opt_forall received → get_row id (stock_transfers s) = Some t → tr_status t = TInTransit →
  NoDup ls → (∀ l, l ∈ ls → l ∈ rows (transfer_lines s) ∧ tl_transfer_id l = id ∧ tl_qty_received l = None) →
  for_each (receive_line_of to received) ls s = Ok tt s' →
  transfers_ok s' ∧ total_stock nm s' = total_stock nm s ∧ stock_transfers s' = stock_transfers s ∧
  (∀ l, l ∈ rows (transfer_lines s') → tl_transfer_id l ≠ id → l ∈ rows (transfer_lines s)).
Proof.
  revert s. induction ls as [|x ls IH]; intros s Hok Hre Hg Hst Hnd Hls; cbn [for_each]; [by intros [= <-]|].
  intros ([] & s1 & H1 & H2)%bind_Ok. apply NoDup_cons in Hnd as [Hx Hnd].
  destruct (Hls x) as (Hxr & Hxi & Hxn); [by left|].
  destruct (receive_step nm to received x s s1 t Hok Hre Hxr ltac:(by rewrite Hxi) Hst Hxn H1) as (Hok1 & Ht1 & Et1 & El1).
  destruct (IH s1) as (Hok2 & Ht2 & Et2 & Hback); try done.
  - by rewrite Et1.
  - intros l Hl. destruct (Hls l) as (Hlr & Hli & Hln); [by right|]. split; [|done]. rewrite El1.
    pose proof (elem_of_set_row_2 (with_qty_received (arrived_of received x) x) l _ Hlr) as Hin.
    destruct (row_id l =? row_id (with_qty_received (arrived_of received x) x)) eqn:He; [|done]. zbool.
    exfalso. apply Hx. by rewrite <-(wf_unique _ (to_lines_wf _ Hok) l x Hlr Hxr He).
  - split_and!; [done|congruence|congruence|]. intros l Hl Hli. specialize (Hback l Hl Hli). rewrite El1 in Hback.
    apply elem_of_set_row in Hback as [[-> _]|[? _]]; [|done]. cbn in Hli. congruence.
Qed.
Lemma lines_in_NoDup id s : table_wf (transfer_lines s) → NoDup (lines_in id s).
Proof. intros Hwf. unfold lines_in, all_where. apply NoDup_ListNoDup, List.NoDup_filter, NoDup_ListNoDup, Hwf. Qed.
Lemma receive_kept nm id to by_ received s t s' :
  transfers_ok s → uncounted s → opt_forall received → receive_stock_transfer id to by_ received s = Ok t s' → kept nm s s'.
Proof.
  intros Hok Hun Hre (x & s0 & H1 & Hrun)%bind_Ok. apply the_transfer_run in H1 as (-> & Hg & Hid).
  destruct (negb (_ =? _)); [done|]. destruct (bool_decide (tr_status x = TCompleted)) eqn:Hc; [by injection Hrun as _ <-; split_and!|].
  destruct (negb (bool_decide _)) eqn:Hst; [done|]. zbool. apply bind_Ok in Hrun as (ls & s0 & [= <- <-] & Hrun). rewrite Hid in Hrun.
  apply bind_Ok in Hrun as ([] & s1 & H1 & Hrun). injection Hrun as _ <-.
  assert (∀ l, l ∈ lines_in id s → l ∈ rows (transfer_lines s) ∧ tl_transfer_id l = id ∧ tl_qty_received l = None) as Hls.
  { intros l [Hl Hli]%elem_of_lines_in. split_and!; [done..|]. apply (Hun l x); [done|by rewrite Hli|done]. }
  destruct (receive_loop nm _ _ _ id x s s1 Hok Hre Hg Hst (lines_in_NoDup id s (to_lines_wf _ Hok)) Hls H1) as (Hok1 & Ht1 & Et1 & Hback).
  match goal with |- kept nm s (with_transfers (set_row ?y _) s1) => set (t' := y) end.
  assert (get_row id (stock_transfers s1) = Some x) as Hg1 by (by rewrite Et1).
  split_and!.
  - apply (set_transfer_ok id x); [done..|]. by intros l _.
  - rewrite <-Ht1. unfold total_stock. rewrite (away_status nm id x) by done. cbn [tr_status t']. rewrite Hst.
    rewrite sum_where_zero; [|intros l _ _; cbn; lia]. change (held_in_branches nm (with_transfers _ s1)) with (held_in_branches nm s1). lia.
  - intros _ l y Hl Hy Hyc. cbn in Hl, Hy. destruct (decide (tl_transfer_id l = id)) as [He|Hne].
    + rewrite He, (get_row_set_eq _ _ x) in Hy by done. by injection Hy as <-.
    + rewrite get_row_set_ne in Hy by done. rewrite Et1 in Hy.
      by apply (Hun l y); [apply Hback|..].
Qed.

(** *** Calling back *)

(** The lines of a transfer, of one name: their sum over the table is their sum one by one. *)
Lemma sum_lines id nm f s :
  sum_where (λ l, (tl_transfer_id l =? id) && (tl_ingredient_name l =s nm)) f (transfer_lines s) =
    zsum (λ l, if tl_ingredient_name l =s nm then f l else 0) (lines_in id s).
Proof.
  unfold sum_where, lines_in, all_where. induction (rows (transfer_lines s)) as [|l ls IH]; cbn; [done|].
  destruct (tl_transfer_id l =? id); cbn; rewrite IH; lia.
Qed.
Definition stocked_line (from : Z) (s : transfers_db) (l : StockTransferLine) : Prop :=
  milli (tl_quantity l) = true ∧ 0 ≤ stored_qty (tl_quantity l) ∧
  (stored_qty (tl_quantity l) = 0 ∨ is_Some (ingredient_at from (tl_ingredient_name l) s)).
Lemma lines_stocked id t s :
  transfers_ok s → get_row id (stock_transfers s) = Some t → tr_status t = TInTransit →
  Forall (stocked_line (tr_from_restaurant_id t) s) (lines_in id s).
Proof.
  intros Hok Hg Hst. apply Forall_forall. intros l [Hl Hi]%elem_of_lines_in.
  destruct (to_lines _ Hok l Hl) as [(Hm & _) Hq _ (x & Hx & Hs)]. rewrite Hi, Hg in Hx. injection Hx as <-.
  split_and!; [done..|]. by apply Hs.
Qed.
Definition sum_named (nm : string) (ls : list StockTransferLine) : Z :=
  zsum (λ l, if tl_ingredient_name l =s nm then stored_qty (tl_quantity l) else 0) ls.
Lemma return_loop nm from ls s s' :
  transfers_ok s → Forall (stocked_line from s) ls → for_each (return_line from) ls s = Ok tt s' →
  transfers_ok s' ∧ held_in_branches nm s' = held_in_branches nm s + sum_named nm ls ∧
  transfer_lines s' = transfer_lines s ∧ stock_transfers s' = stock_transfers s.
Proof.
  revert s. induction ls as [|l ls IH]; intros s Hok Hls; cbn [for_each].
  - intros [= <-]. split_and!; try done. unfold sum_named; cbn. lia.
  - apply Forall_cons in Hls as [(Hm & H0 & Hsrc) Hls]. intros ([] & s1 & H1 & H2)%bind_Ok.
    unfold return_line, mbind, M_bind, gets in H1. change (sum_named nm (l :: ls)) with ((if tl_ingredient_name l =s nm then stored_qty (tl_quantity l) else 0) + sum_named nm ls).
    destruct (ingredient_at from (tl_ingredient_name l) s) as [i|] eqn:Hi.
    + injection H1 as <-. apply ingredient_at_some in Hi as (Hin & _ & Hn). destruct (to_stock _ Hok i Hin) as [Hmi Hpi].
      destruct (milli_plus _ _ Hmi Hm) as [Hm' Hs']. apply IH in H2 as (Hok2 & Hh & El & Et).
      * split_and!; [done| |done..]. rewrite Hh, set_stock_held by (done || apply Hok). rewrite Hn, Hs'. destruct (_ =s nm); lia.
      * apply set_stock_ok; [done..|]. lia.
      * eapply Forall_impl; [exact Hls|]. intros x (Hx1 & Hx2 & Hx3). split_and!; [done..|].
        destruct Hx3; [by left|right]. apply ingredient_at_keeps; [apply Hok|done..].
    + injection H1 as <-. destruct Hsrc as [Hz|[? Hsrc]]; [|congruence]. apply IH in H2 as (Hok2 & Hh & El & Et); [|done..].
      split_and!; [done| |done..]. rewrite Hh, Hz. destruct (_ =s nm); lia.
Qed.
Lemma cancel_kept nm id from s t s' :
  transfers_ok s → uncounted s → cancel_stock_transfer id from s = Ok t s' → kept nm s s'.
Proof.
  intros Hok Hun (x & s0 & H1 & Hrun)%bind_Ok. apply the_transfer_run in H1 as (-> & Hg & Hid).
  destruct (negb (_ =? _)); [done|]. destruct (bool_decide (tr_status x = TCancelled)); [by injection Hrun as _ <-; split_and!|].
  destruct (negb (bool_decide _)) eqn:Hst; [done|]. zbool. apply bind_Ok in Hrun as (ls & s0 & [= <- <-] & Hrun). rewrite Hid in Hrun.
  apply bind_Ok in Hrun as ([] & s1 & H1 & Hrun). injection Hrun as _ <-.
  apply (return_loop nm) in H1 as (Hok1 & Hh & El & Et); [|done|by apply lines_stocked].
  assert (get_row id (stock_transfers s1) = Some x) as Hg1 by (by rewrite Et).
  assert (uncounted s1) as Hun1 by (intros l y; rewrite El, Et; apply Hun).
  set (t' := with_transfer_status TCancelled x). split_and!.
  - apply (set_transfer_ok id x); [done..|]. by intros l _.
  - unfold total_stock. rewrite (away_status nm id x) by done. change (held_in_branches nm (with_transfers _ s1)) with (held_in_branches nm s1).
    rewrite sum_lines, Hh. assert (lines_in id s1 = lines_in id s) as -> by (unfold lines_in; by rewrite El).
    rewrite (away_ext nm s s1) by (done || (intros; unfold status_in; by rewrite Et)).
    assert (zsum (λ l, if tl_ingredient_name l =s nm then line_weight (Some (tr_status t')) l - line_weight (Some (tr_status x)) l else 0)
      (lines_in id s) + sum_named nm (lines_in id s) = 0) as Hz; [|lia].
    unfold sum_named. rewrite <-zsum_add, (zsum_ext _ (λ _, 0)); [by rewrite zsum_const|].
    intros l [Hl Hli]%elem_of_lines_in. rewrite Hst. cbn. rewrite (Hun l x); [|done|by rewrite Hli|by rewrite Hst]. destruct (_ =s nm); lia.
  - intros _. apply (uncounted_status id x); [done..| |done]. by rewrite Hst.
Qed.

(** *** Approving *)

(** The rows of the lines rewritten, name and transfer kept. *)
Lemma map_lines_kept nm h s :
  transfers_ok s → (∀ l, tl_id (h l) = tl_id l ∧ tl_transfer_id (h l) = tl_transfer_id l ∧ tl_ingredient_name (h l) = tl_ingredient_name l) →
  (∀ l, l ∈ rows (transfer_lines s) → line_ok s (h l) ∧
    line_weight (status_in s (tl_transfer_id l)) (h l) = line_weight (status_in s (tl_transfer_id l)) l ∧
    tl_qty_received (h l) = tl_qty_received l) →
  kept nm s (with_transfer_lines (map_rows h (transfer_lines s)) s).
Proof.
  intros Hok Hh Hl. split_and!.
  - destruct Hok as [H1 H2 H3 H4 H5]. split; [done|done|apply map_rows_wf; [apply Hh|done]|done|].
    intros l. unfold map_rows; cbn. rewrite list_elem_of_In, List.in_map_iff. intros (x & <- & Hx). apply (line_ok_ext s); [done..|].
    apply Hl. by apply list_elem_of_In.
  - unfold total_stock. rewrite held_lines. f_equal. unfold away, sum_where, map_rows; cbn [transfer_lines with_transfer_lines rows].
    change (map h ?l) with (h <$> l). rewrite zsum_fmap. apply zsum_ext. intros l Hin. destruct (Hh l) as (_ & -> & ->).
    change (status_in (with_transfer_lines _ s)) with (status_in s). by destruct (Hl l Hin) as (_ & -> & _).
  - intros Hun l t. unfold map_rows; cbn. rewrite list_elem_of_In, List.in_map_iff. intros (x & <- & Hx%list_elem_of_In).
    destruct (Hh x) as (_ & -> & _), (Hl x Hx) as (_ & _ & ->). by apply Hun.
Qed.
(** The quantity a line is approved at. *)
Definition approved_at (quantities : list (string * Q)) (l : StockTransferLine) : StockTransferLine :=
  with_quantity (default (asked_for l) (by_name quantities (tl_ingredient_name l))) l.
Definition sendable (l : StockTransferLine) : bool := 0 <q tl_quantity l.
Lemma approve_loop qs ls acc s sending s' :
  for_fold (approve_line qs) ls acc s = Ok sending s' →
  sending = acc ++ List.filter sendable (map (approved_at qs) ls) ∧
  s' = with_transfer_lines (fold_left (λ t l, set_row (approved_at qs l) t) ls (transfer_lines s)) s ∧
  Forall (λ l, (tl_quantity (approved_at qs l) <q 0) = false) ls.
Proof.
  revert acc s. induction ls as [|l ls IH]; intros acc s; cbn [for_fold].
  - intros [= <- <-]. split_and!; [by rewrite app_nil_r|by destruct s|done].
  - intros (acc' & s1 & H1 & H2)%bind_Ok. unfold approve_line in H1.
    destruct (_ <q 0) eqn:H0; [done|]. destruct (asked_for l <q _); [done|].
    unfold set_transfer_line, modify, mbind, M_bind in H1. injection H1 as <- <-.
    apply IH in H2 as (-> & -> & HF). split_and!; [|done|by constructor].
    cbn [map List.filter]. unfold sendable at 2. cbn [approved_at with_quantity tl_quantity].
    destruct (0 <q _); [by rewrite <-app_assoc|done].
Qed.
Lemma approved_milli qs l :
  Forall (λ p, milli p.2 = true) qs → milli (tl_quantity l) = true → opt_milli (tl_qty_requested l) = true →
  milli (tl_quantity (approved_at qs l)) = true.
Proof.
  intros Hqs Hm Hr. cbn. destruct (by_name qs _) as [q|] eqn:Hq; cbn; [by apply (by_name_milli qs _ q) in Hq|].
  unfold asked_for. by destruct (tl_qty_requested l).
Qed.
Lemma take_loop nm from ls s s' :
  transfers_ok s → Forall (λ l, milli (tl_quantity l) = true ∧ 0 ≤ stored_qty (tl_quantity l)) ls →
  for_each (λ l, take_stock from (tl_ingredient_name l) (tl_quantity l) ≫= λ _, mret tt) ls s = Ok tt s' →
  transfers_ok s' ∧ held_in_branches nm s' = held_in_branches nm s - sum_named nm ls ∧
  transfer_lines s' = transfer_lines s ∧ stock_transfers s' = stock_transfers s ∧
  (∀ r n, is_Some (ingredient_at r n s) → is_Some (ingredient_at r n s')) ∧
  Forall (λ l, is_Some (ingredient_at from (tl_ingredient_name l) s')) ls.
Proof.
  revert s. induction ls as [|l ls IH]; intros s Hok Hls; cbn [for_each].
  - intros [= <-]. split_and!; try done. unfold sum_named; cbn. lia.
  - apply Forall_cons in Hls as [[Hm H0] Hls]. intros ([] & s1 & (i & s0 & H1 & [= <-])%bind_Ok & H2)%bind_Ok.
    apply take_stock_Ok in H1 as (Hi & -> & Hok1 & Hh1); [|done..]. specialize (Hok1 H0).
    change (sum_named nm (l :: ls)) with ((if tl_ingredient_name l =s nm then stored_qty (tl_quantity l) else 0) + sum_named nm ls).
    pose proof (proj1 (ingredient_at_some _ _ _ _ Hi)) as Hin.
    apply IH in H2 as (Hok2 & Hh2 & El & Et & Hkeep & Hfrom); [|done..].
    assert (∀ r n, is_Some (ingredient_at r n s) → is_Some (ingredient_at r n s')) as Hk
      by (intros r n Hr; apply Hkeep, ingredient_at_keeps; [apply Hok|done..]).
    split_and!; [done| |done..|]; [rewrite Hh2, Hh1; destruct (_ =s nm); lia|]. constructor; [apply Hk; by eexists|done].
Qed.
Definition counted_line (l : StockTransferLine) : Prop := milli (tl_quantity l) = true ∧ 0 ≤ stored_qty (tl_quantity l).
Lemma not_sendable l : counted_line l → sendable l = false → stored_qty (tl_quantity l) = 0.
Proof. intros [Hm H0] Hs. unfold sendable in Hs. rewrite milli_lt in Hs by done. change (stored_qty 0) with 0 in Hs. zbool. lia. Qed.
Lemma sum_sendable nm ls : Forall counted_line ls → sum_named nm (List.filter sendable ls) = sum_named nm ls.
Proof.
  unfold sum_named. induction 1 as [|l ls Hl _ IH]; cbn; [done|]. destruct (sendable l) eqn:Hs; cbn; rewrite IH; [done|].
  rewrite (not_sendable l Hl Hs). by destruct (_ =s nm).
Qed.
Definition rewritten (id : Z) (qs : list (string * Q)) (s : transfers_db) : transfers_db :=
  with_transfer_lines (map_rows (λ l, if tl_transfer_id l =? id then approved_at qs l else l) (transfer_lines s)) s.
Lemma lines_in_rewritten id qs s : lines_in id (rewritten id qs s) = map (approved_at qs) (lines_in id s).
Proof.
  unfold lines_in, rewritten, all_where, map_rows; cbn. induction (rows (transfer_lines s)) as [|l ls IH]; cbn; [done|].
  destruct (tl_transfer_id l =? id) eqn:Hl; cbn; rewrite Hl, IH; done.
Qed.
(** The quantities are settled while nothing is sent yet. *)
Lemma rewrite_kept nm id qs t s :
  transfers_ok s → uncounted s → get_row id (stock_transfers s) = Some t → tr_status t = TPending →
  Forall (λ p, milli p.2 = true) qs → Forall (λ l, (tl_quantity (approved_at qs l) <q 0) = false) (lines_in id s) →
  kept nm s (rewritten id qs s) ∧ Forall counted_line (lines_in id (rewritten id qs s)).
Proof.
  intros Hok Hun Hg Hst Hqs Hpos.
  assert (∀ l, l ∈ lines_in id s → counted_line (approved_at qs l)) as Hc.
  { intros l Hl. rewrite Forall_forall in Hpos. specialize (Hpos l Hl). apply elem_of_lines_in in Hl as [Hl _].
    destruct (lo_milli _ _ (to_lines _ Hok l Hl)) as (Hm & Hr & _). pose proof (approved_milli qs l Hqs Hm Hr) as Ha.
    split; [done|]. rewrite milli_lt in Hpos by done. change (stored_qty 0) with 0 in Hpos. zbool. lia. }
  split; [apply map_lines_kept; [done|intros l; by destruct (_ =? id)|]|].
  - intros l Hl. destruct (tl_transfer_id l =? id) eqn:Hli; [|by split; [apply (to_lines _ Hok)|]]. zbool.
    destruct (Hc l) as [Hm H0]; [by apply elem_of_lines_in|].
    destruct (to_lines _ Hok l Hl) as [(_ & L1 & L2) _ _ L4]. pose proof (Hun l t Hl ltac:(by rewrite Hli) ltac:(by rewrite Hst)) as Hnone.
    split_and!; [|by rewrite Hli; unfold status_in; rewrite Hg; cbn; rewrite Hst|done]. split; [done|done| |].
    + intros r. cbn. by rewrite Hnone.
    + exists t. cbn. rewrite Hli. split; [done|]. by rewrite Hst.
  - rewrite lines_in_rewritten. apply Forall_forall. intros l Hl. rewrite list_elem_of_In, List.in_map_iff in Hl.
    destruct Hl as (x & <- & Hx%list_elem_of_In). by apply Hc.
Qed.
Lemma approve_kept nm id from by_ qs s t s' :
  transfers_ok s → uncounted s → Forall (λ p, milli p.2 = true) qs →
  approve_stock_transfer id from by_ qs s = Ok t s' → kept nm s s'.
Proof.
  intros Hok Hun Hqs (x & s0 & H1 & Hrun)%bind_Ok. apply the_transfer_run in H1 as (-> & Hg & Hid).
  destruct (negb (_ =? _)); [done|]. destruct (negb (bool_decide _)) eqn:Hst; [done|]. zbool.
  apply bind_Ok in Hrun as (ls & s0 & [= <- <-] & Hrun). rewrite Hid in Hrun.
  apply bind_Ok in Hrun as (sending & s1 & H1 & Hrun). destruct (bool_decide (sending = [])); [done|].
  apply bind_Ok in Hrun as ([] & s2 & H2 & Hrun). injection Hrun as _ <-.
  apply approve_loop in H1 as (-> & -> & Hpos).
  assert (fold_left (λ t l, set_row (approved_at qs l) t) (lines_in id s) (transfer_lines s) =
    map_rows (λ l, if tl_transfer_id l =? id then approved_at qs l else l) (transfer_lines s)) as Hfold
    by (apply set_all_rows; [apply Hok|done]).
  rewrite Hfold in H2. fold (rewritten id qs s) in H2. cbn [app] in H2. rewrite <-lines_in_rewritten in H2.
  destruct (rewrite_kept nm id qs x s) as [(Hok1 & Ht1 & Hu1) Hc]; [done..|].
  apply (take_loop nm) in H2 as (Hok2 & Hh & El & Et & Hkeep & Hfrom); [|done|].
  2:{ apply Forall_forall. intros l Hl. rewrite Forall_forall in Hc. apply Hc. rewrite list_elem_of_In, List.filter_In in Hl.
      apply list_elem_of_In, Hl. }
  set (s1 := rewritten id qs s) in *. assert (lines_in id s2 = lines_in id s1) as El2 by (unfold lines_in; by rewrite El).
  match goal with |- kept nm s (with_transfers (set_row ?y _) s2) => set (t' := y) end.
  assert (get_row id (stock_transfers s2) = Some x) as Hg2 by (rewrite Et; done).
  assert (uncounted s2) as Hun2 by (intros l y; rewrite El, Et; by apply Hu1).
  rewrite sum_sendable in Hh by done. split_and!.
  - apply (set_transfer_ok id x); [done..|]. intros l Hl _. rewrite El2 in Hl. rewrite Forall_forall in Hc, Hfrom.
    destruct (sendable l) eqn:Hs; [right; apply Hfrom; rewrite list_elem_of_In, List.filter_In, <-list_elem_of_In; done|left].
    apply not_sendable; [by apply Hc|done].
  - rewrite <-Ht1. unfold total_stock. rewrite (away_status nm id x) by done.
    change (held_in_branches nm (with_transfers _ s2)) with (held_in_branches nm s2).
    rewrite sum_lines, Hh, El2, (away_ext nm s1 s2) by (done || (intros; unfold status_in; by rewrite Et)).
    assert (zsum (λ l, if tl_ingredient_name l =s nm then line_weight (Some (tr_status t')) l - line_weight (Some (tr_status x)) l else 0)
      (lines_in id s1) = sum_named nm (lines_in id s1)) as Hz; [|lia].
    apply zsum_ext. intros l Hl. rewrite Hst. cbn. rewrite <-El2, elem_of_lines_in in Hl. destruct Hl as [Hl Hli].
    rewrite (Hun2 l x); [|done|by rewrite Hli|by rewrite Hst]. destruct (_ =s nm); lia.
  - intros _. apply (uncounted_status id x); [done..| |done]. by rewrite Hst.
Qed.

(** *** Requests *)

(** Storing thousandths of thousandths changes no amount. *)
Lemma ingredient_at_stored r nm s : is_Some (ingredient_at r nm s) → is_Some (ingredient_at r nm (as_stored s)).
Proof.
  intros [i Hi]. apply ingredient_at_some in Hi as (Hi & Hr & Hn). destruct (ingredient_at r nm (as_stored s)) eqn:Hf; [by eexists|].
  unfold ingredient_at in Hf. rewrite first_where_None in Hf.
  specialize (Hf (with_stock (thousandths (current_stock i)) i)). unfold named_at in Hf. cbn in Hf.
  rewrite Hr, Hn, Z.eqb_refl, String.eqb_refl in Hf. discriminate Hf. unfold map_rows; cbn.
  apply list_elem_of_In, List.in_map_iff. exists i. by rewrite <-list_elem_of_In.
Qed.
Lemma stored_thousandths x : stored_qty (thousandths x) = stored_qty x.
Proof. apply milli_thousandths. Qed.
Lemma as_stored_kept nm s : transfers_ok s → kept nm s (as_stored s).
Proof.
  intros [H1 H2 H3 H4 H5]. split_and!.
  - split; [by apply map_rows_wf|done|by apply map_rows_wf| |].
    + intros i. unfold as_stored, map_rows; cbn. rewrite list_elem_of_In, List.in_map_iff. intros (x & <- & Hx%list_elem_of_In). cbn.
      rewrite stored_thousandths. split; [apply milli_thousandths|by apply H4].
    + intros l. unfold as_stored, map_rows; cbn. rewrite list_elem_of_In, List.in_map_iff. intros (x & <- & Hx%list_elem_of_In).
      destruct (H5 x Hx) as [L1 L2 L3 (t & Hg & L4)]. split; cbn; rewrite ?stored_thousandths.
      * split_and!; [apply milli_thousandths|destruct (tl_qty_requested x)|destruct (tl_qty_received x)]; cbn; done || apply milli_thousandths.
      * done.
      * intros r. destruct (tl_qty_received x) as [q|]; cbn; [|done]. intros [= <-]. rewrite stored_thousandths. by apply L3.
      * exists t. split; [done|]. intros Hst. destruct (L4 Hst); [by left|right]. by apply ingredient_at_stored.
  - unfold total_stock, held_in_branches, away, sum_where.
    change (rows (ingredients_at (as_stored s))) with ((λ i, with_stock (thousandths (current_stock i)) i) <$> rows (ingredients_at s)).
    change (rows (transfer_lines (as_stored s))) with (line_as_stored <$> rows (transfer_lines s)).
    change (status_in (as_stored s)) with (status_in s). rewrite !zsum_fmap.
    f_equal; apply zsum_ext; intros x _; cbn; [by rewrite stored_thousandths|]. destruct (_ =s nm); [|done]. unfold line_weight. cbn.
    destruct (tl_qty_received x); cbn; by rewrite !stored_thousandths.
  - intros Hun l t. unfold as_stored, map_rows; cbn. rewrite list_elem_of_In, List.in_map_iff. intros (x & <- & Hx%list_elem_of_In) Hg Hc.
    cbn. by rewrite (Hun x t Hx Hg Hc).
Qed.
Lemma kept_refl nm s : transfers_ok s → kept nm s s.
Proof. intros Hok. by split_and!. Qed.
Lemma kept_trans nm s1 s2 s3 : kept nm s1 s2 → kept nm s2 s3 → kept nm s1 s3.
Proof. intros (? & ? & ?) (? & ? & ?). split_and!; [done|congruence|auto]. Qed.
Lemma announced_kept nm r o s s' : transfers_ok s → announce r o s = Ok tt s' → kept nm s s'.
Proof. intros [H1 H2 H3 H4 H5] [= <-]. split_and!; [|done|done]. split; try done. intros l Hl. by apply (line_ok_ext s); [..|apply H5]. Qed.
Lemma branch_request_kept nm status r other m s :
  transfers_ok s → (∀ t s', m s = Ok t s' → kept nm s s') → kept nm s (final (branch_request status r other m s)).
Proof.
  intros Hok Hm. unfold branch_request, atomically.
  destruct ((try_except m _ ≫= _) s) as [[] s'|e s'] eqn:Hrun; cbn; [|by apply kept_refl].
  apply bind_Ok in Hrun as (t & s1 & H1 & Hrun). apply try_raise_Ok in H1; [|done]. apply Hm in H1 as Hk1.
  apply bind_Ok in Hrun as ([] & s2 & H2 & [= <-]). pose proof (announced_kept nm _ _ _ _ (proj1 Hk1) H2) as Hk2.
  eapply kept_trans; [done|]. eapply kept_trans; [done|]. apply as_stored_kept. by destruct Hk2.
Qed.
(** The quantities of a request, to the thousandth. *)
Definition request_milli (r : transfer_request) : bool :=
  match r with
  | TDispatch _ _ l _ | TRequest _ _ l _ => forallb (λ l, milli (li_quantity l)) l
  | TApprove _ _ l | TReceive _ _ l => forallb (λ p, milli p.2) l
  | _ => true
  end.
Lemma forallb_Forall {A} (f : A → bool) l : forallb f l = true → Forall (λ x, f x = true) l.
Proof. intros Hf. apply Forall_forall. intros x Hx. rewrite List.forallb_forall in Hf. by apply Hf, list_elem_of_In. Qed.
Lemma transfer_kept nm r s :
  transfers_ok s → uncounted s → request_milli r = true → kept nm s (final (transfer_run r s)).
Proof.
  intros Hok Hun Hr. unfold transfer_run. destruct r; cbn in Hr; try apply forallb_Forall in Hr;
    (apply branch_request_kept; [done|]); intros t s' Hrun.
  - by eapply dispatch_kept.
  - by eapply request_kept.
  - by eapply approve_kept.
  - by eapply decline_kept.
  - by eapply withdraw_kept.
  - eapply receive_kept; [..|exact Hrun]; [done..|]. by destruct (bool_decide _).
  - by eapply cancel_kept.
Qed.

(** C30. Stock is conserved: over any history of the branches' requests, with quantities to the
    thousandth, what the branches hold of an ingredient, what is on the road and what went
    missing on it add up to what there was; no branch ever holds less than nothing, and a
    line never counts in more than was sent. *)
Theorem stock_conserved (l : list transfer_request) s :
  transfers_ok s → uncounted s → Forall (λ r, request_milli r = true) l →
  let s' := transfer_history l s in
  (∀ name, held_in_branches name s' + away name s' = held_in_branches name s + away name s) ∧
  (∀ i, i ∈ rows (ingredients_at s') → 0 ≤ stored_qty (current_stock i)) ∧
  (∀ x r, x ∈ rows (transfer_lines s') → tl_qty_received x = Some r → 0 ≤ stored_qty r ≤ stored_qty (tl_quantity x)).
Proof.
  intros Hok Hun Hl. cbv zeta. assert (∀ nm, kept nm s (transfer_history l s)) as Hk.
  { intros nm. unfold transfer_history. revert s Hok Hun. induction Hl as [|r l Hr _ IH]; intros s Hok Hun; cbn [fold_left]; [by apply kept_refl|].
    pose proof (transfer_kept nm r s Hok Hun Hr) as Hk. eapply kept_trans; [done|]. destruct Hk as (? & _ & Hu). apply IH; auto. }
  destruct (Hk "") as (Hok' & _ & _). split; [intros nm; apply (Hk nm)|]. split; [intros i Hi; by apply (to_stock _ Hok')|].
  intros x r Hx. apply (lo_received _ _ (to_lines _ Hok' x Hx)).
Qed.

(** ** Two branches *)

(** Rice at the one, none at the other. *)
Definition rice (id branch : Z) (q : Q) : Ingredient :=
  {| ing_id := id; ing_restaurant_id := branch; ing_name := "Rice"; ing_unit := "kg"; current_stock := q; low_stock_threshold := 0;
     par_level := 0; cost_per_unit_aed := 0; count_variance_threshold_pct := None |}.
Definition two_branches : transfers_db :=
  {| org_branches := Table [{| ob_id := 1; ob_organization_id := Some 7; ob_name := "Marina" |};
       {| ob_id := 2; ob_organization_id := Some 7; ob_name := "Deira" |}] 3;
     ingredients_at := Table [rice 1 1 10] 2; stock_transfers := Table [] 1; transfer_lines := Table [] 1; inventory_changed := [] |}.
Definition some_rice (q : Q) : line_in := {| li_ingredient_name := "Rice"; li_quantity := q; li_unit := None |}.
(** Four kilos leave, three and a half arrive; two more are asked for, one is approved, and called back. *)
Definition some_transfers : list transfer_request :=
  [TDispatch 1 2 [some_rice 4] None; TReceive 2 1 [("Rice", 7 # 2)];
   TRequest 2 1 [some_rice 2] None; TApprove 1 2 [("Rice", 1%Q)]; TCancel 1 2].
Example some_transfers_run :
  let s := transfer_history some_transfers two_branches in
  map current_stock (rows (ingredients_at s)) = [6000 # 1000; 3500 # 1000] ∧ away "Rice" s = 500 ∧
  map tr_status (rows (stock_transfers s)) = [TCompleted; TCancelled].
Proof. by vm_compute. Qed.
Lemma two_branches_ok : transfers_ok two_branches.
Proof.
  split; try (apply table_wf_check; reflexivity).
  - intros i. cbn. rewrite list_elem_of_singleton. by intros ->.
  - intros l. by intros ?%elem_of_nil.
Qed.
Lemma stock_conserved_witness :
  let s' := transfer_history some_transfers two_branches in
  held_in_branches "Rice" s' + away "Rice" s' = 10000.
Proof.
  destruct (stock_conserved some_transfers two_branches) as [H _];
    [exact two_branches_ok|by intros l t ?%elem_of_nil|by repeat constructor|exact (H "Rice")].
Defined.

(** The head office completes what a branch sent: the stock leaves the sender twice, and
    arrives once; what was called back, or never approved, it moves as well, to below
    nothing if it must. *)
Example head_office_completes_sent :
  let s := final (complete_request 7 1 (transfer_history [TDispatch 1 2 [some_rice 4] None] two_branches)) in
  map current_stock (rows (ingredients_at s)) = [2000 # 1000; 4000 # 1000].
Proof. by vm_compute. Qed.
Example head_office_completes_called_back :
  let s := final (complete_request 7 1 (transfer_history [TDispatch 1 2 [some_rice 4] None; TCancel 1 1] two_branches)) in
  map current_stock (rows (ingredients_at s)) = [6000 # 1000; 4000 # 1000] ∧
  map tr_status (rows (stock_transfers s)) = [TCompleted].
Proof. by vm_compute. Qed.
Example head_office_below_nothing :
  let s := final (complete_request 7 1 (transfer_history [TRequest 2 1 [some_rice 12] None] two_branches)) in
  map current_stock (rows (ingredients_at s)) = [(-2000) # 1000; 12000 # 1000].
Proof. by vm_compute. Qed.
(** Half a gram sent is not missed by the sender, and a gram arrives. *)
Example half_a_gram :
  let s := transfer_history [TDispatch 1 2 [some_rice (1 # 2000)] None; TReceive 2 1 []] two_branches in
  map current_stock (rows (ingredients_at s)) = [10000 # 1000; 1 # 1000].
Proof. by vm_compute. Qed.
