(* ===== verification/Complaints.v ===== *)
(** * Complaint tickets ([tickets/service.py], [tickets/router.py])

    A complaint is opened by the assistant and closed by a manager: a refund to the
    wallet, a replacement (an order that exists, or a new free one), or nothing.  The
    session is the kitchen's ([KitchenDb]), which holds the orders, the wallet and the
    queue of messages, with the complaints beside it. *)

From S2P Require Import Prelude Money Strings Decimals Db AuditTrail Clock Floats Wallet Ledger WalletLedger OrderFsm OrderPayments Outbox Notify Loyalty Batching Scoring Fleet KitchenDb Kitchen KitchenFlow.

(** ** Data *)

Inductive complaint_status := COpen | CInProgress | CResolved.
#[global] Instance complaint_status_eq_dec : EqDecision complaint_status.
Proof. solve_decision. Defined.
Inductive resolution := RNone | RWalletRefund | RReplacement | RNoAction.
#[global] Instance resolution_eq_dec : EqDecision resolution.
Proof. solve_decision. Defined.

Record Complaint := {
  cp_id : Z;
  cp_restaurant_id : Z;
  cp_customer_id : Z;
  cp_order_id : option Z;
  cp_source_message : option string;
  cp_evidence : list string;            (** each item as its JSON text *)
  cp_category : option string;
  cp_status : complaint_status;
  cp_assigned_to : option string;
  cp_resolution_action : resolution;
  cp_resolution_amount_aed : option Z;  (** cents *)
  cp_replacement_order_id : option Z;
  cp_resolution_note : option string;
  cp_resolved_at : option Z;
}.
#[global] Instance Complaint_row : Row Complaint := cp_id.

(** The columns of an order that a replacement copies and no other part reads. *)
Record OrderNotes := { on_id : Z; on_distance_km : option float; on_additional_details : option string }.
#[global] Instance OrderNotes_row : Row OrderNotes := on_id.

Record complaints_db := { complaints : table Complaint; order_notes : table OrderNotes; cp_kitchen : kitchen_db }.
#[global] Program Instance complaints_kitchen_lens : Lens complaints_db kitchen_db := {|
  view := cp_kitchen;
  put k s := Build_complaints_db (complaints s) (order_notes s) k;
|}.
Solve Obligations with by intros; try destruct s.
#[global] Instance complaints_has_audit : HasAudit complaints_db := {|
  audit_log s := audit_log (cp_kitchen s);
  put_audit l s := put (put_audit l (cp_kitchen s)) s;
|}.
Definition with_complaints t s := Build_complaints_db t (order_notes s) (cp_kitchen s).
Definition with_order_notes t s := Build_complaints_db (complaints s) t (cp_kitchen s).

(** The [TicketError]s; what the flush or a service it calls raises; the router's answers. *)
Inductive complaint_error :=
| ComplaintNotFound (ticket_id : Z)
| RefundNotPositive
| ResolutionNoteRequired
| NotLinkedToOrder
| OriginalOrderNotFound
| OrderNumberTaken                  (** UNIQUE (restaurant_id, order_number) of [orders] *)
| CallRaised (e : kitchen_error)
| ComplaintHTTP (code : Z).
Abbreviation CPM := (M complaints_db complaint_error).
Definition is_TicketError (e : complaint_error) : bool :=
  match e with
  | ComplaintNotFound _ | RefundNotPositive | ResolutionNoteRequired | NotLinkedToOrder | OriginalOrderNotFound => true
  | _ => false
  end.

Definition cp_now (s : complaints_db) : Z := kt_now (cp_kitchen s).
Definition set_complaint (c : Complaint) : CPM unit := modify (λ s, with_complaints (set_row c (complaints s)) s).
Definition in_the_kitchen {A} : KM A → CPM A := zoom CallRaised.
Definition in_loyalty {A} (m : LM A) : CPM A := in_the_kitchen (in_fleet (zoom FleetLoyaltyRaised m)).
Definition in_wallet {A} (m : W A) : CPM A := in_loyalty (zoom LoyaltyWalletRaised m).
Definition cp_loyalty (s : complaints_db) : loyalty_db := fl_loyalty (kt_fleet (cp_kitchen s)).

(** ** Opening *)

Definition create_ticket (restaurant_id customer_id : Z) (order_id : option Z) (source_message : option string)
    (evidence : list string) (category : option string) : CPM Complaint :=
  t ← gets complaints;
  let c := {| cp_id := next_id t; cp_restaurant_id := restaurant_id; cp_customer_id := customer_id; cp_order_id := order_id;
    cp_source_message := source_message; cp_evidence := evidence; cp_category := category; cp_status := COpen;
    cp_assigned_to := None; cp_resolution_action := RNone; cp_resolution_amount_aed := None;
    cp_replacement_order_id := None; cp_resolution_note := None; cp_resolved_at := None |} in
  modify (λ s, with_complaints (add_row c t) s) ≫= λ _,
  _ ← audit "system" restaurant_id "ticket" (pretty (cp_id c)) "opened" None
    (Some [("order_id", jopt_int order_id); ("category", jopt_str category)]%string);
  mret c.

Definition get_ticket (restaurant_id ticket_id : Z) : CPM Complaint :=
  found ← gets (λ s, first_where (λ c, (cp_id c =? ticket_id) && (cp_restaurant_id c =? restaurant_id)) (complaints s));
  match found with Some c => mret c | None => raise (ComplaintNotFound ticket_id) end.

(** ** Resolving *)

(** The resolution's columns; an amount or an order that is not given stays. *)
Definition with_resolution (action : resolution) (amount replacement : option Z) (note by_ : string) (now : Z) (c : Complaint)
    : Complaint :=
  {| cp_id := cp_id c; cp_restaurant_id := cp_restaurant_id c; cp_customer_id := cp_customer_id c; cp_order_id := cp_order_id c;
     cp_source_message := cp_source_message c; cp_evidence := cp_evidence c; cp_category := cp_category c; cp_status := CResolved;
     cp_assigned_to := Some by_; cp_resolution_action := action;
     cp_resolution_amount_aed := match amount with Some a => Some a | None => cp_resolution_amount_aed c end;
     cp_replacement_order_id := match replacement with Some o => Some o | None => cp_replacement_order_id c end;
     cp_resolution_note := Some note; cp_resolved_at := Some now |}.
Definition resolve_as (c : Complaint) (action : resolution) (amount replacement : option Z) (note by_ : string) : CPM Complaint :=
  now ← gets cp_now;
  let c' := with_resolution action amount replacement note by_ now c in
  set_complaint c' ≫= λ _, mret c'.

Definition notify_key (ticket_id : Z) : string := "ticket:" +:+ pretty ticket_id +:+ ":notify".
Definition _notify (c : Complaint) (body summary : string) : CPM unit :=
  m ← gets (λ s, get_row (cp_customer_id c) (members (cp_loyalty s)));
  match mb_phone <$> m with
  | None => mret tt
  | Some phone =>
      if negb (truthy phone) then mret tt else
      rname ← gets (λ s, venue_name (cp_restaurant_id c) "the restaurant" (cp_loyalty s));
      in_loyalty (zoom LoyaltyNotifyRaised (notify_customer (cp_restaurant_id c) phone body "ticket_resolution"
        [rname; summary] (notify_key (cp_id c))))
  end.

(** A decimal of a request, with its text. *)
Record amount_in := { am_value : Q; am_text : string }.
Definition refund_key (ticket_id : Z) : string := "ticket:" +:+ pretty ticket_id +:+ ":refund".

Section service.
(** The wallet's abuse caps ([settings]). *)
Context (abuse : abuse_settings).

Definition resolve_wallet_refund (restaurant_id ticket_id : Z) (amount : amount_in) (note created_by : string) : CPM Complaint :=
  ticket ← get_ticket restaurant_id ticket_id;
  if bool_decide (cp_status ticket = CResolved) then mret ticket else
  if am_value amount <=q 0 then raise RefundNotPositive else
  if negb (truthy (strip note)) then raise ResolutionNoteRequired else
  _ ← in_wallet (credit restaurant_id (cp_customer_id ticket) (am_value amount) (refund_key ticket_id) Refund_credit
    (Some ticket_id) (Some note) created_by);
  ticket ← resolve_as ticket RWalletRefund (Some (quantize (am_value amount))) None note created_by;
  _ ← in_wallet (check_and_flag abuse restaurant_id (cp_customer_id ticket) created_by);
  _ ← audit created_by restaurant_id "ticket" (pretty ticket_id) "resolved_wallet_refund"
    (Some [("status", JStr "open")]%string) (Some [("amount_aed", JStr (am_text amount)); ("note", JStr note)]%string);
  _notify ticket
    ("We're sorry about your experience. AED " +:+ am_text amount +:+ " has been added to your wallet as credit for your next order. 🙏")
    ("AED " +:+ am_text amount +:+ " wallet credit added as an apology.") ≫= λ _,
  mret ticket.

Definition resolve_replacement (restaurant_id ticket_id replacement_order_id : Z) (note created_by : string) : CPM Complaint :=
  ticket ← get_ticket restaurant_id ticket_id;
  if bool_decide (cp_status ticket = CResolved) then mret ticket else
  if negb (truthy (strip note)) then raise ResolutionNoteRequired else
  ticket ← resolve_as ticket RReplacement None (Some replacement_order_id) note created_by;
  _ ← audit created_by restaurant_id "ticket" (pretty ticket_id) "resolved_replacement"
    (Some [("status", JStr "open")]%string)
    (Some [("replacement_order_id", JInt replacement_order_id); ("note", JStr note)]%string);
  _notify ticket "We're sorry about your experience. A replacement for your order is on the way. 🛵"
    "A replacement for your order is on the way." ≫= λ _,
  mret ticket.

Definition resolve_no_action (restaurant_id ticket_id : Z) (note created_by : string) : CPM Complaint :=
  ticket ← get_ticket restaurant_id ticket_id;
  if bool_decide (cp_status ticket = CResolved) then mret ticket else
  if negb (truthy (strip note)) then raise ResolutionNoteRequired else
  ticket ← resolve_as ticket RNoAction None None note created_by;
  _ ← audit created_by restaurant_id "ticket" (pretty ticket_id) "resolved_no_action"
    (Some [("status", JStr "open")]%string) (Some [("note", JStr note)]%string);
  _notify ticket note note ≫= λ _,
  mret ticket.
End service.

(** ** A new free order *)

(** The rest of an order's row: its bill and its notes. *)
Definition bill_of (order_id : Z) (s : complaints_db) : option OrderPayments.Order :=
  get_row order_id (fst (fst (fl_bills (kt_fleet (cp_kitchen s))))).
Definition notes_of (order_id : Z) (s : complaints_db) : option OrderNotes := get_row order_id (order_notes s).
Definition priced_line (line_id : Z) (s : kitchen_db) : option OrderItem := get_row line_id (snd (fst (fl_bills (kt_fleet s)))).
(** The lines of an order: the kitchen's half with the priced half of the same row. *)
Definition whole_lines (order_id : Z) (s : kitchen_db) : list (Ticket * OrderItem) :=
  omap (λ t, (λ i, (t, i)) <$> priced_line (tk_id t) s) (tickets_of order_id s).

Definition replacement_number_taken (restaurant_id : Z) (number : string) (s : kitchen_db) : bool :=
  existsb (λ o, (o_restaurant_id o =? restaurant_id) &&
    match get_row (o_id o) (deliveries (kt_fleet s)) with Some d => order_number d =s number | None => false end)
    (rows (fl_orders (kt_fleet s))).
Definition replacement_number (original : string) (count : Z) : string := original +:+ "-R" +:+ pad 4 (Z.to_N (count + 1)).

(** The parts of the replacement's row; what is not given has the column's default. *)
Definition replacement_order (id restaurant_id customer_id now : Z) : OrderFsm.Order :=
  {| o_id := id; o_restaurant_id := restaurant_id; o_customer_id := customer_id; o_status := PENDING_CONFIRMATION; o_total := 0;
     o_table_id := None; o_aggregator_source := None; o_aggregator_order_ref := None; o_created_at := now |}.
Definition replacement_delivery (id : Z) (number : string) (address : option Z) : Delivery :=
  Build_Delivery id number address None "normal" None None None None None None None None None None None false.
Definition replacement_bill (id restaurant_id customer_id subtotal : Z) : OrderPayments.Order :=
  Bill id restaurant_id customer_id subtotal 0 0 0 0 0 0 0 None 0 0.
Definition replacement_kitchen (id : Z) : KitchenOrder :=
  {| ko_id := id; ko_order_type := "delivery"; ko_held_at := None; ko_customer_allergy_notes := None; ko_staff_id := None;
     ko_daily_token := None; ko_source_channel := None; ko_cook_estimate_minutes := None |}.

Definition change_bills (f : table OrderPayments.Order → table OrderPayments.Order) : KM unit :=
  in_fleet (zoom FleetPayRaised (modify (λ p, with_po_orders (f (po_orders p)) p))).
Definition add_order_row (o : OrderFsm.Order) (d : Delivery) (b : OrderPayments.Order) (k : KitchenOrder) : KM unit :=
  in_fleet (zoom FleetFsmRaised (modify (λ f, with_orders (add_row o (orders f)) f))) ≫= λ _,
  in_fleet (modify (λ s, with_deliveries (add_row d (deliveries s)) s)) ≫= λ _,
  change_bills (add_row b) ≫= λ _,
  modify (λ s, with_kitchen_orders (add_row k (kitchen_orders s)) s).

(** A line cooked again: the dish, the size, the wish, the price and the quantity. *)
Definition line_again (order_id id now : Z) (t : Ticket) : Ticket :=
  Build_Ticket id order_id (tk_dish_id t) (tk_dish_name t) (tk_variant_name t) (tk_qty t) (tk_notes t) false [] [] false now
    KReceived None None None None None false false false None.
Definition item_again (order_id id : Z) (i : OrderItem) : OrderItem :=
  {| oi_id := id; oi_order_id := order_id; oi_price_aed := oi_price_aed i; oi_qty := oi_qty i; oi_cancelled := false |}.
Definition clone_line (order_id : Z) (l : Ticket * OrderItem) : KM unit :=
  now ← gets kt_now;
  t ← gets tickets;
  modify (with_tickets (add_row (line_again order_id (next_id t) now l.1) t)) ≫= λ _,
  change_items (add_row (item_again order_id (next_id t) l.2)).

Definition free_text (original : string) (ticket_id : Z) : string :=
  "Free replacement for " +:+ original +:+ " (ticket #" +:+ pretty ticket_id +:+ ")".

Section replacement.
(** [settings.sla_customer_minutes] and the geo provider of the confirmation. *)
Context (sla_customer_minutes : Z) (geo : geo_port).

Definition create_replacement_order (restaurant_id ticket_id : Z) (note created_by : string) : CPM Complaint :=
  ticket ← get_ticket restaurant_id ticket_id;
  if bool_decide (cp_status ticket = CResolved) then mret ticket else
  if negb (truthy (strip note)) then raise ResolutionNoteRequired else
  match cp_order_id ticket with
  | None => raise NotLinkedToOrder
  | Some original_id =>
      found ← gets (λ s, w ← whole_order original_id (cp_kitchen s); b ← bill_of original_id s; Some (w, b, notes_of original_id s));
      match found with
      | None => raise OriginalOrderNotFound
      | Some (original, bill, texts) =>
          now ← gets cp_now;
          count ← gets (λ s, count_where (λ o, o_restaurant_id o =? restaurant_id) (fl_orders (kt_fleet (cp_kitchen s))));
          let number := replacement_number (order_number (w_delivery original)) count in
          taken ← gets (λ s, replacement_number_taken restaurant_id number (cp_kitchen s));
          if (taken : bool) then raise OrderNumberTaken else
          id ← gets (λ s, next_id (fl_orders (kt_fleet (cp_kitchen s))));
          in_the_kitchen (add_order_row
            (replacement_order id restaurant_id (o_customer_id (w_order original)) now)
            (replacement_delivery id number (address_id (w_delivery original)))
            (replacement_bill id restaurant_id (o_customer_id (w_order original)) (po_subtotal bill))
            (replacement_kitchen id)) ≫= λ _,
          modify (λ s, with_order_notes (add_row {| on_id := id; on_distance_km := texts ≫= on_distance_km;
            on_additional_details := Some (free_text (order_number (w_delivery original)) (cp_id ticket)) |} (order_notes s)) s) ≫= λ _,
          lines ← gets (λ s, whole_lines original_id (cp_kitchen s));
          for_each (λ l, in_the_kitchen (clone_line id l)) lines ≫= λ _,
          in_the_kitchen (finalize_confirmation sla_customer_minutes geo id created_by) ≫= λ _,
          ticket ← resolve_as ticket RReplacement None (Some id) note created_by;
          _ ← audit created_by restaurant_id "ticket" (pretty ticket_id) "resolved_replacement_created"
            (Some [("status", JStr "open")]%string) (Some [("replacement_order_id", JInt id); ("note", JStr note)]%string);
          _notify ticket
            ("We're sorry about your experience. A free replacement (order " +:+ number +:+ ") is being prepared and is on its way. 🛵")
            ("A free replacement (order " +:+ number +:+ ") is on its way.") ≫= λ _,
          mret ticket
      end
  end.

(** ** Requests *)

Inductive resolve_action := ActWalletRefund | ActReplacement | ActCreateReplacement | ActNoAction.
Record TicketResolveIn := {
  re_action : resolve_action;
  re_note : string;
  re_amount : option amount_in;
  re_replacement_order_id : option Z;
}.
Definition resolve_body (abuse : abuse_settings) (restaurant_id ticket_id : Z) (body : TicketResolveIn) : CPM Complaint :=
  let actor := "mgr:" +:+ pretty restaurant_id in
  match re_action body with
  | ActWalletRefund =>
      match re_amount body with
      | None => raise (ComplaintHTTP 400)
      | Some amount => resolve_wallet_refund abuse restaurant_id ticket_id amount (re_note body) actor
      end
  | ActCreateReplacement => create_replacement_order restaurant_id ticket_id (re_note body) actor
  | ActReplacement =>
      match re_replacement_order_id body with
      | None => raise (ComplaintHTTP 400)
      | Some oid => resolve_replacement restaurant_id ticket_id oid (re_note body) actor
      end
  | ActNoAction => resolve_no_action restaurant_id ticket_id (re_note body) actor
  end.
Definition resolve_ticket (abuse : abuse_settings) (restaurant_id ticket_id : Z) (body : TicketResolveIn) : CPM Complaint :=
  atomically (try_except (resolve_body abuse restaurant_id ticket_id body)
    (λ e, raise (if is_TicketError e then ComplaintHTTP 400 else e))).

(** A complaint opened (by the assistant, whose turn commits), a request of a manager. *)
Inductive complaint_request :=
| CPOpen (restaurant_id customer_id : Z) (order_id : option Z) (message : option string) (evidence : list string) (category : option string)
| CPResolve (restaurant_id ticket_id : Z) (body : TicketResolveIn).
Definition complaint_run (abuse : abuse_settings) (r : complaint_request) : CPM Complaint :=
  match r with
  | CPOpen rid cid oid m ev cat => create_ticket rid cid oid m ev cat
  | CPResolve rid tid body => resolve_ticket abuse rid tid body
  end.
Definition complaint_history (abuse : abuse_settings) (l : list complaint_request) (s : complaints_db) : complaints_db :=
  fold_left (λ s r, final (complaint_run abuse r s)) l s.
End replacement.
