(* ===== verification/ComplaintFacts.v ===== *)
(** * Facts about complaints ([Complaints])

    A complaint is paid back at most once, whatever is asked how often; a resolved one
    stays as it is; and a replacement is a confirmed order that costs nothing. *)

From S2P Require Import Prelude Money Strings Decimals Db AuditTrail Clock Floats Wallet WalletFacts Ledger WalletLedger OrderFsm OrderFsmFacts OrderPayments OrderPaymentsFacts Outbox Notify Loyalty Batching Scoring Fleet FleetFacts FleetCases KitchenDb Kitchen KitchenFlow KitchenFacts KitchenFlowFacts KitchenCases Complaints.

(** ** The refunds of a complaint *)

Definition keyed (key : string) (w : wallet_db) : list WalletEntry := all_where (λ e, we_key e =s key) (entries w).
Definition kitchen_wallet (k : kitchen_db) : wallet_db := lo_wallet (fl_loyalty (kt_fleet k)).
Definition refunds_of (i : Z) (s : complaints_db) : list WalletEntry := keyed (refund_key i) (kitchen_wallet (cp_kitchen s)).

Lemma refund_key_ne i oid suffix : order_key oid suffix ≠ refund_key i.
Proof. done. Qed.
Lemma string_app_tail (a b p : string) : a +:+ p = b +:+ p → a = b.
Proof.
  intros He. apply (f_equal String.list_ascii_of_string) in He.
  assert (∀ x y, String.list_ascii_of_string (x +:+ y) = String.list_ascii_of_string x ++ String.list_ascii_of_string y) as Happ.
  { induction x as [|c x IH]; intros y; [done|].
    change (String c x +:+ y) with (String c (x +:+ y)). cbn. by rewrite IH. }
  rewrite !Happ in He. apply app_inv_tail in He. apply (f_equal String.string_of_list_ascii) in He.
  by rewrite !String.string_of_list_ascii_of_string in He.
Qed.
Lemma refund_key_inj i j : refund_key i = refund_key j → i = j.
Proof. unfold refund_key. intros H%append_inj%string_app_tail. by apply (inj pretty) in H. Qed.

(** Reads of the wallet's journal under one key. *)
Lemma keyed_same key w w' : entries w' = entries w → keyed key w' = keyed key w.
Proof. unfold keyed. by intros ->. Qed.
Lemma keyed_add key w w' e :
  entries w' = add_row e (entries w) → keyed key w' = keyed key w ++ if we_key e =s key then [e] else [].
Proof.
  unfold keyed. intros ->. unfold all_where, add_row; cbn. rewrite List.filter_app. cbn. by destruct (_ =s key).
Qed.

(** *** Calls that leave the refunds alone *)

(** The kitchen's session, with these refunds. *)
Definition refunds_are (R : Z → list WalletEntry) (k : kitchen_db) : Prop := ∀ i, keyed (refund_key i) (kitchen_wallet k) = R i.
Section frame.
Context (R : Z → list WalletEntry).
Abbreviation frugal m := (preserves (refunds_are R) m).

Lemma frugal_modify (f : kitchen_db → kitchen_db) :
  (∀ k, kitchen_wallet (f k) = kitchen_wallet k) → frugal (modify (E := kitchen_error) f).
Proof. intros Hf. apply preserves_modify. intros k Hk i. rewrite Hf. apply Hk. Qed.
Lemma frugal_fsm {A} (m : M fsm_db order_error A) : frugal (in_fleet (zoom FleetFsmRaised m)).
Proof. intros k Hk. unfold in_fleet, zoom. by destruct (m _). Qed.
Lemma frugal_fleet_modify (f : fleet_db → fleet_db) :
  (∀ s, lo_wallet (fl_loyalty (f s)) = lo_wallet (fl_loyalty s)) → frugal (in_fleet (modify f)).
Proof. intros Hf k Hk i. unfold in_fleet, zoom, modify. cbn. unfold kitchen_wallet; cbn. rewrite Hf. apply Hk. Qed.
Lemma frugal_pay {A} (m : M (pay_db (W := wallet_db)) (pay_error (E := wallet_error)) A) :
  (∀ p i, keyed (refund_key i) (po_ledger (final (m p))) = keyed (refund_key i) (po_ledger p)) →
  frugal (in_fleet (zoom FleetPayRaised m)).
Proof.
  intros Hm k Hk i. unfold in_fleet, zoom. specialize (Hm (view (view k)) i). rewrite <-(Hk i).
  destruct (m (view (view k))) as [a p|e p]; cbn in Hm |- *; exact Hm.
Qed.
Lemma frugal_for_fold {A B} (f : A → B → KM B) l b : (∀ x b, frugal (f x b)) → frugal (for_fold f l b).
Proof. intros Hf. revert b. induction l as [|x l IH]; intros b; [apply preserves_ret|]. apply preserves_bind; [apply Hf|done]. Qed.

#[local] Hint Resolve preserves_ret preserves_raise preserves_gets frugal_fsm : frugal.
#[local] Hint Extern 4 (preserves _ (modify _)) => (apply frugal_modify; by intros) : frugal.
#[local] Hint Extern 4 (preserves _ (in_fleet (modify _))) => (apply frugal_fleet_modify; by intros) : frugal.
Ltac be_frugal :=
  repeat first
    [ solve [eauto 2 with frugal]
    | apply preserves_bind; [|intros ?]
    | apply preserves_for_each; intros ? _
    | apply frugal_for_fold; intros ? ?
    | match goal with
      | |- preserves _ (if ?b then _ else _) => destruct b eqn:?
      | |- preserves _ (match ?x with _ => _ end) => destruct x eqn:?
      end ].

(** The wallet's own calls, under other keys. *)
Definition wallet_refunds (w : wallet_db) : Prop := ∀ i, keyed (refund_key i) w = R i.
Lemma wallet_frugal {A} (m : W A) : (∀ w, entries (final (m w)) = entries w) → preserves wallet_refunds m.
Proof. intros Hm w Hw i. rewrite (keyed_same _ w); [apply Hw|apply Hm]. Qed.
Lemma account_frugal rid cid : preserves wallet_refunds (get_or_create_account rid cid).
Proof. apply wallet_frugal. intros w. destruct (get_or_create_total rid cid w) as (a & w' & -> & He & _). exact He. Qed.
Lemma hold_frugal a rid x oid suffix by_ : preserves wallet_refunds (hold a rid x oid (order_key oid suffix) by_).
Proof.
  intros w Hw. unfold hold. destruct (x <=q 0); [exact Hw|]. wrun. destruct (first_where _ (entries w)); [exact Hw|].
  destruct (get_row a (accounts w)); [|exact Hw]. case_bool_decide; [exact Hw|]. wrun. destruct (aed _ <q x); [exact Hw|].
  match goal with |- context [flush_entry ?f w] => destruct (flush_entry_run f w) as [[_ Hfl]|[err Hfl]] end;
    rewrite Hfl; wrun; [|exact Hw].
  intros i. erewrite keyed_add by reflexivity. cbn [we_key]. rewrite (proj2 (String.eqb_neq _ _)), app_nil_r by apply refund_key_ne. apply Hw.
Qed.
(** The confirmation reserves store credit under a key of the order, no more. *)
Definition pay_refunds (p : pay_db (W := wallet_db)) : Prop := wallet_refunds (po_ledger p).
Lemma in_ledger_frugal {A} (m : W A) : preserves wallet_refunds m → preserves pay_refunds (in_ledger m).
Proof. intros Hm p Hp. specialize (Hm (po_ledger p) Hp). unfold in_ledger, zoom, pay_refunds. cbn. by destruct (m (po_ledger p)). Qed.
Lemma the_order_frugal oid : preserves pay_refunds (the_order (E := wallet_error) oid).
Proof. unfold the_order. apply preserves_bind; [apply preserves_gets|intros t]. destruct (get_row oid t); [apply preserves_ret|apply preserves_raise]. Qed.
Lemma confirm_frugal oid use_wallet by_ : preserves pay_refunds (apply_at_confirm (E := wallet_error) oid None use_wallet by_).
Proof.
  unfold apply_at_confirm. apply preserves_bind; [apply preserves_ret|intros cd].
  apply preserves_bind; [|intros _; apply preserves_bind; [apply the_order_frugal|intros ?; apply preserves_ret]].
  unfold confirm_wallet. apply preserves_bind; [apply the_order_frugal|intros o]. destruct (use_wallet && _); [|apply preserves_ret].
  apply preserves_bind; [apply in_ledger_frugal, preserves_bind; [apply account_frugal|intros ?; apply preserves_ret]|intros acc].
  apply preserves_bind; [apply in_ledger_frugal, wallet_frugal; by intros w|intros avail]. destruct (0 <? _); [|apply preserves_ret].
  apply preserves_bind; [apply in_ledger_frugal, preserves_bind; [apply hold_frugal|intros ?; apply preserves_ret]|intros _].
  unfold update_order. apply preserves_bind; [apply the_order_frugal|intros ?; by apply preserves_modify].
Qed.
Lemma frugal_confirm_money oid use_wallet by_ :
  frugal (in_fleet (zoom FleetPayRaised (apply_at_confirm (E := wallet_error) oid None use_wallet by_))).
Proof.
  intros k Hk. unfold in_fleet, zoom. pose proof (confirm_frugal oid use_wallet by_ (view (view k)) Hk) as Hp.
  destruct (apply_at_confirm _ _ _ _ _) as [a p|e p]; exact Hp.
Qed.
#[local] Hint Resolve frugal_confirm_money : frugal.

Lemma frugal_tickets rid o code : frugal (create_tickets_for_order rid o code).
Proof.
  unfold create_tickets_for_order, create_tickets_for_items, route_item, add_print_job, resolve_station, get_or_create_main_station,
    add_station, set_ticket. be_frugal.
Qed.
#[local] Hint Resolve frugal_tickets : frugal.
Lemma frugal_finalize sla geo oid actor : frugal (finalize_confirmation sla geo oid actor).
Proof.
  unfold finalize_confirmation, start_clock, step_to, the_order_whole, change_delivery, change_kitchen_order, set_delivery, call_kitchen.
  be_frugal.
Qed.
Lemma frugal_add_order o d b k : frugal (add_order_row o d b k).
Proof. unfold add_order_row, change_bills. be_frugal. by intros k' Hk'. Qed.
Lemma frugal_clone id l : frugal (clone_line id l).
Proof. unfold clone_line, change_items. be_frugal. Qed.
End frame.

(** *** The complaints' own calls *)

Definition still (s s' : complaints_db) : Prop := complaints s' = complaints s ∧ ∀ i, refunds_of i s' = refunds_of i s.
#[global] Instance still_preorder : PreOrder still.
Proof. split; [by split|]. intros s1 s2 s3 [H1 H2] [H3 H4]. split; [congruence|]. intros i. by rewrite H4. Qed.

Lemma kitchen_still {A} (m : KM A) s a s' :
  (∀ R, preserves (refunds_are R) m) → in_the_kitchen m s = Ok a s' → still s s'.
Proof.
  intros Hm (k & Hrun & ->)%zoom_Ok. split; [done|]. specialize (Hm (λ i, refunds_of i s) (cp_kitchen s) (λ i, eq_refl)).
  cbn in Hrun. by rewrite Hrun in Hm.
Qed.
Lemma wallet_call {A} (m : W A) s a s' :
  in_wallet m s = Ok a s' →
  complaints s' = complaints s ∧ m (kitchen_wallet (cp_kitchen s)) = Ok a (kitchen_wallet (cp_kitchen s')).
Proof.
  unfold in_wallet, in_loyalty, in_the_kitchen, in_fleet. intros (k & (f & (l & (w & Hrun & ->)%zoom_Ok & ->)%zoom_Ok & ->)%zoom_Ok & ->)%zoom_Ok.
  by split.
Qed.
Lemma audit_still actor rid entity eid action b a s r s' :
  audit (E := complaint_error) actor rid entity eid action b a s = Ok r s' → still s s'.
Proof. by intros [= _ <-]. Qed.
Lemma notify_still c body summary s s' : _notify c body summary s = Ok tt s' → still s s'.
Proof.
  unfold _notify. intros (m & s0 & [= <- <-] & Hrun)%bind_Ok. destruct (mb_phone <$> _) as [p|]; [|by injection Hrun as <-].
  destruct (negb _); [by injection Hrun as <-|]. apply bind_Ok in Hrun as (r & s0 & [= <- <-] & Hrun).
  unfold in_loyalty, in_the_kitchen, in_fleet in Hrun.
  apply zoom_Ok in Hrun as (k & (f & (l & (n & _ & ->)%zoom_Ok & ->)%zoom_Ok & ->)%zoom_Ok & ->). by split.
Qed.
Lemma flagged_still cfg rid cid by_ s b s' : in_wallet (check_and_flag cfg rid cid by_) s = Ok b s' → still s s'.
Proof.
  intros [Hc Hrun]%wallet_call. split; [done|]. intros i. apply keyed_same.
  assert (∀ w, entries (final (check_and_flag cfg rid cid by_ w)) = entries w) as He.
  { intros w. unfold check_and_flag. destruct (_ || _); [done|]. wrun. destruct (first_where _ (accounts w)); [|done].
    case_bool_decide; [done|]. wrun. unfold refund_velocity. wrun. destruct (negb _); [done|]. unfold freeze. wrun.
    by destruct (get_row _ (accounts w)). }
  specialize (He (kitchen_wallet (cp_kitchen s))). by rewrite Hrun in He.
Qed.
Lemma resolve_as_run c action amount replacement note by_ s c' s' :
  resolve_as c action amount replacement note by_ s = Ok c' s' →
  c' = with_resolution action amount replacement note by_ (cp_now s) c ∧ s' = with_complaints (set_row c' (complaints s)) s.
Proof. by intros [= <- <-]. Qed.
Lemma get_ticket_run rid tid s c s' :
  get_ticket rid tid s = Ok c s' → table_wf (complaints s) → s' = s ∧ get_row tid (complaints s) = Some c ∧ cp_restaurant_id c = rid.
Proof.
  unfold get_ticket, mbind, M_bind, gets. destruct (first_where _ _) as [x|] eqn:Hx; [|done]. intros [= <- <-] Hwf.
  apply first_where_Some in Hx as [Hin Hp]. zbool. split_and!; [done| |done].
  pose proof (get_row_wf (complaints s) x Hwf Hin) as Hg. by change (row_id x) with (cp_id x) in Hg; rewrite H in Hg.
Qed.
(** The refund itself, under a key nobody used. *)
Lemma credit_refund rid cid amount tid note by_ s e s' :
  in_wallet (credit rid cid amount (refund_key tid) Refund_credit (Some tid) note by_) s = Ok e s' → refunds_of tid s = [] →
  complaints s' = complaints s ∧ refunds_of tid s' = [e] ∧ (∀ i, i ≠ tid → refunds_of i s' = refunds_of i s) ∧
  we_amount e = quantize amount ∧ we_status e = Posted ∧ we_ticket_id e = Some tid.
Proof.
  intros [Hc Hrun]%wallet_call Hnone. split; [done|].
  assert (fresh_key (refund_key tid) (entries (kitchen_wallet (cp_kitchen s)))) as Hfresh.
  { apply key_lookup_fresh, first_where_None. intros x Hx. destruct (we_key x =s refund_key tid) eqn:Hk; [|done].
    assert (x ∈ refunds_of tid s) as Hin by (by apply elem_of_all_where). rewrite Hnone in Hin. by apply elem_of_nil in Hin. }
  pose proof Hrun as Hrun'. apply credit_Ok in Hrun as (_ & Hkey & _ & Hadd). destruct (Hadd Hfresh) as (Hst & Ham & He).
  assert (we_ticket_id e = Some tid) as Htk.
  { revert Hrun'. unfold credit. destruct (amount <=q 0); [done|]. wrun. apply key_lookup_fresh in Hfresh. rewrite Hfresh.
    destruct (get_or_create_total rid cid (kitchen_wallet (cp_kitchen s))) as (a & w1 & -> & _). cbn.
    match goal with |- context [flush_entry ?f w1] => destruct (flush_entry_run f w1) as [[_ Hfl]|[err Hfl]] end; rewrite Hfl; wrun;
      [by intros [= <- _]|done]. }
  split_and!; try done; unfold refunds_of; [|intros i Hi]; rewrite (keyed_add _ _ _ _ He), Hkey.
  - rewrite String.eqb_refl. fold (refunds_of tid s). by rewrite Hnone.
  - rewrite (proj2 (String.eqb_neq _ _)), app_nil_r; [done|]. intros ?%refund_key_inj. congruence.
Qed.

(** ** Paid back at most once *)

Definition refunded (c : Complaint) : option Z :=
  if bool_decide (cp_status c = CResolved) && bool_decide (cp_resolution_action c = RWalletRefund)
  then cp_resolution_amount_aed c else None.
Definition as_entry (e : WalletEntry) : entry_status * option Z * Z := (we_status e, we_ticket_id e, we_amount e).
Definition due_entries (i : Z) (o : option Complaint) : list (entry_status * option Z * Z) :=
  match o ≫= refunded with Some a => [(Posted, Some i, a)] | None => [] end.
(** The wallet's refunds are those the complaints record. *)
Definition refunds_match (s : complaints_db) : Prop :=
  table_wf (complaints s) ∧ ∀ i, as_entry <$> refunds_of i s = due_entries i (get_row i (complaints s)).
(** What a request may do: the books still match, and resolved complaints stay. *)
Definition settles (s s' : complaints_db) : Prop :=
  refunds_match s' ∧ ∀ i c, get_row i (complaints s) = Some c → cp_status c = CResolved → get_row i (complaints s') = Some c.

Lemma open_unpaid s i : refunds_match s → (∀ c, get_row i (complaints s) = Some c → cp_status c ≠ CResolved) → refunds_of i s = [].
Proof.
  intros [_ Hm] Hc. specialize (Hm i). assert (due_entries i (get_row i (complaints s)) = []) as Hd; [|by rewrite Hd in Hm; apply fmap_nil_inv in Hm].
  unfold due_entries. destruct (get_row i (complaints s)) as [c|]; [|done]. cbn. unfold refunded.
  by rewrite bool_decide_eq_false_2 by (by apply Hc).
Qed.
Lemma settles_still s s' : refunds_match s → still s s' → settles s s'.
Proof. intros [Hwf Hm] [Hc Hr]. split; [|by rewrite Hc]. split; [by rewrite Hc|]. intros i. by rewrite Hr, Hc. Qed.
Lemma settles_resolution s s' tid c c' :
  refunds_match s → get_row tid (complaints s) = Some c → cp_status c ≠ CResolved → cp_id c' = tid →
  complaints s' = set_row c' (complaints s) → (∀ i, i ≠ tid → refunds_of i s' = refunds_of i s) →
  as_entry <$> refunds_of tid s' = due_entries tid (Some c') → settles s s'.
Proof.
  intros [Hwf Hm] Hg Hst Hid Hc Hr Ht. split; [split|].
  - rewrite Hc. by apply set_row_wf.
  - intros i. rewrite Hc. destruct (decide (i = tid)) as [->|Hne]; [by rewrite (get_row_set_eq _ c' c)|].
    rewrite get_row_set_ne by (change (row_id c') with (cp_id c'); congruence). by rewrite Hr.
  - intros i x Hx Hxst. rewrite Hc. destruct (decide (i = tid)) as [->|Hne]; [congruence|].
    by rewrite get_row_set_ne by (change (row_id c') with (cp_id c'); congruence).
Qed.
(** A resolution that pays nothing back. *)
Lemma settles_unpaid s s1 s2 s' tid c action replacement note by_ now :
  refunds_match s → get_row tid (complaints s) = Some c → cp_status c ≠ CResolved → action ≠ RWalletRefund →
  still s s1 → s2 = with_complaints (set_row (with_resolution action None replacement note by_ now c) (complaints s1)) s1 → still s2 s' →
  settles s s'.
Proof.
  intros Hm Hg Hst Hact [Hc1 Hr1] -> [Hc2 Hr2]. cbn in Hc2. rewrite Hc1 in Hc2.
  apply (settles_resolution s s' tid c (with_resolution action None replacement note by_ now c)); [done..| |done| |].
  - by apply get_row_Some in Hg as [_ ?].
  - intros i _. rewrite Hr2. exact (Hr1 i).
  - rewrite Hr2. change (refunds_of tid (with_complaints _ s1)) with (refunds_of tid s1). rewrite Hr1, (open_unpaid s tid Hm) by congruence.
    unfold due_entries, refunded. cbn. by rewrite (bool_decide_eq_false_2 (action = RWalletRefund)), andb_false_r.
Qed.

Section settling.
Context (sla_customer_minutes : Z) (geo : geo_port) (abuse : abuse_settings).

Ltac notified H := let t := fresh in apply bind_Ok in H as ([] & t & ?%notify_still & [= _ ->]).
Lemma refund_settles rid tid amount note by_ s c s' :
  refunds_match s → resolve_wallet_refund abuse rid tid amount note by_ s = Ok c s' → settles s s'.
Proof.
  intros Hm. pose proof Hm as [Hwf _]. intros (x & s0 & (-> & Hg & _)%get_ticket_run & Hrun)%bind_Ok; [|done].
  case_bool_decide as Hst; [injection Hrun as _ <-; by apply settles_still|].
  destruct (am_value amount <=q 0); [done|]. destruct (negb _); [done|].
  apply bind_Ok in Hrun as (e & s1 & H1 & Hrun). apply bind_Ok in Hrun as (x' & s2 & [-> ->]%resolve_as_run & Hrun).
  apply bind_Ok in Hrun as (b & s3 & H3%flagged_still & Hrun). apply bind_Ok in Hrun as (r & s4 & H4%audit_still & Hrun).
  notified Hrun. assert (refunds_of tid s = []) as Hnone by (apply (open_unpaid s tid Hm); congruence).
  apply credit_refund in H1 as (Hc1 & Hr1 & Ho1 & Ha & Hp & Ht); [|done].
  match type of H3 with still ?s2 _ => assert (still s2 s') as [Hc2 Hr2] by (etrans; [exact H3|]; by etrans) end.
  cbn in Hc2. rewrite Hc1 in Hc2.
  match type of Hc2 with _ = set_row ?y _ => apply (settles_resolution s s' tid x y); [done..| |done| |] end.
  - by apply get_row_Some in Hg as [_ ?].
  - intros i Hi. rewrite Hr2. exact (Ho1 i Hi).
  - rewrite Hr2. change (refunds_of tid (with_complaints _ s1)) with (refunds_of tid s1). rewrite Hr1. cbn.
    unfold as_entry, due_entries. cbn. by rewrite Ha, Hp, Ht.
Qed.
Lemma replacement_settles rid tid oid note by_ s c s' :
  refunds_match s → resolve_replacement rid tid oid note by_ s = Ok c s' → settles s s'.
Proof.
  intros Hm. pose proof Hm as [Hwf _]. intros (x & s0 & (-> & Hg & _)%get_ticket_run & Hrun)%bind_Ok; [|done].
  case_bool_decide as Hst; [injection Hrun as _ <-; by apply settles_still|]. destruct (negb _); [done|].
  apply bind_Ok in Hrun as (x' & s2 & [-> ->]%resolve_as_run & Hrun). apply bind_Ok in Hrun as (r & s4 & H4%audit_still & Hrun).
  notified Hrun. eapply (settles_unpaid s s _ s' tid x RReplacement); [done..|reflexivity|by etrans].
Qed.
Lemma no_action_settles rid tid note by_ s c s' :
  refunds_match s → resolve_no_action rid tid note by_ s = Ok c s' → settles s s'.
Proof.
  intros Hm. pose proof Hm as [Hwf _]. intros (x & s0 & (-> & Hg & _)%get_ticket_run & Hrun)%bind_Ok; [|done].
  case_bool_decide as Hst; [injection Hrun as _ <-; by apply settles_still|]. destruct (negb _); [done|].
  apply bind_Ok in Hrun as (x' & s2 & [-> ->]%resolve_as_run & Hrun). apply bind_Ok in Hrun as (r & s4 & H4%audit_still & Hrun).
  notified Hrun. eapply (settles_unpaid s s _ s' tid x RNoAction); [done..|reflexivity|by etrans].
Qed.
Lemma clone_all_still id lines s s' : for_each (λ l, in_the_kitchen (clone_line id l)) lines s = Ok tt s' → still s s'.
Proof.
  revert s. induction lines as [|l ls IH]; intros s; cbn [for_each]; [by intros [= <-]|].
  intros ([] & s1 & H1 & H2)%bind_Ok. etrans; [|by apply IH]. eapply kitchen_still; [|done]. intros R. apply frugal_clone.
Qed.
Lemma new_order_settles rid tid note by_ s c s' :
  refunds_match s → create_replacement_order sla_customer_minutes geo rid tid note by_ s = Ok c s' → settles s s'.
Proof.
  intros Hm. pose proof Hm as [Hwf _]. intros (x & s0 & (-> & Hg & _)%get_ticket_run & Hrun)%bind_Ok; [|done].
  case_bool_decide as Hst; [injection Hrun as _ <-; by apply settles_still|]. destruct (negb _); [done|].
  destruct (cp_order_id x) as [oid|]; [|done]. apply bind_Ok in Hrun as (found & s0 & [= <- <-] & Hrun).
  destruct (_ ≫= _) as [[[original bill] texts]|]; [|done].
  do 4 (apply bind_Ok in Hrun as (? & s0 & [= <- <-] & Hrun); try (destruct (replacement_number_taken _ _ _); [done|])).
  apply bind_Ok in Hrun as ([] & s1 & H1 & Hrun). apply kitchen_still in H1; [|intros R; apply frugal_add_order].
  apply bind_Ok in Hrun as ([] & s2 & [= <-] & Hrun). apply bind_Ok in Hrun as (lines & s0 & [= <- <-] & Hrun).
  apply bind_Ok in Hrun as ([] & s3 & H3%clone_all_still & Hrun). apply bind_Ok in Hrun as ([] & s4 & H4 & Hrun).
  apply kitchen_still in H4; [|intros R; apply frugal_finalize].
  apply bind_Ok in Hrun as (x' & s5 & [-> ->]%resolve_as_run & Hrun). apply bind_Ok in Hrun as (r & s6 & H6%audit_still & Hrun).
  notified Hrun. assert (still s s4) as H14.
  { etrans; [exact H1|]. etrans; [|exact H4]. etrans; [|exact H3]. by split. }
  eapply (settles_unpaid s s4 _ s' tid x RReplacement); [done..|reflexivity|by etrans].
Qed.
Lemma opened_settles rid cid oid m ev cat s c s' :
  refunds_match s → create_ticket rid cid oid m ev cat s = Ok c s' → settles s s'.
Proof.
  intros Hm. pose proof Hm as [Hwf Hi]. unfold create_ticket. intros (t & s0 & [= <- <-] & Hrun)%bind_Ok.
  apply bind_Ok in Hrun as ([] & s1 & [= <-] & Hrun). apply bind_Ok in Hrun as (r & s2 & H2%audit_still & [= _ ->]).
  match type of H2 with still (with_complaints (add_row ?y _) s) _ => set (new := y) in * end.
  destruct H2 as [Hc Hr]. cbn in Hc. assert (Hget : ∀ i, get_row i (complaints s') = get_row i (complaints s) ∨
    get_row i (complaints s) = None ∧ get_row i (complaints s') = Some new).
  { intros i. rewrite Hc. destruct (decide (i = next_id (complaints s))) as [->|Hne].
    - right. split; [|exact (get_row_add new _ Hwf eq_refl)]. apply first_where_None. intros x Hx.
      apply Z.eqb_neq. pose proof (wf_fresh _ Hwf x Hx). lia.
    - left. by apply get_row_add_ne. }
  split; [split|].
  - rewrite Hc. by apply add_row_wf.
  - intros i. rewrite Hr. change (refunds_of i (with_complaints _ s)) with (refunds_of i s). rewrite Hi.
    by destruct (Hget i) as [->|[-> ->]].
  - intros i x Hx _. destruct (Hget i) as [->|[Hn _]]; [done|congruence].
Qed.
Lemma request_settles r s : refunds_match s → settles s (final (complaint_run sla_customer_minutes geo abuse r s)).
Proof.
  intros Hm. destruct r as [rid cid oid m ev cat|rid tid body]; cbn [complaint_run].
  - destruct (create_ticket rid cid oid m ev cat s) as [c s'|e s'] eqn:Hrun; [by eapply opened_settles|done].
  - unfold resolve_ticket, atomically. destruct (try_except _ _ s) as [c s'|e s'] eqn:Hrun; cbn; [|by apply settles_still].
    apply try_raise_Ok in Hrun; [|done]. unfold resolve_body in Hrun. destruct (re_action body).
    + destruct (re_amount body); [|done]. by eapply refund_settles.
    + destruct (re_replacement_order_id body); [|done]. by eapply replacement_settles.
    + by eapply new_order_settles.
    + by eapply no_action_settles.
Qed.

(** C37. A complaint is paid back at most once, and a resolved one stays as it is.  Over any
    history of complaints opened and requests to resolve them (repeated, refused, for
    another branch, with a free order in between), the wallet's entries under the refund
    key of a complaint are exactly one posted credit of the amount the complaint records
    when it was resolved by a refund, and none otherwise. *)
Theorem refund_paid_once (l : list complaint_request) s :
  refunds_match s →
  let s' := complaint_history sla_customer_minutes geo abuse l s in
  (∀ i, as_entry <$> refunds_of i s' = due_entries i (get_row i (complaints s'))) ∧
  (∀ i c, get_row i (complaints s) = Some c → cp_status c = CResolved → get_row i (complaints s') = Some c).
Proof.
  intros Hm. cut (settles s (complaint_history sla_customer_minutes geo abuse l s)); [by intros [[_ ?] ?]|].
  unfold complaint_history. revert s Hm. induction l as [|r l IH]; intros s Hm; cbn [fold_left]; [by split|].
  destruct (request_settles r s Hm) as [Hm1 Hk1]. destruct (IH _ Hm1) as [Hm2 Hk2]. split; [done|]. auto.
Qed.
End settling.

(** ** A free replacement *)

(** The bills, the priced lines and the wallet's journal. *)
Definition money (k : kitchen_db) := (fl_bills (kt_fleet k), entries (kitchen_wallet k)).
Section money.
Context (M0 : (table OrderPayments.Order * table OrderItem * list (Z * billing_settings)) * table WalletEntry).
Abbreviation thrifty m := (preserves (λ k, money k = M0) m).
Lemma thrifty_modify (f : kitchen_db → kitchen_db) : (∀ k, kt_fleet (f k) = kt_fleet k) → thrifty (modify (E := kitchen_error) f).
Proof. intros Hf. apply preserves_modify. intros k. unfold money, kitchen_wallet. by rewrite Hf. Qed.
Lemma thrifty_fsm {A} (m : M fsm_db order_error A) : thrifty (in_fleet (zoom FleetFsmRaised m)).
Proof. intros k Hk. unfold in_fleet, zoom. by destruct (m _). Qed.
Lemma thrifty_delivery d : thrifty (in_fleet (set_delivery d)).
Proof. by intros k. Qed.
#[local] Hint Resolve preserves_ret preserves_raise preserves_gets thrifty_fsm thrifty_delivery : thrifty.
#[local] Hint Extern 4 (preserves _ (modify _)) => (apply thrifty_modify; by intros) : thrifty.
Ltac be_thrifty :=
  repeat first
    [ solve [eauto 2 with thrifty]
    | apply preserves_bind; [|intros ?]
    | match goal with
      | |- preserves _ (if ?b then _ else _) => destruct b eqn:?
      | |- preserves _ (match ?x with _ => _ end) => destruct x eqn:?
      end ].
Lemma thrifty_steps oid (b : bool) actor :
  thrifty ((if b then step_to oid PENDING_CONFIRMATION actor else mret tt) ≫= λ _, step_to oid CONFIRMED actor).
Proof. unfold step_to, the_order_whole. be_thrifty. Qed.
Lemma thrifty_clock sla geo oid : thrifty (start_clock sla geo oid).
Proof. unfold start_clock, change_delivery, change_kitchen_order, the_order_whole. be_thrifty. Qed.
End money.
Lemma thrifty_run {A} (m : KM A) k a k' : (∀ M0, preserves (λ k, money k = M0) m) → m k = Ok a k' → money k' = money k.
Proof. intros Hm Hrun. specialize (Hm (money k) k eq_refl). by rewrite Hrun in Hm. Qed.

(** Nothing is due, so the confirmation takes no store credit. *)
Lemma nothing_due oid by_ (p p' : pay_db (W := wallet_db)) r b :
  apply_at_confirm (E := wallet_error) oid None true by_ p = Ok r p' → get_row oid (po_orders p) = Some b → po_total b = 0 →
  po_orders p' = po_orders p ∧ po_items p' = po_items p ∧ po_restaurants p' = po_restaurants p ∧ entries (po_ledger p') = entries (po_ledger p).
Proof.
  unfold apply_at_confirm. intros (cd & p0 & [= <- <-] & Hrun)%bind_Ok Hb Ht. apply bind_Ok in Hrun as ([] & p1 & H1 & Hrun).
  assert (∀ (q : pay_db (W := wallet_db)) x q', the_order (E := wallet_error) oid q = Ok x q' → q' = q ∧ get_row oid (po_orders q) = Some x) as Hthe.
  { intros q x q' (t & q1 & [= <- <-] & Hq)%bind_Ok. destruct (get_row oid (po_orders q)) as [o|]; [by injection Hq as <- <-|done]. }
  apply bind_Ok in Hrun as (o & p2 & [-> _]%Hthe & [= _ <-]).
  unfold confirm_wallet in H1. apply bind_Ok in H1 as (o1 & p1' & [-> Ho]%Hthe & H1).
  rewrite Hb in Ho. injection Ho as <-. destruct (true && _); [|by injection H1 as <-].
  apply bind_Ok in H1 as (acc & p3 & (w & H3 & ->)%zoom_Ok & H1). apply bind_Ok in H1 as (avail & p4 & (w4 & H4 & ->)%zoom_Ok & H1).
  rewrite Ht in H1. destruct (0 <? _) eqn:Hpos; [zbool; lia|]. injection H1 as <-.
  destruct (account_total (po_ledger p) (po_restaurant_id b) (po_customer_id b)) as (a' & w' & Ha & _ & He).
  change (view p) with (po_ledger p) in H3. rewrite Ha in H3. injection H3 as _ <-.
  unfold available, mbind, M_bind, gets in H4. cbn in H4. injection H4 as _ <-. by split_and!.
Qed.
Lemma confirmed_free sla geo oid actor s s' w b :
  whole_order oid s = Some w → o_status (w_order w) = PENDING_CONFIRMATION → goes_out w = true →
  get_row oid (fst (fst (fl_bills (kt_fleet s)))) = Some b → po_total b = 0 →
  finalize_confirmation sla geo oid actor s = Ok tt s' →
  whole_order oid s' = Some (confirmed_order sla geo w s) ∧ untouched s s' ∧ money s' = money s.
Proof.
  intros Hw Hst Hout Hb Ht. unfold finalize_confirmation. rewrite (bind_run_Ok _ _ _ _ _ (the_order_Ok _ _ _ Hw)), Hst.
  cbn [negb]. intros ([] & sa & H1 & Hrun)%bind_Ok. apply bind_Ok in Hrun as ([] & s1 & H2 & Hrun).
  assert (((if bool_decide (o_status (w_order w) = DRAFT) then step_to oid PENDING_CONFIRMATION actor else mret tt) ≫= λ _,
    step_to oid CONFIRMED actor) s = Ok tt s1) as H12 by (rewrite Hst, (bind_run_Ok _ _ _ _ _ H1); done).
  pose proof (thrifty_run _ _ _ _ (λ M0, thrifty_steps M0 oid _ actor) H12) as Hm1.
  apply (confirm_steps oid actor s s1 w Hw) in H12 as [Hw1 Hu1]; [|by rewrite Hst; apply elem_of_cons; right; left]. clear H1 H2 sa.
  apply bind_Ok in Hrun as ([] & s2 & H2 & Hrun). pose proof (thrifty_run _ _ _ _ (λ M0, thrifty_clock M0 sla geo oid) H2) as Hm2.
  apply start_clock_run in H2 as (o2 & d2 & k2 & Hw2 & Hu2 & Hw2').
  rewrite Hw1 in Hw2. injection Hw2 as <- <- <-.
  rewrite (deadline_ext _ _ _ _ s s1 Hu1), (estimate_ext _ s s1 Hu1), (un_now _ _ Hu1) in Hw2'.
  change (whole_order oid s2 = Some (confirmed_order sla geo w s)) in Hw2'.
  apply bind_Ok in Hrun as ([] & s3 & [= <-] & Hrun). apply bind_Ok in Hrun as (ps & s4 & H4 & Hrun).
  assert (whole_order oid s4 = Some (confirmed_order sla geo w s)) as Hw4.
  { rewrite (quiet_in_fleet oid _ _ _ _ H4); [exact Hw2'|]. intros f. apply quiet_pay. }
  apply zoom_Ok in H4 as (f & H4 & ->). apply zoom_Ok in H4 as (p & H4 & ->).
  assert (fl_bills (kt_fleet s2) = fl_bills (kt_fleet s)) as Hbills by (by rewrite Hm2, Hm1 || (injection Hm2; injection Hm1; congruence)).
  apply (nothing_due _ _ _ _ _ b) in H4 as (Hp1 & Hp2 & Hp3 & Hp4); [|cbn; by rewrite Hbills|done].
  apply bind_Ok in Hrun as ([] & s5 & [= <-] & Hrun). unfold goes_out in Hout. rewrite Hout in Hrun.
  apply bind_Ok in Hrun as ([] & s6 & [= <-] & [= <-]). split; [exact Hw4|]. split.
  - etrans; [exact Hu1|]. etrans; [exact Hu2|]. by split.
  - rewrite <-Hm1, <-Hm2. unfold money, kitchen_wallet; cbn. rewrite Hp1, Hp2, Hp3, Hp4. cbn.
    by destruct (fl_bills (kt_fleet s2)) as [[? ?] ?].
Qed.

(** The parts of an order's row, and of a line's, are rows of one table. *)
Definition bills_in (k : kitchen_db) : table OrderPayments.Order := fst (fst (fl_bills (kt_fleet k))).
Definition items_in (k : kitchen_db) : table OrderItem := snd (fst (fl_bills (kt_fleet k))).
Record lines_aligned (k : kitchen_db) : Prop := {
  la_tickets : table_wf (tickets k);
  la_items : table_wf (items_in k);
  la_next : next_id (items_in k) = next_id (tickets k);
}.
Record orders_aligned (k : kitchen_db) : Prop := {
  oa_orders : table_wf (fl_orders (kt_fleet k));
  oa_deliveries : table_wf (deliveries (kt_fleet k)) ∧ next_id (deliveries (kt_fleet k)) = next_id (fl_orders (kt_fleet k));
  oa_bills : table_wf (bills_in k) ∧ next_id (bills_in k) = next_id (fl_orders (kt_fleet k));
  oa_kitchen : table_wf (kitchen_orders k) ∧ next_id (kitchen_orders k) = next_id (fl_orders (kt_fleet k));
  oa_lines : lines_aligned k;
  oa_placed : ∀ t, t ∈ rows (tickets k) → tk_order_id t < next_id (fl_orders (kt_fleet k));
}.
(** What is cooked, and its price. *)
Definition cooked (l : Ticket * OrderItem) := (tk_dish_id l.1, tk_variant_name l.1, tk_qty l.1, tk_notes l.1, oi_price_aed l.2, oi_qty l.2).

Lemma whole_lines_ext id k k' : tickets k' = tickets k → items_in k' = items_in k → whole_lines id k' = whole_lines id k.
Proof.
  intros Ht Hi. unfold whole_lines, tickets_of, priced_line. rewrite Ht.
  change (snd (fst (fl_bills (kt_fleet k')))) with (items_in k'). by rewrite Hi.
Qed.
Lemma clone_step id l k k' :
  clone_line id l k = Ok tt k' → lines_aligned k →
  lines_aligned k' ∧ cooked <$> whole_lines id k' = (cooked <$> whole_lines id k) ++ [cooked l] ∧
  (∀ oid, whole_order oid k' = whole_order oid k) ∧ bills_in k' = bills_in k ∧ kt_now k' = kt_now k ∧
  entries (kitchen_wallet k') = entries (kitchen_wallet k).
Proof.
  intros (now & k0 & [= <- <-] & Hrun)%bind_Ok [W1 W2 W3]. apply bind_Ok in Hrun as (t & k0 & [= <- <-] & Hrun).
  apply bind_Ok in Hrun as ([] & k1 & [= <-] & [= <-]). split_and!; try done.
  - split; [by apply add_row_wf| |].
    + refine (add_row_wf _ (items_in k) W2 _). cbn. by rewrite W3.
    + exact (f_equal (λ n, n + 1) W3).
  - unfold whole_lines. set (new := line_again id (next_id (tickets k)) (kt_now k) l.1).
    match goal with |- cooked <$> omap _ (tickets_of id ?x) = _ => set (k' := x) end.
    assert (tickets_of id k' = tickets_of id k ++ [new]) as ->.
    { unfold k', tickets_of, all_where, add_row. cbn. rewrite List.filter_app. cbn. by rewrite Z.eqb_refl. }
    assert (priced_line (tk_id new) k' = Some (item_again id (next_id (tickets k)) l.2)) as Hnew.
    { refine (get_row_add _ (items_in k) W2 _). by rewrite W3. }
    rewrite omap_app, fmap_app. cbn [omap list_omap]. rewrite Hnew. f_equal.
    assert (omap (λ t, (λ i, (t, i)) <$> priced_line (tk_id t) k') (tickets_of id k) =
      omap (λ t, (λ i, (t, i)) <$> priced_line (tk_id t) k) (tickets_of id k)) as ->; [|done].
    apply list_omap_ext, Forall_Forall2_diag, Forall_forall. intros t Ht.
    apply elem_of_all_where in Ht as [Ht _]. pose proof (wf_fresh _ W1 t Ht) as Hlt. change (row_id t) with (tk_id t) in Hlt.
    f_equal. apply (get_row_add_ne (tk_id t) (item_again id (next_id (tickets k)) l.2) (items_in k)). cbn. lia.
Qed.
Lemma all_where_nothing {R} (p : R → bool) (t : table R) : (∀ r, r ∈ rows t → p r = false) → all_where p t = [].
Proof.
  unfold all_where. induction (rows t) as [|x l IH]; intros Hp; cbn; [done|].
  rewrite (Hp x) by (by left). apply IH. intros r Hr. apply Hp. by right.
Qed.
(** What a part of the call leaves alone around the lines. *)
Record beside (k k' : kitchen_db) : Prop := {
  be_orders : ∀ oid, whole_order oid k' = whole_order oid k;
  be_bills : bills_in k' = bills_in k;
  be_now : kt_now k' = kt_now k;
  be_journal : entries (kitchen_wallet k') = entries (kitchen_wallet k);
}.
#[local] Instance beside_preorder : PreOrder beside.
Proof. split; [by split|]. intros k1 k2 k3 [] []. split; intros; congruence. Qed.
Lemma clone_all id lines s s' :
  for_each (λ l, in_the_kitchen (clone_line id l)) lines s = Ok tt s' → lines_aligned (cp_kitchen s) →
  cooked <$> whole_lines id (cp_kitchen s') = (cooked <$> whole_lines id (cp_kitchen s)) ++ (cooked <$> lines) ∧
  beside (cp_kitchen s) (cp_kitchen s') ∧ complaints s' = complaints s.
Proof.
  revert s. induction lines as [|l ls IH]; intros s; cbn [for_each].
  - intros [= <-] _. split_and!; [by rewrite app_nil_r|done..].
  - intros ([] & s1 & (k & H1 & ->)%zoom_Ok & H2)%bind_Ok Hal.
    destruct (clone_step id l _ _ H1 Hal) as (Hal1 & Hl1 & Ho1 & Hb1 & Hn1 & Hw1).
    apply IH in H2 as (Hl2 & Hb2 & Hc2); [|exact Hal1]. split_and!; [|etrans; [|exact Hb2]; by split|exact Hc2].
    rewrite Hl2. cbn. rewrite Hl1, <-app_assoc. done.
Qed.
Lemma add_order_run o d b k s s' :
  add_order_row o d b k s = Ok tt s' → orders_aligned s → o_id o = next_id (fl_orders (kt_fleet s)) →
  dl_id d = o_id o → po_id b = o_id o → ko_id k = o_id o →
  whole_order (o_id o) s' = Some (Whole o d k) ∧ get_row (o_id o) (bills_in s') = Some b ∧
  tickets s' = tickets s ∧ items_in s' = items_in s ∧ kt_now s' = kt_now s ∧ entries (kitchen_wallet s') = entries (kitchen_wallet s).
Proof.
  intros Hrun [Wo [Wd Nd] [Wb Nb] [Wk Nk] _ _] Hid Hd Hb Hk. unfold add_order_row, change_bills in Hrun.
  apply bind_Ok in Hrun as ([] & s1 & [= <-] & Hrun). apply bind_Ok in Hrun as ([] & s2 & [= <-] & Hrun).
  apply bind_Ok in Hrun as ([] & s3 & [= <-] & [= <-]). split_and!; try done.
  - apply whole_order_Some. split_and!; [exact (get_row_add o _ Wo Hid)|rewrite <-Hd|rewrite <-Hk].
    + apply (get_row_add d _ Wd). by rewrite <-Hid, <-Hd in Nd.
    + apply (get_row_add k _ Wk). by rewrite <-Hid, <-Hk in Nk.
  - rewrite <-Hb. apply (get_row_add b (bills_in s) Wb). by rewrite <-Hid, <-Hb in Nb.
Qed.

(** The new order, from its row to its confirmation. *)
Lemma order_made sla geo id rid cid subtotal number address now lines by_ k k1 sx s3 k4 :
  orders_aligned k → id = next_id (fl_orders (kt_fleet k)) →
  add_order_row (replacement_order id rid cid now) (replacement_delivery id number address)
    (replacement_bill id rid cid subtotal) (replacement_kitchen id) k = Ok tt k1 →
  for_each (λ l, in_the_kitchen (clone_line id l)) lines sx = Ok tt s3 → cp_kitchen sx = k1 →
  finalize_confirmation sla geo id by_ (cp_kitchen s3) = Ok tt k4 →
  kt_now k4 = kt_now k ∧ entries (kitchen_wallet k4) = entries (kitchen_wallet k) ∧ complaints s3 = complaints sx ∧
  cooked <$> whole_lines id k4 = cooked <$> lines ∧ get_row id (bills_in k4) = Some (replacement_bill id rid cid subtotal) ∧
  ∃ w, whole_order id k4 = Some w ∧ w_order w = with_status CONFIRMED (replacement_order id rid cid now) ∧
    address_id (w_delivery w) = address ∧ sla_deadline (w_delivery w) = Some (kt_now k + minutes 40).
Proof.
  intros Hal Hid H1 H3 Hsx H4. apply add_order_run in H1 as (Hw1 & Hb1 & Ht1 & Hi1 & Hn1 & He1); [|done..]. cbn [o_id replacement_order] in Hw1, Hb1.
  apply clone_all in H3 as (Hl3 & [Ho3 Hb3 Hn3 He3] & Hc3); rewrite Hsx in *.
  2:{ destruct (oa_lines _ Hal) as [L1 L2 L3]. split; cbn; rewrite ?Ht1, ?Hi1; done. }
  assert (whole_lines id k1 = []) as Hnone.
  { rewrite (whole_lines_ext id k k1 Ht1 Hi1). unfold whole_lines. assert (tickets_of id k = []) as ->; [|done].
    apply all_where_nothing. intros t Ht. apply Z.eqb_neq. pose proof (oa_placed _ Hal t Ht). lia. }
  rewrite Hnone in Hl3. cbn [fmap list_fmap app] in Hl3.
  eapply confirmed_free in H4 as (Hw4 & Hu4 & Hm4); [|by rewrite Ho3|done|done|fold (bills_in (cp_kitchen s3)); rewrite Hb3; exact Hb1|done].
  pose proof (f_equal fst Hm4) as Hbills. pose proof (f_equal snd Hm4) as Hjournal. cbn in Hbills, Hjournal.
  split_and!; [by rewrite (un_now _ _ Hu4), Hn3|by rewrite Hjournal, He3|done| | |].
  - rewrite <-Hl3. f_equal. apply whole_lines_ext; [apply Hu4|]. unfold items_in. by rewrite Hbills.
  - unfold bills_in. rewrite Hbills. fold (bills_in (cp_kitchen s3)). by rewrite Hb3.
  - eexists. split; [exact Hw4|]. split_and!; [done..|]. cbn. by rewrite Hn3, Hn1.
Qed.
(** What the notice to the customer leaves alone. *)
Lemma notify_beside c body summary s s' :
  _notify c body summary s = Ok tt s' → beside (cp_kitchen s) (cp_kitchen s') ∧ complaints s' = complaints s ∧
  ∀ oid, whole_lines oid (cp_kitchen s') = whole_lines oid (cp_kitchen s).
Proof.
  unfold _notify. intros (m & s0 & [= <- <-] & Hrun)%bind_Ok. destruct (mb_phone <$> _) as [p|]; [|by injection Hrun as <-].
  destruct (negb _); [by injection Hrun as <-|]. apply bind_Ok in Hrun as (r & s0 & [= <- <-] & Hrun).
  unfold in_loyalty, in_the_kitchen, in_fleet in Hrun.
  apply zoom_Ok in Hrun as (k & (f & (l & (n & _ & ->)%zoom_Ok & ->)%zoom_Ok & ->)%zoom_Ok & ->). by split.
Qed.

(** A free replacement.  When it is made, the complaint is resolved with the new order,
    which is confirmed from that moment with forty minutes to go, is the same customer's at
    the same address, and repeats every line of the original at its size, quantity and
    wish; nothing is due for it and no store credit is taken. *)
Theorem replacement_is_free sla geo rid tid note by_ s c s' c0 :
  table_wf (complaints s) → orders_aligned (cp_kitchen s) → get_row tid (complaints s) = Some c0 → cp_status c0 ≠ CResolved →
  create_replacement_order sla geo rid tid note by_ s = Ok c s' →
  let id := next_id (fl_orders (kt_fleet (cp_kitchen s))) in
  get_row tid (complaints s') = Some (with_resolution RReplacement None (Some id) note by_ (cp_now s) c0) ∧
  ∃ oid original w b, cp_order_id c0 = Some oid ∧ whole_order oid (cp_kitchen s) = Some original ∧
    whole_order id (cp_kitchen s') = Some w ∧ bill_of id s' = Some b ∧
    o_status (w_order w) = CONFIRMED ∧ o_customer_id (w_order w) = o_customer_id (w_order original) ∧
    address_id (w_delivery w) = address_id (w_delivery original) ∧ sla_deadline (w_delivery w) = Some (cp_now s + minutes 40) ∧
    cooked <$> whole_lines id (cp_kitchen s') = cooked <$> whole_lines oid (cp_kitchen s) ∧
    o_total (w_order w) = 0 ∧ po_total b = 0 ∧ po_wallet_applied_aed b = 0 ∧
    entries (kitchen_wallet (cp_kitchen s')) = entries (kitchen_wallet (cp_kitchen s)).
Proof.
  intros Hwf Hal Hc0 Hst. cbv zeta. set (id := next_id (fl_orders (kt_fleet (cp_kitchen s)))).
  intros (x & s0 & (-> & Hg & _)%get_ticket_run & Hrun)%bind_Ok; [|done]. rewrite Hc0 in Hg. injection Hg as <-.
  rewrite bool_decide_eq_false_2 in Hrun by done. destruct (negb _); [done|]. destruct (cp_order_id c0) as [oid|] eqn:Hoid; [|done].
  apply bind_Ok in Hrun as (found & s0 & [= <- <-] & Hrun). destruct (whole_order oid (cp_kitchen s)) as [original|] eqn:Hor; [|done].
  cbn [mbind option_bind] in Hrun. destruct (bill_of oid s) as [bill|]; [|done]. cbn [mbind option_bind] in Hrun.
  do 4 (apply bind_Ok in Hrun as (? & s0 & [= <- <-] & Hrun); try (destruct (replacement_number_taken _ _ _); [done|])). fold id in Hrun.
  apply bind_Ok in Hrun as ([] & s1 & (k1 & H1 & ->)%zoom_Ok & Hrun). apply bind_Ok in Hrun as ([] & s2 & [= <-] & Hrun).
  apply bind_Ok in Hrun as (lines & s0 & [= <- <-] & Hrun). apply bind_Ok in Hrun as ([] & s3 & H3 & Hrun).
  apply bind_Ok in Hrun as ([] & s4 & (k4 & H4 & ->)%zoom_Ok & Hrun).
  apply bind_Ok in Hrun as (x' & s5 & [-> ->]%resolve_as_run & Hrun). apply bind_Ok in Hrun as (r & s6 & H6 & Hrun).
  apply bind_Ok in Hrun as ([] & s7 & ([Bo Bb Bn Bj] & Hc7 & Hl7)%notify_beside & [= _ <-]). injection H6 as _ <-.
  pose proof H1 as (_ & _ & Ht1 & Hi1 & _)%add_order_run; [|done..].
  pose proof (order_made sla geo id _ _ _ _ _ _ _ _ _ _ _ _ _ Hal eq_refl H1 H3 eq_refl H4) as (Hn & Hj & Hc3 & Hl & Hb & w & Hw & Ho & Ha & Hd).
  change (complaints s7 = set_row (with_resolution RReplacement None (Some id) note by_ (kt_now k4) c0) (complaints s3)) in Hc7.
  rewrite Hn in Hc7. clear H1 H3 H4.
  split.
  - rewrite Hc7, Hc3. apply (get_row_set_eq _ _ c0); [|done]. by apply get_row_Some in Hc0 as [_ ?].
  - exists oid, original, w, (replacement_bill id rid (o_customer_id (w_order original)) (po_subtotal bill)).
    split_and!; [done|done|by rewrite Bo|unfold bill_of; fold (bills_in (cp_kitchen s7)); by rewrite Bb|by rewrite Ho..|done|done| |by rewrite Ho|done|done|by rewrite Bj].
    rewrite Hl7. change (cooked <$> whole_lines id k4 = cooked <$> whole_lines oid (cp_kitchen s)). rewrite Hl. f_equal.
    by apply whole_lines_ext.
Qed.

(** ** A small kitchen with a complaint *)

(** Its lines have prices; the customer complains about two orders. *)
Definition priced (i oid cents : Z) (cancelled : bool) : OrderItem :=
  {| oi_id := i; oi_order_id := oid; oi_price_aed := cents; oi_qty := 2; oi_cancelled := cancelled |}.
Definition priced_kitchen : kitchen_db :=
  let f := kt_fleet small_kitchen in
  put (Lens := kitchen_fleet_lens) (Build_fleet_db (fl_loyalty f) (deliveries f) (batches f) (batch_orders f) (assignments f) (trackings f)
    (locations f) (riders f) (branches f) (addresses f)
    (bills_in small_kitchen, listing [priced 1 1 1500 false; priced 2 2 2000 false; priced 3 2 2500 false; priced 4 3 1000 false; priced 5 3 900 false],
     snd (fl_bills f)) (fl_cod f) (fl_audit f) (outside f) (draws f) (expedited f)) small_kitchen.
Definition cold_kebab (i oid : Z) : Complaint :=
  {| cp_id := i; cp_restaurant_id := 1; cp_customer_id := 1; cp_order_id := Some oid; cp_source_message := Some "cold"; cp_evidence := [];
     cp_category := Some "quality"; cp_status := COpen; cp_assigned_to := None; cp_resolution_action := RNone;
     cp_resolution_amount_aed := None; cp_replacement_order_id := None; cp_resolution_note := None; cp_resolved_at := None |}.
Definition small_complaints : complaints_db :=
  {| complaints := listing [cold_kebab 1 2; cold_kebab 2 1]; order_notes := empty_table; cp_kitchen := priced_kitchen |}.
Definition lenient : abuse_settings := {| wallet_refund_window_days := 30; wallet_refund_max_count := 3; wallet_refund_max_aed := 500 |}.
Definition give_back (x : Q) (text : string) : TicketResolveIn :=
  {| re_action := ActWalletRefund; re_note := "sorry"; re_amount := Some {| am_value := x; am_text := text |}; re_replacement_order_id := None |}.
Definition make_again : TicketResolveIn :=
  {| re_action := ActCreateReplacement; re_note := "sorry"; re_amount := None; re_replacement_order_id := None |}.
Definition some_requests : list complaint_request :=
  [CPResolve 1 1 (give_back (25 # 2) "12.50"); CPResolve 1 1 (give_back 30 "30"); CPResolve 1 2 make_again; CPResolve 1 2 (give_back 30 "30");
   CPOpen 1 1 None None [] None].

Lemma small_complaints_match : refunds_match small_complaints.
Proof.
  split; [apply table_wf_check; reflexivity|]. intros i. change (refunds_of i small_complaints) with (@nil WalletEntry). cbn [fmap list_fmap].
  destruct (get_row i (complaints small_complaints)) as [c|] eqn:Hc; [|done]. apply get_row_Some in Hc as [Hin _]. cbn in Hin.
  rewrite !elem_of_cons, elem_of_nil in Hin. by destruct Hin as [->|[->|[]]].
Qed.
Lemma refund_paid_once_witness :
  let s' := complaint_history 40 flat_geo lenient some_requests small_complaints in
  as_entry <$> refunds_of 1 s' = [(Posted, Some 1, 1250)] ∧ refunds_of 2 s' = [].
Proof.
  destruct (refund_paid_once 40 flat_geo lenient some_requests small_complaints) as [H _]; [exact small_complaints_match|].
  split; [rewrite (H 1); vm_compute; reflexivity|]. specialize (H 2). apply (fmap_nil_inv as_entry). rewrite H. vm_compute. reflexivity.
Defined.

Lemma priced_kitchen_aligned : orders_aligned priced_kitchen.
Proof.
  split; [..|split|]; try split; try (apply table_wf_check; reflexivity); try reflexivity.
  intros t Ht%list_elem_of_In. assert (forallb (λ t, tk_order_id t <? 4) (rows (tickets priced_kitchen)) = true) as H by reflexivity.
  rewrite forallb_forall in H. apply H, Z.ltb_lt in Ht. exact Ht.
Qed.
Abbreviation made_again := (create_replacement_order 40 flat_geo 1 1 "sorry" "mgr:1" small_complaints).
Lemma made_again_run : made_again = Ok (default (cold_kebab 0 0) (value made_again)) (final made_again).
Proof. vm_compute. reflexivity. Qed.
Lemma replacement_is_free_witness : cp_replacement_order_id <$> get_row 1 (complaints (final made_again)) = Some (Some 4).
Proof.
  destruct (replacement_is_free 40 flat_geo 1 1 "sorry" "mgr:1" small_complaints (default (cold_kebab 0 0) (value made_again)) (final made_again) (cold_kebab 1 2)) as [H _];
    [apply table_wf_check; reflexivity|exact priced_kitchen_aligned|reflexivity|done|exact made_again_run|].
  rewrite H. reflexivity.
Defined.

(** A free order is free until its total is worked out again (its lines are changed, a
    coupon is redeemed): then the customer owes its dishes. *)
Example replacement_billed_later :
  let k := cp_kitchen (final made_again) in
  po_total <$> get_row 4 (bills_in k) = Some 0 ∧
  po_total <$> get_row 4 (bills_in (final (in_fleet (zoom FleetPayRaised (recompute_order_total (E := wallet_error) 4)) k))) = Some 9000.
Proof. by vm_compute. Qed.
(** What was cancelled before is cooked again, and what was asked to be changed is not. *)
Definition changed_kitchen : kitchen_db :=
  let change i f k := with_tickets (map_rows (λ t, if tk_id t =? i then f t else t) (tickets k)) k in
  let cancelled t := Build_Ticket (tk_id t) (tk_order_id t) (tk_dish_id t) (tk_dish_name t) (tk_variant_name t) (tk_qty t) (tk_notes t)
    true (tk_selected_modifiers t) (tk_allergens_snapshot t) (tk_course_held t) (tk_created_at t) (tk_kitchen_status t)
    (tk_station_id_snapshot t) (tk_kitchen_code_snapshot t) (tk_kitchen_received_at t) (tk_bumped_at t) (tk_bumped_by_staff_id t)
    (tk_packaging_checked t) (tk_quality_checked t) (tk_missing_item_confirmed t) (tk_missing_item_note t) in
  let no_onion t := Build_Ticket (tk_id t) (tk_order_id t) (tk_dish_id t) (tk_dish_name t) (tk_variant_name t) (tk_qty t) (tk_notes t)
    (tk_cancelled t) [ModDict (Some "No onion") ""] (tk_allergens_snapshot t) (tk_course_held t) (tk_created_at t) (tk_kitchen_status t)
    (tk_station_id_snapshot t) (tk_kitchen_code_snapshot t) (tk_kitchen_received_at t) (tk_bumped_at t) (tk_bumped_by_staff_id t)
    (tk_packaging_checked t) (tk_quality_checked t) (tk_missing_item_confirmed t) (tk_missing_item_note t) in
  change 2 no_onion (change 3 cancelled priced_kitchen).
Example cancelled_line_cooked_again :
  let s := Build_complaints_db (complaints small_complaints) empty_table changed_kitchen in
  let s' := final (create_replacement_order 40 flat_geo 1 1 "sorry" "mgr:1" s) in
  map (λ t, (tk_dish_id t, tk_cancelled t, tk_selected_modifiers t, tk_allergens_snapshot t)) (tickets_of 2 (cp_kitchen s)) =
    [(1, false, [ModDict (Some "No onion"%string) ""], ["nuts"%string]); (2, true, [], ["nuts"%string])] ∧
  map (λ t, (tk_dish_id t, tk_cancelled t, tk_selected_modifiers t, tk_allergens_snapshot t)) (tickets_of 4 (cp_kitchen s')) =
    [(1, false, [], []); (2, false, [], [])].
Proof. by vm_compute. Qed.
