(* ===== verification/MarketingDb.v ===== *)
(** * Marketing: data and session ([marketing/models.py])

    Opt-outs, message templates, saved segments, campaigns, the send ledger and the
    automations, over the loyalty session, which holds the customers with their
    statistics and orders, the coupons and the queue of messages.  The JSON columns
    ([definition], [stats], [config], [settings]) are [json] objects. *)

From Stdlib Require Import Ascii.
From S2P Require Import Prelude Money Strings Decimals Db AuditTrail Clock Coupons OrderFsm Outbox Notify Loyalty.

(** ** JSON *)

(** A float is the rational it stands for. *)
Inductive json :=
| JsNull | JsBool (b : bool) | JsInt (n : Z) | JsFloat (q : Q) | JsStr (s : string)
| JsArr (l : list json) | JsObj (d : list (string * json)).
Abbreviation jobj := (list (string * json)).

(** [d.get(k)], [k in d], [d[k] = v], [d.pop(k, None)] and [{**d, **d'}]. *)
Definition oget (k : string) (d : jobj) : option json := snd <$> List.find (λ kv, fst kv =s k) d.
Definition oin (k : string) (d : jobj) : bool := existsb (λ kv, fst kv =s k) d.
Fixpoint oset (k : string) (v : json) (d : jobj) : jobj :=
  match d with
  | [] => [(k, v)]
  | (k', v') :: d' => if k' =s k then (k, v) :: d' else (k', v') :: oset k v d'
  end.
Definition opop (k : string) (d : jobj) : jobj := List.filter (λ kv, negb (fst kv =s k)) d.
Definition omerge (d d' : jobj) : jobj := fold_left (λ d kv, oset (fst kv) (snd kv) d) d' d.

(** The truth value. *)
Definition jtruthy (v : json) : bool :=
  match v with
  | JsNull => false | JsBool b => b | JsInt n => negb (n =? 0) | JsFloat q => negb (Qnum q =? 0)
  | JsStr s => truthy s | JsArr l => negb (bool_decide (l = [])) | JsObj d => negb (bool_decide (d = []))
  end.
Definition jopt {A} (f : A → json) (o : option A) : json := match o with Some a => f a | None => JsNull end.

(** [int(s)] of a text: blanks around, a sign, digits with single underscores between. *)
Fixpoint digit_groups (s : string) (after_digit : bool) : option string :=
  match s with
  | EmptyString => if after_digit then Some EmptyString else None
  | String c s' =>
      if Ascii.eqb c "_"%char then (if after_digit then digit_groups s' false else None)
      else String c <$> digit_groups s' true
  end.
Definition int_text (s : string) : option Z :=
  let digits s := match digit_groups s false with Some d => Z.of_N <$> read_digits d | None => None end in
  match strip s with
  | String "-"%char s' => Z.opp <$> digits s'
  | String "+"%char s' => digits s'
  | s' => digits s'
  end.
(** [int(v)]; [None]: it raises. *)
Definition jint (v : json) : option Z :=
  match v with
  | JsInt n => Some n | JsBool b => Some (Z.b2z b) | JsFloat q => Some (Z.quot (Qnum q) (Zpos (Qden q)))
  | JsStr s => int_text s | _ => None
  end.

(** ** Data *)

(** The Dubai clock: four hours ahead of UTC all year. *)
Definition in_dubai (t : Z) : Z := t + hours 4.
Definition dubai_date (t : Z) : Z := date_of (in_dubai t).
Definition dubai_minute (t : Z) : Z := (in_dubai t mod day) / minute.
(** [local.replace(hour=0, ...)] back in UTC. *)
Definition dubai_midnight (t : Z) : Z := days (dubai_date t) - hours 4.

Record OptOut := { oo_id : Z; oo_restaurant_id : Z; oo_phone : string; oo_source : string }.
#[global] Instance OptOut_row : Row OptOut := oo_id.

Inductive template_status := TplDraft | TplPending | TplApproved | TplRejected | TplPaused | TplDisabled | TplSent | TplDeleted.
#[global] Instance template_status_eq_dec : EqDecision template_status.
Proof. solve_decision. Defined.
Record WaTemplate := {
  wt_id : Z; wt_restaurant_id : Z;
  meta_template_name : string; wt_language : string; wt_category : string;
  wt_header : option jobj; wt_body : string; wt_footer : option string; wt_buttons : list jobj;
  wt_status : template_status; ephemeral : bool;
  meta_template_id : option string; rejection_reason : option string; deleted_at : option Z;
}.
#[global] Instance WaTemplate_row : Row WaTemplate := wt_id.

Record Segment := {
  sg_id : Z; sg_restaurant_id : Z; sg_name : string;
  plain_english : option string; definition : json; last_preview_count : option Z;
}.
#[global] Instance Segment_row : Row Segment := sg_id.

Inductive campaign_status := CampDraft | CampScheduled | CampSending | CampSent | CampFailed | CampCancelled.
#[global] Instance campaign_status_eq_dec : EqDecision campaign_status.
Proof. solve_decision. Defined.
Record Campaign := {
  ca_id : Z; ca_restaurant_id : Z; ca_type : string;
  ca_template_id : option Z; ca_segment_id : option Z;
  ca_image_url : option string; ca_coupon_value : option string;
  ca_scheduled_at : option Z; ca_status : campaign_status; ca_stats : jobj;
}.
#[global] Instance Campaign_row : Row Campaign := ca_id.

Record MarketingAutomation := {
  au_id : Z; au_restaurant_id : Z; au_preset_key : string; au_enabled : bool;
  au_template_id : option Z; au_segment_id : option Z;
  au_config : jobj; au_stats : jobj; au_last_run_at : option Z;
}.
#[global] Instance MarketingAutomation_row : Row MarketingAutomation := au_id.

Record RecurringMessageState := {
  rm_id : Z; rm_restaurant_id : Z; rm_customer_id : Z;
  rm_next_send_at : Z; rm_suppressed_until : option Z;
  rm_phase : string; rm_weekday : Z; rm_usual_send_local_time : string;
}.
#[global] Instance RecurringMessageState_row : Row RecurringMessageState := rm_id.

Record MarketingAutomationSend := {
  as_id : Z; as_restaurant_id : Z; as_automation_id : Z; as_customer_id : Z; as_sent_at : Z; as_campaign_id : option Z;
}.
#[global] Instance MarketingAutomationSend_row : Row MarketingAutomationSend := as_id.

Record MarketingSend := {
  sn_id : Z; sn_restaurant_id : Z; sn_campaign_id : Z; sn_customer_id : Z;
  sn_to_phone : string; sn_status : string; sn_wa_message_id : option string;
  sn_error_code : option Z; sn_converted_order_id : option Z; sn_sent_at : option Z;
}.
#[global] Instance MarketingSend_row : Row MarketingSend := sn_id.

(** [ordering/habits.py]: when a customer usually orders. *)
Record OrderTimePrediction := { minute_of_day : Z; order_count : Z; concentration : Q }.

(** The columns of a customer marketing reads besides the member's and the statistics;
    [pt_tags] are the keys of [tags], [pt_usual_order_times] is by weekday. *)
Record Patron := {
  pt_id : Z; pt_name : option string; pt_tags : list string; pt_birthday : option Z;
  pt_usual_order_times : list (Z * OrderTimePrediction); pt_usual_order_time : option string;
}.
#[global] Instance Patron_row : Row Patron := pt_id.

(** A restaurant's [settings.todays_special]. *)
Record Tenant := { tn_id : Z; tn_todays_special : option jobj }.
#[global] Instance Tenant_row : Row Tenant := tn_id.

(** ** The session *)

Record marketing_db := {
  opt_outs : table OptOut;
  templates : table WaTemplate;
  segments : table Segment;
  campaigns : table Campaign;
  automations : table MarketingAutomation;
  recurring_states : table RecurringMessageState;
  automation_sends : table MarketingAutomationSend;
  sends : table MarketingSend;
  patrons : table Patron;
  tenants : table Tenant;
  nps_orders : list Z;              (** orders with a survey answer ([NpsResponse.order_id]) *)
  delivered_times : list (Z * Z);   (** [Order.delivered_at], by order *)
  mk_loyalty : loyalty_db;
  mk_audit : list audit_row;
}.
Definition with_opt_outs t s := Build_marketing_db t (templates s) (segments s) (campaigns s) (automations s)
  (recurring_states s) (automation_sends s) (sends s) (patrons s) (tenants s) (nps_orders s) (delivered_times s) (mk_loyalty s) (mk_audit s).
Definition with_templates t s := Build_marketing_db (opt_outs s) t (segments s) (campaigns s) (automations s)
  (recurring_states s) (automation_sends s) (sends s) (patrons s) (tenants s) (nps_orders s) (delivered_times s) (mk_loyalty s) (mk_audit s).
Definition with_segments t s := Build_marketing_db (opt_outs s) (templates s) t (campaigns s) (automations s)
  (recurring_states s) (automation_sends s) (sends s) (patrons s) (tenants s) (nps_orders s) (delivered_times s) (mk_loyalty s) (mk_audit s).
Definition with_campaigns t s := Build_marketing_db (opt_outs s) (templates s) (segments s) t (automations s)
  (recurring_states s) (automation_sends s) (sends s) (patrons s) (tenants s) (nps_orders s) (delivered_times s) (mk_loyalty s) (mk_audit s).
Definition with_automations t s := Build_marketing_db (opt_outs s) (templates s) (segments s) (campaigns s) t
  (recurring_states s) (automation_sends s) (sends s) (patrons s) (tenants s) (nps_orders s) (delivered_times s) (mk_loyalty s) (mk_audit s).
Definition with_recurring_states t s := Build_marketing_db (opt_outs s) (templates s) (segments s) (campaigns s) (automations s)
  t (automation_sends s) (sends s) (patrons s) (tenants s) (nps_orders s) (delivered_times s) (mk_loyalty s) (mk_audit s).
Definition with_automation_sends t s := Build_marketing_db (opt_outs s) (templates s) (segments s) (campaigns s) (automations s)
  (recurring_states s) t (sends s) (patrons s) (tenants s) (nps_orders s) (delivered_times s) (mk_loyalty s) (mk_audit s).
Definition with_sends t s := Build_marketing_db (opt_outs s) (templates s) (segments s) (campaigns s) (automations s)
  (recurring_states s) (automation_sends s) t (patrons s) (tenants s) (nps_orders s) (delivered_times s) (mk_loyalty s) (mk_audit s).
Definition with_tenants t s := Build_marketing_db (opt_outs s) (templates s) (segments s) (campaigns s) (automations s)
  (recurring_states s) (automation_sends s) (sends s) (patrons s) t (nps_orders s) (delivered_times s) (mk_loyalty s) (mk_audit s).
#[global] Program Instance marketing_loyalty_lens : Lens marketing_db loyalty_db := {|
  view := mk_loyalty;
  put l s := Build_marketing_db (opt_outs s) (templates s) (segments s) (campaigns s) (automations s)
    (recurring_states s) (automation_sends s) (sends s) (patrons s) (tenants s) (nps_orders s) (delivered_times s) l (mk_audit s);
|}.
Solve Obligations with by intros; try destruct s.
#[global] Instance marketing_has_audit : HasAudit marketing_db := {|
  audit_log := mk_audit;
  put_audit l s := Build_marketing_db (opt_outs s) (templates s) (segments s) (campaigns s) (automations s)
    (recurring_states s) (automation_sends s) (sends s) (patrons s) (tenants s) (nps_orders s) (delivered_times s) (mk_loyalty s) l;
|}.

(** What the segments refuse: a [ValueError], the [TypeError] of an unhashable field or
    operator, an overflowing number of days, a value the driver cannot bind. *)
Inductive segment_error := DslRejected | DslUnhashable | DaysOverflow | DriverRejected | UnknownBucket (key : string).

Inductive marketing_error :=
| SegmentRaised (e : segment_error)
| SegmentMissing (segment_id : Z)
| SegmentInUse
| SegmentGone                       (** the [AttributeError] of a campaign whose segment is gone *)
| TemplateMissing (template_id : Z)
| TemplateNotApproved
| CampaignTemplateMissing
| BadAudience                       (** [int(x)] over stored ids *)
| BadCouponValue                    (** [Decimal(text)] *)
| NaiveSchedule | ScheduleTooSoon | ScheduleTooFar
| CampaignNotFound | NotScheduled
| UnknownPreset (key : string)
| AutomationBlocked
| BadConfig                         (** [int(...)] of a configured number *)
| TemplateNotRejected
| NotCompliant (violations : list string)
| BadTemplateName
| ProviderRaised
| MarketingIntegrityError           (** a UNIQUE constraint *)
| StaleSession                      (** a column of an expired row read outside of a query *)
| MarketingLoyaltyRaised (e : loyalty_error)
| MarketingHTTP (code : Z).
Abbreviation MK := (M marketing_db marketing_error).

Definition mk_now (s : marketing_db) : Z := lo_now (mk_loyalty s).
Definition in_coupons {A} (m : CM A) : MK A := zoom MarketingLoyaltyRaised (zoom LoyaltyCouponRaised m).
Definition in_queue {A} (m : OM A) : MK A :=
  zoom MarketingLoyaltyRaised (zoom LoyaltyNotifyRaised (zoom NotifyOutboxRaised m)).
Definition queue_of (s : marketing_db) : outbox_db := notify_outbox (lo_notify (mk_loyalty s)).

(** The rows of [customers]: the member's columns, the statistics, the rest. *)
Definition no_patron (id : Z) : Patron := Build_Patron id None [] None [] None.
Definition patron_of (id : Z) (s : marketing_db) : Patron := default (no_patron id) (get_row id (patrons s)).
Definition figures_of (id : Z) (s : marketing_db) : order_stats := stats_of id (mk_loyalty s).
Definition customers_of (restaurant_id : Z) (s : marketing_db) : list Member :=
  all_where (λ m, mb_restaurant_id m =? restaurant_id) (members (mk_loyalty s)).
Definition orders_in (s : marketing_db) : table Order := orders (lo_fsm (mk_loyalty s)).

Example int_text_signed : int_text " -1_0 " = Some (-10).
Proof. reflexivity. Qed.
Example int_text_bad : int_text "1__0" = None ∧ int_text "+" = None ∧ int_text "1:" = None.
Proof. done. Qed.
