(* ===== verification/Segments.v ===== *)
(** * Audiences ([marketing/segments.py], [marketing/rfm.py])

    A saved segment is a small JSON tree, checked against an allow-list before it is
    compiled to a query ([clause]); the named buckets split the customers of a restaurant
    by recency and frequency. *)

From S2P Require Import Prelude Money Strings Db AuditTrail Clock OrderFsm Loyalty MarketingDb.

(** ** The language *)

Definition _NUMERIC_OPS : list string := ["eq"; "gte"; "lte"; "gt"; "lt"]%string.
Definition _ALLOWED (field : string) : option (list string) :=
  if in_strs field ["total_spend"; "order_count"; "last_order_days_ago"]%string then Some _NUMERIC_OPS
  else if field =s "tag" then Some ["contains"]%string
  else if field =s "ordered_dish_id" then Some ["eq"]%string else None.

Definition dsl_check := (option segment_error).   (** what a validation raises, if it does *)
Definition first_error (l : list dsl_check) : dsl_check := foldr (λ c r, match c with Some e => Some e | None => r end) None l.
(** [x in set]: a list or an object has no hash. *)
Definition unhashable (v : json) : bool := match v with JsArr _ | JsObj _ => true | _ => false end.
Definition is_numeric (v : json) : bool := match v with JsInt _ | JsBool _ | JsFloat _ => true | _ => false end.
Definition is_integer (v : json) : option Z := match v with JsInt n => Some n | JsBool b => Some (Z.b2z b) | _ => None end.

Definition check_min_count (field : string) (cond : jobj) : dsl_check :=
  match oget "min_count" cond with
  | None => None
  | Some n =>
      if negb (field =s "ordered_dish_id") then Some DslRejected else
      match is_integer n with Some n => if n <? 1 then Some DslRejected else None | None => Some DslRejected end
  end.
Definition check_value (field : string) (cond : jobj) : dsl_check :=
  match oget "value" cond with
  | None => Some DslRejected
  | Some v =>
      if negb (forallb (λ kv, in_strs (fst kv) ["field"; "op"; "value"; "min_count"]%string) cond) then Some DslRejected else
      if in_strs field ["total_spend"; "order_count"; "last_order_days_ago"]%string && negb (is_numeric v) then Some DslRejected
      else check_min_count field cond
  end.
Definition _validate_condition (c : json) : dsl_check :=
  match c with
  | JsObj cond =>
      match default JsNull (oget "field" cond) with
      | JsStr field =>
          match _ALLOWED field with
          | None => Some DslRejected
          | Some ops =>
              match default JsNull (oget "op" cond) with
              | JsStr op => if in_strs op ops then check_value field cond else Some DslRejected
              | op => Some (if unhashable op then DslUnhashable else DslRejected)
              end
          end
      | field => Some (if unhashable field then DslUnhashable else DslRejected)
      end
  | _ => Some DslRejected
  end.
Definition validate_dsl (dsl : json) : dsl_check :=
  match dsl with
  | JsObj [(root, JsArr (c :: conditions))] =>
      if in_strs root ["all"; "any"]%string then first_error (_validate_condition <$> c :: conditions) else Some DslRejected
  | _ => Some DslRejected
  end.

(** ** The query *)

Inductive column := CTotalSpend | CTotalOrders | CQuantity | CDish.
Inductive clause :=
| SpendIs (op : string) (v : json)
| OrdersAre (op : string) (v : json)
| LastOrder (op : string) (cutoff : Z)
| Tagged (v : json)
| Ordered (dish min_count : json).

Definition _NUMERIC_PY_OPS (op : string) (x v : Q) : bool :=
  if op =s "eq" then Qeq_bool x v else if op =s "gte" then (v <=q x) else if op =s "lte" then (x <=q v)
  else if op =s "gt" then (v <q x) else (x <q v).
Definition recency_op (op : string) (last cutoff : Z) : bool :=
  if op =s "lte" then cutoff <=? last else if op =s "lt" then cutoff <? last else if op =s "gte" then last <=? cutoff
  else if op =s "gt" then last <? cutoff else date_of last =? date_of cutoff.

(** The instants a [datetime] holds: the years 1 to 9999. *)
Definition in_calendar (t : Z) : bool := (days (-719162) <=? t) && (t <? days 2932897).
Definition jstr (v : json) : string := match v with JsStr s => s | _ => "" end.

Section query.
(** [timedelta(days=q)] of a fraction of a day, in microseconds (floating-point products). *)
Context (float_days : Q → Z).
(** The number the driver binds and the database compares a column with, the text it
    looks a key up with; [None]: refused. *)
Context (bound : column → json → option Q) (bound_text : json → option string).

(** [timedelta(days=value)], within its billion of days. *)
Definition timedelta_days (v : json) : option Z :=
  match is_integer v, v with
  | Some n, _ => if Z.abs n <=? 999999999 then Some (days n) else None
  | None, JsFloat q => let d := float_days q in if Z.abs d <? days 1000000000 then Some d else None
  | None, _ => None
  end.
Definition recency_cutoff (now : Z) (v : json) : option Z :=
  d ← timedelta_days v; if in_calendar (now - d) then Some (now - d) else None.

Definition _build_condition (now : Z) (cond : jobj) : segment_error + clause :=
  let get k := default JsNull (oget k cond) in
  let op := jstr (get "op") in
  let field := jstr (get "field") in
  if field =s "total_spend" then inr (SpendIs op (get "value"))
  else if field =s "order_count" then inr (OrdersAre op (get "value"))
  else if field =s "last_order_days_ago" then
    match recency_cutoff now (get "value") with Some c => inr (LastOrder op c) | None => inl DaysOverflow end
  else if field =s "tag" then inr (Tagged (get "value"))
  else if field =s "ordered_dish_id" then inr (Ordered (get "value") (default (JsInt 1) (oget "min_count" cond)))
  else inl DslRejected.

Fixpoint collect {A} (l : list (segment_error + A)) : segment_error + list A :=
  match l with
  | [] => inr []
  | inl e :: _ => inl e
  | inr a :: l' => match collect l' with inl e => inl e | inr l'' => inr (a :: l'') end
  end.
Definition obj_of (v : json) : jobj := match v with JsObj d => d | _ => [] end.
(** The root's operator ([and_] for "all") and the clauses. *)
Definition compile_segment (now : Z) (dsl : json) : segment_error + (bool * list clause) :=
  match dsl with
  | JsObj [(root, JsArr conditions)] =>
      match collect ((λ c, _build_condition now (obj_of c)) <$> conditions) with
      | inl e => inl e
      | inr cs => inr (root =s "all", cs)
      end
  | _ => inl DslRejected
  end.

(** [coalesce(sum(order_items.qty), 0)] over a customer's orders of the restaurant. *)
Definition dish_quantity (restaurant_id customer_id : Z) (dish : Q) (s : marketing_db) : Z :=
  sum_where (λ l, existsb (λ o, (o_id o =? el_order_id l) && (o_customer_id o =? customer_id)
                               && (o_restaurant_id o =? restaurant_id)) (rows (orders_in s))
                 && match el_dish_id l with Some d => Qeq_bool (inject_Z d) dish | None => false end)
    el_qty (eaten_lines (mk_loyalty s)).

(** A clause as a test of a customer; [None]: a value is refused. *)
Definition clause_test (restaurant_id : Z) (c : clause) : option (Z → marketing_db → bool) :=
  match c with
  | SpendIs op v => v ← bound CTotalSpend v; Some (λ id s, _NUMERIC_PY_OPS op (aed (total_spend (figures_of id s))) v)
  | OrdersAre op v => v ← bound CTotalOrders v; Some (λ id s, _NUMERIC_PY_OPS op (inject_Z (total_orders (figures_of id s))) v)
  | LastOrder op cutoff =>
      Some (λ id s, match last_order_at (figures_of id s) with Some t => recency_op op t cutoff | None => false end)
  | Tagged v => t ← bound_text v; Some (λ id s, in_strs t (pt_tags (patron_of id s)))
  | Ordered dish n =>
      dish ← bound CDish dish; n ← bound CQuantity n;
      Some (λ id s, (n <=q inject_Z (dish_quantity restaurant_id id dish s)))
  end.
Definition segment_test (restaurant_id : Z) (q : bool * list clause) : segment_error + (Z → marketing_db → bool) :=
  match collect ((λ c, match clause_test restaurant_id c with Some t => inr t | None => inl DriverRejected end) <$> q.2) with
  | inl e => inl e
  | inr tests => inr (λ id s, if q.1 then forallb (λ t, t id s) tests else existsb (λ t, t id s) tests)
  end.

Definition raise_segment {A} (r : segment_error + A) : MK A :=
  match r with inl e => raise (SegmentRaised e) | inr a => mret a end.
Definition evaluate_segment (restaurant_id : Z) (dsl : json) : MK (list Z) :=
  match validate_dsl dsl with
  | Some e => raise (SegmentRaised e)
  | None =>
      now ← gets mk_now;
      q ← raise_segment (compile_segment now dsl);
      test ← raise_segment (segment_test restaurant_id q);
      gets (λ s, mb_id <$> List.filter (λ m, test (mb_id m) s) (customers_of restaurant_id s))
  end.
Definition preview_count (restaurant_id : Z) (dsl : json) : MK Z :=
  ids ← evaluate_segment restaurant_id dsl; mret (Z.of_nat (length ids)).

(** ** Saved segments ([marketing/service.py]) *)

Definition create_segment (restaurant_id : Z) (name : string) (dsl : json) (english : option string) : MK Segment :=
  count ← preview_count restaurant_id dsl;
  t ← gets segments;
  let seg := {| sg_id := next_id t; sg_restaurant_id := restaurant_id; sg_name := name; plain_english := english;
    definition := dsl; last_preview_count := Some count |} in
  modify (with_segments (add_row seg t)) ≫= λ _,
  _ ← audit "manager" restaurant_id "segment" (pretty (sg_id seg)) "created" None
    (Some [("name", JStr name); ("preview_count", JInt count)]%string);
  mret seg.
End query.

Definition the_segment (restaurant_id segment_id : Z) : MK Segment :=
  found ← gets (λ s, get_row segment_id (segments s));
  match found with
  | Some seg => if sg_restaurant_id seg =? restaurant_id then mret seg else raise (SegmentMissing segment_id)
  | None => raise (SegmentMissing segment_id)
  end.
Definition delete_segment (restaurant_id segment_id : Z) : MK unit :=
  seg ← the_segment restaurant_id segment_id;
  in_flight ← gets (λ s, count_where (λ c, (ca_restaurant_id c =? restaurant_id) && bool_decide (ca_segment_id c = Some segment_id)
    && bool_decide (ca_status c ∈ [CampScheduled; CampSending])) (campaigns s));
  if negb (in_flight =? 0) then raise SegmentInUse else
  modify (λ s, with_segments (del_row segment_id (segments s)) s) ≫= λ _,
  _ ← audit "manager" restaurant_id "segment" (pretty segment_id) "deleted" None (Some [("name", JStr (sg_name seg))]%string);
  mret tt.

(** ** Named buckets ([marketing/rfm.py]) *)

Definition RFM_SEGMENTS : list (string * string) :=
  [("champions", "Champions"); ("loyal", "Loyal Customers"); ("potential", "Potential Loyalists"); ("at_risk", "At Risk");
   ("lost", "Lost"); ("new", "New Customers"); ("all", "All Customers")]%string.
Definition VALID_KEYS : list string := map fst RFM_SEGMENTS.

Definition _classify (f : Z) (last : option Z) (now : Z) : string :=
  if f <=? 1 then "new" else
  match last with
  | None => "lost"
  | Some t =>
      let r := (now - t) / day in
      if (5 <=? f) && (r <=? 30) then "champions"
      else if (3 <=? f) && (r <=? 60) then "loyal"
      else if r <=? 30 then "potential"
      else if r <=? 120 then "at_risk" else "lost"
  end.
Definition bucket_of (now : Z) (s : marketing_db) (m : Member) : string :=
  let st := figures_of (mb_id m) s in _classify (total_orders st) (last_order_at st) now.

Definition segment_counts (restaurant_id now : Z) (s : marketing_db) : list (string * Z) :=
  let rs := customers_of restaurant_id s in
  (λ k, (k, if k =s "all" then Z.of_nat (length rs) else count (λ m, bucket_of now s m =s k) rs)) <$> VALID_KEYS.
Definition segment_customer_ids (restaurant_id : Z) (key : string) (now : Z) : MK (list Z) :=
  if negb (in_strs key VALID_KEYS) then raise (SegmentRaised (UnknownBucket key)) else
  rs ← gets (customers_of restaurant_id);
  if key =s "all" then mret (mb_id <$> rs) else
  gets (λ s, mb_id <$> List.filter (λ m, bucket_of now s m =s key) rs).

#[global] Arguments evaluate_segment : simpl never.
#[global] Arguments segment_customer_ids : simpl never.
