(* ===== verification/Marketing.v ===== *)
(** * Campaigns and the compliant send ([marketing/])

    Opt-outs, the frequency cap and the send window ([optout.py], [throttle.py],
    [window.py]); campaigns, their sends and the dispatcher of scheduled ones
    ([service.py], [worker.py], [router.py]).  A send is a row of the ledger and a
    message of the queue. *)

From Stdlib Require Import Ascii.
From S2P Require Import Prelude Money Strings Decimals Db AuditTrail Clock Coupons OrderFsm Outbox Notify Loyalty MarketingDb Segments.

(** ** Opt-outs ([optout.py]) *)

Definition _STOP_KEYWORDS : list string :=
  ["stop"; "unsubscribe"; "opt out"; "optout"; "stop promo"; "cancel"; "الغاء"; "توقف"]%string.
Definition _STOP_PREFIXES : list string := ["stop"; "unsubscribe"]%string.
Definition _OPTOUT_PHRASES : list string :=
  ["stop sending"; "stop messaging"; "don't send"; "dont send"; "no more messages"; "no more marketing"; "no more promotions";
   "opt out"; "opt-out"; "remove me"; "don't message"; "dont message"; "stop marketing"; "stop promotions"; "no promotions";
   "unsubscribe me"; "don't contact"; "dont contact"]%string.

Definition starts_with (p s : string) : bool := match after_prefix p s with Some _ => true | None => false end.
Fixpoint occurs_in (p s : string) : bool :=
  starts_with p s || match s with EmptyString => false | String _ s' => occurs_in p s' end.

Definition is_optout_intent (text : string) : bool :=
  let normalized := lower (strip text) in existsb (λ p, occurs_in p normalized) _OPTOUT_PHRASES.
Definition is_stop_keyword (text : string) : bool :=
  let normalized := lower (strip text) in
  truthy normalized && (in_strs normalized _STOP_KEYWORDS || existsb (λ p, starts_with p normalized) _STOP_PREFIXES).

Definition opts_out (restaurant_id : Z) (phone : string) (o : OptOut) : bool :=
  (oo_restaurant_id o =? restaurant_id) && (oo_phone o =s phone).
Definition is_opted_out (restaurant_id : Z) (phone : string) (s : marketing_db) : bool :=
  match first_where (opts_out restaurant_id phone) (opt_outs s) with Some _ => true | None => false end.

Definition record_opt_out (restaurant_id : Z) (phone source : string) : MK OptOut :=
  found ← gets (λ s, first_where (opts_out restaurant_id phone) (opt_outs s));
  row ← match found with
        | Some o => mret o
        | None =>
            t ← gets opt_outs;
            let o := Build_OptOut (next_id t) restaurant_id phone source in
            modify (with_opt_outs (add_row o t)) ≫= λ _, mret o
        end;
  _ ← audit ("customer:" +:+ phone) restaurant_id "marketing_opt_out" (pretty (oo_id row)) "opt_out" None
    (Some [("phone", JStr phone); ("source", JStr source)]%string);
  mret row.
Definition record_opt_in (restaurant_id : Z) (phone : string) : MK unit :=
  modify (λ s, with_opt_outs (del_where (opts_out restaurant_id phone) (opt_outs s)) s) ≫= λ _,
  _ ← audit ("customer:" +:+ phone) restaurant_id "marketing_opt_out" phone "opt_in" None (Some [("phone", JStr phone)]%string);
  mret tt.

(** The opt-out step of an inbound text ([conversation/engine.py]): whether it was one.
    [cancels]: the text is a cancellation and the customer has an order to cancel. *)
Definition STOP_ACK : string := "You've been unsubscribed from marketing messages. Reply START to re-subscribe.".
Definition opt_out_inbound (restaurant_id : Z) (from_phone text wa_message_id : string) (cancels : bool) : MK bool :=
  let kw := is_stop_keyword text in
  if negb (kw || is_optout_intent text) || (kw && cancels) then mret false else
  _ ← record_opt_out restaurant_id from_phone (if kw then "stop_keyword" else "natural_language");
  _ ← in_queue (enqueue_message restaurant_id from_phone "text" [("body", JStr STOP_ACK)]%string
    ("stop-ack-" +:+ wa_message_id) true true);
  mret true.

(** ** The window and the cap ([window.py], [throttle.py]) *)

Definition is_within_uae_window (now start_hour end_hour : Z) : bool :=
  let h := dubai_minute now / 60 in (start_hour <=? h) && (h <? end_hour).
Definition next_window_open (now start_hour : Z) : Z :=
  let open_today := dubai_midnight now + hours start_hour in
  if now <? open_today then open_today else open_today + days 1.

Definition _COUNTED_STATUSES : list string := ["sent"; "delivered"; "read"]%string.
Definition per_user_cap : Z := 2.

Inductive suppression := ByOptout | ByWindow | ByCap.
#[global] Instance suppression_eq_dec : EqDecision suppression.
Proof. solve_decision. Defined.
Definition reason_str (r : suppression) : string :=
  match r with ByOptout => "suppressed_optout" | ByWindow => "suppressed_window" | ByCap => "suppressed_cap" end.

(** [None]: allowed. *)
Definition can_send_marketing (sends_last_24h : Z) (opted_out within_window : bool) (cap : Z) : option suppression :=
  if opted_out then Some ByOptout
  else if negb within_window then Some ByWindow
  else if cap <=? sends_last_24h then Some ByCap else None.

Definition counted_since (restaurant_id : Z) (phone : string) (since : Z) (m : MarketingSend) : bool :=
  (sn_restaurant_id m =? restaurant_id) && (sn_to_phone m =s phone) && in_strs (sn_status m) _COUNTED_STATUSES
  && match sn_sent_at m with Some t => since <=? t | None => false end.
Definition count_sends_last_24h (restaurant_id : Z) (phone : string) (now : Z) (s : marketing_db) : Z :=
  count_where (counted_since restaurant_id phone (now - hours 24)) (sends s).

(** ** Campaigns *)

Definition _RFM_LABELS (key : string) : option string := snd <$> List.find (λ p, fst p =s key) RFM_SEGMENTS.
Definition audience_label_for_campaign (segment_name : option string) (stats : jobj) : string :=
  if otruthy segment_name then default "" segment_name else
  match oget "rfm_segment" stats with
  | Some (JsStr key) => default "All Customers" (_RFM_LABELS key)
  | _ => "All Customers"
  end.

Definition the_template (restaurant_id template_id : Z) : MK WaTemplate :=
  found ← gets (λ s, get_row template_id (templates s));
  match found with
  | Some t => if wt_restaurant_id t =? restaurant_id then mret t else raise (TemplateMissing template_id)
  | None => raise (TemplateMissing template_id)
  end.
Definition set_campaign (c : Campaign) : MK unit := modify (λ s, with_campaigns (set_row c (campaigns s)) s).
Definition with_campaign (st : campaign_status) (stats : jobj) (at_ : option Z) (c : Campaign) : Campaign :=
  {| ca_id := ca_id c; ca_restaurant_id := ca_restaurant_id c; ca_type := ca_type c; ca_template_id := ca_template_id c;
     ca_segment_id := ca_segment_id c; ca_image_url := ca_image_url c; ca_coupon_value := ca_coupon_value c;
     ca_scheduled_at := at_; ca_status := st; ca_stats := stats |}.
Definition campaign_status_str (st : campaign_status) : string :=
  match st with CampDraft => "draft" | CampScheduled => "scheduled" | CampSending => "sending" | CampSent => "sent"
  | CampFailed => "failed" | CampCancelled => "cancelled" end.

Definition create_campaign (restaurant_id : Z) (type : string) (template_id segment_id : option Z)
    (image_url coupon_value : option string) (scheduled_at : option Z) : MK Campaign :=
  match template_id with Some t => the_template restaurant_id t ≫= λ _, mret tt | None => mret tt end ≫= λ _,
  match segment_id with Some g => the_segment restaurant_id g ≫= λ _, mret tt | None => mret tt end ≫= λ _,
  let status := match scheduled_at with Some _ => CampScheduled | None => CampDraft end in
  t ← gets campaigns;
  let camp := Build_Campaign (next_id t) restaurant_id type template_id segment_id image_url coupon_value scheduled_at status [] in
  modify (with_campaigns (add_row camp t)) ≫= λ _,
  _ ← audit "manager" restaurant_id "campaign" (pretty (ca_id camp)) "created" None
    (Some [("type", JStr type); ("status", JStr (campaign_status_str status))]%string);
  mret camp.

Definition _SCHEDULE_MIN_LEAD : Z := minutes 5.
Definition _SCHEDULE_MAX_HORIZON : Z := days 90.
(** [aware]: the instant came with a time zone. *)
Definition validate_scheduled_at (aware : bool) (scheduled_at now : Z) : option marketing_error :=
  if negb aware then Some NaiveSchedule
  else if scheduled_at <=? now + _SCHEDULE_MIN_LEAD then Some ScheduleTooSoon
  else if now + _SCHEDULE_MAX_HORIZON <? scheduled_at then Some ScheduleTooFar else None.
Definition _assert_template_approved (restaurant_id template_id : Z) : MK WaTemplate :=
  t ← the_template restaurant_id template_id;
  if bool_decide (wt_status t = TplApproved) then mret t else raise TemplateNotApproved.

Definition WINDOW_WARNING : string :=
  "Scheduled fire time is outside the 9am–6pm UAE window — the send will wait until the next allowed window.".

Definition own_campaign (restaurant_id campaign_id : Z) : MK Campaign :=
  found ← gets (λ s, get_row campaign_id (campaigns s));
  match found with
  | Some c => if ca_restaurant_id c =? restaurant_id then mret c else raise CampaignNotFound
  | None => raise CampaignNotFound
  end.
Definition cancel_scheduled_campaign (restaurant_id campaign_id : Z) : MK Campaign :=
  camp ← own_campaign restaurant_id campaign_id;
  if negb (bool_decide (ca_status camp = CampScheduled)) then raise NotScheduled else
  let camp := with_campaign CampCancelled (ca_stats camp) (ca_scheduled_at camp) camp in
  set_campaign camp ≫= λ _,
  _ ← audit "manager" restaurant_id "campaign" (pretty (ca_id camp)) "cancelled" None (Some [("status", JStr "cancelled")]%string);
  mret camp.

(** ** The message *)

(** [re.findall] of a body variable: two braces, blanks, digits, blanks, two braces. *)
Fixpoint take_digits (s : string) : string * string :=
  match s with
  | String c s' => if (48 <=? nat_of_ascii c)%nat && (nat_of_ascii c <=? 57)%nat
                   then let '(d, r) := take_digits s' in (String c d, r) else (EmptyString, s)
  | EmptyString => (EmptyString, EmptyString)
  end.
Definition variable_at (s : string) : option (N * string) :=
  s ← after_prefix "{{" s;
  let '(d, r) := take_digits (lstrip s) in
  if truthy d then n ← read_digits d; r ← after_prefix "}}" (lstrip r); Some (n, r) else None.
Fixpoint body_variables (fuel : nat) (s : string) : list N :=
  match fuel with
  | O => []
  | S fuel' =>
      match variable_at s with
      | Some (n, r) => n :: body_variables fuel' r
      | None => match s with EmptyString => [] | String _ s' => body_variables fuel' s' end
      end
  end.
Definition variables_of (body : string) : list N := body_variables (S (String.length body)) body.

(** The canonical text of a stored value; a float by its fraction. *)
Fixpoint json_text (v : json) : string :=
  match v with
  | JsNull => "null" | JsBool b => if b then "true" else "false" | JsInt n => pretty n
  | JsFloat q => pretty (Qnum q) +:+ "/" +:+ pretty (Zpos (Qden q))
  | JsStr s => quoted s
  | JsArr l => "[" +:+ String.concat ", " (json_text <$> l) +:+ "]"
  | JsObj d => "{" +:+ String.concat ", " ((λ kv, quoted kv.1 +:+ ": " +:+ json_text kv.2) <$> d) +:+ "}"
  end.
Definition image_header (t : WaTemplate) : bool :=
  match wt_header t with
  | Some h => match default (JsStr "") (oget "type" h) with JsStr ty => upper ty =s "IMAGE" | _ => false end
  | None => false
  end.
Definition header_image (t : WaTemplate) (image_url : option string) : option json :=
  if otruthy image_url then JsStr <$> image_url else
  if image_header t then
    let h := default [] (wt_header t) in
    let url := default JsNull (oget "image_url" h) in
    let url := if jtruthy url then url else default JsNull (oget "url" h) in
    if jtruthy url then Some url else None
  else None.
Definition header_component (link : json) : string :=
  "{" +:+ quoted "type" +:+ ": " +:+ quoted "header" +:+ ", " +:+ quoted "parameters" +:+ ": [{" +:+ quoted "type" +:+ ": "
  +:+ quoted "image" +:+ ", " +:+ quoted "image" +:+ ": {" +:+ quoted "link" +:+ ": " +:+ json_text link +:+ "}}]}".
Definition body_component (values : list string) : string :=
  "{" +:+ quoted "type" +:+ ": " +:+ quoted "body" +:+ ", " +:+ quoted "parameters" +:+ ": ["
  +:+ String.concat ", " (text_parameter <$> values) +:+ "]}".
(** One value per variable, the customer's name; a coupon's code takes the last. *)
Definition body_values (n : nat) (customer_name coupon_code : option string) : list string :=
  let name := strip (default "" customer_name) in
  let name := if truthy name then name else "there"%string in
  if otruthy coupon_code then replicate (pred n) name ++ option_list coupon_code else replicate n name.
Definition _build_payload (t : WaTemplate) (customer_name coupon_code image_url : option string) : jdict :=
  let n := length (remove_dups (variables_of (wt_body t))) in
  let components := option_list (header_component <$> header_image t image_url)
    ++ (if bool_decide (n = 0%nat) then [] else [body_component (body_values n customer_name coupon_code)]) in
  [("name", JStr (meta_template_name t)); ("language", JStr (wt_language t));
   ("components", JList ("[" +:+ String.concat ", " components +:+ "]") (Z.of_nat (length components)));
   ("quick_replies", JList ("[" +:+ quoted "STOP" +:+ "]") 1)]%string.

(** ** Sending *)

(** [Decimal(text)] of a finite number: a sign, digits around a point, an exponent;
    underscores are dropped. *)
Definition only_digits (s : string) : bool := match take_digits s with (_, EmptyString) => true | _ => false end.
Definition digits_value (s : string) : option Z :=
  if truthy s then (if only_digits s then Z.of_N <$> read_digits s else None) else Some 0.
Fixpoint split_at (cs : list ascii) (s : string) : string * option string :=
  match s with
  | EmptyString => (EmptyString, None)
  | String c s' => if existsb (Ascii.eqb c) cs then (EmptyString, Some s')
                   else let '(a, b) := split_at cs s' in (String c a, b)
  end.
Fixpoint drop_char (x : ascii) (s : string) : string :=
  match s with EmptyString => EmptyString | String c s' => if Ascii.eqb c x then drop_char x s' else String c (drop_char x s') end.
Definition signed (s : string) : Z * string :=
  match s with String "-"%char s' => (-1, s') | String "+"%char s' => (1, s') | _ => (1, s) end.
Definition power_of_ten (e : Z) : Q := if 0 <=? e then inject_Z (10 ^ e) else 1 # Z.to_pos (10 ^ (- e)).
Definition decimal_of (text : string) : option Q :=
  let '(sg, s) := signed (drop_char "_" (strip text)) in
  let '(mantissa, exponent) := split_at ["e"; "E"]%char s in
  let '(whole, frac) := split_at ["."]%char mantissa in
  if negb (truthy whole || otruthy frac) then None else
  w ← digits_value whole;
  f ← digits_value (default "" frac);
  e ← match exponent with
      | None => Some 0
      | Some x => let '(se, x) := signed x in if truthy x then Z.mul se <$> digits_value x else None
      end;
  let k := Z.of_nat (String.length (default "" frac)) in
  Some (inject_Z (sg * (w * 10 ^ k + f)) * power_of_ten (e - k))%Q.
(** Into a NUMERIC(8, 2) column. *)
Definition stored_cents (q : Q) : Z := quantize_half_up q.

Inductive send_outcome := SendQueued | SendSuppressed (r : suppression) | SendDuplicate.
#[global] Instance send_outcome_eq_dec : EqDecision send_outcome.
Proof. solve_decision. Defined.

Definition same_send (campaign_id customer_id : Z) (m : MarketingSend) : bool :=
  (sn_campaign_id m =? campaign_id) && (sn_customer_id m =? customer_id).
Definition _insert_send (camp : Campaign) (cust : Member) (status : string) (sent_at : option Z) : MK bool :=
  found ← gets (λ s, first_where (same_send (ca_id camp) (mb_id cust)) (sends s));
  match found with
  | Some _ => mret false
  | None =>
      t ← gets sends;
      modify (with_sends (add_row (Build_MarketingSend (next_id t) (ca_restaurant_id camp) (ca_id camp) (mb_id cust) (mb_phone cust)
        status None None None sent_at) t)) ≫= λ _,
      mret true
  end.

Definition latest_order (restaurant_id customer_id : Z) (s : marketing_db) : option Z :=
  o_id <$> head (sort_by (λ a b, o_id b <=? o_id a)
    (all_where (λ o, (o_restaurant_id o =? restaurant_id) && (o_customer_id o =? customer_id)) (orders_in s))).
Definition send_key (campaign_id customer_id : Z) : string := "campaign:" +:+ pretty campaign_id +:+ ":customer:" +:+ pretty customer_id.

Record send_summary := { su_queued : Z; su_cap : Z; su_optout : Z; su_window : Z }.
Definition no_sends : send_summary := {| su_queued := 0; su_cap := 0; su_optout := 0; su_window := 0 |}.
Definition tally (o : send_outcome) (u : send_summary) : send_summary :=
  match o with
  | SendQueued => {| su_queued := su_queued u + 1; su_cap := su_cap u; su_optout := su_optout u; su_window := su_window u |}
  | SendSuppressed ByCap => {| su_queued := su_queued u; su_cap := su_cap u + 1; su_optout := su_optout u; su_window := su_window u |}
  | SendSuppressed ByOptout => {| su_queued := su_queued u; su_cap := su_cap u; su_optout := su_optout u + 1; su_window := su_window u |}
  | SendSuppressed ByWindow => {| su_queued := su_queued u; su_cap := su_cap u; su_optout := su_optout u; su_window := su_window u + 1 |}
  | SendDuplicate => u
  end.
Definition summary_obj (u : send_summary) : jobj :=
  [("queued", JsInt (su_queued u)); ("suppressed_cap", JsInt (su_cap u)); ("suppressed_optout", JsInt (su_optout u));
   ("suppressed_window", JsInt (su_window u))]%string.
Definition summary_audit (u : send_summary) : jdict :=
  [("queued", JInt (su_queued u)); ("suppressed_cap", JInt (su_cap u)); ("suppressed_optout", JInt (su_optout u));
   ("suppressed_window", JInt (su_window u))]%string.

(** [[int(x) for x in raw]] when [stats.audience_ids] is a non-empty list. *)
Definition stored_audience (c : Campaign) : MK (option (list Z)) :=
  match oget "audience_ids" (ca_stats c) with
  | Some (JsArr (x :: l)) => match mapM jint (x :: l) with Some ids => mret (Some ids) | None => raise BadAudience end
  | _ => mret None
  end.

Section sending.
(** The random tokens of the [n]-th coupon; [settings.marketing_send_window_enabled]; the
    segments' parameters ([Segments]). *)
Context (tokens : Z → nat → string) (window_on : bool).
Context (float_days : Q → Z) (bound : column → json → option Q) (bound_text : json → option string).

Definition window_warning_for_schedule (scheduled_at : Z) : option string :=
  if negb window_on then None else if is_within_uae_window scheduled_at 9 18 then None else Some WINDOW_WARNING.
Definition within_window (now : Z) : bool := negb window_on || is_within_uae_window now 9 18.

Definition schedule_broadcast (restaurant_id template_id : Z) (aware : bool) (scheduled_at now : Z) (type : string)
    (segment_id : option Z) (rfm_segment coupon_value : option string) : MK (Campaign * option string) :=
  match validate_scheduled_at aware scheduled_at now with
  | Some e => raise e
  | None =>
      _assert_template_approved restaurant_id template_id ≫= λ _,
      camp ← create_campaign restaurant_id type (Some template_id) segment_id None coupon_value (Some scheduled_at);
      let bucket := match segment_id with
                    | None => JsStr (if otruthy rfm_segment then default "" rfm_segment else "all")
                    | Some _ => JsNull
                    end in
      let stats := omerge (ca_stats camp) [("rfm_segment", bucket); ("segment_id", jopt JsInt segment_id)]%string in
      let warning := window_warning_for_schedule scheduled_at in
      let stats := match warning with Some w => oset "window_warning" (JsStr w) stats | None => stats end in
      let camp := with_campaign (ca_status camp) stats (ca_scheduled_at camp) camp in
      set_campaign camp ≫= λ _,
      mret (camp, warning)
  end.
Definition reschedule_campaign (restaurant_id campaign_id : Z) (aware : bool) (scheduled_at now : Z) : MK (Campaign * option string) :=
  camp ← own_campaign restaurant_id campaign_id;
  if negb (bool_decide (ca_status camp = CampScheduled)) then raise NotScheduled else
  match validate_scheduled_at aware scheduled_at now with
  | Some e => raise e
  | None =>
      let warning := window_warning_for_schedule scheduled_at in
      let stats := match warning with Some w => oset "window_warning" (JsStr w) (ca_stats camp)
                   | None => opop "window_warning" (ca_stats camp) end in
      let camp := with_campaign (ca_status camp) stats (Some scheduled_at) camp in
      set_campaign camp ≫= λ _,
      _ ← audit "manager" restaurant_id "campaign" (pretty (ca_id camp)) "rescheduled" None
        (Some [("scheduled_at", JStr (datetime_isoformat scheduled_at))]%string);
      mret (camp, warning)
  end.

(** The coupon a campaign promises, on the customer's latest order; no order, no coupon. *)
Definition campaign_coupon (camp : Campaign) (cust : Member) : MK (option string) :=
  if negb (otruthy (ca_coupon_value camp)) then mret None else
  last ← gets (latest_order (ca_restaurant_id camp) (mb_id cust));
  match last with
  | None => mret None
  | Some order_id =>
      match decimal_of (default "" (ca_coupon_value camp)) with
      | None => raise BadCouponValue
      | Some amount =>
          n ← gets (λ s, next_id (coupons (lo_coupons (mk_loyalty s))));
          c ← in_coupons (issue_coupon (tokens n) (ca_restaurant_id camp) (mb_id cust) (Some order_id) (stored_cents amount)
            DEFAULT_VALIDITY_DAYS);
          mret (Some (c_code c))
      end
  end.

Definition _send_to_customer (camp : Campaign) (t : WaTemplate) (cust : Member) (now : Z) (inside : bool) : MK send_outcome :=
  opted_out ← gets (is_opted_out (ca_restaurant_id camp) (mb_phone cust));
  sends_24h ← gets (count_sends_last_24h (ca_restaurant_id camp) (mb_phone cust) now);
  match can_send_marketing sends_24h opted_out inside per_user_cap with
  | Some reason =>
      inserted ← _insert_send camp cust (reason_str reason) None;
      mret (if (inserted : bool) then SendSuppressed reason else SendDuplicate)
  | None =>
      code ← campaign_coupon camp cust;
      inserted ← _insert_send camp cust "sent" (Some now);
      if negb inserted then mret SendDuplicate else
      patron ← gets (patron_of (mb_id cust));
      _ ← in_queue (enqueue_message (ca_restaurant_id camp) (mb_phone cust) "template"
        (_build_payload t (pt_name patron) code (ca_image_url camp)) (send_key (ca_id camp) (mb_id cust)) true true);
      mret SendQueued
  end.

(** The customers a campaign goes to. *)
Definition campaign_audience (camp : Campaign) (audience_ids : option (list Z)) : MK (list Member) :=
  ids ← match audience_ids with Some ids => mret (Some ids) | None => stored_audience camp end;
  match ids, ca_segment_id camp with
  | Some ids, _ => gets (λ s, all_where (λ m, existsb (Z.eqb (mb_id m)) ids) (members (mk_loyalty s)))
  | None, Some segment_id =>
      found ← gets (λ s, get_row segment_id (segments s));
      match found with
      | None => raise SegmentGone
      | Some seg =>
          ids ← evaluate_segment float_days bound bound_text (ca_restaurant_id camp) (definition seg);
          gets (λ s, all_where (λ m, existsb (Z.eqb (mb_id m)) ids) (members (mk_loyalty s)))
      end
  | None, None => gets (customers_of (ca_restaurant_id camp))
  end.
Definition run_campaign_send (camp : Campaign) (now : Z) (audience_ids : option (list Z)) : MK send_summary :=
  match ca_template_id camp with
  | None => raise CampaignTemplateMissing
  | Some template_id =>
      found ← gets (λ s, get_row template_id (templates s));
      match found with
      | None => raise TemplateNotApproved
      | Some t =>
          if negb (bool_decide (wt_status t = TplApproved)) then raise TemplateNotApproved else
          audience ← campaign_audience camp audience_ids;
          let inside := within_window now in
          summary ← for_fold (λ cust u, o ← _send_to_customer camp t cust now inside; mret (tally o u)) audience no_sends;
          set_campaign (with_campaign CampSent (omerge (ca_stats camp) (summary_obj summary)) (ca_scheduled_at camp) camp) ≫= λ _,
          _ ← audit "system" (ca_restaurant_id camp) "campaign" (pretty (ca_id camp)) "sent" None (Some (summary_audit summary));
          mret summary
      end
  end.

(** ** The dispatcher of scheduled campaigns ([worker.py]) *)

Definition send_scheduled (now : Z) (camp : Campaign) : MK unit :=
  ids ← stored_audience camp;
  _ ← run_campaign_send camp now ids;
  mret tt.
(** No statement was sent: the stored ids do not read, or there is no template. *)
Definition fails_before_query (camp : Campaign) : bool :=
  match oget "audience_ids" (ca_stats camp) with
  | Some (JsArr (x :: l)) => match mapM jint (x :: l) with None => true | Some _ => bool_decide (ca_template_id camp = None) end
  | _ => bool_decide (ca_template_id camp = None)
  end.
(** Each campaign is committed, or rolled back and logged.  Rolling back a transaction
    expires the campaigns that were loaded before the loop, and the next one cannot be
    read outside of a query: the task ends there.  [began]: a transaction is open. *)
Fixpoint dispatch_loop (now : Z) (began : bool) (due : list Campaign) : MK unit :=
  match due with
  | [] => mret tt
  | camp :: due' => λ s,
      match send_scheduled now camp s with
      | Ok _ s' => dispatch_loop now false due' s'
      | Err _ _ =>
          if began || negb (fails_before_query camp)
          then match due' with [] => Ok tt s | _ :: _ => Err StaleSession s end
          else dispatch_loop now false due' s
      end
  end.
Definition due_campaigns (now : Z) (s : marketing_db) : list Campaign :=
  all_where (λ c, bool_decide (ca_status c = CampScheduled) && match ca_scheduled_at c with Some t => t <=? now | None => false end)
    (campaigns s).
Definition _dispatch_scheduled : MK unit :=
  now ← gets mk_now;
  due ← gets (due_campaigns now);
  dispatch_loop now true due.

(** ** Broadcasts ([router.py]) *)

Record BroadcastRequest := {
  br_template_id : Z; br_type : string; br_segment_id : option Z; br_rfm_segment : option string;
  br_coupon_value : option string; br_scheduled_at : option Z;
}.
(** The [ValueError]s. *)
Definition is_ValueError (e : marketing_error) : bool :=
  match e with
  | SegmentRaised (DslRejected | UnknownBucket _) | SegmentMissing _ | TemplateMissing _ | TemplateNotApproved | CampaignTemplateMissing
  | NaiveSchedule | ScheduleTooSoon | ScheduleTooFar | CampaignNotFound | NotScheduled => true
  | _ => false
  end.
Definition chosen_bucket (body : BroadcastRequest) : option string :=
  match br_rfm_segment body with Some k => if truthy k && negb (k =s "all") then Some k else None | None => None end.
Definition broadcast_at_once (restaurant_id now : Z) (body : BroadcastRequest) : MK send_summary :=
  audience ← match br_segment_id body, chosen_bucket body with
             | None, Some key => ids ← segment_customer_ids restaurant_id key now; mret (Some ids)
             | _, _ => mret None
             end;
  camp ← create_campaign restaurant_id (br_type body) (Some (br_template_id body)) (br_segment_id body) None (br_coupon_value body) None;
  let stats := omerge (ca_stats camp)
    [("rfm_segment", match br_segment_id body with
                     | None => JsStr (if otruthy (br_rfm_segment body) then default "" (br_rfm_segment body) else "all")
                     | Some _ => JsNull
                     end); ("segment_id", jopt JsInt (br_segment_id body))]%string in
  let camp := with_campaign CampSending stats (ca_scheduled_at camp) camp in
  set_campaign camp ≫= λ _,
  run_campaign_send camp now audience.
Definition coupon_value_ok (value : option string) : bool :=
  match value with None => true | Some v => match decimal_of v with Some q => (0 <q q) | None => false end end.
(** The campaign's totals when it was sent at once. *)
Definition broadcast_body (restaurant_id : Z) (body : BroadcastRequest) : MK (option send_summary) :=
  if bool_decide (br_segment_id body ≠ None) && bool_decide (chosen_bucket body ≠ None) then raise (MarketingHTTP 422) else
  if negb (coupon_value_ok (br_coupon_value body)) then raise (MarketingHTTP 422) else
  now ← gets mk_now;
  try_except
    (match br_scheduled_at body with
     | Some at_ =>
         if now <? at_ then
           _ ← schedule_broadcast restaurant_id (br_template_id body) true at_ now (br_type body) (br_segment_id body)
             (br_rfm_segment body) (br_coupon_value body);
           mret None
         else u ← broadcast_at_once restaurant_id now body; mret (Some u)
     | None => u ← broadcast_at_once restaurant_id now body; mret (Some u)
     end)
    (λ e, raise (if is_ValueError e then MarketingHTTP 422 else e)).
(** [send]: the provider of the queue. *)
Definition broadcast_now (send : nat → sent_message → send_result) (restaurant_id : Z) (body : BroadcastRequest)
    : MK (option send_summary) :=
  r ← atomically (broadcast_body restaurant_id body);
  match r with
  | None => mret None
  | Some u => in_queue (deliver_pending send restaurant_id) ≫= λ _, mret (Some u)
  end.

(** Cancelling and moving a scheduled broadcast. *)
Definition schedule_http (e : marketing_error) : marketing_error :=
  match e with
  | CampaignNotFound => MarketingHTTP 404
  | NotScheduled => MarketingHTTP 409
  | NaiveSchedule | ScheduleTooSoon | ScheduleTooFar => MarketingHTTP 422
  | _ => e
  end.
Definition delete_scheduled_campaign (restaurant_id campaign_id : Z) : MK Campaign :=
  atomically (try_except (cancel_scheduled_campaign restaurant_id campaign_id) (λ e, raise (schedule_http e))).
Definition patch_campaign_schedule (restaurant_id campaign_id scheduled_at : Z) : MK (Campaign * option string) :=
  now ← gets mk_now;
  atomically (try_except (reschedule_campaign restaurant_id campaign_id true scheduled_at now) (λ e, raise (schedule_http e))).
Definition post_campaign (restaurant_id : Z) (type : string) (template_id segment_id : option Z)
    (image_url coupon_value : option string) (scheduled_at : option Z) : MK Campaign :=
  atomically (create_campaign restaurant_id type template_id segment_id image_url coupon_value scheduled_at).
End sending.

(** ** What becomes of a send *)

Definition with_send (status : string) (code order : option Z) (m : MarketingSend) : MarketingSend :=
  Build_MarketingSend (sn_id m) (sn_restaurant_id m) (sn_campaign_id m) (sn_customer_id m) (sn_to_phone m) status
    (sn_wa_message_id m) code order (sn_sent_at m).
Definition set_send (m : MarketingSend) : MK unit := modify (λ s, with_sends (set_row m (sends s)) s).
Definition META_CAP_CODE : Z := 131049.
Definition record_send_status (wa_message_id status : string) (error_code : option Z) : MK unit :=
  found ← gets (λ s, first_where (λ m, bool_decide (sn_wa_message_id m = Some wa_message_id)) (sends s));
  match found with
  | None => mret tt
  | Some m =>
      set_send (with_send (if bool_decide (error_code = Some META_CAP_CODE) then "suppressed_cap" else status)
        (match error_code with Some _ => error_code | None => sn_error_code m end) (sn_converted_order_id m) m)
  end.

(** [order_by(sent_at.desc()).limit(1)] *)
Definition latest_send (l : list MarketingSend) : option MarketingSend :=
  head (sort_by (λ a b, default 0 (sn_sent_at b) <=? default 0 (sn_sent_at a)) l).
Definition record_conversion (restaurant_id customer_id order_id window_hours now : Z) : MK unit :=
  found ← gets (λ s, latest_send (all_where (λ m,
    (sn_restaurant_id m =? restaurant_id) && (sn_customer_id m =? customer_id) && in_strs (sn_status m) _COUNTED_STATUSES
    && bool_decide (sn_converted_order_id m = None)
    && match sn_sent_at m with Some t => now - hours window_hours <=? t | None => false end) (sends s)));
  match found with
  | None => mret tt
  | Some m => set_send (with_send (sn_status m) (sn_error_code m) (Some order_id) m)
  end.

(** The counts of [campaign_stats_bulk], for one campaign of the restaurant. *)
Record campaign_figures := { cfg_sent : Z; cfg_delivered : Z; cfg_converted : Z }.
Definition campaign_stats (restaurant_id campaign_id : Z) (s : marketing_db) : campaign_figures :=
  let n p := count_where (λ m, (sn_restaurant_id m =? restaurant_id) && (sn_campaign_id m =? campaign_id) && p m) (sends s) in
  {| cfg_sent := n (λ m, in_strs (sn_status m) _COUNTED_STATUSES);
     cfg_delivered := n (λ m, in_strs (sn_status m) ["delivered"; "read"]%string);
     cfg_converted := n (λ m, negb (bool_decide (sn_converted_order_id m = None))) |}.

#[global] Arguments _send_to_customer : simpl never.
#[global] Arguments run_campaign_send : simpl never.
#[global] Arguments enqueue_message : simpl never.
