(* ===== verification/Templates.v ===== *)
(** * Message templates ([marketing/compliance.py], [marketing/naming.py], [marketing/service.py])

    The compliance linter, the datestamped names with their thirty days of blackout, and
    the life of a template: drafted, submitted, polled, fixed, deleted, and the clean-up at
    the end of the day.  The provider of templates and the language model that revises a
    body are parameters.  The patterns are matched on ASCII text; lengths and the emoji
    ranges are over the code points of UTF-8. *)

From Stdlib Require Import Ascii.
From S2P Require Import Prelude Money Strings Decimals Db AuditTrail Clock Coupons OrderFsm Outbox Notify Loyalty MarketingDb Segments Marketing.

(** ** Text *)

Definition tail_bits (c : ascii) : N := N_of_ascii c mod 64.
Fixpoint code_points (s : string) : list N :=
  match s with
  | EmptyString => []
  | String a s1 =>
      let n := N_of_ascii a in
      if (n <? 192)%N then n :: code_points s1 else
      match s1 with
      | EmptyString => [n]
      | String b s2 =>
          if (n <? 224)%N then ((n mod 32) * 64 + tail_bits b)%N :: code_points s2 else
          match s2 with
          | EmptyString => [n]
          | String c s3 =>
              if (n <? 240)%N then ((n mod 16) * 4096 + tail_bits b * 64 + tail_bits c)%N :: code_points s3 else
              match s3 with
              | EmptyString => [n]
              | String d s4 =>
                  ((n mod 8) * 262144 + tail_bits b * 4096 + tail_bits c * 64 + tail_bits d)%N :: code_points s4
              end
          end
      end
  end.
Definition text_length (s : string) : Z := Z.of_nat (length (code_points s)).

Definition _EMOJI_RE (n : N) : bool :=
  existsb (λ r, (fst r <=? n)%N && (n <=? snd r)%N)
    [(127744, 129791); (9728, 10175); (127462, 127487); (8592, 8703); (11008, 11263); (65024, 65039)]%N.
Definition _has_emoji (text : string) : bool := existsb _EMOJI_RE (code_points text).

Definition _SHORTENER_HOSTS : list string := ["bit.ly"; "tinyurl"; "t.co"; "goo.gl"]%string.
Definition _has_shortener (text : string) : option string := List.find (λ h, occurs_in h (lower text)) _SHORTENER_HOSTS.

Definition slug_char (c : ascii) : bool :=
  let n := nat_of_ascii c in
  ((97 <=? n)%nat && (n <=? 122)%nat) || ((48 <=? n)%nat && (n <=? 57)%nat) || Ascii.eqb c "_".
Fixpoint all_chars (p : ascii → bool) (s : string) : bool :=
  match s with EmptyString => true | String c s' => p c && all_chars p s' end.
(** [^[a-z0-9_]+$]; the end may be before a last newline. *)
Fixpoint slug_then_end (s : string) : bool :=
  match s with
  | EmptyString => true
  | String c s' => (slug_char c && slug_then_end s') || (Ascii.eqb c newline && (s' =s ""))
  end.
Definition _NAME_RE (s : string) : bool :=
  match s with String c s' => slug_char c && slug_then_end s' | EmptyString => false end.

(** A match of a scheme at the head of a text, with what follows it; it needs a visible character. *)
Definition visible (s : string) : bool := match s with String c _ => negb (is_space c) | EmptyString => false end.
Definition url_at (prefixes : list string) (s : string) : bool :=
  existsb (λ p, match after_prefix p (lower s) with Some r => visible r | None => false end) prefixes.
Fixpoint skip_visible (s : string) : string :=
  match s with EmptyString => s | String c s' => if is_space c then s else skip_visible s' end.
(** [_URL_RE.findall]: does some URL not start with [https://]?  Each runs to a blank. *)
Fixpoint insecure_url (fuel : nat) (s : string) : bool :=
  match fuel, s with
  | S fuel', String _ s' =>
      if url_at ["http://"; "https://"]%string s then negb (starts_with "https://" (lower s)) || insecure_url fuel' (skip_visible s)
      else insecure_url fuel' s'
  | _, _ => false
  end.
Definition word_char (c : ascii) : bool :=
  let n := nat_of_ascii c in
  ((65 <=? n)%nat && (n <=? 90)%nat) || ((97 <=? n)%nat && (n <=? 122)%nat) || ((48 <=? n)%nat && (n <=? 57)%nat) || Ascii.eqb c "_".
(** [_ANY_URL_RE.search]: at a word boundary. *)
Fixpoint any_url (boundary : bool) (s : string) : bool :=
  match s with
  | EmptyString => false
  | String c s' => (boundary && url_at ["http://"; "https://"; "www."]%string s) || any_url (negb (word_char c)) s'
  end.

(** [_VAR_RE.sub("", body)] and [_ADJACENT_VARS_RE.search]. *)
Fixpoint without_variables (fuel : nat) (s : string) : string :=
  match fuel, s with
  | S fuel', String c s' => match variable_at s with Some (_, r) => without_variables fuel' r | None => String c (without_variables fuel' s') end
  | _, _ => EmptyString
  end.
Fixpoint adjacent_variables (s : string) : bool :=
  match after_prefix "}}" s with Some r => starts_with "{{" (lstrip r) | None => false end
  || match s with EmptyString => false | String _ s' => adjacent_variables s' end.
Fixpoint count_char (x : ascii) (s : string) : Z :=
  match s with EmptyString => 0 | String c s' => (if Ascii.eqb c x then 1 else 0) + count_char x s' end.

(** ** The linter ([compliance.py]) *)

Definition _MAX_NAME_LEN : Z := 512.
Definition _MAX_BODY_LEN : Z := 1024.
Definition _MAX_FOOTER_LEN : Z := 60.
Definition _MAX_HEADER_LEN : Z := 60.
Definition _MAX_BUTTON_LABEL_LEN : Z := 25.
Definition _MAX_BUTTONS : Z := 10.
Definition _MAX_URL_BUTTONS : Z := 2.
Definition _MAX_BODY_LINES : Z := 5.

Record template_spec := {
  sp_name : string; sp_body : string; sp_header : option jobj; sp_footer : option string; sp_buttons : list jobj;
}.
Definition when (b : bool) (v : string) : list string := if b then [v] else [].

Definition _check_name (sp : template_spec) : list string :=
  when (negb (_NAME_RE (sp_name sp))) "name must match ^[a-z0-9_]+$ (lowercase letters, digits, underscore)"
  ++ when (_MAX_NAME_LEN <? text_length (sp_name sp)) "name exceeds 512 characters".
Definition _check_variables (body : string) : list string :=
  let nums := variables_of body in
  if bool_decide (nums = []) then [] else
  let distinct := remove_dups nums in
  when (negb (length nums =? length distinct)%nat) "variables must not repeat — sequential {{1}}..{{n}} required"
  ++ when (negb (forallb (λ n, existsb (N.eqb n) distinct) (N.of_nat <$> seq 1 (length distinct))))
       "variables must be sequential {{1}}..{{n}} with no gaps"
  ++ when (adjacent_variables body) "adjacent variables ({{1}} {{2}}) need static text between them".
Definition triple_newline : string := String newline (String newline (String newline EmptyString)).
Definition _check_body (body : string) : list string :=
  if negb (truthy body) then ["body is required"%string] else
  let static := strip (without_variables (String.length body) body) in
  when (_MAX_BODY_LEN <? text_length body) "body exceeds 1024 characters"
  ++ when (occurs_in triple_newline body) "body has more than 2 consecutive newlines"
  ++ when (_MAX_BODY_LINES <? count_char newline body + 1) "body has more than 5 lines (may be truncated)"
  ++ match _has_shortener body with
     | Some host => ["body contains a shortened-URL host (" +:+ host +:+ ") — use full https:// URLs"]
     | None => []
     end
  ++ when (insecure_url (String.length body) body) "body URL must use https://"
  ++ when (text_length static <? 10) "body must contain static text — it is mostly variables"
  ++ _check_variables body.
Definition _check_footer (sp : template_spec) : list string :=
  if negb (otruthy (sp_footer sp)) then [] else
  let footer := default "" (sp_footer sp) in
  when (_MAX_FOOTER_LEN <? text_length footer) "footer exceeds 60 characters"
  ++ when (_has_emoji footer) "footer must not contain emoji"
  ++ when (any_url true footer) "footer must not contain a URL"
  ++ when (occurs_in "{{" footer) "footer must not contain variables".

(** [d.get(k, "")] used as a text; [None]: it is not one, and the linter raises. *)
Definition text_field (k : string) (d : jobj) : option string :=
  match oget k d with None => Some ""%string | Some (JsStr s) => Some s | Some _ => None end.
Definition has_type (ty : string) (d : jobj) : bool := match oget "type" d with Some (JsStr s) => s =s ty | _ => false end.

Definition _check_header (sp : template_spec) : option (list string) :=
  let h := default [] (sp_header sp) in
  if negb (has_type "text" h) then Some [] else
  text ← text_field "text" h;
  Some (when (_MAX_HEADER_LEN <? text_length text) "header text exceeds 60 characters"
        ++ when (_has_emoji text) "header text must not contain emoji"
        ++ when (occurs_in (str1 newline) text) "header text must not contain a newline").
Definition _check_button (b : jobj) : option (list string) :=
  label ← text_field "label" b;
  let long := when (_MAX_BUTTON_LABEL_LEN <? text_length label) "button label exceeds 25 characters" in
  if has_type "URL" b then
    url ← text_field "url" b;
    Some (long ++ when (negb (starts_with "https://" (lower url))) "URL button must use a full https:// URL")
  else Some long.
Definition _check_buttons (sp : template_spec) : option (list string) :=
  each ← mapM _check_button (sp_buttons sp);
  Some (when (_MAX_BUTTONS <? Z.of_nat (length (sp_buttons sp))) "more than 10 buttons total"
        ++ when (_MAX_URL_BUTTONS <? Z.of_nat (length (List.filter (has_type "URL") (sp_buttons sp)))) "more than 2 URL buttons"
        ++ concat each).
(** A quick reply to stop; the search ends at the first one. *)
Fixpoint stop_button (l : list jobj) : option bool :=
  match l with
  | [] => Some false
  | b :: l' =>
      if has_type "QUICK_REPLY" b then
        label ← text_field "label" b;
        if occurs_in "stop" (lower label) || occurs_in "unsubscribe" (lower label) then Some true else stop_button l'
      else stop_button l'
  end.
Definition _check_opt_out (sp : template_spec) : option (list string) :=
  if occurs_in "STOP" (upper (default "" (sp_footer sp))) then Some [] else
  found ← stop_button (sp_buttons sp);
  Some (when (negb found) "missing opt-out mechanism").
(** [None]: it raises. *)
Definition lint_template (sp : template_spec) : option (list string) :=
  header ← _check_header sp;
  buttons ← _check_buttons sp;
  opt_out ← _check_opt_out sp;
  Some (_check_name sp ++ _check_body (sp_body sp) ++ _check_footer sp ++ header ++ buttons ++ opt_out).

(** ** Names ([naming.py]) *)

Definition _BLACKOUT : Z := days 30.
Fixpoint slug_chars (s : string) : string :=
  match s with EmptyString => s | String c s' => String (if slug_char c then c else "_"%char) (slug_chars s') end.
(** [_+] to one underscore; [after]: the character before was one. *)
Fixpoint collapse (after : bool) (s : string) : string :=
  match s with
  | EmptyString => s
  | String c s' => if Ascii.eqb c "_" then (if after then collapse true s' else String c (collapse true s')) else String c (collapse false s')
  end.
Fixpoint lstrip_underscore (s : string) : string :=
  match s with EmptyString => s | String c s' => if Ascii.eqb c "_" then lstrip_underscore s' else s end.
Definition _slugify (prefix : string) : string :=
  String.rev (lstrip_underscore (String.rev (lstrip_underscore (collapse false (slug_chars (lower prefix)))))).
Definition compact_date (d : Z) : string := let '(y, m, dd) := civil d in four_digits y +:+ two_digits m +:+ two_digits dd.

(** [None]: it raises. *)
Definition datestamped_name (prefix : string) (on suffix : Z) : option string :=
  let slug := _slugify prefix in
  if negb (truthy slug) then None else
  let name := slug +:+ "_" +:+ compact_date on in
  let name := if suffix =? 0 then name else name +:+ "_" +:+ pretty suffix in
  if negb (_NAME_RE name) then None else
  if _MAX_NAME_LEN <? text_length name then None else Some name.
Definition is_name_reusable (name : string) (deleted_history : list (string * Z)) (now : Z) : bool :=
  negb (existsb (λ h, (h.1 =s name) && (now - _BLACKOUT <=? h.2)) deleted_history).
(** The loop over the suffixes, on fuel: [None] is out of fuel, [Some None] a raise. *)
Fixpoint next_name_from (fuel : nat) (prefix : string) (on : Z) (deleted_history : list (string * Z)) (existing_names : list string)
    (now suffix : Z) : option (option string) :=
  match fuel with
  | O => None
  | S fuel' =>
      match datestamped_name prefix on suffix with
      | None => Some None
      | Some name =>
          if negb (in_strs name existing_names) && is_name_reusable name deleted_history now then Some (Some name)
          else next_name_from fuel' prefix on deleted_history existing_names now (suffix + 1)
      end
  end.
Definition next_available_name (prefix : string) (on : Z) (deleted_history : list (string * Z)) (existing_names : list string) (now : Z)
    : option (option string) :=
  next_name_from (S (length existing_names + length deleted_history)) prefix on deleted_history existing_names now 0.

(** ** The life of a template ([service.py], [router.py]) *)

Inductive TemplateStatus := PENDING | APPROVED | REJECTED | PAUSED | DISABLED | DELETED_BY_META.
Record TemplateCreateResult := { rs_meta_template_id : string; rs_status : TemplateStatus; rs_rejection_reason : option string }.
(** The provider's answers to one request; [None]: the call raises. *)
Record template_provider := {
  pv_create : template_spec → option TemplateCreateResult;
  pv_status : string → option TemplateCreateResult;
  pv_delete : string → option string → option bool;
}.
Definition status_of_meta (st : TemplateStatus) : template_status :=
  match st with APPROVED => TplApproved | REJECTED => TplRejected | _ => TplPending end.
Definition template_status_str (st : template_status) : string :=
  match st with
  | TplDraft => "draft" | TplPending => "pending_meta" | TplApproved => "approved" | TplRejected => "rejected"
  | TplPaused => "paused" | TplDisabled => "disabled" | TplSent => "sent" | TplDeleted => "deleted"
  end.
Definition with_tpl (name body : string) (footer : option string) (st : template_status) (meta reason : option string) (gone : option Z)
    (t : WaTemplate) : WaTemplate :=
  {| wt_id := wt_id t; wt_restaurant_id := wt_restaurant_id t; meta_template_name := name; wt_language := wt_language t;
     wt_category := wt_category t; wt_header := wt_header t; wt_body := body; wt_footer := footer; wt_buttons := wt_buttons t;
     wt_status := st; ephemeral := ephemeral t; meta_template_id := meta; rejection_reason := reason; deleted_at := gone |}.
Definition with_tpl_status (st : template_status) (reason : option string) (gone : option Z) (t : WaTemplate) : WaTemplate :=
  with_tpl (meta_template_name t) (wt_body t) (wt_footer t) st (meta_template_id t) reason gone t.
Definition same_name (t u : WaTemplate) : bool :=
  (wt_restaurant_id t =? wt_restaurant_id u) && (meta_template_name t =s meta_template_name u) && (wt_language t =s wt_language u).
(** A flush: UNIQUE (restaurant_id, meta_template_name, language). *)
Definition flush_template (t : WaTemplate) : MK unit :=
  clash ← gets (λ s, first_where (λ u, same_name t u && negb (wt_id u =? wt_id t)) (templates s));
  match clash with
  | Some _ => raise MarketingIntegrityError
  | None => modify (λ s, with_templates (set_row t (templates s)) s)
  end.
Definition spec_of (t : WaTemplate) : template_spec :=
  {| sp_name := meta_template_name t; sp_body := wt_body t; sp_header := wt_header t; sp_footer := wt_footer t; sp_buttons := wt_buttons t |}.
(** The violations of a specification; a text that is none raises an [AttributeError]. *)
Definition lint (sp : template_spec) : MK unit :=
  match lint_template sp with
  | None => raise ProviderRaised
  | Some [] => mret tt
  | Some violations => raise (NotCompliant violations)
  end.

Record TemplateCreate := {
  tc_name : string; tc_language : string; tc_category : string; tc_body : string; tc_ephemeral : bool;
  tc_header : option jobj; tc_footer : option string; tc_buttons : list jobj;
}.
(** The first of [name], [name_2], [name_3], ... that is not taken. *)
Fixpoint free_name (fuel : nat) (base name : string) (existing : list string) (suffix : Z) : option string :=
  if negb (in_strs name existing) then Some name else
  match fuel with O => None | S fuel' => free_name fuel' base (base +:+ "_" +:+ pretty suffix) existing (suffix + 1) end.
Definition create_wa_template (restaurant_id : Z) (b : TemplateCreate) : MK WaTemplate :=
  existing ← gets (λ s, meta_template_name <$> all_where (λ u, (wt_restaurant_id u =? restaurant_id)
    && (wt_language u =s tc_language b)) (templates s));
  match free_name (length existing) (tc_name b) (tc_name b) existing 2 with
  | None => raise MarketingIntegrityError
  | Some name =>
      t ← gets templates;
      let row := {| wt_id := next_id t; wt_restaurant_id := restaurant_id; meta_template_name := name; wt_language := tc_language b;
        wt_category := tc_category b; wt_header := tc_header b; wt_body := tc_body b; wt_footer := tc_footer b;
        wt_buttons := tc_buttons b; wt_status := TplDraft; ephemeral := tc_ephemeral b; meta_template_id := None;
        rejection_reason := None; deleted_at := None |} in
      modify (with_templates (add_row row t)) ≫= λ _, mret row
  end.

Section life.
Context (provider : template_provider).

Definition submit_template (restaurant_id template_id : Z) : MK WaTemplate :=
  t ← the_template restaurant_id template_id;
  lint (spec_of t) ≫= λ _,
  now ← gets mk_now;
  deleted ← gets (λ s, omap (λ u, (λ d, (meta_template_name u, d)) <$> deleted_at u)
    (all_where (λ u, wt_restaurant_id u =? restaurant_id) (templates s)));
  existing ← gets (λ s, meta_template_name <$> all_where (λ u, (wt_restaurant_id u =? restaurant_id)
    && (wt_language u =s wt_language t) && negb (wt_id u =? wt_id t)) (templates s));
  match next_available_name (meta_template_name t) (date_of now) deleted existing now with
  | Some (Some name) =>
      match pv_create provider (spec_of (with_tpl name (wt_body t) (wt_footer t) (wt_status t) (meta_template_id t)
              (rejection_reason t) (deleted_at t) t)) with
      | None => raise ProviderRaised
      | Some r =>
          let t' := with_tpl name (wt_body t) (wt_footer t) (status_of_meta (rs_status r)) (Some (rs_meta_template_id r))
                      (rs_rejection_reason r) (deleted_at t) t in
          flush_template t' ≫= λ _,
          _ ← audit "manager" restaurant_id "wa_template" (pretty (wt_id t)) "submitted" None
            (Some [("name", JStr name); ("status", JStr (template_status_str (wt_status t')))]%string);
          mret t'
      end
  | _ => raise BadTemplateName
  end.

Definition refresh_template (restaurant_id template_id : Z) : MK WaTemplate :=
  t ← the_template restaurant_id template_id;
  if negb (bool_decide (wt_status t = TplPending)) || negb (otruthy (meta_template_id t)) then mret t else
  match pv_status provider (default "" (meta_template_id t)) with
  | None => raise ProviderRaised
  | Some r =>
      let t' := with_tpl_status (status_of_meta (rs_status r)) (rs_rejection_reason r) (deleted_at t) t in
      flush_template t' ≫= λ _, mret t'
  end.

Definition poll_one (t : WaTemplate) (updated : Z) : MK Z :=
  match pv_status provider (default "" (meta_template_id t)) with
  | None => raise ProviderRaised
  | Some r =>
      let st := status_of_meta (rs_status r) in
      if negb (bool_decide (st = wt_status t))
         || (otruthy (rs_rejection_reason r) && negb (bool_decide (rs_rejection_reason r = rejection_reason t)))
      then flush_template (with_tpl_status st (rs_rejection_reason r) (deleted_at t) t) ≫= λ _, mret (updated + 1)
      else mret updated
  end.
Definition poll_template_statuses : MK Z :=
  pending ← gets (λ s, all_where (λ t, bool_decide (wt_status t = TplPending) && negb (bool_decide (meta_template_id t = None)))
    (templates s));
  updated ← for_fold poll_one pending 0;
  if updated =? 0 then mret updated else
  _ ← record_audit None "system" "wa_template" "poll" "status_poll" None None (Some [("updated", JInt updated)]%string) None;
  mret updated.

(** The provider's own deletion is best effort. *)
Definition delete_template (restaurant_id template_id : Z) : MK bool :=
  found ← gets (λ s, get_row template_id (templates s));
  match found with
  | None => mret false
  | Some t =>
      if negb (wt_restaurant_id t =? restaurant_id) || bool_decide (wt_status t = TplDeleted) then mret false else
      now ← gets mk_now;
      flush_template (with_tpl_status TplDeleted (rejection_reason t) (Some now) t) ≫= λ _,
      _ ← audit "manager" restaurant_id "wa_template" (pretty template_id) "deleted" None None;
      mret true
  end.

(** [fix_template_body]'s answer: the body and the footer. *)
Definition fix_template (revised : string * option string) (restaurant_id template_id : Z) : MK WaTemplate :=
  t ← the_template restaurant_id template_id;
  if negb (bool_decide (wt_status t = TplRejected)) then raise TemplateNotRejected else
  let footer := if otruthy revised.2 then revised.2 else wt_footer t in
  lint {| sp_name := meta_template_name t; sp_body := revised.1; sp_header := wt_header t; sp_footer := footer;
          sp_buttons := wt_buttons t |} ≫= λ _,
  let t' := with_tpl (meta_template_name t) revised.1 footer TplDraft (meta_template_id t) None (deleted_at t) t in
  flush_template t' ≫= λ _,
  _ ← audit "manager" restaurant_id "wa_template" (pretty (wt_id t)) "fixed" None (Some [("status", JStr "draft")]%string);
  mret t'.

(** ** The clean-up at the end of the day *)

Definition names_template (k : string) (id : Z) (ts : jobj) : bool :=
  match oget k ts with Some v => match is_integer v with Some n => n =? id | None => false end | None => false end.
Definition clear_key (k : string) (id : Z) (ts : jobj) : jobj := if names_template k id ts then oset k JsNull ts else ts.
(** A restaurant's special without the template; whether it named it. *)
Definition clear_special (id : Z) (r : Tenant) : Tenant * bool :=
  let ts := default [] (tn_todays_special r) in
  let ts1 := clear_key "template_id" id ts in
  let changed := names_template "template_id" id ts || names_template "fallback_template_id" id ts1 in
  ((if changed then Build_Tenant (tn_id r) (Some (clear_key "fallback_template_id" id ts1)) else r), changed).
Definition cleanup_one (t : WaTemplate) (u : Z * list Z) : MK (Z * list Z) :=
  match pv_delete provider (meta_template_name t) (meta_template_id t) with
  | Some true =>
      now ← gets mk_now;
      flush_template (with_tpl_status TplDeleted (rejection_reason t) (Some now) t) ≫= λ _,
      cleared ← gets (λ s, tn_id <$> List.filter (λ r, (clear_special (wt_id t) r).2) (rows (tenants s)));
      modify (λ s, with_tenants (Table ((λ r, (clear_special (wt_id t) r).1) <$> rows (tenants s)) (next_id (tenants s))) s) ≫= λ _,
      mret (u.1 + 1, u.2 ++ cleared)
  | _ => mret u
  end.
Definition cleanup_ephemeral_templates : MK Z :=
  gone ← gets (λ s, all_where (λ t, ephemeral t && bool_decide (wt_status t ∈ [TplApproved; TplSent]) && bool_decide (deleted_at t = None))
    (templates s));
  u ← for_fold cleanup_one gone (0, []);
  (if u.1 =? 0 then mret tt else
   _ ← record_audit None "system" "wa_template" "ephemeral_cleanup" "deleted" None None (Some [("deleted", JInt u.1)]%string) None;
   mret tt) ≫= λ _,
  for_each (λ rid, _ ← audit "system" rid "settings" (pretty rid) "todays_special.template_cleared" None
    (Some [("reason", JStr "ephemeral_cleanup")]%string); mret tt) u.2 ≫= λ _,
  mret u.1.

(** Requests of a manager, and the tasks of the worker, which roll back what raised.  The
    check of the settings before an image header is submitted is left out. *)
Inductive template_request :=
| TRCreate (restaurant_id : Z) (b : TemplateCreate)
| TRSubmit (restaurant_id template_id : Z)
| TRRefresh (restaurant_id template_id : Z)
| TRFix (restaurant_id template_id : Z) (revised : string * option string)
| TRDelete (restaurant_id template_id : Z)
| TRPoll
| TRCleanup.
Definition run_template_request (r : template_request) : MK unit :=
  atomically
    match r with
    | TRCreate rid b => create_wa_template rid b ≫= λ _, mret tt
    | TRSubmit rid tid => submit_template rid tid ≫= λ _, mret tt
    | TRRefresh rid tid => refresh_template rid tid ≫= λ _, mret tt
    | TRFix rid tid revised => fix_template revised rid tid ≫= λ _, mret tt
    | TRDelete rid tid => delete_template rid tid ≫= λ _, mret tt
    | TRPoll => poll_template_statuses ≫= λ _, mret tt
    | TRCleanup => cleanup_ephemeral_templates ≫= λ _, mret tt
    end.
End life.
