(* ===== verification/Automations.v ===== *)
(** * Timed sends ([marketing/todays_special.py], [marketing/automations.py], [marketing/service.py])

    The daily special at each customer's usual hour, and the presets: welcome, recurring,
    win-back, reorder, birthday and review request.  They end in [_send_to_customer] or
    [run_campaign_send] of [Marketing].  The trigonometry and the exponentials of the
    habit statistics ([ordering/habits.py]) are a parameter. *)

From Stdlib Require Import Ascii.
From S2P Require Import Prelude Money Strings Decimals Db AuditTrail Clock Coupons OrderFsm Outbox Notify Loyalty MarketingDb Segments Marketing.

(** ** The minute to send at ([todays_special.py]) *)

Definition WINDOW_START_MIN : Z := 9 * 60.
Definition WINDOW_END_MIN : Z := 18 * 60.
Definition MIN_ORDERS : Z := 3.
Definition MIN_ORDERS_WEEKDAY : Z := 2.
Definition MIN_CONCENTRATION : Q := 1 # 2.
Definition DEFAULT_LEAD_MINUTES : Z := 15.
Definition DEFAULT_MAX_LATE_MINUTES : Z := 90.
Definition _DEFAULT_SPECIAL_MINUTE : Z := 11 * 60 + 45.

(** A text of two parts around its only colon. *)
Definition hhmm_of (s : string) : option Z :=
  match split_at [":"%char] s with
  | (hh, Some mm) =>
      h ← int_text hh; m ← int_text mm;
      if (0 <=? h) && (h <=? 23) && (0 <=? m) && (m <=? 59) then Some (h * 60 + m) else None
  | _ => None
  end.
Definition parse_hhmm (value : option string) (otherwise : Z) : Z := default otherwise (value ≫= hhmm_of).
Definition text_of (v : option json) : option string := match v with Some (JsStr s) => Some s | _ => None end.

Definition _clamp_to_window (m : Z) : Z :=
  if m <? WINDOW_START_MIN then WINDOW_START_MIN else if WINDOW_END_MIN - 1 <? m then WINDOW_END_MIN - 1 else m.
Definition is_personalized (pred : option OrderTimePrediction) (min_orders : Z) : bool :=
  match pred with Some p => (min_orders <=? order_count p) && (MIN_CONCENTRATION <=q concentration p) | None => false end.
Definition desired_send_minute (pred : option OrderTimePrediction) (lead default_minute : Z) (clamp_window : bool)
    (window : option (Z * Z)) (min_orders : Z) : Z :=
  let base := match pred with
              | Some p => if is_personalized pred min_orders then minute_of_day p - lead else default_minute
              | None => default_minute
              end in
  match window with
  | Some (lo, hi) => Z.min (Z.max base lo) hi
  | None => if clamp_window then _clamp_to_window base else base mod 1440
  end.
Definition is_due (desired now_minute max_late : Z) : bool := (desired <=? now_minute) && (now_minute <? desired + max_late).

(** ** Habits ([ordering/habits.py], [automations.py]) *)

(** A customer's orders that left the draft: the Dubai minute, the weekday, the age. *)
Record OrderStamp := { os_minute : Z; os_weekday : Z; os_age : Z }.
Definition _order_stamps_dubai (customer_id now : Z) (s : marketing_db) : list OrderStamp :=
  (λ o, let t := o_created_at o in {| os_minute := dubai_minute t; os_weekday := weekday (dubai_date t); os_age := Z.max 0 (now - t) |}) <$>
    all_where (λ o, (o_customer_id o =? customer_id) && negb (bool_decide (o_status o = DRAFT))) (orders_in s).

Definition habit_for_weekday (habits : list (Z * OrderTimePrediction)) (wd : Z) : option OrderTimePrediction :=
  snd <$> List.find (λ h, fst h =? wd) habits.
Definition _minute_to_hhmm (m : Z) : string := let m := m mod 1440 in two_digits (m / 60) +:+ ":" +:+ two_digits (m mod 60).
Definition _utc_from_local (date minute_of_day : Z) : Z := days date + minutes (minute_of_day mod 1440) - hours 4.

(** [Counter.most_common(1)]: the most frequent, the first seen among equals. *)
Fixpoint most_frequent (l seen : list Z) : option Z :=
  match l with
  | [] => None
  | x :: l' =>
      match most_frequent l' (x :: seen) with
      | Some y => if count (Z.eqb y) (seen ++ l) <=? count (Z.eqb x) (seen ++ l) then Some x else Some y
      | None => Some x
      end
  end.
Definition _dominant_order_weekday (customer_id : Z) (s : marketing_db) : option Z :=
  most_frequent (os_weekday <$> _order_stamps_dubai customer_id 0 s) [].

(** The first hour and minutes in a text: one or two digits, a colon, two digits. *)
Definition digit_at (s : string) : option (Z * string) :=
  match s with
  | String c s' => let n := nat_of_ascii c in if (48 <=? n)%nat && (n <=? 57)%nat then Some (Z.of_nat n - 48, s') else None
  | EmptyString => None
  end.
Definition minutes_after_colon (s : string) : option Z :=
  s ← after_prefix ":" s; '(a, s) ← digit_at s; '(b, _) ← digit_at s; Some (10 * a + b).
Definition clock_at (s : string) : option (Z * Z) :=
  '(a, s1) ← digit_at s;
  match ('(b, s2) ← digit_at s1; m ← minutes_after_colon s2; Some (10 * a + b, m)) with
  | Some r => Some r
  | None => m ← minutes_after_colon s1; Some (a, m)
  end.
Fixpoint clock_within (s : string) : option (Z * Z) :=
  match clock_at s with
  | Some r => Some r
  | None => match s with EmptyString => None | String _ s' => clock_within s' end
  end.

(** [_format_usual_order_time]: the label of a usual hour and minute. *)
Definition usual_time_label (h m : Z) : string :=
  let part := if (5 <=? h) && (h <? 12) then "Mornings" else if (12 <=? h) && (h <? 17) then "Afternoons"
              else if (17 <=? h) && (h <? 21) then "Evenings" else "Late night" in
  let h12 := if h mod 12 =? 0 then 12 else h mod 12 in
  part +:+ " (~" +:+ pretty h12 +:+ ":" +:+ two_digits m +:+ " " +:+ (if h <? 12 then "AM" else "PM") +:+ ")".

(** ** Presets ([automations.py]) *)

Definition PRESET_KEYS : list string := ["welcome"; "winback"; "reorder"; "recurring"; "birthday"; "review_request"]%string.
Definition PRESET_DEFAULTS (key : string) : jobj :=
  if key =s "welcome" then [("delay_hours", JsInt 1)]%string
  else if key =s "recurring" then [("lead_minutes", JsInt 15)]%string
  else if key =s "winback" then [("lapsed_days", JsInt 60); ("cooldown_days", JsInt 60)]%string
  else if key =s "reorder" then [("lead_minutes", JsInt 15)]%string
  else if key =s "birthday" then [("discount_aed", JsInt 15); ("cooldown_days", JsInt 360)]%string
  else if key =s "review_request" then [("delay_hours", JsInt 2)]%string else [].

(** [out[k] = max(lo, min(hi, int(out.get(k, d))))]; [None]: [int] raises. *)
Definition clamp_key (k : string) (lo hi d : Z) (out : jobj) : option jobj :=
  n ← jint (default (JsInt d) (oget k out)); Some (oset k (JsInt (Z.max lo (Z.min hi n))) out).
Definition clamp_config (key : string) (config : jobj) : option jobj :=
  let out := omerge (PRESET_DEFAULTS key) config in
  if key =s "welcome" then clamp_key "delay_hours" 1 48 1 out
  else if (key =s "recurring") || (key =s "reorder") then clamp_key "lead_minutes" 5 120 15 out
  else if key =s "winback" then out ← clamp_key "lapsed_days" 30 180 60 out; clamp_key "cooldown_days" 30 180 60 out
  else if key =s "birthday" then out ← clamp_key "discount_aed" 5 100 15 out; clamp_key "cooldown_days" 300 400 360 out
  else if key =s "review_request" then clamp_key "delay_hours" 1 48 2 out
  else Some out.
(** [int(clamp_config(...)[k])] *)
Definition config_int (key k : string) (config : jobj) : MK Z :=
  match (out ← clamp_config key config; v ← oget k out; jint v) with Some n => mret n | None => raise BadConfig end.

Definition preset_row (restaurant_id : Z) (key : string) (a : MarketingAutomation) : bool :=
  (au_restaurant_id a =? restaurant_id) && (au_preset_key a =s key).
Definition _get_automation (restaurant_id : Z) (key : string) (s : marketing_db) : option MarketingAutomation :=
  first_where (preset_row restaurant_id key) (automations s).
Definition set_automation (a : MarketingAutomation) : MK unit := modify (λ s, with_automations (set_row a (automations s)) s).
Definition with_run (stats : jobj) (at_ : option Z) (a : MarketingAutomation) : MarketingAutomation :=
  {| au_id := au_id a; au_restaurant_id := au_restaurant_id a; au_preset_key := au_preset_key a; au_enabled := au_enabled a;
     au_template_id := au_template_id a; au_segment_id := au_segment_id a; au_config := au_config a; au_stats := stats;
     au_last_run_at := at_ |}.
(** The row as it is now; the ticks change it between their steps. *)
Definition change_automation (f : MarketingAutomation → MarketingAutomation) (id : Z) : MK unit :=
  found ← gets (λ s, get_row id (automations s));
  match found with Some a => set_automation (f a) | None => mret tt end.

Definition ensure_automation_presets (restaurant_id : Z) : MK unit :=
  known ← gets (λ s, au_preset_key <$> all_where (λ a, au_restaurant_id a =? restaurant_id) (automations s));
  for_each (λ key, modify (λ s, with_automations (add_row (Build_MarketingAutomation (next_id (automations s)) restaurant_id key false
    None None (PRESET_DEFAULTS key) [] None) (automations s)) s))
    (List.filter (λ key, negb (in_strs key known)) PRESET_KEYS).

Definition _automation_save_blocked (a : MarketingAutomation) (t : option WaTemplate) : bool :=
  au_enabled a && (bool_decide (au_template_id a = None)
                   || match t with Some t => negb (bool_decide (wt_status t = TplApproved)) | None => true end).
Record AutomationPatch := {
  ap_enabled : option bool; ap_template_id : option Z; ap_segment_id : option Z; ap_config : option jobj; ap_clear_segment : bool;
}.
Definition automation_json (a : MarketingAutomation) : jdict :=
  [("enabled", JBool (au_enabled a)); ("template_id", jopt_int (au_template_id a)); ("segment_id", jopt_int (au_segment_id a));
   ("config", JDict (json_text (JsObj (au_config a))) (Z.of_nat (length (au_config a))))]%string.
Definition patch_automation (restaurant_id : Z) (key : string) (p : AutomationPatch) : MK MarketingAutomation :=
  if negb (in_strs key PRESET_KEYS) then raise (UnknownPreset key) else
  ensure_automation_presets restaurant_id ≫= λ _,
  found ← gets (_get_automation restaurant_id key);
  match found with
  | None => raise MarketingIntegrityError
  | Some a =>
      template_id ← match ap_template_id p with
                    | Some t => the_template restaurant_id t ≫= λ _, mret (Some t)
                    | None => mret (au_template_id a)
                    end;
      segment_id ← (if ap_clear_segment p then mret None else
                    match ap_segment_id p with
                    | Some g => the_segment restaurant_id g ≫= λ _, mret (Some g)
                    | None => mret (au_segment_id a)
                    end);
      config ← match ap_config p with
               | Some c => match clamp_config key c with Some c => mret c | None => raise BadConfig end
               | None => mret (au_config a)
               end;
      let a' := {| au_id := au_id a; au_restaurant_id := au_restaurant_id a; au_preset_key := au_preset_key a;
        au_enabled := default (au_enabled a) (ap_enabled p); au_template_id := template_id; au_segment_id := segment_id;
        au_config := config; au_stats := au_stats a; au_last_run_at := au_last_run_at a |} in
      set_automation a' ≫= λ _,
      t ← gets (λ s, match template_id with Some t => get_row t (templates s) | None => None end);
      if _automation_save_blocked a' t then raise AutomationBlocked else
      _ ← audit "manager" restaurant_id "automation" key
        (if bool_decide (ap_enabled p = Some true) then "enabled" else "updated") (Some (automation_json a)) (Some (automation_json a'));
      mret a'
  end.
Definition update_automation (restaurant_id : Z) (key : string) (p : AutomationPatch) : MK MarketingAutomation :=
  atomically (try_except (patch_automation restaurant_id key p) (λ e, raise
    match e with UnknownPreset _ | TemplateMissing _ | SegmentMissing _ | AutomationBlocked | BadConfig => MarketingHTTP 422 | _ => e end)).

(** The ledger of the automations: one row per automation and customer. *)
Definition record_automation_send (restaurant_id automation_id customer_id : Z) (campaign_id : option Z) (sent_at : Z) : MK bool :=
  found ← gets (λ s, first_where (λ r, (as_automation_id r =? automation_id) && (as_customer_id r =? customer_id)) (automation_sends s));
  match found with
  | Some _ => mret false
  | None =>
      modify (λ s, with_automation_sends (add_row (Build_MarketingAutomationSend (next_id (automation_sends s)) restaurant_id automation_id
        customer_id sent_at campaign_id) (automation_sends s)) s) ≫= λ _,
      mret true
  end.

(** [summary] is a totals dict of some of the counters. *)
Definition add_count (k : string) (summary stats : jobj) : option jobj :=
  match oget k summary with
  | Some n => n ← jint n; old ← jint (default (JsInt 0) (oget k stats)); Some (oset k (JsInt (old + n)) stats)
  | None => Some stats
  end.
Definition bumped_stats (summary stats : jobj) : option jobj :=
  stats ← add_count "queued" summary stats;
  stats ← add_count "suppressed_cap" summary stats;
  stats ← add_count "suppressed_optout" summary stats;
  stats ← add_count "suppressed_window" summary stats;
  Some (oset "last_queued" (default (JsInt 0) (oget "queued" summary)) stats).
Definition _bump_automation_stats (automation_id : Z) (summary : jobj) : MK unit :=
  found ← gets (λ s, get_row automation_id (automations s));
  match found with
  | Some a => match bumped_stats summary (au_stats a) with
              | Some stats => set_automation (with_run stats (au_last_run_at a) a)
              | None => raise BadConfig
              end
  | None => mret tt
  end.
Definition ran_at (now automation_id : Z) : MK unit := change_automation (λ a, with_run (au_stats a) (Some now) a) automation_id.

(** The day's campaign of a type, made when there is none; a new template replaces its. *)
Definition day_campaign (type : string) (restaurant_id day_anchor : Z) (c : Campaign) : bool :=
  (ca_restaurant_id c =? restaurant_id) && (ca_type c =s type) && bool_decide (ca_scheduled_at c = Some day_anchor).
Definition newest_campaign (l : list Campaign) : option Campaign := head (sort_by (λ a b, ca_id b <=? ca_id a) l).
Definition with_template (template_id : Z) (c : Campaign) : Campaign :=
  {| ca_id := ca_id c; ca_restaurant_id := ca_restaurant_id c; ca_type := ca_type c; ca_template_id := Some template_id;
     ca_segment_id := ca_segment_id c; ca_image_url := ca_image_url c; ca_coupon_value := ca_coupon_value c;
     ca_scheduled_at := ca_scheduled_at c; ca_status := ca_status c; ca_stats := ca_stats c |}.
Definition ensure_day_campaign (type : string) (restaurant_id template_id day_anchor : Z) : MK Campaign :=
  existing ← gets (λ s, newest_campaign (all_where (day_campaign type restaurant_id day_anchor) (campaigns s)));
  match existing with
  | Some c =>
      if bool_decide (ca_template_id c = Some template_id) then mret c else
      set_campaign (with_template template_id c) ≫= λ _, mret (with_template template_id c)
  | None =>
      c ← create_campaign restaurant_id type (Some template_id) None None None (Some day_anchor);
      let c := with_campaign CampSending (ca_stats c) (ca_scheduled_at c) c in
      set_campaign c ≫= λ _, mret c
  end.
Definition ensure_todays_special_campaign : Z → Z → Z → MK Campaign := ensure_day_campaign "todays_special".
Definition ensure_recurring_campaign : Z → Z → Z → MK Campaign := ensure_day_campaign "recurring".

(** The first approved template of the restaurant: the configured one, then the fallback. *)
Definition special_template (restaurant_id : Z) (v : option json) (s : marketing_db) : option WaTemplate :=
  tid ← v; if negb (jtruthy tid) then None else
  n ← is_integer tid; t ← get_row n (templates s);
  if (wt_restaurant_id t =? restaurant_id) && bool_decide (wt_status t = TplApproved) then Some t else None.
Definition resolve_todays_special_template (restaurant_id : Z) (cfg : jobj) (s : marketing_db) : option (WaTemplate * string) :=
  match special_template restaurant_id (oget "template_id" cfg) s with
  | Some t => Some (t, "primary"%string)
  | None => t ← special_template restaurant_id (oget "fallback_template_id" cfg) s; Some (t, "fallback"%string)
  end.

Section ticks.
(** The parameters of a send ([Marketing]). *)
Context (tokens : Z → nat → string) (window_on : bool).
Context (float_days : Q → Z) (bound : column → json → option Q) (bound_text : json → option string).
(** [_weighted_circular_stats] of the minutes and ages of some orders, with the mean rounded
    to a minute: sines, cosines and powers. *)
Context (circular : list (Z * Z) → option (Z * Q)).

Definition predict_from_stamps (stamps : list OrderStamp) (wd : option Z) : option OrderTimePrediction :=
  let chosen := List.filter (λ o, match wd with Some w => os_weekday o =? w | None => true end) stamps in
  if bool_decide (chosen = []) then None else
  '(m, r) ← circular ((λ o, (os_minute o, os_age o)) <$> chosen);
  Some {| minute_of_day := m; order_count := Z.of_nat (length chosen); concentration := r |}.
Definition predict_order_time (customer_id : Z) (wd : option Z) (s : marketing_db) : option OrderTimePrediction :=
  predict_from_stamps (_order_stamps_dubai customer_id (mk_now s) s) wd.

Definition _usual_send_hhmm (customer_id : Z) (wd : option Z) (s : marketing_db) : string :=
  let pred := predict_order_time customer_id wd s in
  let threshold := match wd with Some _ => MIN_ORDERS_WEEKDAY | None => MIN_ORDERS end in
  let p := patron_of customer_id s in
  let stored := match wd with Some w => habit_for_weekday (pt_usual_order_times p) w | None => None end in
  match (if is_personalized pred threshold then pred else if is_personalized stored MIN_ORDERS_WEEKDAY then stored else None) with
  | Some h => _minute_to_hhmm (minute_of_day h)
  | None =>
      match clock_within (default "" (pt_usual_order_time p)) with
      | Some (h, m) => two_digits h +:+ ":" +:+ two_digits m
      | None => "11:45"
      end
  end.
Definition _refresh_usual_send_hhmm (customer_id wd : Z) (s : marketing_db) : string :=
  let stored := habit_for_weekday (pt_usual_order_times (patron_of customer_id s)) wd in
  let pred := predict_order_time customer_id (Some wd) s in
  match (if is_personalized stored MIN_ORDERS_WEEKDAY then stored else if is_personalized pred MIN_ORDERS_WEEKDAY then pred else None) with
  | Some h => _minute_to_hhmm (minute_of_day h)
  | None => _usual_send_hhmm customer_id (Some wd) s
  end.

(** ** The recurring promotion: three days after an order, then weekly *)

Definition with_plan (at_ : Z) (phase : string) (wd : Z) (hhmm : string) (r : RecurringMessageState) : RecurringMessageState :=
  {| rm_id := rm_id r; rm_restaurant_id := rm_restaurant_id r; rm_customer_id := rm_customer_id r; rm_next_send_at := at_;
     rm_suppressed_until := rm_suppressed_until r; rm_phase := phase; rm_weekday := wd; rm_usual_send_local_time := hhmm |}.
Definition set_recurring (r : RecurringMessageState) : MK unit := modify (λ s, with_recurring_states (set_row r (recurring_states s)) s).
Definition upsert_recurring_state (restaurant_id customer_id delivered_at lead : Z) : MK unit :=
  let wd := weekday (dubai_date delivered_at) in
  hhmm ← gets (_usual_send_hhmm customer_id (Some wd));
  let at_ := _utc_from_local (dubai_date delivered_at + 3) (parse_hhmm (Some hhmm) _DEFAULT_SPECIAL_MINUTE - lead) in
  found ← gets (λ s, first_where (λ r, (rm_restaurant_id r =? restaurant_id) && (rm_customer_id r =? customer_id)) (recurring_states s));
  match found with
  | Some r => set_recurring (with_plan at_ "day3" wd hhmm r)
  | None => modify (λ s, with_recurring_states (add_row (Build_RecurringMessageState (next_id (recurring_states s)) restaurant_id
              customer_id at_ None "day3" wd hhmm) (recurring_states s)) s)
  end.
(** The days from a weekday to the next one of that name; a week when it is today. *)
Definition days_ahead (wd today : Z) : Z := let d := (wd - today) mod 7 in if d =? 0 then 7 else d.
Definition advanced (hhmm : string) (lead now : Z) (r : RecurringMessageState) : RecurringMessageState :=
  let send_minute := parse_hhmm (Some hhmm) _DEFAULT_SPECIAL_MINUTE - lead in
  if rm_phase r =s "day3"
  then with_plan (_utc_from_local (dubai_date now + days_ahead (rm_weekday r) (weekday (dubai_date now))) send_minute) "weekly"
         (rm_weekday r) hhmm r
  else with_plan (_utc_from_local (dubai_date (rm_next_send_at r) + 7) send_minute) (rm_phase r) (rm_weekday r) hhmm r.
Definition advance_recurring_state (r : RecurringMessageState) (lead now : Z) : MK unit :=
  known ← gets (λ s, get_row (rm_customer_id r) (members (mk_loyalty s)));
  hhmm ← (if (rm_phase r =s "weekly") && negb (bool_decide (known = None))
          then gets (_refresh_usual_send_hhmm (rm_customer_id r) (rm_weekday r))
          else mret (rm_usual_send_local_time r));
  set_recurring (advanced hhmm lead now r).

Definition _customer_in_automation_segment (a : MarketingAutomation) (customer_id : Z) : MK bool :=
  match au_segment_id a with
  | None => mret true
  | Some g =>
      found ← gets (λ s, get_row g (segments s));
      match found with
      | None => mret false
      | Some seg =>
          ids ← evaluate_segment float_days bound bound_text (au_restaurant_id a) (definition seg);
          mret (existsb (Z.eqb customer_id) ids)
      end
  end.
Definition filter_automation_audience (restaurant_id : Z) (a : MarketingAutomation) (ids : list Z) : MK (list Z) :=
  match ids, au_segment_id a with
  | [], _ => mret []
  | _, None => mret ids
  | _, Some g =>
      found ← gets (λ s, get_row g (segments s));
      match found with
      | None => mret []
      | Some seg =>
          seg_ids ← evaluate_segment float_days bound bound_text restaurant_id (definition seg);
          mret (List.filter (λ i, existsb (Z.eqb i) seg_ids) ids)
      end
  end.
(** An enabled preset with an approved template. *)
Definition approved_template (id : option Z) (s : marketing_db) : option WaTemplate :=
  i ← id; t ← get_row i (templates s); if bool_decide (wt_status t = TplApproved) then Some t else None.

(** ** After a delivery *)

Definition welcome_campaign (restaurant_id customer_id : Z) : MK unit :=
  found ← gets (_get_automation restaurant_id "welcome");
  match found with
  | None => mret tt
  | Some a =>
      if negb (au_enabled a) then mret tt else
      t ← gets (approved_template (au_template_id a));
      n ← gets (λ s, total_orders (figures_of customer_id s));
      if bool_decide (t = None) || negb (n =? 1) then mret tt else
      inside ← _customer_in_automation_segment a customer_id;
      if negb inside then mret tt else
      told ← gets (λ s, first_where (λ r, (as_automation_id r =? au_id a) && (as_customer_id r =? customer_id)) (automation_sends s));
      match told with
      | Some _ => mret tt
      | None =>
          delay ← config_int "welcome" "delay_hours" (au_config a);
          now ← gets mk_now;
          c ← create_campaign restaurant_id "automation" (au_template_id a) (au_segment_id a) None None (Some (now + hours delay));
          set_campaign (with_campaign (ca_status c) [("audience_ids", JsArr [JsInt customer_id]); ("automation_id", JsInt (au_id a));
            ("preset_key", JsStr "welcome")]%string (ca_scheduled_at c) c)
      end
  end.
Definition delivered_time (order_id : Z) (s : marketing_db) : option Z :=
  snd <$> List.find (λ d, fst d =? order_id) (delivered_times s).
Definition on_order_delivered (order : OrderFsm.Order) : MK unit :=
  known ← gets (λ s, get_row (o_customer_id order) (members (mk_loyalty s)));
  match known with
  | None => mret tt
  | Some _ =>
      delivered_at ← gets (λ s, default (mk_now s) (delivered_time (o_id order) s));
      welcome_campaign (o_restaurant_id order) (o_customer_id order) ≫= λ _,
      found ← gets (_get_automation (o_restaurant_id order) "recurring");
      match found with
      | Some a =>
          if au_enabled a then
            lead ← config_int "recurring" "lead_minutes" (au_config a);
            upsert_recurring_state (o_restaurant_id order) (o_customer_id order) delivered_at lead
          else mret tt
      | None => mret tt
      end
  end.

(** ** The daily special *)

Record special_totals := { st_queued : Z; st_suppressed : Z; st_restaurants : list Z }.
(** What a restaurant's configuration says: the lead, its own window, the default minute. *)
Definition special_lead (cfg : jobj) : option Z := jint (default (JsInt DEFAULT_LEAD_MINUTES) (oget "lead_minutes" cfg)).
Definition special_window (cfg : jobj) : option (Z * Z) :=
  let get k := default JsNull (oget k cfg) in
  if jtruthy (get "window_start"%string) && jtruthy (get "window_end"%string)
  then Some (parse_hhmm (text_of (oget "window_start" cfg)) _DEFAULT_SPECIAL_MINUTE,
             parse_hhmm (text_of (oget "window_end" cfg)) _DEFAULT_SPECIAL_MINUTE)
  else None.
Definition special_default (cfg : jobj) : Z :=
  match special_window cfg with
  | Some w => w.1
  | None => parse_hhmm (text_of (oget "default_time" cfg)) _DEFAULT_SPECIAL_MINUTE
  end.

Definition tally_special (o : send_outcome) (u : Z * Z) : Z * Z :=
  match o with SendQueued => (u.1 + 1, u.2) | SendSuppressed _ => (u.1, u.2 + 1) | SendDuplicate => u end.
Definition special_customer (cfg : jobj) (lead now : Z) (camp : Campaign) (t : WaTemplate) (done : list Z) (cust : Member) (u : Z * Z)
    : MK (Z * Z) :=
  if existsb (Z.eqb (mb_id cust)) done then mret u else
  pred ← gets (predict_order_time (mb_id cust) (Some (weekday (dubai_date now))));
  let desired := desired_send_minute pred lead (special_default cfg) window_on (special_window cfg) MIN_ORDERS_WEEKDAY in
  if negb (is_due desired (dubai_minute now) DEFAULT_MAX_LATE_MINUTES) then mret u else
  o ← _send_to_customer tokens camp t cust now (within_window window_on now);
  mret (tally_special o u).
Definition special_restaurant (now : Z) (r : Tenant) (u : special_totals) : MK special_totals :=
  let cfg := default [] (tn_todays_special r) in
  if negb (jtruthy (default JsNull (oget "enabled" cfg))) then mret u else
  found ← gets (resolve_todays_special_template (tn_id r) cfg);
  match found with
  | None => mret u
  | Some (t, source) =>
      match special_lead cfg with
      | None => raise BadConfig
      | Some lead =>
          camp ← ensure_todays_special_campaign (tn_id r) (wt_id t) (dubai_midnight now);
          let camp := with_campaign (ca_status camp) (omerge (ca_stats camp) [("template_source", JsStr source)]%string)
                        (ca_scheduled_at camp) camp in
          set_campaign camp ≫= λ _,
          done ← gets (λ s, sn_customer_id <$> all_where (λ m, sn_campaign_id m =? ca_id camp) (sends s));
          customers ← gets (customers_of (tn_id r));
          here ← for_fold (special_customer cfg lead now camp t done) customers (0, 0);
          mret {| st_queued := st_queued u + here.1; st_suppressed := st_suppressed u + here.2;
                  st_restaurants := if here.1 =? 0 then st_restaurants u else st_restaurants u ++ [tn_id r] |}
      end
  end.
Definition run_todays_special_tick (now : Z) : MK special_totals :=
  rs ← gets (λ s, rows (tenants s));
  for_fold (special_restaurant now) rs {| st_queued := 0; st_suppressed := 0; st_restaurants := [] |}.
(** The secured endpoint: committed, then each restaurant's queue is flushed. *)
Definition todays_special_tick (send : nat → sent_message → send_result) (configured given : string) : MK special_totals :=
  if negb (truthy configured) then raise (MarketingHTTP 503) else
  if negb (given =s configured) then raise (MarketingHTTP 403) else
  now ← gets mk_now;
  u ← atomically (run_todays_special_tick now);
  for_each (λ r, in_queue (deliver_pending send r)) (st_restaurants u) ≫= λ _,
  mret u.

(** ** The recurring tick *)

Definition due_recurring (now : Z) (r : RecurringMessageState) : bool :=
  (rm_next_send_at r <=? now) && match rm_suppressed_until r with Some t => t <=? now | None => true end.
Definition recurring_one (now : Z) (r : RecurringMessageState) (u : Z * Z) : MK (Z * Z) :=
  found ← gets (_get_automation (rm_restaurant_id r) "recurring");
  match found with
  | None => mret u
  | Some a =>
      if negb (au_enabled a) then mret u else
      tpl ← gets (approved_template (au_template_id a));
      match tpl with
      | None => mret u
      | Some t =>
          inside ← _customer_in_automation_segment a (rm_customer_id r);
          if negb inside then mret u else
          known ← gets (λ s, get_row (rm_customer_id r) (members (mk_loyalty s)));
          match known with
          | None => mret u
          | Some cust =>
              camp ← ensure_recurring_campaign (rm_restaurant_id r) (wt_id t) (dubai_midnight now);
              o ← _send_to_customer tokens camp t cust now (within_window window_on now);
              match o with
              | SendQueued =>
                  record_automation_send (rm_restaurant_id r) (au_id a) (mb_id cust) (Some (ca_id camp)) now ≫= λ _,
                  lead ← config_int "recurring" "lead_minutes" (au_config a);
                  advance_recurring_state r lead now ≫= λ _,
                  _bump_automation_stats (au_id a) [("queued", JsInt 1)]%string ≫= λ _,
                  ran_at now (au_id a) ≫= λ _,
                  mret (u.1 + 1, u.2)
              | SendSuppressed reason =>
                  _bump_automation_stats (au_id a) [(reason_str reason, JsInt 1)] ≫= λ _, mret (u.1, u.2 + 1)
              | SendDuplicate => mret u
              end
          end
      end
  end.
Definition run_recurring_promo_tick (now : Z) : MK (Z * Z) :=
  due ← gets (λ s, all_where (due_recurring now) (recurring_states s));
  for_fold (recurring_one now) due (0, 0).

(** ** The automation tick *)

(** The enabled rows of a preset, in every restaurant. *)
Definition enabled_presets (key : string) (s : marketing_db) : list MarketingAutomation :=
  all_where (λ a, (au_preset_key a =s key) && au_enabled a) (automations s).
Definition with_automation_stats (type : string) (stats : jobj) (c : Campaign) : Campaign :=
  {| ca_id := ca_id c; ca_restaurant_id := ca_restaurant_id c; ca_type := type; ca_template_id := ca_template_id c;
     ca_segment_id := ca_segment_id c; ca_image_url := ca_image_url c; ca_coupon_value := ca_coupon_value c;
     ca_scheduled_at := ca_scheduled_at c; ca_status := ca_status c; ca_stats := stats |}.

Definition reorder_customer (a : MarketingAutomation) (t : WaTemplate) (camp : Campaign) (lead now : Z) (cust : Member) : MK unit :=
  inside ← _customer_in_automation_segment a (mb_id cust);
  if negb inside then mret tt else
  let today := weekday (dubai_date now) in
  pred ← gets (predict_order_time (mb_id cust) (Some today));
  if negb (is_personalized pred MIN_ORDERS_WEEKDAY) then mret tt else
  dom ← gets (_dominant_order_weekday (mb_id cust));
  if negb (bool_decide (dom = Some today)) then mret tt else
  let desired := desired_send_minute pred lead _DEFAULT_SPECIAL_MINUTE false None MIN_ORDERS_WEEKDAY in
  if negb (is_due desired (dubai_minute now) DEFAULT_MAX_LATE_MINUTES) then mret tt else
  o ← _send_to_customer tokens camp t cust now (within_window window_on now);
  match o with
  | SendQueued => _bump_automation_stats (au_id a) [("queued", JsInt 1)]%string
  | SendSuppressed reason => _bump_automation_stats (au_id a) [(reason_str reason, JsInt 1)]
  | SendDuplicate => mret tt
  end.
Definition reorder_one (now : Z) (a : MarketingAutomation) : MK unit :=
  tpl ← gets (approved_template (au_template_id a));
  match tpl with
  | None => mret tt
  | Some t =>
      lead ← config_int "reorder" "lead_minutes" (au_config a);
      customers ← gets (customers_of (au_restaurant_id a));
      camp ← ensure_recurring_campaign (au_restaurant_id a) (wt_id t) (dubai_midnight now);
      let camp := with_automation_stats "automation"
        (omerge (ca_stats camp) [("preset_key", JsStr "reorder"); ("automation_id", JsInt (au_id a))]%string) camp in
      set_campaign camp ≫= λ _,
      for_each (reorder_customer a t camp lead now) customers ≫= λ _,
      ran_at now (au_id a)
  end.

(** Ran already on this day of Dubai, or later. *)
Definition ran_today (now : Z) (a : MarketingAutomation) : bool :=
  match au_last_run_at a with Some t => dubai_date now <=? dubai_date t | None => false end.
(** A campaign to these customers, sent at once. *)
Definition automation_campaign (a : MarketingAutomation) (key : string) (ids : list Z) (now : Z) : MK (Campaign * send_summary) :=
  c ← create_campaign (au_restaurant_id a) "automation" (au_template_id a) (au_segment_id a) None None None;
  let c := with_campaign CampSending [("audience_ids", JsArr (JsInt <$> ids)); ("automation_id", JsInt (au_id a));
             ("preset_key", JsStr key)]%string (ca_scheduled_at c) c in
  set_campaign c ≫= λ _,
  u ← run_campaign_send tokens window_on float_days bound bound_text c now (Some ids);
  mret (c, u).
Definition record_all (a : MarketingAutomation) (c : Campaign) (now : Z) (ids : list Z) : MK unit :=
  for_each (λ cid, record_automation_send (au_restaurant_id a) (au_id a) cid (Some (ca_id c)) now ≫= λ _, mret tt) ids.

Definition winback_customer_ids (a : MarketingAutomation) (now : Z) : MK (list Z) :=
  lapsed ← config_int "winback" "lapsed_days" (au_config a);
  cooldown ← config_int "winback" "cooldown_days" (au_config a);
  let dsl := JsObj [("all", JsArr [JsObj [("field", JsStr "last_order_days_ago"); ("op", JsStr "gt"); ("value", JsInt lapsed)]])]%string in
  ids ← evaluate_segment float_days bound bound_text (au_restaurant_id a) dsl;
  recent ← gets (λ s, as_customer_id <$> all_where (λ r, (as_automation_id r =? au_id a) && (now - days cooldown <=? as_sent_at r))
    (automation_sends s));
  filter_automation_audience (au_restaurant_id a) a (List.filter (λ i, negb (existsb (Z.eqb i) recent)) ids).
Definition winback_one (now : Z) (a : MarketingAutomation) : MK unit :=
  if bool_decide (au_template_id a = None) || ran_today now a then mret tt else
  tpl ← gets (approved_template (au_template_id a));
  match tpl with
  | None => mret tt
  | Some _ =>
      ids ← winback_customer_ids a now;
      if bool_decide (ids = []) then ran_at now (au_id a) else
      '(c, u) ← automation_campaign a "winback" ids now;
      told ← gets (λ s, sn_customer_id <$> all_where (λ m, (sn_campaign_id m =? ca_id c) && (sn_status m =s "sent")) (sends s));
      record_all a c now told ≫= λ _,
      _bump_automation_stats (au_id a) (summary_obj u) ≫= λ _,
      ran_at now (au_id a)
  end.

(** The month and the day of a day number. *)
Definition month_day (d : Z) : Z * Z := let '(_, m, dd) := civil d in (m, dd).
Definition birthday_customer_ids (restaurant_id : Z) (s : marketing_db) : list Z :=
  mb_id <$> List.filter (λ m, match pt_birthday (patron_of (mb_id m) s) with
                              | Some b => bool_decide (month_day b = month_day (date_of (mk_now s)))
                              | None => false
                              end) (customers_of restaurant_id s).
Definition birthday_coupon (a : MarketingAutomation) (cid : Z) : MK unit :=
  amount ← config_int "birthday" "discount_aed" (au_config a);
  try_except
    (n ← gets (λ s, next_id (coupons (lo_coupons (mk_loyalty s))));
     in_coupons (issue_coupon (tokens n) (au_restaurant_id a) cid None (100 * amount) DEFAULT_VALIDITY_DAYS) ≫= λ _, mret tt)
    (λ _, mret tt).
Definition birthday_one (now : Z) (a : MarketingAutomation) : MK unit :=
  if bool_decide (au_template_id a = None) || ran_today now a then mret tt else
  tpl ← gets (approved_template (au_template_id a));
  match tpl with
  | None => mret tt
  | Some _ =>
      ids ← gets (birthday_customer_ids (au_restaurant_id a));
      if bool_decide (ids = []) then ran_at now (au_id a) else
      '(c, u) ← automation_campaign a "birthday" ids now;
      for_each (λ cid, birthday_coupon a cid ≫= λ _, record_all a c now [cid]) ids ≫= λ _,
      _bump_automation_stats (au_id a) (summary_obj u) ≫= λ _,
      ran_at now (au_id a)
  end.

(** Orders delivered between the delay and two hours more ago, without an answer. *)
Definition review_request_customer_order_ids (a : MarketingAutomation) : MK (list (Z * Z)) :=
  delay ← config_int "review_request" "delay_hours" (au_config a);
  gets (λ s, let now := mk_now s in
    (λ o, (o_customer_id o, o_id o)) <$> all_where (λ o,
      (o_restaurant_id o =? au_restaurant_id a) && bool_decide (o_status o = DELIVERED)
      && match delivered_time (o_id o) s with
         | Some t => (now - hours (delay + 2) <=? t) && (t <=? now - hours delay)
         | None => false
         end
      && negb (existsb (Z.eqb (o_id o)) (nps_orders s)) && negb (o_customer_id o =? 0)) (orders_in s)).
Definition review_one (now : Z) (a : MarketingAutomation) : MK unit :=
  tpl ← gets (approved_template (au_template_id a));
  match tpl with
  | None => mret tt
  | Some _ =>
      pairs ← review_request_customer_order_ids a;
      if bool_decide (pairs = []) then mret tt else
      (* the set of the customers, in no particular order *)
      let ids := remove_dups (fst <$> pairs) in
      '(c, u) ← automation_campaign a "review_request" ids now;
      record_all a c now ids ≫= λ _,
      _bump_automation_stats (au_id a) (summary_obj u) ≫= λ _,
      ran_at now (au_id a)
  end.

Definition each_preset (key : string) (f : MarketingAutomation → MK unit) : MK unit :=
  l ← gets (enabled_presets key); for_each f l.
Definition run_automation_tick (now : Z) : MK unit :=
  each_preset "reorder" (reorder_one now) ≫= λ _,
  each_preset "winback" (winback_one now) ≫= λ _,
  each_preset "birthday" (birthday_one now) ≫= λ _,
  each_preset "review_request" (review_one now).

(** The tasks: committed, or rolled back and logged. *)
Definition task {A} (m : MK A) : MK unit := try_except (atomically (m ≫= λ _, mret tt)) (λ _, mret tt).
Definition _automation_tick : MK unit := now ← gets mk_now; task (run_automation_tick now).
Definition _recurring_promo_tick : MK unit := now ← gets mk_now; task (run_recurring_promo_tick now).
End ticks.
