(* ===== verification/MarketingFacts.v ===== *)
(** * Facts about marketing

    What the sends keep over every history of the marketing requests and tasks: the
    frequency cap, the silence towards who opted out, one send per campaign and customer.
    [walk] carries an invariant of the opt-outs, the ledger, the queue and the clock
    through every operation, from the one place that sends. *)

From S2P Require Import Prelude Money Strings Decimals Db AuditTrail Clock Coupons OrderFsm Outbox OutboxFacts Notify Loyalty MarketingDb Segments Marketing Templates Automations.

(** ** Histories *)

Inductive marketing_event :=
| EvInbound (restaurant_id : Z) (phone text wa_message_id : string) (cancels : bool)
| EvPreference (restaurant_id : Z) (phone : string) (opted_in : bool)
| EvSegment (restaurant_id : Z) (name : string) (dsl : json) (english : option string)
| EvDropSegment (restaurant_id segment_id : Z)
| EvCampaign (restaurant_id : Z) (type : string) (template_id segment_id : option Z) (image_url coupon_value : option string)
    (scheduled_at : option Z)
| EvBroadcast (restaurant_id : Z) (body : BroadcastRequest)
| EvCancel (restaurant_id campaign_id : Z)
| EvMove (restaurant_id campaign_id scheduled_at : Z)
| EvTemplate (provider : template_provider) (r : template_request)
| EvPatch (restaurant_id : Z) (key : string) (p : AutomationPatch)
| EvDelivered (order : OrderFsm.Order)
| EvDispatch
| EvSpecial (configured given : string)
| EvAutomation
| EvRecurring
| EvTime (d : Z).

(** The clock of the session, which every part of it reads. *)
Definition at_time (now : Z) (s : marketing_db) : marketing_db :=
  let l := mk_loyalty s in
  let c := lo_coupons l in
  let n := lo_notify l in
  let o := notify_outbox n in
  put (Build_loyalty_db (members l) (stamp_cards l) (point_entries l) (referral_codes l) (favorites l) (eaten_lines l) (venues l)
    (lo_fsm l) (lo_wallet l) (Build_coupon_db (coupons c) (redemptions c) (coupon_audit c) now)
    (Build_notify_db (conversations n) (chat_messages n)
       (Build_outbox_db (messages o) (mirrored o) (provider_calls o) (text_menus o) now)) (lo_audit l) now) s.

Section history.
Context (tokens : Z → nat → string) (window_on : bool).
Context (float_days : Q → Z) (bound : column → json → option Q) (bound_text : json → option string).
Context (circular : list (Z * Z) → option (Z * Q)) (send : nat → sent_message → send_result).

Definition run_event (e : marketing_event) : MK unit :=
  let ignore {A} (m : MK A) : MK unit := m ≫= λ _, mret tt in
  match e with
  | EvInbound rid phone text wa cancels => ignore (opt_out_inbound rid phone text wa cancels)
  | EvPreference rid phone true => record_opt_in rid phone
  | EvPreference rid phone false => ignore (record_opt_out rid phone "manager_dashboard")
  | EvSegment rid name dsl english => ignore (atomically (create_segment float_days bound bound_text rid name dsl english))
  | EvDropSegment rid g => atomically (delete_segment rid g)
  | EvCampaign rid type t g img coupon at_ => ignore (post_campaign rid type t g img coupon at_)
  | EvBroadcast rid body => ignore (broadcast_now tokens window_on float_days bound bound_text send rid body)
  | EvCancel rid c => ignore (delete_scheduled_campaign rid c)
  | EvMove rid c at_ => ignore (patch_campaign_schedule window_on rid c at_)
  | EvTemplate provider r => run_template_request provider r
  | EvPatch rid key p => ignore (update_automation rid key p)
  | EvDelivered o => try_except (on_order_delivered float_days bound bound_text circular o) (λ _, mret tt)
  | EvDispatch => _dispatch_scheduled tokens window_on float_days bound bound_text
  | EvSpecial configured given => ignore (todays_special_tick tokens window_on circular send configured given)
  | EvAutomation => _automation_tick tokens window_on float_days bound bound_text circular
  | EvRecurring => _recurring_promo_tick tokens window_on float_days bound bound_text circular
  | EvTime d => modify (λ s, at_time (mk_now s + Z.max 0 d) s)
  end.
Definition marketing_history (l : list marketing_event) (s : marketing_db) : marketing_db :=
  fold_left (λ s e, final (run_event e s)) l s.
End history.

(** ** Walking through the operations *)

(** What the invariants below are about. *)
Definition core (s : marketing_db) := (opt_outs s, sends s, messages (queue_of s), mk_now s).
Definition quiet {A} (m : MK A) : Prop := ∀ c, preserves (λ s, core s = c) m.

Lemma quiet_ret {A} (a : A) : quiet (mret a).
Proof. intros c. apply preserves_ret. Qed.
Lemma quiet_raise {A} e : quiet (raise (A := A) e).
Proof. intros c. apply preserves_raise. Qed.
Lemma quiet_gets {A} (f : marketing_db → A) : quiet (gets f).
Proof. intros c. apply preserves_gets. Qed.
Lemma quiet_change f : (∀ s, core (f s) = core s) → quiet (modify f).
Proof. intros Hf c. apply preserves_modify. intros s <-. apply Hf. Qed.
Lemma quiet_bind {A B} (m : MK A) (f : A → MK B) : quiet m → (∀ a, quiet (f a)) → quiet (m ≫= f).
Proof. intros Hm Hf c. apply preserves_bind; [apply Hm|intros a; apply Hf]. Qed.
Lemma quiet_atomically {A} (m : MK A) : quiet m → quiet (atomically m).
Proof. intros Hm c. apply preserves_atomically, Hm. Qed.
Lemma quiet_try {A} (m : MK A) h : quiet m → (∀ e, quiet (h e)) → quiet (try_except m h).
Proof. intros Hm Hh c. apply preserves_try; [apply Hm|intros e; apply Hh]. Qed.
Lemma quiet_for_each {A} (f : A → MK unit) l : (∀ a, quiet (f a)) → quiet (for_each f l).
Proof. intros Hf c. apply preserves_for_each. intros a _. apply Hf. Qed.
Lemma quiet_for_fold {A B} (f : A → B → MK B) l : (∀ a b, quiet (f a b)) → ∀ b, quiet (for_fold f l b).
Proof.
  intros Hf. induction l as [|x l IH]; intros b; cbn; [apply quiet_ret|]. apply quiet_bind; [apply Hf|]. intros b'. apply IH.
Qed.
Lemma marketing_quiet_audit actor rid entity eid action b a : quiet (audit actor rid entity eid action b a).
Proof. by intros c s. Qed.
Lemma quiet_record_audit st actor entity eid action rid b a st' : quiet (record_audit st actor entity eid action rid b a st').
Proof. by intros c s. Qed.
Lemma quiet_coupons {A} (m : CM A) : quiet (in_coupons m).
Proof. intros c s Hs. unfold in_coupons, zoom. by destruct (m _). Qed.

Ltac quietly :=
  repeat first
    [ solve [auto 2 with quiet_ops]
    | apply quiet_ret | apply quiet_raise | apply quiet_gets | apply marketing_quiet_audit | apply quiet_record_audit | apply quiet_coupons
    | (apply quiet_change; by intros)
    | apply quiet_bind; [|intros ?] | apply quiet_atomically | apply quiet_try; [|intros ?] | (apply quiet_for_each; intros ?)
    | match goal with
      | |- quiet (let x := ?y in _) => cbv zeta
      | |- quiet (if ?b then _ else _) => destruct b
      | |- quiet (match ?x with _ => _ end) => destruct x
      end ].
Create HintDb quiet_ops discriminated.

Section quiet_operations.
Context (tokens : Z → nat → string) (window_on : bool).
Context (float_days : Q → Z) (bound : column → json → option Q) (bound_text : json → option string).
Context (circular : list (Z * Z) → option (Z * Q)).

Lemma quiet_evaluate rid dsl : quiet (evaluate_segment float_days bound bound_text rid dsl).
Proof. unfold evaluate_segment, raise_segment. quietly. Qed.
Lemma quiet_the_segment rid g : quiet (the_segment rid g).
Proof. unfold the_segment. quietly. Qed.
Lemma quiet_the_template rid t : quiet (the_template rid t).
Proof. unfold the_template. quietly. Qed.
#[local] Hint Resolve quiet_evaluate quiet_the_segment quiet_the_template : quiet_ops.
Lemma quiet_create_segment rid name dsl english : quiet (create_segment float_days bound bound_text rid name dsl english).
Proof. unfold create_segment, preview_count. quietly. Qed.
Lemma quiet_delete_segment rid g : quiet (delete_segment rid g).
Proof. unfold delete_segment. quietly. Qed.
Lemma quiet_create_campaign rid type t g img coupon at_ : quiet (create_campaign rid type t g img coupon at_).
Proof. unfold create_campaign. quietly. Qed.
Lemma quiet_set_campaign c : quiet (set_campaign c).
Proof. unfold set_campaign. quietly. Qed.
Lemma quiet_own_campaign rid c : quiet (own_campaign rid c).
Proof. unfold own_campaign. quietly. Qed.
#[local] Hint Resolve quiet_create_campaign quiet_set_campaign quiet_own_campaign : quiet_ops.
Lemma quiet_schedule rid t aware at_ now type g bucket coupon :
  quiet (schedule_broadcast window_on rid t aware at_ now type g bucket coupon).
Proof. unfold schedule_broadcast, _assert_template_approved. quietly. Qed.
Lemma quiet_reschedule rid c aware at_ now : quiet (reschedule_campaign window_on rid c aware at_ now).
Proof. unfold reschedule_campaign. quietly. Qed.
Lemma quiet_cancel rid c : quiet (cancel_scheduled_campaign rid c).
Proof. unfold cancel_scheduled_campaign. quietly. Qed.
Lemma quiet_campaign_coupon camp cust : quiet (campaign_coupon tokens camp cust).
Proof. unfold campaign_coupon. quietly. Qed.
Lemma quiet_stored_audience c : quiet (stored_audience c).
Proof. unfold stored_audience. quietly. Qed.
#[local] Hint Resolve quiet_stored_audience : quiet_ops.
Lemma quiet_campaign_audience camp ids : quiet (campaign_audience float_days bound bound_text camp ids).
Proof. unfold campaign_audience. quietly. Qed.
Lemma quiet_segment_customer_ids rid key now : quiet (segment_customer_ids rid key now).
Proof. unfold segment_customer_ids. quietly. Qed.

Lemma quiet_flush_template t : quiet (flush_template t).
Proof. unfold flush_template. quietly. Qed.
Lemma quiet_lint sp : quiet (lint sp).
Proof. unfold lint. quietly. Qed.
#[local] Hint Resolve quiet_flush_template quiet_lint : quiet_ops.
Lemma quiet_template_request provider r : quiet (run_template_request provider r).
Proof.
  unfold run_template_request. apply quiet_atomically.
  destruct r; (apply quiet_bind; [|intros ?; apply quiet_ret]).
  - unfold create_wa_template. quietly.
  - unfold submit_template. quietly.
  - unfold refresh_template. quietly.
  - unfold fix_template. quietly.
  - unfold delete_template. quietly.
  - unfold poll_template_statuses. quietly. apply quiet_for_fold. intros t u. unfold poll_one. quietly.
  - unfold cleanup_ephemeral_templates. quietly. apply quiet_for_fold. intros t u. unfold cleanup_one. quietly.
Qed.

Lemma quiet_set_automation a : quiet (set_automation a).
Proof. unfold set_automation. quietly. Qed.
#[local] Hint Resolve quiet_set_automation : quiet_ops.
Lemma quiet_presets rid : quiet (ensure_automation_presets rid).
Proof. unfold ensure_automation_presets. quietly. Qed.
#[local] Hint Resolve quiet_presets : quiet_ops.
Lemma quiet_patch rid key p : quiet (patch_automation rid key p).
Proof. unfold patch_automation. quietly. Qed.
Lemma quiet_config_int key k c : quiet (config_int key k c).
Proof. unfold config_int. quietly. Qed.
Lemma quiet_record_send rid a c camp at_ : quiet (record_automation_send rid a c camp at_).
Proof. unfold record_automation_send. quietly. Qed.
Lemma quiet_bump a u : quiet (_bump_automation_stats a u).
Proof. unfold _bump_automation_stats. quietly. Qed.
Lemma quiet_ran now a : quiet (ran_at now a).
Proof. unfold ran_at, change_automation. quietly. Qed.
#[local] Hint Resolve quiet_config_int quiet_record_send quiet_bump quiet_ran : quiet_ops.
Lemma quiet_day_campaign type rid t day : quiet (ensure_day_campaign type rid t day).
Proof. unfold ensure_day_campaign. quietly. Qed.
Lemma quiet_in_segment a c : quiet (_customer_in_automation_segment float_days bound bound_text a c).
Proof. unfold _customer_in_automation_segment. quietly. Qed.
#[local] Hint Resolve quiet_in_segment : quiet_ops.
Lemma quiet_set_recurring r : quiet (set_recurring r).
Proof. unfold set_recurring. quietly. Qed.
#[local] Hint Resolve quiet_set_recurring : quiet_ops.
Lemma quiet_upsert rid c at_ lead : quiet (upsert_recurring_state circular rid c at_ lead).
Proof. unfold upsert_recurring_state. quietly. Qed.
Lemma quiet_advance r lead now : quiet (advance_recurring_state circular r lead now).
Proof. unfold advance_recurring_state. quietly. Qed.
#[local] Hint Resolve quiet_upsert : quiet_ops.
Lemma quiet_delivered o : quiet (on_order_delivered float_days bound bound_text circular o).
Proof. unfold on_order_delivered, welcome_campaign. quietly. Qed.
Lemma quiet_winback_ids a now : quiet (winback_customer_ids float_days bound bound_text a now).
Proof. unfold winback_customer_ids, filter_automation_audience. quietly. Qed.
Lemma quiet_birthday_coupon a cid : quiet (birthday_coupon tokens a cid).
Proof. unfold birthday_coupon. quietly. Qed.
Lemma quiet_record_all a c now ids : quiet (record_all a c now ids).
Proof. unfold record_all. quietly. Qed.
Lemma quiet_review_ids a : quiet (review_request_customer_order_ids a).
Proof. unfold review_request_customer_order_ids. quietly. Qed.
End quiet_operations.
#[export] Hint Resolve quiet_evaluate quiet_create_segment quiet_delete_segment quiet_create_campaign quiet_set_campaign
  quiet_schedule quiet_reschedule quiet_cancel quiet_campaign_coupon quiet_stored_audience quiet_campaign_audience
  quiet_segment_customer_ids quiet_template_request quiet_patch quiet_config_int quiet_record_send quiet_bump quiet_ran
  quiet_day_campaign quiet_in_segment quiet_advance quiet_delivered quiet_winback_ids quiet_birthday_coupon
  quiet_record_all quiet_review_ids : quiet_ops.

(** *** Operations that send *)

Section walk.
Context (tokens : Z → nat → string) (window_on : bool).
Context (float_days : Q → Z) (bound : column → json → option Q) (bound_text : json → option string).
Context (circular : list (Z * Z) → option (Z * Q)) (send : nat → sent_message → send_result).
(** An invariant of the core that a send and a flush of the queue keep. *)
Context (I : marketing_db → Prop).
Hypothesis I_core : ∀ s s', core s' = core s → I s → I s'.
Hypothesis I_send : ∀ camp t cust now inside,
  preserves (λ s, I s ∧ mk_now s = now) (_send_to_customer tokens camp t cust now inside).
Hypothesis I_flush : ∀ rid, preserves I (in_queue (deliver_pending send rid)).

Definition stays (now : Z) (s : marketing_db) : Prop := I s ∧ mk_now s = now.
Lemma quiet_stays {A} now (m : MK A) : quiet m → preserves (stays now) m.
Proof.
  intros Hm s [Hs Hn]. specialize (Hm (core s) s eq_refl). cbv beta in Hm. split; [by apply (I_core s)|].
  unfold core in Hm. injection Hm as _ _ _ Hm. congruence.
Qed.
Lemma stays_for_fold {A B} now (f : A → B → MK B) l : (∀ a b, preserves (stays now) (f a b)) → ∀ b, preserves (stays now) (for_fold f l b).
Proof.
  intros Hf. induction l as [|x l IH]; intros b; cbn; [apply preserves_ret|]. apply preserves_bind; [apply Hf|]. intros b'. apply IH.
Qed.
(** A read of the clock gives the time of the invariant. *)
Lemma stays_now {A} (f : Z → MK A) now : preserves (stays now) (f now) → preserves (stays now) (gets mk_now ≫= f).
Proof. intros Hf. apply preserves_bind_gets. intros s Hs. pose proof Hs as [_ ->]. by apply Hf. Qed.

Ltac walking :=
  repeat first
    [ solve [apply I_send] | solve [apply quiet_stays; quietly]
    | apply stays_now
    | apply preserves_bind; [|intros ?] | (apply preserves_for_each; intros ? _) | (apply stays_for_fold; intros ? ?)
    | match goal with
      | |- preserves _ (let x := ?y in _) => cbv zeta
      | |- preserves _ (if ?b then _ else _) => destruct b
      | |- preserves _ (match ?x with _ => _ end) => destruct x
      end
    | solve [auto 2 with walk] ].
Create HintDb walk discriminated.

Lemma walk_campaign camp now ids : preserves (stays now) (run_campaign_send tokens window_on float_days bound bound_text camp now ids).
Proof. unfold run_campaign_send. walking. Qed.
#[local] Hint Resolve walk_campaign : walk.
Lemma walk_broadcast rid body now : preserves (stays now) (broadcast_body tokens window_on float_days bound bound_text rid body).
Proof. unfold broadcast_body, broadcast_at_once. walking. apply preserves_try; intros; walking. Qed.
Lemma walk_dispatch_loop now due : ∀ began, preserves (stays now) (dispatch_loop tokens window_on float_days bound bound_text now began due).
Proof.
  induction due as [|camp due IH]; intros began s Hs; cbn; [done|].
  assert (preserves (stays now) (send_scheduled tokens window_on float_days bound bound_text now camp)) as Hc by (unfold send_scheduled; walking).
  specialize (Hc s Hs). destruct (send_scheduled _ _ _ _ _ _ _ _); [by apply IH|].
  destruct (_ || _); [by destruct due|by apply IH].
Qed.
Lemma walk_special now : preserves (stays now) (run_todays_special_tick tokens window_on circular now).
Proof. unfold run_todays_special_tick, special_restaurant, special_customer, ensure_todays_special_campaign. walking. Qed.
Lemma walk_recurring now : preserves (stays now) (run_recurring_promo_tick tokens window_on float_days bound bound_text circular now).
Proof. unfold run_recurring_promo_tick, recurring_one, ensure_recurring_campaign. walking. Qed.
Lemma walk_automation_campaign a key ids now :
  preserves (stays now) (automation_campaign tokens window_on float_days bound bound_text a key ids now).
Proof. unfold automation_campaign. walking. Qed.
#[local] Hint Resolve walk_automation_campaign : walk.
Lemma walk_automation now : preserves (stays now) (run_automation_tick tokens window_on float_days bound bound_text circular now).
Proof.
  unfold run_automation_tick, each_preset, reorder_one, reorder_customer, winback_one, birthday_one, review_one, ensure_recurring_campaign.
  walking.
Qed.
Lemma stays_atomically {A} now (m : MK A) : preserves (stays now) m → preserves (stays now) (atomically m).
Proof. apply preserves_atomically. Qed.
Lemma walk_task {A} now (m : MK A) : preserves (stays now) m → preserves (stays now) (task m).
Proof.
  intros Hm. unfold task. apply preserves_try; [|intros e; apply preserves_ret]. apply preserves_atomically.
  apply preserves_bind; [done|]. intros _. apply preserves_ret.
Qed.
(** From a state and its time to every time. *)
Lemma at_any_time {A} (m : MK A) : (∀ now, preserves (stays now) m) → preserves I m.
Proof. intros Hm s Hs. by destruct (Hm (mk_now s) s (conj Hs eq_refl)). Qed.

(** An event that is not an answer of a customer or of a manager about opting out, nor the
    passing of time, keeps the invariant. *)
Definition answers (e : marketing_event) : bool :=
  match e with EvInbound _ _ _ _ _ | EvPreference _ _ _ | EvTime _ => true | _ => false end.
Lemma walk_event e : answers e = false → preserves I (run_event tokens window_on float_days bound bound_text circular send e).
Proof.
  intros He. destruct e; try discriminate He; cbn [run_event].
  1, 2, 3, 5, 6, 7, 8, 9: apply at_any_time; intros now.
  - apply quiet_stays. quietly.
  - apply quiet_stays. quietly.
  - apply quiet_stays. unfold post_campaign. quietly.
  - apply quiet_stays. unfold delete_scheduled_campaign. quietly.
  - apply quiet_stays. unfold patch_campaign_schedule. quietly.
  - apply quiet_stays. quietly.
  - apply quiet_stays. unfold update_automation. quietly.
  - apply quiet_stays. apply quiet_try; [apply quiet_delivered|intros ?; apply quiet_ret].
  - apply preserves_bind; [|intros ?; apply preserves_ret]. unfold broadcast_now.
    apply preserves_bind; [apply at_any_time; intros now; apply preserves_atomically, walk_broadcast|].
    intros [u|]; [|apply preserves_ret]. apply preserves_bind; [apply I_flush|intros _; apply preserves_ret].
  - apply at_any_time. intros now. unfold _dispatch_scheduled. apply stays_now.
    apply preserves_bind; [apply preserves_gets|]. intros due. apply walk_dispatch_loop.
  - apply preserves_bind; [|intros ?; apply preserves_ret]. unfold todays_special_tick.
    destruct (negb _); [apply preserves_raise|]. destruct (negb _); [apply preserves_raise|].
    intros s Hs. change (I (final ((atomically (run_todays_special_tick tokens window_on circular (mk_now s)) ≫= λ u,
      for_each (λ r, in_queue (deliver_pending send r)) (st_restaurants u) ≫= λ _, mret u) s))).
    rewrite bind_final. pose proof (preserves_atomically _ _ (walk_special (mk_now s)) s (conj Hs eq_refl)) as [Hs' _].
    destruct (atomically _ s) as [u s'|e s']; [|done]. revert s' Hs'.
    change (preserves I (for_each (λ r, in_queue (deliver_pending send r)) (st_restaurants u) ≫= λ _, mret u)).
    apply preserves_bind; [|intros _; apply preserves_ret]. apply preserves_for_each. intros r _. apply I_flush.
  - apply at_any_time. intros now. unfold _automation_tick. apply stays_now, walk_task, walk_automation.
  - apply at_any_time. intros now. unfold _recurring_promo_tick. apply stays_now, walk_task, walk_recurring.
Qed.
End walk.

(** ** One send *)

Lemma insert_run camp cust st at_ s :
  _insert_send camp cust st at_ s =
    match first_where (same_send (ca_id camp) (mb_id cust)) (sends s) with
    | Some _ => Ok false s
    | None => Ok true (with_sends (add_row (Build_MarketingSend (next_id (sends s)) (ca_restaurant_id camp) (ca_id camp) (mb_id cust)
                (mb_phone cust) st None None None at_) (sends s)) s)
    end.
Proof. unfold _insert_send, mbind, M_bind, gets. by destruct (first_where _ _). Qed.

Lemma enqueue_messages rid phone ty payload key mr mc s :
  let s' := final (enqueue_message rid phone ty payload key mr mc s) in
  messages s' = messages s ∨
  ∃ m, messages s' = add_row m (messages s) ∧ om_id m = next_id (messages s) ∧ om_restaurant_id m = rid ∧ om_to_phone m = phone ∧ om_key m = key.
Proof.
  cbv zeta. destruct (truthy (strip phone)) eqn:Hp; [|left; unfold enqueue_message; by rewrite Hp].
  destruct (first_where (λ m, om_key m =s key) (messages s)) as [m|] eqn:Hf.
  - left. unfold enqueue_message. rewrite Hp. cbn [negb]. unfold mbind, M_bind, gets. by rewrite Hf.
  - pose proof (proj1 (key_free _ _) Hf) as Hfree. destruct (enqueue_new rid phone ty payload key mr mc s Hp Hfree) as (m & s' & -> & ? & ? & ? & _ & _ & ? & ? & _).
    right. by exists m.
Qed.
Lemma in_queue_final {A} (m : OM A) s :
  opt_outs (final (in_queue m s)) = opt_outs s ∧ sends (final (in_queue m s)) = sends s ∧ mk_now (final (in_queue m s)) = mk_now s ∧
  queue_of (final (in_queue m s)) = final (m (queue_of s)).
Proof.
  unfold in_queue, zoom. cbn [view marketing_loyalty_lens loyalty_notify_lens notify_outbox_lens].
  change (notify_outbox (lo_notify (mk_loyalty s))) with (queue_of s). by destruct (m (queue_of s)).
Qed.

(** What a send may do: nothing (a duplicate, or a coupon that fails), a suppressed row, or a
    row and its message, to someone who is not opted out and below the cap. *)
Record sent_to (camp : Campaign) (cust : Member) (now : Z) (s s' : marketing_db) : Prop := {
  se_optouts : opt_outs s' = opt_outs s;
  se_now : mk_now s' = mk_now s;
  se_rows : (sends s' = sends s ∧ messages (queue_of s') = messages (queue_of s)) ∨
    ∃ m, sends s' = add_row m (sends s) ∧ sn_id m = next_id (sends s) ∧
      first_where (same_send (ca_id camp) (mb_id cust)) (sends s) = None ∧
      sn_campaign_id m = ca_id camp ∧ sn_customer_id m = mb_id cust ∧ sn_restaurant_id m = ca_restaurant_id camp ∧
      sn_to_phone m = mb_phone cust ∧ sn_wa_message_id m = None ∧ sn_converted_order_id m = None ∧
      ((∃ r, sn_status m = reason_str r ∧ sn_sent_at m = None ∧ messages (queue_of s') = messages (queue_of s)) ∨
       (sn_status m = "sent" ∧ sn_sent_at m = Some now ∧ is_opted_out (ca_restaurant_id camp) (mb_phone cust) s = false ∧
        count_sends_last_24h (ca_restaurant_id camp) (mb_phone cust) now s < per_user_cap ∧
        (messages (queue_of s') = messages (queue_of s) ∨
         ∃ q, messages (queue_of s') = add_row q (messages (queue_of s)) ∧ om_id q = next_id (messages (queue_of s)) ∧
           om_restaurant_id q = ca_restaurant_id camp ∧ om_to_phone q = mb_phone cust ∧ om_key q = send_key (ca_id camp) (mb_id cust))));
}.
Lemma core_sent camp cust now s s' : core s' = core s → sent_to camp cust now s s'.
Proof. unfold core. intros [= ? ? ? ?]. split; [done..|]. by left. Qed.

Lemma send_final tokens camp t cust now inside s :
  sent_to camp cust now s (final (_send_to_customer tokens camp t cust now inside s)).
Proof.
  set (c := count_sends_last_24h (ca_restaurant_id camp) (mb_phone cust) now s).
  set (o := is_opted_out (ca_restaurant_id camp) (mb_phone cust) s).
  assert (∃ d, d = can_send_marketing c o inside per_user_cap) as [d Hd] by eauto.
  unfold _send_to_customer. do 2 erewrite bind_run_Ok by reflexivity. cbv beta. fold c o. rewrite <-Hd.
  destruct d as [reason|].
  { rewrite bind_final, insert_run. destruct (first_where _ _) eqn:Hf; cbn [final]; [by apply core_sent|].
    split; [done..|]. right. eexists. split; [reflexivity|]. split_and!; [done..|]. left. by exists reason. }
  rewrite bind_final. pose proof (quiet_campaign_coupon tokens camp cust (core s) s eq_refl) as Hq. cbv beta in Hq.
  destruct (campaign_coupon tokens camp cust s) as [code s1|e s1]; cbn [final] in Hq; [|by apply core_sent].
  assert (sends s1 = sends s ∧ opt_outs s1 = opt_outs s ∧ mk_now s1 = mk_now s ∧ messages (queue_of s1) = messages (queue_of s)) as (H1 & H2 & H3 & H4)
    by (unfold core in Hq; by injection Hq).
  rewrite bind_final, insert_run, H1. destruct (first_where _ _) eqn:Hf; cbn [final negb]; [by apply core_sent|].
  erewrite bind_run_Ok by reflexivity. cbv beta. rewrite bind_final.
  set (s2 := with_sends _ s1).
  set (enq := in_queue _). assert (∃ r, r = enq s2) as [r Hr] by eauto. rewrite <-Hr.
  assert ((match r with Ok _ s' => final (mret (M := MK) SendQueued s') | Err _ s' => s' end) = final (enq s2)) as ->
    by (rewrite <-Hr; by destruct r).
  destruct (in_queue_final (enqueue_message (ca_restaurant_id camp) (mb_phone cust) "template"
    (_build_payload t (pt_name (patron_of (mb_id cust) s2)) code (ca_image_url camp)) (send_key (ca_id camp) (mb_id cust)) true true) s2)
    as (Ho & Hs & Hn & Hqq). fold enq in Ho, Hs, Hn, Hqq.
  split; [by rewrite Ho|by rewrite Hn|]. right. rewrite Hs. eexists. split; [reflexivity|]. split_and!; [done..|]. right.
  unfold can_send_marketing in Hd. destruct o eqn:Ho'; [discriminate|]. destruct inside; [|discriminate]. cbn [negb] in Hd.
  destruct (per_user_cap <=? c) eqn:Hc; [discriminate|]. zbool.
  split_and!; [done..|]. rewrite Hqq.
  destruct (enqueue_messages (ca_restaurant_id camp) (mb_phone cust) "template"
    (_build_payload t (pt_name (patron_of (mb_id cust) s2)) code (ca_image_url camp)) (send_key (ca_id camp) (mb_id cust)) true true (queue_of s2))
    as [He|(q & He & Hq1 & Hq2 & Hq3 & Hq4)]; change (messages (queue_of s2)) with (messages (queue_of s1)) in *; rewrite H4 in *; [by left|].
  right. exists q. by split_and!.
Qed.

(** ** At most two a day *)

(** Sends that count against a phone's allowance, in the 24 hours up to [t]. *)
Definition sends_between (restaurant_id : Z) (phone : string) (t : Z) (s : marketing_db) : Z :=
  count_where (λ m, counted_since restaurant_id phone (t - hours 24) m && match sn_sent_at m with Some u => u <=? t | None => false end) (sends s).
Record capped (s : marketing_db) : Prop := {
  kc_past : ∀ m t, m ∈ rows (sends s) → sn_sent_at m = Some t → t ≤ mk_now s;
  kc_cap : ∀ rid phone t, sends_between rid phone t s ≤ per_user_cap;
}.
Lemma capped_ext s s' : sends s' = sends s → mk_now s ≤ mk_now s' → capped s → capped s'.
Proof.
  intros Hs Hn [H1 H2]. split.
  - rewrite Hs. intros m t Hm Ht. specialize (H1 m t Hm Ht). lia.
  - intros rid phone t. unfold sends_between. rewrite Hs. apply H2.
Qed.
Lemma capped_core s s' : core s' = core s → capped s → capped s'.
Proof. unfold core. intros [= _ Hs _ Hn]. apply capped_ext; [done|lia]. Qed.

Lemma count_mono {A} (p q : A → bool) l : (∀ x, x ∈ l → p x = true → q x = true) → count p l ≤ count q l.
Proof.
  intros Hpq. unfold count. induction l as [|x l IH]; cbn; [done|].
  assert (∀ y, y ∈ l → p y = true → q y = true) as Hl by (intros; apply Hpq; set_solver).
  specialize (IH Hl). specialize (Hpq x). destruct (p x); [rewrite Hpq by (done || set_solver); lia|destruct (q x); lia].
Qed.
Lemma capped_add m s s' :
  capped s → sends s' = add_row m (sends s) → mk_now s' = mk_now s →
  (sn_sent_at m = None ∨ sn_sent_at m = Some (mk_now s) ∧ count_sends_last_24h (sn_restaurant_id m) (sn_to_phone m) (mk_now s) s < per_user_cap) →
  capped s'.
Proof.
  intros [H1 H2] Hs Hn Hm. split.
  - rewrite Hs, Hn. intros m' t [Hm'| ->]%elem_of_add_row Ht; [by eapply H1|].
    destruct Hm as [Hm|[Hm _]]; rewrite Hm in Ht; [done|]. injection Ht. lia.
  - intros rid phone t. unfold sends_between. rewrite Hs, count_where_add. specialize (H2 rid phone t). unfold sends_between in H2.
    destruct (_ && _) eqn:Hc; [|lia]. apply andb_true_iff in Hc as [Hc Ht].
    destruct Hm as [Hm|[Hm Hcap]]; [by rewrite Hm in Ht|]. rewrite Hm in Ht. unfold counted_since in Hc. rewrite Hm in Hc. zbool. subst rid phone.
    assert (count_where (λ m0, counted_since (sn_restaurant_id m) (sn_to_phone m) (t - hours 24) m0
      && match sn_sent_at m0 with Some u => u <=? t | None => false end) (sends s)
      ≤ count_sends_last_24h (sn_restaurant_id m) (sn_to_phone m) (mk_now s) s) as Hle; [|unfold per_user_cap in *; lia].
    unfold count_sends_last_24h, count_where. apply count_mono. intros x _ Hx.
    apply andb_true_iff in Hx as [Hx _]. unfold counted_since in *. destruct (sn_sent_at x); zbool; [|done].
    rewrite !andb_true_iff, Z.eqb_eq, String.eqb_eq, Z.leb_le. split_and!; try done. lia.
Qed.

Lemma capped_send tokens camp t cust now inside :
  preserves (λ s, capped s ∧ mk_now s = now) (_send_to_customer tokens camp t cust now inside).
Proof.
  intros s [Hs Hn]. destruct (send_final tokens camp t cust now inside s) as [_ Hn' Hrows].
  split; [|congruence]. destruct Hrows as [[Hr _]|(m & Hr & _ & _ & _ & _ & Hrid & Hphone & _ & _ & Hm)].
  - apply (capped_ext s); [done|lia|done].
  - apply (capped_add m s); [done..|]. rewrite Hrid, Hphone, Hn.
    destruct Hm as [(r & _ & Hm & _)|(_ & Hm & _ & Hc & _)]; [by left|right; by split].
Qed.
Lemma capped_queue {A} (m : OM A) : preserves capped (in_queue m).
Proof. intros s Hs. destruct (in_queue_final m s) as (_ & H1 & H2 & _). apply (capped_ext s); [done|lia|done]. Qed.
Lemma capped_modify f : (∀ s, sends (f s) = sends s) → (∀ s, mk_now (f s) = mk_now s) → preserves capped (modify (E := marketing_error) f).
Proof. intros Hs Hn. apply preserves_modify. intros s. apply capped_ext; [done|]. by rewrite Hn. Qed.
Lemma capped_audit actor rid entity eid action b a : preserves capped (audit (E := marketing_error) actor rid entity eid action b a).
Proof. intros s Hs. by apply (capped_core s). Qed.
#[local] Hint Resolve preserves_ret preserves_gets capped_audit : pos.
Lemma capped_opt_out rid phone source : preserves capped (record_opt_out rid phone source).
Proof.
  unfold record_opt_out. apply preserves_bind; [auto with pos|]. intros found.
  apply preserves_bind; [|intros o; apply preserves_bind; auto with pos].
  destruct found; [auto with pos|]. apply preserves_bind; [auto with pos|]. intros t.
  apply preserves_bind; [by apply capped_modify|auto with pos].
Qed.
Lemma capped_opt_in rid phone : preserves capped (record_opt_in rid phone).
Proof. unfold record_opt_in. apply preserves_bind; [by apply capped_modify|]. intros _. apply preserves_bind; auto with pos. Qed.

Section capped_history.
Context (tokens : Z → nat → string) (window_on : bool).
Context (float_days : Q → Z) (bound : column → json → option Q) (bound_text : json → option string).
Context (circular : list (Z * Z) → option (Z * Q)) (send : nat → sent_message → send_result).
Abbreviation after := (marketing_history tokens window_on float_days bound bound_text circular send).

Lemma capped_event e : preserves capped (run_event tokens window_on float_days bound bound_text circular send e).
Proof.
  destruct (answers e) eqn:He.
  2:{ apply walk_event; [apply capped_core|intros; apply capped_send|intros; apply capped_queue|done]. }
  destruct e; try discriminate He; cbn [run_event].
  - apply preserves_bind; [|intros ?; apply preserves_ret]. unfold opt_out_inbound. cbv zeta.
    destruct (_ || _); [apply preserves_ret|]. apply preserves_bind; [apply capped_opt_out|]. intros _.
    apply preserves_bind; [apply capped_queue|]. intros _. apply preserves_ret.
  - destruct opted_in; [apply capped_opt_in|]. apply preserves_bind; [apply capped_opt_out|]. intros _. apply preserves_ret.
  - intros s Hs. apply (capped_ext s); [done| |done]. cbn. change (mk_now s ≤ mk_now s + Z.max 0 d). lia.
Qed.
Lemma capped_history l s : capped s → capped (after l s).
Proof. revert s. induction l as [|e l IH]; intros s Hs; cbn; [done|]. by apply IH, capped_event. Qed.

(** C21. Whatever a restaurant's managers, its customers and the scheduled tasks do, from an empty
    ledger: in no 24 hours does a phone get more than two of the restaurant's marketing
    messages, counted as the ledger counts them. *)
Theorem never_more_than_two_a_day l s rid phone t :
  rows (sends s) = [] → sends_between rid phone t (after l s) ≤ 2.
Proof.
  intros Hs. assert (capped s) as Hc; [|pose proof (capped_history l s Hc) as [_ Hcap]; apply Hcap].
  split; unfold sends_between, count_where; rewrite Hs; [by intros m t' Hm%not_elem_of_nil|done].
Qed.
End capped_history.

(** ** Silence for who opted out *)

Lemma opted_out_spec rid phone s : is_opted_out rid phone s = true ↔ ∃ o, o ∈ rows (opt_outs s) ∧ opts_out rid phone o = true.
Proof.
  unfold is_opted_out. destruct (first_where _ _) as [o|] eqn:Hf.
  - apply first_where_Some in Hf as [? ?]. split; [by exists o|done].
  - rewrite first_where_None in Hf. split; [done|]. intros (o & Ho & Hp). by rewrite (Hf o Ho) in Hp.
Qed.

(** A marketing message of the queue: its restaurant, its phone and its key. *)
Definition message_tag (m : OutboxMessage) : Z * string * string := (om_restaurant_id m, om_to_phone m, om_key m).
Definition promotion_to (restaurant_id : Z) (phone : string) (tag : Z * string * string) : bool :=
  (tag.1.1 =? restaurant_id) && (tag.1.2 =s phone) && starts_with "campaign:" tag.2.
Definition promotions (restaurant_id : Z) (phone : string) (s : marketing_db) : list (Z * string * string) :=
  List.filter (promotion_to restaurant_id phone) (message_tag <$> rows (messages (queue_of s))).

Lemma set_row_tags (m m' : OutboxMessage) t :
  table_wf t → m ∈ rows t → om_id m' = om_id m → message_tag m' = message_tag m → message_tag <$> rows (set_row m' t) = message_tag <$> rows t.
Proof.
  intros Hwf Hm Hid Htag. unfold set_row. cbn [rows]. change (@map OutboxMessage OutboxMessage) with (@List.map OutboxMessage OutboxMessage).
  assert (∀ l, (∀ x, x ∈ l → x ∈ rows t) →
    message_tag <$> List.map (λ r', if row_id r' =? row_id m' then m' else r') l = message_tag <$> l) as H; [|by apply H].
  induction l as [|x l IH]; intros Hl; cbn; [done|]. f_equal; [|apply IH; intros; apply Hl; set_solver].
  destruct (row_id x =? row_id m') eqn:Hx; [|done]. zbool. change (om_id x = om_id m') in Hx.
  rewrite Htag. f_equal. apply (wf_unique _ Hwf); [done|apply Hl; set_solver|]. change (om_id m = om_id x). congruence.
Qed.
Lemma deliver_writes send i s :
  messages (final (_deliver_one send i s)) = messages s ∨
  ∃ row st a wa err pl now, get_row i (messages s) = Some row ∧
    messages (final (_deliver_one send i s)) = set_row (with_outcome st a wa err pl now row) (messages s).
Proof.
  unfold _deliver_one. erewrite bind_run_Ok by reflexivity. cbv beta. destruct (get_row i (messages s)) as [row|] eqn:Hg; [|by left].
  destruct (bool_decide _); [by left|]. destruct (_outbox_row_to_outbound row); [|by left].
  unfold call_provider, update_message, mbind, M_bind, mret, M_ret, gets, modify. cbn. destruct (send _ _).
  - right. by eexists row, _, _, _, _, _, _.
  - unfold failed_row. destruct (_permanent_meta_failure_reason e); [destruct (_ && _)|]; right; by eexists row, _, _, _, _, _, _.
Qed.

Definition hushed (rid : Z) (phone : string) (told : list (Z * string * string)) (s : marketing_db) : Prop :=
  table_wf (messages (queue_of s)) ∧ is_opted_out rid phone s = true ∧ promotions rid phone s = told.

Section hushed.
Context (rid : Z) (phone : string) (told : list (Z * string * string)).
Abbreviation quiet_phone := (hushed rid phone told).

Lemma hushed_core s s' : core s' = core s → quiet_phone s → quiet_phone s'.
Proof. unfold core, hushed, promotions, is_opted_out. intros [= Ho _ Hq _]. by rewrite Ho, Hq. Qed.
(** A message that is not a promotion to the phone. *)
Lemma hushed_add q s s' :
  opt_outs s' = opt_outs s → messages (queue_of s') = add_row q (messages (queue_of s)) → om_id q = next_id (messages (queue_of s)) →
  promotion_to rid phone (message_tag q) = false → quiet_phone s → quiet_phone s'.
Proof.
  intros Ho Hq Hid Hp (Hwf & Hout & Hl). unfold hushed, promotions, is_opted_out in *. rewrite Ho, Hq. split_and!; [by apply add_row_wf|done|].
  unfold add_row. cbn [rows]. rewrite fmap_app, List.filter_app. cbn. rewrite Hp, app_nil_r. done.
Qed.
Lemma hushed_send tokens camp t cust now inside :
  preserves (λ s, quiet_phone s ∧ mk_now s = now) (_send_to_customer tokens camp t cust now inside).
Proof.
  intros s [Hs Hn]. destruct (send_final tokens camp t cust now inside s) as [Ho Hn' Hrows]. split; [|congruence].
  set (s' := final _) in *.
  assert (messages (queue_of s') = messages (queue_of s) → quiet_phone s') as Hsame.
  { intros Hm. unfold hushed, promotions, is_opted_out in *. by rewrite Ho, Hm. }
  destruct Hrows as [[_ Hm]|(m & _ & _ & _ & _ & _ & _ & _ & _ & _ & [(r & _ & _ & Hm)|(_ & _ & Hin & _ & [Hm|(q & Hq & Hid & Hr & Hp & _)])])];
    [by apply Hsame..|].
  apply (hushed_add q s); [done..| |done]. unfold promotion_to, message_tag. cbn. rewrite Hr, Hp.
  destruct (ca_restaurant_id camp =? rid) eqn:E1; [|done]. destruct (mb_phone cust =s phone) eqn:E2; [|done]. zbool. subst.
  destruct Hs as (_ & Hout & _). congruence.
Qed.
Lemma hushed_flush send r : preserves quiet_phone (in_queue (deliver_pending send r)).
Proof.
  intros s Hs. destruct (in_queue_final (deliver_pending send r) s) as (Ho & _ & _ & Hq).
  set (I := λ o, table_wf (messages o) ∧ message_tag <$> rows (messages o) = message_tag <$> rows (messages (queue_of s))).
  assert (I (final (deliver_pending send r (queue_of s)))) as [Hwf Htags].
  { assert (preserves I (deliver_pending send r)) as Hd; [|apply Hd; split; [apply Hs|done]].
    unfold deliver_pending, deliver_outbox_now. apply preserves_bind; [apply preserves_gets|]. intros ids. apply preserves_for_each.
    intros i _ o [Hwf Ht]. destruct (deliver_writes send i o) as [Hm|(row & st & a & wa & err & pl & now & Hg & Hm)]; unfold I; rewrite Hm; [done|].
    apply get_row_Some in Hg as [Hin _]. split; [by apply set_row_wf|]. by rewrite (set_row_tags row). }
  destruct Hs as (_ & Hout & Hl). unfold hushed, promotions, is_opted_out in *. rewrite Ho, Hq. split_and!; [done..|]. by rewrite Htags.
Qed.
Lemma hushed_opt_out r p source : preserves quiet_phone (record_opt_out r p source).
Proof.
  intros s (Hwf & Hout & Hl). unfold record_opt_out. erewrite bind_run_Ok by reflexivity. cbv beta.
  destruct (first_where _ _) as [o|]; (split_and!; [exact Hwf| |exact Hl]); [exact Hout|].
  apply opted_out_spec. apply opted_out_spec in Hout as (o & Hin & Hp). exists o. split; [|done].
  cbn. apply elem_of_add_row. by left.
Qed.
Lemma hushed_opt_in r p : (r, p) ≠ (rid, phone) → preserves quiet_phone (record_opt_in r p).
Proof.
  intros Hne s (Hwf & Hout & Hl). split_and!; [exact Hwf| |exact Hl].
  apply opted_out_spec. apply opted_out_spec in Hout as (o & Hin & Hp). exists o. split; [|done].
  cbn. apply list_elem_of_In, List.filter_In. split; [by apply list_elem_of_In|].
  unfold opts_out in *. zbool. subst. apply negb_true_iff, andb_false_iff.
  destruct (Z.eqb_spec (oo_restaurant_id o) r); [|by left]. right. apply String.eqb_neq. congruence.
Qed.
Lemma hushed_ack r p wa : preserves quiet_phone (in_queue (enqueue_message r p "text" [("body", JStr STOP_ACK)]%string ("stop-ack-" +:+ wa) true true)).
Proof.
  intros s Hs. destruct (in_queue_final (enqueue_message r p "text" [("body", JStr STOP_ACK)]%string ("stop-ack-" +:+ wa) true true) s)
    as (Ho & _ & _ & Hq).
  destruct (enqueue_messages r p "text" [("body", JStr STOP_ACK)]%string ("stop-ack-" +:+ wa) true true (queue_of s)) as [Hm|(q & Hm & Hid & Hr & Hp & Hk)].
  - destruct Hs as (Hwf & Hout & Hl). unfold hushed, promotions, is_opted_out in *. by rewrite Ho, Hq, Hm.
  - apply (hushed_add q s); [done|by rewrite Hq|done| |done]. unfold promotion_to, message_tag. cbn [fst snd]. rewrite Hk.
    rewrite andb_false_iff. by right.
Qed.

Context (tokens : Z → nat → string) (window_on : bool).
Context (float_days : Q → Z) (bound : column → json → option Q) (bound_text : json → option string).
Context (circular : list (Z * Z) → option (Z * Q)) (send : nat → sent_message → send_result).

Lemma hushed_event e :
  e ≠ EvPreference rid phone true → preserves quiet_phone (run_event tokens window_on float_days bound bound_text circular send e).
Proof.
  intros Hne. destruct (answers e) eqn:He.
  2:{ apply walk_event; [apply hushed_core|intros; apply hushed_send|intros; apply hushed_flush|done]. }
  destruct e; try discriminate He; cbn [run_event].
  - apply preserves_bind; [|intros ?; apply preserves_ret]. unfold opt_out_inbound. cbv zeta.
    destruct (_ || _); [apply preserves_ret|]. apply preserves_bind; [apply hushed_opt_out|]. intros _.
    apply preserves_bind; [apply hushed_ack|]. intros _. apply preserves_ret.
  - destruct opted_in; [apply hushed_opt_in; congruence|]. apply preserves_bind; [apply hushed_opt_out|]. intros _. apply preserves_ret.
  - intros s Hs. exact Hs.
Qed.
End hushed.

(** C22. A phone that opted out of a restaurant's marketing is sent none of it, whatever else
    happens, until a manager opts it in again: the queue's promotions to it stay the same. *)
Theorem opted_out_hears_nothing tokens window_on float_days bound bound_text circular send l s rid phone :
  table_wf (messages (queue_of s)) → is_opted_out rid phone s = true → (∀ e, e ∈ l → e ≠ EvPreference rid phone true) →
  let s' := marketing_history tokens window_on float_days bound bound_text circular send l s in
  is_opted_out rid phone s' = true ∧ promotions rid phone s' = promotions rid phone s.
Proof.
  intros Hwf Hout Hl. assert (hushed rid phone (promotions rid phone s) s) as Hs by done. cbv zeta.
  assert (hushed rid phone (promotions rid phone s) (marketing_history tokens window_on float_days bound bound_text circular send l s))
    as (_ & ? & ?); [|done].
  clear Hwf Hout. revert Hs. generalize (promotions rid phone s). intros told. revert s. induction l as [|e l IH]; intros s Hs; cbn; [done|].
  apply IH; [intros; apply Hl; set_solver|]. apply hushed_event; [apply Hl; set_solver|done].
Qed.

(** ** What the ledger never learns *)

(** [record_send_status] and [record_conversion] have no caller, and nothing writes the
    provider's id of a message into the ledger. *)
Definition unanswered (s : marketing_db) : Prop :=
  ∀ m, m ∈ rows (sends s) → sn_wa_message_id m = None ∧ sn_converted_order_id m = None ∧
    sn_status m ∈ "sent"%string :: (reason_str <$> [ByOptout; ByWindow; ByCap]).
Lemma unanswered_sends s s' : sends s' = sends s → unanswered s → unanswered s'.
Proof. unfold unanswered. by intros ->. Qed.

Section unanswered.
Context (tokens : Z → nat → string) (window_on : bool).
Context (float_days : Q → Z) (bound : column → json → option Q) (bound_text : json → option string).
Context (circular : list (Z * Z) → option (Z * Q)) (send : nat → sent_message → send_result).

Lemma unanswered_queue {A} (m : OM A) : preserves unanswered (in_queue m).
Proof. intros s Hs. destruct (in_queue_final m s) as (_ & H & _). by apply (unanswered_sends s). Qed.
Lemma unanswered_opt_out rid phone source : preserves unanswered (record_opt_out rid phone source).
Proof.
  unfold record_opt_out. apply preserves_bind; [apply preserves_gets|]. intros found.
  apply preserves_bind; [destruct found; by intros s|]. intros o. apply preserves_bind; [by intros s|]. intros _. apply preserves_ret.
Qed.
Lemma unanswered_event e : preserves unanswered (run_event tokens window_on float_days bound bound_text circular send e).
Proof.
  destruct (answers e) eqn:He.
  - destruct e; try discriminate He; cbn [run_event]; [| |by intros s].
    + apply preserves_bind; [|intros ?; apply preserves_ret]. unfold opt_out_inbound. cbv zeta. destruct (_ || _); [apply preserves_ret|].
      apply preserves_bind; [apply unanswered_opt_out|]. intros _. apply preserves_bind; [apply unanswered_queue|]. intros _. apply preserves_ret.
    + destruct opted_in; [by intros s|]. apply preserves_bind; [apply unanswered_opt_out|]. intros _. apply preserves_ret.
  - apply walk_event; [unfold core; intros s s' [= _ Hs _ _]; by apply unanswered_sends| |intros; apply unanswered_queue|done].
    intros camp t cust now inside s [Hs Hn]. destruct (send_final tokens camp t cust now inside s) as [_ Hn' Hrows].
    split; [|congruence]. destruct Hrows as [[Hr _]|(m & Hr & _ & _ & _ & _ & _ & _ & Hwa & Hco & Hm)]; [by apply (unanswered_sends s)|].
    intros m'. rewrite Hr. intros [Hm'| ->]%elem_of_add_row; [by apply Hs|]. split_and!; [done..|].
    destruct Hm as [(r & -> & _)|(-> & _)]; [destruct r|]; set_solver.
Qed.

(** The reports show no delivery and no conversion, whatever happens; a delivery status from
    Meta finds no row. *)
Theorem deliveries_never_recorded l s rid campaign_id :
  rows (sends s) = [] →
  let s' := marketing_history tokens window_on float_days bound bound_text circular send l s in
  cfg_delivered (campaign_stats rid campaign_id s') = 0 ∧ cfg_converted (campaign_stats rid campaign_id s') = 0 ∧
  ∀ wa status code, record_send_status wa status code s' = Ok tt s'.
Proof.
  intros Hs. cbv zeta.
  assert (unanswered (marketing_history tokens window_on float_days bound bound_text circular send l s)) as Hu.
  { assert (unanswered s) as H by (intros m; rewrite Hs; by intros ?%not_elem_of_nil). clear Hs. revert s H.
    induction l as [|e l IH]; intros s H; cbn; [done|]. by apply IH, unanswered_event. }
  set (s' := marketing_history _ _ _ _ _ _ _ _ _) in *.
  assert (∀ p, (∀ m, m ∈ rows (sends s') → p m = false) → count_where p (sends s') = 0) as Hzero.
  { clear. unfold count_where, count. intros p. induction (rows (sends s')) as [|m r IH]; intros Hp; cbn; [done|].
    rewrite Hp, IH by set_solver. done. }
  unfold campaign_stats; cbn [cfg_delivered cfg_converted]. split_and!.
  - apply Hzero. intros m Hm. destruct (Hu m Hm) as (_ & _ & Hst). apply andb_false_iff. right.
    cbn in Hst. rewrite !elem_of_cons in Hst. destruct Hst as [-> |[-> |[-> |[-> |?%not_elem_of_nil]]]]; done.
  - apply Hzero. intros m Hm. destruct (Hu m Hm) as (_ & -> & _). apply andb_false_iff. by right.
  - intros wa status code. unfold record_send_status. erewrite bind_run_Ok by reflexivity. cbv beta.
    assert (first_where (λ m, bool_decide (sn_wa_message_id m = Some wa)) (sends s') = None) as ->; [|done].
    apply first_where_None. intros m Hm. destruct (Hu m Hm) as (-> & _). done.
Qed.
End unanswered.
