(* ===== verification/CampaignFacts.v ===== *)
(** * Facts about audiences, campaigns and templates ([Segments], [Marketing], [Templates])

    The named buckets split the customers; a campaign accounts for everyone in its
    audience once; the search of a template's name ends with a name that is free, names
    stay unique over every history of requests, and a body that passes the linter is filled
    exactly; the times of the window, the daily special and the recurring promotion. *)

From S2P Require Import Prelude Money Strings Decimals Db AuditTrail Clock Coupons OrderFsm OrderPaymentsFacts Outbox Notify Loyalty MarketingDb Segments Marketing Templates Automations MarketingFacts.

(** ** Buckets *)

(** Every bucket but the whole base. *)
Definition NAMED_KEYS : list string := List.filter (λ k, negb (k =s "all")) VALID_KEYS.
Lemma classify_named f last now : _classify f last now ∈ NAMED_KEYS.
Proof. unfold _classify. repeat case_match; vm_compute; set_solver. Qed.

(** The ids of a bucket, as the targeting returns them. *)
Definition audience_of (restaurant_id : Z) (key : string) (now : Z) (s : marketing_db) : list Z :=
  default [] (value (segment_customer_ids restaurant_id key now s)).
Lemma audience_run rid key now s :
  key ∈ VALID_KEYS →
  audience_of rid key now s = mb_id <$> (if key =s "all" then customers_of rid s else List.filter (λ m, bucket_of now s m =s key) (customers_of rid s)).
Proof.
  intros Hk. unfold audience_of, segment_customer_ids. apply in_strs_spec in Hk as ->. cbn [negb].
  erewrite bind_run_Ok by reflexivity. cbv beta. by destruct (key =s "all").
Qed.
Lemma fmap_concat {A B} (f : A → B) (ls : list (list A)) : fmap (M := list) f (concat ls) = concat (fmap (M := list) (fmap (M := list) f) ls).
Proof. induction ls as [|l ls IH]; [done|]. rewrite fmap_cons. cbn [concat]. by rewrite fmap_app, IH. Qed.
Lemma split_by {A} (f : A → string) (ks : list string) (l : list A) :
  NoDup ks → (∀ x, x ∈ l → f x ∈ ks) → l ≡ₚ concat ((λ k, List.filter (λ x, f x =s k) l) <$> ks).
Proof.
  intros Hnd Hks. induction l as [|x l IH].
  { clear. induction ks as [|k ks IH]; cbn; [done|]. by rewrite <-IH. }
  assert (f x ∈ ks) as (k1 & k2 & ->)%list_elem_of_split by (apply Hks; set_solver).
  rewrite IH at 1 by (intros; apply Hks; set_solver). clear IH.
  apply NoDup_app in Hnd as (Hn1 & Hd & [Hx Hn2]%NoDup_cons).
  assert (∀ ks, f x ∉ ks → concat ((λ k, List.filter (λ y, f y =s k) (x :: l)) <$> ks) = concat ((λ k, List.filter (λ y, f y =s k) l) <$> ks)) as Hno.
  { clear. intros ks Hn. induction ks as [|k ks IH]; [done|]. rewrite !fmap_cons. cbn [concat]. rewrite IH by set_solver. f_equal. cbn.
    destruct (String.eqb_spec (f x) k); [set_solver|done]. }
  rewrite !fmap_app, !fmap_cons, !concat_app. cbn [concat].
  assert (f x ∉ k1) as Hx1 by (intros Hin; apply (Hd _ Hin); set_solver).
  rewrite (Hno k1 Hx1), (Hno k2 Hx). cbn [List.filter]. rewrite String.eqb_refl, <-app_comm_cons. apply Permutation_middle.
Qed.

(** The audiences a broadcast can choose: each number shown is the size of its audience, and
    the named ones split the customers of the restaurant. *)
Theorem buckets_split_customers rid now s :
  (∀ key n, (key, n) ∈ segment_counts rid now s → n = Z.of_nat (length (audience_of rid key now s))) ∧
  mb_id <$> customers_of rid s ≡ₚ concat ((λ key, audience_of rid key now s) <$> NAMED_KEYS).
Proof.
  split.
  - intros key n (k & [= -> ->] & Hk)%list_elem_of_fmap. rewrite audience_run by done. destruct (k =s "all"); rewrite length_fmap; [done|].
    unfold count. generalize (customers_of rid s). intros l. induction l as [|m l IH]; cbn; [done|].
    rewrite IH. destruct (_ =s k); cbn [length]; lia.
  - rewrite (split_by (bucket_of now s) NAMED_KEYS (customers_of rid s)) at 1.
    + apply reflexive_eq. rewrite fmap_concat, <-list_fmap_compose. by f_equal.
    + vm_compute. repeat constructor; set_solver.
    + intros m _. apply classify_named.
Qed.

(** ** Names *)

Lemma longer b c s : b ≠ b +:+ String c s.
Proof. induction b as [|a b IH]; [done|]. rewrite app_cons_string. by intros [= ?]. Qed.
Lemma datestamped_inj prefix on a b name :
  0 ≤ a → 0 ≤ b → datestamped_name prefix on a = Some name → datestamped_name prefix on b = Some name → a = b.
Proof.
  unfold datestamped_name. intros Ha Hb. destruct (negb (truthy _)); [done|]. cbv zeta. set (base := _slugify prefix +:+ _).
  set (na := if a =? 0 then _ else _). set (nb := if b =? 0 then _ else _).
  destruct (negb (_NAME_RE na)), (_MAX_NAME_LEN <? text_length na); [done..|].
  destruct (negb (_NAME_RE nb)), (_MAX_NAME_LEN <? text_length nb); [done..|].
  intros [= Hna] [= Hnb]. assert (na = nb) as Heq by congruence. clear Hna Hnb. unfold na, nb in Heq.
  assert (∀ x, base = base +:+ "_" +:+ x → False) as Hno.
  { intros x. by apply longer. }
  destruct (Z.eqb_spec a 0), (Z.eqb_spec b 0); [lia|by apply Hno in Heq|symmetry in Heq; by apply Hno in Heq|].
  apply append_inj, append_inj in Heq. by apply (inj pretty) in Heq.
Qed.
(** A name in use, or within its blackout. *)
Definition name_taken (hist : list (string * Z)) (existing : list string) (now : Z) (name : string) : bool :=
  in_strs name existing || negb (is_name_reusable name hist now).
Lemma name_taken_known hist existing now name : name_taken hist existing now name = true → name ∈ existing ++ (fst <$> hist).
Proof.
  unfold name_taken, is_name_reusable. rewrite negb_involutive, elem_of_app, orb_true_iff. intros [H%in_strs_spec|H]; [by left|right].
  apply existsb_exists in H as ([h d] & Hin & Hh). cbn in Hh. zbool. apply list_elem_of_fmap. exists (h, d). split; [done|]. by apply list_elem_of_In.
Qed.
Lemma next_name_spec prefix on hist existing now fuel : ∀ i, 0 ≤ i →
  match next_name_from fuel prefix on hist existing now i with
  | None => ∀ j, i ≤ j < i + Z.of_nat fuel → ∃ n, datestamped_name prefix on j = Some n ∧ name_taken hist existing now n = true
  | Some None => ∃ j, i ≤ j ∧ datestamped_name prefix on j = None
  | Some (Some name) => ∃ j, i ≤ j ∧ datestamped_name prefix on j = Some name ∧ name_taken hist existing now name = false
  end.
Proof.
  induction fuel as [|fuel IH]; intros i Hi; cbn [next_name_from]; [intros j Hj; lia|].
  destruct (datestamped_name prefix on i) as [n|] eqn:Hn; [|by exists i].
  destruct (negb (in_strs n existing) && is_name_reusable n hist now) eqn:Hfree.
  - exists i. split_and!; [lia|done|]. unfold name_taken. apply andb_true_iff in Hfree as [H1 ->]. by apply negb_true_iff in H1 as ->.
  - assert (name_taken hist existing now n = true) as Ht.
    { unfold name_taken. apply andb_false_iff in Hfree as [H| ->]; [apply negb_false_iff in H as ->; done|by rewrite orb_true_r]. }
    specialize (IH (i + 1) ltac:(lia)). destruct (next_name_from _ _ _ _ _ _ _) as [[name|]|].
    + destruct IH as (j & Hj & ?). exists j. split; [lia|done].
    + destruct IH as (j & Hj & ?). exists j. split; [lia|done].
    + intros j Hj. destruct (decide (j = i)) as [->|]; [by exists n|]. apply IH. lia.
Qed.

(** C24. The search over the suffixes of a template's name ends, after at most one more try than
    there are names in the way, with a name that fits Meta's pattern and length, that no
    other template bears, and that was not deleted in the last thirty days; it raises only
    when a name cannot be formed. *)
Theorem name_search_ends prefix on hist existing now :
  match next_available_name prefix on hist existing now with
  | None => False
  | Some None => ∃ suffix, 0 ≤ suffix ∧ datestamped_name prefix on suffix = None
  | Some (Some name) =>
      name ∉ existing ∧ (∀ d, (name, d) ∈ hist → d < now - _BLACKOUT) ∧ _NAME_RE name = true ∧ text_length name ≤ _MAX_NAME_LEN
  end.
Proof.
  unfold next_available_name. set (fuel := S _). pose proof (next_name_spec prefix on hist existing now fuel 0 ltac:(done)) as H.
  destruct (next_name_from _ _ _ _ _ _ _) as [[name|]|].
  - destruct H as (j & _ & Hn & Ht). unfold name_taken in Ht. apply orb_false_iff in Ht as [Hex Hre].
    apply negb_false_iff, negb_true_iff in Hre. split_and!.
    + intros Hin. apply in_strs_spec in Hin. congruence.
    + intros d Hd. apply Z.nle_gt. intros Hle.
      assert (existsb (λ h, (h.1 =s name) && (now - _BLACKOUT <=? h.2)) hist = true); [|congruence].
      apply existsb_exists. exists (name, d). split; [by apply list_elem_of_In|]. cbn. rewrite String.eqb_refl. by apply Z.leb_le.
    + unfold datestamped_name in Hn. repeat case_match; simplify_eq; by apply negb_false_iff.
    + unfold datestamped_name in Hn. repeat case_match; simplify_eq; by apply Z.ltb_ge.
  - by destruct H as (j & ? & ?); exists j.
  - set (name_at j := default "" (datestamped_name prefix on (Z.of_nat j))).
    assert (∀ j, (j < fuel)%nat → datestamped_name prefix on (Z.of_nat j) = Some (name_at j) ∧ name_taken hist existing now (name_at j) = true) as Hall.
    { intros j Hj. destruct (H (Z.of_nat j)) as (n & Hn & Ht); [lia|]. unfold name_at. by rewrite Hn. }
    assert (NoDup (name_at <$> seq 0 fuel)) as Hnd.
    { apply NoDup_fmap_2_strong; [|apply NoDup_seq]. intros a b Ha%elem_of_seq Hb%elem_of_seq Heq.
      destruct (Hall a ltac:(lia)) as [Hna _], (Hall b ltac:(lia)) as [Hnb _]. rewrite <-Heq in Hnb.
      pose proof (datestamped_inj prefix on _ _ _ (Nat2Z.is_nonneg a) (Nat2Z.is_nonneg b) Hna Hnb). lia. }
    assert (name_at <$> seq 0 fuel ⊆ existing ++ (fst <$> hist)) as Hsub.
    { intros x (j & -> & Hj%elem_of_seq)%list_elem_of_fmap. apply (name_taken_known _ _ now), Hall. lia. }
    pose proof (submseteq_length _ _ (NoDup_submseteq _ _ Hnd Hsub)) as Hlen.
    rewrite length_fmap, length_app, length_fmap, length_seq in Hlen. unfold fuel in Hlen. lia.
Qed.

(** ** A campaign and its audience *)

Lemma send_run tokens camp t cust now inside s o s' :
  _send_to_customer tokens camp t cust now inside s = Ok o s' →
  (o = SendDuplicate ∧ sends s' = sends s ∧ ∃ m, m ∈ rows (sends s) ∧ same_send (ca_id camp) (mb_id cust) m = true) ∨
  ∃ m, sends s' = add_row m (sends s) ∧ (∀ x, x ∈ rows (sends s) → same_send (ca_id camp) (mb_id cust) x = false) ∧
    same_send (ca_id camp) (mb_id cust) m = true ∧
    ((∃ r, o = SendSuppressed r ∧ sn_status m = reason_str r) ∨ (o = SendQueued ∧ sn_status m = "sent"%string)).
Proof.
  assert (∀ st at_ (s0 : marketing_db), same_send (ca_id camp) (mb_id cust) (Build_MarketingSend (next_id (sends s0)) (ca_restaurant_id camp)
    (ca_id camp) (mb_id cust) (mb_phone cust) st None None None at_) = true) as Hsame.
  { intros. unfold same_send. cbn. by rewrite !Z.eqb_refl. }
  unfold _send_to_customer. do 2 erewrite bind_run_Ok by reflexivity. cbv beta.
  destruct (can_send_marketing _ _ _ _) as [r|].
  - intros (i & s1 & Hi & Hr)%bind_Ok. rewrite insert_run in Hi. destruct (first_where _ _) as [m|] eqn:Hf; injection Hi as <- <-; injection Hr as <- <-.
    + left. apply first_where_Some in Hf as [? ?]. split_and!; [done..|]. by exists m.
    + right. eexists. split; [reflexivity|]. split_and!; [by apply first_where_None|by apply Hsame|]. left. by exists r.
  - intros (code & s1 & Hc & H)%bind_Ok. pose proof (quiet_campaign_coupon tokens camp cust (core s) s eq_refl) as Hq. rewrite Hc in Hq.
    assert (sends s1 = sends s) as Hs1 by (unfold core in Hq; cbn in Hq; by injection Hq).
    apply bind_Ok in H as (i & s2 & Hi & H). rewrite insert_run in Hi. destruct (first_where _ _) as [m|] eqn:Hf; injection Hi as <- <-; cbn [negb] in H.
    + injection H as <- <-. left. rewrite Hs1 in *. apply first_where_Some in Hf as [? ?]. split_and!; [done..|]. by exists m.
    + right. apply bind_Ok in H as (pt & s3 & [= <- <-] & H). apply bind_Ok in H as (q & s3 & Hq3 & [= <- <-]).
      match type of Hq3 with in_queue ?m ?x = _ => destruct (in_queue_final m x) as (_ & Hsends & _) end.
      rewrite Hq3 in Hsends. cbn [final] in Hsends. rewrite Hsends. eexists. split; [cbn; by rewrite <-Hs1|].
      rewrite Hs1 in *. split_and!; [by apply first_where_None|by rewrite <-Hs1; apply Hsame|]. by right.
Qed.

Abbreviation one_send := (unique_on (λ m, (sn_campaign_id m, sn_customer_id m))).
(** The four counters of a summary are the rows of each status. *)
Definition counts_rows (u u' : send_summary) (new : list MarketingSend) : Prop :=
  let n st := count (λ m, sn_status m =s st) new in
  su_queued u' = su_queued u + n "sent"%string ∧ su_cap u' = su_cap u + n "suppressed_cap"%string ∧
  su_optout u' = su_optout u + n "suppressed_optout"%string ∧ su_window u' = su_window u + n "suppressed_window"%string.
Lemma same_send_keys a c m : same_send a c m = true ↔ sn_campaign_id m = a ∧ sn_customer_id m = c.
Proof. unfold same_send. by rewrite andb_true_iff, !Z.eqb_eq. Qed.
Lemma sends_loop tokens camp t now inside l : ∀ u s u' s',
  one_send (sends s) →
  for_fold (λ cust u, o ← _send_to_customer tokens camp t cust now inside; mret (tally o u)) l u s = Ok u' s' →
  ∃ new, rows (sends s') = rows (sends s) ++ new ∧ one_send (sends s') ∧ counts_rows u u' new ∧
    (∀ m, m ∈ new → sn_campaign_id m = ca_id camp ∧ ∃ cust, cust ∈ l ∧ sn_customer_id m = mb_id cust) ∧
    ∀ cust, cust ∈ l → ∃ m, m ∈ rows (sends s') ∧ same_send (ca_id camp) (mb_id cust) m = true.
Proof.
  induction l as [|cust l IH]; intros u s u' s' Hu; cbn [for_fold].
  { intros [= <- <-]. exists []. rewrite app_nil_r. split_and!; [done|done| |set_solver|set_solver]. unfold counts_rows, count. cbn. lia. }
  intros (u1 & s1 & H1 & Hloop)%bind_Ok. apply bind_Ok in H1 as (o & s0 & Hsend & [= <- <-]).
  destruct (send_run _ _ _ _ _ _ _ _ _ Hsend) as [(-> & Hs & m & Hm & Hsame)|(m & Hs & Hfresh & Hsame & Ho)].
  - destruct (IH (tally SendDuplicate u) s0 u' s') as (new & Hn & Hu' & Hc & Hnew & Hall); [by rewrite Hs|done|]. exists new. rewrite Hs in Hn.
    split_and!; [done|done|done| |].
    + intros m' Hm'. destruct (Hnew m' Hm') as (? & c & ? & ?). split; [done|]. exists c. split; [set_solver|done].
    + intros c [->|Hc']%elem_of_cons; [|by apply Hall]. exists m. split; [rewrite Hn; set_solver|done].
  - destruct (IH (tally o u) s0 u' s') as (new & Hn & Hu' & Hc & Hnew & Hall); [|done|].
    { rewrite Hs. apply add_row_unique; [done|]. intros r Hr [= E1 E2]. apply same_send_keys in Hsame as [Ea Eb].
      specialize (Hfresh r Hr). assert (same_send (ca_id camp) (mb_id cust) r = true); [|congruence]. apply same_send_keys. split; congruence. }
    exists (m :: new). rewrite Hs in Hn. unfold add_row in Hn. cbn [rows] in Hn. rewrite <-app_assoc in Hn. cbn [app] in Hn.
    apply same_send_keys in Hsame as Hkeys. destruct Hkeys as [Ha Hb].
    split_and!; [done|done| | |].
    + destruct Hc as (H1 & H2 & H3 & H4). unfold counts_rows, count in *. cbn [zsum].
      destruct Ho as [(r & -> & Hst)|[-> Hst]]; rewrite Hst; [destruct r|]; cbn in *; lia.
    + intros m' [->|Hm']%elem_of_cons; [split; [done|]; exists cust; split; [set_solver|done]|].
      destruct (Hnew m' Hm') as (? & c & ? & ?). split; [done|]. exists c. split; [set_solver|done].
    + intros c [->|Hc']%elem_of_cons; [|by apply Hall]. exists m. split; [rewrite Hn; set_solver|done].
Qed.

(** C23. A campaign that is sent: everyone in its audience has exactly one row for it afterwards,
    the rows it adds are theirs, and its totals count those rows by what became of them. *)
Theorem campaign_accounts_for_audience tokens window_on float_days bound bound_text camp now ids s u s' :
  one_send (sends s) →
  run_campaign_send tokens window_on float_days bound bound_text camp now ids s = Ok u s' →
  ∃ audience new,
    value (campaign_audience float_days bound bound_text camp ids s) = Some audience ∧
    rows (sends s') = rows (sends s) ++ new ∧ counts_rows no_sends u new ∧
    (∀ m, m ∈ new → sn_campaign_id m = ca_id camp ∧ ∃ cust, cust ∈ audience ∧ sn_customer_id m = mb_id cust) ∧
    (∀ cust, cust ∈ audience → ∃ m, m ∈ rows (sends s') ∧ ∀ m', m' ∈ rows (sends s') →
       sn_campaign_id m' = ca_id camp → sn_customer_id m' = mb_id cust → m' = m).
Proof.
  intros Hu. unfold run_campaign_send. destruct (ca_template_id camp) as [tid|]; [|done]. erewrite bind_run_Ok by reflexivity. cbv beta.
  destruct (get_row tid (templates s)) as [t|]; [|done]. destruct (negb _); [done|].
  intros (audience & s1 & Ha & H)%bind_Ok. pose proof (quiet_campaign_audience float_days bound bound_text camp ids (core s) s eq_refl) as Hq.
  rewrite Ha in Hq. assert (sends s1 = sends s) as Hs1 by (unfold core in Hq; cbn in Hq; by injection Hq).
  cbv zeta in H. apply bind_Ok in H as (u1 & s2 & Hloop & H).
  destruct (sends_loop tokens camp t now (within_window window_on now) audience no_sends s1 u1 s2) as (new & Hn & Hu2 & Hc & Hnew & Hall); [by rewrite Hs1|done|].
  apply bind_Ok in H as (x & s3 & Hset & H). apply bind_Ok in H as (y & s4 & Haud & [= <- <-]).
  assert (sends s4 = sends s2) as Hs4.
  { unfold set_campaign, modify in Hset. injection Hset as _ <-. rewrite audit_run in Haud. by injection Haud as _ <-. }
  rewrite Hs4, Hn, Hs1. exists audience, new. rewrite Ha. split_and!; [done..|].
  intros cust Hcust. destruct (Hall cust Hcust) as (m & Hm & [Hca Hcu]%same_send_keys). exists m. rewrite <-Hs1, <-Hn. split; [done|].
  intros m' Hm' Hca' Hcu'. apply (Hu2 m' m); [done..|]. congruence.
Qed.


(** ** Unique names *)

Definition name_key (t : WaTemplate) : Z * string * string := (wt_restaurant_id t, meta_template_name t, wt_language t).
Record names_ok (s : marketing_db) : Prop := { no_table : table_wf (templates s); no_unique : unique_on name_key (templates s) }.
Lemma same_name_keys t u : same_name t u = true ↔ name_key t = name_key u.
Proof.
  unfold same_name, name_key. rewrite !andb_true_iff, Z.eqb_eq, !String.eqb_eq. split; [intros [[-> ->] ->]; done|intros [= -> -> ->]; done].
Qed.
Lemma names_templates s s' : templates s' = templates s → names_ok s → names_ok s'.
Proof. intros Ht [H1 H2]. split; by rewrite Ht. Qed.
Lemma names_flush t : preserves names_ok (flush_template t).
Proof.
  intros s [Hwf Hu]. unfold flush_template. erewrite bind_run_Ok by reflexivity. cbv beta.
  destruct (first_where _ _) as [u|] eqn:Hf; [done|]. rewrite first_where_None in Hf.
  split; cbn; [by apply set_row_wf|]. apply set_row_unique; [done|]. intros r Hr Hne Hk. specialize (Hf r Hr). cbv beta in Hf.
  change (wt_id r ≠ wt_id t) in Hne. apply andb_false_iff in Hf as [Hf|Hf].
  - assert (same_name t r = true) by (by apply same_name_keys). congruence.
  - apply negb_false_iff in Hf. zbool. congruence.
Qed.
Lemma names_modify f : (∀ s, templates (f s) = templates s) → preserves names_ok (modify (E := marketing_error) f).
Proof. intros Hf. apply preserves_modify. intros s. by apply names_templates. Qed.
Lemma names_audit actor rid entity eid action b a : preserves names_ok (audit (E := marketing_error) actor rid entity eid action b a).
Proof. intros s. by apply names_templates. Qed.
Lemma names_record_audit st actor entity eid action rid b a st' :
  preserves names_ok (record_audit (E := marketing_error) st actor entity eid action rid b a st').
Proof. intros s. by apply names_templates. Qed.

Ltac names_tac :=
  repeat match goal with
  | |- preserves _ (_ ≫= _) => apply preserves_bind; [|intros ?]
  | |- preserves _ (gets _) => apply preserves_gets
  | |- preserves _ (mret _) => apply preserves_ret
  | |- preserves _ (raise _) => apply preserves_raise
  | |- preserves _ (audit _ _ _ _ _ _ _) => apply names_audit
  | |- preserves _ (record_audit _ _ _ _ _ _ _ _ _) => apply names_record_audit
  | |- preserves _ (flush_template _) => apply names_flush
  | |- preserves _ (modify _) => apply names_modify; by intros
  | |- preserves _ (for_each _ _) => apply preserves_for_each; intros ? _
  | |- preserves _ (let x := ?y in _) => cbv zeta
  | |- preserves _ (if ?b then _ else _) => destruct b
  | |- preserves _ (match ?x with _ => _ end) => destruct x
  end.
Lemma names_for_fold {A B} (f : A → B → MK B) l : (∀ a b, preserves names_ok (f a b)) → ∀ b, preserves names_ok (for_fold f l b).
Proof.
  intros Hf. induction l as [|x l IH]; intros b; cbn; [apply preserves_ret|]. apply preserves_bind; [apply Hf|]. intros b'. apply IH.
Qed.

Lemma free_name_free fuel base name existing k n : free_name fuel base name existing k = Some n → n ∉ existing.
Proof.
  revert name k. induction fuel as [|fuel IH]; intros name k; cbn; destruct (in_strs name existing) eqn:Hin; cbn; try done.
  1, 3: intros [= <-] Hn; apply in_strs_spec in Hn; congruence. apply IH.
Qed.
Lemma names_create rid b : preserves names_ok (create_wa_template rid b).
Proof.
  intros s Hs. unfold create_wa_template. erewrite bind_run_Ok by reflexivity. cbv beta.
  destruct (free_name _ _ _ _ _) as [name|] eqn:Hn; [|done]. apply free_name_free in Hn. destruct Hs as [Hwf Hu].
  split; cbn; [by apply add_row_wf|]. apply add_row_unique; [done|]. intros r Hr [= Hrid Hname Hlang]. apply Hn.
  rewrite <-Hname. apply list_elem_of_fmap_2. apply elem_of_all_where. split; [done|]. by rewrite Hrid, Hlang, Z.eqb_refl, String.eqb_refl.
Qed.
Lemma names_request provider r : preserves names_ok (run_template_request provider r).
Proof.
  unfold run_template_request. apply preserves_atomically. destruct r; (apply preserves_bind; [|intros ?; apply preserves_ret]).
  - apply names_create.
  - unfold submit_template, the_template, lint. names_tac.
  - unfold refresh_template, the_template. names_tac.
  - unfold fix_template, the_template, lint. names_tac.
  - unfold delete_template. names_tac.
  - unfold poll_template_statuses. names_tac; apply names_for_fold; intros t u; unfold poll_one; names_tac.
  - unfold cleanup_ephemeral_templates. names_tac; apply names_for_fold; intros t u; unfold cleanup_one; names_tac.
Qed.

(** C25. No two templates of a restaurant bear the same name in the same language, deleted ones
    included, whatever is drafted, submitted, polled, fixed, deleted or cleaned up. *)
Theorem template_names_stay_unique (l : list (template_provider * template_request)) s :
  names_ok s → unique_on name_key (templates (fold_left (λ s pr, final (run_template_request pr.1 pr.2 s)) l s)).
Proof.
  intros Hs. cut (names_ok (fold_left (λ s pr, final (run_template_request pr.1 pr.2 s)) l s)); [by intros []|].
  revert s Hs. induction l as [|[p r] l IH]; intros s Hs; cbn; [done|]. apply IH. by apply names_request.
Qed.

(** ** A compliant body is filled *)

Lemma when_nil b v : when b v = [] → b = false.
Proof. by destruct b. Qed.
Lemma check_variables_spec body :
  _check_variables body = [] →
  let n := length (remove_dups (variables_of body)) in variables_of body ≡ₚ N.of_nat <$> seq 1 n.
Proof.
  unfold _check_variables. destruct (bool_decide_reflect (variables_of body = [])) as [->|Hne]; [done|]. cbv zeta.
  set (nums := variables_of body) in *. set (d := remove_dups nums) in *.
  intros [H1%when_nil (H2%when_nil & _)%app_eq_nil]%app_eq_nil.
  apply negb_false_iff, Nat.eqb_eq in H1. apply negb_false_iff in H2. rewrite forallb_forall in H2.
  assert (d ≡ₚ nums) as <-.
  { apply submseteq_length_Permutation; [|lia]. apply NoDup_submseteq; [apply NoDup_remove_dups|]. intros x Hx. by apply (proj1 (elem_of_remove_dups _ _)) in Hx. }
  symmetry. apply submseteq_length_Permutation; [|by rewrite length_fmap, length_seq].
  apply NoDup_submseteq; [apply NoDup_fmap_2; [intros a b; lia|apply NoDup_seq]|]. intros x Hx. apply list_elem_of_In in Hx.
  specialize (H2 x Hx). apply existsb_exists in H2 as (y & Hy & ->%N.eqb_eq). by apply list_elem_of_In.
Qed.
Lemma check_body_variables body : _check_body body = [] → _check_variables body = [].
Proof. unfold _check_body. destruct (negb (truthy body)); [done|]. cbv zeta. intros H. by repeat apply app_eq_nil in H as [_ H]. Qed.

(** A template that passes the linter: its variables are 1 to [n], each once, and a send fills
    as many, with the customer's name and, when there is a coupon, its code in the last. *)
Theorem compliant_body_is_filled t :
  lint_template (spec_of t) = Some [] →
  let n := length (remove_dups (variables_of (wt_body t))) in
  variables_of (wt_body t) ≡ₚ N.of_nat <$> seq 1 n ∧
  ∀ name code, (0 < n)%nat →
    length (body_values n name code) = n ∧
    (∀ c, code = Some c → truthy c = true → last (body_values n name code) = Some c) ∧
    (∀ v, v ∈ body_values n name code → code = Some v ∨ v = strip (default "" name) ∨ v = "there"%string).
Proof.
  intros Hl n. split.
  - apply check_variables_spec, check_body_variables. unfold lint_template in Hl.
    destruct (_check_header _) as [h|]; [|done]. destruct (_check_buttons _) as [b|]; [|done]. destruct (_check_opt_out _) as [o|]; [|done].
    cbn in Hl. injection Hl as Hl. by apply app_eq_nil in Hl as [_ [Hl _]%app_eq_nil].
  - intros name code Hn. clearbody n. unfold body_values. cbv zeta. set (who := if truthy (strip (default "" name)) then _ else _).
    assert (who = strip (default "" name) ∨ who = "there"%string) as Hwho by (subst who; destruct (truthy _); auto).
    destruct (otruthy code) eqn:Hc.
    + destruct code as [c|]; [|done]. cbn [option_list]. rewrite length_app, length_replicate. split_and!; [cbn; lia| |].
      * intros c' [= <-] _. by rewrite (last_snoc c).
      * intros v [Hv|Hv]%elem_of_app; [apply elem_of_replicate in Hv as [-> _]; by right|left; set_solver].
    + rewrite length_replicate. split_and!; [done| |].
      * intros c -> Ht. cbn in Hc. congruence.
      * intros v Hv. apply elem_of_replicate in Hv as [-> _]. by right.
Qed.

Definition plain_template : WaTemplate :=
  Build_WaTemplate 1 1 "lunch" "en" "marketing" None "Hi {{1}}, lunch is on: use code {{2}} today" (Some "Reply STOP to unsubscribe"%string) []
    TplDraft false None None None.
Lemma compliant_body_is_filled_witness : length (body_values 2 (Some " Amal "%string) (Some "SAVE5"%string)) = 2%nat.
Proof.
  destruct (compliant_body_is_filled plain_template) as [_ H]; [vm_compute; reflexivity|].
  destruct (H (Some " Amal "%string) (Some "SAVE5"%string)) as [Hn _]; [vm_compute; lia|]. exact Hn.
Defined.
(** A body with one variable greets the customer by the code. *)
Example greeted_by_code : body_values 1 (Some "Amal"%string) (Some "SAVE5"%string) = ["SAVE5"%string].
Proof. reflexivity. Qed.

Definition naming_shop (t : table WaTemplate) : marketing_db :=
  Build_marketing_db empty_table t empty_table empty_table empty_table empty_table empty_table empty_table empty_table empty_table [] []
    (Build_loyalty_db empty_table empty_table empty_table empty_table empty_table empty_table empty_table
       {| orders := empty_table; customers := empty_table; fsm_audit := []; realtime_events := []; pushes := [] |}
       (Wallet.Build_wallet_db empty_table empty_table [] 0) (Build_coupon_db empty_table empty_table [] 0)
       (Build_notify_db empty_table empty_table (Build_outbox_db empty_table [] [] [] 0)) [] 0) [].
Definition approving : template_provider :=
  Build_template_provider (λ _, Some {| rs_meta_template_id := "m"; rs_status := APPROVED; rs_rejection_reason := None |}) (λ _, None) (λ _ _, Some true).
Definition naming_requests : list (template_provider * template_request) :=
  let draft := TRCreate 1 (Build_TemplateCreate "lunch" "en" "MARKETING" (wt_body plain_template) true None (wt_footer plain_template) []) in
  [(approving, draft); (approving, draft); (approving, TRSubmit 1 1); (approving, TRSubmit 1 2); (approving, TRCleanup); (approving, draft);
   (approving, TRSubmit 1 3)].
Lemma template_names_stay_unique_witness :
  let s' := fold_left (λ s pr, final (run_template_request pr.1 pr.2 s)) naming_requests (naming_shop empty_table) in
  unique_on name_key (templates s') ∧
  (λ t, (meta_template_name t, wt_status t)) <$> rows (templates s') =
    [("lunch_19700101", TplDeleted); ("lunch_2_19700101", TplDeleted); ("lunch_19700101_1", TplApproved)]%string.
Proof.
  cbv zeta. split; [|vm_compute; reflexivity]. apply template_names_stay_unique. split; [apply empty_table_wf|].
  intros r1 r2 Hr. by apply not_elem_of_nil in Hr.
Defined.

(** ** Times *)

Lemma dubai_minute_bounds t : 0 ≤ dubai_minute t < 1440.
Proof.
  unfold dubai_minute, in_dubai. pose proof (Z.mod_pos_bound (t + hours 4) day ltac:(done)).
  split; [apply Z.div_pos; [lia|done]|]. apply Z.div_lt_upper_bound; [done|]. unfold day, hour in *. lia.
Qed.
Lemma local_instant d m : 0 ≤ m < 1440 → dubai_date (days d + minutes m - hours 4) = d ∧ dubai_minute (days d + minutes m - hours 4) = m.
Proof.
  intros Hm. unfold dubai_date, dubai_minute, in_dubai, date_of. replace (days d + minutes m - hours 4 + hours 4) with (minutes m + d * day) by (unfold days; lia).
  assert (0 ≤ minutes m < day) as Hb by (unfold minutes, day, hour, minute, second in *; lia).
  rewrite Z.div_add, Z.mod_add, Z.div_small, Z.mod_small by (done || lia). split; [lia|]. unfold minutes. by apply Z.div_mul.
Qed.
Lemma utc_from_local d m : dubai_date (_utc_from_local d m) = d ∧ dubai_minute (_utc_from_local d m) = m mod 1440.
Proof. unfold _utc_from_local. apply local_instant. by apply Z.mod_pos_bound. Qed.

(** The next opening of the window: within a day, and inside the window. *)
Theorem next_window_opens now start_hour end_hour :
  0 ≤ start_hour < end_hour → end_hour ≤ 24 →
  let t := next_window_open now start_hour in now < t ≤ now + days 1 ∧ is_within_uae_window t start_hour end_hour = true.
Proof.
  intros Hs He. cbv zeta. unfold next_window_open, dubai_midnight. set (d := dubai_date now).
  assert (days d ≤ now + hours 4 < days (d + 1)) as Hd.
  { unfold d, dubai_date, in_dubai, date_of, days. pose proof (Z.mod_pos_bound (now + hours 4) day ltac:(done)).
    pose proof (Z.div_mod (now + hours 4) day ltac:(done)). nia. }
  assert (∀ e, is_within_uae_window (days e - hours 4 + hours start_hour) start_hour end_hour = true) as Hin.
  { intros e. unfold is_within_uae_window. replace (days e - hours 4 + hours start_hour) with (days e + minutes (60 * start_hour) - hours 4)
      by (unfold hours, minutes, hour; lia).
    destruct (local_instant e (60 * start_hour)) as [_ ->]; [lia|]. rewrite Z.mul_comm, Z.div_mul by done. zbool. apply andb_true_iff. split; [apply Z.leb_le|apply Z.ltb_lt]; lia. }
  assert (0 ≤ hours start_hour < day) as Hh by (unfold hours, day, hour, minute, second in *; lia).
  destruct (now <? days d - hours 4 + hours start_hour) eqn:Hn; zbool.
  - split; [unfold days in *; lia|apply Hin].
  - split; [unfold days in *; lia|]. replace (days d - hours 4 + hours start_hour + days 1) with (days (d + 1) - hours 4 + hours start_hour)
      by (unfold days; lia). apply Hin.
Qed.
Lemma next_window_opens_witness : next_window_open (hours 20) 9 = days 1 + hours 5 ∧ is_within_uae_window (days 1 + hours 5) 9 18 = true.
Proof. destruct (next_window_opens (hours 20) 9 18) as [_ H]; [lia|lia|]. split; [reflexivity|exact H]. Defined.

(** The special of a day is aimed at a minute of it: inside the restaurant's own window, or
    inside the UAE window when that is enforced. *)
Theorem special_minute_bounds pred lead default_minute clamp window min_orders :
  let m := desired_send_minute pred lead default_minute clamp window min_orders in
  match window with
  | Some (lo, hi) => lo ≤ hi → lo ≤ m ≤ hi
  | None => if clamp then WINDOW_START_MIN ≤ m < WINDOW_END_MIN else 0 ≤ m < 1440
  end.
Proof.
  cbv zeta. unfold desired_send_minute. set (base := match pred with Some _ => _ | None => _ end).
  destruct window as [[lo hi]|]; [intros; lia|]. destruct clamp; [|by apply Z.mod_pos_bound].
  unfold _clamp_to_window. repeat case_match; zbool; unfold WINDOW_START_MIN, WINDOW_END_MIN in *; lia.
Qed.

(** After its first send a recurring promotion keeps the weekday of the order: the next one is
    on the next such day after today, and each later one a week after the one before. *)
Theorem recurring_keeps_weekday hhmm lead now r :
  0 ≤ rm_weekday r < 7 →
  let r' := advanced hhmm lead now r in
  (rm_phase r = "day3"%string →
     weekday (dubai_date (rm_next_send_at r')) = rm_weekday r ∧ rm_phase r' = "weekly"%string ∧
     dubai_date now < dubai_date (rm_next_send_at r') ≤ dubai_date now + 7) ∧
  (rm_phase r ≠ "day3"%string → dubai_date (rm_next_send_at r') = dubai_date (rm_next_send_at r) + 7) ∧
  dubai_minute (rm_next_send_at r') = (parse_hhmm (Some hhmm) _DEFAULT_SPECIAL_MINUTE - lead) mod 1440.
Proof.
  intros Hw. cbv zeta. unfold advanced. destruct (String.eqb_spec (rm_phase r) "day3") as [->|Hne]; cbn [with_plan rm_next_send_at rm_phase].
  - destruct (utc_from_local (dubai_date now + days_ahead (rm_weekday r) (weekday (dubai_date now)))
      (parse_hhmm (Some hhmm) _DEFAULT_SPECIAL_MINUTE - lead)) as [-> ->].
    split_and!; [|done|done]. intros _. set (d := dubai_date now). unfold days_ahead, weekday.
    pose proof (Z.mod_pos_bound (rm_weekday r - (d + 3) mod 7) 7 ltac:(done)) as Hb.
    assert (((d + 3) mod 7 + (rm_weekday r - (d + 3) mod 7) mod 7) mod 7 = rm_weekday r) as Hsum.
    { rewrite Zplus_mod_idemp_r. replace ((d + 3) mod 7 + (rm_weekday r - (d + 3) mod 7)) with (rm_weekday r) by lia. by apply Z.mod_small. }
    rewrite Zplus_mod_idemp_l in Hsum. destruct (Z.eqb_spec ((rm_weekday r - (d + 3) mod 7) mod 7) 0) as [Hz|Hz]; (split_and!; [|done|lia|lia]).
    + rewrite Hz in Hsum. replace (d + 7 + 3) with (d + 3 + 0 + 1 * 7) by lia. by rewrite Z.mod_add.
    + rewrite <-Hsum at 2. f_equal. lia.
  - destruct (utc_from_local (dubai_date (rm_next_send_at r) + 7) (parse_hhmm (Some hhmm) _DEFAULT_SPECIAL_MINUTE - lead)) as [-> ->].
    by split_and!.
Qed.
