(* ===== verification/MarketingCases.v ===== *)
(** * Marketing on a small restaurant

    The theorems of [MarketingFacts] and [CampaignFacts] applied to three customers and a
    template, and what the code does where it falls short of what it says: a scheduled
    bucket, the window, the evening hours, the coupons nobody is told of, the habits of the
    timed sends. *)

From S2P Require Import Prelude Money Strings Decimals Db AuditTrail Clock Wallet Coupons OrderFsm Outbox Notify Loyalty MarketingDb Segments Marketing Templates Automations MarketingFacts CampaignFacts.

(** ** The restaurant *)

(** 1 June 2026, noon in Dubai. *)
Definition noon : Z := days 20605 + hours 8.
Definition guest (id : Z) : Member := Build_Member id 1 ("+97150" +:+ pretty id) None None false 0 None 0.
Definition guest_figures (id orders days_ago : Z) : Customer :=
  {| cu_id := id; cu_stats := {| total_orders := orders; total_spend := 4000 * orders; first_order_at := Some 0;
                                  last_order_at := Some (noon - days days_ago) |} |}.
Definition eaten (id customer days_ago : Z) : OrderFsm.Order :=
  {| o_id := id; o_restaurant_id := 1; o_customer_id := customer; o_status := DELIVERED; o_total := 4000; o_table_id := None;
     o_aggregator_source := None; o_aggregator_order_ref := None; o_created_at := noon - days days_ago |}.
Definition hello_template : WaTemplate :=
  {| wt_id := 1; wt_restaurant_id := 1; meta_template_name := "hello_20260601"; wt_language := "en"; wt_category := "marketing";
     wt_header := None; wt_body := "Hi {{1}}, use code {{2}} for a treat today"; wt_footer := Some "Reply STOP to unsubscribe"%string;
     wt_buttons := []; wt_status := TplApproved; ephemeral := false; meta_template_id := Some "m1"%string; rejection_reason := None;
     deleted_at := None |}.
(** Amal orders often, Badr has not come for two hundred days, Celine came once. *)
Definition guests : loyalty_db :=
  Build_loyalty_db (Table [guest 1; guest 2; guest 3] 4) empty_table empty_table empty_table empty_table empty_table
    (Table [Build_Venue 1 "Kebab House"] 2)
    {| orders := Table [eaten 1 1 3; eaten 2 2 200; eaten 3 3 1] 4;
       customers := Table [guest_figures 1 3 3; guest_figures 2 6 200; guest_figures 3 1 1] 4; fsm_audit := []; realtime_events := []; pushes := [] |}
    (Build_wallet_db empty_table empty_table [] noon) (Build_coupon_db empty_table empty_table [] noon)
    (Build_notify_db empty_table empty_table (Build_outbox_db empty_table [] [] [] noon)) [] noon.
Definition diner (autos : list MarketingAutomation) (patrons : list Patron) : marketing_db :=
  Build_marketing_db empty_table (Table [hello_template] 2) empty_table empty_table (Table autos 10) empty_table empty_table empty_table
    (Table patrons 4) (Table [Build_Tenant 1 None] 2) [] [] guests [].
Definition names : list Patron :=
  [Build_Patron 1 (Some "Amal"%string) [] None [] None; Build_Patron 2 (Some "Badr"%string) [] (Some 7456) [] None;
   Build_Patron 3 (Some "Celine"%string) [] None [] None].
Definition tavern : marketing_db := diner [] names.

(** Codes by number; whole days only; numbers and texts bound as they are; no habits. *)
Definition token_of (n : Z) (i : nat) : string := "T" +:+ pretty n +:+ "-" +:+ pretty i.
Definition no_fraction (q : Q) : Z := days (Qnum q / Zpos (Qden q)).
Definition bind_ints (c : column) (v : json) : option Q := inject_Z <$> is_integer v.
Definition bind_strings (v : json) : option string := match v with JsStr s => Some s | _ => None end.
Definition no_habit (l : list (Z * Z)) : option (Z * Q) := None.
Definition all_sent (n : nat) (m : sent_message) : send_result := Sent "wa".
Abbreviation happens := (marketing_history token_of false no_fraction bind_ints bind_strings no_habit all_sent).
Abbreviation happens_in_window := (marketing_history token_of true no_fraction bind_ints bind_strings no_habit all_sent).
Definition offer (bucket coupon : option string) (at_ : option Z) : BroadcastRequest :=
  {| br_template_id := 1; br_type := "promotional"; br_segment_id := None; br_rfm_segment := bucket; br_coupon_value := coupon; br_scheduled_at := at_ |}.
(** Who a campaign was sent to, or kept from, and why. *)
Definition told (campaign_id : Z) (s : marketing_db) : list (Z * string) :=
  (λ m, (sn_customer_id m, sn_status m)) <$> all_where (λ m, sn_campaign_id m =? campaign_id) (sends s).
Definition queue_keys (s : marketing_db) : list string := om_key <$> rows (messages (queue_of s)).
Definition coupon_codes (s : marketing_db) : list string := c_code <$> rows (coupons (lo_coupons (mk_loyalty s))).

(** ** The theorems applied *)

Lemma never_more_than_two_a_day_witness :
  let s' := happens [EvBroadcast 1 (offer None None None); EvTime (hours 1); EvBroadcast 1 (offer None None None); EvBroadcast 1 (offer None None None)] tavern in
  told 3 s' = [(1, "suppressed_cap"); (2, "suppressed_cap"); (3, "suppressed_cap")]%string ∧ sends_between 1 "+971501" (noon + hours 2) s' ≤ 2.
Proof.
  cbv zeta. split; [vm_compute; reflexivity|]. apply never_more_than_two_a_day. reflexivity.
Defined.
Definition amal_stops : list marketing_event := [EvInbound 1 "+971501" " STOP please" "wa-1" false; EvBroadcast 1 (offer None None None)].
Lemma opted_out_hears_nothing_witness :
  let s' := happens (tail amal_stops) (happens (take 1 amal_stops) tavern) in
  is_opted_out 1 "+971501" s' = true ∧ promotions 1 "+971501" s' = [] ∧ queue_keys s' = ["stop-ack-wa-1"; "campaign:1:customer:2"; "campaign:1:customer:3"]%string.
Proof.
  cbv zeta.
  destruct (opted_out_hears_nothing token_of false no_fraction bind_ints bind_strings no_habit all_sent (tail amal_stops)
    (happens (take 1 amal_stops) tavern) 1 "+971501") as [H1 H2].
  - apply table_wf_check. vm_compute. reflexivity.
  - vm_compute. reflexivity.
  - intros e He. apply list_elem_of_singleton in He as ->. discriminate.
  - split; [exact H1|]. split; [|vm_compute; reflexivity]. rewrite H2. vm_compute. reflexivity.
Defined.

Definition scheduled_offer : outcome marketing_db marketing_error (Campaign * option string) :=
  schedule_broadcast false 1 1 true (noon + hours 1) noon "promotional" None (Some "lost"%string) None tavern.
Definition scheduled_campaign : Campaign :=
  {| ca_id := 1; ca_restaurant_id := 1; ca_type := "promotional"; ca_template_id := Some 1; ca_segment_id := None; ca_image_url := None;
     ca_coupon_value := None; ca_scheduled_at := Some (noon + hours 1); ca_status := CampScheduled;
     ca_stats := [("rfm_segment", JsStr "lost"); ("segment_id", JsNull)]%string |}.
(** The same bucket at once, and scheduled. *)
Example scheduled_bucket :
  told 1 (happens [EvBroadcast 1 (offer (Some "lost"%string) None None)] tavern) = [(2, "sent")]%string ∧
  told 1 (happens [EvBroadcast 1 (offer (Some "lost"%string) None (Some (noon + hours 1))); EvTime (hours 2); EvDispatch] tavern)
    = [(1, "sent"); (2, "sent"); (3, "sent")]%string.
Proof. split; vm_compute; reflexivity. Qed.

Definition tavern_campaign : Campaign :=
  {| ca_id := 1; ca_restaurant_id := 1; ca_type := "promotional"; ca_template_id := Some 1; ca_segment_id := None; ca_image_url := None;
     ca_coupon_value := Some "10"%string; ca_scheduled_at := None; ca_status := CampSending; ca_stats := [] |}.
Definition tavern_run : outcome marketing_db marketing_error send_summary :=
  run_campaign_send token_of false no_fraction bind_ints bind_strings tavern_campaign noon (Some [1; 3]) tavern.
Lemma campaign_accounts_for_audience_witness :
  ∃ new, rows (sends (final tavern_run)) = new ∧ counts_rows no_sends (default no_sends (value tavern_run)) new ∧
    su_queued (default no_sends (value tavern_run)) = 2.
Proof.
  destruct (campaign_accounts_for_audience token_of false no_fraction bind_ints bind_strings tavern_campaign noon (Some [1; 3]) tavern
    (default no_sends (value tavern_run)) (final tavern_run)) as (audience & new & _ & Hnew & Hc & _).
  - intros r1 r2 Hr. by apply not_elem_of_nil in Hr.
  - vm_compute. reflexivity.
  - exists new. split; [exact Hnew|]. split; [exact Hc|]. vm_compute. reflexivity.
Defined.

(** ** Where the code falls short *)

(** A broadcast scheduled outside the window is warned to wait for the next allowed window;
    it is spent on suppressed rows when it fires, and nothing is sent afterwards. *)
Definition evening_offer : list marketing_event :=
  [EvBroadcast 1 (offer None None (Some (noon + hours 8))); EvTime (hours 9); EvDispatch; EvTime (hours 14); EvDispatch].
Example outside_window_is_lost :
  dubai_minute (noon + hours 23) / 60 = 11 ∧
  told 1 (happens_in_window evening_offer tavern) = [(1, "suppressed_window"); (2, "suppressed_window"); (3, "suppressed_window")]%string ∧
  ca_status <$> rows (campaigns (happens_in_window evening_offer tavern)) = [CampSent].
Proof. split_and!; vm_compute; reflexivity. Qed.

(** The usual hour of an evening customer, as the profile prints it, is read back twelve
    hours early: the label has no leading zero and its half of the day is not read. *)
Theorem evening_hours_read_as_morning h m :
  13 ≤ h ≤ 23 → 0 ≤ m < 60 → clock_within (usual_time_label h m) = Some (h - 12, m).
Proof.
  intros Hh Hm.
  assert (forallb (λ h, forallb (λ m, bool_decide (clock_within (usual_time_label (Z.of_nat h) (Z.of_nat m)) = Some (Z.of_nat h - 12, Z.of_nat m)))
    (seq 0 60)) (seq 13 11) = true) as Hall by (vm_compute; reflexivity).
  rewrite forallb_forall in Hall. specialize (Hall (Z.to_nat h)). rewrite List.in_seq in Hall. specialize (Hall ltac:(lia)).
  rewrite forallb_forall in Hall. specialize (Hall (Z.to_nat m)). rewrite List.in_seq in Hall. specialize (Hall ltac:(lia)).
  apply bool_decide_eq_true_1 in Hall. by rewrite !Z2Nat.id in Hall by lia.
Qed.
Lemma evening_hours_read_as_morning_witness : clock_within "Evenings (~8:20 PM)" = Some (8, 20).
Proof. apply (evening_hours_read_as_morning 20 20); lia. Defined.
(** So the recurring promotion to such a customer goes out at breakfast. *)
Example promotion_at_breakfast :
  _usual_send_hhmm no_habit 1 (Some 0) (diner [] [Build_Patron 1 None [] None [] (Some (usual_time_label 20 20))]) = "08:20".
Proof. vm_compute. reflexivity. Qed.

Definition preset (key : string) (id : Z) : MarketingAutomation :=
  Build_MarketingAutomation id 1 key true (Some 1) None (PRESET_DEFAULTS key) [] None.

(** The birthday coupon is minted after the message was queued without it. *)
Definition birthday_party : marketing_db := happens [EvAutomation] (diner [preset "birthday" 1] names).
Example birthday_coupon_untold :
  queue_keys birthday_party = ["campaign:1:customer:2"]%string ∧ coupon_codes birthday_party = ["SORRY-1-T1-0"]%string ∧
  forallb (λ m, match dict_get "components" (om_payload m) with Some (JList text _) => negb (occurs_in "SORRY-1-T1-0" text) | _ => true end)
    (rows (messages (queue_of birthday_party))) = true.
Proof. split_and!; vm_compute; reflexivity. Qed.
(** Someone who opted out is minted one as well. *)
Example birthday_coupon_after_opt_out :
  coupon_codes (happens [EvPreference 1 "+971502" false; EvAutomation] (diner [preset "birthday" 1] names)) = ["SORRY-1-T1-0"]%string.
Proof. vm_compute. reflexivity. Qed.
(** The day is the UTC day: at one in the morning of the first of June in Dubai it is still
    the thirty-first of May. *)
Example birthday_by_utc :
  dubai_date (noon - hours 11) = 20605 ∧ birthday_customer_ids 1 (at_time (noon - hours 11) tavern) = [] ∧ birthday_customer_ids 1 tavern = [2].
Proof. split_and!; vm_compute; reflexivity. Qed.

(** A lapsed customer is told once, and after the cool-down of sixty days every day: the
    ledger keeps the first date for ever. *)
Definition win_back_days : list marketing_event :=
  [EvAutomation; EvTime (days 1); EvAutomation; EvTime (days 60); EvAutomation; EvTime (days 1); EvAutomation; EvTime (days 1); EvAutomation].
Example win_back_every_day :
  (λ m, (sn_customer_id m, (default 0 (sn_sent_at m) - noon) / day)) <$>
    all_where (λ m, sn_customer_id m =? 2) (sends (happens win_back_days (diner [preset "winback" 1] names)))
  = [(2, 0); (2, 61); (2, 62); (2, 63)].
Proof. vm_compute. reflexivity. Qed.

(** A review is asked for again at each tick of the two hours it is due in. *)
Definition just_delivered : marketing_db :=
  let s := diner [preset "review_request" 1] names in
  Build_marketing_db (opt_outs s) (templates s) (segments s) (campaigns s) (automations s) (recurring_states s) (automation_sends s) (sends s)
    (patrons s) (tenants s) [] [(1, noon - hours 3)] (mk_loyalty s) [].
Example review_asked_twice :
  queue_keys (happens [EvAutomation; EvTime (minutes 15); EvAutomation; EvTime (minutes 15); EvAutomation] just_delivered)
  = ["campaign:1:customer:1"; "campaign:2:customer:1"]%string.
Proof. vm_compute. reflexivity. Qed.

(** The reorder tick renames the day's recurring campaign, so the next tick makes another,
    and the customer is reminded of the same order again. *)
Definition at_noon (l : list (Z * Z)) : option (Z * Q) := Some (12 * 60 + 15, 1%Q).
Definition habitual : marketing_db :=
  let s := diner [preset "reorder" 1] names in
  let l := mk_loyalty s in
  put (Build_loyalty_db (members l) (stamp_cards l) (point_entries l) (referral_codes l) (favorites l) (eaten_lines l) (venues l)
    {| orders := Table [eaten 1 1 7; eaten 2 1 14] 3; customers := customers (lo_fsm l); fsm_audit := []; realtime_events := []; pushes := [] |}
    (lo_wallet l) (lo_coupons l) (lo_notify l) [] noon) s.
Definition reorder_twice : marketing_db :=
  marketing_history token_of false no_fraction bind_ints bind_strings at_noon all_sent [EvAutomation; EvTime (minutes 15); EvAutomation] habitual.
Example reorder_reminded_twice :
  queue_keys reorder_twice = ["campaign:1:customer:1"; "campaign:2:customer:1"]%string ∧
  ca_type <$> rows (campaigns reorder_twice) = ["automation"; "automation"]%string.
Proof. split; vm_compute; reflexivity. Qed.

(** A scheduled campaign that cannot be sent is tried first at every run, and the ones after
    it are never sent. *)
Definition blocked_queue : list marketing_event :=
  [EvTemplate (Build_template_provider (λ _, None) (λ _, None) (λ _ _, None))
     (TRCreate 1 {| tc_name := "draft"; tc_language := "en"; tc_category := "MARKETING"; tc_body := "Hello"; tc_ephemeral := false;
                    tc_header := None; tc_footer := None; tc_buttons := [] |});
   EvCampaign 1 "announcement" (Some 2) None None None (Some noon); EvCampaign 1 "announcement" (Some 1) None None None (Some noon);
   EvDispatch; EvTime (hours 1); EvDispatch].
Example dispatcher_blocked :
  told 2 (happens blocked_queue tavern) = [] ∧ ca_status <$> rows (campaigns (happens blocked_queue tavern)) = [CampScheduled; CampScheduled].
Proof. split; vm_compute; reflexivity. Qed.

(** "Reply START to re-subscribe": the reply changes nothing. *)
Example start_does_not_resubscribe :
  is_opted_out 1 "+971501" (happens [EvInbound 1 "+971501" "stop" "a" false; EvInbound 1 "+971501" "START" "b" false] tavern) = true.
Proof. vm_compute. reflexivity. Qed.

(** What the validation lets through, and what it does not answer with a [ValueError]. *)
Definition one_condition (c : jobj) : json := JsObj [("all", JsArr [JsObj c])]%string.
Example validation_gaps :
  validate_dsl (one_condition [("field", JsStr "tag"); ("op", JsStr "contains"); ("value", JsInt 5)]%string) = None ∧
  error (evaluate_segment no_fraction bind_ints bind_strings 1
    (one_condition [("field", JsStr "tag"); ("op", JsStr "contains"); ("value", JsInt 5)]%string) tavern) = Some (SegmentRaised DriverRejected) ∧
  validate_dsl (one_condition [("field", JsStr "last_order_days_ago"); ("op", JsStr "lte"); ("value", JsInt 1000000)]%string) = None ∧
  error (evaluate_segment no_fraction bind_ints bind_strings 1
    (one_condition [("field", JsStr "last_order_days_ago"); ("op", JsStr "lte"); ("value", JsInt 1000000)]%string) tavern) = Some (SegmentRaised DaysOverflow) ∧
  validate_dsl (one_condition [("field", JsArr [])]%string) = Some DslUnhashable.
Proof. split_and!; vm_compute; reflexivity. Qed.
